(* ===== verification/_CoqProject ===== *)
-Q . S2P
Prelude.v
GoText.v
GoCodec.v
GoJson.v
GoHost.v
Identity.v
Control.v
Protocol.v
Schema.v
WorkspaceProtocol.v
ResultProtocol.v
Registry.v
Trees.v
Mailbox.v
Workspace.v
Spawn.v
Operations.v
Lifecycle.v
Results.v
ResultsCorrect.v
Artifacts.v
Coordination.v
Status.v
Broker.v
Envelope.v
Notify.v
MailboxWait.v
PeerSchema.v
PeerWorkspaces.v
PeerWorkers.v
PeerTurns.v
PeerArtifacts.v
PeerInbox.v
PeerState.v
PeerSteps.v
PeerResolve.v
PeerInboxState.v
PeerInboxSteps.v
PeerRecovery.v
PeerReachable.v
PeerLiveness.v
PeerStatus.v
PeerClaims.v
