(* ===== verification/Prelude.v ===== *)
(** * Delegation: a verification of the broker's and the peers' state

    Delegation lets a root coding agent on one machine dispatch worker agents to
    other machines. A broker process keeps the authority: which devices are
    enrolled and online, which principals (root agents and the workers below them)
    exist in which tree, which workspaces were prepared where, which workers were
    spawned, what was asked of them and what they reported. Peers (one per device)
    connect to it, authenticate with a credential, hold a lease on their device and
    call its operations; every operation validates its arguments, authorizes the
    caller and runs one SQLite transaction. Each peer keeps a state file of its own:
    the workers it runs, the turns it starts for them, the results it captures and
    sends, and the results it receives for the roots on its device. This library
    models these two state machines, the wire types between them and the waiting
    for mail in the broker, and proves them correct.

    ** How the program maps to the files

    - Prelude (this file): Go errors ([errors.Is], [%w] chains), the pair
      [(value, error)] as [result], a transaction body as [Tx DB A], the notations
      in which the operations are written, their inversion tactics, 64-bit bounds.
    - GoText, GoCodec, GoJson: what the source uses of Go's standard library: byte
      strings, UTF-8 and [range] loops, character classes of the anchored regular
      expressions, [path.Clean], hexadecimal, SHA-256, and encoding/json: the
      marshaller, the scanner and the decoder into Go values.
    - Identity: internal/identity/id.go, instanceid, hostkind, workerprofile.
    - Control: internal/control/model.go (capabilities, principals, devices, trees).
    - Protocol: internal/protocol/agent.go, agent_lifecycle.go, agent_operation.go,
      mailbox.go, worker_readiness.go (the wire types and their validators).
    - WorkspaceProtocol: internal/protocol/workspace.go, workspace_transfer.go.
    - Schema: internal/store/schema.go: one finite map per table, its CHECK, UNIQUE
      and FOREIGN KEY constraints, the SQL statements as functions on those maps,
      and the identity check of a state file.
    - Registry: internal/store/credential.go, device.go, device_read.go,
      worker_readiness.go (enrolment, leases, presence, paging, readiness).
    - Trees: internal/store/tree.go, principal.go (root trees, authorization).
    - Mailbox: internal/store/mailbox.go (messages inside a tree).
    - Workspace: internal/store/workspace.go (workspace synchronisation receipts).
    - Spawn: internal/store/agent_spawn.go and the lifetime counters of status.go.
    - Operations: internal/store/agent_operation.go (messages, follow-ups, interrupts).
    - Lifecycle: internal/store/agent_lifecycle.go (sessions and pages of the peers,
      the activity feed of a tree).
    - ResultProtocol: internal/protocol/result_package.go, result_apply.go,
      changes_artifact.go (result manifests, their JSON, the relay messages).
    - Results, ResultsCorrect: internal/store/result_package.go,
      result_package_gc.go, result_apply.go: publication, delivery, acknowledgement,
      release and compaction of results, apply authorizations; the second file has
      their properties and the refinement of the abstract delivery machine.
    - Artifacts: internal/store/changes_artifact.go.
    - Coordination: the calls on all tables but the result tables as one step
      relation, the invariants of the components together, and what stays settled.
    - Status: internal/store/status.go, the broker's half: status snapshot, upgrade
      blockers, and the accounts that tie the lifetime counters to the rows.
    - Broker: the whole store as a state machine, and its theorems.
    - Envelope: internal/protocol/protocol.go, agent_wait.go and request parameters.
    - Notify: internal/broker/mailbox_notify.go, tree_notify.go: watches and
      subscriptions as heap objects, since they are shared.
    - MailboxWait: internal/broker/mailbox_rpc.go: sending and waiting, interleaved.
    - GoHost: path/filepath and digests as the peer uses them.
    - PeerSchema: internal/store/peer_schema.go, the tables of a peer.
    - PeerWorkspaces: peer_worker_readiness.go, prepared_workspace.go.
    - PeerWorkers: worker_reservation.go, worker_operation.go.
    - PeerTurns: worker_turn_intent.go, worker_result_finalization.go,
      peer_result_outbox.go, peer_result_package.go.
    - PeerArtifacts: peer_changes_artifact*.go, worker_recovery.go.
    - PeerInbox: peer_result_inbox.go.
    - PeerState, PeerSteps, PeerResolve, PeerRecovery: the invariant of the workers'
      tables, and that every operation on them keeps it.
    - PeerInboxState, PeerInboxSteps: the same for the inbox.
    - PeerReachable: the peer as a state machine. PeerLiveness: what it can always
      do. PeerStatus: the peer's half of status.go. PeerClaims: its theorems.

    ** How state and operations correspond

    [Schema.DB] has a field per broker table; a row is the record of the columns
    that are not in the primary key. An operation [func (s *Store) Op(ctx, args)]
    is a definition [Op args : Tx DB A]: its steps are the calls of the Go body in
    order, [tx_lift] a pure check, [tx_query] a read, [tx_exec] a statement, [fail e
    when P in] an early return. [run_tx] is the transaction: an error leaves the
    database as it was. Wire validators have the name [Type_Validate]. Errors keep
    their sentinel and format string; operands printed into a message are dropped,
    since nothing branches on them. Times are the Unix seconds the code stores.
    Random identifiers and the outcome of a callback are arguments. A peer's
    operations are transactions on [PeerSchema.PeerDB] in the same way. A handler
    that waits is a step function on the phases of its loop ([MailboxWait.wait_step]),
    one step per store transaction or critical section of the notifier.

    ** What the theorems show

    Each component has an invariant ([registry_inv], [trees_inv], [mail_inv],
    [workspace_inv], [spawn_inv], ...) which every operation preserves and under
    which stored rows always read back. On top of it: authorization grants exactly
    what the stored identity allows; leases and credentials are fenced; mailboxes
    implement a FIFO queue with acknowledgement; receipts (workspace, spawn,
    operation) are idempotent, end once and cannot be re-used for another request;
    paged listings return every row exactly once; the validators accept exactly the
    texts they describe and never reach a panic; hashes bind what they digest; result
    packages refine a machine in which a package is published, delivered under the
    next number of its tree, acknowledged, released and only then forgotten. Broker
    puts the invariants together for every reachable state and proves what holds
    along every run: settled receipts, revoked credentials, superseded leases and
    result numbers are final, a spawn can be repeated for ever, the activity feed
    misses no change, and the status counters always balance. MailboxWait shows that
    no interleaving of sends, waits and notifications loses a wake-up.

    For a peer, PeerClaims shows that every reachable state is well formed; that
    revisions, identities, receipts and offsets never go back; that workers follow
    one table of moves within their slots; that a prepared turn can be bound or
    rejected, a running one finished and its result read back; that a package can be
    admitted, received chunk by chunk, completed, removed or evicted, and a removed
    attempt is fenced; and that a restart settles every worker. Where such a call
    needs a revision, an ordinal or a counter below the greatest int64, the statement
    says so.

    ** Bounds and fuel

    Recursions follow the data. Fuel appears in the JSON array decoder (one element
    per input byte), [BinarySearch] (the slice length), and in the clients that
    follow page cursors or drain a mailbox (one page per row), in the chunks of a
    package (one more than its size holds whole ones) and in the pruning of removal
    receipts (one turn more than there are receipts); the theorems about them show
    that this fuel suffices.

    ** Not modelled

    I/O faults of SQLite and context cancellation (an operation may also fail and
    roll back at any statement); a cancelled wait is modelled. Network sessions and
    the other handlers of internal/broker, internal/connector and internal/workerhost
    beyond the store operations they call; the host-dependent packages (userservice,
    securefs, localbridge, cli, appserver, codexconfig, tailscale, releasepack). The
    steps of a peer leave out [MarkWorkerRunning] and [BeginWorkerFinalization], which
    only tests call. *)

From stdpp Require Export base tactics numbers list strings gmap sorting fin_maps.
From Stdlib Require Export ZArith Lia.

#[global] Open Scope Z_scope.

(** ** Errors *)

(** The package-level error values ([var ErrX = errors.New ...]) that callers
    compare with [errors.Is]. [SQLiteConstraint] stands for the driver's error
    whose primary code is 19 (SQLITE_CONSTRAINT): a UNIQUE, CHECK or FOREIGN KEY
    violation of the schema. *)
Inductive sentinel :=
  | ErrNotFound
  | ErrConflict
  | ErrCredentialDisabled
  | ErrAuthorizationDenied
  | ErrRevisionExhausted
  | ErrStaleRevision
  | ErrRevisionChanged
  | ErrMailboxCursorAhead
  | ErrMailboxFull
  | ErrMailboxSequenceExhausted
  | ErrAgentLimit
  | ErrWorkerLifecyclePeerBehind
  | ErrWorkerLifecycleSessionFenced
  | ErrWorkerLifecycleStaleBase
  | ErrWorkerLifecycleRevisionNotForward
  | ErrAgentLifecycleCursorAhead
  | ErrAgentLifecycleSequenceExhausted
  | ErrWorkerReadinessStale
  | ErrResultPackageCursorAhead
  | ErrResultPackageCorrupt
  | ErrResultPackageLifecycleNotReady
  | ErrResultPackageSequenceExhausted
  | ErrChangesArtifactCursorAhead
  | ErrChangesArtifactSequenceExhausted
  | ErrWorkerBusy
  | ErrWorkerReservationConflict
  | ErrWorkerTransition
  | ErrWorkerOperationConflict
  | ErrWorkerTurnStartIntentConflict
  | ErrWorkerTurnStartIntentQuota
  | ErrResultPackageAuthority
  | ErrResultPackageConflict
  | ErrResultPackageQuota
  | ErrResultPackageTransition
  | ErrResultInboxRetentionExhausted
  | ErrChangesArtifactConflict
  | ErrChangesArtifactTransition
  | ErrChangesArtifactQuota
  | ErrChangesArtifactAuthority
  | SQLiteConstraint.

#[global] Instance sentinel_eq_dec : EqDecision sentinel.
Proof. solve_decision. Defined.

(** A Go error: a sentinel, [errors.New text], or [fmt.Errorf] with one [%w]
    operand. The text of an [Errorf] is its format string: the operands printed
    into it never influence control flow. *)
Inductive error :=
  | Sentinel (s : sentinel)
  | New (text : string)
  | Wrap (text : string) (wrapped : error).

Coercion Sentinel : sentinel >-> error.

#[global] Instance error_eq_dec : EqDecision error.
Proof. solve_decision. Defined.

(** [errors.Is(err, ErrX)]: walk the [%w] chain. *)
Fixpoint errors_Is (e : error) (target : sentinel) : bool :=
  match e with
  | Sentinel s => bool_decide (s = target)
  | New _ => false
  | Wrap _ e => errors_Is e target
  end.

(** ** Fallible computations *)

(** The Go pair [(value, error)] with the convention that the value of a
    non-nil error is ignored. *)
Inductive result (A : Type) :=
  | Ok (a : A)
  | Err (e : error).
Arguments Ok {A} a.
Arguments Err {A} e.

#[global] Instance result_eq_dec {A} `{EqDecision A} : EqDecision (result A).
Proof. solve_decision. Defined.

Definition result_bind {A B} (r : result A) (k : A -> result B) : result B :=
  match r with Ok a => k a | Err e => Err e end.

(** [if err := f(); err != nil { return fmt.Errorf(text + " %w", err) }] *)
Definition wrap {A} (text : string) (r : result A) : result A :=
  match r with Ok a => Ok a | Err e => Err (Wrap text e) end.

Definition is_ok {A} (r : result A) : bool :=
  match r with Ok _ => true | Err _ => false end.

(** [errors.Is(err, ErrNotFound)] turned into an absent value: the shape
    [x, err = query(); if err == nil {..}; if !errors.Is(err, ErrNotFound) {return err}]. *)
Definition optional {A} (r : result A) : result (option A) :=
  match r with
  | Ok a => Ok (Some a)
  | Err e => if errors_Is e ErrNotFound then Ok None else Err e
  end.

(** A transaction body: it reads and writes a state [S]; an error discards
    every write, because the enclosing transaction rolls back. *)
Definition Tx (S A : Type) : Type := S -> result (A * S).

Definition tx_ret {S A} (a : A) : Tx S A := fun s => Ok (a, s).
Definition tx_throw {S A} (e : error) : Tx S A := fun _ => Err e.
Definition tx_bind {S A B} (m : Tx S A) (k : A -> Tx S B) : Tx S B :=
  fun s => match m s with Ok (a, s') => k a s' | Err e => Err e end.
(** A computation that does not touch the state. *)
Definition tx_lift {S A} (r : result A) : Tx S A :=
  fun s => match r with Ok a => Ok (a, s) | Err e => Err e end.
(** A read-only query of the state. *)
Definition tx_query {S A} (q : S -> result A) : Tx S A :=
  fun s => match q s with Ok a => Ok (a, s) | Err e => Err e end.
Definition tx_put {S} (f : S -> S) : Tx S unit := fun s => Ok (tt, f s).
(** A write that may fail on a constraint. *)
Definition tx_exec {S} (f : S -> result S) : Tx S unit :=
  fun s => match f s with Ok s' => Ok (tt, s') | Err e => Err e end.

Fixpoint tx_iter {S A} (f : A -> Tx S unit) (l : list A) : Tx S unit :=
  match l with
  | [] => tx_ret tt
  | x :: l => tx_bind (f x) (fun _ => tx_iter f l)
  end.

(** The outcome of a store method: the result and the committed state. *)
Definition run_tx {S A} (m : Tx S A) (s : S) : result A * S :=
  match m s with
  | Ok (a, s') => (Ok a, s')
  | Err e => (Err e, s)
  end.

(** A loop that appends [f x] to its result and stops at the first error. *)
Fixpoint result_mapM {A B} (f : A -> result B) (l : list A) : result (list B) :=
  match l with
  | [] => Ok []
  | x :: l =>
      match f x with
      | Err e => Err e
      | Ok y => match result_mapM f l with Err e => Err e | Ok ys => Ok (y :: ys) end
      end
  end.

Declare Scope go_scope.
Delimit Scope go_scope with go.
#[global] Open Scope go_scope.

Notation "'let?' x := r 'in' k" := (result_bind r (fun x => k))
  (at level 10, x pattern, r at level 200, k at level 200) : go_scope.
Notation "'do?' r 'in' k" := (result_bind r (fun _ => k))
  (at level 10, r at level 200, k at level 200) : go_scope.
Notation "'let!' x := m 'in' k" := (tx_bind m (fun x => k))
  (at level 10, x pattern, m at level 200, k at level 200) : go_scope.
Notation "'do!' m 'in' k" := (tx_bind m (fun _ => k))
  (at level 10, m at level 200, k at level 200) : go_scope.
(** [if P { return e }] followed by the rest of the function. *)
Notation "'reject' e 'when' P 'in' k" := (if decide P then Err e else k)
  (at level 10, e at level 100, P at level 100, k at level 200) : go_scope.
Notation "'fail' e 'when' P 'in' k" := (if decide P then tx_throw e else k)
  (at level 10, e at level 100, P at level 100, k at level 200) : go_scope.

(** ** Inversion of computations *)

Lemma result_bind_Ok {A B} (r : result A) (k : A -> result B) b :
  result_bind r k = Ok b <-> exists a, r = Ok a /\ k a = Ok b.
Proof. destruct r; simpl; naive_solver. Qed.

Lemma is_ok_true {A} (r : result A) : is_ok r = true <-> exists a, r = Ok a.
Proof. destruct r; simpl; naive_solver. Qed.

Lemma wrap_Ok {A} text (r : result A) a : wrap text r = Ok a <-> r = Ok a.
Proof. destruct r; simpl; naive_solver. Qed.

Lemma optional_Ok_Some {A} (r : result A) a : optional r = Ok (Some a) <-> r = Ok a.
Proof. destruct r as [|e]; simpl; [naive_solver|]. destruct (errors_Is e _); naive_solver. Qed.

Lemma optional_Ok_None {A} (r : result A) :
  optional r = Ok None <-> exists e, r = Err e /\ errors_Is e ErrNotFound = true.
Proof.
  destruct r as [|e]; simpl; [naive_solver|].
  destruct (errors_Is e _) eqn:E; split; [by eauto|done|done|].
  intros (e' & [= <-] & ?). congruence.
Qed.

Lemma result_mapM_Ok {A B} (f : A -> result B) l ys :
  result_mapM f l = Ok ys <-> Forall2 (fun x y => f x = Ok y) l ys.
Proof.
  revert ys. induction l as [|x l IH]; intros ys; simpl.
  - split; [intros [= <-]; constructor|inversion 1; done].
  - split.
    + intros Hm. destruct (f x) eqn:E, (result_mapM f l); simplify_eq.
      constructor; [done|by apply IH].
    + inversion_clear 1 as [|? y ? l' Hx Hl]. apply IH in Hl. by rewrite Hx, Hl.
Qed.

Lemma tx_bind_Ok {S A B} (m : Tx S A) (k : A -> Tx S B) s r :
  tx_bind m k s = Ok r <-> exists a s', m s = Ok (a, s') /\ k a s' = Ok r.
Proof. unfold tx_bind. destruct (m s) as [[a s']|]; naive_solver. Qed.

Lemma tx_lift_Ok {S A} (r : result A) (s : S) a s' :
  tx_lift r s = Ok (a, s') <-> r = Ok a /\ s' = s.
Proof. unfold tx_lift. destruct r; naive_solver. Qed.

Lemma tx_query_Ok {S A} (q : S -> result A) s a s' :
  tx_query q s = Ok (a, s') <-> q s = Ok a /\ s' = s.
Proof. unfold tx_query. destruct (q s); naive_solver. Qed.

Lemma tx_exec_Ok {S} (f : S -> result S) s u s' :
  tx_exec f s = Ok (u, s') <-> f s = Ok s'.
Proof. destruct u. unfold tx_exec. destruct (f s); naive_solver. Qed.

Lemma tx_ret_Ok {S A} (a : A) (s : S) b s' : tx_ret a s = Ok (b, s') <-> b = a /\ s' = s.
Proof. unfold tx_ret. naive_solver. Qed.

Lemma tx_put_Ok {S} (f : S -> S) s u s' : tx_put f s = Ok (u, s') <-> s' = f s.
Proof. destruct u. unfold tx_put. naive_solver. Qed.

Lemma tx_throw_Ok {S A} e (s : S) (r : A * S) : ~ tx_throw e s = Ok r.
Proof. unfold tx_throw. naive_solver. Qed.

(** [run_tx] either commits the body's writes or leaves the state as it was. *)
Lemma run_tx_Ok {S A} (m : Tx S A) s a s' :
  run_tx m s = (Ok a, s') <-> m s = Ok (a, s').
Proof. unfold run_tx. destruct (m s) as [[??]|]; naive_solver. Qed.

Lemma run_tx_Err {S A} (m : Tx S A) s e s' :
  run_tx m s = (Err e, s') <-> m s = Err e /\ s' = s.
Proof. unfold run_tx. destruct (m s) as [[??]|]; naive_solver. Qed.

(** Evaluating the value of a call is enough to name the state it commits. *)
Lemma run_tx_value {S A} (m : Tx S A) s a : (run_tx m s).1 = Ok a -> m s = Ok (a, (run_tx m s).2).
Proof. unfold run_tx. destruct (m s) as [[??]|]; simpl; naive_solver. Qed.

Lemma run_tx_succeeds {S A} (m : Tx S A) s : is_ok (m s) = true -> exists a, m s = Ok (a, (run_tx m s).2).
Proof. unfold run_tx. destruct (m s) as [[a s']|]; simpl; [eauto|done]. Qed.

(** Break a successful computation in the context into its steps. *)
Ltac go_inv1 :=
  match goal with
  | H : Ok _ = Ok _ |- _ => injection H as H; try subst
  | H : Err _ = Err _ |- _ => injection H as H; try subst
  | H : Ok _ = Err _ |- _ => discriminate H
  | H : Err _ = Ok _ |- _ => discriminate H
  | H : (_, _) = (_, _) |- _ => injection H as H; try subst
  | H : result_bind _ _ = Ok _ |- _ => apply (proj1 (result_bind_Ok _ _ _)) in H as (? & ? & ?)
  | H : wrap _ _ = Ok _ |- _ => apply (proj1 (wrap_Ok _ _ _)) in H
  | H : optional _ = Ok (Some _) |- _ => apply (proj1 (optional_Ok_Some _ _)) in H
  | H : tx_bind _ _ _ = Ok _ |- _ => apply (proj1 (tx_bind_Ok _ _ _ _)) in H as (? & ? & ? & ?)
  | H : tx_query _ _ = Ok (_, _) |- _ => apply (proj1 (tx_query_Ok _ _ _ _)) in H as [? ?]; try subst
  | H : tx_query _ _ = Ok ?r |- _ => destruct r
  | H : tx_lift _ _ = Ok (_, _) |- _ => apply (proj1 (tx_lift_Ok _ _ _ _)) in H as [? ?]; try subst
  | H : tx_lift _ _ = Ok ?r |- _ => destruct r
  | H : tx_exec _ _ = Ok (_, _) |- _ => apply (proj1 (tx_exec_Ok _ _ _ _)) in H
  | H : tx_put _ _ = Ok (_, _) |- _ => apply (proj1 (tx_put_Ok _ _ _ _)) in H
  | H : tx_ret _ _ = Ok (_, _) |- _ => apply (proj1 (tx_ret_Ok _ _ _ _)) in H as [? ?]; try subst
  | H : tx_ret _ _ = Ok ?r |- _ => destruct r
  | H : tx_throw _ _ = Ok _ |- _ => destruct (tx_throw_Ok _ _ _ H)
  | H : run_tx _ _ = (Ok _, _) |- _ => apply (proj1 (run_tx_Ok _ _ _ _)) in H
  | H : run_tx _ _ = (Err _, _) |- _ => apply (proj1 (run_tx_Err _ _ _ _)) in H as [? ?]; try subst
  | H : (if decide ?P then _ else _) = Ok _ |- _ => destruct (decide P)
  | H : (if decide ?P then _ else _) _ = Ok _ |- _ => destruct (decide P)
  | u : unit |- _ => destruct u
  end.
Ltac go_inv := repeat (go_inv1; cbv beta iota zeta in * ).

(** Close a goal that is syntactically a hypothesis, without unfolding the
    validators it mentions. *)
Ltac hyp := match goal with H : ?P |- ?P => exact H end.

Create HintDb go discriminated.

(** ** Integers *)

(** [math.MaxInt64] and the bounds of Go's 64-bit types. *)
Definition MaxInt64 : Z := 9223372036854775807.
Definition MaxUint64 : Z := 18446744073709551615.

Definition is_int64 (z : Z) : Prop := - MaxInt64 - 1 <= z <= MaxInt64.
Definition is_uint64 (z : Z) : Prop := 0 <= z <= MaxUint64.

(** database/sql refuses a [uint64] argument with the high bit set. *)
Definition bind_uint64 (z : Z) : result Z :=
  reject (New "uint64 values with high bit set are not supported") when (z > MaxInt64) in Ok z.
