(* ===== verification/GoText.v ===== *)
(** Go strings as the source uses them: byte length, the runes a [range] loop
    visits, the [unicode], [utf8], [strings] and [path] functions the validators
    call, and the anchored regular expressions, which all describe ASCII
    character classes. A Go string is a Rocq [string], one [ascii] per byte. *)

From S2P Require Export Prelude.
From Stdlib Require Import Ascii.

(** ** Bytes *)

Definition byte_of (a : ascii) : Z := Z.of_N (N_of_ascii a).

Fixpoint bytes (s : string) : list Z :=
  match s with
  | EmptyString => []
  | String a s => byte_of a :: bytes s
  end.

Definition of_byte (b : Z) : ascii := ascii_of_N (Z.to_N b).

Fixpoint of_bytes (l : list Z) : string :=
  match l with
  | [] => EmptyString
  | b :: l => String (of_byte b) (of_bytes l)
  end.

(** [len(s)] counts bytes. *)
Definition len (s : string) : Z := Z.of_nat (String.length s).

Definition in_range (lo hi b : Z) : bool := (lo <=? b) && (b <=? hi).

(** ** UTF-8 *)

Definition RuneError : Z := 0xFFFD.

Definition three_bytes (b0 b1 b2 : Z) : bool :=
  ((b0 =? 0xE0) && in_range 0xA0 0xBF b1
   || in_range 0xE1 0xEC b0 && in_range 0x80 0xBF b1
   || (b0 =? 0xED) && in_range 0x80 0x9F b1
   || in_range 0xEE 0xEF b0 && in_range 0x80 0xBF b1) && in_range 0x80 0xBF b2.

Definition four_bytes (b0 b1 b2 b3 : Z) : bool :=
  ((b0 =? 0xF0) && in_range 0x90 0xBF b1
   || in_range 0xF1 0xF3 b0 && in_range 0x80 0xBF b1
   || (b0 =? 0xF4) && in_range 0x80 0x8F b1) && in_range 0x80 0xBF b2 && in_range 0x80 0xBF b3.

(** The steps of [for index, char := range s], with the byte offset of each rune;
    [None] marks an invalid encoding, which advances by one byte. *)
Fixpoint decode (i : Z) (l : list Z) : list (Z * option Z) :=
  match l with
  | [] => []
  | b0 :: l1 =>
      if b0 <? 0x80 then (i, Some b0) :: decode (i + 1) l1
      else match l1 with
      | [] => [(i, None)]
      | b1 :: l2 =>
          if in_range 0xC2 0xDF b0 && in_range 0x80 0xBF b1
          then (i, Some ((b0 - 0xC0) * 64 + (b1 - 0x80))) :: decode (i + 2) l2
          else match l2 with
          | [] => (i, None) :: decode (i + 1) l1
          | b2 :: l3 =>
              if three_bytes b0 b1 b2
              then (i, Some ((b0 - 0xE0) * 4096 + (b1 - 0x80) * 64 + (b2 - 0x80)))
                   :: decode (i + 3) l3
              else match l3 with
              | [] => (i, None) :: decode (i + 1) l1
              | b3 :: l4 =>
                  if four_bytes b0 b1 b2 b3
                  then (i, Some ((b0 - 0xF0) * 262144 + (b1 - 0x80) * 4096
                                 + (b2 - 0x80) * 64 + (b3 - 0x80))) :: decode (i + 4) l4
                  else (i, None) :: decode (i + 1) l1
              end
          end
      end
  end.

Definition range_string (s : string) : list (Z * Z) :=
  (fun '(i, r) => (i, default RuneError r)) <$> decode 0 (bytes s).

(** [utf8.ValidString] *)
Definition ValidString (s : string) : bool :=
  forallb (fun '(_, r) => match r with Some _ => true | None => false end) (decode 0 (bytes s)).

(** [unicode.IsSpace] (White_Space) and [unicode.IsControl] (category Cc). *)
Definition IsSpace (r : Z) : bool :=
  in_range 0x09 0x0D r || (r =? 0x20) || (r =? 0x85) || (r =? 0xA0) || (r =? 0x1680)
  || in_range 0x2000 0x200A r || (r =? 0x2028) || (r =? 0x2029) || (r =? 0x202F)
  || (r =? 0x205F) || (r =? 0x3000).

Definition IsControl (r : Z) : bool := in_range 0 0x1F r || in_range 0x7F 0x9F r.

(** [strings.TrimSpace(s) == ""]: every rune is white space. *)
Definition is_blank (s : string) : bool := forallb (fun '(_, r) => IsSpace r) (range_string s).

(** [strings.IndexFunc(s, f) >= 0] *)
Definition ContainsFunc (f : Z -> bool) (s : string) : bool :=
  existsb (fun '(_, r) => f r) (range_string s).

(** [strings.ContainsRune(s, b)] and [strings.Contains(s, "b")] for an ASCII [b]. *)
Definition ContainsByte (b : Z) (s : string) : bool := existsb (Z.eqb b) (bytes s).

Definition HasPrefix (s prefix : string) : bool := String.prefix prefix s.

(** ** Character classes and anchored patterns *)

Definition is_lower (b : Z) : bool := in_range 97 122 b.
Definition is_upper (b : Z) : bool := in_range 65 90 b.
Definition is_digit (b : Z) : bool := in_range 48 57 b.
Definition is_lower_hex (b : Z) : bool := is_digit b || in_range 97 102 b.

(** [^F R{0,n}$] for two ASCII classes. *)
Definition pattern (first rest : Z -> bool) (maximum : Z) (s : string) : bool :=
  match bytes s with
  | [] => false
  | b :: l => first b && forallb rest l && (Z.of_nat (length l) <=? maximum)
  end.

(** [^[0-9a-f]{n}$] *)
Definition lower_hex_pattern (n : Z) (s : string) : bool :=
  (len s =? n) && forallb is_lower_hex (bytes s).

(** ** Paths *)

(** The elements between slashes, empty ones included. *)
Fixpoint split_slash (l : list Z) : list (list Z) :=
  match l with
  | [] => [[]]
  | b :: l =>
      match split_slash l with
      | [] => [[b]]
      | e :: es => if b =? 47 then [] :: e :: es else (b :: e) :: es
      end
  end.

Definition dotdot : list Z := [46; 46].

(** One element of [path.Clean]: [out] holds the elements written so far, last
    one first. *)
Definition clean_step (rooted : bool) (out : list (list Z)) (e : list Z) : list (list Z) :=
  if bool_decide (e = [] \/ e = [46]) then out
  else if bool_decide (e = dotdot) then
    match out with
    | [] => if rooted then [] else [dotdot]
    | top :: out' => if bool_decide (top = dotdot) then dotdot :: out else out'
    end
  else e :: out.

Fixpoint join_slash (es : list (list Z)) : list Z :=
  match es with
  | [] => []
  | [e] => e
  | e :: es => e ++ 47 :: join_slash es
  end.

Definition clean_elements (l : list Z) : list (list Z) :=
  let rooted := match l with b :: _ => b =? 47 | [] => false end in
  reverse (foldl (clean_step rooted) [] (split_slash l)).

(** [path.Clean] *)
Definition path_Clean (s : string) : string :=
  let l := bytes s in
  let rooted := match l with b :: _ => b =? 47 | [] => false end in
  match clean_elements l, rooted with
  | [], false => "."
  | es, true => of_bytes (47 :: join_slash es)
  | es, false => of_bytes (join_slash es)
  end.

Definition path_IsAbs (s : string) : bool := HasPrefix s "/".

(** ** Lemmas *)

Lemma byte_of_bounds a : 0 <= byte_of a < 256.
Proof. unfold byte_of. pose proof (N_ascii_bounded a). lia. Qed.

Lemma of_byte_of a : of_byte (byte_of a) = a.
Proof. unfold of_byte, byte_of. rewrite N2Z.id. apply ascii_N_embedding. Qed.

Lemma byte_of_of b : 0 <= b < 256 -> byte_of (of_byte b) = b.
Proof. intros. unfold of_byte, byte_of. rewrite N_ascii_embedding; lia. Qed.

Lemma of_bytes_bytes s : of_bytes (bytes s) = s.
Proof. induction s; simpl; [done|]. by rewrite of_byte_of, IHs. Qed.

Lemma bytes_of_bytes l : Forall (fun b => 0 <= b < 256) l -> bytes (of_bytes l) = l.
Proof. induction 1; simpl; [done|]. by rewrite byte_of_of, IHForall. Qed.

Lemma bytes_inj s1 s2 : bytes s1 = bytes s2 -> s1 = s2.
Proof. intros H. by rewrite <- (of_bytes_bytes s1), H, of_bytes_bytes. Qed.

Lemma bytes_bounds s : Forall (fun b => 0 <= b < 256) (bytes s).
Proof. induction s; simpl; constructor; auto using byte_of_bounds. Qed.

Lemma len_bytes s : len s = Z.of_nat (length (bytes s)).
Proof. unfold len. induction s; simpl; lia. Qed.

Lemma bytes_app s1 s2 : bytes (s1 +:+ s2) = (bytes s1 ++ bytes s2)%list.
Proof. induction s1 as [|a s1 IH]; simpl; [done|]. by rewrite IH. Qed.

Lemma len_app s1 s2 : len (s1 +:+ s2) = len s1 + len s2.
Proof. rewrite !len_bytes, bytes_app, length_app. lia. Qed.

Lemma len_nonneg s : 0 <= len s.
Proof. unfold len. lia. Qed.

Lemma len_zero s : len s = 0 -> s = "".
Proof. destruct s; unfold len; simpl; [done|lia]. Qed.

#[export] Hint Rewrite bytes_app len_app : go.

Definition is_ascii (b : Z) : bool := b <? 0x80.

(** On ASCII input a [range] loop visits the bytes one by one. *)
Lemma decode_ascii l i :
  forallb is_ascii l = true -> decode i l = imap (fun k b => (i + Z.of_nat k, Some b)) l.
Proof.
  revert i. induction l as [|b l IH]; intros i; simpl; [done|].
  intros [Hb Hl]%andb_prop. unfold is_ascii in Hb. rewrite Hb, (IH _ Hl).
  f_equal; [f_equal; lia|]. apply imap_ext. intros. simpl. f_equal. lia.
Qed.

(** If every decoded rune is ASCII, so is every byte. *)
Lemma decode_only_ascii l i :
  Forall (fun b => 0 <= b) l ->
  Forall (fun '(_, r) => exists x, r = Some x /\ x < 0x80) (decode i l) ->
  forallb is_ascii l = true.
Proof.
  revert i. induction l as [|b0 l IH]; intros i Hpos; [done|].
  inversion_clear Hpos as [|?? Hb0 Hl]. cbn -[three_bytes four_bytes in_range].
  destruct (b0 <? 0x80) eqn:E0.
  - inversion_clear 1. unfold is_ascii. rewrite E0. eauto.
  - intros H. exfalso. revert H. unfold three_bytes, four_bytes, in_range.
    repeat case_match; inversion_clear 1 as [|?? Hx _];
      destruct Hx as (x & Hx & Hlt); simplify_eq; lia.
Qed.

Lemma ascii_ValidString s : forallb is_ascii (bytes s) = true -> ValidString s = true.
Proof.
  intros H. unfold ValidString. rewrite (decode_ascii _ _ H).
  apply forallb_forall. intros [i r] Hin.
  apply list_elem_of_In, elem_of_lookup_imap in Hin as (k & y & [= -> ->] & _). done.
Qed.

Lemma forallb_impl {A} (P Q : A -> bool) l :
  (forall x, P x = true -> Q x = true) -> forallb P l = true -> forallb Q l = true.
Proof. intros H. induction l; simpl; [done|]. intros [??]%andb_prop. by rewrite H, IHl. Qed.
