(* ===== verification/GoCodec.v ===== *)
(** The encodings the store relies on, from Go's standard library: SHA-256 and
    lower-case hexadecimal ([crypto/sha256], [encoding/hex], the [%x] verb), and
    the JSON form of strings, booleans and string lists ([encoding/json] with its
    default HTML escaping). The round trip of a string list is what makes a
    stored [features_json], [capabilities_json] or [warnings_json] column readable. *)

From S2P Require Export GoText.
From Stdlib Require Import Ascii.

(** ** Hexadecimal *)

Definition hex_digit (n : Z) : Z := if n <? 10 then 48 + n else 87 + n.

Definition hex_encode (l : list Z) : list Z :=
  l ≫= fun b => [hex_digit (b / 16); hex_digit (b mod 16)].

(** ** SHA-256 *)

Module SHA256.

Definition w32 (z : Z) : Z := Z.land z 0xFFFFFFFF.
Definition rotr (n x : Z) : Z := Z.lor (Z.shiftr x n) (w32 (Z.shiftl x (32 - n))).

(** The constants of FIPS 180-4: the first 32 bits of the fractional parts of the
    cube roots of the first 64 primes, and of the square roots of the first 8. *)
Definition prime (n : nat) : bool :=
  forallb (fun d => negb (Nat.eqb (n mod d) 0)) (seq 2 (n - 2)).
Definition primes (k : nat) : list Z := Z.of_nat <$> take k (filter (fun n => prime n = true) (seq 2 310)).

(** The largest [r < 2 ^ bits + acc] that does not overshoot, bit by bit. *)
Fixpoint root_bits (power : Z) (n : Z) (bits : nat) (acc : Z) : Z :=
  match bits with
  | O => acc
  | S bits =>
      let r := acc + 2 ^ Z.of_nat bits in
      root_bits power n bits (if r ^ power <=? n then r else acc)
  end.

Definition fraction32 (power p : Z) : Z := w32 (root_bits power (p * 2 ^ (32 * power)) 38 0).

Definition K : list Z := Eval vm_compute in fraction32 3 <$> primes 64.

Definition H0 : list Z := Eval vm_compute in fraction32 2 <$> primes 8.

Definition be32 (w : Z) : list Z :=
  [Z.land (Z.shiftr w 24) 255; Z.land (Z.shiftr w 16) 255; Z.land (Z.shiftr w 8) 255; Z.land w 255].

Definition pad (msg : list Z) : list Z :=
  let n := Z.of_nat (length msg) in
  msg ++ [0x80] ++ replicate (Z.to_nat ((55 - n) mod 64)) 0
      ++ be32 (Z.shiftr (8 * n) 32) ++ be32 (w32 (8 * n)).

Fixpoint words (l : list Z) : list Z :=
  match l with
  | a :: b :: c :: d :: l =>
      Z.lor (Z.shiftl a 24) (Z.lor (Z.shiftl b 16) (Z.lor (Z.shiftl c 8) d)) :: words l
  | _ => []
  end.

Definition nthZ (l : list Z) (i : nat) : Z := default 0 (l !! i).

(** The message schedule, newest word first. *)
Fixpoint schedule (n : nat) (w : list Z) : list Z :=
  match n with
  | O => w
  | S n =>
      let x := nthZ w 14 in
      let y := nthZ w 1 in
      let s0 := Z.lxor (rotr 7 x) (Z.lxor (rotr 18 x) (Z.shiftr x 3)) in
      let s1 := Z.lxor (rotr 17 y) (Z.lxor (rotr 19 y) (Z.shiftr y 10)) in
      schedule n (w32 (nthZ w 15 + s0 + nthZ w 6 + s1) :: w)
  end.

Definition round (st : list Z) (kw : Z * Z) : list Z :=
  match st with
  | [a; b; c; d; e; f; g; h] =>
      let s1 := Z.lxor (rotr 6 e) (Z.lxor (rotr 11 e) (rotr 25 e)) in
      let ch := Z.lxor (Z.land e f) (Z.land (w32 (Z.lnot e)) g) in
      let t1 := w32 (h + s1 + ch + kw.1 + kw.2) in
      let s0 := Z.lxor (rotr 2 a) (Z.lxor (rotr 13 a) (rotr 22 a)) in
      let maj := Z.lxor (Z.land a b) (Z.lxor (Z.land a c) (Z.land b c)) in
      [w32 (t1 + w32 (s0 + maj)); a; b; c; w32 (d + t1); e; f; g]
  | _ => st
  end.

Definition compress (h : list Z) (block : list Z) : list Z :=
  let w := reverse (schedule 48 (reverse (words block))) in
  zip_with (fun x y => w32 (x + y)) h (foldl round h (zip K w)).

Fixpoint blocks (n : nat) (h : list Z) (l : list Z) : list Z :=
  match n with
  | O => h
  | S n => blocks n (compress h (take 64 l)) (drop 64 l)
  end.

Definition sum (msg : list Z) : list Z :=
  let p := pad msg in
  blocks (length p / 64)%nat H0 p ≫= be32.

End SHA256.

(** [sha256.Sum256([]byte(s))], the 32 bytes of the digest. *)
Definition Sum256 (s : string) : string := of_bytes (SHA256.sum (bytes s)).

(** [fmt.Sprintf("%x", digest)] *)
Definition hex_string (s : string) : string := of_bytes (hex_encode (bytes s)).

(** ** JSON encoding *)

Definition encode_rune (r : Z) : list Z :=
  if r <? 0x80 then [r]
  else if r <? 0x800 then [0xC0 + r / 64; 0x80 + r mod 64]
  else if r <? 0x10000 then [0xE0 + r / 4096; 0x80 + (r / 64) mod 64; 0x80 + r mod 64]
  else [0xF0 + r / 262144; 0x80 + (r / 4096) mod 64; 0x80 + (r / 64) mod 64; 0x80 + r mod 64].

Definition u_escape (r : Z) : list Z :=
  [92; 117; hex_digit (r / 4096); hex_digit ((r / 256) mod 16);
   hex_digit ((r / 16) mod 16); hex_digit (r mod 16)].

(** Bytes copied unchanged: printable ASCII other than the quotation mark,
    the backslash and the HTML characters [<], [>], [&]; DEL is copied too. *)
Definition html_safe (b : Z) : bool :=
  in_range 0x20 0x7F b &&
  negb ((b =? 34) || (b =? 92) || (b =? 60) || (b =? 62) || (b =? 38)).

Definition json_escape (r : option Z) : list Z :=
  match r with
  | None => u_escape RuneError
  | Some r =>
      if html_safe r then [r]
      else if (r =? 34) || (r =? 92) then [92; r]
      else if r =? 8 then [92; 98]
      else if r =? 12 then [92; 102]
      else if r =? 10 then [92; 110]
      else if r =? 13 then [92; 114]
      else if r =? 9 then [92; 116]
      else if r <? 0x80 then u_escape r
      else if (r =? 0x2028) || (r =? 0x2029) then u_escape r
      else encode_rune r
  end.

Definition json_string_bytes (s : string) : list Z :=
  34 :: (decode 0 (bytes s) ≫= fun '(_, r) => json_escape r) ++ [34].

Fixpoint json_elements (l : list string) : list Z :=
  match l with
  | [] => []
  | [s] => json_string_bytes s
  | s :: l => json_string_bytes s ++ 44 :: json_elements l
  end.

(** [json.Marshal] of a non-nil [[]string]. *)
Definition json_Marshal_strings (l : list string) : string :=
  of_bytes (91 :: json_elements l ++ [93]).

(** ** JSON decoding *)

Definition is_json_space (b : Z) : bool := (b =? 32) || (b =? 9) || (b =? 10) || (b =? 13).

Fixpoint skip_space (l : list Z) : list Z :=
  match l with
  | b :: l' => if is_json_space b then skip_space l' else l
  | [] => []
  end.

Definition hex_value (b : Z) : option Z :=
  if is_digit b then Some (b - 48)
  else if in_range 97 102 b then Some (b - 87)
  else if in_range 65 70 b then Some (b - 55)
  else None.

Definition hex4 (a b c d : Z) : option Z :=
  a ← hex_value a; b ← hex_value b; c ← hex_value c; d ← hex_value d;
  Some (a * 4096 + b * 256 + c * 16 + d).

Definition unescape (c : Z) : option Z :=
  if (c =? 34) || (c =? 92) || (c =? 47) then Some c
  else if c =? 98 then Some 8
  else if c =? 102 then Some 12
  else if c =? 110 then Some 10
  else if c =? 114 then Some 13
  else if c =? 116 then Some 9
  else None.

Definition json_cons (r : list Z) (o : option (list Z * list Z)) : option (list Z * list Z) :=
  match o with Some (s, rest) => Some (r ++ s, rest) | None => None end.

(** The body of a string literal after its opening quotation mark: the bytes it
    denotes and what follows the closing one. *)
Fixpoint json_body (l : list Z) : option (list Z * list Z) :=
  match l with
  | [] => None
  | b :: l1 =>
      if b =? 34 then Some ([], l1)
      else if b =? 92 then
        match l1 with
        | [] => None
        | c :: l2 =>
            if c =? 117 then
              match l2 with
              | a1 :: a2 :: a3 :: a4 :: l3 =>
                  match hex4 a1 a2 a3 a4 with
                  | None => None
                  | Some r =>
                      if in_range 0xD800 0xDFFF r then
                        match l3 with
                        | 92 :: 117 :: c1 :: c2 :: c3 :: c4 :: l4 =>
                            match hex4 c1 c2 c3 c4 with
                            | Some r2 =>
                                if in_range 0xD800 0xDBFF r && in_range 0xDC00 0xDFFF r2
                                then json_cons (encode_rune ((r - 0xD800) * 1024 + (r2 - 0xDC00) + 0x10000))
                                       (json_body l4)
                                else json_cons (encode_rune RuneError) (json_body l3)
                            | None => json_cons (encode_rune RuneError) (json_body l3)
                            end
                        | _ => json_cons (encode_rune RuneError) (json_body l3)
                        end
                      else json_cons (encode_rune r) (json_body l3)
                  end
              | _ => None
              end
            else match unescape c with
                 | Some r => json_cons [r] (json_body l2)
                 | None => None
                 end
        end
      else if b <? 0x20 then None
      else json_cons [b] (json_body l1)
  end.

(** Invalid UTF-8 in a literal decodes to U+FFFD. *)
Definition sanitize (l : list Z) : list Z :=
  decode 0 l ≫= fun '(_, r) => encode_rune (default RuneError r).

(** One element of a [[]string]: a string literal, or [null], which leaves [""]. *)
Definition json_element (l : list Z) : option (string * list Z) :=
  match skip_space l with
  | 34 :: l1 => match json_body l1 with
                | Some (s, rest) => Some (of_bytes (sanitize s), rest)
                | None => None
                end
  | 110 :: 117 :: 108 :: 108 :: rest => Some (EmptyString, rest)
  | _ => None
  end.

Fixpoint json_array (fuel : nat) (l : list Z) : option (list string * list Z) :=
  match fuel with
  | O => None
  | S fuel =>
      match json_element l with
      | None => None
      | Some (s, rest) =>
          match skip_space rest with
          | 44 :: rest => match json_array fuel rest with
                          | Some (ss, rest) => Some (s :: ss, rest)
                          | None => None
                          end
          | 93 :: rest => Some ([s], rest)
          | _ => None
          end
      end
  end.

(** [json.Unmarshal] into a [[]string]; [None] is its error. The fuel is the
    input's length, and every element consumes at least one byte. *)
Definition json_Unmarshal_strings (text : string) : option (list string) :=
  let l := bytes text in
  let value :=
    match skip_space l with
    | 110 :: 117 :: 108 :: 108 :: rest => Some ([], rest)
    | 91 :: rest =>
        match skip_space rest with
        | 93 :: rest => Some ([], rest)
        | _ => json_array (length l) rest
        end
    | _ => None
    end in
  match value with
  | Some (ss, rest) => match skip_space rest with [] => Some ss | _ => None end
  | None => None
  end.

(** ** Round trip of plain string lists *)

(** Every identifier the store keeps in a JSON column is plain: it is copied
    into the literal byte by byte. *)
Definition plain (s : string) : bool := forallb html_safe (bytes s).

Lemma html_safe_ascii b : html_safe b = true -> is_ascii b = true.
Proof. unfold html_safe, is_ascii, in_range. lia. Qed.

Lemma bind_singletons {A B} (f : A -> B) (l : list A) : (l ≫= fun x => [f x]) = f <$> l.
Proof. induction l; simpl; [done|]. by f_equal. Qed.

Lemma decode_plain l :
  forallb html_safe l = true ->
  (decode 0 l ≫= fun '(_, r) => json_escape r) = l /\ sanitize l = l.
Proof.
  unfold sanitize. generalize 0 as i.
  induction l as [|b l IH]; intros i; [done|]. intros [Hb Hl]%andb_prop.
  specialize (IH (i + 1) Hl) as [IH1 IH2].
  pose proof (html_safe_ascii _ Hb) as Ha. unfold is_ascii in Ha.
  cbn [decode]. rewrite Ha, !bind_cons, IH1, IH2. simpl.
  unfold encode_rune. by rewrite Hb, Ha.
Qed.

Lemma plain_json_string s :
  plain s = true -> json_string_bytes s = 34 :: bytes s ++ [34].
Proof. intros Hs. unfold json_string_bytes. by rewrite (proj1 (decode_plain _ Hs)). Qed.

Lemma json_body_plain l rest :
  forallb html_safe l = true -> json_body (l ++ 34 :: rest) = Some (l, rest).
Proof.
  induction l as [|b l IH]; [done|]. intros [Hb Hl]%andb_prop.
  assert (b <> 34 /\ b <> 92 /\ 0x20 <= b) as (Hq & Hbs & Hge)
    by (unfold html_safe, in_range in Hb; lia).
  rewrite <- app_comm_cons. cbn [json_body].
  rewrite (proj2 (Z.eqb_neq b 34) Hq), (proj2 (Z.eqb_neq b 92) Hbs),
    (proj2 (Z.ltb_ge b 0x20) Hge), (IH Hl). done.
Qed.

Lemma json_element_plain s rest :
  plain s = true -> json_element (json_string_bytes s ++ rest) = Some (s, rest).
Proof.
  intros Hs. rewrite (plain_json_string _ Hs), <- app_comm_cons, <- app_assoc.
  unfold json_element. cbn [skip_space app].
  change (is_json_space 34) with false. cbv iota.
  rewrite (json_body_plain _ _ Hs), (proj2 (decode_plain _ Hs)), of_bytes_bytes. done.
Qed.

Lemma json_array_plain s l rest fuel :
  Forall (fun s => plain s = true) (s :: l) -> (length l < fuel)%nat ->
  json_array fuel (json_elements (s :: l) ++ 93 :: rest) = Some (s :: l, rest).
Proof.
  revert s fuel. induction l as [|s' l IH]; intros s fuel Hpl Hf.
  - destruct fuel; [lia|]. inversion_clear Hpl. cbn [json_array json_elements].
    rewrite json_element_plain by done. done.
  - destruct fuel as [|fuel]; [simpl in Hf; lia|].
    apply Forall_cons in Hpl as [Hs Hpl].
    change (json_elements (s :: s' :: l))
      with (json_string_bytes s ++ 44 :: json_elements (s' :: l)).
    rewrite <- app_assoc, <- app_comm_cons. cbn [json_array].
    rewrite json_element_plain by done. cbn [skip_space].
    change (is_json_space 44) with false. cbv iota.
    rewrite (IH s' fuel Hpl) by (simpl in Hf; lia). done.
Qed.

Lemma length_json_elements l : (length l <= length (json_elements l))%nat.
Proof.
  induction l as [|s [|s' l] IH]; [simpl; lia|unfold json_elements, json_string_bytes; simpl; lia|].
  change (json_elements (s :: s' :: l)) with (json_string_bytes s ++ 44 :: json_elements (s' :: l)).
  rewrite length_app. cbn [length] in *. lia.
Qed.

Lemma json_elements_bounds l :
  Forall (fun s => plain s = true) l -> Forall (fun b => 0 <= b < 256) (json_elements l).
Proof.
  assert (forall s, plain s = true -> Forall (fun b => 0 <= b < 256) (json_string_bytes s)) as Hstr.
  { intros s Hs. rewrite (plain_json_string _ Hs).
    constructor; [lia|]. apply Forall_app. split; [apply bytes_bounds|]. repeat constructor; lia. }
  induction l as [|s [|s' l] IH]; intros Hpl; [constructor| |].
  - apply Hstr. by inversion Hpl.
  - apply Forall_cons in Hpl as [Hs Hpl].
    change (json_elements (s :: s' :: l)) with (json_string_bytes s ++ 44 :: json_elements (s' :: l)).
    apply Forall_app. split; [auto|]. constructor; [lia|auto].
Qed.

Lemma json_strings_roundtrip l :
  Forall (fun s => plain s = true) l ->
  json_Unmarshal_strings (json_Marshal_strings l) = Some l.
Proof.
  intros Hpl. unfold json_Unmarshal_strings, json_Marshal_strings.
  assert (Forall (fun b => 0 <= b < 256) (91 :: json_elements l ++ [93])) as Hb.
  { constructor; [lia|]. apply Forall_app. split; [by apply json_elements_bounds|].
    repeat constructor; lia. }
  rewrite (bytes_of_bytes _ Hb).
  destruct l as [|s l]; [done|].
  cbn [skip_space]. change (is_json_space 91) with false. cbv iota.
  assert (exists k, json_elements (s :: l) = 34 :: k) as [k Hk].
  { destruct l; simpl; unfold json_string_bytes; eauto. }
  rewrite Hk, <- app_comm_cons. cbn [skip_space]. change (is_json_space 34) with false. cbv iota.
  rewrite app_comm_cons, <- Hk.
  rewrite (json_array_plain s l []); [done|done|].
  pose proof (length_json_elements (s :: l)) as Hlen. revert Hlen.
  generalize (json_elements (s :: l)) as e. intros e. cbn [length]. rewrite length_app. lia.
Qed.

(** The size of the encoded list: two quotation marks and one separator each. *)
Lemma len_json_Marshal_strings l :
  Forall (fun s => plain s = true) l ->
  len (json_Marshal_strings l) <= 2 + Z.of_nat (sum_list_with (fun s => String.length s + 3)%nat l).
Proof.
  intros Hpl. unfold json_Marshal_strings. rewrite len_bytes.
  rewrite bytes_of_bytes; last first.
  { constructor; [lia|]. apply Forall_app. split; [by apply json_elements_bounds|].
    repeat constructor; lia. }
  assert (length (json_elements l) <= sum_list_with (fun s => String.length s + 3) l)%nat as Hle;
    [|cbn [length]; rewrite length_app; simpl; lia].
  assert (forall s, plain s = true -> length (json_string_bytes s) = String.length s + 2)%nat as Hstr.
  { intros s Hs. rewrite (plain_json_string _ Hs). simpl. rewrite length_app. simpl.
    pose proof (len_bytes s). unfold len in *. lia. }
  induction l as [|s [|s' l] IH]; [simpl; lia| |].
  - inversion_clear Hpl. cbn [json_elements sum_list_with]. rewrite Hstr by done. lia.
  - apply Forall_cons in Hpl as [Hs Hpl].
    change (json_elements (s :: s' :: l)) with (json_string_bytes s ++ 44 :: json_elements (s' :: l)).
    rewrite length_app, Hstr by done. specialize (IH Hpl). cbn [length sum_list_with] in *. lia.
Qed.

(** A digest has 32 bytes. *)
Lemma length_be32_bind l : length (l ≫= SHA256.be32) = (4 * length l)%nat.
Proof. induction l; [done|]. rewrite bind_cons, length_app, IHl. simpl. lia. Qed.

Example Sum256_abc :
  hex_string (Sum256 "abc") = "ba7816bf8f01cfea414140de5dae2223b00361a396177a9cb410ff61f20015ad".
Proof. vm_compute. reflexivity. Qed.

(** ** Round trip of valid UTF-8 text *)

Definition scalar (r : Z) : Prop := 0 <= r < 0xD800 \/ 0xE000 <= r <= 0x10FFFF.

Lemma json_cons_app e1 e2 o : json_cons (e1 ++ e2) o = json_cons e1 (json_cons e2 o).
Proof. destruct o as [[s rest]|]; simpl; [|done]. by rewrite app_assoc. Qed.

(** Bytes of a multi-byte sequence are copied. *)
Lemma json_body_high bs x :
  Forall (fun b => 0x80 <= b) bs -> json_body (bs ++ x) = json_cons bs (json_body x).
Proof.
  induction 1 as [|b bs Hb _ IH]; [cbn [app]; by destruct (json_body x) as [[??]|]|].
  rewrite <- app_comm_cons. cbn [json_body].
  rewrite (proj2 (Z.eqb_neq b 34)), (proj2 (Z.eqb_neq b 92)), (proj2 (Z.ltb_ge b 0x20)) by lia.
  change (b :: bs) with ([b] ++ bs). by rewrite IH, json_cons_app.
Qed.

Lemma encode_rune_high r : 0x80 <= r <= 0x10FFFF -> Forall (fun b => 0x80 <= b) (encode_rune r).
Proof.
  intros Hr. unfold encode_rune. rewrite (proj2 (Z.ltb_ge r 0x80)) by lia.
  pose proof (Z.div_pos r 64). pose proof (Z.div_pos r 4096). pose proof (Z.div_pos r 262144).
  repeat case_match; repeat constructor; try lia; Z.div_mod_to_equations; lia.
Qed.

(** The decoder undoes [json_escape] on every Unicode scalar value. *)
Lemma json_body_escape r x :
  scalar r -> json_body (json_escape (Some r) ++ x) = json_cons (encode_rune r) (json_body x).
Proof.
  intros Hr. destruct (decide (r < 0x80)) as [Hlow|Hhigh].
  - assert (r ∈ seqZ 0 128) as Hin by (apply elem_of_seqZ; unfold scalar in Hr; lia).
    revert Hin. vm_compute seqZ. intros Hin.
    repeat (apply elem_of_cons in Hin as [->|Hin]; [reflexivity|]). by apply not_elem_of_nil in Hin.
  - unfold json_escape. unfold html_safe, in_range.
    rewrite (proj2 (Z.leb_gt r 0x7F)), andb_false_r by lia. simpl andb.
    rewrite !(proj2 (Z.eqb_neq r _)) by lia. simpl orb.
    rewrite (proj2 (Z.ltb_ge r 0x80)) by lia.
    destruct (Z.eqb_spec r 0x2028) as [->|]; [reflexivity|].
    destruct (Z.eqb_spec r 0x2029) as [->|]; [reflexivity|]. simpl orb. cbv iota.
    apply json_body_high, encode_rune_high. unfold scalar in Hr. lia.
Qed.

Lemma encode_rune_two b0 b1 :
  in_range 0xC2 0xDF b0 && in_range 0x80 0xBF b1 = true ->
  let r := (b0 - 0xC0) * 64 + (b1 - 0x80) in encode_rune r = [b0; b1] /\ scalar r.
Proof.
  intros H r. unfold in_range in H. assert (0xC2 <= b0 <= 0xDF /\ 0x80 <= b1 <= 0xBF) as [? ?] by lia. clear H.
  subst r. split; [|left; lia]. unfold encode_rune.
  rewrite (proj2 (Z.ltb_ge _ 0x80)), (proj2 (Z.ltb_lt _ 0x800)) by lia.
  repeat f_equal; Z.div_mod_to_equations; lia.
Qed.

Lemma encode_rune_three b0 b1 b2 :
  three_bytes b0 b1 b2 = true ->
  let r := (b0 - 0xE0) * 4096 + (b1 - 0x80) * 64 + (b2 - 0x80) in encode_rune r = [b0; b1; b2] /\ scalar r.
Proof.
  intros H r. unfold three_bytes, in_range in H.
  assert (0x80 <= b1 <= 0xBF /\ 0x80 <= b2 <= 0xBF /\
          (b0 = 0xE0 /\ 0xA0 <= b1 \/ 0xE1 <= b0 <= 0xEC \/ b0 = 0xED /\ b1 <= 0x9F \/ 0xEE <= b0 <= 0xEF))
    as (? & ? & Hb) by lia. clear H.
  subst r. split; [|unfold scalar; lia]. unfold encode_rune.
  rewrite (proj2 (Z.ltb_ge _ 0x80)), (proj2 (Z.ltb_ge _ 0x800)), (proj2 (Z.ltb_lt _ 0x10000)) by lia.
  repeat f_equal; Z.div_mod_to_equations; lia.
Qed.

Lemma encode_rune_four b0 b1 b2 b3 :
  four_bytes b0 b1 b2 b3 = true ->
  let r := (b0 - 0xF0) * 262144 + (b1 - 0x80) * 4096 + (b2 - 0x80) * 64 + (b3 - 0x80) in
  encode_rune r = [b0; b1; b2; b3] /\ scalar r.
Proof.
  intros H r. unfold four_bytes, in_range in H.
  assert (0x80 <= b1 <= 0xBF /\ 0x80 <= b2 <= 0xBF /\ 0x80 <= b3 <= 0xBF /\
          (b0 = 0xF0 /\ 0x90 <= b1 \/ 0xF1 <= b0 <= 0xF3 \/ b0 = 0xF4 /\ b1 <= 0x8F))
    as (? & ? & ? & Hb) by lia. clear H.
  subst r. split; [|unfold scalar; lia]. unfold encode_rune.
  rewrite (proj2 (Z.ltb_ge _ 0x80)), (proj2 (Z.ltb_ge _ 0x800)), (proj2 (Z.ltb_ge _ 0x10000)) by lia.
  repeat f_equal; Z.div_mod_to_equations; lia.
Qed.

(** The runes of a valid UTF-8 text, each with the bytes it was decoded from. *)
Definition rune_valid (x : Z * option Z) : bool := match x.2 with Some _ => true | None => false end.

Lemma decode_cons_valid b l i :
  0 <= b -> forallb rune_valid (decode i (b :: l)) = true ->
  exists r i' l', decode i (b :: l) = (i, Some r) :: decode i' l' /\ scalar r /\
    b :: l = encode_rune r ++ l' /\ (length l' < length (b :: l))%nat.
Proof.
  intros Hb Hv. cbn [decode] in *. destruct (b <? 0x80) eqn:E.
  { exists b, (i + 1), l. split_and!; [done|left; lia| |simpl; lia]. unfold encode_rune. by rewrite E. }
  destruct l as [|b1 l]; [done|].
  destruct (in_range 0xC2 0xDF b && in_range 0x80 0xBF b1) eqn:E2.
  { destruct (encode_rune_two b b1 E2) as [He Hs]. eexists _, _, l.
    split_and!; [done|exact Hs| |simpl; lia]. by rewrite He. }
  destruct l as [|b2 l]; [done|]. destruct (three_bytes b b1 b2) eqn:E3.
  { destruct (encode_rune_three b b1 b2 E3) as [He Hs]. eexists _, _, l.
    split_and!; [done|exact Hs| |simpl; lia]. by rewrite He. }
  destruct l as [|b3 l]; [done|]. destruct (four_bytes b b1 b2 b3) eqn:E4; [|done].
  destruct (encode_rune_four b b1 b2 b3 E4) as [He Hs]. eexists _, _, l.
  split_and!; [done|exact Hs| |simpl; lia]. by rewrite He.
Qed.

Lemma json_body_valid l i rest :
  Forall (fun b => 0 <= b) l -> forallb rune_valid (decode i l) = true ->
  json_body ((decode i l ≫= fun '(_, r) => json_escape r) ++ 34 :: rest) = Some (l, rest) /\
  (decode i l ≫= fun '(_, r) => encode_rune (default RuneError r)) = l.
Proof.
  remember (length l) as n eqn:Hn. revert l i Hn.
  induction n as [n IH] using lt_wf_ind. intros [|b l] i -> Hpos Hv; [done|].
  destruct (decode_cons_valid b l i) as (r & i' & l' & Hd & Hs & Hl & Hlen); [by inversion Hpos|done|].
  rewrite Hd in Hv |- *. rewrite Hl in Hpos. apply Forall_app in Hpos as [_ Hpos].
  destruct (IH (length l') Hlen l' i' eq_refl Hpos) as [IH1 IH2]; [exact Hv|].
  rewrite !bind_cons, <- app_assoc, json_body_escape, IH1, IH2 by done. simpl. by rewrite Hl.
Qed.

Lemma ValidString_runes s : ValidString s = forallb rune_valid (decode 0 (bytes s)).
Proof. unfold ValidString. induction (decode 0 (bytes s)) as [|[i r] l IH]; simpl; [done|]. by rewrite IH. Qed.

(** A valid UTF-8 string survives [json.Marshal] and [json.Unmarshal], whatever
    follows it. *)
Lemma json_string_roundtrip s rest :
  ValidString s = true -> json_element (json_string_bytes s ++ rest) = Some (s, rest).
Proof.
  rewrite ValidString_runes. intros Hv.
  destruct (json_body_valid (bytes s) 0 rest) as [Hb He]; [|exact Hv|].
  { eapply Forall_impl; [apply bytes_bounds|]. simpl. lia. }
  unfold json_string_bytes. rewrite <- app_comm_cons, <- app_assoc. unfold json_element. cbn [skip_space app].
  change (is_json_space 34) with false. cbv iota. rewrite Hb. unfold sanitize. by rewrite He, of_bytes_bytes.
Qed.

Lemma json_string_inj s1 s2 rest1 rest2 :
  ValidString s1 = true -> ValidString s2 = true ->
  json_string_bytes s1 ++ rest1 = json_string_bytes s2 ++ rest2 -> s1 = s2 /\ rest1 = rest2.
Proof.
  intros H1 H2 He. pose proof (json_string_roundtrip s1 rest1 H1) as R1. rewrite He in R1.
  rewrite (json_string_roundtrip s2 rest2 H2) in R1. by injection R1.
Qed.

(** ** Hexadecimal text *)

Lemma hex_digit_inj x y : 0 <= x < 16 -> 0 <= y < 16 -> hex_digit x = hex_digit y -> x = y.
Proof. unfold hex_digit. intros. repeat case_match; lia. Qed.

Lemma hex_encode_inj l1 l2 :
  Forall (fun b => 0 <= b < 256) l1 -> Forall (fun b => 0 <= b < 256) l2 ->
  hex_encode l1 = hex_encode l2 -> l1 = l2.
Proof.
  unfold hex_encode. intros H1. revert l2.
  induction H1 as [|b1 l1 Hb1 _ IH]; intros l2 H2; destruct H2 as [|b2 l2 Hb2 H2]; try done.
  rewrite !bind_cons. simpl. intros [= Hd Hm Hl].
  apply hex_digit_inj in Hd, Hm; [|Z.div_mod_to_equations; lia..].
  f_equal; [Z.div_mod_to_equations; lia|by apply IH].
Qed.

Lemma hex_encode_bytes l : Forall (fun b => 0 <= b < 256) l -> Forall (fun b => 0 <= b < 256) (hex_encode l).
Proof.
  unfold hex_encode. induction 1 as [|b l Hb _ IH]; [constructor|]. rewrite bind_cons.
  apply Forall_app. split; [|done]. unfold hex_digit.
  repeat constructor; repeat case_match; Z.div_mod_to_equations; lia.
Qed.

Lemma hex_string_inj s1 s2 : hex_string s1 = hex_string s2 -> s1 = s2.
Proof.
  unfold hex_string. intros H. apply (f_equal bytes) in H.
  rewrite !bytes_of_bytes in H by apply hex_encode_bytes, bytes_bounds.
  apply bytes_inj, hex_encode_inj; [apply bytes_bounds..|exact H].
Qed.

(** ** Shape of a digest *)

Lemma round_length st kw : length st = 8%nat -> length (SHA256.round st kw) = 8%nat.
Proof. intros H. do 9 (destruct st as [|? st]; try done). Qed.

Lemma blocks_length n h l : length h = 8%nat -> length (SHA256.blocks n h l) = 8%nat.
Proof.
  revert h l. induction n as [|n IH]; intros h l Hh; [done|]. cbn [SHA256.blocks]. apply IH.
  unfold SHA256.compress. rewrite length_zip_with, Hh.
  assert (forall ws st, length st = 8%nat -> length (foldl SHA256.round st ws) = 8%nat) as Hf.
  { intros ws. induction ws as [|w ws IHw]; intros st Hst; [done|]. by apply IHw, round_length. }
  rewrite Hf by done. done.
Qed.

Lemma land_255 x : 0 <= Z.land x 255 < 256.
Proof. change 255 with (Z.ones 8). rewrite Z.land_ones by lia. apply Z.mod_pos_bound. lia. Qed.

Lemma Sum256_bytes s :
  length (bytes (Sum256 s)) = 32%nat /\ Forall (fun b => 0 <= b < 256) (SHA256.sum (bytes s)).
Proof.
  assert (Forall (fun b => 0 <= b < 256) (SHA256.sum (bytes s))) as Hb.
  { unfold SHA256.sum. apply Forall_bind, Forall_forall. intros w _. unfold SHA256.be32.
    repeat apply Forall_cons_2; try apply Forall_nil_2; apply land_255. }
  split; [|done]. unfold Sum256. rewrite bytes_of_bytes by done. unfold SHA256.sum.
  by rewrite length_be32_bind, blocks_length.
Qed.

(** The text of a digest is 64 lower-case hexadecimal digits. *)
Lemma hex_digest_pattern s : lower_hex_pattern 64 (hex_string (Sum256 s)) = true.
Proof.
  destruct (Sum256_bytes s) as [Hl _]. unfold lower_hex_pattern, hex_string.
  assert (Forall (fun b => 0 <= b < 256) (bytes (Sum256 s))) as Hb by apply bytes_bounds.
  rewrite len_bytes, bytes_of_bytes by by apply hex_encode_bytes.
  revert Hl Hb. generalize (bytes (Sum256 s)). intros l Hl Hb. apply andb_true_intro. split.
  - assert (length (hex_encode l) = 2 * length l)%nat as ->; [|rewrite Hl; done].
    clear. unfold hex_encode. induction l as [|b l IH]; [done|]. rewrite bind_cons, length_app, IH. simpl. lia.
  - clear Hl. unfold hex_encode. induction Hb as [|b l Hb _ IH]; [done|]. rewrite bind_cons. cbn [app forallb].
    rewrite IH. assert (forall n, 0 <= n < 16 -> is_lower_hex (hex_digit n) = true) as Hx.
    { intros n Hn. unfold hex_digit, is_lower_hex, is_digit, in_range. case_match; lia. }
    rewrite !Hx by (Z.div_mod_to_equations; lia). done.
Qed.
