(* ===== verification/GoJson.v ===== *)
(** JSON values as [encoding/json] reads and writes them: the grammar of the
    scanner with its nesting limit, the compact text [json.Marshal] prints, and the
    way [Unmarshal] fills a Go value that may already hold something (a later
    duplicate of a key is decoded over the earlier one, [null] leaves the value as it
    was, a slice keeps its backing array). The text of a value parses back to it. *)

From S2P Require Export GoCodec.
From Stdlib Require Import Ascii.

(** ** Values *)

(** A number keeps its literal: what it denotes depends on the Go type it is decoded
    into. The fields of an object keep their order and their duplicates. *)
Inductive json :=
  | JNull
  | JBool (b : bool)
  | JNumber (literal : list Z)
  | JString (s : string)
  | JArray (elements : list json)
  | JObject (fields : list (string * json)).

(** ** Printing *)

Section Separated.
Context {A : Type} (print : A -> list Z).

(** Elements with a comma between them. *)
Fixpoint comma_separated (l : list A) : list Z :=
  match l with
  | [] => []
  | [x] => print x
  | x :: l => print x ++ 44 :: comma_separated l
  end.
End Separated.

Definition null_text : list Z := [110; 117; 108; 108].
Definition true_text : list Z := [116; 114; 117; 101].
Definition false_text : list Z := [102; 97; 108; 115; 101].

(** [json.Marshal] *)
Fixpoint json_text (v : json) : list Z :=
  match v with
  | JNull => null_text
  | JBool b => if b then true_text else false_text
  | JNumber literal => literal
  | JString s => json_string_bytes s
  | JArray elements => 91 :: comma_separated json_text elements ++ [93]
  | JObject fields =>
      123 :: comma_separated (fun kv => json_string_bytes kv.1 ++ 58 :: json_text kv.2) fields ++ [125]
  end.

Definition json_field (kv : string * json) : list Z := json_string_bytes kv.1 ++ 58 :: json_text kv.2.

(** ** Decimal integers *)

Fixpoint digits_acc (fuel : nat) (n : Z) (acc : list Z) : list Z :=
  match fuel with
  | O => acc
  | S fuel => if n <? 10 then 48 + n :: acc else digits_acc fuel (n / 10) (48 + n mod 10 :: acc)
  end.

(** [strconv.AppendUint(n, 10)]; a number of [b] bits has at most [b] digits. *)
Definition digits (n : Z) : list Z := digits_acc (S (Z.to_nat (Z.log2 n))) n [].

(** [strconv.AppendInt(n, 10)] *)
Definition decimal (n : Z) : list Z := if n <? 0 then 45 :: digits (- n) else digits n.

Definition digits_value (l : list Z) : Z := foldl (fun n d => n * 10 + (d - 48)) 0 l.

(** [strconv.ParseUint(s, 10, 64)] and [strconv.ParseInt(s, 10, 64)], on the text of
    a JSON number. *)
Definition ParseUint (l : list Z) : option Z :=
  match l with
  | [] => None
  | _ => if forallb is_digit l && (digits_value l <=? MaxUint64) then Some (digits_value l) else None
  end.

Definition ParseInt (l : list Z) : option Z :=
  match l with
  | [] => None
  | 45 :: l =>
      match l with
      | [] => None
      | _ => if forallb is_digit l && (digits_value l <=? MaxInt64 + 1) then Some (- digits_value l) else None
      end
  | _ => if forallb is_digit l && (digits_value l <=? MaxInt64) then Some (digits_value l) else None
  end.

(** ** Scanning *)

(** The longest run of digits. *)
Fixpoint span_digits (l : list Z) : list Z * list Z :=
  match l with
  | b :: l' => if is_digit b then let (ds, rest) := span_digits l' in (b :: ds, rest) else ([], l)
  | [] => ([], [])
  end.

(** [0] or a digit from 1 through 9 and more digits. *)
Definition scan_integer (l : list Z) : option (list Z * list Z) :=
  match l with
  | 48 :: rest => Some ([48], rest)
  | b :: rest => if in_range 49 57 b then let (ds, rest) := span_digits rest in Some (b :: ds, rest) else None
  | [] => None
  end.

Definition scan_fraction (l : list Z) : option (list Z * list Z) :=
  match l with
  | 46 :: rest => match span_digits rest with
                  | ([], _) => None
                  | (ds, rest) => Some (46 :: ds, rest)
                  end
  | _ => Some ([], l)
  end.

Definition scan_exponent (l : list Z) : option (list Z * list Z) :=
  match l with
  | e :: rest =>
      if (e =? 101) || (e =? 69) then
        let (sign, rest) := match rest with
                            | s :: rest' => if (s =? 43) || (s =? 45) then ([s], rest') else ([], rest)
                            | [] => ([], rest)
                            end in
        match span_digits rest with
        | ([], _) => None
        | (ds, rest) => Some (e :: sign ++ ds, rest)
        end
      else Some ([], l)
  | [] => Some ([], l)
  end.

Definition scan_number (l : list Z) : option (list Z * list Z) :=
  let (sign, l) := match l with 45 :: rest => ([45], rest) | _ => ([], l) end in
  '(i, l) ← scan_integer l;
  '(f, l) ← scan_fraction l;
  '(e, l) ← scan_exponent l;
  Some (sign ++ i ++ f ++ e, l).

Definition scan_string (l : list Z) : option (string * list Z) :=
  match l with
  | 34 :: l => '(s, rest) ← json_body l; Some (of_bytes (sanitize s), rest)
  | _ => None
  end.

Section Elements.
Context {A : Type} (element : list Z -> option (A * list Z)) (close : Z).

(** What follows an opening bracket once it is known not to close at once:
    elements with commas between them, up to the closing bracket. *)
Fixpoint scan_elements (fuel : nat) (l : list Z) : option (list A * list Z) :=
  match fuel with
  | O => None
  | S fuel =>
      '(x, rest) ← element l;
      match skip_space rest with
      | b :: rest =>
          if b =? 44 then '(xs, rest) ← scan_elements fuel rest; Some (x :: xs, rest)
          else if b =? close then Some ([x], rest) else None
      | [] => None
      end
  end.

Definition scan_sequence (fuel : nat) (l : list Z) : option (list A * list Z) :=
  match skip_space l with
  | b :: rest => if b =? close then Some ([], rest) else scan_elements fuel l
  | [] => None
  end.
End Elements.

(** [maxNestingDepth] of the scanner. *)
Definition maxNestingDepth : Z := 10000.

(** One value and the text after it. The fuel bounds nesting and the number of
    elements; every value takes at least one byte, so the length of the text is
    enough. *)
Fixpoint scan_value (fuel : nat) (depth : Z) (l : list Z) : option (json * list Z) :=
  match fuel with
  | O => None
  | S fuel =>
      match skip_space l with
      | 110 :: 117 :: 108 :: 108 :: rest => Some (JNull, rest)
      | 116 :: 114 :: 117 :: 101 :: rest => Some (JBool true, rest)
      | 102 :: 97 :: 108 :: 115 :: 101 :: rest => Some (JBool false, rest)
      | 34 :: rest => '(s, rest) ← scan_string (34 :: rest); Some (JString s, rest)
      | 91 :: rest =>
          if maxNestingDepth <=? depth then None
          else '(xs, rest) ← scan_sequence (scan_value fuel (depth + 1)) 93 fuel rest; Some (JArray xs, rest)
      | 123 :: rest =>
          if maxNestingDepth <=? depth then None
          else
            '(kvs, rest) ← scan_sequence
              (fun l => '(k, rest) ← scan_string (skip_space l);
                        match skip_space rest with
                        | 58 :: rest => '(v, rest) ← scan_value fuel (depth + 1) rest; Some ((k, v), rest)
                        | _ => None
                        end) 125 fuel rest;
            Some (JObject kvs, rest)
      | l => '(n, rest) ← scan_number l; Some (JNumber n, rest)
      end
  end.

(** A text that holds exactly one value: [json.Unmarshal], and [Decoder.Decode]
    followed by a [Decode] that must report [io.EOF]. *)
Definition json_parse (text : string) : option json :=
  let l := bytes text in
  '(v, rest) ← scan_value (S (length l)) 0 l;
  match skip_space rest with [] => Some v | _ => None end.

(** ** Unmarshalling *)

(** Filling a Go value from a JSON value; the first argument is what it held. An
    error of the decoder leaves a value that its caller ignores. *)
Definition decoder (A : Type) : Type := A -> json -> result A.

Definition type_error : error := New "json: cannot unmarshal %s into Go value of type %s".

(** A [string], and a named string type. *)
Definition unmarshal_string : decoder string := fun old v =>
  match v with JNull => Ok old | JString s => Ok s | _ => Err type_error end.

Definition unmarshal_bool : decoder bool := fun old v =>
  match v with JNull => Ok old | JBool b => Ok b | _ => Err type_error end.

Definition unmarshal_number (parse : list Z -> option Z) : decoder Z := fun old v =>
  match v with
  | JNull => Ok old
  | JNumber l => match parse l with Some n => Ok n | None => Err type_error end
  | _ => Err type_error
  end.

(** An [int] or [int64], and a [uint64]. *)
Definition unmarshal_int : decoder Z := unmarshal_number ParseInt.
Definition unmarshal_uint64 : decoder Z := unmarshal_number ParseUint.

(** A slice: [None] is the nil slice; [spare] is what its backing array holds past
    its length. An element is decoded over what the backing array held there. *)
Record slice (A : Type) := Slice { sl_elements : option (list A); sl_spare : list A }.
Arguments Slice {A}.
Arguments sl_elements {A}.
Arguments sl_spare {A}.

Section Slices.
Context {A : Type} (zero : A) (element : decoder A).

Fixpoint unmarshal_elements (backing : list A) (l : list json) : result (list A) :=
  match l with
  | [] => Ok []
  | v :: l =>
      let? x := element (default zero (head backing)) v in
      let? xs := unmarshal_elements (tail backing) l in
      Ok (x :: xs)
  end.

Definition unmarshal_slice : decoder (slice A) := fun old v =>
  match v with
  | JNull => Ok (Slice None [])
  | JArray [] => Ok (Slice (Some []) [])
  | JArray l =>
      let backing := (default [] old.(sl_elements) ++ old.(sl_spare))%list in
      let? xs := unmarshal_elements backing l in
      Ok (Slice (Some xs) (drop (length l) backing))
  | _ => Err type_error
  end.
End Slices.

(** [foldName]: letters fold to upper case; of the other runes only the long s and
    the Kelvin sign fold to an ASCII letter. *)
Definition fold_rune (r : Z) : Z :=
  if is_lower r then r - 32 else if r =? 0x17F then 83 else if r =? 0x212A then 75 else r.
Definition fold_name (s : string) : list Z := (fun '(_, r) => fold_rune r) <$> range_string s.

(** The field of a struct that a key names: exactly, or else up to case. *)
Definition resolve_field (names : list string) (key : string) : option string :=
  if decide (key ∈ names) then Some key
  else snd <$> list_find (fun name => fold_name name = fold_name key) names.

(** The members of the object a struct is decoded from, under
    [DisallowUnknownFields]; [null] leaves the struct as it was. *)
Definition struct_members (names : list string) (v : json) : result (list (string * json)) :=
  match v with
  | JNull => Ok []
  | JObject members =>
      reject (New "json: unknown field %q")
        when (Exists (fun member => resolve_field names member.1 = None) members) in
      Ok members
  | _ => Err type_error
  end.

(** The same for plain [json.Unmarshal]: a member that names no field is skipped. *)
Definition struct_members_any (v : json) : result (list (string * json)) :=
  match v with
  | JNull => Ok []
  | JObject members => Ok members
  | _ => Err type_error
  end.

Fixpoint unmarshal_each {A} (decode_value : decoder A) (old : A) (l : list json) : result A :=
  match l with
  | [] => Ok old
  | v :: l => let? x := decode_value old v in unmarshal_each decode_value x l
  end.

(** One field: every member that names it, in order, decoded over what it held. A
    member writes no other field, so the fields can be taken one by one. *)
Definition unmarshal_field {A} (names : list string) (members : list (string * json)) (name : string)
    (decode_value : decoder A) (old : A) : result A :=
  unmarshal_each decode_value old (snd <$> filter (fun member => resolve_field names member.1 = Some name) members).

(** ** Values by induction *)

Section JsonInd.
Context (P : json -> Prop).
Hypothesis (Hnull : P JNull) (Hbool : forall b, P (JBool b)) (Hnumber : forall l, P (JNumber l))
  (Hstring : forall s, P (JString s)) (Harray : forall l, Forall P l -> P (JArray l))
  (Hobject : forall l, Forall (fun kv => P kv.2) l -> P (JObject l)).

Fixpoint json_tree_ind (v : json) : P v :=
  match v with
  | JNull => Hnull
  | JBool b => Hbool b
  | JNumber l => Hnumber l
  | JString s => Hstring s
  | JArray l =>
      Harray l ((fix go l := match l return Forall P l with
                             | [] => Forall_nil_2 _
                             | v :: l => Forall_cons_2 _ _ _ (json_tree_ind v) (go l)
                             end) l)
  | JObject l =>
      Hobject l ((fix go l := match l return Forall (fun kv : string * json => P kv.2) l with
                              | [] => Forall_nil_2 _
                              | kv :: l => Forall_cons_2 _ _ _ (json_tree_ind kv.2) (go l)
                              end) l)
  end.
End JsonInd.

Fixpoint json_size (v : json) : nat :=
  match v with
  | JArray l => S (sum_list_with json_size l)
  | JObject l => S (sum_list_with (fun kv => json_size kv.2) l)
  | _ => 1
  end.

Fixpoint json_depth (v : json) : Z :=
  match v with
  | JArray l => 1 + foldr Z.max 0 (json_depth <$> l)
  | JObject l => 1 + foldr Z.max 0 ((fun kv => json_depth kv.2) <$> l)
  | _ => 0
  end.

(** What a printed value is followed by: nothing a number could go on with. *)
Definition ends (rest : list Z) : Prop :=
  match rest with [] => True | b :: _ => b ∈ [44; 93; 125; 10; 32] end.

(** Literals the scanner reads as they are. *)
Definition number_literal (l : list Z) : Prop :=
  (exists b l', l = b :: l' /\ (b = 45 \/ is_digit b = true)) /\
  forall rest, ends rest -> scan_number (l ++ rest) = Some (l, rest).

(** Values of Go data: valid UTF-8 and number literals. *)
Fixpoint json_plain (v : json) : Prop :=
  match v with
  | JNumber l => number_literal l
  | JString s => ValidString s = true
  | JArray l => foldr and True (json_plain <$> l)
  | JObject l => foldr and True ((fun kv => ValidString kv.1 = true /\ json_plain kv.2) <$> l)
  | _ => True
  end.

Lemma scan_string_roundtrip s rest :
  ValidString s = true -> scan_string (json_string_bytes s ++ rest) = Some (s, rest).
Proof.
  intros H. apply (json_string_roundtrip s rest) in H. revert H. unfold json_element, json_string_bytes.
  rewrite <- app_comm_cons. cbn [skip_space]. change (is_json_space 34) with false. cbv iota. cbn [scan_string].
  destruct (json_body _) as [[??]|]; simpl; congruence.
Qed.

Lemma comma_separated_cons {A} (print : A -> list Z) x y l :
  comma_separated print (x :: y :: l) = print x ++ 44 :: comma_separated print (y :: l).
Proof. done. Qed.

Lemma scan_elements_print {A} (element : list Z -> option (A * list Z)) (print : A -> list Z) close x l rest fuel :
  (forall x' rest, x' ∈ x :: l -> ends rest -> element (print x' ++ rest) = Some (x', rest)) ->
  close = 93 \/ close = 125 -> (length l < fuel)%nat ->
  scan_elements element close fuel (comma_separated print (x :: l) ++ close :: rest) = Some (x :: l, rest).
Proof.
  intros He Hc. revert x fuel He. induction l as [|y l IH]; intros x fuel He Hf; (destruct fuel as [|fuel]; [simpl in Hf; lia|]).
  - cbn [comma_separated scan_elements]. rewrite He; [|set_solver|destruct Hc as [-> | ->]; simpl; set_solver].
    destruct Hc as [-> | ->]; done.
  - rewrite comma_separated_cons, <- app_assoc, <- app_comm_cons. cbn [scan_elements].
    rewrite He; [|set_solver|simpl; set_solver]. cbn [mbind option_bind skip_space].
    change (is_json_space 44) with false. cbv iota. change (44 =? 44) with true. cbv iota.
    rewrite (IH y fuel); [done| |simpl in Hf; lia]. intros x' r Hin. apply He. set_solver.
Qed.

Lemma comma_separated_head {A} (print : A -> list Z) x l :
  exists tail, comma_separated print (x :: l) = print x ++ tail.
Proof. destruct l; [exists []; by rewrite app_nil_r|]. rewrite comma_separated_cons. eauto. Qed.

(** A sequence whose elements start with a byte that is neither a space nor the
    closing bracket. *)
Lemma scan_sequence_print {A} (element : list Z -> option (A * list Z)) (print : A -> list Z) close l rest fuel :
  (forall x rest, x ∈ l -> ends rest -> element (print x ++ rest) = Some (x, rest)) ->
  (forall x, x ∈ l -> exists b t, print x = b :: t /\ is_json_space b = false /\ b <> close) ->
  close = 93 \/ close = 125 -> (length l <= fuel)%nat ->
  scan_sequence element close fuel (comma_separated print l ++ close :: rest) = Some (l, rest).
Proof.
  intros He Hh Hc Hf. destruct l as [|x l].
  - unfold scan_sequence. destruct Hc as [-> | ->]; done.
  - pose proof (scan_elements_print element print close x l rest fuel He Hc ltac:(simpl in Hf; lia)) as H.
    unfold scan_sequence. destruct (comma_separated_head print x l) as [t Ht].
    destruct (Hh x) as (b & t' & Hp & Hs & Hb); [set_solver|].
    assert (skip_space (comma_separated print (x :: l) ++ close :: rest) = comma_separated print (x :: l) ++ close :: rest) as ->
      by (rewrite Ht, Hp, <- !app_comm_cons; cbn [skip_space]; by rewrite Hs).
    destruct (comma_separated print (x :: l) ++ close :: rest) as [|b' l'] eqn:E; [rewrite Ht, Hp in E; done|].
    assert (b' = b) as -> by (rewrite Ht, Hp in E; by injection E).
    by rewrite (proj2 (Z.eqb_neq b close) Hb).
Qed.

Lemma json_text_head v :
  json_plain v -> exists b t, json_text v = b :: t /\ is_json_space b = false /\ b <> 93 /\ b <> 125.
Proof.
  destruct v as [|[]|l|s|l|l]; simpl; try (intros; eexists _, _; by split_and!).
  intros [(b & t & -> & Hb) _]. exists b, t. split; [done|]. unfold is_digit, in_range, is_json_space in *. lia.
Qed.

Lemma skip_space_head b l : is_json_space b = false -> skip_space (b :: l) = b :: l.
Proof. intros H. cbn [skip_space]. by rewrite H. Qed.

Lemma number_head_cases b :
  b = 45 \/ is_digit b = true ->
  b = 45 \/ b = 48 \/ b = 49 \/ b = 50 \/ b = 51 \/ b = 52 \/ b = 53 \/ b = 54 \/ b = 55 \/ b = 56 \/ b = 57.
Proof. unfold is_digit, in_range. lia. Qed.

Lemma foldr_and_Forall {A} (P : A -> Prop) (l : list A) : foldr and True (P <$> l) <-> Forall P l.
Proof. induction l as [|x l IH]; simpl; [by split|]. rewrite IH, Forall_cons. done. Qed.

Lemma json_size_pos v : (1 <= json_size v)%nat.
Proof. destruct v; simpl; lia. Qed.

Lemma size_elements {A} (f : A -> nat) (l : list A) :
  (forall x, 1 <= f x)%nat -> (length l <= sum_list_with f l)%nat /\ forall x, x ∈ l -> (f x <= sum_list_with f l)%nat.
Proof.
  intros Hf. induction l as [|y l [IH1 IH2]]; simpl; [split; [lia|set_solver]|].
  specialize (Hf y). split; [lia|]. intros x [->|Hin]%elem_of_cons; [lia|]. specialize (IH2 x Hin). lia.
Qed.

Lemma depth_elements {A} (f : A -> Z) (l : list A) x : x ∈ l -> f x <= foldr Z.max 0 (f <$> l).
Proof.
  induction l as [|y l IH]; [set_solver|]. rewrite fmap_cons. cbn [foldr].
  intros [->|Hin]%elem_of_cons; [lia|]. specialize (IH Hin). lia.
Qed.

Lemma foldr_max_nonneg l : 0 <= foldr Z.max 0 l.
Proof. induction l; simpl; lia. Qed.

(** The scanner reads a printed value back, whatever may follow it. *)
Lemma scan_value_text v : forall fuel depth rest,
  json_plain v -> 0 <= depth -> depth + json_depth v <= maxNestingDepth -> (json_size v <= fuel)%nat -> ends rest ->
  scan_value fuel depth (json_text v ++ rest) = Some (v, rest).
Proof.
  induction v as [|b|n|s|l IH|l IH] using json_tree_ind; intros [|fuel] depth rest Hp Hd0 Hd Hf He;
    try (simpl in Hf; lia).
  - done.
  - by destruct b.
  - destruct Hp as [(b & l & -> & Hb) Hn]. specialize (Hn rest He).
    cbn [json_text] in *. rewrite <- app_comm_cons in *. cbn [scan_value].
    rewrite skip_space_head by (unfold is_digit, in_range, is_json_space in *; lia).
    apply number_head_cases in Hb. repeat (destruct Hb as [->|Hb]; [by rewrite Hn|]). subst b. by rewrite Hn.
  - cbn [json_text]. pose proof (scan_string_roundtrip s rest Hp) as Hs. revert Hs.
    unfold json_string_bytes. rewrite <- app_comm_cons. cbn [scan_value]. rewrite skip_space_head by done.
    intros Hs. by rewrite Hs.
  - cbn [json_text json_depth json_size json_plain] in *. rewrite foldr_and_Forall in Hp.
    rewrite <- app_comm_cons, <- app_assoc. cbn [scan_value app]. rewrite skip_space_head by done. cbv iota beta.
    destruct (size_elements json_size l json_size_pos) as [Hl Hx].
    rewrite (proj2 (Z.leb_gt maxNestingDepth depth)) by (pose proof (foldr_max_nonneg (json_depth <$> l)); lia).
    rewrite scan_sequence_print; [done| | |by left|lia].
    + intros x r Hin Hr. rewrite Forall_forall in IH, Hp. pose proof (depth_elements json_depth l x Hin).
      specialize (Hx x Hin). apply IH; [done|by apply Hp|lia|lia|lia|done].
    + intros x Hin. rewrite Forall_forall in Hp. destruct (json_text_head x (Hp x Hin)) as (b & t & ? & ? & ? & ?). eauto.
  - cbn [json_text json_depth json_size json_plain] in *. rewrite foldr_and_Forall in Hp.
    rewrite <- app_comm_cons, <- app_assoc. cbn [scan_value app]. rewrite skip_space_head by done. cbv iota beta.
    destruct (size_elements (fun kv : string * json => json_size kv.2) l ltac:(intros; apply json_size_pos)) as [Hl Hx].
    rewrite (proj2 (Z.leb_gt maxNestingDepth depth)) by (pose proof (foldr_max_nonneg ((fun kv : string * json => json_depth kv.2) <$> l)); lia).
    rewrite scan_sequence_print; [done| | |by right|lia].
    + intros [k x] r Hin Hr. rewrite Forall_forall in IH, Hp.
      pose proof (depth_elements (fun kv : string * json => json_depth kv.2) l _ Hin) as Hdx. cbn [snd] in Hdx.
      specialize (Hx _ Hin). specialize (IH _ Hin). destruct (Hp _ Hin) as [Hk Hv]. cbn [fst snd] in *.
      rewrite <- app_assoc. change (skip_space (json_string_bytes k ++ (58 :: json_text x) ++ r))
        with (json_string_bytes k ++ (58 :: json_text x) ++ r).
      rewrite (scan_string_roundtrip k _ Hk). cbn [mbind option_bind].
      rewrite <- app_comm_cons, skip_space_head by done. cbv iota beta.
      rewrite IH; [done|done|lia|lia|lia|done].
    + intros [k x] Hin. cbn [fst snd]. unfold json_string_bytes. eexists _, _. by split_and!.
Qed.

Lemma length_comma_separated {A} (print : A -> list Z) (f : A -> nat) l :
  (forall x, x ∈ l -> f x <= length (print x))%nat -> (sum_list_with f l <= length (comma_separated print l))%nat.
Proof.
  induction l as [|x [|y l] IH]; intros H; [simpl; lia|simpl; pose proof (H x ltac:(set_solver)); lia|].
  rewrite comma_separated_cons, length_app. cbn [length sum_list_with] in *.
  pose proof (H x ltac:(set_solver)). assert (f y + sum_list_with f l <= length (comma_separated print (y :: l)))%nat
    by (apply IH; intros; apply H; set_solver). lia.
Qed.

Lemma json_size_text v : json_plain v -> (json_size v <= length (json_text v))%nat.
Proof.
  induction v as [|b|n|s|l IH|l IH] using json_tree_ind; cbn [json_plain json_size json_text]; intros Hp; try (simpl; lia).
  - destruct b; simpl; lia.
  - destruct Hp as [(b & l & -> & _) _]. simpl. lia.
  - rewrite foldr_and_Forall in Hp. rewrite Forall_forall in IH, Hp. cbn [length]. rewrite length_app.
    pose proof (length_comma_separated json_text json_size l ltac:(intros; apply IH; [done|by apply Hp])). lia.
  - rewrite foldr_and_Forall in Hp. rewrite Forall_forall in IH, Hp. cbn [length]. rewrite length_app.
    assert (sum_list_with (fun kv => json_size kv.2) l <=
      length (comma_separated (fun kv => json_string_bytes kv.1 ++ 58%Z :: json_text kv.2) l))%nat; [|lia].
    apply length_comma_separated. intros x Hx. rewrite length_app. cbn [length].
    specialize (IH x Hx (proj2 (Hp x Hx))). lia.
Qed.

(** Printing and parsing: the text of a value, with white space after it, parses to
    the value. *)
Lemma json_roundtrip v space :
  json_plain v -> json_depth v <= maxNestingDepth -> Forall (fun b => 0 <= b < 256) (json_text v) ->
  space = [] \/ space = [10] ->
  json_parse (of_bytes (json_text v ++ space)) = Some v.
Proof.
  intros Hp Hd Hb Hs. unfold json_parse. rewrite bytes_of_bytes
    by (apply Forall_app; split; [done|destruct Hs as [-> | ->]; repeat constructor; lia]).
  rewrite scan_value_text; [|done|lia|lia| |destruct Hs as [-> | ->]; simpl; set_solver].
  - by destruct Hs as [-> | ->].
  - rewrite length_app. pose proof (json_size_text v Hp). lia.
Qed.

(** ** Integers read back *)

Lemma digits_value_acc l n : foldl (fun n d => n * 10 + (d - 48)) n l = n * 10 ^ Z.of_nat (length l) + digits_value l.
Proof.
  unfold digits_value. revert n. induction l as [|d l IH]; intros n; [simpl; lia|].
  cbn [foldl length]. rewrite IH, (IH (0 * 10 + (d - 48))), Nat2Z.inj_succ, Z.pow_succ_r by lia. ring.
Qed.

Lemma digits_acc_value fuel : forall n acc, 0 <= n < 2 ^ Z.of_nat fuel ->
  digits_value (digits_acc fuel n acc) = n * 10 ^ Z.of_nat (length acc) + digits_value acc.
Proof.
  induction fuel as [|fuel IH]; intros n acc Hn; [simpl in *; assert (n = 0) as -> by lia; lia|].
  cbn [digits_acc]. destruct (Z.ltb_spec n 10).
  - unfold digits_value at 1. cbn [foldl]. rewrite digits_value_acc. lia.
  - rewrite Nat2Z.inj_succ, Z.pow_succ_r in Hn by lia.
    rewrite IH by (split; [apply Z.div_pos; lia|apply Z.div_lt_upper_bound; lia]).
    cbn [length]. rewrite Nat2Z.inj_succ, Z.pow_succ_r by lia.
    unfold digits_value at 1. cbn [foldl]. rewrite digits_value_acc.
    pose proof (Z.div_mod n 10 ltac:(lia)). nia.
Qed.

Lemma digits_acc_shape fuel n acc :
  0 <= n -> forallb is_digit acc = true -> forallb is_digit (digits_acc fuel n acc) = true.
Proof.
  revert n acc. induction fuel as [|fuel IH]; intros n acc Hn Ha; [done|]. cbn [digits_acc].
  destruct (Z.ltb_spec n 10); [|apply IH; [apply Z.div_pos; lia|]]; cbn [forallb]; rewrite Ha, andb_true_r;
    unfold is_digit, in_range; [lia|]. pose proof (Z.mod_pos_bound n 10). lia.
Qed.

Lemma digits_acc_head fuel : forall n acc, 0 < n < 2 ^ Z.of_nat fuel ->
  exists d l, digits_acc fuel n acc = d :: l /\ in_range 49 57 d = true.
Proof.
  induction fuel as [|fuel IH]; intros n acc Hn; [simpl in Hn; lia|]. cbn [digits_acc].
  destruct (Z.ltb_spec n 10); [exists (48 + n), acc; unfold in_range; split; [done|lia]|].
  rewrite Nat2Z.inj_succ, Z.pow_succ_r in Hn by lia.
  apply IH. split; [apply Z.div_str_pos; lia|apply Z.div_lt_upper_bound; lia].
Qed.

Lemma digits_bound n : 0 <= n -> 0 <= n < 2 ^ Z.of_nat (S (Z.to_nat (Z.log2 n))).
Proof.
  intros Hn. rewrite Nat2Z.inj_succ, Z2Nat.id by apply Z.log2_nonneg. split; [done|].
  destruct (decide (n = 0)) as [->|]; [simpl; lia|]. apply Z.log2_spec. lia.
Qed.

Lemma digits_spec n :
  0 <= n -> digits_value (digits n) = n /\ forallb is_digit (digits n) = true /\
  (n = 0 /\ digits n = [48] \/ exists d l, digits n = d :: l /\ in_range 49 57 d = true).
Proof.
  intros Hn. pose proof (digits_bound n Hn) as Hb. unfold digits. split_and!.
  - rewrite digits_acc_value by done. unfold digits_value. simpl. lia.
  - by apply digits_acc_shape.
  - destruct (decide (n = 0)) as [->|]; [by left|]. right. apply digits_acc_head. lia.
Qed.

Lemma span_digits_app ds rest :
  forallb is_digit ds = true -> (match rest with b :: _ => is_digit b = false | [] => True end) ->
  span_digits (ds ++ rest) = (ds, rest).
Proof.
  induction ds as [|d ds IH]; intros Hd Hr; cbn [app].
  - destruct rest as [|b rest]; [done|]. cbn [span_digits]. by rewrite Hr.
  - apply andb_prop in Hd as [Hd Hds]. cbn [span_digits]. by rewrite Hd, IH.
Qed.

Lemma nonzero_digit_cases d :
  in_range 49 57 d = true -> d = 49 \/ d = 50 \/ d = 51 \/ d = 52 \/ d = 53 \/ d = 54 \/ d = 55 \/ d = 56 \/ d = 57.
Proof. unfold in_range. lia. Qed.

(** The nine cases of a leading digit. *)
Ltac destruct_nonzero_digit H :=
  apply nonzero_digit_cases in H;
  destruct H as [H|[H|[H|[H|[H|[H|[H|[H|H]]]]]]]]; match type of H with ?d = _ => subst d end; cbv iota beta.

(** After a complete integer the scanner stops at whatever may follow a value. *)
Lemma scan_number_ends sign ds rest :
  sign = [] \/ sign = [45] -> ds = [48] \/ (exists d l, ds = d :: l /\ in_range 49 57 d = true /\ forallb is_digit l = true) ->
  ends rest -> scan_number (sign ++ ds ++ rest) = Some (sign ++ ds, rest).
Proof.
  intros Hs Hd He.
  assert (match rest with b :: _ => is_digit b = false | [] => True end /\
          scan_fraction rest = Some ([], rest) /\ scan_exponent rest = Some ([], rest)) as (Hr & Hf & Hx).
  { destruct rest as [|b rest]; [done|]. simpl in He.
    repeat (apply elem_of_cons in He as [->|He]; [done|]). set_solver. }
  assert (scan_integer (ds ++ rest) = Some (ds, rest)) as Hi.
  { destruct Hd as [->|(d & l & -> & Hd & Hl)]; [done|]. cbn [app]. unfold scan_integer.
    rewrite (span_digits_app l rest Hl Hr), Hd.
    destruct_nonzero_digit Hd; done. }
  assert (forall s, (let (sign', l) := match s ++ ds ++ rest with 45 :: r => ([45], r) | _ => ([], s ++ ds ++ rest) end in
     '(i, l) ← scan_integer l; '(f, l) ← scan_fraction l; '(e, l) ← scan_exponent l; Some (sign' ++ i ++ f ++ e, l)) =
     scan_number (s ++ ds ++ rest)) as Hfold by done.
  rewrite <- Hfold. destruct Hs as [-> | ->].
  - cbn [app]. assert (match ds ++ rest with 45 :: r => ([45], r) | _ => ([], ds ++ rest) end = ([], ds ++ rest)) as ->.
    { destruct Hd as [->|(d & l & -> & Hd & _)]; [done|]. cbn [app].
      destruct_nonzero_digit Hd; done. }
    rewrite Hi. cbn [mbind option_bind]. rewrite Hf. cbn [mbind option_bind]. rewrite Hx. simpl. by rewrite app_nil_r.
  - cbn [app]. rewrite Hi. cbn [mbind option_bind]. rewrite Hf. cbn [mbind option_bind]. rewrite Hx. simpl. by rewrite app_nil_r.
Qed.

Lemma digits_scannable n :
  0 <= n -> digits n = [48] \/ (exists d l, digits n = d :: l /\ in_range 49 57 d = true /\ forallb is_digit l = true).
Proof.
  intros Hn. destruct (digits_spec n Hn) as (_ & Hd & [[_ ->]|(d & l & E & Hr)]); [by left|right].
  exists d, l. rewrite E in Hd. apply andb_prop in Hd as [_ Hd]. done.
Qed.

Lemma decimal_literal n : number_literal (decimal n).
Proof.
  unfold decimal. destruct (Z.ltb_spec n 0).
  - split; [eauto|]. intros rest He.
    change (45 :: digits (- n)) with ([45] ++ digits (- n)). rewrite <- app_assoc.
    apply scan_number_ends; [by right|apply digits_scannable; lia|done].
  - split.
    + destruct (digits_scannable n ltac:(lia)) as [->|(d & l & -> & Hd & _)]; [eauto|].
      exists d, l. split; [done|]. right. unfold is_digit, in_range in *. lia.
    + intros rest He. apply (scan_number_ends [] (digits n) rest); [by left|apply digits_scannable; lia|done].
Qed.

Lemma ParseUint_decimal n : 0 <= n <= MaxUint64 -> ParseUint (decimal n) = Some n.
Proof.
  intros Hn. unfold decimal. rewrite (proj2 (Z.ltb_ge n 0)) by lia.
  destruct (digits_spec n ltac:(lia)) as (Hv & Hd & Hs). unfold ParseUint. rewrite Hd, Hv.
  rewrite (proj2 (Z.leb_le n MaxUint64)) by lia. by destruct Hs as [[_ ->]|(d & l & -> & _)].
Qed.

Lemma ParseInt_decimal n : is_int64 n -> ParseInt (decimal n) = Some n.
Proof.
  unfold is_int64. intros Hn. unfold decimal. destruct (Z.ltb_spec n 0).
  - destruct (digits_spec (- n) ltac:(lia)) as (Hv & Hd & Hs). unfold ParseInt. rewrite Hd, Hv.
    rewrite (proj2 (Z.leb_le (- n) (MaxInt64 + 1))) by lia. rewrite Z.opp_involutive.
    by destruct Hs as [[_ ->]|(d & l & -> & _)].
  - destruct (digits_spec n ltac:(lia)) as (Hv & Hd & [[-> ->]|(d & l & E & Hr)]); [done|].
    rewrite E in Hv, Hd |- *. unfold ParseInt.
    destruct_nonzero_digit Hr; by rewrite Hd, Hv, (proj2 (Z.leb_le n MaxInt64)) by lia.
Qed.

(** ** Bytes of printed values *)

Definition is_byte (b : Z) : Prop := 0 <= b < 256.

Lemma hex_digit_is_byte n : 0 <= n < 16 -> is_byte (hex_digit n).
Proof. unfold hex_digit, is_byte. case_match; lia. Qed.

Lemma json_escape_bytes r : scalar r -> Forall is_byte (json_escape (Some r)).
Proof.
  intros Hr. unfold json_escape, u_escape, encode_rune, html_safe, in_range, scalar, is_byte in *.
  repeat case_match; repeat constructor; try lia; try (apply hex_digit_is_byte; Z.div_mod_to_equations; lia);
    Z.div_mod_to_equations; lia.
Qed.

Lemma json_escapes_bytes l i :
  Forall (fun b => 0 <= b) l -> forallb rune_valid (decode i l) = true ->
  Forall is_byte (decode i l ≫= fun '(_, r) => json_escape r).
Proof.
  remember (length l) as n eqn:Hn. revert l i Hn.
  induction n as [n IH] using lt_wf_ind. intros [|b l] i -> Hpos Hv; [constructor|].
  destruct (decode_cons_valid b l i) as (r & i' & l' & Hd & Hs & Hl & Hlen); [by inversion Hpos|done|].
  rewrite Hd in Hv |- *. rewrite Hl in Hpos. apply Forall_app in Hpos as [_ Hpos].
  rewrite bind_cons. apply Forall_app. split; [by apply json_escape_bytes|].
  by apply (IH (length l') Hlen l' i' eq_refl Hpos).
Qed.

Lemma json_string_bytes_bytes s : ValidString s = true -> Forall is_byte (json_string_bytes s).
Proof.
  intros Hv. rewrite ValidString_runes in Hv. unfold json_string_bytes. constructor; [unfold is_byte; lia|].
  apply Forall_app. split; [|repeat constructor; unfold is_byte; lia]. apply json_escapes_bytes; [|done].
  eapply Forall_impl; [apply bytes_bounds|]. simpl. lia.
Qed.

Lemma comma_separated_bytes {A} (print : A -> list Z) l :
  (forall x, x ∈ l -> Forall is_byte (print x)) -> Forall is_byte (comma_separated print l).
Proof.
  induction l as [|x [|y l] IH]; intros H; [constructor|by apply H; set_solver|].
  rewrite comma_separated_cons. apply Forall_app. split; [apply H; set_solver|].
  constructor; [unfold is_byte; lia|]. apply IH. intros. apply H. set_solver.
Qed.

Fixpoint json_number_bytes (v : json) : Prop :=
  match v with
  | JNumber l => Forall is_byte l
  | JArray l => foldr and True (json_number_bytes <$> l)
  | JObject l => foldr and True ((fun kv => json_number_bytes kv.2) <$> l)
  | _ => True
  end.

Lemma json_text_bytes v : json_plain v -> json_number_bytes v -> Forall is_byte (json_text v).
Proof.
  induction v as [|b|n|s|l IH|l IH] using json_tree_ind; cbn [json_plain json_number_bytes json_text]; intros Hp Hn.
  - repeat constructor; unfold is_byte; lia.
  - destruct b; repeat constructor; unfold is_byte; lia.
  - done.
  - by apply json_string_bytes_bytes.
  - rewrite foldr_and_Forall in Hp, Hn. rewrite Forall_forall in IH, Hp, Hn. constructor; [unfold is_byte; lia|].
    apply Forall_app. split; [|repeat constructor; unfold is_byte; lia]. apply comma_separated_bytes. auto.
  - rewrite foldr_and_Forall in Hp, Hn. rewrite Forall_forall in IH, Hp, Hn. constructor; [unfold is_byte; lia|].
    apply Forall_app. split; [|repeat constructor; unfold is_byte; lia]. apply comma_separated_bytes.
    intros x Hx. destruct (Hp x Hx). apply Forall_app. split; [by apply json_string_bytes_bytes|].
    constructor; [unfold is_byte; lia|]. by apply IH; [| |apply Hn].
Qed.

Lemma decimal_bytes n : Forall is_byte (decimal n).
Proof.
  assert (forall n, 0 <= n -> Forall is_byte (digits n)) as H.
  { intros m Hm. destruct (digits_spec m Hm) as (_ & Hd & _). apply Forall_forall. intros x Hx.
    rewrite forallb_forall in Hd. specialize (Hd x (proj1 (list_elem_of_In _ _) Hx)).
    unfold is_digit, in_range, is_byte in *. lia. }
  unfold decimal. destruct (Z.ltb_spec n 0); [constructor; [unfold is_byte; lia|]|]; apply H; lia.
Qed.

(** ** Slices read back *)

(** The printed elements of a slice decode to the slice. *)
Lemma unmarshal_elements_print {A} (zero : A) (element : decoder A) (print : A -> json) l backing :
  (forall old x, x ∈ l -> element old (print x) = Ok x) ->
  unmarshal_elements zero element backing (print <$> l) = Ok l.
Proof.
  revert backing. induction l as [|x l IH]; intros backing H; [done|]. rewrite fmap_cons. cbn [unmarshal_elements].
  rewrite H by set_solver. cbn [result_bind]. rewrite IH by (intros; apply H; set_solver). done.
Qed.

Lemma unmarshal_slice_print {A} (zero : A) (element : decoder A) (print : A -> json) l :
  (forall old x, x ∈ l -> element old (print x) = Ok x) ->
  unmarshal_slice zero element (Slice None []) (JArray (print <$> l)) = Ok (Slice (Some l) []).
Proof.
  intros H. destruct l as [|x l]; [done|]. rewrite fmap_cons. cbn [unmarshal_slice sl_elements sl_spare default app].
  rewrite <- fmap_cons, unmarshal_elements_print by done. cbn [result_bind]. by rewrite drop_nil.
Qed.

(** ** Structs read back *)

(** The members [json.Marshal] prints: every field once, under its own name. *)
Lemma struct_members_exact names (members : list (string * json)) :
  members.*1 = names -> struct_members names (JObject members) = Ok members.
Proof.
  intros Hn. cbn [struct_members]. rewrite decide_False; [done|]. rewrite Exists_exists. intros (m & Hm & Hr).
  unfold resolve_field in Hr. rewrite decide_True in Hr; [done|]. rewrite <- Hn. by apply list_elem_of_fmap_2.
Qed.

(** A list with one element that satisfies [P]. *)
Lemma filter_unique {A} (P : A -> Prop) `{!forall x, Decision (P x)} (l : list A) i x :
  l !! i = Some x -> P x -> (forall j y, l !! j = Some y -> P y -> j = i) -> filter P l = [x].
Proof.
  revert i. induction l as [|y l IH]; intros i Hi Hx Hu; [done|].
  destruct i as [|i].
  - injection Hi as ->. rewrite filter_cons_True by done. f_equal. clear IH.
    assert (forall j y, l !! j = Some y -> ~ P y) as Hn by (intros j y Hj Hy; by specialize (Hu (S j) y Hj Hy)).
    induction l as [|y l IH]; [done|]. rewrite filter_cons_False by by apply (Hn 0%nat).
    apply IH; [intros [|j] z Hz Hp; [done|]; exfalso; by apply (Hn (S j) z)|intros j z Hz; by apply (Hn (S j))].
  - rewrite filter_cons_False by (intros Hy; by specialize (Hu 0%nat y eq_refl Hy)).
    apply (IH i); [done|done|]. intros j z Hj Hz. specialize (Hu (S j) z Hj Hz). lia.
Qed.

Lemma unmarshal_field_exact {A} names members i name v (decode_value : decoder A) old :
  NoDup names -> members.*1 = names -> members !! i = Some (name, v) ->
  unmarshal_field names members name decode_value old = decode_value old v.
Proof.
  intros Hnd Hn Hi. unfold unmarshal_field.
  assert (forall j m, members !! j = Some m -> names !! j = Some m.1) as Hnames
    by (intros j m Hj; by rewrite <- Hn, list_lookup_fmap, Hj).
  assert (forall j m, members !! j = Some m -> resolve_field names m.1 = Some m.1) as Hres.
  { intros j m Hj. unfold resolve_field. rewrite decide_True; [done|]. eapply list_elem_of_lookup_2, Hnames, Hj. }
  rewrite (filter_unique _ members i (name, v) Hi (Hres _ _ Hi)); [cbn; by destruct (decode_value old v)|].
  intros j m Hj Hm. rewrite (Hres _ _ Hj) in Hm. injection Hm as Hm. eapply (NoDup_lookup names); [done|by apply Hnames|].
  rewrite (Hnames _ _ Hi). by rewrite Hm.
Qed.

(** Reading a printed struct: every field is decoded from its own member. *)
Lemma struct_read names (members : list (string * json)) :
  NoDup names -> members.*1 = names ->
  exists ms, struct_members names (JObject members) = Ok ms /\
    forall A i name v (decode_value : decoder A) old, members !! i = Some (name, v) ->
      unmarshal_field names ms name decode_value old = decode_value old v.
Proof.
  intros Hnd Hn. exists members. split; [by apply struct_members_exact|].
  intros A i name v decode_value old Hi. by eapply unmarshal_field_exact.
Qed.

Lemma struct_read_any names (members : list (string * json)) :
  NoDup names -> members.*1 = names ->
  exists ms, struct_members_any (JObject members) = Ok ms /\
    forall A i name v (decode_value : decoder A) old, members !! i = Some (name, v) ->
      unmarshal_field names ms name decode_value old = decode_value old v.
Proof.
  intros Hnd Hn. exists members. split; [done|]. intros A i name v decode_value old Hi. by eapply unmarshal_field_exact.
Qed.
