(* ===== verification/GoHost.v ===== *)
(** What the source uses of Go's standard library on host paths and digests:
    path/filepath as built for Unix, strings.Split and HasSuffix, and
    hex.DecodeString. *)

From S2P Require Export GoJson.

(** ** path/filepath on Unix *)

Definition filepath_IsAbs (s : string) : bool := path_IsAbs s.
Definition filepath_Clean (s : string) : string := path_Clean s.

(** The word up to the next separator, and what comes after the separator. *)
Fixpoint path_word (l : list Z) : list Z * list Z :=
  match l with
  | [] => ([], [])
  | b :: l => if b =? 47 then ([], l) else let '(w, rest) := path_word l in (b :: w, rest)
  end.

(** The loop of [filepath.Rel]: it drops the leading elements the two paths share and
    stops with [base[b0:]], [targ[t0:]] and the element of [base] it stopped in. A turn
    consumes a separator or the rest of a path, so the length of [base] and one is fuel
    enough. *)
Fixpoint rel_loop (fuel : nat) (base targ : list Z) : list Z * list Z * list Z :=
  match fuel, base, targ with
  | O, _, _ | _, [], _ | _, _, [] => (base, targ, [])
  | S fuel, _, _ =>
      let '(bw, base') := path_word base in
      let '(tw, targ') := path_word targ in
      if decide (tw = bw) then rel_loop fuel base' targ' else (base, targ, bw)
  end.

(** [filepath.Rel] *)
Definition filepath_Rel (basepath targpath : string) : option string :=
  let base := filepath_Clean basepath in
  let targ := filepath_Clean targpath in
  if decide (targ = base) then Some "."
  else
    let base := if decide (base = ".") then "" else base in
    if decide (HasPrefix base "/" <> HasPrefix targ "/") then None
    else
      let '(rest, down, word) := rel_loop (S (length (bytes base))) (bytes base) (bytes targ) in
      if decide (word = dotdot) then None
      else if decide (rest <> []) then
        let up := dotdot ++ concat (replicate (length (filter (fun b => b = 47) rest)) (47 :: dotdot)) in
        Some (of_bytes (up ++ (if decide (down = []) then [] else 47 :: down)))
      else Some (of_bytes down).

(** [strings.Split(s, "/")] *)
Definition Split_slash (s : string) : list string := of_bytes <$> split_slash (bytes s).

(** [strings.HasSuffix] *)
Definition HasSuffix (s suffix : string) : bool :=
  bool_decide (drop (length (bytes s) - length (bytes suffix)) (bytes s) = bytes suffix).

(** ** Digests *)

(** [hex.DecodeString] *)
Fixpoint hex_pairs (l : list Z) : option (list Z) :=
  match l with
  | [] => Some []
  | a :: b :: l => a ← hex_value a; b ← hex_value b; rest ← hex_pairs l; Some (a * 16 + b :: rest)
  | [_] => None
  end.
Definition hex_decode (s : string) : option string := of_bytes <$> hex_pairs (bytes s).

(** [strings.ToLower] of an ASCII text. *)
Definition ToLower_ascii (s : string) : string := of_bytes ((fun b => if is_upper b then b + 32 else b) <$> bytes s).

Lemma hex_value_lower b : is_lower_hex b = true -> exists v, hex_value b = Some v /\ 0 <= v < 16 /\ hex_digit v = b.
Proof.
  unfold is_lower_hex, is_digit, hex_value, hex_digit, is_digit, in_range. intros H.
  exists (if (48 <=? b) && (b <=? 57) then b - 48 else b - 87).
  destruct (Z.leb_spec 48 b), (Z.leb_spec b 57), (Z.leb_spec 97 b), (Z.leb_spec b 102); simpl in *; try done;
    (split; [done|]); (split; [lia|]); case_match; lia.
Qed.

Lemma hex_pairs_lower n l : length l = (2 * n)%nat -> forallb is_lower_hex l = true ->
  exists d, hex_pairs l = Some d /\ hex_encode d = l /\ length d = n /\ Forall is_byte d.
Proof.
  revert l. induction n as [|n IH]; intros l Hl Hh.
  - destruct l; [|done]. exists []. done.
  - destruct l as [|a [|b l]]; simpl in Hl; try lia. simpl in Hh. rewrite !andb_true_iff in Hh. destruct Hh as (Ha & Hb & Hh).
    destruct (hex_value_lower _ Ha) as (va & Eva & Rva & Dva), (hex_value_lower _ Hb) as (vb & Evb & Rvb & Dvb).
    destruct (IH l ltac:(lia) Hh) as (d & Ed & He & Hld & Hd). exists (va * 16 + vb :: d). simpl. rewrite Eva, Evb. simpl. rewrite Ed.
    split; [done|]. split; [|split; [simpl; lia|constructor; [unfold is_byte; lia|done]]].
    change (hex_encode (va * 16 + vb :: d)) with ([hex_digit ((va * 16 + vb) / 16); hex_digit ((va * 16 + vb) mod 16)] ++ hex_encode d).
    rewrite He. replace ((va * 16 + vb) / 16) with va by (Z.div_mod_to_equations; lia).
    replace ((va * 16 + vb) mod 16) with vb by (Z.div_mod_to_equations; lia). simpl. congruence.
Qed.

(** Decoding a digest and printing it again gives the same text. *)
Lemma hex_decode_digest n s :
  Z.even n = true -> lower_hex_pattern n s = true -> exists d, hex_decode s = Some d /\ hex_string d = s /\ len d = n / 2.
Proof.
  unfold lower_hex_pattern. rewrite andb_true_iff, len_bytes. intros He [Hl Hh]. apply Z.eqb_eq in Hl.
  apply Z.even_spec in He as [m Hm].
  destruct (hex_pairs_lower (Z.to_nat m) (bytes s)) as (d & Hd & Hen & Hld & Hb); [lia|done|].
  exists (of_bytes d). unfold hex_decode, hex_string. rewrite len_bytes, Hd, !bytes_of_bytes by done. split; [done|].
  rewrite Hen, of_bytes_bytes. split; [done|]. subst n. rewrite Z.mul_comm, Z.div_mul by done. lia.
Qed.

(** A text that decodes to [n] bytes and has no upper-case digit is a lower-case digest. *)
Lemma hex_decode_lower s d :
  hex_decode s = Some d -> ToLower_ascii s = s -> lower_hex_pattern (2 * len d) s = true.
Proof.
  unfold hex_decode, ToLower_ascii. intros H Hl. apply fmap_Some in H as (l & Hp & ->).
  assert (forall l d, hex_pairs l = Some d -> length l = (2 * length d)%nat /\
    Forall (fun b => is_lower_hex b = true \/ is_upper b = true) l /\ Forall (fun b => 0 <= b < 256) d) as Hpairs.
  { fix IH 1. intros [|a [|b r]] d; simpl; [intros [= <-]; auto|done|].
    destruct (hex_value a) as [va|] eqn:Ea; [|done]. destruct (hex_value b) as [vb|] eqn:Eb; [|done].
    destruct (hex_pairs r) as [rest|] eqn:Er; [|done]. simpl. intros [= <-]. destruct (IH _ _ Er) as (H1 & H2 & H3).
    assert (forall x v, hex_value x = Some v -> (is_lower_hex x = true \/ is_upper x = true) /\ 0 <= v < 16) as Hx.
    { intros x v. unfold hex_value, is_lower_hex, is_digit, is_upper, in_range.
      destruct (Z.leb_spec 48 x), (Z.leb_spec x 57), (Z.leb_spec 97 x), (Z.leb_spec x 102), (Z.leb_spec 65 x), (Z.leb_spec x 70),
        (Z.leb_spec x 90); simpl; intros [= <-]; split; try lia; auto. }
    destruct (Hx _ _ Ea) as [? ?], (Hx _ _ Eb) as [? ?]. split_and!; [simpl; lia|by apply Forall_cons; split; [|apply Forall_cons]|constructor; [lia|done]]. }
  destruct (Hpairs _ _ Hp) as (H1 & H2 & H3). unfold lower_hex_pattern. apply andb_true_iff. split.
  - apply Z.eqb_eq. rewrite !len_bytes, bytes_of_bytes by done. lia.
  - assert ((fun b => if is_upper b then b + 32 else b) <$> bytes s = bytes s) as Hm.
    { rewrite <- Hl at 2. rewrite bytes_of_bytes; [done|]. apply Forall_fmap. eapply Forall_impl; [apply bytes_bounds|].
      intros b Hb. simpl in *. unfold is_upper, in_range. destruct (Z.leb_spec 65 b), (Z.leb_spec b 90); simpl; lia. }
    clear H1 H3 Hl Hp. induction (bytes s) as [|b r IHr]; [done|]. apply Forall_cons in H2 as [Hb H2]. injection Hm as Hb' Hm.
    simpl. rewrite IHr by done. rewrite andb_true_r. destruct Hb as [?|Hu]; [done|]. rewrite Hu in Hb'. lia.
Qed.

(** A lower-case digest has nothing to lower. *)
Lemma lower_hex_lower n s : lower_hex_pattern n s = true -> ToLower_ascii s = s.
Proof.
  unfold lower_hex_pattern, ToLower_ascii. rewrite andb_true_iff. intros [_ H].
  assert ((fun b => if is_upper b then b + 32 else b) <$> bytes s = bytes s) as ->; [|apply of_bytes_bytes].
  induction (bytes s) as [|b l IH]; [done|]. simpl in H. apply andb_true_iff in H as [Hb H].
  rewrite fmap_cons, (IH H). f_equal. unfold is_lower_hex, is_digit, is_upper, in_range in *.
  destruct (Z.leb_spec 48 b), (Z.leb_spec b 57), (Z.leb_spec 97 b), (Z.leb_spec b 102), (Z.leb_spec 65 b), (Z.leb_spec b 90);
    simpl in *; try done; lia.
Qed.
