(* ===== verification/Identity.v ===== *)
(** Identifiers: internal/identity (UUIDs), internal/instanceid,
    internal/hostkind and internal/workerprofile. Every key of the broker's tables
    is a string accepted by [ValidateID]. *)

From S2P Require Export GoCodec.

(** ** Definitions *)

(** The body of the [range] loop of [ValidateID]. *)
(* go: internal/identity/id.go:27-37 ValidateID *)
Fixpoint uuid_loop (l : list (Z * Z)) : result unit :=
  match l with
  | [] => Ok tt
  | (index, char) :: l =>
      if bool_decide (index = 8 \/ index = 13 \/ index = 18 \/ index = 23) then
        if char =? 45 then uuid_loop l else Err (New "must be a UUID")
      else if is_lower_hex char then uuid_loop l
      else Err (New "must be a UUID")
  end.

(* go: internal/identity/id.go ValidateID *)
Definition ValidateID (value : string) : result unit :=
  reject (New "must be a UUID") when (len value <> 36) in
  uuid_loop (range_string value).

(** [NewID] of the sixteen bytes [rand.Read] filled in. *)
(* go: internal/identity/id.go NewID *)
Definition NewID (random : list Z) : string :=
  let value := <[8%nat := Z.lor (Z.land (default 0 (random !! 8%nat)) 0x3f) 0x80]>
                 (<[6%nat := Z.lor (Z.land (default 0 (random !! 6%nat)) 0x0f) 0x40]> random) in
  let encoded := hex_encode value in
  let slice a b := take (b - a)%nat (drop a encoded) in
  of_bytes (slice 0%nat 8%nat ++ 45 :: slice 8%nat 12%nat ++ 45 :: slice 12%nat 16%nat
            ++ 45 :: slice 16%nat 20%nat ++ 45 :: slice 20%nat 32%nat).

(* go: internal/instanceid/instanceid.go Validate *)
Definition instanceid_Validate (value : string) : result unit :=
  reject (New "instanceId must contain 1 through 32 characters") when (len value < 1 \/ len value > 32) in
  do? (fix loop (l : list (Z * Z)) : result unit :=
         match l with
         | [] => Ok tt
         | (index, character) :: l =>
             let valid := is_lower character in
             let valid := if 0 <? index
                          then valid || is_digit character || (character =? 45) else valid in
             if valid then loop l
             else Err (New "instanceId must start with a lowercase letter and use only lowercase letters, digits, or hyphens")
         end) (range_string value) in
  reject (New "instanceId must not end with a hyphen") when (last (bytes value) = Some 45) in
  Ok tt.

(* go: internal/hostkind/hostkind.go Kind *)
Definition Codex : string := "codex".
Definition TraeX : string := "traex".

(* go: internal/hostkind/hostkind.go Validate *)
Definition Kind_Validate (k : string) : result unit :=
  if bool_decide (k = Codex \/ k = TraeX) then Ok tt else Err (New "unsupported host kind %q").

(* go: internal/workerprofile/version.go:3-6 CurrentVersion *)
Definition CurrentVersion : Z := 8.

(* go: internal/workerprofile/version.go CanMigrateSource *)
Definition CanMigrateSource (source : Z) : bool :=
  bool_decide (source = 5 \/ source = 6 \/ source = 7 \/ source = CurrentVersion).

(* go: internal/workerprofile/version.go CanUpgrade *)
Definition CanUpgrade (source target : Z) : bool :=
  if negb (target =? CurrentVersion) then false else CanMigrateSource source.

(** ** The byte-level reading of a UUID *)

Definition hyphen_index (i : nat) : bool :=
  (i =? 8)%nat || (i =? 13)%nat || (i =? 18)%nat || (i =? 23)%nat.

(** Thirty-six bytes, hyphens at the four fixed places, lower-case hexadecimal
    digits everywhere else. *)
Definition uuid_text (s : string) : Prop :=
  length (bytes s) = 36%nat /\
  forall i b, bytes s !! i = Some b -> if hyphen_index i then b = 45 else is_lower_hex b = true.

Definition uuid_byte (b : Z) : bool := is_lower_hex b || (b =? 45).

Lemma uuid_loop_Ok l :
  uuid_loop l = Ok tt <->
  Forall (fun '(i, c) => if bool_decide (i = 8 \/ i = 13 \/ i = 18 \/ i = 23)
                         then c = 45 else is_lower_hex c = true) l.
Proof.
  induction l as [|[i c] l IH]; simpl; [split; [constructor|done]|].
  rewrite Forall_cons. case_bool_decide.
  - destruct (Z.eqb_spec c 45); naive_solver.
  - destruct (is_lower_hex c); naive_solver.
Qed.

Lemma is_lower_hex_ascii b : is_lower_hex b = true -> is_ascii b = true.
Proof. unfold is_lower_hex, is_digit, in_range, is_ascii. lia. Qed.

Lemma uuid_byte_plain b : uuid_byte b = true -> html_safe b = true.
Proof. unfold uuid_byte, is_lower_hex, is_digit, html_safe, in_range. lia. Qed.

Lemma hyphen_index_spec (k : nat) :
  bool_decide (0 + Z.of_nat k = 8 \/ 0 + Z.of_nat k = 13 \/ 0 + Z.of_nat k = 18 \/ 0 + Z.of_nat k = 23)
  = hyphen_index k.
Proof.
  unfold hyphen_index.
  destruct (Nat.eqb_spec k 8), (Nat.eqb_spec k 13), (Nat.eqb_spec k 18), (Nat.eqb_spec k 23);
    simpl; case_bool_decide; lia.
Qed.

Lemma range_string_ascii s :
  forallb is_ascii (bytes s) = true ->
  range_string s = imap (fun k b => (0 + Z.of_nat k, b)) (bytes s).
Proof. intros H. unfold range_string. rewrite (decode_ascii _ _ H), fmap_imap. by apply imap_ext. Qed.

(** If each rune satisfies a predicate that only holds of ASCII runes, the
    string is ASCII. *)
Lemma range_string_only_ascii s (P : Z -> Z -> Prop) :
  (forall i c, P i c -> c < 0x80) -> Forall (fun '(i, c) => P i c) (range_string s) ->
  forallb is_ascii (bytes s) = true.
Proof.
  intros HP. unfold range_string. rewrite Forall_fmap. intros H.
  apply (decode_only_ascii _ 0).
  { eapply Forall_impl; [apply bytes_bounds|]. simpl. lia. }
  eapply Forall_impl; [exact H|]. intros [i [r|]] HPi; apply HP in HPi; simpl in *.
  - eauto.
  - unfold RuneError in HPi. lia.
Qed.

Lemma ValidateID_spec s : ValidateID s = Ok tt <-> uuid_text s.
Proof.
  unfold ValidateID, uuid_text. rewrite len_bytes.
  destruct (decide _) as [Hn|Hn]; [split; [done|lia]|].
  rewrite uuid_loop_Ok. split.
  - intros H. split; [lia|].
    assert (forallb is_ascii (bytes s) = true) as Ha.
    { eapply (range_string_only_ascii s _ _ H). }
    rewrite (range_string_ascii _ Ha), Forall_lookup in H. intros i b Hib.
    specialize (H i (0 + Z.of_nat i, b)). cbv beta iota in H. rewrite hyphen_index_spec in H.
    apply H. by rewrite list_lookup_imap, Hib.
  - intros [_ H].
    assert (forallb is_ascii (bytes s) = true) as Ha.
    { apply forallb_forall. intros b Hb%list_elem_of_In. apply list_elem_of_lookup in Hb as [i Hib].
      specialize (H i b Hib). destruct (hyphen_index i); subst; [done|by apply is_lower_hex_ascii]. }
    rewrite (range_string_ascii _ Ha). apply Forall_lookup. intros i [j c] Hij.
    rewrite list_lookup_imap in Hij. apply fmap_Some in Hij as (b & Hib & [= -> ->]).
    rewrite hyphen_index_spec. by apply H.
  Unshelve. intros i c. simpl. case_bool_decide; [lia|]. intros Hc%is_lower_hex_ascii.
  unfold is_ascii in Hc. lia.
Qed.

(** ** What a valid identifier is good for *)

Lemma valid_id_bytes s : ValidateID s = Ok tt -> forallb uuid_byte (bytes s) = true.
Proof.
  intros [_ H]%ValidateID_spec. apply forallb_forall. intros b Hb%list_elem_of_In.
  apply list_elem_of_lookup in Hb as [i Hi]. specialize (H i b Hi).
  unfold uuid_byte. destruct (hyphen_index i); [subst; done|by rewrite H].
Qed.

Lemma valid_id_len s : ValidateID s = Ok tt -> len s = 36.
Proof. intros [H _]%ValidateID_spec. rewrite len_bytes. lia. Qed.

Lemma valid_id_nonempty s : ValidateID s = Ok tt -> s <> "".
Proof. intros H%valid_id_len. intros ->. unfold len in H. simpl in H. lia. Qed.

Lemma valid_id_plain s : ValidateID s = Ok tt -> plain s = true.
Proof. intros H%valid_id_bytes. eapply forallb_impl; [|exact H]. apply uuid_byte_plain. Qed.

#[export] Hint Resolve valid_id_len valid_id_nonempty valid_id_plain : go.

Lemma all_bytes (P : Z -> bool) :
  forallb P (seqZ 0 256) = true -> forall b, 0 <= b < 256 -> P b = true.
Proof.
  intros H b Hb. rewrite forallb_forall in H. apply H, list_elem_of_In, elem_of_seqZ. lia.
Qed.

Lemma hex_pair_valid b : 0 <= b < 256 ->
  is_lower_hex (hex_digit (b / 16)) && is_lower_hex (hex_digit (b mod 16)) = true.
Proof. apply (all_bytes (fun b => is_lower_hex (hex_digit (b / 16)) && is_lower_hex (hex_digit (b mod 16)))). done. Qed.

Lemma hex_digit_byte n : 0 <= n < 16 -> 0 <= hex_digit n < 256.
Proof. unfold hex_digit. destruct (Z.ltb_spec n 10); lia. Qed.

Lemma version_byte b : 0 <= b < 256 ->
  let v := Z.lor (Z.land b 0x0f) 0x40 in (0 <=? v) && (v <? 256) && (hex_digit (v / 16) =? 52) = true.
Proof. apply (all_bytes (fun b => let v := Z.lor (Z.land b 0x0f) 0x40 in
  (0 <=? v) && (v <? 256) && (hex_digit (v / 16) =? 52))). done. Qed.

Lemma variant_byte b : 0 <= b < 256 ->
  let v := Z.lor (Z.land b 0x3f) 0x80 in
  (0 <=? v) && (v <? 256) && existsb (Z.eqb (hex_digit (v / 16))) [56; 57; 97; 98] = true.
Proof. apply (all_bytes (fun b => let v := Z.lor (Z.land b 0x3f) 0x80 in
  (0 <=? v) && (v <? 256) && existsb (Z.eqb (hex_digit (v / 16))) [56; 57; 97; 98])). done. Qed.

Lemma hex_encode_bounds l :
  Forall (fun b => 0 <= b < 256) l -> Forall (fun b => is_lower_hex b = true) (hex_encode l).
Proof.
  induction 1 as [|b l Hb Hl IH]; [constructor|].
  pose proof (hex_pair_valid b Hb) as [??]%andb_prop. simpl. by repeat constructor.
Qed.

(** The 32 digits of [NewID], cut into the five groups of a UUID. *)
Lemma uuid_groups_valid d :
  length d = 32%nat -> Forall (fun b => is_lower_hex b = true) d ->
  let slice a b := take (b - a)%nat (drop a d) in
  let text := slice 0%nat 8%nat ++ 45 :: slice 8%nat 12%nat ++ 45 :: slice 12%nat 16%nat
                ++ 45 :: slice 16%nat 20%nat ++ 45 :: slice 20%nat 32%nat in
  uuid_text (of_bytes text) /\ bytes (of_bytes text) = text.
Proof.
  intros Hlen Hd slice text.
  assert (forall a b, Forall (fun b => 0 <= b < 256) (slice a b)) as Hslice.
  { intros a b. eapply Forall_impl; [apply Forall_take, Forall_drop, Hd|].
    intros x. unfold is_lower_hex, is_digit, in_range. lia. }
  assert (bytes (of_bytes text) = text) as Hb.
  { apply bytes_of_bytes. subst text.
    repeat first [apply Hslice | apply Forall_app; split | constructor; [lia|]]. }
  split; [|done]. unfold uuid_text. rewrite Hb. clear Hb Hslice.
  do 32 (destruct d as [|? d]; [discriminate Hlen|]). destruct d; [|discriminate Hlen].
  repeat (apply Forall_cons in Hd as [? Hd]).
  subst text slice. split; [done|].
  match goal with |- forall i b, ?l !! i = _ -> _ =>
    assert (Forall (fun '(i, b) => if hyphen_index i then b = 45 else is_lower_hex b = true)
              (imap pair l)) as Hall end.
  { cbn -[is_lower_hex]. repeat (apply Forall_cons_2; [first [reflexivity|assumption]|]). constructor. }
  intros i b Hi. rewrite Forall_lookup in Hall. apply (Hall i (i, b)).
  by rewrite list_lookup_imap, Hi.
Qed.

(** C40 [identity.ValidateID] walks runes, not bytes; it accepts a string exactly
    when it consists of 36 bytes with hyphens at offsets 8, 13, 18 and 23 and
    lower-case hexadecimal digits elsewhere, so no multi-byte or malformed UTF-8
    sequence can be smuggled into an identifier. *)
Theorem ValidateID_accepts_exactly_uuids s : ValidateID s = Ok tt <-> uuid_text s.
Proof. apply ValidateID_spec. Qed.

(** Whatever sixteen bytes the random source delivers, [identity.NewID]
    returns an identifier that [ValidateID] accepts, with version nibble 4 and an
    RFC 4122 variant nibble. *)
Theorem NewID_is_valid random :
  length random = 16%nat -> Forall (fun b => 0 <= b < 256) random ->
  ValidateID (NewID random) = Ok tt /\
  bytes (NewID random) !! 14%nat = Some 52 /\
  exists v, bytes (NewID random) !! 19%nat = Some v /\ v ∈ [56; 57; 97; 98].
Proof.
  intros Hlen Hr.
  do 16 (destruct random as [|? random]; [discriminate Hlen|]).
  destruct random; [|discriminate Hlen].
  repeat (apply Forall_cons in Hr as [? Hr]).
  rewrite ValidateID_spec. unfold NewID. cbn [lookup list_lookup default from_option].
  match goal with |- context [Z.lor (Z.land ?b 0x0f) 0x40] =>
    pose proof (version_byte b ltac:(done)) as [[??]%andb_prop Hver%Z.eqb_eq]%andb_prop end.
  match goal with |- context [Z.lor (Z.land ?b 0x3f) 0x80] =>
    pose proof (variant_byte b ltac:(done)) as [[??]%andb_prop Hvar]%andb_prop end.
  match goal with |- context [Z.lor (Z.land ?b 0x0f) 0x40] =>
    set (v6 := Z.lor (Z.land b 0x0f) 0x40) in * end.
  match goal with |- context [Z.lor (Z.land ?b 0x3f) 0x80] =>
    set (v8 := Z.lor (Z.land b 0x3f) 0x80) in * end.
  cbn [insert list_insert].
  match goal with |- context [hex_encode ?l] => set (value := l) end.
  assert (Forall (fun b => 0 <= b < 256) value) as Hv
    by (subst value; repeat (constructor; [lia|]); constructor).
  destruct (uuid_groups_valid (hex_encode value)) as [Huuid Hb];
    [done|by apply hex_encode_bounds|].
  cbv zeta in *. split; [exact Huuid|]. rewrite Hb. cbn. rewrite Hver.
  split; [done|]. eexists. split; [done|]. apply existsb_exists in Hvar as (w & Hw & <-%Z.eqb_eq).
  by apply list_elem_of_In.
Qed.

Lemma NewID_is_valid_witness :
  ValidateID (NewID (replicate 16 255)) = Ok tt /\
  bytes (NewID (replicate 16 255)) !! 14%nat = Some 52 /\
  exists v, bytes (NewID (replicate 16 255)) !! 19%nat = Some v /\ v ∈ [56; 57; 97; 98].
Proof. apply NewID_is_valid; [reflexivity|]. repeat constructor; lia. Defined.
