(* ===== verification/Control.v ===== *)
(** internal/control/model.go: capabilities, principals, devices and trees, with
    the validation every boundary of the broker applies to them. *)

From S2P Require Export Identity.

(** ** Capabilities *)

(* go: internal/control/model.go:15-29 Capability *)
Definition Capability : Type := string.
Definition CapabilityDeviceRead : Capability := "device.read".
Definition CapabilityAgentSpawn : Capability := "agent.spawn".
Definition CapabilityAgentManageDescendants : Capability := "agent.manage.descendants".
Definition CapabilityWorkspaceSync : Capability := "workspace.sync".
Definition CapabilityMessageTree : Capability := "message.tree".
Definition CapabilityArtifactApply : Capability := "artifact.apply".
Definition CapabilityMessageSendParent : Capability := "message.send.parent".
Definition CapabilityMessageReceiveSelf : Capability := "message.receive.self".
Definition CapabilityArtifactPublishSelf : Capability := "artifact.publish.self".

(* go: internal/control/model.go:31-38 rootCapabilities *)
Definition RootCapabilities : list Capability :=
  [CapabilityAgentManageDescendants; CapabilityAgentSpawn; CapabilityArtifactApply;
   CapabilityDeviceRead; CapabilityMessageTree; CapabilityWorkspaceSync].

(* go: internal/control/model.go:40-44 workerCapabilities *)
Definition WorkerCapabilities : list Capability :=
  [CapabilityArtifactPublishSelf; CapabilityMessageReceiveSelf; CapabilityMessageSendParent].

(* go: internal/control/model.go:131-146 Capability.Validate *)
Definition Capability_Validate (c : Capability) : result unit :=
  if bool_decide (c ∈ [CapabilityDeviceRead; CapabilityAgentSpawn; CapabilityAgentManageDescendants;
                       CapabilityWorkspaceSync; CapabilityMessageTree; CapabilityArtifactApply;
                       CapabilityMessageSendParent; CapabilityMessageReceiveSelf;
                       CapabilityArtifactPublishSelf])
  then Ok tt else Err (New "unsupported capability %q").

(** ** Principals *)

(* go: internal/control/model.go PrincipalIdentity *)
Record PrincipalIdentity := {
  pi_ControllerID : string;
  pi_TreeID : string;
  pi_AgentID : string;
  pi_ParentAgentID : string;
  pi_DeviceID : string;
}.

#[global] Instance PrincipalIdentity_eq_dec : EqDecision PrincipalIdentity.
Proof. solve_decision. Defined.

(* go: internal/control/model.go Principal *)
Record Principal := {
  p_Identity : PrincipalIdentity;
  p_Capabilities : list Capability;
}.

#[global] Instance Principal_eq_dec : EqDecision Principal.
Proof. solve_decision. Defined.

Notation p_ControllerID p := (pi_ControllerID (p_Identity p)).
Notation p_TreeID p := (pi_TreeID (p_Identity p)).
Notation p_AgentID p := (pi_AgentID (p_Identity p)).
Notation p_ParentAgentID p := (pi_ParentAgentID (p_Identity p)).
Notation p_DeviceID p := (pi_DeviceID (p_Identity p)).

(* go: internal/control/model.go NewRootPrincipal *)
Definition NewRootPrincipal (controllerID treeID agentID deviceID : string) : Principal := {|
  p_Identity := {| pi_ControllerID := controllerID; pi_TreeID := treeID; pi_AgentID := agentID;
                   pi_ParentAgentID := ""; pi_DeviceID := deviceID |};
  p_Capabilities := RootCapabilities |}.

(* go: internal/control/model.go NewWorkerPrincipal *)
Definition NewWorkerPrincipal (controllerID treeID agentID parentAgentID deviceID : string) : Principal := {|
  p_Identity := {| pi_ControllerID := controllerID; pi_TreeID := treeID; pi_AgentID := agentID;
                   pi_ParentAgentID := parentAgentID; pi_DeviceID := deviceID |};
  p_Capabilities := WorkerCapabilities |}.

(** A loop [for _, field := range fields { if err := identity.ValidateID(field.value) ... }]. *)
Fixpoint validate_ids (fields : list (string * string)) : result unit :=
  match fields with
  | [] => Ok tt
  | (name, value) :: fields => do? wrap name (ValidateID value) in validate_ids fields
  end.

(* go: internal/control/model.go:106-129 PrincipalIdentity.Validate *)
Definition PrincipalIdentity_Validate (p : PrincipalIdentity) : result unit :=
  do? validate_ids [("controllerId", p.(pi_ControllerID)); ("treeId", p.(pi_TreeID));
                    ("agentId", p.(pi_AgentID)); ("deviceId", p.(pi_DeviceID))] in
  if decide (p.(pi_ParentAgentID) <> "") then
    do? wrap "parentAgentId" (ValidateID p.(pi_ParentAgentID)) in
    reject (New "parentAgentId must differ from agentId") when (p.(pi_ParentAgentID) = p.(pi_AgentID)) in
    Ok tt
  else Ok tt.

(* go: internal/control/model.go:88-100 Principal.Validate *)
Definition Principal_Validate (p : Principal) : result unit :=
  do? PrincipalIdentity_Validate p.(p_Identity) in
  let expected := if decide (p_ParentAgentID p <> "") then WorkerCapabilities else RootCapabilities in
  reject (New "capabilities do not match the principal role") when (p.(p_Capabilities) <> expected) in
  Ok tt.

(** [slices.BinarySearch] on a string slice: the loop narrows [i, j) and the
    fuel, the slice's length, bounds its iterations. *)
Fixpoint binary_search_loop (fuel : nat) (x : list string) (target : string) (i j : nat) : nat :=
  match fuel with
  | O => i
  | S fuel =>
      if (i <? j)%nat then
        let h := ((i + j) / 2)%nat in
        match x !! h with
        | Some v => if String.ltb v target
                    then binary_search_loop fuel x target (S h) j
                    else binary_search_loop fuel x target i h
        | None => i
        end
      else i
  end.

Definition BinarySearch (x : list string) (target : string) : bool :=
  let i := binary_search_loop (length x) x target 0%nat (length x) in
  bool_decide (x !! i = Some target).

(* go: internal/control/model.go Has *)
Definition Principal_Has (p : Principal) (capability : Capability) : bool :=
  BinarySearch p.(p_Capabilities) capability.

(* go: internal/control/model.go Matches *)
Definition Principal_Matches (p : Principal) (identity : PrincipalIdentity) : bool :=
  bool_decide (p.(p_Identity) = identity).

(* go: internal/control/model.go Require *)
Definition control_Require (p : Principal) (capability : Capability) : result unit :=
  do? wrap "invalid principal" (Principal_Validate p) in
  reject (New "principal %s lacks capability %s") when (Principal_Has p capability = false) in
  Ok tt.

(** ** Devices *)

(* go: internal/control/model.go:173-185 Device *)
Record Device := {
  d_ControllerID : string;
  d_DeviceID : string;
  d_Name : string;
  d_OS : string;
  d_Arch : string;
  d_RuntimeVersion : string;
  d_ProtocolVersion : Z;
  d_Features : list string;
  d_Online : bool;
  d_LastSeenAt : Z;
  d_Revision : Z;
}.

(* go: internal/control/model.go:187-196 DeviceDescriptor *)
Record DeviceDescriptor := {
  dd_ControllerID : string;
  dd_DeviceID : string;
  dd_Name : string;
  dd_OS : string;
  dd_Arch : string;
  dd_RuntimeVersion : string;
  dd_ProtocolVersion : Z;
  dd_Features : list string;
}.

#[global] Instance Device_eq_dec : EqDecision Device.
Proof. solve_decision. Defined.

(* go: internal/control/model.go:213-224 Device.Descriptor *)
Definition Device_Descriptor (d : Device) : DeviceDescriptor := {|
  dd_ControllerID := d.(d_ControllerID); dd_DeviceID := d.(d_DeviceID); dd_Name := d.(d_Name);
  dd_OS := d.(d_OS); dd_Arch := d.(d_Arch); dd_RuntimeVersion := d.(d_RuntimeVersion);
  dd_ProtocolVersion := d.(d_ProtocolVersion); dd_Features := d.(d_Features) |}.

(* go: internal/control/model.go:198-198 featurePattern *)
Definition featurePattern (s : string) : bool :=
  pattern (fun b => is_lower b || is_upper b)
          (fun b => is_lower b || is_upper b || is_digit b || (b =? 46) || (b =? 95) || (b =? 45)) 63 s.

(* go: internal/control/model.go validateBoundedText *)
Definition validateBoundedText (name value : string) (limit : Z) : result unit :=
  reject (New "%s must contain 1 through %d bytes") when (is_blank value = true \/ len value > limit) in
  reject (New "%s must be valid text without control characters")
    when (ValidString value = false \/ ContainsFunc IsControl value = true) in
  Ok tt.

(* go: internal/control/model.go ValidateDeviceName *)
Definition ValidateDeviceName (name : string) : result unit := validateBoundedText "name" name 128.

Fixpoint validate_texts (fields : list (string * string * Z)) : result unit :=
  match fields with
  | [] => Ok tt
  | (name, value, limit) :: fields =>
      do? validateBoundedText name value limit in validate_texts fields
  end.

(** The loop over [d.Features] with its [previous] variable. *)
(* go: internal/control/model.go:254-263 DeviceDescriptor.Validate *)
Fixpoint validate_features (previous : string) (features : list string) : result unit :=
  match features with
  | [] => Ok tt
  | feature :: features =>
      reject (New "feature names must use letters, digits, dot, underscore, or hyphen")
        when (featurePattern feature = false) in
      reject (New "features must be sorted and unique")
        when (previous <> "" /\ String.le feature previous) in
      validate_features feature features
  end.

(* go: internal/control/model.go:226-265 DeviceDescriptor.Validate *)
Definition DeviceDescriptor_Validate (d : DeviceDescriptor) : result unit :=
  do? wrap "controllerId" (ValidateID d.(dd_ControllerID)) in
  do? wrap "deviceId" (ValidateID d.(dd_DeviceID)) in
  do? validate_texts [("name", d.(dd_Name), 128); ("os", d.(dd_OS), 32); ("arch", d.(dd_Arch), 32);
                      ("runtimeVersion", d.(dd_RuntimeVersion), 64)] in
  reject (New "protocolVersion must be positive") when (d.(dd_ProtocolVersion) < 1) in
  reject (New "features exceeds limit of 64") when (Z.of_nat (length d.(dd_Features)) > 64) in
  validate_features "" d.(dd_Features).

(* go: internal/control/model.go:200-211 Device.Validate *)
Definition Device_Validate (d : Device) : result unit :=
  do? DeviceDescriptor_Validate (Device_Descriptor d) in
  reject (New "lastSeenAt must not be negative") when (d.(d_LastSeenAt) < 0) in
  reject (New "revision must be positive") when (d.(d_Revision) = 0) in
  Ok tt.

(** ** Trees *)

(* go: internal/control/model.go:282-289 Tree *)
Record Tree := {
  t_ControllerID : string;
  t_TreeID : string;
  t_ExternalThreadID : string;
  t_RootAgentID : string;
  t_RootDeviceID : string;
  t_CreatedAt : Z;
}.

(* go: internal/control/model.go:291-309 Tree.Validate *)
Definition Tree_Validate (t : Tree) : result unit :=
  do? validate_ids [("controllerId", t.(t_ControllerID)); ("treeId", t.(t_TreeID));
                    ("externalThreadId", t.(t_ExternalThreadID)); ("rootAgentId", t.(t_RootAgentID));
                    ("rootDeviceId", t.(t_RootDeviceID))] in
  reject (New "createdAt must not be negative") when (t.(t_CreatedAt) < 0) in
  Ok tt.

(** ** Validation lemmas *)

Notation valid_id s := (ValidateID s = Ok tt).

Lemma wrap_Ok_unit text (r : result unit) : wrap text r = Ok tt <-> r = Ok tt.
Proof. apply wrap_Ok. Qed.

Lemma do_Ok {A} (r : result unit) (k : result A) a :
  result_bind r (fun _ => k) = Ok a <-> r = Ok tt /\ k = Ok a.
Proof. rewrite result_bind_Ok. split; [intros ([] & ? & ?); auto|intros []; eauto]. Qed.

Lemma reject_Ok {A} (P : Prop) `{Decision P} e (k : result A) a :
  (if decide P then Err e else k) = Ok a <-> ~ P /\ k = Ok a.
Proof. destruct (decide P); naive_solver. Qed.

Lemma validate_ids_Ok fields :
  validate_ids fields = Ok tt <-> Forall (fun f => valid_id f.2) fields.
Proof.
  induction fields as [|[name v] fields IH]; simpl; [by split; [constructor|]|].
  rewrite do_Ok, wrap_Ok, Forall_cons, IH. done.
Qed.

(** Rewrites a validation [f x = Ok tt] into the conjunction of its checks. *)
Create HintDb valid discriminated.
#[export] Hint Rewrite @do_Ok @wrap_Ok @reject_Ok validate_ids_Ok @Forall_cons @Forall_nil : valid.

Definition identity_ok (p : PrincipalIdentity) : Prop :=
  valid_id p.(pi_ControllerID) /\ valid_id p.(pi_TreeID) /\ valid_id p.(pi_AgentID) /\
  valid_id p.(pi_DeviceID) /\
  (p.(pi_ParentAgentID) <> "" ->
   valid_id p.(pi_ParentAgentID) /\ p.(pi_ParentAgentID) <> p.(pi_AgentID)).

Lemma PrincipalIdentity_Validate_Ok p : PrincipalIdentity_Validate p = Ok tt <-> identity_ok p.
Proof.
  unfold PrincipalIdentity_Validate, identity_ok. autorewrite with valid; simpl.
  destruct (decide _); autorewrite with valid; naive_solver.
Qed.

Definition role_capabilities (p : PrincipalIdentity) : list Capability :=
  if decide (p.(pi_ParentAgentID) <> "") then WorkerCapabilities else RootCapabilities.

Lemma Principal_Validate_Ok p :
  Principal_Validate p = Ok tt <->
  identity_ok p.(p_Identity) /\ p.(p_Capabilities) = role_capabilities p.(p_Identity).
Proof.
  unfold Principal_Validate. autorewrite with valid. rewrite PrincipalIdentity_Validate_Ok.
  change (if decide (p_ParentAgentID p <> "") then WorkerCapabilities else RootCapabilities)
    with (role_capabilities p.(p_Identity)).
  split; [intros (? & ?%dec_stable & _); done|intros [? ?]; auto].
Qed.

Lemma PrincipalIdentity_eta p :
  p = {| pi_ControllerID := p.(pi_ControllerID); pi_TreeID := p.(pi_TreeID);
         pi_AgentID := p.(pi_AgentID); pi_ParentAgentID := p.(pi_ParentAgentID);
         pi_DeviceID := p.(pi_DeviceID) |}.
Proof. by destruct p. Qed.

(** ** Binary search *)

Lemma ltb_leb a b : String.ltb a b = negb (String.leb b a).
Proof.
  unfold String.ltb, String.leb. rewrite (String.compare_antisym b a).
  by destruct (String.compare a b).
Qed.

Lemma String_le_leb a b : String.le a b <-> String.leb a b = true.
Proof. unfold String.le. apply Is_true_true. Qed.

Section BinarySearch.
Context (x : list string) (Hsorted : StronglySorted String.le x).

Lemma sorted_le i j a b : (i <= j)%nat -> x !! i = Some a -> x !! j = Some b -> String.le a b.
Proof.
  clear -Hsorted. revert i j. induction Hsorted as [|y l Hl IH Hy]; intros i j Hij Ha Hb; [done|].
  destruct i as [|i], j as [|j]; simpl in *.
  - by simplify_eq.
  - simplify_eq. rewrite Forall_lookup in Hy. eauto.
  - lia.
  - eapply (IH Hl i j); [lia|done|done].
Qed.

Lemma binary_search_loop_spec target fuel i j :
  (j - i <= fuel)%nat -> (i <= j <= length x)%nat ->
  (forall k a, x !! k = Some a -> (k < i)%nat -> String.ltb a target = true) ->
  (forall k a, x !! k = Some a -> (j <= k)%nat -> String.ltb a target = false) ->
  let r := binary_search_loop fuel x target i j in
  (forall k a, x !! k = Some a -> (k < r)%nat -> String.ltb a target = true) /\
  (forall k a, x !! k = Some a -> (r <= k)%nat -> String.ltb a target = false).
Proof.
  revert i j. induction fuel as [|fuel IH]; intros i j Hf Hij Hlo Hhi r.
  { subst r; simpl. split; [done|]. intros k a Hk ?. apply (Hhi k a Hk). lia. }
  subst r; cbn [binary_search_loop]. destruct (Nat.ltb_spec i j); last first.
  { split; [done|]. intros k a Hk ?. apply (Hhi k a Hk). lia. }
  assert (i <= (i + j) / 2 < j)%nat as Hh.
  { split; [apply Nat.div_le_lower_bound; lia|apply Nat.div_lt_upper_bound; lia]. }
  destruct (lookup_lt_is_Some_2 x ((i + j) / 2)%nat) as [v Hv]; [lia|]. rewrite Hv.
  destruct (String.ltb v target) eqn:Hvt.
  - apply IH; [lia|lia| |done]. intros k a Hk Hlt.
    rewrite ltb_leb, negb_true_iff in *. destruct (String.leb target a) eqn:E; [|done].
    assert (String.le a v) as Hav by (eapply sorted_le; [|exact Hk|exact Hv]; lia).
    apply String_le_leb in E. assert (String.le target v) as Htv by (etrans; eassumption).
    apply String_le_leb in Htv. congruence.
  - apply IH; [lia|lia|done|]. intros k a Hk Hge.
    rewrite ltb_leb, negb_false_iff in *. apply String_le_leb. apply String_le_leb in Hvt.
    etrans; [exact Hvt|]. eapply sorted_le; [|exact Hv|exact Hk]. lia.
Qed.

Lemma BinarySearch_spec target : BinarySearch x target = true <-> target ∈ x.
Proof.
  unfold BinarySearch. rewrite bool_decide_eq_true. split.
  { intros H. apply list_elem_of_lookup. eauto. }
  intros [k Hk]%list_elem_of_lookup.
  destruct (binary_search_loop_spec target (length x) 0 (length x)) as [Hlo Hhi];
    [lia|lia|lia| |].
  { intros k' a Hk' Hge. apply lookup_lt_Some in Hk'. lia. }
  set (r := binary_search_loop _ _ _ _ _) in *. cbv zeta in *.
  assert (String.ltb target target = false) as Hirr.
  { rewrite ltb_leb. apply negb_false_iff, String_le_leb. done. }
  assert (r <= k)%nat as Hrk.
  { destruct (decide (r <= k)%nat); [done|]. rewrite (Hlo k target Hk) in Hirr; [done|lia]. }
  destruct (lookup_lt_is_Some_2 x r) as [v Hv].
  { apply lookup_lt_Some in Hk. lia. }
  rewrite Hv. f_equal. assert (String.le v target) by (eapply sorted_le; eauto).
  assert (String.le target v).
  { pose proof (Hhi r v Hv ltac:(lia)) as Hge. rewrite ltb_leb, negb_false_iff in Hge.
    by apply String_le_leb. }
  by apply (anti_symm String.le).
Qed.
End BinarySearch.

Lemma role_capabilities_sorted p : StronglySorted String.le (role_capabilities p).
Proof.
  unfold role_capabilities. destruct (decide _);
    repeat constructor; apply String_le_leb; vm_compute; reflexivity.
Qed.

Lemma Principal_Has_spec p c :
  p.(p_Capabilities) = role_capabilities p.(p_Identity) ->
  Principal_Has p c = true <-> c ∈ role_capabilities p.(p_Identity).
Proof.
  intros Hc. unfold Principal_Has. rewrite Hc.
  apply BinarySearch_spec, role_capabilities_sorted.
Qed.

Lemma control_Require_Ok p c :
  control_Require p c = Ok tt <->
  Principal_Validate p = Ok tt /\ c ∈ role_capabilities p.(p_Identity).
Proof.
  unfold control_Require. autorewrite with valid.
  destruct (decide (Principal_Validate p = Ok tt)) as [Hv|]; [|naive_solver].
  pose proof (Principal_Validate_Ok p) as [Hp _]. destruct (Hp Hv) as [_ Hc].
  rewrite <- (Principal_Has_spec p c Hc). rewrite not_false_iff_true. naive_solver.
Qed.

(** [control.Require] decides by binary search over the principal's
    capability list; it succeeds exactly when the principal is well formed and
    the capability belongs to its role, and the two roles share no capability:
    a worker can never pass a check meant for a root, nor the other way round. *)
Theorem Require_grants_exactly_the_role p c :
  (control_Require p c = Ok tt <->
   Principal_Validate p = Ok tt /\
   c ∈ (if decide (p_ParentAgentID p = "") then RootCapabilities else WorkerCapabilities)) /\
  ~ (c ∈ RootCapabilities /\ c ∈ WorkerCapabilities).
Proof.
  rewrite control_Require_Ok. unfold role_capabilities. split.
  - destruct (decide (p_ParentAgentID p <> "")), (decide (p_ParentAgentID p = "")); naive_solver.
  - intros [Hr Hw].
    assert (Forall (fun c => c ∉ WorkerCapabilities) RootCapabilities) as HF
      by (apply (bool_decide_unpack _); vm_compute; exact I).
    rewrite Forall_forall in HF. exact (HF c Hr Hw).
Qed.
