(* ===== verification/Protocol.v ===== *)
(** internal/protocol: the wire types of agents, agent operations, worker
    lifecycle pages, mailboxes and worker readiness, each with its [Validate].
    The Go string types (statuses, outcomes, phases, ...) stay strings, because
    the validators' default branches are part of the code. *)

From S2P Require Export Control.
From Stdlib Require Import Ascii.

(** ** Bounds and patterns *)

(* go: internal/protocol/agent.go:14-20 MaximumAgentPage *)
Definition MaximumAgentPage : Z := 32.
Definition MaximumAgentPromptBytes : Z := 8 * 1024.
Definition MaximumAgentTaskNameBytes : Z := 64.
Definition MaximumFailureCodeBytes : Z := 64.
Definition MaximumAgentsPerTree : Z := 256.

Definition is_name_byte (b : Z) : bool := is_lower b || is_digit b || (b =? 95).

(* go: internal/protocol/agent.go:23-23 agentTaskNamePattern *)
Definition agentTaskNamePattern (s : string) : bool :=
  negb (bool_decide (s = "")) && forallb is_name_byte (bytes s).

(* go: internal/protocol/agent.go:24-24 failureCodePattern *)
Definition failureCodePattern (s : string) : bool :=
  pattern is_lower is_name_byte (len s) s.

(* go: internal/protocol/agent.go ValidateAgentTaskName *)
Definition ValidateAgentTaskName (taskName : string) : result unit :=
  reject (New "taskName must contain from 1 through %d lowercase letters, digits, or underscores")
    when (len taskName < 1 \/ len taskName > MaximumAgentTaskNameBytes \/
          agentTaskNamePattern taskName = false) in
  Ok tt.

(** The test shared by the two message validators. *)
Definition bad_message_text (message : string) (limit : Z) : Prop :=
  is_blank message = true \/ len message > limit \/
  ValidString message = false \/ ContainsByte 0 message = true.
#[global] Instance bad_message_text_dec m l : Decision (bad_message_text m l).
Proof. unfold bad_message_text. apply _. Defined.

(* go: internal/protocol/agent.go ValidateAgentMessage *)
Definition ValidateAgentMessage (message : string) : result unit :=
  reject (New "message must contain from 1 through %d bytes of valid text")
    when (bad_message_text message MaximumAgentPromptBytes) in
  Ok tt.

(* go: internal/protocol/agent.go ValidateFailureCode *)
Definition ValidateFailureCode (failureCode : string) : result unit :=
  reject (New "failureCode must contain from 1 through %d lowercase letters, digits, or underscores")
    when (len failureCode < 1 \/ len failureCode > MaximumFailureCodeBytes \/
          failureCodePattern failureCode = false) in
  Ok tt.

(** [if p.WorkspaceID != "" { identity.ValidateID ... }] *)
Definition validate_optional_id (name value : string) : result unit :=
  if decide (value <> "") then wrap name (ValidateID value) else Ok tt.

(** ** Spawn *)

(* go: internal/protocol/agent.go:27-33 AgentSpawnStatus *)
Definition AgentSpawnPending : string := "pending".
Definition AgentSpawnStarted : string := "started".
Definition AgentSpawnFailed : string := "failed".

(* go: internal/protocol/agent.go:35-50 AgentSpawnStatus.Validate *)
Definition AgentSpawnStatus_Validate (s failureCode : string) : result unit :=
  if bool_decide (s = AgentSpawnPending \/ s = AgentSpawnStarted) then
    reject (New "non-failed agent must not contain failureCode") when (failureCode <> "") in Ok tt
  else if bool_decide (s = AgentSpawnFailed) then ValidateFailureCode failureCode
  else Err (New "unsupported agent spawn status %q").

(* go: internal/protocol/agent.go:52-59 AgentSpawnOutcome *)
Definition AgentSpawnOutcomeIndeterminate : string := "indeterminate".
Definition AgentSpawnOutcomeBusy : string := "busy".
Definition AgentSpawnOutcomeStarted : string := "started".
Definition AgentSpawnOutcomeFailed : string := "failed".

(* go: internal/protocol/agent.go:61-75 AgentSpawnOutcome.Validate *)
Definition AgentSpawnOutcome_Validate (o failureCode : string) : result unit :=
  if bool_decide (o = AgentSpawnOutcomeIndeterminate \/ o = AgentSpawnOutcomeBusy \/
                  o = AgentSpawnOutcomeStarted) then
    reject (New "non-failed agent spawn outcome must not contain failureCode")
      when (failureCode <> "") in Ok tt
  else if bool_decide (o = AgentSpawnOutcomeFailed) then ValidateFailureCode failureCode
  else Err (New "unsupported agent spawn outcome %q").

(* go: internal/protocol/agent.go SpawnAgentParams *)
Record SpawnAgentParams := {
  sap_SpawnID : string;
  sap_TargetDeviceID : string;
  sap_TaskName : string;
  sap_Message : string;
  sap_WorkspaceID : string;
}.

(* go: internal/protocol/agent.go:85-101 SpawnAgentParams.Validate *)
Definition SpawnAgentParams_Validate (p : SpawnAgentParams) : result unit :=
  do? wrap "spawnId" (ValidateID p.(sap_SpawnID)) in
  do? wrap "targetDeviceId" (ValidateID p.(sap_TargetDeviceID)) in
  do? ValidateAgentTaskName p.(sap_TaskName) in
  do? validate_optional_id "workspaceId" p.(sap_WorkspaceID) in
  ValidateAgentMessage p.(sap_Message).

(* go: internal/protocol/agent.go SpawnWorkerParams *)
Record SpawnWorkerParams := {
  swp_SpawnID : string;
  swp_AgentID : string;
  swp_TaskName : string;
  swp_Message : string;
  swp_WorkspaceID : string;
}.

(* go: internal/protocol/agent.go:111-127 SpawnWorkerParams.Validate *)
Definition SpawnWorkerParams_Validate (p : SpawnWorkerParams) : result unit :=
  do? wrap "spawnId" (ValidateID p.(swp_SpawnID)) in
  do? wrap "agentId" (ValidateID p.(swp_AgentID)) in
  do? ValidateAgentTaskName p.(swp_TaskName) in
  do? validate_optional_id "workspaceId" p.(swp_WorkspaceID) in
  ValidateAgentMessage p.(swp_Message).

(* go: internal/protocol/agent.go AgentSummary *)
Record AgentSummary := {
  as_SpawnID : string;
  as_Principal : PrincipalIdentity;
  as_TaskName : string;
  as_SpawnStatus : string;
  as_SpawnFailureCode : string;
  as_WorkspaceID : string;
  as_Sequence : Z;
}.

#[global] Instance AgentSummary_eq_dec : EqDecision AgentSummary.
Proof. solve_decision. Defined.

(* go: internal/protocol/agent.go:139-164 AgentSummary.Validate *)
Definition AgentSummary_Validate (a : AgentSummary) : result unit :=
  do? wrap "spawnId" (ValidateID a.(as_SpawnID)) in
  do? wrap "agent principal" (PrincipalIdentity_Validate a.(as_Principal)) in
  reject (New "agent principal must be a managed worker")
    when (a.(as_Principal).(pi_ParentAgentID) = "") in
  do? ValidateAgentTaskName a.(as_TaskName) in
  do? validate_optional_id "workspaceId" a.(as_WorkspaceID) in
  do? AgentSpawnStatus_Validate a.(as_SpawnStatus) a.(as_SpawnFailureCode) in
  reject (New "agent sequence is outside the supported range")
    when (a.(as_Sequence) < 1 \/ a.(as_Sequence) > MaximumAgentsPerTree) in
  Ok tt.

(* go: internal/protocol/agent.go SpawnAgentResult *)
Record SpawnAgentResult := {
  sar_Agent : AgentSummary;
  sar_Outcome : string;
}.

(** [None] is the [panic] of the last switch's default branch. *)
(* go: internal/protocol/agent.go:171-193 SpawnAgentResult.Validate *)
Definition SpawnAgentResult_Validate (r : SpawnAgentResult) : option (result unit) :=
  match AgentSummary_Validate r.(sar_Agent) with
  | Err e => Some (Err e)
  | Ok _ =>
      match AgentSpawnOutcome_Validate r.(sar_Outcome) r.(sar_Agent).(as_SpawnFailureCode) with
      | Err e => Some (Err e)
      | Ok _ =>
          let expectedStatus :=
            if bool_decide (r.(sar_Outcome) = AgentSpawnOutcomeIndeterminate \/
                            r.(sar_Outcome) = AgentSpawnOutcomeBusy) then Some AgentSpawnPending
            else if bool_decide (r.(sar_Outcome) = AgentSpawnOutcomeStarted) then Some AgentSpawnStarted
            else if bool_decide (r.(sar_Outcome) = AgentSpawnOutcomeFailed) then Some AgentSpawnFailed
            else None in
          match expectedStatus with
          | None => None
          | Some expectedStatus =>
              Some (reject (New "agent spawn outcome does not match durable status")
                      when (r.(sar_Agent).(as_SpawnStatus) <> expectedStatus) in Ok tt)
          end
      end
  end.

(* go: internal/protocol/agent.go SpawnWorkerResult *)
Record SpawnWorkerResult := {
  swr_SpawnID : string;
  swr_Principal : PrincipalIdentity;
  swr_Outcome : string;
  swr_FailureCode : string;
}.

(* go: internal/protocol/agent.go:202-213 SpawnWorkerResult.Validate *)
Definition SpawnWorkerResult_Validate (r : SpawnWorkerResult) : result unit :=
  do? wrap "spawnId" (ValidateID r.(swr_SpawnID)) in
  do? wrap "worker principal" (PrincipalIdentity_Validate r.(swr_Principal)) in
  reject (New "worker principal must contain parentAgentId")
    when (r.(swr_Principal).(pi_ParentAgentID) = "") in
  AgentSpawnOutcome_Validate r.(swr_Outcome) r.(swr_FailureCode).

(* go: internal/protocol/agent.go ListAgentsParams *)
Record ListAgentsParams := { lap_AfterSequence : Z; lap_Limit : Z }.

(* go: internal/protocol/agent.go:220-228 ListAgentsParams.Validate *)
Definition ListAgentsParams_Validate (p : ListAgentsParams) : result unit :=
  reject (New "agent cursor exceeds the supported range")
    when (p.(lap_AfterSequence) > MaximumAgentsPerTree) in
  reject (New "agent page limit must be from 1 through %d")
    when (p.(lap_Limit) < 1 \/ p.(lap_Limit) > MaximumAgentPage) in
  Ok tt.

(** ** Worker lifecycle *)

(* go: internal/protocol/agent_lifecycle.go:11-11 MaximumWorkerLifecyclePage *)
Definition MaximumWorkerLifecyclePage : Z := 32.

(* go: internal/protocol/agent_lifecycle.go:13-26 WorkerLifecyclePhase *)
Definition WorkerLifecycleReserved : string := "reserved".
Definition WorkerLifecyclePending : string := "pending".
Definition WorkerLifecycleStarting : string := "starting".
Definition WorkerLifecyclePreflight : string := "preflight".
Definition WorkerLifecycleReady : string := "ready".
Definition WorkerLifecycleRunning : string := "running".
Definition WorkerLifecycleFinalizing : string := "finalizing".
Definition WorkerLifecycleIdle : string := "idle".
Definition WorkerLifecycleInterrupted : string := "interrupted".
Definition WorkerLifecycleFailed : string := "failed".

(* go: internal/protocol/agent_lifecycle.go WorkerLifecyclePhase.Validate *)
Definition WorkerLifecyclePhase_Validate (p failureCode : string) : result unit :=
  if bool_decide (p ∈ [WorkerLifecycleReserved; WorkerLifecyclePending; WorkerLifecycleStarting;
                       WorkerLifecyclePreflight; WorkerLifecycleReady; WorkerLifecycleRunning;
                       WorkerLifecycleFinalizing; WorkerLifecycleIdle; WorkerLifecycleInterrupted]) then
    reject (New "non-failed worker lifecycle must not contain failureCode")
      when (failureCode <> "") in Ok tt
  else if bool_decide (p = WorkerLifecycleFailed) then ValidateFailureCode failureCode
  else Err (New "unsupported worker lifecycle phase %q").

(* go: internal/protocol/agent_lifecycle.go WorkerLifecycleSnapshot *)
Record WorkerLifecycleSnapshot := {
  wls_TreeID : string;
  wls_AgentID : string;
  wls_Revision : Z;
  wls_Phase : string;
  wls_FailureCode : string;
  wls_CodexThreadID : string;
  wls_ActiveTurnID : string;
}.

(** The last switch of [WorkerLifecycleSnapshot.Validate]: which identities a
    phase carries. *)
(* go: internal/protocol/agent_lifecycle.go:85-111 WorkerLifecycleSnapshot.Validate *)
Definition validate_phase_identity (phase thread turn : string) : result unit :=
  if bool_decide (phase = WorkerLifecycleReserved) then
    reject (New "reserved worker lifecycle must not contain thread or turn identity")
      when (thread <> "" \/ turn <> "") in Ok tt
  else if bool_decide (phase = WorkerLifecyclePending \/ phase = WorkerLifecycleStarting) then
    reject (New "pending or starting worker lifecycle must not contain activeTurnId")
      when (turn <> "") in Ok tt
  else if bool_decide (phase = WorkerLifecyclePreflight \/ phase = WorkerLifecycleReady \/
                       phase = WorkerLifecycleIdle) then
    reject (New "worker lifecycle phase requires a thread and no active turn")
      when (thread = "" \/ turn <> "") in Ok tt
  else if bool_decide (phase = WorkerLifecycleRunning \/ phase = WorkerLifecycleFinalizing) then
    reject (New "running or finalizing worker lifecycle requires thread and turn identity")
      when (thread = "" \/ turn = "") in Ok tt
  else if bool_decide (phase = WorkerLifecycleInterrupted) then
    reject (New "interrupted worker lifecycle requires codexThreadId") when (thread = "") in Ok tt
  else if bool_decide (phase = WorkerLifecycleFailed) then
    reject (New "failed worker lifecycle must not contain activeTurnId") when (turn <> "") in Ok tt
  else Ok tt.

(* go: internal/protocol/agent_lifecycle.go WorkerLifecycleSnapshot.Validate *)
Definition WorkerLifecycleSnapshot_Validate (s : WorkerLifecycleSnapshot) : result unit :=
  do? wrap "treeId" (ValidateID s.(wls_TreeID)) in
  do? wrap "agentId" (ValidateID s.(wls_AgentID)) in
  reject (New "worker lifecycle revision is outside the supported range")
    when (s.(wls_Revision) = 0 \/ s.(wls_Revision) > MaxInt64) in
  do? WorkerLifecyclePhase_Validate s.(wls_Phase) s.(wls_FailureCode) in
  do? validate_optional_id "codexThreadId" s.(wls_CodexThreadID) in
  do? validate_optional_id "activeTurnId" s.(wls_ActiveTurnID) in
  validate_phase_identity s.(wls_Phase) s.(wls_CodexThreadID) s.(wls_ActiveTurnID).

(* go: internal/protocol/agent_lifecycle.go SyncWorkerLifecycleParams *)
Record SyncWorkerLifecycleParams := {
  slp_BaseRevision : Z;
  slp_ThroughRevision : Z;
  slp_Complete : bool;
  slp_Workers : list WorkerLifecycleSnapshot;
}.

(** The loop over the page's workers: [previous] and the [seen] set are its
    variables; it returns the final [previous]. *)
(* go: internal/protocol/agent_lifecycle.go:145-164 SyncWorkerLifecycleParams.Validate *)
Fixpoint validate_lifecycle_workers (through previous : Z) (seen : gset string)
    (workers : list WorkerLifecycleSnapshot) : result Z :=
  match workers with
  | [] => Ok previous
  | worker :: workers =>
      do? wrap "workers[%d]" (WorkerLifecycleSnapshot_Validate worker) in
      reject (New "worker lifecycle revisions must increase strictly after baseRevision")
        when (worker.(wls_Revision) <= previous) in
      reject (New "worker lifecycle revision exceeds throughRevision")
        when (worker.(wls_Revision) > through) in
      let key := worker.(wls_TreeID) +:+ String Ascii.zero worker.(wls_AgentID) in
      reject (New "worker lifecycle page contains a duplicate agent") when (key ∈ seen) in
      validate_lifecycle_workers through worker.(wls_Revision) ({[key]} ∪ seen) workers
  end.

(* go: internal/protocol/agent_lifecycle.go SyncWorkerLifecycleParams.Validate *)
Definition SyncWorkerLifecycleParams_Validate (p : SyncWorkerLifecycleParams) : result unit :=
  reject (New "worker lifecycle page revision exceeds the supported range")
    when (p.(slp_BaseRevision) > MaxInt64 \/ p.(slp_ThroughRevision) > MaxInt64) in
  reject (New "throughRevision must not precede baseRevision")
    when (p.(slp_ThroughRevision) < p.(slp_BaseRevision)) in
  reject (New "worker lifecycle page must contain at most %d workers")
    when (Z.of_nat (length p.(slp_Workers)) > MaximumWorkerLifecyclePage) in
  reject (New "incomplete worker lifecycle page must contain %d workers")
    when (p.(slp_Complete) = false /\
          Z.of_nat (length p.(slp_Workers)) <> MaximumWorkerLifecyclePage) in
  reject (New "incomplete worker lifecycle page must advance toward throughRevision")
    when (p.(slp_Complete) = false /\ p.(slp_BaseRevision) = p.(slp_ThroughRevision)) in
  let? previous := validate_lifecycle_workers p.(slp_ThroughRevision) p.(slp_BaseRevision) ∅ p.(slp_Workers) in
  reject (New "page ending at throughRevision must be complete")
    when (p.(slp_Complete) = false /\ previous = p.(slp_ThroughRevision)) in
  Ok tt.

(** [None] is the index panic of [p.Workers[len(p.Workers)-1]] on an empty page. *)
(* go: internal/protocol/agent_lifecycle.go AppliedRevision *)
Definition AppliedRevision (p : SyncWorkerLifecycleParams) : option (result Z) :=
  match SyncWorkerLifecycleParams_Validate p with
  | Err e => Some (Err e)
  | Ok _ =>
      if p.(slp_Complete) then Some (Ok p.(slp_ThroughRevision))
      else match last p.(slp_Workers) with
           | Some w => Some (Ok w.(wls_Revision))
           | None => None
           end
  end.

(** ** Effective agent state *)

(* go: internal/protocol/agent.go:235-242 AgentLifecycleFreshness *)
Definition AgentLifecycleCurrent : string := "current".
Definition AgentLifecycleSyncing : string := "syncing".
Definition AgentLifecycleOffline : string := "offline".
Definition AgentLifecycleMissing : string := "missing".

(* go: internal/protocol/agent.go:244-254 AgentEffectiveStatus *)
Definition AgentEffectiveIndeterminate : string := "indeterminate".
Definition AgentEffectiveStarting : string := "starting".
Definition AgentEffectiveRunning : string := "running".
Definition AgentEffectiveFinalizing : string := "finalizing".
Definition AgentEffectiveIdle : string := "idle".
Definition AgentEffectiveInterrupted : string := "interrupted".
Definition AgentEffectiveFailed : string := "failed".

(* go: internal/protocol/agent.go:256-261 AgentFailureSource *)
Definition AgentFailureSourceSpawn : string := "spawn".
Definition AgentFailureSourceLifecycle : string := "lifecycle".

(* go: internal/protocol/agent.go ProjectAgentEffectiveState *)
Definition ProjectAgentEffectiveState
    (spawnStatus spawnFailureCode lifecyclePhase lifecycleFailureCode freshness : string)
    : string * string * string :=
  if bool_decide (spawnStatus = AgentSpawnFailed) then
    (AgentEffectiveFailed, spawnFailureCode, AgentFailureSourceSpawn)
  else if bool_decide (lifecyclePhase = WorkerLifecycleFailed /\ freshness <> AgentLifecycleMissing) then
    (AgentEffectiveFailed, lifecycleFailureCode, AgentFailureSourceLifecycle)
  else if bool_decide (freshness <> AgentLifecycleCurrent) then (AgentEffectiveIndeterminate, "", "")
  else if bool_decide (lifecyclePhase ∈ [WorkerLifecycleReserved; WorkerLifecyclePending;
            WorkerLifecycleStarting; WorkerLifecyclePreflight; WorkerLifecycleReady]) then
    (AgentEffectiveStarting, "", "")
  else if bool_decide (lifecyclePhase = WorkerLifecycleRunning) then (AgentEffectiveRunning, "", "")
  else if bool_decide (lifecyclePhase = WorkerLifecycleFinalizing) then (AgentEffectiveFinalizing, "", "")
  else if bool_decide (lifecyclePhase = WorkerLifecycleIdle) then (AgentEffectiveIdle, "", "")
  else if bool_decide (lifecyclePhase = WorkerLifecycleInterrupted) then (AgentEffectiveInterrupted, "", "")
  else (AgentEffectiveIndeterminate, "", "").

(* go: internal/protocol/agent.go AgentState *)
Record AgentState := {
  ags_SpawnID : string;
  ags_Principal : PrincipalIdentity;
  ags_TaskName : string;
  ags_SpawnStatus : string;
  ags_SpawnFailureCode : string;
  ags_WorkspaceID : string;
  ags_Sequence : Z;
  ags_LifecyclePhase : string;
  ags_LifecycleFailureCode : string;
  ags_LifecycleTargetRevision : Z;
  ags_LifecycleObservedAt : Z;
  ags_LifecycleFreshness : string;
  ags_EffectiveStatus : string;
  ags_EffectiveFailureCode : string;
  ags_FailureSource : string;
  ags_TargetDispatchable : bool;
}.

(* go: internal/protocol/agent.go SpawnReceipt *)
Definition AgentState_SpawnReceipt (a : AgentState) : AgentSummary := {|
  as_SpawnID := a.(ags_SpawnID); as_Principal := a.(ags_Principal); as_TaskName := a.(ags_TaskName);
  as_SpawnStatus := a.(ags_SpawnStatus); as_SpawnFailureCode := a.(ags_SpawnFailureCode);
  as_WorkspaceID := a.(ags_WorkspaceID); as_Sequence := a.(ags_Sequence) |}.

(* go: internal/protocol/agent.go AgentState.Validate *)
Definition AgentState_Validate (a : AgentState) : result unit :=
  do? AgentSummary_Validate (AgentState_SpawnReceipt a) in
  do? (if bool_decide (a.(ags_LifecycleFreshness) = AgentLifecycleMissing) then
         reject (New "missing lifecycle must not contain lifecycle state")
           when (a.(ags_LifecyclePhase) <> "" \/ a.(ags_LifecycleFailureCode) <> "" \/
                 a.(ags_LifecycleTargetRevision) <> 0 \/ a.(ags_LifecycleObservedAt) <> 0) in Ok tt
       else if bool_decide (a.(ags_LifecycleFreshness) = AgentLifecycleCurrent \/
                            a.(ags_LifecycleFreshness) = AgentLifecycleSyncing \/
                            a.(ags_LifecycleFreshness) = AgentLifecycleOffline) then
         reject (New "agent lifecycle metadata is invalid")
           when (a.(ags_LifecycleTargetRevision) = 0 \/ a.(ags_LifecycleTargetRevision) > MaxInt64 \/
                 a.(ags_LifecycleObservedAt) < 0) in
         WorkerLifecyclePhase_Validate a.(ags_LifecyclePhase) a.(ags_LifecycleFailureCode)
       else Err (New "unsupported agent lifecycle freshness %q")) in
  reject (New "stale agent lifecycle target must not be dispatchable")
    when (a.(ags_TargetDispatchable) = true /\
          (a.(ags_LifecycleFreshness) = AgentLifecycleSyncing \/
           a.(ags_LifecycleFreshness) = AgentLifecycleOffline)) in
  let '(effective, failureCode, failureSource) :=
    ProjectAgentEffectiveState a.(ags_SpawnStatus) a.(ags_SpawnFailureCode) a.(ags_LifecyclePhase)
      a.(ags_LifecycleFailureCode) a.(ags_LifecycleFreshness) in
  reject (New "agent effective state does not match its authorities")
    when (a.(ags_EffectiveStatus) <> effective \/ a.(ags_EffectiveFailureCode) <> failureCode \/
          a.(ags_FailureSource) <> failureSource) in
  Ok tt.

(** ** Agent operations *)

(* go: internal/protocol/agent_operation.go:10-16 AgentOperationAction *)
Definition AgentOperationSend : string := "send".
Definition AgentOperationFollowup : string := "followup".
Definition AgentOperationInterrupt : string := "interrupt".

(* go: internal/protocol/agent_operation.go:18-29 AgentOperationOutcome *)
Definition AgentOperationOutcomePending : string := "pending".
Definition AgentOperationOutcomeQueued : string := "queued".
Definition AgentOperationOutcomeSteered : string := "steered".
Definition AgentOperationOutcomeStarted : string := "started".
Definition AgentOperationOutcomeInterrupted : string := "interrupted".
Definition AgentOperationOutcomeFailed : string := "failed".

(* go: internal/protocol/agent_operation.go AgentOperationAction.Validate *)
Definition AgentOperationAction_Validate (a : string) : result unit :=
  if bool_decide (a = AgentOperationSend \/ a = AgentOperationFollowup \/ a = AgentOperationInterrupt)
  then Ok tt else Err (New "unsupported agent operation action %q").

(* go: internal/protocol/agent_operation.go accepts *)
Definition AgentOperationAction_accepts (a outcome : string) : bool :=
  if bool_decide (outcome = AgentOperationOutcomePending) then true
  else if bool_decide (a = AgentOperationSend) then
    bool_decide (outcome = AgentOperationOutcomeQueued \/ outcome = AgentOperationOutcomeSteered)
  else if bool_decide (a = AgentOperationFollowup) then
    bool_decide (outcome = AgentOperationOutcomeStarted)
  else if bool_decide (a = AgentOperationInterrupt) then
    bool_decide (outcome = AgentOperationOutcomeInterrupted)
  else false.

(* go: internal/protocol/agent_operation.go AgentOperationOutcome.Validate *)
Definition AgentOperationOutcome_Validate (o action failureCode : string) : result unit :=
  do? AgentOperationAction_Validate action in
  if bool_decide (o ∈ [AgentOperationOutcomePending; AgentOperationOutcomeQueued;
                       AgentOperationOutcomeSteered; AgentOperationOutcomeStarted;
                       AgentOperationOutcomeInterrupted]) then
    reject (New "non-failed agent operation must not contain failureCode") when (failureCode <> "") in
    reject (New "agent operation action %q does not support outcome %q")
      when (AgentOperationAction_accepts action o = false) in
    Ok tt
  else if bool_decide (o = AgentOperationOutcomeFailed) then ValidateFailureCode failureCode
  else Err (New "unsupported agent operation outcome %q").

(* go: internal/protocol/agent_operation.go validateAgentOperationTarget *)
Definition validateAgentOperationTarget (operationID agentID : string) : result unit :=
  do? wrap "operationId" (ValidateID operationID) in
  wrap "agentId" (ValidateID agentID).

(* go: internal/protocol/agent_operation.go AgentOperationResult *)
Record AgentOperationResult := {
  aor_OperationID : string;
  aor_AgentID : string;
  aor_Action : string;
  aor_Outcome : string;
  aor_FailureCode : string;
}.

(* go: internal/protocol/agent_operation.go AgentOperationResult.Validate *)
Definition AgentOperationResult_Validate (r : AgentOperationResult) : result unit :=
  do? validateAgentOperationTarget r.(aor_OperationID) r.(aor_AgentID) in
  do? AgentOperationAction_Validate r.(aor_Action) in
  AgentOperationOutcome_Validate r.(aor_Outcome) r.(aor_Action) r.(aor_FailureCode).

(** ** Mailbox *)

(* go: internal/protocol/mailbox.go:14-23 MaximumMailboxPage *)
Definition MaximumMailboxPage : Z := 32.
Definition MaximumMailboxWaitMillis : Z := 25000.
Definition MaximumMailboxMessageBytes : Z := 1024.

(* go: internal/protocol/mailbox.go:25-31 MessageTargetKind *)
Definition MessageTargetParent : string := "parent".
Definition MessageTargetRoot : string := "root".
Definition MessageTargetAgent : string := "agent".

(* go: internal/protocol/mailbox.go MessageTarget *)
Record MessageTarget := { mt_Kind : string; mt_AgentID : string }.

(* go: internal/protocol/mailbox.go MessageTarget.Validate *)
Definition MessageTarget_Validate (t : MessageTarget) : result unit :=
  if bool_decide (t.(mt_Kind) = MessageTargetParent \/ t.(mt_Kind) = MessageTargetRoot) then
    reject (New "parent and root message targets must not contain agentId")
      when (t.(mt_AgentID) <> "") in Ok tt
  else if bool_decide (t.(mt_Kind) = MessageTargetAgent) then
    wrap "message target agentId" (ValidateID t.(mt_AgentID))
  else Err (New "unsupported message target %q").

(* go: internal/protocol/mailbox.go ValidateMailboxMessage *)
Definition ValidateMailboxMessage (message : string) : result unit :=
  reject (New "message must contain from 1 through %d bytes of valid text")
    when (bad_message_text message MaximumMailboxMessageBytes) in
  Ok tt.

(* go: internal/protocol/mailbox.go MailboxMessage *)
Record MailboxMessage := {
  mm_MessageID : string;
  mm_Sequence : Z;
  mm_Source : PrincipalIdentity;
  mm_Message : string;
  mm_CreatedAt : Z;
}.

(* go: internal/protocol/mailbox.go MailboxMessage.Validate *)
Definition MailboxMessage_Validate (m : MailboxMessage) : result unit :=
  do? wrap "messageId" (ValidateID m.(mm_MessageID)) in
  reject (New "message sequence must be positive") when (m.(mm_Sequence) = 0) in
  do? wrap "message source" (PrincipalIdentity_Validate m.(mm_Source)) in
  do? ValidateMailboxMessage m.(mm_Message) in
  reject (New "message createdAt must not be negative") when (m.(mm_CreatedAt) < 0) in
  Ok tt.

(* go: internal/protocol/mailbox.go WaitMailboxResult *)
Record WaitMailboxResult := { wmr_Messages : list MailboxMessage; wmr_NextCursor : Z }.

(** ** Worker readiness *)

(* go: internal/protocol/worker_readiness.go:10-10 MaximumReadinessAttempts *)
Definition MaximumReadinessAttempts : Z := 5.

(* go: internal/protocol/worker_readiness.go:30-36 WorkerReadinessState *)
Definition WorkerReadinessPending : string := "pending".
Definition WorkerReadinessReady : string := "ready".
Definition WorkerReadinessInterventionRequired : string := "intervention_required".

(* go: internal/protocol/worker_readiness.go:64-65 readinessDigestPattern *)
Definition readinessDigestPattern (s : string) : bool := lower_hex_pattern 64 s.
Definition readinessFailurePattern (s : string) : bool := pattern is_lower is_name_byte 63 s.

(* go: internal/protocol/worker_readiness.go WorkerReadiness *)
Record WorkerReadiness := {
  wr_Epoch : Z;
  wr_State : string;
  wr_AttemptCount : Z;
  wr_RuntimeDigest : string;
  wr_ConfigDigest : string;
  wr_EpochStartedAt : Z;
  wr_NextAttemptAt : Z;
  wr_LastAttemptAt : Z;
  wr_FailureCode : string;
  wr_UpdatedAt : Z;
}.

#[global] Instance WorkerReadiness_eq_dec : EqDecision WorkerReadiness.
Proof. solve_decision. Defined.

(* go: internal/protocol/worker_readiness.go WorkerReadiness.Validate *)
Definition WorkerReadiness_Validate (r : WorkerReadiness) : result unit :=
  reject (New "worker readiness epoch must be positive") when (r.(wr_Epoch) = 0) in
  reject (New "worker readiness digests must be lowercase SHA-256")
    when (readinessDigestPattern r.(wr_RuntimeDigest) = false \/
          readinessDigestPattern r.(wr_ConfigDigest) = false) in
  reject (New "worker readiness attemptCount must be from 0 through %d")
    when (r.(wr_AttemptCount) < 0 \/ r.(wr_AttemptCount) > MaximumReadinessAttempts) in
  reject (New "worker readiness epoch and update timestamps must be positive")
    when (r.(wr_EpochStartedAt) <= 0 \/ r.(wr_NextAttemptAt) < 0 \/ r.(wr_LastAttemptAt) < 0 \/
          r.(wr_UpdatedAt) <= 0) in
  reject (New "worker readiness timestamps precede the epoch")
    when (r.(wr_UpdatedAt) < r.(wr_EpochStartedAt) \/
          (r.(wr_LastAttemptAt) <> 0 /\ r.(wr_LastAttemptAt) < r.(wr_EpochStartedAt)) \/
          (r.(wr_NextAttemptAt) <> 0 /\ r.(wr_NextAttemptAt) < r.(wr_EpochStartedAt))) in
  reject (New "worker readiness failureCode is invalid")
    when (r.(wr_FailureCode) <> "" /\ readinessFailurePattern r.(wr_FailureCode) = false) in
  do? (if bool_decide (r.(wr_State) = WorkerReadinessPending) then
         reject (New "pending worker readiness must have a scheduled remaining attempt")
           when (r.(wr_AttemptCount) < MaximumReadinessAttempts /\ r.(wr_NextAttemptAt) = 0) in
         reject (New "pending worker readiness with a consumed attempt budget must not be scheduled")
           when (r.(wr_AttemptCount) = MaximumReadinessAttempts /\ r.(wr_NextAttemptAt) <> 0) in
         Ok tt
       else if bool_decide (r.(wr_State) = WorkerReadinessReady) then
         reject (New "ready worker readiness is inconsistent")
           when (r.(wr_AttemptCount) < 1 \/ r.(wr_NextAttemptAt) <> 0 \/ r.(wr_FailureCode) <> "") in
         Ok tt
       else if bool_decide (r.(wr_State) = WorkerReadinessInterventionRequired) then
         reject (New "intervention-required worker readiness is inconsistent")
           when (r.(wr_NextAttemptAt) <> 0 \/ r.(wr_FailureCode) = "") in
         Ok tt
       else Err (New "unsupported worker readiness state %q")) in
  reject (New "worker readiness without attempts must not have lastAttemptAt")
    when (r.(wr_AttemptCount) = 0 /\ r.(wr_LastAttemptAt) <> 0) in
  reject (New "worker readiness attempts require lastAttemptAt")
    when (r.(wr_AttemptCount) > 0 /\ r.(wr_LastAttemptAt) = 0) in
  Ok tt.

(** ** Validation lemmas *)

Definition optional_id_ok (s : string) : Prop := s <> "" -> valid_id s.

Lemma validate_optional_id_Ok name v :
  validate_optional_id name v = Ok tt <-> optional_id_ok v.
Proof.
  unfold validate_optional_id, optional_id_ok. destruct (decide _); [rewrite wrap_Ok|]; naive_solver.
Qed.

Lemma ValidateFailureCode_nonempty c : ValidateFailureCode c = Ok tt -> c <> "".
Proof. unfold ValidateFailureCode. autorewrite with valid. intros [H _] ->. apply H. left. done. Qed.

Lemma ValidateFailureCode_len c : ValidateFailureCode c = Ok tt -> 1 <= len c <= MaximumFailureCodeBytes.
Proof. unfold ValidateFailureCode. autorewrite with valid. intros [H _]. lia. Qed.

(** Each kind of status allows a failure code exactly when it means failure. *)
Lemma AgentSpawnStatus_Validate_Ok s c :
  AgentSpawnStatus_Validate s c = Ok tt <->
  ((s = AgentSpawnPending \/ s = AgentSpawnStarted) /\ c = "") \/
  (s = AgentSpawnFailed /\ ValidateFailureCode c = Ok tt).
Proof.
  unfold AgentSpawnStatus_Validate. repeat case_bool_decide; autorewrite with valid;
    try (destruct (decide (c = ""))); naive_solver.
Qed.

Lemma WorkerLifecyclePhase_Validate_code p c :
  WorkerLifecyclePhase_Validate p c = Ok tt ->
  (p = WorkerLifecycleFailed /\ ValidateFailureCode c = Ok tt) \/ (p <> WorkerLifecycleFailed /\ c = "").
Proof.
  unfold WorkerLifecyclePhase_Validate. repeat case_bool_decide; autorewrite with valid; [|auto|done].
  intros [Hc%dec_stable _]. right. split; [|done]. intros ->. by repeat (set_unfold; destruct_or?).
Qed.

#[export] Hint Resolve ValidateFailureCode_nonempty : go.

Lemma zero_key_inj t a t' a' :
  valid_id t -> valid_id t' ->
  t +:+ String zero a = t' +:+ String zero a' -> t = t' /\ a = a'.
Proof.
  intros Ht%ValidateID_spec Ht'%ValidateID_spec Heq.
  destruct Ht as [Hl _], Ht' as [Hl' _].
  apply (f_equal bytes) in Heq. rewrite !bytes_app in Heq.
  apply app_inj_1 in Heq as [H1 H2]; [|congruence]. simpl in H2. injection H2 as H2.
  split; by apply bytes_inj.
Qed.

(** ** Lifecycle pages *)

Section LifecyclePages.

Lemma validate_lifecycle_workers_Ok through previous seen workers final :
  validate_lifecycle_workers through previous seen workers = Ok final ->
  Forall (fun w => WorkerLifecycleSnapshot_Validate w = Ok tt /\
                   wls_Revision w <= through) workers /\
  StronglySorted Z.lt (previous :: (wls_Revision <$> workers)) /\
  NoDup ((fun w => wls_TreeID w +:+ String zero (wls_AgentID w)) <$> workers) /\
  (forall w, w ∈ workers -> wls_TreeID w +:+ String zero (wls_AgentID w) ∉ seen) /\
  final = from_option wls_Revision previous (last workers).
Proof.
  revert previous seen. induction workers as [|w workers IH]; intros previous seen; simpl.
  { intros [= <-]. repeat split; [constructor|repeat constructor|constructor|set_solver]. }
  rewrite do_Ok, wrap_Ok, !reject_Ok. intros (Hv & Hgt & Hle & Hseen & Hrec).
  apply IH in Hrec as (Hall & Hsorted & Hnodup & Hnew & Hfinal). repeat split.
  - constructor; [split; [done|lia]|done].
  - constructor; [done|]. inversion_clear Hsorted as [|?? _ Hmin]. constructor; [lia|].
    eapply Forall_impl; [exact Hmin|]. simpl. lia.
  - constructor; [|done]. rewrite list_elem_of_fmap. intros (w' & Heq & Hw').
    apply (Hnew w' Hw'). rewrite <- Heq. set_solver.
  - intros w' [->|Hw']%elem_of_cons; [done|]. specialize (Hnew w' Hw'). set_solver.
  - rewrite Hfinal. change (last (w :: workers)) with (last ([w] ++ workers)).
    rewrite last_app. by destruct (last workers).
Qed.

Lemma page_validate_Ok p :
  SyncWorkerLifecycleParams_Validate p = Ok tt ->
  p.(slp_BaseRevision) <= p.(slp_ThroughRevision) <= MaxInt64 /\
  exists previous,
    validate_lifecycle_workers p.(slp_ThroughRevision) p.(slp_BaseRevision) ∅ p.(slp_Workers) = Ok previous /\
    (p.(slp_Complete) = false ->
     p.(slp_Workers) <> [] /\ previous <> p.(slp_ThroughRevision)).
Proof.
  unfold SyncWorkerLifecycleParams_Validate. rewrite !reject_Ok, result_bind_Ok.
  intros (H1 & H2 & H3 & H4 & H5 & previous & Hprev & Hend).
  rewrite reject_Ok in Hend. destruct Hend as [Hend _].
  split; [lia|]. exists previous. split; [done|]. intros Hc. split; [|naive_solver].
  intros Hnil. apply H4. rewrite Hnil. done.
Qed.

Lemma last_revision_sorted base (workers : list WorkerLifecycleSnapshot) w :
  StronglySorted Z.lt (base :: (wls_Revision <$> workers)) -> last workers = Some w ->
  base < wls_Revision w /\ Forall (fun w' => wls_Revision w' <= wls_Revision w) workers.
Proof.
  intros Hs (l & ->)%last_Some. rewrite fmap_app in Hs. simpl in Hs.
  inversion_clear Hs as [|?? Hs' Hmin]. apply Forall_app in Hmin as [_ Hmin].
  inversion_clear Hmin. split; [done|]. apply Forall_app. split; [|repeat constructor; lia].
  apply Forall_forall. intros w' Hw'.
  apply StronglySorted_app in Hs' as (Hlt & _).
  assert (wls_Revision w' < wls_Revision w); [|lia]. apply Hlt; [|set_solver].
  by apply list_elem_of_fmap_2.
Qed.
End LifecyclePages.

(** A page advances its base, or carries no worker. *)
Lemma AppliedRevision_base p r :
  AppliedRevision p = Some (Ok r) -> p.(slp_BaseRevision) <= r /\ (p.(slp_BaseRevision) = r -> p.(slp_Workers) = []).
Proof.
  unfold AppliedRevision. destruct (SyncWorkerLifecycleParams_Validate p) as [[]|e] eqn:Hv; [|done].
  apply page_validate_Ok in Hv as (Hrange & previous & Hw & Hinc). apply validate_lifecycle_workers_Ok in Hw as (Hall & Hsorted & _).
  destruct (last (slp_Workers p)) as [w|] eqn:Hlast.
  - pose proof (last_revision_sorted _ _ _ Hsorted Hlast) as [Hgt _]. rewrite Forall_forall in Hall.
    destruct (Hall w) as [_ Hle]; [by apply last_Some_elem_of|]. destruct (slp_Complete p); intros [= E]; split; lia.
  - apply last_None in Hlast. destruct (slp_Complete p); [|done]. intros [= <-]. split; [lia|done].
Qed.

(** C39 A lifecycle page that passes validation has a well-defined applied
    revision: [AppliedRevision] never indexes an empty page, the result lies
    between the page's base and through revisions, strictly above the base for an
    incomplete page, and covers the revision of every worker on the page. *)
Theorem AppliedRevision_is_defined p :
  match AppliedRevision p with
  | None => False
  | Some (Err e) => SyncWorkerLifecycleParams_Validate p = Err e
  | Some (Ok r) =>
      p.(slp_BaseRevision) <= r <= p.(slp_ThroughRevision) /\ r <= MaxInt64 /\
      (p.(slp_Complete) = true -> r = p.(slp_ThroughRevision)) /\
      (p.(slp_Complete) = false -> p.(slp_BaseRevision) < r < p.(slp_ThroughRevision)) /\
      Forall (fun w => p.(slp_BaseRevision) < w.(wls_Revision) <= r) p.(slp_Workers)
  end.
Proof.
  unfold AppliedRevision. destruct (SyncWorkerLifecycleParams_Validate p) as [[]|e] eqn:Hv; [|done].
  apply page_validate_Ok in Hv as (Hrange & previous & Hw & Hinc).
  apply validate_lifecycle_workers_Ok in Hw as (Hall & Hsorted & _ & _ & Hprev).
  assert (Forall (fun w => slp_BaseRevision p < wls_Revision w) (slp_Workers p)) as Hbase.
  { inversion_clear Hsorted as [|?? _ Hmin]. by rewrite Forall_fmap in Hmin. }
  destruct (slp_Complete p) eqn:Hc.
  - split_and!; [lia|lia|lia|done|done|]. apply Forall_and. split; [done|].
    eapply Forall_impl; [exact Hall|]. simpl. tauto.
  - destruct (Hinc eq_refl) as [Hne Hneq].
    destruct (last (slp_Workers p)) as [w|] eqn:Hlast; [|by apply last_None in Hlast].
    pose proof (last_revision_sorted _ _ _ Hsorted Hlast) as [Hgt Hmax]. simpl in Hprev. subst previous.
    rewrite Forall_forall in Hall. destruct (Hall w) as [_ Hle]; [by apply last_Some_elem_of|].
    split_and!; try lia. apply Forall_and. done.
Qed.

(** [SpawnAgentResult.Validate] never reaches its [panic]: every outcome it
    lets through determines the durable status the receipt must have. *)
Theorem SpawnAgentResult_Validate_no_panic r :
  match SpawnAgentResult_Validate r with
  | None => False
  | Some (Err _) => True
  | Some (Ok _) =>
      AgentSummary_Validate r.(sar_Agent) = Ok tt /\
      ((r.(sar_Outcome) = AgentSpawnOutcomeIndeterminate \/ r.(sar_Outcome) = AgentSpawnOutcomeBusy)
         /\ r.(sar_Agent).(as_SpawnStatus) = AgentSpawnPending
       \/ r.(sar_Outcome) = AgentSpawnOutcomeStarted /\ r.(sar_Agent).(as_SpawnStatus) = AgentSpawnStarted
       \/ r.(sar_Outcome) = AgentSpawnOutcomeFailed /\ r.(sar_Agent).(as_SpawnStatus) = AgentSpawnFailed)
  end.
Proof.
  unfold SpawnAgentResult_Validate, AgentSpawnOutcome_Validate.
  destruct (AgentSummary_Validate _) as [[]|]; [|done].
  destruct (bool_decide_reflect (sar_Outcome r = AgentSpawnOutcomeIndeterminate \/
    sar_Outcome r = AgentSpawnOutcomeBusy \/ sar_Outcome r = AgentSpawnOutcomeStarted)) as [Ho|Ho].
  - destruct (decide (as_SpawnFailureCode _ <> "")); [done|]. simpl.
    repeat case_bool_decide; try (destruct (decide _) as [?|?%dec_stable]); naive_solver.
  - destruct (bool_decide_reflect (sar_Outcome r = AgentSpawnOutcomeFailed)) as [Hf|Hf]; [|done].
    destruct (ValidateFailureCode _) as [[]|]; [|done].
    rewrite bool_decide_eq_false_2, bool_decide_eq_false_2 by naive_solver.
    destruct (decide _) as [?|?%dec_stable]; naive_solver.
Qed.

(** In a valid [AgentState] the effective status is a definite one (neither
    failed nor indeterminate) only on a current lifecycle observation, a failure
    code accompanies exactly the failed status, and a failure always names the
    authority it comes from. *)
Theorem AgentState_effective_status_sound a :
  AgentState_Validate a = Ok tt ->
  (a.(ags_EffectiveStatus) = AgentEffectiveFailed <-> a.(ags_EffectiveFailureCode) <> "") /\
  (a.(ags_EffectiveStatus) = AgentEffectiveFailed <-> a.(ags_FailureSource) <> "") /\
  (a.(ags_EffectiveStatus) <> AgentEffectiveFailed ->
   a.(ags_EffectiveStatus) <> AgentEffectiveIndeterminate ->
   a.(ags_LifecycleFreshness) = AgentLifecycleCurrent /\ a.(ags_SpawnStatus) <> AgentSpawnFailed).
Proof.
  unfold AgentState_Validate. rewrite !do_Ok, reject_Ok.
  intros (Hsum & Hlife & _ & Heff).
  unfold AgentSummary_Validate in Hsum. autorewrite with valid in Hsum.
  destruct Hsum as (_ & _ & _ & _ & _ & Hspawn & _). simpl in Hspawn.
  apply AgentSpawnStatus_Validate_Ok in Hspawn.
  assert (Hcode : ags_LifecyclePhase a = WorkerLifecycleFailed ->
                  ags_LifecycleFreshness a <> AgentLifecycleMissing ->
                  ags_LifecycleFailureCode a <> "").
  { intros Hp Hf. rewrite bool_decide_eq_false_2 in Hlife by done.
    case_bool_decide; [|done]. rewrite reject_Ok in Hlife. destruct Hlife as [_ Hph].
    apply WorkerLifecyclePhase_Validate_code in Hph as [[_ Hc]|[? _]]; [|done]. auto with go. }
  clear Hlife. revert Heff. unfold ProjectAgentEffectiveState.
  assert (Hcases : forall s c src,
    (if decide (ags_EffectiveStatus a <> s \/ ags_EffectiveFailureCode a <> c \/ ags_FailureSource a <> src)
     then Err (New "agent effective state does not match its authorities") else Ok tt) = Ok tt ->
    ags_EffectiveStatus a = s /\ ags_EffectiveFailureCode a = c /\ ags_FailureSource a = src).
  { intros s c src. rewrite reject_Ok. intros [H _]. split_and!; apply dec_stable; naive_solver. }
  repeat case_bool_decide; intros (-> & -> & ->)%Hcases;
    repeat split; try naive_solver; try (by intros; discriminate).
  - intros _. destruct Hspawn as [[[Hs|Hs] _]|[_ Hs]]; [..|auto with go];
      unfold AgentSpawnFailed, AgentSpawnPending, AgentSpawnStarted in *; congruence.
Qed.

Definition sample_identity : PrincipalIdentity := {|
  pi_ControllerID := "11111111-1111-4111-8111-111111111111";
  pi_TreeID := "22222222-2222-4222-8222-222222222222";
  pi_AgentID := "33333333-3333-4333-8333-333333333333";
  pi_ParentAgentID := "44444444-4444-4444-8444-444444444444";
  pi_DeviceID := "55555555-5555-4555-8555-555555555555" |}.

Definition sample_state : AgentState := {|
  ags_SpawnID := "66666666-6666-4666-8666-666666666666"; ags_Principal := sample_identity;
  ags_TaskName := "build"; ags_SpawnStatus := "started"; ags_SpawnFailureCode := "";
  ags_WorkspaceID := ""; ags_Sequence := 1; ags_LifecyclePhase := "failed";
  ags_LifecycleFailureCode := "app_server_exited"; ags_LifecycleTargetRevision := 7;
  ags_LifecycleObservedAt := 100; ags_LifecycleFreshness := "offline";
  ags_EffectiveStatus := "failed"; ags_EffectiveFailureCode := "app_server_exited";
  ags_FailureSource := "lifecycle"; ags_TargetDispatchable := false |}.

Lemma AgentState_effective_status_sound_witness :
  sample_state.(ags_EffectiveFailureCode) <> "" /\ sample_state.(ags_FailureSource) <> "".
Proof.
  destruct (AgentState_effective_status_sound sample_state) as (H1 & H2 & _);
    [vm_compute; reflexivity|].
  split; [apply H1|apply H2]; reflexivity.
Defined.
