(* ===== verification/Schema.v ===== *)
(** internal/store/schema.go: the broker's SQLite database. Each table is a
    finite map from its primary key to the record of its other columns; a
    statement that would violate a CHECK, UNIQUE, PRIMARY KEY or FOREIGN KEY
    constraint of the schema fails with [SQLiteConstraint] and changes nothing.
    JSON columns hold the JSON text. *)

From S2P Require Export Protocol.

(** ** SQL on finite maps *)

Section Tables.
Context {K R : Type} `{Countable K}.
Implicit Types (t : gmap K R) (P : K * R -> Prop).

(** [SELECT ... WHERE P], in no particular order. *)
Definition select P `{!forall x, Decision (P x)} t : list (K * R) := map_to_list (filter P t).

(** The row [QueryRow] scans: the first one. *)
Definition select_row P `{!forall x, Decision (P x)} t : option (K * R) := head (select P t).

(** [SELECT count of rows WHERE P] *)
Definition count P `{!forall x, Decision (P x)} t : Z := Z.of_nat (length (select P t)).

(** [INSERT]: [ok] collects the constraints other than the primary key. *)
Definition sql_insert t (k : K) (r : R) (ok : bool) : result (gmap K R) :=
  reject SQLiteConstraint when (ok = false \/ is_Some (t !! k)) in Ok (<[k := r]> t).

(** [UPDATE ... WHERE key = k AND guard]: the affected rows and the table. *)
Definition sql_update t (k : K) (guard : R -> bool) (set : R -> R) (check : R -> bool)
    : result (Z * gmap K R) :=
  match t !! k with
  | None => Ok (0, t)
  | Some r =>
      if guard r then
        reject SQLiteConstraint when (check (set r) = false) in Ok (1, <[k := set r]> t)
      else Ok (0, t)
  end.

(** [UPDATE ... WHERE P] over several rows. *)
Definition sql_update_where P `{!forall x, Decision (P x)} (set : R -> R) (check : R -> bool) t
    : result (Z * gmap K R) :=
  reject SQLiteConstraint when (forallb (fun x => check (set x.2)) (select P t) = false) in
  Ok (count P t, map_imap (fun k r => Some (if decide (P (k, r)) then set r else r)) t).

(** [DELETE ... WHERE P]: the affected rows and the table. *)
Definition sql_delete P `{!forall x, Decision (P x)} t : Z * gmap K R :=
  (count P t, filter (fun x => ~ P x) t).
End Tables.

Lemma drop_NoDup {A} (l : list A) n : NoDup l -> NoDup (drop n l).
Proof. intros H. eapply sublist_NoDup; [exact H|apply sublist_drop]. Qed.

Lemma drop_StronglySorted {A} (R : relation A) (l : list A) n :
  StronglySorted R l -> StronglySorted R (drop n l).
Proof. rewrite <- (take_drop n l) at 1. apply StronglySorted_app_1_r. Qed.

Lemma take_StronglySorted {A} (R : relation A) (l : list A) n :
  StronglySorted R l -> StronglySorted R (take n l).
Proof. rewrite <- (take_drop n l) at 1. apply StronglySorted_app_1_l. Qed.

Lemma StronglySorted_key {A B} (R : relation B) (f : A -> B) (l : list A) :
  StronglySorted R (f <$> l) <-> StronglySorted (fun x y => R (f x) (f y)) l.
Proof.
  induction l as [|x l IH]; csimpl; [split; constructor|].
  split; inversion_clear 1 as [|?? Hs Ha]; constructor; try (by apply IH).
  - by rewrite Forall_fmap in Ha.
  - by rewrite Forall_fmap.
Qed.

(** [ORDER BY] a column whose values are ordered by [le]. *)
Section Sorting.
Context {T : Type} (le : relation T) `{!RelDecision le, !PartialOrder le, !Total le}.
Context {A : Type} (key : A -> T).

Definition by_key (x y : A) : Prop := le (key x) (key y).
#[global] Instance by_key_dec : RelDecision by_key.
Proof. intros x y. unfold by_key. apply _. Defined.
#[global] Instance by_key_total : Total by_key.
Proof. intros x y. apply (total le). Qed.
#[global] Instance by_key_trans : Transitive by_key.
Proof. intros x y z. apply (transitivity (R := le)). Qed.

Definition sort_by : list A -> list A := merge_sort by_key.

Lemma sort_by_sorted l : StronglySorted by_key (sort_by l).
Proof. apply (StronglySorted_merge_sort by_key); apply _. Qed.

Lemma sort_by_perm l : sort_by l ≡ₚ l.
Proof. apply merge_sort_Permutation. Qed.

Lemma elem_of_sort_by l x : x ∈ sort_by l <-> x ∈ l.
Proof. by rewrite sort_by_perm. Qed.

Lemma NoDup_sort_by l : NoDup (key <$> l) -> NoDup (key <$> sort_by l).
Proof. by rewrite sort_by_perm. Qed.

Lemma NoDup_key_inj l x y : NoDup (key <$> l) -> x ∈ l -> y ∈ l -> key x = key y -> x = y.
Proof.
  intros Hn [i Hi]%list_elem_of_lookup [j Hj]%list_elem_of_lookup He.
  assert (i = j) as ->; [|congruence].
  eapply (NoDup_lookup (key <$> l)); [done| |]; rewrite list_lookup_fmap.
  - by rewrite Hi.
  - by rewrite Hj, He.
Qed.

(** Two sorted lists with the same elements are equal. *)
Lemma sorted_unique l1 l2 :
  NoDup (key <$> l1) -> StronglySorted by_key l1 -> StronglySorted by_key l2 -> l1 ≡ₚ l2 -> l1 = l2.
Proof.
  intros Hn H1 H2 Hp. apply (StronglySorted_unique_strong by_key); [|done..].
  intros x y Hx Hy Hxy Hyx. rewrite <- Hp in Hy. eapply NoDup_key_inj; [exact Hn|done|done|].
  by apply (anti_symm le).
Qed.

(** After the element at position [n] of a sorted list come exactly the
    elements with a greater key. *)
Lemma elem_of_drop_sorted l n x y :
  NoDup (key <$> l) -> StronglySorted by_key l -> l !! n = Some x ->
  y ∈ drop (S n) l <-> y ∈ l /\ ~ le (key y) (key x).
Proof.
  intros Hn Hs Hx. pose proof (take_drop_middle l n x Hx) as E. revert E Hn Hs. clear Hx.
  generalize (take n l) (drop (S n) l). intros l1 l2 <-.
  rewrite fmap_app, fmap_cons. intros (_ & _ & [Hx1 _]%NoDup_cons)%NoDup_app.
  intros (Hle & _ & Hs2)%StronglySorted_app.
  rewrite elem_of_app, elem_of_cons. split.
  - intros Hy. split; [auto|]. intros Hyx.
    inversion_clear Hs2 as [|?? _ Hall]. rewrite Forall_forall in Hall.
    assert (key y = key x) as Heq by (apply (anti_symm le); [done|by apply Hall]).
    apply Hx1. rewrite <- Heq. by apply list_elem_of_fmap_2.
  - intros [[Hy|[->|Hy]] Hnle]; [|by destruct Hnle|done].
    destruct Hnle. apply Hle; [done|]. set_solver.
Qed.

(** The page that starts after an element is the rest of the sorted list. *)
Lemma sort_by_after l l' n x :
  NoDup (key <$> l) -> NoDup l' -> sort_by l !! n = Some x ->
  (forall y, y ∈ l' <-> y ∈ l /\ ~ le (key y) (key x)) ->
  sort_by l' = drop (S n) (sort_by l).
Proof.
  intros Hn Hn' Hx Hl'.
  assert (forall y, y ∈ l' <-> y ∈ drop (S n) (sort_by l)) as Hel.
  { intros y. rewrite Hl', elem_of_drop_sorted, elem_of_sort_by; [done| | |done].
    - by apply NoDup_sort_by.
    - apply sort_by_sorted. }
  assert (NoDup (sort_by l)) as Hnd by (eapply NoDup_fmap_1, NoDup_sort_by, Hn).
  symmetry. apply sorted_unique.
  - apply NoDup_sort_by in Hn. rewrite fmap_drop. by apply drop_NoDup.
  - apply drop_StronglySorted, sort_by_sorted.
  - apply sort_by_sorted.
  - rewrite (sort_by_perm l'). apply NoDup_Permutation; [by apply drop_NoDup|done|]. intros y. by rewrite Hel.
Qed.
End Sorting.

(** [ORDER BY] an integer column; a text column (the BINARY collation compares
    bytes); [LIMIT]. *)
Definition order_by {A} (key : A -> Z) : list A -> list A := sort_by Z.le key.
Definition order_by_text {A} (key : A -> string) : list A -> list A := sort_by String.le key.
Definition limit {A} (n : Z) : list A -> list A := take (Z.to_nat n).

(** [length(text)]: characters before the first NUL, a byte from 0xC0 up
    swallowing the continuation bytes after it. *)
Fixpoint sqlite_chars (after_lead : bool) (l : list Z) : Z :=
  match l with
  | [] => 0
  | b :: l =>
      if b =? 0 then 0
      else if after_lead && in_range 0x80 0xBF b then sqlite_chars true l
      else 1 + sqlite_chars (0xC0 <=? b) l
  end.
Definition sqlite_length (s : string) : Z := sqlite_chars false (bytes s).

(** ** Tables *)

(* go: internal/store/schema.go:12-21 credentials *)
Record CredentialRow := {
  cr_token_mac : string;
  cr_disabled : bool;
  cr_issued_at : Z;
  cr_pending : bool;
}.
Definition credential_check (r : CredentialRow) : bool :=
  (len r.(cr_token_mac) =? 32) && (0 <=? r.(cr_issued_at)) &&
  (negb r.(cr_pending) || r.(cr_disabled)).

(* go: internal/store/schema.go:33-49 controller_lifetime_counters *)
Record CounterRow := {
  ct_dispatches_started : Z;
  ct_turns_started : Z;
  ct_result_packages_delivered : Z;
  ct_result_packages_source_acknowledged : Z;
  ct_result_packages_source_released : Z;
  ct_result_package_details_compacted : Z;
}.
Definition counter_check (r : CounterRow) : bool :=
  forallb (in_range 0 MaxInt64)
    [r.(ct_dispatches_started); r.(ct_turns_started); r.(ct_result_packages_delivered);
     r.(ct_result_packages_source_acknowledged); r.(ct_result_packages_source_released);
     r.(ct_result_package_details_compacted)].

(* go: internal/store/schema.go:51-64 devices *)
Record DeviceRow := {
  dv_name : string;
  dv_os : string;
  dv_arch : string;
  dv_runtime_version : string;
  dv_protocol_version : Z;
  dv_features_json : string;
  dv_online : bool;
  dv_last_seen_at : Z;
  dv_revision : Z;
}.
Definition device_check (r : DeviceRow) : bool :=
  (0 <? r.(dv_protocol_version)) && (0 <=? r.(dv_last_seen_at)) && (0 <? r.(dv_revision)).

(* go: internal/store/schema.go:69-86 trees *)
Record TreeRow := {
  tr_tree_id : string;
  tr_root_agent_id : string;
  tr_root_device_id : string;
  tr_created_at : Z;
  tr_last_agent_sequence : Z;
  tr_last_lifecycle_sequence : Z;
  tr_last_artifact_sequence : Z;
  tr_last_result_sequence : Z;
}.
Definition tree_check (r : TreeRow) : bool :=
  (0 <=? r.(tr_created_at)) && in_range 0 256 r.(tr_last_agent_sequence) &&
  (0 <=? r.(tr_last_lifecycle_sequence)) && (0 <=? r.(tr_last_artifact_sequence)) &&
  (0 <=? r.(tr_last_result_sequence)).

(* go: internal/store/schema.go:88-99 principals *)
Record PrincipalRow := {
  pr_parent_agent_id : string;
  pr_device_id : string;
  pr_capabilities_json : string;
  pr_created_at : Z;
}.
Definition principal_check (r : PrincipalRow) : bool := 0 <=? r.(pr_created_at).

(* go: internal/store/schema.go:104-134 workspace_sync_receipts *)
Record WorkspaceRow := {
  ws_source_device_id : string;
  ws_target_device_id : string;
  ws_git_url : string;
  ws_source_path_digest : string;
  ws_status : string;
  ws_head_oid : string;
  ws_object_format : string;
  ws_working_directory : string;
  ws_source_clean : bool;
  ws_source_snapshot_hash : string;
  ws_strategy : string;
  ws_manifest_hash : string;
  ws_source_warnings_json : string;
  ws_warnings_json : string;
  ws_consumed_spawn_id : string;
  ws_created_at : Z;
  ws_updated_at : Z;
}.
Definition workspace_check (r : WorkspaceRow) : bool :=
  in_range 1 4096 (len r.(ws_git_url)) && (len r.(ws_source_path_digest) =? 32) &&
  bool_decide (r.(ws_status) ∈ ["pending"; "inspected"; "prepared"]) &&
  bool_decide (r.(ws_object_format) ∈ [""; "sha1"; "sha256"]) &&
  bool_decide (r.(ws_strategy) ∈ [""; "direct"; "thinBundle"; "selfContainedBundle"]) &&
  (0 <=? r.(ws_created_at)) && (r.(ws_created_at) <=? r.(ws_updated_at)).

(** The CHECK of every [failure_code] column: [failed] says whether the row's
    status column is ['failed']. *)
Definition failure_code_check (failed : bool) (code : string) : bool :=
  (len code <=? 64) && (if failed then 0 <? sqlite_length code else bool_decide (code = "")).

(* go: internal/store/schema.go:139-170 agent_spawn_receipts *)
Record SpawnRow := {
  sp_sequence : Z;
  sp_agent_id : string;
  sp_target_device_id : string;
  sp_task_name : string;
  sp_workspace_id : string;
  sp_prompt_digest : string;
  sp_status : string;
  sp_failure_code : string;
  sp_created_at : Z;
  sp_updated_at : Z;
}.
Definition spawn_check (r : SpawnRow) : bool :=
  in_range 1 256 r.(sp_sequence) && in_range 1 64 (len r.(sp_task_name)) &&
  (len r.(sp_prompt_digest) =? 32) &&
  bool_decide (r.(sp_status) ∈ ["pending"; "started"; "failed"]) &&
  failure_code_check (bool_decide (r.(sp_status) = "failed")) r.(sp_failure_code) &&
  (0 <=? r.(sp_created_at)) && (r.(sp_created_at) <=? r.(sp_updated_at)).

(* go: internal/store/schema.go:175-202 agent_operation_receipts *)
Record OperationRow := {
  op_action : string;
  op_agent_id : string;
  op_payload_digest : string;
  op_outcome : string;
  op_failure_code : string;
  op_created_at : Z;
  op_updated_at : Z;
}.
Definition operation_check (r : OperationRow) : bool :=
  bool_decide (r.(op_action) ∈ ["send"; "followup"; "interrupt"]) &&
  (len r.(op_payload_digest) =? 32) &&
  bool_decide
    ((r.(op_action) = "send" /\ r.(op_outcome) ∈ ["pending"; "queued"; "steered"; "failed"]) \/
     (r.(op_action) = "followup" /\ r.(op_outcome) ∈ ["pending"; "started"; "failed"]) \/
     (r.(op_action) = "interrupt" /\ r.(op_outcome) ∈ ["pending"; "interrupted"; "failed"])) &&
  failure_code_check (bool_decide (r.(op_outcome) = "failed")) r.(op_failure_code) &&
  (0 <=? r.(op_created_at)) && (r.(op_created_at) <=? r.(op_updated_at)).

(* go: internal/store/schema.go:207-216 peer_worker_sync_cursors *)
Record CursorRow := {
  cu_active_connection_id : string;
  cu_active_lease_revision : Z;
  cu_applied_revision : Z;
}.
Definition cursor_check (r : CursorRow) : bool :=
  (sqlite_length r.(cu_active_connection_id) =? 36) && (0 <? r.(cu_active_lease_revision)) &&
  (0 <=? r.(cu_applied_revision)).

(** The columns of [device_worker_readiness] are the fields of the wire type. *)
(* go: internal/store/schema.go:218-234 device_worker_readiness *)
Definition readiness_check (r : WorkerReadiness) : bool :=
  let digest s := (sqlite_length s =? 64) && forallb is_lower_hex (bytes s) in
  in_range 1 MaxInt64 r.(wr_Epoch) &&
  bool_decide (r.(wr_State) ∈ ["pending"; "ready"; "intervention_required"]) &&
  in_range 0 5 r.(wr_AttemptCount) && digest r.(wr_RuntimeDigest) && digest r.(wr_ConfigDigest) &&
  (0 <? r.(wr_EpochStartedAt)) && (0 <=? r.(wr_NextAttemptAt)) && (0 <=? r.(wr_LastAttemptAt)) &&
  (len r.(wr_FailureCode) <=? 64) && (0 <=? r.(wr_UpdatedAt)).

(* go: internal/store/schema.go:236-276 agent_lifecycle_states *)
Record LifecycleRow := {
  lc_target_device_id : string;
  lc_target_revision : Z;
  lc_authority_revision : Z;
  lc_codex_thread_id : string;
  lc_active_turn_id : string;
  lc_phase : string;
  lc_failure_code : string;
  lc_lifecycle_sequence : Z;
  lc_observed_at : Z;
}.
Definition lifecycle_check (r : LifecycleRow) : bool :=
  let id_length s := bool_decide (sqlite_length s = 0 \/ sqlite_length s = 36) in
  let thread := bool_decide (r.(lc_codex_thread_id) = "") in
  let turn := bool_decide (r.(lc_active_turn_id) = "") in
  let phase p := bool_decide (r.(lc_phase) = p) in
  (0 <? r.(lc_target_revision)) && (0 <? r.(lc_authority_revision)) &&
  (r.(lc_authority_revision) <=? r.(lc_target_revision)) &&
  id_length r.(lc_codex_thread_id) && id_length r.(lc_active_turn_id) &&
  bool_decide (r.(lc_phase) ∈ ["reserved"; "pending"; "starting"; "preflight"; "ready";
                               "running"; "finalizing"; "idle"; "interrupted"; "failed"]) &&
  failure_code_check (phase "failed") r.(lc_failure_code) &&
  (0 <? r.(lc_lifecycle_sequence)) && (0 <=? r.(lc_observed_at)) &&
  ((phase "reserved" && thread && turn) ||
   ((phase "pending" || phase "starting") && turn) ||
   ((phase "preflight" || phase "ready" || phase "idle") && negb thread && turn) ||
   ((phase "running" || phase "finalizing") && negb thread && negb turn) ||
   (phase "interrupted" && negb thread) ||
   (phase "failed" && turn)).

(* go: internal/store/schema.go:281-324 result_packages *)
Record ResultPackageRow := {
  rk_source_agent_id : string;
  rk_source_device_id : string;
  rk_managed_thread_id : string;
  rk_turn_id : string;
  rk_lifecycle_revision : Z;
  rk_root_device_id : string;
  rk_manifest_bytes : string;
  rk_manifest_size : Z;
  rk_manifest_sha256 : string;
  rk_state : string;
  rk_result_sequence : Z;
  rk_root_retention_ordinal : Z;
  rk_published_at : Z;
  rk_delivered_at : Z;
  rk_source_acknowledged_at : Z;
  rk_source_released_at : Z;
}.
Definition result_package_check (package_id : string) (r : ResultPackageRow) : bool :=
  (sqlite_length package_id =? 36) && (sqlite_length r.(rk_source_agent_id) =? 36) &&
  (sqlite_length r.(rk_source_device_id) =? 36) && (sqlite_length r.(rk_managed_thread_id) =? 36) &&
  (sqlite_length r.(rk_turn_id) =? 36) && (0 <? r.(rk_lifecycle_revision)) &&
  (sqlite_length r.(rk_root_device_id) =? 36) && in_range 1 65536 (len r.(rk_manifest_bytes)) &&
  in_range 1 65536 r.(rk_manifest_size) && (r.(rk_manifest_size) =? len r.(rk_manifest_bytes)) &&
  (sqlite_length r.(rk_manifest_sha256) =? 64) && bool_decide (r.(rk_state) ∈ ["deliveryPending"; "delivered"]) &&
  (0 <=? r.(rk_result_sequence)) && (0 <=? r.(rk_root_retention_ordinal)) && (0 <=? r.(rk_published_at)) &&
  (0 <=? r.(rk_delivered_at)) && (0 <=? r.(rk_source_acknowledged_at)) && (0 <=? r.(rk_source_released_at)) &&
  bool_decide
    ((r.(rk_state) = "deliveryPending" /\ r.(rk_result_sequence) = 0 /\ r.(rk_root_retention_ordinal) = 0 /\
      r.(rk_delivered_at) = 0 /\ r.(rk_source_acknowledged_at) = 0 /\ r.(rk_source_released_at) = 0) \/
     (r.(rk_state) = "delivered" /\ 0 < r.(rk_result_sequence) /\ 0 < r.(rk_root_retention_ordinal) /\
      r.(rk_published_at) <= r.(rk_delivered_at) /\
      (r.(rk_source_acknowledged_at) = 0 \/ r.(rk_delivered_at) <= r.(rk_source_acknowledged_at)) /\
      (r.(rk_source_released_at) = 0 \/
       (0 < r.(rk_source_acknowledged_at) /\ r.(rk_source_acknowledged_at) <= r.(rk_source_released_at))))).

(* go: internal/store/schema.go:350-370 result_apply_authorizations *)
Record ApplyRow := {
  ap_package_id : string;
  ap_git_url : string;
  ap_source_path_digest : string;
  ap_manifest_sha256 : string;
  ap_workspace_id : string;
  ap_base_manifest_hash : string;
  ap_authorized_at : Z;
}.
Definition apply_check (root_agent_id apply_id : string) (r : ApplyRow) : bool :=
  (sqlite_length root_agent_id =? 36) && (sqlite_length apply_id =? 36) && (sqlite_length r.(ap_package_id) =? 36) &&
  in_range 1 4096 (len r.(ap_git_url)) && (len r.(ap_source_path_digest) =? 32) &&
  (sqlite_length r.(ap_manifest_sha256) =? 64) && (sqlite_length r.(ap_workspace_id) =? 36) &&
  (sqlite_length r.(ap_base_manifest_hash) =? 64) && (0 <=? r.(ap_authorized_at)).

(* go: internal/store/schema.go:375-424 changes_artifacts *)
Record ArtifactRow := {
  ar_turn_id : string;
  ar_workspace_id : string;
  ar_status : string;
  ar_source_agent_id : string;
  ar_source_device_id : string;
  ar_workspace_source_device_id : string;
  ar_workspace_target_device_id : string;
  ar_object_format : string;
  ar_base_head_oid : string;
  ar_base_manifest_hash : string;
  ar_base_snapshot_hash : string;
  ar_base_clean : bool;
  ar_result_head_oid : string;
  ar_result_snapshot_hash : string;
  ar_result_clean : bool;
  ar_parts_json : string;
  ar_base_warnings_json : string;
  ar_result_warnings_json : string;
  ar_failure_code : string;
  ar_artifact_sequence : Z;
  ar_observed_at : Z;
}.
Definition artifact_check (artifact_id : string) (r : ArtifactRow) : bool :=
  let failed := bool_decide (r.(ar_status) = "captureFailed") in
  let id_length s := sqlite_length s =? 36 in
  id_length artifact_id && id_length r.(ar_turn_id) && id_length r.(ar_workspace_id) &&
  bool_decide (r.(ar_status) ∈ ["available"; "unchanged"; "captureFailed"]) &&
  id_length r.(ar_source_agent_id) && id_length r.(ar_source_device_id) && id_length r.(ar_workspace_source_device_id) &&
  id_length r.(ar_workspace_target_device_id) && bool_decide (r.(ar_object_format) ∈ ["sha1"; "sha256"]) &&
  bool_decide (sqlite_length r.(ar_base_head_oid) ∈ [40; 64]) && (sqlite_length r.(ar_base_manifest_hash) =? 64) &&
  (sqlite_length r.(ar_base_snapshot_hash) =? 64) &&
  (if failed then bool_decide (r.(ar_result_head_oid) = "")
   else sqlite_length r.(ar_result_head_oid) =? sqlite_length r.(ar_base_head_oid)) &&
  (if failed then bool_decide (r.(ar_result_snapshot_hash) = "") else sqlite_length r.(ar_result_snapshot_hash) =? 64) &&
  (len r.(ar_parts_json) <=? 1024) && (len r.(ar_base_warnings_json) <=? 2048) &&
  (len r.(ar_result_warnings_json) <=? 2048) && (negb failed || bool_decide (r.(ar_result_warnings_json) = "[]")) &&
  (len r.(ar_failure_code) <=? 64) &&
  (if failed then 0 <? sqlite_length r.(ar_failure_code) else bool_decide (r.(ar_failure_code) = "")) &&
  (0 <? r.(ar_artifact_sequence)) && (0 <=? r.(ar_observed_at)) &&
  bool_decide (r.(ar_source_device_id) = r.(ar_workspace_target_device_id)).

(** A mailbox row has the one column [last_sequence]. *)
(* go: internal/store/schema.go:429-437 mailboxes *)
Definition mailbox_check (last_sequence : Z) : bool := 0 <=? last_sequence.

(* go: internal/store/schema.go:439-457 mailbox_messages *)
Record MessageRow := {
  ms_message_id : string;
  ms_source_agent_id : string;
  ms_source_parent_agent_id : string;
  ms_source_device_id : string;
  ms_message : string;
  ms_created_at : Z;
}.
Definition message_check (sequence : Z) (r : MessageRow) : bool :=
  (0 <? sequence) && in_range 1 1024 (len r.(ms_message)) && (0 <=? r.(ms_created_at)).

(* go: internal/store/schema.go:459-477 mailbox_receipts *)
Record ReceiptRow := {
  rc_controller_id : string;
  rc_tree_id : string;
  rc_recipient_agent_id : string;
  rc_sequence : Z;
  rc_source_agent_id : string;
  rc_source_parent_agent_id : string;
  rc_source_device_id : string;
  rc_message : string;
}.
Definition receipt_check (r : ReceiptRow) : bool :=
  (0 <? r.(rc_sequence)) && in_range 1 1024 (len r.(rc_message)).

#[global] Instance CredentialRow_eq_dec : EqDecision CredentialRow.
Proof. solve_decision. Defined.
#[global] Instance DeviceRow_eq_dec : EqDecision DeviceRow.
Proof. solve_decision. Defined.
#[global] Instance MessageRow_eq_dec : EqDecision MessageRow.
Proof. solve_decision. Defined.
#[global] Instance ReceiptRow_eq_dec : EqDecision ReceiptRow.
Proof. solve_decision. Defined.

Definition key2 : Type := string * string.
Definition key3 : Type := string * string * string.
Definition key4 : Type := string * string * string * string.

(** ** The database *)

(* go: internal/store/schema.go:11-481 schemaCurrent *)
Record DB := {
  credentials : gmap (string * string) CredentialRow;
  broker_metadata : option string;
  controller_registries : gmap string Z;
  controller_lifetime_counters : gmap string CounterRow;
  devices : gmap (string * string) DeviceRow;
  trees : gmap (string * string) TreeRow;
  principals : gmap (string * string * string) PrincipalRow;
  workspace_sync_receipts : gmap (string * string * string * string) WorkspaceRow;
  agent_spawn_receipts : gmap (string * string * string * string) SpawnRow;
  agent_operation_receipts : gmap (string * string * string * string) OperationRow;
  peer_worker_sync_cursors : gmap (string * string) CursorRow;
  device_worker_readiness : gmap (string * string) WorkerReadiness;
  agent_lifecycle_states : gmap (string * string * string) LifecycleRow;
  result_packages : gmap (string * string * string) ResultPackageRow;
  result_apply_authorizations : gmap (string * string * string * string) ApplyRow;
  changes_artifacts : gmap (string * string * string) ArtifactRow;
  mailboxes : gmap (string * string * string) Z;
  mailbox_messages : gmap (string * string * string * Z) MessageRow;
  mailbox_receipts : gmap string ReceiptRow;
}.

(** The database [initializeSchema] creates. *)
(* go: internal/store/schema.go initializeSchema *)
Definition empty_db : DB := {|
  credentials := ∅;
  broker_metadata := None;
  controller_registries := ∅;
  controller_lifetime_counters := ∅;
  devices := ∅;
  trees := ∅;
  principals := ∅;
  workspace_sync_receipts := ∅;
  agent_spawn_receipts := ∅;
  agent_operation_receipts := ∅;
  peer_worker_sync_cursors := ∅;
  device_worker_readiness := ∅;
  agent_lifecycle_states := ∅;
  result_packages := ∅;
  result_apply_authorizations := ∅;
  changes_artifacts := ∅;
  mailboxes := ∅;
  mailbox_messages := ∅;
  mailbox_receipts := ∅ |}.

(** Replacing one table. *)
Definition set_credentials (db : DB) x : DB := {|
  credentials := x; broker_metadata := db.(broker_metadata); controller_registries :=
  db.(controller_registries); controller_lifetime_counters := db.(controller_lifetime_counters);
  devices := db.(devices); trees := db.(trees); principals := db.(principals);
  workspace_sync_receipts := db.(workspace_sync_receipts); agent_spawn_receipts :=
  db.(agent_spawn_receipts); agent_operation_receipts := db.(agent_operation_receipts);
  peer_worker_sync_cursors := db.(peer_worker_sync_cursors); device_worker_readiness :=
  db.(device_worker_readiness); agent_lifecycle_states := db.(agent_lifecycle_states);
  result_packages := db.(result_packages); result_apply_authorizations :=
  db.(result_apply_authorizations); changes_artifacts := db.(changes_artifacts); mailboxes :=
  db.(mailboxes); mailbox_messages := db.(mailbox_messages); mailbox_receipts :=
  db.(mailbox_receipts) |}.
Definition set_broker_metadata (db : DB) x : DB := {|
  credentials := db.(credentials); broker_metadata := x; controller_registries :=
  db.(controller_registries); controller_lifetime_counters := db.(controller_lifetime_counters);
  devices := db.(devices); trees := db.(trees); principals := db.(principals);
  workspace_sync_receipts := db.(workspace_sync_receipts); agent_spawn_receipts :=
  db.(agent_spawn_receipts); agent_operation_receipts := db.(agent_operation_receipts);
  peer_worker_sync_cursors := db.(peer_worker_sync_cursors); device_worker_readiness :=
  db.(device_worker_readiness); agent_lifecycle_states := db.(agent_lifecycle_states);
  result_packages := db.(result_packages); result_apply_authorizations :=
  db.(result_apply_authorizations); changes_artifacts := db.(changes_artifacts); mailboxes :=
  db.(mailboxes); mailbox_messages := db.(mailbox_messages); mailbox_receipts :=
  db.(mailbox_receipts) |}.
Definition set_controller_registries (db : DB) x : DB := {|
  credentials := db.(credentials); broker_metadata := db.(broker_metadata);
  controller_registries := x; controller_lifetime_counters := db.(controller_lifetime_counters);
  devices := db.(devices); trees := db.(trees); principals := db.(principals);
  workspace_sync_receipts := db.(workspace_sync_receipts); agent_spawn_receipts :=
  db.(agent_spawn_receipts); agent_operation_receipts := db.(agent_operation_receipts);
  peer_worker_sync_cursors := db.(peer_worker_sync_cursors); device_worker_readiness :=
  db.(device_worker_readiness); agent_lifecycle_states := db.(agent_lifecycle_states);
  result_packages := db.(result_packages); result_apply_authorizations :=
  db.(result_apply_authorizations); changes_artifacts := db.(changes_artifacts); mailboxes :=
  db.(mailboxes); mailbox_messages := db.(mailbox_messages); mailbox_receipts :=
  db.(mailbox_receipts) |}.
Definition set_controller_lifetime_counters (db : DB) x : DB := {|
  credentials := db.(credentials); broker_metadata := db.(broker_metadata);
  controller_registries := db.(controller_registries); controller_lifetime_counters := x;
  devices := db.(devices); trees := db.(trees); principals := db.(principals);
  workspace_sync_receipts := db.(workspace_sync_receipts); agent_spawn_receipts :=
  db.(agent_spawn_receipts); agent_operation_receipts := db.(agent_operation_receipts);
  peer_worker_sync_cursors := db.(peer_worker_sync_cursors); device_worker_readiness :=
  db.(device_worker_readiness); agent_lifecycle_states := db.(agent_lifecycle_states);
  result_packages := db.(result_packages); result_apply_authorizations :=
  db.(result_apply_authorizations); changes_artifacts := db.(changes_artifacts); mailboxes :=
  db.(mailboxes); mailbox_messages := db.(mailbox_messages); mailbox_receipts :=
  db.(mailbox_receipts) |}.
Definition set_devices (db : DB) x : DB := {|
  credentials := db.(credentials); broker_metadata := db.(broker_metadata);
  controller_registries := db.(controller_registries); controller_lifetime_counters :=
  db.(controller_lifetime_counters); devices := x; trees := db.(trees); principals :=
  db.(principals); workspace_sync_receipts := db.(workspace_sync_receipts); agent_spawn_receipts
  := db.(agent_spawn_receipts); agent_operation_receipts := db.(agent_operation_receipts);
  peer_worker_sync_cursors := db.(peer_worker_sync_cursors); device_worker_readiness :=
  db.(device_worker_readiness); agent_lifecycle_states := db.(agent_lifecycle_states);
  result_packages := db.(result_packages); result_apply_authorizations :=
  db.(result_apply_authorizations); changes_artifacts := db.(changes_artifacts); mailboxes :=
  db.(mailboxes); mailbox_messages := db.(mailbox_messages); mailbox_receipts :=
  db.(mailbox_receipts) |}.
Definition set_trees (db : DB) x : DB := {|
  credentials := db.(credentials); broker_metadata := db.(broker_metadata);
  controller_registries := db.(controller_registries); controller_lifetime_counters :=
  db.(controller_lifetime_counters); devices := db.(devices); trees := x; principals :=
  db.(principals); workspace_sync_receipts := db.(workspace_sync_receipts); agent_spawn_receipts
  := db.(agent_spawn_receipts); agent_operation_receipts := db.(agent_operation_receipts);
  peer_worker_sync_cursors := db.(peer_worker_sync_cursors); device_worker_readiness :=
  db.(device_worker_readiness); agent_lifecycle_states := db.(agent_lifecycle_states);
  result_packages := db.(result_packages); result_apply_authorizations :=
  db.(result_apply_authorizations); changes_artifacts := db.(changes_artifacts); mailboxes :=
  db.(mailboxes); mailbox_messages := db.(mailbox_messages); mailbox_receipts :=
  db.(mailbox_receipts) |}.
Definition set_principals (db : DB) x : DB := {|
  credentials := db.(credentials); broker_metadata := db.(broker_metadata);
  controller_registries := db.(controller_registries); controller_lifetime_counters :=
  db.(controller_lifetime_counters); devices := db.(devices); trees := db.(trees); principals :=
  x; workspace_sync_receipts := db.(workspace_sync_receipts); agent_spawn_receipts :=
  db.(agent_spawn_receipts); agent_operation_receipts := db.(agent_operation_receipts);
  peer_worker_sync_cursors := db.(peer_worker_sync_cursors); device_worker_readiness :=
  db.(device_worker_readiness); agent_lifecycle_states := db.(agent_lifecycle_states);
  result_packages := db.(result_packages); result_apply_authorizations :=
  db.(result_apply_authorizations); changes_artifacts := db.(changes_artifacts); mailboxes :=
  db.(mailboxes); mailbox_messages := db.(mailbox_messages); mailbox_receipts :=
  db.(mailbox_receipts) |}.
Definition set_workspace_sync_receipts (db : DB) x : DB := {|
  credentials := db.(credentials); broker_metadata := db.(broker_metadata);
  controller_registries := db.(controller_registries); controller_lifetime_counters :=
  db.(controller_lifetime_counters); devices := db.(devices); trees := db.(trees); principals :=
  db.(principals); workspace_sync_receipts := x; agent_spawn_receipts :=
  db.(agent_spawn_receipts); agent_operation_receipts := db.(agent_operation_receipts);
  peer_worker_sync_cursors := db.(peer_worker_sync_cursors); device_worker_readiness :=
  db.(device_worker_readiness); agent_lifecycle_states := db.(agent_lifecycle_states);
  result_packages := db.(result_packages); result_apply_authorizations :=
  db.(result_apply_authorizations); changes_artifacts := db.(changes_artifacts); mailboxes :=
  db.(mailboxes); mailbox_messages := db.(mailbox_messages); mailbox_receipts :=
  db.(mailbox_receipts) |}.
Definition set_agent_spawn_receipts (db : DB) x : DB := {|
  credentials := db.(credentials); broker_metadata := db.(broker_metadata);
  controller_registries := db.(controller_registries); controller_lifetime_counters :=
  db.(controller_lifetime_counters); devices := db.(devices); trees := db.(trees); principals :=
  db.(principals); workspace_sync_receipts := db.(workspace_sync_receipts); agent_spawn_receipts
  := x; agent_operation_receipts := db.(agent_operation_receipts); peer_worker_sync_cursors :=
  db.(peer_worker_sync_cursors); device_worker_readiness := db.(device_worker_readiness);
  agent_lifecycle_states := db.(agent_lifecycle_states); result_packages :=
  db.(result_packages); result_apply_authorizations := db.(result_apply_authorizations);
  changes_artifacts := db.(changes_artifacts); mailboxes := db.(mailboxes); mailbox_messages :=
  db.(mailbox_messages); mailbox_receipts := db.(mailbox_receipts) |}.
Definition set_agent_operation_receipts (db : DB) x : DB := {|
  credentials := db.(credentials); broker_metadata := db.(broker_metadata);
  controller_registries := db.(controller_registries); controller_lifetime_counters :=
  db.(controller_lifetime_counters); devices := db.(devices); trees := db.(trees); principals :=
  db.(principals); workspace_sync_receipts := db.(workspace_sync_receipts); agent_spawn_receipts
  := db.(agent_spawn_receipts); agent_operation_receipts := x; peer_worker_sync_cursors :=
  db.(peer_worker_sync_cursors); device_worker_readiness := db.(device_worker_readiness);
  agent_lifecycle_states := db.(agent_lifecycle_states); result_packages :=
  db.(result_packages); result_apply_authorizations := db.(result_apply_authorizations);
  changes_artifacts := db.(changes_artifacts); mailboxes := db.(mailboxes); mailbox_messages :=
  db.(mailbox_messages); mailbox_receipts := db.(mailbox_receipts) |}.
Definition set_peer_worker_sync_cursors (db : DB) x : DB := {|
  credentials := db.(credentials); broker_metadata := db.(broker_metadata);
  controller_registries := db.(controller_registries); controller_lifetime_counters :=
  db.(controller_lifetime_counters); devices := db.(devices); trees := db.(trees); principals :=
  db.(principals); workspace_sync_receipts := db.(workspace_sync_receipts); agent_spawn_receipts
  := db.(agent_spawn_receipts); agent_operation_receipts := db.(agent_operation_receipts);
  peer_worker_sync_cursors := x; device_worker_readiness := db.(device_worker_readiness);
  agent_lifecycle_states := db.(agent_lifecycle_states); result_packages :=
  db.(result_packages); result_apply_authorizations := db.(result_apply_authorizations);
  changes_artifacts := db.(changes_artifacts); mailboxes := db.(mailboxes); mailbox_messages :=
  db.(mailbox_messages); mailbox_receipts := db.(mailbox_receipts) |}.
Definition set_device_worker_readiness (db : DB) x : DB := {|
  credentials := db.(credentials); broker_metadata := db.(broker_metadata);
  controller_registries := db.(controller_registries); controller_lifetime_counters :=
  db.(controller_lifetime_counters); devices := db.(devices); trees := db.(trees); principals :=
  db.(principals); workspace_sync_receipts := db.(workspace_sync_receipts); agent_spawn_receipts
  := db.(agent_spawn_receipts); agent_operation_receipts := db.(agent_operation_receipts);
  peer_worker_sync_cursors := db.(peer_worker_sync_cursors); device_worker_readiness := x;
  agent_lifecycle_states := db.(agent_lifecycle_states); result_packages :=
  db.(result_packages); result_apply_authorizations := db.(result_apply_authorizations);
  changes_artifacts := db.(changes_artifacts); mailboxes := db.(mailboxes); mailbox_messages :=
  db.(mailbox_messages); mailbox_receipts := db.(mailbox_receipts) |}.
Definition set_agent_lifecycle_states (db : DB) x : DB := {|
  credentials := db.(credentials); broker_metadata := db.(broker_metadata);
  controller_registries := db.(controller_registries); controller_lifetime_counters :=
  db.(controller_lifetime_counters); devices := db.(devices); trees := db.(trees); principals :=
  db.(principals); workspace_sync_receipts := db.(workspace_sync_receipts); agent_spawn_receipts
  := db.(agent_spawn_receipts); agent_operation_receipts := db.(agent_operation_receipts);
  peer_worker_sync_cursors := db.(peer_worker_sync_cursors); device_worker_readiness :=
  db.(device_worker_readiness); agent_lifecycle_states := x; result_packages :=
  db.(result_packages); result_apply_authorizations := db.(result_apply_authorizations);
  changes_artifacts := db.(changes_artifacts); mailboxes := db.(mailboxes); mailbox_messages :=
  db.(mailbox_messages); mailbox_receipts := db.(mailbox_receipts) |}.
Definition set_result_packages (db : DB) x : DB := {|
  credentials := db.(credentials); broker_metadata := db.(broker_metadata);
  controller_registries := db.(controller_registries); controller_lifetime_counters :=
  db.(controller_lifetime_counters); devices := db.(devices); trees := db.(trees); principals :=
  db.(principals); workspace_sync_receipts := db.(workspace_sync_receipts); agent_spawn_receipts
  := db.(agent_spawn_receipts); agent_operation_receipts := db.(agent_operation_receipts);
  peer_worker_sync_cursors := db.(peer_worker_sync_cursors); device_worker_readiness :=
  db.(device_worker_readiness); agent_lifecycle_states := db.(agent_lifecycle_states);
  result_packages := x; result_apply_authorizations := db.(result_apply_authorizations);
  changes_artifacts := db.(changes_artifacts); mailboxes := db.(mailboxes); mailbox_messages :=
  db.(mailbox_messages); mailbox_receipts := db.(mailbox_receipts) |}.
Definition set_result_apply_authorizations (db : DB) x : DB := {|
  credentials := db.(credentials); broker_metadata := db.(broker_metadata);
  controller_registries := db.(controller_registries); controller_lifetime_counters :=
  db.(controller_lifetime_counters); devices := db.(devices); trees := db.(trees); principals :=
  db.(principals); workspace_sync_receipts := db.(workspace_sync_receipts); agent_spawn_receipts
  := db.(agent_spawn_receipts); agent_operation_receipts := db.(agent_operation_receipts);
  peer_worker_sync_cursors := db.(peer_worker_sync_cursors); device_worker_readiness :=
  db.(device_worker_readiness); agent_lifecycle_states := db.(agent_lifecycle_states);
  result_packages := db.(result_packages); result_apply_authorizations := x; changes_artifacts
  := db.(changes_artifacts); mailboxes := db.(mailboxes); mailbox_messages :=
  db.(mailbox_messages); mailbox_receipts := db.(mailbox_receipts) |}.
Definition set_changes_artifacts (db : DB) x : DB := {|
  credentials := db.(credentials); broker_metadata := db.(broker_metadata);
  controller_registries := db.(controller_registries); controller_lifetime_counters :=
  db.(controller_lifetime_counters); devices := db.(devices); trees := db.(trees); principals :=
  db.(principals); workspace_sync_receipts := db.(workspace_sync_receipts); agent_spawn_receipts
  := db.(agent_spawn_receipts); agent_operation_receipts := db.(agent_operation_receipts);
  peer_worker_sync_cursors := db.(peer_worker_sync_cursors); device_worker_readiness :=
  db.(device_worker_readiness); agent_lifecycle_states := db.(agent_lifecycle_states);
  result_packages := db.(result_packages); result_apply_authorizations :=
  db.(result_apply_authorizations); changes_artifacts := x; mailboxes := db.(mailboxes);
  mailbox_messages := db.(mailbox_messages); mailbox_receipts := db.(mailbox_receipts) |}.
Definition set_mailboxes (db : DB) x : DB := {|
  credentials := db.(credentials); broker_metadata := db.(broker_metadata);
  controller_registries := db.(controller_registries); controller_lifetime_counters :=
  db.(controller_lifetime_counters); devices := db.(devices); trees := db.(trees); principals :=
  db.(principals); workspace_sync_receipts := db.(workspace_sync_receipts); agent_spawn_receipts
  := db.(agent_spawn_receipts); agent_operation_receipts := db.(agent_operation_receipts);
  peer_worker_sync_cursors := db.(peer_worker_sync_cursors); device_worker_readiness :=
  db.(device_worker_readiness); agent_lifecycle_states := db.(agent_lifecycle_states);
  result_packages := db.(result_packages); result_apply_authorizations :=
  db.(result_apply_authorizations); changes_artifacts := db.(changes_artifacts); mailboxes := x;
  mailbox_messages := db.(mailbox_messages); mailbox_receipts := db.(mailbox_receipts) |}.
Definition set_mailbox_messages (db : DB) x : DB := {|
  credentials := db.(credentials); broker_metadata := db.(broker_metadata);
  controller_registries := db.(controller_registries); controller_lifetime_counters :=
  db.(controller_lifetime_counters); devices := db.(devices); trees := db.(trees); principals :=
  db.(principals); workspace_sync_receipts := db.(workspace_sync_receipts); agent_spawn_receipts
  := db.(agent_spawn_receipts); agent_operation_receipts := db.(agent_operation_receipts);
  peer_worker_sync_cursors := db.(peer_worker_sync_cursors); device_worker_readiness :=
  db.(device_worker_readiness); agent_lifecycle_states := db.(agent_lifecycle_states);
  result_packages := db.(result_packages); result_apply_authorizations :=
  db.(result_apply_authorizations); changes_artifacts := db.(changes_artifacts); mailboxes :=
  db.(mailboxes); mailbox_messages := x; mailbox_receipts := db.(mailbox_receipts) |}.
Definition set_mailbox_receipts (db : DB) x : DB := {|
  credentials := db.(credentials); broker_metadata := db.(broker_metadata);
  controller_registries := db.(controller_registries); controller_lifetime_counters :=
  db.(controller_lifetime_counters); devices := db.(devices); trees := db.(trees); principals :=
  db.(principals); workspace_sync_receipts := db.(workspace_sync_receipts); agent_spawn_receipts
  := db.(agent_spawn_receipts); agent_operation_receipts := db.(agent_operation_receipts);
  peer_worker_sync_cursors := db.(peer_worker_sync_cursors); device_worker_readiness :=
  db.(device_worker_readiness); agent_lifecycle_states := db.(agent_lifecycle_states);
  result_packages := db.(result_packages); result_apply_authorizations :=
  db.(result_apply_authorizations); changes_artifacts := db.(changes_artifacts); mailboxes :=
  db.(mailboxes); mailbox_messages := db.(mailbox_messages); mailbox_receipts := x |}.

(** ** Statements *)

(** The rows a foreign key refers to. *)
Definition tree_row (db : DB) (controllerID treeID : string) : option ((string * string) * TreeRow) :=
  select_row (fun '(k, r) => k.1 = controllerID /\ r.(tr_tree_id) = treeID) db.(trees).
Definition tree_exists (db : DB) (controllerID treeID : string) : bool :=
  bool_decide (is_Some (tree_row db controllerID treeID)).
Definition principal_exists (db : DB) (controllerID treeID agentID : string) : bool :=
  bool_decide (is_Some (db.(principals) !! (controllerID, treeID, agentID))).
Definition device_exists (db : DB) (controllerID deviceID : string) : bool :=
  bool_decide (is_Some (db.(devices) !! (controllerID, deviceID))).
Definition mailbox_exists (db : DB) (controllerID treeID agentID : string) : bool :=
  bool_decide (is_Some (db.(mailboxes) !! (controllerID, treeID, agentID))).

(** No row of [t] satisfies [P]: the UNIQUE constraints. *)
Definition none_where {K R} `{Countable K} (P : K * R -> Prop) `{!forall x, Decision (P x)}
    (t : gmap K R) : bool := bool_decide (select P t = []).

(** [INSERT INTO principals]: the row's key and foreign key. *)
Definition insert_principal (controllerID treeID agentID : string) (r : PrincipalRow) (db : DB) : result DB :=
  let? t := sql_insert db.(principals) (controllerID, treeID, agentID) r
              (principal_check r && tree_exists db controllerID treeID) in
  Ok (set_principals db t).

Definition insert_tree (controllerID externalThreadID : string) (r : TreeRow) (db : DB) : result DB :=
  let? t := sql_insert db.(trees) (controllerID, externalThreadID) r
              (tree_check r && negb (tree_exists db controllerID r.(tr_tree_id))) in
  Ok (set_trees db t).

(** ** Opening a state file *)

(* go: internal/store/schema.go:9-9 storeApplicationID *)
Definition storeApplicationID : Z := 0x444c4754.

(* go: internal/store/store.go:19-19 schemaVersion *)
Definition schemaVersion : Z := 20.

(** What the open sequence reads of a state file: its identity pragmas, the
    number of user objects in its schema, and the tables. *)
(* go: internal/store/schema.go schemaIdentity *)
Record StateFile := {
  sf_applicationID : Z;
  sf_version : Z;
  sf_objectCount : Z;
  sf_db : DB;
}.

(* go: internal/store/schema.go unsupportedSchemaIdentity *)
Definition unsupportedSchemaIdentity : error :=
  New "unsupported broker state format (application ID %d, schema version %d); this runtime supports only the current pre-release format".

(** Creating the schema adds its tables and indexes; only their number being
    positive matters to later opens. *)
(* go: internal/store/schema.go initializeSchema *)
Definition initializeSchema (f : StateFile) : result StateFile :=
  if decide (f.(sf_applicationID) = storeApplicationID /\ f.(sf_version) = schemaVersion) then Ok f
  else
    reject unsupportedSchemaIdentity when (f.(sf_applicationID) <> 0 \/ f.(sf_version) <> 0) in
    reject unsupportedSchemaIdentity when (f.(sf_objectCount) <> 0) in
    Ok {| sf_applicationID := storeApplicationID; sf_version := schemaVersion;
          sf_objectCount := 35; sf_db := empty_db |}.

(* go: internal/store/schema.go requireCurrentSchema *)
Definition requireCurrentSchema (f : StateFile) : result unit :=
  reject unsupportedSchemaIdentity
    when (f.(sf_applicationID) <> storeApplicationID \/ f.(sf_version) <> schemaVersion) in
  Ok tt.

(** ** Lemmas on statements *)

Section TableLemmas.
Context {K R : Type} `{Countable K}.
Implicit Types (t : gmap K R).

Lemma elem_of_select (P : K * R -> Prop) `{!forall x, Decision (P x)} t k r :
  (k, r) ∈ select P t <-> t !! k = Some r /\ P (k, r).
Proof. unfold select. rewrite elem_of_map_to_list, map_lookup_filter_Some. done. Qed.

Lemma NoDup_select (P : K * R -> Prop) `{!forall x, Decision (P x)} t : NoDup (select P t).
Proof. apply NoDup_map_to_list. Qed.

Lemma NoDup_fst_select (P : K * R -> Prop) `{!forall x, Decision (P x)} t : NoDup (select P t).*1.
Proof. apply NoDup_fst_map_to_list. Qed.

Lemma select_row_Some (P : K * R -> Prop) `{!forall x, Decision (P x)} t k r :
  select_row P t = Some (k, r) -> t !! k = Some r /\ P (k, r).
Proof.
  intros H1. apply (elem_of_select P). unfold select_row in H1.
  destruct (select P t); simplify_eq/=. set_solver.
Qed.

Lemma select_row_None (P : K * R -> Prop) `{!forall x, Decision (P x)} t :
  select_row P t = None <-> forall k r, t !! k = Some r -> ~ P (k, r).
Proof.
  unfold select_row. rewrite head_None. split.
  - intros H1 k r Hk HP. assert ((k, r) ∈ select P t) as Hin by (by apply (elem_of_select P)).
    rewrite H1 in Hin. set_solver.
  - intros Hno. destruct (select P t) as [|[k r] l] eqn:E; [done|].
    assert ((k, r) ∈ select P t) as [??]%(elem_of_select P) by (rewrite E; set_solver). naive_solver.
Qed.

(** A UNIQUE column makes the selected row the only one. *)
Lemma select_row_unique (P : K * R -> Prop) `{!forall x, Decision (P x)} t k r :
  (forall k' r', t !! k' = Some r' -> P (k', r') -> k' = k) ->
  t !! k = Some r -> P (k, r) -> select_row P t = Some (k, r).
Proof.
  intros Huniq Hk HP. destruct (select_row P t) as [[k' r']|] eqn:E.
  - apply select_row_Some in E as [Hk' HP']. assert (k' = k) as -> by eauto. congruence.
  - rewrite select_row_None in E. naive_solver.
Qed.

Lemma none_where_true (P : K * R -> Prop) `{!forall x, Decision (P x)} t :
  none_where P t = true <-> forall k r, t !! k = Some r -> ~ P (k, r).
Proof.
  unfold none_where. rewrite bool_decide_eq_true, <- select_row_None.
  unfold select_row. by rewrite head_None.
Qed.

Lemma sql_insert_Ok t k r ok t' :
  sql_insert t k r ok = Ok t' <-> ok = true /\ t !! k = None /\ t' = <[k := r]> t.
Proof.
  unfold sql_insert. destruct (decide _) as [Hd|Hd]; split; try done.
  - intros (-> & Hn & _). destruct Hd as [|[? Hs]]; congruence.
  - intros [= <-]. destruct ok; [|naive_solver]. split_and!; [done| |done].
    apply eq_None_not_Some. naive_solver.
  - intros (_ & _ & ->). done.
Qed.

Lemma sql_insert_hit t k r ok : ok = true -> t !! k = None -> sql_insert t k r ok = Ok (<[k := r]> t).
Proof. intros. by apply sql_insert_Ok. Qed.

Lemma sql_update_Ok t k guard set check n t' :
  sql_update t k guard set check = Ok (n, t') ->
  (n = 0 /\ t' = t /\ forall r, t !! k = Some r -> guard r = false) \/
  (n = 1 /\ exists r, t !! k = Some r /\ guard r = true /\ check (set r) = true /\ t' = <[k := set r]> t).
Proof.
  unfold sql_update. destruct (t !! k) as [r|] eqn:E; [|naive_solver].
  destruct (guard r) eqn:Eg; [|naive_solver].
  destruct (decide _) as [|Hc]; [done|]. rewrite not_false_iff_true in Hc. naive_solver.
Qed.

Lemma sql_update_hit t k guard set check r :
  t !! k = Some r -> guard r = true -> check (set r) = true ->
  sql_update t k guard set check = Ok (1, <[k := set r]> t).
Proof. intros Hk Hg Hc. unfold sql_update. rewrite Hk, Hg. by rewrite decide_False by congruence. Qed.

Lemma lookup_sql_delete (P : K * R -> Prop) `{!forall x, Decision (P x)} t k r :
  (sql_delete P t).2 !! k = Some r <-> t !! k = Some r /\ ~ P (k, r).
Proof. simpl. by rewrite map_lookup_filter_Some. Qed.

(** A property of every row, by evaluation. *)
Lemma table_forallb (f : K * R -> bool) t k r :
  forallb f (map_to_list t) = true -> t !! k = Some r -> f (k, r) = true.
Proof. rewrite forallb_forall. intros Hf Hk. apply Hf, list_elem_of_In, elem_of_map_to_list. exact Hk. Qed.

(** The row count of an UPDATE tells what happened to the table. *)
Lemma sql_update_one t k guard set check t' :
  sql_update t k guard set check = Ok (1, t') ->
  exists r, t !! k = Some r /\ guard r = true /\ check (set r) = true /\ t' = <[k := set r]> t.
Proof. intros [[? _]|[_ ?]]%sql_update_Ok; [done|done]. Qed.
End TableLemmas.


Lemma sqlite_chars_ascii b l :
  forallb (fun x => in_range 1 0x7F x) l = true -> sqlite_chars b l = Z.of_nat (length l).
Proof.
  revert b. induction l as [|x l IH]; intros b; [done|]. cbn -[in_range Z.of_nat].
  unfold in_range at 1. intros [Hx Hl]%andb_prop.
  rewrite (proj2 (Z.eqb_neq x 0)) by lia.
  assert (in_range 0x80 0xBF x = false) as -> by (unfold in_range; lia).
  rewrite andb_false_r, IH by done. lia.
Qed.

Lemma sqlite_length_ascii s :
  forallb (fun x => in_range 1 0x7F x) (bytes s) = true -> sqlite_length s = len s.
Proof. intros. unfold sqlite_length. by rewrite sqlite_chars_ascii, len_bytes. Qed.

Lemma valid_id_sqlite_length s : valid_id s -> sqlite_length s = 36.
Proof.
  intros Hv. rewrite sqlite_length_ascii; [by apply valid_id_len|].
  eapply forallb_impl; [|by apply valid_id_bytes]. intros x.
  unfold uuid_byte, is_lower_hex, is_digit, in_range. lia.
Qed.
