(* ===== verification/WorkspaceProtocol.v ===== *)
(** internal/protocol/workspace.go and workspace_transfer.go: the wire types by
    which a workspace is described, hashed and transferred between peers, with
    the validators both ends apply. *)

From S2P Require Export Schema.

(** ** Standard library: slices and JSON objects *)

(** [slices.Sort], [slices.IsSorted] and [slices.Compact] on strings. *)
Definition slices_Sort (l : list string) : list string := order_by_text id l.

Fixpoint slices_IsSorted (l : list string) : bool :=
  match l with
  | x :: (y :: _) as l' => negb (String.ltb y x) && slices_IsSorted l'
  | _ => true
  end.

Fixpoint slices_Compact (l : list string) : list string :=
  match l with
  | [] => []
  | x :: l =>
      match l with
      | [] => [x]
      | y :: _ => if decide (x = y) then slices_Compact l else x :: slices_Compact l
      end
  end.

(** A JSON object with the given members, in order. *)
Definition json_member (name : string) (value : list Z) : list Z := json_string_bytes name ++ 58 :: value.
Fixpoint json_members (l : list (list Z)) : list Z :=
  match l with
  | [] => []
  | [m] => m
  | m :: l => m ++ 44 :: json_members l
  end.
Definition json_object (l : list (list Z)) : list Z := 123 :: json_members l ++ [125].
Definition json_bool (b : bool) : list Z := bytes (if b then "true" else "false").
Definition json_array_bytes (l : list string) : list Z := 91 :: json_elements l ++ [93].

(** ** Constants and patterns *)

(* go: internal/protocol/workspace.go:17-24 MaximumGitURLBytes *)
Definition MaximumGitURLBytes : Z := 4 * 1024.
Definition MaximumSourcePathBytes : Z := 32 * 1024.
Definition MaximumWorkspaceRelativeBytes : Z := 4 * 1024.
Definition MaximumWorkspaceWarnings : Z := 16.
Definition MaximumWorkspaceWarningBytes : Z := 64.
Definition MaximumWorkspaceBasisOIDs : Z := 128.

(* go: internal/protocol/workspace_transfer.go:11-18 WorkspaceArtifactChunkBytes *)
Definition WorkspaceArtifactChunkBytes : Z := 128 * 1024.
Definition MaximumWorkspaceArtifactBytes : Z := 256 * 1024 * 1024.
Definition MaximumWorkspaceTransferBytes : Z := 512 * 1024 * 1024.
Definition WorkspaceWarningFullHistoryFallback : string := "remote_git_full_history_fallback".
Definition WorkspaceWarningLFSPayloadNotTransferred : string := "lfs_payload_not_transferred".
Definition WorkspaceWarningSubmoduleRepositoryNotTransferred : string :=
  "submodule_repository_not_transferred".

(* go: internal/protocol/workspace.go:27-27 gitObjectIDPattern *)
Definition gitObjectIDPattern (s : string) : bool := lower_hex_pattern 40 s || lower_hex_pattern 64 s.

(* go: internal/protocol/workspace.go:28-28 sha256DigestPattern *)
Definition sha256DigestPattern (s : string) : bool := lower_hex_pattern 64 s.

(* go: internal/protocol/workspace.go:29-29 workspaceWarningPattern *)
Definition workspaceWarningPattern (s : string) : bool := pattern is_lower is_name_byte 63 s.

(** ** Strategies and outcomes *)

(* go: internal/protocol/workspace.go:32-38 WorkspaceStrategy *)
Definition WorkspaceStrategy : Type := string.
Definition WorkspaceStrategyDirect : WorkspaceStrategy := "direct".
Definition WorkspaceStrategyThin : WorkspaceStrategy := "thinBundle".
Definition WorkspaceStrategyFull : WorkspaceStrategy := "selfContainedBundle".

(* go: internal/protocol/workspace.go WorkspaceStrategy.Validate *)
Definition WorkspaceStrategy_Validate (s : WorkspaceStrategy) : result unit :=
  if decide (s ∈ [WorkspaceStrategyDirect; WorkspaceStrategyThin; WorkspaceStrategyFull])
  then Ok tt else Err (New "unsupported workspace strategy %q").

(* go: internal/protocol/workspace.go:49-54 WorkspacePrepareOutcome *)
Definition WorkspacePrepareOutcome : Type := string.
Definition WorkspacePrepareReady : WorkspacePrepareOutcome := "ready".
Definition WorkspacePrepareTransferRequired : WorkspacePrepareOutcome := "transferRequired".

(* go: internal/protocol/workspace.go WorkspacePrepareOutcome.Validate *)
Definition WorkspacePrepareOutcome_Validate (o : WorkspacePrepareOutcome) : result unit :=
  if decide (o ∈ [WorkspacePrepareReady; WorkspacePrepareTransferRequired])
  then Ok tt else Err (New "unsupported workspace prepare outcome %q").

(** ** Warnings *)

(** The loop of [ValidateWorkspaceWarnings] with its [previous] variable. *)
(* go: internal/protocol/workspace.go:329-338 ValidateWorkspaceWarnings *)
Fixpoint validate_warnings (previous : string) (warnings : list string) : result unit :=
  match warnings with
  | [] => Ok tt
  | warning :: warnings =>
      reject (New "invalid workspace warning %q")
        when (len warning > MaximumWorkspaceWarningBytes \/ workspaceWarningPattern warning = false) in
      reject (New "workspace warnings must be sorted and unique")
        when (previous <> "" /\ String.leb warning previous = true) in
      validate_warnings warning warnings
  end.

(* go: internal/protocol/workspace.go ValidateWorkspaceWarnings *)
Definition ValidateWorkspaceWarnings (warnings : list string) : result unit :=
  reject (New "workspace warnings exceed limit of %d")
    when (Z.of_nat (length warnings) > MaximumWorkspaceWarnings) in
  validate_warnings "" warnings.

(* go: internal/protocol/workspace_transfer.go ValidateWorkspaceSourceWarnings *)
Definition ValidateWorkspaceSourceWarnings (warnings : list string) : result unit :=
  do? ValidateWorkspaceWarnings warnings in
  reject (New "source workspace warnings must not contain transfer-only warnings")
    when (WorkspaceWarningFullHistoryFallback ∈ warnings) in
  Ok tt.

(* go: internal/protocol/workspace_transfer.go WorkspaceWarningsForStrategy *)
Definition WorkspaceWarningsForStrategy (source : list string) (strategy : WorkspaceStrategy)
    : result (list string) :=
  do? ValidateWorkspaceSourceWarnings source in
  do? WorkspaceStrategy_Validate strategy in
  let warnings := if decide (strategy = WorkspaceStrategyFull)
                  then source ++ [WorkspaceWarningFullHistoryFallback] else source in
  let warnings := slices_Compact (slices_Sort warnings) in
  do? ValidateWorkspaceWarnings warnings in
  Ok warnings.

(** ** Sources *)

(* go: internal/protocol/workspace.go validateWorkspaceText *)
Definition validateWorkspaceText (name value : string) (limit : Z) : result unit :=
  reject (New "%s must contain from 1 through %d bytes of valid text")
    when (bad_message_text value limit) in
  Ok tt.

(* go: internal/protocol/workspace.go validateWorkspaceSource *)
Definition validateWorkspaceSource (gitURL sourcePath : string) : result unit :=
  do? validateWorkspaceText "gitUrl" gitURL MaximumGitURLBytes in
  validateWorkspaceText "sourcePath" sourcePath MaximumSourcePathBytes.

(* go: internal/protocol/workspace.go SyncWorkspaceParams *)
Record SyncWorkspaceParams := {
  sywp_SyncID : string;
  sywp_TargetDeviceID : string;
  sywp_GitURL : string;
  sywp_SourcePath : string;
}.

(* go: internal/protocol/workspace.go SyncWorkspaceParams.Validate *)
Definition SyncWorkspaceParams_Validate (p : SyncWorkspaceParams) : result unit :=
  do? validate_ids [("syncId", p.(sywp_SyncID)); ("targetDeviceId", p.(sywp_TargetDeviceID))] in
  validateWorkspaceSource p.(sywp_GitURL) p.(sywp_SourcePath).

(* go: internal/protocol/workspace.go InspectWorkspaceParams *)
Record InspectWorkspaceParams := {
  iwp_SyncID : string;
  iwp_GitURL : string;
  iwp_SourcePath : string;
}.

(* go: internal/protocol/workspace.go InspectWorkspaceParams.Validate *)
Definition InspectWorkspaceParams_Validate (p : InspectWorkspaceParams) : result unit :=
  do? wrap "syncId" (ValidateID p.(iwp_SyncID)) in
  validateWorkspaceSource p.(iwp_GitURL) p.(iwp_SourcePath).

(** ** The manifest *)

(* go: internal/protocol/workspace.go WorkspaceManifest *)
Record WorkspaceManifest := {
  wm_GitURL : string;
  wm_HeadOID : string;
  wm_ObjectFormat : string;
  wm_WorkingDirectory : string;
  wm_Clean : bool;
  wm_SourceSnapshotHash : string;
  wm_Warnings : list string;
}.

#[global] Instance WorkspaceManifest_eq_dec : EqDecision WorkspaceManifest.
Proof. solve_decision. Defined.

(** The switch on [m.ObjectFormat]. *)
(* go: internal/protocol/workspace.go:112-123 WorkspaceManifest.Validate *)
Definition validate_object_format (format headOID : string) : result unit :=
  if decide (format = "sha1") then
    reject (New "SHA-1 repository must use a 40-byte headOid") when (len headOID <> 40) in Ok tt
  else if decide (format = "sha256") then
    reject (New "SHA-256 repository must use a 64-byte headOid") when (len headOID <> 64) in Ok tt
  else Err (New "unsupported Git object format %q").

(* go: internal/protocol/workspace.go:124-132 WorkspaceManifest.Validate *)
Definition validate_working_directory (d : string) : result unit :=
  reject (New "workingDirectory is not a bounded relative path")
    when (len d > MaximumWorkspaceRelativeBytes \/ ValidString d = false \/ ContainsByte 0 d = true \/
          path_IsAbs d = true \/ ContainsByte 92 d = true \/ ContainsByte 58 d = true) in
  reject (New "workingDirectory escapes the repository")
    when (d = "." \/ d = ".." \/ HasPrefix (path_Clean d) "../" = true) in
  Ok tt.

(* go: internal/protocol/workspace.go WorkspaceManifest.Validate *)
Definition WorkspaceManifest_Validate (m : WorkspaceManifest) : result unit :=
  do? validateWorkspaceText "gitUrl" m.(wm_GitURL) MaximumGitURLBytes in
  reject (New "headOid must be a lowercase SHA-1 or SHA-256 object ID")
    when (gitObjectIDPattern m.(wm_HeadOID) = false) in
  do? validate_object_format m.(wm_ObjectFormat) m.(wm_HeadOID) in
  do? validate_working_directory m.(wm_WorkingDirectory) in
  reject (New "sourceSnapshotHash must be a lowercase SHA-256 digest")
    when (sha256DigestPattern m.(wm_SourceSnapshotHash) = false) in
  ValidateWorkspaceSourceWarnings m.(wm_Warnings).

(** [json.Marshal(manifest)] with a non-nil warning slice. *)
(* go: internal/protocol/workspace.go:95-103 WorkspaceManifest *)
Definition json_Marshal_manifest (m : WorkspaceManifest) : list Z :=
  json_object
    [json_member "gitUrl" (json_string_bytes m.(wm_GitURL));
     json_member "headOid" (json_string_bytes m.(wm_HeadOID));
     json_member "objectFormat" (json_string_bytes m.(wm_ObjectFormat));
     json_member "workingDirectory" (json_string_bytes m.(wm_WorkingDirectory));
     json_member "clean" (json_bool m.(wm_Clean));
     json_member "sourceSnapshotHash" (json_string_bytes m.(wm_SourceSnapshotHash));
     json_member "warnings" (json_array_bytes m.(wm_Warnings))].

(* go: internal/protocol/workspace.go WorkspaceManifestHash *)
Definition WorkspaceManifestHash (m : WorkspaceManifest) : result string :=
  do? WorkspaceManifest_Validate m in
  Ok (hex_string (Sum256 (of_bytes (json_Marshal_manifest m)))).

(* go: internal/protocol/workspace.go InspectWorkspaceResult *)
Record InspectWorkspaceResult := { iwr_SyncID : string; iwr_Manifest : WorkspaceManifest }.

(* go: internal/protocol/workspace.go InspectWorkspaceResult.Validate *)
Definition InspectWorkspaceResult_Validate (r : InspectWorkspaceResult) : result unit :=
  do? wrap "syncId" (ValidateID r.(iwr_SyncID)) in
  WorkspaceManifest_Validate r.(iwr_Manifest).

(* go: internal/protocol/workspace.go PrepareWorkspaceParams *)
Record PrepareWorkspaceParams := {
  pwp_WorkspaceID : string;
  pwp_SourceAgentID : string;
  pwp_SourceDeviceID : string;
  pwp_Manifest : WorkspaceManifest;
}.

(* go: internal/protocol/workspace.go PrepareWorkspaceParams.Validate *)
Definition PrepareWorkspaceParams_Validate (p : PrepareWorkspaceParams) : result unit :=
  do? validate_ids [("workspaceId", p.(pwp_WorkspaceID)); ("sourceAgentId", p.(pwp_SourceAgentID));
                    ("sourceDeviceId", p.(pwp_SourceDeviceID))] in
  WorkspaceManifest_Validate p.(pwp_Manifest).

(* go: internal/protocol/workspace.go PrepareWorkspaceResult *)
Record PrepareWorkspaceResult := {
  pwr_WorkspaceID : string;
  pwr_Outcome : WorkspacePrepareOutcome;
  pwr_Strategy : WorkspaceStrategy;
  pwr_ManifestHash : string;
  pwr_Warnings : list string;
  pwr_BasisOIDs : list string;
  pwr_BundleRequired : bool;
  pwr_OverlayRequired : bool;
}.

(** [!slices.IsSorted(x) || len(slices.Compact(slices.Clone(x))) != len(x)] *)
Definition not_sorted_unique (l : list string) : Prop :=
  slices_IsSorted l = false \/ length (slices_Compact l) <> length l.
#[global] Instance not_sorted_unique_dec l : Decision (not_sorted_unique l).
Proof. unfold not_sorted_unique. apply _. Defined.

(** [(strategy == WorkspaceStrategyFull) != slices.Contains(warnings, ...)] *)
Definition warning_mismatch (strategy : WorkspaceStrategy) (warnings : list string) : Prop :=
  bool_decide (strategy = WorkspaceStrategyFull) <>
  bool_decide (WorkspaceWarningFullHistoryFallback ∈ warnings).
#[global] Instance warning_mismatch_dec s l : Decision (warning_mismatch s l).
Proof. unfold warning_mismatch. apply _. Defined.

(* go: internal/protocol/workspace.go PrepareWorkspaceResult.Validate *)
Definition PrepareWorkspaceResult_Validate (r : PrepareWorkspaceResult) : result unit :=
  do? wrap "workspaceId" (ValidateID r.(pwr_WorkspaceID)) in
  do? WorkspacePrepareOutcome_Validate r.(pwr_Outcome) in
  do? ValidateWorkspaceWarnings r.(pwr_Warnings) in
  reject (New "basisOids exceeds limit of %d")
    when (Z.of_nat (length r.(pwr_BasisOIDs)) > MaximumWorkspaceBasisOIDs) in
  reject (New "basisOids contains an invalid object ID")
    when (forallb gitObjectIDPattern r.(pwr_BasisOIDs) = false) in
  reject (New "basisOids must be sorted and unique") when (not_sorted_unique r.(pwr_BasisOIDs)) in
  if decide (r.(pwr_Outcome) = WorkspacePrepareTransferRequired) then
    do? ValidateWorkspaceSourceWarnings r.(pwr_Warnings) in
    reject (New "transfer-required result must bind the source manifest without claiming a strategy")
      when (r.(pwr_Strategy) <> "" \/ sha256DigestPattern r.(pwr_ManifestHash) = false) in
    reject (New "transfer-required result must request an artifact")
      when (r.(pwr_BundleRequired) = false /\ r.(pwr_OverlayRequired) = false) in
    reject (New "basisOids require a bundle transfer")
      when (r.(pwr_BundleRequired) = false /\ r.(pwr_BasisOIDs) <> []) in
    Ok tt
  else
    do? WorkspaceStrategy_Validate r.(pwr_Strategy) in
    reject (New "ready workspace warning does not match its strategy")
      when (warning_mismatch r.(pwr_Strategy) r.(pwr_Warnings)) in
    reject (New "ready prepare result must not request transfer artifacts")
      when (r.(pwr_BundleRequired) = true \/ r.(pwr_OverlayRequired) = true \/ r.(pwr_BasisOIDs) <> []) in
    reject (New "manifestHash must be a lowercase SHA-256 digest")
      when (sha256DigestPattern r.(pwr_ManifestHash) = false) in
    Ok tt.

(* go: internal/protocol/workspace.go WorkspaceSummary *)
Record WorkspaceSummary := {
  wsm_WorkspaceID : string;
  wsm_SourceDeviceID : string;
  wsm_TargetDeviceID : string;
  wsm_HeadOID : string;
  wsm_ObjectFormat : string;
  wsm_WorkingDirectory : string;
  wsm_Strategy : WorkspaceStrategy;
  wsm_ManifestHash : string;
  wsm_Warnings : list string;
}.

#[global] Instance WorkspaceSummary_eq_dec : EqDecision WorkspaceSummary.
Proof. solve_decision. Defined.

(** The manifest [WorkspaceSummary.Validate] builds to reuse its checks. *)
(* go: internal/protocol/workspace.go:273-277 WorkspaceSummary.Validate *)
Definition summary_manifest (s : WorkspaceSummary) : WorkspaceManifest := {|
  wm_GitURL := "ssh://validated.invalid/repository"; wm_HeadOID := s.(wsm_HeadOID);
  wm_ObjectFormat := s.(wsm_ObjectFormat); wm_WorkingDirectory := s.(wsm_WorkingDirectory);
  wm_Clean := true; wm_SourceSnapshotHash := of_bytes (replicate 64 48); wm_Warnings := [] |}.

(* go: internal/protocol/workspace.go WorkspaceSummary.Validate *)
Definition WorkspaceSummary_Validate (s : WorkspaceSummary) : result unit :=
  do? validate_ids [("workspaceId", s.(wsm_WorkspaceID)); ("sourceDeviceId", s.(wsm_SourceDeviceID));
                    ("targetDeviceId", s.(wsm_TargetDeviceID))] in
  do? WorkspaceManifest_Validate (summary_manifest s) in
  do? ValidateWorkspaceWarnings s.(wsm_Warnings) in
  do? WorkspaceStrategy_Validate s.(wsm_Strategy) in
  reject (New "workspace summary warning does not match its strategy")
    when (warning_mismatch s.(wsm_Strategy) s.(wsm_Warnings)) in
  reject (New "manifestHash must be a lowercase SHA-256 digest")
    when (sha256DigestPattern s.(wsm_ManifestHash) = false) in
  Ok tt.

(* go: internal/protocol/workspace.go SyncWorkspaceResult *)
Record SyncWorkspaceResult := {
  sywr_Workspace : option WorkspaceSummary;
  sywr_Outcome : WorkspacePrepareOutcome;
  sywr_Warnings : list string;
}.

(* go: internal/protocol/workspace.go SyncWorkspaceResult.Validate *)
Definition SyncWorkspaceResult_Validate (r : SyncWorkspaceResult) : result unit :=
  do? WorkspacePrepareOutcome_Validate r.(sywr_Outcome) in
  do? ValidateWorkspaceWarnings r.(sywr_Warnings) in
  reject (New "workspace sync must not expose an intermediate preparation state")
    when (r.(sywr_Outcome) <> WorkspacePrepareReady) in
  match r.(sywr_Workspace) with
  | None => Err (New "ready sync must return a workspace")
  | Some w =>
      do? WorkspaceSummary_Validate w in
      reject (New "workspace sync warnings do not match its workspace")
        when (r.(sywr_Warnings) <> w.(wsm_Warnings)) in
      Ok tt
  end.

(** ** Transfers *)

(* go: internal/protocol/workspace_transfer.go:20-25 WorkspaceArtifactKind *)
Definition WorkspaceArtifactKind : Type := string.
Definition WorkspaceArtifactBundle : WorkspaceArtifactKind := "bundle".
Definition WorkspaceArtifactOverlay : WorkspaceArtifactKind := "overlay".

(* go: internal/protocol/workspace_transfer.go WorkspaceArtifactKind.Validate *)
Definition WorkspaceArtifactKind_Validate (k : WorkspaceArtifactKind) : result unit :=
  if decide (k ∈ [WorkspaceArtifactBundle; WorkspaceArtifactOverlay])
  then Ok tt else Err (New "unsupported workspace artifact kind %q").

(* go: internal/protocol/workspace_transfer.go WorkspaceArtifactDescriptor *)
Record WorkspaceArtifactDescriptor := {
  wad_Kind : WorkspaceArtifactKind;
  wad_Size : Z;
  wad_SHA256 : string;
}.

(* go: internal/protocol/workspace_transfer.go WorkspaceArtifactDescriptor.Validate *)
Definition WorkspaceArtifactDescriptor_Validate (d : WorkspaceArtifactDescriptor) : result unit :=
  do? WorkspaceArtifactKind_Validate d.(wad_Kind) in
  reject (New "workspace artifact size must be from 1 through %d bytes")
    when (d.(wad_Size) < 1 \/ d.(wad_Size) > MaximumWorkspaceArtifactBytes) in
  reject (New "workspace artifact sha256 must be a lowercase SHA-256 digest")
    when (sha256DigestPattern d.(wad_SHA256) = false) in
  Ok tt.

(* go: internal/protocol/workspace_transfer.go WorkspaceTransferManifest *)
Record WorkspaceTransferManifest := {
  wtm_TransferID : string;
  wtm_WorkspaceID : string;
  wtm_Strategy : WorkspaceStrategy;
  wtm_ManifestHash : string;
  wtm_Artifacts : list WorkspaceArtifactDescriptor;
  wtm_Warnings : list string;
}.

(** A sum of two [int64] values wraps around. *)
Definition int64_add (x y : Z) : Z := (x + y + 2 ^ 63) mod 2 ^ 64 - 2 ^ 63.

(** The loop over [m.Artifacts]: the running total and whether a bundle was seen. *)
(* go: internal/protocol/workspace_transfer.go:82-96 WorkspaceTransferManifest.Validate *)
Fixpoint validate_artifacts (previous : WorkspaceArtifactKind) (total : Z) (hasBundle : bool)
    (artifacts : list WorkspaceArtifactDescriptor) : result (Z * bool) :=
  match artifacts with
  | [] => Ok (total, hasBundle)
  | artifact :: artifacts =>
      do? WorkspaceArtifactDescriptor_Validate artifact in
      reject (New "workspace artifacts must be sorted and unique")
        when (previous <> "" /\ String.leb artifact.(wad_Kind) previous = true) in
      validate_artifacts artifact.(wad_Kind) (int64_add total artifact.(wad_Size))
        (hasBundle || bool_decide (artifact.(wad_Kind) = WorkspaceArtifactBundle)) artifacts
  end.

(* go: internal/protocol/workspace_transfer.go WorkspaceTransferManifest.Validate *)
Definition WorkspaceTransferManifest_Validate (m : WorkspaceTransferManifest) : result unit :=
  do? validate_ids [("transferId", m.(wtm_TransferID)); ("workspaceId", m.(wtm_WorkspaceID))] in
  do? WorkspaceStrategy_Validate m.(wtm_Strategy) in
  reject (New "manifestHash must be a lowercase SHA-256 digest")
    when (sha256DigestPattern m.(wtm_ManifestHash) = false) in
  reject (New "workspace transfer must contain from 1 through 2 artifacts")
    when (Z.of_nat (length m.(wtm_Artifacts)) < 1 \/ Z.of_nat (length m.(wtm_Artifacts)) > 2) in
  let? (total, hasBundle) := validate_artifacts "" 0 false m.(wtm_Artifacts) in
  reject (New "workspace transfer exceeds %d-byte limit") when (total > MaximumWorkspaceTransferBytes) in
  reject (New "workspace transfer strategy does not match its bundle artifact")
    when (bool_decide (m.(wtm_Strategy) = WorkspaceStrategyThin \/
                       m.(wtm_Strategy) = WorkspaceStrategyFull) <> hasBundle) in
  do? ValidateWorkspaceWarnings m.(wtm_Warnings) in
  reject (New "self-contained bundle warning does not match transfer strategy")
    when (warning_mismatch m.(wtm_Strategy) m.(wtm_Warnings)) in
  Ok tt.

(* go: internal/protocol/workspace_transfer.go CreateWorkspaceTransferParams *)
Record CreateWorkspaceTransferParams := {
  cwt_TransferID : string;
  cwt_WorkspaceID : string;
  cwt_GitURL : string;
  cwt_SourcePath : string;
  cwt_Manifest : WorkspaceManifest;
  cwt_BasisOIDs : list string;
  cwt_BundleRequired : bool;
  cwt_OverlayRequired : bool;
}.

(** The loop over [p.BasisOIDs]. *)
(* go: internal/protocol/workspace_transfer.go:179-187 CreateWorkspaceTransferParams.Validate *)
Fixpoint validate_basis (format : string) (oids : list string) : result unit :=
  match oids with
  | [] => Ok tt
  | oid :: oids =>
      reject (New "basisOids contains an invalid object ID") when (gitObjectIDPattern oid = false) in
      reject (New "basisOids object format does not match the source manifest")
        when ((format = "sha1" /\ len oid <> 40) \/ (format = "sha256" /\ len oid <> 64)) in
      validate_basis format oids
  end.

(* go: internal/protocol/workspace_transfer.go CreateWorkspaceTransferParams.Validate *)
Definition CreateWorkspaceTransferParams_Validate (p : CreateWorkspaceTransferParams) : result unit :=
  do? validate_ids [("transferId", p.(cwt_TransferID)); ("workspaceId", p.(cwt_WorkspaceID))] in
  do? validateWorkspaceSource p.(cwt_GitURL) p.(cwt_SourcePath) in
  do? WorkspaceManifest_Validate p.(cwt_Manifest) in
  reject (New "transfer Git URL does not match the source manifest")
    when (p.(cwt_Manifest).(wm_GitURL) <> p.(cwt_GitURL)) in
  reject (New "workspace transfer must request an artifact")
    when (p.(cwt_BundleRequired) = false /\ p.(cwt_OverlayRequired) = false) in
  reject (New "overlay requirement does not match source cleanliness")
    when (p.(cwt_Manifest).(wm_Clean) = p.(cwt_OverlayRequired)) in
  reject (New "basisOids exceeds limit of %d")
    when (Z.of_nat (length p.(cwt_BasisOIDs)) > MaximumWorkspaceBasisOIDs) in
  do? validate_basis p.(cwt_Manifest).(wm_ObjectFormat) p.(cwt_BasisOIDs) in
  reject (New "basisOids must be sorted and unique") when (not_sorted_unique p.(cwt_BasisOIDs)) in
  reject (New "basisOids require a bundle artifact")
    when (p.(cwt_BundleRequired) = false /\ p.(cwt_BasisOIDs) <> []) in
  Ok tt.

(* go: internal/protocol/workspace_transfer.go:201-207 CreateWorkspaceTransferResult *)
Definition CreateWorkspaceTransferResult_Validate (transfer : WorkspaceTransferManifest) : result unit :=
  WorkspaceTransferManifest_Validate transfer.

(* go: internal/protocol/workspace_transfer.go ReadWorkspaceArtifactParams *)
Record ReadWorkspaceArtifactParams := {
  rwp_TransferID : string;
  rwp_Kind : WorkspaceArtifactKind;
  rwp_Offset : Z;
  rwp_Limit : Z;
}.

(* go: internal/protocol/workspace_transfer.go ReadWorkspaceArtifactParams.Validate *)
Definition ReadWorkspaceArtifactParams_Validate (p : ReadWorkspaceArtifactParams) : result unit :=
  do? wrap "transferId" (ValidateID p.(rwp_TransferID)) in
  do? WorkspaceArtifactKind_Validate p.(rwp_Kind) in
  reject (New "artifact offset is out of range")
    when (p.(rwp_Offset) < 0 \/ p.(rwp_Offset) >= MaximumWorkspaceArtifactBytes) in
  reject (New "artifact chunk limit must be from 1 through %d")
    when (p.(rwp_Limit) < 1 \/ p.(rwp_Limit) > WorkspaceArtifactChunkBytes) in
  Ok tt.

(** [Data] is a byte slice. *)
(* go: internal/protocol/workspace_transfer.go ReadWorkspaceArtifactResult *)
Record ReadWorkspaceArtifactResult := {
  rwr_TransferID : string;
  rwr_Kind : WorkspaceArtifactKind;
  rwr_Offset : Z;
  rwr_Data : string;
  rwr_NextOffset : Z;
}.

(** The bounds a read and a write share. *)
Definition bad_chunk (offset dataLength : Z) : Prop :=
  offset < 0 \/ offset >= MaximumWorkspaceArtifactBytes \/ dataLength < 1 \/
  dataLength > WorkspaceArtifactChunkBytes \/ dataLength > MaximumWorkspaceArtifactBytes - offset.
#[global] Instance bad_chunk_dec o n : Decision (bad_chunk o n).
Proof. unfold bad_chunk. apply _. Defined.

(* go: internal/protocol/workspace_transfer.go ReadWorkspaceArtifactResult.Validate *)
Definition ReadWorkspaceArtifactResult_Validate (r : ReadWorkspaceArtifactResult) : result unit :=
  do? wrap "transferId" (ValidateID r.(rwr_TransferID)) in
  do? WorkspaceArtifactKind_Validate r.(rwr_Kind) in
  let dataLength := len r.(rwr_Data) in
  reject (New "workspace artifact read result has invalid bounds")
    when (bad_chunk r.(rwr_Offset) dataLength \/ r.(rwr_NextOffset) <> int64_add r.(rwr_Offset) dataLength) in
  Ok tt.

(* go: internal/protocol/workspace_transfer.go BeginWorkspaceTransferParams *)
Record BeginWorkspaceTransferParams := {
  bwt_SourceAgentID : string;
  bwt_SourceDeviceID : string;
  bwt_Manifest : WorkspaceManifest;
  bwt_Transfer : WorkspaceTransferManifest;
}.

(* go: internal/protocol/workspace_transfer.go BeginWorkspaceTransferParams.Validate *)
Definition BeginWorkspaceTransferParams_Validate (p : BeginWorkspaceTransferParams) : result unit :=
  do? validate_ids [("sourceAgentId", p.(bwt_SourceAgentID)); ("sourceDeviceId", p.(bwt_SourceDeviceID))] in
  do? WorkspaceManifest_Validate p.(bwt_Manifest) in
  do? WorkspaceTransferManifest_Validate p.(bwt_Transfer) in
  reject (New "workspace transfer does not match the source manifest")
    when (WorkspaceManifestHash p.(bwt_Manifest) <> Ok p.(bwt_Transfer).(wtm_ManifestHash)) in
  reject (New "workspace transfer warnings do not match the source manifest")
    when (WorkspaceWarningsForStrategy p.(bwt_Manifest).(wm_Warnings) p.(bwt_Transfer).(wtm_Strategy)
          <> Ok p.(bwt_Transfer).(wtm_Warnings)) in
  let hasOverlay := existsb (fun a => bool_decide (a.(wad_Kind) = WorkspaceArtifactOverlay))
                      p.(bwt_Transfer).(wtm_Artifacts) in
  reject (New "workspace overlay does not match source cleanliness")
    when (hasOverlay = p.(bwt_Manifest).(wm_Clean)) in
  Ok tt.

(* go: internal/protocol/workspace_transfer.go WriteWorkspaceArtifactParams *)
Record WriteWorkspaceArtifactParams := {
  wwp_WorkspaceID : string;
  wwp_TransferID : string;
  wwp_Kind : WorkspaceArtifactKind;
  wwp_Offset : Z;
  wwp_Data : string;
}.

(* go: internal/protocol/workspace_transfer.go WriteWorkspaceArtifactParams.Validate *)
Definition WriteWorkspaceArtifactParams_Validate (p : WriteWorkspaceArtifactParams) : result unit :=
  do? validate_ids [("workspaceId", p.(wwp_WorkspaceID)); ("transferId", p.(wwp_TransferID))] in
  do? WorkspaceArtifactKind_Validate p.(wwp_Kind) in
  reject (New "workspace artifact write has invalid bounds")
    when (bad_chunk p.(wwp_Offset) (len p.(wwp_Data))) in
  Ok tt.

(* go: internal/protocol/workspace_transfer.go WriteWorkspaceArtifactResult *)
Record WriteWorkspaceArtifactResult := { wwr_TransferID : string; wwr_NextOffset : Z }.

(* go: internal/protocol/workspace_transfer.go WriteWorkspaceArtifactResult.Validate *)
Definition WriteWorkspaceArtifactResult_Validate (r : WriteWorkspaceArtifactResult) : result unit :=
  do? wrap "transferId" (ValidateID r.(wwr_TransferID)) in
  reject (New "workspace artifact nextOffset is out of range")
    when (r.(wwr_NextOffset) < 1 \/ r.(wwr_NextOffset) > MaximumWorkspaceArtifactBytes) in
  Ok tt.

(* go: internal/protocol/workspace_transfer.go WorkspaceTransferControlParams *)
Record WorkspaceTransferControlParams := {
  wtc_WorkspaceID : string;
  wtc_TransferID : string;
  wtc_SourceAgentID : string;
  wtc_SourceDeviceID : string;
}.

(* go: internal/protocol/workspace_transfer.go WorkspaceTransferControlParams.Validate *)
Definition WorkspaceTransferControlParams_Validate (p : WorkspaceTransferControlParams) : result unit :=
  validate_ids [("workspaceId", p.(wtc_WorkspaceID)); ("transferId", p.(wtc_TransferID));
                ("sourceAgentId", p.(wtc_SourceAgentID)); ("sourceDeviceId", p.(wtc_SourceDeviceID))].

(* go: internal/protocol/workspace_transfer.go FinishWorkspaceTransferResult.Validate *)
Definition FinishWorkspaceTransferResult_Validate (workspace : PrepareWorkspaceResult) : result unit :=
  do? PrepareWorkspaceResult_Validate workspace in
  reject (New "finished workspace transfer must return a ready workspace")
    when (workspace.(pwr_Outcome) <> WorkspacePrepareReady) in
  Ok tt.

(** ** Working directories *)

(** The elements left after [path.Clean]: the path relative to the repository. *)
Definition components (s : string) : list (list Z) := clean_elements (bytes s).

(** After each element the stack is a run of [..] below ordinary names. *)
Definition stack_shape (out : list (list Z)) : Prop :=
  exists names k, out = names ++ replicate k dotdot /\ dotdot ∉ names.

Lemma clean_step_shape out e : stack_shape out -> stack_shape (clean_step false out e).
Proof.
  intros (names & k & -> & Hn). unfold clean_step.
  case_bool_decide as He; [by exists names, k|].
  case_bool_decide as Hd.
  - subst. destruct names as [|n names]; simpl.
    + destruct k as [|k]; simpl; [by exists [], 1%nat|].
      exists [], (S (S k)). split; [done|set_solver].
    + rewrite bool_decide_false by set_solver. exists names, k. set_solver.
  - exists (e :: names), k. split; [done|]. set_solver.
Qed.

Lemma clean_fold_shape es out : stack_shape out -> stack_shape (foldl (clean_step false) out es).
Proof. revert out. induction es as [|e es IH]; intros out H; simpl; auto using clean_step_shape. Qed.

Lemma relative_bytes s :
  path_IsAbs s = false -> (match bytes s with b :: _ => b =? 47 | [] => false end) = false.
Proof.
  destruct s as [|a s]; [done|]. simpl. destruct (Z.eqb_spec (byte_of a) 47) as [E|]; [|done].
  unfold path_IsAbs, HasPrefix. replace a with (of_byte 47) by (rewrite <- E; apply of_byte_of).
  by destruct s.
Qed.

(** A relative path cleans to a run of [..] followed by ordinary names. *)
Lemma components_shape s :
  path_IsAbs s = false ->
  exists k names, components s = replicate k dotdot ++ names /\ dotdot ∉ names.
Proof.
  intros Hrel. unfold components, clean_elements.
  rewrite (relative_bytes s Hrel).
  destruct (clean_fold_shape (split_slash (bytes s)) []) as (names & k & -> & Hn).
  { exists [], 0%nat. split; [done|set_solver]. }
  exists k, (reverse names). rewrite reverse_app, reverse_replicate. split; [done|]. by rewrite elem_of_reverse.
Qed.

Lemma path_Clean_relative s :
  path_IsAbs s = false -> components s <> [] -> path_Clean s = of_bytes (join_slash (components s)).
Proof.
  intros Hrel Hne. unfold path_Clean. fold (components s).
  rewrite (relative_bytes s Hrel).
  by destruct (components s).
Qed.

Lemma prefix_parent e es : HasPrefix (of_bytes (join_slash (dotdot :: e :: es))) "../" = true.
Proof.
  unfold HasPrefix. change (join_slash (dotdot :: e :: es)) with (46 :: 46 :: 47 :: join_slash (e :: es)).
  change (of_bytes (46 :: 46 :: 47 :: join_slash (e :: es))) with ("../" +:+ of_bytes (join_slash (e :: es))).
  generalize (of_bytes (join_slash (e :: es))). intros [|]; reflexivity.
Qed.

Lemma validate_working_directory_Ok d :
  validate_working_directory d = Ok tt ->
  path_IsAbs d = false /\ HasPrefix (path_Clean d) "../" = false /\ ValidString d = true.
Proof.
  unfold validate_working_directory. intros H. repeat case_decide; try done.
  repeat split; (apply not_true_is_false || apply not_false_is_true); naive_solver.
Qed.

(** A working directory that passes validation never climbs above the parent of
    the repository: its cleaned form either contains no [..] at all, so it stays
    inside the repository, or it is exactly [..]. *)
Theorem working_directory_confined m :
  WorkspaceManifest_Validate m = Ok tt ->
  dotdot ∉ components m.(wm_WorkingDirectory) \/ components m.(wm_WorkingDirectory) = [dotdot].
Proof.
  unfold WorkspaceManifest_Validate. intros H. go_inv.
  match goal with H : validate_working_directory _ = Ok _ |- _ =>
    apply validate_working_directory_Ok in H as (Hrel & Hpre & _) end.
  destruct (components_shape _ Hrel) as (k & names & E & Hn). rewrite E.
  destruct k as [|[|k]]; simpl; [auto| |].
  - destruct names as [|nm names]; [auto|]. exfalso. revert Hpre.
    rewrite (path_Clean_relative _ Hrel), E by (by rewrite E). cbn [replicate app]. by rewrite prefix_parent.
  - exfalso. revert Hpre. rewrite (path_Clean_relative _ Hrel), E by (by rewrite E). cbn [replicate app]. by rewrite prefix_parent.
Qed.

Definition sample_manifest (workingDirectory : string) : WorkspaceManifest := {|
  wm_GitURL := "ssh://git.example/repo"; wm_HeadOID := "0123456789abcdef0123456789abcdef01234567";
  wm_ObjectFormat := "sha1"; wm_WorkingDirectory := workingDirectory; wm_Clean := false;
  wm_SourceSnapshotHash := of_bytes (replicate 64 48);
  wm_Warnings := [WorkspaceWarningLFSPayloadNotTransferred] |}.

Lemma working_directory_confined_witness :
  WorkspaceManifest_Validate (sample_manifest "pkg/../cmd") = Ok tt /\
  (dotdot ∉ components "pkg/../cmd" \/ components "pkg/../cmd" = [dotdot]).
Proof.
  split; [vm_compute; reflexivity|]. apply (working_directory_confined (sample_manifest "pkg/../cmd")).
  vm_compute. reflexivity.
Defined.

(** The manifest validator means to refuse a working directory that escapes the
    repository, but the guard inspects the raw string for [..] and the cleaned one
    only for the prefix [../]: the directory [a/../..], which denotes the parent of
    the repository, passes. *)
Theorem working_directory_parent_accepted :
  WorkspaceManifest_Validate (sample_manifest "a/../..") = Ok tt /\
  path_Clean "a/../.." = ".." /\
  is_ok (WorkspaceManifest_Validate (sample_manifest "..")) = false.
Proof. vm_compute. auto. Qed.

(** ** Warning lists *)

Definition warning_ok (w : string) : Prop :=
  len w <= MaximumWorkspaceWarningBytes /\ workspaceWarningPattern w = true.

Definition string_before (x y : string) : Prop := String.leb y x = false.

Lemma string_before_lt x y : string_before x y <-> String.le x y /\ x <> y.
Proof.
  unfold string_before. rewrite <- not_true_iff_false, <- String_le_leb. split.
  - intros Hn. destruct (total String.le x y) as [|]; [|done]. split; [done|]. by intros ->.
  - intros [Hle Hne] Hle'. apply Hne. by apply (anti_symm String.le).
Qed.

#[export] Instance string_before_trans : Transitive string_before.
Proof.
  intros x y z. rewrite !string_before_lt. intros [Hxy Hn] [Hyz _]. split; [by etrans|].
  intros ->. apply Hn. by apply (anti_symm String.le).
Qed.

Lemma sorted_before l : StronglySorted string_before l <-> StronglySorted String.le l /\ NoDup l.
Proof.
  induction l as [|x l IH].
  - split; [split; constructor|constructor].
  - rewrite NoDup_cons. split.
    + inversion_clear 1 as [|?? Hs Ha]. apply IH in Hs as [Hs Hn]. rewrite Forall_forall in Ha.
      split; [constructor; [done|]|split; [|done]].
      * apply Forall_forall. intros y Hy. by apply string_before_lt, Ha.
      * intros Hx. by destruct (proj1 (string_before_lt _ _) (Ha x Hx)).
    + intros [Hs [Hx Hn]]. inversion_clear Hs as [|?? Hs' Ha]. rewrite Forall_forall in Ha.
      constructor; [by apply IH|]. apply Forall_forall. intros y Hy. apply string_before_lt.
      split; [by apply Ha|]. by intros ->.
Qed.

Lemma warning_ok_nonempty w : warning_ok w -> w <> "".
Proof. intros [_ H] ->. done. Qed.

Lemma validate_warnings_Ok previous ws :
  validate_warnings previous ws = Ok tt <->
  Forall warning_ok ws /\ StronglySorted string_before ws /\
  (previous <> "" -> Forall (string_before previous) ws).
Proof.
  revert previous. induction ws as [|w ws IH]; intros previous; simpl.
  - split; [repeat split; constructor|done].
  - rewrite !reject_Ok, IH, !Forall_cons. split.
    + intros (Hok & Hprev & Hws & Hs & Hw). assert (warning_ok w) as Hwok.
      { unfold warning_ok. split; [lia|]. apply not_false_is_true. auto. }
      specialize (Hw (warning_ok_nonempty _ Hwok)). split_and!; [done|done|by constructor|].
      intros Hp. assert (string_before previous w) as Hpw by (apply not_true_is_false; auto).
      split; [done|]. eapply Forall_impl; [exact Hw|]. intros y Hy. by etrans.
    + intros ([Hwok Hws] & Hs & Hp). inversion_clear Hs. destruct Hwok as [Hl Hpat].
      split_and!; [|by intros [? Hle]; destruct (Hp H1) as [Hb _]; unfold string_before in Hb; congruence|done..].
      rewrite Hpat. intros [|]; [lia|done].
Qed.

Lemma ValidateWorkspaceWarnings_Ok ws :
  ValidateWorkspaceWarnings ws = Ok tt <->
  Z.of_nat (length ws) <= MaximumWorkspaceWarnings /\ Forall warning_ok ws /\
  StronglySorted String.le ws /\ NoDup ws.
Proof.
  unfold ValidateWorkspaceWarnings. rewrite reject_Ok, validate_warnings_Ok, sorted_before.
  split; [intros (? & ? & [??] & _)|intros (? & ? & ? & ?)]; split_and!; try done; lia.
Qed.

Lemma slices_Compact_NoDup l : NoDup l -> slices_Compact l = l.
Proof.
  induction 1 as [|x l Hx Hn IH]; [done|]. simpl. destruct l as [|y l]; [done|].
  rewrite decide_False by set_solver. by rewrite IH.
Qed.

Lemma slices_Sort_sorted l : StronglySorted String.le (slices_Sort l).
Proof. apply (sort_by_sorted String.le id). Qed.

Lemma slices_Sort_perm l : slices_Sort l ≡ₚ l.
Proof. apply sort_by_perm. Qed.

Lemma sorted_list_unique l1 l2 :
  NoDup l1 -> StronglySorted String.le l1 -> NoDup l2 -> StronglySorted String.le l2 ->
  (forall x, x ∈ l1 <-> x ∈ l2) -> l1 = l2.
Proof.
  intros Hn1 Hs1 Hn2 Hs2 He. apply (sorted_unique String.le id); rewrite ?list_fmap_id; try done.
  by apply NoDup_Permutation.
Qed.

(** The warnings a strategy adds to those of the source. *)
Definition strategy_warnings (source : list string) (strategy : WorkspaceStrategy) : list string :=
  if decide (strategy = WorkspaceStrategyFull)
  then source ++ [WorkspaceWarningFullHistoryFallback] else source.

Lemma strategy_warnings_facts source s :
  ValidateWorkspaceSourceWarnings source = Ok tt ->
  let ws := slices_Sort (strategy_warnings source s) in
  slices_Compact ws = ws /\ Forall warning_ok ws /\ StronglySorted String.le ws /\ NoDup ws /\
  length ws = (length source + if decide (s = WorkspaceStrategyFull) then 1 else 0)%nat /\
  forall w, w ∈ ws <-> w ∈ source \/ (s = WorkspaceStrategyFull /\ w = WorkspaceWarningFullHistoryFallback).
Proof.
  intros Hv ws. unfold ValidateWorkspaceSourceWarnings in Hv.
  rewrite do_Ok, reject_Ok, ValidateWorkspaceWarnings_Ok in Hv. destruct Hv as ((_ & Hok & _ & Hn) & Hf & _).
  assert (ws ≡ₚ strategy_warnings source s) as Hp by apply slices_Sort_perm.
  assert (NoDup ws) as Hnd.
  { rewrite Hp. unfold strategy_warnings. case_decide; [|done]. apply NoDup_app.
    split_and!; [done| |apply NoDup_singleton]. set_solver. }
  split_and!; [by apply slices_Compact_NoDup| |apply slices_Sort_sorted|done| |].
  - rewrite Hp. unfold strategy_warnings. case_decide; [|done]. apply Forall_app. split; [done|].
    apply Forall_singleton. split; [vm_compute; discriminate|vm_compute; reflexivity].
  - rewrite Hp. unfold strategy_warnings. case_decide; [by rewrite length_app|simpl; lia].
  - intros w. rewrite Hp. unfold strategy_warnings. case_decide; set_solver.
Qed.

(** [WorkspaceWarningsForStrategy] computes exactly the sorted, duplicate-free
    union of the source's warnings and the transfer-only warning of the
    self-contained strategy, and for valid arguments it fails in one case only:
    the self-contained strategy on a source that already uses all 16 warnings. *)
Theorem WorkspaceWarningsForStrategy_exact source s :
  ValidateWorkspaceSourceWarnings source = Ok tt -> WorkspaceStrategy_Validate s = Ok tt ->
  (forall ws, WorkspaceWarningsForStrategy source s = Ok ws <->
     ValidateWorkspaceWarnings ws = Ok tt /\
     forall w, w ∈ ws <-> w ∈ source \/ (s = WorkspaceStrategyFull /\ w = WorkspaceWarningFullHistoryFallback)) /\
  (is_ok (WorkspaceWarningsForStrategy source s) = false <->
     s = WorkspaceStrategyFull /\ Z.of_nat (length source) = MaximumWorkspaceWarnings).
Proof.
  intros Hsource Hs. pose proof (strategy_warnings_facts source s Hsource) as (Hc & Hok & Hsort & Hn & Hlen & Hel).
  assert (Z.of_nat (length source) <= MaximumWorkspaceWarnings) as Hmax.
  { revert Hsource. unfold ValidateWorkspaceSourceWarnings. rewrite do_Ok, ValidateWorkspaceWarnings_Ok. tauto. }
  assert (WorkspaceWarningsForStrategy source s =
          do? ValidateWorkspaceWarnings (slices_Sort (strategy_warnings source s)) in
          Ok (slices_Sort (strategy_warnings source s))) as ->.
  { unfold WorkspaceWarningsForStrategy. rewrite Hsource, Hs. simpl. fold (strategy_warnings source s).
    by rewrite Hc. }
  set (all := slices_Sort (strategy_warnings source s)) in *. split.
  - intros ws. rewrite do_Ok, !ValidateWorkspaceWarnings_Ok. split.
    + intros [(?&?&?&?) [= <-]]. auto.
    + intros [(Hl & _ & Hs2 & Hn2) Hel2].
      assert (all = ws) as -> by (apply sorted_list_unique; [done..|]; intros w; by rewrite Hel, Hel2). auto.
  - destruct (decide (Z.of_nat (length all) <= MaximumWorkspaceWarnings)) as [Hl|Hl].
    + rewrite (proj2 (ValidateWorkspaceWarnings_Ok all) (conj Hl (conj Hok (conj Hsort Hn)))). simpl.
      split; [done|]. intros [-> Heq]. rewrite Hlen, decide_True in Hl by done. lia.
    + assert (ValidateWorkspaceWarnings all <> Ok tt) by (rewrite ValidateWorkspaceWarnings_Ok; tauto).
      destruct (ValidateWorkspaceWarnings all) as [[]|e]; [done|]. simpl. split; [|done]. intros _.
      rewrite Hlen in Hl. case_decide; [|lia]. split; [done|]. lia.
Qed.

Lemma WorkspaceWarningsForStrategy_exact_witness :
  WorkspaceWarningsForStrategy [WorkspaceWarningLFSPayloadNotTransferred] WorkspaceStrategyFull =
    Ok [WorkspaceWarningLFSPayloadNotTransferred; WorkspaceWarningFullHistoryFallback].
Proof.
  apply (WorkspaceWarningsForStrategy_exact [WorkspaceWarningLFSPayloadNotTransferred] WorkspaceStrategyFull);
    [vm_compute; reflexivity..|]. split; [vm_compute; reflexivity|]. set_solver.
Defined.

(** ** The manifest hash *)

Lemma lower_hex_valid n s : lower_hex_pattern n s = true -> ValidString s = true.
Proof.
  unfold lower_hex_pattern. intros [_ H]%andb_prop. apply ascii_ValidString.
  eapply forallb_impl; [|exact H]. intros b. unfold is_lower_hex, is_digit, in_range, is_ascii. lia.
Qed.

Lemma warning_ok_plain w : warning_ok w -> plain w = true.
Proof.
  intros [_ H]. revert H. unfold workspaceWarningPattern, pattern, plain.
  destruct (bytes w) as [|b l]; [done|]. intros [[Hb Hl]%andb_prop _]%andb_prop.
  simpl. apply andb_true_intro. split.
  - revert Hb. unfold is_lower, html_safe, in_range. lia.
  - eapply forallb_impl; [|exact Hl]. intros x.
    unfold is_name_byte, is_lower, is_digit, html_safe, in_range. lia.
Qed.

Lemma warnings_plain ws : ValidateWorkspaceWarnings ws = Ok tt -> Forall (fun w => plain w = true) ws.
Proof.
  rewrite ValidateWorkspaceWarnings_Ok. intros (_ & H & _). eapply Forall_impl; [exact H|].
  exact warning_ok_plain.
Qed.

Lemma source_warnings_valid ws :
  ValidateWorkspaceSourceWarnings ws = Ok tt -> ValidateWorkspaceWarnings ws = Ok tt.
Proof. unfold ValidateWorkspaceSourceWarnings. rewrite do_Ok. tauto. Qed.

Lemma validateWorkspaceText_valid name s limit : validateWorkspaceText name s limit = Ok tt -> ValidString s = true.
Proof.
  unfold validateWorkspaceText. rewrite reject_Ok. unfold bad_message_text. intros [H _].
  apply not_false_is_true. tauto.
Qed.

(** Every text of a valid manifest is valid UTF-8 and its warnings are plain. *)
Lemma manifest_text m :
  WorkspaceManifest_Validate m = Ok tt ->
  Forall (fun s => ValidString s = true)
    [m.(wm_GitURL); m.(wm_HeadOID); m.(wm_ObjectFormat); m.(wm_WorkingDirectory); m.(wm_SourceSnapshotHash)] /\
  Forall (fun w => plain w = true) m.(wm_Warnings).
Proof.
  unfold WorkspaceManifest_Validate. rewrite !do_Ok, reject_Ok, !do_Ok, reject_Ok.
  intros (Hurl & Hoid & Hfmt & Hwd & Hsnap & Hw). split.
  - repeat constructor; [by eapply validateWorkspaceText_valid| | | |].
    + apply not_false_is_true in Hoid. apply orb_prop in Hoid as [H|H]; by eapply lower_hex_valid.
    + revert Hfmt. unfold validate_object_format. intros Hfmt.
      destruct (decide (wm_ObjectFormat m = "sha1")) as [->|]; [reflexivity|].
      destruct (decide (wm_ObjectFormat m = "sha256")) as [->|]; [reflexivity|done].
    + by apply validate_working_directory_Ok in Hwd as (_ & _ & ?).
    + apply not_false_is_true in Hsnap. by eapply lower_hex_valid.
  - by apply warnings_plain, source_warnings_valid.
Qed.

Lemma json_elements_inj l1 l2 :
  Forall (fun w => plain w = true) l1 -> Forall (fun w => plain w = true) l2 ->
  json_elements l1 = json_elements l2 -> l1 = l2.
Proof.
  intros H1 H2 He. pose proof (json_strings_roundtrip l1 H1) as R1. unfold json_Marshal_strings in R1.
  rewrite He in R1. fold (json_Marshal_strings l2) in R1. rewrite (json_strings_roundtrip l2 H2) in R1.
  by injection R1.
Qed.

Lemma cons_tail {A} (x : A) l1 l2 : x :: l1 = x :: l2 -> l1 = l2.
Proof. by intros [= ?]. Qed.

(** A string member followed by further members determines its value and them. *)
Lemma string_member_inj name s1 s2 m1 m2 l1 l2 :
  ValidString s1 = true -> ValidString s2 = true ->
  json_members (json_member name (json_string_bytes s1) :: m1 :: l1) ++ [125] =
  json_members (json_member name (json_string_bytes s2) :: m2 :: l2) ++ [125] ->
  s1 = s2 /\ json_members (m1 :: l1) ++ [125] = json_members (m2 :: l2) ++ [125].
Proof.
  intros H1 H2.
  change (json_members (json_member name (json_string_bytes s1) :: m1 :: l1))
    with (json_member name (json_string_bytes s1) ++ 44 :: json_members (m1 :: l1)).
  change (json_members (json_member name (json_string_bytes s2) :: m2 :: l2))
    with (json_member name (json_string_bytes s2) ++ 44 :: json_members (m2 :: l2)).
  unfold json_member. rewrite <- !app_assoc, <- !app_comm_cons.
  intros He%app_inv_head%cons_tail%json_string_inj; [|done..].
  destruct He as [-> He%cons_tail]. done.
Qed.

(** The encoding determines the manifest. *)
Lemma json_Marshal_manifest_inj m1 m2 :
  WorkspaceManifest_Validate m1 = Ok tt -> WorkspaceManifest_Validate m2 = Ok tt ->
  json_Marshal_manifest m1 = json_Marshal_manifest m2 -> m1 = m2.
Proof.
  intros [Ht1 Hw1]%manifest_text [Ht2 Hw2]%manifest_text.
  destruct m1 as [u1 h1 f1 d1 c1 s1 w1], m2 as [u2 h2 f2 d2 c2 s2 w2]. cbn [wm_GitURL wm_HeadOID
    wm_ObjectFormat wm_WorkingDirectory wm_Clean wm_SourceSnapshotHash wm_Warnings] in *.
  repeat match goal with H : Forall _ (_ :: _) |- _ => apply Forall_cons in H as [? ?] end.
  unfold json_Marshal_manifest, json_object. cbn [wm_GitURL wm_HeadOID
    wm_ObjectFormat wm_WorkingDirectory wm_Clean wm_SourceSnapshotHash wm_Warnings].
  intros He%cons_tail.
  do 4 (apply string_member_inj in He as [-> He]; [|done..]).
  assert (c1 = c2 /\ json_members [json_member "sourceSnapshotHash" (json_string_bytes s1);
                                   json_member "warnings" (json_array_bytes w1)] ++ [125] =
                     json_members [json_member "sourceSnapshotHash" (json_string_bytes s2);
                                   json_member "warnings" (json_array_bytes w2)] ++ [125]) as [-> He'].
  { revert He. generalize [json_member "warnings" (json_array_bytes w1)] [json_member "warnings" (json_array_bytes w2)].
    generalize (json_member "sourceSnapshotHash" (json_string_bytes s1))
      (json_member "sourceSnapshotHash" (json_string_bytes s2)). intros x y l1 l2.
    change (json_members (json_member "clean" (json_bool c1) :: x :: l1))
      with (json_member "clean" (json_bool c1) ++ 44 :: json_members (x :: l1)).
    change (json_members (json_member "clean" (json_bool c2) :: y :: l2))
      with (json_member "clean" (json_bool c2) ++ 44 :: json_members (y :: l2)).
    unfold json_member. rewrite <- !app_assoc, <- !app_comm_cons. intros He%app_inv_head%cons_tail.
    assert (c1 = c2) as -> by (destruct c1, c2; done). by apply app_inv_head, cons_tail in He. }
  apply string_member_inj in He' as [-> He']; [|done..]. cbn [json_members] in He'.
  apply app_inv_tail in He'. unfold json_member, json_array_bytes in He'.
  apply app_inv_head, cons_tail, cons_tail, app_inv_tail in He'.
  by apply json_elements_inj in He' as ->.
Qed.

(** C37 The manifest hash binds the manifest: the JSON text it digests determines
    every field, so two accepted manifests with the same text are the same, and
    their hashes agree exactly when the SHA-256 digests of the texts do. *)
Theorem WorkspaceManifestHash_binds m1 m2 h1 h2 :
  WorkspaceManifestHash m1 = Ok h1 -> WorkspaceManifestHash m2 = Ok h2 ->
  (json_Marshal_manifest m1 = json_Marshal_manifest m2 <-> m1 = m2) /\
  (h1 = h2 <-> Sum256 (of_bytes (json_Marshal_manifest m1)) = Sum256 (of_bytes (json_Marshal_manifest m2))).
Proof.
  unfold WorkspaceManifestHash. rewrite !do_Ok. intros [Hv1 H1] [Hv2 H2].
  assert (h1 = hex_string (Sum256 (of_bytes (json_Marshal_manifest m1)))) as -> by congruence.
  assert (h2 = hex_string (Sum256 (of_bytes (json_Marshal_manifest m2)))) as -> by congruence. split.
  - split; [by apply json_Marshal_manifest_inj|by intros ->].
  - split; [apply hex_string_inj|by intros ->].
Qed.

Lemma WorkspaceManifestHash_binds_witness :
  json_Marshal_manifest (sample_manifest "a") <> json_Marshal_manifest (sample_manifest "b").
Proof.
  intros He. refine (_ (proj1 (proj1 (WorkspaceManifestHash_binds (sample_manifest "a") (sample_manifest "b")
    _ _ _ _)) He)); [discriminate|vm_compute; reflexivity..].
Defined.

(** ** Transfers *)

Lemma artifact_kind_cases k :
  WorkspaceArtifactKind_Validate k = Ok tt -> k = WorkspaceArtifactBundle \/ k = WorkspaceArtifactOverlay.
Proof. unfold WorkspaceArtifactKind_Validate. case_decide; [|done]. set_solver. Qed.

Lemma strategy_cases s :
  WorkspaceStrategy_Validate s = Ok tt ->
  s = WorkspaceStrategyDirect \/ s = WorkspaceStrategyThin \/ s = WorkspaceStrategyFull.
Proof. unfold WorkspaceStrategy_Validate. case_decide; [|done]. set_solver. Qed.

Lemma WorkspaceArtifactDescriptor_Validate_Ok d :
  WorkspaceArtifactDescriptor_Validate d = Ok tt ->
  (d.(wad_Kind) = WorkspaceArtifactBundle \/ d.(wad_Kind) = WorkspaceArtifactOverlay) /\
  1 <= d.(wad_Size) <= MaximumWorkspaceArtifactBytes.
Proof.
  unfold WorkspaceArtifactDescriptor_Validate. rewrite do_Ok, !reject_Ok.
  intros (Hk & Hs & _). split; [by apply artifact_kind_cases|lia].
Qed.

(** A transfer manifest that passes validation carries exactly the artifacts
    its strategy calls for, in order: an overlay alone for the direct strategy,
    and a bundle, optionally followed by an overlay, for the other two. The total
    is the true sum of the sizes, without wrap-around. *)
Theorem WorkspaceTransferManifest_shape m :
  WorkspaceTransferManifest_Validate m = Ok tt ->
  wad_Kind <$> m.(wtm_Artifacts) ∈
    (if decide (m.(wtm_Strategy) = WorkspaceStrategyDirect) then [[WorkspaceArtifactOverlay]]
     else [[WorkspaceArtifactBundle]; [WorkspaceArtifactBundle; WorkspaceArtifactOverlay]]) /\
  exists hasBundle, validate_artifacts "" 0 false m.(wtm_Artifacts) =
    Ok (foldr Z.add 0 (wad_Size <$> m.(wtm_Artifacts)), hasBundle) /\
  0 < foldr Z.add 0 (wad_Size <$> m.(wtm_Artifacts)) <= MaximumWorkspaceTransferBytes.
Proof.
  unfold WorkspaceTransferManifest_Validate. rewrite !do_Ok, !reject_Ok.
  intros (_ & Hs & _ & Hlen & Hrest). apply strategy_cases in Hs.
  apply result_bind_Ok in Hrest as ([total hasBundle] & Ha & Hrest). rewrite !reject_Ok in Hrest.
  destruct Hrest as (_ & Hb & _). apply dec_stable in Hb.
  destruct m.(wtm_Artifacts) as [|a1 [|a2 [|]]]; simpl in Hlen; [lia| | |lia];
    pose proof Ha as Ha0; cbn [validate_artifacts] in Ha.
  - apply do_Ok in Ha as [Ha1 Ha]. apply WorkspaceArtifactDescriptor_Validate_Ok in Ha1 as [Hk1 Hz1].
    apply reject_Ok in Ha as [_ Ha]. injection Ha as Ht Hbun.
    assert (int64_add 0 a1.(wad_Size) = a1.(wad_Size) + 0) as Hsum.
    { unfold int64_add, MaximumWorkspaceArtifactBytes in *. rewrite Z.mod_small; lia. }
    split; [|exists hasBundle; split; [rewrite Ha0, <- Ht, Hsum; reflexivity|simpl; unfold MaximumWorkspaceArtifactBytes, MaximumWorkspaceTransferBytes in *; lia]].
    destruct Hk1 as [Hk|Hk], Hs as [Hs|[Hs|Hs]]; rewrite <- Hbun, Hk, Hs in Hb; rewrite Hs; csimpl; rewrite Hk; vm_compute in Hb; try done;
      apply (bool_decide_unpack _); vm_compute; exact I.
  - apply do_Ok in Ha as [Ha1 Ha]. apply WorkspaceArtifactDescriptor_Validate_Ok in Ha1 as [Hk1 Hz1].
    apply reject_Ok in Ha as [_ Ha].
    apply do_Ok in Ha as [Ha2 Ha]. apply WorkspaceArtifactDescriptor_Validate_Ok in Ha2 as [Hk2 Hz2].
    apply reject_Ok in Ha as [Hord Ha]. injection Ha as Ht Hbun.
    assert (int64_add (int64_add 0 a1.(wad_Size)) a2.(wad_Size) = a1.(wad_Size) + (a2.(wad_Size) + 0)) as Hsum.
    { unfold int64_add, MaximumWorkspaceArtifactBytes in *.
      rewrite (Z.mod_small (0 + _ + _)), Z.mod_small by lia. lia. }
    split; [|exists hasBundle; split; [rewrite Ha0, <- Ht, Hsum; reflexivity|simpl; unfold MaximumWorkspaceArtifactBytes, MaximumWorkspaceTransferBytes in *; lia]].
    destruct Hk1 as [Hk|Hk], Hk2 as [Hk'|Hk'], Hs as [Hs|[Hs|Hs]]; rewrite <- Hbun, Hk, Hk', Hs in Hb;
      rewrite Hk, Hk' in Hord; rewrite Hs; csimpl; rewrite Hk, Hk'; vm_compute in Hb; try done;
      first [apply (bool_decide_unpack _); vm_compute; exact I | exfalso; apply Hord; split; [discriminate|reflexivity]].
Qed.

Definition sample_transfer : WorkspaceTransferManifest := {|
  wtm_TransferID := "00000000-0000-4000-8000-0000000000aa"; wtm_WorkspaceID := "00000000-0000-4000-8000-0000000000ab";
  wtm_Strategy := WorkspaceStrategyThin; wtm_ManifestHash := of_bytes (replicate 64 48);
  wtm_Artifacts := [{| wad_Kind := WorkspaceArtifactBundle; wad_Size := 4096; wad_SHA256 := of_bytes (replicate 64 49) |};
                    {| wad_Kind := WorkspaceArtifactOverlay; wad_Size := 100; wad_SHA256 := of_bytes (replicate 64 50) |}];
  wtm_Warnings := [] |}.

Lemma WorkspaceTransferManifest_shape_witness :
  WorkspaceTransferManifest_Validate sample_transfer = Ok tt /\
  wad_Kind <$> sample_transfer.(wtm_Artifacts) ∈
    [[WorkspaceArtifactBundle]; [WorkspaceArtifactBundle; WorkspaceArtifactOverlay]].
Proof.
  split; [vm_compute; reflexivity|].
  apply (WorkspaceTransferManifest_shape sample_transfer). vm_compute. reflexivity.
Defined.
