(* ===== verification/ResultProtocol.v ===== *)
(** internal/protocol/result_package.go, changes_artifact.go and result_apply.go: the
    result package of a finished turn (its manifest, the parts it lists, their text
    and digest, the messages by which it is relayed from the worker's device to the
    root's), the metadata of captured changes, and the authorization to apply them. *)

From S2P Require Export WorkspaceProtocol GoJson.

(** ** Parts *)

(* go: internal/protocol/result_package.go:15-33 ResultManifestVersion *)
Definition ResultManifestVersion : Z := 2.
Definition ResultManifestFileName : string := "result-manifest.json".
Definition ResultRolloutFileName : string := "rollout.jsonl.zst".
Definition ResultChangesBundleFileName : string := "changes.bundle".
Definition ResultChangesOverlayFileName : string := "changes-overlay.tar.zst".
Definition ResultPackageChunkBytes : Z := 128 * 1024.
Definition MaximumResultManifestBytes : Z := 64 * 1024.
Definition MaximumResultRolloutBytes : Z := 64 * 1024 * 1024.
Definition MaximumResultRolloutRawBytes : Z := 64 * 1024 * 1024.
Definition MaximumResultChangesBundleBytes : Z := 256 * 1024 * 1024.
Definition MaximumResultChangesOverlayBytes : Z := 256 * 1024 * 1024.
Definition MaximumResultPackageBytes : Z := 512 * 1024 * 1024.
Definition MaximumResultPackagePayloadParts : Z := 3.

(* go: internal/protocol/result_package.go:35-42 ResultPackagePartKind *)
Definition ResultPackagePartChangesBundle : string := "changesBundle".
Definition ResultPackagePartChangesOverlay : string := "changesOverlay".
Definition ResultPackagePartManifest : string := "manifest".
Definition ResultPackagePartRollout : string := "rollout".

(* go: internal/protocol/result_package.go ResultPackagePartKind.Validate *)
Definition ResultPackagePartKind_Validate (k : string) : result unit :=
  if decide (k ∈ [ResultPackagePartChangesBundle; ResultPackagePartChangesOverlay;
                  ResultPackagePartManifest; ResultPackagePartRollout])
  then Ok tt
  else Err (New "unsupported result package part kind %q").

(* go: internal/protocol/result_package.go ResultPackagePartKind.FileName *)
Definition ResultPackagePartKind_FileName (k : string) : result string :=
  if decide (k = ResultPackagePartChangesBundle) then Ok ResultChangesBundleFileName
  else if decide (k = ResultPackagePartChangesOverlay) then Ok ResultChangesOverlayFileName
  else if decide (k = ResultPackagePartManifest) then Ok ResultManifestFileName
  else if decide (k = ResultPackagePartRollout) then Ok ResultRolloutFileName
  else Err (New "unsupported result package part kind %q").

(* go: internal/protocol/result_package.go ResultPackagePartKind.MaximumBytes *)
Definition ResultPackagePartKind_MaximumBytes (k : string) : result Z :=
  if decide (k = ResultPackagePartChangesBundle) then Ok MaximumResultChangesBundleBytes
  else if decide (k = ResultPackagePartChangesOverlay) then Ok MaximumResultChangesOverlayBytes
  else if decide (k = ResultPackagePartManifest) then Ok MaximumResultManifestBytes
  else if decide (k = ResultPackagePartRollout) then Ok MaximumResultRolloutBytes
  else Err (New "unsupported result package part kind %q").

(* go: internal/protocol/result_package.go ResultPackagePartKind.validatePayloadKind *)
Definition validatePayloadKind (k : string) : result unit :=
  do? ResultPackagePartKind_Validate k in
  reject (New "result package payload must not use the manifest part") when (k = ResultPackagePartManifest) in
  Ok tt.

(* go: internal/protocol/result_package.go ResultPackagePartDescriptor *)
Record ResultPackagePartDescriptor := {
  rd_Kind : string;
  rd_Size : Z;
  rd_SHA256 : string;
}.

(* go: internal/protocol/result_package.go ResultPackagePartDescriptor.Validate *)
Definition ResultPackagePartDescriptor_Validate (d : ResultPackagePartDescriptor) : result unit :=
  let? maximum := ResultPackagePartKind_MaximumBytes d.(rd_Kind) in
  reject (New "result package %s size must be from 1 through %d bytes")
    when (d.(rd_Size) < 1 \/ d.(rd_Size) > maximum) in
  reject (New "result package part sha256 must be a lowercase SHA-256 digest")
    when (sha256DigestPattern d.(rd_SHA256) = false) in
  Ok tt.

(** ** Components of the manifest *)

(* go: internal/protocol/result_package.go:116-122 ResultTerminalOutcome *)
Definition ResultTerminalCompleted : string := "completed".
Definition ResultTerminalFailed : string := "failed".
Definition ResultTerminalInterrupted : string := "interrupted".

(* go: internal/protocol/result_package.go ResultTerminal *)
Record ResultTerminal := { rt_Outcome : string; rt_FailureCode : string }.

(* go: internal/protocol/result_package.go ResultTerminal.Validate *)
Definition ResultTerminal_Validate (t : ResultTerminal) : result unit :=
  if decide (t.(rt_Outcome) = ResultTerminalCompleted) then
    reject (New "completed result terminal must not contain failureCode") when (t.(rt_FailureCode) <> "") in
    Ok tt
  else if decide (t.(rt_Outcome) = ResultTerminalFailed \/ t.(rt_Outcome) = ResultTerminalInterrupted) then
    ValidateFailureCode t.(rt_FailureCode)
  else Err (New "unsupported result terminal outcome %q").

(* go: internal/protocol/result_package.go:143-148 ResultRolloutStatus *)
Definition ResultRolloutAvailable : string := "available".
Definition ResultRolloutCaptureFailed : string := "captureFailed".

(* go: internal/protocol/result_package.go ResultRolloutComponent *)
Record ResultRolloutComponent := {
  rr_Status : string;
  rr_RawSize : Z;
  rr_RawSHA256 : string;
  rr_FailureCode : string;
}.

(* go: internal/protocol/result_package.go ResultRolloutComponent.Validate *)
Definition ResultRolloutComponent_Validate (r : ResultRolloutComponent) : result unit :=
  if decide (r.(rr_Status) = ResultRolloutAvailable) then
    reject (New "rollout rawSize must be from 1 through %d bytes")
      when (r.(rr_RawSize) < 1 \/ r.(rr_RawSize) > MaximumResultRolloutRawBytes) in
    reject (New "rollout rawSha256 must be a lowercase SHA-256 digest")
      when (sha256DigestPattern r.(rr_RawSHA256) = false) in
    reject (New "available rollout must not contain failureCode") when (r.(rr_FailureCode) <> "") in
    Ok tt
  else if decide (r.(rr_Status) = ResultRolloutCaptureFailed) then
    reject (New "failed rollout capture must not claim raw bytes")
      when (r.(rr_RawSize) <> 0 \/ r.(rr_RawSHA256) <> "") in
    ValidateFailureCode r.(rr_FailureCode)
  else Err (New "unsupported rollout status %q").

(* go: internal/protocol/result_package.go:180-187 ResultWorkspaceStatus *)
Definition ResultWorkspaceNotManaged : string := "notManaged".
Definition ResultWorkspaceUnchanged : string := "unchanged".
Definition ResultWorkspaceChanged : string := "changed".
Definition ResultWorkspaceCaptureFailed : string := "captureFailed".

(** A slice field is [None] when it is nil. *)
(* go: internal/protocol/result_package.go ResultWorkspaceComponent *)
Record ResultWorkspaceComponent := {
  rw_Status : string;
  rw_WorkspaceID : string;
  rw_SourceDeviceID : string;
  rw_TargetDeviceID : string;
  rw_ObjectFormat : string;
  rw_BaseHeadOID : string;
  rw_BaseManifestHash : string;
  rw_BaseSnapshotHash : string;
  rw_BaseClean : bool;
  rw_ResultHeadOID : string;
  rw_ResultSnapshotHash : string;
  rw_ResultClean : bool;
  rw_BaseWarnings : option (list string);
  rw_ResultWarnings : option (list string);
  rw_FailureCode : string;
}.

(* go: internal/protocol/result_package.go validateResultGitBase *)
Definition validateResultGitBase (w : ResultWorkspaceComponent) : result unit :=
  reject (New "baseHeadOid must be a lowercase SHA-1 or SHA-256 object ID")
    when (gitObjectIDPattern w.(rw_BaseHeadOID) = false) in
  do? (if decide (w.(rw_ObjectFormat) = "sha1") then
         reject (New "SHA-1 workspace must use a 40-byte baseHeadOid") when (len w.(rw_BaseHeadOID) <> 40) in Ok tt
       else if decide (w.(rw_ObjectFormat) = "sha256") then
         reject (New "SHA-256 workspace must use a 64-byte baseHeadOid") when (len w.(rw_BaseHeadOID) <> 64) in Ok tt
       else Err (New "unsupported Git object format %q")) in
  reject (New "baseManifestHash must be a lowercase SHA-256 digest")
    when (sha256DigestPattern w.(rw_BaseManifestHash) = false) in
  reject (New "baseSnapshotHash must be a lowercase SHA-256 digest")
    when (sha256DigestPattern w.(rw_BaseSnapshotHash) = false) in
  Ok tt.

(* go: internal/protocol/result_package.go validateResultGitResult *)
Definition validateResultGitResult (w : ResultWorkspaceComponent) : result unit :=
  reject (New "resultHeadOid must use the base Git object format")
    when (gitObjectIDPattern w.(rw_ResultHeadOID) = false \/ len w.(rw_ResultHeadOID) <> len w.(rw_BaseHeadOID)) in
  reject (New "resultSnapshotHash must be a lowercase SHA-256 digest")
    when (sha256DigestPattern w.(rw_ResultSnapshotHash) = false) in
  Ok tt.

(** The result equals its base: HEAD, snapshot and cleanliness. *)
(* go: internal/protocol/result_package.go:249-250 ResultWorkspaceComponent.Validate *)
Definition result_equals_base (w : ResultWorkspaceComponent) : Prop :=
  w.(rw_ResultHeadOID) = w.(rw_BaseHeadOID) /\ w.(rw_ResultSnapshotHash) = w.(rw_BaseSnapshotHash) /\
  w.(rw_ResultClean) = w.(rw_BaseClean).
#[global] Instance result_equals_base_dec w : Decision (result_equals_base w).
Proof. unfold result_equals_base. apply _. Defined.

(* go: internal/protocol/result_package.go ResultWorkspaceComponent.Validate *)
Definition ResultWorkspaceComponent_Validate (w : ResultWorkspaceComponent) : result unit :=
  reject (New "workspace warning lists must be present")
    when (w.(rw_BaseWarnings) = None \/ w.(rw_ResultWarnings) = None) in
  let baseWarnings := default [] w.(rw_BaseWarnings) in
  let resultWarnings := default [] w.(rw_ResultWarnings) in
  if decide (w.(rw_Status) = ResultWorkspaceNotManaged) then
    reject (New "unmanaged workspace result must not contain workspace state")
      when (w.(rw_WorkspaceID) <> "" \/ w.(rw_SourceDeviceID) <> "" \/ w.(rw_TargetDeviceID) <> "" \/
            w.(rw_ObjectFormat) <> "" \/ w.(rw_BaseHeadOID) <> "" \/ w.(rw_BaseManifestHash) <> "" \/
            w.(rw_BaseSnapshotHash) <> "" \/ w.(rw_BaseClean) = true \/ w.(rw_ResultHeadOID) <> "" \/
            w.(rw_ResultSnapshotHash) <> "" \/ w.(rw_ResultClean) = true \/ baseWarnings <> [] \/
            resultWarnings <> [] \/ w.(rw_FailureCode) <> "") in
    Ok tt
  else
    do? wrap "workspaceId" (ValidateID w.(rw_WorkspaceID)) in
    do? wrap "workspace sourceDeviceId" (ValidateID w.(rw_SourceDeviceID)) in
    do? wrap "workspace targetDeviceId" (ValidateID w.(rw_TargetDeviceID)) in
    do? validateResultGitBase w in
    do? wrap "baseWarnings:" (ValidateWorkspaceWarnings baseWarnings) in
    do? wrap "resultWarnings:" (ValidateWorkspaceSourceWarnings resultWarnings) in
    if decide (w.(rw_Status) = ResultWorkspaceUnchanged) then
      reject (New "unchanged workspace result must not contain failureCode") when (w.(rw_FailureCode) <> "") in
      do? validateResultGitResult w in
      reject (New "unchanged workspace result must equal its base") when (~ result_equals_base w) in
      Ok tt
    else if decide (w.(rw_Status) = ResultWorkspaceChanged) then
      reject (New "changed workspace result must not contain failureCode") when (w.(rw_FailureCode) <> "") in
      do? validateResultGitResult w in
      reject (New "changed workspace result must differ from its base") when (result_equals_base w) in
      Ok tt
    else if decide (w.(rw_Status) = ResultWorkspaceCaptureFailed) then
      reject (New "failed workspace capture must not claim result state")
        when (w.(rw_ResultHeadOID) <> "" \/ w.(rw_ResultSnapshotHash) <> "" \/ w.(rw_ResultClean) = true \/
              resultWarnings <> []) in
      ValidateFailureCode w.(rw_FailureCode)
    else Err (New "unsupported workspace status %q").

(** ** The manifest *)

(* go: internal/protocol/result_package.go ResultManifest *)
Record ResultManifest := {
  rm_Version : Z;
  rm_PackageID : string;
  rm_ControllerID : string;
  rm_TreeID : string;
  rm_SourceAgentID : string;
  rm_SourceDeviceID : string;
  rm_ManagedThreadID : string;
  rm_TurnID : string;
  rm_LifecycleRevision : Z;
  rm_Terminal : ResultTerminal;
  rm_CapturedAt : Z;
  rm_Rollout : ResultRolloutComponent;
  rm_Workspace : ResultWorkspaceComponent;
  rm_Parts : option (list ResultPackagePartDescriptor);
}.

(** Which parts the loop of [validateParts] has seen, and their total size. *)
Record part_scan := {
  ps_previous : string;
  ps_total : Z;
  ps_rollout : bool;
  ps_bundle : bool;
  ps_overlay : bool;
}.

(* go: internal/protocol/result_package.go:382-403 ResultManifest.validateParts *)
Fixpoint scan_parts (s : part_scan) (parts : list ResultPackagePartDescriptor) : result part_scan :=
  match parts with
  | [] => Ok s
  | part :: parts =>
      do? wrap "parts[%d]:" (ResultPackagePartDescriptor_Validate part) in
      do? wrap "parts[%d]:" (validatePayloadKind part.(rd_Kind)) in
      reject (New "result package parts must be sorted and unique")
        when (s.(ps_previous) <> "" /\ String.leb part.(rd_Kind) s.(ps_previous) = true) in
      reject (New "result package payload exceeds %d-byte limit")
        when (part.(rd_Size) > MaximumResultPackageBytes - MaximumResultManifestBytes - s.(ps_total)) in
      scan_parts {| ps_previous := part.(rd_Kind); ps_total := s.(ps_total) + part.(rd_Size);
                    ps_rollout := s.(ps_rollout) || bool_decide (part.(rd_Kind) = ResultPackagePartRollout);
                    ps_bundle := s.(ps_bundle) || bool_decide (part.(rd_Kind) = ResultPackagePartChangesBundle);
                    ps_overlay := s.(ps_overlay) || bool_decide (part.(rd_Kind) = ResultPackagePartChangesOverlay) |} parts
  end.

Definition no_parts : part_scan :=
  {| ps_previous := ""; ps_total := 0; ps_rollout := false; ps_bundle := false; ps_overlay := false |}.

(* go: internal/protocol/result_package.go ResultManifest.validateParts *)
Definition validateParts (m : ResultManifest) : result unit :=
  match m.(rm_Parts) with
  | None => Err (New "result manifest parts must be present")
  | Some parts =>
      reject (New "result manifest must contain at most %d payload parts")
        when (Z.of_nat (length parts) > MaximumResultPackagePayloadParts) in
      let? s := scan_parts no_parts parts in
      reject (New "rollout part does not match rollout component status")
        when (s.(ps_rollout) <> bool_decide (m.(rm_Rollout).(rr_Status) = ResultRolloutAvailable)) in
      let w := m.(rm_Workspace) in
      if decide (w.(rw_Status) = ResultWorkspaceChanged) then
        reject (New "changes bundle does not match the result HEAD")
          when (s.(ps_bundle) <> bool_decide (w.(rw_ResultHeadOID) <> w.(rw_BaseHeadOID))) in
        reject (New "changes overlay does not match result cleanliness")
          when (s.(ps_overlay) <> negb w.(rw_ResultClean)) in
        reject (New "payload-free workspace changes must reset a dirty base")
          when (s.(ps_bundle) = false /\ s.(ps_overlay) = false /\ w.(rw_BaseClean) = true) in
        Ok tt
      else if decide (w.(rw_Status) ∈ [ResultWorkspaceNotManaged; ResultWorkspaceUnchanged;
                                       ResultWorkspaceCaptureFailed]) then
        reject (New "workspace status must not contain changes payloads")
          when (s.(ps_bundle) = true \/ s.(ps_overlay) = true) in
        Ok tt
      else Err (New "unsupported workspace status %q")
  end.

(* go: internal/protocol/result_package.go ResultManifest.Validate *)
Definition ResultManifest_Validate (m : ResultManifest) : result unit :=
  reject (New "unsupported result manifest version %d") when (m.(rm_Version) <> ResultManifestVersion) in
  do? wrap "packageId" (ValidateID m.(rm_PackageID)) in
  do? wrap "controllerId" (ValidateID m.(rm_ControllerID)) in
  do? wrap "treeId" (ValidateID m.(rm_TreeID)) in
  do? wrap "sourceAgentId" (ValidateID m.(rm_SourceAgentID)) in
  do? wrap "sourceDeviceId" (ValidateID m.(rm_SourceDeviceID)) in
  do? wrap "managedThreadId" (ValidateID m.(rm_ManagedThreadID)) in
  do? wrap "turnId" (ValidateID m.(rm_TurnID)) in
  reject (New "result lifecycleRevision is outside the supported range")
    when (m.(rm_LifecycleRevision) = 0 \/ m.(rm_LifecycleRevision) > MaxInt64) in
  reject (New "result capturedAt must not be negative") when (m.(rm_CapturedAt) < 0) in
  do? ResultTerminal_Validate m.(rm_Terminal) in
  do? ResultRolloutComponent_Validate m.(rm_Rollout) in
  do? ResultWorkspaceComponent_Validate m.(rm_Workspace) in
  reject (New "workspace targetDeviceId must match result sourceDeviceId")
    when (m.(rm_Workspace).(rw_Status) <> ResultWorkspaceNotManaged /\
          m.(rm_Workspace).(rw_TargetDeviceID) <> m.(rm_SourceDeviceID)) in
  validateParts m.

(** ** The text of a manifest *)

Definition json_strings (l : option (list string)) : json :=
  match l with None => JNull | Some l => JArray (JString <$> l) end.

Definition part_json (d : ResultPackagePartDescriptor) : json := JObject [
  ("kind", JString d.(rd_Kind)); ("size", JNumber (decimal d.(rd_Size))); ("sha256", JString d.(rd_SHA256))].
Definition terminal_json (t : ResultTerminal) : json := JObject [
  ("outcome", JString t.(rt_Outcome)); ("failureCode", JString t.(rt_FailureCode))].
Definition rollout_json (r : ResultRolloutComponent) : json := JObject [
  ("status", JString r.(rr_Status)); ("rawSize", JNumber (decimal r.(rr_RawSize)));
  ("rawSha256", JString r.(rr_RawSHA256)); ("failureCode", JString r.(rr_FailureCode))].
Definition workspace_json (w : ResultWorkspaceComponent) : json := JObject [
  ("status", JString w.(rw_Status)); ("workspaceId", JString w.(rw_WorkspaceID));
  ("sourceDeviceId", JString w.(rw_SourceDeviceID)); ("targetDeviceId", JString w.(rw_TargetDeviceID));
  ("objectFormat", JString w.(rw_ObjectFormat)); ("baseHeadOid", JString w.(rw_BaseHeadOID));
  ("baseManifestHash", JString w.(rw_BaseManifestHash)); ("baseSnapshotHash", JString w.(rw_BaseSnapshotHash));
  ("baseClean", JBool w.(rw_BaseClean)); ("resultHeadOid", JString w.(rw_ResultHeadOID));
  ("resultSnapshotHash", JString w.(rw_ResultSnapshotHash)); ("resultClean", JBool w.(rw_ResultClean));
  ("baseWarnings", json_strings w.(rw_BaseWarnings)); ("resultWarnings", json_strings w.(rw_ResultWarnings));
  ("failureCode", JString w.(rw_FailureCode))].

(** [json.Marshal] of a [ResultManifest]: its fields in the order of the struct. *)
(* go: internal/protocol/result_package.go:313-328 ResultManifest *)
Definition manifest_json (m : ResultManifest) : json := JObject [
  ("version", JNumber (decimal m.(rm_Version))); ("packageId", JString m.(rm_PackageID));
  ("controllerId", JString m.(rm_ControllerID)); ("treeId", JString m.(rm_TreeID));
  ("sourceAgentId", JString m.(rm_SourceAgentID)); ("sourceDeviceId", JString m.(rm_SourceDeviceID));
  ("managedThreadId", JString m.(rm_ManagedThreadID)); ("turnId", JString m.(rm_TurnID));
  ("lifecycleRevision", JNumber (decimal m.(rm_LifecycleRevision))); ("terminal", terminal_json m.(rm_Terminal));
  ("capturedAt", JNumber (decimal m.(rm_CapturedAt))); ("rollout", rollout_json m.(rm_Rollout));
  ("workspace", workspace_json m.(rm_Workspace));
  ("parts", match m.(rm_Parts) with None => JNull | Some parts => JArray (part_json <$> parts) end)].

(* go: internal/protocol/result_package.go EncodeResultManifest *)
Definition EncodeResultManifest (m : ResultManifest) : result (string * ResultPackagePartDescriptor) :=
  do? ResultManifest_Validate m in
  let data := of_bytes (json_text (manifest_json m) ++ [10]) in
  reject (New "result manifest exceeds %d-byte limit") when (len data > MaximumResultManifestBytes) in
  Ok (data, {| rd_Kind := ResultPackagePartManifest; rd_Size := len data; rd_SHA256 := hex_string (Sum256 data) |}).

(** ** Decoding *)

Definition part_fields : list string := ["kind"; "size"; "sha256"].
Definition terminal_fields : list string := ["outcome"; "failureCode"].
Definition rollout_fields : list string := ["status"; "rawSize"; "rawSha256"; "failureCode"].
Definition workspace_fields : list string :=
  ["status"; "workspaceId"; "sourceDeviceId"; "targetDeviceId"; "objectFormat"; "baseHeadOid";
   "baseManifestHash"; "baseSnapshotHash"; "baseClean"; "resultHeadOid"; "resultSnapshotHash";
   "resultClean"; "baseWarnings"; "resultWarnings"; "failureCode"].
Definition manifest_fields : list string :=
  ["version"; "packageId"; "controllerId"; "treeId"; "sourceAgentId"; "sourceDeviceId";
   "managedThreadId"; "turnId"; "lifecycleRevision"; "terminal"; "capturedAt"; "rollout";
   "workspace"; "parts"].

Definition zero_part : ResultPackagePartDescriptor := {| rd_Kind := ""; rd_Size := 0; rd_SHA256 := "" |}.

Definition unmarshal_part : decoder ResultPackagePartDescriptor := fun old v =>
  let? members := struct_members part_fields v in
  let field {A} := @unmarshal_field A part_fields members in
  let? kind := field "kind" unmarshal_string old.(rd_Kind) in
  let? size := field "size" unmarshal_int old.(rd_Size) in
  let? sha256 := field "sha256" unmarshal_string old.(rd_SHA256) in
  Ok {| rd_Kind := kind; rd_Size := size; rd_SHA256 := sha256 |}.

Definition unmarshal_terminal : decoder ResultTerminal := fun old v =>
  let? members := struct_members terminal_fields v in
  let field {A} := @unmarshal_field A terminal_fields members in
  let? outcome := field "outcome" unmarshal_string old.(rt_Outcome) in
  let? failureCode := field "failureCode" unmarshal_string old.(rt_FailureCode) in
  Ok {| rt_Outcome := outcome; rt_FailureCode := failureCode |}.

Definition unmarshal_rollout : decoder ResultRolloutComponent := fun old v =>
  let? members := struct_members rollout_fields v in
  let field {A} := @unmarshal_field A rollout_fields members in
  let? status := field "status" unmarshal_string old.(rr_Status) in
  let? rawSize := field "rawSize" unmarshal_int old.(rr_RawSize) in
  let? rawSha256 := field "rawSha256" unmarshal_string old.(rr_RawSHA256) in
  let? failureCode := field "failureCode" unmarshal_string old.(rr_FailureCode) in
  Ok {| rr_Status := status; rr_RawSize := rawSize; rr_RawSHA256 := rawSha256; rr_FailureCode := failureCode |}.

(** A workspace while it is decoded, with what the backing arrays of its two slices
    hold past their length. *)
Record workspace_draft := {
  wd_workspace : ResultWorkspaceComponent;
  wd_base_spare : list string;
  wd_result_spare : list string;
}.

Definition unmarshal_strings : decoder (slice string) := unmarshal_slice "" unmarshal_string.

Definition unmarshal_workspace : decoder workspace_draft := fun draft v =>
  let old := draft.(wd_workspace) in
  let? members := struct_members workspace_fields v in
  let field {A} := @unmarshal_field A workspace_fields members in
  let? status := field "status" unmarshal_string old.(rw_Status) in
  let? workspaceId := field "workspaceId" unmarshal_string old.(rw_WorkspaceID) in
  let? sourceDeviceId := field "sourceDeviceId" unmarshal_string old.(rw_SourceDeviceID) in
  let? targetDeviceId := field "targetDeviceId" unmarshal_string old.(rw_TargetDeviceID) in
  let? objectFormat := field "objectFormat" unmarshal_string old.(rw_ObjectFormat) in
  let? baseHeadOid := field "baseHeadOid" unmarshal_string old.(rw_BaseHeadOID) in
  let? baseManifestHash := field "baseManifestHash" unmarshal_string old.(rw_BaseManifestHash) in
  let? baseSnapshotHash := field "baseSnapshotHash" unmarshal_string old.(rw_BaseSnapshotHash) in
  let? baseClean := field "baseClean" unmarshal_bool old.(rw_BaseClean) in
  let? resultHeadOid := field "resultHeadOid" unmarshal_string old.(rw_ResultHeadOID) in
  let? resultSnapshotHash := field "resultSnapshotHash" unmarshal_string old.(rw_ResultSnapshotHash) in
  let? resultClean := field "resultClean" unmarshal_bool old.(rw_ResultClean) in
  let? baseWarnings := field "baseWarnings" unmarshal_strings (Slice old.(rw_BaseWarnings) draft.(wd_base_spare)) in
  let? resultWarnings := field "resultWarnings" unmarshal_strings (Slice old.(rw_ResultWarnings) draft.(wd_result_spare)) in
  let? failureCode := field "failureCode" unmarshal_string old.(rw_FailureCode) in
  Ok {| wd_workspace := {|
          rw_Status := status; rw_WorkspaceID := workspaceId; rw_SourceDeviceID := sourceDeviceId;
          rw_TargetDeviceID := targetDeviceId; rw_ObjectFormat := objectFormat; rw_BaseHeadOID := baseHeadOid;
          rw_BaseManifestHash := baseManifestHash; rw_BaseSnapshotHash := baseSnapshotHash; rw_BaseClean := baseClean;
          rw_ResultHeadOID := resultHeadOid; rw_ResultSnapshotHash := resultSnapshotHash; rw_ResultClean := resultClean;
          rw_BaseWarnings := baseWarnings.(sl_elements); rw_ResultWarnings := resultWarnings.(sl_elements);
          rw_FailureCode := failureCode |};
        wd_base_spare := baseWarnings.(sl_spare); wd_result_spare := resultWarnings.(sl_spare) |}.

Definition zero_workspace : workspace_draft := {|
  wd_workspace := {| rw_Status := ""; rw_WorkspaceID := ""; rw_SourceDeviceID := ""; rw_TargetDeviceID := "";
    rw_ObjectFormat := ""; rw_BaseHeadOID := ""; rw_BaseManifestHash := ""; rw_BaseSnapshotHash := "";
    rw_BaseClean := false; rw_ResultHeadOID := ""; rw_ResultSnapshotHash := ""; rw_ResultClean := false;
    rw_BaseWarnings := None; rw_ResultWarnings := None; rw_FailureCode := "" |};
  wd_base_spare := []; wd_result_spare := [] |}.

(** [decoder.Decode(&manifest)] into the zero manifest. *)
Definition unmarshal_manifest (v : json) : result ResultManifest :=
  let? members := struct_members manifest_fields v in
  let field {A} := @unmarshal_field A manifest_fields members in
  let? version := field "version" unmarshal_int 0 in
  let? packageId := field "packageId" unmarshal_string "" in
  let? controllerId := field "controllerId" unmarshal_string "" in
  let? treeId := field "treeId" unmarshal_string "" in
  let? sourceAgentId := field "sourceAgentId" unmarshal_string "" in
  let? sourceDeviceId := field "sourceDeviceId" unmarshal_string "" in
  let? managedThreadId := field "managedThreadId" unmarshal_string "" in
  let? turnId := field "turnId" unmarshal_string "" in
  let? lifecycleRevision := field "lifecycleRevision" unmarshal_uint64 0 in
  let? terminal := field "terminal" unmarshal_terminal {| rt_Outcome := ""; rt_FailureCode := "" |} in
  let? capturedAt := field "capturedAt" unmarshal_int 0 in
  let? rollout := field "rollout" unmarshal_rollout
    {| rr_Status := ""; rr_RawSize := 0; rr_RawSHA256 := ""; rr_FailureCode := "" |} in
  let? workspace := field "workspace" unmarshal_workspace zero_workspace in
  let? parts := field "parts" (unmarshal_slice zero_part unmarshal_part) (Slice None []) in
  Ok {| rm_Version := version; rm_PackageID := packageId; rm_ControllerID := controllerId; rm_TreeID := treeId;
        rm_SourceAgentID := sourceAgentId; rm_SourceDeviceID := sourceDeviceId; rm_ManagedThreadID := managedThreadId;
        rm_TurnID := turnId; rm_LifecycleRevision := lifecycleRevision; rm_Terminal := terminal;
        rm_CapturedAt := capturedAt; rm_Rollout := rollout; rm_Workspace := workspace.(wd_workspace);
        rm_Parts := parts.(sl_elements) |}.

(** The map a JSON object decodes to: a later duplicate of a key replaces the earlier. *)
Definition members_map (members : list (string * json)) : gmap string json :=
  foldl (fun object member => <[member.1 := member.2]> object) ∅ members.

(** Present and not [null]. *)
Definition is_present (v : option json) : bool := match v with None | Some JNull => false | Some _ => true end.

(* go: internal/protocol/result_package.go requiredJSONObject *)
Definition requiredJSONObject (v : json) (fields : list string) : result (gmap string json) :=
  let? object := match v with
                 | JNull => Ok ∅
                 | JObject members => Ok (members_map members)
                 | _ => Err (Wrap "decode %s fields:" type_error)
                 end in
  reject (New "%s must contain every required field") when (size object <> length fields) in
  reject (New "%s field %s must be present and non-null")
    when (forallb (fun field => is_present (object !! field)) fields = false) in
  Ok object.

(* go: internal/protocol/result_package.go validateResultManifestFields *)
Definition validateResultManifestFields (v : json) : result unit :=
  let? top := requiredJSONObject v manifest_fields in
  let member name := default JNull (top !! name) in
  do? requiredJSONObject (member "terminal") terminal_fields in
  do? requiredJSONObject (member "rollout") rollout_fields in
  do? requiredJSONObject (member "workspace") workspace_fields in
  match member "parts" with
  | JArray parts => do? result_mapM (fun part => requiredJSONObject part part_fields) parts in Ok tt
  | _ => Err (Wrap "decode result manifest parts:" type_error)
  end.

(* go: internal/protocol/result_package.go DecodeResultManifest *)
Definition DecodeResultManifest (data : string) : result ResultManifest :=
  reject (New "result manifest must contain from 1 through %d bytes")
    when (len data < 1 \/ len data > MaximumResultManifestBytes) in
  match json_parse data with
  | None => Err (New "decode result manifest")
  | Some v =>
      let? manifest := wrap "decode result manifest:" (unmarshal_manifest v) in
      do? validateResultManifestFields v in
      do? ResultManifest_Validate manifest in
      Ok manifest
  end.

(** ** Metadata *)

(* go: internal/protocol/result_package.go ResultPackageMetadata *)
Record ResultPackageMetadata := {
  rpm_Manifest : string;
  rpm_ManifestDescriptor : ResultPackagePartDescriptor;
}.

(** The loop over [manifest.Parts] that sums their sizes. *)
(* go: internal/protocol/result_package.go:561-569 ResultPackageMetadata.DecodeManifest *)
Fixpoint add_parts (total : Z) (parts : list ResultPackagePartDescriptor) : result unit :=
  match parts with
  | [] => Ok tt
  | part :: parts =>
      reject (New "result package exceeds %d-byte aggregate limit")
        when (part.(rd_Size) > MaximumResultPackageBytes - total) in
      add_parts (total + part.(rd_Size)) parts
  end.

(* go: internal/protocol/result_package.go ResultPackageMetadata.DecodeManifest *)
Definition DecodeManifest (m : ResultPackageMetadata) : result ResultManifest :=
  let d := m.(rpm_ManifestDescriptor) in
  do? ResultPackagePartDescriptor_Validate d in
  reject (New "result package metadata descriptor must describe the manifest")
    when (d.(rd_Kind) <> ResultPackagePartManifest) in
  reject (New "result manifest bytes do not match their descriptor size") when (len m.(rpm_Manifest) <> d.(rd_Size)) in
  reject (New "result manifest bytes do not match their descriptor digest")
    when (hex_string (Sum256 m.(rpm_Manifest)) <> d.(rd_SHA256)) in
  let? manifest := DecodeResultManifest m.(rpm_Manifest) in
  do? add_parts d.(rd_Size) (default [] manifest.(rm_Parts)) in
  Ok manifest.

(* go: internal/protocol/result_package.go SameResultPackageMetadata *)
Definition SameResultPackageMetadata (left right : ResultPackageMetadata) : Prop :=
  left.(rpm_ManifestDescriptor) = right.(rpm_ManifestDescriptor) /\ left.(rpm_Manifest) = right.(rpm_Manifest).

(** ** Relay messages *)

(* go: internal/protocol/result_package.go PublishResultPackageParams *)
Record PublishResultPackageParams := { prp_Metadata : ResultPackageMetadata }.

(* go: internal/protocol/result_package.go PublishResultPackageParams.Validate *)
Definition PublishResultPackageParams_Validate (p : PublishResultPackageParams) : result unit :=
  do? DecodeManifest p.(prp_Metadata) in Ok tt.

(* go: internal/protocol/result_package.go PublishResultPackageResult *)
Record PublishResultPackageResult := { prr_PackageID : string }.

(* go: internal/protocol/result_package.go PublishResultPackageResult.Validate *)
Definition PublishResultPackageResult_Validate (r : PublishResultPackageResult) : result unit :=
  wrap "packageId" (ValidateID r.(prr_PackageID)).

(* go: internal/protocol/result_package.go validateResultPackageControl *)
Definition validateResultPackageControl (attemptID packageID : string) : result unit :=
  do? wrap "attemptId" (ValidateID attemptID) in
  do? wrap "packageId" (ValidateID packageID) in
  Ok tt.

(* go: internal/protocol/result_package.go BeginResultPackageParams *)
Record BeginResultPackageParams := {
  brp_AttemptID : string;
  brp_PackageID : string;
  brp_RetentionFloor : Z;
  brp_LeaseExpiresAt : Z;
  brp_Metadata : ResultPackageMetadata;
}.

(* go: internal/protocol/result_package.go BeginResultPackageParams.Validate *)
Definition BeginResultPackageParams_Validate (p : BeginResultPackageParams) : result unit :=
  do? validateResultPackageControl p.(brp_AttemptID) p.(brp_PackageID) in
  reject (New "result package leaseExpiresAt must be positive") when (p.(brp_LeaseExpiresAt) < 1) in
  reject (New "result package retentionFloor is out of range") when (p.(brp_RetentionFloor) > MaxInt64) in
  let? manifest := DecodeManifest p.(brp_Metadata) in
  reject (New "begin packageId does not match the result manifest") when (manifest.(rm_PackageID) <> p.(brp_PackageID)) in
  Ok tt.

(* go: internal/protocol/result_package.go:639-644 ResultPackageBeginOutcome *)
Definition ResultPackageReceiving : string := "receiving".
Definition ResultPackageAlreadyAvailable : string := "alreadyAvailable".

(* go: internal/protocol/result_package.go ResultPackagePartOffset *)
Record ResultPackagePartOffset := { po_Kind : string; po_NextOffset : Z }.

(** The maximum of a kind that [validatePayloadKind] accepted; the code ignores the
    error of [MaximumBytes] there, which leaves 0. *)
Definition payload_maximum (kind : string) : Z :=
  match ResultPackagePartKind_MaximumBytes kind with Ok maximum => maximum | Err _ => 0 end.

(* go: internal/protocol/result_package.go ResultPackagePartOffset.Validate *)
Definition ResultPackagePartOffset_Validate (o : ResultPackagePartOffset) : result unit :=
  do? validatePayloadKind o.(po_Kind) in
  reject (New "result package %s nextOffset is out of range")
    when (o.(po_NextOffset) < 0 \/ o.(po_NextOffset) > payload_maximum o.(po_Kind)) in
  Ok tt.

(* go: internal/protocol/result_package.go BeginResultPackageResult *)
Record BeginResultPackageResult := {
  brr_AttemptID : string;
  brr_PackageID : string;
  brr_RetentionOrdinal : Z;
  brr_Outcome : string;
  brr_Offsets : option (list ResultPackagePartOffset);
}.

(* go: internal/protocol/result_package.go:698-707 BeginResultPackageResult.Validate *)
Fixpoint validate_offsets (previous : string) (offsets : list ResultPackagePartOffset) : result unit :=
  match offsets with
  | [] => Ok tt
  | offset :: offsets =>
      do? wrap "offsets[%d]:" (ResultPackagePartOffset_Validate offset) in
      reject (New "result package offsets must be sorted and unique")
        when (previous <> "" /\ String.leb offset.(po_Kind) previous = true) in
      validate_offsets offset.(po_Kind) offsets
  end.

(* go: internal/protocol/result_package.go BeginResultPackageResult.Validate *)
Definition BeginResultPackageResult_Validate (r : BeginResultPackageResult) : result unit :=
  do? validateResultPackageControl r.(brr_AttemptID) r.(brr_PackageID) in
  match r.(brr_Offsets) with
  | None => Err (New "result package offsets must be present")
  | Some offsets =>
      reject (New "result package retentionOrdinal is out of range")
        when (r.(brr_RetentionOrdinal) = 0 \/ r.(brr_RetentionOrdinal) > MaxInt64) in
      do? (if decide (r.(brr_Outcome) = ResultPackageReceiving) then Ok tt
           else if decide (r.(brr_Outcome) = ResultPackageAlreadyAvailable) then
             reject (New "already available result package must not contain offsets")
               when (Z.of_nat (length offsets) <> 0) in Ok tt
           else Err (New "unsupported result package begin outcome %q")) in
      reject (New "result package must contain at most %d offsets")
        when (Z.of_nat (length offsets) > MaximumResultPackagePayloadParts) in
      validate_offsets "" offsets
  end.

(* go: internal/protocol/result_package.go ReadResultPackagePartParams *)
Record ReadResultPackagePartParams := {
  rrp_PackageID : string;
  rrp_Kind : string;
  rrp_Offset : Z;
  rrp_Limit : Z;
}.

(* go: internal/protocol/result_package.go ReadResultPackagePartParams.Validate *)
Definition ReadResultPackagePartParams_Validate (p : ReadResultPackagePartParams) : result unit :=
  do? wrap "packageId" (ValidateID p.(rrp_PackageID)) in
  do? validatePayloadKind p.(rrp_Kind) in
  let maximum := payload_maximum p.(rrp_Kind) in
  reject (New "result package part read has invalid bounds")
    when (p.(rrp_Offset) < 0 \/ p.(rrp_Offset) >= maximum \/ p.(rrp_Limit) < 1 \/
          p.(rrp_Limit) > ResultPackageChunkBytes \/ p.(rrp_Limit) > maximum - p.(rrp_Offset)) in
  Ok tt.

(* go: internal/protocol/result_package.go ReadResultPackagePartResult *)
Record ReadResultPackagePartResult := {
  rrr_PackageID : string;
  rrr_Kind : string;
  rrr_Offset : Z;
  rrr_Data : string;
  rrr_NextOffset : Z;
}.

(** A chunk that starts inside the part, is neither empty nor too long, and does not
    reach past the part's limit. *)
(* go: internal/protocol/result_package.go:752-756 ReadResultPackagePartResult.Validate *)
Definition invalid_part_chunk (kind : string) (offset dataLength : Z) : Prop :=
  let maximum := payload_maximum kind in
  offset < 0 \/ offset >= maximum \/ dataLength < 1 \/ dataLength > ResultPackageChunkBytes \/
  dataLength > maximum - offset.
#[global] Instance invalid_part_chunk_dec kind offset n : Decision (invalid_part_chunk kind offset n).
Proof. unfold invalid_part_chunk. apply _. Defined.

(* go: internal/protocol/result_package.go ReadResultPackagePartResult.Validate *)
Definition ReadResultPackagePartResult_Validate (r : ReadResultPackagePartResult) : result unit :=
  do? wrap "packageId" (ValidateID r.(rrr_PackageID)) in
  do? validatePayloadKind r.(rrr_Kind) in
  reject (New "result package part read result has invalid bounds")
    when (invalid_part_chunk r.(rrr_Kind) r.(rrr_Offset) (len r.(rrr_Data)) \/
          r.(rrr_NextOffset) <> r.(rrr_Offset) + len r.(rrr_Data)) in
  Ok tt.

(* go: internal/protocol/result_package.go WriteResultPackagePartParams *)
Record WriteResultPackagePartParams := {
  wrp_AttemptID : string;
  wrp_PackageID : string;
  wrp_Kind : string;
  wrp_Offset : Z;
  wrp_Data : string;
}.

(* go: internal/protocol/result_package.go WriteResultPackagePartParams.Validate *)
Definition WriteResultPackagePartParams_Validate (p : WriteResultPackagePartParams) : result unit :=
  do? validateResultPackageControl p.(wrp_AttemptID) p.(wrp_PackageID) in
  do? validatePayloadKind p.(wrp_Kind) in
  reject (New "result package part write has invalid bounds")
    when (invalid_part_chunk p.(wrp_Kind) p.(wrp_Offset) (len p.(wrp_Data))) in
  Ok tt.

(* go: internal/protocol/result_package.go WriteResultPackagePartResult *)
Record WriteResultPackagePartResult := {
  wrr_AttemptID : string;
  wrr_PackageID : string;
  wrr_Kind : string;
  wrr_NextOffset : Z;
}.

(* go: internal/protocol/result_package.go WriteResultPackagePartResult.Validate *)
Definition WriteResultPackagePartResult_Validate (r : WriteResultPackagePartResult) : result unit :=
  do? validateResultPackageControl r.(wrr_AttemptID) r.(wrr_PackageID) in
  do? validatePayloadKind r.(wrr_Kind) in
  reject (New "result package part nextOffset is out of range")
    when (r.(wrr_NextOffset) < 1 \/ r.(wrr_NextOffset) > payload_maximum r.(wrr_Kind)) in
  Ok tt.

(* go: internal/protocol/result_package.go AcknowledgeResultPackageParams *)
Record AcknowledgeResultPackageParams := { arp_PackageID : string; arp_Sequence : Z }.

(** Also the validator of [ReleaseResultPackageParams] and of both results. *)
(* go: internal/protocol/result_package.go AcknowledgeResultPackageParams.Validate *)
Definition AcknowledgeResultPackageParams_Validate (p : AcknowledgeResultPackageParams) : result unit :=
  do? wrap "packageId" (ValidateID p.(arp_PackageID)) in
  reject (New "result package sequence is outside the supported range")
    when (p.(arp_Sequence) = 0 \/ p.(arp_Sequence) > MaxInt64) in
  Ok tt.

(** ** Captured changes *)

(* go: internal/protocol/changes_artifact.go:12-18 ChangesArtifactStatus *)
Definition ChangesArtifactAvailable : string := "available".
Definition ChangesArtifactUnchanged : string := "unchanged".
Definition ChangesArtifactCaptureFailed : string := "captureFailed".

(* go: internal/protocol/changes_artifact.go PublishChangesArtifactParams *)
Record PublishChangesArtifactParams := {
  pca_ArtifactID : string;
  pca_TurnID : string;
  pca_WorkspaceID : string;
  pca_WorkspaceSourceDeviceID : string;
  pca_WorkspaceTargetDeviceID : string;
  pca_Status : string;
  pca_BaseHeadOID : string;
  pca_BaseManifestHash : string;
  pca_BaseSnapshotHash : string;
  pca_ResultHeadOID : string;
  pca_ResultSnapshotHash : string;
  pca_ResultClean : bool;
  pca_Parts : list WorkspaceArtifactDescriptor;
  pca_BaseWarnings : list string;
  pca_ResultWarnings : list string;
  pca_FailureCode : string;
}.

(* go: internal/protocol/changes_artifact.go PublishChangesArtifactParams.validateResult *)
Definition changes_validateResult (p : PublishChangesArtifactParams) : result unit :=
  reject (New "resultHeadOid must use the base Git object format")
    when (gitObjectIDPattern p.(pca_ResultHeadOID) = false \/ len p.(pca_ResultHeadOID) <> len p.(pca_BaseHeadOID)) in
  reject (New "resultSnapshotHash must be a lowercase SHA-256 digest")
    when (sha256DigestPattern p.(pca_ResultSnapshotHash) = false) in
  Ok tt.

(** The loop of [validateAvailableParts]: the total size, and whether a bundle and an
    overlay were seen. *)
(* go: internal/protocol/changes_artifact.go:124-135 PublishChangesArtifactParams.validateAvailableParts *)
Fixpoint scan_changes_parts (previous : string) (total : Z) (hasBundle hasOverlay : bool)
    (parts : list WorkspaceArtifactDescriptor) : result (Z * bool * bool) :=
  match parts with
  | [] => Ok (total, hasBundle, hasOverlay)
  | part :: parts =>
      do? WorkspaceArtifactDescriptor_Validate part in
      reject (New "changes artifact parts must be sorted and unique")
        when (previous <> "" /\ String.leb part.(wad_Kind) previous = true) in
      scan_changes_parts part.(wad_Kind) (int64_add total part.(wad_Size))
        (hasBundle || bool_decide (part.(wad_Kind) = WorkspaceArtifactBundle))
        (hasOverlay || bool_decide (part.(wad_Kind) = WorkspaceArtifactOverlay)) parts
  end.

(* go: internal/protocol/changes_artifact.go PublishChangesArtifactParams.validateAvailableParts *)
Definition validateAvailableParts (p : PublishChangesArtifactParams) : result unit :=
  reject (New "available changes artifact must contain at most two parts")
    when (Z.of_nat (length p.(pca_Parts)) > 2) in
  let? (total, hasBundle, hasOverlay) := scan_changes_parts "" 0 false false p.(pca_Parts) in
  reject (New "changes artifact exceeds %d-byte limit") when (total > MaximumWorkspaceTransferBytes) in
  reject (New "changes bundle does not match the result HEAD")
    when (hasBundle <> bool_decide (p.(pca_ResultHeadOID) <> p.(pca_BaseHeadOID))) in
  reject (New "changes overlay does not match result cleanliness") when (hasOverlay <> negb p.(pca_ResultClean)) in
  reject (New "payload-free changes must retain the base HEAD and produce a clean result")
    when (length p.(pca_Parts) = O /\ (p.(pca_ResultHeadOID) <> p.(pca_BaseHeadOID) \/ p.(pca_ResultClean) = false)) in
  Ok tt.

(* go: internal/protocol/changes_artifact.go PublishChangesArtifactParams.Validate *)
Definition PublishChangesArtifactParams_Validate (p : PublishChangesArtifactParams) : result unit :=
  do? wrap "artifactId" (ValidateID p.(pca_ArtifactID)) in
  do? wrap "turnId" (ValidateID p.(pca_TurnID)) in
  do? wrap "workspaceId" (ValidateID p.(pca_WorkspaceID)) in
  do? wrap "workspaceSourceDeviceId" (ValidateID p.(pca_WorkspaceSourceDeviceID)) in
  do? wrap "workspaceTargetDeviceId" (ValidateID p.(pca_WorkspaceTargetDeviceID)) in
  reject (New "baseHeadOid must be a lowercase SHA-1 or SHA-256 object ID")
    when (gitObjectIDPattern p.(pca_BaseHeadOID) = false) in
  reject (New "baseManifestHash must be a lowercase SHA-256 digest")
    when (sha256DigestPattern p.(pca_BaseManifestHash) = false) in
  reject (New "baseSnapshotHash must be a lowercase SHA-256 digest")
    when (sha256DigestPattern p.(pca_BaseSnapshotHash) = false) in
  do? wrap "baseWarnings:" (ValidateWorkspaceWarnings p.(pca_BaseWarnings)) in
  do? wrap "resultWarnings:" (ValidateWorkspaceSourceWarnings p.(pca_ResultWarnings)) in
  reject (New "failed changes artifact must not contain resultWarnings")
    when (p.(pca_Status) = ChangesArtifactCaptureFailed /\ p.(pca_ResultWarnings) <> []) in
  if decide (p.(pca_Status) = ChangesArtifactAvailable) then
    reject (New "available changes artifact must not contain failureCode") when (p.(pca_FailureCode) <> "") in
    do? changes_validateResult p in
    reject (New "available changes artifact must differ from its base")
      when (p.(pca_ResultHeadOID) = p.(pca_BaseHeadOID) /\ p.(pca_ResultSnapshotHash) = p.(pca_BaseSnapshotHash)) in
    validateAvailableParts p
  else if decide (p.(pca_Status) = ChangesArtifactUnchanged) then
    reject (New "unchanged changes artifact must not contain parts or failureCode")
      when (p.(pca_FailureCode) <> "" \/ length p.(pca_Parts) <> O) in
    do? changes_validateResult p in
    reject (New "unchanged changes artifact result must equal its base")
      when (p.(pca_ResultHeadOID) <> p.(pca_BaseHeadOID) \/ p.(pca_ResultSnapshotHash) <> p.(pca_BaseSnapshotHash)) in
    Ok tt
  else if decide (p.(pca_Status) = ChangesArtifactCaptureFailed) then
    do? ValidateFailureCode p.(pca_FailureCode) in
    reject (New "failed changes artifact must not claim a result or parts")
      when (p.(pca_ResultHeadOID) <> "" \/ p.(pca_ResultSnapshotHash) <> "" \/ p.(pca_ResultClean) = true \/
            length p.(pca_Parts) <> O) in
    Ok tt
  else Err (New "unsupported changes artifact status %q").

(* go: internal/protocol/changes_artifact.go PublishChangesArtifactResult *)
Record PublishChangesArtifactResult := { pcr_ArtifactID : string; pcr_Sequence : Z }.

(* go: internal/protocol/changes_artifact.go PublishChangesArtifactResult.Validate *)
Definition PublishChangesArtifactResult_Validate (r : PublishChangesArtifactResult) : result unit :=
  do? wrap "artifactId" (ValidateID r.(pcr_ArtifactID)) in
  reject (New "changes artifact sequence is outside the supported range")
    when (r.(pcr_Sequence) = 0 \/ r.(pcr_Sequence) > MaxInt64) in
  Ok tt.

(** The metadata of published changes: the request, and what the broker adds. *)
(* go: internal/protocol/changes_artifact.go ChangesArtifactMetadata *)
Record ChangesArtifactMetadata := {
  cam_TreeID : string;
  cam_SourceAgentID : string;
  cam_SourceDeviceID : string;
  cam_ObjectFormat : string;
  cam_BaseClean : bool;
  cam_Params : PublishChangesArtifactParams;
  cam_Sequence : Z;
  cam_ObservedAt : Z;
}.

(* go: internal/protocol/changes_artifact.go ChangesArtifactMetadata.Validate *)
Definition ChangesArtifactMetadata_Validate (m : ChangesArtifactMetadata) : result unit :=
  let p := m.(cam_Params) in
  do? wrap "treeId" (ValidateID m.(cam_TreeID)) in
  do? wrap "sourceAgentId" (ValidateID m.(cam_SourceAgentID)) in
  do? wrap "sourceDeviceId" (ValidateID m.(cam_SourceDeviceID)) in
  do? wrap "workspaceSourceDeviceId" (ValidateID p.(pca_WorkspaceSourceDeviceID)) in
  do? wrap "workspaceTargetDeviceId" (ValidateID p.(pca_WorkspaceTargetDeviceID)) in
  do? PublishChangesArtifactParams_Validate p in
  reject (New "changes artifact publisher must match the workspace target device")
    when (m.(cam_SourceDeviceID) <> p.(pca_WorkspaceTargetDeviceID)) in
  reject (New "objectFormat does not match the base HEAD")
    when ((m.(cam_ObjectFormat) = "sha1" /\ len p.(pca_BaseHeadOID) <> 40) \/
          (m.(cam_ObjectFormat) = "sha256" /\ len p.(pca_BaseHeadOID) <> 64) \/
          (m.(cam_ObjectFormat) <> "sha1" /\ m.(cam_ObjectFormat) <> "sha256")) in
  reject (New "unchanged changes artifact cleanliness must equal its base")
    when (p.(pca_Status) = ChangesArtifactUnchanged /\ p.(pca_ResultClean) <> m.(cam_BaseClean)) in
  reject (New "payload-free changes artifact must reset a dirty base")
    when (p.(pca_Status) = ChangesArtifactAvailable /\ length p.(pca_Parts) = O /\
          (m.(cam_BaseClean) = true \/ p.(pca_ResultClean) = false \/ p.(pca_ResultHeadOID) <> p.(pca_BaseHeadOID))) in
  reject (New "changes artifact sequence is outside the supported range")
    when (m.(cam_Sequence) = 0 \/ m.(cam_Sequence) > MaxInt64) in
  reject (New "changes artifact observedAt must not be negative") when (m.(cam_ObservedAt) < 0) in
  Ok tt.

(** Equality of every field, slices compared by their elements. *)
(* go: internal/protocol/changes_artifact.go SameChangesArtifactParams *)
Definition SameChangesArtifactParams (left right : PublishChangesArtifactParams) : Prop := left = right.

(** ** Applying a result *)

(* go: internal/protocol/result_apply.go AuthorizeResultApplyParams *)
Record AuthorizeResultApplyParams := {
  aap_ApplyID : string;
  aap_PackageID : string;
  aap_SourcePathSHA256 : string;
  aap_GitURL : string;
}.

(* go: internal/protocol/result_apply.go AuthorizeResultApplyParams.Validate *)
Definition AuthorizeResultApplyParams_Validate (p : AuthorizeResultApplyParams) : result unit :=
  do? wrap "applyId" (ValidateID p.(aap_ApplyID)) in
  do? wrap "packageId" (ValidateID p.(aap_PackageID)) in
  reject (New "sourcePathSha256 must be a lowercase SHA-256 digest")
    when (sha256DigestPattern p.(aap_SourcePathSHA256) = false) in
  validateWorkspaceText "gitUrl" p.(aap_GitURL) MaximumGitURLBytes.

(* go: internal/protocol/result_apply.go AuthorizeResultApplyResult *)
Record AuthorizeResultApplyResult := {
  aar_ApplyID : string;
  aar_PackageID : string;
  aar_ManifestSHA256 : string;
  aar_WorkspaceID : string;
  aar_BaseManifestHash : string;
}.

(* go: internal/protocol/result_apply.go AuthorizeResultApplyResult.Validate *)
Definition AuthorizeResultApplyResult_Validate (r : AuthorizeResultApplyResult) : result unit :=
  do? wrap "applyId" (ValidateID r.(aar_ApplyID)) in
  do? wrap "packageId" (ValidateID r.(aar_PackageID)) in
  do? wrap "workspaceId" (ValidateID r.(aar_WorkspaceID)) in
  reject (New "manifestSha256 must be a lowercase SHA-256 digest")
    when (sha256DigestPattern r.(aar_ManifestSHA256) = false) in
  reject (New "baseManifestHash must be a lowercase SHA-256 digest")
    when (sha256DigestPattern r.(aar_BaseManifestHash) = false) in
  Ok tt.

(** ** Equality *)

#[global] Instance ResultPackagePartDescriptor_eq_dec : EqDecision ResultPackagePartDescriptor.
Proof. solve_decision. Defined.
#[global] Instance ResultWorkspaceComponent_eq_dec : EqDecision ResultWorkspaceComponent.
Proof. solve_decision. Defined.
#[global] Instance ResultPackageMetadata_eq_dec : EqDecision ResultPackageMetadata.
Proof. solve_decision. Defined.
#[global] Instance WorkspaceArtifactDescriptor_eq_dec : EqDecision WorkspaceArtifactDescriptor.
Proof. solve_decision. Defined.
#[global] Instance PublishChangesArtifactParams_eq_dec : EqDecision PublishChangesArtifactParams.
Proof. solve_decision. Defined.
#[global] Instance AuthorizeResultApplyParams_eq_dec : EqDecision AuthorizeResultApplyParams.
Proof. solve_decision. Defined.
#[global] Instance SameResultPackageMetadata_dec l r : Decision (SameResultPackageMetadata l r).
Proof. unfold SameResultPackageMetadata. apply _. Defined.
#[global] Instance SameChangesArtifactParams_dec l r : Decision (SameChangesArtifactParams l r).
Proof. unfold SameChangesArtifactParams. apply _. Defined.

(** A result package with a rollout and an overlay. *)
Definition sample_result : ResultManifest :=
  let id d := "0000000" +:+ d +:+ "-1111-4111-8111-111111111111" in
  let digest := hex_string (Sum256 "x") in
  {| rm_Version := 2; rm_PackageID := id "1"; rm_ControllerID := id "2"; rm_TreeID := id "3"; rm_SourceAgentID := id "4";
     rm_SourceDeviceID := id "5"; rm_ManagedThreadID := id "6"; rm_TurnID := id "7"; rm_LifecycleRevision := 41;
     rm_Terminal := {| rt_Outcome := ResultTerminalCompleted; rt_FailureCode := "" |}; rm_CapturedAt := 1700000000;
     rm_Rollout := {| rr_Status := ResultRolloutAvailable; rr_RawSize := 4096; rr_RawSHA256 := digest; rr_FailureCode := "" |};
     rm_Workspace := {| rw_Status := ResultWorkspaceChanged; rw_WorkspaceID := id "8"; rw_SourceDeviceID := id "9";
       rw_TargetDeviceID := id "5"; rw_ObjectFormat := "sha256"; rw_BaseHeadOID := digest; rw_BaseManifestHash := digest;
       rw_BaseSnapshotHash := digest; rw_BaseClean := true; rw_ResultHeadOID := digest; rw_ResultSnapshotHash := digest;
       rw_ResultClean := false; rw_BaseWarnings := Some ["lfs_payload_not_transferred"]; rw_ResultWarnings := Some [];
       rw_FailureCode := "" |};
     rm_Parts := Some [{| rd_Kind := ResultPackagePartChangesOverlay; rd_Size := 100; rd_SHA256 := digest |};
                       {| rd_Kind := ResultPackagePartRollout; rd_Size := 200; rd_SHA256 := digest |}] |}.

Example sample_result_decodes :
  match EncodeResultManifest sample_result with
  | Ok (data, _) => DecodeResultManifest data = Ok sample_result
  | Err _ => False
  end.
Proof. vm_compute. reflexivity. Qed.

(** ** Valid manifests are plain text *)

Lemma ascii_class_valid (P : Z -> bool) s :
  (forall b, P b = true -> is_ascii b = true) -> forallb P (bytes s) = true -> ValidString s = true.
Proof. intros HP H. apply ascii_ValidString. by eapply forallb_impl. Qed.

Lemma ValidateID_text s : ValidateID s = Ok tt -> ValidString s = true.
Proof.
  intros [Hl H]%ValidateID_spec. apply ascii_ValidString. apply forallb_forall. intros b Hb.
  apply list_elem_of_In, list_elem_of_lookup in Hb as [i Hi]. specialize (H i b Hi).
  unfold is_ascii. revert H. case_match; unfold is_lower_hex, is_digit, in_range; lia.
Qed.

Lemma ValidateFailureCode_text s : ValidateFailureCode s = Ok tt -> ValidString s = true.
Proof.
  unfold ValidateFailureCode. intros H. go_inv. apply ascii_ValidString.
  destruct (failureCodePattern s) eqn:E; [|tauto]. unfold failureCodePattern, pattern in E.
  destruct (bytes s) as [|b l]; [done|]. apply andb_prop in E as [[Hb Hl]%andb_prop _]. cbn [forallb].
  apply andb_true_intro. split.
  - revert Hb. unfold is_lower, is_ascii, in_range. lia.
  - eapply forallb_impl; [|exact Hl]. intros x. unfold is_name_byte, is_lower, is_digit, is_ascii, in_range. lia.
Qed.

Lemma sha256_text s : sha256DigestPattern s = true -> ValidString s = true.
Proof. apply lower_hex_valid. Qed.

Lemma git_oid_text s : gitObjectIDPattern s = true -> ValidString s = true.
Proof. intros [H|H]%orb_true_iff; eapply lower_hex_valid; exact H. Qed.

Lemma warnings_text ws : ValidateWorkspaceWarnings ws = Ok tt -> Forall (fun w => ValidString w = true) ws.
Proof.
  intros H%warnings_plain. eapply Forall_impl; [exact H|]. intros w Hw. simpl in Hw.
  eapply ascii_class_valid; [apply html_safe_ascii|exact Hw].
Qed.

(** A string is valid text because a validator accepted it, or because it equals a
    constant. *)
Ltac text :=
  match goal with
  | H : ValidateID ?s = Ok tt |- ValidString ?s = true => exact (ValidateID_text _ H)
  | H : ValidateFailureCode ?s = Ok tt |- ValidString ?s = true => exact (ValidateFailureCode_text _ H)
  | H : sha256DigestPattern ?s <> false |- ValidString ?s = true => exact (sha256_text _ (not_false_is_true _ H))
  | H : gitObjectIDPattern ?s <> false |- ValidString ?s = true => exact (git_oid_text _ (not_false_is_true _ H))
  | H : ?s = _ |- ValidString ?s = true => rewrite H; reflexivity
  | H : ~ ?s <> "" |- ValidString ?s = true => rewrite (dec_stable H); reflexivity
  end.

(** A validated component: its strings are valid text and its numbers fit. *)
Lemma terminal_text t :
  ResultTerminal_Validate t = Ok tt -> ValidString t.(rt_Outcome) = true /\ ValidString t.(rt_FailureCode) = true.
Proof.
  unfold ResultTerminal_Validate. intros H. go_inv; [split; text|destruct o; split; text].
Qed.

Lemma rollout_text r :
  ResultRolloutComponent_Validate r = Ok tt ->
  ValidString r.(rr_Status) = true /\ ValidString r.(rr_RawSHA256) = true /\ ValidString r.(rr_FailureCode) = true /\
  is_int64 r.(rr_RawSize).
Proof.
  unfold ResultRolloutComponent_Validate, is_int64, MaximumResultRolloutRawBytes, MaxInt64. intros H.
  go_inv; [|destruct (decide (rr_RawSHA256 r = "")) as [E|]; [|tauto]]; split_and!; try text; try lia.
Qed.

Lemma part_text d :
  ResultPackagePartDescriptor_Validate d = Ok tt ->
  ValidString d.(rd_Kind) = true /\ ValidString d.(rd_SHA256) = true /\ is_int64 d.(rd_Size) /\ 1 <= d.(rd_Size).
Proof.
  unfold ResultPackagePartDescriptor_Validate, ResultPackagePartKind_MaximumBytes, is_int64, MaxInt64. intros H.
  repeat case_decide; go_inv; unfold MaximumResultChangesBundleBytes, MaximumResultChangesOverlayBytes,
    MaximumResultManifestBytes, MaximumResultRolloutBytes in *;
    (split_and!; [text|text|lia..]).
Qed.

Lemma git_base_text w :
  validateResultGitBase w = Ok tt ->
  ValidString w.(rw_ObjectFormat) = true /\ ValidString w.(rw_BaseHeadOID) = true /\
  ValidString w.(rw_BaseManifestHash) = true /\ ValidString w.(rw_BaseSnapshotHash) = true.
Proof. unfold validateResultGitBase. intros H. go_inv; split_and!; text. Qed.

Lemma git_result_text w :
  validateResultGitResult w = Ok tt ->
  ValidString w.(rw_ResultHeadOID) = true /\ ValidString w.(rw_ResultSnapshotHash) = true.
Proof.
  unfold validateResultGitResult. intros H. go_inv.
  destruct (gitObjectIDPattern (rw_ResultHeadOID w)) eqn:E; [|tauto]. split; [by apply git_oid_text|text].
Qed.

(** Everything printed of a validated workspace is valid text. *)
Record workspace_text (w : ResultWorkspaceComponent) : Prop := {
  wt_ids : Forall (fun s => ValidString s = true) [w.(rw_Status); w.(rw_WorkspaceID); w.(rw_SourceDeviceID);
    w.(rw_TargetDeviceID); w.(rw_ObjectFormat); w.(rw_BaseHeadOID); w.(rw_BaseManifestHash); w.(rw_BaseSnapshotHash);
    w.(rw_ResultHeadOID); w.(rw_ResultSnapshotHash); w.(rw_FailureCode)];
  wt_base : exists l, w.(rw_BaseWarnings) = Some l /\ Forall (fun s => ValidString s = true) l;
  wt_result : exists l, w.(rw_ResultWarnings) = Some l /\ Forall (fun s => ValidString s = true) l;
}.

Lemma present_warnings (base result_ : option (list string)) :
  ~ (base = None \/ result_ = None) -> exists l l', base = Some l /\ result_ = Some l'.
Proof. destruct base, result_; try tauto. eauto. Qed.

(** Split the negation of a disjunction. *)
Ltac split_nor :=
  repeat match goal with H : ~ (_ \/ _) |- _ => apply Decidable.not_or in H as [? ?] end.

Lemma ResultWorkspaceComponent_text w : ResultWorkspaceComponent_Validate w = Ok tt -> workspace_text w.
Proof.
  unfold ResultWorkspaceComponent_Validate. intros H. apply reject_Ok in H as [(base & res & Hb & Hr)%present_warnings H].
  rewrite Hb, Hr in H. cbn [from_option] in H. unfold id in H. destruct (decide (rw_Status w = ResultWorkspaceNotManaged)) as [Hs|].
  - apply reject_Ok in H as [H _]. split_nor.
    repeat match goal with H : ~ ?l <> [] |- _ => apply dec_stable in H; subst l end.
    split; [|exists []; split; [done|constructor]..]. repeat apply Forall_cons_2; try apply Forall_nil_2; text.
  - apply do_Ok in H as [Hi1%wrap_Ok H]. apply do_Ok in H as [Hi2%wrap_Ok H]. apply do_Ok in H as [Hi3%wrap_Ok H].
    apply do_Ok in H as [(Hf & Hh & Hm & Hn)%git_base_text H].
    apply do_Ok in H as [Hw1%wrap_Ok H]. apply do_Ok in H as [Hw2%wrap_Ok H].
    assert (ValidateWorkspaceWarnings res = Ok tt) by by apply source_warnings_valid.
    assert (Forall (fun s => ValidString s = true) [w.(rw_Status); w.(rw_ResultHeadOID); w.(rw_ResultSnapshotHash); w.(rw_FailureCode)])
      as Hrest.
    { repeat case_decide; simplify_eq; go_inv; try match goal with H : validateResultGitResult _ = Ok _ |- _ => apply git_result_text in H as [? ?] end; split_nor;
        repeat apply Forall_cons_2; try apply Forall_nil_2; first [text|assumption]. }
    repeat (apply Forall_cons in Hrest as [? Hrest]).
    split; [|exists base; split; [done|by apply warnings_text]|exists res; split; [done|by apply warnings_text]].
    repeat apply Forall_cons_2; try apply Forall_nil_2; first [assumption|text].
Qed.

(** ** Reading a printed manifest *)

Lemma json_strings_plain l : Forall (fun s => ValidString s = true) l -> json_plain (json_strings (Some l)).
Proof.
  intros H. cbn [json_strings json_plain]. rewrite foldr_and_Forall. rewrite Forall_fmap. exact H.
Qed.

Lemma scan_parts_valid s parts s' :
  scan_parts s parts = Ok s' -> Forall (fun d => ResultPackagePartDescriptor_Validate d = Ok tt /\ validatePayloadKind d.(rd_Kind) = Ok tt) parts.
Proof.
  revert s. induction parts as [|d parts IH]; intros s H; [constructor|]. cbn [scan_parts] in H.
  apply do_Ok in H as [Hd%wrap_Ok H]. apply do_Ok in H as [Hk%wrap_Ok H]. apply reject_Ok in H as [_ H]. apply reject_Ok in H as [_ H].
  constructor; [done|]. by eapply IH.
Qed.

(** What validation says of the printed fields. *)
Record manifest_text (m : ResultManifest) : Prop := {
  mt_version : m.(rm_Version) = 2;
  mt_ids : Forall (fun s => ValidString s = true) [m.(rm_PackageID); m.(rm_ControllerID); m.(rm_TreeID); m.(rm_SourceAgentID);
    m.(rm_SourceDeviceID); m.(rm_ManagedThreadID); m.(rm_TurnID)];
  mt_revision : m.(rm_LifecycleRevision) <= MaxInt64;
  mt_captured : 0 <= m.(rm_CapturedAt);
  mt_terminal : ResultTerminal_Validate m.(rm_Terminal) = Ok tt;
  mt_rollout : ResultRolloutComponent_Validate m.(rm_Rollout) = Ok tt;
  mt_workspace : workspace_text m.(rm_Workspace);
  mt_parts : exists parts s, m.(rm_Parts) = Some parts /\ scan_parts no_parts parts = Ok s;
}.

Lemma ResultManifest_text m : ResultManifest_Validate m = Ok tt -> manifest_text m.
Proof.
  unfold ResultManifest_Validate. intros H. apply reject_Ok in H as [Hv H].
  apply do_Ok in H as [H1%wrap_Ok%ValidateID_text H]. apply do_Ok in H as [H2%wrap_Ok%ValidateID_text H].
  apply do_Ok in H as [H3%wrap_Ok%ValidateID_text H]. apply do_Ok in H as [H4%wrap_Ok%ValidateID_text H].
  apply do_Ok in H as [H5%wrap_Ok%ValidateID_text H]. apply do_Ok in H as [H6%wrap_Ok%ValidateID_text H].
  apply do_Ok in H as [H7%wrap_Ok%ValidateID_text H].
  apply reject_Ok in H as [Hr H]. apply reject_Ok in H as [Hc H].
  apply do_Ok in H as [Ht H]. apply do_Ok in H as [Hro H]. apply do_Ok in H as [Hw H]. apply reject_Ok in H as [_ H].
  unfold ResultManifestVersion in Hv.
  split; [lia| |lia|lia|exact Ht|exact Hro|by apply ResultWorkspaceComponent_text|].
  - repeat apply Forall_cons_2; try assumption. apply Forall_nil_2.
  - unfold validateParts in H. destruct (rm_Parts m) as [parts|]; [|done]. apply reject_Ok in H as [_ H].
    apply result_bind_Ok in H as (s & Hs & _). eauto.
Qed.

Lemma parts_plain parts s s' : scan_parts s parts = Ok s' -> json_plain (JArray (part_json <$> parts)).
Proof.
  intros Hs. cbn [json_plain]. rewrite foldr_and_Forall, Forall_fmap. eapply Forall_impl; [by eapply scan_parts_valid|].
  intros d [(Hk & Hsha & _)%part_text _]. cbn. split_and!; try done; apply decimal_literal.
Qed.

Lemma manifest_plain m : manifest_text m -> json_plain (manifest_json m).
Proof.
  intros [_ Hi _ _ Ht Hr [Hw (b & Hb & Hbt) (r & Hres & Hrt)] (parts & s & Hp & Hs)].
  apply terminal_text in Ht as [Ht1 Ht2]. apply rollout_text in Hr as (Hr1 & Hr2 & Hr3 & _).
  repeat (apply Forall_cons in Hi as [? Hi]). repeat (apply Forall_cons in Hw as [? Hw]).
  pose proof (parts_plain _ _ _ Hs) as Hparts.
  unfold manifest_json, workspace_json, terminal_json, rollout_json. rewrite Hp, Hb, Hres. unfold json_strings.
  cbn [json_plain foldr fmap list_fmap fst snd]. split_and!; try done; try apply decimal_literal; try exact Hparts.
  - by apply (json_strings_plain b).
  - by apply (json_strings_plain r).
Qed.

Lemma strings_shape l : json_number_bytes (json_strings l) /\ json_depth (json_strings l) <= 1.
Proof.
  destruct l as [l|]; [|done]. cbn [json_strings json_number_bytes json_depth].
  rewrite foldr_and_Forall, Forall_fmap. split; [by apply Forall_forall|].
  induction l as [|x l IH]; cbn in *; lia.
Qed.

Lemma parts_shape parts :
  json_number_bytes (JArray (part_json <$> parts)) /\ json_depth (JArray (part_json <$> parts)) <= 2.
Proof.
  cbn [json_number_bytes json_depth]. rewrite foldr_and_Forall, Forall_fmap. split.
  - apply Forall_forall. intros d _. cbn. split_and!; try done. apply decimal_bytes.
  - assert (foldr Z.max 0 (json_depth <$> (part_json <$> parts)) <= 1); [|lia].
    induction parts as [|d parts IH]; [done|]. rewrite !fmap_cons. cbn [foldr]. cbn [part_json json_depth]. cbn. cbn in IH. lia.
Qed.

Lemma manifest_shape m :
  json_number_bytes (manifest_json m) /\ json_depth (manifest_json m) <= maxNestingDepth.
Proof.
  destruct (strings_shape (rw_BaseWarnings (rm_Workspace m))) as [Hb1 Hb2].
  destruct (strings_shape (rw_ResultWarnings (rm_Workspace m))) as [Hr1 Hr2].
  assert (json_number_bytes (match rm_Parts m with Some parts => JArray (part_json <$> parts) | None => JNull end) /\
          json_depth (match rm_Parts m with Some parts => JArray (part_json <$> parts) | None => JNull end) <= 2) as [Hp1 Hp2]
    by (destruct (rm_Parts m); [apply parts_shape|done]).
  unfold manifest_json. revert Hp1 Hp2. generalize (match rm_Parts m with Some parts => JArray (part_json <$> parts) | None => JNull end).
  intros p Hp1 Hp2. unfold workspace_json, terminal_json, rollout_json.
  revert Hb1 Hb2 Hr1 Hr2. generalize (json_strings (rw_BaseWarnings (rm_Workspace m))), (json_strings (rw_ResultWarnings (rm_Workspace m))).
  intros b r Hb1 Hb2 Hr1 Hr2. split.
  - cbn [json_number_bytes foldr fmap list_fmap fst snd]. split_and!; try done; apply decimal_bytes.
  - assert (forall l k, 0 <= k -> Forall (fun x => x <= k) l -> foldr Z.max 0 l <= k) as Hmax
      by (intros l k Hk; induction 1; simpl; lia).
    etrans; [|unfold maxNestingDepth; instantiate (1 := 1 + 3); lia]. cbn [json_depth fmap list_fmap fst snd].
    apply Z.add_le_mono_l, Hmax; [lia|].
    repeat apply Forall_cons_2; try apply Forall_nil_2; try lia;
      (etrans; [apply (Z.add_le_mono_l _ 1), Hmax; [lia|repeat apply Forall_cons_2; try apply Forall_nil_2; try exact Hb2; try exact Hr2; lia]|lia]).
Qed.

Lemma unmarshal_int_decimal old n : is_int64 n -> unmarshal_int old (JNumber (decimal n)) = Ok n.
Proof. intros H. unfold unmarshal_int, unmarshal_number. by rewrite ParseInt_decimal. Qed.

Lemma unmarshal_uint64_decimal old n : 0 <= n <= MaxUint64 -> unmarshal_uint64 old (JNumber (decimal n)) = Ok n.
Proof. intros H. unfold unmarshal_uint64, unmarshal_number. by rewrite ParseUint_decimal. Qed.

#[export] Hint Rewrite unmarshal_int_decimal unmarshal_uint64_decimal using assumption : json_read.

(** Decode the fields of a printed struct, from the [i]-th on. *)
Ltac read_fields Hf i :=
  erewrite (Hf _ i); [|reflexivity]; autorewrite with json_read; cbn [unmarshal_string unmarshal_bool result_bind];
  try match goal with H : unmarshal_slice _ _ _ _ = Ok _ |- _ => rewrite H; cbn [result_bind] end;
  try (let j := eval vm_compute in (S i) in read_fields Hf j).

Ltac read_struct Hnd :=
  let ms := fresh "ms" in let Hf := fresh "Hf" in
  match goal with
  | |- context [struct_members ?names (JObject ?members)] =>
      destruct (struct_read names members Hnd eq_refl) as (ms & -> & Hf)
  | |- context [struct_members_any (JObject ?members)] =>
      destruct (struct_read_any _ members Hnd eq_refl) as (ms & -> & Hf)
  end; cbn [result_bind]; read_fields Hf 0%nat.

Lemma result_fields_nodup :
  NoDup part_fields /\ NoDup terminal_fields /\ NoDup rollout_fields /\ NoDup workspace_fields /\ NoDup manifest_fields.
Proof. apply (bool_decide_unpack _). vm_compute. exact I. Qed.

Lemma unmarshal_terminal_print old t : unmarshal_terminal old (terminal_json t) = Ok t.
Proof.
  destruct result_fields_nodup as (_ & Hnd & _). unfold unmarshal_terminal, terminal_json.
  read_struct Hnd. by destruct t.
Qed.
#[export] Hint Rewrite unmarshal_terminal_print : json_read.

Lemma unmarshal_part_print old d : is_int64 d.(rd_Size) -> unmarshal_part old (part_json d) = Ok d.
Proof.
  intros Hs. destruct result_fields_nodup as (Hnd & _). unfold unmarshal_part, part_json.
  read_struct Hnd. by destruct d.
Qed.

Lemma unmarshal_rollout_print old r : is_int64 r.(rr_RawSize) -> unmarshal_rollout old (rollout_json r) = Ok r.
Proof.
  intros Hs. destruct result_fields_nodup as (_ & _ & Hnd & _). unfold unmarshal_rollout, rollout_json.
  read_struct Hnd. by destruct r.
Qed.

#[export] Hint Rewrite unmarshal_rollout_print using assumption : json_read.

Lemma unmarshal_strings_print l : unmarshal_strings (Slice None []) (json_strings l) = Ok (Slice l []).
Proof. destruct l as [l|]; [|done]. by apply unmarshal_slice_print. Qed.

#[export] Hint Rewrite unmarshal_strings_print : json_read.

Lemma unmarshal_workspace_print w :
  unmarshal_workspace zero_workspace (workspace_json w) =
  Ok {| wd_workspace := w; wd_base_spare := []; wd_result_spare := [] |}.
Proof.
  destruct result_fields_nodup as (_ & _ & _ & Hnd & _). unfold unmarshal_workspace, workspace_json.
  read_struct Hnd. by destruct w.
Qed.

#[export] Hint Rewrite unmarshal_workspace_print : json_read.

Lemma unmarshal_manifest_print m :
  manifest_text m -> 0 <= m.(rm_LifecycleRevision) -> m.(rm_CapturedAt) <= MaxInt64 ->
  unmarshal_manifest (manifest_json m) = Ok m.
Proof.
  intros [Hv _ Hr Hc _ Hro _ (parts & s & Hp & Hs)] Hr0 Hc'. destruct result_fields_nodup as (_ & _ & _ & _ & Hnd).
  assert (is_int64 (rm_Version m)) by (rewrite Hv; unfold is_int64, MaxInt64; lia).
  assert (is_int64 (rm_CapturedAt m)) by (unfold is_int64, MaxInt64 in *; lia).
  assert (0 <= rm_LifecycleRevision m <= MaxUint64) by (unfold MaxUint64, MaxInt64 in *; lia).
  apply rollout_text in Hro as (_ & _ & _ & Hro).
  assert (unmarshal_slice zero_part unmarshal_part (Slice None []) (JArray (part_json <$> parts)) = Ok (Slice (Some parts) [])) as Hparts.
  { apply unmarshal_slice_print. intros old d Hd. apply unmarshal_part_print. apply scan_parts_valid in Hs.
    rewrite Forall_forall in Hs. by destruct (Hs d Hd) as [(_ & _ & ? & _)%part_text _]. }
  unfold unmarshal_manifest, manifest_json. rewrite Hp.
  read_struct Hnd. destruct m. simpl in Hp. by subst.
Qed.

(** ** Required fields *)

Lemma members_map_lookup members name v :
  NoDup members.*1 -> (name, v) ∈ members -> members_map members !! name = Some v.
Proof.
  unfold members_map. induction members as [|[k x] members IH] using rev_ind; intros Hnd Hin; [set_solver|].
  rewrite fmap_app, NoDup_app in Hnd. destruct Hnd as (Hnd & Hdisj & _).
  rewrite foldl_app. cbn [foldl fst snd]. apply elem_of_app in Hin as [Hin|Hin].
  - rewrite lookup_insert_ne; [by apply IH|]. intros ->. apply (Hdisj name); [|set_solver].
    change name with (fst (name, v)). by apply list_elem_of_fmap_2.
  - apply list_elem_of_singleton in Hin as [= -> ->]. apply lookup_insert_eq.
Qed.

Lemma members_map_size members : NoDup members.*1 -> size (members_map members) = length members.
Proof.
  unfold members_map. induction members as [|[k x] members IH] using rev_ind; intros Hnd; [done|].
  rewrite fmap_app, NoDup_app in Hnd. destruct Hnd as (Hnd & Hdisj & _).
  rewrite foldl_app, length_app. cbn [foldl fst snd length]. rewrite map_size_insert_None; [rewrite IH by done; lia|].
  assert (forall l : list (string * json), k ∉ l.*1 -> foldl (fun object member => <[member.1:=member.2]> object) (∅ : gmap string json) l !! k = None) as Hn.
  { intros l. induction l as [|[k' x'] l IHl] using rev_ind; intros Hk; [done|]. rewrite foldl_app. cbn [foldl fst snd].
    rewrite fmap_app in Hk. rewrite lookup_insert_ne by set_solver. apply IHl. set_solver. }
  apply Hn. intros Hk. apply (Hdisj k Hk). set_solver.
Qed.

Lemma requiredJSONObject_exact members fields :
  NoDup fields -> members.*1 = fields -> Forall (fun m => m.2 <> JNull) members ->
  requiredJSONObject (JObject members) fields = Ok (members_map members).
Proof.
  intros Hnd Hf Hnn. unfold requiredJSONObject. cbn [result_bind]. subst fields.
  rewrite decide_False by (rewrite members_map_size by done; rewrite length_fmap; lia).
  rewrite decide_False; [done|]. rewrite not_false_iff_true. apply forallb_forall. intros k Hk.
  apply list_elem_of_In, list_elem_of_fmap in Hk as ([k' v] & -> & Hin). cbn [fst].
  rewrite (members_map_lookup members k' v) by done. rewrite Forall_forall in Hnn. specialize (Hnn _ Hin). by destruct v.
Qed.

Lemma manifest_fields_present m :
  manifest_text m -> validateResultManifestFields (manifest_json m) = Ok tt.
Proof.
  intros [_ _ _ _ _ _ [_ (b & Hb & _) (r & Hr & _)] (parts & s & Hp & _)].
  destruct result_fields_nodup as (Np & Nt & Nr & Nw & Nm).
  unfold validateResultManifestFields, manifest_json. rewrite Hp.
  match goal with |- context [requiredJSONObject (JObject ?l) manifest_fields] => set (top := l) end.
  assert (Forall (fun x => x.2 <> JNull) top) as Hnn by (unfold top; repeat apply Forall_cons_2; try apply Forall_nil_2; done).
  assert (NoDup top.*1) as Htop by exact Nm.
  rewrite requiredJSONObject_exact by done. cbn [result_bind].
  assert (forall i name v, top !! i = Some (name, v) -> default JNull (members_map top !! name) = v) as Hmem
    by (intros i name v Hi; rewrite (members_map_lookup top name v); [done|done|by eapply list_elem_of_lookup_2]).
  rewrite (Hmem 9%nat "terminal" _ eq_refl), (Hmem 11%nat "rollout" _ eq_refl), (Hmem 12%nat "workspace" _ eq_refl),
    (Hmem 13%nat "parts" _ eq_refl). unfold terminal_json, rollout_json, workspace_json. rewrite Hb, Hr.
  rewrite requiredJSONObject_exact; [|exact Nt|done|repeat apply Forall_cons_2; try apply Forall_nil_2; done]. cbn [result_bind].
  rewrite requiredJSONObject_exact; [|exact Nr|done|repeat apply Forall_cons_2; try apply Forall_nil_2; done]. cbn [result_bind].
  rewrite requiredJSONObject_exact; [|exact Nw|done|repeat apply Forall_cons_2; try apply Forall_nil_2; done]. cbn [result_bind].
  destruct (result_mapM (fun part => requiredJSONObject part part_fields) (part_json <$> parts)) as [l|e] eqn:E; [done|].
  exfalso. clear -E Np. induction parts as [|d parts IH]; [done|]. rewrite fmap_cons in E. cbn [result_mapM] in E.
  unfold part_json in E at 1. rewrite requiredJSONObject_exact in E;
    [|exact Np|done|repeat apply Forall_cons_2; try apply Forall_nil_2; done].
  destruct (result_mapM _ (part_json <$> parts)); [done|]. by apply IH.
Qed.

Lemma decode_printed_manifest m :
  ResultManifest_Validate m = Ok tt -> 0 <= m.(rm_LifecycleRevision) -> m.(rm_CapturedAt) <= MaxInt64 ->
  len (of_bytes (json_text (manifest_json m) ++ [10])) <= MaximumResultManifestBytes ->
  DecodeResultManifest (of_bytes (json_text (manifest_json m) ++ [10])) = Ok m.
Proof.
  intros Hv Hr Hc Hl. pose proof (ResultManifest_text m Hv) as Ht. destruct (manifest_shape m) as [Hn Hd].
  pose proof (manifest_plain m Ht) as Hp. unfold DecodeResultManifest.
  assert (1 <= len (of_bytes (json_text (manifest_json m) ++ [10]))).
  { destruct (json_text (manifest_json m)); unfold len; simpl; lia. }
  rewrite decide_False by lia.
  rewrite json_roundtrip; [|done|done|by apply json_text_bytes|by right].
  rewrite unmarshal_manifest_print by done. cbn [wrap result_bind].
  rewrite manifest_fields_present by done. cbn [result_bind]. by rewrite Hv.
Qed.

(** ** Sizes *)

Definition parts_total (parts : list ResultPackagePartDescriptor) : Z := foldr Z.add 0 (rd_Size <$> parts).

Lemma parts_total_cons d parts : parts_total (d :: parts) = rd_Size d + parts_total parts.
Proof. done. Qed.

Lemma parts_total_pos parts :
  Forall (fun d => ResultPackagePartDescriptor_Validate d = Ok tt /\ validatePayloadKind d.(rd_Kind) = Ok tt) parts ->
  0 <= parts_total parts.
Proof.
  induction 1 as [|d parts [(_ & _ & _ & ?)%part_text _] _ IH]; [done|]. rewrite parts_total_cons. lia.
Qed.

Lemma scan_parts_total s parts s' :
  scan_parts s parts = Ok s' -> s'.(ps_total) = s.(ps_total) + parts_total parts /\
  (parts <> [] -> s'.(ps_total) <= MaximumResultPackageBytes - MaximumResultManifestBytes).
Proof.
  revert s. induction parts as [|d parts IH]; intros s H; [injection H as <-; unfold parts_total; simpl; split; [lia|done]|].
  cbn [scan_parts] in H. do 2 (apply do_Ok in H as [_ H]). apply reject_Ok in H as [_ H]. apply reject_Ok in H as [Hm H].
  apply IH in H as [Ht Hl]. cbn [ps_total] in Ht. rewrite parts_total_cons. split; [lia|]. intros _.
  destruct parts as [|d' parts]; [unfold parts_total in Ht; simpl in Ht; lia|by apply Hl].
Qed.

Lemma add_parts_Ok total parts :
  Forall (fun d => ResultPackagePartDescriptor_Validate d = Ok tt /\ validatePayloadKind d.(rd_Kind) = Ok tt) parts ->
  total + parts_total parts <= MaximumResultPackageBytes -> add_parts total parts = Ok tt.
Proof.
  intros Hv. revert total. induction Hv as [|d parts [Hd Hk] Hv IH]; intros total Ht; [done|]. rewrite parts_total_cons in Ht.
  cbn [add_parts]. pose proof (parts_total_pos parts Hv). rewrite decide_False by lia. apply IH. lia.
Qed.

Lemma add_parts_bound total parts :
  total <= MaximumResultPackageBytes -> add_parts total parts = Ok tt -> total + parts_total parts <= MaximumResultPackageBytes.
Proof.
  revert total. induction parts as [|d parts IH]; intros total Ht H; [unfold parts_total; simpl; lia|].
  cbn [add_parts] in H. apply reject_Ok in H as [? H]. rewrite parts_total_cons. apply IH in H; lia.
Qed.

(** ** Which parts a manifest lists *)

(** The parts a manifest must list, in order: what its components say exists. *)
Definition expected_parts (m : ResultManifest) : list string :=
  let w := m.(rm_Workspace) in
  (if decide (w.(rw_Status) = ResultWorkspaceChanged /\ w.(rw_ResultHeadOID) <> w.(rw_BaseHeadOID))
   then [ResultPackagePartChangesBundle] else []) ++
  (if decide (w.(rw_Status) = ResultWorkspaceChanged /\ w.(rw_ResultClean) = false)
   then [ResultPackagePartChangesOverlay] else []) ++
  (if decide (m.(rm_Rollout).(rr_Status) = ResultRolloutAvailable) then [ResultPackagePartRollout] else []).

Definition scanned_kinds (s : part_scan) : list string :=
  (if s.(ps_bundle) then [ResultPackagePartChangesBundle] else []) ++
  (if s.(ps_overlay) then [ResultPackagePartChangesOverlay] else []) ++
  (if s.(ps_rollout) then [ResultPackagePartRollout] else []).

Lemma payload_kind_cases k :
  validatePayloadKind k = Ok tt ->
  k = ResultPackagePartChangesBundle \/ k = ResultPackagePartChangesOverlay \/ k = ResultPackagePartRollout.
Proof.
  unfold validatePayloadKind, ResultPackagePartKind_Validate. intros H. go_inv. set_solver.
Qed.

(** The loop sees at most the three payload kinds, in their order. *)
Lemma scan_parts_kinds parts : forall s s',
  scan_parts s parts = Ok s' ->
  (s.(ps_previous) = "" -> scanned_kinds s = []) ->
  (s.(ps_previous) <> "" -> last (scanned_kinds s) = Some s.(ps_previous)) ->
  scanned_kinds s' = scanned_kinds s ++ (rd_Kind <$> parts).
Proof.
  induction parts as [|d parts IH]; intros s s' H H0 H1; [injection H as <-; by rewrite app_nil_r|].
  cbn [scan_parts] in H. apply do_Ok in H as [_ H]. apply do_Ok in H as [Hk%wrap_Ok%payload_kind_cases H].
  apply reject_Ok in H as [Hs H]. apply reject_Ok in H as [_ H].
  assert (scanned_kinds {| ps_previous := rd_Kind d; ps_total := ps_total s + rd_Size d;
      ps_rollout := ps_rollout s || bool_decide (rd_Kind d = ResultPackagePartRollout);
      ps_bundle := ps_bundle s || bool_decide (rd_Kind d = ResultPackagePartChangesBundle);
      ps_overlay := ps_overlay s || bool_decide (rd_Kind d = ResultPackagePartChangesOverlay) |} =
    scanned_kinds s ++ [rd_Kind d]) as Hn.
  { destruct s as [prev total ro bu ov]; cbn in *. destruct (decide (prev = "")) as [->|Hp].
    - specialize (H0 eq_refl). unfold scanned_kinds in *. destruct ro, bu, ov; try done; cbn in *.
      destruct Hk as [->|[->| ->]]; reflexivity.
    - specialize (H1 Hp). unfold scanned_kinds in *.
      destruct ro, bu, ov; cbn in *; simplify_eq; destruct Hk as [Hk|[Hk|Hk]]; rewrite Hk in *;
        first [reflexivity|exfalso; apply Hs; split; [done|reflexivity]]. }
  apply IH in H; cbn [ps_previous].
  - rewrite H, Hn, <- app_assoc. done.
  - intros E. by destruct Hk as [Hk|[Hk|Hk]]; rewrite Hk in E.
  - intros _. rewrite Hn, last_app. done.
Qed.

Lemma validateParts_kinds m :
  validateParts m = Ok tt ->
  exists parts s, m.(rm_Parts) = Some parts /\ scan_parts no_parts parts = Ok s /\ rd_Kind <$> parts = expected_parts m.
Proof.
  unfold validateParts. destruct (rm_Parts m) as [parts|]; [|done]. intros H. apply reject_Ok in H as [_ H].
  apply result_bind_Ok in H as (s & Hs & H). apply reject_Ok in H as [Hro H]. exists parts, s. split_and!; [done|done|].
  pose proof (scan_parts_kinds parts no_parts s Hs ltac:(done) ltac:(done)) as Hk. cbn [app scanned_kinds no_parts ps_bundle ps_overlay ps_rollout] in Hk.
  rewrite <- Hk. unfold expected_parts, scanned_kinds. apply dec_stable in Hro. rewrite Hro.
  destruct (decide (rw_Status (rm_Workspace m) = ResultWorkspaceChanged)) as [Hc|Hc].
  - apply reject_Ok in H as [Hb H]. apply reject_Ok in H as [Ho _]. apply dec_stable in Hb, Ho. rewrite Hb, Ho.
    f_equal; [|f_equal].
    + case_bool_decide; [rewrite decide_True by (split; assumption)|rewrite decide_False by tauto]; done.
    + destruct (rw_ResultClean (rm_Workspace m)); simpl; [rewrite decide_False by naive_solver|rewrite decide_True by (split; [exact Hc|reflexivity])]; done.
    + rewrite bool_decide_decide. by destruct (decide _).
  - rewrite !(decide_False (P := rw_Status (rm_Workspace m) = ResultWorkspaceChanged /\ _)) by tauto.
    destruct (decide _); [|done]. apply reject_Ok in H as [Hn _].
    destruct (ps_bundle s), (ps_overlay s); try tauto. simpl.
    rewrite bool_decide_decide. by destruct (decide (rr_Status _ = _)).
Qed.

(** ** Theorems *)

(** C31 Round trip of result manifests: what [EncodeResultManifest] makes of a manifest,
    its text and its descriptor, is package metadata that [DecodeManifest] accepts, and
    decoding gives the manifest back. *)
Theorem ResultManifest_roundtrip m data d :
  0 <= m.(rm_LifecycleRevision) -> m.(rm_CapturedAt) <= MaxInt64 ->
  EncodeResultManifest m = Ok (data, d) ->
  DecodeManifest {| rpm_Manifest := data; rpm_ManifestDescriptor := d |} = Ok m.
Proof.
  unfold EncodeResultManifest. intros Hr Hc H. apply do_Ok in H as [Hv H]. apply reject_Ok in H as [Hl H].
  set (text := of_bytes (json_text (manifest_json m) ++ [10])) in *. injection H as <- <-.
  assert (DecodeResultManifest text = Ok m) as Hd by (apply decode_printed_manifest; [done|done|done|fold text; lia]).
  assert (1 <= len text) as Hl1 by (unfold DecodeResultManifest in Hd; apply reject_Ok in Hd as [? _]; lia).
  unfold DecodeManifest. cbn [rpm_Manifest rpm_ManifestDescriptor rd_Kind rd_Size rd_SHA256].
  assert (ResultPackagePartDescriptor_Validate {| rd_Kind := ResultPackagePartManifest; rd_Size := len text;
    rd_SHA256 := hex_string (Sum256 text) |} = Ok tt) as ->.
  { unfold ResultPackagePartDescriptor_Validate. cbn [rd_Kind rd_Size rd_SHA256].
    change (ResultPackagePartKind_MaximumBytes ResultPackagePartManifest) with (Ok MaximumResultManifestBytes).
    cbn [result_bind]. rewrite decide_False by lia. unfold sha256DigestPattern. rewrite hex_digest_pattern. by rewrite decide_False. }
  cbn [result_bind]. rewrite decide_False by (intros Hn; by apply Hn). rewrite decide_False by lia.
  rewrite decide_False by (intros Hn; by apply Hn). rewrite Hd. cbn [result_bind].
  destruct (ResultManifest_text m Hv) as [_ _ _ _ _ _ _ (parts & s & Hp & Hs)]. rewrite Hp. cbn [from_option]. unfold id.
  rewrite add_parts_Ok; [done|by eapply scan_parts_valid|]. apply scan_parts_total in Hs as [Ht Hmax].
  destruct parts as [|part parts]; [unfold parts_total; simpl; unfold MaximumResultPackageBytes, MaximumResultManifestBytes in *; lia|].
  specialize (Hmax ltac:(done)). cbn [ps_total no_parts] in Ht. lia.
Qed.

(** C32 What accepted package metadata guarantees: the bytes are the ones the digest was
    made of, the manifest is valid, it lists exactly the parts its components call for
    (a bundle if HEAD moved, an overlay if the result is dirty, a rollout if one was
    captured) in their order, every part is within its limit, and manifest and parts
    together stay within the limit of a package. *)
Theorem DecodeManifest_sound meta m :
  DecodeManifest meta = Ok m ->
  let d := meta.(rpm_ManifestDescriptor) in
  hex_string (Sum256 meta.(rpm_Manifest)) = d.(rd_SHA256) /\ len meta.(rpm_Manifest) = d.(rd_Size) /\
  ResultManifest_Validate m = Ok tt /\
  exists parts, m.(rm_Parts) = Some parts /\ rd_Kind <$> parts = expected_parts m /\
    Forall (fun p => 1 <= p.(rd_Size) <= payload_maximum p.(rd_Kind)) parts /\
    d.(rd_Size) + parts_total parts <= MaximumResultPackageBytes.
Proof.
  intros H d. unfold DecodeManifest in H. apply do_Ok in H as [Hdesc H]. apply reject_Ok in H as [Hkind H]. apply reject_Ok in H as [Hl H].
  apply reject_Ok in H as [Hh H]. apply result_bind_Ok in H as (m' & Hm & H). apply do_Ok in H as [Ha H].
  injection H as ->. apply dec_stable in Hl, Hh.
  assert (ResultManifest_Validate m = Ok tt) as Hv.
  { unfold DecodeResultManifest in Hm. apply reject_Ok in Hm as [_ Hm]. destruct (json_parse _); [|done].
    apply result_bind_Ok in Hm as (m' & _ & Hm). apply do_Ok in Hm as [_ Hm]. apply do_Ok in Hm as [Hv Hm]. by injection Hm as <-. }
  split_and!; [done|done|done|].
  assert (validateParts m = Ok tt) as (parts & s & Hp & Hs & Hk)%validateParts_kinds.
  { unfold ResultManifest_Validate in Hv. apply reject_Ok in Hv as [_ Hv]. do 7 (apply do_Ok in Hv as [_ Hv]).
    do 2 (apply reject_Ok in Hv as [_ Hv]). do 3 (apply do_Ok in Hv as [_ Hv]). by apply reject_Ok in Hv as [_ Hv]. }
  exists parts. apply scan_parts_valid in Hs. rewrite Hp in Ha. cbn [from_option] in Ha. unfold id in Ha. split_and!; [done|done| |].
  - eapply Forall_impl; [exact Hs|]. intros p [Hpv _]. unfold ResultPackagePartDescriptor_Validate in Hpv. unfold payload_maximum.
    destruct (ResultPackagePartKind_MaximumBytes (rd_Kind p)) as [maximum|]; [|done]. cbn [result_bind] in Hpv.
    apply reject_Ok in Hpv as [? _]. lia.
  - apply add_parts_bound; [|exact Ha]. apply dec_stable in Hkind. unfold ResultPackagePartDescriptor_Validate in Hdesc.
    rewrite Hkind in Hdesc. change (ResultPackagePartKind_MaximumBytes ResultPackagePartManifest)
      with (Ok MaximumResultManifestBytes) in Hdesc. cbn [result_bind] in Hdesc. apply reject_Ok in Hdesc as [? _].
    subst d. unfold MaximumResultManifestBytes, MaximumResultPackageBytes in *. lia.
Qed.

Lemma ResultManifest_roundtrip_witness :
  exists data d, EncodeResultManifest sample_result = Ok (data, d) /\
    DecodeManifest {| rpm_Manifest := data; rpm_ManifestDescriptor := d |} = Ok sample_result.
Proof.
  destruct (EncodeResultManifest sample_result) as [[data d]|e] eqn:E; [|exfalso; revert E; vm_compute; discriminate].
  exists data, d. split; [reflexivity|].
  apply (ResultManifest_roundtrip sample_result data d); [vm_compute; discriminate|vm_compute; discriminate|exact E].
Defined.

Definition sample_metadata : ResultPackageMetadata :=
  match EncodeResultManifest sample_result with
  | Ok (data, d) => {| rpm_Manifest := data; rpm_ManifestDescriptor := d |}
  | Err _ => {| rpm_Manifest := ""; rpm_ManifestDescriptor := zero_part |}
  end.

Lemma DecodeManifest_sound_witness :
  DecodeManifest sample_metadata = Ok sample_result /\
  rd_Kind <$> default [] sample_result.(rm_Parts) = expected_parts sample_result.
Proof.
  assert (DecodeManifest sample_metadata = Ok sample_result) as Hd by (vm_compute; reflexivity).
  split; [exact Hd|]. destruct (DecodeManifest_sound _ _ Hd) as (_ & _ & _ & parts & Hp & Hk & _).
  rewrite Hp. exact Hk.
Defined.
