(* ===== verification/Registry.v ===== *)
(** internal/store/credential.go, device.go, device_read.go and
    worker_readiness.go: peer credentials, the device registry with its
    per-controller revision, device pages and worker readiness. A method of
    [Store] is a transaction body over [DB]; calling it is [run_tx]. *)

From S2P Require Export Schema.

(** ** Credentials *)

(** [CredentialMAC] is [[32]byte]. *)
(* go: internal/store/credential.go:24-33 Credential *)
Record Credential := {
  c_ControllerID : string;
  c_DeviceID : string;
  c_MAC : string;
  c_Disabled : bool;
  c_Pending : bool;
  c_IssuedAt : Z;
}.

(* go: internal/store/credential.go:15-15 CredentialMACSize *)
Definition CredentialMACSize : Z := 32.

(* go: internal/store/credential.go Credential.Validate *)
Definition Credential_Validate (c : Credential) : result unit :=
  do? wrap "controllerId" (ValidateID c.(c_ControllerID)) in
  do? wrap "deviceId" (ValidateID c.(c_DeviceID)) in
  reject (New "issuedAt must not be negative") when (c.(c_IssuedAt) < 0) in
  reject (New "pending credentials must be disabled")
    when (c.(c_Pending) = true /\ c.(c_Disabled) = false) in
  Ok tt.

(* go: internal/store/credential.go NewCredential *)
Definition NewCredential (controllerID deviceID mac : string) (now : Z) : Credential := {|
  c_ControllerID := controllerID; c_DeviceID := deviceID; c_MAC := mac;
  c_Disabled := false; c_Pending := false; c_IssuedAt := now |}.

(** [INSERT INTO credentials] *)
Definition insert_credential (c : Credential) (db : DB) : result DB :=
  let r := {| cr_token_mac := c.(c_MAC); cr_disabled := c.(c_Disabled);
              cr_issued_at := c.(c_IssuedAt); cr_pending := c.(c_Pending) |} in
  let? t := sql_insert db.(credentials) (c.(c_ControllerID), c.(c_DeviceID)) r
              (credential_check r &&
               none_where (fun '(_, r) => r.(cr_token_mac) = c.(c_MAC)) db.(credentials)) in
  Ok (set_credentials db t).

(* go: internal/store/credential.go CreateCredential *)
Definition CreateCredential (credential : Credential) : Tx DB unit :=
  do! tx_lift (Credential_Validate credential) in
  tx_exec (fun db =>
    match insert_credential credential db with
    | Ok db => Ok db
    | Err e => if errors_Is e SQLiteConstraint
               then Err (Wrap "peer credential already exists" ErrConflict)
               else Err (Wrap "create peer credential" e)
    end).

(* go: internal/store/credential.go scanCredential *)
Definition scanCredential (row : option ((string * string) * CredentialRow)) : result Credential :=
  match row with
  | None => Err ErrNotFound
  | Some (k, r) =>
      reject (New "stored peer credential MAC has invalid length")
        when (len r.(cr_token_mac) <> CredentialMACSize) in
      let c := {| c_ControllerID := k.1; c_DeviceID := k.2; c_MAC := r.(cr_token_mac);
                  c_Disabled := r.(cr_disabled); c_Pending := r.(cr_pending);
                  c_IssuedAt := r.(cr_issued_at) |} in
      do? wrap "stored peer credential is invalid" (Credential_Validate c) in
      Ok c
  end.

(** [subtle.ConstantTimeCompare(a, b) == 1] is equality. *)
(* go: internal/store/credential.go queryCredentialByMAC *)
Definition queryCredentialByMAC (mac : string) (db : DB) : result Credential :=
  let? credential := scanCredential
    (select_row (fun '(_, r) => r.(cr_token_mac) = mac) db.(credentials)) in
  reject ErrNotFound when (credential.(c_MAC) <> mac) in
  Ok credential.

(* go: internal/store/credential.go AuthenticateCredential *)
Definition AuthenticateCredential (mac : string) (db : DB) : result Credential :=
  let? credential := queryCredentialByMAC mac db in
  reject ErrCredentialDisabled
    when (credential.(c_Disabled) = true \/ credential.(c_Pending) = true) in
  Ok credential.

(** A primary-key lookup of [QueryRow]. *)
Definition row_at {K R} `{Countable K} (t : gmap K R) (k : K) : option (K * R) :=
  pair k <$> t !! k.

(* go: internal/store/credential.go queryCredential *)
Definition queryCredential (controllerID deviceID : string) (db : DB) : result Credential :=
  scanCredential (row_at db.(credentials) (controllerID, deviceID)).

(* go: internal/store/credential.go validateCredentialIdentity *)
Definition validateCredentialIdentity (controllerID deviceID : string) : result unit :=
  do? wrap "controllerId" (ValidateID controllerID) in
  wrap "deviceId" (ValidateID deviceID).

(* go: internal/store/credential.go:104-109 Credential *)
Definition Store_Credential (controllerID deviceID : string) (db : DB) : result Credential :=
  do? validateCredentialIdentity controllerID deviceID in
  queryCredential controllerID deviceID db.

(** An UPDATE of one credential row; the affected row count is the value. *)
Definition update_credential (controllerID deviceID : string) (guard : CredentialRow -> bool)
    (disabled pending : bool) : Tx DB Z :=
  fun db =>
    match sql_update db.(credentials) (controllerID, deviceID) guard
            (fun r => {| cr_token_mac := r.(cr_token_mac); cr_disabled := disabled;
                         cr_issued_at := r.(cr_issued_at); cr_pending := pending |})
            credential_check with
    | Ok (n, t) => Ok (n, set_credentials db t)
    | Err e => Err e
    end.

(* go: internal/store/credential.go requireAffectedRow *)
Definition requireAffectedRow (affected : Z) : result unit :=
  reject ErrNotFound when (affected = 0) in Ok tt.

(* go: internal/store/credential.go ActivateCredential *)
Definition ActivateCredential (controllerID deviceID mac : string) : Tx DB unit :=
  do! tx_lift (validateCredentialIdentity controllerID deviceID) in
  let! n := update_credential controllerID deviceID
              (fun r => bool_decide (r.(cr_token_mac) = mac) && r.(cr_pending)) false false in
  match requireAffectedRow n with
  | Ok _ => tx_ret tt
  | Err e =>
      if errors_Is e ErrNotFound then
        let! credential := tx_query (Store_Credential controllerID deviceID) in
        if decide (credential.(c_Disabled) = false /\ credential.(c_Pending) = false /\
                   credential.(c_MAC) = mac) then tx_ret tt
        else tx_throw ErrNotFound
      else tx_throw e
  end.

(** [publish] is [None] for a nil callback, otherwise the pair the callback
    returns. The method returns [committed] next to its error. *)
(* go: internal/store/credential.go PublishPendingCredential *)
Definition PublishPendingCredential (controllerID deviceID mac : string)
    (publish : option (bool * result unit)) (db : DB) : (bool * result unit) * DB :=
  match validateCredentialIdentity controllerID deviceID with
  | Err e => ((false, Err e), db)
  | Ok _ =>
  match publish with
  | None => ((false, Err (New "credential publisher is required")), db)
  | Some (committed, publishErr) =>
  match queryCredential controllerID deviceID db with
  | Err e => ((false, Err e), db)
  | Ok credential =>
  if decide (credential.(c_Disabled) = false \/ credential.(c_Pending) = false \/
             credential.(c_MAC) <> mac) then ((false, Err ErrNotFound), db)
  else
  match publishErr with
  | Err e => ((committed, Err e), db)
  | Ok _ =>
      let '(r, db') := run_tx
        (let! n := update_credential controllerID deviceID
                     (fun r => bool_decide (r.(cr_token_mac) = mac) && r.(cr_disabled) && r.(cr_pending))
                     false false in
         tx_lift (requireAffectedRow n)) db in
      ((committed, r), db')
  end end end end.

(** The WHERE clause of [DeletePendingCredential]. *)
Definition is_pending_credential (controllerID deviceID mac : string)
    (x : (string * string) * CredentialRow) : Prop :=
  x.1 = (controllerID, deviceID) /\ x.2.(cr_token_mac) = mac /\
  x.2.(cr_disabled) = true /\ x.2.(cr_pending) = true.
#[global] Instance is_pending_credential_dec c d mac x : Decision (is_pending_credential c d mac x).
Proof. unfold is_pending_credential. apply _. Defined.

(* go: internal/store/credential.go DeletePendingCredential *)
Definition DeletePendingCredential (controllerID deviceID mac : string) : Tx DB unit :=
  do! tx_lift (validateCredentialIdentity controllerID deviceID) in
  fun db =>
    let '(n, t) := sql_delete (is_pending_credential controllerID deviceID mac) db.(credentials) in
    tx_lift (requireAffectedRow n) (set_credentials db t).

(** ** Controller revisions *)

(* go: internal/store/device.go controllerRevision *)
Definition controllerRevision (controllerID : string) (db : DB) : result Z :=
  match db.(controller_registries) !! controllerID with
  | None => Ok 0
  | Some revision =>
      reject (New "stored controller revision is negative") when (revision < 0) in Ok revision
  end.

(* go: internal/store/device.go nextControllerRevision *)
Definition nextControllerRevision (controllerID : string) : Tx DB Z :=
  do! tx_put (fun db =>
    match db.(controller_registries) !! controllerID with
    | Some _ => db
    | None => set_controller_registries db (<[controllerID := 0]> db.(controller_registries))
    end) in
  let! current := tx_query (fun db =>
    match db.(controller_registries) !! controllerID with
    | Some current => Ok current
    | None => Err (New "load controller revision: no rows")
    end) in
  fail (New "stored controller revision is negative") when (current < 0) in
  fail ErrRevisionExhausted when (current = MaxInt64) in
  let next := current + 1 in
  let! n := (fun db =>
    match sql_update db.(controller_registries) controllerID (fun r => r =? current)
            (fun _ => next) (fun r => 0 <=? r) with
    | Ok (n, t) => Ok (n, set_controller_registries db t)
    | Err e => Err (Wrap "advance controller revision" e)
    end) in
  do! tx_lift (requireAffectedRow n) in
  tx_ret next.

(** ** Devices *)

(* go: internal/store/device.go validateDeviceIdentity *)
Definition validateDeviceIdentity (controllerID deviceID : string) : result unit :=
  do? wrap "controllerId" (ValidateID controllerID) in
  wrap "deviceId" (ValidateID deviceID).

(** A [time.Time] is its Unix second. *)
(* go: internal/store/device.go unixTime *)
Definition unixTime (seconds : Z) : result Z :=
  reject (New "%s must not be negative") when (seconds < 0) in Ok seconds.

(* go: internal/store/device.go:20-20 maximumFeaturesJSON *)
Definition maximumFeaturesJSON : Z := 8 * 1024.

(* go: internal/store/device.go deviceFromDescriptor *)
Definition deviceFromDescriptor (d : DeviceDescriptor) (lastSeenAt revision : Z) : Device := {|
  d_ControllerID := d.(dd_ControllerID); d_DeviceID := d.(dd_DeviceID); d_Name := d.(dd_Name);
  d_OS := d.(dd_OS); d_Arch := d.(dd_Arch); d_RuntimeVersion := d.(dd_RuntimeVersion);
  d_ProtocolVersion := d.(dd_ProtocolVersion); d_Features := d.(dd_Features);
  d_Online := true; d_LastSeenAt := lastSeenAt; d_Revision := revision |}.

(** [deviceSelect] returns NULL for an oversized [features_json]. *)
(* go: internal/store/device.go scanDevice *)
Definition scanDevice (row : option ((string * string) * DeviceRow)) : result Device :=
  match row with
  | None => Err ErrNotFound
  | Some (k, r) =>
      reject (New "stored device features exceed size limit")
        when (len r.(dv_features_json) > maximumFeaturesJSON) in
      match json_Unmarshal_strings r.(dv_features_json) with
      | None => Err (New "decode stored device features")
      | Some features =>
          let device := {|
            d_ControllerID := k.1; d_DeviceID := k.2; d_Name := r.(dv_name); d_OS := r.(dv_os);
            d_Arch := r.(dv_arch); d_RuntimeVersion := r.(dv_runtime_version);
            d_ProtocolVersion := r.(dv_protocol_version); d_Features := features;
            d_Online := r.(dv_online); d_LastSeenAt := r.(dv_last_seen_at);
            d_Revision := r.(dv_revision) |} in
          do? wrap "stored device is invalid" (Device_Validate device) in
          Ok device
      end
  end.

(* go: internal/store/device.go queryDevice *)
Definition queryDevice (controllerID deviceID : string) (db : DB) : result Device :=
  scanDevice (row_at db.(devices) (controllerID, deviceID)).

(** [INSERT INTO devices ... ON CONFLICT DO UPDATE]: the same columns either way. *)
Definition upsert_device (device : Device) (featuresJSON : string) (db : DB) : result DB :=
  let r := {| dv_name := device.(d_Name); dv_os := device.(d_OS); dv_arch := device.(d_Arch);
              dv_runtime_version := device.(d_RuntimeVersion);
              dv_protocol_version := device.(d_ProtocolVersion);
              dv_features_json := featuresJSON; dv_online := true;
              dv_last_seen_at := device.(d_LastSeenAt); dv_revision := device.(d_Revision) |} in
  reject (Wrap "register device" SQLiteConstraint) when (device_check r = false) in
  Ok (set_devices db (<[(device.(d_ControllerID), device.(d_DeviceID)) := r]> db.(devices))).

(** The credential a registration is authenticated by, when there is one. *)
(* go: internal/store/device.go:74-87 registerDevice *)
Definition authenticate_registration (mac : option string) (d : DeviceDescriptor) (db : DB) : result unit :=
  match mac with
  | None => Ok tt
  | Some mac =>
      let? credential := queryCredentialByMAC mac db in
      reject ErrCredentialDisabled
        when (credential.(c_Disabled) = true \/ credential.(c_Pending) = true) in
      reject ErrAuthorizationDenied
        when (credential.(c_ControllerID) <> d.(dd_ControllerID) \/
              credential.(c_DeviceID) <> d.(dd_DeviceID) \/ credential.(c_MAC) <> mac) in
      Ok tt
  end.

(* go: internal/store/device.go registerDevice *)
Definition registerDevice (mac : option string) (descriptor : DeviceDescriptor) (observedAt : Z)
    : Tx DB Device :=
  do! tx_lift (DeviceDescriptor_Validate descriptor) in
  let! lastSeenAt := tx_lift (unixTime observedAt) in
  let featuresJSON := json_Marshal_strings descriptor.(dd_Features) in
  do! tx_query (authenticate_registration mac descriptor) in
  let! revision := nextControllerRevision descriptor.(dd_ControllerID) in
  let registered := deviceFromDescriptor descriptor lastSeenAt revision in
  do! tx_exec (upsert_device registered featuresJSON) in
  tx_ret registered.

(* go: internal/store/device.go RegisterAuthenticatedDevice *)
Definition RegisterAuthenticatedDevice (mac : string) (descriptor : DeviceDescriptor) (observedAt : Z)
    : Tx DB Device := registerDevice (Some mac) descriptor observedAt.

(* go: internal/store/device.go RegisterTrustedDevice *)
Definition RegisterTrustedDevice (descriptor : DeviceDescriptor) (observedAt : Z) : Tx DB Device :=
  registerDevice None descriptor observedAt.

(** An UPDATE of the presence columns of one device. *)
Definition update_presence (controllerID deviceID : string) (set : DeviceRow -> DeviceRow) : Tx DB unit :=
  fun db =>
    match sql_update db.(devices) (controllerID, deviceID) (fun _ => true) set device_check with
    | Ok (_, t) => Ok (tt, set_devices db t)
    | Err e => Err (Wrap "update device presence" e)
    end.

Definition with_presence (online : bool) (last_seen_at revision : Z) (r : DeviceRow) : DeviceRow := {|
  dv_name := r.(dv_name); dv_os := r.(dv_os); dv_arch := r.(dv_arch);
  dv_runtime_version := r.(dv_runtime_version); dv_protocol_version := r.(dv_protocol_version);
  dv_features_json := r.(dv_features_json); dv_online := online;
  dv_last_seen_at := last_seen_at; dv_revision := revision |}.

Definition device_presence (online : bool) (lastSeenAt revision : Z) (d : Device) : Device := {|
  d_ControllerID := d.(d_ControllerID); d_DeviceID := d.(d_DeviceID); d_Name := d.(d_Name);
  d_OS := d.(d_OS); d_Arch := d.(d_Arch); d_RuntimeVersion := d.(d_RuntimeVersion);
  d_ProtocolVersion := d.(d_ProtocolVersion); d_Features := d.(d_Features);
  d_Online := online; d_LastSeenAt := lastSeenAt; d_Revision := revision |}.

(* go: internal/store/device.go updateDevicePresence *)
Definition updateDevicePresence (controllerID deviceID : string) (expectedRevision observedAt : Z)
    (markOffline : bool) : Tx DB Device :=
  do! tx_lift (validateDeviceIdentity controllerID deviceID) in
  fail (New "expectedRevision must be positive") when (expectedRevision = 0) in
  let! lastSeenAt := tx_lift (unixTime observedAt) in
  let! device := tx_query (queryDevice controllerID deviceID) in
  fail ErrStaleRevision when (device.(d_Revision) <> expectedRevision) in
  if negb device.(d_Online) then
    if markOffline then tx_ret device else tx_throw (Wrap "device is offline" ErrConflict)
  else if negb markOffline && (lastSeenAt <=? device.(d_LastSeenAt)) then tx_ret device
  else if negb markOffline then
    do! update_presence controllerID deviceID
          (fun r => with_presence r.(dv_online) lastSeenAt r.(dv_revision) r) in
    tx_ret (device_presence device.(d_Online) lastSeenAt device.(d_Revision) device)
  else
    let seen := if device.(d_LastSeenAt) <? lastSeenAt then lastSeenAt else device.(d_LastSeenAt) in
    let! revision := nextControllerRevision controllerID in
    do! update_presence controllerID deviceID (with_presence false seen revision) in
    tx_ret (device_presence false seen revision device).

(* go: internal/store/device.go HeartbeatDevice *)
Definition HeartbeatDevice (controllerID deviceID : string) (expectedRevision observedAt : Z) : Tx DB Device :=
  updateDevicePresence controllerID deviceID expectedRevision observedAt false.

(* go: internal/store/device.go MarkDeviceOffline *)
Definition MarkDeviceOffline (controllerID deviceID : string) (expectedRevision observedAt : Z) : Tx DB Device :=
  updateDevicePresence controllerID deviceID expectedRevision observedAt true.

(* go: internal/store/credential.go DisableCredential *)
Definition DisableCredential (controllerID deviceID : string) : Tx DB unit :=
  do! tx_lift (validateCredentialIdentity controllerID deviceID) in
  do! tx_query (queryCredential controllerID deviceID) in
  do! update_credential controllerID deviceID (fun _ => true) true false in
  let! online := tx_query (fun db => Ok (dv_online <$> db.(devices) !! (controllerID, deviceID))) in
  match online with
  | None | Some false => tx_ret tt
  | Some true =>
      let! revision := nextControllerRevision controllerID in
      update_presence controllerID deviceID
        (fun r => with_presence false r.(dv_last_seen_at) revision r)
  end.

(** ** Presence sweeps *)

(* go: internal/store/device.go PresenceTransition *)
Record PresenceTransition := { pt_Revision : Z; pt_Count : Z }.

(** [predicate] is the SQL condition on the row, next to the controller's. *)
(* go: internal/store/device.go markMatchingDevicesOffline *)
Definition markMatchingDevicesOffline (controllerID : string) (predicate : DeviceRow -> bool)
    : Tx DB PresenceTransition :=
  do! tx_lift (wrap "controllerId" (ValidateID controllerID)) in
  let matching := fun x : (string * string) * DeviceRow => x.1.1 = controllerID /\ predicate x.2 = true in
  let! n := tx_query (fun db => Ok (count matching db.(devices))) in
  if decide (n = 0) then
    let! revision := tx_query (controllerRevision controllerID) in
    tx_ret {| pt_Revision := revision; pt_Count := n |}
  else
    let! revision := nextControllerRevision controllerID in
    do! (fun db =>
      match sql_update_where matching
              (fun r => with_presence false r.(dv_last_seen_at) revision r) device_check db.(devices) with
      | Ok (_, t) => Ok (tt, set_devices db t)
      | Err e => Err (Wrap "mark matching devices offline" e)
      end) in
    tx_ret {| pt_Revision := revision; pt_Count := n |}.

(* go: internal/store/device.go ExpireDevices *)
Definition ExpireDevices (controllerID : string) (lastSeenCutoff : Z) : Tx DB PresenceTransition :=
  let! cutoff := tx_lift (unixTime lastSeenCutoff) in
  markMatchingDevicesOffline controllerID (fun r => r.(dv_online) && (r.(dv_last_seen_at) <=? cutoff)).

(* go: internal/store/device.go verifyBrokerHostKind *)
Definition verifyBrokerHostKind (kind : string) (db : DB) : result unit :=
  match db.(broker_metadata) with
  | None => Err (New "load broker state host kind")
  | Some stateKind =>
      do? wrap "stored broker state host kind" (Kind_Validate stateKind) in
      reject (New "broker host kind %q does not match state host kind %q") when (stateKind <> kind) in
      Ok tt
  end.

(* go: internal/store/device.go bindBrokerHostKind *)
Definition bindBrokerHostKind (kind : string) : Tx DB unit :=
  do! tx_exec (fun db =>
    match db.(broker_metadata) with
    | Some _ => Ok db
    | None =>
        reject (Wrap "initialize broker state host kind" SQLiteConstraint)
          when (kind <> Codex /\ kind <> TraeX) in
        Ok (set_broker_metadata db (Some kind))
    end) in
  tx_query (verifyBrokerHostKind kind).

(** Two transactions: the host kind stays bound when the sweep fails. *)
(* go: internal/store/device.go BeginBrokerEpoch *)
Definition BeginBrokerEpoch (controllerID kind : string) (db : DB) : result PresenceTransition * DB :=
  match wrap "controllerId" (ValidateID controllerID) with
  | Err e => (Err e, db)
  | Ok _ =>
  match Kind_Validate kind with
  | Err e => (Err e, db)
  | Ok _ =>
  match run_tx (bindBrokerHostKind kind) db with
  | (Err e, db) => (Err e, db)
  | (Ok _, db) => run_tx (markMatchingDevicesOffline controllerID dv_online) db
  end end end.

(** ** Reading devices *)

(* go: internal/store/device_read.go:14-14 MaximumDevicePage *)
Definition MaximumDevicePage : Z := 32.

(* go: internal/store/device_read.go DevicePageRequest *)
Record DevicePageRequest := {
  dq_AfterDeviceID : string;
  dq_Limit : Z;
  dq_ExpectedRevision : option Z;
}.

(* go: internal/store/device_read.go DevicePage *)
Record DevicePage := {
  dp_Revision : Z;
  dp_Devices : list Device;
  dp_NextCursor : string;
}.

(** The rows [WHERE controller_id = ? AND device_id > ? ORDER BY device_id]. *)
Definition device_rows_after (controllerID after : string) (db : DB) : list ((string * string) * DeviceRow) :=
  order_by_text (fun x => x.1.2)
    (select (fun x : (string * string) * DeviceRow =>
               x.1.1 = controllerID /\ String.ltb after x.1.2 = true) db.(devices)).

(** The cursor check at the head of [ListDevices]. *)
(* go: internal/store/device_read.go:39-46 ListDevices *)
Definition validate_device_cursor (after : string) (expectedRevision : option Z) : result unit :=
  if decide (after <> "") then
    do? wrap "device cursor" (ValidateID after) in
    reject (New "device cursor requires an expected revision") when (expectedRevision = None) in Ok tt
  else Ok tt.

(* go: internal/store/device_read.go ListDevices *)
Definition ListDevices (controllerID : string) (request : DevicePageRequest) (db : DB) : result DevicePage :=
  do? wrap "controllerId" (ValidateID controllerID) in
  do? validate_device_cursor request.(dq_AfterDeviceID) request.(dq_ExpectedRevision) in
  reject (New "device page limit must be from 1 through %d")
    when (request.(dq_Limit) < 1 \/ request.(dq_Limit) > MaximumDevicePage) in
  let? revision := controllerRevision controllerID db in
  reject ErrRevisionChanged
    when (match request.(dq_ExpectedRevision) with
          | Some expected => bool_decide (expected <> revision)
          | None => false
          end = true) in
  let? devices := result_mapM (fun row => scanDevice (Some row))
    (limit (request.(dq_Limit) + 1) (device_rows_after controllerID request.(dq_AfterDeviceID) db)) in
  if request.(dq_Limit) <? Z.of_nat (length devices) then
    Ok {| dp_Revision := revision; dp_Devices := take (Z.to_nat request.(dq_Limit)) devices;
          dp_NextCursor := default "" (d_DeviceID <$> devices !! Z.to_nat (request.(dq_Limit) - 1)) |}
  else Ok {| dp_Revision := revision; dp_Devices := devices; dp_NextCursor := "" |}.

(* go: internal/store/device_read.go DeviceRecord *)
Record DeviceRecord := { dr_RegistryRevision : Z; dr_Device : Device }.

(* go: internal/store/device_read.go DescribeDevice *)
Definition DescribeDevice (controllerID deviceID : string) (db : DB) : result DeviceRecord :=
  do? validateDeviceIdentity controllerID deviceID in
  let? revision := controllerRevision controllerID db in
  let? device := queryDevice controllerID deviceID db in
  Ok {| dr_RegistryRevision := revision; dr_Device := device |}.

(** ** Worker readiness *)

(* go: internal/store/worker_readiness.go queryWorkerReadiness *)
Definition queryWorkerReadiness (controllerID deviceID : string) (db : DB) : result WorkerReadiness :=
  match db.(device_worker_readiness) !! (controllerID, deviceID) with
  | None => Err ErrNotFound
  | Some readiness =>
      do? wrap "invalid stored worker readiness" (WorkerReadiness_Validate readiness) in Ok readiness
  end.

(* go: internal/store/worker_readiness.go:71-81 WorkerReadiness *)
Definition Store_WorkerReadiness (controllerID deviceID : string) (db : DB) : result WorkerReadiness :=
  do? wrap "controllerId" (ValidateID controllerID) in
  do? wrap "deviceId" (ValidateID deviceID) in
  queryWorkerReadiness controllerID deviceID db.

(** The readiness upsert; [database/sql] refuses an epoch above [MaxInt64]. *)
Definition upsert_readiness (controllerID deviceID : string) (r : WorkerReadiness) (db : DB) : result DB :=
  do? bind_uint64 r.(wr_Epoch) in
  reject SQLiteConstraint
    when (readiness_check r = false \/ device_exists db controllerID deviceID = false) in
  Ok (set_device_worker_readiness db (<[(controllerID, deviceID) := r]> db.(device_worker_readiness))).

(* go: internal/store/worker_readiness.go PutWorkerReadiness *)
Definition PutWorkerReadiness (controllerID deviceID : string) (readiness : WorkerReadiness)
    : Tx DB WorkerReadiness :=
  do! tx_lift (validateDeviceIdentity controllerID deviceID) in
  do! tx_lift (WorkerReadiness_Validate readiness) in
  do! tx_query (queryDevice controllerID deviceID) in
  let! current := tx_query (fun db => optional (queryWorkerReadiness controllerID deviceID db)) in
  let persist :=
    do! tx_exec (fun db => wrap "persist worker readiness" (upsert_readiness controllerID deviceID readiness db)) in
    tx_ret readiness in
  match current with
  | Some current =>
      fail ErrWorkerReadinessStale
        when (readiness.(wr_Epoch) < current.(wr_Epoch) \/
              (readiness.(wr_Epoch) = current.(wr_Epoch) /\
               readiness.(wr_UpdatedAt) < current.(wr_UpdatedAt))) in
      if decide (readiness.(wr_Epoch) = current.(wr_Epoch) /\
                 readiness.(wr_UpdatedAt) = current.(wr_UpdatedAt)) then
        fail ErrWorkerReadinessStale when (readiness <> current) in tx_ret current
      else persist
  | None => persist
  end.

(** ** Credentials, proved *)

(** The life of a credential: created (pending or active), activated from
    pending, deleted while pending, or disabled for good. *)
Inductive credentials_evolve (t : gmap (string * string) CredentialRow)
    : gmap (string * string) CredentialRow -> Prop :=
  | credentials_same : credentials_evolve t t
  | credential_created k r :
      t !! k = None -> (forall k' r', t !! k' = Some r' -> r'.(cr_token_mac) <> r.(cr_token_mac)) ->
      is_ok (scanCredential (Some (k, r))) = true -> credentials_evolve t (<[k := r]> t)
  | credential_activated k r :
      t !! k = Some r -> r.(cr_pending) = true ->
      credentials_evolve t (<[k := {| cr_token_mac := r.(cr_token_mac); cr_disabled := false;
                                      cr_issued_at := r.(cr_issued_at); cr_pending := false |}]> t)
  | credential_deleted k r :
      t !! k = Some r -> r.(cr_pending) = true -> credentials_evolve t (delete k t)
  | credential_disabled k r :
      t !! k = Some r ->
      credentials_evolve t (<[k := {| cr_token_mac := r.(cr_token_mac); cr_disabled := true;
                                      cr_issued_at := r.(cr_issued_at); cr_pending := false |}]> t).

#[export] Hint Constructors credentials_evolve : go.

Lemma scanCredential_is_ok k r :
  is_ok (scanCredential (Some (k, r))) = true <->
  valid_id k.1 /\ valid_id k.2 /\ credential_check r = true.
Proof.
  unfold scanCredential, Credential_Validate, credential_check, CredentialMACSize.
  rewrite is_ok_true, !andb_true_iff, Z.eqb_eq, Z.leb_le. simpl. split.
  - intros [a Ha]. autorewrite with valid in Ha. destruct Ha as (Hl & (H1 & H2 & H3 & H4 & _) & _).
    split_and!; [done|done|lia|lia|]. destruct (cr_pending r), (cr_disabled r); naive_solver.
  - intros (H1 & H2 & (Hl & Hi) & Hp). eexists. autorewrite with valid.
    split_and!; try done; [lia|lia|]. destruct (cr_pending r), (cr_disabled r); naive_solver.
Qed.

Lemma queryCredential_Ok c d db cred :
  queryCredential c d db = Ok cred ->
  exists r, db.(credentials) !! (c, d) = Some r /\ is_ok (scanCredential (Some ((c, d), r))) = true /\
    cred = {| c_ControllerID := c; c_DeviceID := d; c_MAC := r.(cr_token_mac);
              c_Disabled := r.(cr_disabled); c_Pending := r.(cr_pending);
              c_IssuedAt := r.(cr_issued_at) |}.
Proof.
  unfold queryCredential, row_at. destruct (_ !! _) as [r|] eqn:E; [|done].
  intros Hs. exists r. split; [done|]. split; [apply is_ok_true; eauto|].
  simpl in Hs. rewrite reject_Ok, do_Ok in Hs. naive_solver.
Qed.

Lemma update_credential_Ok c d guard dis pend db n db' :
  update_credential c d guard dis pend db = Ok (n, db') ->
  (n = 0 /\ db' = db /\ forall r, db.(credentials) !! (c, d) = Some r -> guard r = false) \/
  (n = 1 /\ exists r, db.(credentials) !! (c, d) = Some r /\ guard r = true /\
     db' = set_credentials db
       (<[(c, d) := {| cr_token_mac := r.(cr_token_mac); cr_disabled := dis;
                       cr_issued_at := r.(cr_issued_at); cr_pending := pend |}]> db.(credentials))).
Proof.
  unfold update_credential. destruct (sql_update _ _ _ _ _) as [[n' t]|] eqn:E; [|done].
  intros [= <- <-]. apply sql_update_Ok in E as [(-> & -> & Hno)|(-> & r & Hr & Hg & _ & ->)].
  - left. split_and!; [done|by destruct db|done].
  - right. eauto 10.
Qed.

Lemma insert_credential_Ok c db db' :
  Credential_Validate c = Ok tt -> insert_credential c db = Ok db' ->
  exists t, credentials_evolve db.(credentials) t /\ db' = set_credentials db t.
Proof.
  intros Hv Hi. unfold insert_credential in Hi. go_inv.
  apply sql_insert_Ok in H as ([Hc Hu]%andb_prop & Hn & ->).
  eexists. split; [|done]. rewrite none_where_true in Hu. apply credential_created; [done|naive_solver|].
  apply scanCredential_is_ok. unfold Credential_Validate in Hv. autorewrite with valid in Hv. naive_solver.
Qed.

(** Which effect each credential operation can have. *)
Definition credentials_only (db db' : DB) : Prop :=
  exists t, credentials_evolve db.(credentials) t /\ db' = set_credentials db t.

Lemma credentials_only_refl db : credentials_only db db.
Proof. exists db.(credentials). split; [constructor|by destruct db]. Qed.
#[export] Hint Resolve credentials_only_refl : go.

Lemma CreateCredential_effect c db u db' :
  CreateCredential c db = Ok (u, db') -> credentials_only db db'.
Proof.
  unfold CreateCredential. intros H. go_inv.
  destruct (insert_credential c _) as [db1|] eqn:E; [|by destruct (errors_Is _ _)]. go_inv.
  by apply insert_credential_Ok in E.
Qed.

Lemma ActivateCredential_effect c d mac db u db' :
  ActivateCredential c d mac db = Ok (u, db') -> credentials_only db db'.
Proof.
  unfold ActivateCredential. intros H. go_inv.
  apply update_credential_Ok in H0 as [(-> & -> & _)|(-> & r & Hr & Hg & ->)]; simpl in *.
  - go_inv. auto with go.
  - go_inv. apply andb_prop in Hg as [_ Hp]. eexists. split; [by eapply credential_activated|done].
Qed.

Lemma DeletePendingCredential_effect c d mac db u db' :
  DeletePendingCredential c d mac db = Ok (u, db') -> credentials_only db db'.
Proof.
  unfold DeletePendingCredential. intros H. go_inv. unfold tx_lift, requireAffectedRow, sql_delete in *. cbv beta iota in *.
  destruct (decide _) as [|Hn]; go_inv.
  set (P := is_pending_credential c d mac) in *.
  assert (exists r, credentials db !! (c, d) = Some r /\ P ((c, d), r)) as (r & Hr & HP).
  { unfold count in Hn. destruct (select P (credentials db)) as [|[k r] l] eqn:E; [done|].
    assert ((k, r) ∈ select P (credentials db)) as [Hk HP]%(elem_of_select P) by (rewrite E; set_solver).
    destruct (HP) as [Hk1 _]. simpl in Hk1. subst k. eauto. }
  exists (delete (c, d) (credentials db)). split.
  - eapply credential_deleted; [done|]. by destruct HP as (_ & _ & _ & ?).
  - f_equal. apply map_eq. intros k. destruct (decide (k = (c, d))) as [->|Hk].
    + rewrite lookup_delete_eq. apply map_lookup_filter_None. right. naive_solver.
    + rewrite lookup_delete_ne by done. destruct (credentials db !! k) as [r'|] eqn:E.
      * apply map_lookup_filter_Some. split; [done|]. intros [? _]. done.
      * apply map_lookup_filter_None. by left.
Qed.

Lemma PublishPendingCredential_effect c d mac publish db r db' :
  PublishPendingCredential c d mac publish db = (r, db') -> credentials_only db db'.
Proof.
  unfold PublishPendingCredential. intros H.
  destruct (validateCredentialIdentity c d); [|simplify_eq; auto with go].
  destruct publish as [[? [?|?]]|]; [| |simplify_eq; auto with go];
    (destruct (queryCredential c d db) as [cred|]; [|simplify_eq; auto with go]);
    destruct (decide _) as [|Hd]; simplify_eq; auto with go.
  destruct (run_tx _ db) as [[u|e] db1] eqn:E; simplify_eq; go_inv; auto with go.
  apply update_credential_Ok in H as [(-> & -> & _)|(-> & r & Hr & Hg & ->)]; [auto with go|].
  apply andb_prop in Hg as [_ Hp]. eexists. split; [by eapply credential_activated|done].
Qed.

(** ** Device rows, proved *)

Lemma nextControllerRevision_eq c db :
  let current := default 0 (db.(controller_registries) !! c) in
  nextControllerRevision c db =
    if decide (current < 0) then Err (New "stored controller revision is negative")
    else if decide (current = MaxInt64) then Err ErrRevisionExhausted
    else Ok (current + 1,
             set_controller_registries db (<[c := current + 1]> db.(controller_registries))).
Proof.
  unfold nextControllerRevision, tx_bind, tx_put, tx_query.
  destruct (controller_registries db !! c) as [current|] eqn:E; simpl.
  - rewrite E. destruct (decide (current < 0)); [done|]. destruct (decide (current = MaxInt64)); [done|].
    rewrite (sql_update_hit _ _ _ _ _ current); [done|done|lia|lia].
  - rewrite lookup_insert_eq, !decide_False by done.
    rewrite (sql_update_hit _ _ _ _ _ 0); [|simpl; by rewrite lookup_insert_eq|done|done].
    simpl. by rewrite insert_insert_eq.
Qed.

Lemma nextControllerRevision_Ok c db r db' :
  nextControllerRevision c db = Ok (r, db') ->
  exists current, current = default 0 (db.(controller_registries) !! c) /\
    0 <= current /\ current <> MaxInt64 /\ r = current + 1 /\
    db' = set_controller_registries db (<[c := r]> db.(controller_registries)).
Proof.
  rewrite nextControllerRevision_eq. intros H. go_inv. eexists. split_and!; [done|lia|done|done|done].
Qed.

Definition device_row_ok (k : string * string) (r : DeviceRow) : Prop :=
  is_ok (scanDevice (Some (k, r))) = true.

Definition device_of (k : string * string) (r : DeviceRow) (features : list string) : Device := {|
  d_ControllerID := k.1; d_DeviceID := k.2; d_Name := r.(dv_name); d_OS := r.(dv_os);
  d_Arch := r.(dv_arch); d_RuntimeVersion := r.(dv_runtime_version);
  d_ProtocolVersion := r.(dv_protocol_version); d_Features := features;
  d_Online := r.(dv_online); d_LastSeenAt := r.(dv_last_seen_at); d_Revision := r.(dv_revision) |}.

Lemma scanDevice_Ok k r d :
  scanDevice (Some (k, r)) = Ok d <->
  len r.(dv_features_json) <= maximumFeaturesJSON /\
  exists features, json_Unmarshal_strings r.(dv_features_json) = Some features /\
    Device_Validate (device_of k r features) = Ok tt /\ d = device_of k r features.
Proof.
  unfold scanDevice. rewrite reject_Ok. destruct (json_Unmarshal_strings _) as [features|]; [|naive_solver].
  rewrite do_Ok, wrap_Ok. split.
  - intros (Hl & Hv & [= <-]). split; [lia|]. eexists. eauto.
  - intros (Hl & f & [= <-] & Hv & ->). split; [lia|]. auto.
Qed.


Lemma Device_Validate_numbers d :
  Device_Validate d = Ok tt <->
  DeviceDescriptor_Validate (Device_Descriptor d) = Ok tt /\ 0 <= d.(d_LastSeenAt) /\ d.(d_Revision) <> 0.
Proof. unfold Device_Validate. rewrite do_Ok, !reject_Ok. split; [intros (? & ? & ? & _)|]; repeat split; naive_solver lia. Qed.

Lemma with_presence_ok k r online seen revision :
  device_row_ok k r -> 0 <= seen -> revision <> 0 -> device_row_ok k (with_presence online seen revision r).
Proof.
  unfold device_row_ok. rewrite !is_ok_true. intros [d Hd] Hs Hr.
  apply scanDevice_Ok in Hd as (Hl & f & Hf & Hv & _).
  exists (device_of k (with_presence online seen revision r) f). apply scanDevice_Ok.
  split; [done|]. exists f. split_and!; [done| |done].
  rewrite Device_Validate_numbers in Hv |- *. destruct Hv as (Hv & _ & _). auto.
Qed.

(** Features survive the JSON column. *)
Lemma featurePattern_plain s : featurePattern s = true -> plain s = true /\ len s <= 64.
Proof.
  unfold featurePattern, pattern, plain. rewrite len_bytes.
  destruct (bytes s) as [|b l]; [done|]. rewrite !andb_true_iff, Z.leb_le. intros [[Hb Hl] Hn].
  assert (forall x, is_lower x || is_upper x || is_digit x || (x =? 46) || (x =? 95) || (x =? 45) = true ->
                    html_safe x = true) as Himp.
  { intros x. unfold is_lower, is_upper, is_digit, html_safe, in_range. lia. }
  split; [|simpl; lia]. simpl. rewrite andb_true_iff. split.
  - apply Himp. by rewrite Hb.
  - eapply forallb_impl; [|exact Hl]. exact Himp.
Qed.

Lemma validate_features_pattern previous fs :
  validate_features previous fs = Ok tt -> Forall (fun f => featurePattern f = true) fs.
Proof.
  revert previous. induction fs as [|f fs IH]; intros previous; simpl; [constructor|].
  rewrite !reject_Ok, not_false_iff_true. intros (Hf & _ & Hr). constructor; eauto.
Qed.

Lemma features_roundtrip fs :
  (length fs <= 64)%nat -> Forall (fun f => featurePattern f = true) fs ->
  json_Unmarshal_strings (json_Marshal_strings fs) = Some fs /\
  len (json_Marshal_strings fs) <= maximumFeaturesJSON.
Proof.
  intros Hn Hf. assert (Forall (fun s => plain s = true) fs) as Hp.
  { eapply Forall_impl; [exact Hf|]. intros f ?. by apply featurePattern_plain. }
  split; [by apply json_strings_roundtrip|].
  pose proof (len_json_Marshal_strings fs Hp) as Hl.
  assert (sum_list_with (fun s => String.length s + 3) fs <= 67 * length fs)%nat as Hs.
  { clear -Hf. induction Hf as [|f fs Hf _ IH]; simpl; [lia|].
    apply featurePattern_plain in Hf as [_ Hf]. unfold len in Hf. lia. }
  unfold maximumFeaturesJSON. lia.
Qed.

Lemma DeviceDescriptor_features d :
  DeviceDescriptor_Validate d = Ok tt ->
  (length d.(dd_Features) <= 64)%nat /\ Forall (fun f => featurePattern f = true) d.(dd_Features) /\
  0 < d.(dd_ProtocolVersion).
Proof.
  unfold DeviceDescriptor_Validate. rewrite !do_Ok, !reject_Ok.
  intros (_ & _ & _ & H1 & H2 & H3). split_and!; [lia|by eapply validate_features_pattern|lia].
Qed.

Lemma registered_row_reads_back d seen revision :
  DeviceDescriptor_Validate d = Ok tt -> 0 <= seen -> 0 < revision ->
  let r := {| dv_name := d.(dd_Name); dv_os := d.(dd_OS); dv_arch := d.(dd_Arch);
              dv_runtime_version := d.(dd_RuntimeVersion); dv_protocol_version := d.(dd_ProtocolVersion);
              dv_features_json := json_Marshal_strings d.(dd_Features); dv_online := true;
              dv_last_seen_at := seen; dv_revision := revision |} in
  scanDevice (Some ((d.(dd_ControllerID), d.(dd_DeviceID)), r)) = Ok (deviceFromDescriptor d seen revision) /\
  device_check r = true.
Proof.
  intros Hv Hs Hr r. destruct (DeviceDescriptor_features d Hv) as (Hn & Hf & Hp).
  destruct (features_roundtrip _ Hn Hf) as [Hj Hl]. split.
  - apply scanDevice_Ok. split; [done|]. exists d.(dd_Features). split; [done|]. split; [|done].
    apply Device_Validate_numbers. simpl. split; [by destruct d|lia].
  - unfold device_check; simpl. lia.
Qed.

(** ** How the device operations change the registry *)

(** One advance of a controller's revision, with the devices that carry the new
    revision; the credentials may evolve in the same transaction. *)
Definition stamps (c : string) (db db' : DB) : Prop :=
  exists current creds devs,
    current = default 0 (db.(controller_registries) !! c) /\ 0 <= current /\ current <> MaxInt64 /\
    valid_id c /\ credentials_evolve db.(credentials) creds /\
    (forall k, devs !! k = db.(devices) !! k \/
       k.1 = c /\ exists r, devs !! k = Some r /\ r.(dv_revision) = current + 1 /\
         ((forall r0, db.(devices) !! k = Some r0 -> device_row_ok k r0) -> device_row_ok k r)) /\
    (forall k, is_Some (db.(devices) !! k) -> is_Some (devs !! k)) /\
    db' = set_devices (set_controller_registries (set_credentials db creds)
            (<[c := current + 1]> db.(controller_registries))) devs.

(** A heartbeat moves [last_seen_at] forward and nothing else. *)
Definition beats (db db' : DB) : Prop :=
  exists k r seen,
    db.(devices) !! k = Some r /\ r.(dv_last_seen_at) < seen /\
    db' = set_devices db (<[k := with_presence r.(dv_online) seen r.(dv_revision) r]> db.(devices)).

(** The effect of any registry operation. *)
Inductive registry_change (db : DB) : DB -> Prop :=
  | change_credentials db' : credentials_only db db' -> registry_change db db'
  | change_stamps c db' : stamps c db db' -> registry_change db db'
  | change_beats db' : beats db db' -> registry_change db db'
  | change_kind kind : db.(broker_metadata) = None -> Kind_Validate kind = Ok tt ->
      registry_change db (set_broker_metadata db (Some kind)).
#[export] Hint Constructors registry_change : go.

Lemma registry_change_refl db : registry_change db db.
Proof. apply change_credentials. auto with go. Qed.
#[export] Hint Resolve registry_change_refl : go.

Lemma queryDevice_row c d db device :
  queryDevice c d db = Ok device ->
  exists r, db.(devices) !! (c, d) = Some r /\ scanDevice (Some ((c, d), r)) = Ok device.
Proof. unfold queryDevice, row_at. destruct (_ !! _); [eauto|done]. Qed.

(** What a read device says of its row. *)
Lemma scanDevice_fields k r device :
  scanDevice (Some (k, r)) = Ok device ->
  device_row_ok k r /\ d_Online device = dv_online r /\ d_LastSeenAt device = dv_last_seen_at r /\
  d_Revision device = dv_revision r /\ d_DeviceID device = k.2 /\ dv_revision r <> 0 /\
  0 <= dv_last_seen_at r.
Proof.
  intros Hs. split; [apply is_ok_true; eauto|].
  apply scanDevice_Ok in Hs as (_ & f & _ & (_ & H1 & H2)%Device_Validate_numbers & ->).
  by split_and!.
Qed.

Lemma device_row_ok_numbers k r : device_row_ok k r -> 0 <= r.(dv_last_seen_at) /\ r.(dv_revision) <> 0.
Proof. intros [d Hd]%is_ok_true. apply scanDevice_fields in Hd. tauto. Qed.

(** A transaction that advances the revision and rewrites one device row. *)
Lemma stamps_one c d db creds current r :
  current = default 0 (db.(controller_registries) !! c) -> 0 <= current -> current <> MaxInt64 ->
  valid_id c -> credentials_evolve db.(credentials) creds -> r.(dv_revision) = current + 1 ->
  ((forall r0, db.(devices) !! (c, d) = Some r0 -> device_row_ok (c, d) r0) -> device_row_ok (c, d) r) ->
  stamps c db (set_devices (set_controller_registries (set_credentials db creds)
    (<[c := current + 1]> db.(controller_registries))) (<[(c, d) := r]> db.(devices))).
Proof.
  intros Hcur Hpos Hmax Hid Hev Hrev Hok. exists current, creds, (<[(c, d) := r]> db.(devices)).
  split_and!; try done.
  - intros k. destruct (decide (k = (c, d))) as [->|Hk].
    + right. split; [done|]. exists r. rewrite lookup_insert_eq. auto.
    + left. by rewrite lookup_insert_ne.
  - intros k Hk. destruct (decide (k = (c, d))) as [->|]; [rewrite lookup_insert_eq; eauto|].
    by rewrite lookup_insert_ne.
Qed.

Ltac next_revision :=
  match goal with H : nextControllerRevision _ _ = Ok (_, _) |- _ =>
    apply nextControllerRevision_Ok in H as (?cur & ?Hcur & ?Hpos & ?Hmax & -> & ->) end.

Lemma registerDevice_effect mac d at_ db device db' :
  registerDevice mac d at_ db = Ok (device, db') ->
  authenticate_registration mac d db = Ok tt /\
  stamps d.(dd_ControllerID) db db' /\
  device = deviceFromDescriptor d at_ (default 0 (db.(controller_registries) !! d.(dd_ControllerID)) + 1) /\
  queryDevice d.(dd_ControllerID) d.(dd_DeviceID) db' = Ok device.
Proof.
  unfold registerDevice. intros H. go_inv. next_revision. unfold unixTime, upsert_device in *. go_inv.
  assert (Hv : DeviceDescriptor_Validate d = Ok tt) by done.
  destruct (registered_row_reads_back d x1
    (default 0 (db.(controller_registries) !! d.(dd_ControllerID)) + 1)) as [Hscan _]; [done|lia|lia|].
  split_and!; [done| |by subst|].
  - apply (stamps_one _ _ _ db.(credentials)); try done.
    + unfold DeviceDescriptor_Validate in Hv. autorewrite with valid in Hv. apply Hv.
    + constructor.
    + intros _. apply is_ok_true. eauto.
  - unfold queryDevice, row_at. simpl. rewrite lookup_insert_eq. exact Hscan.
Qed.

Lemma update_presence_Ok c d set db db' :
  update_presence c d set db = Ok (tt, db') ->
  db' = match db.(devices) !! (c, d) with
        | Some r => set_devices db (<[(c, d) := set r]> db.(devices))
        | None => db
        end.
Proof.
  unfold update_presence, sql_update. destruct (devices db !! (c, d)) as [r|]; [|intros [= <-]; by destruct db].
  destruct (decide _); [done|]. by intros [= <-].
Qed.

Lemma validateDeviceIdentity_Ok c d :
  validateDeviceIdentity c d = Ok tt <-> valid_id c /\ valid_id d.
Proof. unfold validateDeviceIdentity. by rewrite do_Ok, !wrap_Ok. Qed.

Lemma updateDevicePresence_effect c d rev at_ off db device db' :
  updateDevicePresence c d rev at_ off db = Ok (device, db') ->
  exists r, db.(devices) !! (c, d) = Some r /\ r.(dv_revision) = rev /\
    (db' = db \/ (off = false /\ beats db db') \/ (off = true /\ stamps c db db')).
Proof.
  unfold updateDevicePresence. intros H. go_inv.
  match goal with H : queryDevice _ _ _ = _ |- _ => apply queryDevice_row in H as (r & Hr & Hs) end.
  apply scanDevice_fields in Hs as (Hok & Hon & Hseen & Hrev & _ & Hrev0 & Hseen0).
  exists r. split; [done|]. split; [rewrite <- Hrev; by apply dec_stable|].
  destruct (negb (d_Online _)); [destruct off; go_inv; auto|].
  destruct (negb off && _) eqn:E1; [go_inv; auto|]. destruct off; simpl in *; go_inv.
  - right; right. split; [done|]. next_revision.
    match goal with H : update_presence _ _ _ _ = _ |- _ => apply update_presence_Ok in H end.
    simpl in *. rewrite Hr in *. subst.
    match goal with H : validateDeviceIdentity _ _ = _ |- _ => apply validateDeviceIdentity_Ok in H as [??] end.
    eapply (stamps_one _ _ _ db.(credentials)); try done; [constructor|]. intros Hall.
    apply with_presence_ok; [done| |lia]. unfold unixTime in *. go_inv. case_match; lia.
  - right; left. split; [done|].
    match goal with H : update_presence _ _ _ _ = _ |- _ => apply update_presence_Ok in H end.
    rewrite Hr in *. subst. eexists (c, d), r, _. rewrite Hseen in E1.
    split; [done|]. split; [|reflexivity]. lia.
Qed.

Lemma validateCredentialIdentity_Ok c d :
  validateCredentialIdentity c d = Ok tt <-> valid_id c /\ valid_id d.
Proof. unfold validateCredentialIdentity. by rewrite do_Ok, !wrap_Ok. Qed.

Lemma DisableCredential_effect c d db u db' :
  DisableCredential c d db = Ok (u, db') ->
  (exists r, db.(credentials) !! (c, d) = Some r /\
     db'.(credentials) = <[(c, d) := {| cr_token_mac := r.(cr_token_mac); cr_disabled := true;
                           cr_issued_at := r.(cr_issued_at); cr_pending := false |}]> db.(credentials)) /\
  (forall r, db'.(devices) !! (c, d) = Some r -> r.(dv_online) = false) /\
  (credentials_only db db' \/ stamps c db db').
Proof.
  unfold DisableCredential. intros H. go_inv.
  match goal with H : queryCredential _ _ _ = _ |- _ => apply queryCredential_Ok in H as (r & Hr & _) end.
  match goal with H : update_credential _ _ _ _ _ _ = _ |- _ =>
    apply update_credential_Ok in H as [(_ & _ & Hno)|(-> & r' & Hr' & _ & ->)] end.
  { by specialize (Hno r Hr). }
  simplify_eq.
  match goal with H : validateCredentialIdentity _ _ = _ |- _ => apply validateCredentialIdentity_Ok in H as [??] end.
  set (creds := <[(c, d) := _]> (credentials db)) in *.
  assert (credentials_evolve (credentials db) creds) as Hev by (by eapply credential_disabled).
  simpl in *. destruct (devices db !! (c, d)) as [rd|] eqn:Hd; simpl in *.
  - destruct (dv_online rd) eqn:Hon; go_inv.
    + next_revision. match goal with H : update_presence _ _ _ _ = _ |- _ => apply update_presence_Ok in H end.
      simpl in *. rewrite Hd in *. subst. split_and!; [eauto| |].
      * simpl. intros ?. rewrite lookup_insert_eq. by intros [= <-].
      * right. eapply (stamps_one c d db creds); try done. intros Hall.
        specialize (Hall _ Hd). apply with_presence_ok; [done| |lia].
        by apply device_row_ok_numbers in Hall as [? _].
    + split_and!; [eauto| |by left; eexists]. simpl. rewrite Hd. by intros ? [= <-].
  - go_inv. split_and!; [eauto| |by left; eexists]. simpl. by rewrite Hd.
Qed.

Lemma lookup_map_imap_Some {K R} `{Countable K} (f : K -> R -> R) (t : gmap K R) k :
  map_imap (fun k r => Some (f k r)) t !! k = f k <$> t !! k.
Proof. rewrite map_lookup_imap. by destruct (t !! k). Qed.

Lemma markMatchingDevicesOffline_effect c pred db tr db' :
  (forall r, pred r = true -> r.(dv_online) = true) ->
  markMatchingDevicesOffline c pred db = Ok (tr, db') ->
  (db' = db \/ stamps c db db') /\
  (forall d r, db'.(devices) !! (c, d) = Some r -> pred r = false).
Proof.
  intros Hpred. unfold markMatchingDevicesOffline. intros H. go_inv;
    set (P := fun x : (string * string) * DeviceRow => x.1.1 = c /\ pred x.2 = true) in *.
  - split; [by left|]. intros d r Hd. apply not_true_is_false. intros Hp.
    assert (((c, d), r) ∈ select P (devices db)) as Hin by (by apply (elem_of_select P)).
    match goal with H : count _ _ = 0 |- _ => unfold count in H end. destruct (select P (devices db)); [set_solver|by simpl in *].
  - next_revision. destruct (sql_update_where _ _ _ _) as [[n' t]|] eqn:Eu; go_inv.
    unfold sql_update_where in Eu. go_inv. simpl in *.
    set (cur := default 0 _) in *.
    set (f := fun (k : string * string) r => if decide (P (k, r))
              then with_presence false (dv_last_seen_at r) (cur + 1) r else r).
    assert (forall k, map_imap (fun k r => Some (f k r)) (devices db) !! k = f k <$> devices db !! k) as Hl
      by (intros; apply lookup_map_imap_Some).
    split.
    + right. exists cur, (credentials db), (map_imap (fun k r => Some (f k r)) (devices db)).
      split_and!; try done; [constructor| |].
      * intros k. rewrite Hl. destruct (devices db !! k) as [r|] eqn:Hk; [|by left].
        simpl. unfold f. destruct (decide (P (k, r))) as [[Hc Hp]|]; [|by left].
        right. split; [done|]. eexists. split; [done|]. split; [done|]. intros Hall.
        specialize (Hall r eq_refl). apply with_presence_ok; [done| |lia].
        by apply device_row_ok_numbers in Hall as [? _].
      * intros k [r Hr]. rewrite Hl, Hr. simpl. eauto.
    + intros d r. rewrite Hl. destruct (devices db !! (c, d)) as [r0|]; simpl; [|done].
      unfold f. destruct (decide (P ((c, d), r0))) as [[_ Hp]|Hp]; intros [= <-].
      * apply not_true_is_false. by intros ?%Hpred.
      * apply not_true_is_false. intros Hp'. by apply Hp.
Qed.

(** ** The registry invariant *)

(** Every stored row passes the validation of the code that reads it, no two
    credentials share a MAC, and no device carries a revision its controller has
    not reached. *)
Record registry_inv (db : DB) : Prop := {
  ri_revisions c rev : db.(controller_registries) !! c = Some rev -> valid_id c /\ 0 <= rev <= MaxInt64;
  ri_devices k r : db.(devices) !! k = Some r ->
    device_row_ok k r /\ exists rev, db.(controller_registries) !! k.1 = Some rev /\ 0 < r.(dv_revision) <= rev;
  ri_credentials k r : db.(credentials) !! k = Some r -> is_ok (scanCredential (Some (k, r))) = true;
  ri_macs k r k' r' : db.(credentials) !! k = Some r -> db.(credentials) !! k' = Some r' ->
    r.(cr_token_mac) = r'.(cr_token_mac) -> k = k';
  ri_kind kind : db.(broker_metadata) = Some kind -> Kind_Validate kind = Ok tt;
}.

Lemma empty_registry_inv : registry_inv empty_db.
Proof. split; intros; simpl in *; simplify_map_eq. Qed.

(** The invariant concerns four tables. *)
Definition same_registry (db db' : DB) : Prop :=
  db'.(controller_registries) = db.(controller_registries) /\ db'.(devices) = db.(devices) /\
  db'.(credentials) = db.(credentials) /\ db'.(broker_metadata) = db.(broker_metadata).

Lemma registry_inv_frame db db' : registry_inv db -> same_registry db db' -> registry_inv db'.
Proof. intros [H1 H2 H3 H4 H5] (E1 & E2 & E3 & E4). split; rewrite ?E1, ?E2, ?E3, ?E4; done. Qed.

Lemma credentials_evolve_ok t t' :
  credentials_evolve t t' ->
  (forall k r, t !! k = Some r -> is_ok (scanCredential (Some (k, r))) = true) ->
  forall k r, t' !! k = Some r -> is_ok (scanCredential (Some (k, r))) = true.
Proof.
  intros Hev Hall k r Hk. destruct Hev as [|k0 r0 ? ? ?|k0 r0 H0 Hp|k0 r0 H0 Hp|k0 r0 H0].
  { eauto. }
  3: { apply lookup_delete_Some in Hk as [_ Hk]. eauto. }
  all: destruct (decide (k = k0)) as [->|Hne];
    rewrite ?lookup_insert_eq, ?lookup_insert_ne in Hk by done; simplify_eq; eauto.
  all: specialize (Hall _ _ H0); apply scanCredential_is_ok; apply scanCredential_is_ok in Hall as (? & ? & Hc);
    split_and!; [done|done|]; unfold credential_check in *; simpl; lia.
Qed.

Lemma credentials_evolve_macs t t' :
  credentials_evolve t t' ->
  (forall k r k' r', t !! k = Some r -> t !! k' = Some r' -> r.(cr_token_mac) = r'.(cr_token_mac) -> k = k') ->
  forall k r k' r', t' !! k = Some r -> t' !! k' = Some r' -> r.(cr_token_mac) = r'.(cr_token_mac) -> k = k'.
Proof.
  intros Hev Hu k r k' r' Hk Hk' Hm. destruct Hev as [|k0 r0 ? Hf ?|k0 r0 H0 Hp|k0 r0 H0 Hp|k0 r0 H0].
  { eauto. }
  3: { apply lookup_delete_Some in Hk as [_ Hk], Hk' as [_ Hk']. eauto. }
  all: destruct (decide (k = k0)) as [->|Hne], (decide (k' = k0)) as [->|Hne']; [done|..];
    simplify_map_eq; eauto.
  - exfalso. by eapply Hf.
  - exfalso. by eapply Hf.
Qed.

Lemma stamps_inv c db db' : registry_inv db -> stamps c db db' -> registry_inv db'.
Proof.
  intros Hinv (cur & creds & devs & Hcur & Hpos & Hmax & Hid & Hev & Hdev & _ & ->).
  assert (cur < MaxInt64) as Hlt.
  { subst cur. destruct (controller_registries db !! c) as [rev|] eqn:E; simpl in *; [|done].
    apply (ri_revisions _ Hinv) in E. lia. }
  split; simpl.
  - intros c' rev. destruct (decide (c' = c)) as [->|]; rewrite ?lookup_insert_eq, ?lookup_insert_ne by done.
    + intros [= <-]. split; [done|lia].
    + apply (ri_revisions _ Hinv).
  - intros k r Hk. destruct (Hdev k) as [Hsame|(Hc & r' & Hr' & Hrev & Hok)].
    + rewrite Hsame in Hk. destruct (ri_devices _ Hinv _ _ Hk) as (Hok & rev & Hreg & Hle).
      split; [done|]. destruct (decide (k.1 = c)) as [Hc|].
      * exists (cur + 1). rewrite Hc, lookup_insert_eq. split; [done|].
        rewrite Hc in Hreg. rewrite Hreg in Hcur. simpl in Hcur. lia.
      * exists rev. by rewrite lookup_insert_ne.
    + simplify_eq. split.
      * apply Hok. intros r0 Hr0. by apply (ri_devices _ Hinv) in Hr0 as [? _].
      * exists (default 0 (controller_registries db !! k.1) + 1). rewrite lookup_insert_eq. split; [done|lia].
  - eapply credentials_evolve_ok; [done|apply (ri_credentials _ Hinv)].
  - eapply credentials_evolve_macs; [done|apply (ri_macs _ Hinv)].
  - apply (ri_kind _ Hinv).
Qed.

Lemma registry_change_inv db db' : registry_inv db -> registry_change db db' -> registry_inv db'.
Proof.
  intros Hinv Hch. destruct Hch as [db' (t & Hev & ->)|c db' Hs|db' (k & r & seen & Hk & Hlt & ->)|kind Hn Hv].
  - split; simpl; try apply Hinv.
    + eapply credentials_evolve_ok; [done|apply (ri_credentials _ Hinv)].
    + eapply credentials_evolve_macs; [done|apply (ri_macs _ Hinv)].
  - by eapply stamps_inv.
  - split; simpl; try apply Hinv. intros k' r'.
    destruct (decide (k' = k)) as [->|]; rewrite ?lookup_insert_eq, ?lookup_insert_ne by done;
      [|apply (ri_devices _ Hinv)].
    intros [= <-]. destruct (ri_devices _ Hinv _ _ Hk) as (Hok & rev & Hreg & Hle). split; [|eauto].
    pose proof (device_row_ok_numbers _ _ Hok) as [? ?]. apply with_presence_ok; [done|lia|done].
  - split; simpl; try apply Hinv. by intros ? [= <-].
Qed.

(** A device's revision never goes back. *)
Lemma registry_change_revision db db' k r :
  registry_inv db -> registry_change db db' -> db.(devices) !! k = Some r ->
  exists r', db'.(devices) !! k = Some r' /\ r.(dv_revision) <= r'.(dv_revision) /\
    (r'.(dv_revision) = r.(dv_revision) ->
     r'.(dv_online) = r.(dv_online) /\ r.(dv_last_seen_at) <= r'.(dv_last_seen_at)).
Proof.
  intros Hinv Hch Hk.
  assert (r.(dv_revision) <= r.(dv_revision) /\ (r.(dv_revision) = r.(dv_revision) ->
    r.(dv_online) = r.(dv_online) /\ r.(dv_last_seen_at) <= r.(dv_last_seen_at))) as Hsame by auto with lia.
  destruct Hch as [db' (t & Hev & ->)|c db' Hs|db' (k' & r0 & seen & Hk' & Hlt & ->)|kind Hn Hv];
    [by eauto| | |by eauto].
  - destruct Hs as (cur & creds & devs & Hcur & Hpos & Hmax & Hid & Hev & Hdev & _ & ->). simpl.
    destruct (Hdev k) as [->|(<- & r' & Hr' & Hrev & _)]; [by eauto|].
    destruct (ri_devices _ Hinv _ _ Hk) as (_ & rev & Hreg & Hle). rewrite Hreg in Hcur. simpl in Hcur.
    exists r'. split_and!; [done|lia|lia].
  - simpl. destruct (decide (k' = k)) as [->|].
    + simplify_eq. eexists. rewrite lookup_insert_eq. split; [done|]. simpl.
      split; [lia|]. intros _. split; [done|lia].
    + exists r. rewrite lookup_insert_ne by done. auto.
Qed.

(** ** Reading under the invariant *)

Lemma controllerRevision_inv c db :
  registry_inv db -> controllerRevision c db = Ok (default 0 (db.(controller_registries) !! c)).
Proof.
  intros Hinv. unfold controllerRevision. destruct (controller_registries db !! c) as [rev|] eqn:E; [|done].
  apply (ri_revisions _ Hinv) in E. by rewrite decide_False by lia.
Qed.

Lemma queryDevice_inv c d db :
  registry_inv db ->
  match db.(devices) !! (c, d) with
  | None => queryDevice c d db = Err ErrNotFound
  | Some r => exists device, queryDevice c d db = Ok device /\ scanDevice (Some ((c, d), r)) = Ok device
  end.
Proof.
  intros Hinv. unfold queryDevice, row_at. destruct (devices db !! (c, d)) as [r|] eqn:E; [|done]. simpl.
  apply (ri_devices _ Hinv) in E as [Hok _]. apply is_ok_true in Hok as [device Hd]. eauto.
Qed.

Lemma default_revision_above db k r :
  registry_inv db -> db.(devices) !! k = Some r ->
  r.(dv_revision) <= default 0 (db.(controller_registries) !! k.1).
Proof. intros Hinv Hk. destruct (ri_devices _ Hinv _ _ Hk) as (_ & rev & -> & ?). simpl. lia. Qed.

Lemma active_credential mac c d db :
  (let? cred := queryCredentialByMAC mac db in
   reject ErrCredentialDisabled when (c_Disabled cred = true \/ c_Pending cred = true) in
   reject ErrAuthorizationDenied
     when (c_ControllerID cred <> c \/ c_DeviceID cred <> d \/ c_MAC cred <> mac) in Ok tt) = Ok tt ->
  exists r, db.(credentials) !! (c, d) = Some r /\ r.(cr_token_mac) = mac /\ r.(cr_disabled) = false.
Proof.
  unfold queryCredentialByMAC. intros H. go_inv.
  destruct (select_row _ _) as [[k r]|] eqn:E; [|done]. apply select_row_Some in E as [Hk Hm].
  simpl in *. go_inv. simpl in *. exists r. destruct k as [c' d'].
  assert (c' = c) as -> by (apply dec_stable; naive_solver).
  assert (d' = d) as -> by (apply dec_stable; naive_solver).
  split_and!; [done|done|]. apply not_true_is_false. naive_solver.
Qed.

(** An authenticated registration needs an enabled credential whose MAC was
    presented and whose controller and device are those of the descriptor; it
    assigns a revision above the revision of every device of the controller, and
    the device read back from the database is the one returned. *)
Theorem RegisterAuthenticatedDevice_sound mac d at_ db device db' :
  registry_inv db -> RegisterAuthenticatedDevice mac d at_ db = Ok (device, db') ->
  (exists r, db.(credentials) !! (d.(dd_ControllerID), d.(dd_DeviceID)) = Some r /\
     r.(cr_token_mac) = mac /\ r.(cr_disabled) = false) /\
  device = deviceFromDescriptor d at_ device.(d_Revision) /\
  (forall k r, db.(devices) !! k = Some r -> k.1 = d.(dd_ControllerID) ->
     r.(dv_revision) < device.(d_Revision)) /\
  DescribeDevice d.(dd_ControllerID) d.(dd_DeviceID) db' =
    Ok {| dr_RegistryRevision := device.(d_Revision); dr_Device := device |} /\
  registry_inv db'.
Proof.
  intros Hinv Hreg. apply registerDevice_effect in Hreg as (Hauth & Hst & Hdev & Hq).
  assert (registry_inv db') as Hinv' by (eapply stamps_inv; eauto).
  split_and!; [by apply active_credential|by rewrite Hdev| | |done].
  - intros k r Hk Hc. pose proof (default_revision_above db k r Hinv Hk). rewrite Hdev, <- Hc. simpl. lia.
  - unfold DescribeDevice. rewrite Hq, (controllerRevision_inv _ _ Hinv').
    destruct Hst as (cur & creds & devs & Hcur & _ & _ & Hid & _ & _ & _ & ->). simpl in *.
    rewrite lookup_insert_eq. simpl. rewrite <- Hcur in Hdev. subst device.
    destruct (queryDevice_row _ _ _ _ Hq) as (r & Hr & Hs). simpl in Hr.
    assert (valid_id (dd_DeviceID d)) as Hid'.
    { apply scanDevice_Ok in Hs as (_ & f & _ & (Hv & _)%Device_Validate_numbers & _).
      unfold DeviceDescriptor_Validate in Hv. autorewrite with valid in Hv. apply Hv. }
    by rewrite (proj2 (validateDeviceIdentity_Ok _ _) (conj Hid Hid')).
Qed.

Definition sample_controller : string := "11111111-1111-4111-8111-111111111111".
Definition sample_device : string := "55555555-5555-4555-8555-555555555555".
Definition sample_mac : string := "0123456789abcdef0123456789abcdef".
Definition sample_descriptor : DeviceDescriptor := {|
  dd_ControllerID := sample_controller; dd_DeviceID := sample_device; dd_Name := "build-01";
  dd_OS := "linux"; dd_Arch := "amd64"; dd_RuntimeVersion := "1.2.3"; dd_ProtocolVersion := 7;
  dd_Features := ["overlay"; "rollout.capture"] |}.
Definition sample_credential : Credential := NewCredential sample_controller sample_device sample_mac 5.

(** A database with one enrolled device, online. *)
Definition credential_db : DB := (run_tx (CreateCredential sample_credential) empty_db).2.
Definition device_db : DB :=
  (run_tx (RegisterAuthenticatedDevice sample_mac sample_descriptor 100) credential_db).2.

Lemma credential_db_inv : registry_inv credential_db.
Proof.
  assert (CreateCredential sample_credential empty_db = Ok (tt, credential_db)) as H
    by (apply run_tx_value; vm_compute; reflexivity).
  apply CreateCredential_effect in H.
  eapply registry_change_inv; [apply empty_registry_inv|]. by constructor.
Qed.

Lemma device_db_inv : registry_inv device_db.
Proof.
  assert (exists d, RegisterAuthenticatedDevice sample_mac sample_descriptor 100 credential_db =
            Ok (d, device_db)) as [d H] by (apply run_tx_succeeds; vm_compute; reflexivity).
  apply registerDevice_effect in H as (_ & Hs & _).
  eapply stamps_inv; [apply credential_db_inv|exact Hs].
Qed.

Lemma RegisterAuthenticatedDevice_sound_witness :
  exists device, RegisterAuthenticatedDevice sample_mac sample_descriptor 200 device_db =
    Ok (device, (run_tx (RegisterAuthenticatedDevice sample_mac sample_descriptor 200) device_db).2) /\
  registry_inv (run_tx (RegisterAuthenticatedDevice sample_mac sample_descriptor 200) device_db).2.
Proof.
  assert (exists device, RegisterAuthenticatedDevice sample_mac sample_descriptor 200 device_db =
    Ok (device, (run_tx (RegisterAuthenticatedDevice sample_mac sample_descriptor 200) device_db).2)) as [device H]
    by (apply run_tx_succeeds; vm_compute; reflexivity).
  exists device. split; [exact H|].
  apply (RegisterAuthenticatedDevice_sound _ _ _ _ _ _ device_db_inv H).
Defined.

(** ** Heartbeats *)

(** A heartbeat is fenced by the lease revision: with any other revision it
    is refused as stale, for an offline device it is a conflict, and otherwise it
    moves [last_seen_at] forward, never back, and changes nothing else; no case
    other than these exists, and a refused heartbeat leaves the database as it
    was. *)
Theorem HeartbeatDevice_spec c d rev at_ db :
  registry_inv db -> valid_id c -> valid_id d -> 0 < rev -> 0 <= at_ ->
  match db.(devices) !! (c, d) with
  | None => run_tx (HeartbeatDevice c d rev at_) db = (Err ErrNotFound, db)
  | Some r =>
      if decide (r.(dv_revision) <> rev) then
        run_tx (HeartbeatDevice c d rev at_) db = (Err ErrStaleRevision, db)
      else if r.(dv_online) then
        exists device, run_tx (HeartbeatDevice c d rev at_) db =
          (Ok device, set_devices db
             (<[(c, d) := with_presence true (Z.max r.(dv_last_seen_at) at_) rev r]> db.(devices)))
      else run_tx (HeartbeatDevice c d rev at_) db = (Err (Wrap "device is offline" ErrConflict), db)
  end.
Proof.
  intros Hinv Hc Hd Hrev Hat. pose proof (queryDevice_inv c d db Hinv) as Hq.
  assert (validateDeviceIdentity c d = Ok tt) as Hv by (by apply validateDeviceIdentity_Ok).
  assert (unixTime at_ = Ok at_) as Ht by (unfold unixTime; by rewrite decide_False by lia).
  unfold run_tx, HeartbeatDevice, updateDevicePresence, tx_bind, tx_lift, tx_query.
  rewrite Hv, Ht, (decide_False (P := rev = 0)) by lia.
  destruct (devices db !! (c, d)) as [r|] eqn:E; [|by rewrite Hq].
  destruct Hq as (device & -> & Hs). apply scanDevice_fields in Hs as (Hok & -> & -> & -> & _ & _ & Hseen0).
  destruct (decide (dv_revision r <> rev)) as [|Heq%dec_stable]; [done|].
  destruct (dv_online r) eqn:Eon; [|done]. simpl.
  assert (device_check r = true) as Hck.
  { unfold device_row_ok in Hok. apply is_ok_true in Hok as [d' Hd'].
    apply scanDevice_Ok in Hd' as (_ & f & _ & [Hdd _]%Device_Validate_numbers & _).
    apply DeviceDescriptor_features in Hdd as (_ & _ & Hp). unfold device_check. simpl in Hp. lia. }
  destruct (Z.leb_spec at_ (dv_last_seen_at r)).
  - exists device. simpl. rewrite Z.max_l by done. do 2 f_equal. rewrite insert_id; [by destruct db|].
    rewrite E. f_equal. by destruct r; simpl in *; subst.
  - eexists. unfold update_presence. rewrite (sql_update_hit _ _ _ _ _ r); [|done|done|].
    + simpl. do 2 f_equal. rewrite Eon, Z.max_r, Heq by lia. done.
    + unfold device_check in *. simpl. lia.
Qed.

Lemma HeartbeatDevice_spec_witness :
  run_tx (HeartbeatDevice sample_controller sample_device 7 150) device_db = (Err ErrStaleRevision, device_db).
Proof.
  pose proof (HeartbeatDevice_spec sample_controller sample_device 7 150 device_db device_db_inv
    ltac:(vm_compute; reflexivity) ltac:(vm_compute; reflexivity) ltac:(lia) ltac:(lia)) as H.
  vm_compute (devices device_db !! _) in H. exact H.
Defined.

(** ** Publishing a pending credential *)

(** Publication is fenced by the pending enrolment: the publish callback's
    outcome is used only when the stored credential is pending under the
    presented MAC, a callback that succeeds always leaves that credential active,
    and in every other case the database is unchanged. *)
Theorem PublishPendingCredential_fenced c d mac committed outcome db :
  registry_inv db -> valid_id c -> valid_id d ->
  PublishPendingCredential c d mac (Some (committed, outcome)) db =
  match db.(credentials) !! (c, d) with
  | Some r =>
      if decide (r.(cr_pending) = true /\ r.(cr_token_mac) = mac) then
        match outcome with
        | Err e => ((committed, Err e), db)
        | Ok _ => ((committed, Ok tt), set_credentials db
            (<[(c, d) := {| cr_token_mac := mac; cr_disabled := false;
                            cr_issued_at := r.(cr_issued_at); cr_pending := false |}]> db.(credentials)))
        end
      else ((false, Err ErrNotFound), db)
  | None => ((false, Err ErrNotFound), db)
  end.
Proof.
  intros Hinv Hc Hd. unfold PublishPendingCredential.
  rewrite (proj2 (validateCredentialIdentity_Ok c d)) by done.
  unfold queryCredential, row_at. destruct (credentials db !! (c, d)) as [r|] eqn:E; [|done]. simpl fmap.
  pose proof (ri_credentials _ Hinv _ _ E) as Hok.
  pose proof (proj1 (scanCredential_is_ok _ _) Hok) as (_ & _ & Hck).
  apply is_ok_true in Hok as [cred Hs]. rewrite Hs. simpl in Hs. rewrite reject_Ok, do_Ok in Hs.
  destruct Hs as (_ & _ & [= <-]). simpl.
  unfold credential_check in Hck. rewrite !andb_true_iff in Hck. destruct Hck as [[Hlen Hiss] Hpd].
  destruct (decide (cr_pending r = true /\ cr_token_mac r = mac)) as [[Hp Hm]|Hno].
  - rewrite Hp in *. simpl in Hpd. rewrite Hpd, decide_False by naive_solver. destruct outcome as [[]|]; [|done].
    unfold run_tx, tx_bind, update_credential.
    rewrite (sql_update_hit _ _ _ _ _ r); [|done| |].
    + simpl. by rewrite Hm.
    + rewrite Hp, Hpd, bool_decide_eq_true_2; done.
    + unfold credential_check. simpl. lia.
  - rewrite decide_True; [done|]. destruct (cr_pending r); [|auto]. right; right. naive_solver.
Qed.

(** A database with one pending enrolment. *)
Definition pending_credential : Credential := {|
  c_ControllerID := sample_controller; c_DeviceID := sample_device; c_MAC := sample_mac;
  c_Disabled := true; c_Pending := true; c_IssuedAt := 5 |}.
Definition pending_db : DB := (run_tx (CreateCredential pending_credential) empty_db).2.

Lemma pending_db_inv : registry_inv pending_db.
Proof.
  assert (CreateCredential pending_credential empty_db = Ok (tt, pending_db)) as H
    by (apply run_tx_value; vm_compute; reflexivity).
  apply CreateCredential_effect in H.
  eapply registry_change_inv; [apply empty_registry_inv|]. by constructor.
Qed.

Lemma PublishPendingCredential_fenced_witness :
  (PublishPendingCredential sample_controller sample_device sample_mac (Some (true, Ok tt)) pending_db).1 =
  (true, Ok tt).
Proof.
  rewrite (PublishPendingCredential_fenced sample_controller sample_device sample_mac true (Ok tt) pending_db
    pending_db_inv) by (vm_compute; reflexivity).
  vm_compute. reflexivity.
Defined.

(** ** Device pages *)

Arguments scanDevice : simpl never.

Section DevicePages.
Context (c : string) (db : DB) (Hinv : registry_inv db).

Lemma elem_of_device_rows after k r :
  (k, r) ∈ device_rows_after c after db <->
  db.(devices) !! k = Some r /\ k.1 = c /\ String.ltb after k.2 = true.
Proof.
  unfold device_rows_after, order_by_text. rewrite elem_of_sort_by.
  by rewrite (elem_of_select (fun x : (string * string) * DeviceRow => x.1.1 = c /\ _)).
Qed.

Lemma device_rows_keys after :
  NoDup ((fun x : (string * string) * DeviceRow => x.1.2) <$>
    select (fun x : (string * string) * DeviceRow => x.1.1 = c /\ String.ltb after x.1.2 = true) db.(devices)).
Proof.
  apply NoDup_fmap_2_strong; [|apply NoDup_select].
  intros [[c1 d1] r1] [[c2 d2] r2].
  rewrite !(elem_of_select (fun x : (string * string) * DeviceRow => x.1.1 = c /\ _)).
  simpl. intros (H1 & -> & _) (H2 & -> & _) ->. congruence.
Qed.

Lemma ltb_trans a b d : String.ltb a b = true -> String.ltb b d = true -> String.ltb a d = true.
Proof.
  rewrite !ltb_leb, !negb_true_iff. intros H1 H2. apply not_true_is_false. intros H3.
  apply not_true_iff_false in H1, H2. rewrite <- String_le_leb in *.
  destruct (total String.le a b) as [Hab|]; [|done]. apply H2. by etrans.
Qed.

(** The rows after the last device of a page are the rest of the listing. *)
Lemma device_rows_continue after n k r :
  device_rows_after c after db !! n = Some (k, r) ->
  device_rows_after c k.2 db = drop (S n) (device_rows_after c after db).
Proof.
  intros Hn. assert ((k, r) ∈ device_rows_after c after db) as (Hk & Hc & Ha)%elem_of_device_rows
    by (by eapply list_elem_of_lookup_2).
  unfold device_rows_after, order_by_text.
  eapply (sort_by_after String.le); [apply device_rows_keys|apply NoDup_select|exact Hn|].
  intros [k' r']. rewrite !(elem_of_select (fun x : (string * string) * DeviceRow => x.1.1 = c /\ _)). simpl.
  rewrite String_le_leb, not_true_iff_false. split.
  - intros (Hk' & Hc' & Ha'). rewrite ltb_leb, negb_true_iff in Ha'. split; [|done].
    split_and!; [done|done|]. eapply ltb_trans; [exact Ha|]. by rewrite ltb_leb, negb_true_iff.
  - intros ((Hk' & Hc' & _) & Hle). split_and!; [done|done|]. by rewrite ltb_leb, negb_true_iff.
Qed.

Lemma device_rows_scan after n :
  exists ds, result_mapM (fun row => scanDevice (Some row)) (take n (device_rows_after c after db)) = Ok ds.
Proof.
  assert (Forall (fun row => exists d, scanDevice (Some row) = Ok d)
            (take n (device_rows_after c after db))) as Hall.
  { apply Forall_take, Forall_forall. intros [k r] (Hk & _ & _)%elem_of_device_rows.
    apply is_ok_true. by apply (ri_devices _ Hinv) in Hk as [? _]. }
  induction Hall as [|row rows [d Hd] _ [ds Hds]]; [by exists []|]. exists (d :: ds). simpl. by rewrite Hd, Hds.
Qed.

(** One page: the first [limit] devices after the cursor; a nonempty next
    cursor resumes exactly behind them, an empty one ends the listing. *)
Lemma ListDevices_page request :
  valid_id c -> 1 <= request.(dq_Limit) <= MaximumDevicePage ->
  (request.(dq_AfterDeviceID) <> "" -> valid_id request.(dq_AfterDeviceID)) ->
  request.(dq_ExpectedRevision) = Some (default 0 (db.(controller_registries) !! c)) ->
  let rows := device_rows_after c request.(dq_AfterDeviceID) db in
  let n := Z.to_nat request.(dq_Limit) in
  exists page, ListDevices c request db = Ok page /\
    Forall2 (fun row d => scanDevice (Some row) = Ok d) (take n rows) page.(dp_Devices) /\
    ((page.(dp_NextCursor) = "" /\ (length rows <= n)%nat) \/
     (valid_id page.(dp_NextCursor) /\ (n < length rows)%nat /\
      device_rows_after c page.(dp_NextCursor) db = drop n rows)).
Proof.
  intros Hc Hlim Hafter Hexp rows n. destruct request as [after lim exp]. simpl in *. subst exp.
  destruct (device_rows_scan after (Z.to_nat (lim + 1))) as [ds Hds].
  unfold ListDevices; cbn [dq_AfterDeviceID dq_Limit dq_ExpectedRevision]. rewrite Hc. simpl.
  assert (forall rev, validate_device_cursor after (Some rev) = Ok tt) as Hcur.
  { intros rev. unfold validate_device_cursor. destruct (decide (after <> "")) as [Ha|]; [|done].
    by rewrite (Hafter Ha). }
  rewrite Hcur. simpl. rewrite decide_False by lia. rewrite (controllerRevision_inv c db Hinv). simpl.
  rewrite bool_decide_eq_false_2, decide_False by naive_solver. unfold limit. fold rows in Hds |- *.
  rewrite Hds. simpl. apply result_mapM_Ok in Hds. pose proof (Forall2_length _ _ _ Hds) as Hlen.
  rewrite length_take in Hlen.
  assert (take n rows = take n (take (Z.to_nat (lim + 1)) rows)) as Htake.
  { rewrite take_take. f_equal. lia. }
  destruct (Z.ltb_spec lim (Z.of_nat (length ds))) as [Hlt|Hge].
  - eexists. split; [done|]. simpl. split.
    { rewrite Htake. by apply Forall2_take. }
    right. destruct (lookup_lt_is_Some_2 rows (n - 1)%nat) as [[k r] Hkr]; [lia|].
    assert (ds !! Z.to_nat (lim - 1) = ds !! (n - 1)%nat) as -> by (f_equal; lia).
    destruct (lookup_lt_is_Some_2 ds (n - 1)%nat) as [d Hd]; [lia|]. rewrite Hd. simpl.
    assert (scanDevice (Some (k, r)) = Ok d) as Hscan.
    { eapply (Forall2_lookup_lr _ _ _ (n - 1)%nat _ _ Hds); [|done].
      rewrite lookup_take. by rewrite decide_True by lia. }
    apply scanDevice_Ok in Hscan as (_ & f & _ & (Hv & _)%Device_Validate_numbers & ->). simpl.
    unfold DeviceDescriptor_Validate in Hv. autorewrite with valid in Hv. split; [apply Hv|].
    split; [lia|]. rewrite (device_rows_continue after (n - 1) k r Hkr). f_equal. lia.
  - eexists. split; [done|]. simpl.
    assert (length rows <= n)%nat as Hle by lia. split; [|by left].
    rewrite take_ge in Hds by lia. by rewrite take_ge.
Qed.
End DevicePages.

(** A client that follows the cursors of one revision until they end. *)
Fixpoint list_all_devices (fuel : nat) (c : string) (lim revision : Z) (after : string) (db : DB)
    : result (list Device) :=
  match fuel with
  | O => Err (New "too many pages")
  | S fuel =>
      let? page := ListDevices c {| dq_AfterDeviceID := after; dq_Limit := lim;
                                    dq_ExpectedRevision := Some revision |} db in
      if decide (page.(dp_NextCursor) = "") then Ok page.(dp_Devices)
      else
        let? rest := list_all_devices fuel c lim revision page.(dp_NextCursor) db in
        Ok (page.(dp_Devices) ++ rest)
  end.

Lemma list_all_devices_rows c db lim after fuel :
  registry_inv db -> valid_id c -> 1 <= lim <= MaximumDevicePage -> (after <> "" -> valid_id after) ->
  (length (device_rows_after c after db) < fuel)%nat ->
  exists ds, list_all_devices fuel c lim (default 0 (db.(controller_registries) !! c)) after db = Ok ds /\
    Forall2 (fun row d => scanDevice (Some row) = Ok d) (device_rows_after c after db) ds.
Proof.
  intros Hinv Hc Hlim. revert after. induction fuel as [|fuel IH]; intros after Hafter Hfuel; [lia|].
  destruct (ListDevices_page c db Hinv {| dq_AfterDeviceID := after; dq_Limit := lim;
    dq_ExpectedRevision := Some (default 0 (db.(controller_registries) !! c)) |}) as (page & Hp & Hf & Hnext);
    [done..|]. simpl in Hf, Hnext. cbn [list_all_devices]. rewrite Hp. simpl.
  destruct Hnext as [[Hnil Hle]|(Hv & Hlt & Hrest)].
  - rewrite decide_True by done. eexists. split; [done|]. by rewrite take_ge in Hf.
  - rewrite decide_False by (by apply valid_id_nonempty).
    destruct (IH (dp_NextCursor page)) as (rest & Hr & Hfr); [done|rewrite Hrest, length_drop; lia|].
    rewrite Hr. simpl. eexists. split; [done|].
    rewrite <- (take_drop (Z.to_nat lim) (device_rows_after c after db)). rewrite Hrest in Hfr.
    by apply Forall2_app.
Qed.

Lemma ltb_empty s : s <> "" -> String.ltb "" s = true.
Proof. by destruct s. Qed.

(** C38 Paging through the registry is exact: with any legal page limit, following
    the cursors at an unchanged revision ends within one page per device, succeeds,
    and returns every device of the controller exactly once in increasing device
    id order. *)
Theorem ListDevices_paging_exact c lim db :
  registry_inv db -> valid_id c -> 1 <= lim <= MaximumDevicePage ->
  exists ds,
    list_all_devices (S (size db.(devices))) c lim (default 0 (db.(controller_registries) !! c)) "" db = Ok ds /\
    StronglySorted (fun d d' => String.le d.(d_DeviceID) d'.(d_DeviceID)) ds /\ NoDup (d_DeviceID <$> ds) /\
    (forall d device, queryDevice c d db = Ok device <-> (device ∈ ds /\ device.(d_DeviceID) = d)).
Proof.
  intros Hinv Hc Hlim. set (rows := device_rows_after c "" db).
  assert (length rows <= size db.(devices))%nat as Hsize.
  { unfold rows, device_rows_after, order_by_text, select. rewrite sort_by_perm, length_map_to_list.
    apply map_size_filter. }
  destruct (list_all_devices_rows c db lim "" (S (size db.(devices)))) as (ds & Hall & Hf);
    [done|done|done|done|unfold rows in Hsize; lia|].
  fold rows in Hf. exists ds. split; [done|].
  assert (Forall2 (fun row d => d_DeviceID d = row.1.2) rows ds) as Hids.
  { eapply Forall2_impl; [exact Hf|]. intros [k r] d Hs. apply scanDevice_fields in Hs. tauto. }
  assert (d_DeviceID <$> ds = (fun x : (string * string) * DeviceRow => x.1.2) <$> rows) as Heq.
  { clear -Hids. induction Hids; csimpl; [done|]. by f_equal. }
  split_and!.
  - apply StronglySorted_key. rewrite Heq. apply StronglySorted_key, (sort_by_sorted String.le).
  - rewrite Heq. apply NoDup_sort_by, device_rows_keys.
  - intros d device. split.
    + intros (r & Hr & Hs)%queryDevice_row.
      assert (((c, d), r) ∈ rows) as Hin.
      { apply elem_of_device_rows. split_and!; [done|done|]. apply ltb_empty. simpl.
        apply scanDevice_Ok in Hs as (_ & f & _ & (Hv & _)%Device_Validate_numbers & _).
        unfold DeviceDescriptor_Validate in Hv. autorewrite with valid in Hv.
        destruct Hv as (_ & Hd & _). by apply valid_id_nonempty. }
      apply list_elem_of_lookup in Hin as [i Hi]. destruct (Forall2_lookup_l _ _ _ _ _ Hf Hi) as (y & Hy & Hs').
      assert (y = device) as -> by congruence. split; [by eapply list_elem_of_lookup_2|].
      by apply scanDevice_fields in Hs as (_ & _ & _ & _ & ? & _).
    + intros [[i Hi]%list_elem_of_lookup <-].
      destruct (Forall2_lookup_r _ _ _ _ _ Hf Hi) as ([k r] & Hk & Hs).
      apply list_elem_of_lookup_2, elem_of_device_rows in Hk as (Hk & Hc' & _).
      apply scanDevice_fields in Hs as Hfields. destruct Hfields as (_ & _ & _ & _ & -> & _).
      unfold queryDevice, row_at. rewrite <- Hc', <- surjective_pairing, Hk. exact Hs.
Qed.

Lemma ListDevices_paging_exact_witness :
  exists ds, list_all_devices (S (size device_db.(devices))) sample_controller 1
    (default 0 (device_db.(controller_registries) !! sample_controller)) "" device_db = Ok ds.
Proof.
  destruct (ListDevices_paging_exact sample_controller 1 device_db device_db_inv) as (ds & H & _);
    [vm_compute; reflexivity|unfold MaximumDevicePage; lia|]. exists ds. exact H.
Defined.

(** ** Readiness *)

(** Readiness reports are ordered by epoch, then by update time. *)
Definition readiness_before (a b : WorkerReadiness) : Prop :=
  a.(wr_Epoch) < b.(wr_Epoch) \/ (a.(wr_Epoch) = b.(wr_Epoch) /\ a.(wr_UpdatedAt) < b.(wr_UpdatedAt)).

Local Ltac device_read := match goal with H : queryDevice _ _ _ = Ok ?x |- _ => exists x; exact H end.

Lemma PutWorkerReadiness_effect c d r db r' db' :
  PutWorkerReadiness c d r db = Ok (r', db') ->
  r' = r /\ WorkerReadiness_Validate r = Ok tt /\
  (exists device, queryDevice c d db = Ok device) /\
  ((queryWorkerReadiness c d db = Ok r /\ db' = db) \/
   ((forall cur, queryWorkerReadiness c d db = Ok cur -> readiness_before cur r) /\
    upsert_readiness c d r db = Ok db')).
Proof.
  unfold PutWorkerReadiness. intros H. go_inv.
  match goal with H : optional (queryWorkerReadiness _ _ _) = Ok ?o |- _ => destruct o as [cur|] end.
  - match goal with H : optional _ = _ |- _ => apply (proj1 (optional_Ok_Some _ _)) in H; rename H into Hcur end.
    go_inv; (split; [solve [reflexivity|symmetry; by apply dec_stable]|]; split; [hyp|]; split; [device_read|]).
    + left. split; [|reflexivity]. rewrite Hcur. f_equal. symmetry. by apply dec_stable.
    + right. split; [|hyp]. intros cur' Hc'. rewrite Hcur in Hc'. simplify_eq. unfold readiness_before. lia.
  - match goal with H : optional _ = _ |- _ => apply (proj1 (optional_Ok_None _)) in H as (e & He & _) end.
    go_inv. split; [reflexivity|]. split; [hyp|]. split; [device_read|].
    right. split; [|hyp]. intros cur' Hc'. rewrite He in Hc'. discriminate Hc'.
Qed.

(** A stored readiness report only ever moves forward: an accepted report is
    the one stored before or comes strictly after it in (epoch, updatedAt), it is
    what later reads return, and repeating it changes nothing. *)
Theorem PutWorkerReadiness_forward c d r db r' db' :
  PutWorkerReadiness c d r db = Ok (r', db') ->
  r' = r /\ queryWorkerReadiness c d db' = Ok r /\
  (forall cur, queryWorkerReadiness c d db = Ok cur -> cur = r \/ readiness_before cur r) /\
  (forall k, k <> (c, d) -> db'.(device_worker_readiness) !! k = db.(device_worker_readiness) !! k) /\
  PutWorkerReadiness c d r db' = Ok (r, db').
Proof.
  intros Hput. pose proof (PutWorkerReadiness_effect _ _ _ _ _ _ Hput) as (-> & Hv & (device & Hdev) & Hcase).
  assert (Hread : queryWorkerReadiness c d db' = Ok r /\ queryDevice c d db' = Ok device).
  { destruct Hcase as [[Hq ->]|[_ Hup]]; [done|]. unfold upsert_readiness in Hup. go_inv.
    unfold queryWorkerReadiness. simpl. rewrite lookup_insert_eq, Hv. auto. }
  destruct Hread as [Hq Hd]. split_and!; [done|done| | |].
  - intros cur Hc. destruct Hcase as [[Hq' _]|[Hb _]]; [left; congruence|right; auto].
  - intros k Hk. destruct Hcase as [[_ ->]|[_ Hup]]; [done|]. unfold upsert_readiness in Hup. go_inv. simpl.
    by rewrite lookup_insert_ne.
  - unfold PutWorkerReadiness in Hput |- *. go_inv. unfold tx_bind, tx_lift, tx_query.
    match goal with H : validateDeviceIdentity _ _ = _ |- _ => rewrite H end.
    rewrite Hv, Hd, Hq. simpl. rewrite decide_False by lia. rewrite decide_True by done. by rewrite decide_False by auto.
Qed.

Definition sample_readiness : WorkerReadiness := {|
  wr_Epoch := 3; wr_State := "ready"; wr_AttemptCount := 1;
  wr_RuntimeDigest := "ba7816bf8f01cfea414140de5dae2223b00361a396177a9cb410ff61f20015ad";
  wr_ConfigDigest := "ba7816bf8f01cfea414140de5dae2223b00361a396177a9cb410ff61f20015ad";
  wr_EpochStartedAt := 10; wr_NextAttemptAt := 0; wr_LastAttemptAt := 20; wr_FailureCode := "";
  wr_UpdatedAt := 25 |}.

Lemma PutWorkerReadiness_forward_witness :
  exists db', PutWorkerReadiness sample_controller sample_device sample_readiness device_db =
    Ok (sample_readiness, db') /\
  PutWorkerReadiness sample_controller sample_device sample_readiness db' = Ok (sample_readiness, db').
Proof.
  assert (exists db', PutWorkerReadiness sample_controller sample_device sample_readiness device_db =
    Ok (sample_readiness, db')) as [db' H]
    by (eexists; apply run_tx_value; vm_compute; reflexivity).
  exists db'. split; [exact H|]. apply (PutWorkerReadiness_forward _ _ _ _ _ _ H).
Defined.

(** ** The remaining effects *)

Lemma ExpireDevices_effect c cutoff db tr db' :
  ExpireDevices c cutoff db = Ok (tr, db') -> registry_change db db'.
Proof.
  unfold ExpireDevices. intros H. go_inv.
  apply markMatchingDevicesOffline_effect in H0 as [[->|Hs] _]; eauto with go.
  intros r [? _]%andb_prop. done.
Qed.

Lemma BeginBrokerEpoch_effect c kind db r db' :
  BeginBrokerEpoch c kind db = (r, db') ->
  exists db1, registry_change db db1 /\ registry_change db1 db' /\
    (forall tr, r = Ok tr -> forall d row, db'.(devices) !! (c, d) = Some row -> row.(dv_online) = false).
Proof.
  unfold BeginBrokerEpoch. intros H.
  destruct (wrap _ (ValidateID c)); [|simplify_eq; exists db'; split_and!; auto with go; done].
  destruct (Kind_Validate kind) as [[]|] eqn:Hk; [|simplify_eq; exists db'; split_and!; auto with go; done].
  destruct (run_tx (bindBrokerHostKind kind) db) as [[u|e] db1] eqn:Eb; go_inv;
    [|simplify_eq; exists db; split_and!; auto with go; done].
  assert (registry_change db db1) as Hc1.
  { unfold bindBrokerHostKind in Eb. go_inv. destruct (broker_metadata db) eqn:Em; go_inv; auto with go. }
  exists db1. split; [done|]. destruct (run_tx (markMatchingDevicesOffline _ _) db1) as [[tr|e] db2] eqn:E2;
    simplify_eq; go_inv; [|split; [auto with go|done]].
  apply markMatchingDevicesOffline_effect in E2 as [Hch Hoff]; [|done].
  split; [destruct Hch as [->|]; eauto with go|]. intros _ _ d row. apply Hoff.
Qed.
