(* ===== verification/Trees.v ===== *)
(** internal/store/tree.go and principal.go: root trees, principals and the
    authorization every broker request passes. *)

From S2P Require Export Registry.

(** ** Trees *)

(* go: internal/store/tree.go:15-15 maximumCapabilityJSON *)
Definition maximumCapabilityJSON : Z := 4 * 1024.

(* go: internal/store/tree.go scanTree *)
Definition scanTree (row : option ((string * string) * TreeRow)) : result Tree :=
  match row with
  | None => Err ErrNotFound
  | Some (k, r) =>
      let tree := {| t_ControllerID := k.1; t_TreeID := r.(tr_tree_id); t_ExternalThreadID := k.2;
                     t_RootAgentID := r.(tr_root_agent_id); t_RootDeviceID := r.(tr_root_device_id);
                     t_CreatedAt := r.(tr_created_at) |} in
      do? wrap "stored root tree is invalid" (Tree_Validate tree) in
      Ok tree
  end.

(* go: internal/store/tree.go queryTreeByThread *)
Definition queryTreeByThread (controllerID externalThreadID : string) (db : DB) : result Tree :=
  scanTree (row_at db.(trees) (controllerID, externalThreadID)).

(* go: internal/store/tree.go queryTreeByID *)
Definition queryTreeByID (controllerID treeID : string) (db : DB) : result Tree :=
  scanTree (tree_row db controllerID treeID).

(** ** Principals *)

(** [principalSelect] returns NULL for an oversized [capabilities_json]. *)
(* go: internal/store/tree.go:221-272 queryPrincipal *)
Definition scanPrincipal (row : option ((string * string * string) * PrincipalRow)) : result Principal :=
  match row with
  | None => Err ErrNotFound
  | Some (k, r) =>
      reject (New "stored principal capabilities exceed size limit")
        when (len r.(pr_capabilities_json) > maximumCapabilityJSON) in
      reject (New "stored principal createdAt is negative") when (r.(pr_created_at) < 0) in
      match json_Unmarshal_strings r.(pr_capabilities_json) with
      | None => Err (New "decode stored principal capabilities")
      | Some capabilities =>
          let principal := {|
            p_Identity := {| pi_ControllerID := k.1.1; pi_TreeID := k.1.2; pi_AgentID := k.2;
                             pi_ParentAgentID := r.(pr_parent_agent_id); pi_DeviceID := r.(pr_device_id) |};
            p_Capabilities := capabilities |} in
          do? wrap "stored principal is invalid" (Principal_Validate principal) in
          Ok principal
      end
  end.

(* go: internal/store/tree.go queryPrincipal *)
Definition queryPrincipal (controllerID treeID agentID : string) (db : DB) : result Principal :=
  scanPrincipal (row_at db.(principals) (controllerID, treeID, agentID)).

(** ** Authorization *)

(** [errors.Is(err, ErrNotFound)] becomes a denial; other errors pass through. *)
Definition denied {A} (r : result A) : result A :=
  match r with
  | Ok a => Ok a
  | Err e => if errors_Is e ErrNotFound then Err ErrAuthorizationDenied else Err e
  end.

(* go: internal/store/tree.go authorizePrincipal *)
Definition authorizePrincipal (claimed : PrincipalIdentity) (required : Capability) (db : DB) : result Principal :=
  let? principal := denied (queryPrincipal claimed.(pi_ControllerID) claimed.(pi_TreeID)
                              claimed.(pi_AgentID) db) in
  reject ErrAuthorizationDenied when (Principal_Matches principal claimed = false) in
  do? (if decide (p_ParentAgentID principal = "") then
         let? tree := denied (queryTreeByID (p_ControllerID principal) (p_TreeID principal) db) in
         reject ErrAuthorizationDenied
           when (tree.(t_RootAgentID) <> p_AgentID principal \/
                 tree.(t_RootDeviceID) <> p_DeviceID principal) in
         Ok tt
       else
         reject ErrAuthorizationDenied
           when (principal_exists db (p_ControllerID principal) (p_TreeID principal)
                   (p_ParentAgentID principal) = false) in
         Ok tt) in
  reject ErrAuthorizationDenied when (is_ok (control_Require principal required) = false) in
  Ok principal.

(* go: internal/store/tree.go AuthorizePrincipal *)
Definition AuthorizePrincipal (claimed : PrincipalIdentity) (required : Capability) (db : DB) : result Principal :=
  reject (Wrap "invalid claimed identity" ErrAuthorizationDenied)
    when (is_ok (PrincipalIdentity_Validate claimed) = false) in
  reject (Wrap "invalid required capability" ErrAuthorizationDenied)
    when (is_ok (Capability_Validate required) = false) in
  authorizePrincipal claimed required db.

(** ** Creating trees and workers *)

Definition root_tree_row (treeID agentID deviceID : string) (createdAt : Z) : TreeRow := {|
  tr_tree_id := treeID; tr_root_agent_id := agentID; tr_root_device_id := deviceID;
  tr_created_at := createdAt; tr_last_agent_sequence := 0; tr_last_lifecycle_sequence := 0;
  tr_last_artifact_sequence := 0; tr_last_result_sequence := 0 |}.

Definition principal_row (p : Principal) (createdAt : Z) : PrincipalRow := {|
  pr_parent_agent_id := p_ParentAgentID p; pr_device_id := p_DeviceID p;
  pr_capabilities_json := json_Marshal_strings p.(p_Capabilities); pr_created_at := createdAt |}.

(** [newTreeID] and [newAgentID] are what the two calls of [identity.NewID] return. *)
(* go: internal/store/tree.go EnsureRootTree *)
Definition EnsureRootTree (controllerID externalThreadID rootDeviceID : string) (createdAt : Z)
    (newTreeID newAgentID : result string) : Tx DB (Tree * Principal) :=
  do! tx_lift (validate_ids [("controllerId", controllerID); ("threadId", externalThreadID);
                             ("rootDeviceId", rootDeviceID)]) in
  let! createdAtUnix := tx_lift (unixTime createdAt) in
  let! treeID := tx_lift newTreeID in
  let! agentID := tx_lift newAgentID in
  let! existing := tx_query (fun db => optional (queryTreeByThread controllerID externalThreadID db)) in
  match existing with
  | Some tree =>
      fail (Wrap "thread is bound to a different root device" ErrConflict)
        when (tree.(t_RootDeviceID) <> rootDeviceID) in
      let! principal := tx_query (queryPrincipal controllerID tree.(t_TreeID) tree.(t_RootAgentID)) in
      let expected := NewRootPrincipal controllerID tree.(t_TreeID) tree.(t_RootAgentID) rootDeviceID in
      fail (New "stored root principal does not match its tree")
        when (Principal_Matches principal expected.(p_Identity) = false) in
      tx_ret (tree, principal)
  | None =>
      let! device := tx_query (queryDevice controllerID rootDeviceID) in
      fail (Wrap "root device must be an online peer" ErrConflict) when (device.(d_Online) = false) in
      let tree := {| t_ControllerID := controllerID; t_TreeID := treeID;
                     t_ExternalThreadID := externalThreadID; t_RootAgentID := agentID;
                     t_RootDeviceID := rootDeviceID; t_CreatedAt := createdAtUnix |} in
      let principal := NewRootPrincipal controllerID treeID agentID rootDeviceID in
      do! tx_exec (fun db => wrap "create root tree"
            (insert_tree controllerID externalThreadID
               (root_tree_row treeID agentID rootDeviceID createdAtUnix) db)) in
      do! tx_exec (fun db => wrap "create root principal"
            (insert_principal controllerID treeID agentID (principal_row principal createdAtUnix) db)) in
      tx_ret (tree, principal)
  end.

(* go: internal/store/principal.go CreateWorkerPrincipal *)
Definition CreateWorkerPrincipal (controllerID treeID agentID parentAgentID deviceID : string) (createdAt : Z)
    : Tx DB Principal :=
  do! tx_lift (validate_ids [("controllerId", controllerID); ("treeId", treeID); ("agentId", agentID);
                             ("parentAgentId", parentAgentID); ("deviceId", deviceID)]) in
  let! timestamp := tx_lift (unixTime createdAt) in
  let principal := NewWorkerPrincipal controllerID treeID agentID parentAgentID deviceID in
  do! tx_lift (Principal_Validate principal) in
  let! existing := tx_query (fun db => optional (queryPrincipal controllerID treeID agentID db)) in
  match existing with
  | Some stored =>
      fail (Wrap "worker principal already exists with another identity" ErrConflict)
        when (Principal_Matches stored principal.(p_Identity) = false) in
      tx_ret stored
  | None =>
      do! tx_query (queryTreeByID controllerID treeID) in
      do! tx_query (fun db => wrap "worker parent" (queryPrincipal controllerID treeID parentAgentID db)) in
      let! device := tx_query (fun db => wrap "worker device" (queryDevice controllerID deviceID db)) in
      fail (Wrap "worker device must be online" ErrConflict) when (device.(d_Online) = false) in
      do! tx_exec (fun db => wrap "create worker principal"
            (insert_principal controllerID treeID agentID (principal_row principal timestamp) db)) in
      tx_ret principal
  end.

#[global] Arguments scanTree : simpl never.
#[global] Arguments scanPrincipal : simpl never.
#[global] Arguments queryPrincipal : simpl never.
#[global] Arguments queryTreeByID : simpl never.
#[global] Arguments queryTreeByThread : simpl never.
#[global] Arguments queryDevice : simpl never.

(** ** Rows that read back *)

Definition identity_of (k : string * string * string) (r : PrincipalRow) : PrincipalIdentity := {|
  pi_ControllerID := k.1.1; pi_TreeID := k.1.2; pi_AgentID := k.2;
  pi_ParentAgentID := r.(pr_parent_agent_id); pi_DeviceID := r.(pr_device_id) |}.

Definition principal_row_ok (k : string * string * string) (r : PrincipalRow) : Prop :=
  is_ok (scanPrincipal (Some (k, r))) = true.

Definition tree_row_ok (k : string * string) (r : TreeRow) : Prop :=
  is_ok (scanTree (Some (k, r))) = true /\ tree_check r = true.

Lemma scanPrincipal_Ok k r p :
  scanPrincipal (Some (k, r)) = Ok p <->
  len r.(pr_capabilities_json) <= maximumCapabilityJSON /\ 0 <= r.(pr_created_at) /\
  json_Unmarshal_strings r.(pr_capabilities_json) = Some p.(p_Capabilities) /\
  p.(p_Identity) = identity_of k r /\ Principal_Validate p = Ok tt.
Proof.
  unfold scanPrincipal. rewrite !reject_Ok. destruct (json_Unmarshal_strings _) as [caps|].
  - rewrite do_Ok, wrap_Ok. split.
    + intros (Hl & Hc & Hv & [= <-]). split_and!; try done; lia.
    + intros (Hl & Hc & Hu & Hi & Hv). destruct p as [i cs]. simpl in *. simplify_eq.
      split; [lia|]. split; [lia|]. auto.
  - split; [by intros (_ & _ & ?)|by intros (_ & _ & ? & _)].
Qed.

Lemma principal_row_reads_back p at_ :
  Principal_Validate p = Ok tt -> 0 <= at_ ->
  scanPrincipal (Some ((p_ControllerID p, p_TreeID p, p_AgentID p), principal_row p at_)) = Ok p.
Proof.
  intros Hv Hat. apply scanPrincipal_Ok. simpl.
  assert (p.(p_Capabilities) = WorkerCapabilities \/ p.(p_Capabilities) = RootCapabilities) as Hcaps.
  { apply Principal_Validate_Ok in Hv as [_ ->]. unfold role_capabilities. destruct (decide _); auto. }
  split_and!; [|done| |by destruct p as [[]]|done].
  - destruct Hcaps as [-> | ->]; vm_compute; discriminate.
  - destruct Hcaps as [-> | ->]; vm_compute; reflexivity.
Qed.

Lemma principal_row_ok_id k r : principal_row_ok k r -> identity_ok (identity_of k r).
Proof.
  intros [p (_ & _ & _ & Hi & Hv)%scanPrincipal_Ok]%is_ok_true.
  apply Principal_Validate_Ok in Hv as [Hid _]. by rewrite Hi in Hid.
Qed.

(** What a principal read from the database is. *)
Lemma queryPrincipal_Ok c t a db p :
  queryPrincipal c t a db = Ok p ->
  exists r, db.(principals) !! (c, t, a) = Some r /\ p.(p_Identity) = identity_of (c, t, a) r /\
    Principal_Validate p = Ok tt.
Proof.
  unfold queryPrincipal, row_at. destruct (_ !! _) as [r|]; [|done].
  intros (_ & _ & _ & Hi & Hv)%scanPrincipal_Ok. eauto.
Qed.

Lemma scanTree_Ok k r t :
  scanTree (Some (k, r)) = Ok t <->
  t = {| t_ControllerID := k.1; t_TreeID := r.(tr_tree_id); t_ExternalThreadID := k.2;
         t_RootAgentID := r.(tr_root_agent_id); t_RootDeviceID := r.(tr_root_device_id);
         t_CreatedAt := r.(tr_created_at) |} /\ Tree_Validate t = Ok tt.
Proof. unfold scanTree. rewrite do_Ok, wrap_Ok. naive_solver. Qed.

(** ** The invariant of trees and principals *)

(** The ancestor chain of an agent ends at a principal without a parent. *)
Inductive rooted (ps : gmap (string * string * string) PrincipalRow) (c t : string) : string -> Prop :=
  | rooted_root a r : ps !! (c, t, a) = Some r -> r.(pr_parent_agent_id) = "" -> rooted ps c t a
  | rooted_child a r : ps !! (c, t, a) = Some r -> r.(pr_parent_agent_id) <> "" ->
      rooted ps c t r.(pr_parent_agent_id) -> rooted ps c t a.

Lemma rooted_insert ps c t a k r :
  ps !! k = None -> rooted ps c t a -> rooted (<[k := r]> ps) c t a.
Proof.
  intros Hk. induction 1 as [a r' Ha Hp|a r' Ha Hp _ IH].
  - apply (rooted_root _ _ _ _ r'); [|done]. rewrite lookup_insert_ne; [done|congruence].
  - apply (rooted_child _ _ _ _ r'); [|done|done]. rewrite lookup_insert_ne; [done|congruence].
Qed.

(** Every row reads back, tree ids are unique, every tree has its root
    principal, a principal without a parent is its tree's root, and the parents
    of a tree's principals form a tree. *)
Record trees_inv (db : DB) : Prop := {
  ti_trees k r : db.(trees) !! k = Some r -> tree_row_ok k r /\
    exists pr, db.(principals) !! (k.1, r.(tr_tree_id), r.(tr_root_agent_id)) = Some pr /\
      pr.(pr_parent_agent_id) = "" /\ pr.(pr_device_id) = r.(tr_root_device_id);
  ti_unique k k' r r' : db.(trees) !! k = Some r -> db.(trees) !! k' = Some r' -> k.1 = k'.1 ->
    r.(tr_tree_id) = r'.(tr_tree_id) -> k = k';
  ti_principals k r : db.(principals) !! k = Some r ->
    principal_row_ok k r /\ rooted db.(principals) k.1.1 k.1.2 k.2 /\
    exists th tr, db.(trees) !! (k.1.1, th) = Some tr /\ tr.(tr_tree_id) = k.1.2 /\
      (r.(pr_parent_agent_id) = "" -> k.2 = tr.(tr_root_agent_id));
}.

Lemma empty_trees_inv : trees_inv empty_db.
Proof. split; intros; simpl in *; simplify_map_eq. Qed.

(** The invariant concerns two tables. *)
Lemma trees_inv_frame db db' :
  trees_inv db -> db'.(trees) = db.(trees) -> db'.(principals) = db.(principals) -> trees_inv db'.
Proof. intros [H1 H2 H3] Ht Hp. split; rewrite ?Ht, ?Hp; done. Qed.

Lemma tree_row_Some db c t k r :
  tree_row db c t = Some (k, r) -> db.(trees) !! k = Some r /\ k.1 = c /\ r.(tr_tree_id) = t.
Proof. intros H. by apply select_row_Some in H. Qed.

Lemma tree_row_unique db c th t r :
  trees_inv db -> db.(trees) !! (c, th) = Some r -> r.(tr_tree_id) = t ->
  tree_row db c t = Some ((c, th), r).
Proof.
  intros Hinv Hr <-. unfold tree_row. apply (select_row_unique (fun '(k, r') => _)); [|done|done].
  intros k' r' Hk' [Hc Ht]. symmetry. by eapply (ti_unique _ Hinv).
Qed.

Lemma tree_exists_true db c t :
  tree_exists db c t = true <-> exists th r, db.(trees) !! (c, th) = Some r /\ r.(tr_tree_id) = t.
Proof.
  unfold tree_exists. rewrite bool_decide_eq_true. split.
  - intros [[[c' th] r] H]. apply tree_row_Some in H as (Hk & Hc & Ht). simpl in Hc. subst. eauto.
  - intros (th & r & Hr & Ht). apply not_eq_None_Some. unfold tree_row. rewrite select_row_None.
    intros Hno. by apply (Hno _ _ Hr).
Qed.

Lemma insert_principal_Ok c t a r db db' :
  insert_principal c t a r db = Ok db' ->
  db.(principals) !! (c, t, a) = None /\ tree_exists db c t = true /\
  db' = set_principals db (<[(c, t, a) := r]> db.(principals)).
Proof.
  unfold insert_principal. intros H. go_inv. apply sql_insert_Ok in H as ([_ Ht]%andb_prop & Hn & ->). done.
Qed.

(** A new worker below an existing principal keeps the invariant. *)
Lemma insert_worker_inv db c t a r pr :
  trees_inv db -> db.(principals) !! (c, t, a) = None -> tree_exists db c t = true ->
  principal_row_ok (c, t, a) r -> r.(pr_parent_agent_id) <> "" ->
  db.(principals) !! (c, t, r.(pr_parent_agent_id)) = Some pr ->
  trees_inv (set_principals db (<[(c, t, a) := r]> db.(principals))).
Proof.
  intros Hinv Hnew Ht Hok Hpar Hpr. split; simpl.
  - intros k tr Hk. destruct (ti_trees _ Hinv _ _ Hk) as (Hrow & p & Hp & Hrest).
    split; [done|]. exists p. split; [|done]. rewrite lookup_insert_ne; [done|congruence].
  - apply (ti_unique _ Hinv).
  - intros k r' Hk. destruct (decide (k = (c, t, a))) as [->|Hne].
    + rewrite lookup_insert_eq in Hk. simplify_eq. split; [done|]. simpl. split.
      * apply (rooted_child _ _ _ _ r'); [by rewrite lookup_insert_eq|done|].
        apply rooted_insert; [done|]. by apply (ti_principals _ Hinv) in Hpr as (_ & ? & _).
      * apply tree_exists_true in Ht as (th & tr & Htr & <-). exists th, tr. done.
    + rewrite lookup_insert_ne in Hk by done.
      destruct (ti_principals _ Hinv _ _ Hk) as (Hok' & Hroot & Htree).
      split; [done|]. split; [by apply rooted_insert|done].
Qed.

(** A new tree together with its root principal keeps the invariant. *)
Lemma insert_root_inv db c th t a dev at_ :
  trees_inv db -> db.(trees) !! (c, th) = None -> tree_exists db c t = false ->
  db.(principals) !! (c, t, a) = None ->
  valid_id c -> valid_id th -> valid_id t -> valid_id a -> valid_id dev -> 0 <= at_ ->
  let db1 := set_trees db (<[(c, th) := root_tree_row t a dev at_]> db.(trees)) in
  trees_inv (set_principals db1
    (<[(c, t, a) := principal_row (NewRootPrincipal c t a dev) at_]> db1.(principals))).
Proof.
  intros Hinv Hth Ht Hnew Hc Hvth Hvt Hva Hvd Hat db1.
  assert (Hno : forall k r, db.(trees) !! k = Some r -> k.1 = c -> r.(tr_tree_id) <> t).
  { intros [c' th'] r Hr Heq <-. simpl in Heq. subst c'.
    apply not_true_iff_false in Ht. apply Ht, tree_exists_true. eauto. }
  assert (Principal_Validate (NewRootPrincipal c t a dev) = Ok tt) as Hpv.
  { apply Principal_Validate_Ok. split; [by split_and!|done]. }
  split; simpl.
  - intros k r Hk. destruct (decide (k = (c, th))) as [->|Hne].
    + rewrite lookup_insert_eq in Hk. simplify_eq. simpl. split.
      * split; [|unfold tree_check, in_range; simpl; lia]. apply is_ok_true. eexists. apply scanTree_Ok.
        split; [done|]. unfold Tree_Validate. autorewrite with valid. simpl. split_and!; try done. lia.
      * eexists. by rewrite lookup_insert_eq.
    + rewrite lookup_insert_ne in Hk by done. destruct (ti_trees _ Hinv _ _ Hk) as (Hrow & p & Hp & Hrest).
      split; [done|]. exists p. split; [|done]. rewrite lookup_insert_ne; [done|congruence].
  - intros k k' r r' Hk Hk' Hc' Hid.
    destruct (decide (k = (c, th))) as [->|Hne], (decide (k' = (c, th))) as [->|Hne']; simplify_map_eq; try done.
    + exfalso. by eapply Hno.
    + exfalso. by eapply Hno.
    + by eapply (ti_unique _ Hinv).
  - intros k r Hk. destruct (decide (k = (c, t, a))) as [->|Hne].
    + rewrite lookup_insert_eq in Hk. simplify_eq. simpl. split_and!.
      * apply is_ok_true. eexists. by apply (principal_row_reads_back (NewRootPrincipal c t a dev)).
      * eapply rooted_root; [by rewrite lookup_insert_eq|done].
      * exists th. eexists. by rewrite lookup_insert_eq.
    + rewrite lookup_insert_ne in Hk by done.
      destruct (ti_principals _ Hinv _ _ Hk) as (Hok' & Hroot & th' & tr & Htr & Hrest).
      split; [done|]. split; [by apply rooted_insert|]. exists th', tr.
      rewrite lookup_insert_ne; [done|congruence].
Qed.

(** The sequence counters of a tree are not part of its identity. *)
Lemma tree_counters_inv db k r r' :
  trees_inv db -> db.(trees) !! k = Some r -> tree_check r' = true ->
  r'.(tr_tree_id) = r.(tr_tree_id) -> r'.(tr_root_agent_id) = r.(tr_root_agent_id) ->
  r'.(tr_root_device_id) = r.(tr_root_device_id) -> r'.(tr_created_at) = r.(tr_created_at) ->
  trees_inv (set_trees db (<[k := r']> db.(trees))).
Proof.
  intros Hinv Hk Hck H1 H2 H3 H4. split; simpl.
  - intros k' r0 Hk'. destruct (decide (k' = k)) as [->|Hne].
    + rewrite lookup_insert_eq in Hk'. simplify_eq. rewrite H1, H2, H3.
      destruct (ti_trees _ Hinv _ _ Hk) as ([Hs _] & Hp). split; [|done]. split; [|done].
      unfold scanTree in *. by rewrite H1, H2, H3, H4.
    + rewrite lookup_insert_ne in Hk' by done. by apply (ti_trees _ Hinv).
  - intros k1 k2 r1 r2 Hk1 Hk2.
    destruct (decide (k1 = k)) as [->|Hne1], (decide (k2 = k)) as [->|Hne2]; simplify_map_eq; try done;
      rewrite ?H1; by apply (ti_unique _ Hinv).
  - intros kp p Hp. destruct (ti_principals _ Hinv _ _ Hp) as (Hok & Hroot & th & tr & Htr & Hid & Hr).
    split; [done|]. split; [done|]. exists th. destruct (decide ((kp.1.1, th) = k)) as [<-|Hne].
    + exists r'. rewrite lookup_insert_eq. simplify_eq. rewrite H1, H2. done.
    + exists tr. by rewrite lookup_insert_ne.
Qed.

(** ** Reading under the invariant *)

Lemma queryPrincipal_inv c t a db :
  trees_inv db ->
  match db.(principals) !! (c, t, a) with
  | None => queryPrincipal c t a db = Err ErrNotFound
  | Some r => queryPrincipal c t a db =
      Ok {| p_Identity := identity_of (c, t, a) r; p_Capabilities := role_capabilities (identity_of (c, t, a) r) |}
  end.
Proof.
  intros Hinv. destruct (principals db !! (c, t, a)) as [r|] eqn:E.
  - apply (ti_principals _ Hinv) in E as Hok. destruct Hok as [[p Hp]%is_ok_true _].
    unfold queryPrincipal, row_at. rewrite E. cbn [fmap option_fmap option_map]. rewrite Hp. f_equal.
    apply scanPrincipal_Ok in Hp as (_ & _ & _ & Hi & Hv). apply Principal_Validate_Ok in Hv as [_ Hc].
    destruct p; simpl in *. congruence.
  - unfold queryPrincipal, row_at. by rewrite E.
Qed.

Lemma queryTreeByID_inv c t db :
  trees_inv db ->
  match tree_row db c t with
  | None => queryTreeByID c t db = Err ErrNotFound
  | Some (k, r) => exists tree, queryTreeByID c t db = Ok tree /\ scanTree (Some (k, r)) = Ok tree
  end.
Proof.
  intros Hinv. unfold queryTreeByID. destruct (tree_row db c t) as [[k r]|] eqn:E; [|done].
  apply tree_row_Some in E as (Hk & _). apply (ti_trees _ Hinv) in Hk as [[[tree Ht]%is_ok_true _] _]. eauto.
Qed.

Lemma rooted_exists ps c t a : rooted ps c t a -> exists r, ps !! (c, t, a) = Some r.
Proof. destruct 1; eauto. Qed.

Lemma authorize_parent db k r :
  trees_inv db -> db.(principals) !! k = Some r -> r.(pr_parent_agent_id) <> "" ->
  exists pr, db.(principals) !! (k.1.1, k.1.2, r.(pr_parent_agent_id)) = Some pr.
Proof.
  intros Hinv Hk Hp. destruct k as [[c t] a].
  destruct (ti_principals _ Hinv _ _ Hk) as (_ & Hroot & _). simpl in *.
  inversion Hroot as [? r' Hr' Hp'|? r' Hr' Hp' Hpar]; simplify_eq. by eapply rooted_exists.
Qed.

Lemma authorize_root db k r :
  trees_inv db -> db.(principals) !! k = Some r -> r.(pr_parent_agent_id) = "" ->
  exists kt tr, tree_row db k.1.1 k.1.2 = Some (kt, tr) /\ tr.(tr_root_agent_id) = k.2 /\
    tr.(tr_root_device_id) = r.(pr_device_id).
Proof.
  intros Hinv Hk Hp. destruct k as [[c t] a]. simpl in *.
  destruct (ti_principals _ Hinv _ _ Hk) as (_ & _ & th & tr & Htr & Hid & Hroot). simpl in *.
  exists (c, th), tr. split; [by apply tree_row_unique|]. rewrite (Hroot Hp). split; [done|].
  destruct (ti_trees _ Hinv _ _ Htr) as (_ & pr & Hpr & _ & Hdev). simpl in Hpr.
  rewrite Hid, <- (Hroot Hp) in Hpr. congruence.
Qed.

Definition principal_of (i : PrincipalIdentity) : Principal :=
  {| p_Identity := i; p_Capabilities := role_capabilities i |}.

(** [authorizePrincipal] computed on a well-formed database. *)
Lemma authorizePrincipal_eq claimed required db :
  trees_inv db ->
  authorizePrincipal claimed required db =
  match db.(principals) !! (claimed.(pi_ControllerID), claimed.(pi_TreeID), claimed.(pi_AgentID)) with
  | Some r =>
      if decide (identity_of (claimed.(pi_ControllerID), claimed.(pi_TreeID), claimed.(pi_AgentID)) r = claimed /\
                 required ∈ role_capabilities claimed)
      then Ok (principal_of claimed) else Err ErrAuthorizationDenied
  | None => Err ErrAuthorizationDenied
  end.
Proof.
  intros Hinv. unfold authorizePrincipal.
  destruct claimed as [c t a parent dev]; simpl pi_ControllerID; simpl pi_TreeID; simpl pi_AgentID.
  pose proof (queryPrincipal_inv c t a db Hinv) as Hq.
  destruct (principals db !! (c, t, a)) as [r|] eqn:E; rewrite Hq; [|done]. simpl.
  unfold Principal_Matches; simpl. set (i := identity_of (c, t, a) r) in *. set (claimed := Build_PrincipalIdentity _ _ _ _ _).
  destruct (decide (i = claimed)) as [Hi|Hi]; last first.
  { rewrite bool_decide_eq_false_2, decide_True by done. rewrite decide_False; [done|naive_solver]. }
  rewrite bool_decide_eq_true_2, decide_False by done.
  assert (control_Require (principal_of i) required = Ok tt <-> required ∈ role_capabilities i) as Hreq.
  { rewrite control_Require_Ok. simpl. split; [tauto|]. intros Hin. split; [|done].
    apply Principal_Validate_Ok. split; [|done]. apply principal_row_ok_id. by apply (ti_principals _ Hinv) in E as [? _]. }
  assert (Hfinish : (if decide (is_ok (control_Require (principal_of i) required) = false)
            then Err ErrAuthorizationDenied else Ok (principal_of i)) =
          (if decide (i = claimed /\ required ∈ role_capabilities claimed)
           then Ok (principal_of claimed) else Err ErrAuthorizationDenied)).
  { rewrite <- Hi. destruct (control_Require (principal_of i) required) as [[]|] eqn:Er.
    - rewrite decide_False, decide_True; [done| |done]. split; [done|]. by apply Hreq.
    - rewrite decide_True, decide_False; [done| |done]. intros [_ ?%Hreq]. congruence. }
  destruct (decide (pr_parent_agent_id r = "")) as [Hp|Hp].
  - destruct (authorize_root db _ r Hinv E Hp) as (kt & tr & Htr & Hag & Hdev). simpl in *.
    pose proof (queryTreeByID_inv c t db Hinv) as Ht. rewrite Htr in Ht. destruct Ht as (tree & -> & Hs).
    apply scanTree_Ok in Hs as [-> _]. simpl. rewrite Hag, Hdev, decide_False by naive_solver. exact Hfinish.
  - destruct (authorize_parent db _ r Hinv E Hp) as [pr Hpr]. simpl in *.
    unfold principal_exists. rewrite Hpr, bool_decide_eq_true_2, decide_False by eauto. exact Hfinish.
Qed.

(** C4 Authorization is exact. On a well-formed database a claimed identity is
    granted a capability if and only if the stored principal carries exactly that
    identity (controller, tree, agent, parent and device) and the capability
    belongs to its role; every refusal is [ErrAuthorizationDenied]. *)
Theorem authorizePrincipal_exact claimed required db :
  trees_inv db ->
  (forall p, authorizePrincipal claimed required db = Ok p <->
     p = principal_of claimed /\ required ∈ role_capabilities claimed /\
     exists r, db.(principals) !! (claimed.(pi_ControllerID), claimed.(pi_TreeID), claimed.(pi_AgentID)) = Some r /\
       identity_of (claimed.(pi_ControllerID), claimed.(pi_TreeID), claimed.(pi_AgentID)) r = claimed) /\
  (forall e, authorizePrincipal claimed required db = Err e -> e = ErrAuthorizationDenied).
Proof.
  intros Hinv. rewrite (authorizePrincipal_eq _ _ _ Hinv).
  destruct (principals db !! _) as [r|]; [|split; [naive_solver|by intros e [= <-]]].
  destruct (decide _) as [[H1 H2]|Hno]; (split; [|by intros e [= <-]]); intros p; [|naive_solver].
  split; [intros [= <-]; eauto|naive_solver].
Qed.

(** ** Creating roots and workers *)

Lemma queryTreeByThread_inv c th db :
  trees_inv db ->
  match db.(trees) !! (c, th) with
  | None => queryTreeByThread c th db = Err ErrNotFound
  | Some r => queryTreeByThread c th db =
      Ok {| t_ControllerID := c; t_TreeID := r.(tr_tree_id); t_ExternalThreadID := th;
            t_RootAgentID := r.(tr_root_agent_id); t_RootDeviceID := r.(tr_root_device_id);
            t_CreatedAt := r.(tr_created_at) |}
  end.
Proof.
  intros Hinv. unfold queryTreeByThread, row_at. destruct (trees db !! (c, th)) as [r|] eqn:E; [|done].
  apply (ti_trees _ Hinv) in E as [[[tree Ht]%is_ok_true _] _].
  cbn [fmap option_fmap option_map]. rewrite Ht. apply scanTree_Ok in Ht as [-> _]. done.
Qed.

(** The tree bound to a thread and its root principal. *)
Definition bound_tree (c th dev : string) (db : DB) (tree : Tree) (p : Principal) : Prop :=
  exists r, db.(trees) !! (c, th) = Some r /\ r.(tr_root_device_id) = dev /\
    tree = {| t_ControllerID := c; t_TreeID := r.(tr_tree_id); t_ExternalThreadID := th;
              t_RootAgentID := r.(tr_root_agent_id); t_RootDeviceID := dev;
              t_CreatedAt := r.(tr_created_at) |} /\
    p = NewRootPrincipal c r.(tr_tree_id) r.(tr_root_agent_id) dev /\
    exists pr, db.(principals) !! (c, r.(tr_tree_id), r.(tr_root_agent_id)) = Some pr /\
      identity_of (c, r.(tr_tree_id), r.(tr_root_agent_id)) pr = p.(p_Identity).

(** A call on a bound thread only reads. *)
Lemma EnsureRootTree_existing c th dev at_ treeID agentID db r :
  trees_inv db -> valid_id c -> valid_id th -> valid_id dev -> 0 <= at_ ->
  db.(trees) !! (c, th) = Some r ->
  EnsureRootTree c th dev at_ (Ok treeID) (Ok agentID) db =
    if decide (r.(tr_root_device_id) <> dev)
    then Err (Wrap "thread is bound to a different root device" ErrConflict)
    else Ok (({| t_ControllerID := c; t_TreeID := r.(tr_tree_id); t_ExternalThreadID := th;
                 t_RootAgentID := r.(tr_root_agent_id); t_RootDeviceID := dev;
                 t_CreatedAt := r.(tr_created_at) |},
              NewRootPrincipal c r.(tr_tree_id) r.(tr_root_agent_id) dev), db).
Proof.
  intros Hinv Hc Hth Hdev Hat Hr. unfold EnsureRootTree, tx_bind, tx_lift, tx_query.
  assert (validate_ids [("controllerId", c); ("threadId", th); ("rootDeviceId", dev)] = Ok tt) as ->.
  { by apply validate_ids_Ok; repeat constructor. }
  unfold unixTime. rewrite decide_False by lia.
  pose proof (queryTreeByThread_inv c th db Hinv) as Ht. rewrite Hr in Ht. rewrite Ht. simpl.
  destruct (decide (tr_root_device_id r <> dev)) as [|<-%dec_stable]; [done|].
  destruct (ti_trees _ Hinv _ _ Hr) as (_ & pr & Hpr & Hpar & Hpd). simpl in Hpr.
  pose proof (queryPrincipal_inv c (tr_tree_id r) (tr_root_agent_id r) db Hinv) as Hp. rewrite Hpr in Hp.
  rewrite Hp. unfold Principal_Matches. simpl.
  assert (identity_of (c, tr_tree_id r, tr_root_agent_id r) pr =
    p_Identity (NewRootPrincipal c (tr_tree_id r) (tr_root_agent_id r) (tr_root_device_id r))) as Hid.
  { unfold identity_of, NewRootPrincipal. simpl. by rewrite Hpar, Hpd. }
  rewrite bool_decide_eq_true_2, decide_False by done. rewrite Hid. done.
Qed.

Lemma EnsureRootTree_effect c th dev at_ newTree newAgent db tree p db' :
  trees_inv db -> (forall i, newTree = Ok i -> valid_id i) -> (forall i, newAgent = Ok i -> valid_id i) ->
  EnsureRootTree c th dev at_ newTree newAgent db = Ok ((tree, p), db') ->
  trees_inv db' /\ valid_id c /\ valid_id th /\ valid_id dev /\ bound_tree c th dev db' tree p /\
  (db' = db \/ exists treeID agentID, db.(trees) !! (c, th) = None /\ tree_exists db c treeID = false /\
     db.(principals) !! (c, treeID, agentID) = None /\
     db' = set_principals (set_trees db (<[(c, th) := root_tree_row treeID agentID dev at_]> db.(trees)))
             (<[(c, treeID, agentID) := principal_row (NewRootPrincipal c treeID agentID dev) at_]> db.(principals))).
Proof.
  intros Hinv HvT HvA H. assert (H' := H). unfold EnsureRootTree in H. go_inv.
  match goal with H : validate_ids _ = _ |- _ => apply validate_ids_Ok in H; rename H into Hids end.
  rewrite !Forall_cons in Hids. destruct Hids as (Hc & Hth & Hdev & _). simpl in Hc, Hth, Hdev.
  unfold unixTime in *. go_inv.
  pose proof (queryTreeByThread_inv c th db Hinv) as Hq.
  destruct (trees db !! (c, th)) as [r|] eqn:Er; rewrite Hq in *; simpl in *; go_inv.
  - rewrite (EnsureRootTree_existing _ _ _ _ _ _ _ r) in H' by (done || lia). go_inv.
    split_and!; [done|done|done|done| |by left]. exists r. split_and!; [done|done|done|done|].
    destruct (ti_trees _ Hinv _ _ Er) as (_ & pr & Hpr & Hpar & Hpd). exists pr. split; [done|].
    unfold identity_of, NewRootPrincipal; simpl. by rewrite Hpar, Hpd.
  - match goal with H : insert_tree _ _ _ _ = _ |- _ => unfold insert_tree in H; go_inv;
      apply sql_insert_Ok in H as ([_ Hnt]%andb_prop & Hn & ->) end.
    match goal with H : insert_principal _ _ _ _ _ = _ |- _ => apply insert_principal_Ok in H as (Hnp & _ & ->) end.
    rewrite negb_true_iff in Hnt. simpl in *.
    split_and!; [|done|done|done| |].
    + apply insert_root_inv; eauto. lia.
    + eexists. simpl. rewrite lookup_insert_eq. split; [done|]. simpl. split_and!; [done|done|done|].
      eexists. rewrite lookup_insert_eq. split; [done|]. done.
    + right. eexists _, _. split_and!; [done|exact Hnt|exact Hnp|done].
Qed.

(** Binding a thread is idempotent: once [EnsureRootTree] has succeeded, every
    later call for the same thread and device returns the same tree and root
    principal whatever fresh ids it drew, writes nothing, and a call from another
    device is a conflict; the root principal is authorized for every root
    capability. *)
Theorem EnsureRootTree_idempotent c th dev at_ newTree newAgent db tree p db' :
  trees_inv db -> (forall i, newTree = Ok i -> valid_id i) -> (forall i, newAgent = Ok i -> valid_id i) ->
  EnsureRootTree c th dev at_ newTree newAgent db = Ok ((tree, p), db') ->
  trees_inv db' /\
  (forall at2 i j, 0 <= at2 -> EnsureRootTree c th dev at2 (Ok i) (Ok j) db' = Ok ((tree, p), db')) /\
  (forall dev2 at2 i j, 0 <= at2 -> valid_id dev2 -> dev2 <> dev ->
     EnsureRootTree c th dev2 at2 (Ok i) (Ok j) db' =
       Err (Wrap "thread is bound to a different root device" ErrConflict)) /\
  (forall cap, cap ∈ RootCapabilities -> authorizePrincipal p.(p_Identity) cap db' = Ok p).
Proof.
  intros Hinv HvT HvA H.
  destruct (EnsureRootTree_effect _ _ _ _ _ _ _ _ _ _ Hinv HvT HvA H)
    as (Hinv' & Hc & Hth & Hdev & (r & Hr & Hrd & -> & -> & pr & Hpr & Hid) & _).
  split_and!; [done| | |].
  - intros at2 i j Hat. rewrite (EnsureRootTree_existing _ _ _ _ _ _ _ r) by done.
    rewrite decide_False by auto. done.
  - intros dev2 at2 i j Hat Hv2 Hne. rewrite (EnsureRootTree_existing _ _ _ _ _ _ _ r) by done.
    rewrite decide_True; [done|]. congruence.
  - intros cap Hcap. rewrite (authorizePrincipal_eq _ _ _ Hinv'). simpl. rewrite Hpr, decide_True; [done|].
    split; [exact Hid|exact Hcap].
Qed.

Definition sample_thread : string := "77777777-7777-4777-8777-777777777777".
Definition sample_tree : string := "22222222-2222-4222-8222-222222222222".
Definition sample_root : string := "44444444-4444-4444-8444-444444444444".

(** The enrolled device opens a tree. *)
Definition tree_db : DB :=
  (run_tx (EnsureRootTree sample_controller sample_thread sample_device 110 (Ok sample_tree) (Ok sample_root))
     device_db).2.

Lemma tree_db_eq :
  exists r, EnsureRootTree sample_controller sample_thread sample_device 110 (Ok sample_tree) (Ok sample_root)
    device_db = Ok (r, tree_db).
Proof. apply run_tx_succeeds. vm_compute. reflexivity. Qed.

Lemma device_db_trees_inv : trees_inv device_db.
Proof.
  apply (trees_inv_frame empty_db); [apply empty_trees_inv| |]; vm_compute; reflexivity.
Qed.

Lemma ok_valid s : valid_id s -> forall i, Ok s = Ok i -> valid_id i.
Proof. by intros H i [= <-]. Qed.

Lemma tree_db_inv : trees_inv tree_db.
Proof.
  destruct tree_db_eq as [[tree p] H].
  eapply EnsureRootTree_effect; [apply device_db_trees_inv| | |exact H]; apply ok_valid; vm_compute; reflexivity.
Qed.

Lemma authorizePrincipal_exact_witness :
  authorizePrincipal {| pi_ControllerID := sample_controller; pi_TreeID := sample_tree;
    pi_AgentID := sample_root; pi_ParentAgentID := ""; pi_DeviceID := sample_device |}
    CapabilityMessageSendParent tree_db = Err ErrAuthorizationDenied.
Proof.
  set (i := Build_PrincipalIdentity _ _ _ _ _).
  destruct (authorizePrincipal_exact i CapabilityMessageSendParent tree_db tree_db_inv) as [_ H].
  destruct (authorizePrincipal i CapabilityMessageSendParent tree_db) as [p|e] eqn:E.
  - exfalso. revert E. vm_compute. discriminate.
  - by rewrite (H e eq_refl).
Defined.

Lemma EnsureRootTree_idempotent_witness :
  exists r, EnsureRootTree sample_controller sample_thread sample_device 900 (Ok "a") (Ok "b") tree_db =
    Ok (r, tree_db).
Proof.
  destruct tree_db_eq as [[tree p] H].
  destruct (EnsureRootTree_idempotent _ _ _ _ _ _ _ _ _ _ device_db_trees_inv
    (ok_valid sample_tree ltac:(vm_compute; reflexivity)) (ok_valid sample_root ltac:(vm_compute; reflexivity)) H)
    as (_ & Hagain & _).
  exists (tree, p). apply Hagain. lia.
Defined.

Lemma CreateWorkerPrincipal_effect c t a parent dev at_ db p db' :
  trees_inv db -> CreateWorkerPrincipal c t a parent dev at_ db = Ok (p, db') ->
  trees_inv db' /\
  (db' = db \/ db.(principals) !! (c, t, a) = None /\
     db' = set_principals db (<[(c, t, a) := principal_row p at_]> db.(principals))).
Proof.
  intros Hinv H. unfold CreateWorkerPrincipal in H. go_inv. unfold unixTime in *. go_inv.
  pose proof (queryPrincipal_inv c t a db Hinv) as Hq.
  destruct (principals db !! (c, t, a)) as [r|] eqn:E; rewrite Hq in *; simpl in *; go_inv; [auto|].
  match goal with H : insert_principal _ _ _ _ _ = _ |- _ => apply insert_principal_Ok in H as (_ & Ht & ->) end.
  match goal with H : queryPrincipal c t parent db = _ |- _ => apply queryPrincipal_Ok in H as (pr & Hpr & _) end.
  split; [|by right].
  eapply insert_worker_inv; simpl; [done|done|done| |by apply valid_id_nonempty|exact Hpr].
  apply is_ok_true. eexists. apply (principal_row_reads_back (NewWorkerPrincipal c t a parent dev)); [hyp|lia].
Qed.
