(* ===== verification/Mailbox.v ===== *)
(** internal/store/mailbox.go: tree mailboxes. A recipient's mailbox is a FIFO
    queue with a cursor; receipts deduplicate retried sends and are pruned only
    once their message has been acknowledged. *)

From S2P Require Export Trees.

(** ** Definitions *)

(* go: internal/store/mailbox.go:22-28 maximumPendingMailboxMessages *)
Definition maximumPendingMailboxMessages : Z := 1024.
Definition maximumMailboxReceipts : Z := 2 * maximumPendingMailboxMessages.

(* go: internal/store/mailbox.go MailboxDelivery *)
Record MailboxDelivery := {
  md_RecipientAgentID : string;
  md_MessageID : string;
  md_Sequence : Z;
}.

(** A mailbox is identified by controller, tree and recipient. *)
Definition mailbox_key : Type := string * string * string.

Definition in_mailbox (m : string * string * string) (x : (string * string * string * Z) * MessageRow) : Prop :=
  x.1.1 = m.
#[global] Instance in_mailbox_dec m x : Decision (in_mailbox m x).
Proof. unfold in_mailbox. apply _. Defined.

Definition receipt_mailbox (r : ReceiptRow) : string * string * string :=
  (r.(rc_controller_id), r.(rc_tree_id), r.(rc_recipient_agent_id)).
Definition receipt_in (m : string * string * string) (x : string * ReceiptRow) : Prop :=
  receipt_mailbox x.2 = m.
#[global] Instance receipt_in_dec m x : Decision (receipt_in m x).
Proof. unfold receipt_in. apply _. Defined.

(** No pending message carries this id: the LEFT JOIN of the pruning query. *)
Definition not_pending (db : DB) (messageID : string) : bool :=
  none_where (fun x : (string * string * string * Z) * MessageRow => x.2.(ms_message_id) = messageID)
    db.(mailbox_messages).

(** The acknowledged receipts of a mailbox, oldest first. *)
Definition acknowledged_receipts (m : string * string * string) (db : DB) : list (string * ReceiptRow) :=
  order_by (fun x => x.2.(rc_sequence))
    (filter (fun x => not_pending db x.1 = true) (select (receipt_in m) db.(mailbox_receipts))).

(* go: internal/store/mailbox.go pruneAcknowledgedMailboxReceipts *)
Definition pruneAcknowledgedMailboxReceipts (controllerID treeID recipientAgentID : string) : Tx DB unit :=
  fun db =>
    let m := (controllerID, treeID, recipientAgentID) in
    let n := count (receipt_in m) db.(mailbox_receipts) in
    let toDelete := n - maximumMailboxReceipts + 1 in
    if toDelete <=? 0 then Ok (tt, db)
    else
      let victims := (limit toDelete (acknowledged_receipts m db)).*1 in
      let '(deleted, t) := sql_delete (fun x : string * ReceiptRow => x.1 ∈ victims) db.(mailbox_receipts) in
      reject (New "mailbox receipt window is full of pending messages") when (deleted <> toDelete) in
      Ok (tt, set_mailbox_receipts db t).

(* go: internal/store/mailbox.go findMailboxDelivery *)
Definition findMailboxDelivery (source : Principal) (recipientAgentID messageID message : string) (db : DB)
    : result (option MailboxDelivery) :=
  match db.(mailbox_receipts) !! messageID with
  | None => Ok None
  | Some r =>
      reject ErrConflict
        when (r.(rc_controller_id) <> p_ControllerID source \/ r.(rc_tree_id) <> p_TreeID source \/
              r.(rc_recipient_agent_id) <> recipientAgentID \/
              r.(rc_source_agent_id) <> p_AgentID source \/
              r.(rc_source_parent_agent_id) <> p_ParentAgentID source \/
              r.(rc_source_device_id) <> p_DeviceID source \/ r.(rc_message) <> message) in
      Ok (Some {| md_RecipientAgentID := r.(rc_recipient_agent_id); md_MessageID := messageID;
                  md_Sequence := r.(rc_sequence) |})
  end.

(* go: internal/store/mailbox.go resolveMessageRecipient *)
Definition resolveMessageRecipient (source : Principal) (target : MessageTarget) (db : DB) : result string :=
  if decide (p_ParentAgentID source = "") then
    reject ErrAuthorizationDenied
      when (is_ok (control_Require source CapabilityMessageTree) = false \/
            target.(mt_Kind) <> MessageTargetAgent) in
    Ok target.(mt_AgentID)
  else
    reject ErrAuthorizationDenied
      when (is_ok (control_Require source CapabilityMessageSendParent) = false) in
    if decide (target.(mt_Kind) = MessageTargetParent) then Ok (p_ParentAgentID source)
    else if decide (target.(mt_Kind) = MessageTargetRoot) then
      let? tree := queryTreeByID (p_ControllerID source) (p_TreeID source) db in
      Ok tree.(t_RootAgentID)
    else if decide (target.(mt_Kind) = MessageTargetAgent) then Err ErrAuthorizationDenied
    else Err (New "message target was not validated").

(** The stored principal, or a denial when it is missing or differs from the one
    presented: the check both mailbox operations start with. *)
(* go: internal/store/mailbox.go:75-84 sendMailboxMessageTx *)
Definition stored_principal (p : Principal) (db : DB) : result Principal :=
  match queryPrincipal (p_ControllerID p) (p_TreeID p) (p_AgentID p) db with
  | Err e => if errors_Is e ErrNotFound then Err ErrAuthorizationDenied else Err e
  | Ok stored =>
      reject ErrAuthorizationDenied when (Principal_Matches stored p.(p_Identity) = false) in Ok stored
  end.

(** [INSERT INTO mailboxes ... ON CONFLICT DO NOTHING] *)
Definition ensure_mailbox (c t a : string) (db : DB) : result DB :=
  match db.(mailboxes) !! (c, t, a) with
  | Some _ => Ok db
  | None =>
      reject (Wrap "initialize mailbox" SQLiteConstraint) when (principal_exists db c t a = false) in
      Ok (set_mailboxes db (<[(c, t, a) := 0]> db.(mailboxes)))
  end.

Definition insert_receipt (messageID : string) (r : ReceiptRow) (db : DB) : result DB :=
  let? t := sql_insert db.(mailbox_receipts) messageID r
    (receipt_check r &&
     none_where (fun x : string * ReceiptRow =>
       receipt_mailbox x.2 = receipt_mailbox r /\ x.2.(rc_sequence) = r.(rc_sequence)) db.(mailbox_receipts) &&
     mailbox_exists db r.(rc_controller_id) r.(rc_tree_id) r.(rc_recipient_agent_id) &&
     principal_exists db r.(rc_controller_id) r.(rc_tree_id) r.(rc_source_agent_id)) in
  Ok (set_mailbox_receipts db t).

Definition insert_message (c t a : string) (sequence : Z) (r : MessageRow) (db : DB) : result DB :=
  let? tb := sql_insert db.(mailbox_messages) (c, t, a, sequence) r
    (message_check sequence r && not_pending db r.(ms_message_id) &&
     mailbox_exists db c t a && principal_exists db c t r.(ms_source_agent_id)) in
  Ok (set_mailbox_messages db tb).

(* go: internal/store/mailbox.go sendMailboxMessageTx *)
Definition sendMailboxMessageTx (source : Principal) (target : MessageTarget) (messageID message : string)
    (timestamp : Z) : Tx DB MailboxDelivery :=
  let c := p_ControllerID source in
  let t := p_TreeID source in
  let! storedSource := tx_query (stored_principal source) in
  let! recipientAgentID := tx_query (resolveMessageRecipient storedSource target) in
  do! tx_query (queryPrincipal c t recipientAgentID) in
  let! existing := tx_query (findMailboxDelivery source recipientAgentID messageID message) in
  match existing with
  | Some existing => tx_ret existing
  | None =>
      let m := (c, t, recipientAgentID) in
      do! tx_exec (ensure_mailbox c t recipientAgentID) in
      let! pending := tx_query (fun db => Ok (count (in_mailbox m) db.(mailbox_messages))) in
      fail ErrMailboxFull when (maximumPendingMailboxMessages <= pending) in
      let! lastSequence := tx_query (fun db =>
        match db.(mailboxes) !! m with
        | Some s => Ok s
        | None => Err (New "load mailbox sequence: no rows")
        end) in
      fail ErrMailboxSequenceExhausted when (lastSequence = MaxInt64) in
      let sequence := lastSequence + 1 in
      do! pruneAcknowledgedMailboxReceipts c t recipientAgentID in
      do! (fun db =>
        match sql_update db.(mailboxes) m (fun s => s =? lastSequence) (fun _ => sequence) mailbox_check with
        | Ok (_, tb) => Ok (tt, set_mailboxes db tb)
        | Err e => Err (Wrap "advance mailbox sequence" e)
        end) in
      do! tx_exec (fun db => wrap "record mailbox message receipt" (insert_receipt messageID
        {| rc_controller_id := c; rc_tree_id := t; rc_recipient_agent_id := recipientAgentID;
           rc_sequence := sequence; rc_source_agent_id := p_AgentID source;
           rc_source_parent_agent_id := p_ParentAgentID source;
           rc_source_device_id := p_DeviceID source; rc_message := message |} db)) in
      do! tx_exec (fun db => wrap "enqueue mailbox message" (insert_message c t recipientAgentID sequence
        {| ms_message_id := messageID; ms_source_agent_id := p_AgentID source;
           ms_source_parent_agent_id := p_ParentAgentID source;
           ms_source_device_id := p_DeviceID source; ms_message := message;
           ms_created_at := timestamp |} db)) in
      tx_ret {| md_RecipientAgentID := recipientAgentID; md_MessageID := messageID; md_Sequence := sequence |}
  end.

(* go: internal/store/mailbox.go SendMailboxMessage *)
Definition SendMailboxMessage (source : Principal) (target : MessageTarget) (messageID message : string)
    (createdAt : Z) : Tx DB MailboxDelivery :=
  do! tx_lift (wrap "message source" (Principal_Validate source)) in
  do! tx_lift (MessageTarget_Validate target) in
  do! tx_lift (wrap "messageId" (ValidateID messageID)) in
  do! tx_lift (ValidateMailboxMessage message) in
  let! timestamp := tx_lift (unixTime createdAt) in
  sendMailboxMessageTx source target messageID message timestamp.

(** The rows [WHERE ... sequence > cursor ORDER BY sequence]. *)
Definition message_rows_after (m : string * string * string) (cursor : Z) (db : DB)
    : list ((string * string * string * Z) * MessageRow) :=
  order_by (fun x => x.1.2)
    (select (fun x : (string * string * string * Z) * MessageRow => x.1.1 = m /\ cursor < x.1.2)
       db.(mailbox_messages)).

(** One iteration of the scan loop of [ReadMailbox]. *)
(* go: internal/store/mailbox.go:396-420 ReadMailbox *)
Definition scan_message (x : (string * string * string * Z) * MessageRow) : result MailboxMessage :=
  let '((c, t, _, sequence), r) := x in
  let message := {|
    mm_MessageID := r.(ms_message_id); mm_Sequence := sequence;
    mm_Source := {| pi_ControllerID := c; pi_TreeID := t; pi_AgentID := r.(ms_source_agent_id);
                    pi_ParentAgentID := r.(ms_source_parent_agent_id);
                    pi_DeviceID := r.(ms_source_device_id) |};
    mm_Message := r.(ms_message); mm_CreatedAt := r.(ms_created_at) |} in
  do? wrap "stored mailbox message is invalid" (MailboxMessage_Validate message) in
  Ok message.

(** Acknowledging a cursor deletes the messages up to it. *)
Definition acknowledge (m : string * string * string) (cursor : Z) (db : DB) : DB :=
  set_mailbox_messages db
    (sql_delete (fun x : (string * string * string * Z) * MessageRow => x.1.1 = m /\ x.1.2 <= cursor)
       db.(mailbox_messages)).2.

(* go: internal/store/mailbox.go ReadMailbox *)
Definition ReadMailbox (recipient : Principal) (cursor limit_ : Z) : Tx DB WaitMailboxResult :=
  do! tx_lift (wrap "mailbox recipient" (Principal_Validate recipient)) in
  fail ErrMailboxCursorAhead when (cursor > MaxInt64) in
  fail (New "mailbox page limit must be from 1 through %d")
    when (limit_ < 1 \/ limit_ > MaximumMailboxPage) in
  let required := if decide (p_ParentAgentID recipient <> "") then CapabilityMessageReceiveSelf
                  else CapabilityMessageTree in
  fail ErrAuthorizationDenied when (is_ok (control_Require recipient required) = false) in
  let m := (p_ControllerID recipient, p_TreeID recipient, p_AgentID recipient) in
  do! tx_query (stored_principal recipient) in
  let! lastSequence := tx_query (fun db => Ok (db.(mailboxes) !! m)) in
  match lastSequence with
  | None =>
      fail ErrMailboxCursorAhead when (cursor <> 0) in
      tx_ret {| wmr_Messages := []; wmr_NextCursor := cursor |}
  | Some lastSequence =>
      fail ErrMailboxCursorAhead when (cursor > lastSequence) in
      do! (if decide (cursor <> 0) then tx_put (acknowledge m cursor) else tx_ret tt) in
      let! messages := tx_query (fun db =>
        result_mapM scan_message (limit limit_ (message_rows_after m cursor db))) in
      tx_ret {| wmr_Messages := messages;
                wmr_NextCursor := default cursor (mm_Sequence <$> last messages) |}
  end.

#[global] Arguments stored_principal : simpl never.
#[global] Arguments resolveMessageRecipient : simpl never.
#[global] Arguments findMailboxDelivery : simpl never.
#[global] Arguments ensure_mailbox : simpl never.
#[global] Arguments insert_receipt : simpl never.
#[global] Arguments insert_message : simpl never.
#[global] Arguments scan_message : simpl never.
#[global] Arguments pruneAcknowledgedMailboxReceipts : simpl never.

(** ** The abstract queue *)

(** What a mailbox promises: a last assigned sequence number and the messages
    not yet acknowledged, oldest first. *)
Record Queue := { q_last : Z; q_pending : list (Z * MessageRow) }.

Definition queue_send (r : MessageRow) (q : Queue) : Queue :=
  {| q_last := q.(q_last) + 1; q_pending := q.(q_pending) ++ [(q.(q_last) + 1, r)] |}.
Definition queue_ack (cursor : Z) (q : Queue) : Queue :=
  {| q_last := q.(q_last); q_pending := filter (fun x => cursor < x.1) q.(q_pending) |}.
Definition queue_page (cursor n : Z) (q : Queue) : list (Z * MessageRow) :=
  limit n (filter (fun x => cursor < x.1) q.(q_pending)).

(** The queue a database holds for mailbox [m]. *)
Definition last_sequence (m : string * string * string) (db : DB) : Z := default 0 (db.(mailboxes) !! m).
Definition queue (m : string * string * string) (db : DB) : Queue := {|
  q_last := last_sequence m db;
  q_pending := (fun x => (x.1.2, x.2)) <$> message_rows_after m 0 db |}.

(** ** The invariant *)

(** The receipt a pending message must have. *)
Definition receipt_of (m : string * string * string) (sequence : Z) (r : MessageRow) : ReceiptRow := {|
  rc_controller_id := m.1.1; rc_tree_id := m.1.2; rc_recipient_agent_id := m.2; rc_sequence := sequence;
  rc_source_agent_id := r.(ms_source_agent_id);
  rc_source_parent_agent_id := r.(ms_source_parent_agent_id);
  rc_source_device_id := r.(ms_source_device_id); rc_message := r.(ms_message) |}.

(** [acked] is the highest sequence number no longer stored in mailbox [m]: the
    pending messages are exactly those after it. *)
Definition pending_range (m : string * string * string) (acked : Z) (db : DB) : Prop :=
  0 <= acked <= last_sequence m db /\ last_sequence m db - acked <= maximumPendingMailboxMessages /\
  forall sequence, is_Some (db.(mailbox_messages) !! (m, sequence)) <-> acked < sequence <= last_sequence m db.

Record mail_inv (db : DB) : Prop := {
  mi_last m last : db.(mailboxes) !! m = Some last -> 0 <= last <= MaxInt64;
  mi_pending m : exists acked, pending_range m acked db;
  mi_message m sequence r : db.(mailbox_messages) !! (m, sequence) = Some r ->
    is_ok (scan_message ((m, sequence), r)) = true /\
    db.(mailbox_receipts) !! r.(ms_message_id) = Some (receipt_of m sequence r);
  mi_receipt id rc : db.(mailbox_receipts) !! id = Some rc ->
    1 <= rc.(rc_sequence) <= last_sequence (receipt_mailbox rc) db;
  mi_receipt_unique id id' rc rc' :
    db.(mailbox_receipts) !! id = Some rc -> db.(mailbox_receipts) !! id' = Some rc' ->
    receipt_mailbox rc = receipt_mailbox rc' -> rc.(rc_sequence) = rc'.(rc_sequence) -> id = id';
  mi_receipts m : count (receipt_in m) db.(mailbox_receipts) <= maximumMailboxReceipts;
}.

Lemma empty_mail_inv : mail_inv empty_db.
Proof.
  split; simpl; intros; try (by simplify_map_eq); try done.
  exists 0. unfold pending_range, last_sequence, maximumPendingMailboxMessages; simpl. rewrite !lookup_empty. simpl. split_and!; [lia..|].
  intros s. split; [intros [? ?]; simplify_map_eq|lia].
Qed.

Lemma mail_inv_frame db db' :
  mail_inv db -> db'.(mailboxes) = db.(mailboxes) -> db'.(mailbox_messages) = db.(mailbox_messages) ->
  db'.(mailbox_receipts) = db.(mailbox_receipts) -> mail_inv db'.
Proof.
  intros [H1 H2 H3 H4 H5 H6] Hb Hm Hr.
  split; unfold pending_range, last_sequence in *; rewrite ?Hb, ?Hm, ?Hr; done.
Qed.

(** ** Rows of one mailbox *)

Lemma elem_of_message_rows m cursor db k r :
  (k, r) ∈ message_rows_after m cursor db <->
  db.(mailbox_messages) !! k = Some r /\ k.1 = m /\ cursor < k.2.
Proof.
  unfold message_rows_after, order_by. rewrite elem_of_sort_by.
  by rewrite (elem_of_select (fun x : (string * string * string * Z) * MessageRow => x.1.1 = m /\ cursor < x.1.2)).
Qed.

Lemma message_rows_keys m cursor db :
  NoDup ((fun x : (string * string * string * Z) * MessageRow => x.1.2) <$> message_rows_after m cursor db).
Proof.
  unfold message_rows_after, order_by. apply NoDup_sort_by, NoDup_fmap_2_strong; [|apply NoDup_select].
  intros [[m1 s1] r1] [[m2 s2] r2].
  rewrite !(elem_of_select (fun x : (string * string * string * Z) * MessageRow => x.1.1 = m /\ cursor < x.1.2)).
  simpl. intros (H1 & -> & _) (H2 & -> & _) ->. congruence.
Qed.

Lemma message_rows_sorted m cursor db :
  StronglySorted (by_key Z.le (fun x : (string * string * string * Z) * MessageRow => x.1.2))
    (message_rows_after m cursor db).
Proof. apply sort_by_sorted; apply _. Qed.

(** A sorted list with the right elements is the query's result. *)
Lemma message_rows_unique m cursor db l :
  NoDup ((fun x : (string * string * string * Z) * MessageRow => x.1.2) <$> l) ->
  StronglySorted (by_key Z.le (fun x : (string * string * string * Z) * MessageRow => x.1.2)) l ->
  (forall x, x ∈ l <-> db.(mailbox_messages) !! x.1 = Some x.2 /\ x.1.1 = m /\ cursor < x.1.2) ->
  message_rows_after m cursor db = l.
Proof.
  intros Hn Hs Hel. apply (sorted_unique Z.le (fun x : (string * string * string * Z) * MessageRow => x.1.2));
    [apply message_rows_keys|apply message_rows_sorted|done|].
  apply NoDup_Permutation; [eapply NoDup_fmap_1, message_rows_keys|by eapply NoDup_fmap_1|].
  intros [k r]. rewrite elem_of_message_rows, Hel. done.
Qed.

Lemma filter_sorted {A} (R : relation A) (P : A -> Prop) `{!forall x, Decision (P x)} l :
  StronglySorted R l -> StronglySorted R (filter P l).
Proof.
  induction 1 as [|x l Hs IH Hx]; [constructor|]. rewrite filter_cons. destruct (decide (P x)); [|done].
  constructor; [done|]. apply Forall_forall. intros y [_ Hy]%list_elem_of_filter. rewrite Forall_forall in Hx. auto.
Qed.

Lemma filter_NoDup_key {A B} (f : A -> B) (P : A -> Prop) `{!forall x, Decision (P x)} l :
  NoDup (f <$> l) -> NoDup (f <$> filter P l).
Proof.
  induction l as [|x l IH]; [done|]. rewrite filter_cons, fmap_cons. intros [Hx Hn]%NoDup_cons.
  destruct (decide (P x)); [|auto]. rewrite fmap_cons. apply NoDup_cons. split; [|auto].
  rewrite list_elem_of_fmap in *. intros (y & Hy & [_ Hin]%list_elem_of_filter). apply Hx. eauto.
Qed.

Lemma message_rows_filter m cursor db :
  0 <= cursor ->
  message_rows_after m cursor db = filter (fun x => cursor < x.1.2) (message_rows_after m 0 db).
Proof.
  intros Hc. apply message_rows_unique.
  - apply filter_NoDup_key, message_rows_keys.
  - apply filter_sorted, message_rows_sorted.
  - intros [k r]. rewrite list_elem_of_filter, elem_of_message_rows. simpl. naive_solver lia.
Qed.

(** The number of pending messages is the width of the pending range. *)
Lemma count_pending m acked db :
  pending_range m acked db ->
  count (in_mailbox m) db.(mailbox_messages) = last_sequence m db - acked.
Proof.
  intros (Hrange & _ & Hdom). unfold count.
  assert ((fun x : (string * string * string * Z) * MessageRow => x.1.2) <$>
            select (in_mailbox m) db.(mailbox_messages) ≡ₚ seqZ (acked + 1) (last_sequence m db - acked)) as Hp.
  { apply NoDup_Permutation; [|apply NoDup_seqZ|].
    - apply NoDup_fmap_2_strong; [|apply NoDup_select].
      intros [[m1 s1] r1] [[m2 s2] r2]. rewrite !(elem_of_select (in_mailbox m)). unfold in_mailbox; simpl.
      intros (H1 & ->) (H2 & ->) ->. congruence.
    - intros s. rewrite list_elem_of_fmap, elem_of_seqZ. split.
      + intros ([[m' s'] r] & -> & [Hr Hm]%(elem_of_select (in_mailbox m))). unfold in_mailbox in Hm. simpl in *. subst m'.
        assert (is_Some (db.(mailbox_messages) !! (m, s'))) as H%Hdom by eauto. lia.
      + intros Hs. destruct (proj2 (Hdom s)) as [r Hr]; [lia|]. exists ((m, s), r). split; [done|].
        by apply (elem_of_select (in_mailbox m)). }
  apply Permutation_length in Hp. rewrite length_fmap, length_seqZ in Hp. lia.
Qed.

(** ** Pruning receipts *)

(** A list of distinct keys of a table selects as many rows. *)
Lemma count_keys {K R} `{Countable K} (t : gmap K R) (ks : list K) (P : K * R -> Prop)
    `{!forall x, Decision (P x)} :
  NoDup ks -> (forall k, k ∈ ks -> is_Some (t !! k)) -> (forall x, P x <-> x.1 ∈ ks) ->
  count P t = Z.of_nat (length ks).
Proof.
  intros Hn Hin HP. unfold count. f_equal. rewrite <- (length_fmap fst). apply Permutation_length.
  apply NoDup_Permutation; [apply NoDup_fst_select|done|]. intros k. rewrite list_elem_of_fmap. split.
  - intros ([k' r] & -> & [_ Hk]%(elem_of_select P)). by apply HP in Hk.
  - intros Hk. destruct (Hin k Hk) as [r Hr]. exists (k, r). split; [done|]. apply (elem_of_select P).
    split; [done|]. by apply HP.
Qed.

(** Deleting distinct keys that satisfy [P] removes exactly that many rows. *)
Lemma count_after_delete {K R} `{Countable K} (t : gmap K R) (P : K * R -> Prop)
    `{!forall x, Decision (P x)} (ks : list K) :
  NoDup ks -> (forall k, k ∈ ks -> exists r, t !! k = Some r /\ P (k, r)) ->
  count P (filter (fun x : K * R => x.1 ∉ ks) t) = count P t - Z.of_nat (length ks).
Proof.
  intros Hn Hin. unfold count.
  assert (select P (filter (fun x : K * R => x.1 ∉ ks) t) ≡ₚ filter (fun x => x.1 ∉ ks) (select P t)) as H1.
  { apply NoDup_Permutation; [apply NoDup_select|apply NoDup_filter, NoDup_select|].
    intros [k r]. rewrite list_elem_of_filter, !(elem_of_select P), map_lookup_filter_Some. naive_solver. }
  assert ((filter (fun x => x.1 ∈ ks) (select P t)).*1 ≡ₚ ks) as H2.
  { apply NoDup_Permutation; [|done|].
    - apply filter_NoDup_key, NoDup_fst_select.
    - intros k. rewrite list_elem_of_fmap. split.
      + intros ([k' r] & -> & [Hk _]%list_elem_of_filter). done.
      + intros Hk. destruct (Hin k Hk) as (r & Hr & HP). exists (k, r). split; [done|].
        apply list_elem_of_filter. split; [done|]. by apply (elem_of_select P). }
  pose proof (Permutation_length H1) as L1. pose proof (Permutation_length H2) as L2.
  pose proof (Permutation_length (filter_app_complement (fun x : K * R => x.1 ∈ ks) (select P t))) as L3.
  rewrite length_app in L3. rewrite length_fmap in L2.
  rewrite L1, <- L3. lia.
Qed.

Section Prune.
Context (db : DB) (Hinv : mail_inv db) (m : string * string * string).

Lemma not_pending_false id :
  not_pending db id = false ->
  exists m' s r, db.(mailbox_messages) !! (m', s) = Some r /\ r.(ms_message_id) = id.
Proof.
  intros Hf. unfold not_pending, none_where in Hf. apply bool_decide_eq_false in Hf.
  destruct (select _ _) as [|[[m' s] r] l] eqn:E; [done|]. exists m', s, r.
  apply (elem_of_select (fun x : (string * string * string * Z) * MessageRow => x.2.(ms_message_id) = id)).
  rewrite E. set_solver.
Qed.

(** Receipts of pending messages are no more than the pending messages. *)
Lemma pending_receipts_bound :
  Z.of_nat (length (filter (fun x : string * ReceiptRow => ~ not_pending db x.1 = true)
                      (select (receipt_in m) db.(mailbox_receipts)))) <=
  count (in_mailbox m) db.(mailbox_messages).
Proof.
  set (l := filter _ _). unfold count. apply Nat2Z.inj_le.
  rewrite <- (length_fmap (fun x : string * ReceiptRow => x.2.(rc_sequence))).
  rewrite <- (length_fmap (fun x : (string * string * string * Z) * MessageRow => x.1.2)).
  apply submseteq_length, NoDup_submseteq.
  - apply NoDup_fmap_2_strong; [|apply NoDup_filter, NoDup_select].
    intros [i1 r1] [i2 r2] [_ [H1 M1]%(elem_of_select (receipt_in m))]%list_elem_of_filter
      [_ [H2 M2]%(elem_of_select (receipt_in m))]%list_elem_of_filter Hs. simpl in Hs.
    assert (i1 = i2) as -> by (eapply (mi_receipt_unique _ Hinv); [exact H1|exact H2|by rewrite M1, M2|done]).
    congruence.
  - intros s. rewrite !list_elem_of_fmap.
    intros ([id rc] & -> & [Hp [Hrc Hm]%(elem_of_select (receipt_in m))]%list_elem_of_filter).
    simpl in Hp. rewrite not_true_iff_false in Hp. apply not_pending_false in Hp as (m' & s & r & Hr & <-).
    destruct (mi_message _ Hinv _ _ _ Hr) as [_ Hrec]. rewrite Hrec in Hrc. simplify_eq.
    unfold receipt_in, receipt_mailbox in Hm. simpl in Hm.
    exists ((m', s), r). split; [done|]. apply (elem_of_select (in_mailbox m)). split; [done|].
    unfold in_mailbox. simpl. rewrite <- Hm. by destruct m' as [[]].
Qed.

Lemma acknowledged_enough :
  count (receipt_in m) db.(mailbox_receipts) - count (in_mailbox m) db.(mailbox_messages) <=
  Z.of_nat (length (acknowledged_receipts m db)).
Proof.
  unfold acknowledged_receipts, order_by. rewrite sort_by_perm. unfold count at 1.
  set (S := select (receipt_in m) db.(mailbox_receipts)).
  pose proof (Permutation_length (filter_app_complement
    (fun x : string * ReceiptRow => not_pending db x.1 = true) S)) as L.
  rewrite length_app in L. pose proof pending_receipts_bound as Hb. fold S in Hb. lia.
Qed.

(** The fact the send path rests on: with room in the mailbox, pruning always
    finds enough acknowledged receipts. *)
Lemma prune_Ok :
  count (in_mailbox m) db.(mailbox_messages) < maximumPendingMailboxMessages ->
  exists t, pruneAcknowledgedMailboxReceipts m.1.1 m.1.2 m.2 db = Ok (tt, set_mailbox_receipts db t) /\
    t ⊆ db.(mailbox_receipts) /\
    (forall id rc, db.(mailbox_receipts) !! id = Some rc ->
       not_pending db id = false \/ receipt_mailbox rc <> m -> t !! id = Some rc) /\
    count (receipt_in m) t < maximumMailboxReceipts.
Proof.
  intros Hroom. unfold pruneAcknowledgedMailboxReceipts. rewrite <- !surjective_pairing.
  pose proof acknowledged_enough as Henough. pose proof (mi_receipts _ Hinv m) as Hmax.
  set (n := count (receipt_in m) db.(mailbox_receipts)) in *.
  unfold maximumMailboxReceipts, maximumPendingMailboxMessages in *.
  destruct (Z.leb_spec (n - 2 * 1024 + 1) 0) as [Hle|Hgt].
  { exists db.(mailbox_receipts). split_and!; [by destruct db|done|done|lia]. }
  set (victims := (limit (n - 2 * 1024 + 1) (acknowledged_receipts m db)).*1).
  assert (Z.of_nat (length victims) = n - 2 * 1024 + 1) as Hlen.
  { unfold victims, limit. rewrite length_fmap, length_take. lia. }
  assert (forall x, x ∈ acknowledged_receipts m db -> db.(mailbox_receipts) !! x.1 = Some x.2 /\
            receipt_mailbox x.2 = m /\ not_pending db x.1 = true) as Hack.
  { intros [id rc]. unfold acknowledged_receipts, order_by. rewrite elem_of_sort_by, list_elem_of_filter.
    rewrite (elem_of_select (receipt_in m)). unfold receipt_in. naive_solver. }
  assert (NoDup victims) as Hnd.
  { unfold victims, limit. rewrite fmap_take.
    assert (NoDup (acknowledged_receipts m db).*1) as Hall.
    { unfold acknowledged_receipts, order_by. rewrite sort_by_perm. apply filter_NoDup_key, NoDup_fst_select. }
    eapply sublist_NoDup; [exact Hall|]. apply sublist_take. }
  assert (forall id, id ∈ victims -> exists rc, db.(mailbox_receipts) !! id = Some rc /\
            receipt_in m (id, rc) /\ not_pending db id = true) as Hvic.
  { intros id (x & -> & Hx)%list_elem_of_fmap. unfold limit in Hx. apply elem_of_take in Hx as (i & Hi & _).
    apply list_elem_of_lookup_2, Hack in Hi as (H1 & H2 & H3). eauto. }
  unfold sql_delete. rewrite (count_keys _ victims); [|done|naive_solver|done].
  rewrite decide_False by (rewrite Hlen; lia).
  exists (filter (fun x : string * ReceiptRow => ~ x.1 ∈ victims) db.(mailbox_receipts)).
  split_and!; [done|apply map_filter_subseteq| |].
  - intros id rc Hrc Hor. apply map_lookup_filter_Some. split; [done|]. simpl. intros Hv.
    destruct (Hvic id Hv) as (rc' & Hrc' & Hm & Hnp). unfold receipt_in in Hm. simplify_eq/=.
    destruct Hor; congruence.
  - rewrite count_after_delete; [|done|naive_solver]. unfold n in *. lia.
Qed.
End Prune.

(** ** Enqueueing *)

(** The receipts left after pruning for mailbox [m]: a part of the table that
    keeps every receipt of another mailbox and of a pending message. *)
Definition pruned (m : string * string * string) (db : DB) (t : gmap string ReceiptRow) : Prop :=
  t ⊆ db.(mailbox_receipts) /\
  (forall id rc, db.(mailbox_receipts) !! id = Some rc ->
     not_pending db id = false \/ receipt_mailbox rc <> m -> t !! id = Some rc) /\
  count (receipt_in m) t < maximumMailboxReceipts.

(** The database after message [r] has been appended to mailbox [m]. *)
Definition enqueue (m : string * string * string) (r : MessageRow) (t : gmap string ReceiptRow) (db : DB) : DB :=
  let sequence := last_sequence m db + 1 in
  set_mailbox_messages
    (set_mailbox_receipts (set_mailboxes db (<[m := sequence]> db.(mailboxes)))
       (<[r.(ms_message_id) := receipt_of m sequence r]> t))
    (<[(m, sequence) := r]> db.(mailbox_messages)).

Lemma last_sequence_enqueue m m' r t db :
  last_sequence m' (enqueue m r t db) = if decide (m' = m) then last_sequence m db + 1 else last_sequence m' db.
Proof.
  unfold last_sequence, enqueue; simpl. destruct (decide (m' = m)) as [->|].
  - by rewrite lookup_insert_eq.
  - by rewrite lookup_insert_ne.
Qed.

Lemma last_sequence_nonneg m db : mail_inv db -> 0 <= last_sequence m db.
Proof. intros Hinv. destruct (mi_pending _ Hinv m) as (acked & ? & _). lia. Qed.

Lemma no_message_after_last m db s : mail_inv db -> last_sequence m db < s -> db.(mailbox_messages) !! (m, s) = None.
Proof.
  intros Hinv Hs. destruct (mi_pending _ Hinv m) as (acked & _ & _ & Hdom).
  apply eq_None_not_Some. intros H%Hdom. lia.
Qed.

Lemma count_insert {K R} `{Countable K} (t : gmap K R) (P : K * R -> Prop) `{!forall x, Decision (P x)} k r :
  t !! k = None -> count P (<[k := r]> t) = count P t + (if decide (P (k, r)) then 1 else 0).
Proof.
  intros Hk. unfold count, select. destruct (decide (P (k, r))) as [HP|HP].
  - rewrite map_filter_insert_True by done.
    rewrite map_to_list_insert; [simpl; lia|]. apply map_lookup_filter_None. by left.
  - rewrite map_filter_insert_False by done. rewrite delete_id by done. lia.
Qed.

Lemma count_mono {K R} `{Countable K} (t t' : gmap K R) (P : K * R -> Prop) `{!forall x, Decision (P x)} :
  t ⊆ t' -> count P t <= count P t'.
Proof.
  intros Hsub. unfold count. apply Nat2Z.inj_le, submseteq_length, NoDup_submseteq; [apply NoDup_select|].
  intros [k r]. rewrite !(elem_of_select P). intros [Hk HP]. split; [by eapply lookup_weaken|done].
Qed.

Lemma enqueue_inv m r t db :
  mail_inv db -> count (in_mailbox m) db.(mailbox_messages) < maximumPendingMailboxMessages ->
  last_sequence m db < MaxInt64 -> db.(mailbox_receipts) !! r.(ms_message_id) = None ->
  is_ok (scan_message ((m, last_sequence m db + 1), r)) = true -> pruned m db t ->
  mail_inv (enqueue m r t db).
Proof.
  intros Hinv Hroom Hlast Hnew Hscan (Hsub & Hkeep & Hcount).
  assert (t !! ms_message_id r = None) as Hnewt.
  { destruct (t !! ms_message_id r) as [rc|] eqn:E; [|done]. rewrite (lookup_weaken _ _ _ _ E Hsub) in Hnew. done. }
  pose proof (last_sequence_nonneg m db Hinv) as Hlast0.
  assert (forall id rc, t !! id = Some rc -> receipt_mailbox rc = m -> rc.(rc_sequence) <= last_sequence m db) as Hle.
  { intros id rc Hrc Hm. pose proof (mi_receipt _ Hinv _ _ (lookup_weaken _ _ _ _ Hrc Hsub)). rewrite Hm in *. lia. }
  split.
  - intros m' last. unfold enqueue; simpl. destruct (decide (m' = m)) as [->|].
    + rewrite lookup_insert_eq. intros [= <-]. lia.
    + rewrite lookup_insert_ne by done. apply (mi_last _ Hinv).
  - intros m'. destruct (mi_pending _ Hinv m') as (acked & Hrange & Hwidth & Hdom). exists acked.
    unfold pending_range. rewrite last_sequence_enqueue. destruct (decide (m' = m)) as [->|Hne].
    + rewrite (count_pending m acked) in Hroom by exact (conj Hrange (conj Hwidth Hdom)).
      split; [lia|]. split; [lia|]. intros s. simpl. destruct (decide (s = last_sequence m db + 1)) as [->|Hs].
      * rewrite lookup_insert_eq. split; [lia|eauto].
      * rewrite lookup_insert_ne by congruence. rewrite Hdom. lia.
    + split; [done|]. split; [done|]. intros s. simpl. by rewrite lookup_insert_ne by congruence.
  - intros m' s r'. simpl. destruct (decide ((m', s) = (m, last_sequence m db + 1))) as [[= -> ->]|Hne].
    + rewrite lookup_insert_eq. intros [= <-]. split; [done|]. by rewrite lookup_insert_eq.
    + rewrite lookup_insert_ne by done. intros Hr'. destruct (mi_message _ Hinv _ _ _ Hr') as [Hok Hrec].
      split; [done|]. rewrite lookup_insert_ne by congruence. apply Hkeep; [done|]. left.
      apply not_true_is_false. intros Hnp. unfold not_pending in Hnp. rewrite none_where_true in Hnp.
      by apply (Hnp _ _ Hr').
  - intros id rc. simpl. rewrite last_sequence_enqueue. destruct (decide (id = ms_message_id r)) as [->|Hne].
    + rewrite lookup_insert_eq. intros [= <-]. simpl. unfold receipt_mailbox; simpl.
      rewrite <- !surjective_pairing, decide_True by done. lia.
    + rewrite lookup_insert_ne by done. intros Hrc.
      pose proof (mi_receipt _ Hinv _ _ (lookup_weaken _ _ _ _ Hrc Hsub)). case_decide as Hm; [rewrite Hm in *|]; lia.
  - intros id id' rc rc'. simpl. rewrite !lookup_insert_Some.
    assert (receipt_mailbox (receipt_of m (last_sequence m db + 1) r) = m) as Hmr by (by destruct m as [[]]).
    intros [[<- <-]|[Hne Hrc]] [[<- <-]|[Hne' Hrc']] Hm Hs; [done|..].
    + rewrite Hmr in Hm. symmetry in Hm. pose proof (Hle _ _ Hrc' Hm). simpl in Hs. lia.
    + rewrite Hmr in Hm. pose proof (Hle _ _ Hrc Hm). simpl in Hs. lia.
    + eapply (mi_receipt_unique _ Hinv); eauto using lookup_weaken.
  - intros m'. simpl. rewrite count_insert by done. destruct (decide (m' = m)) as [->|Hne].
    + case_decide; lia.
    + rewrite decide_False; [|unfold receipt_in, receipt_mailbox; simpl; by destruct m as [[]]; naive_solver].
      pose proof (mi_receipts _ Hinv m'). pose proof (count_mono t db.(mailbox_receipts) (receipt_in m') Hsub). lia.
Qed.

(** Enqueueing appends to one queue and leaves the others alone. *)
Lemma queue_enqueue m m' r t db :
  mail_inv db ->
  queue m' (enqueue m r t db) = if decide (m' = m) then queue_send r (queue m db) else queue m' db.
Proof.
  intros Hinv. unfold queue, queue_send. rewrite last_sequence_enqueue.
  pose proof (last_sequence_nonneg m db Hinv).
  pose proof (no_message_after_last m db (last_sequence m db + 1) Hinv ltac:(lia)) as Hfresh.
  destruct (decide (m' = m)) as [->|Hne]; simpl; f_equal.
  - rewrite (message_rows_unique m 0 _ (message_rows_after m 0 db ++ [((m, last_sequence m db + 1), r)])).
    + by rewrite fmap_app.
    + rewrite fmap_app. apply NoDup_app. split; [apply message_rows_keys|]. split; [|apply NoDup_singleton].
      simpl. intros s Hs Heq. apply list_elem_of_singleton in Heq. subst s.
      apply list_elem_of_fmap in Hs as ([[m' s] r'] & Heq & (Hr & Hm & _)%elem_of_message_rows). simpl in *. subst.
      congruence.
    + apply StronglySorted_app_2; [|apply message_rows_sorted|repeat constructor].
      intros [[m1 s1] r1] [[m2 s2] r2] (Hr & Hm & _)%elem_of_message_rows Heq. apply list_elem_of_singleton in Heq.
      simplify_eq/=. unfold by_key; simpl. destruct (mi_pending _ Hinv m) as (acked & _ & _ & Hdom).
      assert (is_Some (mailbox_messages db !! (m, s1))) as Hs%Hdom by eauto. lia.
    + intros [[m1 s1] r1]. rewrite elem_of_app, elem_of_message_rows, list_elem_of_singleton. simpl.
      destruct (decide ((m1, s1) = (m, last_sequence m db + 1))) as [[= -> ->]|Hne].
      * rewrite lookup_insert_eq. split; [|naive_solver lia].
        intros [(Hr & _)|Heq]; [congruence|]. simplify_eq. split_and!; [done|done|lia].
      * rewrite lookup_insert_ne by done. naive_solver.
  - f_equal. apply message_rows_unique; [apply message_rows_keys|apply message_rows_sorted|].
    intros [[m1 s1] r1]. rewrite elem_of_message_rows. simpl.
    destruct (decide (m1 = m)) as [->|]; [naive_solver|]. rewrite lookup_insert_ne by congruence. done.
Qed.

(** ** Sending *)

Lemma ensure_mailbox_Ok c t a db :
  mail_inv db -> principal_exists db c t a = true ->
  exists boxes, ensure_mailbox c t a db = Ok (set_mailboxes db boxes) /\
    boxes !! (c, t, a) = Some (last_sequence (c, t, a) db) /\
    (forall s, <[(c, t, a) := s]> boxes = <[(c, t, a) := s]> db.(mailboxes)) /\
    mail_inv (set_mailboxes db boxes) /\
    (forall m, last_sequence m (set_mailboxes db boxes) = last_sequence m db).
Proof.
  intros Hinv Hp. unfold ensure_mailbox, last_sequence. destruct (mailboxes db !! (c, t, a)) as [last|] eqn:E.
  - exists db.(mailboxes). replace (set_mailboxes db db.(mailboxes)) with db by (by destruct db).
    rewrite E. done.
  - rewrite decide_False by congruence. exists (<[(c, t, a) := 0]> db.(mailboxes)).
    assert (forall m, last_sequence m (set_mailboxes db (<[(c, t, a) := 0]> db.(mailboxes))) = last_sequence m db) as Hl.
    { intros m. unfold last_sequence; simpl. destruct (decide (m = (c, t, a))) as [->|].
      - by rewrite lookup_insert_eq, E.
      - by rewrite lookup_insert_ne. }
    split_and!; [done|by rewrite lookup_insert_eq|intros s; apply insert_insert_eq| |exact Hl].
    destruct Hinv as [H1 H2 H3 H4 H5 H6]. split; unfold pending_range in *; simpl.
    + intros m last. destruct (decide (m = (c, t, a))) as [->|]; simplify_map_eq; [|eauto].
      intros [= <-]. unfold MaxInt64. lia.
    + intros m. destruct (H2 m) as (acked & Hr). exists acked. rewrite Hl. exact Hr.
    + exact H3.
    + intros id rc Hrc. rewrite Hl. eauto.
    + exact H5.
    + exact H6.
Qed.

Lemma stored_principal_Ok p db s :
  stored_principal p db = Ok s ->
  exists r, db.(principals) !! (p_ControllerID p, p_TreeID p, p_AgentID p) = Some r /\
    s.(p_Identity) = p.(p_Identity) /\ Principal_Validate s = Ok tt.
Proof.
  unfold stored_principal. destruct (queryPrincipal _ _ _ db) as [s'|e] eqn:E; [|by destruct (errors_Is e _)].
  intros H. go_inv. apply queryPrincipal_Ok in E as (r & Hr & Hi & Hv). exists r. split_and!; [done| |done].
  match goal with H : Principal_Matches _ _ <> false |- _ => apply not_false_iff_true in H;
    unfold Principal_Matches in H; by apply bool_decide_eq_true in H end.
Qed.

Lemma principal_exists_Some db c t a r :
  db.(principals) !! (c, t, a) = Some r -> principal_exists db c t a = true.
Proof. intros H. unfold principal_exists. by rewrite H, bool_decide_eq_true_2 by eauto. Qed.

(** The row a send stores. *)
Definition sent_row (source : Principal) (messageID message : string) (timestamp : Z) : MessageRow := {|
  ms_message_id := messageID; ms_source_agent_id := p_AgentID source;
  ms_source_parent_agent_id := p_ParentAgentID source; ms_source_device_id := p_DeviceID source;
  ms_message := message; ms_created_at := timestamp |}.

Lemma ValidateMailboxMessage_len message :
  ValidateMailboxMessage message = Ok tt -> 1 <= len message <= 1024.
Proof.
  unfold ValidateMailboxMessage. rewrite reject_Ok. unfold bad_message_text, MaximumMailboxMessageBytes.
  intros [H _]. pose proof (len_nonneg message). split; [|lia].
  destruct (decide (len message = 0)) as [Hz|]; [|lia]. apply len_zero in Hz. subst. exfalso. apply H. by left.
Qed.

Lemma sent_row_ok source messageID message timestamp a s :
  Principal_Validate source = Ok tt -> valid_id messageID -> ValidateMailboxMessage message = Ok tt ->
  0 <= timestamp -> 0 < s ->
  is_ok (scan_message (((p_ControllerID source, p_TreeID source, a), s),
                       sent_row source messageID message timestamp)) = true.
Proof.
  intros Hp Hid Hm Ht Hs. apply is_ok_true. unfold scan_message. eexists. rewrite do_Ok, wrap_Ok. split; [|done].
  unfold MailboxMessage_Validate. autorewrite with valid. simpl.
  apply Principal_Validate_Ok in Hp as [Hi _]. apply PrincipalIdentity_Validate_Ok in Hi.
  split; [hyp|]. split; [lia|]. split; [by rewrite <- PrincipalIdentity_eta|].
  split; [hyp|]. split; [lia|reflexivity].
Qed.

Section Send.
Context (source : Principal) (target : MessageTarget) (messageID message : string) (timestamp : Z) (db : DB).
Context (Hinv : mail_inv db) (Hp : Principal_Validate source = Ok tt) (Hid : valid_id messageID)
  (Hmsg : ValidateMailboxMessage message = Ok tt) (Ht : 0 <= timestamp).

Let c := p_ControllerID source.
Let t := p_TreeID source.

(** A send with a fresh id, on a mailbox with room, appends the message. *)
Lemma send_fresh s a rp :
  stored_principal source db = Ok s -> resolveMessageRecipient s target db = Ok a ->
  queryPrincipal c t a db = Ok rp -> db.(mailbox_receipts) !! messageID = None ->
  count (in_mailbox (c, t, a)) db.(mailbox_messages) < maximumPendingMailboxMessages ->
  last_sequence (c, t, a) db < MaxInt64 ->
  exists kept, pruned (c, t, a) db kept /\
    sendMailboxMessageTx source target messageID message timestamp db =
    Ok ({| md_RecipientAgentID := a; md_MessageID := messageID;
           md_Sequence := last_sequence (c, t, a) db + 1 |},
        enqueue (c, t, a) (sent_row source messageID message timestamp) kept db).
Proof.
  intros Hs Ha Hrp Hnew Hroom Hlast.
  apply queryPrincipal_Ok in Hrp as Hrp'. destruct Hrp' as (rr & Hrr & _).
  apply stored_principal_Ok in Hs as Hs'. destruct Hs' as (sr & Hsr & _).
  destruct (ensure_mailbox_Ok c t a db Hinv (principal_exists_Some _ _ _ _ _ Hrr))
    as (boxes & Hens & Hbox & Hins & Hinv1 & Hlasts).
  set (db1 := set_mailboxes db boxes) in *.
  destruct (prune_Ok db1 Hinv1 (c, t, a) Hroom) as (kept & Hprune & Hsub & Hkeep & Hcount).
  cbn [fst snd] in Hprune. change (mailbox_receipts db1) with (mailbox_receipts db) in Hsub, Hkeep.
  exists kept. split; [done|]. unfold sendMailboxMessageTx, tx_bind, tx_query, tx_exec.
  fold c t. rewrite Hs, Ha, Hrp. unfold findMailboxDelivery. rewrite Hnew, Hens. fold db1.
  rewrite decide_False by (simpl in *; lia). change (mailboxes db1) with boxes. rewrite Hbox.
  rewrite decide_False by lia. rewrite Hprune.
  pose proof (last_sequence_nonneg (c, t, a) db Hinv) as Hnn.
  rewrite (sql_update_hit _ _ _ _ _ (last_sequence (c, t, a) db)); [|done|lia|unfold mailbox_check; lia].
  pose proof (ValidateMailboxMessage_len _ Hmsg) as Hlen.
  assert (kept !! messageID = None) as Hnk.
  { destruct (kept !! messageID) as [rc|] eqn:E; [|done]. by rewrite (lookup_weaken _ _ _ _ E Hsub) in Hnew. }
  set (seq := last_sequence (c, t, a) db + 1).
  set (db2 := set_mailboxes (set_mailbox_receipts db1 kept) _).
  set (rc := {| rc_controller_id := c |}).
  assert (insert_receipt messageID rc db2 = Ok (set_mailbox_receipts db2 (<[messageID := rc]> kept))) as Hir.
  { unfold insert_receipt. rewrite sql_insert_hit; [done| |done].
    rewrite !andb_true_iff. split_and!.
    - unfold receipt_check, in_range; simpl. subst seq. lia.
    - apply none_where_true. intros id' rc' Hrc' [Hm' Hs']. simpl in Hm', Hs'.
      pose proof (mi_receipt _ Hinv _ _ (lookup_weaken _ _ _ _ Hrc' Hsub)) as Hb. rewrite Hm' in Hb.
      unfold receipt_mailbox in Hb; simpl in Hb. subst seq. lia.
    - unfold mailbox_exists; simpl. rewrite bool_decide_eq_true. rewrite lookup_insert_eq. eauto.
    - by apply (principal_exists_Some _ _ _ _ sr). }
  rewrite Hir. set (db3 := set_mailbox_receipts db2 _).
  set (mr := {| ms_message_id := messageID |}).
  assert (insert_message c t a seq mr db3 =
          Ok (set_mailbox_messages db3 (<[(c, t, a, seq) := mr]> db.(mailbox_messages)))) as Him.
  { unfold insert_message. rewrite sql_insert_hit; [done| |].
    - rewrite !andb_true_iff. split_and!.
      + unfold message_check, in_range; simpl. subst seq. lia.
      + apply none_where_true. intros [m' s'] r' Hr'. simpl. intros Heq.
        destruct (mi_message _ Hinv _ _ _ Hr') as [_ Hrec]. rewrite Heq in Hrec. congruence.
      + unfold mailbox_exists; simpl. rewrite bool_decide_eq_true, lookup_insert_eq. eauto.
      + by apply (principal_exists_Some _ _ _ _ sr).
    - apply (no_message_after_last (c, t, a) db); [done|subst seq; lia]. }
  cbn [wrap]. rewrite Him. unfold tx_ret, enqueue. do 2 f_equal. subst db3 db2 db1 seq rc mr. simpl.
  unfold set_mailbox_messages, set_mailbox_receipts, set_mailboxes; simpl. by rewrite Hins.
Qed.
End Send.

Lemma findMailboxDelivery_Ok source a id message db o :
  findMailboxDelivery source a id message db = Ok o ->
  match db.(mailbox_receipts) !! id with
  | None => o = None
  | Some rc =>
      receipt_mailbox rc = (p_ControllerID source, p_TreeID source, a) /\
      o = Some {| md_RecipientAgentID := a; md_MessageID := id; md_Sequence := rc.(rc_sequence) |}
  end.
Proof.
  unfold findMailboxDelivery. destruct (_ !! _) as [rc|]; [|by intros [= <-]]. rewrite reject_Ok.
  intros [H [= <-]]. unfold receipt_mailbox.
  assert (rc_controller_id rc = p_ControllerID source) as -> by (apply dec_stable; naive_solver).
  assert (rc_tree_id rc = p_TreeID source) as -> by (apply dec_stable; naive_solver).
  assert (rc_recipient_agent_id rc = a) as -> by (apply dec_stable; naive_solver). done.
Qed.

(** Every successful send either found its receipt or appended its message. *)
Lemma sendTx_Ok source target id message ts db d db' :
  mail_inv db -> Principal_Validate source = Ok tt -> valid_id id -> ValidateMailboxMessage message = Ok tt ->
  0 <= ts -> sendMailboxMessageTx source target id message ts db = Ok (d, db') ->
  let m := (p_ControllerID source, p_TreeID source, d.(md_RecipientAgentID)) in
  d.(md_MessageID) = id /\
  ((exists rc, db.(mailbox_receipts) !! id = Some rc /\ d.(md_Sequence) = rc.(rc_sequence) /\ db' = db) \/
   (db.(mailbox_receipts) !! id = None /\ last_sequence m db < MaxInt64 /\
    count (in_mailbox m) db.(mailbox_messages) < maximumPendingMailboxMessages /\
    d.(md_Sequence) = last_sequence m db + 1 /\
    exists kept, pruned m db kept /\ db' = enqueue m (sent_row source id message ts) kept db)).
Proof.
  intros Hinv Hp Hid Hmsg Hts Hsend. assert (Hall := Hsend). unfold sendMailboxMessageTx in Hsend.
  apply tx_bind_Ok in Hsend as (s & ? & [Hs ->]%tx_query_Ok & Hsend).
  apply tx_bind_Ok in Hsend as (a & ? & [Ha ->]%tx_query_Ok & Hsend).
  apply tx_bind_Ok in Hsend as (rp & ? & [Hrp ->]%tx_query_Ok & Hsend).
  apply tx_bind_Ok in Hsend as (o & ? & [Ho ->]%tx_query_Ok & Hsend).
  apply findMailboxDelivery_Ok in Ho. destruct (mailbox_receipts db !! id) as [rc|] eqn:Erc.
  - destruct Ho as [_ ->]. apply tx_ret_Ok in Hsend as [-> ->]. simpl. split; [done|]. left. eauto.
  - subst o. apply queryPrincipal_Ok in Hrp as Hrp'. destruct Hrp' as (rr & Hrr & _).
    destruct (ensure_mailbox_Ok _ _ _ db Hinv (principal_exists_Some _ _ _ _ _ Hrr))
      as (boxes & Hens & Hbox & _).
    apply tx_bind_Ok in Hsend as (u & db1 & Hens'%tx_exec_Ok & Hsend).
    rewrite Hens in Hens'. injection Hens' as <-.
    apply tx_bind_Ok in Hsend as (n & ? & [[= <-] ->]%tx_query_Ok & Hsend).
    destruct (decide _) as [|Hroom]; [by apply tx_throw_Ok in Hsend|].
    apply tx_bind_Ok in Hsend as (last & ? & [Hlast ->]%tx_query_Ok & Hsend).
    change (mailboxes (set_mailboxes db boxes)) with boxes in Hlast. rewrite Hbox in Hlast. injection Hlast as <-.
    destruct (decide (last_sequence _ db = MaxInt64)) as [|Hmax]; [by apply tx_throw_Ok in Hsend|]. clear Hsend.
    assert (last_sequence (p_ControllerID source, p_TreeID source, a) db < MaxInt64) as Hlt.
    { unfold last_sequence in *. destruct (mailboxes db !! _) as [l|] eqn:El; simpl in *; [|done].
      apply (mi_last _ Hinv) in El. lia. }
    destruct (send_fresh source target id message ts db Hinv Hmsg Hts s a rp) as (kept & Hk & Heq);
      try done; [simpl in Hroom; lia|]. rewrite Heq in Hall. injection Hall as <- <-. simpl.
    split; [done|]. right. simpl in Hroom. split_and!; [done|done|lia|done|eauto].
Qed.

(** The recipient is the one the stored sender's role resolves the target to. *)
Lemma sendTx_recipient source target id message ts db d db' :
  sendMailboxMessageTx source target id message ts db = Ok (d, db') ->
  exists s, stored_principal source db = Ok s /\ resolveMessageRecipient s target db = Ok d.(md_RecipientAgentID).
Proof.
  unfold sendMailboxMessageTx. intros H.
  apply tx_bind_Ok in H as (s & ? & [Hs ->]%tx_query_Ok & H).
  apply tx_bind_Ok in H as (a & ? & [Ha ->]%tx_query_Ok & H).
  apply tx_bind_Ok in H as (rp & ? & [_ ->]%tx_query_Ok & H).
  apply tx_bind_Ok in H as (o & ? & [Ho ->]%tx_query_Ok & H).
  exists s. split; [hyp|]. apply findMailboxDelivery_Ok in Ho.
  destruct (mailbox_receipts db !! id) as [rc|]; [destruct Ho as [_ ->]|subst o]; go_inv; exact Ha.
Qed.

Lemma SendMailboxMessage_Ok source target id message at_ db d db' :
  SendMailboxMessage source target id message at_ db = Ok (d, db') ->
  Principal_Validate source = Ok tt /\ MessageTarget_Validate target = Ok tt /\ valid_id id /\
  ValidateMailboxMessage message = Ok tt /\ 0 <= at_ /\
  sendMailboxMessageTx source target id message at_ db = Ok (d, db').
Proof.
  unfold SendMailboxMessage. intros H. go_inv. unfold unixTime in *. go_inv.
  split_and!; [hyp|hyp|hyp|hyp|lia|hyp].
Qed.

(** The queue of the recipient after a send. *)
Lemma send_inv source target id message ts db d db' :
  mail_inv db -> Principal_Validate source = Ok tt -> valid_id id -> ValidateMailboxMessage message = Ok tt ->
  0 <= ts -> sendMailboxMessageTx source target id message ts db = Ok (d, db') -> mail_inv db'.
Proof.
  intros Hinv Hp Hid Hmsg Hts H.
  destruct (sendTx_Ok _ _ _ _ _ _ _ _ Hinv Hp Hid Hmsg Hts H) as (_ & [(rc & _ & _ & ->)|Hf]); [done|].
  destruct Hf as (Hnew & Hlt & Hroom & _ & kept & Hk & ->). apply enqueue_inv; try done.
  apply sent_row_ok; try hyp. pose proof (last_sequence_nonneg
    (p_ControllerID source, p_TreeID source, md_RecipientAgentID d) db Hinv). lia.
Qed.

(** A send under a new message id implements the queue: it appends the message
    to the recipient's queue under the next sequence number, touches no other
    queue, and keeps the mailbox invariant (at most 1024 pending messages with
    consecutive sequence numbers, at most 2048 receipts, a receipt for every
    pending message). *)
Theorem SendMailboxMessage_appends source target id message at_ db d db' :
  mail_inv db -> db.(mailbox_receipts) !! id = None ->
  SendMailboxMessage source target id message at_ db = Ok (d, db') ->
  let m := (p_ControllerID source, p_TreeID source, d.(md_RecipientAgentID)) in
  mail_inv db' /\ d.(md_MessageID) = id /\ d.(md_Sequence) = (queue m db).(q_last) + 1 /\
  queue m db' = queue_send (sent_row source id message at_) (queue m db) /\
  (forall m', m' <> m -> queue m' db' = queue m' db) /\
  db'.(mailbox_receipts) !! id = Some (receipt_of m d.(md_Sequence) (sent_row source id message at_)).
Proof.
  intros Hinv Hnew (Hp & _ & Hid & Hmsg & Hat & Hsend)%SendMailboxMessage_Ok m.
  assert (mail_inv db') as Hinv' by (by eapply send_inv).
  destruct (sendTx_Ok _ _ _ _ _ _ _ _ Hinv Hp Hid Hmsg Hat Hsend) as (Hmid & [(rc & Hrc & _)|Hf]); [congruence|].
  destruct Hf as (_ & _ & _ & Hseq & kept & Hk & ->). fold m in Hseq, Hk |- *.
  split_and!; [done|done|done| | |].
  - by rewrite queue_enqueue, decide_True.
  - intros m' Hne. by rewrite queue_enqueue, decide_False.
  - simpl. by rewrite lookup_insert_eq, Hseq.
Qed.

(** Computing the head of a send whose arguments are valid. *)
Lemma SendMailboxMessage_eq source target id message at_ db :
  Principal_Validate source = Ok tt -> MessageTarget_Validate target = Ok tt -> valid_id id ->
  ValidateMailboxMessage message = Ok tt -> 0 <= at_ ->
  SendMailboxMessage source target id message at_ db = sendMailboxMessageTx source target id message at_ db.
Proof.
  intros Hp Ht Hid Hm Hat. unfold SendMailboxMessage, tx_bind, tx_lift, unixTime.
  rewrite Hp, Ht, Hid, Hm, decide_False by lia. done.
Qed.

(** Retries are deduplicated for as long as the message is unread: while a
    sent message is pending, repeating the send returns the delivery it was given
    and changes nothing, and reusing its id for another text is a conflict. *)
Theorem SendMailboxMessage_retry source target id message at0 at_ s a rp sequence db :
  mail_inv db -> Principal_Validate source = Ok tt -> MessageTarget_Validate target = Ok tt -> valid_id id ->
  0 <= at_ -> stored_principal source db = Ok s -> resolveMessageRecipient s target db = Ok a ->
  queryPrincipal (p_ControllerID source) (p_TreeID source) a db = Ok rp ->
  db.(mailbox_messages) !! ((p_ControllerID source, p_TreeID source, a), sequence) =
    Some (sent_row source id message at0) ->
  (ValidateMailboxMessage message = Ok tt ->
   run_tx (SendMailboxMessage source target id message at_) db =
     (Ok {| md_RecipientAgentID := a; md_MessageID := id; md_Sequence := sequence |}, db)) /\
  (forall other, ValidateMailboxMessage other = Ok tt -> other <> message ->
   run_tx (SendMailboxMessage source target id other at_) db = (Err ErrConflict, db)).
Proof.
  intros Hinv Hp Ht Hid Hat Hs Ha Hrp Hmsg. destruct (mi_message _ Hinv _ _ _ Hmsg) as [_ Hrec]. simpl in Hrec.
  split; [intros Hv|intros other Hv Hne]; unfold run_tx; rewrite SendMailboxMessage_eq by hyp;
    unfold sendMailboxMessageTx, tx_bind, tx_query; rewrite Hs, Ha, Hrp; unfold findMailboxDelivery; rewrite Hrec; simpl.
  - rewrite decide_False by naive_solver. done.
  - rewrite decide_True; [done|]. naive_solver.
Qed.

Lemma resolve_errors s target db e :
  trees_inv db -> MessageTarget_Validate target = Ok tt ->
  resolveMessageRecipient s target db = Err e -> e = ErrAuthorizationDenied \/ e = ErrNotFound.
Proof.
  intros Hinv Ht. unfold resolveMessageRecipient.
  destruct (decide (p_ParentAgentID s = "")).
  { destruct (decide _); [|done]. intros [= <-]. auto. }
  destruct (decide _); [intros [= <-]; auto|]. destruct (decide (mt_Kind target = MessageTargetParent)); [done|].
  destruct (decide (mt_Kind target = MessageTargetRoot)).
  { pose proof (queryTreeByID_inv (p_ControllerID s) (p_TreeID s) db Hinv) as Hq.
    destruct (tree_row _ _ _) as [[k r]|]; [destruct Hq as (tree & -> & _); done|]. rewrite Hq. intros [= <-]. auto. }
  destruct (decide (mt_Kind target = MessageTargetAgent)) as [|Hk]; [intros [= <-]; auto|].
  exfalso. unfold MessageTarget_Validate in Ht. repeat case_bool_decide; try done. tauto.
Qed.

Lemma last_sequence_bound m db :
  mail_inv db -> last_sequence m db <> MaxInt64 -> last_sequence m db < MaxInt64.
Proof.
  intros Hinv Hne. unfold last_sequence in *. destruct (mailboxes db !! m) as [l|] eqn:El; simpl in *; [|done].
  apply (mi_last _ Hinv) in El. lia.
Qed.

(** C34 With valid arguments a send can fail for five reasons only: the sender is
    not the stored principal or may not address the target, the recipient does
    not exist, the message id belongs to another message, the mailbox is full, or
    its sequence numbers are used up. In particular neither a constraint of the
    schema nor the bound on receipts is ever hit. *)
Theorem SendMailboxMessage_errors source target id message at_ db e :
  mail_inv db -> trees_inv db ->
  Principal_Validate source = Ok tt -> MessageTarget_Validate target = Ok tt -> valid_id id ->
  ValidateMailboxMessage message = Ok tt -> 0 <= at_ ->
  SendMailboxMessage source target id message at_ db = Err e ->
  e ∈ [Sentinel ErrAuthorizationDenied; Sentinel ErrNotFound; Sentinel ErrConflict;
       Sentinel ErrMailboxFull; Sentinel ErrMailboxSequenceExhausted].
Proof.
  intros Hinv Htinv Hp Ht Hid Hmsg Hat. rewrite SendMailboxMessage_eq by hyp. intros Hsend.
  assert (Hall := Hsend). unfold sendMailboxMessageTx, tx_bind, tx_query in Hsend.
  destruct (stored_principal source db) as [s|e1] eqn:Hs; last first.
  { simplify_eq. unfold stored_principal in Hs.
    pose proof (queryPrincipal_inv (p_ControllerID source) (p_TreeID source) (p_AgentID source) db Htinv) as Hq.
    destruct (principals db !! _); rewrite Hq in Hs; simpl in Hs; [|simplify_eq; set_solver].
    destruct (decide _); simplify_eq. set_solver. }
  destruct (resolveMessageRecipient s target db) as [a|e1] eqn:Ha; last first.
  { simplify_eq. apply resolve_errors in Ha as [-> | ->]; [set_solver|set_solver|hyp|hyp]. }
  pose proof (queryPrincipal_inv (p_ControllerID source) (p_TreeID source) a db Htinv) as Hq.
  destruct (principals db !! (p_ControllerID source, p_TreeID source, a)) as [rr|] eqn:Err; rewrite Hq in Hsend;
    [|simplify_eq; set_solver].
  destruct (findMailboxDelivery source a id message db) as [o|e1] eqn:Ho; last first.
  { simplify_eq. unfold findMailboxDelivery in Ho. destruct (_ !! _); [|done].
    destruct (decide _); simplify_eq. set_solver. }
  apply findMailboxDelivery_Ok in Ho. destruct (mailbox_receipts db !! id) as [rc|] eqn:Erc.
  { destruct Ho as [_ ->]. done. }
  subst o. destruct (ensure_mailbox_Ok _ _ _ db Hinv (principal_exists_Some _ _ _ _ _ Err))
    as (boxes & Hens & Hbox & _). unfold tx_exec in Hsend. rewrite Hens in Hsend.
  change (mailbox_messages (set_mailboxes db boxes)) with (mailbox_messages db) in Hsend.
  destruct (decide (maximumPendingMailboxMessages <= _)) as [|Hroom]; [unfold tx_throw in Hsend; simplify_eq; set_solver|].
  change (mailboxes (set_mailboxes db boxes)) with boxes in Hsend. rewrite Hbox in Hsend.
  destruct (decide (last_sequence _ db = MaxInt64)) as [|Hmax]; [unfold tx_throw in Hsend; simplify_eq; set_solver|].
  exfalso. destruct (send_fresh source target id message at_ db Hinv Hmsg Hat s a _ Hs Ha Hq Erc)
    as (kept & _ & Heq); [lia| |congruence]. by apply last_sequence_bound.
Qed.

(** ** Reading *)

Lemma lookup_acknowledge m cursor db k r :
  (acknowledge m cursor db).(mailbox_messages) !! k = Some r <->
  db.(mailbox_messages) !! k = Some r /\ ~ (k.1 = m /\ k.2 <= cursor).
Proof.
  exact (lookup_sql_delete
    (fun x : (string * string * string * Z) * MessageRow => x.1.1 = m /\ x.1.2 <= cursor) _ k r).
Qed.

Lemma acknowledge_inv m cursor db :
  mail_inv db -> 0 <= cursor <= last_sequence m db -> mail_inv (acknowledge m cursor db).
Proof.
  intros Hinv Hc. split; try apply Hinv.
  - intros m'. destruct (mi_pending _ Hinv m') as (acked & Hr & Hw & Hdom).
    assert (forall s, is_Some ((acknowledge m cursor db).(mailbox_messages) !! (m', s)) <->
              acked < s <= last_sequence m' db /\ ~ (m' = m /\ s <= cursor)) as Hdom'.
    { intros s. rewrite <- Hdom. split.
      - intros [r [Hk Hn]%lookup_acknowledge]. eauto.
      - intros [[r Hk] Hn]. exists r. by apply lookup_acknowledge. }
    change (last_sequence m' (acknowledge m cursor db)) with (last_sequence m' db).
    destruct (decide (m' = m)) as [->|Hne].
    + exists (Z.max acked cursor). unfold pending_range.
      change (last_sequence m (acknowledge m cursor db)) with (last_sequence m db).
      split; [lia|]. split; [lia|]. intros s. rewrite Hdom'. split; [|intros; split; [lia|naive_solver lia]].
      intros [? Hno]. assert (~ s <= cursor) by tauto. lia.
    + exists acked. unfold pending_range.
      change (last_sequence m' (acknowledge m cursor db)) with (last_sequence m' db).
      split; [done|]. split; [done|]. intros s. rewrite Hdom'. tauto.
  - intros m' s r [Hk _]%lookup_acknowledge. by apply (mi_message _ Hinv).
Qed.

Lemma fmap_filter_key (cursor : Z) (l : list ((string * string * string * Z) * MessageRow)) :
  filter (fun x : Z * MessageRow => cursor < x.1) ((fun x => (x.1.2, x.2)) <$> l) =
  (fun x => (x.1.2, x.2)) <$> filter (fun x => cursor < x.1.2) l.
Proof.
  induction l as [|x l IH]; [done|]. rewrite fmap_cons, !filter_cons. simpl.
  destruct (decide (cursor < x.1.2)); [rewrite fmap_cons|]; by rewrite IH.
Qed.

Lemma queue_acknowledge m m' cursor db :
  0 <= cursor ->
  queue m' (acknowledge m cursor db) = if decide (m' = m) then queue_ack cursor (queue m db) else queue m' db.
Proof.
  intros Hc. unfold queue, queue_ack. destruct (decide (m' = m)) as [->|Hne]; simpl; f_equal.
  - rewrite fmap_filter_key. f_equal. apply message_rows_unique.
    + apply filter_NoDup_key, message_rows_keys.
    + apply filter_sorted, message_rows_sorted.
    + intros [k r]. rewrite list_elem_of_filter, elem_of_message_rows, lookup_acknowledge. simpl.
      split; [naive_solver lia|]. intros ((H1 & H2) & H3 & H4). subst.
      split_and!; [|done|done|done]. apply Z.nle_gt. tauto.
  - f_equal. apply message_rows_unique; [apply message_rows_keys|apply message_rows_sorted|].
    intros [k r]. rewrite elem_of_message_rows, lookup_acknowledge. simpl. naive_solver.
Qed.

(** The message a queued row is delivered as. *)
Definition delivered (c t : string) (x : Z * MessageRow) : MailboxMessage := {|
  mm_MessageID := x.2.(ms_message_id); mm_Sequence := x.1;
  mm_Source := {| pi_ControllerID := c; pi_TreeID := t; pi_AgentID := x.2.(ms_source_agent_id);
                  pi_ParentAgentID := x.2.(ms_source_parent_agent_id);
                  pi_DeviceID := x.2.(ms_source_device_id) |};
  mm_Message := x.2.(ms_message); mm_CreatedAt := x.2.(ms_created_at) |}.

Lemma scan_message_delivered k r msg :
  scan_message (k, r) = Ok msg -> msg = delivered k.1.1.1 k.1.1.2 (k.2, r).
Proof. destruct k as [[[c t] a] s]. unfold scan_message. rewrite do_Ok. by intros [_ [= <-]]. Qed.

(** Scanning the rows after a cursor never fails and yields the queue's page. *)
Lemma scan_page m cursor n db :
  mail_inv db -> 0 <= cursor ->
  result_mapM scan_message (limit n (message_rows_after m cursor db)) =
    Ok (delivered m.1.1 m.1.2 <$> queue_page cursor n (queue m db)).
Proof.
  intros Hinv Hc. apply result_mapM_Ok. unfold queue_page, queue, limit; simpl.
  rewrite fmap_filter_key, <- message_rows_filter by done. rewrite <- fmap_take, <- list_fmap_compose.
  apply Forall2_fmap_r, Forall_Forall2_diag, Forall_forall. intros [[m' s] r] Hin.
  apply elem_of_take in Hin as (i & Hi & _). apply list_elem_of_lookup_2 in Hi.
  apply elem_of_message_rows in Hi as (Hk & Hm & _). simpl in Hm. subst m'.
  destruct (mi_message _ Hinv _ _ _ Hk) as [[msg Hs]%is_ok_true _]. rewrite Hs. f_equal.
  by apply scan_message_delivered in Hs.
Qed.

(** [ReadMailbox] computed on a well-formed database. *)
Lemma ReadMailbox_eq p cursor n s db :
  mail_inv db -> Principal_Validate p = Ok tt -> 0 <= cursor <= MaxInt64 -> 1 <= n <= MaximumMailboxPage ->
  stored_principal p db = Ok s ->
  let m := (p_ControllerID p, p_TreeID p, p_AgentID p) in
  ReadMailbox p cursor n db =
    if decide (last_sequence m db < cursor) then Err ErrMailboxCursorAhead
    else
      let page := delivered m.1.1 m.1.2 <$> queue_page cursor n (queue m db) in
      Ok ({| wmr_Messages := page; wmr_NextCursor := default cursor (mm_Sequence <$> last page) |},
          if decide (cursor <> 0) then acknowledge m cursor db else db).
Proof.
  intros Hinv Hp Hc Hn Hs m. unfold ReadMailbox, tx_bind, tx_lift, tx_query. rewrite Hp. simpl.
  rewrite decide_False by lia. rewrite decide_False by lia.
  assert (control_Require p (if decide (p_ParentAgentID p <> "") then CapabilityMessageReceiveSelf
                             else CapabilityMessageTree) = Ok tt) as ->.
  { apply control_Require_Ok. split; [done|]. unfold role_capabilities.
    destruct (decide (p_ParentAgentID p <> "")); apply (bool_decide_unpack _); vm_compute; exact I. }
  simpl. rewrite Hs. fold m.
  pose proof (mi_pending _ Hinv m) as (acked & Hr & _ & Hdom).
  unfold last_sequence in *. destruct (mailboxes db !! m) as [last_|] eqn:Em; simpl in *.
  - destruct (decide (last_ < cursor)); [rewrite decide_True by lia; done|]. rewrite decide_False by lia.
    assert (forall db1, mail_inv db1 -> queue_page cursor n (queue m db1) = queue_page cursor n (queue m db) ->
      result_mapM scan_message (limit n (message_rows_after m cursor db1)) =
        Ok (delivered m.1.1 m.1.2 <$> queue_page cursor n (queue m db))) as Hpage.
    { intros db1 Hinv1 <-. by apply scan_page; [|lia]. }
    destruct (decide (cursor <> 0)) as [Hz|Hz].
    + unfold tx_put. rewrite Hpage; [done| |].
      * apply acknowledge_inv; [done|]. unfold last_sequence. rewrite Em. simpl. lia.
      * unfold queue_page. rewrite queue_acknowledge, decide_True by (done || lia). simpl.
        f_equal. rewrite list_filter_filter. apply list_filter_iff. tauto.
    + unfold tx_ret. rewrite Hpage; [done|done|done].
  - destruct (decide (0 < cursor)); [rewrite decide_True by lia; done|]. rewrite decide_False by lia.
    unfold tx_ret.
    assert (queue_page cursor n (queue m db) = []) as ->; [|by rewrite ?decide_False by lia].
    unfold queue_page, queue; simpl.
    assert (message_rows_after m 0 db = []) as ->; [|apply take_nil].
    apply elem_of_nil_inv. intros [[m' s'] r]. rewrite elem_of_message_rows. simpl. intros (Hk & -> & Hpos).
    assert (is_Some (mailbox_messages db !! (m, s'))) as ?%Hdom by eauto. lia.
Qed.

Lemma filter_all {A} (P : A -> Prop) `{!forall x, Decision (P x)} (l : list A) : Forall P l -> filter P l = l.
Proof. induction 1; [done|]. rewrite filter_cons_True by done. by f_equal. Qed.

Lemma sorted_strict {A} (key : A -> Z) (l : list A) :
  StronglySorted (by_key Z.le key) l -> NoDup (key <$> l) -> StronglySorted (fun x y => key x < key y) l.
Proof.
  induction 1 as [|x l Hs IH Hx]; [constructor|]. rewrite fmap_cons. intros [Hnx Hn]%NoDup_cons.
  constructor; [auto|]. rewrite Forall_forall in Hx |- *. intros y Hy. specialize (Hx y Hy). unfold by_key in Hx.
  assert (key x <> key y); [|lia]. intros Heq. apply Hnx. rewrite Heq. by apply list_elem_of_fmap_2.
Qed.

Lemma queue_sorted m db : StronglySorted (fun x y : Z * MessageRow => x.1 < y.1) (queue m db).(q_pending).
Proof.
  unfold queue; simpl. apply (StronglySorted_fmap (fun x : (string * string * string * Z) * MessageRow => (x.1.2, x.2))
    (fun x y => x.1.2 < y.1.2)); [done|].
  apply (sorted_strict (fun x : (string * string * string * Z) * MessageRow => x.1.2));
    [apply message_rows_sorted|apply message_rows_keys].
Qed.

Lemma queue_positive m db x : x ∈ (queue m db).(q_pending) -> 0 < x.1.
Proof.
  unfold queue; simpl. intros ([k r] & -> & (_ & _ & ?)%elem_of_message_rows)%list_elem_of_fmap. done.
Qed.

Lemma queue_ack_zero m db : queue_ack 0 (queue m db) = queue m db.
Proof.
  unfold queue_ack. transitivity {| q_last := (queue m db).(q_last); q_pending := (queue m db).(q_pending) |}; [|done].
  f_equal. apply filter_all. apply Forall_forall. intros x. apply queue_positive.
Qed.

(** Acknowledging the last element of a page leaves exactly what follows it. *)
Lemma filter_after_page (l : list (Z * MessageRow)) i x :
  StronglySorted (fun x y : Z * MessageRow => x.1 < y.1) l -> l !! i = Some x ->
  filter (fun y => x.1 < y.1) l = drop (S i) l.
Proof.
  intros Hs. revert i. induction Hs as [|y l Hs IH Hy]; intros i Hi; [done|].
  destruct i as [|i]; simpl in Hi.
  - injection Hi as ->. rewrite filter_cons_False by lia. simpl. apply filter_all. exact Hy.
  - assert (y.1 < x.1). { rewrite Forall_forall in Hy. apply Hy. by eapply list_elem_of_lookup_2. }
    rewrite filter_cons_False by lia. by apply IH.
Qed.

(** C8 A read implements the queue: it acknowledges everything up to the cursor and
    nothing after it, returns the oldest unacknowledged messages in order up to
    the page limit with the cursor to continue from, and leaves every other queue
    and all receipts alone. It cannot fail for an authorized recipient whose
    cursor does not exceed the last assigned sequence number. *)
Theorem ReadMailbox_refines p cursor n s db :
  mail_inv db -> Principal_Validate p = Ok tt -> 0 <= cursor <= MaxInt64 -> 1 <= n <= MaximumMailboxPage ->
  stored_principal p db = Ok s ->
  let m := (p_ControllerID p, p_TreeID p, p_AgentID p) in
  cursor <= (queue m db).(q_last) ->
  exists db',
    run_tx (ReadMailbox p cursor n) db =
      (Ok {| wmr_Messages := delivered m.1.1 m.1.2 <$> queue_page cursor n (queue m db);
             wmr_NextCursor := default cursor (fst <$> last (queue_page cursor n (queue m db))) |}, db') /\
    mail_inv db' /\ queue m db' = queue_ack cursor (queue m db) /\
    (forall m', m' <> m -> queue m' db' = queue m' db) /\ db'.(mailbox_receipts) = db.(mailbox_receipts).
Proof.
  intros Hinv Hp Hc Hn Hs m Hle. unfold run_tx. rewrite (ReadMailbox_eq p cursor n s) by done. fold m.
  rewrite decide_False by (simpl in Hle; lia).
  eexists. split; [do 2 f_equal; rewrite fmap_last, <- option_fmap_compose; done|].
  destruct (decide (cursor <> 0)) as [Hz|Hz%dec_stable].
  - split; [apply acknowledge_inv; [done|simpl in Hle; lia]|]. rewrite queue_acknowledge, decide_True by (done || lia).
    split; [done|]. split; [|done]. intros m' Hne. by rewrite queue_acknowledge, decide_False by (done || lia).
  - subst cursor. rewrite queue_ack_zero. done.
Qed.

(** A recipient that keeps reading from the cursor it was given, until a page
    comes back empty. *)
Fixpoint drain (fuel : nat) (p : Principal) (n cursor : Z) (db : DB) : result (list MailboxMessage * DB) :=
  match fuel with
  | O => Err (New "too many pages")
  | S fuel =>
      match run_tx (ReadMailbox p cursor n) db with
      | (Err e, _) => Err e
      | (Ok page, db) =>
          if decide (page.(wmr_Messages) = []) then Ok ([], db)
          else
            let? (rest, db) := drain fuel p n page.(wmr_NextCursor) db in
            Ok (page.(wmr_Messages) ++ rest, db)
      end
  end.

Section Drain.
Context (p : Principal) (n : Z) (Hp : Principal_Validate p = Ok tt) (Hn : 1 <= n <= MaximumMailboxPage).
Let m := (p_ControllerID p, p_TreeID p, p_AgentID p).

Lemma stored_principal_frame db db' :
  db'.(principals) = db.(principals) -> stored_principal p db' = stored_principal p db.
Proof. intros H. unfold stored_principal, queryPrincipal. by rewrite H. Qed.

Lemma drain_spec fuel cursor s db :
  mail_inv db -> stored_principal p db = Ok s -> 0 <= cursor <= (queue m db).(q_last) ->
  (length (filter (fun x : Z * MessageRow => (cursor < x.1)%Z) (queue m db).(q_pending)) < fuel)%nat ->
  exists db', drain fuel p n cursor db =
    Ok (delivered m.1.1 m.1.2 <$> filter (fun x => cursor < x.1) (queue m db).(q_pending), db') /\
    mail_inv db' /\ (queue m db').(q_pending) = [].
Proof.
  revert cursor db. induction fuel as [|fuel IH]; intros cursor db Hinv Hs Hc Hf; [lia|].
  assert (cursor <= MaxInt64) as Hmax.
  { destruct Hc as [_ Hc]. simpl in Hc. unfold last_sequence in Hc.
    destruct (mailboxes db !! m) as [l|] eqn:E; simpl in Hc; [|unfold MaxInt64; lia]. apply (mi_last _ Hinv) in E. lia. }
  pose proof (ReadMailbox_eq p cursor n s db Hinv Hp ltac:(lia) Hn Hs) as Hread.
  cbv zeta in Hread. fold m in Hread.
  rewrite decide_False in Hread by (simpl in Hc; lia).
  set (rest := filter (fun x : Z * MessageRow => cursor < x.1) (queue m db).(q_pending)) in *.
  assert (queue_page cursor n (queue m db) = take (Z.to_nat n) rest) as Hpg by done. rewrite Hpg in Hread.
  set (db1 := if decide (cursor <> 0) then acknowledge m cursor db else db) in *.
  assert (mail_inv db1 /\ queue m db1 = queue_ack cursor (queue m db) /\ principals db1 = principals db) as (Hinv1 & Hq1 & Hpr1).
  { unfold db1. destruct (decide (cursor <> 0)) as [Hz|Hz%dec_stable].
    - split; [apply acknowledge_inv; [done|simpl in Hc; lia]|]. split; [|done].
      by rewrite queue_acknowledge, decide_True by (done || lia).
    - subst cursor. rewrite queue_ack_zero. done. }
  clearbody db1. cbn [drain]. unfold run_tx. rewrite Hread. cbn [wmr_Messages wmr_NextCursor].
  assert (StronglySorted (fun x y : Z * MessageRow => x.1 < y.1) rest) as Hsorted
    by (apply filter_sorted, queue_sorted).
  destruct rest as [|x0 rest0] eqn:Erest.
  - rewrite take_nil. exists db1. split; [done|]. split; [done|]. rewrite Hq1. exact Erest.
  - assert (exists x, take (Z.to_nat n) (x0 :: rest0) !! (length (take (Z.to_nat n) (x0 :: rest0)) - 1)%nat = Some x)
      as [x Hx].
    { apply lookup_lt_is_Some_2. rewrite length_take. simpl. lia. }
    assert (last (take (Z.to_nat n) (x0 :: rest0)) = Some x) as Hlast by (rewrite last_lookup; rewrite <- Hx; f_equal; lia).
    rewrite fmap_last, Hlast.
    rewrite decide_False by (destruct (Z.to_nat n) eqn:En; [lia|done]).
    match goal with |- context [drain fuel p n ?next db1] => change next with x.1 end.
    set (k := (length (take (Z.to_nat n) (x0 :: rest0)) - 1)%nat) in *.
    assert ((x0 :: rest0) !! k = Some x) as Hxk.
    { rewrite lookup_take in Hx. by case_decide. }
    assert (filter (fun y => x.1 < y.1) (queue m db1).(q_pending) = drop (S k) (x0 :: rest0)) as Hnext.
    { rewrite Hq1. change (filter (fun y => x.1 < y.1) rest = drop (S k) (x0 :: rest0)).
      rewrite Erest. by apply filter_after_page. }
    assert (x ∈ (queue m db).(q_pending)) as Hxin.
    { apply list_elem_of_lookup_2 in Hxk. rewrite <- Erest in Hxk. unfold rest in Hxk.
      by apply list_elem_of_filter in Hxk as [_ ?]. }
    assert (drop (S k) (x0 :: rest0) = drop (Z.to_nat n) (x0 :: rest0)) as Hdrop.
    { unfold k. rewrite length_take.
      destruct (decide (Z.to_nat n <= length (x0 :: rest0))%nat).
      - f_equal. lia.
      - rewrite !drop_ge; [done|lia|]. simpl in *. lia. }
    destruct (IH x.1 db1) as (db' & Hd & Hinv' & Hempty).
    + done.
    + by rewrite (stored_principal_frame db).
    + rewrite Hq1. simpl. split; [apply queue_positive in Hxin; lia|].
      unfold queue in Hxin; simpl in Hxin. apply list_elem_of_fmap in Hxin as ([[m' sq] r] & -> & Hin).
      apply elem_of_message_rows in Hin as (Hk & Hm & _). simpl in *. subst m'.
      destruct (mi_pending _ Hinv m) as (acked & _ & _ & Hdom).
      assert (is_Some (mailbox_messages db !! (m, sq))) as ?%Hdom by eauto. lia.
    + rewrite Hnext, length_drop. simpl in *. lia.
    + rewrite Hd. cbn [result_bind]. exists db'. split; [|done]. do 2 f_equal.
      rewrite Hnext, Hdrop, <- fmap_app, take_drop. done.
Qed.
End Drain.

(** C33 No message is lost and none is delivered twice to a recipient that follows
    its cursor: reading page after page from cursor 0 ends, and the pages together
    are exactly the messages that were pending, in sending order, after which the
    queue is empty. *)
Theorem ReadMailbox_drains p n s db :
  mail_inv db -> Principal_Validate p = Ok tt -> 1 <= n <= MaximumMailboxPage -> stored_principal p db = Ok s ->
  let m := (p_ControllerID p, p_TreeID p, p_AgentID p) in
  exists db', drain (S (length (queue m db).(q_pending))) p n 0 db =
    Ok (delivered m.1.1 m.1.2 <$> (queue m db).(q_pending), db') /\
    mail_inv db' /\ (queue m db').(q_pending) = [].
Proof.
  intros Hinv Hp Hn Hs m.
  assert (filter (fun x : Z * MessageRow => 0 < x.1) (queue m db).(q_pending) = (queue m db).(q_pending)) as Hall.
  { apply (f_equal q_pending (queue_ack_zero m db)). }
  destruct (drain_spec p n Hp Hn (S (length (queue m db).(q_pending))) 0 s db) as (db' & Hd & Hrest); try done.
  - split; [lia|]. exact (last_sequence_nonneg m db Hinv).
  - fold m. rewrite Hall. lia.
  - fold m in Hd. rewrite Hall in Hd. eauto.
Qed.

(** ** A concrete mailbox *)

Definition sample_worker : string := "33333333-3333-4333-8333-333333333333".
Definition sample_message : string := "88888888-8888-4888-8888-888888888888".
Definition worker_principal : Principal :=
  NewWorkerPrincipal sample_controller sample_tree sample_worker sample_root sample_device.
Definition root_principal : Principal :=
  NewRootPrincipal sample_controller sample_tree sample_root sample_device.
Definition to_parent : MessageTarget := {| mt_Kind := MessageTargetParent; mt_AgentID := "" |}.

(** A worker below the root, and its first message to the root. *)
Definition worker_db : DB :=
  (run_tx (CreateWorkerPrincipal sample_controller sample_tree sample_worker sample_root sample_device 115) tree_db).2.
Definition mail_db : DB :=
  (run_tx (SendMailboxMessage worker_principal to_parent sample_message "ready" 120) worker_db).2.

Lemma worker_db_mail_inv : mail_inv worker_db.
Proof. apply (mail_inv_frame empty_db); [apply empty_mail_inv|..]; vm_compute; reflexivity. Qed.

Lemma worker_db_trees_inv : trees_inv worker_db.
Proof.
  assert (exists p, CreateWorkerPrincipal sample_controller sample_tree sample_worker sample_root sample_device 115
    tree_db = Ok (p, worker_db)) as [p H] by (apply run_tx_succeeds; vm_compute; reflexivity).
  eapply CreateWorkerPrincipal_effect; [apply tree_db_inv|exact H].
Qed.

Definition sample_delivery : MailboxDelivery :=
  {| md_RecipientAgentID := sample_root; md_MessageID := sample_message; md_Sequence := 1 |}.

Lemma mail_db_eq :
  SendMailboxMessage worker_principal to_parent sample_message "ready" 120 worker_db =
    Ok (sample_delivery, mail_db).
Proof. unfold mail_db. apply run_tx_value. vm_compute. reflexivity. Qed.

Lemma mail_db_inv : mail_inv mail_db.
Proof.
  destruct (SendMailboxMessage_Ok _ _ _ _ _ _ _ _ mail_db_eq) as (Hp & _ & Hid & Hm & Hat & H).
  by eapply send_inv; [apply worker_db_mail_inv|..].
Qed.

Lemma SendMailboxMessage_appends_witness :
  queue (sample_controller, sample_tree, sample_root) mail_db =
    queue_send (sent_row worker_principal sample_message "ready" 120)
      (queue (sample_controller, sample_tree, sample_root) worker_db).
Proof.
  destruct (SendMailboxMessage_appends _ _ _ _ _ _ _ _ worker_db_mail_inv ltac:(vm_compute; reflexivity) mail_db_eq)
    as (_ & _ & _ & Hq & _).
  exact Hq.
Defined.

Lemma SendMailboxMessage_retry_witness :
  run_tx (SendMailboxMessage worker_principal to_parent sample_message "changed" 999) mail_db =
    (Err ErrConflict, mail_db).
Proof.
  eapply (SendMailboxMessage_retry worker_principal to_parent sample_message "ready" 120 999
    _ sample_root _ 1 mail_db mail_db_inv);
    [vm_compute; reflexivity|vm_compute; reflexivity|vm_compute; reflexivity|lia|vm_compute; reflexivity
    |vm_compute; reflexivity|vm_compute; reflexivity|vm_compute; reflexivity|vm_compute; reflexivity|discriminate].
Defined.

Lemma SendMailboxMessage_errors_witness :
  exists e, SendMailboxMessage worker_principal {| mt_Kind := MessageTargetAgent; mt_AgentID := sample_root |}
    sample_message "ready" 120 worker_db = Err e /\
  e ∈ [Sentinel ErrAuthorizationDenied; Sentinel ErrNotFound; Sentinel ErrConflict;
       Sentinel ErrMailboxFull; Sentinel ErrMailboxSequenceExhausted].
Proof.
  exists ErrAuthorizationDenied.
  assert (SendMailboxMessage worker_principal {| mt_Kind := MessageTargetAgent; mt_AgentID := sample_root |}
    sample_message "ready" 120 worker_db = Err ErrAuthorizationDenied) as H by (vm_compute; reflexivity).
  split; [exact H|].
  eapply SendMailboxMessage_errors; [apply worker_db_mail_inv|apply worker_db_trees_inv| | | | | |exact H];
    try (vm_compute; reflexivity); lia.
Defined.

Lemma root_stored : stored_principal root_principal mail_db = Ok root_principal.
Proof. vm_compute. reflexivity. Qed.

Lemma ReadMailbox_refines_witness :
  exists db' page, run_tx (ReadMailbox root_principal 1 32) mail_db = (Ok page, db') /\
    page.(wmr_Messages) = [] /\ mail_inv db'.
Proof.
  destruct (ReadMailbox_refines root_principal 1 32 root_principal mail_db mail_db_inv
    ltac:(vm_compute; reflexivity) ltac:(unfold MaxInt64; lia) ltac:(unfold MaximumMailboxPage; lia) root_stored
    ltac:(vm_compute; discriminate)) as (db' & H & Hinv & _).
  eexists db', _. split; [exact H|]. split; [vm_compute; reflexivity|exact Hinv].
Defined.

Lemma ReadMailbox_drains_witness :
  exists db' l, drain 2 root_principal 1 0 mail_db = Ok (l, db') /\ length l = 1%nat.
Proof.
  destruct (ReadMailbox_drains root_principal 1 root_principal mail_db mail_db_inv
    ltac:(vm_compute; reflexivity) ltac:(unfold MaximumMailboxPage; lia) root_stored) as (db' & H & _).
  eexists db', _. split.
  - etransitivity; [|exact H]. f_equal.
  - vm_compute. reflexivity.
Defined.
