(* ===== verification/Workspace.v ===== *)
(** internal/store/workspace.go: workspace synchronisation receipts. A receipt is
    created pending for a target device, pinned to the manifest inspected on the
    source device, and finished with the summary of the prepared workspace. *)

From S2P Require Export WorkspaceProtocol Trees.

(** ** Definitions *)

(* go: internal/store/workspace.go:18-24 WorkspaceSyncStatus *)
Definition WorkspaceSyncStatus : Type := string.
Definition WorkspaceSyncPending : WorkspaceSyncStatus := "pending".
Definition WorkspaceSyncInspected : WorkspaceSyncStatus := "inspected".
Definition WorkspaceSyncPrepared : WorkspaceSyncStatus := "prepared".

(* go: internal/store/workspace.go WorkspaceSyncIntent *)
Record WorkspaceSyncIntent := {
  wi_Source : PrincipalIdentity;
  wi_SyncID : string;
  wi_TargetDeviceID : string;
  wi_GitURL : string;
  wi_SourcePathHash : string;
}.

(* go: internal/store/workspace.go WorkspaceSyncKey *)
Record WorkspaceSyncKey := {
  wk_ControllerID : string;
  wk_TreeID : string;
  wk_SourceAgentID : string;
  wk_SyncID : string;
}.

(* go: internal/store/workspace.go WorkspaceSyncReceipt *)
Record WorkspaceSyncReceipt := {
  wsr_Key : WorkspaceSyncKey;
  wsr_SourceDeviceID : string;
  wsr_TargetDeviceID : string;
  wsr_GitURL : string;
  wsr_SourcePathHash : string;
  wsr_Status : WorkspaceSyncStatus;
  wsr_HeadOID : string;
  wsr_ObjectFormat : string;
  wsr_WorkingDirectory : string;
  wsr_SourceClean : bool;
  wsr_SourceSnapshotHash : string;
  wsr_Strategy : WorkspaceStrategy;
  wsr_ManifestHash : string;
  wsr_SourceWarnings : list string;
  wsr_Warnings : list string;
  wsr_ConsumedSpawnID : string;
  wsr_CreatedAt : Z;
  wsr_UpdatedAt : Z;
}.

(* go: internal/store/workspace.go WorkspaceSyncReceipt.Manifest *)
Definition receipt_Manifest (r : WorkspaceSyncReceipt) : WorkspaceManifest := {|
  wm_GitURL := r.(wsr_GitURL); wm_HeadOID := r.(wsr_HeadOID); wm_ObjectFormat := r.(wsr_ObjectFormat);
  wm_WorkingDirectory := r.(wsr_WorkingDirectory); wm_Clean := r.(wsr_SourceClean);
  wm_SourceSnapshotHash := r.(wsr_SourceSnapshotHash); wm_Warnings := r.(wsr_SourceWarnings) |}.

(* go: internal/store/workspace.go WorkspaceSyncReceipt.Summary *)
Definition receipt_Summary (r : WorkspaceSyncReceipt) : WorkspaceSummary := {|
  wsm_WorkspaceID := r.(wsr_Key).(wk_SyncID); wsm_SourceDeviceID := r.(wsr_SourceDeviceID);
  wsm_TargetDeviceID := r.(wsr_TargetDeviceID); wsm_HeadOID := r.(wsr_HeadOID);
  wsm_ObjectFormat := r.(wsr_ObjectFormat); wsm_WorkingDirectory := r.(wsr_WorkingDirectory);
  wsm_Strategy := r.(wsr_Strategy); wsm_ManifestHash := r.(wsr_ManifestHash);
  wsm_Warnings := r.(wsr_Warnings) |}.

(* go: internal/store/workspace.go WorkspaceSyncKey.Validate *)
Definition WorkspaceSyncKey_Validate (k : WorkspaceSyncKey) : result unit :=
  validate_ids [("controllerId", k.(wk_ControllerID)); ("treeId", k.(wk_TreeID));
                ("sourceAgentId", k.(wk_SourceAgentID)); ("syncId", k.(wk_SyncID))].

(* go: internal/store/workspace.go validateWorkspaceSyncIntent *)
Definition validateWorkspaceSyncIntent (intent : WorkspaceSyncIntent) : result unit :=
  do? wrap "source" (PrincipalIdentity_Validate intent.(wi_Source)) in
  reject (New "workspace source must be a tree root") when (intent.(wi_Source).(pi_ParentAgentID) <> "") in
  do? wrap "syncId" (ValidateID intent.(wi_SyncID)) in
  do? wrap "targetDeviceId" (ValidateID intent.(wi_TargetDeviceID)) in
  reject (New "gitUrl is invalid")
    when (intent.(wi_GitURL) = "" \/ len intent.(wi_GitURL) > MaximumGitURLBytes) in
  Ok tt.

(* go: internal/store/workspace.go workspaceReceiptMatchesIntent *)
Definition workspaceReceiptMatchesIntent (receipt : WorkspaceSyncReceipt) (intent : WorkspaceSyncIntent) : Prop :=
  receipt.(wsr_Key).(wk_ControllerID) = intent.(wi_Source).(pi_ControllerID) /\
  receipt.(wsr_Key).(wk_TreeID) = intent.(wi_Source).(pi_TreeID) /\
  receipt.(wsr_Key).(wk_SourceAgentID) = intent.(wi_Source).(pi_AgentID) /\
  receipt.(wsr_Key).(wk_SyncID) = intent.(wi_SyncID) /\
  receipt.(wsr_SourceDeviceID) = intent.(wi_Source).(pi_DeviceID) /\
  receipt.(wsr_TargetDeviceID) = intent.(wi_TargetDeviceID) /\
  receipt.(wsr_GitURL) = intent.(wi_GitURL) /\ receipt.(wsr_SourcePathHash) = intent.(wi_SourcePathHash).
#[global] Instance workspaceReceiptMatchesIntent_dec r i : Decision (workspaceReceiptMatchesIntent r i).
Proof. unfold workspaceReceiptMatchesIntent. apply _. Defined.

(** [sameWorkspaceManifest] and [sameWorkspaceSummary] compare field by field. *)
(* go: internal/store/workspace.go sameWorkspaceManifest *)
Definition sameWorkspaceManifest (left right : WorkspaceManifest) : bool := bool_decide (left = right).

(* go: internal/store/workspace.go sameWorkspaceSummary *)
Definition sameWorkspaceSummary (left right : WorkspaceSummary) : bool := bool_decide (left = right).

(** The primary key of a receipt row. *)
Definition workspace_key (k : WorkspaceSyncKey) : string * string * string * string :=
  (k.(wk_ControllerID), k.(wk_TreeID), k.(wk_SourceAgentID), k.(wk_SyncID)).

(** The columns of a row as [Scan] leaves them in the receipt. *)
(* go: internal/store/workspace.go:344-371 queryWorkspaceSyncReceipt *)
Definition scanned_receipt (key : WorkspaceSyncKey) (r : WorkspaceRow) (sourceWarnings warnings : list string)
    : WorkspaceSyncReceipt := {|
  wsr_Key := key; wsr_SourceDeviceID := r.(ws_source_device_id); wsr_TargetDeviceID := r.(ws_target_device_id);
  wsr_GitURL := r.(ws_git_url); wsr_SourcePathHash := r.(ws_source_path_digest); wsr_Status := r.(ws_status);
  wsr_HeadOID := r.(ws_head_oid); wsr_ObjectFormat := r.(ws_object_format);
  wsr_WorkingDirectory := r.(ws_working_directory); wsr_SourceClean := r.(ws_source_clean);
  wsr_SourceSnapshotHash := r.(ws_source_snapshot_hash); wsr_Strategy := r.(ws_strategy);
  wsr_ManifestHash := r.(ws_manifest_hash); wsr_SourceWarnings := sourceWarnings; wsr_Warnings := warnings;
  wsr_ConsumedSpawnID := r.(ws_consumed_spawn_id); wsr_CreatedAt := r.(ws_created_at);
  wsr_UpdatedAt := r.(ws_updated_at) |}.

(** The checks on a row that has been read. *)
(* go: internal/store/workspace.go:378-404 queryWorkspaceSyncReceipt *)
Definition check_receipt (receipt : WorkspaceSyncReceipt) : result unit :=
  if decide (receipt.(wsr_Status) = WorkspaceSyncPrepared) then
    do? wrap "stored workspace sync receipt is invalid" (WorkspaceSummary_Validate (receipt_Summary receipt)) in
    do? wrap "stored workspace source manifest is invalid"
          (WorkspaceManifest_Validate (receipt_Manifest receipt)) in
    reject (New "stored prepared workspace authority is invalid")
      when (WorkspaceManifestHash (receipt_Manifest receipt) <> Ok receipt.(wsr_ManifestHash) \/
            WorkspaceWarningsForStrategy receipt.(wsr_SourceWarnings) receipt.(wsr_Strategy)
              <> Ok receipt.(wsr_Warnings)) in
    Ok tt
  else if decide (receipt.(wsr_Status) = WorkspaceSyncInspected) then
    do? wrap "stored workspace source manifest is invalid"
          (WorkspaceManifest_Validate (receipt_Manifest receipt)) in
    reject (New "stored workspace manifest hash is invalid")
      when (WorkspaceManifestHash (receipt_Manifest receipt) <> Ok receipt.(wsr_ManifestHash)) in
    Ok tt
  else
    reject (New "stored workspace sync status is invalid")
      when (receipt.(wsr_Status) <> WorkspaceSyncPending) in
    Ok tt.

Definition scan_receipt (key : WorkspaceSyncKey) (r : WorkspaceRow) : result WorkspaceSyncReceipt :=
  reject (New "stored source path digest is invalid") when (len r.(ws_source_path_digest) <> 32) in
  match json_Unmarshal_strings r.(ws_source_warnings_json) with
  | None => Err (New "stored workspace source warnings are invalid")
  | Some sourceWarnings =>
      match json_Unmarshal_strings r.(ws_warnings_json) with
      | None => Err (New "stored workspace warnings are invalid")
      | Some warnings =>
          let receipt := scanned_receipt key r sourceWarnings warnings in
          do? check_receipt receipt in Ok receipt
      end
  end.

(* go: internal/store/workspace.go queryWorkspaceSyncReceipt *)
Definition queryWorkspaceSyncReceipt (key : WorkspaceSyncKey) (db : DB) : result WorkspaceSyncReceipt :=
  match db.(workspace_sync_receipts) !! workspace_key key with
  | None => Err ErrNotFound
  | Some r => scan_receipt key r
  end.

(** The INSERT's row: unnamed columns take their defaults. *)
(* go: internal/store/workspace.go:119-127 BeginWorkspaceSync *)
Definition pending_row (intent : WorkspaceSyncIntent) (timestamp : Z) : WorkspaceRow := {|
  ws_source_device_id := intent.(wi_Source).(pi_DeviceID); ws_target_device_id := intent.(wi_TargetDeviceID);
  ws_git_url := intent.(wi_GitURL); ws_source_path_digest := intent.(wi_SourcePathHash);
  ws_status := WorkspaceSyncPending; ws_head_oid := ""; ws_object_format := ""; ws_working_directory := "";
  ws_source_clean := false; ws_source_snapshot_hash := ""; ws_strategy := ""; ws_manifest_hash := "";
  ws_source_warnings_json := "[]"; ws_warnings_json := "[]"; ws_consumed_spawn_id := "";
  ws_created_at := timestamp; ws_updated_at := timestamp |}.

Definition insert_workspace (key : WorkspaceSyncKey) (r : WorkspaceRow) (db : DB) : result DB :=
  let '(c, t, a, s) := workspace_key key in
  let? tb := sql_insert db.(workspace_sync_receipts) (c, t, a, s) r
    (workspace_check r &&
     none_where (fun x : (string * string * string * string) * WorkspaceRow =>
       x.1.1.1 = (c, t) /\ x.1.2 = s) db.(workspace_sync_receipts) &&
     principal_exists db c t a && device_exists db c r.(ws_source_device_id) &&
     device_exists db c r.(ws_target_device_id)) in
  Ok (set_workspace_sync_receipts db tb).

Definition intent_key (intent : WorkspaceSyncIntent) : WorkspaceSyncKey := {|
  wk_ControllerID := intent.(wi_Source).(pi_ControllerID); wk_TreeID := intent.(wi_Source).(pi_TreeID);
  wk_SourceAgentID := intent.(wi_Source).(pi_AgentID); wk_SyncID := intent.(wi_SyncID) |}.

(* go: internal/store/workspace.go BeginWorkspaceSync *)
Definition BeginWorkspaceSync (intent : WorkspaceSyncIntent) (createdAt : Z) : Tx DB WorkspaceSyncReceipt :=
  do! tx_lift (validateWorkspaceSyncIntent intent) in
  let! timestamp := tx_lift (unixTime createdAt) in
  let key := intent_key intent in
  do! tx_query (authorizePrincipal intent.(wi_Source) CapabilityWorkspaceSync) in
  let! existing := tx_query (fun db => optional (queryWorkspaceSyncReceipt key db)) in
  match existing with
  | Some receipt =>
      fail (Wrap "syncId already identifies another request" ErrConflict)
        when (~ workspaceReceiptMatchesIntent receipt intent) in
      tx_ret receipt
  | None =>
      let! target := tx_query (fun db =>
        wrap "workspace target" (queryDevice key.(wk_ControllerID) intent.(wi_TargetDeviceID) db)) in
      fail (Wrap "workspace target must be online" ErrConflict) when (target.(d_Online) = false) in
      do! tx_exec (fun db =>
        wrap "create workspace sync receipt" (insert_workspace key (pending_row intent timestamp) db)) in
      tx_ret (scanned_receipt key (pending_row intent timestamp) [] [])
  end.

(** The two UPDATE statements on a receipt, both by primary key. *)
Definition update_workspace (text : string) (key : WorkspaceSyncKey) (set : WorkspaceRow -> WorkspaceRow) (db : DB)
    : result DB :=
  let? (_, tb) := wrap text (sql_update db.(workspace_sync_receipts) (workspace_key key)
    (fun _ => true) set workspace_check) in
  Ok (set_workspace_sync_receipts db tb).

(* go: internal/store/workspace.go:254-261 PinWorkspaceSyncManifest *)
Definition pin_row (manifest : WorkspaceManifest) (manifestHash : string) (timestamp : Z) (r : WorkspaceRow)
    : WorkspaceRow := {|
  ws_source_device_id := r.(ws_source_device_id); ws_target_device_id := r.(ws_target_device_id);
  ws_git_url := r.(ws_git_url); ws_source_path_digest := r.(ws_source_path_digest);
  ws_status := WorkspaceSyncInspected; ws_head_oid := manifest.(wm_HeadOID);
  ws_object_format := manifest.(wm_ObjectFormat); ws_working_directory := manifest.(wm_WorkingDirectory);
  ws_source_clean := manifest.(wm_Clean); ws_source_snapshot_hash := manifest.(wm_SourceSnapshotHash);
  ws_strategy := r.(ws_strategy); ws_manifest_hash := manifestHash;
  ws_source_warnings_json := json_Marshal_strings manifest.(wm_Warnings);
  ws_warnings_json := r.(ws_warnings_json); ws_consumed_spawn_id := r.(ws_consumed_spawn_id);
  ws_created_at := r.(ws_created_at); ws_updated_at := timestamp |}.

(** The receipt returned after pinning. *)
(* go: internal/store/workspace.go:264-272 PinWorkspaceSyncManifest *)
Definition pin_receipt (manifest : WorkspaceManifest) (manifestHash : string) (timestamp : Z)
    (receipt : WorkspaceSyncReceipt) : WorkspaceSyncReceipt := {|
  wsr_Key := receipt.(wsr_Key); wsr_SourceDeviceID := receipt.(wsr_SourceDeviceID);
  wsr_TargetDeviceID := receipt.(wsr_TargetDeviceID); wsr_GitURL := receipt.(wsr_GitURL);
  wsr_SourcePathHash := receipt.(wsr_SourcePathHash); wsr_Status := WorkspaceSyncInspected;
  wsr_HeadOID := manifest.(wm_HeadOID); wsr_ObjectFormat := manifest.(wm_ObjectFormat);
  wsr_WorkingDirectory := manifest.(wm_WorkingDirectory); wsr_SourceClean := manifest.(wm_Clean);
  wsr_SourceSnapshotHash := manifest.(wm_SourceSnapshotHash); wsr_Strategy := receipt.(wsr_Strategy);
  wsr_ManifestHash := manifestHash; wsr_SourceWarnings := manifest.(wm_Warnings);
  wsr_Warnings := receipt.(wsr_Warnings); wsr_ConsumedSpawnID := receipt.(wsr_ConsumedSpawnID);
  wsr_CreatedAt := receipt.(wsr_CreatedAt); wsr_UpdatedAt := timestamp |}.

(* go: internal/store/workspace.go PinWorkspaceSyncManifest *)
Definition PinWorkspaceSyncManifest (key : WorkspaceSyncKey) (manifest : WorkspaceManifest) (observedAt : Z)
    : Tx DB WorkspaceSyncReceipt :=
  do! tx_lift (WorkspaceSyncKey_Validate key) in
  let! manifestHash := tx_lift (WorkspaceManifestHash manifest) in
  let! timestamp := tx_lift (unixTime observedAt) in
  let! receipt := tx_query (queryWorkspaceSyncReceipt key) in
  fail (Wrap "inspected Git URL differs" ErrConflict) when (receipt.(wsr_GitURL) <> manifest.(wm_GitURL)) in
  if decide (receipt.(wsr_Status) <> WorkspaceSyncPending) then
    fail (Wrap "source workspace changed for this syncId" ErrConflict)
      when (receipt.(wsr_ManifestHash) <> manifestHash \/
            sameWorkspaceManifest (receipt_Manifest receipt) manifest = false) in
    tx_ret receipt
  else
    fail (New "observedAt precedes workspace sync creation") when (timestamp < receipt.(wsr_CreatedAt)) in
    do! tx_exec (update_workspace "pin workspace manifest" key (pin_row manifest manifestHash timestamp)) in
    tx_ret (pin_receipt manifest manifestHash timestamp receipt).

(* go: internal/store/workspace.go:192-200 FinishWorkspaceSync *)
Definition finish_row (summary : WorkspaceSummary) (timestamp : Z) (r : WorkspaceRow) : WorkspaceRow := {|
  ws_source_device_id := r.(ws_source_device_id); ws_target_device_id := r.(ws_target_device_id);
  ws_git_url := r.(ws_git_url); ws_source_path_digest := r.(ws_source_path_digest);
  ws_status := WorkspaceSyncPrepared; ws_head_oid := summary.(wsm_HeadOID);
  ws_object_format := summary.(wsm_ObjectFormat); ws_working_directory := summary.(wsm_WorkingDirectory);
  ws_source_clean := r.(ws_source_clean); ws_source_snapshot_hash := r.(ws_source_snapshot_hash);
  ws_strategy := summary.(wsm_Strategy); ws_manifest_hash := summary.(wsm_ManifestHash);
  ws_source_warnings_json := r.(ws_source_warnings_json);
  ws_warnings_json := json_Marshal_strings summary.(wsm_Warnings);
  ws_consumed_spawn_id := r.(ws_consumed_spawn_id); ws_created_at := r.(ws_created_at);
  ws_updated_at := timestamp |}.

(* go: internal/store/workspace.go:202-209 FinishWorkspaceSync *)
Definition finish_receipt (summary : WorkspaceSummary) (timestamp : Z) (receipt : WorkspaceSyncReceipt)
    : WorkspaceSyncReceipt := {|
  wsr_Key := receipt.(wsr_Key); wsr_SourceDeviceID := receipt.(wsr_SourceDeviceID);
  wsr_TargetDeviceID := receipt.(wsr_TargetDeviceID); wsr_GitURL := receipt.(wsr_GitURL);
  wsr_SourcePathHash := receipt.(wsr_SourcePathHash); wsr_Status := WorkspaceSyncPrepared;
  wsr_HeadOID := summary.(wsm_HeadOID); wsr_ObjectFormat := summary.(wsm_ObjectFormat);
  wsr_WorkingDirectory := summary.(wsm_WorkingDirectory); wsr_SourceClean := receipt.(wsr_SourceClean);
  wsr_SourceSnapshotHash := receipt.(wsr_SourceSnapshotHash); wsr_Strategy := summary.(wsm_Strategy);
  wsr_ManifestHash := summary.(wsm_ManifestHash); wsr_SourceWarnings := receipt.(wsr_SourceWarnings);
  wsr_Warnings := summary.(wsm_Warnings); wsr_ConsumedSpawnID := receipt.(wsr_ConsumedSpawnID);
  wsr_CreatedAt := receipt.(wsr_CreatedAt); wsr_UpdatedAt := timestamp |}.

(* go: internal/store/workspace.go FinishWorkspaceSync *)
Definition FinishWorkspaceSync (key : WorkspaceSyncKey) (summary : WorkspaceSummary) (observedAt : Z)
    : Tx DB WorkspaceSyncReceipt :=
  do! tx_lift (WorkspaceSyncKey_Validate key) in
  do! tx_lift (WorkspaceSummary_Validate summary) in
  fail (New "workspace summary does not match its sync key")
    when (summary.(wsm_WorkspaceID) <> key.(wk_SyncID)) in
  let! timestamp := tx_lift (unixTime observedAt) in
  let! receipt := tx_query (queryWorkspaceSyncReceipt key) in
  if decide (receipt.(wsr_Status) = WorkspaceSyncPrepared) then
    fail (Wrap "workspace result differs" ErrConflict)
      when (sameWorkspaceSummary (receipt_Summary receipt) summary = false) in
    tx_ret receipt
  else
    fail (Wrap "workspace result differs from inspected source" ErrConflict)
      when (WorkspaceWarningsForStrategy receipt.(wsr_SourceWarnings) summary.(wsm_Strategy)
              <> Ok summary.(wsm_Warnings) \/
            receipt.(wsr_Status) <> WorkspaceSyncInspected \/
            receipt.(wsr_ManifestHash) <> summary.(wsm_ManifestHash) \/
            receipt.(wsr_HeadOID) <> summary.(wsm_HeadOID) \/
            receipt.(wsr_ObjectFormat) <> summary.(wsm_ObjectFormat) \/
            receipt.(wsr_WorkingDirectory) <> summary.(wsm_WorkingDirectory)) in
    fail (Wrap "workspace result authority differs" ErrConflict)
      when (receipt.(wsr_SourceDeviceID) <> summary.(wsm_SourceDeviceID) \/
            receipt.(wsr_TargetDeviceID) <> summary.(wsm_TargetDeviceID)) in
    fail (New "observedAt precedes workspace sync state") when (timestamp < receipt.(wsr_UpdatedAt)) in
    do! tx_exec (update_workspace "finish workspace sync" key (finish_row summary timestamp)) in
    tx_ret (finish_receipt summary timestamp receipt).

(** ** Reading rows back *)

Definition key_of (k : string * string * string * string) : WorkspaceSyncKey := {|
  wk_ControllerID := k.1.1.1; wk_TreeID := k.1.1.2; wk_SourceAgentID := k.1.2; wk_SyncID := k.2 |}.

Lemma workspace_key_of k : workspace_key (key_of k) = k.
Proof. by destruct k as [[[??]?]?]. Qed.

Lemma key_of_workspace k : key_of (workspace_key k) = k.
Proof. by destruct k. Qed.

(** What a successful read tells about the row. *)
Lemma scan_receipt_Ok key r receipt :
  scan_receipt key r = Ok receipt <->
  len r.(ws_source_path_digest) = 32 /\
  json_Unmarshal_strings r.(ws_source_warnings_json) = Some receipt.(wsr_SourceWarnings) /\
  json_Unmarshal_strings r.(ws_warnings_json) = Some receipt.(wsr_Warnings) /\
  receipt = scanned_receipt key r receipt.(wsr_SourceWarnings) receipt.(wsr_Warnings) /\
  check_receipt receipt = Ok tt.
Proof.
  unfold scan_receipt. rewrite reject_Ok. split.
  - intros [Hd H]. apply dec_stable in Hd.
    destruct (json_Unmarshal_strings (ws_source_warnings_json r)) as [sw|]; [|done].
    destruct (json_Unmarshal_strings (ws_warnings_json r)) as [w|]; [|done].
    apply do_Ok in H as [Hc Hr]. assert (receipt = scanned_receipt key r sw w) as -> by congruence.
    auto.
  - intros (Hd & -> & -> & Hr & Hc). split; [lia|]. rewrite <- Hr. by rewrite do_Ok.
Qed.

Definition receipt_row_ok (k : string * string * string * string) (r : WorkspaceRow) : Prop :=
  workspace_check r = true /\ (exists receipt, scan_receipt (key_of k) r = Ok receipt) /\
  (r.(ws_consumed_spawn_id) <> "" -> r.(ws_status) = WorkspaceSyncPrepared).

(** Every receipt of the database can be read, sync ids are unique in a tree, and
    only a prepared workspace is ever consumed. *)
Record workspace_inv (db : DB) : Prop := {
  wi_rows k r : db.(workspace_sync_receipts) !! k = Some r -> receipt_row_ok k r;
  wi_unique k k' r r' : db.(workspace_sync_receipts) !! k = Some r ->
    db.(workspace_sync_receipts) !! k' = Some r' -> k.1.1 = k'.1.1 -> k.2 = k'.2 -> k = k';
}.

Lemma empty_workspace_inv : workspace_inv empty_db.
Proof. split; intros; simpl in *; simplify_map_eq. Qed.

Lemma workspace_inv_frame db db' :
  workspace_inv db -> db'.(workspace_sync_receipts) = db.(workspace_sync_receipts) -> workspace_inv db'.
Proof. intros [H1 H2] E. split; by rewrite E. Qed.

(** Replacing a row by another readable one keeps the invariant. *)
Lemma workspace_update_inv db k r r' :
  workspace_inv db -> db.(workspace_sync_receipts) !! k = Some r -> receipt_row_ok k r' ->
  workspace_inv (set_workspace_sync_receipts db (<[k := r']> db.(workspace_sync_receipts))).
Proof.
  intros [H1 H2] Hk Hr'. split; cbn [workspace_sync_receipts set_workspace_sync_receipts].
  - intros k1 r1 [[<- <-]|[Hne Hk1]]%lookup_insert_Some; [done|by apply H1].
  - intros k1 k2 r1 r2 Hk1 Hk2. apply lookup_insert_Some in Hk1 as [[<- _]|[_ Hk1]];
      apply lookup_insert_Some in Hk2 as [[<- _]|[_ Hk2]]; eauto.
Qed.

(** ** The life of a receipt *)

(** One step of a row: pinned to a manifest while pending, finished with a
    summary that agrees with the pinned manifest, consumed once prepared. *)
Inductive receipt_step (k : string * string * string * string) (r : WorkspaceRow) : WorkspaceRow -> Prop :=
  | step_pinned m h ts :
      r.(ws_status) = WorkspaceSyncPending -> WorkspaceManifestHash m = Ok h ->
      r.(ws_git_url) = m.(wm_GitURL) -> r.(ws_created_at) <= ts ->
      receipt_step k r (pin_row m h ts r)
  | step_finished receipt s ts :
      scan_receipt (key_of k) r = Ok receipt -> r.(ws_status) = WorkspaceSyncInspected ->
      WorkspaceSummary_Validate s = Ok tt -> s.(wsm_WorkspaceID) = k.2 ->
      WorkspaceWarningsForStrategy receipt.(wsr_SourceWarnings) s.(wsm_Strategy) = Ok s.(wsm_Warnings) ->
      r.(ws_manifest_hash) = s.(wsm_ManifestHash) -> r.(ws_head_oid) = s.(wsm_HeadOID) ->
      r.(ws_object_format) = s.(wsm_ObjectFormat) -> r.(ws_working_directory) = s.(wsm_WorkingDirectory) ->
      r.(ws_source_device_id) = s.(wsm_SourceDeviceID) -> r.(ws_target_device_id) = s.(wsm_TargetDeviceID) ->
      r.(ws_updated_at) <= ts ->
      receipt_step k r (finish_row s ts r).

Lemma manifest_valid_hash m h : WorkspaceManifestHash m = Ok h -> WorkspaceManifest_Validate m = Ok tt.
Proof. unfold WorkspaceManifestHash. rewrite do_Ok. tauto. Qed.

Lemma manifest_object_format m :
  WorkspaceManifest_Validate m = Ok tt -> m.(wm_ObjectFormat) ∈ ["sha1"; "sha256"].
Proof.
  unfold WorkspaceManifest_Validate. rewrite do_Ok, reject_Ok, do_Ok. intros (_ & _ & Hf & _).
  unfold validate_object_format in Hf. repeat case_decide; set_solver.
Qed.

Lemma manifest_source_warnings m :
  WorkspaceManifest_Validate m = Ok tt -> ValidateWorkspaceSourceWarnings m.(wm_Warnings) = Ok tt.
Proof. unfold WorkspaceManifest_Validate. rewrite do_Ok, reject_Ok, !do_Ok, reject_Ok. tauto. Qed.

Lemma manifest_warnings_roundtrip m :
  WorkspaceManifest_Validate m = Ok tt ->
  json_Unmarshal_strings (json_Marshal_strings m.(wm_Warnings)) = Some m.(wm_Warnings).
Proof. intros H. by apply json_strings_roundtrip, warnings_plain, source_warnings_valid, manifest_source_warnings. Qed.

Lemma workspace_check_true r :
  workspace_check r = true <->
  1 <= len r.(ws_git_url) <= 4096 /\ len r.(ws_source_path_digest) = 32 /\
  r.(ws_status) ∈ ["pending"; "inspected"; "prepared"] /\ r.(ws_object_format) ∈ [""; "sha1"; "sha256"] /\
  r.(ws_strategy) ∈ [""; "direct"; "thinBundle"; "selfContainedBundle"] /\
  0 <= r.(ws_created_at) /\ r.(ws_created_at) <= r.(ws_updated_at).
Proof.
  unfold workspace_check, in_range. rewrite !andb_true_iff, !bool_decide_eq_true, !Z.leb_le, Z.eqb_eq. tauto.
Qed.

(** A pinned row reads back as the receipt the call returned. *)
Lemma pinned_reads_back key r receipt m h ts :
  scan_receipt key r = Ok receipt -> WorkspaceManifestHash m = Ok h -> r.(ws_git_url) = m.(wm_GitURL) ->
  scan_receipt key (pin_row m h ts r) = Ok (pin_receipt m h ts receipt).
Proof.
  intros Hr Hh Hg. apply scan_receipt_Ok in Hr as (Hd & _ & Hw & Hr & _).
  pose proof (manifest_valid_hash _ _ Hh) as Hv.
  assert (receipt_Manifest (pin_receipt m h ts receipt) = m) as Hm.
  { rewrite Hr. destruct m. unfold receipt_Manifest. simpl in Hg |- *. by rewrite Hg. }
  apply scan_receipt_Ok. split_and!.
  - exact Hd.
  - by apply manifest_warnings_roundtrip.
  - exact Hw.
  - rewrite Hr at 1. reflexivity.
  - unfold check_receipt. rewrite Hm, decide_False, decide_True by done.
    rewrite Hv, Hh. simpl. by rewrite decide_False by tauto.
Qed.

Lemma summary_warnings_roundtrip s :
  WorkspaceSummary_Validate s = Ok tt ->
  json_Unmarshal_strings (json_Marshal_strings s.(wsm_Warnings)) = Some s.(wsm_Warnings).
Proof.
  unfold WorkspaceSummary_Validate. rewrite !do_Ok. intros (_ & _ & Hw & _).
  by apply json_strings_roundtrip, warnings_plain.
Qed.

Lemma summary_strategy s : WorkspaceSummary_Validate s = Ok tt -> WorkspaceStrategy_Validate s.(wsm_Strategy) = Ok tt.
Proof. unfold WorkspaceSummary_Validate. rewrite !do_Ok. tauto. Qed.

(** A finished row reads back as the receipt the call returned, and its summary
    is the one that was reported. *)
Lemma finished_reads_back key r receipt s ts :
  scan_receipt key r = Ok receipt -> r.(ws_status) = WorkspaceSyncInspected ->
  WorkspaceSummary_Validate s = Ok tt -> s.(wsm_WorkspaceID) = key.(wk_SyncID) ->
  WorkspaceWarningsForStrategy receipt.(wsr_SourceWarnings) s.(wsm_Strategy) = Ok s.(wsm_Warnings) ->
  r.(ws_manifest_hash) = s.(wsm_ManifestHash) -> r.(ws_head_oid) = s.(wsm_HeadOID) ->
  r.(ws_object_format) = s.(wsm_ObjectFormat) -> r.(ws_working_directory) = s.(wsm_WorkingDirectory) ->
  r.(ws_source_device_id) = s.(wsm_SourceDeviceID) -> r.(ws_target_device_id) = s.(wsm_TargetDeviceID) ->
  scan_receipt key (finish_row s ts r) = Ok (finish_receipt s ts receipt) /\
  receipt_Summary (finish_receipt s ts receipt) = s /\
  receipt_Manifest (finish_receipt s ts receipt) = receipt_Manifest receipt /\
  WorkspaceManifestHash (receipt_Manifest receipt) = Ok s.(wsm_ManifestHash).
Proof.
  intros Hr Hst Hv Hid Hw Hmh Hho Hof Hwd Hsd Htd. apply scan_receipt_Ok in Hr as (Hd & Hsw & _ & Hr & Hc).
  assert (receipt_Summary (finish_receipt s ts receipt) = s) as Hsum.
  { rewrite Hr. destruct s. unfold receipt_Summary. simpl in *. congruence. }
  assert (receipt_Manifest (finish_receipt s ts receipt) = receipt_Manifest receipt) as Hman.
  { rewrite Hr. unfold receipt_Manifest. simpl. congruence. }
  assert (WorkspaceManifest_Validate (receipt_Manifest receipt) = Ok tt /\
          WorkspaceManifestHash (receipt_Manifest receipt) = Ok s.(wsm_ManifestHash)) as [Hmv Hh].
  { revert Hc. unfold check_receipt.
    assert (receipt.(wsr_Status) = WorkspaceSyncInspected) as -> by (rewrite Hr; exact Hst).
    rewrite decide_False, decide_True by done. rewrite do_Ok, wrap_Ok, reject_Ok. intros (Hmv & Hh & _).
    split; [exact Hmv|]. apply dec_stable in Hh. rewrite Hh, <- Hmh. by rewrite Hr. }
  split_and!; [|hyp..]. apply scan_receipt_Ok. split_and!.
  - exact Hd.
  - exact Hsw.
  - by apply summary_warnings_roundtrip.
  - rewrite Hr at 1. reflexivity.
  - unfold check_receipt. rewrite decide_True by done. rewrite Hsum, Hman, Hv, Hmv, Hh.
    cbn [result_bind wrap]. change (wsr_SourceWarnings (finish_receipt s ts receipt)) with (wsr_SourceWarnings receipt).
    change (wsr_Strategy (finish_receipt s ts receipt)) with (wsm_Strategy s).
    rewrite Hw. rewrite decide_False; [done|]. intros [H|H]; by apply H.
Qed.

Lemma receipt_step_ok k r r' : receipt_row_ok k r -> receipt_step k r r' -> receipt_row_ok k r'.
Proof.
  intros (Hc & [receipt0 Hr0] & Hcons) Hs. pose proof (proj1 (workspace_check_true r) Hc) as
    (Hg & Hd & Hst0 & Hof0 & Hsg & Hca & Hua).
  destruct Hs as [m h ts Hst Hh Hgu Hts|receipt s ts Hr Hst Hv Hid Hw Hmh Hho Hof Hwd Hsd Htd Hts].
  - split_and!.
    + apply workspace_check_true. cbn [pin_row ws_git_url ws_source_path_digest ws_status ws_object_format ws_strategy
        ws_created_at ws_updated_at]. split_and!; try lia; [set_solver| |done].
      pose proof (manifest_object_format _ (manifest_valid_hash _ _ Hh)). set_solver.
    + eexists. by apply pinned_reads_back.
    + cbn [pin_row ws_consumed_spawn_id ws_status]. intros H. rewrite Hst in Hcons. by specialize (Hcons H).
  - split_and!.
    + apply workspace_check_true. cbn [finish_row ws_git_url ws_source_path_digest ws_status ws_object_format ws_strategy
        ws_created_at ws_updated_at]. split_and!; try lia; [set_solver|by rewrite <- Hof|].
      apply summary_strategy, strategy_cases in Hv. set_solver.
    + eexists. by eapply (finished_reads_back (key_of k)).
    + done.
Qed.

(** ** The operations *)

Lemma update_workspace_Ok text key set db db' r :
  update_workspace text key set db = Ok db' -> db.(workspace_sync_receipts) !! workspace_key key = Some r ->
  db' = set_workspace_sync_receipts db (<[workspace_key key := set r]> db.(workspace_sync_receipts)).
Proof.
  unfold update_workspace. intros H Hk. apply result_bind_Ok in H as ([n tb] & H & [= <-]).
  rewrite wrap_Ok in H. apply sql_update_Ok in H as [(_ & _ & Hno)|(_ & r' & Hk' & _ & _ & ->)].
  - by specialize (Hno r Hk).
  - by simplify_eq.
Qed.

Lemma queryWorkspaceSyncReceipt_Ok key db receipt :
  queryWorkspaceSyncReceipt key db = Ok receipt <->
  exists r, db.(workspace_sync_receipts) !! workspace_key key = Some r /\ scan_receipt key r = Ok receipt.
Proof. unfold queryWorkspaceSyncReceipt. destruct (_ !! _); naive_solver. Qed.

(** The columns of the receipt that a check of the code compares. *)
Lemma scanned_columns key r receipt :
  scan_receipt key r = Ok receipt ->
  receipt.(wsr_Key) = key /\ receipt.(wsr_Status) = r.(ws_status) /\ receipt.(wsr_GitURL) = r.(ws_git_url) /\
  receipt.(wsr_ManifestHash) = r.(ws_manifest_hash) /\ receipt.(wsr_HeadOID) = r.(ws_head_oid) /\
  receipt.(wsr_ObjectFormat) = r.(ws_object_format) /\ receipt.(wsr_WorkingDirectory) = r.(ws_working_directory) /\
  receipt.(wsr_SourceDeviceID) = r.(ws_source_device_id) /\ receipt.(wsr_TargetDeviceID) = r.(ws_target_device_id) /\
  receipt.(wsr_CreatedAt) = r.(ws_created_at) /\ receipt.(wsr_UpdatedAt) = r.(ws_updated_at) /\
  receipt.(wsr_ConsumedSpawnID) = r.(ws_consumed_spawn_id).
Proof. intros (_ & _ & _ & -> & _)%scan_receipt_Ok. done. Qed.

(** What a successful call does to the table: nothing, or one step of one row. *)
Definition workspace_advance (key : WorkspaceSyncKey) (db db' : DB) : Prop :=
  db' = db \/
  exists r r', db.(workspace_sync_receipts) !! workspace_key key = Some r /\ receipt_step (workspace_key key) r r' /\
    db' = set_workspace_sync_receipts db (<[workspace_key key := r']> db.(workspace_sync_receipts)).

Lemma workspace_advance_step key db r r' receipt :
  db.(workspace_sync_receipts) !! workspace_key key = Some r -> receipt_step (workspace_key key) r r' ->
  scan_receipt key r' = Ok receipt ->
  let db' := set_workspace_sync_receipts db (<[workspace_key key := r']> db.(workspace_sync_receipts)) in
  workspace_advance key db db' /\ queryWorkspaceSyncReceipt key db' = Ok receipt.
Proof.
  intros Hk Hs Hr db'. split; [right; eauto|]. apply queryWorkspaceSyncReceipt_Ok. exists r'.
  split; [apply lookup_insert_eq|done].
Qed.

Lemma PinWorkspaceSyncManifest_effect key m at_ db receipt db' :
  PinWorkspaceSyncManifest key m at_ db = Ok (receipt, db') ->
  workspace_advance key db db' /\ queryWorkspaceSyncReceipt key db' = Ok receipt /\
  receipt_Manifest receipt = m /\ WorkspaceManifestHash m = Ok receipt.(wsr_ManifestHash) /\
  receipt.(wsr_Status) <> WorkspaceSyncPending.
Proof.
  unfold PinWorkspaceSyncManifest. intros H. go_inv.
  - assert (receipt_Manifest x5 = m /\ x5.(wsr_ManifestHash) = x1) as [Hm Hx].
    { unfold sameWorkspaceManifest in n1. split.
      - destruct (decide (receipt_Manifest x5 = m)) as [|Hne]; [done|].
        destruct n1. right. by apply bool_decide_eq_false.
      - destruct (decide (x5.(wsr_ManifestHash) = x1)); tauto. }
    split_and!; [by left|hyp|done|by rewrite Hx|done].
  - apply queryWorkspaceSyncReceipt_Ok in H2 as (r & Hk & Hr).
    pose proof (scanned_columns _ _ _ Hr) as (_ & Hst & Hg & _ & _ & _ & _ & _ & _ & Hca & _).
    apply dec_stable in n, n0. rewrite (update_workspace_Ok _ _ _ _ _ r H3 Hk).
    assert (r.(ws_git_url) = m.(wm_GitURL)) as Hgu by congruence.
    destruct (workspace_advance_step key db r (pin_row m x1 x3 r) (pin_receipt m x1 x3 x5)) as [Ha Hq].
    + hyp.
    + constructor; [congruence|hyp|hyp|lia].
    + by apply pinned_reads_back.
    + split_and!; [hyp|hyp| |hyp|done]. unfold receipt_Manifest. destruct m. simpl in *. by rewrite n.
Qed.

Lemma FinishWorkspaceSync_effect key s at_ db receipt db' :
  FinishWorkspaceSync key s at_ db = Ok (receipt, db') ->
  workspace_advance key db db' /\ queryWorkspaceSyncReceipt key db' = Ok receipt /\
  receipt_Summary receipt = s /\ receipt.(wsr_Status) = WorkspaceSyncPrepared.
Proof.
  unfold FinishWorkspaceSync. intros H. go_inv.
  - split_and!; [by left|hyp| |hyp]. unfold sameWorkspaceSummary in *.
    destruct (decide (receipt_Summary x3 = s)) as [|Hne]; [done|]. destruct n0. by apply bool_decide_eq_false.
  - apply queryWorkspaceSyncReceipt_Ok in H2 as (r & Hk & Hr).
    pose proof (scanned_columns _ _ _ Hr) as (_ & Hst & _ & Hmh & Hho & Hof & Hwd & Hsd & Htd & _ & Hua & _).
    rewrite (update_workspace_Ok _ _ _ _ _ r H3 Hk).
    assert (r.(ws_status) = WorkspaceSyncInspected /\
            WorkspaceWarningsForStrategy x3.(wsr_SourceWarnings) s.(wsm_Strategy) = Ok s.(wsm_Warnings) /\
            r.(ws_manifest_hash) = s.(wsm_ManifestHash) /\ r.(ws_head_oid) = s.(wsm_HeadOID) /\
            r.(ws_object_format) = s.(wsm_ObjectFormat) /\ r.(ws_working_directory) = s.(wsm_WorkingDirectory) /\
            r.(ws_source_device_id) = s.(wsm_SourceDeviceID) /\ r.(ws_target_device_id) = s.(wsm_TargetDeviceID))
      as (? & ? & ? & ? & ? & ? & ? & ?).
    { rewrite <- Hst, <- Hmh, <- Hho, <- Hof, <- Hwd, <- Hsd, <- Htd. split_and!; apply dec_stable; tauto. }
    apply dec_stable in n.
    destruct (finished_reads_back key r x3 s x0) as (Hrb & Hsum & _); [hyp..|].
    destruct (workspace_advance_step key db r (finish_row s x0 r) (finish_receipt s x0 x3)) as [Ha Hq].
    + hyp.
    + apply (step_finished _ _ x3); rewrite ?key_of_workspace; try hyp. lia.
    + hyp.
    + split_and!; [hyp|hyp|hyp|done].
Qed.

Lemma workspace_advance_inv key db db' : workspace_inv db -> workspace_advance key db db' -> workspace_inv db'.
Proof.
  intros Hinv [->|(r & r' & Hk & Hs & ->)]; [done|]. eapply workspace_update_inv; [done|exact Hk|].
  eapply receipt_step_ok; [|exact Hs]. by apply (wi_rows _ Hinv).
Qed.

Lemma validateWorkspaceSyncIntent_Ok intent :
  validateWorkspaceSyncIntent intent = Ok tt ->
  PrincipalIdentity_Validate intent.(wi_Source) = Ok tt /\ intent.(wi_Source).(pi_ParentAgentID) = "" /\
  valid_id intent.(wi_SyncID) /\ valid_id intent.(wi_TargetDeviceID).
Proof.
  unfold validateWorkspaceSyncIntent. rewrite do_Ok, wrap_Ok, reject_Ok, !do_Ok, !wrap_Ok.
  intros (H1 & H2 & H3 & H4 & _). apply dec_stable in H2. auto.
Qed.

Lemma insert_workspace_Ok key r db db' :
  insert_workspace key r db = Ok db' ->
  workspace_check r = true /\ db.(workspace_sync_receipts) !! workspace_key key = None /\
  (forall k r', db.(workspace_sync_receipts) !! k = Some r' -> ~ (k.1.1 = (workspace_key key).1.1 /\ k.2 = key.(wk_SyncID))) /\
  principal_exists db key.(wk_ControllerID) key.(wk_TreeID) key.(wk_SourceAgentID) = true /\
  device_exists db key.(wk_ControllerID) r.(ws_source_device_id) = true /\
  device_exists db key.(wk_ControllerID) r.(ws_target_device_id) = true /\
  db' = set_workspace_sync_receipts db (<[workspace_key key := r]> db.(workspace_sync_receipts)).
Proof.
  unfold insert_workspace, workspace_key. cbv beta iota. intros H.
  apply result_bind_Ok in H as (tb & H & Hdb). assert (db' = set_workspace_sync_receipts db tb) as -> by congruence.
  apply sql_insert_Ok in H as (Hok & Hn & ->). rewrite !andb_true_iff, none_where_true in Hok.
  destruct Hok as [[[[Hc Hu] Hp] Hd1] Hd2]. split_and!; try hyp; try reflexivity.
Qed.

(** A new receipt reads back as the one returned, for the request it was made for. *)
Lemma pending_reads_back intent ts :
  len intent.(wi_SourcePathHash) = 32 ->
  let receipt := scanned_receipt (intent_key intent) (pending_row intent ts) [] [] in
  scan_receipt (intent_key intent) (pending_row intent ts) = Ok receipt /\
  workspaceReceiptMatchesIntent receipt intent.
Proof.
  intros Hl receipt. split; [|unfold receipt, workspaceReceiptMatchesIntent; done].
  apply scan_receipt_Ok. split_and!; [hyp|reflexivity..].
Qed.

Lemma BeginWorkspaceSync_effect intent at_ db receipt db' :
  BeginWorkspaceSync intent at_ db = Ok (receipt, db') ->
  queryWorkspaceSyncReceipt (intent_key intent) db' = Ok receipt /\
  workspaceReceiptMatchesIntent receipt intent /\
  (exists p, authorizePrincipal intent.(wi_Source) CapabilityWorkspaceSync db = Ok p) /\
  (db' = db \/
   (exists device, queryDevice intent.(wi_Source).(pi_ControllerID) intent.(wi_TargetDeviceID) db = Ok device /\
      device.(d_Online) = true) /\
   insert_workspace (intent_key intent) (pending_row intent at_) db = Ok db').
Proof.
  unfold BeginWorkspaceSync. intros H. go_inv.
  match goal with o : option WorkspaceSyncReceipt |- _ => destruct o as [receipt0|] end; go_inv.
  - apply dec_stable in n. split_and!; [hyp|done|eauto|by left].
  - unfold unixTime in *. go_inv. simpl in *.
    match goal with H : insert_workspace _ _ _ = Ok _ |- _ => rename H into Hi end.
    pose proof (insert_workspace_Ok _ _ _ _ Hi) as (Hc & _ & _ & _ & _ & _ & ->).
    apply workspace_check_true in Hc as (_ & Hd & _).
    destruct (pending_reads_back intent x1 Hd) as [Hr Hm]. split_and!.
    + apply queryWorkspaceSyncReceipt_Ok. eexists. split; [apply lookup_insert_eq|exact Hr].
    + exact Hm.
    + eauto.
    + right. split; [|hyp]. eexists. split; [eassumption|]. by apply not_false_is_true.
Qed.

Lemma BeginWorkspaceSync_inv intent at_ db receipt db' :
  workspace_inv db -> BeginWorkspaceSync intent at_ db = Ok (receipt, db') -> workspace_inv db'.
Proof.
  intros Hinv H. apply BeginWorkspaceSync_effect in H as (Hq & _ & _ & [->|[_ Hi]]); [done|].
  apply insert_workspace_Ok in Hi as (Hc & Hn & Hu & _ & _ & _ & ->).
  destruct Hinv as [H1 H2]. split; cbn [workspace_sync_receipts set_workspace_sync_receipts].
  - intros k r [[<- <-]|[_ Hk]]%lookup_insert_Some; [|by apply H1]. split_and!; [hyp| |done].
    rewrite key_of_workspace. apply queryWorkspaceSyncReceipt_Ok in Hq as (r & Hr & Hs).
    cbn [workspace_sync_receipts set_workspace_sync_receipts] in Hr. rewrite lookup_insert_eq in Hr.
    injection Hr as <-. eauto.
  - intros k k' r r' Hk Hk' E1 E2. apply lookup_insert_Some in Hk as [[<- _]|[Hne Hk]];
      apply lookup_insert_Some in Hk' as [[<- _]|[Hne' Hk']]; [done| | |eauto].
    + destruct (Hu _ _ Hk'). by rewrite <- E1, <- E2.
    + destruct (Hu _ _ Hk). by rewrite E1, E2.
Qed.

(** Starting a synchronisation is idempotent: the receipt returned is the one
    the database holds, repeating the request returns it again and writes nothing,
    even when the target has gone offline meanwhile, and reusing the id for another
    target, repository or source path is a conflict. *)
Theorem BeginWorkspaceSync_idempotent intent at_ db receipt db' :
  BeginWorkspaceSync intent at_ db = Ok (receipt, db') ->
  queryWorkspaceSyncReceipt (intent_key intent) db' = Ok receipt /\
  (forall at2, 0 <= at2 -> BeginWorkspaceSync intent at2 db' = Ok (receipt, db')) /\
  (forall other at2, validateWorkspaceSyncIntent other = Ok tt -> 0 <= at2 ->
     other.(wi_Source) = intent.(wi_Source) -> other.(wi_SyncID) = intent.(wi_SyncID) -> other <> intent ->
     BeginWorkspaceSync other at2 db' =
       Err (Wrap "syncId already identifies another request" ErrConflict)).
Proof.
  intros H. assert (validateWorkspaceSyncIntent intent = Ok tt) as Hv
    by (revert H; unfold BeginWorkspaceSync; intros H; go_inv; hyp).
  apply BeginWorkspaceSync_effect in H as (Hq & Hm & [p Hp] & Hdb).
  assert (authorizePrincipal intent.(wi_Source) CapabilityWorkspaceSync db' = Ok p) as Hp'.
  { destruct Hdb as [->|[_ Hi]]; [done|]. by apply insert_workspace_Ok in Hi as (_ & _ & _ & _ & _ & _ & ->). }
  assert (forall other at2, validateWorkspaceSyncIntent other = Ok tt -> 0 <= at2 ->
    other.(wi_Source) = intent.(wi_Source) -> other.(wi_SyncID) = intent.(wi_SyncID) ->
    BeginWorkspaceSync other at2 db' =
      if decide (workspaceReceiptMatchesIntent receipt other) then Ok (receipt, db')
      else Err (Wrap "syncId already identifies another request" ErrConflict)) as Hstep.
  { intros other at2 Hov Hat Hs Hi. assert (intent_key other = intent_key intent) as Hk
      by (unfold intent_key; by rewrite Hs, Hi).
    unfold BeginWorkspaceSync, tx_lift, tx_query, tx_bind. rewrite Hov. unfold unixTime.
    rewrite decide_False by lia. rewrite Hs, Hp', Hk, Hq. simpl.
    destruct (decide (workspaceReceiptMatchesIntent receipt other)) as [Hd|Hd];
      [by rewrite decide_False by tauto|by rewrite decide_True by done]. }
  split_and!; [hyp| |].
  - intros at2 Hat. rewrite Hstep by done. by rewrite decide_True.
  - intros other at2 Hov Hat Hs Hi Hne. rewrite Hstep by done. rewrite decide_False; [done|].
    intros Hmo. apply Hne. unfold workspaceReceiptMatchesIntent in *. destruct other, intent. simpl in *.
    f_equal; naive_solver congruence.
Qed.

(** Pinning happens once: after a successful pin the receipt carries exactly
    the inspected manifest, repeating it returns the same receipt and writes
    nothing, and any other manifest for the same id is a conflict. *)
Theorem PinWorkspaceSyncManifest_pins key m at_ db receipt db' :
  workspace_inv db -> PinWorkspaceSyncManifest key m at_ db = Ok (receipt, db') ->
  workspace_inv db' /\ receipt_Manifest receipt = m /\
  (forall at2, 0 <= at2 -> PinWorkspaceSyncManifest key m at2 db' = Ok (receipt, db')) /\
  (forall m2 at2, WorkspaceManifest_Validate m2 = Ok tt -> m2 <> m -> 0 <= at2 ->
     exists text, PinWorkspaceSyncManifest key m2 at2 db' = Err (Wrap text ErrConflict)).
Proof.
  intros Hinv H. assert (WorkspaceSyncKey_Validate key = Ok tt) as Hv
    by (revert H; unfold PinWorkspaceSyncManifest; intros H; go_inv; hyp).
  apply PinWorkspaceSyncManifest_effect in H as (Ha & Hq & Hm & Hh & Hst).
  assert (receipt.(wsr_GitURL) = m.(wm_GitURL)) as Hg by (by rewrite <- Hm).
  assert (forall m2 h2 at2, WorkspaceManifestHash m2 = Ok h2 -> 0 <= at2 ->
    PinWorkspaceSyncManifest key m2 at2 db' =
    if decide (receipt.(wsr_GitURL) <> m2.(wm_GitURL)) then Err (Wrap "inspected Git URL differs" ErrConflict)
    else if decide (receipt.(wsr_ManifestHash) <> h2 \/
                    sameWorkspaceManifest (receipt_Manifest receipt) m2 = false)
    then Err (Wrap "source workspace changed for this syncId" ErrConflict)
    else Ok (receipt, db')) as Hstep.
  { intros m2 h2 at2 Hh2 Hat. unfold PinWorkspaceSyncManifest, tx_lift, tx_query, tx_bind.
    rewrite Hv, Hh2. unfold unixTime. rewrite decide_False by lia. rewrite Hq.
    case_decide; [done|]. rewrite decide_True by hyp. by case_decide. }
  split_and!; [by eapply workspace_advance_inv|hyp| |].
  - intros at2 Hat. rewrite (Hstep m _ at2 Hh Hat). rewrite decide_False by tauto.
    rewrite decide_False; [done|]. rewrite Hm. unfold sameWorkspaceManifest. rewrite bool_decide_true by done.
    intros [?|?]; done.
  - intros m2 at2 Hv2 Hne Hat.
    rewrite (Hstep m2 (hex_string (Sum256 (of_bytes (json_Marshal_manifest m2)))) at2);
      [|unfold WorkspaceManifestHash; by rewrite Hv2|done].
    case_decide; [eauto|]. rewrite decide_True; [eauto|]. right. unfold sameWorkspaceManifest.
    apply bool_decide_eq_false. congruence.
Qed.

(** A finished workspace is bound to its source: the stored summary is the one
    reported, its manifest hash is the hash of the pinned manifest, repeating the
    report returns the same receipt and writes nothing, and a different summary is
    a conflict, so the result can no longer change. *)
Theorem FinishWorkspaceSync_binds key s at_ db receipt db' :
  workspace_inv db -> FinishWorkspaceSync key s at_ db = Ok (receipt, db') ->
  workspace_inv db' /\ receipt_Summary receipt = s /\
  WorkspaceManifestHash (receipt_Manifest receipt) = Ok s.(wsm_ManifestHash) /\
  (forall at2, 0 <= at2 -> FinishWorkspaceSync key s at2 db' = Ok (receipt, db')) /\
  (forall s2 at2, WorkspaceSummary_Validate s2 = Ok tt -> s2.(wsm_WorkspaceID) = key.(wk_SyncID) -> s2 <> s ->
     0 <= at2 -> FinishWorkspaceSync key s2 at2 db' = Err (Wrap "workspace result differs" ErrConflict)).
Proof.
  intros Hinv H. assert (WorkspaceSyncKey_Validate key = Ok tt /\ WorkspaceSummary_Validate s = Ok tt /\
      s.(wsm_WorkspaceID) = key.(wk_SyncID)) as (Hv & Hsv & Hid)
    by (revert H; unfold FinishWorkspaceSync; intros H; go_inv; split_and!; [hyp|hyp|by apply dec_stable|hyp|hyp|by apply dec_stable]).
  apply FinishWorkspaceSync_effect in H as (Ha & Hq & Hs & Hst).
  assert (forall s2 at2, WorkspaceSummary_Validate s2 = Ok tt -> s2.(wsm_WorkspaceID) = key.(wk_SyncID) -> 0 <= at2 ->
    FinishWorkspaceSync key s2 at2 db' =
    if decide (s2 = s) then Ok (receipt, db') else Err (Wrap "workspace result differs" ErrConflict)) as Hstep.
  { intros s2 at2 Hv2 Hi2 Hat. unfold FinishWorkspaceSync, tx_lift, tx_query, tx_bind.
    rewrite Hv, Hv2, decide_False by tauto. unfold unixTime. rewrite decide_False by lia. rewrite Hq.
    rewrite decide_True by hyp. rewrite Hs. unfold sameWorkspaceSummary.
    destruct (decide (s2 = s)) as [->|Hne];
      [by rewrite bool_decide_true, decide_False by done|].
    by rewrite bool_decide_false, decide_True by done. }
  split_and!; [by eapply workspace_advance_inv|hyp| | |].
  - apply queryWorkspaceSyncReceipt_Ok in Hq as (r & _ & (_ & _ & _ & _ & Hc)%scan_receipt_Ok).
    unfold check_receipt in Hc. rewrite decide_True, !do_Ok, reject_Ok in Hc by hyp.
    destruct Hc as (_ & _ & Hc & _). rewrite <- Hs. apply dec_stable. tauto.
  - intros at2 Hat. rewrite Hstep by done. by rewrite decide_True.
  - intros s2 at2 Hv2 Hi2 Hne Hat. rewrite Hstep by done. by rewrite decide_False.
Qed.

(** Synchronisation touches no other table. *)
Lemma workspace_advance_only key db db' :
  workspace_advance key db db' -> exists t, db' = set_workspace_sync_receipts db t.
Proof. intros [->|(r & r' & _ & _ & ->)]; [|eauto]. exists db.(workspace_sync_receipts). by destruct db. Qed.

Lemma BeginWorkspaceSync_only intent at_ db receipt db' :
  BeginWorkspaceSync intent at_ db = Ok (receipt, db') -> exists t, db' = set_workspace_sync_receipts db t.
Proof.
  intros (_ & _ & _ & [->|[_ Hi]])%BeginWorkspaceSync_effect; [exists db.(workspace_sync_receipts); by destruct db|].
  apply insert_workspace_Ok in Hi as (_ & _ & _ & _ & _ & _ & ->). eauto.
Qed.

(** ** A synchronisation, step by step *)

Definition sample_source : PrincipalIdentity := {|
  pi_ControllerID := sample_controller; pi_TreeID := sample_tree; pi_AgentID := sample_root;
  pi_ParentAgentID := ""; pi_DeviceID := sample_device |}.
Definition sample_sync : string := "66666666-6666-4666-8666-666666666666".
Definition sample_intent : WorkspaceSyncIntent := {|
  wi_Source := sample_source; wi_SyncID := sample_sync; wi_TargetDeviceID := sample_device;
  wi_GitURL := "ssh://git.example/repo"; wi_SourcePathHash := sample_mac |}.
Definition sample_key : WorkspaceSyncKey := intent_key sample_intent.
Definition sample_summary : WorkspaceSummary := {|
  wsm_WorkspaceID := sample_sync; wsm_SourceDeviceID := sample_device; wsm_TargetDeviceID := sample_device;
  wsm_HeadOID := "0123456789abcdef0123456789abcdef01234567"; wsm_ObjectFormat := "sha1";
  wsm_WorkingDirectory := "cmd"; wsm_Strategy := WorkspaceStrategyThin;
  wsm_ManifestHash := hex_string (Sum256 (of_bytes (json_Marshal_manifest (sample_manifest "cmd"))));
  wsm_Warnings := [WorkspaceWarningLFSPayloadNotTransferred] |}.

Definition sync_db : DB := (run_tx (BeginWorkspaceSync sample_intent 130) tree_db).2.
Definition pinned_db : DB := (run_tx (PinWorkspaceSyncManifest sample_key (sample_manifest "cmd") 140) sync_db).2.
Definition prepared_db : DB := (run_tx (FinishWorkspaceSync sample_key sample_summary 150) pinned_db).2.

Lemma sync_db_eq : exists r, BeginWorkspaceSync sample_intent 130 tree_db = Ok (r, sync_db).
Proof. unfold sync_db. apply run_tx_succeeds. vm_compute. reflexivity. Qed.
Lemma pinned_db_eq : exists r, PinWorkspaceSyncManifest sample_key (sample_manifest "cmd") 140 sync_db = Ok (r, pinned_db).
Proof. unfold pinned_db. apply run_tx_succeeds. vm_compute. reflexivity. Qed.
Lemma prepared_db_eq : exists r, FinishWorkspaceSync sample_key sample_summary 150 pinned_db = Ok (r, prepared_db).
Proof. unfold prepared_db. apply run_tx_succeeds. vm_compute. reflexivity. Qed.

Lemma tree_db_workspace_inv : workspace_inv tree_db.
Proof. apply (workspace_inv_frame empty_db); [apply empty_workspace_inv|vm_compute; reflexivity]. Qed.
Lemma sync_db_inv : workspace_inv sync_db.
Proof. destruct sync_db_eq as [r H]. by eapply BeginWorkspaceSync_inv; [apply tree_db_workspace_inv|]. Qed.
Lemma pinned_db_inv : workspace_inv pinned_db.
Proof.
  destruct pinned_db_eq as [r H]. apply PinWorkspaceSyncManifest_effect in H as [H _].
  by eapply workspace_advance_inv; [apply sync_db_inv|].
Qed.
Lemma prepared_db_inv : workspace_inv prepared_db.
Proof.
  destruct prepared_db_eq as [r H]. apply FinishWorkspaceSync_effect in H as [H _].
  by eapply workspace_advance_inv; [apply pinned_db_inv|].
Qed.

Lemma prepared_db_only : exists t, prepared_db = set_workspace_sync_receipts tree_db t.
Proof.
  destruct sync_db_eq as [r1 [t1 E1]%BeginWorkspaceSync_only].
  destruct pinned_db_eq as [r2 [[t2 E2]%workspace_advance_only _]%PinWorkspaceSyncManifest_effect].
  destruct prepared_db_eq as [r3 [[t3 E3]%workspace_advance_only _]%FinishWorkspaceSync_effect].
  rewrite E3, E2, E1. by exists t3.
Qed.

Lemma BeginWorkspaceSync_idempotent_witness :
  exists r, BeginWorkspaceSync sample_intent 999 sync_db = Ok (r, sync_db).
Proof.
  destruct sync_db_eq as [r H]. exists r.
  apply (BeginWorkspaceSync_idempotent sample_intent 130 tree_db r sync_db H). lia.
Defined.

Lemma PinWorkspaceSyncManifest_pins_witness :
  exists text, PinWorkspaceSyncManifest sample_key (sample_manifest "pkg") 999 pinned_db = Err (Wrap text ErrConflict).
Proof.
  destruct pinned_db_eq as [r H].
  apply (PinWorkspaceSyncManifest_pins _ _ _ _ _ _ sync_db_inv H); [vm_compute; reflexivity|discriminate|lia].
Defined.

Lemma FinishWorkspaceSync_binds_witness :
  exists r, FinishWorkspaceSync sample_key sample_summary 999 prepared_db = Ok (r, prepared_db).
Proof.
  destruct prepared_db_eq as [r H]. exists r.
  apply (FinishWorkspaceSync_binds _ _ _ _ _ _ pinned_db_inv H). lia.
Defined.
