(* ===== verification/Spawn.v ===== *)
(** internal/store/agent_spawn.go: the dispatch of worker agents. A spawn creates
    the worker's principal, a receipt with the next sequence number of the tree,
    and consumes the workspace it was prepared for, all in one transaction; a
    receipt ends started or failed, once. The lifetime counters of
    internal/store/status.go, which a start increments, are here too. *)

From S2P Require Export Workspace.

(** ** Lifetime counters *)

(* go: internal/store/status.go statusLifetimeCounterIncrement *)
Definition statusLifetimeCounterIncrement : Type := CounterRow.

Definition started_increment (dispatches turns : Z) : statusLifetimeCounterIncrement := {|
  ct_dispatches_started := dispatches; ct_turns_started := turns; ct_result_packages_delivered := 0;
  ct_result_packages_source_acknowledged := 0; ct_result_packages_source_released := 0;
  ct_result_package_details_compacted := 0 |}.

Definition add_counters (x y : CounterRow) : CounterRow := {|
  ct_dispatches_started := x.(ct_dispatches_started) + y.(ct_dispatches_started);
  ct_turns_started := x.(ct_turns_started) + y.(ct_turns_started);
  ct_result_packages_delivered := x.(ct_result_packages_delivered) + y.(ct_result_packages_delivered);
  ct_result_packages_source_acknowledged :=
    x.(ct_result_packages_source_acknowledged) + y.(ct_result_packages_source_acknowledged);
  ct_result_packages_source_released :=
    x.(ct_result_packages_source_released) + y.(ct_result_packages_source_released);
  ct_result_package_details_compacted :=
    x.(ct_result_package_details_compacted) + y.(ct_result_package_details_compacted) |}.

(** A sum above the range of an INTEGER column becomes a REAL, which the STRICT
    table refuses; a first row needs the registry of its controller. *)
(* go: internal/store/status.go incrementStatusLifetimeCounters *)
Definition incrementStatusLifetimeCounters (controllerID : string) (increment : statusLifetimeCounterIncrement)
    (db : DB) : result DB :=
  let r := match db.(controller_lifetime_counters) !! controllerID with
           | None => increment
           | Some current => add_counters current increment
           end in
  reject (Wrap "increment status lifetime counters" SQLiteConstraint)
    when (counter_check r = false \/
          db.(controller_lifetime_counters) !! controllerID = None /\ db.(controller_registries) !! controllerID = None) in
  Ok (set_controller_lifetime_counters db (<[controllerID := r]> db.(controller_lifetime_counters))).

(** ** Spawn receipts *)

(* go: internal/store/agent_spawn.go AgentSpawnIntent *)
Record AgentSpawnIntent := {
  si_Source : PrincipalIdentity;
  si_SpawnID : string;
  si_AgentID : string;
  si_TargetDeviceID : string;
  si_TaskName : string;
  si_PromptDigest : string;
  si_WorkspaceID : string;
}.

(* go: internal/store/agent_spawn.go AgentSpawnKey *)
Record AgentSpawnKey := {
  sk_ControllerID : string;
  sk_TreeID : string;
  sk_SourceAgentID : string;
  sk_SpawnID : string;
}.

(* go: internal/store/agent_spawn.go AgentSpawnReceipt *)
Record AgentSpawnReceipt := {
  asr_Agent : AgentSummary;
  asr_PromptDigest : string;
  asr_CreatedAt : Z;
  asr_UpdatedAt : Z;
}.

(* go: internal/store/agent_spawn.go AgentSpawnKey.Validate *)
Definition AgentSpawnKey_Validate (k : AgentSpawnKey) : result unit :=
  validate_ids [("controllerId", k.(sk_ControllerID)); ("treeId", k.(sk_TreeID));
                ("sourceAgentId", k.(sk_SourceAgentID)); ("spawnId", k.(sk_SpawnID))].

(* go: internal/store/agent_spawn.go validateAgentSpawnIntent *)
Definition validateAgentSpawnIntent (intent : AgentSpawnIntent) : result unit :=
  do? wrap "source" (PrincipalIdentity_Validate intent.(si_Source)) in
  do? validate_ids [("spawnId", intent.(si_SpawnID)); ("agentId", intent.(si_AgentID));
                    ("targetDeviceId", intent.(si_TargetDeviceID))] in
  do? validate_optional_id "workspaceId" intent.(si_WorkspaceID) in
  ValidateAgentTaskName intent.(si_TaskName).

(* go: internal/store/agent_spawn.go receiptMatchesIntent *)
Definition receiptMatchesIntent (receipt : AgentSpawnReceipt) (intent : AgentSpawnIntent) : Prop :=
  receipt.(asr_Agent).(as_SpawnID) = intent.(si_SpawnID) /\
  receipt.(asr_Agent).(as_Principal).(pi_ControllerID) = intent.(si_Source).(pi_ControllerID) /\
  receipt.(asr_Agent).(as_Principal).(pi_TreeID) = intent.(si_Source).(pi_TreeID) /\
  receipt.(asr_Agent).(as_Principal).(pi_ParentAgentID) = intent.(si_Source).(pi_AgentID) /\
  receipt.(asr_Agent).(as_Principal).(pi_DeviceID) = intent.(si_TargetDeviceID) /\
  receipt.(asr_Agent).(as_TaskName) = intent.(si_TaskName) /\
  receipt.(asr_Agent).(as_WorkspaceID) = intent.(si_WorkspaceID) /\
  receipt.(asr_PromptDigest) = intent.(si_PromptDigest).
#[global] Instance receiptMatchesIntent_dec r i : Decision (receiptMatchesIntent r i).
Proof. unfold receiptMatchesIntent. apply _. Defined.

Definition spawn_key (k : AgentSpawnKey) : string * string * string * string :=
  (k.(sk_ControllerID), k.(sk_TreeID), k.(sk_SourceAgentID), k.(sk_SpawnID)).

(** The columns of a joined row as [Scan] leaves them in the receipt. *)
(* go: internal/store/agent_spawn.go:470-477 agentSpawnSelect *)
Definition joined_receipt (k : string * string * string * string) (r : SpawnRow) (p : PrincipalRow)
    : AgentSpawnReceipt := {|
  asr_Agent := {|
    as_SpawnID := k.2; as_Principal := identity_of (k.1.1, r.(sp_agent_id)) p; as_TaskName := r.(sp_task_name);
    as_SpawnStatus := r.(sp_status); as_SpawnFailureCode := r.(sp_failure_code);
    as_WorkspaceID := r.(sp_workspace_id); as_Sequence := r.(sp_sequence) |};
  asr_PromptDigest := r.(sp_prompt_digest); asr_CreatedAt := r.(sp_created_at);
  asr_UpdatedAt := r.(sp_updated_at) |}.

(** The checks on a joined row, shared by both scanners. *)
Definition check_spawn_receipt (targetDeviceID : string) (receipt : AgentSpawnReceipt) : result unit :=
  reject (New "stored agent prompt digest is invalid") when (len receipt.(asr_PromptDigest) <> 32) in
  reject (New "stored agent target device does not match its principal")
    when (targetDeviceID <> receipt.(asr_Agent).(as_Principal).(pi_DeviceID)) in
  do? wrap "stored agent spawn receipt is invalid" (AgentSummary_Validate receipt.(asr_Agent)) in
  reject (New "stored agent spawn timestamps are invalid")
    when (receipt.(asr_CreatedAt) < 0 \/ receipt.(asr_UpdatedAt) < receipt.(asr_CreatedAt)) in
  Ok tt.

(** The inner join with the worker's principal. *)
Definition spawn_principal (k : string * string * string * string) (r : SpawnRow) (db : DB) : option PrincipalRow :=
  db.(principals) !! (k.1.1, r.(sp_agent_id)).

(* go: internal/store/agent_spawn.go scanAgentSpawnReceipt *)
Definition scanAgentSpawnReceipt (k : string * string * string * string) (r : SpawnRow) (p : PrincipalRow)
    : result AgentSpawnReceipt :=
  let receipt := joined_receipt k r p in
  do? check_spawn_receipt r.(sp_target_device_id) receipt in Ok receipt.

(* go: internal/store/agent_spawn.go queryAgentSpawnReceipt *)
Definition queryAgentSpawnReceipt (key : AgentSpawnKey) (db : DB) : result AgentSpawnReceipt :=
  match db.(agent_spawn_receipts) !! spawn_key key with
  | None => Err ErrNotFound
  | Some r =>
      match spawn_principal (spawn_key key) r db with
      | None => Err ErrNotFound
      | Some p => scanAgentSpawnReceipt (spawn_key key) r p
      end
  end.

(** ** Beginning a spawn *)

Definition spawn_intent_key (intent : AgentSpawnIntent) : AgentSpawnKey := {|
  sk_ControllerID := intent.(si_Source).(pi_ControllerID); sk_TreeID := intent.(si_Source).(pi_TreeID);
  sk_SourceAgentID := intent.(si_Source).(pi_AgentID); sk_SpawnID := intent.(si_SpawnID) |}.

Definition spawn_workspace_key (intent : AgentSpawnIntent) : WorkspaceSyncKey := {|
  wk_ControllerID := intent.(si_Source).(pi_ControllerID); wk_TreeID := intent.(si_Source).(pi_TreeID);
  wk_SourceAgentID := intent.(si_Source).(pi_AgentID); wk_SyncID := intent.(si_WorkspaceID) |}.

(** The check that the workspace, if any, is available. *)
(* go: internal/store/agent_spawn.go:109-124 BeginAgentSpawn *)
Definition require_workspace (intent : AgentSpawnIntent) (db : DB) : result unit :=
  if decide (intent.(si_WorkspaceID) <> "") then
    let? workspace := wrap "spawn workspace" (queryWorkspaceSyncReceipt (spawn_workspace_key intent) db) in
    reject (Wrap "workspace is not available for this spawn" ErrConflict)
      when (workspace.(wsr_Status) <> WorkspaceSyncPrepared \/
            workspace.(wsr_TargetDeviceID) <> intent.(si_TargetDeviceID) \/
            (workspace.(wsr_ConsumedSpawnID) <> "" /\ workspace.(wsr_ConsumedSpawnID) <> intent.(si_SpawnID))) in
    Ok tt
  else Ok tt.

(** The receipts of one source agent under a task name. *)
Definition same_task (c t a taskName : string) (x : (string * string * string * string) * SpawnRow) : Prop :=
  x.1.1 = (c, t, a) /\ x.2.(sp_task_name) = taskName.
#[global] Instance same_task_dec c t a n x : Decision (same_task c t a n x).
Proof. unfold same_task. apply _. Defined.

(* go: internal/store/agent_spawn.go:166-173 BeginAgentSpawn *)
Definition pending_spawn (intent : AgentSpawnIntent) (sequence timestamp : Z) : SpawnRow := {|
  sp_sequence := sequence; sp_agent_id := intent.(si_AgentID); sp_target_device_id := intent.(si_TargetDeviceID);
  sp_task_name := intent.(si_TaskName); sp_workspace_id := intent.(si_WorkspaceID);
  sp_prompt_digest := intent.(si_PromptDigest); sp_status := AgentSpawnPending; sp_failure_code := "";
  sp_created_at := timestamp; sp_updated_at := timestamp |}.

Definition insert_spawn (key : AgentSpawnKey) (r : SpawnRow) (db : DB) : result DB :=
  let '(c, t, a, s) := spawn_key key in
  let? tb := sql_insert db.(agent_spawn_receipts) (c, t, a, s) r
    (spawn_check r &&
     none_where (fun x : (string * string * string * string) * SpawnRow =>
       x.1.1.1 = (c, t) /\ x.2.(sp_sequence) = r.(sp_sequence)) db.(agent_spawn_receipts) &&
     none_where (fun x : (string * string * string * string) * SpawnRow =>
       x.1.1.1 = (c, t) /\ x.2.(sp_agent_id) = r.(sp_agent_id)) db.(agent_spawn_receipts) &&
     none_where (same_task c t a r.(sp_task_name)) db.(agent_spawn_receipts) &&
     tree_exists db c t && principal_exists db c t a && principal_exists db c t r.(sp_agent_id)) in
  Ok (set_agent_spawn_receipts db tb).

Definition set_agent_sequence (sequence : Z) (r : TreeRow) : TreeRow := {|
  tr_tree_id := r.(tr_tree_id); tr_root_agent_id := r.(tr_root_agent_id);
  tr_root_device_id := r.(tr_root_device_id); tr_created_at := r.(tr_created_at);
  tr_last_agent_sequence := sequence; tr_last_lifecycle_sequence := r.(tr_last_lifecycle_sequence);
  tr_last_artifact_sequence := r.(tr_last_artifact_sequence);
  tr_last_result_sequence := r.(tr_last_result_sequence) |}.

(** [UPDATE trees ... WHERE controller_id = ? AND tree_id = ? AND guard]: the pair
    is unique, so at most one row is affected. *)
Definition update_tree (c t : string) (guard : TreeRow -> bool) (set : TreeRow -> TreeRow) (db : DB)
    : result (Z * DB) :=
  match tree_row db c t with
  | None => Ok (0, db)
  | Some (k, _) =>
      let? (n, tb) := sql_update db.(trees) k guard set tree_check in Ok (n, set_trees db tb)
  end.

(* go: internal/store/agent_spawn.go:176-188 BeginAgentSpawn *)
Definition advance_agent_sequence (c t : string) (lastSequence sequence : Z) (db : DB) : result DB :=
  let? (affected, db) := wrap "advance tree agent sequence"
    (update_tree c t (fun r => r.(tr_last_agent_sequence) =? lastSequence) (set_agent_sequence sequence) db) in
  reject (New "tree agent sequence changed during spawn") when (affected <> 1) in
  Ok db.

Definition consume_row (spawnID : string) (timestamp : Z) (r : WorkspaceRow) : WorkspaceRow := {|
  ws_source_device_id := r.(ws_source_device_id); ws_target_device_id := r.(ws_target_device_id);
  ws_git_url := r.(ws_git_url); ws_source_path_digest := r.(ws_source_path_digest);
  ws_status := r.(ws_status); ws_head_oid := r.(ws_head_oid);
  ws_object_format := r.(ws_object_format); ws_working_directory := r.(ws_working_directory);
  ws_source_clean := r.(ws_source_clean); ws_source_snapshot_hash := r.(ws_source_snapshot_hash);
  ws_strategy := r.(ws_strategy); ws_manifest_hash := r.(ws_manifest_hash);
  ws_source_warnings_json := r.(ws_source_warnings_json); ws_warnings_json := r.(ws_warnings_json);
  ws_consumed_spawn_id := spawnID; ws_created_at := r.(ws_created_at);
  ws_updated_at := Z.max r.(ws_updated_at) timestamp |}.

(* go: internal/store/agent_spawn.go:189-203 BeginAgentSpawn *)
Definition consume_workspace (intent : AgentSpawnIntent) (timestamp : Z) (db : DB) : result DB :=
  if decide (intent.(si_WorkspaceID) <> "") then
    let? (affected, tb) := wrap "consume spawn workspace"
      (sql_update db.(workspace_sync_receipts) (workspace_key (spawn_workspace_key intent))
         (fun r => bool_decide (r.(ws_status) = WorkspaceSyncPrepared /\
                                r.(ws_consumed_spawn_id) ∈ [""; intent.(si_SpawnID)]))
         (consume_row intent.(si_SpawnID) timestamp) workspace_check) in
    reject (Wrap "workspace consumption raced" ErrConflict) when (affected <> 1) in
    Ok (set_workspace_sync_receipts db tb)
  else Ok db.

(* go: internal/store/agent_spawn.go BeginAgentSpawn *)
Definition BeginAgentSpawn (intent : AgentSpawnIntent) (createdAt : Z) : Tx DB AgentSpawnReceipt :=
  do! tx_lift (validateAgentSpawnIntent intent) in
  let! timestamp := tx_lift (unixTime createdAt) in
  let c := intent.(si_Source).(pi_ControllerID) in
  let t := intent.(si_Source).(pi_TreeID) in
  let principal := NewWorkerPrincipal c t intent.(si_AgentID) intent.(si_Source).(pi_AgentID)
                     intent.(si_TargetDeviceID) in
  let key := spawn_intent_key intent in
  do! tx_query (authorizePrincipal intent.(si_Source) CapabilityAgentSpawn) in
  let! existing := tx_query (fun db => optional (queryAgentSpawnReceipt key db)) in
  match existing with
  | Some receipt =>
      fail (Wrap "spawnId already identifies another request" ErrConflict)
        when (~ receiptMatchesIntent receipt intent) in
      tx_ret receipt
  | None =>
      do! tx_query (require_workspace intent) in
      let! device := tx_query (fun db => wrap "worker device" (queryDevice c intent.(si_TargetDeviceID) db)) in
      fail (Wrap "worker device must be online" ErrConflict) when (device.(d_Online) = false) in
      let! free := tx_query (fun db =>
        Ok (none_where (same_task c t intent.(si_Source).(pi_AgentID) intent.(si_TaskName)) db.(agent_spawn_receipts))) in
      fail (Wrap "taskName already identifies another agent" ErrConflict) when (free = false) in
      let! lastSequence := tx_query (fun db =>
        match tree_row db c t with
        | None => Err ErrNotFound
        | Some (_, r) => Ok r.(tr_last_agent_sequence)
        end) in
      fail ErrAgentLimit when (lastSequence >= MaximumAgentsPerTree) in
      let sequence := lastSequence + 1 in
      do! tx_exec (fun db => wrap "create spawned worker principal"
            (insert_principal c t intent.(si_AgentID) (principal_row principal timestamp) db)) in
      do! tx_exec (fun db => wrap "create agent spawn receipt"
            (insert_spawn key (pending_spawn intent sequence timestamp) db)) in
      do! tx_exec (advance_agent_sequence c t lastSequence sequence) in
      do! tx_exec (consume_workspace intent timestamp) in
      tx_ret {|
        asr_Agent := {| as_SpawnID := intent.(si_SpawnID); as_Principal := principal.(p_Identity);
                        as_TaskName := intent.(si_TaskName); as_SpawnStatus := AgentSpawnPending;
                        as_SpawnFailureCode := ""; as_WorkspaceID := intent.(si_WorkspaceID);
                        as_Sequence := sequence |};
        asr_PromptDigest := intent.(si_PromptDigest); asr_CreatedAt := timestamp; asr_UpdatedAt := timestamp |}
  end.

(** ** Finishing a spawn *)

(* go: internal/store/agent_spawn.go:277-282 finishAgentSpawn *)
Definition finish_spawn_row (status failureCode : string) (timestamp : Z) (r : SpawnRow) : SpawnRow := {|
  sp_sequence := r.(sp_sequence); sp_agent_id := r.(sp_agent_id); sp_target_device_id := r.(sp_target_device_id);
  sp_task_name := r.(sp_task_name); sp_workspace_id := r.(sp_workspace_id);
  sp_prompt_digest := r.(sp_prompt_digest); sp_status := status; sp_failure_code := failureCode;
  sp_created_at := r.(sp_created_at); sp_updated_at := timestamp |}.

Definition finish_spawn_receipt (status failureCode : string) (timestamp : Z) (receipt : AgentSpawnReceipt)
    : AgentSpawnReceipt := {|
  asr_Agent := {| as_SpawnID := receipt.(asr_Agent).(as_SpawnID); as_Principal := receipt.(asr_Agent).(as_Principal);
                  as_TaskName := receipt.(asr_Agent).(as_TaskName); as_SpawnStatus := status;
                  as_SpawnFailureCode := failureCode; as_WorkspaceID := receipt.(asr_Agent).(as_WorkspaceID);
                  as_Sequence := receipt.(asr_Agent).(as_Sequence) |};
  asr_PromptDigest := receipt.(asr_PromptDigest); asr_CreatedAt := receipt.(asr_CreatedAt);
  asr_UpdatedAt := timestamp |}.

Definition update_spawn (key : AgentSpawnKey) (status : string) (set : SpawnRow -> SpawnRow) (db : DB) : result DB :=
  let? (affected, tb) := wrap "finish agent spawn" (sql_update db.(agent_spawn_receipts) (spawn_key key)
    (fun r => bool_decide (r.(sp_status) = status)) set spawn_check) in
  do? requireAffectedRow affected in
  Ok (set_agent_spawn_receipts db tb).

(* go: internal/store/agent_spawn.go:290-299 finishAgentSpawn *)
Definition count_started (status controllerID : string) (db : DB) : result DB :=
  if decide (status = AgentSpawnStarted)
  then incrementStatusLifetimeCounters controllerID (started_increment 1 1) db else Ok db.

(* go: internal/store/agent_spawn.go finishAgentSpawn *)
Definition finishAgentSpawn (key : AgentSpawnKey) (status failureCode : string) (observedAt : Z)
    : Tx DB AgentSpawnReceipt :=
  do! tx_lift (AgentSpawnKey_Validate key) in
  fail (New "agent spawn terminal status is invalid")
    when (status <> AgentSpawnStarted /\ status <> AgentSpawnFailed) in
  do! tx_lift (AgentSpawnStatus_Validate status failureCode) in
  let! timestamp := tx_lift (unixTime observedAt) in
  let! receipt := tx_query (queryAgentSpawnReceipt key) in
  if decide (receipt.(asr_Agent).(as_SpawnStatus) = status) then
    fail (Wrap "agent terminal result differs" ErrConflict)
      when (receipt.(asr_Agent).(as_SpawnFailureCode) <> failureCode) in
    tx_ret receipt
  else
    fail (Wrap "agent already has a terminal result" ErrConflict)
      when (receipt.(asr_Agent).(as_SpawnStatus) <> AgentSpawnPending) in
    fail (New "observedAt precedes agent creation") when (timestamp < receipt.(asr_CreatedAt)) in
    do! tx_exec (update_spawn key receipt.(asr_Agent).(as_SpawnStatus)
                   (finish_spawn_row status failureCode timestamp)) in
    do! tx_exec (count_started status key.(sk_ControllerID)) in
    tx_ret (finish_spawn_receipt status failureCode timestamp receipt).

(* go: internal/store/agent_spawn.go MarkAgentSpawnStarted *)
Definition MarkAgentSpawnStarted (key : AgentSpawnKey) (observedAt : Z) : Tx DB AgentSpawnReceipt :=
  finishAgentSpawn key AgentSpawnStarted "" observedAt.

(* go: internal/store/agent_spawn.go MarkAgentSpawnFailed *)
Definition MarkAgentSpawnFailed (key : AgentSpawnKey) (failureCode : string) (observedAt : Z)
    : Tx DB AgentSpawnReceipt :=
  finishAgentSpawn key AgentSpawnFailed failureCode observedAt.

(** ** Listing agents *)

(* go: internal/store/agent_spawn.go AgentPageRequest *)
Record AgentPageRequest := { aq_AfterSequence : Z; aq_Limit : Z }.

(* go: internal/store/agent_spawn.go AgentLifecycleRecord *)
Record AgentLifecycleRecord := {
  alr_TargetRevision : Z;
  alr_Phase : string;
  alr_FailureCode : string;
  alr_ObservedAt : Z;
}.

(* go: internal/store/agent_spawn.go AgentCurrentRecord *)
Record AgentCurrentRecord := { acr_Spawn : AgentSummary; acr_Lifecycle : option AgentLifecycleRecord }.

(* go: internal/store/agent_spawn.go AgentPage *)
Record AgentPage := { ap_Agents : list AgentCurrentRecord; ap_NextSequence : Z }.

(** One row of [agentListSelect]: the lifecycle columns are NOT NULL, so the LEFT
    JOIN leaves them all null or all present. *)
(* go: internal/store/agent_spawn.go scanAgentCurrentRecord *)
Definition scanAgentCurrentRecord (k : string * string * string * string) (r : SpawnRow) (p : PrincipalRow)
    (l : option LifecycleRow) : result AgentCurrentRecord :=
  let receipt := joined_receipt k r p in
  do? check_spawn_receipt r.(sp_target_device_id) receipt in
  match l with
  | None => Ok {| acr_Spawn := receipt.(asr_Agent); acr_Lifecycle := None |}
  | Some l =>
      reject (New "stored agent lifecycle metadata is invalid")
        when (l.(lc_target_revision) <= 0 \/ l.(lc_observed_at) < 0) in
      do? wrap "stored agent lifecycle state is invalid"
            (WorkerLifecyclePhase_Validate l.(lc_phase) l.(lc_failure_code)) in
      Ok {| acr_Spawn := receipt.(asr_Agent);
            acr_Lifecycle := Some {| alr_TargetRevision := l.(lc_target_revision); alr_Phase := l.(lc_phase);
                                     alr_FailureCode := l.(lc_failure_code);
                                     alr_ObservedAt := l.(lc_observed_at) |} |}
  end.

(** The rows of a tree after a sequence number, joined with their principals. *)
(* go: internal/store/agent_spawn.go:479-490 agentListSelect *)
Definition tree_spawns (c t : string) (after : Z) (db : DB)
    : list ((string * string * string * string) * SpawnRow) :=
  order_by (fun x => x.2.(sp_sequence))
    (filter (fun x => is_Some (spawn_principal x.1 x.2 db))
      (select (fun x : (string * string * string * string) * SpawnRow =>
         x.1.1.1 = (c, t) /\ x.2.(sp_sequence) > after) db.(agent_spawn_receipts))).

Definition scan_spawn_row (db : DB) (x : (string * string * string * string) * SpawnRow) : result AgentCurrentRecord :=
  match spawn_principal x.1 x.2 db with
  | None => Err (New "joined row without a principal")
  | Some p => scanAgentCurrentRecord x.1 x.2 p (db.(agent_lifecycle_states) !! (x.1.1.1, x.2.(sp_agent_id)))
  end.

(* go: internal/store/agent_spawn.go ListAgents *)
Definition ListAgents (source : PrincipalIdentity) (request : AgentPageRequest) (db : DB) : result AgentPage :=
  do? wrap "source" (PrincipalIdentity_Validate source) in
  do? ListAgentsParams_Validate {| lap_AfterSequence := request.(aq_AfterSequence); lap_Limit := request.(aq_Limit) |} in
  let? _ := authorizePrincipal source CapabilityAgentManageDescendants db in
  let? records := result_mapM (scan_spawn_row db)
    (limit (request.(aq_Limit) + 1)
       (tree_spawns source.(pi_ControllerID) source.(pi_TreeID) request.(aq_AfterSequence) db)) in
  let agents := take (Z.to_nat request.(aq_Limit)) records in
  Ok {| ap_Agents := agents;
        ap_NextSequence :=
          if decide (Z.of_nat (length records) > request.(aq_Limit))
          then default 0 ((fun a => a.(acr_Spawn).(as_Sequence)) <$> last agents) else 0 |}.

(** ** The invariant *)

(** A receipt row with the principal it created: the worker's parent is the source
    agent, its device the target, and the joined row reads back. *)
Definition spawn_row_ok (db : DB) (k : string * string * string * string) (r : SpawnRow) : Prop :=
  spawn_check r = true /\
  exists p, spawn_principal k r db = Some p /\ p.(pr_parent_agent_id) = k.1.2 /\
    check_spawn_receipt r.(sp_target_device_id) (joined_receipt k r p) = Ok tt.

Record spawn_inv (db : DB) : Prop := {
  si_rows k r : db.(agent_spawn_receipts) !! k = Some r -> spawn_row_ok db k r;
  si_agents k k' r r' : db.(agent_spawn_receipts) !! k = Some r -> db.(agent_spawn_receipts) !! k' = Some r' ->
    k.1.1 = k'.1.1 -> r.(sp_agent_id) = r'.(sp_agent_id) -> k = k';
  si_sequences k k' r r' : db.(agent_spawn_receipts) !! k = Some r -> db.(agent_spawn_receipts) !! k' = Some r' ->
    k.1.1 = k'.1.1 -> r.(sp_sequence) = r'.(sp_sequence) -> k = k';
  si_tasks k k' r r' : db.(agent_spawn_receipts) !! k = Some r -> db.(agent_spawn_receipts) !! k' = Some r' ->
    k.1 = k'.1 -> r.(sp_task_name) = r'.(sp_task_name) -> k = k';
  si_counter k r kt tr : db.(agent_spawn_receipts) !! k = Some r -> db.(trees) !! kt = Some tr ->
    kt.1 = k.1.1.1 -> tr.(tr_tree_id) = k.1.1.2 -> r.(sp_sequence) <= tr.(tr_last_agent_sequence);
  si_consumed k r : db.(agent_spawn_receipts) !! k = Some r -> r.(sp_workspace_id) <> "" ->
    exists w, db.(workspace_sync_receipts) !! (k.1, r.(sp_workspace_id)) = Some w /\
      w.(ws_consumed_spawn_id) = k.2 /\ w.(ws_target_device_id) = r.(sp_target_device_id);
}.

Lemma update_tree_Ok c t guard set db n db' :
  update_tree c t guard set db = Ok (n, db') ->
  (n = 0 /\ db' = db) \/
  (n = 1 /\ exists k r, tree_row db c t = Some (k, r) /\ guard r = true /\ tree_check (set r) = true /\
     db' = set_trees db (<[k := set r]> db.(trees))).
Proof.
  unfold update_tree. destruct (tree_row db c t) as [[k r]|] eqn:E; [|naive_solver].
  intros H. apply result_bind_Ok in H as ([m tb] & H & Hr).
  assert (n = m /\ db' = set_trees db tb) as [-> ->] by (split; congruence).
  pose proof (tree_row_Some _ _ _ _ _ E) as (Hk & _ & _).
  apply sql_update_Ok in H as [(-> & -> & Hno)|(-> & r' & Hk' & Hg & Hc & ->)].
  - left. split; [done|]. by destruct db.
  - right. simplify_eq. eauto 10.
Qed.

Lemma insert_spawn_Ok key r db db' :
  insert_spawn key r db = Ok db' ->
  let T := db.(agent_spawn_receipts) in
  spawn_check r = true /\ T !! spawn_key key = None /\
  (forall k r', T !! k = Some r' -> k.1.1 = (spawn_key key).1.1 -> r'.(sp_sequence) <> r.(sp_sequence)) /\
  (forall k r', T !! k = Some r' -> k.1.1 = (spawn_key key).1.1 -> r'.(sp_agent_id) <> r.(sp_agent_id)) /\
  (forall k r', T !! k = Some r' -> k.1 = (spawn_key key).1 -> r'.(sp_task_name) <> r.(sp_task_name)) /\
  db' = set_agent_spawn_receipts db (<[spawn_key key := r]> T).
Proof.
  intros H T. unfold insert_spawn, spawn_key in *. cbv beta iota in H.
  apply result_bind_Ok in H as (tb & H & Hdb). assert (db' = set_agent_spawn_receipts db tb) as -> by congruence.
  apply sql_insert_Ok in H as (Hok & Hn & ->). rewrite !andb_true_iff, !none_where_true in Hok.
  destruct Hok as ((((((Hc & Hs) & Ha) & Ht) & _) & _) & _). split_and!; try hyp; try reflexivity.
  - intros k r' Hk Hkk Heq. exact (Hs k r' Hk (conj Hkk Heq)).
  - intros k r' Hk Hkk Heq. exact (Ha k r' Hk (conj Hkk Heq)).
  - intros k r' Hk Hkk Heq. exact (Ht k r' Hk (conj Hkk Heq)).
Qed.

Lemma queryAgentSpawnReceipt_Ok key db receipt :
  queryAgentSpawnReceipt key db = Ok receipt <->
  exists r p, db.(agent_spawn_receipts) !! spawn_key key = Some r /\
    spawn_principal (spawn_key key) r db = Some p /\ receipt = joined_receipt (spawn_key key) r p /\
    check_spawn_receipt r.(sp_target_device_id) receipt = Ok tt.
Proof.
  unfold queryAgentSpawnReceipt, scanAgentSpawnReceipt. destruct (_ !! spawn_key key) as [r|]; [|naive_solver].
  destruct (spawn_principal _ r db) as [p|] eqn:E; [|naive_solver]. rewrite do_Ok. split.
  - intros [Hc Hr]. exists r, p. assert (receipt = joined_receipt (spawn_key key) r p) as -> by congruence. auto.
  - intros (r' & p' & Hr & Hp & -> & Hc). simplify_eq. auto.
Qed.

(** Under the invariant a stored receipt is always found and read. *)
Lemma queryAgentSpawnReceipt_inv key db :
  spawn_inv db ->
  match db.(agent_spawn_receipts) !! spawn_key key with
  | None => queryAgentSpawnReceipt key db = Err ErrNotFound
  | Some r => exists p, spawn_principal (spawn_key key) r db = Some p /\
      queryAgentSpawnReceipt key db = Ok (joined_receipt (spawn_key key) r p)
  end.
Proof.
  intros Hinv. destruct (_ !! spawn_key key) as [r|] eqn:E.
  - destruct (si_rows _ Hinv _ _ E) as (_ & p & Hp & _ & Hc). exists p. split; [done|].
    apply queryAgentSpawnReceipt_Ok. exists r, p. auto.
  - unfold queryAgentSpawnReceipt. by rewrite E.
Qed.

(** The workspace table after a spawn consumed its workspace. *)
Definition consumed_workspaces (intent : AgentSpawnIntent) (timestamp : Z)
    (t : gmap (string * string * string * string) WorkspaceRow) : gmap (string * string * string * string) WorkspaceRow :=
  if decide (intent.(si_WorkspaceID) <> "")
  then alter (consume_row intent.(si_SpawnID) timestamp) (workspace_key (spawn_workspace_key intent)) t
  else t.

(** The database after a new spawn. *)
Definition spawned (intent : AgentSpawnIntent) (timestamp : Z) (kt : string * string) (tr : TreeRow) (db : DB) : DB :=
  let c := intent.(si_Source).(pi_ControllerID) in
  let t := intent.(si_Source).(pi_TreeID) in
  let principal := NewWorkerPrincipal c t intent.(si_AgentID) intent.(si_Source).(pi_AgentID)
                     intent.(si_TargetDeviceID) in
  let sequence := tr.(tr_last_agent_sequence) + 1 in
  set_workspace_sync_receipts
    (set_trees
       (set_agent_spawn_receipts
          (set_principals db (<[(c, t, intent.(si_AgentID)) := principal_row principal timestamp]> db.(principals)))
          (<[spawn_key (spawn_intent_key intent) := pending_spawn intent sequence timestamp]> db.(agent_spawn_receipts)))
       (<[kt := set_agent_sequence sequence tr]> db.(trees)))
    (consumed_workspaces intent timestamp db.(workspace_sync_receipts)).

(** What the code has established when it writes. *)
Record spawn_allowed (intent : AgentSpawnIntent) (timestamp : Z) (kt : string * string) (tr : TreeRow) (db : DB) : Prop := {
  sa_valid : validateAgentSpawnIntent intent = Ok tt;
  sa_time : 0 <= timestamp;
  sa_tree : tree_row db intent.(si_Source).(pi_ControllerID) intent.(si_Source).(pi_TreeID) = Some (kt, tr);
  sa_limit : tr.(tr_last_agent_sequence) < MaximumAgentsPerTree;
  sa_counter : tree_check (set_agent_sequence (tr.(tr_last_agent_sequence) + 1) tr) = true;
  sa_device : exists device, queryDevice intent.(si_Source).(pi_ControllerID) intent.(si_TargetDeviceID) db = Ok device /\
    device.(d_Online) = true;
  sa_principal : db.(principals) !!
    (intent.(si_Source).(pi_ControllerID), intent.(si_Source).(pi_TreeID), intent.(si_AgentID)) = None;
  sa_tree_exists : tree_exists db intent.(si_Source).(pi_ControllerID) intent.(si_Source).(pi_TreeID) = true;
  sa_insert : exists db2, insert_spawn (spawn_intent_key intent)
      (pending_spawn intent (tr.(tr_last_agent_sequence) + 1) timestamp)
      (set_principals db (<[(intent.(si_Source).(pi_ControllerID), intent.(si_Source).(pi_TreeID), intent.(si_AgentID)) :=
         principal_row (NewWorkerPrincipal intent.(si_Source).(pi_ControllerID) intent.(si_Source).(pi_TreeID)
           intent.(si_AgentID) intent.(si_Source).(pi_AgentID) intent.(si_TargetDeviceID)) timestamp]> db.(principals))) = Ok db2;
  sa_workspace : intent.(si_WorkspaceID) <> "" -> exists w receipt,
    db.(workspace_sync_receipts) !! workspace_key (spawn_workspace_key intent) = Some w /\
    scan_receipt (spawn_workspace_key intent) w = Ok receipt /\
    w.(ws_status) = WorkspaceSyncPrepared /\ w.(ws_target_device_id) = intent.(si_TargetDeviceID) /\
    w.(ws_consumed_spawn_id) ∈ [""; intent.(si_SpawnID)] /\
    workspace_check (consume_row intent.(si_SpawnID) timestamp w) = true;
}.

Lemma require_workspace_Ok intent db :
  require_workspace intent db = Ok tt -> intent.(si_WorkspaceID) <> "" ->
  exists w receipt, db.(workspace_sync_receipts) !! workspace_key (spawn_workspace_key intent) = Some w /\
    scan_receipt (spawn_workspace_key intent) w = Ok receipt /\
    w.(ws_status) = WorkspaceSyncPrepared /\ w.(ws_target_device_id) = intent.(si_TargetDeviceID).
Proof.
  unfold require_workspace. intros H Hne. rewrite decide_True in H by done.
  apply result_bind_Ok in H as (receipt & H & Hr). rewrite wrap_Ok in H. rewrite reject_Ok in Hr.
  apply queryWorkspaceSyncReceipt_Ok in H as (w & Hw & Hs). destruct Hr as [Hr _].
  pose proof (scanned_columns _ _ _ Hs) as (_ & Hst & _ & _ & _ & _ & _ & _ & Htd & _). exists w, receipt.
  split_and!; [hyp|hyp|apply dec_stable; intros ?; apply Hr; left; congruence
    |apply dec_stable; intros ?; apply Hr; right; left; congruence].
Qed.

Lemma consume_workspace_Ok intent ts db db' :
  consume_workspace intent ts db = Ok db' ->
  db' = set_workspace_sync_receipts db (consumed_workspaces intent ts db.(workspace_sync_receipts)) /\
  (intent.(si_WorkspaceID) <> "" -> exists w,
     db.(workspace_sync_receipts) !! workspace_key (spawn_workspace_key intent) = Some w /\
     w.(ws_consumed_spawn_id) ∈ [""; intent.(si_SpawnID)] /\
     workspace_check (consume_row intent.(si_SpawnID) ts w) = true).
Proof.
  unfold consume_workspace, consumed_workspaces. case_decide as Hd.
  - intros H. apply result_bind_Ok in H as ([n tb] & H & Hr). rewrite wrap_Ok in H. rewrite reject_Ok in Hr.
    destruct Hr as [Hn%dec_stable Hdb]. subst n.
    assert (db' = set_workspace_sync_receipts db tb) as -> by congruence.
    apply sql_update_Ok in H as [[? _]|(_ & w & Hw & Hg & Hc & ->)]; [done|].
    apply bool_decide_eq_true in Hg as [_ Hg]. split; [|eauto]. f_equal. apply map_eq. intros k.
    destruct (decide (k = workspace_key (spawn_workspace_key intent))) as [->|Hne].
    + by rewrite lookup_insert_eq, lookup_alter, decide_True, Hw.
    + by rewrite lookup_insert_ne, lookup_alter_ne.
  - intros H. assert (db' = db) as -> by congruence. split; [by destruct db|done].
Qed.

Definition new_receipt (intent : AgentSpawnIntent) (timestamp : Z) (tr : TreeRow) : AgentSpawnReceipt :=
  joined_receipt (spawn_key (spawn_intent_key intent))
    (pending_spawn intent (tr.(tr_last_agent_sequence) + 1) timestamp)
    (principal_row (NewWorkerPrincipal intent.(si_Source).(pi_ControllerID) intent.(si_Source).(pi_TreeID)
       intent.(si_AgentID) intent.(si_Source).(pi_AgentID) intent.(si_TargetDeviceID)) timestamp).

(** Every successful call either finds the receipt of the same request or is
    allowed to spawn and does exactly that. *)
Lemma BeginAgentSpawn_effect intent at_ db receipt db' :
  BeginAgentSpawn intent at_ db = Ok (receipt, db') ->
  (exists p, authorizePrincipal intent.(si_Source) CapabilityAgentSpawn db = Ok p) /\
  ((db' = db /\ queryAgentSpawnReceipt (spawn_intent_key intent) db = Ok receipt /\
    receiptMatchesIntent receipt intent /\ validateAgentSpawnIntent intent = Ok tt) \/
   exists kt tr, spawn_allowed intent at_ kt tr db /\ db' = spawned intent at_ kt tr db /\
     receipt = new_receipt intent at_ tr).
Proof.
  unfold BeginAgentSpawn. intros H. go_inv.
  match goal with o : option AgentSpawnReceipt |- _ => destruct o as [receipt0|] end; go_inv.
  - split; [eauto|]. left. split_and!; [done|hyp|by apply dec_stable|hyp].
  - match goal with H : unixTime _ = Ok _ |- _ => unfold unixTime in H; apply reject_Ok in H as [Htime [= <-]] end.
    match goal with H : match tree_row ?d ?c ?t with _ => _ end = Ok _ |- _ =>
      destruct (tree_row d c t) as [[kt tr]|] eqn:Etr; [|done]; injection H as <- end.
    match goal with H : insert_principal _ _ _ _ _ = Ok _ |- _ => apply insert_principal_Ok in H as (Hpn & Hte & ->) end.
    match goal with H : insert_spawn _ _ _ = Ok _ |- _ => rename H into Hins end.
    pose proof (insert_spawn_Ok _ _ _ _ Hins) as (_ & _ & _ & _ & _ & ->).
    match goal with H : advance_agent_sequence _ _ _ _ _ = Ok _ |- _ => rename H into Hadv end.
    unfold advance_agent_sequence in Hadv. apply result_bind_Ok in Hadv as ([n3 db3] & Hadv & Hr3).
    rewrite wrap_Ok in Hadv. apply reject_Ok in Hr3 as [Hn3%dec_stable [= ->]]. subst n3.
    apply update_tree_Ok in Hadv as [[? _]|(_ & kt' & tr' & Hrow & Hg & Htc & ->)]; [done|].
    change (tree_row db (pi_ControllerID (si_Source intent)) (pi_TreeID (si_Source intent)) = Some (kt', tr')) in Hrow.
    assert (kt' = kt /\ tr' = tr) as [-> ->] by (split; congruence).
    match goal with H : consume_workspace _ _ _ = Ok _ |- _ => apply consume_workspace_Ok in H as [-> Hws] end.
    split; [eauto|]. right. exists kt, tr. split_and!; [|reflexivity|reflexivity].
    split; try hyp; [lia|lia| |eauto|].
    + eexists. split; [eassumption|]. by apply not_false_is_true.
    + intros Hne. match goal with H : require_workspace _ _ = Ok _ |- _ =>
        destruct (require_workspace_Ok _ _ H Hne) as (w & receipt & Hw & Hs & Hst & Htd) end.
      destruct (Hws Hne) as (w' & Hw' & Hc & Hck).
      change (workspace_sync_receipts db !! workspace_key (spawn_workspace_key intent) = Some w') in Hw'.
      assert (w' = w) as -> by congruence. exists w, receipt. auto 10.
Qed.

(** ** The invariant is kept *)

Lemma authorizePrincipal_stored claimed cap db p :
  authorizePrincipal claimed cap db = Ok p ->
  exists r, db.(principals) !! (claimed.(pi_ControllerID), claimed.(pi_TreeID), claimed.(pi_AgentID)) = Some r.
Proof.
  unfold authorizePrincipal. intros H. apply result_bind_Ok in H as (pr & H & _). unfold denied in H.
  destruct (queryPrincipal _ _ _ db) as [pr'|e] eqn:E; [|by destruct (errors_Is e ErrNotFound)].
  apply queryPrincipal_Ok in E as (r & Hr & _). eauto.
Qed.

Lemma validateAgentSpawnIntent_Ok intent :
  validateAgentSpawnIntent intent = Ok tt ->
  PrincipalIdentity_Validate intent.(si_Source) = Ok tt /\ valid_id intent.(si_SpawnID) /\
  valid_id intent.(si_AgentID) /\ valid_id intent.(si_TargetDeviceID) /\
  validate_optional_id "workspaceId" intent.(si_WorkspaceID) = Ok tt /\
  ValidateAgentTaskName intent.(si_TaskName) = Ok tt.
Proof.
  unfold validateAgentSpawnIntent. rewrite !do_Ok, wrap_Ok, validate_ids_Ok, !Forall_cons. simpl. tauto.
Qed.

(** The worker's identity is well formed: its parent is a stored principal and so
    is not the fresh agent. *)
Lemma worker_identity_valid intent db r :
  validateAgentSpawnIntent intent = Ok tt ->
  db.(principals) !! (intent.(si_Source).(pi_ControllerID), intent.(si_Source).(pi_TreeID), intent.(si_Source).(pi_AgentID)) = Some r ->
  db.(principals) !! (intent.(si_Source).(pi_ControllerID), intent.(si_Source).(pi_TreeID), intent.(si_AgentID)) = None ->
  Principal_Validate (NewWorkerPrincipal intent.(si_Source).(pi_ControllerID) intent.(si_Source).(pi_TreeID)
       intent.(si_AgentID) intent.(si_Source).(pi_AgentID) intent.(si_TargetDeviceID)) = Ok tt.
Proof.
  intros (Hs & _ & Ha & Hd & _)%validateAgentSpawnIntent_Ok Hp Hn.
  apply PrincipalIdentity_Validate_Ok in Hs as (Hc & Ht & Hsa & _).
  apply Principal_Validate_Ok. cbn [p_Identity p_Capabilities NewWorkerPrincipal]. split.
  - unfold identity_ok. cbn [pi_ControllerID pi_TreeID pi_AgentID pi_ParentAgentID pi_DeviceID].
    split_and!; [hyp..|]. intros _. split; [hyp|]. congruence.
  - unfold role_capabilities. cbn [pi_ParentAgentID]. rewrite decide_True; [done|]. by apply valid_id_nonempty.
Qed.

(** Consumption does not change how the workspace reads. *)
Lemma consumed_reads_back key w receipt id ts :
  scan_receipt key w = Ok receipt -> exists receipt', scan_receipt key (consume_row id ts w) = Ok receipt'.
Proof.
  intros (Hd & Hsw & Hw & Hr & Hc)%scan_receipt_Ok.
  exists (scanned_receipt key (consume_row id ts w) receipt.(wsr_SourceWarnings) receipt.(wsr_Warnings)).
  apply scan_receipt_Ok. split_and!; [hyp|hyp|hyp|reflexivity|].
  rewrite Hr in Hc. exact Hc.
Qed.

Section Spawned.
Context (intent : AgentSpawnIntent) (ts : Z) (kt : string * string) (tr : TreeRow) (db : DB).
Context (Hok : spawn_allowed intent ts kt tr db) (pr : PrincipalRow).
Context (Hpr : db.(principals) !! (intent.(si_Source).(pi_ControllerID), intent.(si_Source).(pi_TreeID),
                                   intent.(si_Source).(pi_AgentID)) = Some pr).

Lemma spawned_trees_inv : trees_inv db -> trees_inv (spawned intent ts kt tr db).
Proof.
  intros Hinv.
  pose proof (worker_identity_valid _ _ _ (sa_valid _ _ _ _ _ Hok) Hpr (sa_principal _ _ _ _ _ Hok)) as Hv.
  pose proof (tree_row_Some _ _ _ _ _ (sa_tree _ _ _ _ _ Hok)) as (Hkt & _ & _).
  pose proof (validateAgentSpawnIntent_Ok _ (sa_valid _ _ _ _ _ Hok)) as (Hs & _).
  apply PrincipalIdentity_Validate_Ok in Hs as (_ & _ & Hsa & _).
  pose proof (insert_worker_inv db _ _ _ _ pr Hinv (sa_principal _ _ _ _ _ Hok) (sa_tree_exists _ _ _ _ _ Hok)
    (proj2 (is_ok_true _) (ex_intro _ _ (principal_row_reads_back _ ts Hv (sa_time _ _ _ _ _ Hok))))
    (valid_id_nonempty _ Hsa) Hpr) as H1.
  eapply trees_inv_frame.
  - exact (tree_counters_inv _ kt tr (set_agent_sequence (tr.(tr_last_agent_sequence) + 1) tr) H1 Hkt
      (sa_counter _ _ _ _ _ Hok) eq_refl eq_refl eq_refl eq_refl).
  - reflexivity.
  - reflexivity.
Qed.

Lemma spawned_workspace_inv : workspace_inv db -> workspace_inv (spawned intent ts kt tr db).
Proof.
  intros Hinv. apply (workspace_inv_frame (set_workspace_sync_receipts db
    (consumed_workspaces intent ts db.(workspace_sync_receipts)))); [|reflexivity].
  unfold consumed_workspaces. case_decide as Hne; [|by apply (workspace_inv_frame db)].
  destruct (sa_workspace _ _ _ _ _ Hok Hne) as (w & receipt & Hw & Hs & Hst & _ & _ & Hck).
  eapply workspace_inv_frame; [eapply (workspace_update_inv db); [done|exact Hw|]|].
  - split_and!; [exact Hck|rewrite key_of_workspace; by eapply consumed_reads_back|intros _; exact Hst].
  - cbn [workspace_sync_receipts set_workspace_sync_receipts]. apply map_eq. intros k.
    destruct (decide (k = workspace_key (spawn_workspace_key intent))) as [->|Hn].
    + by rewrite lookup_insert_eq, lookup_alter_eq, Hw.
    + by rewrite lookup_insert_ne, lookup_alter_ne.
Qed.

(** The new receipt reads back. *)
Lemma new_receipt_checked : check_spawn_receipt intent.(si_TargetDeviceID) (new_receipt intent ts tr) = Ok tt.
Proof.
  pose proof (worker_identity_valid _ _ _ (sa_valid _ _ _ _ _ Hok) Hpr (sa_principal _ _ _ _ _ Hok)) as Hv.
  apply Principal_Validate_Ok in Hv as [Hid _].
  pose proof (validateAgentSpawnIntent_Ok _ (sa_valid _ _ _ _ _ Hok)) as (Hs & Hsp & _ & _ & Hw & Htn).
  apply PrincipalIdentity_Validate_Ok in Hs as (_ & _ & Hsa & _).
  destruct (sa_insert _ _ _ _ _ Hok) as [db2 Hins]. apply insert_spawn_Ok in Hins as (Hc & _).
  pose proof (sa_time _ _ _ _ _ Hok) as Htime.
  unfold spawn_check in Hc. rewrite !andb_true_iff in Hc. destruct Hc as ((((((Hseq & _) & Hdig) & _) & _) & _) & _).
  unfold check_spawn_receipt. rewrite !reject_Ok, do_Ok, wrap_Ok, reject_Ok. split_and!; [|tauto| | |done].
  - intros Hl. apply Z.eqb_eq in Hdig. by apply Hl.
  - unfold AgentSummary_Validate. rewrite !do_Ok, !wrap_Ok, reject_Ok, !do_Ok, reject_Ok.
    split_and!; [exact Hsp|by apply PrincipalIdentity_Validate_Ok|by apply valid_id_nonempty|exact Htn|exact Hw|done| |done].
    revert Hseq. unfold in_range, MaximumAgentsPerTree. simpl. lia.
  - simpl. lia.
Qed.

(** Receipts stored before keep their principal. *)
Lemma spawned_row_ok k r :
  spawn_row_ok db k r -> spawn_row_ok (spawned intent ts kt tr db) k r.
Proof.
  intros (Hc & p & Hp & Hpar & Hck). split; [hyp|]. exists p. split_and!; [|hyp|hyp].
  unfold spawn_principal in *. cbn [principals spawned set_workspace_sync_receipts set_trees
    set_agent_spawn_receipts set_principals]. rewrite lookup_insert_ne; [hyp|].
  intros He. pose proof (sa_principal _ _ _ _ _ Hok) as Hn. rewrite He in Hn. congruence.
Qed.

Lemma spawned_new_row_ok :
  spawn_check (pending_spawn intent (tr.(tr_last_agent_sequence) + 1) ts) = true ->
  spawn_row_ok (spawned intent ts kt tr db) (spawn_key (spawn_intent_key intent))
    (pending_spawn intent (tr.(tr_last_agent_sequence) + 1) ts).
Proof.
  intros Hck. split; [hyp|]. eexists. split; [|split; [|apply new_receipt_checked]].
  - unfold spawn_principal. apply lookup_insert_eq.
  - reflexivity.
Qed.

(** Each receipt keeps its workspace: a workspace consumed by one spawn is not
    available to another. *)
Lemma spawned_consumed k r :
  trees_inv db -> spawn_inv db -> (spawned intent ts kt tr db).(agent_spawn_receipts) !! k = Some r ->
  r.(sp_workspace_id) <> "" ->
  exists w, (spawned intent ts kt tr db).(workspace_sync_receipts) !! (k.1, r.(sp_workspace_id)) = Some w /\
    w.(ws_consumed_spawn_id) = k.2 /\ w.(ws_target_device_id) = r.(sp_target_device_id).
Proof.
  intros Htrees Hinv Hk Hne. destruct (sa_insert _ _ _ _ _ Hok) as [db2 Hins].
  apply insert_spawn_Ok in Hins as (_ & Hnew & _).
  cbn [workspace_sync_receipts agent_spawn_receipts spawned set_workspace_sync_receipts set_trees
    set_agent_spawn_receipts] in Hk |- *.
  apply lookup_insert_Some in Hk as [[<- <-]|[Hnk Hk]].
  - unfold consumed_workspaces. rewrite decide_True by exact Hne.
    destruct (sa_workspace _ _ _ _ _ Hok Hne) as (w & receipt & Hw & _ & _ & Htd & _).
    exists (consume_row intent.(si_SpawnID) ts w). split; [|split; [reflexivity|exact Htd]].
    change (alter (consume_row (si_SpawnID intent) ts) (workspace_key (spawn_workspace_key intent))
      (workspace_sync_receipts db) !! workspace_key (spawn_workspace_key intent) = Some (consume_row (si_SpawnID intent) ts w)).
    by rewrite lookup_alter_eq, Hw.
  - destruct (si_consumed _ Hinv k r Hk Hne) as (w & Hw & Hcons & Htd). exists w. split_and!; [|hyp|hyp].
    unfold consumed_workspaces. case_decide as Hwid; [|hyp].
    rewrite lookup_alter_ne; [hyp|]. intros He. destruct (sa_workspace _ _ _ _ _ Hok Hwid) as (w' & ? & Hw' & _ & _ & _ & Hin & _).
    rewrite He in Hw'. assert (w' = w) as -> by congruence. rewrite Hcons in Hin.
    destruct (si_rows _ Hinv k r Hk) as (_ & p & _ & _ & Hck). unfold check_spawn_receipt in Hck.
    rewrite !reject_Ok, do_Ok, wrap_Ok in Hck. destruct Hck as (_ & _ & Hsum & _).
    unfold AgentSummary_Validate in Hsum. rewrite do_Ok, wrap_Ok in Hsum. destruct Hsum as [Hid _].
    apply elem_of_cons in Hin as [Hin|Hin%list_elem_of_singleton]; [by apply (valid_id_nonempty k.2) in Hid|].
    apply Hnk. destruct k as [k1 k2]. simpl in *. injection He as <- _. by rewrite Hin.
Qed.

Lemma spawned_spawn_inv : trees_inv db -> spawn_inv db -> spawn_inv (spawned intent ts kt tr db).
Proof.
  intros Htrees Hinv. destruct (sa_insert _ _ _ _ _ Hok) as [db2 Hins].
  apply insert_spawn_Ok in Hins as (Hck & Hnew & Hseq & Hag & Htask & _).
  pose proof (tree_row_Some _ _ _ _ _ (sa_tree _ _ _ _ _ Hok)) as (Hkt & Hkc & Hkid).
  split; cbn [agent_spawn_receipts trees spawned set_workspace_sync_receipts set_trees set_agent_spawn_receipts].
  - intros k r [[<- <-]|[_ Hk]]%lookup_insert_Some; [by apply spawned_new_row_ok|].
    by apply spawned_row_ok, (si_rows _ Hinv).
  - intros k k' r r' [[<- <-]|[Hn Hk]]%lookup_insert_Some [[<- <-]|[Hn' Hk']]%lookup_insert_Some E1 E2; [done| | |].
    + by destruct (Hag k' r' Hk').
    + by destruct (Hag k r Hk).
    + by eapply (si_agents _ Hinv).
  - intros k k' r r' [[<- <-]|[Hn Hk]]%lookup_insert_Some [[<- <-]|[Hn' Hk']]%lookup_insert_Some E1 E2; [done| | |].
    + by destruct (Hseq k' r' Hk').
    + by destruct (Hseq k r Hk).
    + by eapply (si_sequences _ Hinv).
  - intros k k' r r' [[<- <-]|[Hn Hk]]%lookup_insert_Some [[<- <-]|[Hn' Hk']]%lookup_insert_Some E1 E2; [done| | |].
    + by destruct (Htask k' r' Hk').
    + by destruct (Htask k r Hk).
    + by eapply (si_tasks _ Hinv).
  - intros k r kt' tr' Hk Htr' E1 E2. apply lookup_insert_Some in Htr' as [[<- <-]|[Hnt Htr']].
    + apply lookup_insert_Some in Hk as [[<- <-]|[_ Hk]]; [simpl; lia|].
      pose proof (si_counter _ Hinv k r kt tr Hk Hkt E1 E2). simpl. lia.
    + apply lookup_insert_Some in Hk as [[<- <-]|[_ Hk]]; [|by eapply (si_counter _ Hinv)].
      destruct Hnt. eapply (ti_unique _ Htrees); [exact Hkt|exact Htr'| |]; simpl in *; congruence.
  - intros k r Hk. by apply spawned_consumed.
Qed.
End Spawned.

(** ** Frames *)

Lemma empty_spawn_inv : spawn_inv empty_db.
Proof. split; intros; simpl in *; simplify_map_eq. Qed.

(** Authorization depends on the caller's own row only. *)
Lemma authorizePrincipal_lookup claimed cap db db' :
  trees_inv db -> trees_inv db' ->
  db'.(principals) !! (claimed.(pi_ControllerID), claimed.(pi_TreeID), claimed.(pi_AgentID)) =
  db.(principals) !! (claimed.(pi_ControllerID), claimed.(pi_TreeID), claimed.(pi_AgentID)) ->
  authorizePrincipal claimed cap db' = authorizePrincipal claimed cap db.
Proof. intros H1 H2 E. by rewrite !authorizePrincipal_eq, E. Qed.

(** The invariant survives any change that keeps the receipts, only adds
    principals, only raises the sequence counters and keeps who consumed what. *)
Lemma spawn_inv_frame db db' :
  spawn_inv db -> db'.(agent_spawn_receipts) = db.(agent_spawn_receipts) ->
  (forall k p, db.(principals) !! k = Some p -> db'.(principals) !! k = Some p) ->
  (forall kt tr k r, db'.(trees) !! kt = Some tr -> db.(agent_spawn_receipts) !! k = Some r ->
     kt.1 = k.1.1.1 -> tr.(tr_tree_id) = k.1.1.2 -> exists tr0, db.(trees) !! kt = Some tr0 /\
     tr0.(tr_tree_id) = tr.(tr_tree_id) /\ tr0.(tr_last_agent_sequence) <= tr.(tr_last_agent_sequence)) ->
  (forall k w, db.(workspace_sync_receipts) !! k = Some w -> exists w', db'.(workspace_sync_receipts) !! k = Some w' /\
     w'.(ws_consumed_spawn_id) = w.(ws_consumed_spawn_id) /\ w'.(ws_target_device_id) = w.(ws_target_device_id)) ->
  spawn_inv db'.
Proof.
  intros Hinv HT Hp Ht Hw. split; rewrite ?HT.
  - intros k r Hk. destruct (si_rows _ Hinv _ _ Hk) as (Hc & p & Hpr & Hrest). split; [hyp|]. exists p.
    split; [by apply Hp|hyp].
  - apply (si_agents _ Hinv).
  - apply (si_sequences _ Hinv).
  - apply (si_tasks _ Hinv).
  - intros k r kt tr Hk Htr E1 E2. destruct (Ht _ _ _ _ Htr Hk E1 E2) as (tr0 & Htr0 & Hid & Hle).
    etrans; [|exact Hle]. eapply (si_counter _ Hinv); eauto; congruence.
  - intros k r Hk Hne. destruct (si_consumed _ Hinv _ _ Hk Hne) as (w & Hlw & Hc & Hd).
    destruct (Hw _ _ Hlw) as (w' & Hlw' & Hc' & Hd'). exists w'. split_and!; congruence.
Qed.

Lemma spawn_inv_same db db' :
  spawn_inv db -> db'.(agent_spawn_receipts) = db.(agent_spawn_receipts) -> db'.(principals) = db.(principals) ->
  db'.(trees) = db.(trees) -> db'.(workspace_sync_receipts) = db.(workspace_sync_receipts) -> spawn_inv db'.
Proof.
  intros Hinv H1 H2 H3 H4. apply (spawn_inv_frame db); rewrite ?H1, ?H2, ?H3, ?H4; try done; [|eauto].
  intros kt tr k r Htr _ _ _. exists tr. split_and!; [hyp|done|lia].
Qed.

(** Replacing a receipt by one with the same identity. *)
Lemma spawn_update_inv db k r r' :
  spawn_inv db -> db.(agent_spawn_receipts) !! k = Some r -> spawn_row_ok db k r' ->
  r'.(sp_sequence) = r.(sp_sequence) -> r'.(sp_agent_id) = r.(sp_agent_id) -> r'.(sp_task_name) = r.(sp_task_name) ->
  r'.(sp_workspace_id) = r.(sp_workspace_id) -> r'.(sp_target_device_id) = r.(sp_target_device_id) ->
  spawn_inv (set_agent_spawn_receipts db (<[k := r']> db.(agent_spawn_receipts))).
Proof.
  intros Hinv Hk Hok E1 E2 E3 E4 E5.
  assert (forall k0 r0, <[k := r']> db.(agent_spawn_receipts) !! k0 = Some r0 ->
    exists r1, db.(agent_spawn_receipts) !! k0 = Some r1 /\ r0.(sp_sequence) = r1.(sp_sequence) /\
      r0.(sp_agent_id) = r1.(sp_agent_id) /\ r0.(sp_task_name) = r1.(sp_task_name) /\
      r0.(sp_workspace_id) = r1.(sp_workspace_id) /\ r0.(sp_target_device_id) = r1.(sp_target_device_id)) as Hold.
  { intros k0 r0 [[<- <-]|[_ Hk0]]%lookup_insert_Some; eauto 10. }
  split; cbn [agent_spawn_receipts trees workspace_sync_receipts set_agent_spawn_receipts].
  - intros k0 r0 [[<- <-]|[_ Hk0]]%lookup_insert_Some; [exact Hok|]. exact (si_rows _ Hinv _ _ Hk0).
  - intros k1 k2 r1 r2 (s1 & Hs1 & _ & Ha1 & _)%Hold (s2 & Hs2 & _ & Ha2 & _)%Hold Hkk Haa.
    eapply (si_agents _ Hinv); eauto; congruence.
  - intros k1 k2 r1 r2 (s1 & Hs1 & Ha1 & _)%Hold (s2 & Hs2 & Ha2 & _)%Hold Hkk Haa.
    eapply (si_sequences _ Hinv); eauto; congruence.
  - intros k1 k2 r1 r2 (s1 & Hs1 & _ & _ & Ha1 & _)%Hold (s2 & Hs2 & _ & _ & Ha2 & _)%Hold Hkk Haa.
    eapply (si_tasks _ Hinv); eauto; congruence.
  - intros k1 r1 kt tr (s1 & Hs1 & Ha1 & _)%Hold Htr Hc Ht. rewrite Ha1. by eapply (si_counter _ Hinv).
  - intros k1 r1 (s1 & Hs1 & _ & _ & _ & Hw1 & Hd1)%Hold Hne. rewrite Hw1, Hd1 in *. by apply (si_consumed _ Hinv).
Qed.

(** ** Finishing a spawn, proved *)

(** The counters after a transition to [status]. *)
Definition counted (status c : string) (t : gmap string CounterRow) : gmap string CounterRow :=
  if decide (status = AgentSpawnStarted)
  then <[c := match t !! c with None => started_increment 1 1 | Some x => add_counters x (started_increment 1 1) end]> t
  else t.

Lemma count_started_Ok status c db db' :
  count_started status c db = Ok db' ->
  db' = set_controller_lifetime_counters db (counted status c db.(controller_lifetime_counters)).
Proof.
  unfold count_started, counted. case_decide; [|intros [= ->]; by destruct db'].
  unfold incrementStatusLifetimeCounters. rewrite reject_Ok. intros [_ [= <-]]. done.
Qed.

Lemma finish_spawn_row_ok k r p status code ts :
  spawn_check (finish_spawn_row status code ts r) = true -> AgentSpawnStatus_Validate status code = Ok tt ->
  r.(sp_created_at) <= ts -> check_spawn_receipt r.(sp_target_device_id) (joined_receipt k r p) = Ok tt ->
  check_spawn_receipt r.(sp_target_device_id) (joined_receipt k (finish_spawn_row status code ts r) p) = Ok tt.
Proof.
  intros Hc Hst Hts. unfold check_spawn_receipt, AgentSummary_Validate.
  rewrite !reject_Ok, !do_Ok, !wrap_Ok, !reject_Ok, !do_Ok, !wrap_Ok, !reject_Ok, !do_Ok, !reject_Ok.
  simpl. intros (? & ? & (? & ? & ? & ? & ? & _ & ? & _) & Hneg & _). split_and!; try done; try hyp. lia.
Qed.

Lemma finishAgentSpawn_effect key status code at_ db receipt db' :
  finishAgentSpawn key status code at_ db = Ok (receipt, db') ->
  queryAgentSpawnReceipt key db' = Ok receipt /\
  receipt.(asr_Agent).(as_SpawnStatus) = status /\ receipt.(asr_Agent).(as_SpawnFailureCode) = code /\
  (db' = db \/
   exists r, db.(agent_spawn_receipts) !! spawn_key key = Some r /\ r.(sp_status) = AgentSpawnPending /\
     db' = set_controller_lifetime_counters
             (set_agent_spawn_receipts db (<[spawn_key key := finish_spawn_row status code at_ r]> db.(agent_spawn_receipts)))
             (counted status key.(sk_ControllerID) db.(controller_lifetime_counters)) /\
     (spawn_row_ok db (spawn_key key) r -> spawn_row_ok db (spawn_key key) (finish_spawn_row status code at_ r))).
Proof.
  unfold finishAgentSpawn. intros H. go_inv.
  - apply dec_stable in n0. split_and!; [hyp|done|done|by left].
  - match goal with H : unixTime _ = Ok _ |- _ => unfold unixTime in H; apply reject_Ok in H as [Htime [= <-]] end.
    match goal with H : queryAgentSpawnReceipt _ _ = Ok _ |- _ => apply queryAgentSpawnReceipt_Ok in H as (r & p & Hr & Hp & -> & Hck) end.
    match goal with H : update_spawn _ _ _ _ = Ok _ |- _ => rename H into Hu end.
    unfold update_spawn in Hu. apply result_bind_Ok in Hu as ([m tb] & Hu & Hrest).
    rewrite wrap_Ok in Hu. rewrite do_Ok in Hrest. destruct Hrest as [Haff [= <-]].
    apply sql_update_Ok in Hu as [(-> & _)|(_ & r' & Hr' & _ & Hsc & ->)]; [by vm_compute in Haff|].
    assert (r' = r) as -> by congruence.
    match goal with H : count_started _ _ _ = Ok _ |- _ => apply count_started_Ok in H as -> end.
    match goal with H : ~ (as_SpawnStatus _ <> AgentSpawnPending) |- _ => apply dec_stable in H; rename H into Hpend end.
    match goal with H : AgentSpawnStatus_Validate _ _ = Ok _ |- _ => rename H into Hst end.
    assert (r.(sp_created_at) <= at_) as Hts by (simpl in *; lia).
    split_and!; [|done|done|right].
    + apply queryAgentSpawnReceipt_Ok. exists (finish_spawn_row status code at_ r), p.
      split_and!; [apply lookup_insert_eq|exact Hp|reflexivity|]. exact (finish_spawn_row_ok _ r p _ _ _ Hsc Hst Hts Hck).
    + exists r. split_and!; [hyp|exact Hpend|reflexivity|].
      intros (_ & p' & Hp' & Hpar & Hck'). split; [hyp|]. exists p'. split_and!; [exact Hp'|exact Hpar|].
      exact (finish_spawn_row_ok _ r p' _ _ _ Hsc Hst Hts Hck').
Qed.

Lemma finishAgentSpawn_inv key status code at_ db receipt db' :
  spawn_inv db -> finishAgentSpawn key status code at_ db = Ok (receipt, db') -> spawn_inv db'.
Proof.
  intros Hinv H. apply finishAgentSpawn_effect in H as (_ & _ & _ & [->|(r & Hr & _ & -> & Hok)]); [done|].
  eapply spawn_inv_same; [eapply (spawn_update_inv db); [done|exact Hr|exact (Hok (si_rows _ Hinv _ _ Hr))|..]|..];
    reflexivity.
Qed.

(** A spawn ends once. After a successful report the stored receipt carries the
    reported status and failure code; repeating the report returns the same receipt
    and writes nothing, so a start is counted once; any other terminal report is a
    conflict; and the counters of the controller move by one dispatch and one turn
    exactly when the receipt went from pending to started. *)
Theorem finishAgentSpawn_once key status code at_ db receipt db' :
  spawn_inv db -> finishAgentSpawn key status code at_ db = Ok (receipt, db') ->
  spawn_inv db' /\ queryAgentSpawnReceipt key db' = Ok receipt /\
  receipt.(asr_Agent).(as_SpawnStatus) = status /\ receipt.(asr_Agent).(as_SpawnFailureCode) = code /\
  (forall at2, 0 <= at2 -> finishAgentSpawn key status code at2 db' = Ok (receipt, db')) /\
  (forall status2 code2 at2, 0 <= at2 -> (status2, code2) <> (status, code) ->
     status2 <> AgentSpawnPending -> AgentSpawnStatus_Validate status2 code2 = Ok tt ->
     exists text, finishAgentSpawn key status2 code2 at2 db' = Err (Wrap text ErrConflict)) /\
  exists before, queryAgentSpawnReceipt key db = Ok before /\
    db'.(controller_lifetime_counters) =
      (if decide (before.(asr_Agent).(as_SpawnStatus) = AgentSpawnPending)
       then counted status key.(sk_ControllerID) db.(controller_lifetime_counters)
       else db.(controller_lifetime_counters)).
Proof.
  intros Hinv H. pose proof (finishAgentSpawn_inv _ _ _ _ _ _ _ Hinv H) as Hinv'.
  assert (AgentSpawnKey_Validate key = Ok tt /\ AgentSpawnStatus_Validate status code = Ok tt /\
          (status = AgentSpawnStarted \/ status = AgentSpawnFailed)) as (Hkv & Hsv & Hterm).
  { revert H. unfold finishAgentSpawn. intros H. apply tx_bind_Ok in H as ([] & s1 & H1 & H).
    apply tx_lift_Ok in H1 as [H1 ->]. destruct (decide (status <> AgentSpawnStarted /\ _)) as [|Hd]; [by apply tx_throw_Ok in H|].
    apply tx_bind_Ok in H as ([] & s2 & H2 & _). apply tx_lift_Ok in H2 as [H2 _].
    split_and!; [hyp|hyp|]. destruct (decide (status = AgentSpawnStarted)), (decide (status = AgentSpawnFailed)); tauto. }
  apply finishAgentSpawn_effect in H as (Hq & Hs & Hc & Hdb).
  assert (forall status2 code2 at2, 0 <= at2 -> status2 <> AgentSpawnPending ->
    AgentSpawnStatus_Validate status2 code2 = Ok tt ->
    finishAgentSpawn key status2 code2 at2 db' =
    if decide (status = status2) then
      if decide (code <> code2) then Err (Wrap "agent terminal result differs" ErrConflict) else Ok (receipt, db')
    else Err (Wrap "agent already has a terminal result" ErrConflict)) as Hstep.
  { intros status2 code2 at2 Hat Hne Hv. unfold finishAgentSpawn, tx_lift, tx_query, tx_bind. rewrite Hkv.
    apply AgentSpawnStatus_Validate_Ok in Hv as Hv'. rewrite decide_False by naive_solver. rewrite Hv.
    unfold unixTime. rewrite decide_False by lia. rewrite Hq, Hs, Hc. case_decide; [by case_decide|].
    rewrite decide_True; [done|]. destruct Hterm as [->| ->]; done. }
  split_and!; [hyp..| | |].
  - intros at2 Hat. rewrite Hstep; [|done|by destruct Hterm as [->| ->]|hyp]. by rewrite decide_True, decide_False by tauto.
  - intros status2 code2 at2 Hat Hne Hnp Hv. rewrite Hstep by done. case_decide; [|eauto].
    rewrite decide_True by congruence. eauto.
  - destruct Hdb as [->|(r & Hr & Hp & -> & _)].
    + exists receipt. split; [hyp|]. rewrite decide_False; [done|]. rewrite Hs. by destruct Hterm as [->| ->].
    + destruct (si_rows _ Hinv _ _ Hr) as (_ & p & Hpr & _ & Hck).
      exists (joined_receipt (spawn_key key) r p). split; [|by rewrite decide_True].
      apply queryAgentSpawnReceipt_Ok. exists r, p. auto.
Qed.

(** ** Beginning a spawn, proved *)

Lemma BeginAgentSpawn_inv intent at_ db receipt db' :
  trees_inv db -> workspace_inv db -> spawn_inv db -> BeginAgentSpawn intent at_ db = Ok (receipt, db') ->
  trees_inv db' /\ workspace_inv db' /\ spawn_inv db' /\
  queryAgentSpawnReceipt (spawn_intent_key intent) db' = Ok receipt /\ receiptMatchesIntent receipt intent.
Proof.
  intros Ht Hw Hs H. apply BeginAgentSpawn_effect in H as ([p Hp] & [(-> & Hq & Hm & _)|(kt & tr & Hok & -> & ->)]); [auto|].
  apply authorizePrincipal_stored in Hp as [pr Hpr].
  split_and!; [by eapply spawned_trees_inv|by eapply spawned_workspace_inv|by eapply spawned_spawn_inv| |].
  - apply queryAgentSpawnReceipt_Ok. eexists _, _. split_and!; [apply lookup_insert_eq| |reflexivity|].
    + unfold spawn_principal. apply lookup_insert_eq.
    + by eapply new_receipt_checked.
  - unfold receiptMatchesIntent. done.
Qed.

(** The same request under another freshly drawn agent id. *)
Definition redrawn (agentID : string) (intent : AgentSpawnIntent) : AgentSpawnIntent := {|
  si_Source := intent.(si_Source); si_SpawnID := intent.(si_SpawnID); si_AgentID := agentID;
  si_TargetDeviceID := intent.(si_TargetDeviceID); si_TaskName := intent.(si_TaskName);
  si_PromptDigest := intent.(si_PromptDigest); si_WorkspaceID := intent.(si_WorkspaceID) |}.

(** A call that finds a receipt under its id compares and returns it. *)
Lemma BeginAgentSpawn_existing intent at_ db receipt p :
  validateAgentSpawnIntent intent = Ok tt -> 0 <= at_ ->
  authorizePrincipal intent.(si_Source) CapabilityAgentSpawn db = Ok p ->
  queryAgentSpawnReceipt (spawn_intent_key intent) db = Ok receipt ->
  BeginAgentSpawn intent at_ db =
    if decide (receiptMatchesIntent receipt intent) then Ok (receipt, db)
    else Err (Wrap "spawnId already identifies another request" ErrConflict).
Proof.
  intros Hv Hat Hp Hq. unfold BeginAgentSpawn, tx_lift, tx_query, tx_bind. rewrite Hv. unfold unixTime.
  rewrite decide_False by lia. rewrite Hp, Hq. cbn [optional].
  destruct (decide (receiptMatchesIntent receipt intent)) as [Hd|Hd];
    [by rewrite decide_False by tauto|by rewrite decide_True by done].
Qed.

(** After a successful call the request is valid, its receipt is stored and matches it,
    and the caller is still authorized. *)
Lemma BeginAgentSpawn_stands intent at_ db receipt db' :
  trees_inv db -> workspace_inv db -> spawn_inv db -> BeginAgentSpawn intent at_ db = Ok (receipt, db') ->
  validateAgentSpawnIntent intent = Ok tt /\ queryAgentSpawnReceipt (spawn_intent_key intent) db' = Ok receipt /\
  receiptMatchesIntent receipt intent /\ exists p, authorizePrincipal intent.(si_Source) CapabilityAgentSpawn db' = Ok p.
Proof.
  intros Ht Hw Hs H. pose proof (BeginAgentSpawn_inv _ _ _ _ _ Ht Hw Hs H) as (Ht' & _ & _ & Hq & Hm).
  apply BeginAgentSpawn_effect in H as ([p Hp] & Hcase). split_and!; [|hyp|hyp|exists p].
  - destruct Hcase as [(_ & _ & _ & Hv)|(kt & tr & Hok & _)]; [hyp|exact (sa_valid _ _ _ _ _ Hok)].
  - rewrite <- Hp. destruct Hcase as [(-> & _)|(kt & tr & Hok & -> & _)]; [done|].
    apply authorizePrincipal_lookup; [done..|]. apply authorizePrincipal_stored in Hp as [pr Hpr].
    cbn [principals spawned set_workspace_sync_receipts set_trees set_agent_spawn_receipts set_principals].
    rewrite lookup_insert_ne; [done|]. pose proof (sa_principal _ _ _ _ _ Hok). congruence.
Qed.

Lemma redrawn_valid agentID intent :
  validateAgentSpawnIntent intent = Ok tt -> valid_id agentID -> validateAgentSpawnIntent (redrawn agentID intent) = Ok tt.
Proof. unfold validateAgentSpawnIntent. rewrite !do_Ok, !validate_ids_Ok, !Forall_cons. simpl. tauto. Qed.

(** A receipt matches one request, up to the agent id drawn for it. *)
Lemma receiptMatchesIntent_other receipt intent other :
  receiptMatchesIntent receipt intent -> other.(si_Source) = intent.(si_Source) ->
  redrawn intent.(si_AgentID) other <> intent -> ~ receiptMatchesIntent receipt other.
Proof.
  intros Hm Hsrc Hne Hmo. apply Hne. unfold receiptMatchesIntent, redrawn in *.
  destruct other, intent. simpl in *. f_equal; naive_solver congruence.
Qed.

(** C6 A new spawn does everything in one transaction. When no receipt exists under
    the spawn id, a successful call assigns the next sequence number of the tree, at
    most 256; stores a pending receipt for exactly this request; creates a worker
    principal, child of the caller on the target device, which is authorized for
    every worker capability and for no root capability; marks the workspace, which
    was prepared for the target device, as consumed by this spawn; keeps every other
    receipt; and preserves the invariants of trees, workspaces and spawns. *)
Theorem BeginAgentSpawn_spawns intent at_ db receipt db' :
  trees_inv db -> workspace_inv db -> spawn_inv db ->
  db.(agent_spawn_receipts) !! spawn_key (spawn_intent_key intent) = None ->
  BeginAgentSpawn intent at_ db = Ok (receipt, db') ->
  trees_inv db' /\ workspace_inv db' /\ spawn_inv db' /\
  (exists kt tr, tree_row db intent.(si_Source).(pi_ControllerID) intent.(si_Source).(pi_TreeID) = Some (kt, tr) /\
     receipt.(asr_Agent).(as_Sequence) = tr.(tr_last_agent_sequence) + 1 /\
     receipt.(asr_Agent).(as_Sequence) <= MaximumAgentsPerTree) /\
  receipt.(asr_Agent).(as_SpawnStatus) = AgentSpawnPending /\
  queryAgentSpawnReceipt (spawn_intent_key intent) db' = Ok receipt /\ receiptMatchesIntent receipt intent /\
  (forall cap, is_ok (authorizePrincipal receipt.(asr_Agent).(as_Principal) cap db') = true <-> cap ∈ WorkerCapabilities) /\
  (intent.(si_WorkspaceID) <> "" -> exists w,
     db'.(workspace_sync_receipts) !! workspace_key (spawn_workspace_key intent) = Some w /\
     w.(ws_status) = WorkspaceSyncPrepared /\ w.(ws_target_device_id) = intent.(si_TargetDeviceID) /\
     w.(ws_consumed_spawn_id) = intent.(si_SpawnID)) /\
  (forall k, k <> spawn_key (spawn_intent_key intent) -> db'.(agent_spawn_receipts) !! k = db.(agent_spawn_receipts) !! k).
Proof.
  intros Ht Hw Hs Hnone H. pose proof (BeginAgentSpawn_inv _ _ _ _ _ Ht Hw Hs H) as (Ht' & Hw' & Hs' & Hq & Hm).
  apply BeginAgentSpawn_effect in H as ([p Hp] & [(-> & Hq' & _)|(kt & tr & Hok & -> & ->)]).
  { apply queryAgentSpawnReceipt_Ok in Hq' as (r & ? & Hr & _). congruence. }
  pose proof (sa_limit _ _ _ _ _ Hok).
  pose proof (validateAgentSpawnIntent_Ok _ (sa_valid _ _ _ _ _ Hok)) as (Hsrc & _).
  apply PrincipalIdentity_Validate_Ok in Hsrc as (_ & _ & Hsa & _).
  split_and!; [hyp|hyp|hyp| |done|hyp|hyp| | |].
  - exists kt, tr. split_and!; [exact (sa_tree _ _ _ _ _ Hok)|done|simpl; lia].
  - intros cap. rewrite (authorizePrincipal_eq _ _ _ Ht').
    assert (principals (spawned intent at_ kt tr db) !! (pi_ControllerID (as_Principal (asr_Agent (new_receipt intent at_ tr))),
      pi_TreeID (as_Principal (asr_Agent (new_receipt intent at_ tr))),
      pi_AgentID (as_Principal (asr_Agent (new_receipt intent at_ tr)))) =
      Some (principal_row (NewWorkerPrincipal intent.(si_Source).(pi_ControllerID) intent.(si_Source).(pi_TreeID)
       intent.(si_AgentID) intent.(si_Source).(pi_AgentID) intent.(si_TargetDeviceID)) at_)) as -> by apply lookup_insert_eq.
    unfold role_capabilities. rewrite (decide_True (P := pi_ParentAgentID _ <> "")) by exact (valid_id_nonempty _ Hsa).
    destruct (decide _) as [[_ Hin]|Hno]; simpl; [done|]. split; [done|]. intros Hin. destruct Hno. done.
  - intros Hne. destruct (sa_workspace _ _ _ _ _ Hok Hne) as (w & ? & Hlw & _ & Hst & Htd & _).
    exists (consume_row intent.(si_SpawnID) at_ w). split_and!; [|exact Hst|exact Htd|reflexivity].
    cbn [workspace_sync_receipts spawned set_workspace_sync_receipts]. unfold consumed_workspaces.
    rewrite decide_True by done. by rewrite lookup_alter_eq, Hlw.
  - intros k Hk. cbn [agent_spawn_receipts spawned set_workspace_sync_receipts set_trees set_agent_spawn_receipts].
    by rewrite lookup_insert_ne.
Qed.

(** C30 A workspace serves one spawn. Once a spawn has consumed a workspace, no other
    spawn of the same agent can begin with it: the call is refused as a conflict and
    nothing is written. *)
Theorem BeginAgentSpawn_workspace_once intent at_ db receipt db' other at2 p :
  trees_inv db -> workspace_inv db -> spawn_inv db ->
  BeginAgentSpawn intent at_ db = Ok (receipt, db') -> intent.(si_WorkspaceID) <> "" ->
  validateAgentSpawnIntent other = Ok tt -> 0 <= at2 -> other.(si_Source) = intent.(si_Source) ->
  authorizePrincipal other.(si_Source) CapabilityAgentSpawn db' = Ok p ->
  other.(si_WorkspaceID) = intent.(si_WorkspaceID) -> other.(si_SpawnID) <> intent.(si_SpawnID) ->
  db'.(agent_spawn_receipts) !! spawn_key (spawn_intent_key other) = None ->
  run_tx (BeginAgentSpawn other at2) db' =
    (Err (Wrap "workspace is not available for this spawn" ErrConflict), db').
Proof.
  intros Ht Hw Hs H Hne Hov Hat Hsrc Hp Hwid Hid Hnone.
  pose proof (BeginAgentSpawn_inv _ _ _ _ _ Ht Hw Hs H) as (Ht' & Hw' & Hs' & Hq & Hm).
  apply queryAgentSpawnReceipt_Ok in Hq as (r & pr & Hr & _ & -> & _).
  unfold receiptMatchesIntent in Hm. simpl in Hm. destruct Hm as (_ & _ & _ & _ & Hdev & _ & Hrw & _).
  destruct (si_consumed _ Hs' _ _ Hr) as (w & Hlw & Hcons & _); [by rewrite Hrw|]. simpl in Hcons.
  assert (spawn_workspace_key other = spawn_workspace_key intent) as Hk
    by (unfold spawn_workspace_key; by rewrite Hsrc, Hwid).
  destruct (wi_rows _ Hw' _ _ Hlw) as (_ & [wr Hwr] & _).
  assert (queryWorkspaceSyncReceipt (spawn_workspace_key other) db' = Ok wr) as Hqw.
  { apply queryWorkspaceSyncReceipt_Ok. exists w. rewrite Hk. rewrite Hrw in Hlw, Hwr. split; [exact Hlw|exact Hwr]. }
  pose proof (scanned_columns _ _ _ Hwr) as (_ & _ & _ & _ & _ & _ & _ & _ & _ & _ & _ & Hwc).
  unfold run_tx, BeginAgentSpawn, tx_lift, tx_query, tx_bind. rewrite Hov. unfold unixTime.
  rewrite decide_False by lia. rewrite Hp.
  pose proof (queryAgentSpawnReceipt_inv (spawn_intent_key other) db' Hs') as Hqn. rewrite Hnone in Hqn. rewrite Hqn.
  cbn [optional errors_Is]. rewrite bool_decide_true by done. cbv iota. unfold require_workspace.
  rewrite decide_True by congruence. rewrite Hqw. cbn [wrap result_bind]. rewrite decide_True; [done|].
  right; right. rewrite Hwc, Hcons. split; [|congruence].
  intros He. assert (valid_id intent.(si_SpawnID)) as Hvid.
  { apply BeginAgentSpawn_effect in H as (_ & [(_ & _ & _ & Hv)|(? & ? & Hok & _)]);
      [|pose proof (sa_valid _ _ _ _ _ Hok) as Hv]; by apply validateAgentSpawnIntent_Ok in Hv as (_ & ? & _). }
  by apply (valid_id_nonempty _ Hvid).
Qed.

(** ** Agent pages *)

(** The lifecycle rows that the listing joins are readable. *)
Definition lifecycle_readable (db : DB) : Prop :=
  forall k l, db.(agent_lifecycle_states) !! k = Some l ->
    0 < l.(lc_target_revision) /\ 0 <= l.(lc_observed_at) /\
    WorkerLifecyclePhase_Validate l.(lc_phase) l.(lc_failure_code) = Ok tt.

Section AgentPages.
Context (c t : string) (db : DB) (Hinv : spawn_inv db) (Hlife : lifecycle_readable db).

Definition spawns_after (after : Z) : list ((string * string * string * string) * SpawnRow) :=
  filter (fun x => is_Some (spawn_principal x.1 x.2 db))
    (select (fun x : (string * string * string * string) * SpawnRow =>
       x.1.1.1 = (c, t) /\ x.2.(sp_sequence) > after) db.(agent_spawn_receipts)).

Lemma elem_of_spawns_after after k r :
  (k, r) ∈ spawns_after after <->
  db.(agent_spawn_receipts) !! k = Some r /\ k.1.1 = (c, t) /\ r.(sp_sequence) > after.
Proof.
  unfold spawns_after. rewrite list_elem_of_filter.
  rewrite (elem_of_select (fun x : (string * string * string * string) * SpawnRow => x.1.1.1 = (c, t) /\ _)). simpl.
  split; [tauto|]. intros (Hk & Hkk & Hs). split; [|done].
  destruct (si_rows _ Hinv _ _ Hk) as (_ & p & Hp & _). rewrite Hp. eauto.
Qed.

Lemma spawns_after_NoDup after : NoDup (spawns_after after).
Proof. apply NoDup_filter, NoDup_select. Qed.

Lemma spawns_after_keys after :
  NoDup ((fun x : (string * string * string * string) * SpawnRow => x.2.(sp_sequence)) <$> spawns_after after).
Proof.
  apply NoDup_fmap_2_strong; [|apply spawns_after_NoDup].
  intros [k1 r1] [k2 r2] (H1 & E1 & _)%elem_of_spawns_after (H2 & E2 & _)%elem_of_spawns_after E.
  assert (k1 = k2) as -> by (eapply (si_sequences _ Hinv); eauto; congruence). congruence.
Qed.

Lemma tree_spawns_continue after n k r :
  tree_spawns c t after db !! n = Some (k, r) ->
  tree_spawns c t r.(sp_sequence) db = drop (S n) (tree_spawns c t after db).
Proof.
  intros Hn. assert ((k, r) ∈ spawns_after after) as (Hk & Hc & Ha)%elem_of_spawns_after.
  { apply list_elem_of_lookup_2 in Hn. by apply elem_of_sort_by in Hn. }
  unfold tree_spawns, order_by.
  eapply (sort_by_after Z.le); [apply (spawns_after_keys after)|apply (spawns_after_NoDup r.(sp_sequence))|exact Hn|].
  intros [k' r']. fold (spawns_after after) (spawns_after r.(sp_sequence)). rewrite !elem_of_spawns_after.
  simpl. split; intros H; [split_and!; try tauto; lia|]. destruct H as ((? & ? & ?) & ?). split_and!; try done. lia.
Qed.

(** Each row of the listing reads as the receipt the key identifies. *)
Lemma scan_spawn_row_inv k r :
  db.(agent_spawn_receipts) !! k = Some r ->
  exists record p, scan_spawn_row db (k, r) = Ok record /\ spawn_principal k r db = Some p /\
    record.(acr_Spawn) = (joined_receipt k r p).(asr_Agent).
Proof.
  intros Hk. destruct (si_rows _ Hinv _ _ Hk) as (_ & p & Hp & _ & Hck).
  unfold scan_spawn_row. cbn [fst snd]. rewrite Hp. unfold scanAgentCurrentRecord. rewrite Hck. cbn [result_bind].
  destruct (db.(agent_lifecycle_states) !! _) as [l|] eqn:El; [|eauto].
  destruct (Hlife _ _ El) as (H1 & H2 & H3). rewrite decide_False by lia. rewrite H3. cbn [wrap result_bind]. eauto.
Qed.

Lemma tree_spawns_scan after n :
  exists records, result_mapM (scan_spawn_row db) (take n (tree_spawns c t after db)) = Ok records.
Proof.
  assert (Forall (fun row => exists d, scan_spawn_row db row = Ok d) (take n (tree_spawns c t after db))) as Hall.
  { apply Forall_take, Forall_forall. intros [k r] Hin. apply elem_of_sort_by in Hin.
    apply (elem_of_spawns_after after) in Hin as (Hk & _).
    destruct (scan_spawn_row_inv _ _ Hk) as (record & _ & H & _). eauto. }
  induction Hall as [|row rows [d Hd] _ [ds Hds]]; [by exists []|]. exists (d :: ds). simpl. by rewrite Hd, Hds.
Qed.

(** One page: the first [limit] agents after the cursor; a nonzero next cursor
    resumes exactly behind them, zero ends the listing. *)
Lemma ListAgents_page source p request :
  source.(pi_ControllerID) = c -> source.(pi_TreeID) = t -> PrincipalIdentity_Validate source = Ok tt ->
  authorizePrincipal source CapabilityAgentManageDescendants db = Ok p ->
  0 <= request.(aq_AfterSequence) <= MaximumAgentsPerTree -> 1 <= request.(aq_Limit) <= MaximumAgentPage ->
  let rows := tree_spawns c t request.(aq_AfterSequence) db in
  let n := Z.to_nat request.(aq_Limit) in
  exists page, ListAgents source request db = Ok page /\
    Forall2 (fun row a => scan_spawn_row db row = Ok a) (take n rows) page.(ap_Agents) /\
    ((page.(ap_NextSequence) = 0 /\ (length rows <= n)%nat) \/
     (0 < page.(ap_NextSequence) <= MaximumAgentsPerTree /\ (n < length rows)%nat /\
      tree_spawns c t page.(ap_NextSequence) db = drop n rows)).
Proof.
  intros Hc Ht Hv Hp Hafter Hlim rows n. destruct request as [after lim]. simpl in *.
  destruct (tree_spawns_scan after (Z.to_nat (lim + 1))) as [rs Hrs].
  unfold ListAgents; cbn [aq_AfterSequence aq_Limit]. rewrite Hv. cbn [wrap result_bind].
  unfold ListAgentsParams_Validate; cbn [lap_AfterSequence lap_Limit].
  rewrite !decide_False by lia. cbn [result_bind]. rewrite Hp. cbn [result_bind]. rewrite Hc, Ht. unfold limit.
  rewrite Hrs. cbn [result_bind]. apply result_mapM_Ok in Hrs. fold rows in Hrs.
  pose proof (Forall2_length _ _ _ Hrs) as Hlen. rewrite length_take in Hlen.
  assert (Forall2 (fun row a => scan_spawn_row db row = Ok a) (take n rows) (take n rs)) as Hf.
  { replace (take n rows) with (take n (take (Z.to_nat (lim + 1)) rows)) by (rewrite take_take; f_equal; lia).
    by apply Forall2_take. }
  eexists. split; [reflexivity|]. cbn [ap_Agents ap_NextSequence]. split; [exact Hf|].
  destruct (decide (Z.of_nat (length rs) > lim)) as [Hgt|Hle]; [right|left; lia].
  destruct (lookup_lt_is_Some_2 rows (n - 1)%nat) as [[k r] Hkr]; [lia|].
  assert (last (take n rs) = rs !! (n - 1)%nat) as Hlast.
  { rewrite last_lookup, length_take, lookup_take. rewrite decide_True by lia. f_equal. lia. }
  fold n. rewrite Hlast. destruct (lookup_lt_is_Some_2 rs (n - 1)%nat) as [a Ha]; [lia|]. rewrite Ha. simpl.
  assert (scan_spawn_row db (k, r) = Ok a) as Hscan.
  { eapply (Forall2_lookup_lr _ _ _ (n - 1)%nat _ _ Hrs); [|done]. rewrite lookup_take. by rewrite decide_True by lia. }
  assert ((k, r) ∈ spawns_after after) as (Hk & _ & Hs)%elem_of_spawns_after.
  { apply list_elem_of_lookup_2 in Hkr. by apply elem_of_sort_by in Hkr. }
  destruct (scan_spawn_row_inv _ _ Hk) as (a' & p' & Ha' & _ & Hsum). assert (a' = a) as -> by congruence.
  rewrite Hsum. simpl. destruct (si_rows _ Hinv _ _ Hk) as (Hck & _).
  unfold spawn_check in Hck. rewrite !andb_true_iff in Hck. destruct Hck as ((((((Hseq & _) & _) & _) & _) & _) & _).
  unfold in_range in Hseq. split_and!; [lia|unfold MaximumAgentsPerTree; lia|lia|].
  rewrite (tree_spawns_continue after (n - 1) k r Hkr). unfold rows. f_equal. lia.
Qed.
End AgentPages.

(** A client that follows the cursors until they end. *)
Fixpoint list_all_agents (fuel : nat) (source : PrincipalIdentity) (lim after : Z) (db : DB)
    : result (list AgentCurrentRecord) :=
  match fuel with
  | O => Err (New "too many pages")
  | S fuel =>
      let? page := ListAgents source {| aq_AfterSequence := after; aq_Limit := lim |} db in
      if decide (page.(ap_NextSequence) = 0) then Ok page.(ap_Agents)
      else
        let? rest := list_all_agents fuel source lim page.(ap_NextSequence) db in
        Ok (page.(ap_Agents) ++ rest)
  end.

Lemma list_all_agents_rows source p lim after db fuel :
  spawn_inv db -> lifecycle_readable db -> PrincipalIdentity_Validate source = Ok tt ->
  authorizePrincipal source CapabilityAgentManageDescendants db = Ok p ->
  0 <= after <= MaximumAgentsPerTree -> 1 <= lim <= MaximumAgentPage ->
  let rows := tree_spawns source.(pi_ControllerID) source.(pi_TreeID) after db in
  (length rows < fuel)%nat ->
  exists rs, list_all_agents fuel source lim after db = Ok rs /\
    Forall2 (fun row a => scan_spawn_row db row = Ok a) rows rs.
Proof.
  intros Hinv Hlife Hv Hp. revert after. induction fuel as [|fuel IH]; intros after Hafter Hlim rows Hfuel; [lia|].
  destruct (ListAgents_page source.(pi_ControllerID) source.(pi_TreeID) db Hinv Hlife source p
    {| aq_AfterSequence := after; aq_Limit := lim |}) as (page & Hpage & Hf & Hnext); [done..|].
  simpl in Hf, Hnext. fold rows in Hf, Hnext. cbn [list_all_agents]. rewrite Hpage. simpl.
  destruct Hnext as [[Hz Hle]|(Hpos & Hlt & Hrest)].
  - rewrite decide_True by done. eexists. split; [done|]. by rewrite take_ge in Hf.
  - rewrite decide_False by lia.
    destruct (IH (ap_NextSequence page)) as (rest & Hr & Hfr); [lia|done|rewrite Hrest, length_drop; lia|].
    rewrite Hr. simpl. eexists. split; [done|]. rewrite <- (take_drop (Z.to_nat lim) rows).
    rewrite Hrest in Hfr. by apply Forall2_app.
Qed.

(** Listing agents is exact: with any legal page limit, a manager that follows the
    cursors from 0 ends after at most one page per receipt, and gets the agents of its
    tree, each exactly once, in the order in which they were spawned. *)
Theorem ListAgents_paging_exact source p lim db :
  spawn_inv db -> lifecycle_readable db -> PrincipalIdentity_Validate source = Ok tt ->
  authorizePrincipal source CapabilityAgentManageDescendants db = Ok p -> 1 <= lim <= MaximumAgentPage ->
  exists rs, list_all_agents (S (size db.(agent_spawn_receipts))) source lim 0 db = Ok rs /\
    StronglySorted (fun a b => a.(acr_Spawn).(as_Sequence) <= b.(acr_Spawn).(as_Sequence)) rs /\
    NoDup ((fun a => a.(acr_Spawn).(as_Sequence)) <$> rs) /\
    (forall a, a ∈ acr_Spawn <$> rs <-> exists key receipt, key.(sk_ControllerID) = source.(pi_ControllerID) /\
       key.(sk_TreeID) = source.(pi_TreeID) /\ queryAgentSpawnReceipt key db = Ok receipt /\ receipt.(asr_Agent) = a).
Proof.
  intros Hinv Hlife Hv Hp Hlim.
  set (c := source.(pi_ControllerID)). set (t := source.(pi_TreeID)). set (rows := tree_spawns c t 0 db).
  assert (rows ≡ₚ spawns_after c t db 0) as Hperm by apply sort_by_perm.
  assert (length rows <= size db.(agent_spawn_receipts))%nat as Hsize.
  { rewrite Hperm. unfold spawns_after, select. etrans; [apply length_filter|]. rewrite length_map_to_list. apply map_size_filter. }
  destruct (list_all_agents_rows source p lim 0 db (S (size db.(agent_spawn_receipts)))) as (rs & Hall & Hf);
    [done..|unfold MaximumAgentsPerTree; lia|done|fold c t rows; lia|]. fold c t rows in Hf. exists rs. split; [done|].
  assert (Forall2 (fun row a => exists p, db.(agent_spawn_receipts) !! row.1 = Some row.2 /\ row.1.1.1 = (c, t) /\
      spawn_principal row.1 row.2 db = Some p /\ a.(acr_Spawn) = (joined_receipt row.1 row.2 p).(asr_Agent)) rows rs) as Hread.
  { apply Forall2_same_length_lookup. split; [by eapply Forall2_length|]. intros i [k r] a Hi Ha.
    assert ((k, r) ∈ spawns_after c t db 0) as Hin by (rewrite <- Hperm; by eapply list_elem_of_lookup_2).
    apply (elem_of_spawns_after c t db Hinv) in Hin as (Hk & Hkk & _).
    pose proof (Forall2_lookup_lr _ _ _ i _ _ Hf Hi Ha) as Hs. destruct (scan_spawn_row_inv db Hinv Hlife k r Hk) as (a' & q & Hs' & Hq & Hj).
    exists q. cbn [fst snd]. assert (a' = a) as -> by congruence. split_and!; [hyp|hyp|hyp|hyp]. }
  assert ((fun a => a.(acr_Spawn).(as_Sequence)) <$> rs =
          (fun x : (string * string * string * string) * SpawnRow => x.2.(sp_sequence)) <$> rows) as Heq.
  { clear -Hread. induction Hread as [|row a rows rs (q & _ & _ & _ & Hj) _ IH]; csimpl; [done|]. rewrite Hj, IH. done. }
  split_and!.
  - apply (StronglySorted_key Z.le). rewrite Heq. apply StronglySorted_key, (sort_by_sorted Z.le).
  - rewrite Heq. unfold rows, tree_spawns, order_by. apply NoDup_sort_by. apply (spawns_after_keys c t db Hinv).
  - intros a. rewrite list_elem_of_fmap. split.
    + intros (b & -> & [i Hi]%list_elem_of_lookup).
      destruct (Forall2_lookup_r _ _ _ _ _ Hread Hi) as ([[[[c' t'] sa] sid] r] & _ & q & Hk & Hkk & Hq & Hj).
      simpl in *. injection Hkk as -> ->. destruct (si_rows _ Hinv _ _ Hk) as (_ & q' & Hq' & _ & Hck).
      assert (q' = q) as -> by congruence.
      exists {| sk_ControllerID := c; sk_TreeID := t; sk_SourceAgentID := sa; sk_SpawnID := sid |}, (joined_receipt (c, t, sa, sid) r q).
      split_and!; [done|done| |done]. apply queryAgentSpawnReceipt_Ok. exists r, q. auto.
    + intros (key & receipt & Hkc & Hkt & Hq & <-).
      apply queryAgentSpawnReceipt_Ok in Hq as (r & q & Hr & Hpq & -> & _).
      assert ((spawn_key key, r) ∈ rows) as [i Hi]%list_elem_of_lookup.
      { rewrite Hperm. apply (elem_of_spawns_after c t db Hinv). split_and!; [done|unfold spawn_key; simpl; congruence|].
        destruct (si_rows _ Hinv _ _ Hr) as (Hck & _). unfold spawn_check, in_range in Hck.
        rewrite !andb_true_iff in Hck. lia. }
      destruct (Forall2_lookup_l _ _ _ _ _ Hread Hi) as (b & Hb & q' & _ & _ & Hq' & Hj). simpl in *.
      exists b. split; [congruence|]. by eapply list_elem_of_lookup_2.
Qed.

(** ** A spawn, step by step *)

Definition sample_spawn : string := "88888888-8888-4888-8888-888888888888".
Definition sample_spawn_intent (spawnID agentID taskName : string) : AgentSpawnIntent := {|
  si_Source := sample_source; si_SpawnID := spawnID; si_AgentID := agentID; si_TargetDeviceID := sample_device;
  si_TaskName := taskName; si_PromptDigest := sample_mac; si_WorkspaceID := sample_sync |}.
Definition first_spawn : AgentSpawnIntent :=
  sample_spawn_intent sample_spawn "99999999-9999-4999-8999-999999999999" "build".
Definition second_spawn : AgentSpawnIntent :=
  sample_spawn_intent "aaaaaaaa-aaaa-4aaa-8aaa-aaaaaaaaaaaa" "bbbbbbbb-bbbb-4bbb-8bbb-bbbbbbbbbbbb" "test".
Definition first_key : AgentSpawnKey := spawn_intent_key first_spawn.

Definition spawn_db : DB := (run_tx (BeginAgentSpawn first_spawn 160) prepared_db).2.
Definition started_db : DB := (run_tx (MarkAgentSpawnStarted first_key 170) spawn_db).2.

Lemma spawn_db_eq : exists r, BeginAgentSpawn first_spawn 160 prepared_db = Ok (r, spawn_db).
Proof. unfold spawn_db. apply run_tx_succeeds. vm_compute. reflexivity. Qed.
Lemma started_db_eq : exists r, finishAgentSpawn first_key AgentSpawnStarted "" 170 spawn_db = Ok (r, started_db).
Proof. unfold started_db, MarkAgentSpawnStarted. apply run_tx_succeeds. vm_compute. reflexivity. Qed.

Lemma prepared_db_trees_inv : trees_inv prepared_db.
Proof. destruct prepared_db_only as [t ->]. by apply (trees_inv_frame tree_db); [apply tree_db_inv|..]. Qed.
Lemma no_spawns_inv db : db.(agent_spawn_receipts) = ∅ -> spawn_inv db.
Proof. intros E. split; intros *; rewrite E, lookup_empty; done. Qed.
Lemma prepared_db_spawn_inv : spawn_inv prepared_db.
Proof.
  apply no_spawns_inv. destruct prepared_db_only as [t ->].
  change (tree_db.(agent_spawn_receipts) = ∅). vm_compute. reflexivity.
Qed.

Lemma spawn_db_inv : trees_inv spawn_db /\ workspace_inv spawn_db /\ spawn_inv spawn_db.
Proof.
  destruct spawn_db_eq as [r H].
  pose proof (BeginAgentSpawn_inv _ _ _ _ _ prepared_db_trees_inv prepared_db_inv prepared_db_spawn_inv H). tauto.
Qed.

Lemma BeginAgentSpawn_spawns_witness :
  exists r, BeginAgentSpawn first_spawn 160 prepared_db = Ok (r, spawn_db) /\
    r.(asr_Agent).(as_SpawnStatus) = AgentSpawnPending /\
    queryAgentSpawnReceipt first_key spawn_db = Ok r.
Proof.
  destruct spawn_db_eq as [r H]. exists r. split; [exact H|].
  pose proof (BeginAgentSpawn_spawns _ _ _ _ _ prepared_db_trees_inv prepared_db_inv prepared_db_spawn_inv
    ltac:(vm_compute; reflexivity) H) as (_ & _ & _ & _ & Hst & Hq & _). split; [exact Hst|exact Hq].
Defined.

Lemma BeginAgentSpawn_workspace_once_witness :
  run_tx (BeginAgentSpawn second_spawn 999) spawn_db =
    (Err (Wrap "workspace is not available for this spawn" ErrConflict), spawn_db).
Proof.
  destruct spawn_db_eq as [r H].
  apply (BeginAgentSpawn_workspace_once first_spawn 160 prepared_db r spawn_db second_spawn 999 (principal_of sample_source)
    prepared_db_trees_inv prepared_db_inv prepared_db_spawn_inv H);
    first [reflexivity|discriminate|vm_compute; reflexivity|vm_compute; discriminate].
Defined.

Lemma finishAgentSpawn_once_witness :
  exists r, finishAgentSpawn first_key AgentSpawnStarted "" 999 started_db = Ok (r, started_db).
Proof.
  destruct started_db_eq as [r H]. exists r.
  apply (finishAgentSpawn_once _ _ _ _ _ _ _ (proj2 (proj2 spawn_db_inv)) H). lia.
Defined.

Lemma ListAgents_paging_exact_witness :
  exists rs, list_all_agents (S (size spawn_db.(agent_spawn_receipts))) sample_source 1 0 spawn_db = Ok rs.
Proof.
  destruct (ListAgents_paging_exact sample_source (principal_of sample_source) 1 spawn_db (proj2 (proj2 spawn_db_inv)))
    as (rs & H & _); [|vm_compute; reflexivity..|unfold MaximumAgentPage; lia|exists rs; exact H].
  intros k l. assert (spawn_db.(agent_lifecycle_states) = ∅) as -> by (vm_compute; reflexivity).
  by rewrite lookup_empty.
Defined.
