(* ===== verification/Operations.v ===== *)
(** internal/store/agent_operation.go: the operations a root performs on a started
    worker (send, followup, interrupt). An operation is recorded pending before it
    is forwarded and ends with one outcome; a message that could only be queued is
    put into the worker's mailbox in the transaction that ends its operation. *)

From S2P Require Export Mailbox Spawn.

(** ** Receipts *)

(* go: internal/store/agent_operation.go AgentOperationIntent *)
Record AgentOperationIntent := {
  oi_Source : PrincipalIdentity;
  oi_OperationID : string;
  oi_AgentID : string;
  oi_Action : string;
  oi_PayloadDigest : string;
}.

(* go: internal/store/agent_operation.go AgentOperationKey *)
Record AgentOperationKey := {
  ok_ControllerID : string;
  ok_TreeID : string;
  ok_SourceAgentID : string;
  ok_OperationID : string;
}.

(* go: internal/store/agent_operation.go AgentOperationReceipt *)
Record AgentOperationReceipt := {
  or_Key : AgentOperationKey;
  or_AgentID : string;
  or_TargetDeviceID : string;
  or_Action : string;
  or_PayloadDigest : string;
  or_Outcome : string;
  or_FailureCode : string;
  or_CreatedAt : Z;
  or_UpdatedAt : Z;
}.

(* go: internal/store/agent_operation.go AgentOperationKey.Validate *)
Definition AgentOperationKey_Validate (k : AgentOperationKey) : result unit :=
  validate_ids [("controllerId", k.(ok_ControllerID)); ("treeId", k.(ok_TreeID));
                ("sourceAgentId", k.(ok_SourceAgentID)); ("operationId", k.(ok_OperationID))].

(* go: internal/store/agent_operation.go validateAgentOperationIntent *)
Definition validateAgentOperationIntent (intent : AgentOperationIntent) : result unit :=
  do? wrap "source" (PrincipalIdentity_Validate intent.(oi_Source)) in
  do? wrap "operationId" (ValidateID intent.(oi_OperationID)) in
  do? wrap "agentId" (ValidateID intent.(oi_AgentID)) in
  AgentOperationAction_Validate intent.(oi_Action).

(* go: internal/store/agent_operation.go authorizeAgentOperationSource *)
Definition authorizeAgentOperationSource (source : PrincipalIdentity) (db : DB) : result unit :=
  let? principal := authorizePrincipal source CapabilityAgentManageDescendants db in
  reject ErrAuthorizationDenied when (p_ParentAgentID principal <> "") in
  Ok tt.

(** The receipt of a worker is unique in its tree. *)
Definition spawn_of (c t agentID : string) (db : DB) : option ((string * string * string * string) * SpawnRow) :=
  select_row (fun x : (string * string * string * string) * SpawnRow =>
    x.1.1.1 = (c, t) /\ x.2.(sp_agent_id) = agentID) db.(agent_spawn_receipts).

(* go: internal/store/agent_operation.go queryStartedDirectDescendant *)
Definition queryStartedDirectDescendant (source : PrincipalIdentity) (agentID : string) (db : DB)
    : result AgentSpawnReceipt :=
  let? receipt :=
    match spawn_of source.(pi_ControllerID) source.(pi_TreeID) agentID db with
    | None => Err ErrNotFound
    | Some (k, r) =>
        match spawn_principal k r db with
        | None => Err ErrNotFound
        | Some p => scanAgentSpawnReceipt k r p
        end
    end in
  reject ErrAuthorizationDenied
    when (receipt.(asr_Agent).(as_Principal).(pi_ParentAgentID) <> source.(pi_AgentID)) in
  reject (Wrap "managed agent has not started" ErrConflict)
    when (receipt.(asr_Agent).(as_SpawnStatus) <> AgentSpawnStarted) in
  Ok receipt.

(* go: internal/store/agent_operation.go agentOperationMatchesIntent *)
Definition agentOperationMatchesIntent (receipt : AgentOperationReceipt) (intent : AgentOperationIntent) : Prop :=
  receipt.(or_Key).(ok_ControllerID) = intent.(oi_Source).(pi_ControllerID) /\
  receipt.(or_Key).(ok_TreeID) = intent.(oi_Source).(pi_TreeID) /\
  receipt.(or_Key).(ok_SourceAgentID) = intent.(oi_Source).(pi_AgentID) /\
  receipt.(or_Key).(ok_OperationID) = intent.(oi_OperationID) /\
  receipt.(or_AgentID) = intent.(oi_AgentID) /\
  receipt.(or_Action) = intent.(oi_Action) /\
  receipt.(or_PayloadDigest) = intent.(oi_PayloadDigest).
#[global] Instance agentOperationMatchesIntent_dec r i : Decision (agentOperationMatchesIntent r i).
Proof. unfold agentOperationMatchesIntent. apply _. Defined.

Definition operation_key (k : AgentOperationKey) : string * string * string * string :=
  (k.(ok_ControllerID), k.(ok_TreeID), k.(ok_SourceAgentID), k.(ok_OperationID)).

(** The columns of a joined row as [Scan] leaves them in the receipt. *)
(* go: internal/store/agent_operation.go:446-453 agentOperationSelect *)
Definition joined_operation (k : AgentOperationKey) (r : OperationRow) (p : PrincipalRow) : AgentOperationReceipt := {|
  or_Key := k; or_AgentID := r.(op_agent_id); or_TargetDeviceID := p.(pr_device_id); or_Action := r.(op_action);
  or_PayloadDigest := r.(op_payload_digest); or_Outcome := r.(op_outcome); or_FailureCode := r.(op_failure_code);
  or_CreatedAt := r.(op_created_at); or_UpdatedAt := r.(op_updated_at) |}.

(* go: internal/store/agent_operation.go:417-442 scanAgentOperationReceipt *)
Definition check_operation_receipt (targetParentAgentID : string) (receipt : AgentOperationReceipt) : result unit :=
  reject (New "stored agent operation payload digest is invalid") when (len receipt.(or_PayloadDigest) <> 32) in
  do? wrap "stored agent operation key is invalid" (AgentOperationKey_Validate receipt.(or_Key)) in
  reject (New "stored agent operation target is not a direct descendant")
    when (targetParentAgentID <> receipt.(or_Key).(ok_SourceAgentID)) in
  do? wrap "stored agent operation targetDeviceId" (ValidateID receipt.(or_TargetDeviceID)) in
  do? wrap "stored agent operation receipt is invalid" (AgentOperationResult_Validate {|
        aor_OperationID := receipt.(or_Key).(ok_OperationID); aor_AgentID := receipt.(or_AgentID);
        aor_Action := receipt.(or_Action); aor_Outcome := receipt.(or_Outcome);
        aor_FailureCode := receipt.(or_FailureCode) |}) in
  reject (New "stored agent operation timestamps are invalid")
    when (receipt.(or_CreatedAt) < 0 \/ receipt.(or_UpdatedAt) < receipt.(or_CreatedAt)) in
  Ok tt.

(* go: internal/store/agent_operation.go scanAgentOperationReceipt *)
Definition scanAgentOperationReceipt (k : AgentOperationKey) (r : OperationRow) (p : PrincipalRow)
    : result AgentOperationReceipt :=
  let receipt := joined_operation k r p in
  do? check_operation_receipt p.(pr_parent_agent_id) receipt in Ok receipt.

(** The inner join with the target's principal. *)
Definition operation_principal (key : AgentOperationKey) (r : OperationRow) (db : DB) : option PrincipalRow :=
  db.(principals) !! (key.(ok_ControllerID), key.(ok_TreeID), r.(op_agent_id)).

(* go: internal/store/agent_operation.go queryAgentOperationReceipt *)
Definition queryAgentOperationReceipt (key : AgentOperationKey) (db : DB) : result AgentOperationReceipt :=
  match db.(agent_operation_receipts) !! operation_key key with
  | None => Err ErrNotFound
  | Some r =>
      match operation_principal key r db with
      | None => Err ErrNotFound
      | Some p => scanAgentOperationReceipt key r p
      end
  end.

(** ** Operations of the store *)

Definition operation_intent_key (intent : AgentOperationIntent) : AgentOperationKey := {|
  ok_ControllerID := intent.(oi_Source).(pi_ControllerID); ok_TreeID := intent.(oi_Source).(pi_TreeID);
  ok_SourceAgentID := intent.(oi_Source).(pi_AgentID); ok_OperationID := intent.(oi_OperationID) |}.

(* go: internal/store/agent_operation.go:80-87 BeginAgentOperation *)
Definition pending_operation (intent : AgentOperationIntent) (timestamp : Z) : OperationRow := {|
  op_action := intent.(oi_Action); op_agent_id := intent.(oi_AgentID);
  op_payload_digest := intent.(oi_PayloadDigest); op_outcome := AgentOperationOutcomePending;
  op_failure_code := ""; op_created_at := timestamp; op_updated_at := timestamp |}.

Definition insert_operation (key : AgentOperationKey) (r : OperationRow) (db : DB) : result DB :=
  let? tb := sql_insert db.(agent_operation_receipts) (operation_key key) r
    (operation_check r && tree_exists db key.(ok_ControllerID) key.(ok_TreeID) &&
     principal_exists db key.(ok_ControllerID) key.(ok_TreeID) key.(ok_SourceAgentID) &&
     principal_exists db key.(ok_ControllerID) key.(ok_TreeID) r.(op_agent_id)) in
  Ok (set_agent_operation_receipts db tb).

(* go: internal/store/agent_operation.go BeginAgentOperation *)
Definition BeginAgentOperation (intent : AgentOperationIntent) (createdAt : Z) : Tx DB AgentOperationReceipt :=
  do! tx_lift (validateAgentOperationIntent intent) in
  let! timestamp := tx_lift (unixTime createdAt) in
  let key := operation_intent_key intent in
  do! tx_query (authorizeAgentOperationSource intent.(oi_Source)) in
  let! existing := tx_query (fun db => optional (queryAgentOperationReceipt key db)) in
  match existing with
  | Some receipt =>
      fail (Wrap "operationId already identifies another request" ErrConflict)
        when (~ agentOperationMatchesIntent receipt intent) in
      tx_ret receipt
  | None =>
      let! target := tx_query (queryStartedDirectDescendant intent.(oi_Source) intent.(oi_AgentID)) in
      do! tx_exec (fun db => wrap "create agent operation receipt"
            (insert_operation key (pending_operation intent timestamp) db)) in
      tx_ret {| or_Key := key; or_AgentID := intent.(oi_AgentID);
                or_TargetDeviceID := target.(asr_Agent).(as_Principal).(pi_DeviceID);
                or_Action := intent.(oi_Action); or_PayloadDigest := intent.(oi_PayloadDigest);
                or_Outcome := AgentOperationOutcomePending; or_FailureCode := "";
                or_CreatedAt := timestamp; or_UpdatedAt := timestamp |}
  end.

(* go: internal/store/agent_operation.go GetAgentOperation *)
Definition GetAgentOperation (source : PrincipalIdentity) (operationID : string) (db : DB)
    : result AgentOperationReceipt :=
  do? wrap "source" (PrincipalIdentity_Validate source) in
  do? wrap "operationId" (ValidateID operationID) in
  do? authorizeAgentOperationSource source db in
  queryAgentOperationReceipt
    {| ok_ControllerID := source.(pi_ControllerID); ok_TreeID := source.(pi_TreeID);
       ok_SourceAgentID := source.(pi_AgentID); ok_OperationID := operationID |} db.

Definition finish_operation_row (outcome failureCode : string) (timestamp : Z) (r : OperationRow) : OperationRow := {|
  op_action := r.(op_action); op_agent_id := r.(op_agent_id); op_payload_digest := r.(op_payload_digest);
  op_outcome := outcome; op_failure_code := failureCode; op_created_at := r.(op_created_at);
  op_updated_at := timestamp |}.

(* go: internal/store/agent_operation.go:268-286 finishAgentOperationTx *)
Definition update_operation (key : AgentOperationKey) (set : OperationRow -> OperationRow) (db : DB) : result DB :=
  let? (updated, tb) := wrap "finish agent operation" (sql_update db.(agent_operation_receipts) (operation_key key)
    (fun r => bool_decide (r.(op_outcome) = AgentOperationOutcomePending)) set operation_check) in
  reject (Wrap "agent operation changed while finishing" ErrConflict) when (updated <> 1) in
  Ok (set_agent_operation_receipts db tb).

(* go: internal/store/agent_operation.go:287-297 finishAgentOperationTx *)
Definition count_followup (action outcome controllerID : string) (db : DB) : result DB :=
  if decide (action = AgentOperationFollowup /\ outcome = AgentOperationOutcomeStarted)
  then incrementStatusLifetimeCounters controllerID (started_increment 0 1) db else Ok db.

(* go: internal/store/agent_operation.go finishAgentOperationTx *)
Definition finishAgentOperationTx (receipt : AgentOperationReceipt) (outcome failureCode : string) (timestamp : Z)
    : Tx DB AgentOperationReceipt :=
  do! tx_lift (AgentOperationOutcome_Validate outcome receipt.(or_Action) failureCode) in
  if decide (receipt.(or_Outcome) = outcome) then
    fail (Wrap "agent operation terminal result differs" ErrConflict)
      when (receipt.(or_FailureCode) <> failureCode) in
    tx_ret receipt
  else
    fail (Wrap "agent operation already has a terminal result" ErrConflict)
      when (receipt.(or_Outcome) <> AgentOperationOutcomePending) in
    fail (New "observedAt precedes agent operation creation") when (timestamp < receipt.(or_CreatedAt)) in
    do! tx_exec (update_operation receipt.(or_Key) (finish_operation_row outcome failureCode timestamp)) in
    do! tx_exec (count_followup receipt.(or_Action) outcome receipt.(or_Key).(ok_ControllerID)) in
    tx_ret {| or_Key := receipt.(or_Key); or_AgentID := receipt.(or_AgentID);
              or_TargetDeviceID := receipt.(or_TargetDeviceID); or_Action := receipt.(or_Action);
              or_PayloadDigest := receipt.(or_PayloadDigest); or_Outcome := outcome;
              or_FailureCode := failureCode; or_CreatedAt := receipt.(or_CreatedAt); or_UpdatedAt := timestamp |}.

(* go: internal/store/agent_operation.go FinishAgentOperation *)
Definition FinishAgentOperation (key : AgentOperationKey) (outcome failureCode : string) (observedAt : Z)
    : Tx DB AgentOperationReceipt :=
  do! tx_lift (AgentOperationKey_Validate key) in
  fail (New "agent operation terminal outcome is invalid") when (outcome = AgentOperationOutcomePending) in
  let! timestamp := tx_lift (unixTime observedAt) in
  let! receipt := tx_query (queryAgentOperationReceipt key) in
  finishAgentOperationTx receipt outcome failureCode timestamp.

(** [None] is the zero delivery the code returns when the message was queued by an
    earlier call. *)
(* go: internal/store/agent_operation.go QueueAgentMessageAndFinishOperation *)
Definition QueueAgentMessageAndFinishOperation (key : AgentOperationKey) (message : string) (observedAt : Z)
    : Tx DB (AgentOperationReceipt * option MailboxDelivery) :=
  do! tx_lift (AgentOperationKey_Validate key) in
  do! tx_lift (ValidateMailboxMessage message) in
  let! timestamp := tx_lift (unixTime observedAt) in
  let digest := Sum256 message in
  let! receipt := tx_query (queryAgentOperationReceipt key) in
  fail (Wrap "queued message does not match agent operation" ErrConflict)
    when (receipt.(or_Action) <> AgentOperationSend \/ receipt.(or_PayloadDigest) <> digest) in
  if decide (receipt.(or_Outcome) = AgentOperationOutcomeQueued) then tx_ret (receipt, None)
  else
    fail (Wrap "agent operation already has a terminal result" ErrConflict)
      when (receipt.(or_Outcome) <> AgentOperationOutcomePending) in
    let! source := tx_query (queryPrincipal key.(ok_ControllerID) key.(ok_TreeID) key.(ok_SourceAgentID)) in
    do! tx_query (authorizeAgentOperationSource source.(p_Identity)) in
    let! delivery := sendMailboxMessageTx source
      {| mt_Kind := MessageTargetAgent; mt_AgentID := receipt.(or_AgentID) |} key.(ok_OperationID) message timestamp in
    let! receipt := finishAgentOperationTx receipt AgentOperationOutcomeQueued "" timestamp in
    tx_ret (receipt, Some delivery).

#[global] Arguments scanAgentOperationReceipt : simpl never.
#[global] Arguments check_operation_receipt : simpl never.
#[global] Arguments queryStartedDirectDescendant : simpl never.
#[global] Arguments insert_operation : simpl never.
#[global] Arguments update_operation : simpl never.

(** ** The invariant *)

Definition operation_key_of (k : string * string * string * string) : AgentOperationKey := {|
  ok_ControllerID := k.1.1.1; ok_TreeID := k.1.1.2; ok_SourceAgentID := k.1.2; ok_OperationID := k.2 |}.

Lemma operation_key_of_key key : operation_key_of (operation_key key) = key.
Proof. by destruct key. Qed.

(** The worker is a started child of the agent that manages it. *)
Definition started_child (c t source agent : string) (db : DB) : Prop :=
  exists spawnID s, db.(agent_spawn_receipts) !! (c, t, source, spawnID) = Some s /\
    s.(sp_agent_id) = agent /\ s.(sp_status) = AgentSpawnStarted.

(** A stored operation reads back and addresses a started child of its source. *)
Definition operation_row_ok (db : DB) (key : AgentOperationKey) (r : OperationRow) : Prop :=
  operation_check r = true /\
  (exists p, operation_principal key r db = Some p /\
     check_operation_receipt p.(pr_parent_agent_id) (joined_operation key r p) = Ok tt) /\
  started_child key.(ok_ControllerID) key.(ok_TreeID) key.(ok_SourceAgentID) r.(op_agent_id) db.

Definition operation_inv (db : DB) : Prop := forall key r,
  db.(agent_operation_receipts) !! operation_key key = Some r -> operation_row_ok db key r.

Lemma no_operations_inv db : db.(agent_operation_receipts) = ∅ -> operation_inv db.
Proof. intros E key r. by rewrite E, lookup_empty. Qed.

(** Operations stay readable while principals and started spawns are kept. *)
Lemma operation_row_ok_frame db db' key r :
  operation_row_ok db key r ->
  (forall k p, db.(principals) !! k = Some p -> db'.(principals) !! k = Some p) ->
  (forall c t a x, started_child c t a x db -> started_child c t a x db') -> operation_row_ok db' key r.
Proof. intros (Hc & (p & Hp & Hck) & Hs) Hpr Hst. split; [hyp|]. split; [exists p; split; [by apply Hpr|hyp]|auto]. Qed.

Lemma operation_inv_frame db db' :
  operation_inv db -> db'.(agent_operation_receipts) = db.(agent_operation_receipts) ->
  (forall k p, db.(principals) !! k = Some p -> db'.(principals) !! k = Some p) ->
  (forall c t a x, started_child c t a x db -> started_child c t a x db') -> operation_inv db'.
Proof. intros Hinv HT Hp Hs key r. rewrite HT. intros Hk. by eapply operation_row_ok_frame; [apply Hinv|..]. Qed.

Lemma operation_inv_same db db' :
  operation_inv db -> db'.(agent_operation_receipts) = db.(agent_operation_receipts) ->
  db'.(principals) = db.(principals) -> db'.(agent_spawn_receipts) = db.(agent_spawn_receipts) -> operation_inv db'.
Proof.
  intros Hinv H1 H2 H3. apply (operation_inv_frame db); [done|done|by rewrite H2|].
  intros c t a x. unfold started_child. by rewrite H3.
Qed.

Lemma queryAgentOperationReceipt_Ok key db receipt :
  queryAgentOperationReceipt key db = Ok receipt <->
  exists r p, db.(agent_operation_receipts) !! operation_key key = Some r /\
    operation_principal key r db = Some p /\ receipt = joined_operation key r p /\
    check_operation_receipt p.(pr_parent_agent_id) receipt = Ok tt.
Proof.
  unfold queryAgentOperationReceipt, scanAgentOperationReceipt.
  destruct (_ !! operation_key key) as [r|]; [|naive_solver].
  destruct (operation_principal key r db) as [p|] eqn:E; [|naive_solver]. rewrite do_Ok. split.
  - intros [Hc Hr]. exists r, p. assert (receipt = joined_operation key r p) as -> by congruence. auto.
  - intros (r' & p' & Hr & Hp & -> & Hc). simplify_eq. auto.
Qed.

(** Under the invariant a stored operation is always found and read. *)
Lemma queryAgentOperationReceipt_inv key db :
  operation_inv db ->
  match db.(agent_operation_receipts) !! operation_key key with
  | None => queryAgentOperationReceipt key db = Err ErrNotFound
  | Some r => exists p, operation_principal key r db = Some p /\
      queryAgentOperationReceipt key db = Ok (joined_operation key r p)
  end.
Proof.
  intros Hinv. destruct (_ !! operation_key key) as [r|] eqn:E.
  - destruct (Hinv _ _ E) as (_ & (p & Hp & Hc) & _). exists p. split; [done|].
    apply queryAgentOperationReceipt_Ok. exists r, p. auto.
  - unfold queryAgentOperationReceipt. by rewrite E.
Qed.

Lemma queryStartedDirectDescendant_Ok source agentID db receipt :
  queryStartedDirectDescendant source agentID db = Ok receipt ->
  exists k r p, spawn_of source.(pi_ControllerID) source.(pi_TreeID) agentID db = Some (k, r) /\
    spawn_principal k r db = Some p /\ receipt = joined_receipt k r p /\
    p.(pr_parent_agent_id) = source.(pi_AgentID) /\ r.(sp_status) = AgentSpawnStarted.
Proof.
  unfold queryStartedDirectDescendant. intros H. apply result_bind_Ok in H as (receipt' & H & Hr).
  rewrite !reject_Ok in Hr. destruct Hr as (Hpar & Hst & Hr).
  assert (receipt' = receipt) as -> by congruence.
  destruct (spawn_of _ _ agentID db) as [[k r]|] eqn:E; [|done].
  destruct (spawn_principal k r db) as [p|] eqn:Ep; [|done].
  unfold scanAgentSpawnReceipt in H. rewrite do_Ok in H. destruct H as [_ Hj].
  assert (receipt = joined_receipt k r p) as -> by congruence.
  exists k, r, p. split_and!; [done|done|done|by apply dec_stable|by apply dec_stable].
Qed.

(** The receipt found for an agent is the one of its own spawn: the spawn's source
    is the agent's parent. *)
Lemma queryStartedDirectDescendant_child source agentID db receipt :
  spawn_inv db -> queryStartedDirectDescendant source agentID db = Ok receipt ->
  started_child source.(pi_ControllerID) source.(pi_TreeID) source.(pi_AgentID) agentID db /\
  exists p, db.(principals) !! (source.(pi_ControllerID), source.(pi_TreeID), agentID) = Some p /\
    p.(pr_parent_agent_id) = source.(pi_AgentID) /\
    receipt.(asr_Agent).(as_Principal).(pi_DeviceID) = p.(pr_device_id) /\ valid_id p.(pr_device_id).
Proof.
  intros Hinv ([[[c t] a] s] & r & p & Hs & Hp & -> & Hpar & Hst)%queryStartedDirectDescendant_Ok.
  apply select_row_Some in Hs as [Hk [Hkk Hag]]. simpl in Hkk, Hag. injection Hkk as -> ->. subst agentID.
  destruct (si_rows _ Hinv _ _ Hk) as (_ & p' & Hp' & Hpar' & Hck). assert (p' = p) as -> by congruence.
  unfold check_spawn_receipt in Hck. rewrite !reject_Ok, do_Ok, wrap_Ok in Hck. destruct Hck as (_ & _ & Hsum & _).
  unfold AgentSummary_Validate in Hsum. rewrite !do_Ok, !wrap_Ok in Hsum. destruct Hsum as (_ & Hid & _).
  apply PrincipalIdentity_Validate_Ok in Hid as (_ & _ & _ & Hdev & _).
  simpl in Hpar', Hdev. split.
  - exists s, r. split_and!; [congruence|done|done].
  - exists p. split_and!; [exact Hp|congruence|done|exact Hdev].
Qed.

(** ** Beginning an operation *)

Lemma insert_operation_Ok key r db db' :
  insert_operation key r db = Ok db' ->
  operation_check r = true /\ db.(agent_operation_receipts) !! operation_key key = None /\
  db' = set_agent_operation_receipts db (<[operation_key key := r]> db.(agent_operation_receipts)).
Proof.
  unfold insert_operation. intros H. apply result_bind_Ok in H as (tb & H & Hdb).
  apply sql_insert_Ok in H as (Hok & Hn & ->). rewrite !andb_true_iff in Hok.
  split_and!; [tauto|hyp|congruence].
Qed.

Lemma validateAgentOperationIntent_Ok intent :
  validateAgentOperationIntent intent = Ok tt ->
  AgentOperationKey_Validate (operation_intent_key intent) = Ok tt /\ valid_id intent.(oi_AgentID) /\
  AgentOperationAction_Validate intent.(oi_Action) = Ok tt.
Proof.
  unfold validateAgentOperationIntent, AgentOperationKey_Validate.
  rewrite !do_Ok, !wrap_Ok, PrincipalIdentity_Validate_Ok, validate_ids_Ok, !Forall_cons. simpl.
  intros ((Hc & Ht & Ha & _) & Ho & Hag & Hact). split_and!; try hyp. by apply Forall_nil.
Qed.

(** What a new operation stores. *)
Definition begun (intent : AgentOperationIntent) (timestamp : Z) (db : DB) : DB :=
  set_agent_operation_receipts db
    (<[operation_key (operation_intent_key intent) := pending_operation intent timestamp]> db.(agent_operation_receipts)).

(** Every successful call either finds the operation of the same request or records
    a new one for a started child of the source. *)
Lemma BeginAgentOperation_effect intent at_ db receipt db' :
  BeginAgentOperation intent at_ db = Ok (receipt, db') ->
  validateAgentOperationIntent intent = Ok tt /\ authorizeAgentOperationSource intent.(oi_Source) db = Ok tt /\
  0 <= at_ /\
  ((db' = db /\ queryAgentOperationReceipt (operation_intent_key intent) db = Ok receipt /\
    agentOperationMatchesIntent receipt intent) \/
   exists target, queryStartedDirectDescendant intent.(oi_Source) intent.(oi_AgentID) db = Ok target /\
     operation_check (pending_operation intent at_) = true /\
     db.(agent_operation_receipts) !! operation_key (operation_intent_key intent) = None /\
     db' = begun intent at_ db /\
     receipt = {| or_Key := operation_intent_key intent; or_AgentID := intent.(oi_AgentID);
                  or_TargetDeviceID := target.(asr_Agent).(as_Principal).(pi_DeviceID);
                  or_Action := intent.(oi_Action); or_PayloadDigest := intent.(oi_PayloadDigest);
                  or_Outcome := AgentOperationOutcomePending; or_FailureCode := "";
                  or_CreatedAt := at_; or_UpdatedAt := at_ |}).
Proof.
  unfold BeginAgentOperation. intros H. go_inv.
  match goal with H : unixTime _ = Ok _ |- _ => unfold unixTime in H; apply reject_Ok in H as [Htime [= <-]] end.
  match goal with o : option AgentOperationReceipt |- _ => destruct o as [receipt0|] end; go_inv;
    (split; [hyp|]); (split; [hyp|]); (split; [lia|]).
  - left. split_and!; [done|hyp|by apply dec_stable].
  - match goal with H : insert_operation _ _ _ = Ok _ |- _ => apply insert_operation_Ok in H as (Hc & Hn & ->) end.
    right. eexists. split_and!; [eassumption|hyp|hyp|done|done].
Qed.

Lemma begun_row_ok intent at_ db target :
  spawn_inv db -> validateAgentOperationIntent intent = Ok tt -> 0 <= at_ ->
  operation_check (pending_operation intent at_) = true ->
  queryStartedDirectDescendant intent.(oi_Source) intent.(oi_AgentID) db = Ok target ->
  operation_row_ok db (operation_intent_key intent) (pending_operation intent at_) /\
  exists p, operation_principal (operation_intent_key intent) (pending_operation intent at_) db = Some p /\
    target.(asr_Agent).(as_Principal).(pi_DeviceID) = p.(pr_device_id).
Proof.
  intros Hinv (Hkey & Hag & Hact)%validateAgentOperationIntent_Ok Hat Hc Hq.
  destruct (queryStartedDirectDescendant_child _ _ _ _ Hinv Hq) as (Hchild & p & Hp & Hpar & Hdev & Hvd).
  assert (exists p, operation_principal (operation_intent_key intent) (pending_operation intent at_) db = Some p /\
    target.(asr_Agent).(as_Principal).(pi_DeviceID) = p.(pr_device_id)) as Hex by (exists p; split; [exact Hp|exact Hdev]).
  split; [|exact Hex]. split; [exact Hc|]. split; [|exact Hchild].
  exists p. split; [exact Hp|]. unfold check_operation_receipt, joined_operation, pending_operation.
  cbn [or_Key or_AgentID or_TargetDeviceID or_Action or_PayloadDigest or_Outcome or_FailureCode or_CreatedAt
    or_UpdatedAt op_action op_agent_id op_payload_digest op_outcome op_failure_code op_created_at op_updated_at].
  unfold operation_check in Hc. rewrite !andb_true_iff in Hc. destruct Hc as (((((_ & Hdig) & _) & _) & _) & _).
  apply Z.eqb_eq in Hdig. simpl in Hdig.
  unfold AgentOperationResult_Validate, validateAgentOperationTarget.
  cbn [aor_OperationID aor_AgentID aor_Action aor_Outcome aor_FailureCode].
  rewrite !reject_Ok, !do_Ok, !wrap_Ok, reject_Ok, !do_Ok, !wrap_Ok, reject_Ok, !do_Ok, !wrap_Ok.
  assert (Hkey' := Hkey). unfold AgentOperationKey_Validate in Hkey'. rewrite validate_ids_Ok, !Forall_cons in Hkey'.
  split_and!; [lia|hyp|intros Hne; exact (Hne Hpar)|exact Hvd|exact (proj1 (proj2 (proj2 (proj2 Hkey'))))|hyp|hyp| |lia|done].
  unfold AgentOperationOutcome_Validate. rewrite do_Ok. split; [hyp|].
  rewrite bool_decide_eq_true_2 by set_solver. rewrite !reject_Ok. split_and!; [tauto| |done].
  unfold AgentOperationAction_accepts. by rewrite bool_decide_eq_true_2.
Qed.

Lemma operation_update_inv db key r :
  operation_inv db -> operation_row_ok db key r ->
  operation_inv (set_agent_operation_receipts db (<[operation_key key := r]> db.(agent_operation_receipts))).
Proof.
  intros Hinv Hok key' r'. cbn [agent_operation_receipts set_agent_operation_receipts].
  intros [[Hk <-]|[_ Hk]]%lookup_insert_Some.
  - apply (f_equal operation_key_of) in Hk. rewrite !operation_key_of_key in Hk. subst key'.
    by eapply operation_row_ok_frame.
  - eapply operation_row_ok_frame; [by apply Hinv|done|done].
Qed.

Lemma BeginAgentOperation_inv intent at_ db receipt db' :
  spawn_inv db -> operation_inv db -> BeginAgentOperation intent at_ db = Ok (receipt, db') -> operation_inv db'.
Proof.
  intros Hs Hinv H. apply BeginAgentOperation_effect in H as (Hv & _ & Hat & [(-> & _)|(target & Hq & Hc & Hn & -> & _)]); [done|].
  apply operation_update_inv; [done|]. by eapply begun_row_ok.
Qed.

(** Recording an operation is idempotent and addresses started children only.
    After a successful call the operation is stored, matches the request and is what
    [GetAgentOperation] returns to the source; its target is a started child of the
    source; repeating the call, at any time, returns the same receipt and writes
    nothing; and another request under the same operation id is a conflict. *)
Theorem BeginAgentOperation_idempotent intent at_ db receipt db' :
  spawn_inv db -> operation_inv db -> BeginAgentOperation intent at_ db = Ok (receipt, db') ->
  let source := intent.(oi_Source) in
  operation_inv db' /\ agentOperationMatchesIntent receipt intent /\
  GetAgentOperation source intent.(oi_OperationID) db' = Ok receipt /\
  started_child source.(pi_ControllerID) source.(pi_TreeID) source.(pi_AgentID) intent.(oi_AgentID) db' /\
  (forall at2, 0 <= at2 -> BeginAgentOperation intent at2 db' = Ok (receipt, db')) /\
  (forall other at2, 0 <= at2 -> validateAgentOperationIntent other = Ok tt -> other.(oi_Source) = source ->
     other.(oi_OperationID) = intent.(oi_OperationID) -> other <> intent ->
     run_tx (BeginAgentOperation other at2) db' =
       (Err (Wrap "operationId already identifies another request" ErrConflict), db')).
Proof.
  intros Hs Hinv H source. pose proof (BeginAgentOperation_inv _ _ _ _ _ Hs Hinv H) as Hinv'.
  apply BeginAgentOperation_effect in H as (Hv & Hauth & Hat & Hcases).
  assert (authorizeAgentOperationSource source db' = Ok tt /\
    queryAgentOperationReceipt (operation_intent_key intent) db' = Ok receipt /\ agentOperationMatchesIntent receipt intent)
    as (Hauth' & Hq & Hm).
  { destruct Hcases as [(-> & Hq & Hm)|(target & Hq & Hc & Hn & -> & ->)]; [done|]. split; [exact Hauth|].
    destruct (begun_row_ok _ _ _ _ Hs Hv Hat Hc Hq) as [_ (p & Hp & Hdev)]. split; [|done].
    pose proof (queryAgentOperationReceipt_inv (operation_intent_key intent) _ Hinv') as Hread.
    unfold begun in Hread at 1. cbn [agent_operation_receipts set_agent_operation_receipts] in Hread.
    rewrite lookup_insert_eq in Hread. destruct Hread as (p' & Hp' & Hread). rewrite Hread. f_equal.
    assert (p' = p) as -> by (clear -Hp Hp'; unfold operation_principal, begun in *; simpl in *; congruence).
    unfold joined_operation. simpl. by rewrite Hdev. }
  assert (forall other at2, 0 <= at2 -> validateAgentOperationIntent other = Ok tt -> other.(oi_Source) = source ->
     other.(oi_OperationID) = intent.(oi_OperationID) -> BeginAgentOperation other at2 db' =
       (if decide (agentOperationMatchesIntent receipt other) then Ok (receipt, db')
        else Err (Wrap "operationId already identifies another request" ErrConflict))) as Hagain.
  { intros other at2 Ht Hvo Hso Hoo. unfold BeginAgentOperation, tx_bind, tx_lift, tx_query, unixTime.
    rewrite Hvo, decide_False by lia. rewrite Hso, Hauth'.
    replace (operation_intent_key other) with (operation_intent_key intent)
      by (unfold operation_intent_key; unfold source in Hso; congruence).
    rewrite Hq. simpl. case_decide as H1; case_decide; try done. }
  split_and!; [done|done| | | |].
  - unfold GetAgentOperation. unfold validateAgentOperationIntent in Hv. rewrite !do_Ok, !wrap_Ok in Hv.
    destruct Hv as (Hv1 & Hv2 & _). unfold source in *. rewrite Hv1, Hv2. cbn [wrap result_bind].
    rewrite Hauth'. exact Hq.
  - apply queryAgentOperationReceipt_Ok in Hq as (r & p & Hr & _ & -> & _).
    destruct (Hinv' _ _ Hr) as (_ & _ & Hchild). destruct Hm as (_ & _ & _ & _ & <- & _). exact Hchild.
  - intros at2 Ht. rewrite Hagain by done. by rewrite decide_True.
  - intros other at2 Ht Hvo Hso Hoo Hne. unfold run_tx. rewrite Hagain by done. rewrite decide_False; [done|].
    intros Hmo. apply Hne. destruct other, intent. unfold source in *. simpl in *.
    destruct Hm as (_ & _ & _ & _ & ? & ? & ?), Hmo as (_ & _ & _ & _ & ? & ? & ?). simpl in *. congruence.
Qed.

(** ** Finishing an operation *)

(** The counters after an operation ended. *)
Definition followup_counted (action outcome c : string) (t : gmap string CounterRow) : gmap string CounterRow :=
  if decide (action = AgentOperationFollowup /\ outcome = AgentOperationOutcomeStarted)
  then <[c := match t !! c with None => started_increment 0 1 | Some x => add_counters x (started_increment 0 1) end]> t
  else t.

Lemma count_followup_Ok action outcome c db db' :
  count_followup action outcome c db = Ok db' ->
  db' = set_controller_lifetime_counters db (followup_counted action outcome c db.(controller_lifetime_counters)).
Proof.
  unfold count_followup, followup_counted. case_decide; [|intros [= ->]; by destruct db'].
  unfold incrementStatusLifetimeCounters. rewrite reject_Ok. intros [_ [= <-]]. done.
Qed.

Lemma update_operation_Ok key set db db' :
  update_operation key set db = Ok db' ->
  exists r, db.(agent_operation_receipts) !! operation_key key = Some r /\
    r.(op_outcome) = AgentOperationOutcomePending /\ operation_check (set r) = true /\
    db' = set_agent_operation_receipts db (<[operation_key key := set r]> db.(agent_operation_receipts)).
Proof.
  unfold update_operation. intros H. apply result_bind_Ok in H as ([n tb] & H & Hr).
  rewrite wrap_Ok in H. rewrite reject_Ok in Hr. destruct Hr as [Hn%dec_stable Hdb]. subst n.
  apply sql_update_one in H as (r & Hr & Hg & Hc & ->). apply bool_decide_eq_true in Hg.
  exists r. split_and!; [hyp|hyp|hyp|congruence].
Qed.

(** The database after an operation ended. *)
Definition finished (key : AgentOperationKey) (r : OperationRow) (outcome code : string) (ts : Z) (db : DB) : DB :=
  set_controller_lifetime_counters
    (set_agent_operation_receipts db
       (<[operation_key key := finish_operation_row outcome code ts r]> db.(agent_operation_receipts)))
    (followup_counted r.(op_action) outcome key.(ok_ControllerID) db.(controller_lifetime_counters)).

Lemma finish_operation_checked key r p outcome code ts :
  AgentOperationOutcome_Validate outcome r.(op_action) code = Ok tt -> r.(op_created_at) <= ts ->
  check_operation_receipt p.(pr_parent_agent_id) (joined_operation key r p) = Ok tt ->
  check_operation_receipt p.(pr_parent_agent_id) (joined_operation key (finish_operation_row outcome code ts r) p) = Ok tt.
Proof.
  intros Hout Hts. unfold check_operation_receipt, AgentOperationResult_Validate, joined_operation.
  cbn [or_Key or_AgentID or_TargetDeviceID or_Action or_PayloadDigest or_Outcome or_FailureCode or_CreatedAt
    or_UpdatedAt finish_operation_row op_action op_agent_id op_payload_digest op_outcome op_failure_code op_created_at
    op_updated_at aor_OperationID aor_AgentID aor_Action aor_Outcome aor_FailureCode].
  rewrite !reject_Ok, !do_Ok, !wrap_Ok, !reject_Ok, !do_Ok, !wrap_Ok, !reject_Ok, !do_Ok.
  intros (H1 & H2 & H3 & H4 & (H5 & H6 & _) & H7 & _). split_and!; try hyp; [lia|done].
Qed.

Lemma finishAgentOperationTx_effect receipt outcome code ts db receipt' db' :
  queryAgentOperationReceipt receipt.(or_Key) db = Ok receipt ->
  finishAgentOperationTx receipt outcome code ts db = Ok (receipt', db') ->
  queryAgentOperationReceipt receipt.(or_Key) db' = Ok receipt' /\
  receipt'.(or_Outcome) = outcome /\ receipt'.(or_FailureCode) = code /\
  ((db' = db /\ receipt' = receipt /\ receipt.(or_Outcome) = outcome) \/
   exists r, db.(agent_operation_receipts) !! operation_key receipt.(or_Key) = Some r /\
     r.(op_outcome) = AgentOperationOutcomePending /\ db' = finished receipt.(or_Key) r outcome code ts db /\
     (operation_row_ok db receipt.(or_Key) r ->
      operation_row_ok db receipt.(or_Key) (finish_operation_row outcome code ts r))).
Proof.
  intros Hq. unfold finishAgentOperationTx. intros H. go_inv.
  - match goal with H : ~ (or_FailureCode _ <> _) |- _ => apply dec_stable in H; rename H into Hcode end.
    split_and!; [hyp|done|hyp|by left].
  - match goal with H : update_operation _ _ _ = Ok _ |- _ => apply update_operation_Ok in H as (r & Hr & Hpend & Hck & ->) end.
    match goal with H : count_followup _ _ _ _ = Ok _ |- _ => apply count_followup_Ok in H as -> end.
    match goal with H : AgentOperationOutcome_Validate _ _ _ = Ok _ |- _ => rename H into Hout end.
    apply queryAgentOperationReceipt_Ok in Hq as (r0 & p & Hr0 & Hp & Hj & Hck0).
    assert (r0 = r) as -> by congruence.
    match goal with H : ~ ts < _ |- _ => rename H into Hts end. rewrite Hj in Hout, Hts, Hck0 |- *.
    change (~ ts < r.(op_created_at)) in Hts. apply Z.nlt_ge in Hts.
    split_and!; [|done|done|right].
    + apply queryAgentOperationReceipt_Ok. exists (finish_operation_row outcome code ts r), p.
      cbn [or_Key joined_operation]. split_and!; [apply lookup_insert_eq|exact Hp|reflexivity|].
      exact (finish_operation_checked (or_Key receipt) r p outcome code ts Hout Hts Hck0).
    + exists r. cbn [or_Key joined_operation]. split_and!; [exact Hr|exact Hpend|reflexivity|].
      intros (_ & (p' & Hp' & Hck') & Hch). split; [exact Hck|]. split; [|exact Hch].
      exists p'. split; [exact Hp'|]. exact (finish_operation_checked _ r p' outcome code ts Hout Hts Hck').
Qed.

Lemma finished_inv key r outcome code ts db :
  operation_inv db -> operation_row_ok db key (finish_operation_row outcome code ts r) ->
  operation_inv (finished key r outcome code ts db).
Proof. intros Hinv Hok. by eapply operation_inv_same; [apply (operation_update_inv db key)|..]. Qed.

Lemma FinishAgentOperation_effect key outcome code at_ db receipt db' :
  FinishAgentOperation key outcome code at_ db = Ok (receipt, db') ->
  queryAgentOperationReceipt key db' = Ok receipt /\
  receipt.(or_Outcome) = outcome /\ receipt.(or_FailureCode) = code /\ outcome <> AgentOperationOutcomePending /\
  AgentOperationKey_Validate key = Ok tt /\ AgentOperationOutcome_Validate outcome receipt.(or_Action) code = Ok tt /\
  ((db' = db /\ queryAgentOperationReceipt key db = Ok receipt) \/
   exists r, db.(agent_operation_receipts) !! operation_key key = Some r /\
     r.(op_outcome) = AgentOperationOutcomePending /\ db' = finished key r outcome code at_ db /\
     (operation_row_ok db key r -> operation_row_ok db key (finish_operation_row outcome code at_ r))).
Proof.
  unfold FinishAgentOperation. intros H. go_inv.
  match goal with H : unixTime _ = Ok _ |- _ => unfold unixTime in H; apply reject_Ok in H as [Htime [= <-]] end.
  match goal with H : queryAgentOperationReceipt _ _ = Ok ?r |- _ => rename H into Hq; rename r into r0 end.
  pose proof (proj1 (queryAgentOperationReceipt_Ok _ _ _) Hq) as (row & p & Hrow & Hp & Hj & _).
  assert (or_Key r0 = key) as Hkey by (by rewrite Hj).
  match goal with H : finishAgentOperationTx _ _ _ _ _ = Ok _ |- _ => rename H into Hfin end.
  assert (AgentOperationOutcome_Validate outcome r0.(or_Action) code = Ok tt) as Hout.
  { unfold finishAgentOperationTx in Hfin. apply tx_bind_Ok in Hfin as (u & s & [Hu _]%tx_lift_Ok & _). by destruct u. }
  apply finishAgentOperationTx_effect in Hfin as (Hq' & Ho & Hc & Hcases); rewrite Hkey in *; [|hyp].
  assert (receipt.(or_Action) = r0.(or_Action)) as Hact.
  { destruct Hcases as [(_ & -> & _)|(r & Hr & _ & -> & _)]; [done|].
    apply queryAgentOperationReceipt_Ok in Hq' as (r' & p' & Hr' & _ & -> & _). rewrite Hj.
    cbn [agent_operation_receipts finished set_controller_lifetime_counters set_agent_operation_receipts] in Hr'.
    rewrite lookup_insert_eq in Hr'. assert (row = r) as -> by congruence. injection Hr' as <-. done. }
  rewrite Hact. split_and!; try hyp. destruct Hcases as [(-> & -> & _)|Hcases]; [by left|by right].
Qed.

Lemma FinishAgentOperation_inv key outcome code at_ db receipt db' :
  operation_inv db -> FinishAgentOperation key outcome code at_ db = Ok (receipt, db') -> operation_inv db'.
Proof.
  intros Hinv H. apply FinishAgentOperation_effect in H as (_ & _ & _ & _ & _ & _ & [(-> & _)|(r & Hr & _ & -> & Hok)]); [done|].
  apply finished_inv; auto.
Qed.

(** What a report does to an operation that has ended. *)
Lemma FinishAgentOperation_ended key receipt outcome code at_ db :
  queryAgentOperationReceipt key db = Ok receipt -> receipt.(or_Outcome) <> AgentOperationOutcomePending ->
  AgentOperationKey_Validate key = Ok tt -> outcome <> AgentOperationOutcomePending ->
  AgentOperationOutcome_Validate outcome receipt.(or_Action) code = Ok tt -> 0 <= at_ ->
  FinishAgentOperation key outcome code at_ db =
    if decide (receipt.(or_Outcome) = outcome) then
      if decide (receipt.(or_FailureCode) = code) then Ok (receipt, db)
      else Err (Wrap "agent operation terminal result differs" ErrConflict)
    else Err (Wrap "agent operation already has a terminal result" ErrConflict).
Proof.
  intros Hq Hend Hk Hne Hout Hat. unfold FinishAgentOperation, finishAgentOperationTx, tx_bind, tx_lift, tx_query, unixTime.
  rewrite Hk, decide_False by done. rewrite decide_False by lia. rewrite Hq, Hout.
  case_decide; [|by rewrite decide_True]. case_decide; case_decide; done.
Qed.

(** An operation ends once. After a successful report the stored operation
    carries the reported outcome and failure code; repeating the report, at any time,
    returns the same receipt and writes nothing, so a started follow-up turn is
    counted once; every other terminal report the operation's action allows is a
    conflict that changes nothing; and the turn counter of the controller moves
    exactly when a follow-up went from pending to started. *)
Theorem FinishAgentOperation_once key outcome code at_ db receipt db' :
  operation_inv db -> FinishAgentOperation key outcome code at_ db = Ok (receipt, db') ->
  operation_inv db' /\ queryAgentOperationReceipt key db' = Ok receipt /\
  receipt.(or_Outcome) = outcome /\ receipt.(or_FailureCode) = code /\
  (forall at2, 0 <= at2 -> FinishAgentOperation key outcome code at2 db' = Ok (receipt, db')) /\
  (forall outcome2 code2 at2, 0 <= at2 -> outcome2 <> AgentOperationOutcomePending ->
     AgentOperationOutcome_Validate outcome2 receipt.(or_Action) code2 = Ok tt -> (outcome2, code2) <> (outcome, code) ->
     exists e, run_tx (FinishAgentOperation key outcome2 code2 at2) db' = (Err e, db') /\
       errors_Is e ErrConflict = true) /\
  db'.(controller_lifetime_counters) =
    match db.(agent_operation_receipts) !! operation_key key with
    | Some r => if decide (r.(op_outcome) = AgentOperationOutcomePending)
                then followup_counted receipt.(or_Action) outcome key.(ok_ControllerID) db.(controller_lifetime_counters)
                else db.(controller_lifetime_counters)
    | None => db.(controller_lifetime_counters)
    end.
Proof.
  intros Hinv H. pose proof (FinishAgentOperation_inv _ _ _ _ _ _ _ Hinv H) as Hinv'.
  apply FinishAgentOperation_effect in H as (Hq & Ho & Hc & Hne & Hk & Hout & Hcases).
  assert (receipt.(or_Outcome) <> AgentOperationOutcomePending) as Hend by congruence.
  split_and!; [done|done|done|done| | |].
  - intros at2 Hat2. rewrite (FinishAgentOperation_ended key receipt) by done. by rewrite !decide_True.
  - intros outcome2 code2 at2 Hat2 Hne2 Hout2 Hdiff. unfold run_tx.
    rewrite (FinishAgentOperation_ended key receipt) by done.
    case_decide; [case_decide|]; [|eexists; split; [reflexivity|done]..]. destruct Hdiff. congruence.
  - destruct Hcases as [(-> & _)|(r & Hr & Hpend & -> & _)].
    + apply queryAgentOperationReceipt_Ok in Hq as (r & p & Hr & _ & -> & _). rewrite Hr.
      rewrite decide_False; [done|]. intros He. by apply Hend.
    + rewrite Hr, decide_True by done.
      apply queryAgentOperationReceipt_Ok in Hq as (r' & p & Hr' & _ & -> & _).
      cbn [agent_operation_receipts finished set_controller_lifetime_counters set_agent_operation_receipts] in Hr'.
      rewrite lookup_insert_eq in Hr'. injection Hr' as <-. done.
Qed.

(** ** Queueing the message of an operation *)

(** A send touches the mailbox tables only. *)
Lemma sendTx_only source target id message ts db d db' :
  mail_inv db -> Principal_Validate source = Ok tt -> valid_id id -> ValidateMailboxMessage message = Ok tt -> 0 <= ts ->
  sendMailboxMessageTx source target id message ts db = Ok (d, db') ->
  exists b m r, db' = set_mailbox_receipts (set_mailbox_messages (set_mailboxes db b) m) r.
Proof.
  intros Hinv Hp Hid Hmsg Hts H.
  destruct (sendTx_Ok _ _ _ _ _ _ _ _ Hinv Hp Hid Hmsg Hts H) as (_ & [(_ & _ & _ & ->)|(_ & _ & _ & _ & kept & _ & ->)]).
  - exists db.(mailboxes), db.(mailbox_messages), db.(mailbox_receipts). by destruct db.
  - by do 3 eexists.
Qed.

(** The effect on the queue of the recipient: a fresh id is appended, a known one
    was delivered before. *)
Lemma sendTx_queue source target id message ts db d db' :
  mail_inv db -> Principal_Validate source = Ok tt -> valid_id id -> ValidateMailboxMessage message = Ok tt -> 0 <= ts ->
  sendMailboxMessageTx source target id message ts db = Ok (d, db') ->
  let m := (p_ControllerID source, p_TreeID source, d.(md_RecipientAgentID)) in
  forall m', queue m' db' =
    if decide (m' = m /\ db.(mailbox_receipts) !! id = None)
    then queue_send (sent_row source id message ts) (queue m db) else queue m' db.
Proof.
  intros Hinv Hp Hid Hmsg Hts H m m'.
  destruct (sendTx_Ok _ _ _ _ _ _ _ _ Hinv Hp Hid Hmsg Hts H) as (_ & [(rc & Hrc & _ & ->)|(Hnew & _ & _ & _ & kept & _ & ->)]).
  - rewrite decide_False; [done|]. intros [_ ?]. congruence.
  - rewrite queue_enqueue by done. fold m. case_decide; [rewrite decide_True by done|rewrite decide_False by tauto]; done.
Qed.

Definition operation_mailbox (receipt : AgentOperationReceipt) : string * string * string :=
  (receipt.(or_Key).(ok_ControllerID), receipt.(or_Key).(ok_TreeID), receipt.(or_AgentID)).

Lemma queue_finished m key r outcome code ts db : queue m (finished key r outcome code ts db) = queue m db.
Proof. reflexivity. Qed.

Lemma operation_key_ids key : AgentOperationKey_Validate key = Ok tt -> valid_id key.(ok_OperationID).
Proof. unfold AgentOperationKey_Validate. rewrite validate_ids_Ok, !Forall_cons. simpl. tauto. Qed.

(** Either the message was queued by an earlier call, or this call queues it and ends
    the pending operation. *)
Lemma QueueAgentMessage_effect key message at_ db receipt d db' :
  mail_inv db -> QueueAgentMessageAndFinishOperation key message at_ db = Ok ((receipt, d), db') ->
  AgentOperationKey_Validate key = Ok tt /\ ValidateMailboxMessage message = Ok tt /\
  queryAgentOperationReceipt key db' = Ok receipt /\ receipt.(or_Outcome) = AgentOperationOutcomeQueued /\
  receipt.(or_Action) = AgentOperationSend /\ receipt.(or_PayloadDigest) = Sum256 message /\
  ((db' = db /\ d = None) \/
   exists source delivery db1 r, d = Some delivery /\
     queryPrincipal key.(ok_ControllerID) key.(ok_TreeID) key.(ok_SourceAgentID) db = Ok source /\
     authorizeAgentOperationSource source.(p_Identity) db = Ok tt /\
     sendMailboxMessageTx source {| mt_Kind := MessageTargetAgent; mt_AgentID := r.(op_agent_id) |}
       key.(ok_OperationID) message at_ db = Ok (delivery, db1) /\
     0 <= at_ /\ r.(op_outcome) = AgentOperationOutcomePending /\
     db1.(agent_operation_receipts) !! operation_key key = Some r /\
     db' = finished key r AgentOperationOutcomeQueued "" at_ db1 /\
     (operation_row_ok db1 key r -> operation_row_ok db1 key (finish_operation_row AgentOperationOutcomeQueued "" at_ r))).
Proof.
  intros Hmail. unfold QueueAgentMessageAndFinishOperation. intros H. go_inv.
  - match goal with H : ~ (_ \/ _) |- _ => rename H into Hmatch end.
    split_and!; try hyp; [apply dec_stable; tauto|apply dec_stable; tauto|by left].
  - match goal with H : unixTime _ = Ok _ |- _ => unfold unixTime in H; apply reject_Ok in H as [Htime [= <-]] end.
    match goal with H : queryAgentOperationReceipt _ _ = Ok ?r |- _ => rename H into Hq; rename r into r0 end.
    match goal with H : sendMailboxMessageTx _ _ _ _ _ _ = Ok (?d, ?s) |- _ =>
      rename H into Hsend; rename d into delivery; rename s into db1 end.
    match goal with H : finishAgentOperationTx _ _ _ _ _ = Ok (?r, _) |- _ => rename H into Hfin; rename r into receipt end.
    match goal with H : queryPrincipal _ _ _ _ = Ok ?p |- _ => rename H into Hsrc; rename p into source end.
    match goal with H : ~ (_ \/ _) |- _ => rename H into Hmatch end.
    pose proof (proj1 (queryAgentOperationReceipt_Ok _ _ _) Hq) as (row & p & Hrow & Hp & Hj & _).
    assert (or_Key r0 = key) as Hkey by (by rewrite Hj).
    pose proof (queryPrincipal_Ok _ _ _ _ _ Hsrc) as (_ & _ & _ & Hvs).
    assert (queryAgentOperationReceipt r0.(or_Key) db1 = Ok r0) as Hq1.
    { rewrite Hkey. edestruct (sendTx_only source) as (b & m & r & ->); [exact Hmail|exact Hvs| |eassumption| |exact Hsend|exact Hq];
        [by apply operation_key_ids|lia]. }
    assert (db1.(agent_operation_receipts) = db.(agent_operation_receipts)) as HT.
    { edestruct (sendTx_only source) as (b & m & r & ->); [exact Hmail|exact Hvs| |eassumption| |exact Hsend|reflexivity];
        [by apply operation_key_ids|lia]. }
    apply finishAgentOperationTx_effect in Hfin as (Hq' & Ho & _ & Hcases); [|exact Hq1]. rewrite Hkey in *.
    destruct Hcases as [(_ & _ & ?)|(r & Hr & Hpend & -> & Hok)]; [done|].
    assert (row = r) as -> by congruence.
    assert (receipt.(or_Action) = r0.(or_Action) /\ receipt.(or_PayloadDigest) = r0.(or_PayloadDigest)) as [Ha Hd].
    { apply queryAgentOperationReceipt_Ok in Hq' as (r' & p' & Hr' & _ & -> & _). rewrite Hj.
      cbn [agent_operation_receipts finished set_controller_lifetime_counters set_agent_operation_receipts] in Hr'.
      rewrite lookup_insert_eq in Hr'. injection Hr' as <-. done. }
    split_and!; try hyp; [rewrite Ha; apply dec_stable; tauto|rewrite Hd; apply dec_stable; tauto|right].
    exists source, delivery, db1, r. rewrite Hj in Hsend. split_and!; try hyp; try done. lia.
Qed.

Lemma resolve_agent s a db x :
  resolveMessageRecipient s {| mt_Kind := MessageTargetAgent; mt_AgentID := a |} db = Ok x -> x = a.
Proof.
  unfold resolveMessageRecipient. destruct (decide (p_ParentAgentID s = "")); rewrite reject_Ok; intros [_ H]; [by injection H|].
  vm_compute in H. discriminate H.
Qed.

Lemma QueueAgentMessage_inv key message at_ db receipt d db' :
  mail_inv db -> operation_inv db ->
  QueueAgentMessageAndFinishOperation key message at_ db = Ok ((receipt, d), db') -> mail_inv db' /\ operation_inv db'.
Proof.
  intros Hmail Hop H. apply QueueAgentMessage_effect in H as (Hk & Hm & _ & _ & _ & _ & Hcases); [|done].
  destruct Hcases as [[-> _]|(source & delivery & db1 & r & -> & Hsrc & _ & Hsend & Hat & _ & Hr & -> & Hok)]; [done|].
  pose proof (queryPrincipal_Ok _ _ _ _ _ Hsrc) as (_ & _ & _ & Hvs). apply operation_key_ids in Hk as Hid.
  assert (operation_inv db1) as Hop1.
  { destruct (sendTx_only _ _ _ _ _ _ _ _ Hmail Hvs Hid Hm Hat Hsend) as (b & m & rr & ->). by apply (operation_inv_same db). }
  split.
  - apply (mail_inv_frame db1); [by eapply send_inv|done..].
  - apply finished_inv; auto.
Qed.

(** Once queued, a message is not queued again, and no other message takes its place. *)
Lemma QueueAgentMessage_queued key receipt message at_ db :
  AgentOperationKey_Validate key = Ok tt -> queryAgentOperationReceipt key db = Ok receipt ->
  receipt.(or_Outcome) = AgentOperationOutcomeQueued -> receipt.(or_Action) = AgentOperationSend ->
  ValidateMailboxMessage message = Ok tt -> 0 <= at_ ->
  QueueAgentMessageAndFinishOperation key message at_ db =
    if decide (receipt.(or_PayloadDigest) = Sum256 message) then Ok ((receipt, None), db)
    else Err (Wrap "queued message does not match agent operation" ErrConflict).
Proof.
  intros Hk Hq Ho Ha Hm Hat. unfold QueueAgentMessageAndFinishOperation, tx_bind, tx_lift, tx_query, unixTime.
  rewrite Hk, Hm. rewrite decide_False by lia. rewrite Hq.
  destruct (decide (receipt.(or_PayloadDigest) = Sum256 message)) as [E|E].
  - rewrite decide_False by tauto. by rewrite decide_True.
  - by rewrite decide_True by tauto.
Qed.

(** C9 A message of an operation is queued exactly once, together with the end of its
    operation. A successful call leaves the operation queued; it appended the message
    (under the operation id, unless that id was delivered before) to the mailbox of
    the operation's target and to no other, or, when an earlier call did, changed
    nothing; repeating it changes nothing; and a message with another digest is a
    conflict that changes nothing. *)
Theorem QueueAgentMessage_exactly_once key message at_ db receipt d db' :
  mail_inv db -> operation_inv db ->
  QueueAgentMessageAndFinishOperation key message at_ db = Ok ((receipt, d), db') ->
  let m := operation_mailbox receipt in
  mail_inv db' /\ operation_inv db' /\
  queryAgentOperationReceipt key db' = Ok receipt /\ receipt.(or_Outcome) = AgentOperationOutcomeQueued /\
  match d with
  | None => db' = db
  | Some delivery => delivery.(md_MessageID) = key.(ok_OperationID) /\ delivery.(md_RecipientAgentID) = receipt.(or_AgentID) /\
      exists source, queryPrincipal key.(ok_ControllerID) key.(ok_TreeID) key.(ok_SourceAgentID) db = Ok source /\
        queue m db' = if decide (db.(mailbox_receipts) !! key.(ok_OperationID) = None)
          then queue_send (sent_row source key.(ok_OperationID) message at_) (queue m db) else queue m db
  end /\
  (forall m', m' <> m -> queue m' db' = queue m' db) /\
  (forall at2, 0 <= at2 -> QueueAgentMessageAndFinishOperation key message at2 db' = Ok ((receipt, None), db')) /\
  (forall other at2, 0 <= at2 -> ValidateMailboxMessage other = Ok tt -> Sum256 other <> Sum256 message ->
     run_tx (QueueAgentMessageAndFinishOperation key other at2) db' =
       (Err (Wrap "queued message does not match agent operation" ErrConflict), db')).
Proof.
  intros Hmail Hop H m. pose proof (QueueAgentMessage_inv _ _ _ _ _ _ _ Hmail Hop H) as [Hmail' Hop'].
  apply QueueAgentMessage_effect in H as (Hk & Hm & Hq & Ho & Ha & Hd & Hcases); [|done].
  split_and!; [hyp|hyp|hyp|hyp| | | |].
  3: { intros at2 Hat2. rewrite (QueueAgentMessage_queued key receipt) by hyp. by rewrite decide_True. }
  3: { intros other at2 Hat2 Hmo Hne. unfold run_tx. rewrite (QueueAgentMessage_queued key receipt) by hyp.
       by rewrite decide_False by congruence. }
  all: destruct Hcases as [[-> ->]|(source & delivery & db1 & r & -> & Hsrc & _ & Hsend & Hat & _ & Hr & -> & _)]; try done.
  all: pose proof (queryPrincipal_Ok _ _ _ _ _ Hsrc) as (pr & _ & Hpi & Hvs); apply operation_key_ids in Hk as Hid.
  all: pose proof (sendTx_queue _ _ _ _ _ _ _ _ Hmail Hvs Hid Hm Hat Hsend) as Hqueue.
  all: destruct (sendTx_recipient _ _ _ _ _ _ _ _ Hsend) as (s & _ & Hres); apply resolve_agent in Hres.
  all: assert (p_ControllerID source = key.(ok_ControllerID) /\ p_TreeID source = key.(ok_TreeID)) as [Hpc Hpt]
    by (unfold p_ControllerID, p_TreeID; by rewrite Hpi).
  all: assert (m = (p_ControllerID source, p_TreeID source, delivery.(md_RecipientAgentID)) /\
    receipt.(or_AgentID) = r.(op_agent_id)) as [Hm' Hag]
    by (apply queryAgentOperationReceipt_Ok in Hq as (r' & p' & Hr' & _ & -> & _);
        cbn [agent_operation_receipts finished set_controller_lifetime_counters set_agent_operation_receipts] in Hr';
        rewrite lookup_insert_eq in Hr'; injection Hr' as <-; unfold m, operation_mailbox; simpl; split; congruence).
  - destruct (sendTx_Ok _ _ _ _ _ _ _ _ Hmail Hvs Hid Hm Hat Hsend) as [Hmid _].
    split_and!; [hyp|congruence|]. exists source. split; [hyp|]. rewrite queue_finished, Hqueue, Hm'.
    repeat case_decide; tauto.
  - intros m' Hne. rewrite queue_finished, Hqueue, decide_False; [done|]. rewrite <- Hm'. tauto.
Qed.

(** ** An operation, step by step *)

Definition sample_operation : string := "dddddddd-dddd-4ddd-8ddd-dddddddddddd".
Definition sample_operation_intent (action text : string) : AgentOperationIntent := {|
  oi_Source := sample_source; oi_OperationID := sample_operation; oi_AgentID := first_spawn.(si_AgentID);
  oi_Action := action; oi_PayloadDigest := Sum256 text |}.
Definition send_intent : AgentOperationIntent := sample_operation_intent AgentOperationSend "hello".
Definition send_key : AgentOperationKey := operation_intent_key send_intent.

Definition operation_db : DB := (run_tx (BeginAgentOperation send_intent 180) started_db).2.
Definition queued_db : DB := (run_tx (QueueAgentMessageAndFinishOperation send_key "hello" 190) operation_db).2.

Lemma started_db_spawn_inv : spawn_inv started_db.
Proof. destruct started_db_eq as [r H]. by eapply finishAgentSpawn_inv; [apply spawn_db_inv|]. Qed.
Lemma started_db_operation_inv : operation_inv started_db.
Proof. apply no_operations_inv. vm_compute. reflexivity. Qed.
Lemma operation_db_eq : exists r, BeginAgentOperation send_intent 180 started_db = Ok (r, operation_db).
Proof. unfold operation_db. apply run_tx_succeeds. vm_compute. reflexivity. Qed.
Lemma operation_db_inv : operation_inv operation_db.
Proof.
  destruct operation_db_eq as [r H].
  exact (BeginAgentOperation_inv _ _ _ _ _ started_db_spawn_inv started_db_operation_inv H).
Qed.
Lemma operation_db_mail_inv : mail_inv operation_db.
Proof. apply (mail_inv_frame empty_db); [apply empty_mail_inv|vm_compute; reflexivity..]. Qed.
Lemma queued_db_eq : exists r, QueueAgentMessageAndFinishOperation send_key "hello" 190 operation_db = Ok (r, queued_db).
Proof. unfold queued_db. apply run_tx_succeeds. vm_compute. reflexivity. Qed.

Lemma BeginAgentOperation_idempotent_witness :
  exists r, run_tx (BeginAgentOperation (sample_operation_intent AgentOperationInterrupt "hello") 999) operation_db =
    (Err (Wrap "operationId already identifies another request" ErrConflict), operation_db) /\
  BeginAgentOperation send_intent 999 operation_db = Ok (r, operation_db).
Proof.
  destruct operation_db_eq as [r H]. exists r.
  destruct (BeginAgentOperation_idempotent _ _ _ _ _ started_db_spawn_inv started_db_operation_inv H)
    as (_ & _ & _ & _ & Hagain & Hother).
  split; [|by apply Hagain].
  apply Hother; [lia|vm_compute; reflexivity|reflexivity|reflexivity|discriminate].
Defined.

Definition steered_receipt : AgentOperationReceipt := {|
  or_Key := send_key; or_AgentID := first_spawn.(si_AgentID); or_TargetDeviceID := sample_device;
  or_Action := AgentOperationSend; or_PayloadDigest := Sum256 "hello"; or_Outcome := AgentOperationOutcomeSteered;
  or_FailureCode := ""; or_CreatedAt := 180; or_UpdatedAt := 200 |}.

Lemma FinishAgentOperation_once_witness :
  exists db', FinishAgentOperation send_key AgentOperationOutcomeSteered "" 200 operation_db = Ok (steered_receipt, db') /\
    exists e, run_tx (FinishAgentOperation send_key AgentOperationOutcomeFailed "busy" 999) db' = (Err e, db').
Proof.
  pose proof (run_tx_value (FinishAgentOperation send_key AgentOperationOutcomeSteered "" 200) operation_db
    steered_receipt ltac:(vm_compute; reflexivity)) as H. eexists. split; [exact H|].
  destruct (FinishAgentOperation_once _ _ _ _ _ _ _ operation_db_inv H) as (_ & _ & _ & _ & _ & Hother & _).
  destruct (Hother AgentOperationOutcomeFailed "busy" 999) as (e & He & _);
    [lia|discriminate|vm_compute; reflexivity|discriminate|]. exists e. exact He.
Defined.

Lemma QueueAgentMessage_exactly_once_witness :
  exists r, QueueAgentMessageAndFinishOperation send_key "hello" 999 queued_db = Ok ((r, None), queued_db) /\
    run_tx (QueueAgentMessageAndFinishOperation send_key "other" 999) queued_db =
      (Err (Wrap "queued message does not match agent operation" ErrConflict), queued_db).
Proof.
  destruct queued_db_eq as [[r d] H]. exists r.
  destruct (QueueAgentMessage_exactly_once _ _ _ _ _ _ _ operation_db_mail_inv operation_db_inv H)
    as (_ & _ & _ & _ & _ & _ & Hagain & Hother).
  split; [by apply Hagain|]. apply Hother; [lia|vm_compute; reflexivity|vm_compute; discriminate].
Defined.
