(* ===== verification/Lifecycle.v ===== *)
(** internal/store/agent_lifecycle.go: the broker's copy of the workers' lifecycle.
    A device that holds the current lease claims the session of its controller and
    applies pages of snapshots on top of the revision the broker has applied; every
    change of phase gets the next activity number of its tree, which roots read as a
    feed. *)

From S2P Require Export Operations.

(** ** Sessions and cursors *)

(* go: internal/store/agent_lifecycle.go WorkerLifecycleSession *)
Record WorkerLifecycleSession := {
  wl_ControllerID : string;
  wl_DeviceID : string;
  wl_ConnectionID : string;
  wl_LeaseRevision : Z;
}.

(* go: internal/store/agent_lifecycle.go WorkerLifecycleSessionClaim *)
Record WorkerLifecycleSessionClaim := {
  wc_Session : WorkerLifecycleSession;
  wc_WorkerRevision : Z;
}.

(* go: internal/store/agent_lifecycle.go WorkerLifecyclePageApply *)
Record WorkerLifecyclePageApply := {
  wp_Session : WorkerLifecycleSession;
  wp_Page : SyncWorkerLifecycleParams;
  wp_ObservedAt : Z;
}.

(* go: internal/store/agent_lifecycle.go WorkerLifecycleSession.Validate *)
Definition WorkerLifecycleSession_Validate (s : WorkerLifecycleSession) : result unit :=
  do? validate_ids [("controllerId", s.(wl_ControllerID)); ("deviceId", s.(wl_DeviceID));
                    ("connectionId", s.(wl_ConnectionID))] in
  reject (New "leaseRevision is outside the supported range")
    when (s.(wl_LeaseRevision) = 0 \/ s.(wl_LeaseRevision) > MaxInt64) in
  Ok tt.

(* go: internal/store/agent_lifecycle.go verifyWorkerLifecycleLease *)
Definition verifyWorkerLifecycleLease (session : WorkerLifecycleSession) (db : DB) : result unit :=
  match queryDevice session.(wl_ControllerID) session.(wl_DeviceID) db with
  | Err e => if errors_Is e ErrNotFound then Err ErrWorkerLifecycleSessionFenced else Err e
  | Ok device =>
      reject ErrWorkerLifecycleSessionFenced
        when (device.(d_Online) = false \/ device.(d_Revision) <> session.(wl_LeaseRevision)) in
      Ok tt
  end.

Definition session_key (s : WorkerLifecycleSession) : string * string := (s.(wl_ControllerID), s.(wl_DeviceID)).

(** The applied revision of a device, 0 before its first session. *)
Definition applied_revision (k : string * string) (db : DB) : Z :=
  match db.(peer_worker_sync_cursors) !! k with Some r => r.(cu_applied_revision) | None => 0 end.

(** [INSERT ... ON CONFLICT DO UPDATE]: the applied revision of an existing cursor is
    kept. *)
(* go: internal/store/agent_lifecycle.go:106-117 ClaimWorkerLifecycleSession *)
Definition upsert_cursor (session : WorkerLifecycleSession) (appliedRevision : Z) (db : DB) : result DB :=
  let applied := match db.(peer_worker_sync_cursors) !! session_key session with
                 | Some r => r.(cu_applied_revision)
                 | None => appliedRevision
                 end in
  let r := {| cu_active_connection_id := session.(wl_ConnectionID);
              cu_active_lease_revision := session.(wl_LeaseRevision); cu_applied_revision := applied |} in
  reject (Wrap "claim peer worker lifecycle session" SQLiteConstraint)
    when (cursor_check r = false \/ device_exists db session.(wl_ControllerID) session.(wl_DeviceID) = false) in
  Ok (set_peer_worker_sync_cursors db (<[session_key session := r]> db.(peer_worker_sync_cursors))).

(* go: internal/store/agent_lifecycle.go ClaimWorkerLifecycleSession *)
Definition ClaimWorkerLifecycleSession (claim : WorkerLifecycleSessionClaim) : Tx DB Z :=
  do! tx_lift (WorkerLifecycleSession_Validate claim.(wc_Session)) in
  fail (New "workerRevision exceeds the supported range") when (claim.(wc_WorkerRevision) > MaxInt64) in
  do! tx_query (verifyWorkerLifecycleLease claim.(wc_Session)) in
  let! appliedRevision := tx_query (fun db => Ok (applied_revision (session_key claim.(wc_Session)) db)) in
  fail ErrWorkerLifecyclePeerBehind when (appliedRevision > claim.(wc_WorkerRevision)) in
  do! tx_exec (upsert_cursor claim.(wc_Session) appliedRevision) in
  tx_ret appliedRevision.

(* go: internal/store/agent_lifecycle.go queryWorkerLifecycleCursor *)
Definition queryWorkerLifecycleCursor (session : WorkerLifecycleSession) (db : DB) : result Z :=
  match db.(peer_worker_sync_cursors) !! session_key session with
  | None => Err ErrWorkerLifecycleSessionFenced
  | Some r =>
      reject ErrWorkerLifecycleSessionFenced
        when (r.(cu_active_connection_id) <> session.(wl_ConnectionID) \/
              r.(cu_active_lease_revision) <> session.(wl_LeaseRevision)) in
      Ok r.(cu_applied_revision)
  end.

(** ** Applying a snapshot *)

(* go: internal/store/agent_lifecycle.go workerLifecycleAuthority *)
Record workerLifecycleAuthority := {
  wa_TargetDeviceID : string;
  wa_AuthorityRevision : Z;
  wa_Snapshot : WorkerLifecycleSnapshot;
  wa_Sequence : Z;
  wa_ObservedAt : Z;
}.

Definition authority_of (treeID agentID : string) (r : LifecycleRow) : workerLifecycleAuthority := {|
  wa_TargetDeviceID := r.(lc_target_device_id); wa_AuthorityRevision := r.(lc_authority_revision);
  wa_Snapshot := {| wls_TreeID := treeID; wls_AgentID := agentID; wls_Revision := r.(lc_target_revision);
                    wls_Phase := r.(lc_phase); wls_FailureCode := r.(lc_failure_code);
                    wls_CodexThreadID := r.(lc_codex_thread_id); wls_ActiveTurnID := r.(lc_active_turn_id) |};
  wa_Sequence := r.(lc_lifecycle_sequence); wa_ObservedAt := r.(lc_observed_at) |}.

(* go: internal/store/agent_lifecycle.go:446-455 queryWorkerLifecycleAuthority *)
Definition check_authority (a : workerLifecycleAuthority) : result unit :=
  do? wrap "stored worker lifecycle targetDeviceId" (ValidateID a.(wa_TargetDeviceID)) in
  do? wrap "stored worker lifecycle snapshot is invalid" (WorkerLifecycleSnapshot_Validate a.(wa_Snapshot)) in
  reject (New "stored worker lifecycle metadata is invalid")
    when (a.(wa_AuthorityRevision) = 0 \/ a.(wa_AuthorityRevision) > a.(wa_Snapshot).(wls_Revision) \/
          a.(wa_Sequence) = 0 \/ a.(wa_Sequence) > MaxInt64 \/ a.(wa_ObservedAt) < 0) in
  Ok tt.

(* go: internal/store/agent_lifecycle.go queryWorkerLifecycleAuthority *)
Definition queryWorkerLifecycleAuthority (controllerID treeID agentID : string) (db : DB)
    : result workerLifecycleAuthority :=
  match db.(agent_lifecycle_states) !! (controllerID, treeID, agentID) with
  | None => Err ErrNotFound
  | Some r =>
      let authority := authority_of treeID agentID r in
      do? check_authority authority in Ok authority
  end.

(** The three-way join finds at most one row: trees and spawn receipts are unique
    for an agent. *)
(* go: internal/store/agent_lifecycle.go authorizeWorkerLifecycleSnapshot *)
Definition authorizeWorkerLifecycleSnapshot (session : WorkerLifecycleSession) (snapshot : WorkerLifecycleSnapshot)
    (db : DB) : result unit :=
  let c := session.(wl_ControllerID) in
  let t := snapshot.(wls_TreeID) in
  match db.(principals) !! (c, t, snapshot.(wls_AgentID)), tree_row db c t, spawn_of c t snapshot.(wls_AgentID) db with
  | Some p, Some (_, tree), Some (k, r) =>
      reject ErrAuthorizationDenied
        when (p.(pr_parent_agent_id) = "" \/ p.(pr_parent_agent_id) <> tree.(tr_root_agent_id) \/
              k.1.2 <> tree.(tr_root_agent_id) \/ p.(pr_device_id) <> session.(wl_DeviceID) \/
              r.(sp_target_device_id) <> session.(wl_DeviceID)) in
      Ok tt
  | _, _, _ => Err ErrAuthorizationDenied
  end.

Definition set_lifecycle_sequence (sequence : Z) (r : TreeRow) : TreeRow := {|
  tr_tree_id := r.(tr_tree_id); tr_root_agent_id := r.(tr_root_agent_id);
  tr_root_device_id := r.(tr_root_device_id); tr_created_at := r.(tr_created_at);
  tr_last_agent_sequence := r.(tr_last_agent_sequence); tr_last_lifecycle_sequence := sequence;
  tr_last_artifact_sequence := r.(tr_last_artifact_sequence);
  tr_last_result_sequence := r.(tr_last_result_sequence) |}.

(* go: internal/store/agent_lifecycle.go nextTreeLifecycleSequence *)
Definition nextTreeLifecycleSequence (controllerID treeID : string) : Tx DB Z :=
  let! current := tx_query (fun db =>
    match tree_row db controllerID treeID with
    | None => Err ErrNotFound
    | Some (_, r) => Ok r.(tr_last_lifecycle_sequence)
    end) in
  fail ErrAgentLifecycleSequenceExhausted when (current = MaxInt64) in
  let next := current + 1 in
  do! tx_exec (fun db =>
    let? (affected, db) := wrap "advance tree lifecycle sequence"
      (update_tree controllerID treeID (fun r => r.(tr_last_lifecycle_sequence) =? current)
         (set_lifecycle_sequence next) db) in
    reject (New "tree lifecycle sequence changed during update") when (affected <> 1) in
    Ok db) in
  tx_ret next.

(** No other state of the tree has this activity number: the UNIQUE constraint. *)
Definition sequence_free (k : string * string * string) (sequence : Z)
    (t : gmap (string * string * string) LifecycleRow) : bool :=
  none_where (fun x : (string * string * string) * LifecycleRow =>
    x.1 <> k /\ x.1.1 = k.1 /\ x.2.(lc_lifecycle_sequence) = sequence) t.

(** The row has a spawn receipt to refer to. *)
Definition spawn_exists (c t agentID : string) (db : DB) : bool := bool_decide (is_Some (spawn_of c t agentID db)).

Definition insert_lifecycle (c t a : string) (r : LifecycleRow) (db : DB) : result DB :=
  let? tb := sql_insert db.(agent_lifecycle_states) (c, t, a) r
    (lifecycle_check r && sequence_free (c, t, a) r.(lc_lifecycle_sequence) db.(agent_lifecycle_states) &&
     device_exists db c r.(lc_target_device_id) && tree_exists db c t && principal_exists db c t a &&
     spawn_exists c t a db) in
  Ok (set_agent_lifecycle_states db tb).

(* go: internal/store/agent_lifecycle.go requireSingleLifecycleUpdate *)
Definition requireSingleLifecycleUpdate (affected : Z) : result unit :=
  reject (New "agent lifecycle state changed during update") when (affected <> 1) in Ok tt.

Definition update_lifecycle (text c t a : string) (revision : Z) (set : LifecycleRow -> LifecycleRow) (db : DB)
    : result DB :=
  let? (affected, tb) := wrap text (sql_update db.(agent_lifecycle_states) (c, t, a)
    (fun r => r.(lc_target_revision) =? revision) set
    (fun r => lifecycle_check r && sequence_free (c, t, a) r.(lc_lifecycle_sequence) db.(agent_lifecycle_states))) in
  do? requireSingleLifecycleUpdate affected in
  Ok (set_agent_lifecycle_states db tb).

Definition lifecycle_row (device : string) (snapshot : WorkerLifecycleSnapshot) (authorityRevision sequence observedAt : Z)
    : LifecycleRow := {|
  lc_target_device_id := device; lc_target_revision := snapshot.(wls_Revision);
  lc_authority_revision := authorityRevision; lc_codex_thread_id := snapshot.(wls_CodexThreadID);
  lc_active_turn_id := snapshot.(wls_ActiveTurnID); lc_phase := snapshot.(wls_Phase);
  lc_failure_code := snapshot.(wls_FailureCode); lc_lifecycle_sequence := sequence; lc_observed_at := observedAt |}.

(** The update of a state whose phase is unchanged: phase, failure code and activity
    number stay. *)
(* go: internal/store/agent_lifecycle.go:381-386 applyWorkerLifecycleSnapshot *)
Definition refresh_row (snapshot : WorkerLifecycleSnapshot) (authorityRevision observedAt : Z) (r : LifecycleRow)
    : LifecycleRow := {|
  lc_target_device_id := r.(lc_target_device_id); lc_target_revision := snapshot.(wls_Revision);
  lc_authority_revision := authorityRevision; lc_codex_thread_id := snapshot.(wls_CodexThreadID);
  lc_active_turn_id := snapshot.(wls_ActiveTurnID); lc_phase := r.(lc_phase); lc_failure_code := r.(lc_failure_code);
  lc_lifecycle_sequence := r.(lc_lifecycle_sequence); lc_observed_at := observedAt |}.

(* go: internal/store/agent_lifecycle.go:371-375 applyWorkerLifecycleSnapshot *)
Definition sameLifecycleEvent (stored snapshot : WorkerLifecycleSnapshot) : Prop :=
  stored.(wls_Phase) = snapshot.(wls_Phase) /\ stored.(wls_FailureCode) = snapshot.(wls_FailureCode).
Definition sameAuthority (stored snapshot : WorkerLifecycleSnapshot) : Prop :=
  sameLifecycleEvent stored snapshot /\ stored.(wls_CodexThreadID) = snapshot.(wls_CodexThreadID) /\
  stored.(wls_ActiveTurnID) = snapshot.(wls_ActiveTurnID).

#[global] Instance sameLifecycleEvent_dec x y : Decision (sameLifecycleEvent x y).
Proof. unfold sameLifecycleEvent. apply _. Defined.
#[global] Instance sameAuthority_dec x y : Decision (sameAuthority x y).
Proof. unfold sameAuthority. apply _. Defined.

(* go: internal/store/agent_lifecycle.go applyWorkerLifecycleSnapshot *)
Definition applyWorkerLifecycleSnapshot (session : WorkerLifecycleSession) (observedAt : Z)
    (snapshot : WorkerLifecycleSnapshot) : Tx DB unit :=
  let c := session.(wl_ControllerID) in
  let t := snapshot.(wls_TreeID) in
  let a := snapshot.(wls_AgentID) in
  do! tx_query (authorizeWorkerLifecycleSnapshot session snapshot) in
  let! stored := tx_query (fun db => optional (queryWorkerLifecycleAuthority c t a db)) in
  match stored with
  | None =>
      let! sequence := nextTreeLifecycleSequence c t in
      tx_exec (fun db => wrap "create agent lifecycle state" (insert_lifecycle c t a
        (lifecycle_row session.(wl_DeviceID) snapshot snapshot.(wls_Revision) sequence observedAt) db))
  | Some stored =>
      fail ErrAuthorizationDenied when (stored.(wa_TargetDeviceID) <> session.(wl_DeviceID)) in
      fail ErrWorkerLifecycleRevisionNotForward
        when (snapshot.(wls_Revision) <= stored.(wa_Snapshot).(wls_Revision)) in
      let observedAt := if observedAt <? stored.(wa_ObservedAt) then stored.(wa_ObservedAt) else observedAt in
      if decide (sameLifecycleEvent stored.(wa_Snapshot) snapshot) then
        let authorityRevision := if decide (sameAuthority stored.(wa_Snapshot) snapshot)
                                 then stored.(wa_AuthorityRevision) else snapshot.(wls_Revision) in
        tx_exec (update_lifecycle "advance unchanged agent lifecycle state" c t a stored.(wa_Snapshot).(wls_Revision)
                   (refresh_row snapshot authorityRevision observedAt))
      else
        let! sequence := nextTreeLifecycleSequence c t in
        tx_exec (update_lifecycle "update agent lifecycle state" c t a stored.(wa_Snapshot).(wls_Revision)
                   (fun r => lifecycle_row r.(lc_target_device_id) snapshot snapshot.(wls_Revision) sequence observedAt))
  end.

(** ** Applying a page *)

(** [AppliedRevision] with the index panic of an empty incomplete page as an error;
    validation excludes it. *)
Definition page_applied_revision (page : SyncWorkerLifecycleParams) : result Z :=
  match AppliedRevision page with
  | Some r => r
  | None => Err (New "runtime error: index out of range [-1]")
  end.

(* go: internal/store/agent_lifecycle.go:156-172 ApplyWorkerLifecyclePage *)
Definition advance_cursor (session : WorkerLifecycleSession) (base applied : Z) (db : DB) : result DB :=
  let? (affected, tb) := wrap "advance peer worker sync cursor"
    (sql_update db.(peer_worker_sync_cursors) (session_key session)
       (fun r => bool_decide (r.(cu_active_connection_id) = session.(wl_ConnectionID) /\
                              r.(cu_active_lease_revision) = session.(wl_LeaseRevision) /\
                              r.(cu_applied_revision) = base))
       (fun r => {| cu_active_connection_id := r.(cu_active_connection_id);
                    cu_active_lease_revision := r.(cu_active_lease_revision); cu_applied_revision := applied |})
       cursor_check) in
  reject ErrWorkerLifecycleSessionFenced when (affected <> 1) in
  Ok (set_peer_worker_sync_cursors db tb).

(* go: internal/store/agent_lifecycle.go ApplyWorkerLifecyclePage *)
Definition ApplyWorkerLifecyclePage (request : WorkerLifecyclePageApply) : Tx DB Z :=
  let session := request.(wp_Session) in
  let page := request.(wp_Page) in
  do! tx_lift (WorkerLifecycleSession_Validate session) in
  let! result := tx_lift (page_applied_revision page) in
  let! observedAt := tx_lift (unixTime request.(wp_ObservedAt)) in
  do! tx_query (verifyWorkerLifecycleLease session) in
  let! appliedRevision := tx_query (queryWorkerLifecycleCursor session) in
  fail ErrWorkerLifecycleStaleBase when (appliedRevision <> page.(slp_BaseRevision)) in
  do! tx_iter (applyWorkerLifecycleSnapshot session observedAt) page.(slp_Workers) in
  do! tx_exec (advance_cursor session page.(slp_BaseRevision) result) in
  tx_ret result.

(** ** The activity feed *)

(* go: internal/store/agent_lifecycle.go AgentLifecycleActivity *)
Record AgentLifecycleActivity := {
  la_TreeID : string;
  la_AgentID : string;
  la_TargetDeviceID : string;
  la_TargetRevision : Z;
  la_Phase : string;
  la_FailureCode : string;
  la_Sequence : Z;
  la_ObservedAt : Z;
}.

(* go: internal/store/agent_lifecycle.go AgentLifecyclePageRequest *)
Record AgentLifecyclePageRequest := { lq_AfterSequence : Z; lq_Limit : Z }.

(* go: internal/store/agent_lifecycle.go AgentLifecyclePage *)
Record AgentLifecyclePage := {
  lp_Activities : list AgentLifecycleActivity;
  lp_NextSequence : Z;
  lp_Highwater : Z;
}.

(* go: internal/store/agent_lifecycle.go scanAgentLifecycleActivity *)
Definition scanAgentLifecycleActivity (x : (string * string * string) * LifecycleRow) : result AgentLifecycleActivity :=
  let '((_, t, a), r) := x in
  do? validate_ids [("treeId", t); ("agentId", a); ("targetDeviceId", r.(lc_target_device_id))] in
  reject (New "stored agent lifecycle numeric state is invalid")
    when (r.(lc_target_revision) = 0 \/ r.(lc_target_revision) > MaxInt64 \/ r.(lc_lifecycle_sequence) = 0 \/
          r.(lc_lifecycle_sequence) > MaxInt64 \/ r.(lc_observed_at) < 0) in
  do? wrap "stored agent lifecycle state is invalid" (WorkerLifecyclePhase_Validate r.(lc_phase) r.(lc_failure_code)) in
  Ok {| la_TreeID := t; la_AgentID := a; la_TargetDeviceID := r.(lc_target_device_id);
        la_TargetRevision := r.(lc_target_revision); la_Phase := r.(lc_phase); la_FailureCode := r.(lc_failure_code);
        la_Sequence := r.(lc_lifecycle_sequence); la_ObservedAt := r.(lc_observed_at) |}.

(** The states of a tree after an activity number, oldest first. *)
(* go: internal/store/agent_lifecycle.go:228-234 ListAgentLifecycleActivity *)
Definition tree_activity (c t : string) (after : Z) (db : DB) : list ((string * string * string) * LifecycleRow) :=
  order_by (fun x => x.2.(lc_lifecycle_sequence))
    (select (fun x : (string * string * string) * LifecycleRow =>
       x.1.1 = (c, t) /\ after < x.2.(lc_lifecycle_sequence)) db.(agent_lifecycle_states)).

(* go: internal/store/agent_lifecycle.go ListAgentLifecycleActivity *)
Definition ListAgentLifecycleActivity (root : PrincipalIdentity) (request : AgentLifecyclePageRequest) (db : DB)
    : result AgentLifecyclePage :=
  do? wrap "root" (PrincipalIdentity_Validate root) in
  reject ErrAgentLifecycleCursorAhead when (request.(lq_AfterSequence) > MaxInt64) in
  reject (New "agent lifecycle page limit must be from 1 through %d")
    when (request.(lq_Limit) < 1 \/ request.(lq_Limit) > MaximumWorkerLifecyclePage) in
  let? principal := authorizePrincipal root CapabilityAgentManageDescendants db in
  reject ErrAuthorizationDenied when (p_ParentAgentID principal <> "") in
  let? highwater := match tree_row db root.(pi_ControllerID) root.(pi_TreeID) with
                    | None => Err ErrNotFound
                    | Some (_, r) => Ok r.(tr_last_lifecycle_sequence)
                    end in
  reject ErrAgentLifecycleCursorAhead when (request.(lq_AfterSequence) > highwater) in
  let? activities := result_mapM scanAgentLifecycleActivity
    (limit request.(lq_Limit) (tree_activity root.(pi_ControllerID) root.(pi_TreeID) request.(lq_AfterSequence) db)) in
  Ok {| lp_Activities := activities;
        lp_NextSequence := default request.(lq_AfterSequence) (la_Sequence <$> last activities);
        lp_Highwater := highwater |}.

#[global] Arguments authorizeWorkerLifecycleSnapshot : simpl never.
#[global] Arguments queryWorkerLifecycleAuthority : simpl never.
#[global] Arguments check_authority : simpl never.
#[global] Arguments insert_lifecycle : simpl never.
#[global] Arguments update_lifecycle : simpl never.
#[global] Arguments sequence_free : simpl never.
#[global] Arguments lifecycle_check : simpl never.

(** ** One snapshot *)

Definition snapshot_key (session : WorkerLifecycleSession) (s : WorkerLifecycleSnapshot) : string * string * string :=
  (session.(wl_ControllerID), s.(wls_TreeID), s.(wls_AgentID)).

(** The snapshot continues the event of the stored state. *)
Definition continues (stored : option LifecycleRow) (s : WorkerLifecycleSnapshot) : Prop :=
  match stored with
  | None => False
  | Some r => sameLifecycleEvent (authority_of s.(wls_TreeID) s.(wls_AgentID) r).(wa_Snapshot) s
  end.
#[global] Instance continues_dec o s : Decision (continues o s).
Proof. destruct o; simpl; apply _. Defined.

(** The state after a snapshot: its columns are the snapshot's; a new event gets the
    number [last + 1], a refresh keeps the number it has. *)
Definition next_row (device : string) (ts last : Z) (stored : option LifecycleRow) (s : WorkerLifecycleSnapshot) : LifecycleRow :=
  match stored with
  | None => lifecycle_row device s s.(wls_Revision) (last + 1) ts
  | Some r =>
      lifecycle_row device s
        (if decide (sameAuthority (authority_of s.(wls_TreeID) s.(wls_AgentID) r).(wa_Snapshot) s)
         then r.(lc_authority_revision) else s.(wls_Revision))
        (if decide (continues stored s) then r.(lc_lifecycle_sequence) else last + 1)
        (Z.max r.(lc_observed_at) ts)
  end.

(** The database after a snapshot. *)
Definition snapshot_applied (session : WorkerLifecycleSession) (ts : Z) (s : WorkerLifecycleSnapshot)
    (kt : string * string) (tr : TreeRow) (db : DB) : DB :=
  let k := snapshot_key session s in
  let stored := db.(agent_lifecycle_states) !! k in
  set_agent_lifecycle_states
    (set_trees db (if decide (continues stored s) then db.(trees)
                   else <[kt := set_lifecycle_sequence (tr.(tr_last_lifecycle_sequence) + 1) tr]> db.(trees)))
    (<[k := next_row session.(wl_DeviceID) ts tr.(tr_last_lifecycle_sequence) stored s]> db.(agent_lifecycle_states)).

(** What the code has established when it writes. *)
Record snapshot_allowed (session : WorkerLifecycleSession) (ts : Z) (s : WorkerLifecycleSnapshot)
    (kt : string * string) (tr : TreeRow) (db : DB) : Prop := {
  sn_auth : authorizeWorkerLifecycleSnapshot session s db = Ok tt;
  sn_tree : tree_row db session.(wl_ControllerID) s.(wls_TreeID) = Some (kt, tr);
  sn_row : forall r, db.(agent_lifecycle_states) !! snapshot_key session s = Some r ->
    check_authority (authority_of s.(wls_TreeID) s.(wls_AgentID) r) = Ok tt /\
    r.(lc_target_device_id) = session.(wl_DeviceID) /\ r.(lc_target_revision) < s.(wls_Revision);
  sn_room : ~ continues (db.(agent_lifecycle_states) !! snapshot_key session s) s ->
    tr.(tr_last_lifecycle_sequence) <> MaxInt64 /\
    tree_check (set_lifecycle_sequence (tr.(tr_last_lifecycle_sequence) + 1) tr) = true;
  sn_check : lifecycle_check (next_row session.(wl_DeviceID) ts tr.(tr_last_lifecycle_sequence)
    (db.(agent_lifecycle_states) !! snapshot_key session s) s) = true;
}.

Lemma authorizeWorkerLifecycleSnapshot_Ok session s db :
  authorizeWorkerLifecycleSnapshot session s db = Ok tt ->
  exists p kt tree k r, db.(principals) !! snapshot_key session s = Some p /\
    tree_row db session.(wl_ControllerID) s.(wls_TreeID) = Some (kt, tree) /\
    spawn_of session.(wl_ControllerID) s.(wls_TreeID) s.(wls_AgentID) db = Some (k, r) /\
    p.(pr_parent_agent_id) = tree.(tr_root_agent_id) /\ p.(pr_device_id) = session.(wl_DeviceID).
Proof.
  unfold authorizeWorkerLifecycleSnapshot, snapshot_key. destruct (_ !! _) as [p|]; [|done].
  destruct (tree_row _ _ _) as [[kt tree]|]; [|done]. destruct (spawn_of _ _ _ db) as [[k r]|]; [|done].
  rewrite reject_Ok. intros [H _]. exists p, kt, tree, k, r. split_and!; [done..| |]; apply dec_stable; tauto.
Qed.

Lemma queryWorkerLifecycleAuthority_Ok c t a db authority :
  queryWorkerLifecycleAuthority c t a db = Ok authority <->
  exists r, db.(agent_lifecycle_states) !! (c, t, a) = Some r /\ authority = authority_of t a r /\
    check_authority authority = Ok tt.
Proof.
  unfold queryWorkerLifecycleAuthority. destruct (_ !! _) as [r|]; [|naive_solver]. rewrite do_Ok. split.
  - intros [Hc H]. exists r. assert (authority = authority_of t a r) as -> by congruence. auto.
  - intros (r' & [= <-] & -> & Hc). auto.
Qed.

(** Every stored state reads back. *)
Definition states_readable (db : DB) : Prop := forall k r, db.(agent_lifecycle_states) !! k = Some r ->
  check_authority (authority_of k.1.2 k.2 r) = Ok tt.

Lemma queryWorkerLifecycleAuthority_readable c t a db :
  states_readable db ->
  optional (queryWorkerLifecycleAuthority c t a db) = Ok (authority_of t a <$> db.(agent_lifecycle_states) !! (c, t, a)).
Proof.
  intros Hread. unfold queryWorkerLifecycleAuthority. destruct (_ !! _) as [r|] eqn:E; [|done].
  pose proof (Hread _ _ E) as Hc. simpl in Hc. by rewrite Hc.
Qed.

Lemma nextTreeLifecycleSequence_Ok c t db n db' :
  nextTreeLifecycleSequence c t db = Ok (n, db') ->
  exists kt tr, tree_row db c t = Some (kt, tr) /\ n = tr.(tr_last_lifecycle_sequence) + 1 /\
    tr.(tr_last_lifecycle_sequence) <> MaxInt64 /\ tree_check (set_lifecycle_sequence n tr) = true /\
    db' = set_trees db (<[kt := set_lifecycle_sequence n tr]> db.(trees)).
Proof.
  unfold nextTreeLifecycleSequence. intros H. go_inv.
  destruct (tree_row db c t) as [[kt tr]|] eqn:Etr; [|done]. go_inv.
  match goal with H : update_tree _ _ _ _ _ = Ok ?x |- _ => destruct x as [m db1]; rename H into Hu end. go_inv.
  apply update_tree_Ok in Hu as [[-> _]|(_ & kt' & tr' & Hrow & _ & Hc & ->)]; [lia|].
  rewrite Etr in Hrow. injection Hrow as <- <-. exists kt, tr. split_and!; done.
Qed.

Lemma insert_lifecycle_Ok c t a r db db' :
  insert_lifecycle c t a r db = Ok db' ->
  lifecycle_check r = true /\ db' = set_agent_lifecycle_states db (<[(c, t, a) := r]> db.(agent_lifecycle_states)).
Proof.
  unfold insert_lifecycle. intros H. apply result_bind_Ok in H as (tb & H & Hdb).
  apply sql_insert_Ok in H as (Hok & _ & ->). rewrite !andb_true_iff in Hok. split; [tauto|congruence].
Qed.

Lemma update_lifecycle_Ok text c t a revision set db db' :
  update_lifecycle text c t a revision set db = Ok db' ->
  exists r, db.(agent_lifecycle_states) !! (c, t, a) = Some r /\ lifecycle_check (set r) = true /\
    db' = set_agent_lifecycle_states db (<[(c, t, a) := set r]> db.(agent_lifecycle_states)).
Proof.
  unfold update_lifecycle. intros H. apply result_bind_Ok in H as ([n tb] & H & Hr). rewrite wrap_Ok in H.
  rewrite do_Ok in Hr. destruct Hr as [Hn Hdb].
  unfold requireSingleLifecycleUpdate in Hn. apply reject_Ok in Hn as [Hn%dec_stable _]. subst n.
  apply sql_update_one in H as (r & Hr & _ & Hc & ->). apply andb_true_iff in Hc as [Hc _].
  exists r. split_and!; [done|done|congruence].
Qed.

Lemma max_observed x y : (if x <? y then y else x) = Z.max y x.
Proof. destruct (Z.ltb_spec x y); lia. Qed.

Lemma applySnapshot_effect session ts s db db' :
  states_readable db -> applyWorkerLifecycleSnapshot session ts s db = Ok (tt, db') ->
  exists kt tr, snapshot_allowed session ts s kt tr db /\ db' = snapshot_applied session ts s kt tr db.
Proof.
  intros Hread. unfold applyWorkerLifecycleSnapshot. intros H.
  apply tx_bind_Ok in H as (u & ? & [Hauth ->]%tx_query_Ok & H). destruct u.
  apply tx_bind_Ok in H as (stored & ? & [Hst ->]%tx_query_Ok & H).
  rewrite queryWorkerLifecycleAuthority_readable in Hst by done.
  pose proof (authorizeWorkerLifecycleSnapshot_Ok _ _ _ Hauth) as (p & kt & tr & _ & _ & _ & Htr & _).
  exists kt, tr. fold (snapshot_key session s) in Hst.
  unfold snapshot_applied. destruct (db.(agent_lifecycle_states) !! snapshot_key session s) as [r|] eqn:Er;
    cbn [fmap option_fmap option_map] in Hst; injection Hst as <-.
  - pose proof (Hread _ _ Er) as Hck. simpl in Hck. go_inv;
      match goal with H : ~ (wa_TargetDeviceID _ <> _) |- _ => apply dec_stable in H; rename H into Hdev end;
      match goal with H : ~ (wls_Revision _ <= _) |- _ => apply Z.nle_gt in H; rename H into Hfwd end; simpl in Hdev, Hfwd.
    + match goal with H : update_lifecycle _ _ _ _ _ _ _ = Ok _ |- _ => apply update_lifecycle_Ok in H as (r' & Hr' & Hc & ->) end.
      fold (snapshot_key session s) in Hr'. assert (r' = r) as -> by congruence.
      assert (Hsame : continues (Some r) s) by done. rewrite !(decide_True (P := continues (Some r) s)) by done.
      match type of Hc with lifecycle_check ?x = true =>
        assert (x = next_row session.(wl_DeviceID) ts tr.(tr_last_lifecycle_sequence) (Some r) s) as Erow end.
      { destruct Hsame as [Hph Hfc]. simpl in Hph, Hfc. unfold refresh_row, next_row, lifecycle_row.
        rewrite (decide_True (P := continues (Some r) s)) by (split; assumption). cbn [wa_ObservedAt wa_AuthorityRevision authority_of]. rewrite max_observed, Hdev, Hph, Hfc. done. }
      rewrite Erow in *. split.
      * split; [hyp|hyp| |rewrite Er; tauto|rewrite Er; hyp]. intros ?. rewrite Er. intros [= <-]. auto.
      * by destruct db.
    + match goal with H : nextTreeLifecycleSequence _ _ _ = Ok _ |- _ =>
        apply nextTreeLifecycleSequence_Ok in H as (kt' & tr' & Htr' & -> & Hmax & Htc & ->) end.
      rewrite Htr in Htr'. injection Htr' as <- <-.
      match goal with H : update_lifecycle _ _ _ _ _ _ _ = Ok _ |- _ => apply update_lifecycle_Ok in H as (r' & Hr' & Hc & ->) end.
      cbn [agent_lifecycle_states set_trees] in Hr', Hc. fold (snapshot_key session s) in Hr'.
      assert (r' = r) as -> by congruence.
      assert (Hnc : ~ continues (Some r) s) by done. rewrite !(decide_False (P := continues (Some r) s)) by done.
      match type of Hc with lifecycle_check ?x = true =>
        assert (x = next_row session.(wl_DeviceID) ts tr.(tr_last_lifecycle_sequence) (Some r) s) as Erow end.
      { unfold next_row. rewrite (decide_False (P := continues (Some r) s)) by done.
        rewrite (decide_False (P := sameAuthority _ s)) by (intros [? _]; done).
        cbn [wa_ObservedAt authority_of]. by rewrite max_observed, Hdev. }
      rewrite Erow in *. split; [|done].
      split; [hyp|hyp| |auto|rewrite Er; hyp]. intros ?. rewrite Er. intros [= <-]. auto.
  - go_inv.
    match goal with H : nextTreeLifecycleSequence _ _ _ = Ok _ |- _ =>
      apply nextTreeLifecycleSequence_Ok in H as (kt' & tr' & Htr' & -> & Hmax & Htc & ->) end.
    rewrite Htr in Htr'. injection Htr' as <- <-.
    match goal with H : insert_lifecycle _ _ _ _ _ = Ok _ |- _ => apply insert_lifecycle_Ok in H as (Hc & ->) end.
    rewrite (decide_False (P := continues None s)) by (intros []).
    split; [|done]. split; [hyp|hyp| |auto|rewrite Er; hyp]. intros ?. by rewrite Er.
Qed.

(** ** The invariant *)

(** [bound] limits the revisions stored for the workers of a device. *)
Record lifecycle_rows (bound : string * string -> Z) (db : DB) : Prop := {
  lr_read : states_readable db;
  lr_check k r : db.(agent_lifecycle_states) !! k = Some r -> lifecycle_check r = true;
  lr_principal k r : db.(agent_lifecycle_states) !! k = Some r ->
    exists p, db.(principals) !! k = Some p /\ p.(pr_device_id) = r.(lc_target_device_id);
  lr_unique k k' r r' : db.(agent_lifecycle_states) !! k = Some r -> db.(agent_lifecycle_states) !! k' = Some r' ->
    k.1 = k'.1 -> r.(lc_lifecycle_sequence) = r'.(lc_lifecycle_sequence) -> k = k';
  lr_counter k r kt tr : db.(agent_lifecycle_states) !! k = Some r -> db.(trees) !! kt = Some tr ->
    kt.1 = k.1.1 -> tr.(tr_tree_id) = k.1.2 -> r.(lc_lifecycle_sequence) <= tr.(tr_last_lifecycle_sequence);
  lr_trees kt tr : db.(trees) !! kt = Some tr -> 0 <= tr.(tr_last_lifecycle_sequence) <= MaxInt64;
  lr_bound k r : db.(agent_lifecycle_states) !! k = Some r ->
    r.(lc_target_revision) <= bound (k.1.1, r.(lc_target_device_id));
}.

(** The broker has applied every revision it stores. *)
Record lifecycle_inv (db : DB) : Prop := {
  li_rows : lifecycle_rows (fun k => applied_revision k db) db;
  li_cursors k r : db.(peer_worker_sync_cursors) !! k = Some r -> cursor_check r = true /\ r.(cu_applied_revision) <= MaxInt64;
}.

Lemma no_lifecycle_inv db :
  db.(agent_lifecycle_states) = ∅ -> db.(peer_worker_sync_cursors) = ∅ ->
  (forall kt tr, db.(trees) !! kt = Some tr -> 0 <= tr.(tr_last_lifecycle_sequence) <= MaxInt64) -> lifecycle_inv db.
Proof.
  intros E1 E2 Ht. split; [split; [intros k r|intros *..]|intros *]; rewrite ?E1, ?E2, ?lookup_empty; try done. apply Ht.
Qed.

Lemma snapshot_of_next_row device ts last stored s :
  (authority_of s.(wls_TreeID) s.(wls_AgentID) (next_row device ts last stored s)).(wa_Snapshot) = s.
Proof. destruct stored, s; reflexivity. Qed.

Lemma next_row_device device ts last stored s : (next_row device ts last stored s).(lc_target_device_id) = device.
Proof. by destruct stored. Qed.
Lemma next_row_revision device ts last stored s : (next_row device ts last stored s).(lc_target_revision) = s.(wls_Revision).
Proof. by destruct stored. Qed.
Lemma next_row_sequence device ts last stored s :
  (next_row device ts last stored s).(lc_lifecycle_sequence) =
    match stored with
    | Some r => if decide (continues stored s) then r.(lc_lifecycle_sequence) else last + 1
    | None => last + 1
    end.
Proof. by destruct stored. Qed.

(** The bound after a snapshot of device [k0] at revision [rev]. *)
Definition raise_bound (k0 : string * string) (rev : Z) (bound : string * string -> Z) (k : string * string) : Z :=
  if decide (k = k0) then rev else bound k.

Section Snapshot.
Context (session : WorkerLifecycleSession) (ts : Z) (s : WorkerLifecycleSnapshot) (kt : string * string) (tr : TreeRow) (db : DB).
Context (Hok : snapshot_allowed session ts s kt tr db) (bound : string * string -> Z).
Context (Hrows : lifecycle_rows bound db) (Hdev : valid_id session.(wl_DeviceID)).
Context (Hv : WorkerLifecycleSnapshot_Validate s = Ok tt).

Notation k0 := (snapshot_key session s).
Notation stored := (db.(agent_lifecycle_states) !! k0).
Notation row := (next_row session.(wl_DeviceID) ts tr.(tr_last_lifecycle_sequence) stored s).
Notation db1 := (snapshot_applied session ts s kt tr db).

Lemma snapshot_states : db1.(agent_lifecycle_states) = <[k0 := row]> db.(agent_lifecycle_states).
Proof. reflexivity. Qed.

Lemma snapshot_tree : db.(trees) !! kt = Some tr /\ kt.1 = session.(wl_ControllerID) /\ tr.(tr_tree_id) = s.(wls_TreeID).
Proof. exact (tree_row_Some _ _ _ _ _ (sn_tree _ _ _ _ _ _ Hok)). Qed.

(** The activity number of the new state: kept by a refresh, above every number of
    the tree otherwise. *)
Lemma snapshot_sequence :
  (continues stored s /\ exists r, stored = Some r /\ row.(lc_lifecycle_sequence) = r.(lc_lifecycle_sequence) /\
     db1.(trees) = db.(trees)) \/
  (~ continues stored s /\ row.(lc_lifecycle_sequence) = tr.(tr_last_lifecycle_sequence) + 1 /\
   tr.(tr_last_lifecycle_sequence) < MaxInt64 /\
   db1.(trees) = <[kt := set_lifecycle_sequence (tr.(tr_last_lifecycle_sequence) + 1) tr]> db.(trees)).
Proof.
  destruct snapshot_tree as (Hkt & _ & _). pose proof (lr_trees _ _ Hrows _ _ Hkt) as Hb.
  destruct (decide (continues stored s)) as [Hc|Hc]; [left|right].
  - split; [done|]. destruct stored as [r|] eqn:Er; [|done]. exists r. rewrite next_row_sequence, decide_True by done.
    split_and!; [done|done|]. unfold snapshot_applied. simpl. rewrite Er. by rewrite decide_True.
  - destruct (sn_room _ _ _ _ _ _ Hok Hc) as [Hmax _]. split_and!; [done| |lia|].
    + rewrite next_row_sequence. destruct stored as [r|]; [|done]. by rewrite decide_False.
    + unfold snapshot_applied. simpl. by rewrite decide_False.
Qed.

Lemma snapshot_row_readable : check_authority (authority_of s.(wls_TreeID) s.(wls_AgentID) row) = Ok tt.
Proof.
  pose proof (sn_check _ _ _ _ _ _ Hok) as Hck. unfold lifecycle_check in Hck. rewrite !andb_true_iff in Hck.
  destruct Hck as (((((((((_ & Hauth) & Hle) & _) & _) & _) & _) & Hseq) & Hobs) & _).
  rewrite next_row_revision in Hle.
  unfold check_authority. rewrite snapshot_of_next_row, !do_Ok, !wrap_Ok, reject_Ok. cbn [wa_TargetDeviceID authority_of
    wa_AuthorityRevision wa_Sequence wa_ObservedAt]. rewrite next_row_device. split_and!; [hyp|hyp| |done].
  assert (row.(lc_lifecycle_sequence) <= MaxInt64) as Hmax; [|lia].
  destruct snapshot_sequence as [(_ & r & Er & -> & _)|(_ & -> & Hlt & _)]; [|lia].
  pose proof (lr_read _ _ Hrows _ _ Er) as Hr. unfold check_authority in Hr. rewrite !do_Ok, reject_Ok in Hr.
  destruct Hr as (_ & _ & Hr & _). simpl in Hr. lia.
Qed.

Lemma snapshot_unique k k' r r' :
  trees_inv db -> db1.(agent_lifecycle_states) !! k = Some r -> db1.(agent_lifecycle_states) !! k' = Some r' ->
  k.1 = k'.1 -> r.(lc_lifecycle_sequence) = r'.(lc_lifecycle_sequence) -> k = k'.
Proof.
  intros Htrees. destruct snapshot_tree as (Hkt & Hc & Ht).
  assert (forall k2 r2, db.(agent_lifecycle_states) !! k2 = Some r2 -> k2 <> k0 -> k2.1 = k0.1 ->
    r2.(lc_lifecycle_sequence) <> row.(lc_lifecycle_sequence)) as Hnew.
  { intros k2 r2 H2 Hne Hk2 Heq. destruct snapshot_sequence as [(_ & r0 & Er & Es & _)|(_ & Es & _ & _)]; rewrite Es in Heq.
    - apply Hne. by eapply (lr_unique _ _ Hrows).
    - pose proof (lr_counter _ _ Hrows k2 r2 kt tr H2 Hkt) as Hle.
      rewrite Hk2 in Hle. specialize (Hle Hc Ht). lia. }
  rewrite snapshot_states. intros [[<- <-]|[Hn Hk]]%lookup_insert_Some [[<- <-]|[Hn' Hk']]%lookup_insert_Some E1 E2; [done| | |].
  - exfalso. eapply (Hnew k' r'); [done|congruence|congruence|done].
  - exfalso. eapply (Hnew k r); [done|congruence|congruence|done].
  - by eapply (lr_unique _ _ Hrows).
Qed.

Lemma snapshot_counter k r kt' tr' :
  trees_inv db -> db1.(agent_lifecycle_states) !! k = Some r -> db1.(trees) !! kt' = Some tr' ->
  kt'.1 = k.1.1 -> tr'.(tr_tree_id) = k.1.2 -> r.(lc_lifecycle_sequence) <= tr'.(tr_last_lifecycle_sequence).
Proof.
  intros Htrees. destruct snapshot_tree as (Hkt & Hc & Ht). rewrite snapshot_states. intros Hk Htr E1 E2.
  assert (exists tr0, db.(trees) !! kt' = Some tr0 /\ tr0.(tr_tree_id) = tr'.(tr_tree_id) /\
    tr0.(tr_last_lifecycle_sequence) <= tr'.(tr_last_lifecycle_sequence) /\
    (kt' = kt -> row.(lc_lifecycle_sequence) <= tr'.(tr_last_lifecycle_sequence))) as (tr0 & H0 & Hid & Hle & Hrow).
  { destruct snapshot_sequence as [(_ & r0 & Er & Es & E)|(_ & Es & _ & E)]; rewrite E in Htr; rewrite Es.
    - exists tr'. split_and!; [done|done|lia|]. intros ->. exact (lr_counter _ _ Hrows _ _ _ _ Er Htr Hc ltac:(simpl in *; congruence)).
    - apply lookup_insert_Some in Htr as [[<- <-]|[Hne Htr]]; [exists tr|exists tr'; split_and!; [done|done|lia|congruence]].
      simpl. split_and!; [done|done|lia|lia]. }
  apply lookup_insert_Some in Hk as [[<- <-]|[Hn Hk]].
  - apply Hrow. eapply (ti_unique _ Htrees); [exact H0|exact Hkt| |]; simpl in *; congruence.
  - etrans; [|exact Hle]. eapply (lr_counter _ _ Hrows); eauto. congruence.
Qed.

Lemma snapshot_rows :
  trees_inv db -> bound (session_key session) < s.(wls_Revision) ->
  lifecycle_rows (raise_bound (session_key session) s.(wls_Revision) bound) db1.
Proof.
  intros Htrees Hb. destruct snapshot_tree as (Hkt & Hc & Ht). split.
  - intros k r. rewrite snapshot_states. intros [[<- <-]|[Hn Hk]]%lookup_insert_Some; [apply snapshot_row_readable|].
    by apply (lr_read _ _ Hrows).
  - intros k r. rewrite snapshot_states. intros [[<- <-]|[Hn Hk]]%lookup_insert_Some; [apply (sn_check _ _ _ _ _ _ Hok)|].
    by apply (lr_check _ _ Hrows k).
  - intros k r. rewrite snapshot_states. intros [[<- <-]|[Hn Hk]]%lookup_insert_Some.
    + rewrite next_row_device. pose proof (authorizeWorkerLifecycleSnapshot_Ok _ _ _ (sn_auth _ _ _ _ _ _ Hok))
        as (p & _ & _ & _ & _ & Hp & _ & _ & _ & Hpd). exists p. split; [exact Hp|exact Hpd].
    + by apply (lr_principal _ _ Hrows).
  - intros k k' r r'. by apply snapshot_unique.
  - intros k r kt' tr'. by apply snapshot_counter.
  - intros kt' tr' Htr. destruct snapshot_sequence as [(_ & r0 & _ & _ & E)|(_ & _ & Hlt & E)]; rewrite E in Htr;
      [by eapply (lr_trees _ _ Hrows)|]. pose proof (lr_trees _ _ Hrows _ _ Hkt).
    apply lookup_insert_Some in Htr as [[<- <-]|[_ Htr]]; [simpl; lia|by eapply (lr_trees _ _ Hrows)].
  - intros k r. rewrite snapshot_states. unfold raise_bound. intros [[<- <-]|[Hn Hk]]%lookup_insert_Some.
    + rewrite next_row_device, next_row_revision, decide_True by done. lia.
    + pose proof (lr_bound _ _ Hrows _ _ Hk) as Hle. case_decide as He; [rewrite He in Hle|]; lia.
Qed.

Lemma snapshot_trees_inv : trees_inv db -> trees_inv db1.
Proof.
  intros Htrees. destruct snapshot_tree as (Hkt & _ & _).
  destruct snapshot_sequence as [(_ & r0 & _ & _ & E)|(Hnc & _ & _ & E)].
  - by apply (trees_inv_frame db).
  - apply (trees_inv_frame (set_trees db (<[kt := set_lifecycle_sequence (tr.(tr_last_lifecycle_sequence) + 1) tr]> db.(trees)))); [|done|done].
    destruct (sn_room _ _ _ _ _ _ Hok Hnc) as [_ Htc]. by eapply tree_counters_inv.
Qed.
End Snapshot.

(** ** How lifecycle states evolve *)

(** Trees keep everything but their activity counter, which only grows. *)
Definition trees_raise (t t' : gmap (string * string) TreeRow) : Prop := forall kt,
  match t !! kt, t' !! kt with
  | Some tr, Some tr' => exists n, tr.(tr_last_lifecycle_sequence) <= n /\ tr' = set_lifecycle_sequence n tr
  | None, None => True
  | _, _ => False
  end.

Lemma set_lifecycle_sequence_same tr : set_lifecycle_sequence tr.(tr_last_lifecycle_sequence) tr = tr.
Proof. by destruct tr. Qed.

#[global] Instance trees_raise_refl : Reflexive trees_raise.
Proof.
  intros t kt. destruct (t !! kt) as [tr|]; [|done]. exists tr.(tr_last_lifecycle_sequence).
  by rewrite set_lifecycle_sequence_same.
Qed.
#[global] Instance trees_raise_trans : Transitive trees_raise.
Proof.
  intros t1 t2 t3 H12 H23 kt. specialize (H12 kt). specialize (H23 kt).
  destruct (t1 !! kt) as [tr1|], (t2 !! kt) as [tr2|], (t3 !! kt) as [tr3|]; try done.
  destruct H12 as (n & Hn & ->), H23 as (m & Hm & ->). simpl in Hm. exists m. split; [lia|done].
Qed.

(** A state is never lost, belongs to the same device, and its revision never goes
    back; where its phase or failure changed, it carries a number above all those the
    tree had given out. *)
Record lifecycle_evolves (db db' : DB) : Prop := {
  le_trees kt tr : db.(trees) !! kt = Some tr -> exists tr', db'.(trees) !! kt = Some tr' /\
    tr'.(tr_tree_id) = tr.(tr_tree_id) /\ tr.(tr_last_lifecycle_sequence) <= tr'.(tr_last_lifecycle_sequence);
  le_keeps k r : db.(agent_lifecycle_states) !! k = Some r -> exists r', db'.(agent_lifecycle_states) !! k = Some r' /\
    r'.(lc_target_device_id) = r.(lc_target_device_id) /\ r.(lc_target_revision) <= r'.(lc_target_revision);
  le_feed k r' : db'.(agent_lifecycle_states) !! k = Some r' ->
    (exists r, db.(agent_lifecycle_states) !! k = Some r /\ r.(lc_phase) = r'.(lc_phase) /\
       r.(lc_failure_code) = r'.(lc_failure_code) /\ r.(lc_lifecycle_sequence) = r'.(lc_lifecycle_sequence)) \/
    (forall kt tr, db.(trees) !! kt = Some tr -> kt.1 = k.1.1 -> tr.(tr_tree_id) = k.1.2 ->
       tr.(tr_last_lifecycle_sequence) < r'.(lc_lifecycle_sequence));
}.

#[global] Instance lifecycle_evolves_refl : Reflexive lifecycle_evolves.
Proof.
  intros db. split.
  - intros kt tr H. exists tr. split_and!; [done|done|lia].
  - intros k r H. exists r. split_and!; [done|done|lia].
  - intros k r H. left. eauto.
Qed.
#[global] Instance lifecycle_evolves_trans : Transitive lifecycle_evolves.
Proof.
  intros d1 d2 d3 [T12 K12 F12] [T23 K23 F23]. split.
  - intros kt tr (tr2 & H2 & E2 & L2)%T12. apply T23 in H2 as (tr3 & H3 & E3 & L3). exists tr3. split_and!; [done|congruence|lia].
  - intros k r (r2 & H2 & E2 & L2)%K12. apply K23 in H2 as (r3 & H3 & E3 & L3). exists r3. split_and!; [done|congruence|lia].
  - intros k r3 [(r2 & H2 & E1 & E2 & E3)|Hnew]%F23.
    + apply F12 in H2 as [(r1 & H1 & G1 & G2 & G3)|Hnew]; [left; exists r1; split_and!; congruence|right].
      intros kt tr Ht Hc Hid. rewrite <- E3. by eapply Hnew.
    + right. intros kt tr Ht Hc Hid. destruct (T12 _ _ Ht) as (tr2 & Ht2 & E2 & L2).
      assert (tr2.(tr_last_lifecycle_sequence) < r3.(lc_lifecycle_sequence)); [|lia]. eapply Hnew; [done|done|congruence].
Qed.

(** Writes to other tables are no evolution, and raising counters is one. *)
Lemma lifecycle_evolves_frame db db' :
  db'.(agent_lifecycle_states) = db.(agent_lifecycle_states) ->
  (forall kt tr, db.(trees) !! kt = Some tr -> exists tr', db'.(trees) !! kt = Some tr' /\
    tr'.(tr_tree_id) = tr.(tr_tree_id) /\ tr.(tr_last_lifecycle_sequence) <= tr'.(tr_last_lifecycle_sequence)) ->
  lifecycle_evolves db db'.
Proof.
  intros E Ht. split; [exact Ht| |]; rewrite E.
  - intros k r H. exists r. split_and!; [done|done|lia].
  - intros k r H. left. eauto.
Qed.

(** What applying snapshots does. *)
Record snapshots_applied (session : WorkerLifecycleSession) (workers : list WorkerLifecycleSnapshot) (db db' : DB) : Prop := {
  sp_only : exists T S, db' = set_agent_lifecycle_states (set_trees db T) S /\ trees_raise db.(trees) T;
  sp_evolves : lifecycle_evolves db db';
  sp_stored s : s ∈ workers -> exists r, db'.(agent_lifecycle_states) !! snapshot_key session s = Some r /\
    (authority_of s.(wls_TreeID) s.(wls_AgentID) r).(wa_Snapshot) = s /\ r.(lc_target_device_id) = session.(wl_DeviceID);
  sp_others k : k ∉ (snapshot_key session <$> workers) ->
    db'.(agent_lifecycle_states) !! k = db.(agent_lifecycle_states) !! k;
}.

Lemma snapshot_applied_once session ts s kt tr db bound :
  snapshot_allowed session ts s kt tr db -> lifecycle_rows bound db -> trees_inv db ->
  snapshots_applied session [s] db (snapshot_applied session ts s kt tr db).
Proof.
  intros Hok Hrows Htrees. pose proof (snapshot_tree _ _ _ _ _ _ Hok) as (Hkt & Hc & Ht).
  assert (trees_raise db.(trees) (snapshot_applied session ts s kt tr db).(trees)) as Hraise.
  { destruct (snapshot_sequence _ _ _ _ _ _ Hok bound Hrows) as [(_ & r & _ & _ & E)|(_ & _ & _ & E)]; rewrite E; [done|].
    intros kt'. destruct (decide (kt' = kt)) as [->|Hne].
    - rewrite lookup_insert_eq, Hkt. eexists. split; [|done]. lia.
    - rewrite lookup_insert_ne by done. destruct (db.(trees) !! kt') as [tr'|]; [|done].
      exists tr'.(tr_last_lifecycle_sequence). by rewrite set_lifecycle_sequence_same. }
  split.
  - do 2 eexists. split; [reflexivity|]. exact Hraise.
  - split.
    + intros kt' tr' H'. specialize (Hraise kt'). rewrite H' in Hraise.
      destruct ((snapshot_applied session ts s kt tr db).(trees) !! kt') as [tr2|]; [|done].
      destruct Hraise as (n & Hn & ->). eexists. split_and!; [done|done|done].
    + intros k r Hk. rewrite snapshot_states. destruct (decide (k = snapshot_key session s)) as [->|Hne].
      * rewrite lookup_insert_eq. eexists. split; [done|]. rewrite next_row_device, next_row_revision.
        destruct (sn_row _ _ _ _ _ _ Hok _ Hk) as (_ & Hd & Hr). split; [congruence|lia].
      * rewrite lookup_insert_ne by done. exists r. split_and!; [done|done|lia].
    + intros k r. rewrite snapshot_states. intros [[<- <-]|[_ Hk]]%lookup_insert_Some; [|left; eauto].
      destruct (snapshot_sequence _ _ _ _ _ _ Hok bound Hrows) as [(Hcont & r & Er & Es & _)|(_ & Es & _ & _)]; rewrite Es.
      * left. exists r. rewrite Er in *. destruct Hcont as [Hp Hf]. split_and!; [done| | |done]; [exact Hp|exact Hf].
      * right. intros kt' tr' Ht' Hc' Hid'. assert (kt' = kt) as ->.
        { eapply (ti_unique _ Htrees); [exact Ht'|exact Hkt| |]; simpl in *; congruence. }
        assert (tr' = tr) as -> by congruence. lia.
  - intros s' ->%list_elem_of_singleton. rewrite snapshot_states, lookup_insert_eq. eexists. split; [done|].
    by rewrite snapshot_of_next_row, next_row_device.
  - intros k Hk. rewrite snapshot_states. apply lookup_insert_ne. set_solver.
Qed.

Lemma snapshots_applied_app session l1 l2 d1 d2 d3 :
  (forall s, s ∈ l1 -> snapshot_key session s ∉ (snapshot_key session <$> l2)) ->
  snapshots_applied session l1 d1 d2 -> snapshots_applied session l2 d2 d3 -> snapshots_applied session (l1 ++ l2) d1 d3.
Proof.
  intros Hdisj [(T1 & S1 & -> & R1) E1 A1 O1] [(T2 & S2 & -> & R2) E2 A2 O2]. split.
  - do 2 eexists. split; [reflexivity|]. by etrans.
  - by etrans.
  - intros s [Hs|Hs]%elem_of_app; [|by apply A2]. rewrite O2 by auto. by apply A1.
  - intros k Hk. rewrite fmap_app, not_elem_of_app in Hk. rewrite O2, O1 by tauto. done.
Qed.

Lemma lifecycle_rows_mono b b' db : (forall k, b k <= b' k) -> lifecycle_rows b db -> lifecycle_rows b' db.
Proof. intros Hle [H1 H2 H3 H4 H5 H6 H7]. split; try done. intros k r Hk. etrans; [by apply H7|apply Hle]. Qed.

Lemma snapshots_applied_nil session db : snapshots_applied session [] db db.
Proof.
  split; [|done|set_solver|done]. exists db.(trees), db.(agent_lifecycle_states). split; [by destruct db|done].
Qed.

(** The loop of a page, on snapshots with rising revisions of distinct workers. *)
Lemma apply_snapshots session ts workers bound hi db db' :
  trees_inv db -> lifecycle_rows bound db -> valid_id session.(wl_DeviceID) ->
  Forall (fun s => WorkerLifecycleSnapshot_Validate s = Ok tt /\ s.(wls_Revision) <= hi) workers ->
  StronglySorted Z.lt (bound (session_key session) :: (wls_Revision <$> workers)) ->
  NoDup (snapshot_key session <$> workers) -> bound (session_key session) <= hi ->
  tx_iter (applyWorkerLifecycleSnapshot session ts) workers db = Ok (tt, db') ->
  trees_inv db' /\ lifecycle_rows (raise_bound (session_key session) hi bound) db' /\
  snapshots_applied session workers db db'.
Proof.
  intros Htrees Hrows Hdev. revert bound db Htrees Hrows.
  induction workers as [|s workers IH]; intros bound db Htrees Hrows Hall Hsort Hnd Hhi H.
  - simpl in H. apply tx_ret_Ok in H as [_ ->]. split_and!; [done| |apply snapshots_applied_nil].
    eapply lifecycle_rows_mono; [|done]. intros k. unfold raise_bound. case_decide; [by subst|done].
  - simpl in H. apply tx_bind_Ok in H as ([] & db1 & H1 & H2).
    apply applySnapshot_effect in H1 as (kt & tr & Hok & ->); [|apply (lr_read _ _ Hrows)].
    rewrite fmap_cons in Hsort. rewrite fmap_cons in Hnd. apply NoDup_cons in Hnd as [Hnew Hnd].
    inversion_clear Hall as [|?? [Hv Hle] Hall']. inversion_clear Hsort as [|?? Hsort' Hmin].
    apply Forall_inv in Hmin as Hlt.
    pose proof (snapshot_rows _ _ _ _ _ _ Hok bound Hrows Hdev Hv Htrees Hlt) as Hrows1.
    pose proof (snapshot_trees_inv _ _ _ _ _ _ Hok bound Hrows Htrees) as Htrees1.
    assert (raise_bound (session_key session) s.(wls_Revision) bound (session_key session) = s.(wls_Revision)) as Eb
      by (unfold raise_bound; by rewrite decide_True).
    destruct (IH _ _ Htrees1 Hrows1) as (Ht2 & Hr2 & Ha2); [done|by rewrite Eb|done|by rewrite Eb|done|].
    split_and!; [done| |].
    + eapply lifecycle_rows_mono; [|exact Hr2]. intros k. unfold raise_bound. by repeat case_decide.
    + change (s :: workers) with ([s] ++ workers). eapply snapshots_applied_app; [|by eapply snapshot_applied_once|exact Ha2].
      intros s' ->%list_elem_of_singleton. exact Hnew.
Qed.

(** ** Pages *)

(** What a valid page is. *)
Lemma page_applied_revision_Ok session page applied :
  page_applied_revision page = Ok applied ->
  SyncWorkerLifecycleParams_Validate page = Ok tt /\
  page.(slp_BaseRevision) <= applied <= MaxInt64 /\
  Forall (fun s => WorkerLifecycleSnapshot_Validate s = Ok tt /\ s.(wls_Revision) <= applied) page.(slp_Workers) /\
  StronglySorted Z.lt (page.(slp_BaseRevision) :: (wls_Revision <$> page.(slp_Workers))) /\
  NoDup (snapshot_key session <$> page.(slp_Workers)).
Proof.
  intros H. unfold page_applied_revision in H. assert (Hv : SyncWorkerLifecycleParams_Validate page = Ok tt).
  { unfold AppliedRevision in H. by destruct (SyncWorkerLifecycleParams_Validate page) as [[]|]. }
  split; [done|]. assert (Hv' := Hv). apply page_validate_Ok in Hv' as (Hrange & previous & Hw & Hinc).
  apply validate_lifecycle_workers_Ok in Hw as (Hall & Hsorted & Hnd & _ & Hprev).
  assert (NoDup (snapshot_key session <$> slp_Workers page)) as Hnd'.
  { clear -Hnd. apply NoDup_fmap_2_strong; [|by eapply NoDup_fmap_1].
    intros x y Hx Hy Heq. apply (NoDup_key_inj (fun w => wls_TreeID w +:+ String Ascii.zero (wls_AgentID w)) _ _ _ Hnd Hx Hy).
    unfold snapshot_key in Heq. simpl. congruence. }
  unfold AppliedRevision in H. rewrite Hv in H. destruct (slp_Complete page) eqn:Hcp.
  - injection H as <-. split_and!; [lia|lia|done|done|done].
  - destruct (Hinc eq_refl) as [Hne Hneq].
    destruct (last (slp_Workers page)) as [w|] eqn:Hlast; [|by apply last_None in Hlast]. injection H as <-.
    pose proof (last_revision_sorted _ _ _ Hsorted Hlast) as [Hgt Hmax].
    assert (wls_Revision w <= slp_ThroughRevision page).
    { rewrite Forall_forall in Hall. apply Hall. by apply last_Some_elem_of. }
    split_and!; [lia|lia| |done|done]. apply Forall_and. split; [|done]. eapply Forall_impl; [exact Hall|]. simpl. tauto.
Qed.

Lemma verifyWorkerLifecycleLease_Ok session db :
  verifyWorkerLifecycleLease session db = Ok tt ->
  exists device, queryDevice session.(wl_ControllerID) session.(wl_DeviceID) db = Ok device /\
    device.(d_Online) = true /\ device.(d_Revision) = session.(wl_LeaseRevision).
Proof.
  unfold verifyWorkerLifecycleLease. destruct (queryDevice _ _ db) as [device|e]; [|by destruct (errors_Is e _)].
  rewrite reject_Ok. intros [H _]. exists device. split_and!; [done| |apply dec_stable; tauto].
  apply not_false_is_true. tauto.
Qed.

Lemma queryWorkerLifecycleCursor_Ok session db applied :
  queryWorkerLifecycleCursor session db = Ok applied <->
  db.(peer_worker_sync_cursors) !! session_key session = Some {|
    cu_active_connection_id := session.(wl_ConnectionID); cu_active_lease_revision := session.(wl_LeaseRevision);
    cu_applied_revision := applied |}.
Proof.
  unfold queryWorkerLifecycleCursor. destruct (_ !! _) as [[conn lease ap]|]; [|split; congruence].
  rewrite reject_Ok. simpl. split.
  - intros [H [= ->]]. assert (conn = wl_ConnectionID session) as -> by (apply dec_stable; tauto).
    assert (lease = wl_LeaseRevision session) as -> by (apply dec_stable; tauto). done.
  - intros [= -> -> ->]. split; [tauto|done].
Qed.

(** The active session of a device at an applied revision. *)
Definition active_cursor (session : WorkerLifecycleSession) (applied : Z) : CursorRow := {|
  cu_active_connection_id := session.(wl_ConnectionID); cu_active_lease_revision := session.(wl_LeaseRevision);
  cu_applied_revision := applied |}.

Lemma advance_cursor_Ok session base applied db db' :
  advance_cursor session base applied db = Ok db' ->
  db.(peer_worker_sync_cursors) !! session_key session = Some (active_cursor session base) /\
  cursor_check (active_cursor session applied) = true /\
  db' = set_peer_worker_sync_cursors db (<[session_key session := active_cursor session applied]> db.(peer_worker_sync_cursors)).
Proof.
  unfold advance_cursor. intros H. apply result_bind_Ok in H as ([n tb] & H & Hr). rewrite wrap_Ok in H.
  apply reject_Ok in Hr as [Hn%dec_stable Hdb]. subst n.
  apply sql_update_one in H as ([conn lease ap] & Hr & Hg & Hc & ->). apply bool_decide_eq_true in Hg as (H1 & H2 & H3).
  simpl in *. subst. injection Hdb as <-. split_and!; done.
Qed.

Lemma ApplyWorkerLifecyclePage_effect request db applied db' :
  trees_inv db -> lifecycle_inv db -> ApplyWorkerLifecyclePage request db = Ok (applied, db') ->
  let session := request.(wp_Session) in
  let page := request.(wp_Page) in
  page_applied_revision page = Ok applied /\ WorkerLifecycleSession_Validate session = Ok tt /\
  verifyWorkerLifecycleLease session db = Ok tt /\
  db.(peer_worker_sync_cursors) !! session_key session = Some (active_cursor session page.(slp_BaseRevision)) /\
  exists db1, snapshots_applied session page.(slp_Workers) db db1 /\ trees_inv db1 /\
    lifecycle_rows (raise_bound (session_key session) applied (fun k => applied_revision k db)) db1 /\
    cursor_check (active_cursor session applied) = true /\
    db' = set_peer_worker_sync_cursors db1
            (<[session_key session := active_cursor session applied]> db.(peer_worker_sync_cursors)).
Proof.
  intros Htrees Hinv H session page. unfold ApplyWorkerLifecyclePage in H. fold session page in H.
  apply tx_bind_Ok in H as ([] & ? & [Hs ->]%tx_lift_Ok & H).
  apply tx_bind_Ok in H as (result & ? & [Hap ->]%tx_lift_Ok & H).
  apply tx_bind_Ok in H as (ts & ? & [Hts ->]%tx_lift_Ok & H).
  apply tx_bind_Ok in H as ([] & ? & [Hlease ->]%tx_query_Ok & H).
  apply tx_bind_Ok in H as (cur & ? & [Hcur ->]%tx_query_Ok & H).
  destruct (decide _) as [|Hbase]; [by apply tx_throw_Ok in H|]. apply dec_stable in Hbase. subst cur.
  apply tx_bind_Ok in H as ([] & db1 & Hit & H). apply tx_bind_Ok in H as ([] & ? & Hadv%tx_exec_Ok & H).
  apply tx_ret_Ok in H as [-> ->]. unfold unixTime in Hts. apply reject_Ok in Hts as [Hpos _].
  apply queryWorkerLifecycleCursor_Ok in Hcur.
  pose proof (page_applied_revision_Ok session _ _ Hap) as (_ & Hrange & Hall & Hsort & Hnd).
  assert (applied_revision (session_key session) db = page.(slp_BaseRevision)) as Ebase
    by (unfold applied_revision; by rewrite Hcur).
  assert (valid_id session.(wl_DeviceID)) as Hdev.
  { unfold WorkerLifecycleSession_Validate in Hs. rewrite do_Ok, validate_ids_Ok, !Forall_cons in Hs. tauto. }
  destruct (apply_snapshots session ts page.(slp_Workers) (fun k => applied_revision k db) result db db1)
    as (Htrees1 & Hrows1 & Happ); [done|apply (li_rows _ Hinv)|done|done|by rewrite Ebase|done|lia|done|].
  apply advance_cursor_Ok in Hadv as (Hc1 & Hck & ->).
  assert (db1.(peer_worker_sync_cursors) = db.(peer_worker_sync_cursors)) as E.
  { destruct (sp_only _ _ _ _ Happ) as (T & S & -> & _). done. }
  split_and!; [done|done|done|done|]. exists db1. split_and!; try done. by rewrite E.
Qed.

Lemma ApplyWorkerLifecyclePage_inv request db applied db' :
  trees_inv db -> lifecycle_inv db -> ApplyWorkerLifecyclePage request db = Ok (applied, db') ->
  trees_inv db' /\ lifecycle_inv db'.
Proof.
  intros Htrees Hinv H. apply ApplyWorkerLifecyclePage_effect in H as (Hap & _ & _ & _ & db1 & _ & Ht1 & Hr1 & Hck & ->); [|done..].
  pose proof (page_applied_revision_Ok request.(wp_Session) _ _ Hap) as (_ & Hrange & _).
  split; [by apply (trees_inv_frame db1)|]. split.
  - destruct Hr1 as [H1 H2 H3 H4 H5 H6 H7]. split; try done.
    intros k r Hk. etrans; [by apply H7|]. unfold raise_bound, applied_revision.
    cbn [peer_worker_sync_cursors set_peer_worker_sync_cursors]. case_decide as E.
    + rewrite E, lookup_insert_eq. done.
    + rewrite lookup_insert_ne by done. done.
  - cbn [peer_worker_sync_cursors set_peer_worker_sync_cursors].
    intros k r [[<- <-]|[_ Hk]]%lookup_insert_Some; [simpl; split; [done|lia]|by apply (li_cursors _ Hinv k)].
Qed.

Lemma ApplyWorkerLifecyclePage_evolves request db applied db' :
  trees_inv db -> lifecycle_inv db -> ApplyWorkerLifecyclePage request db = Ok (applied, db') -> lifecycle_evolves db db'.
Proof.
  intros Htrees Hinv H. apply ApplyWorkerLifecyclePage_effect in H as (_ & _ & _ & _ & db1 & Happ & _ & _ & _ & ->); [|done..].
  transitivity db1; [apply (sp_evolves _ _ _ _ Happ)|]. apply lifecycle_evolves_frame; [done|].
  intros kt tr Ht. exists tr. split_and!; [done|done|lia].
Qed.

(** ** Theorems on pages *)

(** A valid page under the live session, compared with what the broker has applied. *)
Lemma ApplyWorkerLifecyclePage_again session page applied at2 db :
  WorkerLifecycleSession_Validate session = Ok tt -> page_applied_revision page = Ok applied -> 0 <= at2 ->
  verifyWorkerLifecycleLease session db = Ok tt -> cursor_check (active_cursor session applied) = true ->
  db.(peer_worker_sync_cursors) !! session_key session = Some (active_cursor session applied) ->
  let call := ApplyWorkerLifecyclePage {| wp_Session := session; wp_Page := page; wp_ObservedAt := at2 |} in
  (page.(slp_BaseRevision) < applied -> run_tx call db = (Err ErrWorkerLifecycleStaleBase, db)) /\
  (page.(slp_BaseRevision) = applied -> page.(slp_Workers) = [] -> run_tx call db = (Ok applied, db)).
Proof.
  intros Hs Hap Hat Hlease Hck Hcur call.
  assert (run_tx call db = run_tx (fail ErrWorkerLifecycleStaleBase when (applied <> page.(slp_BaseRevision)) in
    do! tx_iter (applyWorkerLifecycleSnapshot session at2) page.(slp_Workers) in
    do! tx_exec (advance_cursor session page.(slp_BaseRevision) applied) in tx_ret applied) db) as ->.
  { unfold run_tx, call, ApplyWorkerLifecyclePage, tx_bind, tx_lift, tx_query, unixTime. cbn [wp_Session wp_Page wp_ObservedAt].
    rewrite Hs, Hap. rewrite decide_False by lia. by rewrite Hlease, (proj2 (queryWorkerLifecycleCursor_Ok session _ applied)). }
  split; [intros Hlt; unfold run_tx; by rewrite decide_True by lia|]. intros Hbase Hnil. unfold run_tx. rewrite decide_False by lia.
  rewrite Hnil. cbn [tx_iter]. unfold tx_bind, tx_ret, tx_exec, advance_cursor.
  rewrite (sql_update_hit _ _ _ _ _ _ Hcur); [|apply bool_decide_true; by rewrite Hbase|done].
  cbn [wrap result_bind]. rewrite decide_False by (intros Hd; by apply Hd).
  rewrite (insert_id (peer_worker_sync_cursors db)) by exact Hcur. by destruct db.
Qed.

(** C10 A lifecycle page is applied whole, in order and once. After success every
    snapshot of the page is the stored state of its worker, every other worker is
    untouched, states only moved forward and every changed phase got a fresh activity
    number, and the broker has applied exactly the page's revision. A page that advanced
    the applied revision, sent again, is rejected as stale without an effect; one that
    did not advance it carries no worker, and sent again it is accepted and changes
    nothing. *)
Theorem ApplyWorkerLifecyclePage_applies request db applied db' :
  trees_inv db -> lifecycle_inv db -> ApplyWorkerLifecyclePage request db = Ok (applied, db') ->
  let session := request.(wp_Session) in
  let page := request.(wp_Page) in
  trees_inv db' /\ lifecycle_inv db' /\ lifecycle_evolves db db' /\
  page_applied_revision page = Ok applied /\
  applied_revision (session_key session) db = page.(slp_BaseRevision) /\
  applied_revision (session_key session) db' = applied /\
  (forall s, s ∈ page.(slp_Workers) -> exists a,
     queryWorkerLifecycleAuthority session.(wl_ControllerID) s.(wls_TreeID) s.(wls_AgentID) db' = Ok a /\
     a.(wa_Snapshot) = s /\ a.(wa_TargetDeviceID) = session.(wl_DeviceID)) /\
  (forall k, k ∉ (snapshot_key session <$> page.(slp_Workers)) ->
     db'.(agent_lifecycle_states) !! k = db.(agent_lifecycle_states) !! k) /\
  (forall at2, 0 <= at2 -> page.(slp_BaseRevision) < applied ->
     run_tx (ApplyWorkerLifecyclePage {| wp_Session := session; wp_Page := page; wp_ObservedAt := at2 |}) db' =
       (Err ErrWorkerLifecycleStaleBase, db')) /\
  page.(slp_BaseRevision) <= applied /\
  (forall at2, 0 <= at2 -> page.(slp_BaseRevision) = applied -> page.(slp_Workers) = [] /\
     run_tx (ApplyWorkerLifecyclePage {| wp_Session := session; wp_Page := page; wp_ObservedAt := at2 |}) db' = (Ok applied, db')).
Proof.
  intros Htrees Hinv H session page. pose proof (ApplyWorkerLifecyclePage_inv _ _ _ _ Htrees Hinv H) as [Ht' Hl'].
  pose proof (ApplyWorkerLifecyclePage_evolves _ _ _ _ Htrees Hinv H) as Hev.
  apply ApplyWorkerLifecyclePage_effect in H as (Hap & Hs & Hlease & Hcur & db1 & Happ & _ & _ & Hck & ->); [|done..].
  fold session page in Hap, Hs, Hlease, Hcur, Happ, Hck, Ht', Hl', Hev |- *.
  assert (verifyWorkerLifecycleLease session (set_peer_worker_sync_cursors db1
      (<[session_key session := active_cursor session applied]> db.(peer_worker_sync_cursors))) = Ok tt) as Hlease'
    by (rewrite <- Hlease; destruct (sp_only _ _ _ _ Happ) as (T & S & -> & _); reflexivity).
  assert (page.(slp_BaseRevision) <= applied /\ (page.(slp_BaseRevision) = applied -> page.(slp_Workers) = [])) as [Hbase Hempty].
  { apply AppliedRevision_base. unfold page_applied_revision in Hap. by destruct (AppliedRevision page) as [r|]; [subst r|]. }
  split_and!; [done|done|done|done| | | |exact (sp_others _ _ _ _ Happ)| |done|].
  - unfold applied_revision. by rewrite Hcur.
  - unfold applied_revision. cbn [peer_worker_sync_cursors set_peer_worker_sync_cursors]. by rewrite lookup_insert_eq.
  - intros s Hin. destruct (sp_stored _ _ _ _ Happ s Hin) as (r & Hr & Hsn & Hd).
    exists (authority_of s.(wls_TreeID) s.(wls_AgentID) r). split_and!; [|done|done].
    apply queryWorkerLifecycleAuthority_Ok. exists r. split_and!; [exact Hr|done|]. exact (lr_read _ _ (li_rows _ Hl') _ _ Hr).
  - intros at2 Hat. apply (ApplyWorkerLifecyclePage_again session page applied at2); [done..|]. apply lookup_insert_eq.
  - intros at2 Hat Heq. split; [by apply Hempty|].
    apply (ApplyWorkerLifecyclePage_again session page applied at2); [done..|apply lookup_insert_eq|done|by apply Hempty].
Qed.

Lemma upsert_cursor_Ok session applied db db' :
  applied = applied_revision (session_key session) db -> upsert_cursor session applied db = Ok db' ->
  cursor_check (active_cursor session applied) = true /\
  db' = set_peer_worker_sync_cursors db (<[session_key session := active_cursor session applied]> db.(peer_worker_sync_cursors)).
Proof.
  intros Hap. unfold upsert_cursor.
  replace (match peer_worker_sync_cursors db !! session_key session with
    | Some r => cu_applied_revision r | None => applied end) with applied
    by (subst; unfold applied_revision; by destruct (_ !! _)).
  rewrite reject_Ok. intros [H [= <-]]. split; [|done]. apply not_false_is_true. tauto.
Qed.

Lemma ClaimWorkerLifecycleSession_effect claim db applied db' :
  ClaimWorkerLifecycleSession claim db = Ok (applied, db') ->
  let session := claim.(wc_Session) in
  WorkerLifecycleSession_Validate session = Ok tt /\ verifyWorkerLifecycleLease session db = Ok tt /\
  applied = applied_revision (session_key session) db /\ applied <= claim.(wc_WorkerRevision) <= MaxInt64 /\
  cursor_check (active_cursor session applied) = true /\
  db' = set_peer_worker_sync_cursors db
          (<[session_key session := active_cursor session applied]> db.(peer_worker_sync_cursors)).
Proof.
  intros H session. unfold ClaimWorkerLifecycleSession in H. go_inv.
  match goal with H : upsert_cursor _ _ _ = Ok _ |- _ => apply upsert_cursor_Ok in H as [Hc ->]; [|done] end.
  split_and!; try hyp; try done; lia.
Qed.

(** The applied revision of every device is what it was. *)
Lemma applied_revision_claim session db k :
  applied_revision k (set_peer_worker_sync_cursors db (<[session_key session :=
    active_cursor session (applied_revision (session_key session) db)]> db.(peer_worker_sync_cursors))) = applied_revision k db.
Proof.
  unfold applied_revision at 1. cbn [peer_worker_sync_cursors set_peer_worker_sync_cursors].
  destruct (decide (k = session_key session)) as [->|Hne]; [by rewrite lookup_insert_eq|].
  by rewrite lookup_insert_ne.
Qed.

Lemma lifecycle_rows_frame bound bound' db db' :
  lifecycle_rows bound db -> db'.(agent_lifecycle_states) = db.(agent_lifecycle_states) ->
  db'.(principals) = db.(principals) -> db'.(trees) = db.(trees) -> (forall k, bound k <= bound' k) -> lifecycle_rows bound' db'.
Proof.
  intros [H1 H2 H3 H4 H5 H6 H7] E1 E2 E3 Hb. split; unfold states_readable in *; rewrite ?E1, ?E2, ?E3; try done.
  intros k r Hk. etrans; [by apply H7|apply Hb].
Qed.

Lemma ClaimWorkerLifecycleSession_inv claim db applied db' :
  lifecycle_inv db -> ClaimWorkerLifecycleSession claim db = Ok (applied, db') -> lifecycle_inv db'.
Proof.
  intros Hinv H. apply ClaimWorkerLifecycleSession_effect in H as (_ & _ & -> & Hle & Hck & ->). split.
  - eapply lifecycle_rows_frame; [apply (li_rows _ Hinv)|done..|]. intros k. by rewrite applied_revision_claim.
  - cbn [peer_worker_sync_cursors set_peer_worker_sync_cursors].
    intros k r [[<- <-]|[_ Hk]]%lookup_insert_Some; [simpl; split; [done|lia]|by apply (li_cursors _ Hinv k)].
Qed.

(** A page of a session that is not the active one of its device is fenced. *)
Lemma ApplyWorkerLifecyclePage_inactive request applied db :
  WorkerLifecycleSession_Validate request.(wp_Session) = Ok tt ->
  page_applied_revision request.(wp_Page) = Ok applied -> 0 <= request.(wp_ObservedAt) ->
  (verifyWorkerLifecycleLease request.(wp_Session) db = Ok tt \/
   verifyWorkerLifecycleLease request.(wp_Session) db = Err ErrWorkerLifecycleSessionFenced) ->
  (forall base, db.(peer_worker_sync_cursors) !! session_key request.(wp_Session) <>
     Some (active_cursor request.(wp_Session) base)) ->
  run_tx (ApplyWorkerLifecyclePage request) db = (Err ErrWorkerLifecycleSessionFenced, db).
Proof.
  intros Hs Hap Hat Hlease Hno. unfold run_tx, ApplyWorkerLifecyclePage, tx_bind, tx_lift, tx_query, unixTime.
  rewrite Hs, Hap. rewrite decide_False by lia. destruct Hlease as [-> | ->]; [|done].
  assert (queryWorkerLifecycleCursor request.(wp_Session) db = Err ErrWorkerLifecycleSessionFenced) as ->; [|done].
  destruct (queryWorkerLifecycleCursor _ db) as [base|e] eqn:E.
  - apply queryWorkerLifecycleCursor_Ok in E. by destruct (Hno base).
  - unfold queryWorkerLifecycleCursor in E. destruct (_ !! _) as [r|]; [|by injection E as <-].
    destruct (decide _); [by injection E as <-|done].
Qed.

Lemma verifyWorkerLifecycleLease_inv session db :
  registry_inv db ->
  verifyWorkerLifecycleLease session db = Ok tt \/
  verifyWorkerLifecycleLease session db = Err ErrWorkerLifecycleSessionFenced.
Proof.
  intros Hreg. unfold verifyWorkerLifecycleLease.
  pose proof (queryDevice_inv session.(wl_ControllerID) session.(wl_DeviceID) db Hreg) as Hq.
  destruct (devices db !! _) as [r|].
  - destruct Hq as (device & -> & _). destruct (decide _); auto.
  - rewrite Hq. auto.
Qed.

(** C35 Claiming a session fences every other one. A claim succeeds only for a device
    that is online under the lease it names, and only if the device is not behind the
    broker; it keeps what the broker has applied; and afterwards a page sent under any
    other connection or lease of that device is rejected and changes nothing. *)
Theorem ClaimWorkerLifecycleSession_fences claim db applied db' :
  registry_inv db -> lifecycle_inv db -> ClaimWorkerLifecycleSession claim db = Ok (applied, db') ->
  let session := claim.(wc_Session) in
  lifecycle_inv db' /\
  (exists device, queryDevice session.(wl_ControllerID) session.(wl_DeviceID) db = Ok device /\
     device.(d_Online) = true /\ device.(d_Revision) = session.(wl_LeaseRevision)) /\
  applied <= claim.(wc_WorkerRevision) /\ (forall k, applied_revision k db' = applied_revision k db) /\
  applied_revision (session_key session) db' = applied /\
  (forall request r, session_key request.(wp_Session) = session_key session -> request.(wp_Session) <> session ->
     WorkerLifecycleSession_Validate request.(wp_Session) = Ok tt -> page_applied_revision request.(wp_Page) = Ok r ->
     0 <= request.(wp_ObservedAt) ->
     run_tx (ApplyWorkerLifecyclePage request) db' = (Err ErrWorkerLifecycleSessionFenced, db')).
Proof.
  intros Hreg Hinv H session. pose proof (ClaimWorkerLifecycleSession_inv _ _ _ _ Hinv H) as Hinv'.
  apply ClaimWorkerLifecycleSession_effect in H as (Hs & Hlease & Hap & Hle & _ & ->). fold session in Hs, Hlease, Hap, Hinv' |- *.
  rewrite Hap in Hinv' |- *. split_and!; [done|by apply verifyWorkerLifecycleLease_Ok|lia| | |].
  - intros k. apply applied_revision_claim.
  - apply applied_revision_claim.
  - intros request r Hkey Hne Hv Hp Hat. eapply ApplyWorkerLifecyclePage_inactive; [done|done|done| |].
    + by apply (verifyWorkerLifecycleLease_inv request.(wp_Session) db).
    + intros base. cbn [peer_worker_sync_cursors set_peer_worker_sync_cursors]. rewrite Hkey, lookup_insert_eq.
      intros [= H1 H2 _]. apply Hne. destruct request as [[c d conn lease] ? ?], session as [c' d' conn' lease'].
      unfold session_key in Hkey. simpl in *. congruence.
Qed.

(** ** Errors *)

(** The validators are at least as strict as the CHECKs of the table. *)
Lemma ValidateFailureCode_check code : ValidateFailureCode code = Ok tt -> failure_code_check true code = true.
Proof.
  intros H. pose proof (ValidateFailureCode_len _ H) as Hlen. unfold ValidateFailureCode in H.
  apply reject_Ok in H as [H _]. unfold failure_code_check.
  assert (failureCodePattern code = true) as Hp by (apply not_false_is_true; tauto).
  rewrite sqlite_length_ascii; [unfold MaximumFailureCodeBytes in Hlen; lia|].
  unfold failureCodePattern, pattern in Hp. destruct (bytes code) as [|b l]; [done|].
  rewrite !andb_true_iff in Hp. destruct Hp as [[Hb Hl] _]. cbn [forallb]. apply andb_true_iff. split.
  - revert Hb. unfold is_lower, in_range. lia.
  - eapply forallb_impl; [|exact Hl]. intros x. unfold is_name_byte, is_lower, is_digit, in_range. lia.
Qed.

Lemma validate_optional_id_length name value :
  validate_optional_id name value = Ok tt -> bool_decide (sqlite_length value = 0 \/ sqlite_length value = 36) = true.
Proof.
  unfold validate_optional_id. case_decide as H; intros Hv; apply bool_decide_eq_true.
  - rewrite wrap_Ok in Hv. right. by apply valid_id_sqlite_length.
  - subst. by left.
Qed.

(** The phases a valid failure code allows. *)
Lemma phase_failure_check phase code :
  WorkerLifecyclePhase_Validate phase code = Ok tt ->
  bool_decide (phase ∈ ["reserved"; "pending"; "starting"; "preflight"; "ready";
                        "running"; "finalizing"; "idle"; "interrupted"; "failed"]) = true /\
  failure_code_check (bool_decide (phase = "failed")) code = true.
Proof.
  unfold WorkerLifecyclePhase_Validate. case_bool_decide as H1.
  - rewrite reject_Ok. intros [H2%dec_stable _]. subst code. split.
    + apply bool_decide_eq_true. clear -H1. set_solver.
    + rewrite bool_decide_eq_false_2; [done|]. intros ->. clear -H1. by repeat (set_unfold; destruct_or?).
  - case_bool_decide as H2; [|done]. intros H. subst phase. split; [done|]. rewrite bool_decide_eq_true_2 by done.
    by apply ValidateFailureCode_check.
Qed.

(** The identities a phase carries, as the CHECK of the table has them. *)
Lemma phase_identity_check phase thread turn :
  bool_decide (phase ∈ ["reserved"; "pending"; "starting"; "preflight"; "ready";
                        "running"; "finalizing"; "idle"; "interrupted"; "failed"]) = true ->
  validate_phase_identity phase thread turn = Ok tt ->
  let th := bool_decide (thread = "") in
  let tn := bool_decide (turn = "") in
  let p x := bool_decide (phase = x) in
  ((p "reserved" && th && tn) || ((p "pending" || p "starting") && tn) ||
   ((p "preflight" || p "ready" || p "idle") && negb th && tn) ||
   ((p "running" || p "finalizing") && negb th && negb tn) || (p "interrupted" && negb th) || (p "failed" && tn)) = true.
Proof.
  intros H%bool_decide_eq_true Hv th tn p. unfold th, tn, p. clear th tn p. revert Hv.
  repeat (apply elem_of_cons in H as [->|H]); try (by apply elem_of_nil in H);
    destruct thread as [|c thread], turn as [|c' turn]; intros Hv; vm_compute in Hv |- *; congruence.
Qed.

Lemma lifecycle_row_check device s authority sequence ts :
  WorkerLifecycleSnapshot_Validate s = Ok tt -> 0 < authority <= s.(wls_Revision) -> 0 < sequence -> 0 <= ts ->
  lifecycle_check (lifecycle_row device s authority sequence ts) = true.
Proof.
  unfold WorkerLifecycleSnapshot_Validate. rewrite !do_Ok, reject_Ok, !do_Ok.
  intros (_ & _ & _ & Hphase & Hth & Htn & Hid) Ha Hs Ht.
  apply phase_failure_check in Hphase as [Hin Hfc]. unfold lifecycle_check.
  cbn [lc_target_device_id lc_target_revision lc_authority_revision lc_codex_thread_id lc_active_turn_id lc_phase
    lc_failure_code lc_lifecycle_sequence lc_observed_at lifecycle_row].
  rewrite (validate_optional_id_length _ _ Hth), (validate_optional_id_length _ _ Htn), Hin, Hfc.
  pose proof (phase_identity_check _ _ _ Hin Hid) as Hshape. cbv zeta in Hshape. rewrite Hshape.
  rewrite !andb_true_iff, !Z.ltb_lt, !Z.leb_le. split_and!; lia || done.
Qed.

Lemma update_tree_hit c t guard set db kt tr :
  tree_row db c t = Some (kt, tr) -> guard tr = true -> tree_check (set tr) = true ->
  update_tree c t guard set db = Ok (1, set_trees db (<[kt := set tr]> db.(trees))).
Proof.
  intros Hrow Hg Hc. unfold update_tree. rewrite Hrow. apply tree_row_Some in Hrow as (Hk & _ & _).
  by rewrite (sql_update_hit _ _ _ _ _ tr).
Qed.

Lemma nextTreeLifecycleSequence_next c t db kt tr :
  trees_inv db -> tree_row db c t = Some (kt, tr) ->
  nextTreeLifecycleSequence c t db =
    if decide (tr.(tr_last_lifecycle_sequence) = MaxInt64) then Err ErrAgentLifecycleSequenceExhausted
    else Ok (tr.(tr_last_lifecycle_sequence) + 1,
             set_trees db (<[kt := set_lifecycle_sequence (tr.(tr_last_lifecycle_sequence) + 1) tr]> db.(trees))).
Proof.
  intros Htrees Hrow. unfold nextTreeLifecycleSequence, tx_bind, tx_query. rewrite Hrow. case_decide; [done|].
  pose proof (tree_row_Some _ _ _ _ _ Hrow) as (Hk & _ & _). destruct (ti_trees _ Htrees _ _ Hk) as ([_ Hc] & _).
  unfold tx_exec. rewrite (update_tree_hit _ _ _ _ _ kt tr Hrow).
  - done.
  - apply Z.eqb_refl.
  - revert Hc. unfold tree_check. rewrite !andb_true_iff, !Z.leb_le.
    cbn [set_lifecycle_sequence tr_created_at tr_last_agent_sequence tr_last_lifecycle_sequence tr_last_artifact_sequence
      tr_last_result_sequence]. intros ((((? & ?) & ?) & ?) & ?). split_and!; [done|done|lia|done|done].
Qed.

Section SnapshotErrors.
Context (session : WorkerLifecycleSession) (ts : Z) (s : WorkerLifecycleSnapshot) (db : DB) (bound : string * string -> Z).
Context (Hrows : lifecycle_rows bound db) (Htrees : trees_inv db) (Hts : 0 <= ts).
Context (Hv : WorkerLifecycleSnapshot_Validate s = Ok tt) (Hfwd : bound (session_key session) < s.(wls_Revision)).
Context (Hpos : 0 <= bound (session_key session)).
Context (Hdev : device_exists db session.(wl_ControllerID) session.(wl_DeviceID) = true).

Notation k0 := (snapshot_key session s).

Lemma sequence_free_next kt tr :
  tree_row db session.(wl_ControllerID) s.(wls_TreeID) = Some (kt, tr) ->
  sequence_free k0 (tr.(tr_last_lifecycle_sequence) + 1) db.(agent_lifecycle_states) = true.
Proof.
  intros (Hk & Hc & Ht)%tree_row_Some. apply none_where_true. intros k r Hr (Hne & Hkk & Heq). simpl in Hkk.
  pose proof (lr_counter _ _ Hrows k r kt tr Hr Hk) as Hle. rewrite Hkk in Hle. specialize (Hle Hc Ht). simpl in Heq. lia.
Qed.

Lemma stored_sequence_free r :
  db.(agent_lifecycle_states) !! k0 = Some r ->
  sequence_free k0 r.(lc_lifecycle_sequence) db.(agent_lifecycle_states) = true.
Proof.
  intros Hr. apply none_where_true. intros k r' Hr' (Hne & Hkk & Heq). apply Hne. simpl in *.
  exact (lr_unique _ _ Hrows k k0 r' r Hr' Hr Hkk Heq).
Qed.

(** A snapshot of an authorized worker is refused only when the tree has no activity
    number left: the checks for stale revisions, foreign devices, concurrent changes
    and constraints never fail. *)
Lemma applySnapshot_errors e :
  applyWorkerLifecycleSnapshot session ts s db = Err e ->
  e = ErrAuthorizationDenied \/ e = ErrAgentLifecycleSequenceExhausted.
Proof.
  unfold applyWorkerLifecycleSnapshot, tx_bind, tx_query.
  destruct (authorizeWorkerLifecycleSnapshot session s db) as [[]|e'] eqn:Ha.
  2: { intros [= ->]. left. unfold authorizeWorkerLifecycleSnapshot in Ha.
       repeat case_match; congruence. }
  pose proof (authorizeWorkerLifecycleSnapshot_Ok _ _ _ Ha) as (p & kt & tr & ks & rs & Hp & Htr & Hsp & _ & Hpd).
  rewrite queryWorkerLifecycleAuthority_readable by apply (lr_read _ _ Hrows). fold k0.
  pose proof (tree_row_Some _ _ _ _ _ Htr) as (Hk & _ & _). pose proof (lr_trees _ _ Hrows _ _ Hk) as Hlast.
  destruct (db.(agent_lifecycle_states) !! k0) as [r|] eqn:Er; cbn [fmap option_fmap option_map].
  - assert (r.(lc_target_device_id) = session.(wl_DeviceID)) as Ed.
    { destruct (lr_principal _ _ Hrows _ _ Er) as (p' & Hp' & Hd'). congruence. }
    assert (r.(lc_target_revision) < s.(wls_Revision)) as Hlt.
    { pose proof (lr_bound _ _ Hrows _ _ Er) as Hb. rewrite Ed in Hb. change (r.(lc_target_revision) <= bound (session_key session)) in Hb. lia. }
    pose proof (lr_check _ _ Hrows _ _ Er) as Hck. unfold lifecycle_check in Hck. rewrite !andb_true_iff in Hck.
    destruct Hck as (((((((((_ & Hauth) & Hle) & _) & _) & _) & _) & Hseq) & Hobs) & _).
    cbn [wa_TargetDeviceID authority_of wa_Snapshot wls_Revision wa_ObservedAt wa_AuthorityRevision].
    rewrite (decide_False (P := _ <> _)) by tauto. rewrite (decide_False (P := _ <= _)) by lia.
    rewrite max_observed. destruct (decide (sameLifecycleEvent _ s)) as [[Hph Hfc]|Hdiff]; unfold tx_exec.
    + unfold update_lifecycle. rewrite (sql_update_hit _ _ _ _ _ r); [done|done|apply Z.eqb_refl|].
      apply andb_true_iff. simpl in Hph, Hfc. split; [|exact (stored_sequence_free r Er)].
      assert (forall au, refresh_row s au (Z.max r.(lc_observed_at) ts) r =
        lifecycle_row session.(wl_DeviceID) s au r.(lc_lifecycle_sequence) (Z.max r.(lc_observed_at) ts)) as Eq.
      { intros au. unfold refresh_row, lifecycle_row. by rewrite Ed, Hph, Hfc. }
      rewrite Eq. apply lifecycle_row_check; [done| |lia|lia]. case_decide; lia.
    + rewrite (nextTreeLifecycleSequence_next _ _ _ kt tr Htrees Htr). case_decide; [intros [= ->]; by right|].
      unfold update_lifecycle. cbn [agent_lifecycle_states set_trees].
      rewrite (sql_update_hit _ _ _ _ _ r); [done|done|apply Z.eqb_refl|]. apply andb_true_iff. split.
      * apply lifecycle_row_check; [done|lia|lia|lia].
      * by eapply sequence_free_next.
  - rewrite (nextTreeLifecycleSequence_next _ _ _ kt tr Htrees Htr). case_decide; [intros [= ->]; by right|].
    unfold tx_exec, insert_lifecycle. cbn [agent_lifecycle_states set_trees].
    rewrite sql_insert_hit; [done| |done]. rewrite !andb_true_iff. split_and!.
    + apply lifecycle_row_check; [done|lia|lia|lia].
    + by eapply sequence_free_next.
    + exact Hdev.
    + apply tree_exists_true. destruct kt as [c' th]. exists th. simpl in *.
      pose proof (tree_row_Some _ _ _ _ _ Htr) as (_ & Hc & Hid). simpl in Hc. subst c'.
      eexists. split; [apply lookup_insert_eq|exact Hid].
    + exact (principal_exists_Some (set_trees db _) _ _ _ _ Hp).
    + unfold spawn_exists. apply bool_decide_eq_true. exists (ks, rs). exact Hsp.
Qed.
End SnapshotErrors.

Lemma apply_snapshots_errors session ts workers bound hi db e :
  trees_inv db -> lifecycle_rows bound db -> 0 <= ts -> valid_id session.(wl_DeviceID) ->
  0 <= bound (session_key session) -> device_exists db session.(wl_ControllerID) session.(wl_DeviceID) = true ->
  Forall (fun s => WorkerLifecycleSnapshot_Validate s = Ok tt /\ s.(wls_Revision) <= hi) workers ->
  StronglySorted Z.lt (bound (session_key session) :: (wls_Revision <$> workers)) ->
  tx_iter (applyWorkerLifecycleSnapshot session ts) workers db = Err e ->
  e = ErrAuthorizationDenied \/ e = ErrAgentLifecycleSequenceExhausted.
Proof.
  intros Htrees Hrows Hts Hdev. revert bound db Htrees Hrows.
  induction workers as [|s workers IH]; intros bound db Htrees Hrows Hpos Hex Hall Hsort H; [done|].
  inversion_clear Hall as [|?? [Hv Hle] Hall']. rewrite fmap_cons in Hsort. inversion_clear Hsort as [|?? Hsort' Hmin].
  apply Forall_inv in Hmin as Hlt. simpl in H. unfold tx_bind in H.
  destruct (applyWorkerLifecycleSnapshot session ts s db) as [[[] db1]|e'] eqn:E1.
  - apply applySnapshot_effect in E1 as (kt & tr & Hok & ->); [|apply (lr_read _ _ Hrows)].
    pose proof (snapshot_rows _ _ _ _ _ _ Hok bound Hrows Hdev Hv Htrees Hlt) as Hrows1.
    pose proof (snapshot_trees_inv _ _ _ _ _ _ Hok bound Hrows Htrees) as Htrees1.
    assert (raise_bound (session_key session) s.(wls_Revision) bound (session_key session) = s.(wls_Revision)) as Eb
      by (unfold raise_bound; by rewrite decide_True).
    eapply (IH _ _ Htrees1 Hrows1); [rewrite Eb; lia|exact Hex|done|by rewrite Eb|done].
  - injection H as <-. eapply (applySnapshot_errors session ts s db bound); eassumption.
Qed.

Lemma queryDevice_exists c d db device : queryDevice c d db = Ok device -> device_exists db c d = true.
Proof. intros (r & Hr & _)%queryDevice_row. unfold device_exists. rewrite Hr. done. Qed.

(** A well-formed page is refused for four reasons only: the session is not the
    active one of an online device, the page does not start where the broker stands, a
    worker is not one of the device's, or the tree has no activity number left. The
    remaining checks (a revision that does not advance, a state of another device, rows
    that changed under the transaction, table constraints) never fail. *)
Theorem ApplyWorkerLifecyclePage_errors request applied db e :
  registry_inv db -> trees_inv db -> lifecycle_inv db ->
  WorkerLifecycleSession_Validate request.(wp_Session) = Ok tt ->
  page_applied_revision request.(wp_Page) = Ok applied -> 0 <= request.(wp_ObservedAt) ->
  ApplyWorkerLifecyclePage request db = Err e ->
  e ∈ [Sentinel ErrWorkerLifecycleSessionFenced; Sentinel ErrWorkerLifecycleStaleBase;
       Sentinel ErrAuthorizationDenied; Sentinel ErrAgentLifecycleSequenceExhausted].
Proof.
  intros Hreg Htrees Hinv Hs Hap Hat. unfold ApplyWorkerLifecyclePage, tx_bind, tx_lift, tx_query, unixTime.
  rewrite Hs, Hap. rewrite decide_False by lia.
  destruct (verifyWorkerLifecycleLease_inv request.(wp_Session) db Hreg) as [E|E]; rewrite E; [|intros [= <-]; set_solver].
  apply verifyWorkerLifecycleLease_Ok in E as (device & Hdevice & _).
  destruct (queryWorkerLifecycleCursor request.(wp_Session) db) as [base|e'] eqn:Hcur; last first.
  { intros [= <-]. unfold queryWorkerLifecycleCursor in Hcur. repeat case_match; simplify_eq; set_solver. }
  destruct (decide _) as [|Hbase]; [intros [= <-]; set_solver|]. apply dec_stable in Hbase. subst base.
  apply queryWorkerLifecycleCursor_Ok in Hcur.
  pose proof (page_applied_revision_Ok request.(wp_Session) _ _ Hap) as (_ & Hrange & Hall & Hsort & Hnd).
  assert (applied_revision (session_key request.(wp_Session)) db = request.(wp_Page).(slp_BaseRevision)) as Ebase
    by (unfold applied_revision; by rewrite Hcur).
  destruct (li_cursors _ Hinv _ _ Hcur) as [Hck _]. unfold cursor_check in Hck. rewrite !andb_true_iff in Hck.
  destruct Hck as [[Hconn Hlease] Hzero]. simpl in Hconn, Hlease. apply Z.leb_le in Hzero. simpl in Hzero.
  assert (Hs' := Hs). unfold WorkerLifecycleSession_Validate in Hs'. rewrite do_Ok, validate_ids_Ok, !Forall_cons in Hs'.
  destruct Hs' as ((_ & Hdev & _) & _). simpl in Hdev.
  destruct (tx_iter _ _ db) as [[[] db1]|e'] eqn:Hit; last first.
  { intros [= <-]. destruct (apply_snapshots_errors request.(wp_Session) request.(wp_ObservedAt) request.(wp_Page).(slp_Workers)
      (fun k => applied_revision k db) applied db e') as [-> | ->];
      [done|apply (li_rows _ Hinv)|lia|done|by rewrite Ebase|by eapply queryDevice_exists|done|by rewrite Ebase|done|set_solver..]. }
  destruct (apply_snapshots request.(wp_Session) request.(wp_ObservedAt) request.(wp_Page).(slp_Workers)
    (fun k => applied_revision k db) applied db db1)
    as (_ & _ & Happ); [done|apply (li_rows _ Hinv)|done|done|by rewrite Ebase|done|lia|done|].
  destruct (sp_only _ _ _ _ Happ) as (T & S & -> & _). unfold tx_exec, advance_cursor.
  cbn [peer_worker_sync_cursors set_agent_lifecycle_states set_trees].
  rewrite (sql_update_hit _ _ _ _ _ _ Hcur); [done| |].
  - apply bool_decide_eq_true_2. done.
  - unfold cursor_check. simpl. rewrite Hconn, Hlease. simpl. lia.
Qed.

(** ** The feed, read to its end *)

Section Feed.
Context (c t : string) (db : DB) (Hinv : lifecycle_inv db).

Definition states_after (after : Z) : list ((string * string * string) * LifecycleRow) :=
  select (fun x : (string * string * string) * LifecycleRow =>
    x.1.1 = (c, t) /\ after < x.2.(lc_lifecycle_sequence)) db.(agent_lifecycle_states).

Lemma elem_of_states_after after k r :
  (k, r) ∈ states_after after <->
  db.(agent_lifecycle_states) !! k = Some r /\ k.1 = (c, t) /\ after < r.(lc_lifecycle_sequence).
Proof.
  exact (elem_of_select (fun x : (string * string * string) * LifecycleRow =>
    x.1.1 = (c, t) /\ after < x.2.(lc_lifecycle_sequence)) db.(agent_lifecycle_states) k r).
Qed.

Lemma states_after_keys after :
  NoDup ((fun x : (string * string * string) * LifecycleRow => x.2.(lc_lifecycle_sequence)) <$> states_after after).
Proof.
  apply NoDup_fmap_2_strong; [|apply NoDup_select]. intros [k r] [k' r'] Hx Hy Heq.
  apply elem_of_states_after in Hx as (Hk & Hkk & _). apply elem_of_states_after in Hy as (Hk' & Hkk' & _). simpl in Heq.
  assert (k = k') as -> by (eapply (lr_unique _ _ (li_rows _ Hinv)); eauto; congruence). congruence.
Qed.

(** The page after the [n]th activity is the rest of the feed. *)
Lemma tree_activity_continue after n k r :
  tree_activity c t after db !! n = Some (k, r) ->
  tree_activity c t r.(lc_lifecycle_sequence) db = drop (S n) (tree_activity c t after db).
Proof.
  intros Hn. assert ((k, r) ∈ states_after after) as (_ & _ & Hlt)%elem_of_states_after.
  { apply list_elem_of_lookup_2 in Hn. by apply elem_of_sort_by in Hn. }
  apply (sort_by_after Z.le (fun x : (string * string * string) * LifecycleRow => x.2.(lc_lifecycle_sequence))
    (states_after after) (states_after r.(lc_lifecycle_sequence)) n (k, r));
    [apply states_after_keys|apply NoDup_select|exact Hn|].
  intros [k' r']. rewrite !elem_of_states_after. simpl. split; intros H; [split_and!; try tauto; lia|].
  destruct H as ((? & ? & ?) & ?). split_and!; try done. lia.
Qed.

(** A stored state as the feed shows it. *)
Definition activity_of (k : string * string * string) (r : LifecycleRow) : AgentLifecycleActivity := {|
  la_TreeID := k.1.2; la_AgentID := k.2; la_TargetDeviceID := r.(lc_target_device_id);
  la_TargetRevision := r.(lc_target_revision); la_Phase := r.(lc_phase); la_FailureCode := r.(lc_failure_code);
  la_Sequence := r.(lc_lifecycle_sequence); la_ObservedAt := r.(lc_observed_at) |}.

Lemma scanActivity_readable k r :
  db.(agent_lifecycle_states) !! k = Some r -> scanAgentLifecycleActivity (k, r) = Ok (activity_of k r).
Proof.
  intros Hk. pose proof (lr_read _ _ (li_rows _ Hinv) _ _ Hk) as Hr. pose proof (lr_check _ _ (li_rows _ Hinv) _ _ Hk) as Hck.
  unfold lifecycle_check in Hck. rewrite !andb_true_iff in Hck. destruct Hck as (((((((((Hrev & _) & _) & _) & _) & _) & _) & Hseq) & Hobs) & _).
  unfold check_authority, WorkerLifecycleSnapshot_Validate in Hr. rewrite !do_Ok, !wrap_Ok, !reject_Ok in Hr.
  destruct Hr as (Hdev & Hsn & Hnum & _). rewrite !do_Ok, !wrap_Ok, reject_Ok, !do_Ok in Hsn.
  destruct Hsn as (Ht & Ha & Hmax & Hph & _). destruct k as [[c' t'] a]. cbn in Ht, Ha, Hdev, Hph, Hmax, Hnum.
  unfold scanAgentLifecycleActivity.
  assert (validate_ids [("treeId", t'); ("agentId", a); ("targetDeviceId", r.(lc_target_device_id))] = Ok tt) as ->
    by (apply validate_ids_Ok; repeat constructor; assumption).
  cbn [result_bind]. rewrite decide_False by lia. rewrite Hph. done.
Qed.

Lemma mapM_scanActivity rows :
  (forall k r, (k, r) ∈ rows -> db.(agent_lifecycle_states) !! k = Some r) ->
  result_mapM scanAgentLifecycleActivity rows = Ok ((fun x => activity_of x.1 x.2) <$> rows).
Proof.
  induction rows as [|[k r] rows IH]; intros Hall; [done|]. cbn [result_mapM].
  rewrite (scanActivity_readable k r) by (apply Hall; set_solver). rewrite IH by set_solver. done.
Qed.

Lemma tree_activity_stored after k r : (k, r) ∈ tree_activity c t after db -> db.(agent_lifecycle_states) !! k = Some r.
Proof. intros H%elem_of_sort_by. by apply elem_of_states_after in H as (? & _). Qed.

Context (root : PrincipalIdentity) (kt : string * string) (tr : TreeRow).
Context (Hc : root.(pi_ControllerID) = c) (Ht : root.(pi_TreeID) = t) (Hv : PrincipalIdentity_Validate root = Ok tt).
Context (Hroot : authorizeAgentOperationSource root db = Ok tt) (Htr : tree_row db c t = Some (kt, tr)).

(** One page of the feed. *)
Lemma ListActivity_page after lim :
  0 <= after <= tr.(tr_last_lifecycle_sequence) -> 1 <= lim <= MaximumWorkerLifecyclePage ->
  let rows := take (Z.to_nat lim) (tree_activity c t after db) in
  ListAgentLifecycleActivity root {| lq_AfterSequence := after; lq_Limit := lim |} db = Ok {|
    lp_Activities := (fun x => activity_of x.1 x.2) <$> rows;
    lp_NextSequence := default after ((fun x => x.2.(lc_lifecycle_sequence)) <$> last rows);
    lp_Highwater := tr.(tr_last_lifecycle_sequence) |}.
Proof.
  intros Hafter Hlim rows. unfold ListAgentLifecycleActivity. cbn [lq_AfterSequence lq_Limit]. rewrite Hv.
  pose proof (tree_row_Some _ _ _ _ _ Htr) as (Hk & _ & _). pose proof (lr_trees _ _ (li_rows _ Hinv) _ _ Hk) as Hmax.
  cbn [wrap result_bind]. rewrite decide_False by lia. rewrite decide_False by lia.
  unfold authorizeAgentOperationSource in Hroot. apply result_bind_Ok in Hroot as (p & Hp & Hpar).
  rewrite Hp. cbn [result_bind]. apply reject_Ok in Hpar as [Hpar _]. rewrite decide_False by done.
  rewrite Hc, Ht, Htr. cbn [result_bind]. rewrite decide_False by lia. unfold limit. fold rows.
  rewrite mapM_scanActivity; [|intros k r Hin; apply (tree_activity_stored after), (subseteq_take (Z.to_nat lim)); exact Hin].
  cbn [result_bind]. rewrite fmap_last. by destruct (last rows) as [[k r]|].
Qed.
End Feed.

(** A root that follows the cursor until a page is empty. *)
Fixpoint read_feed (fuel : nat) (root : PrincipalIdentity) (lim after : Z) (db : DB)
    : result (list AgentLifecycleActivity) :=
  match fuel with
  | O => Err (New "too many pages")
  | S fuel =>
      let? page := ListAgentLifecycleActivity root {| lq_AfterSequence := after; lq_Limit := lim |} db in
      if decide (length page.(lp_Activities) = 0%nat) then Ok []
      else
        let? rest := read_feed fuel root lim page.(lp_NextSequence) db in
        Ok (page.(lp_Activities) ++ rest)
  end.

Lemma read_feed_rows root lim after db fuel kt tr :
  lifecycle_inv db -> PrincipalIdentity_Validate root = Ok tt -> authorizeAgentOperationSource root db = Ok tt ->
  tree_row db root.(pi_ControllerID) root.(pi_TreeID) = Some (kt, tr) ->
  0 <= after <= tr.(tr_last_lifecycle_sequence) -> 1 <= lim <= MaximumWorkerLifecyclePage ->
  let rows := tree_activity root.(pi_ControllerID) root.(pi_TreeID) after db in
  (length rows < fuel)%nat ->
  read_feed fuel root lim after db = Ok ((fun x => activity_of x.1 x.2) <$> rows).
Proof.
  intros Hinv Hv Hroot Htr Hafter Hlim rows Hfuel. unfold rows in *. clear rows. revert after Hafter Hfuel.
  induction fuel as [|fuel IH]; intros after Hafter Hfuel; [lia|]. cbn [read_feed].
  set (rows := tree_activity root.(pi_ControllerID) root.(pi_TreeID) after db) in *.
  rewrite (ListActivity_page _ _ db Hinv root kt tr eq_refl eq_refl Hv Hroot Htr after lim Hafter Hlim). fold rows.
  cbn [result_bind lp_Activities lp_NextSequence]. rewrite length_fmap. set (n := Z.to_nat lim).
  assert (0 < n)%nat by lia. case_decide as Hlen.
  - rewrite length_take in Hlen. assert (rows = []) as -> by (apply nil_length_inv; lia). done.
  - rewrite length_take in Hlen.
    destruct (lookup_lt_is_Some_2 rows (n `min` length rows - 1)%nat) as [[k r] Hkr]; [lia|].
    assert (last (take n rows) = Some (k, r)) as ->.
    { rewrite last_lookup, length_take, lookup_take_lt by lia. rewrite <- Hkr. f_equal. lia. }
    cbn [fmap option_fmap option_map default].
    pose proof (tree_activity_continue _ _ db Hinv after _ k r Hkr) as Hcont. fold rows in Hcont.
    replace (S (n `min` length rows - 1))%nat with (n `min` length rows)%nat in Hcont by lia.
    assert ((k, r) ∈ states_after root.(pi_ControllerID) root.(pi_TreeID) db after) as (Hk & Hkk & Hgt)%elem_of_states_after.
    { apply list_elem_of_lookup_2 in Hkr. by apply elem_of_sort_by in Hkr. }
    pose proof (tree_row_Some _ _ _ _ _ Htr) as (Htk & Htc & Htid).
    assert (r.(lc_lifecycle_sequence) <= tr.(tr_last_lifecycle_sequence)) as Hle.
    { eapply (lr_counter _ _ (li_rows _ Hinv)); [exact Hk|exact Htk|by rewrite Hkk|by rewrite Hkk]. }
    simpl. rewrite IH; [|lia|rewrite Hcont, length_drop; lia]. rewrite Hcont. simpl. f_equal.
    rewrite <- fmap_app. f_equal. destruct (decide (n <= length rows)%nat).
    + rewrite Nat.min_l by done. apply take_drop.
    + rewrite Nat.min_r, take_ge, drop_all by lia. apply app_nil_r.
Qed.

(** Reading on from the highest number an earlier state had, to the end, misses
    nothing that changed since. *)
Lemma feed_misses_nothing db0 db root lim kt0 tr0 kt tr :
  lifecycle_inv db0 -> trees_inv db -> lifecycle_inv db -> lifecycle_evolves db0 db ->
  PrincipalIdentity_Validate root = Ok tt -> authorizeAgentOperationSource root db = Ok tt ->
  1 <= lim <= MaximumWorkerLifecyclePage ->
  let c := root.(pi_ControllerID) in
  let t := root.(pi_TreeID) in
  tree_row db0 c t = Some (kt0, tr0) -> tree_row db c t = Some (kt, tr) ->
  exists feed,
    read_feed (S (size db.(agent_lifecycle_states))) root lim tr0.(tr_last_lifecycle_sequence) db = Ok feed /\
    StronglySorted (fun a b => a.(la_Sequence) < b.(la_Sequence)) feed /\
    (forall a, a ∈ feed -> exists r, db.(agent_lifecycle_states) !! (c, t, a.(la_AgentID)) = Some r /\
       a = activity_of (c, t, a.(la_AgentID)) r) /\
    (forall agent r, db.(agent_lifecycle_states) !! (c, t, agent) = Some r ->
       activity_of (c, t, agent) r ∈ feed \/
       exists r0, db0.(agent_lifecycle_states) !! (c, t, agent) = Some r0 /\
         r0.(lc_phase) = r.(lc_phase) /\ r0.(lc_failure_code) = r.(lc_failure_code)).
Proof.
  intros Hinv0 Htrees Hinv Hev Hv Hroot Hlim c t Hrow0 Hrow.
  pose proof (tree_row_Some _ _ _ _ _ Hrow0) as (Hk0 & Hc0 & Ht0). pose proof (tree_row_Some _ _ _ _ _ Hrow) as (Hk & Hc & Ht).
  pose proof (lr_trees _ _ (li_rows _ Hinv0) _ _ Hk0) as Hr0.
  destruct (le_trees _ _ Hev _ _ Hk0) as (tr' & Htr' & Hid & Hle).
  assert (kt0 = kt) as -> by (eapply (ti_unique _ Htrees); [exact Htr'|exact Hk| |]; congruence).
  assert (tr' = tr) as -> by congruence.
  set (after := tr0.(tr_last_lifecycle_sequence)) in *. set (rows := tree_activity c t after db).
  assert (rows ≡ₚ states_after c t db after) as Hperm by apply sort_by_perm.
  assert (length rows <= size db.(agent_lifecycle_states))%nat as Hsize.
  { rewrite Hperm. unfold states_after, select. rewrite length_map_to_list. apply map_size_filter. }
  eexists. split; [apply (read_feed_rows root lim after db _ kt tr); [done..|lia|done|fold c t rows; lia]|]. fold c t rows. split_and!.
  - apply (StronglySorted_key Z.lt). rewrite <- list_fmap_compose. apply StronglySorted_key.
    apply (sorted_strict (fun x : (string * string * string) * LifecycleRow => x.2.(lc_lifecycle_sequence))).
    + apply (sort_by_sorted Z.le).
    + unfold rows, tree_activity, order_by. apply NoDup_sort_by. exact (states_after_keys c t db Hinv after).
  - intros a ([k r] & -> & Hin)%list_elem_of_fmap. rewrite Hperm in Hin.
    apply elem_of_states_after in Hin as (Hkr & Hkk & _). destruct k as [kk ag]. simpl in *. subst kk. eauto.
  - intros agent r Hr. destruct (le_feed _ _ Hev _ _ Hr) as [(r0 & H0 & H1 & H2 & _)|Hnew]; [right; eauto|left].
    apply list_elem_of_fmap. exists ((c, t, agent), r). split; [done|]. rewrite Hperm. apply elem_of_states_after.
    split_and!; [done|done|]. by eapply Hnew.
Qed.

(** ** What the operations leave alone *)

Lemma set_workspaces_registry t db : registry_inv db -> registry_inv (set_workspace_sync_receipts db t).
Proof. intros H. by apply (registry_inv_frame db). Qed.

Lemma EnsureRootTree_registry c th dev at_ newTree newAgent db r db' :
  trees_inv db -> (forall i, newTree = Ok i -> valid_id i) -> (forall i, newAgent = Ok i -> valid_id i) ->
  EnsureRootTree c th dev at_ newTree newAgent db = Ok (r, db') -> same_registry db db'.
Proof.
  intros Ht H1 H2 H. destruct r as [tree p].
  by apply EnsureRootTree_effect in H as (_ & _ & _ & _ & _ & [->|(ti & ai & _ & _ & _ & ->)]).
Qed.

Lemma BeginAgentSpawn_registry intent at_ db r db' : BeginAgentSpawn intent at_ db = Ok (r, db') -> same_registry db db'.
Proof. by intros [_ [(-> & _)|(kt & tr & _ & -> & _)]]%BeginAgentSpawn_effect. Qed.

Lemma finishAgentSpawn_registry key status code at_ db r db' :
  finishAgentSpawn key status code at_ db = Ok (r, db') -> same_registry db db'.
Proof. by intros (_ & _ & _ & [->|(row & _ & _ & -> & _)])%finishAgentSpawn_effect. Qed.

Lemma finishAgentSpawn_trees key status code at_ db r db' :
  trees_inv db -> finishAgentSpawn key status code at_ db = Ok (r, db') -> trees_inv db'.
Proof. intros Ht (_ & _ & _ & [->|(row & _ & _ & -> & _)])%finishAgentSpawn_effect; [done|]. by apply (trees_inv_frame db). Qed.

Lemma ClaimWorkerLifecycleSession_registry claim db applied db' :
  ClaimWorkerLifecycleSession claim db = Ok (applied, db') -> same_registry db db'.
Proof. by intros (_ & _ & _ & _ & _ & ->)%ClaimWorkerLifecycleSession_effect. Qed.

Lemma ClaimWorkerLifecycleSession_trees claim db applied db' :
  trees_inv db -> ClaimWorkerLifecycleSession claim db = Ok (applied, db') -> trees_inv db'.
Proof. intros Ht (_ & _ & _ & _ & _ & ->)%ClaimWorkerLifecycleSession_effect. by apply (trees_inv_frame db). Qed.

(** ** A session, step by step *)

Definition sample_connection : string := "eeeeeeee-eeee-4eee-8eee-eeeeeeeeeeee".
Definition sample_session (connection : string) : WorkerLifecycleSession := {|
  wl_ControllerID := sample_controller; wl_DeviceID := sample_device; wl_ConnectionID := connection;
  wl_LeaseRevision := 1 |}.
Definition sample_snapshot (revision : Z) (phase : string) : WorkerLifecycleSnapshot := {|
  wls_TreeID := sample_tree; wls_AgentID := first_spawn.(si_AgentID); wls_Revision := revision; wls_Phase := phase;
  wls_FailureCode := ""; wls_CodexThreadID := ""; wls_ActiveTurnID := "" |}.
Definition sample_page (base : Z) (phase : string) : WorkerLifecyclePageApply := {|
  wp_Session := sample_session sample_connection;
  wp_Page := {| slp_BaseRevision := base; slp_ThroughRevision := base + 3; slp_Complete := true;
                slp_Workers := [sample_snapshot (base + 2) phase] |};
  wp_ObservedAt := 300 |}.
Definition sample_claim : WorkerLifecycleSessionClaim := {|
  wc_Session := sample_session sample_connection; wc_WorkerRevision := 3 |}.

Definition claimed_db : DB := (run_tx (ClaimWorkerLifecycleSession sample_claim) started_db).2.
Definition reserved_db : DB := (run_tx (ApplyWorkerLifecyclePage (sample_page 0 WorkerLifecycleReserved)) claimed_db).2.
Definition starting_db : DB := (run_tx (ApplyWorkerLifecyclePage (sample_page 3 WorkerLifecycleStarting)) reserved_db).2.

Lemma started_db_lifecycle_inv : lifecycle_inv started_db.
Proof.
  apply no_lifecycle_inv; [vm_compute; reflexivity..|]. intros kt tr Htr.
  apply (table_forallb (fun x => in_range 0 MaxInt64 x.2.(tr_last_lifecycle_sequence))) in Htr; [|vm_compute; reflexivity].
  revert Htr. cbn [snd]. unfold in_range. rewrite andb_true_iff, !Z.leb_le. tauto.
Qed.
Lemma started_db_trees_inv : trees_inv started_db.
Proof. destruct started_db_eq as [r H]. exact (finishAgentSpawn_trees _ _ _ _ _ _ _ (proj1 spawn_db_inv) H). Qed.
Lemma started_db_registry_inv : registry_inv started_db.
Proof.
  destruct tree_db_eq as [[tree p] H1]. destruct prepared_db_only as [t E]. destruct spawn_db_eq as [r H2].
  destruct started_db_eq as [r' H3]. eapply registry_inv_frame; [|exact (finishAgentSpawn_registry _ _ _ _ _ _ _ H3)].
  eapply registry_inv_frame; [|exact (BeginAgentSpawn_registry _ _ _ _ _ H2)]. rewrite E.
  apply set_workspaces_registry. eapply registry_inv_frame; [apply device_db_inv|].
  eapply EnsureRootTree_registry; [apply device_db_trees_inv| | |exact H1]; apply ok_valid; vm_compute; reflexivity.
Qed.

Lemma claimed_db_eq : exists r, ClaimWorkerLifecycleSession sample_claim started_db = Ok (r, claimed_db).
Proof. unfold claimed_db. apply run_tx_succeeds. vm_compute. reflexivity. Qed.
Lemma claimed_db_inv : registry_inv claimed_db /\ trees_inv claimed_db /\ lifecycle_inv claimed_db.
Proof.
  destruct claimed_db_eq as [r H]. split; [|split].
  - exact (registry_inv_frame _ _ started_db_registry_inv (ClaimWorkerLifecycleSession_registry _ _ _ _ H)).
  - exact (ClaimWorkerLifecycleSession_trees _ _ _ _ started_db_trees_inv H).
  - exact (ClaimWorkerLifecycleSession_inv _ _ _ _ started_db_lifecycle_inv H).
Qed.
Lemma reserved_db_eq :
  exists r, ApplyWorkerLifecyclePage (sample_page 0 WorkerLifecycleReserved) claimed_db = Ok (r, reserved_db).
Proof. unfold reserved_db. apply run_tx_succeeds. vm_compute. reflexivity. Qed.
Lemma reserved_db_inv : trees_inv reserved_db /\ lifecycle_inv reserved_db.
Proof. destruct reserved_db_eq as [r H]. exact (ApplyWorkerLifecyclePage_inv _ _ _ _ (proj1 (proj2 claimed_db_inv)) (proj2 (proj2 claimed_db_inv)) H). Qed.
Lemma ApplyWorkerLifecyclePage_applies_witness :
  run_tx (ApplyWorkerLifecyclePage (sample_page 0 WorkerLifecycleReserved)) reserved_db =
    (Err ErrWorkerLifecycleStaleBase, reserved_db).
Proof.
  pose proof (run_tx_value (ApplyWorkerLifecyclePage (sample_page 0 WorkerLifecycleReserved)) claimed_db 3
    ltac:(vm_compute; reflexivity)) as H. destruct claimed_db_inv as (_ & Ht & Hl).
  destruct (ApplyWorkerLifecyclePage_applies _ _ _ _ Ht Hl H) as (_ & _ & _ & _ & _ & _ & _ & _ & Hagain & _).
  apply (Hagain 300); [lia|]. cbv. reflexivity.
Defined.

Lemma ClaimWorkerLifecycleSession_fences_witness :
  run_tx (ApplyWorkerLifecyclePage {| wp_Session := sample_session "ffffffff-ffff-4fff-8fff-ffffffffffff";
      wp_Page := (sample_page 0 WorkerLifecycleReserved).(wp_Page); wp_ObservedAt := 300 |}) claimed_db =
    (Err ErrWorkerLifecycleSessionFenced, claimed_db).
Proof.
  destruct claimed_db_eq as [r H].
  destruct (ClaimWorkerLifecycleSession_fences _ _ _ _ started_db_registry_inv started_db_lifecycle_inv H)
    as (_ & _ & _ & _ & _ & Hother).
  apply (Hother _ 3); [reflexivity|discriminate|vm_compute; reflexivity|vm_compute; reflexivity|simpl; lia].
Defined.

Lemma ApplyWorkerLifecyclePage_errors_witness :
  exists e, ApplyWorkerLifecyclePage (sample_page 1 WorkerLifecycleReserved) claimed_db = Err e /\
  e ∈ [Sentinel ErrWorkerLifecycleSessionFenced; Sentinel ErrWorkerLifecycleStaleBase;
       Sentinel ErrAuthorizationDenied; Sentinel ErrAgentLifecycleSequenceExhausted].
Proof.
  exists ErrWorkerLifecycleStaleBase. destruct claimed_db_inv as (Hr & Ht & Hl).
  assert (ApplyWorkerLifecyclePage (sample_page 1 WorkerLifecycleReserved) claimed_db = Err ErrWorkerLifecycleStaleBase) as H
    by (vm_compute; reflexivity).
  split; [exact H|]. apply (ApplyWorkerLifecyclePage_errors (sample_page 1 WorkerLifecycleReserved) 4 _ _ Hr Ht Hl); [vm_compute; reflexivity|vm_compute; reflexivity|simpl; lia|exact H].
Defined.
