(* ===== verification/Results.v ===== *)
(** internal/store/result_package.go, result_package_gc.go and result_apply.go: the
    result packages of finished turns. A worker publishes the metadata of its package
    while it is finalizing the turn; the package is delivered to the root's device and
    gets its number in the tree; the source acknowledges and releases its copy; old
    details are compacted; the root is authorized to apply a delivered result. *)

From S2P Require Export GoHost ResultProtocol Lifecycle.

(** ** Records *)

(* go: internal/store/result_package.go:24-28 maximumResultPackageStorePage *)
Definition maximumResultPackageStorePage : Z := 2.
Definition maximumPendingResultRelays : Z := 128.

(* go: internal/store/result_package.go:30-35 ResultPackageDeliveryState *)
Definition ResultPackageDeliveryPending : string := "deliveryPending".
Definition ResultPackageDelivered : string := "delivered".

(* go: internal/store/result_package.go ResultPackageRecord *)
Record ResultPackageRecord := {
  rpr_Metadata : ResultPackageMetadata;
  rpr_Manifest : ResultManifest;
  rpr_SourcePrincipal : PrincipalIdentity;
  rpr_RootPrincipal : PrincipalIdentity;
  rpr_RootDeviceID : string;
  rpr_State : string;
  rpr_Sequence : Z;
  rpr_RootRetentionOrdinal : Z;
  rpr_PublishedAt : Z;
  rpr_DeliveredAt : Z;
  rpr_SourceAcknowledgedAt : Z;
  rpr_SourceReleasedAt : Z;
}.

(** ** Reading *)

(* go: internal/store/result_package.go corruptResultPackage *)
Definition corruptResultPackage (text : string) : error := Wrap text ErrResultPackageCorrupt.

Definition row_metadata (r : ResultPackageRow) : ResultPackageMetadata := {|
  rpm_Manifest := r.(rk_manifest_bytes);
  rpm_ManifestDescriptor := {| rd_Kind := ResultPackagePartManifest; rd_Size := r.(rk_manifest_size);
                               rd_SHA256 := r.(rk_manifest_sha256) |} |}.

(** The identities of the join: the source's parent comes from its principal, the
    root from the tree. *)
Definition source_identity (k : string * string * string) (r : ResultPackageRow) (source : PrincipalRow) : PrincipalIdentity := {|
  pi_ControllerID := k.1.1; pi_TreeID := k.1.2; pi_AgentID := r.(rk_source_agent_id);
  pi_ParentAgentID := source.(pr_parent_agent_id); pi_DeviceID := r.(rk_source_device_id) |}.
Definition root_identity (k : string * string * string) (tree : TreeRow) : PrincipalIdentity := {|
  pi_ControllerID := k.1.1; pi_TreeID := k.1.2; pi_AgentID := tree.(tr_root_agent_id);
  pi_ParentAgentID := ""; pi_DeviceID := tree.(tr_root_device_id) |}.

(** The columns a package repeats from its manifest. *)
(* go: internal/store/result_package.go:857-864 scanResultPackage *)
Definition manifest_matches (k : string * string * string) (r : ResultPackageRow) (m : ResultManifest) : Prop :=
  m.(rm_ControllerID) = k.1.1 /\ m.(rm_TreeID) = k.1.2 /\ m.(rm_PackageID) = k.2 /\
  m.(rm_SourceAgentID) = r.(rk_source_agent_id) /\ m.(rm_SourceDeviceID) = r.(rk_source_device_id) /\
  m.(rm_ManagedThreadID) = r.(rk_managed_thread_id) /\ m.(rm_TurnID) = r.(rk_turn_id) /\
  m.(rm_LifecycleRevision) = r.(rk_lifecycle_revision).
#[global] Instance manifest_matches_dec k r m : Decision (manifest_matches k r m).
Proof. unfold manifest_matches. apply _. Defined.

(* go: internal/store/result_package.go:890-916 scanResultPackage *)
Definition check_delivery_state (r : ResultPackageRow) : result unit :=
  if decide (r.(rk_state) = ResultPackageDeliveryPending) then
    reject (corruptResultPackage "stored pending result package contains delivery state")
      when (r.(rk_result_sequence) <> 0 \/ r.(rk_root_retention_ordinal) <> 0 \/ r.(rk_delivered_at) <> 0 \/
            r.(rk_source_acknowledged_at) <> 0 \/ r.(rk_source_released_at) <> 0) in
    Ok tt
  else if decide (r.(rk_state) = ResultPackageDelivered) then
    reject (corruptResultPackage "stored delivered result package state is invalid")
      when (r.(rk_result_sequence) = 0 \/ r.(rk_result_sequence) > MaxInt64 \/ r.(rk_root_retention_ordinal) = 0 \/
            r.(rk_root_retention_ordinal) > MaxInt64 \/ r.(rk_delivered_at) < r.(rk_published_at) \/
            (r.(rk_source_acknowledged_at) <> 0 /\ r.(rk_source_acknowledged_at) < r.(rk_delivered_at)) \/
            (r.(rk_source_released_at) <> 0 /\
             (r.(rk_source_acknowledged_at) = 0 \/ r.(rk_source_released_at) < r.(rk_source_acknowledged_at)))) in
    Ok tt
  else Err (corruptResultPackage "stored result package has unsupported state %q").

Definition package_record (k : string * string * string) (r : ResultPackageRow) (source : PrincipalRow) (tree : TreeRow)
    (m : ResultManifest) : ResultPackageRecord := {|
  rpr_Metadata := row_metadata r; rpr_Manifest := m; rpr_SourcePrincipal := source_identity k r source;
  rpr_RootPrincipal := root_identity k tree; rpr_RootDeviceID := r.(rk_root_device_id); rpr_State := r.(rk_state);
  rpr_Sequence := r.(rk_result_sequence); rpr_RootRetentionOrdinal := r.(rk_root_retention_ordinal);
  rpr_PublishedAt := r.(rk_published_at); rpr_DeliveredAt := r.(rk_delivered_at);
  rpr_SourceAcknowledgedAt := r.(rk_source_acknowledged_at); rpr_SourceReleasedAt := r.(rk_source_released_at) |}.

(* go: internal/store/result_package.go scanResultPackage *)
Definition scanResultPackage (k : string * string * string) (r : ResultPackageRow) (source : PrincipalRow) (tree : TreeRow)
    : result ResultPackageRecord :=
  match DecodeManifest (row_metadata r) with
  | Err _ => Err (corruptResultPackage "stored result package manifest is invalid")
  | Ok manifest =>
      reject (corruptResultPackage "stored result package authority differs from its manifest")
        when (~ manifest_matches k r manifest) in
      reject (corruptResultPackage "stored result package rootDeviceId") when (is_ok (ValidateID r.(rk_root_device_id)) = false) in
      reject (corruptResultPackage "stored result package principals differ from its authority")
        when (source.(pr_device_id) <> r.(rk_source_device_id) \/ tree.(tr_root_device_id) <> r.(rk_root_device_id)) in
      reject (corruptResultPackage "stored result package source principal is invalid")
        when (is_ok (PrincipalIdentity_Validate (source_identity k r source)) = false \/ source.(pr_parent_agent_id) = "") in
      reject (corruptResultPackage "stored result package root principal is invalid")
        when (is_ok (PrincipalIdentity_Validate (root_identity k tree)) = false) in
      reject (corruptResultPackage "stored result package publication time is invalid") when (r.(rk_published_at) < 0) in
      do? check_delivery_state r in
      Ok (package_record k r source tree manifest)
  end.

(** The inner joins of [resultPackageSelect]. *)
(* go: internal/store/result_package.go:959-975 resultPackageSelect *)
Definition join_package (x : (string * string * string) * ResultPackageRow) (db : DB)
    : option ((string * string * string) * ResultPackageRow * PrincipalRow * TreeRow) :=
  let '(k, r) := x in
  source ← db.(principals) !! (k.1.1, k.1.2, r.(rk_source_agent_id));
  tree ← snd <$> tree_row db k.1.1 k.1.2;
  Some (k, r, source, tree).

Definition scan_joined (x : option ((string * string * string) * ResultPackageRow * PrincipalRow * TreeRow))
    : result ResultPackageRecord :=
  match x with None => Err ErrNotFound | Some (k, r, source, tree) => scanResultPackage k r source tree end.

(* go: internal/store/result_package.go queryResultPackageByID *)
Definition queryResultPackageByID (controllerID treeID packageID : string) (db : DB) : result ResultPackageRecord :=
  scan_joined (r ← db.(result_packages) !! (controllerID, treeID, packageID);
               join_package ((controllerID, treeID, packageID), r) db).

Definition turn_package (c t sourceAgentID turnID : string) (x : (string * string * string) * ResultPackageRow) : Prop :=
  x.1.1 = (c, t) /\ x.2.(rk_source_agent_id) = sourceAgentID /\ x.2.(rk_turn_id) = turnID.
#[global] Instance turn_package_dec c t a u x : Decision (turn_package c t a u x).
Proof. unfold turn_package. apply _. Defined.

(* go: internal/store/result_package.go queryResultPackageByTurn *)
Definition queryResultPackageByTurn (controllerID treeID sourceAgentID turnID : string) (db : DB) : result ResultPackageRecord :=
  scan_joined (x ← select_row (turn_package controllerID treeID sourceAgentID turnID) db.(result_packages); join_package x db).

(* go: internal/store/peer_changes_artifact_query.go validateChangesArtifactDevice *)
Definition validateChangesArtifactDevice (controllerID deviceID : string) : result unit :=
  validate_ids [("controllerId", controllerID); ("deviceId", deviceID)].

(** [SELECT COALESCE(max(root_retention_ordinal), 0)] over a root device. *)
(* go: internal/store/result_package.go GetResultPackageRootRetentionHighwater *)
Definition GetResultPackageRootRetentionHighwater (controllerID rootDeviceID : string) (db : DB) : result Z :=
  do? validateChangesArtifactDevice controllerID rootDeviceID in
  Ok (foldr Z.max 0 ((fun x => x.2.(rk_root_retention_ordinal)) <$>
        select (fun x : (string * string * string) * ResultPackageRow =>
                  x.1.1.1 = controllerID /\ x.2.(rk_root_device_id) = rootDeviceID) db.(result_packages))).

(** ** Publishing *)

Definition spawn_of_agent (c t agentID : string) (x : (string * string * string * string) * SpawnRow) : Prop :=
  x.1.1.1 = (c, t) /\ x.2.(sp_agent_id) = agentID.
#[global] Instance spawn_of_agent_dec c t a x : Decision (spawn_of_agent c t a x).
Proof. unfold spawn_of_agent. apply _. Defined.

(* go: internal/store/result_package.go queryAgentSpawnReceiptByAgent *)
Definition queryAgentSpawnReceiptByAgent (controllerID treeID agentID : string) (db : DB) : result AgentSpawnReceipt :=
  match select_row (spawn_of_agent controllerID treeID agentID) db.(agent_spawn_receipts) with
  | None => Err ErrNotFound
  | Some (k, r) =>
      match spawn_principal k r db with
      | None => Err ErrNotFound
      | Some p => scanAgentSpawnReceipt k r p
      end
  end.

(** An absent row means that the caller may not. *)
Definition not_found_denied {A} (r : result A) : result A :=
  match r with Ok a => Ok a | Err e => if errors_Is e ErrNotFound then Err ErrAuthorizationDenied else Err e end.

(* go: internal/store/result_package.go resultPackageLifecycleMissing *)
Definition resultPackageLifecycleMissing (controllerID deviceID : string) (requiredRevision : Z) (db : DB) : error :=
  match db.(peer_worker_sync_cursors) !! (controllerID, deviceID) with
  | None => ErrResultPackageLifecycleNotReady
  | Some cursor =>
      if cursor.(cu_applied_revision) <? requiredRevision then ErrResultPackageLifecycleNotReady
      else Wrap "result package lifecycle revision has no matching authority" ErrConflict
  end.

Definition result_workspace_key (spawn : AgentSpawnReceipt) : WorkspaceSyncKey := {|
  wk_ControllerID := spawn.(asr_Agent).(as_Principal).(pi_ControllerID);
  wk_TreeID := spawn.(asr_Agent).(as_Principal).(pi_TreeID);
  wk_SourceAgentID := spawn.(asr_Agent).(as_Principal).(pi_ParentAgentID);
  wk_SyncID := spawn.(asr_Agent).(as_WorkspaceID) |}.

(** The base a result names is the one the receipt was prepared with. *)
(* go: internal/store/result_package.go:757-763 authorizeResultPackageWorkspace *)
Definition workspace_base_matches (receipt : WorkspaceSyncReceipt) (w : ResultWorkspaceComponent) : Prop :=
  receipt.(wsr_ObjectFormat) = w.(rw_ObjectFormat) /\ receipt.(wsr_HeadOID) = w.(rw_BaseHeadOID) /\
  receipt.(wsr_ManifestHash) = w.(rw_BaseManifestHash) /\ receipt.(wsr_SourceSnapshotHash) = w.(rw_BaseSnapshotHash) /\
  receipt.(wsr_SourceClean) = w.(rw_BaseClean) /\ receipt.(wsr_Warnings) = default [] w.(rw_BaseWarnings).
#[global] Instance workspace_base_matches_dec receipt w : Decision (workspace_base_matches receipt w).
Proof. unfold workspace_base_matches. apply _. Defined.

(* go: internal/store/result_package.go authorizeResultPackageWorkspace *)
Definition authorizeResultPackageWorkspace (spawn : AgentSpawnReceipt) (w : ResultWorkspaceComponent) (db : DB) : result unit :=
  if decide (w.(rw_Status) = ResultWorkspaceNotManaged) then
    reject ErrAuthorizationDenied when (spawn.(asr_Agent).(as_WorkspaceID) <> "") in Ok tt
  else
    reject ErrAuthorizationDenied
      when (spawn.(asr_Agent).(as_WorkspaceID) = "" \/ spawn.(asr_Agent).(as_WorkspaceID) <> w.(rw_WorkspaceID)) in
    let? receipt := not_found_denied (queryWorkspaceSyncReceipt (result_workspace_key spawn) db) in
    reject ErrAuthorizationDenied
      when (receipt.(wsr_Status) <> WorkspaceSyncPrepared \/ receipt.(wsr_ConsumedSpawnID) <> spawn.(asr_Agent).(as_SpawnID) \/
            receipt.(wsr_SourceDeviceID) <> w.(rw_SourceDeviceID) \/ receipt.(wsr_TargetDeviceID) <> w.(rw_TargetDeviceID)) in
    reject (Wrap "result package workspace differs from the consumed receipt" ErrConflict)
      when (~ workspace_base_matches receipt w) in
    Ok tt.

(** The worker is finalizing exactly the turn of the manifest. *)
(* go: internal/store/result_package.go:690-696 authorizeNewResultPackage *)
Definition finalizing_turn (authority : workerLifecycleAuthority) (connectedDeviceID : string) (m : ResultManifest) : Prop :=
  authority.(wa_TargetDeviceID) = connectedDeviceID /\
  authority.(wa_Snapshot).(wls_Phase) = WorkerLifecycleFinalizing /\
  authority.(wa_Snapshot).(wls_CodexThreadID) = m.(rm_ManagedThreadID) /\
  authority.(wa_Snapshot).(wls_ActiveTurnID) = m.(rm_TurnID) /\
  authority.(wa_AuthorityRevision) = m.(rm_LifecycleRevision).
#[global] Instance finalizing_turn_dec authority d m : Decision (finalizing_turn authority d m).
Proof. unfold finalizing_turn. apply _. Defined.

(* go: internal/store/result_package.go authorizeNewResultPackage *)
Definition authorizeNewResultPackage (connectedDeviceID : string) (principal : Principal) (m : ResultManifest) (db : DB)
    : result string :=
  let c := p_ControllerID principal in
  let t := p_TreeID principal in
  let? spawn := not_found_denied (queryAgentSpawnReceiptByAgent c t (p_AgentID principal) db) in
  let? tree := queryTreeByID c t db in
  let agent := spawn.(asr_Agent) in
  reject ErrAuthorizationDenied
    when (agent.(as_Principal) <> principal.(p_Identity) \/ agent.(as_Principal).(pi_ParentAgentID) <> tree.(t_RootAgentID) \/
          agent.(as_Principal).(pi_DeviceID) <> connectedDeviceID) in
  reject ErrResultPackageLifecycleNotReady when (agent.(as_SpawnStatus) = AgentSpawnPending) in
  reject ErrAuthorizationDenied when (agent.(as_SpawnStatus) <> AgentSpawnStarted) in
  let missing := resultPackageLifecycleMissing c connectedDeviceID m.(rm_LifecycleRevision) db in
  let? authority := match queryWorkerLifecycleAuthority c t (p_AgentID principal) db with
                    | Ok authority => Ok authority
                    | Err e => if errors_Is e ErrNotFound then Err missing else Err e
                    end in
  reject missing when (authority.(wa_Snapshot).(wls_Revision) < m.(rm_LifecycleRevision)) in
  reject (Wrap "result package differs from finalizing worker authority" ErrConflict)
    when (~ finalizing_turn authority connectedDeviceID m) in
  do? authorizeResultPackageWorkspace spawn m.(rm_Workspace) db in
  Ok tree.(t_RootDeviceID).

(* go: internal/store/result_package.go replayResultPackage *)
Definition replayResultPackage (stored : ResultPackageRecord) (requested : ResultPackageMetadata) (m : ResultManifest) : result unit :=
  reject (Wrap "packageId or source turn already identifies a different result" ErrConflict)
    when (stored.(rpr_Manifest).(rm_PackageID) <> m.(rm_PackageID) \/
          stored.(rpr_Manifest).(rm_SourceAgentID) <> m.(rm_SourceAgentID) \/
          stored.(rpr_Manifest).(rm_TurnID) <> m.(rm_TurnID) \/
          ~ SameResultPackageMetadata stored.(rpr_Metadata) requested) in
  Ok tt.

(* go: internal/store/result_package.go:163-175 PublishResultPackage *)
Definition pending_package (m : ResultManifest) (metadata : ResultPackageMetadata) (rootDeviceID : string) (timestamp : Z)
    : ResultPackageRow := {|
  rk_source_agent_id := m.(rm_SourceAgentID); rk_source_device_id := m.(rm_SourceDeviceID);
  rk_managed_thread_id := m.(rm_ManagedThreadID); rk_turn_id := m.(rm_TurnID);
  rk_lifecycle_revision := m.(rm_LifecycleRevision); rk_root_device_id := rootDeviceID;
  rk_manifest_bytes := metadata.(rpm_Manifest); rk_manifest_size := metadata.(rpm_ManifestDescriptor).(rd_Size);
  rk_manifest_sha256 := metadata.(rpm_ManifestDescriptor).(rd_SHA256); rk_state := ResultPackageDeliveryPending;
  rk_result_sequence := 0; rk_root_retention_ordinal := 0; rk_published_at := timestamp; rk_delivered_at := 0;
  rk_source_acknowledged_at := 0; rk_source_released_at := 0 |}.

(** The table's UNIQUE columns and partial unique indexes, against the other rows. *)
Definition package_unique (k : string * string * string) (r : ResultPackageRow) (db : DB) : bool :=
  none_where (fun x : (string * string * string) * ResultPackageRow =>
    x.1 <> k /\ x.1.1 = k.1 /\ x.2.(rk_source_agent_id) = r.(rk_source_agent_id) /\ x.2.(rk_turn_id) = r.(rk_turn_id))
    db.(result_packages) &&
  ((r.(rk_result_sequence) <=? 0) ||
   none_where (fun x : (string * string * string) * ResultPackageRow =>
     x.1 <> k /\ x.1.1 = k.1 /\ x.2.(rk_result_sequence) = r.(rk_result_sequence)) db.(result_packages)) &&
  ((r.(rk_root_retention_ordinal) <=? 0) ||
   none_where (fun x : (string * string * string) * ResultPackageRow =>
     x.1 <> k /\ x.1.1.1 = k.1.1 /\ x.2.(rk_root_device_id) = r.(rk_root_device_id) /\
     x.2.(rk_root_retention_ordinal) = r.(rk_root_retention_ordinal)) db.(result_packages)).

Definition insert_package (k : string * string * string) (r : ResultPackageRow) (db : DB) : result DB :=
  let? tb := sql_insert db.(result_packages) k r
    (result_package_check k.2 r && package_unique k r db && tree_exists db k.1.1 k.1.2 &&
     principal_exists db k.1.1 k.1.2 r.(rk_source_agent_id) && device_exists db k.1.1 r.(rk_source_device_id) &&
     device_exists db k.1.1 r.(rk_root_device_id)) in
  Ok (set_result_packages db tb).

(* go: internal/store/result_package.go PublishResultPackage *)
Definition PublishResultPackage (connectedDeviceID : string) (source : PrincipalIdentity) (params : PublishResultPackageParams)
    (publishedAt : Z) : Tx DB PublishResultPackageResult :=
  do! tx_lift (wrap "connectedDeviceId" (ValidateID connectedDeviceID)) in
  do! tx_lift (wrap "source" (PrincipalIdentity_Validate source)) in
  let! manifest := tx_lift (DecodeManifest params.(prp_Metadata)) in
  fail ErrAuthorizationDenied
    when (manifest.(rm_ControllerID) <> source.(pi_ControllerID) \/ manifest.(rm_TreeID) <> source.(pi_TreeID) \/
          manifest.(rm_SourceAgentID) <> source.(pi_AgentID) \/ manifest.(rm_SourceDeviceID) <> source.(pi_DeviceID)) in
  let! timestamp := tx_lift (unixTime publishedAt) in
  let published := {| prr_PackageID := manifest.(rm_PackageID) |} in
  let! principal := tx_query (authorizePrincipal source CapabilityArtifactPublishSelf) in
  fail ErrAuthorizationDenied when (p_ParentAgentID principal = "" \/ p_DeviceID principal <> connectedDeviceID) in
  let c := source.(pi_ControllerID) in
  let t := source.(pi_TreeID) in
  let! stored := tx_query (fun db => optional (queryResultPackageByID c t manifest.(rm_PackageID) db)) in
  match stored with
  | Some stored => do! tx_lift (replayResultPackage stored params.(prp_Metadata) manifest) in tx_ret published
  | None =>
      let! stored := tx_query (fun db =>
        optional (queryResultPackageByTurn c t source.(pi_AgentID) manifest.(rm_TurnID) db)) in
      match stored with
      | Some stored => do! tx_lift (replayResultPackage stored params.(prp_Metadata) manifest) in tx_ret published
      | None =>
          let! rootDeviceID := tx_query (authorizeNewResultPackage connectedDeviceID principal manifest) in
          do! tx_exec (fun db => wrap "create result package metadata"
            (insert_package (manifest.(rm_ControllerID), manifest.(rm_TreeID), manifest.(rm_PackageID))
               (pending_package manifest params.(prp_Metadata) rootDeviceID timestamp) db)) in
          tx_ret published
      end
  end.

(** ** Delivery *)

(** The caller is the worker itself, on the device it is connected from. *)
Definition authorize_source (connectedDeviceID : string) (source : PrincipalIdentity) (db : DB) : result Principal :=
  let? principal := authorizePrincipal source CapabilityArtifactPublishSelf db in
  reject ErrAuthorizationDenied when (p_ParentAgentID principal = "" \/ p_DeviceID principal <> connectedDeviceID) in
  Ok principal.

(** The caller is the root of the tree, on the device it is connected from. *)
Definition authorize_root (connectedDeviceID : string) (root : PrincipalIdentity) (required : Capability) (db : DB) : result Principal :=
  let? principal := authorizePrincipal root required db in
  reject ErrAuthorizationDenied when (p_ParentAgentID principal <> "" \/ p_DeviceID principal <> connectedDeviceID) in
  Ok principal.

(** The package, if it is the caller's own. *)
Definition source_package (connectedDeviceID : string) (source : PrincipalIdentity) (packageID : string) (db : DB)
    : result ResultPackageRecord :=
  do? authorize_source connectedDeviceID source db in
  let? record := queryResultPackageByID source.(pi_ControllerID) source.(pi_TreeID) packageID db in
  reject ErrAuthorizationDenied
    when (record.(rpr_SourcePrincipal) <> source \/ record.(rpr_Manifest).(rm_SourceDeviceID) <> connectedDeviceID) in
  Ok record.

(** The arguments the calls of one package share. *)
Definition validate_package_call (connectedDeviceID role : string) (caller : PrincipalIdentity) (packageID : string) : result unit :=
  do? wrap "connectedDeviceId" (ValidateID connectedDeviceID) in
  do? wrap role (PrincipalIdentity_Validate caller) in
  wrap "packageId" (ValidateID packageID).

(* go: internal/store/result_package.go GetResultPackageForDelivery *)
Definition GetResultPackageForDelivery (connectedDeviceID : string) (source : PrincipalIdentity) (packageID : string) (db : DB)
    : result ResultPackageRecord :=
  do? validate_package_call connectedDeviceID "source" source packageID in
  source_package connectedDeviceID source packageID db.

Definition set_result_sequence (sequence : Z) (r : TreeRow) : TreeRow := {|
  tr_tree_id := r.(tr_tree_id); tr_root_agent_id := r.(tr_root_agent_id);
  tr_root_device_id := r.(tr_root_device_id); tr_created_at := r.(tr_created_at);
  tr_last_agent_sequence := r.(tr_last_agent_sequence); tr_last_lifecycle_sequence := r.(tr_last_lifecycle_sequence);
  tr_last_artifact_sequence := r.(tr_last_artifact_sequence); tr_last_result_sequence := sequence |}.

(* go: internal/store/result_package.go nextTreeResultPackageSequence *)
Definition nextTreeResultPackageSequence (controllerID treeID : string) : Tx DB Z :=
  let! current := tx_query (fun db =>
    match tree_row db controllerID treeID with
    | None => Err ErrNotFound
    | Some (_, r) => Ok r.(tr_last_result_sequence)
    end) in
  fail ErrResultPackageSequenceExhausted when (current = MaxInt64) in
  let next := current + 1 in
  do! tx_exec (fun db =>
    let? (affected, db) := wrap "advance tree result package sequence"
      (update_tree controllerID treeID (fun r => r.(tr_last_result_sequence) =? current) (set_result_sequence next) db) in
    reject (New "tree result package sequence changed during update") when (affected <> 1) in
    Ok db) in
  tx_ret next.

(** [UPDATE result_packages SET ... WHERE key AND guard], which must hit one row. *)
Definition update_package (text changed : string) (k : string * string * string) (guard : ResultPackageRow -> bool)
    (set : ResultPackageRow -> ResultPackageRow) (db : DB) : result DB :=
  let? (affected, tb) := wrap text (sql_update db.(result_packages) k guard set
    (fun r => result_package_check k.2 r && package_unique k r db)) in
  reject (New changed) when (affected <> 1) in
  Ok (set_result_packages db tb).

(* go: internal/store/result_package.go:292-300 MarkResultPackageDelivered *)
Definition deliver_row (sequence ordinal timestamp : Z) (r : ResultPackageRow) : ResultPackageRow := {|
  rk_source_agent_id := r.(rk_source_agent_id); rk_source_device_id := r.(rk_source_device_id);
  rk_managed_thread_id := r.(rk_managed_thread_id); rk_turn_id := r.(rk_turn_id);
  rk_lifecycle_revision := r.(rk_lifecycle_revision); rk_root_device_id := r.(rk_root_device_id);
  rk_manifest_bytes := r.(rk_manifest_bytes); rk_manifest_size := r.(rk_manifest_size);
  rk_manifest_sha256 := r.(rk_manifest_sha256); rk_state := ResultPackageDelivered;
  rk_result_sequence := sequence; rk_root_retention_ordinal := ordinal; rk_published_at := r.(rk_published_at);
  rk_delivered_at := timestamp; rk_source_acknowledged_at := r.(rk_source_acknowledged_at);
  rk_source_released_at := r.(rk_source_released_at) |}.

Definition undelivered (r : ResultPackageRow) : bool :=
  bool_decide (r.(rk_state) = ResultPackageDeliveryPending /\ r.(rk_result_sequence) = 0 /\
               r.(rk_root_retention_ordinal) = 0 /\ r.(rk_delivered_at) = 0).

Definition result_increment (delivered acknowledged released compacted : Z) : statusLifetimeCounterIncrement := {|
  ct_dispatches_started := 0; ct_turns_started := 0; ct_result_packages_delivered := delivered;
  ct_result_packages_source_acknowledged := acknowledged; ct_result_packages_source_released := released;
  ct_result_package_details_compacted := compacted |}.

Definition deliver_record (sequence ordinal timestamp : Z) (record : ResultPackageRecord) : ResultPackageRecord := {|
  rpr_Metadata := record.(rpr_Metadata); rpr_Manifest := record.(rpr_Manifest);
  rpr_SourcePrincipal := record.(rpr_SourcePrincipal); rpr_RootPrincipal := record.(rpr_RootPrincipal);
  rpr_RootDeviceID := record.(rpr_RootDeviceID); rpr_State := ResultPackageDelivered; rpr_Sequence := sequence;
  rpr_RootRetentionOrdinal := ordinal; rpr_PublishedAt := record.(rpr_PublishedAt); rpr_DeliveredAt := timestamp;
  rpr_SourceAcknowledgedAt := record.(rpr_SourceAcknowledgedAt); rpr_SourceReleasedAt := record.(rpr_SourceReleasedAt) |}.

(* go: internal/store/result_package.go MarkResultPackageDelivered *)
Definition MarkResultPackageDelivered (connectedDeviceID : string) (root : PrincipalIdentity) (packageID : string)
    (rootRetentionOrdinal deliveredAt : Z) : Tx DB ResultPackageRecord :=
  do! tx_lift (validate_package_call connectedDeviceID "root" root packageID) in
  fail (New "rootRetentionOrdinal is out of range") when (rootRetentionOrdinal = 0 \/ rootRetentionOrdinal > MaxInt64) in
  let! timestamp := tx_lift (unixTime deliveredAt) in
  do! tx_query (authorize_root connectedDeviceID root CapabilityAgentManageDescendants) in
  let c := root.(pi_ControllerID) in
  let t := root.(pi_TreeID) in
  let! record := tx_query (queryResultPackageByID c t packageID) in
  fail ErrAuthorizationDenied
    when (record.(rpr_RootPrincipal) <> root \/ record.(rpr_RootDeviceID) <> connectedDeviceID) in
  if decide (record.(rpr_State) = ResultPackageDelivered) then
    fail (Wrap "result package root retention ordinal differs" ErrConflict)
      when (record.(rpr_RootRetentionOrdinal) <> rootRetentionOrdinal) in
    tx_ret record
  else
    fail (New "deliveredAt precedes result package publication") when (timestamp < record.(rpr_PublishedAt)) in
    let! sequence := nextTreeResultPackageSequence c t in
    do! tx_exec (update_package "mark result package delivered" "result package state changed during delivery"
          (c, t, packageID) undelivered (deliver_row sequence rootRetentionOrdinal timestamp)) in
    do! tx_exec (incrementStatusLifetimeCounters c (result_increment 1 0 0 0)) in
    tx_ret (deliver_record sequence rootRetentionOrdinal timestamp record).

(** ** The source's copy *)

Definition stamp_row (acknowledged released : Z) (r : ResultPackageRow) : ResultPackageRow := {|
  rk_source_agent_id := r.(rk_source_agent_id); rk_source_device_id := r.(rk_source_device_id);
  rk_managed_thread_id := r.(rk_managed_thread_id); rk_turn_id := r.(rk_turn_id);
  rk_lifecycle_revision := r.(rk_lifecycle_revision); rk_root_device_id := r.(rk_root_device_id);
  rk_manifest_bytes := r.(rk_manifest_bytes); rk_manifest_size := r.(rk_manifest_size);
  rk_manifest_sha256 := r.(rk_manifest_sha256); rk_state := r.(rk_state);
  rk_result_sequence := r.(rk_result_sequence); rk_root_retention_ordinal := r.(rk_root_retention_ordinal);
  rk_published_at := r.(rk_published_at); rk_delivered_at := r.(rk_delivered_at);
  rk_source_acknowledged_at := acknowledged; rk_source_released_at := released |}.

Definition stamp_record (acknowledged released : Z) (record : ResultPackageRecord) : ResultPackageRecord := {|
  rpr_Metadata := record.(rpr_Metadata); rpr_Manifest := record.(rpr_Manifest);
  rpr_SourcePrincipal := record.(rpr_SourcePrincipal); rpr_RootPrincipal := record.(rpr_RootPrincipal);
  rpr_RootDeviceID := record.(rpr_RootDeviceID); rpr_State := record.(rpr_State); rpr_Sequence := record.(rpr_Sequence);
  rpr_RootRetentionOrdinal := record.(rpr_RootRetentionOrdinal); rpr_PublishedAt := record.(rpr_PublishedAt);
  rpr_DeliveredAt := record.(rpr_DeliveredAt); rpr_SourceAcknowledgedAt := acknowledged; rpr_SourceReleasedAt := released |}.

(* go: internal/store/result_package.go MarkResultPackageSourceAcknowledged *)
Definition MarkResultPackageSourceAcknowledged (connectedDeviceID : string) (source : PrincipalIdentity) (packageID : string)
    (acknowledgedAt : Z) : Tx DB ResultPackageRecord :=
  do! tx_lift (validate_package_call connectedDeviceID "source" source packageID) in
  let! timestamp := tx_lift (unixTime acknowledgedAt) in
  let! record := tx_query (source_package connectedDeviceID source packageID) in
  fail ErrConflict when (record.(rpr_State) <> ResultPackageDelivered) in
  if decide (record.(rpr_SourceAcknowledgedAt) <> 0) then tx_ret record
  else
    let timestamp := Z.max (Z.max timestamp record.(rpr_DeliveredAt)) 1 in
    do! tx_exec (update_package "mark result package source acknowledged"
          "result package state changed during source acknowledgement"
          (source.(pi_ControllerID), source.(pi_TreeID), packageID)
          (fun r => bool_decide (r.(rk_state) = ResultPackageDelivered /\ r.(rk_source_acknowledged_at) = 0))
          (fun r => stamp_row timestamp r.(rk_source_released_at) r)) in
    do! tx_exec (incrementStatusLifetimeCounters source.(pi_ControllerID) (result_increment 0 1 0 0)) in
    tx_ret (stamp_record timestamp record.(rpr_SourceReleasedAt) record).

(* go: internal/store/result_package.go MarkResultPackageSourceReleased *)
Definition MarkResultPackageSourceReleased (connectedDeviceID : string) (source : PrincipalIdentity) (packageID : string)
    (releasedAt : Z) : Tx DB ResultPackageRecord :=
  do! tx_lift (validate_package_call connectedDeviceID "source" source packageID) in
  let! timestamp := tx_lift (unixTime releasedAt) in
  let! record := tx_query (source_package connectedDeviceID source packageID) in
  fail ErrConflict when (record.(rpr_State) <> ResultPackageDelivered \/ record.(rpr_SourceAcknowledgedAt) = 0) in
  if decide (record.(rpr_SourceReleasedAt) <> 0) then tx_ret record
  else
    let timestamp := Z.max (Z.max timestamp record.(rpr_SourceAcknowledgedAt)) 1 in
    do! tx_exec (update_package "mark result package source released" "result package state changed during source release"
          (source.(pi_ControllerID), source.(pi_TreeID), packageID)
          (fun r => bool_decide (r.(rk_state) = ResultPackageDelivered /\ 0 < r.(rk_source_acknowledged_at) /\
                                 r.(rk_source_released_at) = 0))
          (fun r => stamp_row r.(rk_source_acknowledged_at) timestamp r)) in
    do! tx_exec (incrementStatusLifetimeCounters source.(pi_ControllerID) (result_increment 0 0 1 0)) in
    tx_ret (stamp_record record.(rpr_SourceAcknowledgedAt) timestamp record).

(** ** Listing *)

(* go: internal/store/result_package.go ResultPackagePageRequest *)
Record ResultPackagePageRequest := { rq_AfterSequence : Z; rq_Limit : Z }.

(* go: internal/store/result_package.go ResultPackagePage *)
Record ResultPackagePage := {
  rg_Packages : list ResultPackageRecord;
  rg_NextSequence : Z;
  rg_Highwater : Z;
}.

(** The delivered packages of a tree after a number, in their order. *)
(* go: internal/store/result_package.go:529-533 ListDeliveredResultPackages *)
Definition delivered_after (c t : string) (after : Z) (db : DB)
    : list ((string * string * string) * ResultPackageRow * PrincipalRow * TreeRow) :=
  omap (fun x => join_package x db)
    (order_by (fun x => x.2.(rk_result_sequence))
      (select (fun x : (string * string * string) * ResultPackageRow =>
         x.1.1 = (c, t) /\ x.2.(rk_state) = ResultPackageDelivered /\ after < x.2.(rk_result_sequence)) db.(result_packages))).

(* go: internal/store/result_package.go:538-549 ListDeliveredResultPackages *)
Definition scan_delivered (principal : Principal)
    (x : (string * string * string) * ResultPackageRow * PrincipalRow * TreeRow) : result ResultPackageRecord :=
  let? record := scan_joined (Some x) in
  reject (New "stored result package root differs from its tree")
    when (record.(rpr_RootPrincipal) <> principal.(p_Identity) \/ record.(rpr_RootDeviceID) <> p_DeviceID principal) in
  Ok record.

(* go: internal/store/result_package.go ListDeliveredResultPackages *)
Definition ListDeliveredResultPackages (root : PrincipalIdentity) (request : ResultPackagePageRequest) (db : DB)
    : result ResultPackagePage :=
  do? wrap "root" (PrincipalIdentity_Validate root) in
  reject ErrResultPackageCursorAhead when (request.(rq_AfterSequence) > MaxInt64) in
  reject (New "result package page limit must be from 1 through %d")
    when (request.(rq_Limit) < 1 \/ request.(rq_Limit) > maximumResultPackageStorePage) in
  let? principal := authorizePrincipal root CapabilityAgentManageDescendants db in
  reject ErrAuthorizationDenied when (p_ParentAgentID principal <> "") in
  let? highwater := match tree_row db root.(pi_ControllerID) root.(pi_TreeID) with
                    | None => Err ErrNotFound
                    | Some (_, r) => Ok r.(tr_last_result_sequence)
                    end in
  reject ErrResultPackageCursorAhead when (request.(rq_AfterSequence) > highwater) in
  let? packages := result_mapM (scan_delivered principal)
    (limit request.(rq_Limit) (delivered_after root.(pi_ControllerID) root.(pi_TreeID) request.(rq_AfterSequence) db)) in
  Ok {| rg_Packages := packages;
        rg_NextSequence := default request.(rq_AfterSequence) (rpr_Sequence <$> last packages);
        rg_Highwater := highwater |}.

(* go: internal/store/result_package.go ResultPackageRelayCursor *)
Record ResultPackageRelayCursor := { rc_PublishedAt : Z; rc_PackageID : string }.

(* go: internal/store/result_package.go ResultPackageRelayPageRequest *)
Record ResultPackageRelayPageRequest := { ry_After : option ResultPackageRelayCursor; ry_Limit : Z }.

(* go: internal/store/result_package.go ResultPackageRelayPage *)
Record ResultPackageRelayPage := {
  rl_Packages : list ResultPackageRecord;
  rl_NextAfter : option ResultPackageRelayCursor;
}.

(** Work for a peer: a package waiting for delivery from or to its device, or one of
    its own that it still has to acknowledge or release. *)
(* go: internal/store/result_package.go:602-605 ListPendingResultPackageRelaysForPeer *)
Definition relay_pending (controllerID deviceID : string) (x : (string * string * string) * ResultPackageRow) : Prop :=
  x.1.1.1 = controllerID /\
  ((x.2.(rk_state) = ResultPackageDeliveryPending /\
    (x.2.(rk_source_device_id) = deviceID \/ x.2.(rk_root_device_id) = deviceID)) \/
   (x.2.(rk_state) = ResultPackageDelivered /\ x.2.(rk_source_device_id) = deviceID /\ x.2.(rk_source_released_at) = 0)).
#[global] Instance relay_pending_dec c d x : Decision (relay_pending c d x).
Proof. unfold relay_pending. apply _. Defined.

(** Strictly after the cursor in the order (publication time, package id). *)
(* go: internal/store/result_package.go:606-606 ListPendingResultPackageRelaysForPeer *)
Definition after_cursor (after : option ResultPackageRelayCursor) (x : (string * string * string) * ResultPackageRow) : Prop :=
  match after with
  | None => True
  | Some cursor =>
      cursor.(rc_PublishedAt) < x.2.(rk_published_at) \/
      (x.2.(rk_published_at) = cursor.(rc_PublishedAt) /\ String.leb x.1.2 cursor.(rc_PackageID) = false)
  end.
#[global] Instance after_cursor_dec after x : Decision (after_cursor after x).
Proof. destruct after; simpl; apply _. Defined.

(** [ORDER BY published_at, package_id]. *)
Definition order_by_relay (l : list ((string * string * string) * ResultPackageRow)) : list ((string * string * string) * ResultPackageRow) :=
  order_by (fun x => x.2.(rk_published_at)) (order_by_text (fun x => x.1.2) l).

(* go: internal/store/result_package.go ListPendingResultPackageRelaysForPeer *)
Definition ListPendingResultPackageRelaysForPeer (controllerID deviceID : string) (request : ResultPackageRelayPageRequest) (db : DB)
    : result ResultPackageRelayPage :=
  do? wrap "controllerId" (ValidateID controllerID) in
  do? wrap "deviceId" (ValidateID deviceID) in
  reject (New "pending result package relay limit must be from 1 through %d")
    when (request.(ry_Limit) < 1 \/ request.(ry_Limit) > maximumPendingResultRelays) in
  do? match request.(ry_After) with
      | None => Ok tt
      | Some cursor =>
          reject (New "pending result package relay cursor publishedAt must be non-negative")
            when (cursor.(rc_PublishedAt) < 0) in
          wrap "pending result package relay cursor packageId" (ValidateID cursor.(rc_PackageID))
      end in
  let? packages := result_mapM (fun x => scan_joined (Some x))
    (limit request.(ry_Limit) (omap (fun x => join_package x db) (order_by_relay
      (select (fun x => relay_pending controllerID deviceID x /\ after_cursor request.(ry_After) x) db.(result_packages))))) in
  Ok {| rl_Packages := packages;
        rl_NextAfter := if decide (Z.of_nat (length packages) = request.(ry_Limit))
                        then (fun record => {| rc_PublishedAt := record.(rpr_PublishedAt);
                                               rc_PackageID := record.(rpr_Manifest).(rm_PackageID) |}) <$> last packages
                        else None |}.

(** ** Compaction *)

(* go: internal/store/peer_result_package.go:18-19 MaximumPeerResultPackages *)
Definition MaximumPeerResultPackages : Z := 64.

(* go: internal/store/result_package_gc.go:12-19 MaximumBrokerResultPackageDetailsPerRoot *)
Definition MaximumBrokerResultPackageDetailsPerRoot : Z := MaximumPeerResultPackages.
Definition MaximumResultPackageDetailCompactionBatch : Z := 128.

(* go: internal/store/result_package_gc.go ResultPackageDetailCompaction *)
Record ResultPackageDetailCompaction := { cp_Compacted : Z; cp_More : bool }.

Definition delivered_of (controllerID : string) (x : (string * string * string) * ResultPackageRow) : Prop :=
  x.1.1.1 = controllerID /\ x.2.(rk_state) = ResultPackageDelivered.
#[global] Instance delivered_of_dec c x : Decision (delivered_of c x).
Proof. unfold delivered_of. apply _. Defined.

(** [row_number() OVER (PARTITION BY root_device_id ORDER BY root_retention_ordinal
    DESC)]: one more than the number of packages of the same root that came later. The
    ordinals of a root are unique. *)
(* go: internal/store/result_package_gc.go:53-65 CompactReleasedResultPackageDetails *)
Definition retention_rank (controllerID : string) (x : (string * string * string) * ResultPackageRow) (db : DB) : Z :=
  1 + Z.of_nat (length (select (fun y => delivered_of controllerID y /\ y.2.(rk_root_device_id) = x.2.(rk_root_device_id) /\
    x.2.(rk_root_retention_ordinal) < y.2.(rk_root_retention_ordinal)) db.(result_packages))).

(** The details that may go: outside the newest of their root, and released. *)
(* go: internal/store/result_package_gc.go:66-71 CompactReleasedResultPackageDetails *)
Definition compactable (controllerID : string) (db : DB) : list ((string * string * string) * ResultPackageRow) :=
  order_by (fun x => x.2.(rk_root_retention_ordinal))
    (order_by_text (fun x => x.1.1.2) (order_by_text (fun x => x.1.2)
      (select (fun x => delivered_of controllerID x /\
         retention_rank controllerID x db > MaximumBrokerResultPackageDetailsPerRoot /\ 0 < x.2.(rk_source_released_at))
         db.(result_packages)))).

(** [DELETE] of a package; its apply authorizations go with it (ON DELETE CASCADE). *)
(* go: internal/store/result_package_gc.go:95-109 CompactReleasedResultPackageDetails *)
Definition delete_package (k : string * string * string) (db : DB) : result DB :=
  match db.(result_packages) !! k with
  | Some r =>
      reject (New "result package detail changed during compaction")
        when (~ (r.(rk_state) = ResultPackageDelivered /\ 0 < r.(rk_source_released_at))) in
      Ok (set_result_apply_authorizations (set_result_packages db (delete k db.(result_packages)))
            (filter (fun x : (string * string * string * string) * ApplyRow =>
               ~ (x.1.1.1 = k.1 /\ x.2.(ap_package_id) = k.2)) db.(result_apply_authorizations)))
  | None => Err (New "result package detail changed during compaction")
  end.

(* go: internal/store/result_package_gc.go CompactReleasedResultPackageDetails *)
Definition CompactReleasedResultPackageDetails (controllerID : string) (limit_ : Z) : Tx DB ResultPackageDetailCompaction :=
  do! tx_lift (wrap "controllerId" (ValidateID controllerID)) in
  fail (New "result package detail compaction limit must be from 1 through %d")
    when (limit_ < 1 \/ limit_ > MaximumResultPackageDetailCompactionBatch) in
  let! keys := tx_query (fun db => Ok (limit (limit_ + 1) (fst <$> compactable controllerID db))) in
  let more := limit_ <? Z.of_nat (length keys) in
  let keys := limit limit_ keys in
  do! tx_iter (fun k => tx_exec (delete_package k)) keys in
  if decide (length keys = O) then tx_ret {| cp_Compacted := 0; cp_More := more |}
  else
    do! tx_exec (incrementStatusLifetimeCounters controllerID (result_increment 0 0 0 (Z.of_nat (length keys)))) in
    tx_ret {| cp_Compacted := Z.of_nat (length keys); cp_More := more |}.

(** ** Applying a result *)

Definition apply_key (root : PrincipalIdentity) (applyID : string) : string * string * string * string :=
  (root.(pi_ControllerID), root.(pi_TreeID), root.(pi_AgentID), applyID).

(* go: internal/store/result_apply.go resultApplyAuthorization *)
Record resultApplyAuthorization := {
  ra_Params : AuthorizeResultApplyParams;
  ra_Result : AuthorizeResultApplyResult;
}.

Definition row_authorization (applyID : string) (r : ApplyRow) : resultApplyAuthorization := {|
  ra_Params := {| aap_ApplyID := applyID; aap_PackageID := r.(ap_package_id);
                  aap_SourcePathSHA256 := hex_string r.(ap_source_path_digest); aap_GitURL := r.(ap_git_url) |};
  ra_Result := {| aar_ApplyID := applyID; aar_PackageID := r.(ap_package_id); aar_ManifestSHA256 := r.(ap_manifest_sha256);
                  aar_WorkspaceID := r.(ap_workspace_id); aar_BaseManifestHash := r.(ap_base_manifest_hash) |} |}.

(* go: internal/store/result_apply.go queryResultApplyAuthorization *)
Definition queryResultApplyAuthorization (root : PrincipalIdentity) (applyID : string) (db : DB) : result resultApplyAuthorization :=
  match db.(result_apply_authorizations) !! apply_key root applyID with
  | None => Err ErrNotFound
  | Some r =>
      reject (New "stored result apply source path digest is invalid") when (len r.(ap_source_path_digest) <> 32) in
      let stored := row_authorization applyID r in
      do? wrap "stored result apply request is invalid" (AuthorizeResultApplyParams_Validate stored.(ra_Params)) in
      do? wrap "stored result apply authorization is invalid" (AuthorizeResultApplyResult_Validate stored.(ra_Result)) in
      Ok stored
  end.

(* go: internal/store/result_apply.go resultApplyWorkspaceMatchesReceipt *)
Definition resultApplyWorkspaceMatchesReceipt (receipt : WorkspaceSyncReceipt) (w : ResultWorkspaceComponent)
    (package : ResultPackageRecord) (root : PrincipalIdentity) : Prop :=
  receipt.(wsr_Status) = WorkspaceSyncPrepared /\ receipt.(wsr_ConsumedSpawnID) <> "" /\
  receipt.(wsr_SourceDeviceID) = root.(pi_DeviceID) /\ receipt.(wsr_SourceDeviceID) = w.(rw_SourceDeviceID) /\
  receipt.(wsr_TargetDeviceID) = package.(rpr_SourcePrincipal).(pi_DeviceID) /\
  receipt.(wsr_TargetDeviceID) = w.(rw_TargetDeviceID) /\ workspace_base_matches receipt w.
#[global] Instance resultApplyWorkspaceMatchesReceipt_dec receipt w p root :
  Decision (resultApplyWorkspaceMatchesReceipt receipt w p root).
Proof. unfold resultApplyWorkspaceMatchesReceipt. apply _. Defined.

Definition result_receipt_key (root : PrincipalIdentity) (w : ResultWorkspaceComponent) : WorkspaceSyncKey := {|
  wk_ControllerID := root.(pi_ControllerID); wk_TreeID := root.(pi_TreeID); wk_SourceAgentID := root.(pi_AgentID);
  wk_SyncID := w.(rw_WorkspaceID) |}.

Definition insert_apply (k : string * string * string * string) (r : ApplyRow) (db : DB) : result DB :=
  let? tb := sql_insert db.(result_apply_authorizations) k r
    (apply_check k.1.2 k.2 r && principal_exists db k.1.1.1 k.1.1.2 k.1.2 &&
     bool_decide (is_Some (db.(result_packages) !! (k.1.1, r.(ap_package_id)))) &&
     negb (none_where (fun x : (string * string * string * string) * WorkspaceRow =>
       x.1.1.1 = k.1.1 /\ x.1.2 = r.(ap_workspace_id)) db.(workspace_sync_receipts))) in
  Ok (set_result_apply_authorizations db tb).

(** The delivered package, the receipt it was made from, and the request agree. *)
(* go: internal/store/result_apply.go:73-113 AuthorizeResultApply *)
Definition new_authorization (connectedDeviceID : string) (root : PrincipalIdentity) (params : AuthorizeResultApplyParams)
    (pathDigest : string) (db : DB) : result AuthorizeResultApplyResult :=
  let? package := queryResultPackageByID root.(pi_ControllerID) root.(pi_TreeID) params.(aap_PackageID) db in
  reject ErrAuthorizationDenied
    when (package.(rpr_State) <> ResultPackageDelivered \/ package.(rpr_RootPrincipal) <> root \/
          package.(rpr_RootDeviceID) <> connectedDeviceID) in
  let w := package.(rpr_Manifest).(rm_Workspace) in
  reject (Wrap "result package has no applicable workspace result" ErrConflict)
    when (w.(rw_Status) <> ResultWorkspaceChanged /\ w.(rw_Status) <> ResultWorkspaceUnchanged) in
  let? receipt := not_found_denied (queryWorkspaceSyncReceipt (result_receipt_key root w) db) in
  reject ErrAuthorizationDenied when (~ resultApplyWorkspaceMatchesReceipt receipt w package root) in
  reject (Wrap "apply source differs from the synchronized root workspace" ErrConflict)
    when (receipt.(wsr_GitURL) <> params.(aap_GitURL) \/ receipt.(wsr_SourcePathHash) <> pathDigest) in
  let authorized := {| aar_ApplyID := params.(aap_ApplyID); aar_PackageID := params.(aap_PackageID);
                       aar_ManifestSHA256 := package.(rpr_Metadata).(rpm_ManifestDescriptor).(rd_SHA256);
                       aar_WorkspaceID := w.(rw_WorkspaceID); aar_BaseManifestHash := receipt.(wsr_ManifestHash) |} in
  do? wrap "build result apply authorization" (AuthorizeResultApplyResult_Validate authorized) in
  Ok authorized.

(* go: internal/store/result_apply.go AuthorizeResultApply *)
Definition AuthorizeResultApply (connectedDeviceID : string) (root : PrincipalIdentity) (params : AuthorizeResultApplyParams)
    (authorizedAt : Z) : Tx DB AuthorizeResultApplyResult :=
  do! tx_lift (wrap "connectedDeviceId" (ValidateID connectedDeviceID)) in
  do! tx_lift (wrap "root" (PrincipalIdentity_Validate root)) in
  do! tx_lift (AuthorizeResultApplyParams_Validate params) in
  let! pathDigest := tx_lift (match hex_decode params.(aap_SourcePathSHA256) with
                              | Some digest => reject (New "sourcePathSha256 is invalid") when (len digest <> 32) in Ok digest
                              | None => Err (New "sourcePathSha256 is invalid")
                              end) in
  let! timestamp := tx_lift (unixTime authorizedAt) in
  do! tx_query (authorize_root connectedDeviceID root CapabilityArtifactApply) in
  let! stored := tx_query (fun db => optional (queryResultApplyAuthorization root params.(aap_ApplyID) db)) in
  match stored with
  | Some stored =>
      fail (Wrap "applyId already identifies another request" ErrConflict) when (stored.(ra_Params) <> params) in
      tx_ret stored.(ra_Result)
  | None =>
      let! authorized := tx_query (new_authorization connectedDeviceID root params pathDigest) in
      do! tx_exec (fun db => wrap "record result apply authorization"
        (insert_apply (apply_key root params.(aap_ApplyID))
           {| ap_package_id := params.(aap_PackageID); ap_git_url := params.(aap_GitURL); ap_source_path_digest := pathDigest;
              ap_manifest_sha256 := authorized.(aar_ManifestSHA256); ap_workspace_id := authorized.(aar_WorkspaceID);
              ap_base_manifest_hash := authorized.(aar_BaseManifestHash); ap_authorized_at := timestamp |} db)) in
      tx_ret authorized
  end.

(** ** Rows that read back *)

Definition package_row_ok (k : string * string * string) (r : ResultPackageRow) : Prop :=
  result_package_check k.2 r = true /\ valid_id r.(rk_root_device_id) /\ r.(rk_result_sequence) <= MaxInt64 /\
  r.(rk_root_retention_ordinal) <= MaxInt64 /\
  exists m, DecodeManifest (row_metadata r) = Ok m /\ manifest_matches k r m.

(** The states the table admits are the ones the code reads. *)
Lemma check_delivery_state_Ok packageID r :
  result_package_check packageID r = true -> r.(rk_result_sequence) <= MaxInt64 -> r.(rk_root_retention_ordinal) <= MaxInt64 ->
  check_delivery_state r = Ok tt /\ 0 <= r.(rk_published_at).
Proof.
  unfold result_package_check. rewrite !andb_true_iff. intros Hc Hs Ho. destruct_and!.
  repeat match goal with H : bool_decide _ = true |- _ => apply bool_decide_eq_true in H | H : (_ <=? _) = true |- _ => apply Z.leb_le in H end.
  split; [|done]. unfold check_delivery_state, ResultPackageDeliveryPending, ResultPackageDelivered.
  match goal with H : _ \/ _ |- _ => destruct H as [(-> & H)|(-> & H)] end; simpl.
  - rewrite decide_False by lia. done.
  - rewrite decide_False by lia. done.
Qed.

Lemma scanResultPackage_Ok k r p tr record :
  scanResultPackage k r p tr = Ok record -> exists m, DecodeManifest (row_metadata r) = Ok m /\ record = package_record k r p tr m.
Proof.
  unfold scanResultPackage. destruct (DecodeManifest _) as [m|e]; [|done].
  rewrite !reject_Ok, do_Ok. intros (_ & _ & _ & _ & _ & _ & _ & [= <-]). eauto.
Qed.

Lemma scanResultPackage_reads k r p tr m :
  package_row_ok k r -> DecodeManifest (row_metadata r) = Ok m -> p.(pr_device_id) = r.(rk_source_device_id) ->
  tr.(tr_root_device_id) = r.(rk_root_device_id) -> p.(pr_parent_agent_id) <> "" ->
  identity_ok (source_identity k r p) -> identity_ok (root_identity k tr) ->
  scanResultPackage k r p tr = Ok (package_record k r p tr m).
Proof.
  intros (Hc & Hd & Hs & Ho & m' & Hm & Hmm) Hm' Hpd Htd Hpp Hsi Hri. rewrite Hm in Hm'. injection Hm' as ->.
  destruct (check_delivery_state_Ok _ _ Hc Hs Ho) as [Hst Hpub]. unfold scanResultPackage.
  apply PrincipalIdentity_Validate_Ok in Hsi, Hri.
  rewrite Hm, !reject_Ok, do_Ok, Hsi, Hri, Hd, Hst. split_and!; [tauto|done|naive_solver|naive_solver|done|lia|done|done].
Qed.

(** ** The invariant *)

(** The principal and the tree a package is joined with. *)
Record package_joined (db : DB) (k : string * string * string) (r : ResultPackageRow) (p : PrincipalRow) (kt : string * string)
    (tr : TreeRow) : Prop := {
  pj_principal : db.(principals) !! (k.1.1, k.1.2, r.(rk_source_agent_id)) = Some p;
  pj_device : p.(pr_device_id) = r.(rk_source_device_id);
  pj_parent : p.(pr_parent_agent_id) <> "";
  pj_tree : db.(trees) !! kt = Some tr;
  pj_controller : kt.1 = k.1.1;
  pj_tree_id : tr.(tr_tree_id) = k.1.2;
  pj_root : tr.(tr_root_device_id) = r.(rk_root_device_id);
  pj_sequence : r.(rk_result_sequence) <= tr.(tr_last_result_sequence);
}.

(** Every package reads back; a worker has one package for a turn; the numbers in a
    tree and the retention ordinals of a root are unique; an authorization is valid and
    is one of a delivered package. *)
Record result_inv (db : DB) : Prop := {
  ri_rows k r : db.(result_packages) !! k = Some r ->
    package_row_ok k r /\ exists p kt tr, package_joined db k r p kt tr;
  ri_turns k k' r r' : db.(result_packages) !! k = Some r -> db.(result_packages) !! k' = Some r' -> k.1 = k'.1 ->
    r.(rk_source_agent_id) = r'.(rk_source_agent_id) -> r.(rk_turn_id) = r'.(rk_turn_id) -> k = k';
  ri_sequences k k' r r' : db.(result_packages) !! k = Some r -> db.(result_packages) !! k' = Some r' -> k.1 = k'.1 ->
    0 < r.(rk_result_sequence) -> r.(rk_result_sequence) = r'.(rk_result_sequence) -> k = k';
  ri_ordinals k k' r r' : db.(result_packages) !! k = Some r -> db.(result_packages) !! k' = Some r' -> k.1.1 = k'.1.1 ->
    0 < r.(rk_root_retention_ordinal) -> r.(rk_root_device_id) = r'.(rk_root_device_id) ->
    r.(rk_root_retention_ordinal) = r'.(rk_root_retention_ordinal) -> k = k';
  ri_counters kt tr : db.(trees) !! kt = Some tr -> 0 <= tr.(tr_last_result_sequence) <= MaxInt64;
  ri_applies k a : db.(result_apply_authorizations) !! k = Some a ->
    len a.(ap_source_path_digest) = 32 /\
    AuthorizeResultApplyParams_Validate (row_authorization k.2 a).(ra_Params) = Ok tt /\
    AuthorizeResultApplyResult_Validate (row_authorization k.2 a).(ra_Result) = Ok tt /\
    exists r, db.(result_packages) !! (k.1.1, a.(ap_package_id)) = Some r /\ r.(rk_state) = ResultPackageDelivered /\
      a.(ap_manifest_sha256) = r.(rk_manifest_sha256);
}.

Lemma no_results_inv db :
  db.(result_packages) = ∅ -> db.(result_apply_authorizations) = ∅ ->
  (forall kt tr, db.(trees) !! kt = Some tr -> 0 <= tr.(tr_last_result_sequence) <= MaxInt64) -> result_inv db.
Proof. intros E1 E2 Ht. split; rewrite ?E1, ?E2; try done; intros *; rewrite lookup_empty; done. Qed.

Lemma package_joined_identities db k r p kt tr :
  trees_inv db -> package_joined db k r p kt tr -> identity_ok (source_identity k r p) /\ identity_ok (root_identity k tr).
Proof.
  intros Ht [Hp Hd Hpp Htr Hc Hid Hroot _]. split.
  - destruct (ti_principals _ Ht _ _ Hp) as (Hok & _). apply principal_row_ok_id in Hok.
    unfold identity_of in Hok. simpl in Hok. rewrite Hd in Hok. exact Hok.
  - destruct (ti_trees _ Ht _ _ Htr) as (_ & pr & Hpr & Hpar & Hdev).
    destruct (ti_principals _ Ht _ _ Hpr) as (Hok & _). apply principal_row_ok_id in Hok.
    unfold identity_of in Hok. simpl in Hok. rewrite Hpar, Hdev, Hc, Hid in Hok. exact Hok.
Qed.

(** What the queries read. *)
Lemma join_package_reads db k r p kt tr :
  trees_inv db -> package_joined db k r p kt tr -> join_package (k, r) db = Some (k, r, p, tr).
Proof.
  intros Ht [Hp _ _ Htr Hc Hid _ _]. unfold join_package. rewrite Hp. simpl. destruct kt as [c th]. simpl in Hc. subst c.
  rewrite (tree_row_unique _ _ _ _ _ Ht Htr Hid). done.
Qed.

Lemma scan_joined_reads db k r p kt tr m :
  trees_inv db -> package_row_ok k r -> package_joined db k r p kt tr -> DecodeManifest (row_metadata r) = Ok m ->
  scan_joined (join_package (k, r) db) = Ok (package_record k r p tr m).
Proof.
  intros Ht Hok Hj Hm. rewrite (join_package_reads _ _ _ _ _ _ Ht Hj). simpl.
  destruct (package_joined_identities _ _ _ _ _ _ Ht Hj). destruct Hj. by apply scanResultPackage_reads.
Qed.

(** A stored package with all that it is read from. *)
Record package_read (db : DB) (k : string * string * string) (r : ResultPackageRow) (p : PrincipalRow) (kt : string * string)
    (tr : TreeRow) (m : ResultManifest) : Prop := {
  rd_found : db.(result_packages) !! k = Some r;
  rd_ok : package_row_ok k r;
  rd_joined : package_joined db k r p kt tr;
  rd_decoded : DecodeManifest (row_metadata r) = Ok m;
  rd_matches : manifest_matches k r m;
}.

Lemma stored_package_read db k r :
  result_inv db -> db.(result_packages) !! k = Some r -> exists p kt tr m, package_read db k r p kt tr m.
Proof.
  intros Hi Hk. destruct (ri_rows _ Hi _ _ Hk) as (Hok & p & kt & tr & Hj). assert (Hok' := Hok).
  destruct Hok' as (_ & _ & _ & _ & m & Hm & Hmm). exists p, kt, tr, m. by split.
Qed.

(** The numbers of a tree's packages are at most its last one. *)
Lemma sequence_bounded db c t id r kt tr :
  trees_inv db -> result_inv db -> db.(result_packages) !! (c, t, id) = Some r -> tree_row db c t = Some (kt, tr) ->
  r.(rk_result_sequence) <= tr.(tr_last_result_sequence).
Proof.
  intros Ht Hi Hk Etr. destruct (ri_rows _ Hi _ _ Hk) as (_ & p & kt0 & tr0 & [_ _ _ K4 K5 K6 _ K8]). simpl in K5, K6.
  apply tree_row_Some in Etr as (T4 & T5 & T6).
  assert (kt0 = kt) as -> by (eapply (ti_unique _ Ht); [exact K4|exact T4|by rewrite T5|by rewrite T6]). congruence.
Qed.

Lemma package_read_scan db k r p kt tr m :
  trees_inv db -> package_read db k r p kt tr m ->
  scan_joined (join_package (k, r) db) = Ok (package_record k r p tr m).
Proof. intros Ht []. by eapply scan_joined_reads. Qed.

Lemma queryResultPackageByID_Some db c t id r p kt tr m :
  trees_inv db -> package_read db (c, t, id) r p kt tr m ->
  queryResultPackageByID c t id db = Ok (package_record (c, t, id) r p tr m).
Proof. intros Ht Hr. unfold queryResultPackageByID. rewrite (rd_found _ _ _ _ _ _ _ Hr). by eapply package_read_scan. Qed.

Lemma queryResultPackageByID_None db c t id :
  db.(result_packages) !! (c, t, id) = None -> queryResultPackageByID c t id db = Err ErrNotFound.
Proof. intros H. unfold queryResultPackageByID. by rewrite H. Qed.

Lemma queryResultPackageByID_Ok db c t id record :
  trees_inv db -> result_inv db -> queryResultPackageByID c t id db = Ok record ->
  exists r p kt tr m, package_read db (c, t, id) r p kt tr m /\ record = package_record (c, t, id) r p tr m.
Proof.
  intros Ht Hi H. destruct (db.(result_packages) !! (c, t, id)) as [r|] eqn:E; [|by rewrite queryResultPackageByID_None in H].
  destruct (stored_package_read _ _ _ Hi E) as (p & kt & tr & m & Hr).
  rewrite (queryResultPackageByID_Some _ _ _ _ _ _ _ _ _ Ht Hr) in H. injection H as <-. eauto 10.
Qed.

Lemma optional_queryResultPackageByID_None db c t id :
  trees_inv db -> result_inv db -> optional (queryResultPackageByID c t id db) = Ok None ->
  db.(result_packages) !! (c, t, id) = None.
Proof.
  intros Ht Hi (e & H & _)%optional_Ok_None. destruct (db.(result_packages) !! (c, t, id)) as [r|] eqn:E; [|done].
  destruct (stored_package_read _ _ _ Hi E) as (p & kt & tr & m & Hr).
  by rewrite (queryResultPackageByID_Some _ _ _ _ _ _ _ _ _ Ht Hr) in H.
Qed.

(** The package of a turn, if there is one. *)
Lemma queryResultPackageByTurn_cases db c t a u :
  trees_inv db -> result_inv db ->
  (exists id r p kt tr m, package_read db (c, t, id) r p kt tr m /\ r.(rk_source_agent_id) = a /\ r.(rk_turn_id) = u /\
     queryResultPackageByTurn c t a u db = Ok (package_record (c, t, id) r p tr m)) \/
  ((forall id r, db.(result_packages) !! (c, t, id) = Some r -> ~ (r.(rk_source_agent_id) = a /\ r.(rk_turn_id) = u)) /\
   queryResultPackageByTurn c t a u db = Err ErrNotFound).
Proof.
  intros Ht Hi. unfold queryResultPackageByTurn. destruct (select_row _ _) as [[k r]|] eqn:E; [left|right].
  - apply select_row_Some in E as (Hk & Hkt & Ha & Hu). simpl in *. destruct k as [[c' t'] id]. simpl in Hkt. simplify_eq.
    destruct (stored_package_read _ _ _ Hi Hk) as (p & kt & tr & m & Hr). exists id, r, p, kt, tr, m.
    split_and!; [done..|]. exact (package_read_scan _ _ _ _ _ _ _ Ht Hr).
  - split; [|done]. rewrite select_row_None in E. intros id r Hk [Ha Hu]. by apply (E _ _ Hk).
Qed.

(** ** Publishing: what a call does *)

Lemma DecodeManifest_kind md m : DecodeManifest md = Ok m -> md.(rpm_ManifestDescriptor).(rd_Kind) = ResultPackagePartManifest.
Proof. unfold DecodeManifest. rewrite do_Ok, reject_Ok. intros (_ & H & _). by apply dec_stable in H. Qed.

Lemma row_metadata_pending md m rootDeviceID ts :
  DecodeManifest md = Ok m -> row_metadata (pending_package m md rootDeviceID ts) = md.
Proof. intros H%DecodeManifest_kind. destruct md as [bytes_ [kind size sha]]. simpl in *. by subst kind. Qed.

Lemma authorize_source_Ok connectedDeviceID source db p :
  trees_inv db -> authorize_source connectedDeviceID source db = Ok p ->
  p = principal_of source /\ source.(pi_ParentAgentID) <> "" /\ source.(pi_DeviceID) = connectedDeviceID /\
  exists row, db.(principals) !! (source.(pi_ControllerID), source.(pi_TreeID), source.(pi_AgentID)) = Some row /\
    identity_of (source.(pi_ControllerID), source.(pi_TreeID), source.(pi_AgentID)) row = source.
Proof.
  intros Ht. unfold authorize_source. rewrite (authorizePrincipal_eq _ _ _ Ht).
  destruct (_ !! _) as [row|] eqn:E; [|done]. destruct (decide _) as [[Hid _]|]; [|done]. simpl.
  rewrite reject_Ok. intros [[Hp Hd]%Decidable.not_or [= <-]]. split_and!; [done|done|by apply dec_stable in Hd|]. eauto.
Qed.

Lemma authorize_root_Ok connectedDeviceID root required db p :
  trees_inv db -> authorize_root connectedDeviceID root required db = Ok p ->
  p = principal_of root /\ root.(pi_ParentAgentID) = "" /\ root.(pi_DeviceID) = connectedDeviceID /\
  exists row, db.(principals) !! (root.(pi_ControllerID), root.(pi_TreeID), root.(pi_AgentID)) = Some row /\
    identity_of (root.(pi_ControllerID), root.(pi_TreeID), root.(pi_AgentID)) row = root.
Proof.
  intros Ht. unfold authorize_root. rewrite (authorizePrincipal_eq _ _ _ Ht).
  destruct (_ !! _) as [row|] eqn:E; [|done]. destruct (decide _) as [[Hid _]|]; [|done]. simpl.
  rewrite reject_Ok. intros [[Hp Hd]%Decidable.not_or [= <-]]. apply dec_stable in Hp, Hd. split_and!; [done..|]. eauto.
Qed.

(** The worker may publish: its spawn has started under the tree's root, the broker
    knows it to be finalizing exactly this turn, and the result's base is the workspace
    its spawn consumed. *)
Record may_publish (connectedDeviceID : string) (source : PrincipalIdentity) (m : ResultManifest) (rootDeviceID : string) (db : DB)
    : Prop := {
  mp_spawn : exists spawn, queryAgentSpawnReceiptByAgent source.(pi_ControllerID) source.(pi_TreeID) source.(pi_AgentID) db = Ok spawn /\
    spawn.(asr_Agent).(as_Principal) = source /\ spawn.(asr_Agent).(as_SpawnStatus) = AgentSpawnStarted /\
    authorizeResultPackageWorkspace spawn m.(rm_Workspace) db = Ok tt;
  mp_tree : exists kt tr, tree_row db source.(pi_ControllerID) source.(pi_TreeID) = Some (kt, tr) /\
    tr.(tr_root_device_id) = rootDeviceID /\ tr.(tr_root_agent_id) = source.(pi_ParentAgentID);
  mp_turn : exists authority,
    queryWorkerLifecycleAuthority source.(pi_ControllerID) source.(pi_TreeID) source.(pi_AgentID) db = Ok authority /\
    finalizing_turn authority connectedDeviceID m;
}.

Lemma not_found_denied_Ok {A} (r : result A) a : not_found_denied r = Ok a <-> r = Ok a.
Proof. destruct r as [a'|e]; simpl; [done|]. destruct (errors_Is _ _); naive_solver. Qed.

Lemma authorizeNewResultPackage_Ok connectedDeviceID source m db rootDeviceID :
  trees_inv db -> authorizeNewResultPackage connectedDeviceID (principal_of source) m db = Ok rootDeviceID ->
  may_publish connectedDeviceID source m rootDeviceID db.
Proof.
  intros Ht H. unfold authorizeNewResultPackage in H. apply result_bind_Ok in H as (spawn & Hs & H).
  rewrite not_found_denied_Ok in Hs. apply result_bind_Ok in H as (tree & Htree & H). cbv zeta in H.
  rewrite !reject_Ok in H. destruct H as ([Hp [Hpar _]%Decidable.not_or]%Decidable.not_or & _ & Hst & H).
  apply dec_stable in Hp, Hpar, Hst. apply result_bind_Ok in H as (authority & Ha & H).
  rewrite !reject_Ok, do_Ok in H. destruct H as (_ & Hf & Hw & Hroot). apply dec_stable in Hf. injection Hroot as Hroot.
  assert (queryWorkerLifecycleAuthority source.(pi_ControllerID) source.(pi_TreeID) source.(pi_AgentID) db = Ok authority) as Ha'.
  { unfold p_ControllerID, p_TreeID, p_AgentID in Ha. simpl in Ha. destruct (queryWorkerLifecycleAuthority _ _ _ _) as [a'|e]; [congruence|].
    destruct (errors_Is _ _) in Ha; discriminate. }
  split.
  - exists spawn. split_and!; [exact Hs|exact Hp|exact Hst|exact Hw].
  - change (queryTreeByID source.(pi_ControllerID) source.(pi_TreeID) db = Ok tree) in Htree.
    pose proof (queryTreeByID_inv source.(pi_ControllerID) source.(pi_TreeID) db Ht) as Hq.
    destruct (tree_row _ _ _) as [[kt tr]|]; [|rewrite Hq in Htree; discriminate].
    destruct Hq as (tree' & Hq & [-> _]%scanTree_Ok). rewrite Hq in Htree. injection Htree as <-.
    exists kt, tr. split_and!; [done|done|]. simpl in Hp, Hpar. congruence.
  - exists authority. done.
Qed.

Lemma insert_package_Ok k r db db' :
  insert_package k r db = Ok db' ->
  db.(result_packages) !! k = None /\ result_package_check k.2 r = true /\ package_unique k r db = true /\
  principal_exists db k.1.1 k.1.2 r.(rk_source_agent_id) = true /\
  db' = set_result_packages db (<[k := r]> db.(result_packages)).
Proof.
  unfold insert_package. intros H. apply result_bind_Ok in H as (tb & H & Hdb).
  apply sql_insert_Ok in H as (Hok & Hn & ->). rewrite !andb_true_iff in Hok. destruct_and!. split_and!; [done..|congruence].
Qed.

(** The key of the package a manifest describes. *)
Definition manifest_key (m : ResultManifest) : string * string * string :=
  (m.(rm_ControllerID), m.(rm_TreeID), m.(rm_PackageID)).

(** The manifest is about the worker that publishes it. *)
Definition manifest_source (m : ResultManifest) (source : PrincipalIdentity) : Prop :=
  m.(rm_ControllerID) = source.(pi_ControllerID) /\ m.(rm_TreeID) = source.(pi_TreeID) /\
  m.(rm_SourceAgentID) = source.(pi_AgentID) /\ m.(rm_SourceDeviceID) = source.(pi_DeviceID).

(** A publication either finds the very same package or stores a new one, of a turn
    that has none. *)
Record published_new (connectedDeviceID : string) (source : PrincipalIdentity) (m : ResultManifest) (md : ResultPackageMetadata)
    (ts : Z) (db db' : DB) : Prop := {
  pn_time : 0 <= ts;
  pn_absent : db.(result_packages) !! manifest_key m = None;
  pn_turn : forall id r, db.(result_packages) !! (m.(rm_ControllerID), m.(rm_TreeID), id) = Some r ->
    ~ (r.(rk_source_agent_id) = m.(rm_SourceAgentID) /\ r.(rk_turn_id) = m.(rm_TurnID));
  pn_stored : exists rootDeviceID, may_publish connectedDeviceID source m rootDeviceID db /\
    let r := pending_package m md rootDeviceID ts in
    result_package_check m.(rm_PackageID) r = true /\
    db' = set_result_packages db (<[manifest_key m := r]> db.(result_packages));
}.

Lemma replayResultPackage_Ok stored requested m :
  replayResultPackage stored requested m = Ok tt <->
  stored.(rpr_Manifest).(rm_PackageID) = m.(rm_PackageID) /\ stored.(rpr_Manifest).(rm_SourceAgentID) = m.(rm_SourceAgentID) /\
  stored.(rpr_Manifest).(rm_TurnID) = m.(rm_TurnID) /\ SameResultPackageMetadata stored.(rpr_Metadata) requested.
Proof.
  unfold replayResultPackage. rewrite reject_Ok. split.
  - intros [H _]. split_nor. repeat match goal with H : ~ _ <> _ |- _ => apply dec_stable in H | H : ~ ~ _ |- _ => apply dec_stable in H end. done.
  - intros (-> & -> & -> & ?). split; [|done]. naive_solver.
Qed.

Lemma SameMetadata_eq l r : SameResultPackageMetadata l r -> l = r.
Proof. intros [? ?]. destruct l, r. simpl in *. by subst. Qed.

Lemma PublishResultPackage_effect connectedDeviceID source params at_ db res db' :
  trees_inv db -> result_inv db ->
  PublishResultPackage connectedDeviceID source params at_ db = Ok (res, db') ->
  exists m, DecodeManifest params.(prp_Metadata) = Ok m /\ res = {| prr_PackageID := m.(rm_PackageID) |} /\
    manifest_source m source /\ source.(pi_DeviceID) = connectedDeviceID /\ source.(pi_ParentAgentID) <> "" /\
    ((db' = db /\ exists r, db.(result_packages) !! manifest_key m = Some r /\ row_metadata r = params.(prp_Metadata)) \/
     published_new connectedDeviceID source m params.(prp_Metadata) at_ db db').
Proof.
  intros Ht Hi H. unfold PublishResultPackage in H.
  apply tx_bind_Ok in H as (? & ? & [_ ->]%tx_lift_Ok & H). apply tx_bind_Ok in H as (? & ? & [_ ->]%tx_lift_Ok & H).
  apply tx_bind_Ok in H as (m & ? & [Hm ->]%tx_lift_Ok & H).
  destruct (decide _) as [|Hsrc] in H; [by apply tx_throw_Ok in H|].
  apply tx_bind_Ok in H as (ts & ? & [Hts ->]%tx_lift_Ok & H). unfold unixTime in Hts. apply reject_Ok in Hts as [Hts [= <-]].
  apply tx_bind_Ok in H as (p & ? & [Hp ->]%tx_query_Ok & H).
  destruct (decide _) as [|Hpd] in H; [by apply tx_throw_Ok in H|].
  assert (authorize_source connectedDeviceID source db = Ok p) as Hauth.
  { unfold authorize_source. rewrite Hp. simpl. by rewrite decide_False. }
  destruct (authorize_source_Ok _ _ _ _ Ht Hauth) as (-> & Hpar & Hdev & row & Hrow & Hid).
  assert (manifest_source m source) as Hms.
  { split_nor. repeat match goal with H : ~ _ <> _ |- _ => apply dec_stable in H end. done. }
  exists m. split; [done|]. assert (Hms' := Hms). destruct Hms' as (Ec & Et & Ea & Ed). rewrite <- Ec, <- Et in H.
  apply tx_bind_Ok in H as (stored & ? & [Hst ->]%tx_query_Ok & H). destruct stored as [stored|].
  - rewrite optional_Ok_Some in Hst. apply tx_bind_Ok in H as ([] & ? & [Hrep ->]%tx_lift_Ok & H). apply tx_ret_Ok in H as [-> ->].
    split_and!; [done..|]. left. split; [done|]. apply queryResultPackageByID_Ok in Hst as (r & pr & kt & tr & m' & Hr & ->); [|done..].
    apply replayResultPackage_Ok in Hrep as (_ & _ & _ & Hsame). exists r. split; [apply Hr|by apply SameMetadata_eq in Hsame].
  - apply optional_queryResultPackageByID_None in Hst; [|done..].
    apply tx_bind_Ok in H as (stored & ? & [Hst2 ->]%tx_query_Ok & H).
    destruct (queryResultPackageByTurn_cases db m.(rm_ControllerID) m.(rm_TreeID) source.(pi_AgentID) m.(rm_TurnID) Ht Hi)
      as [(id & r & pr & kt & tr & m' & Hr & Ha & Hu & E)|[Hno E]]; rewrite E in Hst2; simpl in Hst2; injection Hst2 as <-.
    + exfalso. apply tx_bind_Ok in H as ([] & ? & [Hrep ->]%tx_lift_Ok & H). apply replayResultPackage_Ok in Hrep as (Hpk & _).
      simpl in Hpk. destruct (rd_matches _ _ _ _ _ _ _ Hr) as (_ & _ & Hpid & _). simpl in Hpid.
      pose proof (rd_found _ _ _ _ _ _ _ Hr) as Hf. rewrite Hpk in Hpid. subst id. unfold manifest_key in Hst. congruence.
    + apply tx_bind_Ok in H as (rootDeviceID & ? & [Hnew ->]%tx_query_Ok & H).
      apply tx_bind_Ok in H as ([] & db1 & Hins & H). apply tx_ret_Ok in H as [-> ->]. apply tx_exec_Ok in Hins. rewrite wrap_Ok in Hins.
      apply insert_package_Ok in Hins as (Habs & Hc & _ & _ & ->). split_and!; [done..|]. right. split; [lia|done| |].
      * intros id r Hk [Ha Hu]. apply (Hno _ _ Hk). split; [congruence|done].
      * exists rootDeviceID. split; [by apply authorizeNewResultPackage_Ok|]. split; [exact Hc|done].
Qed.

(** ** The invariant across changes *)

(** The trees and principals the packages refer to are still there, with numbers that
    have not fallen. *)
Record references_kept (db db' : DB) : Prop := {
  rk_principals : forall k p, db.(principals) !! k = Some p -> db'.(principals) !! k = Some p;
  rk_trees : forall kt tr, db.(trees) !! kt = Some tr -> exists tr', db'.(trees) !! kt = Some tr' /\
    tr'.(tr_tree_id) = tr.(tr_tree_id) /\ tr'.(tr_root_agent_id) = tr.(tr_root_agent_id) /\
    tr'.(tr_root_device_id) = tr.(tr_root_device_id) /\
    tr.(tr_last_result_sequence) <= tr'.(tr_last_result_sequence);
  rk_counters : forall kt tr, db'.(trees) !! kt = Some tr -> 0 <= tr.(tr_last_result_sequence) <= MaxInt64;
}.

Lemma references_kept_same db db' :
  result_inv db -> db'.(principals) = db.(principals) -> db'.(trees) = db.(trees) -> references_kept db db'.
Proof.
  intros Hi Ep Et. split; rewrite ?Ep, ?Et; [done| |apply (ri_counters _ Hi)].
  intros kt tr H. exists tr. split_and!; [done..|lia].
Qed.

Lemma package_joined_kept db db' k r p kt tr :
  references_kept db db' -> package_joined db k r p kt tr -> exists tr', package_joined db' k r p kt tr'.
Proof.
  intros [Hp Ht _] [H1 H2 H3 H4 H5 H6 H7 H8]. destruct (Ht _ _ H4) as (tr' & Htr' & Hid & _ & Hroot & Hle).
  exists tr'. split; [by apply Hp|done|done|done|done|congruence|congruence|lia].
Qed.

Lemma result_inv_frame db db' :
  result_inv db -> references_kept db db' -> db'.(result_packages) = db.(result_packages) ->
  db'.(result_apply_authorizations) = db.(result_apply_authorizations) -> result_inv db'.
Proof.
  intros [H1 H2 H3 H4 H5 H6] Hk E1 E2. split; rewrite ?E1, ?E2; try done; [|apply Hk].
  intros k r (Hok & p & kt & tr & Hj)%H1. split; [done|]. apply (package_joined_kept _ _ _ _ _ _ _ Hk) in Hj as [tr' Hj]. eauto.
Qed.

(** A row may take the place [k] in the table. *)
Record row_fits (db : DB) (k : string * string * string) (r : ResultPackageRow) : Prop := {
  rf_turn : forall k' r', db.(result_packages) !! k' = Some r' -> k' <> k -> k'.1 = k.1 ->
    ~ (r'.(rk_source_agent_id) = r.(rk_source_agent_id) /\ r'.(rk_turn_id) = r.(rk_turn_id));
  rf_sequence : forall k' r', db.(result_packages) !! k' = Some r' -> k' <> k -> k'.1 = k.1 ->
    0 < r.(rk_result_sequence) -> r'.(rk_result_sequence) <> r.(rk_result_sequence);
  rf_ordinal : forall k' r', db.(result_packages) !! k' = Some r' -> k' <> k -> k'.1.1 = k.1.1 ->
    0 < r.(rk_root_retention_ordinal) -> r'.(rk_root_device_id) = r.(rk_root_device_id) ->
    r'.(rk_root_retention_ordinal) <> r.(rk_root_retention_ordinal);
}.

Lemma package_unique_fits db k r : package_unique k r db = true -> row_fits db k r.
Proof.
  unfold package_unique. rewrite !andb_true_iff, !orb_true_iff, !Z.leb_le, !none_where_true. intros [[Ht Hs] Ho].
  split; intros k' r' Hk' Hne.
  - intros Hk [Ha Hu]. by apply (Ht _ _ Hk').
  - intros Hk Hpos He. destruct Hs as [Hs|Hs]; [lia|]. by apply (Hs _ _ Hk').
  - intros Hk Hpos Hr He. destruct Ho as [Ho|Ho]; [lia|]. by apply (Ho _ _ Hk').
Qed.

Lemma result_inv_put db db' k r :
  result_inv db -> references_kept db db' -> db'.(result_packages) = <[k := r]> db.(result_packages) ->
  db'.(result_apply_authorizations) = db.(result_apply_authorizations) ->
  package_row_ok k r -> (exists p kt tr, package_joined db' k r p kt tr) -> row_fits db k r ->
  (forall r0, db.(result_packages) !! k = Some r0 -> r0.(rk_state) = ResultPackageDelivered ->
     r.(rk_state) = ResultPackageDelivered /\ r.(rk_manifest_sha256) = r0.(rk_manifest_sha256)) ->
  result_inv db'.
Proof.
  intros [H1 H2 H3 H4 H5 H6] Hk E1 E2 Hok Hj [F1 F2 F3] Hold.
  split; rewrite ?E1, ?E2.
  - intros k' r' [[<- <-]|[_ Hk']]%lookup_insert_Some; [by split|]. apply H1 in Hk' as (Hok' & p & kt & tr & Hj').
    split; [done|]. apply (package_joined_kept _ _ _ _ _ _ _ Hk) in Hj' as [tr' Hj']. eauto.
  - intros k1 k2 r1 r2 [[<- <-]|[N1 K1]]%lookup_insert_Some [[<- <-]|[N2 K2]]%lookup_insert_Some; [done| | |by eapply H2].
    + intros E ??. exfalso. by eapply F1.
    + intros E ??. exfalso. by eapply F1.
  - intros k1 k2 r1 r2 [[<- <-]|[N1 K1]]%lookup_insert_Some [[<- <-]|[N2 K2]]%lookup_insert_Some; [done| | |by eapply H3].
    + intros E ??. exfalso. by eapply F2.
    + intros E ??. exfalso. eapply (F2 k1); try done; congruence.
  - intros k1 k2 r1 r2 [[<- <-]|[N1 K1]]%lookup_insert_Some [[<- <-]|[N2 K2]]%lookup_insert_Some; [done| | |by eapply H4].
    + intros E ???. exfalso. by eapply F3.
    + intros E ???. exfalso. eapply (F3 k1); try done; congruence.
  - apply Hk.
  - intros ka a (D & P & R & r0 & Hr0 & Hst & Hsha)%H6. split_and!; [done..|].
    destruct (decide ((ka.1.1, a.(ap_package_id)) = k)) as [<-|Hne].
    + rewrite lookup_insert_eq. exists r. destruct (Hold _ Hr0 Hst) as [? ?]. split_and!; [done|done|congruence].
    + rewrite lookup_insert_ne by done. eauto.
Qed.

Lemma root_device_valid db kt tr : trees_inv db -> db.(trees) !! kt = Some tr -> valid_id tr.(tr_root_device_id).
Proof.
  intros Ht Htr. destruct (ti_trees _ Ht _ _ Htr) as (_ & pr & Hpr & _ & Hdev).
  destruct (ti_principals _ Ht _ _ Hpr) as (Hok & _). apply principal_row_ok_id in Hok.
  destruct Hok as (_ & _ & _ & Hd & _). simpl in Hd. congruence.
Qed.

Lemma published_new_inv connectedDeviceID source m md ts db db' :
  trees_inv db -> result_inv db -> DecodeManifest md = Ok m -> manifest_source m source ->
  (exists row, db.(principals) !! (source.(pi_ControllerID), source.(pi_TreeID), source.(pi_AgentID)) = Some row /\
    identity_of (source.(pi_ControllerID), source.(pi_TreeID), source.(pi_AgentID)) row = source) ->
  source.(pi_ParentAgentID) <> "" -> published_new connectedDeviceID source m md ts db db' -> result_inv db'.
Proof.
  intros Ht Hi Hm (Ec & Et & Ea & Ed) (row & Hrow & Hid) Hpar [Hts Habs Hturn (root & Hmay & Hc & ->)].
  destruct (mp_tree _ _ _ _ _ Hmay) as (kt & tr & Htr & Hroot & _). apply tree_row_Some in Htr as (Htr & Hkc & Hkt).
  pose proof (root_device_valid _ _ _ Ht Htr) as Hrd.
  assert (row.(pr_device_id) = source.(pi_DeviceID) /\ row.(pr_parent_agent_id) = source.(pi_ParentAgentID)) as [Hrd' Hrp].
  { by rewrite <- Hid. }
  eapply (result_inv_put db _ (manifest_key m)); [done|by apply references_kept_same|done|done| | | |].
  - split_and!; [exact Hc|simpl; congruence|simpl; unfold MaxInt64; lia|simpl; unfold MaxInt64; lia|].
    exists m. rewrite row_metadata_pending by done. done.
  - exists row, kt, tr. split; simpl; try congruence. apply (ri_counters _ Hi _ _ Htr).
  - split; simpl; [|lia|lia]. intros [[c t] id] r' Hk' _ [= -> ->]. exact (Hturn _ _ Hk').
  - intros r0 Hr0. unfold manifest_key in *. congruence.
Qed.

(** ** The life of a package *)

(** The source's progress with a package in a tree whose last number is [last]. *)
Inductive package_step (last : Z) : relation ResultPackageRow :=
  | package_delivered ordinal ts r :
      r.(rk_state) = ResultPackageDeliveryPending -> 0 < ordinal <= MaxInt64 -> r.(rk_published_at) <= ts ->
      package_step last r (deliver_row (last + 1) ordinal ts r)
  | package_acknowledged ts r :
      r.(rk_state) = ResultPackageDelivered -> r.(rk_source_acknowledged_at) = 0 -> r.(rk_delivered_at) <= ts -> 0 < ts ->
      package_step last r (stamp_row ts r.(rk_source_released_at) r)
  | package_released ts r :
      r.(rk_state) = ResultPackageDelivered -> 0 < r.(rk_source_acknowledged_at) -> r.(rk_source_released_at) = 0 ->
      r.(rk_source_acknowledged_at) <= ts -> package_step last r (stamp_row r.(rk_source_acknowledged_at) ts r).

Lemma package_step_same last r r' :
  package_step last r r' ->
  row_metadata r' = row_metadata r /\ r'.(rk_source_agent_id) = r.(rk_source_agent_id) /\ r'.(rk_turn_id) = r.(rk_turn_id) /\
  r'.(rk_source_device_id) = r.(rk_source_device_id) /\ r'.(rk_root_device_id) = r.(rk_root_device_id) /\
  r'.(rk_managed_thread_id) = r.(rk_managed_thread_id) /\ r'.(rk_lifecycle_revision) = r.(rk_lifecycle_revision) /\
  r'.(rk_published_at) = r.(rk_published_at) /\ r'.(rk_state) = ResultPackageDelivered.
Proof. destruct 1; split_and!; done. Qed.

Lemma update_package_Ok text changed k guard set db db' :
  update_package text changed k guard set db = Ok db' ->
  exists r, db.(result_packages) !! k = Some r /\ guard r = true /\ result_package_check k.2 (set r) = true /\
    row_fits db k (set r) /\ db' = set_result_packages db (<[k := set r]> db.(result_packages)).
Proof.
  unfold update_package. intros H. apply result_bind_Ok in H as ([n tb] & H & Hr). rewrite wrap_Ok in H.
  rewrite reject_Ok in Hr. destruct Hr as [Hn%dec_stable Hdb]. subst n.
  apply sql_update_one in H as (r & Hr & Hg & Hc & ->). apply andb_true_iff in Hc as [Hc Hu].
  exists r. split_and!; [done|done|done|by apply package_unique_fits|congruence].
Qed.

(** [controller_lifetime_counters] after an increment. *)
Definition bump_counters (c : string) (increment : statusLifetimeCounterIncrement) (t : gmap string statusLifetimeCounterIncrement)
    : gmap string statusLifetimeCounterIncrement :=
  <[c := match t !! c with None => increment | Some current => add_counters current increment end]> t.

Lemma incrementStatusLifetimeCounters_Ok c increment db db' :
  incrementStatusLifetimeCounters c increment db = Ok db' ->
  db' = set_controller_lifetime_counters db (bump_counters c increment db.(controller_lifetime_counters)).
Proof. unfold incrementStatusLifetimeCounters. rewrite reject_Ok. by intros [_ [= <-]]. Qed.

Lemma nextTreeResultPackageSequence_Ok c t db n db' :
  nextTreeResultPackageSequence c t db = Ok (n, db') ->
  exists kt tr, tree_row db c t = Some (kt, tr) /\ n = tr.(tr_last_result_sequence) + 1 /\
    tr.(tr_last_result_sequence) <> MaxInt64 /\
    db' = set_trees db (<[kt := set_result_sequence n tr]> db.(trees)).
Proof.
  unfold nextTreeResultPackageSequence. intros H. go_inv.
  destruct (tree_row db c t) as [[kt tr]|] eqn:Etr; [|done]. go_inv.
  match goal with H : update_tree _ _ _ _ _ = Ok ?x |- _ => destruct x as [m db1]; rename H into Hu end. go_inv.
  apply update_tree_Ok in Hu as [[-> _]|(_ & kt' & tr' & Hrow & _ & Hc & ->)]; [lia|].
  rewrite Etr in Hrow. injection Hrow as <- <-. exists kt, tr. split_and!; done.
Qed.

(** A package moves one step; a delivery takes the next number of its tree. *)
Definition package_moves (k : string * string * string) (kt : string * string) (tr : TreeRow) (r r' : ResultPackageRow)
    (increment : statusLifetimeCounterIncrement) (db : DB) : DB :=
  set_controller_lifetime_counters
    (set_result_packages
       (if decide (r.(rk_state) = ResultPackageDeliveryPending)
        then set_trees db (<[kt := set_result_sequence (tr.(tr_last_result_sequence) + 1) tr]> db.(trees)) else db)
       (<[k := r']> db.(result_packages)))
    (bump_counters k.1.1 increment db.(controller_lifetime_counters)).

(** The counters of the step. *)
Definition step_increment (r : ResultPackageRow) : statusLifetimeCounterIncrement :=
  if decide (r.(rk_state) = ResultPackageDeliveryPending) then result_increment 1 0 0 0
  else if decide (r.(rk_source_acknowledged_at) = 0) then result_increment 0 1 0 0 else result_increment 0 0 1 0.

Record package_moved (k : string * string * string) (r r' : ResultPackageRow) (p : PrincipalRow) (kt : string * string) (tr : TreeRow)
    (m : ResultManifest) (db db' : DB) : Prop := {
  pv_read : package_read db k r p kt tr m;
  pv_step : package_step tr.(tr_last_result_sequence) r r';
  pv_check : result_package_check k.2 r' = true;
  pv_fits : row_fits db k r';
  pv_last : r.(rk_state) = ResultPackageDeliveryPending -> tr.(tr_last_result_sequence) <> MaxInt64;
  pv_db : db' = package_moves k kt tr r r' (step_increment r) db;
}.

Lemma package_states k r : package_row_ok k r ->
  (r.(rk_state) = ResultPackageDeliveryPending /\ r.(rk_result_sequence) = 0 /\ r.(rk_root_retention_ordinal) = 0 /\
   r.(rk_delivered_at) = 0 /\ r.(rk_source_acknowledged_at) = 0 /\ r.(rk_source_released_at) = 0) \/
  (r.(rk_state) = ResultPackageDelivered /\ 0 < r.(rk_result_sequence) <= MaxInt64 /\ 0 < r.(rk_root_retention_ordinal) <= MaxInt64 /\
   0 <= r.(rk_published_at) <= r.(rk_delivered_at) /\ 0 <= r.(rk_source_acknowledged_at) /\ 0 <= r.(rk_source_released_at) /\
   (r.(rk_source_acknowledged_at) = 0 \/ r.(rk_delivered_at) <= r.(rk_source_acknowledged_at)) /\
   (r.(rk_source_released_at) = 0 \/ (0 < r.(rk_source_acknowledged_at) <= r.(rk_source_released_at)))).
Proof.
  intros (Hc & _ & Hs & Ho & _). unfold result_package_check in Hc. rewrite !andb_true_iff in Hc. destruct_and!.
  repeat match goal with H : bool_decide _ = true |- _ => apply bool_decide_eq_true in H | H : (_ <=? _) = true |- _ => apply Z.leb_le in H end.
  match goal with H : _ \/ _ |- _ => destruct H as [(-> & H)|(-> & H)] end; [left|right]; (split; [done|]); lia.
Qed.

Lemma set_result_sequence_kept kt tr n db :
  result_inv db -> db.(trees) !! kt = Some tr -> tr.(tr_last_result_sequence) <= n <= MaxInt64 ->
  references_kept db (set_trees db (<[kt := set_result_sequence n tr]> db.(trees))).
Proof.
  intros Hi Hkt Hn. pose proof (ri_counters _ Hi _ _ Hkt). split; simpl; [done| |].
  - intros kt' tr' H'. destruct (decide (kt' = kt)) as [->|Hne].
    + rewrite lookup_insert_eq. simplify_eq. eexists. split; [done|]. simpl. split_and!; [done..|lia].
    + rewrite lookup_insert_ne by done. exists tr'. split_and!; [done..|lia].
  - intros kt' tr' [[<- <-]|[_ H']]%lookup_insert_Some; [simpl; lia|by eapply ri_counters].
Qed.

Section Moved.
Context (k : string * string * string) (r r' : ResultPackageRow) (p : PrincipalRow) (kt : string * string) (tr : TreeRow)
  (m : ResultManifest) (db db' : DB).
Hypothesis Htrees : trees_inv db.
Hypothesis Hinv : result_inv db.
Hypothesis Hmoved : package_moved k r r' p kt tr m db db'.

Lemma moved_tree : db.(trees) !! kt = Some tr.
Proof using Hmoved. apply Hmoved. Qed.

Lemma moved_trees_inv : trees_inv db'.
Proof using Htrees Hinv Hmoved.
  rewrite (pv_db _ _ _ _ _ _ _ _ _ Hmoved). unfold package_moves. destruct (decide _) as [Hst|_].
  - apply (trees_inv_frame (set_trees db (<[kt := set_result_sequence (tr.(tr_last_result_sequence) + 1) tr]> db.(trees)))); [|done|done].
    destruct (ti_trees _ Htrees _ _ moved_tree) as [[_ Hc] _]. pose proof (ri_counters _ Hinv _ _ moved_tree) as Hpos.
    eapply tree_counters_inv; [done|apply moved_tree| |done..]. unfold tree_check in *. simpl.
    rewrite !andb_true_iff in *. destruct_and!. split_and!; [done..|]. apply Z.leb_le. lia.
  - by apply (trees_inv_frame db).
Qed.

Lemma moved_kept : references_kept db db'.
Proof using Hinv Hmoved.
  rewrite (pv_db _ _ _ _ _ _ _ _ _ Hmoved). unfold package_moves. destruct (decide _) as [Hst|_].
  - pose proof (pv_last _ _ _ _ _ _ _ _ _ Hmoved Hst). pose proof (ri_counters _ Hinv _ _ moved_tree).
    destruct (set_result_sequence_kept kt tr (tr.(tr_last_result_sequence) + 1) db) as [H1 H2 H3]; [done|apply moved_tree|lia|]. by split.
  - by apply references_kept_same.
Qed.

Lemma moved_row_ok : package_row_ok k r'.
Proof using Hinv Hmoved.
  destruct (pv_read _ _ _ _ _ _ _ _ _ Hmoved) as [Hf Hok Hj Hm Hmm]. pose proof (ri_counters _ Hinv _ _ (pj_tree _ _ _ _ _ _ Hj)).
  assert (Hok' := Hok). destruct Hok' as (_ & Hv & Hs & Ho & _).
  pose proof (pv_step _ _ _ _ _ _ _ _ _ Hmoved) as Hstep. pose proof (pv_last _ _ _ _ _ _ _ _ _ Hmoved) as Hlast.
  pose proof (package_step_same _ _ _ Hstep) as (Emd & Ea & Et & Ed & Er & Eth & El & _ & _).
  split_and!; [apply Hmoved|congruence| | |].
  - destruct Hstep as [ordinal ts r Hst| |]; simpl; [|done..]. specialize (Hlast Hst). lia.
  - destruct Hstep; simpl; lia.
  - exists m. split; [congruence|]. unfold manifest_matches in *. rewrite Ea, Ed, Eth, Et, El. done.
Qed.

Lemma moved_joined : exists tr', package_joined db' k r' p kt tr'.
Proof using Hinv Hmoved.
  destruct (pv_read _ _ _ _ _ _ _ _ _ Hmoved) as [Hf Hok Hj Hm Hmm].
  pose proof (pv_step _ _ _ _ _ _ _ _ _ Hmoved) as Hstep. pose proof (package_step_same _ _ _ Hstep) as (_ & Ea & _ & Ed & Er & _).
  destruct Hj as [J1 J2 J3 J4 J5 J6 J7 J8].
  rewrite (pv_db _ _ _ _ _ _ _ _ _ Hmoved). unfold package_moves. destruct (decide _) as [Hst|Hst].
  - exists (set_result_sequence (tr.(tr_last_result_sequence) + 1) tr).
    split; simpl; rewrite ?Ea, ?Ed, ?Er; try done; [by rewrite lookup_insert_eq|]. destruct Hstep; simpl; lia.
  - exists tr. split; simpl; rewrite ?Ea, ?Ed, ?Er; try done. destruct Hstep as [ordinal ts r Hp| |]; simpl; [|done..]. done.
Qed.

Lemma moved_inv : result_inv db'.
Proof using Htrees Hinv Hmoved.
  pose proof (pv_step _ _ _ _ _ _ _ _ _ Hmoved) as Hstep. pose proof (package_step_same _ _ _ Hstep) as (Emd & _ & _ & _ & _ & _ & _ & _ & Est).
  eapply (result_inv_put db db' k r'); [done|apply moved_kept| | |apply moved_row_ok| |apply Hmoved|].
  - rewrite (pv_db _ _ _ _ _ _ _ _ _ Hmoved). unfold package_moves. by destruct (decide _).
  - rewrite (pv_db _ _ _ _ _ _ _ _ _ Hmoved). unfold package_moves. by destruct (decide _).
  - destruct moved_joined as [tr' ?]. eauto.
  - intros r0 Hr0 _. pose proof (rd_found _ _ _ _ _ _ _ (pv_read _ _ _ _ _ _ _ _ _ Hmoved)) as Hf. rewrite Hf in Hr0. injection Hr0 as <-.
    split; [done|]. unfold row_metadata in Emd. congruence.
Qed.
End Moved.

(** ** Delivery, acknowledgement and release: what a call does *)

Lemma deliver_record_row k r p tr m sequence ordinal ts :
  deliver_record sequence ordinal ts (package_record k r p tr m) = package_record k (deliver_row sequence ordinal ts r) p tr m.
Proof. done. Qed.

Lemma stamp_record_row k r p tr m acknowledged released :
  stamp_record acknowledged released (package_record k r p tr m) = package_record k (stamp_row acknowledged released r) p tr m.
Proof. done. Qed.

Lemma delivered_check_ordinal packageID sequence ordinal ts r :
  result_package_check packageID (deliver_row sequence ordinal ts r) = true -> 0 < ordinal.
Proof.
  unfold result_package_check. rewrite !andb_true_iff. intros Hc. destruct_and!.
  repeat match goal with H : bool_decide _ = true |- _ => apply bool_decide_eq_true in H end.
  match goal with H : _ \/ _ |- _ => destruct H as [(H & _)|(_ & _ & H & _)]; [discriminate H|exact H] end.
Qed.

Lemma validate_package_call_inv connectedDeviceID role caller packageID :
  validate_package_call connectedDeviceID role caller packageID = Ok tt ->
  valid_id connectedDeviceID /\ identity_ok caller /\ valid_id packageID.
Proof. unfold validate_package_call. rewrite !do_Ok, !wrap_Ok, PrincipalIdentity_Validate_Ok. done. Qed.

(** The package of a call by the root of its tree. *)
Record root_call (connectedDeviceID : string) (root : PrincipalIdentity) (r : ResultPackageRow) (tr : TreeRow) : Prop := {
  rl_root : root = root_identity (root.(pi_ControllerID), root.(pi_TreeID), "") tr;
  rl_device : r.(rk_root_device_id) = connectedDeviceID;
}.

Lemma MarkResultPackageDelivered_effect connectedDeviceID root packageID ordinal at_ db record db' :
  let k := (root.(pi_ControllerID), root.(pi_TreeID), packageID) in
  trees_inv db -> result_inv db ->
  MarkResultPackageDelivered connectedDeviceID root packageID ordinal at_ db = Ok (record, db') ->
  exists r p kt tr m, package_read db k r p kt tr m /\ root_call connectedDeviceID root r tr /\
    ((r.(rk_state) = ResultPackageDelivered /\ r.(rk_root_retention_ordinal) = ordinal /\ db' = db /\
      record = package_record k r p tr m) \/
     (let r' := deliver_row (tr.(tr_last_result_sequence) + 1) ordinal at_ r in
      r.(rk_state) = ResultPackageDeliveryPending /\ package_moved k r r' p kt tr m db db' /\
      record = package_record k r' p tr m)).
Proof.
  intros k Ht Hi H. unfold MarkResultPackageDelivered in H.
  apply tx_bind_Ok in H as (? & ? & [_ ->]%tx_lift_Ok & H).
  destruct (decide _) as [|Hord] in H; [by apply tx_throw_Ok in H|].
  apply tx_bind_Ok in H as (ts & ? & [Hts ->]%tx_lift_Ok & H). unfold unixTime in Hts. apply reject_Ok in Hts as [Hts [= <-]].
  apply tx_bind_Ok in H as (pr & ? & [Hauth ->]%tx_query_Ok & H).
  destruct (authorize_root_Ok _ _ _ _ _ Ht Hauth) as (_ & Hpar & Hdev & _).
  apply tx_bind_Ok in H as (rec & ? & [Hq ->]%tx_query_Ok & H).
  apply queryResultPackageByID_Ok in Hq as (r & p & kt & tr & m & Hr & ->); [|done..].
  destruct (decide _) as [|Hroot] in H; [by apply tx_throw_Ok in H|]. apply Decidable.not_or in Hroot as [Hroot%dec_stable Hrd%dec_stable].
  exists r, p, kt, tr, m. split; [done|]. split; [split; [by rewrite <- Hroot at 1|exact Hrd]|].
  pose proof (package_states _ _ (rd_ok _ _ _ _ _ _ _ Hr)) as Hstates. destruct (decide _) as [Hst|Hst] in H; simpl in Hst.
  - left. destruct (decide _) as [|Ho] in H; [by apply tx_throw_Ok in H|]. apply dec_stable in Ho. apply tx_ret_Ok in H as [-> ->]. done.
  - right. destruct Hstates as [(Hpend & _)|(? & _)]; [|done].
    destruct (decide _) as [|Hpub] in H; [by apply tx_throw_Ok in H|]. simpl in Hpub.
    apply tx_bind_Ok in H as (sequence & db1 & Hseq & H). apply nextTreeResultPackageSequence_Ok in Hseq as (kt' & tr' & Htr' & -> & Hmax & ->).
    destruct (rd_joined _ _ _ _ _ _ _ Hr) as [_ _ _ J4 J5 J6 _ _]. simpl in J5, J6. destruct kt as [c th]. simpl in J5. subst c.
    rewrite (tree_row_unique _ _ _ _ _ Ht J4 J6) in Htr'. injection Htr' as <- <-.
    apply tx_bind_Ok in H as ([] & db2 & Hup & H). apply tx_exec_Ok in Hup. apply update_package_Ok in Hup as (r0 & Hr0 & _ & Hc & Hfit & ->).
    simpl in Hr0. rewrite (rd_found _ _ _ _ _ _ _ Hr) in Hr0. injection Hr0 as <-.
    apply tx_bind_Ok in H as ([] & db3 & Hinc & H). apply tx_exec_Ok in Hinc. apply incrementStatusLifetimeCounters_Ok in Hinc as ->.
    apply tx_ret_Ok in H as [-> ->]. split; [done|]. split; [|apply deliver_record_row].
    pose proof (delivered_check_ordinal _ _ _ _ _ Hc). apply Decidable.not_or in Hord.
    split; [done|apply package_delivered; [done|lia|lia]|done|by destruct Hfit|done|].
    unfold package_moves, step_increment. by rewrite !decide_True by done.
Qed.

(** The package of a call by the worker that published it. *)
Definition source_call (connectedDeviceID : string) (source : PrincipalIdentity) (k : string * string * string) (r : ResultPackageRow)
    (p : PrincipalRow) : Prop :=
  source = source_identity k r p /\ r.(rk_source_device_id) = connectedDeviceID.

Lemma source_package_Ok connectedDeviceID source packageID db record :
  let k := (source.(pi_ControllerID), source.(pi_TreeID), packageID) in
  trees_inv db -> result_inv db -> source_package connectedDeviceID source packageID db = Ok record ->
  exists r p kt tr m, package_read db k r p kt tr m /\ source_call connectedDeviceID source k r p /\ record = package_record k r p tr m.
Proof.
  intros k Ht Hi H. unfold source_package in H. apply result_bind_Ok in H as (pr & Hauth & H).
  apply result_bind_Ok in H as (rec & Hq & H). apply queryResultPackageByID_Ok in Hq as (r & p & kt & tr & m & Hr & ->); [|done..].
  apply reject_Ok in H as [[Hs%dec_stable Hd%dec_stable]%Decidable.not_or [= <-]]. exists r, p, kt, tr, m.
  split_and!; [done| |done]. split; [by rewrite <- Hs|]. simpl in Hd.
  destruct (rd_matches _ _ _ _ _ _ _ Hr) as (_ & _ & _ & _ & Hm & _). congruence.
Qed.

Lemma MarkResultPackageSourceAcknowledged_effect connectedDeviceID source packageID at_ db record db' :
  let k := (source.(pi_ControllerID), source.(pi_TreeID), packageID) in
  trees_inv db -> result_inv db ->
  MarkResultPackageSourceAcknowledged connectedDeviceID source packageID at_ db = Ok (record, db') ->
  exists r p kt tr m, package_read db k r p kt tr m /\ source_call connectedDeviceID source k r p /\
    r.(rk_state) = ResultPackageDelivered /\
    ((r.(rk_source_acknowledged_at) <> 0 /\ db' = db /\ record = package_record k r p tr m) \/
     (let r' := stamp_row (Z.max (Z.max at_ r.(rk_delivered_at)) 1) r.(rk_source_released_at) r in
      r.(rk_source_acknowledged_at) = 0 /\ package_moved k r r' p kt tr m db db' /\ record = package_record k r' p tr m)).
Proof.
  intros k Ht Hi H. unfold MarkResultPackageSourceAcknowledged in H.
  apply tx_bind_Ok in H as (? & ? & [_ ->]%tx_lift_Ok & H).
  apply tx_bind_Ok in H as (ts & ? & [Hts ->]%tx_lift_Ok & H). unfold unixTime in Hts. apply reject_Ok in Hts as [Hts [= <-]].
  apply tx_bind_Ok in H as (rec & ? & [Hq ->]%tx_query_Ok & H).
  apply source_package_Ok in Hq as (r & p & kt & tr & m & Hr & Hcall & ->); [|done..].
  destruct (decide _) as [|Hst] in H; [by apply tx_throw_Ok in H|]. apply dec_stable in Hst. simpl in Hst.
  exists r, p, kt, tr, m. split_and!; [done|done|done|]. destruct (decide _) as [Hack|Hack] in H; simpl in Hack.
  - left. apply tx_ret_Ok in H as [-> ->]. done.
  - right. apply dec_stable in Hack. apply tx_bind_Ok in H as ([] & db2 & Hup & H). apply tx_exec_Ok in Hup.
    apply update_package_Ok in Hup as (r0 & Hr0 & _ & Hc & Hfit & ->). rewrite (rd_found _ _ _ _ _ _ _ Hr) in Hr0. injection Hr0 as <-.
    apply tx_bind_Ok in H as ([] & db3 & Hinc & H). apply tx_exec_Ok in Hinc. apply incrementStatusLifetimeCounters_Ok in Hinc as ->.
    apply tx_ret_Ok in H as [-> ->]. split; [done|]. split; [|apply stamp_record_row].
    split; [done|apply package_acknowledged; [done|done|simpl; lia|lia]|done|done|by rewrite Hst|].
    unfold package_moves, step_increment. rewrite !decide_False by (by rewrite Hst). by rewrite decide_True.
Qed.

Lemma MarkResultPackageSourceReleased_effect connectedDeviceID source packageID at_ db record db' :
  let k := (source.(pi_ControllerID), source.(pi_TreeID), packageID) in
  trees_inv db -> result_inv db ->
  MarkResultPackageSourceReleased connectedDeviceID source packageID at_ db = Ok (record, db') ->
  exists r p kt tr m, package_read db k r p kt tr m /\ source_call connectedDeviceID source k r p /\
    r.(rk_state) = ResultPackageDelivered /\ r.(rk_source_acknowledged_at) <> 0 /\
    ((r.(rk_source_released_at) <> 0 /\ db' = db /\ record = package_record k r p tr m) \/
     (let r' := stamp_row r.(rk_source_acknowledged_at) (Z.max (Z.max at_ r.(rk_source_acknowledged_at)) 1) r in
      r.(rk_source_released_at) = 0 /\ package_moved k r r' p kt tr m db db' /\ record = package_record k r' p tr m)).
Proof.
  intros k Ht Hi H. unfold MarkResultPackageSourceReleased in H.
  apply tx_bind_Ok in H as (? & ? & [_ ->]%tx_lift_Ok & H).
  apply tx_bind_Ok in H as (ts & ? & [Hts ->]%tx_lift_Ok & H). unfold unixTime in Hts. apply reject_Ok in Hts as [Hts [= <-]].
  apply tx_bind_Ok in H as (rec & ? & [Hq ->]%tx_query_Ok & H).
  apply source_package_Ok in Hq as (r & p & kt & tr & m & Hr & Hcall & ->); [|done..].
  destruct (decide _) as [|Hst] in H; [by apply tx_throw_Ok in H|].
  apply Decidable.not_or in Hst as [Hst%dec_stable Hack]. simpl in Hst, Hack.
  exists r, p, kt, tr, m. split_and!; [done|done|done|done|]. destruct (decide _) as [Hrel|Hrel] in H; simpl in Hrel.
  - left. apply tx_ret_Ok in H as [-> ->]. done.
  - right. apply dec_stable in Hrel. apply tx_bind_Ok in H as ([] & db2 & Hup & H). apply tx_exec_Ok in Hup.
    apply update_package_Ok in Hup as (r0 & Hr0 & Hg & Hc & Hfit & ->). rewrite (rd_found _ _ _ _ _ _ _ Hr) in Hr0. injection Hr0 as <-.
    apply bool_decide_eq_true in Hg as (_ & Hpos & _).
    apply tx_bind_Ok in H as ([] & db3 & Hinc & H). apply tx_exec_Ok in Hinc. apply incrementStatusLifetimeCounters_Ok in Hinc as ->.
    apply tx_ret_Ok in H as [-> ->]. split; [done|]. split; [|apply stamp_record_row].
    split; [done|apply package_released; [done|lia|done|simpl; lia]|done|done|by rewrite Hst|].
    unfold package_moves, step_increment. rewrite !decide_False by (by rewrite Hst). by rewrite decide_False.
Qed.

(** ** Compaction: what a call does *)

(** The database without the packages [keys] and their apply authorizations. *)
Definition without_packages (keys : list (string * string * string)) (db : DB) : DB :=
  set_result_apply_authorizations
    (set_result_packages db (filter (fun x => x.1 ∉ keys) db.(result_packages)))
    (filter (fun x : (string * string * string * string) * ApplyRow => (x.1.1.1, x.2.(ap_package_id)) ∉ keys)
       db.(result_apply_authorizations)).

Lemma without_packages_nil db : without_packages [] db = db.
Proof.
  unfold without_packages. rewrite !map_filter_id; [by destruct db|..]; intros; apply not_elem_of_nil.
Qed.

Lemma without_packages_cons k keys db :
  without_packages keys (without_packages [k] db) = without_packages (k :: keys) db.
Proof.
  transitivity (set_result_apply_authorizations
    (set_result_packages db (filter (fun x => x.1 ∉ keys) (filter (fun x => x.1 ∉ [k]) db.(result_packages))))
    (filter (fun x : (string * string * string * string) * ApplyRow => (x.1.1.1, x.2.(ap_package_id)) ∉ keys)
      (filter (fun x : (string * string * string * string) * ApplyRow => (x.1.1.1, x.2.(ap_package_id)) ∉ [k])
         db.(result_apply_authorizations)))); [done|].
  unfold without_packages. rewrite !map_filter_filter. f_equal; [f_equal|]; apply map_filter_ext; intros k' x _; simpl; set_solver.
Qed.

Lemma without_package_delete k db : (without_packages [k] db).(result_packages) = delete k db.(result_packages).
Proof.
  apply map_eq. intros k'. simpl. rewrite map_lookup_filter. destruct (decide (k' = k)) as [->|Hne].
  - rewrite lookup_delete_eq. destruct (_ !! k) as [r|]; [|done]. simpl. rewrite option_guard_False; [done|]. set_solver.
  - rewrite lookup_delete_ne by done. destruct (_ !! k') as [r|]; [|done]. simpl. rewrite option_guard_True; [done|]. set_solver.
Qed.

Lemma delete_package_hit k r db :
  db.(result_packages) !! k = Some r -> r.(rk_state) = ResultPackageDelivered -> 0 < r.(rk_source_released_at) ->
  delete_package k db = Ok (without_packages [k] db).
Proof.
  intros Hk Hst Hrel. unfold delete_package. rewrite Hk, decide_False by tauto. f_equal. unfold without_packages. f_equal; [f_equal|].
  - symmetry. exact (without_package_delete k db).
  - apply map_filter_ext. intros k' x _. rewrite list_elem_of_singleton. destruct k as [kt id]. simpl. naive_solver.
Qed.

Lemma delete_packages keys db :
  NoDup keys -> (forall k, k ∈ keys -> exists r, db.(result_packages) !! k = Some r /\ r.(rk_state) = ResultPackageDelivered /\
    0 < r.(rk_source_released_at)) ->
  tx_iter (fun k => tx_exec (delete_package k)) keys db = Ok (tt, without_packages keys db).
Proof.
  revert db. induction keys as [|k keys IH]; intros db Hnd Hall; simpl; [by rewrite without_packages_nil|].
  apply NoDup_cons in Hnd as [Hnk Hnd]. destruct (Hall k) as (r & Hk & Hst & Hrel); [set_solver|].
  unfold tx_bind, tx_exec at 1. rewrite (delete_package_hit _ _ _ Hk Hst Hrel), IH; [by rewrite without_packages_cons|done|].
  intros k' Hk'. destruct (Hall k') as (r' & Hr' & ?); [set_solver|]. exists r'. split; [|done]. simpl.
  rewrite map_lookup_filter, Hr'. simpl. rewrite option_guard_True; [done|]. set_solver.
Qed.

(** What may go. *)
Lemma elem_of_compactable c db k r :
  (k, r) ∈ compactable c db <-> db.(result_packages) !! k = Some r /\ k.1.1 = c /\ r.(rk_state) = ResultPackageDelivered /\
    retention_rank c (k, r) db > MaximumBrokerResultPackageDetailsPerRoot /\ 0 < r.(rk_source_released_at).
Proof.
  unfold compactable, order_by, order_by_text. rewrite !elem_of_sort_by, elem_of_select. unfold delivered_of. simpl. tauto.
Qed.

Lemma NoDup_compactable c db : NoDup (compactable c db).*1.
Proof.
  unfold compactable, order_by, order_by_text. rewrite !(sort_by_perm _ _). apply NoDup_fst_select.
Qed.

Definition compacted_keys (c : string) (n : Z) (db : DB) : list (string * string * string) := limit n (compactable c db).*1.

Lemma compacted_key c n db k :
  k ∈ compacted_keys c n db -> exists r, db.(result_packages) !! k = Some r /\ k.1.1 = c /\ r.(rk_state) = ResultPackageDelivered /\
    retention_rank c (k, r) db > MaximumBrokerResultPackageDetailsPerRoot /\ 0 < r.(rk_source_released_at).
Proof.
  intros Hk. unfold compacted_keys, limit in Hk. apply elem_of_take in Hk as (i & Hi & _).
  apply list_elem_of_lookup_2 in Hi. apply list_elem_of_fmap in Hi as ([k' r] & -> & Hi). apply elem_of_compactable in Hi. eauto.
Qed.

(** The whole call: the compacted details are gone, the count of them is added to the
    lifetime counter, and the answer says whether there are more. *)
Lemma CompactReleasedResultPackageDetails_eq c n db :
  valid_id c -> 1 <= n <= MaximumResultPackageDetailCompactionBatch ->
  let keys := compacted_keys c n db in
  CompactReleasedResultPackageDetails c n db =
    let more := n <? Z.of_nat (length (compactable c db)) in
    let answer := {| cp_Compacted := Z.of_nat (length keys); cp_More := more |} in
    if decide (keys = []) then Ok (answer, db)
    else let? db' := incrementStatusLifetimeCounters c (result_increment 0 0 0 (Z.of_nat (length keys))) (without_packages keys db) in
         Ok (answer, db').
Proof.
  intros Hc Hn keys. unfold CompactReleasedResultPackageDetails, tx_bind, tx_lift. rewrite Hc. simpl.
  rewrite decide_False by lia. unfold tx_query. cbv beta iota zeta.
  assert (limit n (limit (n + 1) (fst <$> compactable c db)) = keys) as ->.
  { unfold keys, compacted_keys, limit. rewrite take_take. f_equal. lia. }
  assert ((n <? Z.of_nat (length (limit (n + 1) (fst <$> compactable c db)))) = (n <? Z.of_nat (length (compactable c db)))) as ->.
  { unfold limit. rewrite length_take, length_fmap. apply eq_true_iff_eq. rewrite !Z.ltb_lt. lia. }
  rewrite delete_packages.
  - destruct (decide (length keys = O)) as [Hl|Hl].
    + apply nil_length_inv in Hl. rewrite decide_True by done. rewrite Hl, without_packages_nil. done.
    + rewrite decide_False by (intros E; by rewrite E in Hl). unfold tx_exec, result_bind. by destruct (incrementStatusLifetimeCounters _ _ _).
  - unfold keys, compacted_keys, limit. eapply sublist_NoDup; [apply NoDup_compactable|apply sublist_take].
  - intros k (r & Hr & _ & Hst & _ & Hrel)%compacted_key. eauto.
Qed.

Lemma without_packages_inv keys db : result_inv db -> result_inv (without_packages keys db).
Proof.
  intros [H1 H2 H3 H4 H5 H6]. split; simpl.
  - intros k r [Hk _]%map_lookup_filter_Some. apply H1 in Hk as (Hok & p & kt & tr & [J1 J2 J3 J4 J5 J6 J7 J8]). split; [done|].
    exists p, kt, tr. by split.
  - intros k k' r r' [Hk _]%map_lookup_filter_Some [Hk' _]%map_lookup_filter_Some. by eapply H2.
  - intros k k' r r' [Hk _]%map_lookup_filter_Some [Hk' _]%map_lookup_filter_Some. by eapply H3.
  - intros k k' r r' [Hk _]%map_lookup_filter_Some [Hk' _]%map_lookup_filter_Some. by eapply H4.
  - done.
  - intros k a [Hk Hnot]%map_lookup_filter_Some. apply H6 in Hk as (D & P & R & r & Hr & Hst & Hsha). split_and!; [done..|].
    exists r. split_and!; [|done|done]. apply map_lookup_filter_Some. done.
Qed.

Lemma CompactReleased_effect c n db answer db' :
  CompactReleasedResultPackageDetails c n db = Ok (answer, db') ->
  let keys := compacted_keys c n db in
  valid_id c /\ 1 <= n <= MaximumResultPackageDetailCompactionBatch /\
  answer = {| cp_Compacted := Z.of_nat (length keys); cp_More := n <? Z.of_nat (length (compactable c db)) |} /\
  ((keys = [] /\ db' = db) \/
   (keys <> [] /\ db' = set_controller_lifetime_counters (without_packages keys db)
     (bump_counters c (result_increment 0 0 0 (Z.of_nat (length keys))) db.(controller_lifetime_counters)))).
Proof.
  intros H keys. assert (valid_id c /\ 1 <= n <= MaximumResultPackageDetailCompactionBatch) as [Hc Hn].
  { unfold CompactReleasedResultPackageDetails in H. apply tx_bind_Ok in H as ([] & ? & [Hc ->]%tx_lift_Ok & H).
    rewrite wrap_Ok in Hc. split; [done|]. destruct (decide _) as [|Hn] in H; [by apply tx_throw_Ok in H|].
    unfold MaximumResultPackageDetailCompactionBatch in *. lia. }
  split_and!; [done|lia|lia|..]; rewrite CompactReleasedResultPackageDetails_eq in H by done; cbv zeta in H; fold keys in H;
    (destruct (decide (keys = [])) as [E|E]; [injection H as <- <-; auto|]);
    apply result_bind_Ok in H as (db1 & Hinc & [= <- <-]); [done|].
  right. split; [done|]. by apply incrementStatusLifetimeCounters_Ok in Hinc as ->.
Qed.

(** The counters are no part of the invariants. *)
Lemma result_inv_counters db t : result_inv db -> result_inv (set_controller_lifetime_counters db t).
Proof. intros H. apply (result_inv_frame db); [done|by apply references_kept_same|done|done]. Qed.

(** ** Apply authorizations: what a call does *)

(** A root may apply a package: it is delivered to it, it has a result of the
    workspace the root sent, and the request names that workspace's source. *)
Record may_apply (connectedDeviceID : string) (root : PrincipalIdentity) (params : AuthorizeResultApplyParams) (pathDigest : string)
    (authorized : AuthorizeResultApplyResult) (db : DB) : Prop := {
  ma_package : exists r p kt tr m, package_read db (root.(pi_ControllerID), root.(pi_TreeID), params.(aap_PackageID)) r p kt tr m /\
    root_call connectedDeviceID root r tr /\ r.(rk_state) = ResultPackageDelivered /\
    (m.(rm_Workspace).(rw_Status) = ResultWorkspaceChanged \/ m.(rm_Workspace).(rw_Status) = ResultWorkspaceUnchanged) /\
    (exists receipt, queryWorkspaceSyncReceipt (result_receipt_key root m.(rm_Workspace)) db = Ok receipt /\
       resultApplyWorkspaceMatchesReceipt receipt m.(rm_Workspace)
         (package_record (root.(pi_ControllerID), root.(pi_TreeID), params.(aap_PackageID)) r p tr m) root /\
       receipt.(wsr_GitURL) = params.(aap_GitURL) /\ receipt.(wsr_SourcePathHash) = pathDigest /\
       authorized.(aar_BaseManifestHash) = receipt.(wsr_ManifestHash)) /\
    authorized.(aar_WorkspaceID) = m.(rm_Workspace).(rw_WorkspaceID) /\
    authorized.(aar_ManifestSHA256) = r.(rk_manifest_sha256);
  ma_apply : authorized.(aar_ApplyID) = params.(aap_ApplyID);
  ma_id : authorized.(aar_PackageID) = params.(aap_PackageID);
  ma_valid : AuthorizeResultApplyResult_Validate authorized = Ok tt;
}.

Lemma new_authorization_Ok connectedDeviceID root params pathDigest db authorized :
  trees_inv db -> result_inv db -> new_authorization connectedDeviceID root params pathDigest db = Ok authorized ->
  may_apply connectedDeviceID root params pathDigest authorized db.
Proof.
  intros Ht Hi H. unfold new_authorization in H. apply result_bind_Ok in H as (package & Hq & H).
  apply queryResultPackageByID_Ok in Hq as (r & p & kt & tr & m & Hr & ->); [|done..].
  apply reject_Ok in H as [[Hst%dec_stable [Hroot%dec_stable Hdev%dec_stable]%Decidable.not_or]%Decidable.not_or H]. cbv zeta in H.
  apply reject_Ok in H as [Hw H]. apply result_bind_Ok in H as (receipt & Hrc & H). rewrite not_found_denied_Ok in Hrc.
  apply reject_Ok in H as [Hmatch%dec_stable H]. apply reject_Ok in H as [[Hurl%dec_stable Hpath%dec_stable]%Decidable.not_or H].
  apply do_Ok in H as [Hv H]. rewrite wrap_Ok in Hv. injection H as <-. split; [|done|done|exact Hv].
  exists r, p, kt, tr, m. split_and!; [done|split; [by rewrite <- Hroot at 1|exact Hdev]|exact Hst| | |done|done].
  - simpl in Hw. destruct (decide (m.(rm_Workspace).(rw_Status) = ResultWorkspaceChanged)); [by left|right]. apply dec_stable. tauto.
  - exists receipt. split_and!; [exact Hrc|exact Hmatch|exact Hurl|exact Hpath|done].
Qed.

Definition apply_row (params : AuthorizeResultApplyParams) (pathDigest : string) (authorized : AuthorizeResultApplyResult) (ts : Z)
    : ApplyRow := {|
  ap_package_id := params.(aap_PackageID); ap_git_url := params.(aap_GitURL); ap_source_path_digest := pathDigest;
  ap_manifest_sha256 := authorized.(aar_ManifestSHA256); ap_workspace_id := authorized.(aar_WorkspaceID);
  ap_base_manifest_hash := authorized.(aar_BaseManifestHash); ap_authorized_at := ts |}.

Lemma queryResultApplyAuthorization_Some db root applyID a :
  result_inv db -> db.(result_apply_authorizations) !! apply_key root applyID = Some a ->
  queryResultApplyAuthorization root applyID db = Ok (row_authorization applyID a).
Proof.
  intros Hi Hk. destruct (ri_applies _ Hi _ _ Hk) as (Hl & Hp & Hr & _). unfold queryResultApplyAuthorization.
  rewrite Hk, decide_False by tauto. cbv zeta.
  change (apply_key root applyID).2 with applyID in Hp, Hr. by rewrite Hp, Hr.
Qed.

(** Reading back what was stored. *)
Lemma row_authorization_stored params pathDigest authorized ts :
  hex_string pathDigest = params.(aap_SourcePathSHA256) -> authorized.(aar_ApplyID) = params.(aap_ApplyID) ->
  authorized.(aar_PackageID) = params.(aap_PackageID) ->
  row_authorization params.(aap_ApplyID) (apply_row params pathDigest authorized ts) = {| ra_Params := params; ra_Result := authorized |}.
Proof.
  intros Hh H1 H2. unfold row_authorization. simpl. rewrite Hh. destruct params, authorized. simpl in *. by subst.
Qed.

(** An apply is authorized once; a repeated request gets the same answer. *)
Record authorized_new (connectedDeviceID : string) (root : PrincipalIdentity) (params : AuthorizeResultApplyParams) (pathDigest : string)
    (authorized : AuthorizeResultApplyResult) (ts : Z) (db db' : DB) : Prop := {
  an_absent : db.(result_apply_authorizations) !! apply_key root params.(aap_ApplyID) = None;
  an_may : may_apply connectedDeviceID root params pathDigest authorized db;
  an_digest : hex_string pathDigest = params.(aap_SourcePathSHA256) /\ len pathDigest = 32;
  an_params : AuthorizeResultApplyParams_Validate params = Ok tt;
  an_db : db' = set_result_apply_authorizations db
    (<[apply_key root params.(aap_ApplyID) := apply_row params pathDigest authorized ts]> db.(result_apply_authorizations));
}.

Lemma AuthorizeResultApply_effect connectedDeviceID root params at_ db res db' :
  trees_inv db -> result_inv db -> AuthorizeResultApply connectedDeviceID root params at_ db = Ok (res, db') ->
  root.(pi_ParentAgentID) = "" /\ root.(pi_DeviceID) = connectedDeviceID /\
  ((db' = db /\ exists a, db.(result_apply_authorizations) !! apply_key root params.(aap_ApplyID) = Some a /\
      row_authorization params.(aap_ApplyID) a = {| ra_Params := params; ra_Result := res |}) \/
   exists pathDigest, authorized_new connectedDeviceID root params pathDigest res at_ db db').
Proof.
  intros Ht Hi H. unfold AuthorizeResultApply in H.
  apply tx_bind_Ok in H as (? & ? & [_ ->]%tx_lift_Ok & H). apply tx_bind_Ok in H as (? & ? & [_ ->]%tx_lift_Ok & H).
  apply tx_bind_Ok in H as ([] & ? & [Hp ->]%tx_lift_Ok & H). apply tx_bind_Ok in H as (digest & ? & [Hd ->]%tx_lift_Ok & H).
  apply tx_bind_Ok in H as (ts & ? & [Hts ->]%tx_lift_Ok & H). unfold unixTime in Hts. apply reject_Ok in Hts as [Hts [= <-]].
  apply tx_bind_Ok in H as (pr & ? & [Hauth ->]%tx_query_Ok & H).
  destruct (authorize_root_Ok _ _ _ _ _ Ht Hauth) as (_ & Hpar & Hdev & _). split_and!; [done|done|].
  assert (hex_string digest = params.(aap_SourcePathSHA256) /\ len digest = 32) as Hdig.
  { assert (sha256DigestPattern params.(aap_SourcePathSHA256) = true) as Hpat.
    { unfold AuthorizeResultApplyParams_Validate in Hp. rewrite !do_Ok, reject_Ok in Hp. destruct Hp as (_ & _ & Hs & _).
      by apply not_false_iff_true in Hs. }
    destruct (hex_decode_digest 64 _ eq_refl Hpat) as (d & Ed & ? & ?). rewrite Ed in Hd. apply reject_Ok in Hd as [_ [= <-]]. done. }
  apply tx_bind_Ok in H as (stored & ? & [Hst ->]%tx_query_Ok & H).
  destruct (db.(result_apply_authorizations) !! apply_key root params.(aap_ApplyID)) as [a|] eqn:Ea.
  - rewrite (queryResultApplyAuthorization_Some _ _ _ _ Hi Ea) in Hst. injection Hst as <-.
    destruct (decide _) as [|Hsame] in H; [by apply tx_throw_Ok in H|]. apply dec_stable in Hsame. apply tx_ret_Ok in H as [-> ->].
    left. split; [done|]. exists a. split; [done|]. by rewrite <- Hsame at 2.
  - unfold queryResultApplyAuthorization in Hst. rewrite Ea in Hst. injection Hst as <-. right. exists digest.
    apply tx_bind_Ok in H as (authorized & ? & [Hnew ->]%tx_query_Ok & H). apply tx_bind_Ok in H as ([] & db1 & Hins & H).
    apply tx_ret_Ok in H as [-> ->]. apply tx_exec_Ok in Hins. rewrite wrap_Ok in Hins. unfold insert_apply in Hins.
    apply result_bind_Ok in Hins as (tb & Hins & [= <-]). apply sql_insert_Ok in Hins as (_ & _ & ->).
    split; [done|by apply new_authorization_Ok|done|done|done].
Qed.

Lemma authorized_new_inv connectedDeviceID root params pathDigest authorized ts db db' :
  result_inv db -> authorized_new connectedDeviceID root params pathDigest authorized ts db db' -> result_inv db'.
Proof.
  intros Hi [Habs [(r & p & kt & tr & m & Hr & _ & Hst & _ & _ & _ & Hsha) Ha Hid Hv] [Hdig Hlen] Hp ->].
  destruct Hi as [H1 H2 H3 H4 H5 H6]. split; [|exact H2|exact H3|exact H4|exact H5|];
    cbn [result_packages result_apply_authorizations set_result_apply_authorizations].
  - intros k0 r0 Hk0. apply H1 in Hk0 as (Hok & q & kt0 & tr0 & [J1 J2 J3 J4 J5 J6 J7 J8]). split; [done|]. exists q, kt0, tr0. by split.
  - intros k a [[<- <-]|[_ Hk]]%lookup_insert_Some; [|by apply H6].
    pose proof (row_authorization_stored params pathDigest authorized ts Hdig Ha Hid) as E.
    split; [done|]. change (apply_key root (aap_ApplyID params)).2 with (aap_ApplyID params). rewrite E.
    split; [exact Hp|]. split; [exact Hv|]. exists r. split_and!; [apply Hr|done|done].
Qed.

