(* ===== verification/ResultsCorrect.v ===== *)
(** What the calls on result packages guarantee: publishing, delivery, compaction, the
    refinement of the delivery protocol, reading and applying, with a package followed
    from its publication to its release. *)

From S2P Require Export Results.

(** ** Properties: publishing *)

(** The caller may publish at all: the arguments are valid, the manifest is its own,
    and it is a worker on the device it is connected from. *)
Record publisher (connectedDeviceID : string) (source : PrincipalIdentity) (md : ResultPackageMetadata) (m : ResultManifest) (db : DB)
    : Prop := {
  pb_connected : valid_id connectedDeviceID;
  pb_source : identity_ok source;
  pb_decoded : DecodeManifest md = Ok m;
  pb_own : manifest_source m source;
  pb_allowed : authorize_source connectedDeviceID source db = Ok (principal_of source);
}.

Lemma PublishResultPackage_publisher connectedDeviceID source params at_ db res db' :
  trees_inv db -> PublishResultPackage connectedDeviceID source params at_ db = Ok (res, db') ->
  exists m, publisher connectedDeviceID source params.(prp_Metadata) m db.
Proof.
  intros Ht H. unfold PublishResultPackage in H.
  apply tx_bind_Ok in H as ([] & ? & [Hc ->]%tx_lift_Ok & H). apply tx_bind_Ok in H as ([] & ? & [Hs ->]%tx_lift_Ok & H).
  rewrite wrap_Ok in Hc, Hs. apply PrincipalIdentity_Validate_Ok in Hs.
  apply tx_bind_Ok in H as (m & ? & [Hm ->]%tx_lift_Ok & H). exists m.
  destruct (decide _) as [|Hsrc] in H; [by apply tx_throw_Ok in H|].
  apply tx_bind_Ok in H as (ts & ? & [_ ->]%tx_lift_Ok & H). apply tx_bind_Ok in H as (p & ? & [Hp ->]%tx_query_Ok & H).
  destruct (decide _) as [|Hpd] in H; [by apply tx_throw_Ok in H|].
  assert (authorize_source connectedDeviceID source db = Ok p) as Hauth.
  { unfold authorize_source. rewrite Hp. simpl. by rewrite decide_False. }
  destruct (authorize_source_Ok _ _ _ _ Ht Hauth) as (-> & _). split; [done|done|done| |done].
  split_nor. repeat match goal with H : ~ _ <> _ |- _ => apply dec_stable in H end. done.
Qed.

(** What a publisher's call comes to. *)
Lemma PublishResultPackage_eq connectedDeviceID source params m at_ db :
  publisher connectedDeviceID source params.(prp_Metadata) m db -> 0 <= at_ ->
  PublishResultPackage connectedDeviceID source params at_ db =
    (let! stored := tx_query (fun db => optional (queryResultPackageByID m.(rm_ControllerID) m.(rm_TreeID) m.(rm_PackageID) db)) in
    let published := {| prr_PackageID := m.(rm_PackageID) |} in
    match stored with
    | Some stored => do! tx_lift (replayResultPackage stored params.(prp_Metadata) m) in tx_ret published
    | None =>
        let! stored := tx_query (fun db =>
          optional (queryResultPackageByTurn m.(rm_ControllerID) m.(rm_TreeID) m.(rm_SourceAgentID) m.(rm_TurnID) db)) in
        match stored with
        | Some stored => do! tx_lift (replayResultPackage stored params.(prp_Metadata) m) in tx_ret published
        | None =>
            let! rootDeviceID := tx_query (authorizeNewResultPackage connectedDeviceID (principal_of source) m) in
            do! tx_exec (fun db => wrap "create result package metadata"
              (insert_package (manifest_key m) (pending_package m params.(prp_Metadata) rootDeviceID at_) db)) in
            tx_ret published
        end
    end) db.
Proof.
  intros [Hc Hs Hm (Ec & Et & Ea & Ed) Hauth] Hat. apply PrincipalIdentity_Validate_Ok in Hs.
  unfold PublishResultPackage, tx_bind at 1, tx_lift at 1. rewrite Hc. cbn [wrap].
  unfold tx_bind at 1, tx_lift at 1. rewrite Hs. cbn [wrap]. unfold tx_bind at 1, tx_lift at 1. rewrite Hm.
  rewrite decide_False by (rewrite Ec, Et, Ea, Ed; tauto). unfold tx_bind at 1, tx_lift at 1, unixTime. rewrite decide_False by lia.
  unfold authorize_source in Hauth. destruct (authorizePrincipal _ _ _) as [p|e] eqn:Hp; [|done]. cbn [result_bind] in Hauth.
  apply reject_Ok in Hauth as [Hno [= ->]]. unfold tx_bind at 1, tx_query at 1. rewrite Hp. cbv zeta. rewrite decide_False by done.
  unfold manifest_key. rewrite Ec, Et, Ea. done.
Qed.

(** Once stored, a package is found again by every repetition of the call. *)
Lemma PublishResultPackage_replay connectedDeviceID source params m r at_ db :
  trees_inv db -> result_inv db -> publisher connectedDeviceID source params.(prp_Metadata) m db -> 0 <= at_ ->
  db.(result_packages) !! manifest_key m = Some r -> row_metadata r = params.(prp_Metadata) ->
  PublishResultPackage connectedDeviceID source params at_ db = Ok ({| prr_PackageID := m.(rm_PackageID) |}, db).
Proof.
  intros Ht Hi Hpub Hat Hk Hmd. rewrite (PublishResultPackage_eq _ _ _ _ _ _ Hpub Hat).
  destruct (stored_package_read _ _ _ Hi Hk) as (p & kt & tr & m' & Hr).
  assert (m' = m) as -> by (pose proof (rd_decoded _ _ _ _ _ _ _ Hr) as Hd; rewrite Hmd, (pb_decoded _ _ _ _ _ Hpub) in Hd; congruence).
  unfold tx_bind at 1, tx_query at 1. rewrite (queryResultPackageByID_Some _ _ _ _ _ _ _ _ _ Ht Hr). cbn [optional].
  unfold tx_bind, tx_lift. rewrite (proj2 (replayResultPackage_Ok _ _ _)); [done|].
  split_and!; [done..|]. simpl. rewrite Hmd. by split.
Qed.

(** Any other package of that turn is refused. *)
Lemma PublishResultPackage_conflict connectedDeviceID source params m r k at_ db :
  trees_inv db -> result_inv db -> publisher connectedDeviceID source params.(prp_Metadata) m db -> 0 <= at_ ->
  db.(result_packages) !! k = Some r -> k.1 = (m.(rm_ControllerID), m.(rm_TreeID)) ->
  r.(rk_source_agent_id) = m.(rm_SourceAgentID) -> r.(rk_turn_id) = m.(rm_TurnID) -> row_metadata r <> params.(prp_Metadata) ->
  exists text, PublishResultPackage connectedDeviceID source params at_ db = Err (Wrap text ErrConflict).
Proof.
  intros Ht Hi Hpub Hat Hk Hkt Ha Hu Hmd. rewrite (PublishResultPackage_eq _ _ _ _ _ _ Hpub Hat).
  assert (forall id r0 p kt tr m0, package_read db (m.(rm_ControllerID), m.(rm_TreeID), id) r0 p kt tr m0 ->
    exists text, replayResultPackage (package_record (m.(rm_ControllerID), m.(rm_TreeID), id) r0 p tr m0) params.(prp_Metadata) m
      = Err (Wrap text ErrConflict)) as Hrep.
  { intros id r0 p kt tr m0 Hr. eexists. unfold replayResultPackage. rewrite decide_True; [done|].
    do 3 right. intros E%SameMetadata_eq. simpl in E.
    pose proof (rd_decoded _ _ _ _ _ _ _ Hr) as Hd. rewrite E, (pb_decoded _ _ _ _ _ Hpub) in Hd. injection Hd as <-.
    destruct (rd_matches _ _ _ _ _ _ _ Hr) as (_ & _ & _ & Ma & _ & _ & Mu & _). pose proof (rd_found _ _ _ _ _ _ _ Hr) as Hf.
    assert ((m.(rm_ControllerID), m.(rm_TreeID), id) = k) as <- by (eapply (ri_turns _ Hi); [exact Hf|exact Hk|by rewrite Hkt|congruence..]).
    congruence. }
  unfold tx_bind at 1, tx_query at 1. destruct (db.(result_packages) !! manifest_key m) as [r0|] eqn:E0.
  - destruct (stored_package_read _ _ _ Hi E0) as (p & kt & tr & m' & Hr).
    rewrite (queryResultPackageByID_Some _ _ _ _ _ _ _ _ _ Ht Hr). cbn [optional]. unfold tx_bind, tx_lift.
    destruct (Hrep _ _ _ _ _ _ Hr) as [text ->]. by exists text.
  - rewrite (queryResultPackageByID_None _ _ _ _ E0). cbv beta iota zeta delta [optional].
    destruct (queryResultPackageByTurn_cases db m.(rm_ControllerID) m.(rm_TreeID) m.(rm_SourceAgentID) m.(rm_TurnID) Ht Hi)
      as [(id & r0 & p & kt & tr & m' & Hr & _ & _ & E)|[Hno _]].
    + simpl errors_Is. cbv iota. unfold tx_bind at 1, tx_query at 1. rewrite E. unfold tx_bind, tx_lift.
      destruct (Hrep _ _ _ _ _ _ Hr) as [text ->]. by exists text.
    + exfalso. destruct k as [[c t] id]. simpl in Hkt. injection Hkt as -> ->. by apply (Hno id r Hk).
Qed.

(** Publishing a result package. A call succeeds only for the worker the manifest
    names; it either finds the very same package or stores it as pending, and then the
    broker knew the worker to be finalizing exactly that turn of a started spawn and the
    package to be based on the workspace the spawn consumed. Every repetition returns
    the same answer and changes nothing, and a different package for that turn is
    refused with a conflict. *)
Theorem PublishResultPackage_once connectedDeviceID source params at_ db res db' :
  trees_inv db -> result_inv db ->
  PublishResultPackage connectedDeviceID source params at_ db = Ok (res, db') ->
  result_inv db' /\
  exists m r, DecodeManifest params.(prp_Metadata) = Ok m /\ res = {| prr_PackageID := m.(rm_PackageID) |} /\
    manifest_source m source /\ db'.(result_packages) !! manifest_key m = Some r /\ row_metadata r = params.(prp_Metadata) /\
    (db' = db \/ published_new connectedDeviceID source m params.(prp_Metadata) at_ db db') /\
    (forall at2, 0 <= at2 -> PublishResultPackage connectedDeviceID source params at2 db' = Ok (res, db')) /\
    (forall params2 m2 at2, 0 <= at2 -> DecodeManifest params2.(prp_Metadata) = Ok m2 -> manifest_source m2 source ->
       m2.(rm_TurnID) = m.(rm_TurnID) -> params2.(prp_Metadata) <> params.(prp_Metadata) ->
       exists text, PublishResultPackage connectedDeviceID source params2 at2 db' = Err (Wrap text ErrConflict)).
Proof.
  intros Ht Hi H. destruct (PublishResultPackage_publisher _ _ _ _ _ _ _ Ht H) as [m Hpub].
  apply PublishResultPackage_effect in H as (m' & Hm & -> & Hms & Hdev & Hpar & Hcase); [|done..].
  rewrite (pb_decoded _ _ _ _ _ Hpub) in Hm. injection Hm as <-.
  assert (trees_inv db' /\ result_inv db' /\ publisher connectedDeviceID source params.(prp_Metadata) m db' /\
    exists r, db'.(result_packages) !! manifest_key m = Some r /\ row_metadata r = params.(prp_Metadata)) as (Ht' & Hi' & Hpub' & r & Hr & Hmd).
  { destruct Hcase as [[-> Hr]|Hnew]; [done|].
    destruct (authorize_source_Ok _ _ _ _ Ht (pb_allowed _ _ _ _ _ Hpub)) as (_ & _ & _ & Hrow).
    pose proof (published_new_inv _ _ _ _ _ _ _ Ht Hi (pb_decoded _ _ _ _ _ Hpub) Hms Hrow Hpar Hnew) as Hi'.
    destruct Hnew as [Hts Habs Hturn (root & Hmay & _ & ->)]. split_and!; [by apply (trees_inv_frame db)|done| |].
    - destruct Hpub as [P1 P2 P3 P4 P5]. by split.
    - eexists. split; [apply lookup_insert_eq|]. apply row_metadata_pending, Hpub. }
  split; [done|]. exists m, r. split_and!; [apply Hpub|done|done|done|done|tauto| |].
  - intros at2 Hat2. by eapply PublishResultPackage_replay.
  - intros params2 m2 at2 Hat2 Hm2 Hms2 Hturn Hne. destruct Hms as (Ec & Et & Ea & Ed), (Hms2) as (Ec2 & Et2 & Ea2 & Ed2).
    destruct (stored_package_read _ _ _ Hi' Hr) as (p & kt & tr & m0 & Hread).
    pose proof (rd_decoded _ _ _ _ _ _ _ Hread) as Hd. rewrite Hmd, (pb_decoded _ _ _ _ _ Hpub) in Hd. injection Hd as <-.
    destruct (rd_matches _ _ _ _ _ _ _ Hread) as (_ & _ & _ & Ma & _ & _ & Mu & _).
    eapply (PublishResultPackage_conflict _ _ _ m2 r (manifest_key m)); try done.
    + destruct Hpub'. by split.
    + unfold manifest_key. simpl. congruence.
    + congruence.
    + congruence.
    + congruence.
Qed.

(** Who may act depends on the trees and principals alone. *)
Lemma authorizePrincipal_frame db db' claimed required :
  trees_inv db -> trees_inv db' -> db'.(principals) = db.(principals) ->
  authorizePrincipal claimed required db' = authorizePrincipal claimed required db.
Proof. intros Ht Ht' E. by rewrite !authorizePrincipal_eq, E by done. Qed.

Lemma authorize_root_frame db db' connectedDeviceID root required :
  trees_inv db -> trees_inv db' -> db'.(principals) = db.(principals) ->
  authorize_root connectedDeviceID root required db' = authorize_root connectedDeviceID root required db.
Proof. intros Ht Ht' E. unfold authorize_root. by rewrite (authorizePrincipal_frame db db'). Qed.

(** ** Properties: delivery *)

(** The package after the step, as it reads. *)
Lemma moved_read k r r' p kt tr m db db' :
  result_inv db -> package_moved k r r' p kt tr m db db' ->
  exists tr', package_read db' k r' p kt tr' m /\ forall r0, package_record k r0 p tr' m = package_record k r0 p tr m.
Proof.
  intros Hi Hm. destruct (moved_joined _ _ _ _ _ _ _ _ _ Hi Hm) as [tr' Hj]. exists tr'.
  destruct (rk_trees _ _ (moved_kept _ _ _ _ _ _ _ _ _ Hi Hm) _ _ (moved_tree _ _ _ _ _ _ _ _ _ Hm)) as (tr2 & H2 & _ & Ha & Hd & _).
  rewrite (pj_tree _ _ _ _ _ _ Hj) in H2. injection H2 as <-. split.
  - destruct (pv_read _ _ _ _ _ _ _ _ _ Hm) as [_ _ _ Hdec Hmm]. pose proof (package_step_same _ _ _ (pv_step _ _ _ _ _ _ _ _ _ Hm)) as
      (Emd & Ea & Et & Ed & _ & Eth & El & _). split; [|by eapply moved_row_ok|done|congruence|].
    + rewrite (pv_db _ _ _ _ _ _ _ _ _ Hm). apply lookup_insert_eq.
    + unfold manifest_matches in *. rewrite Ea, Ed, Eth, Et, El. done.
  - intros r0. unfold package_record, root_identity. by rewrite Ha, Hd.
Qed.

(** The caller of a delivery is valid and the root it says it is. *)
Record deliverer (connectedDeviceID : string) (root : PrincipalIdentity) (packageID : string) (db : DB) : Prop := {
  dv_valid : validate_package_call connectedDeviceID "root" root packageID = Ok tt;
  dv_allowed : exists p, authorize_root connectedDeviceID root CapabilityAgentManageDescendants db = Ok p;
}.

Lemma MarkResultPackageDelivered_deliverer connectedDeviceID root packageID ordinal at_ db record db' :
  MarkResultPackageDelivered connectedDeviceID root packageID ordinal at_ db = Ok (record, db') ->
  deliverer connectedDeviceID root packageID db.
Proof.
  unfold MarkResultPackageDelivered. intros H.
  apply tx_bind_Ok in H as ([] & ? & [Hv ->]%tx_lift_Ok & H). destruct (decide _) as [|_] in H; [by apply tx_throw_Ok in H|].
  apply tx_bind_Ok in H as (ts & ? & [_ ->]%tx_lift_Ok & H). apply tx_bind_Ok in H as (p & ? & [Hp ->]%tx_query_Ok & _).
  split; eauto.
Qed.

(** A call on a package that is delivered already. *)
Lemma MarkResultPackageDelivered_again connectedDeviceID root packageID ordinal at_ db r p kt tr m :
  let k := (root.(pi_ControllerID), root.(pi_TreeID), packageID) in
  trees_inv db -> deliverer connectedDeviceID root packageID db -> 0 < ordinal <= MaxInt64 -> 0 <= at_ ->
  package_read db k r p kt tr m -> root_call connectedDeviceID root r tr -> r.(rk_state) = ResultPackageDelivered ->
  MarkResultPackageDelivered connectedDeviceID root packageID ordinal at_ db =
    if decide (r.(rk_root_retention_ordinal) <> ordinal)
    then Err (Wrap "result package root retention ordinal differs" ErrConflict) else Ok (package_record k r p tr m, db).
Proof.
  intros k Ht [Hv [p0 Hp]] Ho Hat Hr [Hroot Hdev] Hst. unfold MarkResultPackageDelivered, tx_bind, tx_lift, tx_query, unixTime.
  rewrite Hv, decide_False by lia. rewrite decide_False by lia. rewrite Hp.
  rewrite (queryResultPackageByID_Some _ _ _ _ _ _ _ _ _ Ht Hr). rewrite decide_False; last first.
  { simpl. unfold root_identity in *. simpl in *. rewrite <- Hroot, Hdev. tauto. }
  rewrite decide_True by done. simpl. by destruct (decide _).
Qed.

(** Delivery of a package to the root of its tree. A successful call leaves the
    package delivered, on the device of the root that called, under the ordinal it
    named. A first delivery gives the package the number after the last one of its
    tree, which no package of the tree had; a repeated one changes nothing, and one
    that names another ordinal is refused. *)
Theorem MarkResultPackageDelivered_numbers connectedDeviceID root packageID ordinal at_ db record db' :
  trees_inv db -> result_inv db ->
  MarkResultPackageDelivered connectedDeviceID root packageID ordinal at_ db = Ok (record, db') ->
  let k := (root.(pi_ControllerID), root.(pi_TreeID), packageID) in
  trees_inv db' /\ result_inv db' /\
  record.(rpr_State) = ResultPackageDelivered /\ record.(rpr_RootPrincipal) = root /\ record.(rpr_RootDeviceID) = connectedDeviceID /\
  record.(rpr_RootRetentionOrdinal) = ordinal /\
  queryResultPackageByID root.(pi_ControllerID) root.(pi_TreeID) packageID db' = Ok record /\
  (db' = db \/
   exists kt tr, tree_row db root.(pi_ControllerID) root.(pi_TreeID) = Some (kt, tr) /\
     record.(rpr_Sequence) = tr.(tr_last_result_sequence) + 1 /\ record.(rpr_DeliveredAt) = at_ /\
     db'.(trees) = <[kt := set_result_sequence record.(rpr_Sequence) tr]> db.(trees) /\
     (forall id r, db.(result_packages) !! (k.1, id) = Some r -> r.(rk_result_sequence) < record.(rpr_Sequence))) /\
  (forall at2, 0 <= at2 ->
     MarkResultPackageDelivered connectedDeviceID root packageID ordinal at2 db' = Ok (record, db')) /\
  (forall ordinal2 at2, 0 < ordinal2 <= MaxInt64 -> ordinal2 <> ordinal -> 0 <= at2 ->
     exists text, MarkResultPackageDelivered connectedDeviceID root packageID ordinal2 at2 db' = Err (Wrap text ErrConflict)).
Proof.
  intros Ht Hi H k. pose proof (MarkResultPackageDelivered_deliverer _ _ _ _ _ _ _ _ H) as [Hv [p0 Hp0]].
  apply MarkResultPackageDelivered_effect in H as (r & p & kt & tr & m & Hr & Hcall & Hcase); [|done..]. fold k in Hr, Hcase.
  assert (exists r' tr', trees_inv db' /\ result_inv db' /\ package_read db' k r' p kt tr' m /\ root_call connectedDeviceID root r' tr' /\
    r'.(rk_state) = ResultPackageDelivered /\ r'.(rk_root_retention_ordinal) = ordinal /\ record = package_record k r' p tr' m /\
    authorize_root connectedDeviceID root CapabilityAgentManageDescendants db' = Ok p0) as
    (r' & tr' & Ht' & Hi' & Hr' & Hcall' & Hst' & Ho' & -> & Hp0').
  { destruct Hcase as [(Hst & Ho & -> & ->)|(_ & Hm & ->)]; [by exists r, tr|].
    destruct (moved_read _ _ _ _ _ _ _ _ _ Hi Hm) as (tr' & Hr' & Etr).
    eexists _, tr'. split; [by eapply moved_trees_inv|]. split; [by eapply moved_inv|]. split; [exact Hr'|].
    split; [|split_and!; [done|done|by rewrite Etr|]].
    - destruct Hcall as [Hroot Hdev]. split; [|done]. rewrite Hroot at 1. pose proof (Etr r) as E. unfold package_record, root_identity in *. simpl in *. congruence.
    - rewrite (authorize_root_frame db); [done|done|by eapply moved_trees_inv|]. rewrite (pv_db _ _ _ _ _ _ _ _ _ Hm). unfold package_moves. by destruct (decide _). }
  destruct Hcall' as [Hroot Hdev]. split_and!; [done|done|done|symmetry; exact Hroot|done|done| | | |].
  - by eapply queryResultPackageByID_Some.
  - destruct Hcase as [(_ & _ & -> & _)|(Hst & Hm & E)]; [by left|right]. exists kt, tr.
    destruct (rd_joined _ _ _ _ _ _ _ Hr) as [_ _ _ J4 J5 J6 _ _]. simpl in J5, J6.
    assert (rpr_Sequence (package_record k r' p tr' m) = tr.(tr_last_result_sequence) + 1) as Eseq by (by rewrite E).
    rewrite Eseq. split_and!; [|done|by rewrite E| |].
    + destruct kt as [c th]. simpl in J5. subst c. by apply tree_row_unique.
    + rewrite (pv_db _ _ _ _ _ _ _ _ _ Hm). unfold package_moves. by rewrite decide_True.
    + intros id r0 Hr0. assert (r0.(rk_result_sequence) <= tr.(tr_last_result_sequence)); [|lia].
      apply (sequence_bounded db root.(pi_ControllerID) root.(pi_TreeID) id r0 kt tr Ht Hi Hr0). destruct kt as [c th]. simpl in J5. subst c. by apply tree_row_unique.
  - intros at2 Hat2. pose proof (package_states _ _ (rd_ok _ _ _ _ _ _ _ Hr')) as [(Hx & _)|(_ & _ & Hpos & _)]; [by rewrite Hx in Hst'|].
    rewrite (MarkResultPackageDelivered_again _ _ _ ordinal at2 db' r' p kt tr' m); try done; [|by split; eauto|lia]. by rewrite decide_False by tauto.
  - intros ordinal2 at2 Ho2 Hne Hat2. eexists.
    rewrite (MarkResultPackageDelivered_again _ _ _ ordinal2 at2 db' r' p kt tr' m); try done; [|by split; eauto]. by rewrite decide_True by congruence.
Qed.

(** ** Properties: compaction *)

(** The delivered packages of a package's root that came after it. *)
Definition newer_packages (c : string) (x : (string * string * string) * ResultPackageRow) (db : DB)
    : list ((string * string * string) * ResultPackageRow) :=
  select (fun y => delivered_of c y /\ y.2.(rk_root_device_id) = x.2.(rk_root_device_id) /\
    x.2.(rk_root_retention_ordinal) < y.2.(rk_root_retention_ordinal)) db.(result_packages).

Lemma retention_rank_newer c x db : retention_rank c x db = 1 + Z.of_nat (length (newer_packages c x db)).
Proof. done. Qed.

Lemma elem_of_newer c x db y :
  y ∈ newer_packages c x db <-> db.(result_packages) !! y.1 = Some y.2 /\ delivered_of c y /\
    y.2.(rk_root_device_id) = x.2.(rk_root_device_id) /\ x.2.(rk_root_retention_ordinal) < y.2.(rk_root_retention_ordinal).
Proof. destruct y as [k r]. unfold newer_packages. rewrite elem_of_select. simpl. tauto. Qed.

Lemma NoDup_newer c x db : NoDup (newer_packages c x db).
Proof. apply NoDup_select. Qed.

(** A list that is not empty has an element with the greatest key. *)
Lemma greatest_key {A} (key : A -> Z) l : l <> [] -> exists x, x ∈ l /\ forall y, y ∈ l -> key y <= key x.
Proof.
  induction l as [|x l IH]; [done|]. intros _. destruct l as [|x' l].
  - exists x. split; [set_solver|]. intros y Hy. assert (y = x) as -> by set_solver. lia.
  - destruct IH as (z & Hz & Hmax); [done|]. destruct (decide (key z <= key x)).
    + exists x. split; [set_solver|]. intros y [->|Hy]%elem_of_cons; [lia|]. specialize (Hmax y Hy). lia.
    + exists z. split; [set_solver|]. intros y [->|Hy]%elem_of_cons; [lia|]. by apply Hmax.
Qed.

Lemma NoDup_incl_length {A} (l l' : list A) : NoDup l -> (forall x, x ∈ l -> x ∈ l') -> (length l <= length l')%nat.
Proof. intros Hnd Hin. by apply submseteq_length, NoDup_submseteq. Qed.

(** Of the packages newer than [x], the newest of the window are in the window. *)
Lemma window_is_newest c x db w :
  w <= Z.of_nat (length (newer_packages c x db)) ->
  w <= Z.of_nat (length (filter (fun y => retention_rank c y db <= w) (newer_packages c x db))).
Proof.
  intros Hw. destruct (decide (w <= Z.of_nat (length (filter (fun y => retention_rank c y db <= w) (newer_packages c x db))))) as [|Hlt]; [done|].
  exfalso. set (T := filter (fun y => retention_rank c y db <= w) (newer_packages c x db)) in *.
  set (R := filter (fun y => ~ retention_rank c y db <= w) (newer_packages c x db)).
  assert (R <> []) as HR.
  { intros E. assert (newer_packages c x db ≡ₚ T ++ R) as Hp by (symmetry; apply filter_app_complement).
    rewrite E, app_nil_r in Hp. rewrite Hp in Hw. lia. }
  destruct (greatest_key (fun y => y.2.(rk_root_retention_ordinal)) R HR) as (y & Hy & Hmax).
  apply list_elem_of_filter in Hy as [Hrank Hy]. apply Hrank. rewrite retention_rank_newer.
  assert (length (newer_packages c y db) <= length T)%nat; [|lia].
  apply elem_of_newer in Hy as (_ & _ & Hroot & Hord). apply NoDup_incl_length; [apply NoDup_newer|]. intros z Hz.
  apply elem_of_newer in Hz as (Hz & Hd & Hzr & Hzo).
  assert (z ∈ newer_packages c x db) as Hzn by (apply elem_of_newer; split_and!; [done|done|congruence|lia]).
  unfold T. apply list_elem_of_filter. split; [|done]. destruct (decide (retention_rank c z db <= w)) as [|Hno]; [done|].
  assert (z ∈ R) as HzR by (unfold R; by apply list_elem_of_filter). specialize (Hmax z HzR). simpl in Hmax. lia.
Qed.

(** What compaction removes is outside the window that stays. *)
Lemma compacted_outside_window c n db k :
  k ∈ compacted_keys c n db -> exists r, db.(result_packages) !! k = Some r /\ r.(rk_state) = ResultPackageDelivered /\
    0 < r.(rk_source_released_at) /\
    MaximumBrokerResultPackageDetailsPerRoot <= Z.of_nat (length (newer_packages c (k, r) (without_packages (compacted_keys c n db) db))).
Proof.
  intros (r & Hk & Hc & Hst & Hrank & Hrel)%compacted_key. exists r. split_and!; [done..|].
  rewrite retention_rank_newer in Hrank. etrans; [apply (window_is_newest c (k, r) db); lia|]. apply inj_le, NoDup_incl_length.
  - apply NoDup_filter, NoDup_newer.
  - intros [k' r'] [Hr' Hin]%list_elem_of_filter. apply elem_of_newer in Hin as (Hk' & Hrest). apply elem_of_newer. split; [|done]. simpl in *.
    apply map_lookup_filter_Some. split; [done|]. simpl. intros (r0 & Hr0 & _ & _ & Hrank0 & _)%compacted_key.
    rewrite Hk' in Hr0. injection Hr0 as <-. lia.
Qed.

Lemma foldr_max_le l z : 0 <= z -> (forall x, x ∈ l -> x <= z) -> foldr Z.max 0 l <= z.
Proof. intros Hz. induction l as [|x l IH]; simpl; intros H; [done|]. apply Z.max_lub; [apply H; set_solver|apply IH; set_solver]. Qed.
Lemma foldr_max_ge l x : x ∈ l -> x <= foldr Z.max 0 l.
Proof. induction l as [|y l IH]; simpl; intros Hx; [set_solver|]. apply elem_of_cons in Hx as [->|Hx]; [lia|]. specialize (IH Hx). lia. Qed.

(** The greatest ordinal of a root is still known after compaction. *)
Lemma highwater_compacted c n db c' device t :
  result_inv db ->
  GetResultPackageRootRetentionHighwater c' device (set_controller_lifetime_counters (without_packages (compacted_keys c n db) db) t) =
  GetResultPackageRootRetentionHighwater c' device db.
Proof.
  intros Hi. unfold GetResultPackageRootRetentionHighwater. destruct (validateChangesArtifactDevice c' device); [|done]. cbn [result_bind]. f_equal.
  set (P := fun x : (string * string * string) * ResultPackageRow => x.1.1.1 = c' /\ x.2.(rk_root_device_id) = device).
  apply Z.le_antisymm; (apply foldr_max_le; [apply foldr_max_nonneg|]); intros z ([k r] & -> & Hin)%list_elem_of_fmap; apply elem_of_select in Hin as [Hk HP].
  - apply foldr_max_ge, list_elem_of_fmap. exists (k, r). split; [done|]. apply elem_of_select. split; [|done].
    by apply map_lookup_filter_Some in Hk as [Hk _].
  - simpl. destruct (decide (k ∈ compacted_keys c n db)) as [Hc|Hc].
    + destruct (compacted_outside_window _ _ _ _ Hc) as (r0 & Hr0 & _ & _ & Hw). rewrite Hk in Hr0. injection Hr0 as <-.
      destruct (compacted_key _ _ _ _ Hc) as (_ & _ & Hkc & _).
      destruct (newer_packages c (k, r) (without_packages (compacted_keys c n db) db)) as [|y l] eqn:E; [simpl in Hw; done|].
      assert (y ∈ newer_packages c (k, r) (without_packages (compacted_keys c n db) db)) as Hy by (rewrite E; set_solver).
      apply elem_of_newer in Hy as (Hy & [Hyc _] & Hyr & Hyo). simpl in Hyr, Hyo. transitivity (y.2.(rk_root_retention_ordinal)); [lia|].
      apply foldr_max_ge, list_elem_of_fmap. exists y. split; [done|]. destruct y as [ky ry]. apply elem_of_select. split; [exact Hy|].
      unfold P in *. simpl in *. destruct HP as [HP1 HP2]. split; congruence.
    + apply foldr_max_ge, list_elem_of_fmap. exists (k, r). split; [done|]. apply elem_of_select. split; [|done].
      simpl. apply map_lookup_filter_Some. done.
Qed.

(** Compaction of delivered details. A call with valid arguments can only fail when
    the lifetime counter is full (or, outside the reachable states, when the controller
    has no registry). Otherwise it removes exactly the [n] oldest of the
    compactable packages and reports their number and whether more remain; every removed
    package had been released by its source and at least 64 newer packages of the same
    root are still stored; all other packages are untouched; and the greatest retention
    ordinal the broker reports for a root is what it was. *)
Theorem CompactReleasedResultPackageDetails_keeps_window c n db :
  result_inv db -> valid_id c -> 1 <= n <= MaximumResultPackageDetailCompactionBatch ->
  let keys := compacted_keys c n db in
  match CompactReleasedResultPackageDetails c n db with
  | Ok (answer, db') =>
      result_inv db' /\ answer.(cp_Compacted) = Z.of_nat (length keys) /\
      (answer.(cp_More) = true <-> n < Z.of_nat (length (compactable c db))) /\
      (forall k r, db'.(result_packages) !! k = Some r <-> db.(result_packages) !! k = Some r /\ k ∉ keys) /\
      (forall k, k ∈ keys -> exists r, db.(result_packages) !! k = Some r /\ r.(rk_state) = ResultPackageDelivered /\
         0 < r.(rk_source_released_at) /\
         64 <= Z.of_nat (length (newer_packages c (k, r) db'))) /\
      (forall c' device, GetResultPackageRootRetentionHighwater c' device db' = GetResultPackageRootRetentionHighwater c' device db)
  | Err e => e = Wrap "increment status lifetime counters" SQLiteConstraint /\ keys <> []
  end.
Proof.
  intros Hi Hc Hn keys. destruct (CompactReleasedResultPackageDetails c n db) as [[answer db']|e] eqn:E.
  - apply CompactReleased_effect in E as (_ & _ & -> & Hcase). fold keys in Hcase |- *. simpl.
    assert (forall t, result_inv (set_controller_lifetime_counters (without_packages keys db) t)) as Hi'.
    { intros t. by apply result_inv_counters, without_packages_inv. }
    assert (forall k r, filter (fun x => x.1 ∉ keys) db.(result_packages) !! k = Some r <-> db.(result_packages) !! k = Some r /\ k ∉ keys) as Hrows.
    { intros k r. by rewrite map_lookup_filter_Some. }
    destruct Hcase as [[Hnil ->]|[_ ->]]; (split; [done|]); (split; [done|]); (split; [apply Z.ltb_lt|]).
    + split; [intros k r; rewrite Hnil; set_solver|]. split; [rewrite Hnil; set_solver|done].
    + split; [exact Hrows|]. split; [|intros; by apply highwater_compacted].
      intros k Hk. exact (compacted_outside_window c n db k Hk).
  - rewrite CompactReleasedResultPackageDetails_eq in E by done. cbv zeta in E. fold keys in E.
    destruct (decide (keys = [])) as [|Hne]; [done|]. split; [|done].
    unfold incrementStatusLifetimeCounters in E. destruct (decide _) in E; [|done]. by injection E as <-.
Qed.

(** ** Refinement: the delivery of packages *)

(** What the store promises about a package: its place in the protocol between the
    source and the root, and its number in the tree. *)
Inductive delivery_phase :=
  | PhasePending
  | PhaseDelivered (n : Z)
  | PhaseAcknowledged (n : Z)
  | PhaseReleased (n : Z).

(** The abstract state: the packages by controller, tree and id, each with the digest of
    its manifest; and the trees by controller and thread, each with its id and its last
    number. *)
Record delivery_state := {
  dl_packages : gmap (string * string * string) (string * delivery_phase);
  dl_trees : gmap (string * string) (string * Z);
}.

(** What can happen to a delivery state, and to which package. *)
Inductive delivery_event :=
  | MakeTree (c th t : string)
  | Publish (k : string * string * string) (digest : string)
  | Deliver (k : string * string * string)
  | Acknowledge (k : string * string * string)
  | Release (k : string * string * string)
  | Forget (k : string * string * string).

Inductive delivery_move (s : delivery_state) : delivery_event -> delivery_state -> Prop :=
  | delivery_tree c th t :
      s.(dl_trees) !! (c, th) = None -> (forall th' n, s.(dl_trees) !! (c, th') <> Some (t, n)) ->
      delivery_move s (MakeTree c th t) {| dl_packages := s.(dl_packages); dl_trees := <[(c, th) := (t, 0)]> s.(dl_trees) |}
  | delivery_publish k digest :
      s.(dl_packages) !! k = None ->
      delivery_move s (Publish k digest) {| dl_packages := <[k := (digest, PhasePending)]> s.(dl_packages); dl_trees := s.(dl_trees) |}
  | delivery_deliver k digest th n :
      s.(dl_packages) !! k = Some (digest, PhasePending) -> s.(dl_trees) !! (k.1.1, th) = Some (k.1.2, n) -> n < MaxInt64 ->
      delivery_move s (Deliver k) {| dl_packages := <[k := (digest, PhaseDelivered (n + 1))]> s.(dl_packages);
                                     dl_trees := <[(k.1.1, th) := (k.1.2, n + 1)]> s.(dl_trees) |}
  | delivery_acknowledge k digest n :
      s.(dl_packages) !! k = Some (digest, PhaseDelivered n) ->
      delivery_move s (Acknowledge k) {| dl_packages := <[k := (digest, PhaseAcknowledged n)]> s.(dl_packages); dl_trees := s.(dl_trees) |}
  | delivery_release k digest n :
      s.(dl_packages) !! k = Some (digest, PhaseAcknowledged n) ->
      delivery_move s (Release k) {| dl_packages := <[k := (digest, PhaseReleased n)]> s.(dl_packages); dl_trees := s.(dl_trees) |}
  | delivery_forget k digest n :
      s.(dl_packages) !! k = Some (digest, PhaseReleased n) ->
      delivery_move s (Forget k) {| dl_packages := delete k s.(dl_packages); dl_trees := s.(dl_trees) |}.

Definition delivery_step (s s' : delivery_state) : Prop := exists e, delivery_move s e s'.

(** Several events, in order. *)
Fixpoint delivery_moves (s : delivery_state) (es : list delivery_event) (s' : delivery_state) : Prop :=
  match es with
  | [] => s' = s
  | e :: es => exists s1, delivery_move s e s1 /\ delivery_moves s1 es s'
  end.

Lemma delivery_moves_steps s es s' : delivery_moves s es s' -> rtc delivery_step s s'.
Proof.
  revert s. induction es as [|e es IH]; simpl; [by intros s ->|]. intros s (s1 & H1 & H2). eapply rtc_l; [by exists e|by apply IH].
Qed.

(** The package has been through the event: it was published with this manifest, or
    has passed the phase the event leads to. *)
Definition happened (e : delivery_event) (s : delivery_state) : Prop :=
  match e with
  | Publish k digest => exists phase, s.(dl_packages) !! k = Some (digest, phase)
  | Deliver k => exists digest phase, s.(dl_packages) !! k = Some (digest, phase) /\ phase <> PhasePending
  | Acknowledge k => exists digest n, s.(dl_packages) !! k = Some (digest, PhaseAcknowledged n) \/
                                      s.(dl_packages) !! k = Some (digest, PhaseReleased n)
  | Release k => exists digest n, s.(dl_packages) !! k = Some (digest, PhaseReleased n)
  | MakeTree _ _ _ | Forget _ => False
  end.

(** The event happens now, or had happened and nothing does. *)
Definition performs (e : delivery_event) (s s' : delivery_state) : Prop := delivery_move s e s' \/ (happened e s /\ s' = s).

(** The abstraction of a row and of the database. *)
Definition phase_of (r : ResultPackageRow) : delivery_phase :=
  if decide (r.(rk_state) = ResultPackageDeliveryPending) then PhasePending
  else if decide (r.(rk_source_acknowledged_at) = 0) then PhaseDelivered r.(rk_result_sequence)
  else if decide (r.(rk_source_released_at) = 0) then PhaseAcknowledged r.(rk_result_sequence)
  else PhaseReleased r.(rk_result_sequence).

Definition delivery_of (db : DB) : delivery_state := {|
  dl_packages := (fun r => (r.(rk_manifest_sha256), phase_of r)) <$> db.(result_packages);
  dl_trees := (fun tr => (tr.(tr_tree_id), tr.(tr_last_result_sequence))) <$> db.(trees);
|}.

Lemma published_new_refines connectedDeviceID source m md ts db db' :
  published_new connectedDeviceID source m md ts db db' ->
  delivery_move (delivery_of db) (Publish (manifest_key m) md.(rpm_ManifestDescriptor).(rd_SHA256)) (delivery_of db').
Proof.
  intros [_ Habs _ (root & _ & _ & ->)]. unfold delivery_of. simpl. rewrite fmap_insert.
  apply (delivery_publish (delivery_of db)). simpl. by rewrite lookup_fmap, Habs.
Qed.

Lemma phase_pending r : r.(rk_state) = ResultPackageDeliveryPending -> phase_of r = PhasePending.
Proof. intros H. unfold phase_of. by rewrite decide_True. Qed.
Lemma phase_delivered r :
  r.(rk_state) = ResultPackageDelivered -> r.(rk_source_acknowledged_at) = 0 -> phase_of r = PhaseDelivered r.(rk_result_sequence).
Proof. intros H Ha. unfold phase_of. rewrite decide_False by (by rewrite H). by rewrite decide_True. Qed.
Lemma phase_acknowledged r :
  r.(rk_state) = ResultPackageDelivered -> r.(rk_source_acknowledged_at) <> 0 -> r.(rk_source_released_at) = 0 ->
  phase_of r = PhaseAcknowledged r.(rk_result_sequence).
Proof. intros H Ha Hr. unfold phase_of. rewrite decide_False by (by rewrite H). rewrite decide_False by done. by rewrite decide_True. Qed.
Lemma phase_released r :
  r.(rk_state) = ResultPackageDelivered -> r.(rk_source_acknowledged_at) <> 0 -> r.(rk_source_released_at) <> 0 ->
  phase_of r = PhaseReleased r.(rk_result_sequence).
Proof. intros H Ha Hr. unfold phase_of. rewrite decide_False by (by rewrite H). by rewrite !decide_False by done. Qed.

(** The event a package is next for. *)
Definition next_event (k : string * string * string) (r : ResultPackageRow) : delivery_event :=
  if decide (r.(rk_state) = ResultPackageDeliveryPending) then Deliver k
  else if decide (r.(rk_source_acknowledged_at) = 0) then Acknowledge k
  else Release k.

Lemma moved_refines k r r' p kt tr m db db' :
  result_inv db -> package_moved k r r' p kt tr m db db' -> delivery_move (delivery_of db) (next_event k r) (delivery_of db').
Proof.
  intros Hi [Hr Hstep _ _ Hlast ->]. pose proof (package_states _ _ (rd_ok _ _ _ _ _ _ _ Hr)) as Hst.
  pose proof (rd_found _ _ _ _ _ _ _ Hr) as Hf. destruct (rd_joined _ _ _ _ _ _ _ Hr) as [_ _ _ J4 J5 J6 _ J8].
  destruct Hstep as [ordinal ts r Hp Ho Hts|ts r Hp Hack Hts Hpos|ts r Hp Hack Hrel Hts]; unfold package_moves, next_event.
  - rewrite !(decide_True (P := r.(rk_state) = _)) by done. destruct Hst as [(_ & _ & _ & _ & Hack & Hrel)|(Hd & _)]; [|by rewrite Hd in Hp].
    destruct kt as [c th]. simpl in J5. subst c. unfold delivery_of. simpl. rewrite !fmap_insert.
    rewrite (phase_delivered (deliver_row _ _ _ _)) by done. simpl. rewrite J6.
    apply (delivery_deliver (delivery_of db)); simpl; [by rewrite lookup_fmap, Hf; simpl; rewrite phase_pending
      |by rewrite lookup_fmap, J4; simpl; rewrite J6|]. pose proof (ri_counters _ Hi _ _ J4). specialize (Hlast Hp). lia.
  - rewrite !(decide_False (P := r.(rk_state) = _)) by (by rewrite Hp). rewrite (decide_True (P := _ = 0)) by done.
    destruct Hst as [(Hd & _)|(_ & Hst)]; [by rewrite Hd in Hp|].
    unfold delivery_of. simpl. rewrite fmap_insert, (phase_acknowledged (stamp_row _ _ _)) by (simpl; lia || done).
    apply (delivery_acknowledge (delivery_of db)). simpl. rewrite lookup_fmap, Hf. simpl. by rewrite phase_delivered.
  - rewrite !(decide_False (P := r.(rk_state) = _)) by (by rewrite Hp). rewrite (decide_False (P := _ = 0)) by lia. unfold delivery_of. simpl.
    rewrite fmap_insert, (phase_released (stamp_row _ _ _)) by (simpl; lia || done).
    apply (delivery_release (delivery_of db)). simpl. rewrite lookup_fmap, Hf. simpl. rewrite phase_acknowledged; [done|done|lia|done].
Qed.

Lemma without_packages_refines keys db :
  result_inv db -> NoDup keys ->
  (forall k, k ∈ keys -> exists r, db.(result_packages) !! k = Some r /\ r.(rk_state) = ResultPackageDelivered /\
    0 < r.(rk_source_released_at)) ->
  delivery_moves (delivery_of db) (Forget <$> keys) (delivery_of (without_packages keys db)).
Proof.
  revert db. induction keys as [|k keys IH]; intros db Hi Hnd Hall; [by rewrite without_packages_nil|].
  apply NoDup_cons in Hnd as [Hnk Hnd]. rewrite <- without_packages_cons. destruct (Hall k) as (r & Hk & Hst & Hrel); [set_solver|].
  eexists. split; [|apply IH; [by apply without_packages_inv|done|]].
  - pose proof (package_states _ _ (proj1 (ri_rows _ Hi _ _ Hk))) as [(Hp & _)|(_ & _ & _ & _ & _ & _ & _ & Hack)]; [by rewrite Hp in Hst|].
    assert (delivery_of (without_packages [k] db) = {| dl_packages := delete k (delivery_of db).(dl_packages); dl_trees := (delivery_of db).(dl_trees) |}) as ->.
    { unfold delivery_of. rewrite without_package_delete. simpl. by rewrite fmap_delete. }
    eapply (delivery_forget (delivery_of db)). simpl. rewrite lookup_fmap, Hk. simpl. rewrite phase_released; [done|done|lia|lia].
  - intros k' Hk'. destruct (Hall k') as (r' & Hr' & ?); [set_solver|]. exists r'. split; [|done]. simpl.
    rewrite map_lookup_filter, Hr'. simpl. rewrite option_guard_True; [done|]. set_solver.
Qed.

(** A call of the store on result packages. *)
Inductive result_call (db : DB) : DB -> Prop :=
  | call_Publish d source params at_ res db' : PublishResultPackage d source params at_ db = Ok (res, db') -> result_call db db'
  | call_Delivered d root id ordinal at_ res db' :
      MarkResultPackageDelivered d root id ordinal at_ db = Ok (res, db') -> result_call db db'
  | call_Acknowledged d source id at_ res db' :
      MarkResultPackageSourceAcknowledged d source id at_ db = Ok (res, db') -> result_call db db'
  | call_Released d source id at_ res db' : MarkResultPackageSourceReleased d source id at_ db = Ok (res, db') -> result_call db db'
  | call_Compact c n res db' : CompactReleasedResultPackageDetails c n db = Ok (res, db') -> result_call db db'
  | call_Apply d root params at_ res db' : AuthorizeResultApply d root params at_ db = Ok (res, db') -> result_call db db'.

(** What a call does. *)
Inductive result_change (db : DB) : DB -> Prop :=
  | change_none : result_change db db
  | change_published d source m md ts db' :
      published_new d source m md ts db db' -> result_inv db' -> result_change db db'
  | change_moved k r r' p kt tr m db' : package_moved k r r' p kt tr m db db' -> result_change db db'
  | change_compacted c n : let keys := compacted_keys c n db in
      result_change db (set_controller_lifetime_counters (without_packages keys db)
        (bump_counters c (result_increment 0 0 0 (Z.of_nat (length keys))) db.(controller_lifetime_counters)))
  | change_applied d root params digest res ts db' :
      authorized_new d root params digest res ts db db' -> result_change db db'.

Lemma PublishResultPackage_inv connectedDeviceID source params at_ db res db' :
  trees_inv db -> result_inv db -> PublishResultPackage connectedDeviceID source params at_ db = Ok (res, db') ->
  trees_inv db' /\ result_inv db'.
Proof.
  intros Ht Hi H. destruct (PublishResultPackage_publisher _ _ _ _ _ _ _ Ht H) as [m Hpub].
  apply PublishResultPackage_effect in H as (m' & Hm & _ & Hms & _ & Hpar & [[-> _]|Hnew]); [done| |done..].
  destruct (authorize_source_Ok _ _ _ _ Ht (pb_allowed _ _ _ _ _ Hpub)) as (_ & _ & _ & Hrow).
  split; [|by eapply published_new_inv]. destruct Hnew as [_ _ _ (root & _ & _ & ->)]. by apply (trees_inv_frame db).
Qed.

Lemma result_call_change db db' : trees_inv db -> result_inv db -> result_call db db' -> result_change db db'.
Proof.
  intros Ht Hi [d source params at_ res db1 H|d root id ordinal at_ res db1 H|d source id at_ res db1 H|d source id at_ res db1 H
    |c n res db1 H|d root params at_ res db1 H].
  - pose proof (PublishResultPackage_inv _ _ _ _ _ _ _ Ht Hi H) as [_ Hi'].
    apply PublishResultPackage_effect in H as (m & _ & _ & _ & _ & _ & [[-> _]|Hn]); [constructor|by econstructor|done..].
  - apply MarkResultPackageDelivered_effect in H as (r & p & kt & tr & m & _ & _ & [(_ & _ & -> & _)|(_ & Hm & _)]); [constructor| |done..].
    by econstructor.
  - apply MarkResultPackageSourceAcknowledged_effect in H as (r & p & kt & tr & m & _ & _ & _ & [(_ & -> & _)|(_ & Hm & _)]);
      [constructor|by econstructor|done..].
  - apply MarkResultPackageSourceReleased_effect in H as (r & p & kt & tr & m & _ & _ & _ & _ & [(_ & -> & _)|(_ & Hm & _)]);
      [constructor|by econstructor|done..].
  - apply CompactReleased_effect in H as (_ & _ & _ & [[_ ->]|[_ ->]]); constructor.
  - apply AuthorizeResultApply_effect in H as (_ & _ & [[-> _]|(digest & Hn)]); [constructor|by econstructor|done..].
Qed.

(** Every call keeps the invariants. *)
Lemma result_call_inv db db' : trees_inv db -> result_inv db -> result_call db db' -> trees_inv db' /\ result_inv db'.
Proof.
  intros Ht Hi Hcall. destruct (result_call_change _ _ Ht Hi Hcall) as [|d source m md ts db' Hn Hi'|k r r' p kt tr m db' Hm|c n|d root params digest res ts db' Hn].
  - done.
  - split; [|done]. destruct Hn as [_ _ _ (root & _ & _ & ->)]. by apply (trees_inv_frame db).
  - split; [by eapply moved_trees_inv|by eapply moved_inv].
  - split; [by apply (trees_inv_frame db)|by apply result_inv_counters, without_packages_inv].
  - split; [|by eapply authorized_new_inv]. destruct Hn as [_ _ _ _ ->]. by apply (trees_inv_frame db).
Qed.

Lemma compacted_refines c n db :
  result_inv db ->
  delivery_moves (delivery_of db) (Forget <$> compacted_keys c n db) (delivery_of (without_packages (compacted_keys c n db) db)).
Proof.
  intros Hi. apply without_packages_refines; [done|eapply sublist_NoDup; [apply NoDup_compactable|apply sublist_take]|].
  intros k (r & Hr & _ & Hst & _ & Hrel)%compacted_key. eauto.
Qed.

Lemma result_change_refines db db' : result_inv db -> result_change db db' -> rtc delivery_step (delivery_of db) (delivery_of db').
Proof.
  intros Hi [|d source m md ts db1 Hn _|k r r' p kt tr m db1 Hm|c n|d root params digest res ts db1 Hn].
  - done.
  - apply rtc_once. eexists. by apply (published_new_refines _ _ _ _ _ _ _ Hn).
  - apply rtc_once. eexists. by eapply moved_refines.
  - eapply delivery_moves_steps. by apply (compacted_refines c n).
  - by destruct Hn as [_ _ _ _ ->].
Qed.

Lemma delivery_of_package db k r :
  db.(result_packages) !! k = Some r -> (delivery_of db).(dl_packages) !! k = Some (r.(rk_manifest_sha256), phase_of r).
Proof. intros H. simpl. by rewrite lookup_fmap, H. Qed.

(** C11 Refinement: every successful call on result packages is exactly one event of the
    delivery machine, or repeats one that has happened and then changes nothing. A
    publication makes the manifest's package pending with its digest; a delivery gives
    a pending package the next number of its tree; an acknowledgement needs a delivered
    package and a release an acknowledged one, and both keep its number. Compaction is
    one forgetting per compacted package, each of them released before; authorizing an
    apply is no event at all. So no call takes a package back, skips a phase, gives it
    another number, or forgets one its source has not released. *)
Theorem result_calls_refine_delivery db :
  trees_inv db -> result_inv db ->
  (forall d source params at_ res db', PublishResultPackage d source params at_ db = Ok (res, db') ->
     performs (Publish (source.(pi_ControllerID), source.(pi_TreeID), res.(prr_PackageID))
                       params.(prp_Metadata).(rpm_ManifestDescriptor).(rd_SHA256)) (delivery_of db) (delivery_of db')) /\
  (forall d root id ordinal at_ res db', MarkResultPackageDelivered d root id ordinal at_ db = Ok (res, db') ->
     performs (Deliver (root.(pi_ControllerID), root.(pi_TreeID), id)) (delivery_of db) (delivery_of db')) /\
  (forall d source id at_ res db', MarkResultPackageSourceAcknowledged d source id at_ db = Ok (res, db') ->
     performs (Acknowledge (source.(pi_ControllerID), source.(pi_TreeID), id)) (delivery_of db) (delivery_of db')) /\
  (forall d source id at_ res db', MarkResultPackageSourceReleased d source id at_ db = Ok (res, db') ->
     performs (Release (source.(pi_ControllerID), source.(pi_TreeID), id)) (delivery_of db) (delivery_of db')) /\
  (forall c n res db', CompactReleasedResultPackageDetails c n db = Ok (res, db') ->
     delivery_moves (delivery_of db) (Forget <$> compacted_keys c n db) (delivery_of db') /\
     res.(cp_Compacted) = Z.of_nat (length (compacted_keys c n db))) /\
  (forall d root params at_ res db', AuthorizeResultApply d root params at_ db = Ok (res, db') -> delivery_of db' = delivery_of db).
Proof.
  intros Ht Hi. split_and!.
  - intros d source params at_ res db' H. apply PublishResultPackage_effect in H as (m & _ & -> & Hms & _ & _ & Hcase); [|done..].
    replace (_, _, _) with (manifest_key m) by (unfold manifest_key; destruct Hms as (-> & -> & _); done).
    destruct Hcase as [(-> & r & Hr & Hmd)|Hn]; [right|left; by eapply published_new_refines].
    split; [|done]. exists (phase_of r). rewrite (delivery_of_package _ _ _ Hr), <- Hmd. done.
  - intros d root id ordinal at_ res db' H.
    apply MarkResultPackageDelivered_effect in H as (r & p & kt & tr & m & Hr & _ & [(Hst & _ & -> & _)|(Hst & Hm & _)]); [right|left|done..].
    + split; [|done]. exists r.(rk_manifest_sha256), (phase_of r). split; [apply delivery_of_package, Hr|].
      unfold phase_of. rewrite decide_False by (by rewrite Hst). by repeat case_decide.
    + apply moved_refines in Hm; [|done]. unfold next_event in Hm. by rewrite decide_True in Hm.
  - intros d source id at_ res db' H.
    apply MarkResultPackageSourceAcknowledged_effect in H as (r & p & kt & tr & m & Hr & _ & Hst & [(Hack & -> & _)|(Hack & Hm & _)]); [right|left|done..].
    + split; [|done]. exists r.(rk_manifest_sha256), r.(rk_result_sequence). rewrite (delivery_of_package _ _ _ (rd_found _ _ _ _ _ _ _ Hr)).
      destruct (decide (r.(rk_source_released_at) = 0)); [left; by rewrite phase_acknowledged|right; by rewrite phase_released].
    + apply moved_refines in Hm; [|done]. unfold next_event in Hm. rewrite decide_False in Hm by (by rewrite Hst). by rewrite decide_True in Hm.
  - intros d source id at_ res db' H.
    apply MarkResultPackageSourceReleased_effect in H as (r & p & kt & tr & m & Hr & _ & Hst & Hack & [(Hrel & -> & _)|(Hrel & Hm & _)]); [right|left|done..].
    + split; [|done]. exists r.(rk_manifest_sha256), r.(rk_result_sequence). rewrite (delivery_of_package _ _ _ (rd_found _ _ _ _ _ _ _ Hr)).
      by rewrite phase_released.
    + apply moved_refines in Hm; [|done]. unfold next_event in Hm. rewrite decide_False in Hm by (by rewrite Hst). by rewrite decide_False in Hm.
  - intros c n res db' H. apply CompactReleased_effect in H as (_ & _ & -> & [[E ->]|[_ ->]]); (split; [|done]); [by rewrite E|].
    by apply (compacted_refines c n).
  - intros d root params at_ res db' H. apply AuthorizeResultApply_effect in H as (_ & _ & [[-> _]|(digest & Hn)]); [done| |done..].
    by destruct Hn as [_ _ _ _ ->].
Qed.

(** *** The machine alone *)

(** The number of a package, once it has one. *)
Definition phase_number (x : delivery_phase) : option Z :=
  match x with PhasePending => None | PhaseDelivered n | PhaseAcknowledged n | PhaseReleased n => Some n end.

(** The manifest digest under a number. *)
Definition numbered (s : delivery_state) (k : string * string * string) (n : Z) : option string :=
  '(digest, phase) ← s.(dl_packages) !! k; if decide (phase_number phase = Some n) then Some digest else None.

Definition tree_ids_unique (s : delivery_state) : Prop := forall c th th' t n n',
  s.(dl_trees) !! (c, th) = Some (t, n) -> s.(dl_trees) !! (c, th') = Some (t, n') -> th = th'.

(** From [s] to [s'] the trees stay, and their numbers up to the last one they had keep
    their meaning. *)
Record numbers_kept (s s' : delivery_state) : Prop := {
  nk_unique : tree_ids_unique s';
  nk_kept : forall c th t n, s.(dl_trees) !! (c, th) = Some (t, n) ->
    exists n', s'.(dl_trees) !! (c, th) = Some (t, n') /\ n <= n' /\
      forall id m digest, m <= n -> numbered s' (c, t, id) m = Some digest -> numbered s (c, t, id) m = Some digest;
}.

Lemma numbered_insert s k k' digest phase trees n :
  numbered {| dl_packages := <[k := (digest, phase)]> s.(dl_packages); dl_trees := trees |} k' n =
  if decide (k' = k) then if decide (phase_number phase = Some n) then Some digest else None else numbered s k' n.
Proof.
  unfold numbered. simpl. destruct (decide (k' = k)) as [->|Hne]; [by rewrite lookup_insert_eq|by rewrite lookup_insert_ne].
Qed.

Lemma numbers_kept_same s s' :
  tree_ids_unique s -> s'.(dl_trees) = s.(dl_trees) ->
  (forall k n digest, numbered s' k n = Some digest -> numbered s k n = Some digest) -> numbers_kept s s'.
Proof.
  intros Hu E Hn. split; [unfold tree_ids_unique; by rewrite E|]. intros c th t n Hk. rewrite E. exists n.
  split_and!; [done|lia|]. intros id m digest _. apply Hn.
Qed.

(** A package that keeps its number. *)
Lemma renumber_same s k digest phase phase' :
  s.(dl_packages) !! k = Some (digest, phase) -> phase_number phase' = phase_number phase -> tree_ids_unique s ->
  numbers_kept s {| dl_packages := <[k := (digest, phase')]> s.(dl_packages); dl_trees := s.(dl_trees) |}.
Proof.
  intros Hk Hp Hu. apply numbers_kept_same; [done|done|]. intros k' n d. rewrite numbered_insert.
  destruct (decide (k' = k)) as [->|]; [|done]. rewrite Hp. unfold numbered. by rewrite Hk.
Qed.

Lemma delivery_step_numbers s s' : tree_ids_unique s -> delivery_step s s' -> numbers_kept s s'.
Proof.
  intros Hu [e Hstep]. destruct Hstep as [c th t Hnone Hfresh|k digest Hnone|k digest th n Hk Ht Hmax|k digest n Hk|k digest n Hk|k digest n Hk].
  - split; [unfold tree_ids_unique|]; simpl.
    + intros c' th1 th2 t' n n'. rewrite !lookup_insert_Some. intros [[[= <- <-] [= <- <-]]|[_ H1]] [[[= <-] [= ]]|[_ H2]]; try done.
      * by destruct (Hfresh _ _ H2).
      * subst. by destruct (Hfresh _ _ H1).
      * by eapply Hu.
    + intros c' th' t' n' H'. exists n'. rewrite lookup_insert_ne by congruence. split_and!; [done|lia|done].
  - apply numbers_kept_same; [done|done|]. intros k' n d. rewrite numbered_insert.
    destruct (decide (k' = k)) as [->|]; [|done]. done.
  - destruct k as [[c t] id]. simpl in Ht. split; [unfold tree_ids_unique|]; simpl.
    + intros c' th1 th2 t' m m'. rewrite !lookup_insert_Some. intros [[[= <- <-] [= <- <-]]|[_ H1]] [[[= <-] [= ]]|[_ H2]]; try done.
      * by eapply Hu.
      * subst. by eapply Hu.
      * by eapply Hu.
    + intros c' th' t' m H'. destruct (decide ((c', th') = (c, th))) as [[= -> ->]|Hne].
      * rewrite Ht in H'. injection H' as <- <-. exists (n + 1). rewrite lookup_insert_eq. split_and!; [done|lia|].
        intros id' z d Hz. rewrite numbered_insert. destruct (decide _) as [|]; [|done]. simpl. rewrite decide_False; [done|]. intros [= Hz']. lia.
      * exists m. rewrite lookup_insert_ne by congruence. split_and!; [done|lia|]. intros id' z d _. rewrite numbered_insert.
        destruct (decide _) as [[= -> -> ->]|]; [|done]. exfalso. apply Hne. f_equal. by eapply Hu.
  - by eapply renumber_same.
  - by eapply renumber_same.
  - apply numbers_kept_same; [done|done|]. intros k' m d. unfold numbered. simpl.
    destruct (decide (k' = k)) as [->|Hne]; [by rewrite lookup_delete_eq|by rewrite lookup_delete_ne].
Qed.

(** A number a tree has given out keeps its meaning, however the machine goes on. *)
Lemma delivery_numbers_kept s s' : tree_ids_unique s -> rtc delivery_step s s' -> numbers_kept s s'.
Proof.
  intros Hu Hsteps. revert Hu. induction Hsteps as [s|s1 s2 s3 Hstep _ IH]; intros Hu; [by apply numbers_kept_same|].
  destruct (delivery_step_numbers _ _ Hu Hstep) as [Hu2 H12]. destruct (IH Hu2) as [Hu3 H23]. split; [done|].
  intros c th t n Hk. destruct (H12 _ _ _ _ Hk) as (n2 & Hk2 & Hle2 & Hn2). destruct (H23 _ _ _ _ Hk2) as (n3 & Hk3 & Hle3 & Hn3).
  exists n3. split_and!; [done|lia|]. intros id m d Hm H3. apply Hn2; [done|]. apply Hn3; [lia|done].
Qed.

(** ** Properties: reading and applying *)

Definition delivered_rows (c t : string) (after : Z) (db : DB) : list ((string * string * string) * ResultPackageRow) :=
  order_by (fun x => x.2.(rk_result_sequence))
    (select (fun x : (string * string * string) * ResultPackageRow =>
       x.1.1 = (c, t) /\ x.2.(rk_state) = ResultPackageDelivered /\ after < x.2.(rk_result_sequence)) db.(result_packages)).

Lemma elem_of_delivered_rows c t after db k r :
  (k, r) ∈ delivered_rows c t after db <->
  db.(result_packages) !! k = Some r /\ k.1 = (c, t) /\ r.(rk_state) = ResultPackageDelivered /\ after < r.(rk_result_sequence).
Proof. unfold delivered_rows, order_by. rewrite elem_of_sort_by, elem_of_select. done. Qed.

Lemma delivered_rows_sorted c t after db :
  result_inv db -> 0 <= after ->
  StronglySorted (fun x y : (string * string * string) * ResultPackageRow => x.2.(rk_result_sequence) < y.2.(rk_result_sequence))
    (delivered_rows c t after db).
Proof.
  intros Hi Ha. apply (sorted_strict (fun x : (string * string * string) * ResultPackageRow => x.2.(rk_result_sequence)));
    [apply sort_by_sorted; apply _|]. apply NoDup_sort_by. apply NoDup_fmap_2_strong; [|apply NoDup_select].
  intros [k r] [k' r'] (Hk & Hkk & _ & Hlt)%elem_of_select (Hk' & Hkk' & _)%elem_of_select Heq. simpl in *.
  assert (k = k') as -> by (eapply (ri_sequences _ Hi); [exact Hk|exact Hk'|congruence|lia|done]). congruence.
Qed.

Lemma omap_total {A B} (f : A -> option B) l :
  (forall x, x ∈ l -> is_Some (f x)) -> Forall2 (fun x y => f x = Some y) l (omap f l).
Proof.
  induction l as [|x l IH]; intros H; csimpl; [constructor|]. destruct (H x) as [y Hy]; [set_solver|]. rewrite Hy.
  constructor; [done|]. apply IH. set_solver.
Qed.

(** A page of an ascending list of numbers, and the cursor after it. *)
Lemma sorted_page (l : list Z) n after :
  (0 < n)%nat -> StronglySorted Z.lt l -> (forall z, z ∈ l -> after < z) ->
  let next := default after (last (take n l)) in
  after <= next /\ (forall z, z ∈ take n l -> z <= next) /\ (forall z, z ∈ drop n l -> next < z /\ length (take n l) = n).
Proof.
  intros Hn Hs Ha next. assert (forall z, z ∈ drop n l -> length (take n l) = n) as Hfull.
  { intros z Hz. rewrite length_take. destruct (decide (n <= length l)%nat); [lia|]. rewrite drop_ge in Hz by lia. set_solver. }
  rewrite <- (take_drop n l) in Hs, Ha. apply StronglySorted_app in Hs as (Hcross & Hs & _). revert next Hfull Hcross Hs Ha.
  generalize (take n l) (drop n l). intros l1 l2. destruct l1 as [|x l1 _] using rev_ind; intros next Hfull Hcross Hs Ha.
  - unfold next. simpl. split_and!; [lia|set_solver|]. intros z Hz. specialize (Hfull z Hz). simpl in Hfull. lia.
  - unfold next. rewrite last_snoc. simpl. apply StronglySorted_app in Hs as (Hlt & _). specialize (Ha x ltac:(set_solver)) as Hax.
    split_and!; [lia| |].
    + intros z [Hz|Hz]%elem_of_app; [|set_solver]. specialize (Hlt z x Hz ltac:(set_solver)). lia.
    + intros z Hz. split; [|by eapply Hfull]. apply Hcross; set_solver.
Qed.

(** A row as the page shows it. *)
Definition shows (db : DB) (x : (string * string * string) * ResultPackageRow) (record : ResultPackageRecord) : Prop :=
  queryResultPackageByID x.1.1.1 x.1.1.2 x.1.2 db = Ok record /\ record.(rpr_Sequence) = x.2.(rk_result_sequence) /\
  record.(rpr_State) = x.2.(rk_state).

Lemma delivered_page_shows c t after n db principal records :
  trees_inv db -> result_inv db ->
  result_mapM (scan_delivered principal) (take n (delivered_after c t after db)) = Ok records ->
  Forall2 (shows db) (take n (delivered_rows c t after db)) records.
Proof.
  intros Ht Hi H. apply result_mapM_Ok in H. unfold delivered_after in H. fold (delivered_rows c t after db) in H.
  assert (Forall2 (fun x y => join_package x db = Some y) (delivered_rows c t after db)
    (omap (fun x => join_package x db) (delivered_rows c t after db))) as Hj.
  { apply omap_total. intros [k r] (Hk & _)%elem_of_delivered_rows. destruct (stored_package_read _ _ _ Hi Hk) as (p & kt & tr & m & Hr).
    rewrite (join_package_reads _ _ _ _ _ _ Ht (rd_joined _ _ _ _ _ _ _ Hr)). eauto. }
  apply (Forall2_take _ _ _ n) in Hj. revert H Hj.
  assert (forall x, x ∈ take n (delivered_rows c t after db) -> db.(result_packages) !! x.1 = Some x.2) as Hst.
  { intros [k r] Hin. apply (subseteq_take n) in Hin. by apply elem_of_delivered_rows in Hin as (Hk & _). }
  revert Hst. generalize (take n (delivered_rows c t after db)) (take n (omap (fun x => join_package x db) (delivered_rows c t after db))).
  intros rows joined Hst H Hj. revert records H. induction Hj as [|x y rows joined Hxy _ IH]; intros records H; inversion_clear H as [|? record ? records' Hscan Hrest]; [constructor|].
  constructor; [|apply IH; [intros; apply Hst; set_solver|done]].
  unfold scan_delivered in Hscan. apply result_bind_Ok in Hscan as (rec & Hscan & Hrej). apply reject_Ok in Hrej as [_ [= ->]].
  destruct x as [[[c' t'] id] r]. specialize (Hst ((c', t', id), r) ltac:(set_solver)). simpl in Hst.
  destruct (stored_package_read _ _ _ Hi Hst) as (p & kt & tr & m & Hr).
  pose proof (package_read_scan _ _ _ _ _ _ _ Ht Hr) as E. rewrite Hxy, Hscan in E. injection E as ->.
  split_and!; [by eapply queryResultPackageByID_Some|done|done].
Qed.

(** A page of delivered results. It holds stored packages of the caller's tree that
    are delivered, numbered above the cursor, in the order of their numbers; every such
    package up to the returned cursor is on it, and one beyond it exists only when the
    page is full: a root that follows the cursor misses nothing. *)
Theorem ListDeliveredResultPackages_page root after lim db page :
  trees_inv db -> result_inv db -> 0 <= after ->
  ListDeliveredResultPackages root {| rq_AfterSequence := after; rq_Limit := lim |} db = Ok page ->
  let c := root.(pi_ControllerID) in
  let t := root.(pi_TreeID) in
  StronglySorted (fun x y => x.(rpr_Sequence) < y.(rpr_Sequence)) page.(rg_Packages) /\
  Z.of_nat (length page.(rg_Packages)) <= lim <= maximumResultPackageStorePage /\
  (forall record, record ∈ page.(rg_Packages) -> record.(rpr_State) = ResultPackageDelivered /\
     after < record.(rpr_Sequence) <= page.(rg_NextSequence) /\ exists id, queryResultPackageByID c t id db = Ok record) /\
  after <= page.(rg_NextSequence) <= page.(rg_Highwater) /\
  (forall id r, db.(result_packages) !! (c, t, id) = Some r -> after < r.(rk_result_sequence) ->
     (exists record, record ∈ page.(rg_Packages) /\ queryResultPackageByID c t id db = Ok record) \/
     (page.(rg_NextSequence) < r.(rk_result_sequence) /\ Z.of_nat (length page.(rg_Packages)) = lim)).
Proof.
  intros Ht Hi Ha H c t. unfold ListDeliveredResultPackages in H. cbn [rq_AfterSequence rq_Limit] in H.
  apply do_Ok in H as [_ H]. apply reject_Ok in H as [_ H]. apply reject_Ok in H as [Hlim H].
  apply result_bind_Ok in H as (principal & _ & H). apply reject_Ok in H as [_ H]. fold c t in H.
  destruct (tree_row db c t) as [[kt tr]|] eqn:Etr; [|done]. cbn [result_bind] in H. apply reject_Ok in H as [Hhigh H].
  apply result_bind_Ok in H as (records & Hscan & [= <-]). cbn [rg_Packages rg_NextSequence rg_Highwater]. unfold limit in Hscan.
  apply delivered_page_shows in Hscan; [|done..]. pose proof (delivered_rows_sorted c t after db Hi Ha) as Hsorted.
  pose proof (elem_of_delivered_rows c t after db) as Hrows. revert Hscan Hsorted Hrows. generalize (delivered_rows c t after db).
  intros rows Hshow Hsorted Hrows. set (n := Z.to_nat lim) in *.
  assert (rpr_Sequence <$> records = (fun x => x.2.(rk_result_sequence)) <$> take n rows) as Eseq.
  { clear -Hshow. induction Hshow as [|x record rows' records' (_ & E & _) _ IH]; csimpl; [done|]. by rewrite E, IH. }
  apply (StronglySorted_key Z.lt (fun x : (string * string * string) * ResultPackageRow => x.2.(rk_result_sequence))) in Hsorted.
  destruct (sorted_page ((fun x => x.2.(rk_result_sequence)) <$> rows) n after) as (Hnext & Hle & Hbeyond); [lia|done| |].
  { intros z ([k r] & -> & (_ & _ & _ & Hgt)%Hrows)%list_elem_of_fmap. exact Hgt. }
  rewrite <- fmap_take, <- Eseq, fmap_last in Hnext, Hle, Hbeyond. rewrite length_fmap in Hbeyond.
  assert (forall record, record ∈ records -> exists k r, (k, r) ∈ rows /\ shows db (k, r) record) as Hfrom.
  { intros record Hin. apply list_elem_of_lookup in Hin as [i Hin]. destruct (Forall2_lookup_r _ _ _ _ _ Hshow Hin) as ([k r] & Hx & Hsh).
    exists k, r. split; [|done]. apply (subseteq_take n). by eapply list_elem_of_lookup_2. }
  split_and!.
  - apply (StronglySorted_key Z.lt). rewrite Eseq, fmap_take. by apply take_StronglySorted.
  - rewrite <- (length_fmap rpr_Sequence), Eseq, length_fmap, length_take. lia.
  - unfold maximumResultPackageStorePage in *. lia.
  - intros record Hin. destruct (Hfrom _ Hin) as (k & r & (Hk & Hkt & Hst & Hgt)%Hrows & Hq & Es & Est). simpl in *.
    split_and!; [congruence|rewrite Es; lia|apply Hle, list_elem_of_fmap_2, Hin|]. destruct k as [kk id]. simpl in *. subst kk. eauto.
  - done.
  - destruct (last records) as [record|] eqn:El; simpl; [|lia].
    destruct (Hfrom record) as (k & r & (Hk & Hkt & _)%Hrows & _ & Es & _); [by apply last_Some_elem_of|]. rewrite Es.
    destruct k as [kk id]. simpl in Hkt. subst kk. by eapply sequence_bounded.
  - intros id r Hk Hgt. assert (((c, t, id), r) ∈ rows) as Hin.
    { apply Hrows. split_and!; [done|done| |done]. destruct (package_states _ _ (proj1 (ri_rows _ Hi _ _ Hk))) as [(_ & ? & _)|(? & _)]; [lia|done]. }
    rewrite <- (take_drop n rows) in Hin. apply elem_of_app in Hin as [Hin|Hin].
    + left. apply list_elem_of_lookup in Hin as [i Hin]. destruct (Forall2_lookup_l _ _ _ _ _ Hshow Hin) as (record & Hrec & Hq & _).
      exists record. split; [by eapply list_elem_of_lookup_2|done].
    + right. destruct (Hbeyond r.(rk_result_sequence)) as [Hlt Hlen].
      { rewrite <- fmap_drop. by apply (list_elem_of_fmap_2 (fun x : (string * string * string) * ResultPackageRow => x.2.(rk_result_sequence))) in Hin. }
      split; [exact Hlt|]. lia.
Qed.

(** The caller of an apply is valid and the root it says it is. *)
Record applier (connectedDeviceID : string) (root : PrincipalIdentity) (db : DB) : Prop := {
  al_connected : valid_id connectedDeviceID;
  al_root : identity_ok root;
  al_allowed : exists p, authorize_root connectedDeviceID root CapabilityArtifactApply db = Ok p;
}.

Lemma AuthorizeResultApply_applier connectedDeviceID root params at_ db res db' :
  AuthorizeResultApply connectedDeviceID root params at_ db = Ok (res, db') -> applier connectedDeviceID root db.
Proof.
  unfold AuthorizeResultApply. intros H. apply tx_bind_Ok in H as ([] & ? & [Hc ->]%tx_lift_Ok & H).
  apply tx_bind_Ok in H as ([] & ? & [Hr ->]%tx_lift_Ok & H). apply tx_bind_Ok in H as ([] & ? & [_ ->]%tx_lift_Ok & H).
  apply tx_bind_Ok in H as (digest & ? & [_ ->]%tx_lift_Ok & H). apply tx_bind_Ok in H as (ts & ? & [_ ->]%tx_lift_Ok & H).
  apply tx_bind_Ok in H as (p & ? & [Hp ->]%tx_query_Ok & _). rewrite wrap_Ok in Hc, Hr. apply PrincipalIdentity_Validate_Ok in Hr.
  split; eauto.
Qed.

(** A call under an apply id that is taken. *)
Lemma AuthorizeResultApply_again connectedDeviceID root params at_ db a :
  result_inv db -> applier connectedDeviceID root db -> AuthorizeResultApplyParams_Validate params = Ok tt -> 0 <= at_ ->
  db.(result_apply_authorizations) !! apply_key root params.(aap_ApplyID) = Some a ->
  let stored := row_authorization params.(aap_ApplyID) a in
  AuthorizeResultApply connectedDeviceID root params at_ db =
    if decide (stored.(ra_Params) = params) then Ok (stored.(ra_Result), db)
    else Err (Wrap "applyId already identifies another request" ErrConflict).
Proof.
  intros Hi [Hc Hr [p Hp]] Hv Hat Ha stored. apply PrincipalIdentity_Validate_Ok in Hr.
  assert (sha256DigestPattern params.(aap_SourcePathSHA256) = true) as Hpat.
  { unfold AuthorizeResultApplyParams_Validate in Hv. rewrite !do_Ok, reject_Ok in Hv. destruct Hv as (_ & _ & Hs & _).
    by apply not_false_iff_true in Hs. }
  destruct (hex_decode_digest 64 _ eq_refl Hpat) as (d & Ed & _ & Hl). change (64 / 2) with 32 in Hl.
  unfold AuthorizeResultApply, tx_bind, tx_lift, tx_query, unixTime. rewrite Hc. cbn [wrap]. rewrite Hr. cbn [wrap].
  rewrite Hv, Ed. rewrite decide_False by lia. rewrite decide_False by lia. rewrite Hp.
  rewrite (queryResultApplyAuthorization_Some _ _ _ _ Hi Ha). cbn [optional]. fold stored.
  destruct (decide (stored.(ra_Params) = params)) as [E|E]; [by rewrite decide_False by tauto|by rewrite decide_True].
Qed.

(** Authorizing an apply. A success means that the caller is the root of its tree on
    the device it is connected from and that the answer names the manifest of a package
    delivered to it; the first call also checked that the package has a result for the
    prepared and consumed workspace the root sent, from the very repository and path of
    the request. A repeated request gets the same answer and changes nothing; another
    request under the same apply id is refused with a conflict. *)
Theorem AuthorizeResultApply_once connectedDeviceID root params at_ db res db' :
  trees_inv db -> result_inv db -> AuthorizeResultApply connectedDeviceID root params at_ db = Ok (res, db') ->
  result_inv db' /\ root.(pi_ParentAgentID) = "" /\ root.(pi_DeviceID) = connectedDeviceID /\
  res.(aar_ApplyID) = params.(aap_ApplyID) /\ res.(aar_PackageID) = params.(aap_PackageID) /\
  (exists r, db'.(result_packages) !! (root.(pi_ControllerID), root.(pi_TreeID), params.(aap_PackageID)) = Some r /\
     r.(rk_state) = ResultPackageDelivered /\ res.(aar_ManifestSHA256) = r.(rk_manifest_sha256)) /\
  (db' = db \/ exists pathDigest, may_apply connectedDeviceID root params pathDigest res db /\
     hex_string pathDigest = params.(aap_SourcePathSHA256)) /\
  (forall params2 at2, 0 <= at2 -> AuthorizeResultApplyParams_Validate params2 = Ok tt -> params2.(aap_ApplyID) = params.(aap_ApplyID) ->
     AuthorizeResultApply connectedDeviceID root params2 at2 db' =
       if decide (params = params2) then Ok (res, db') else Err (Wrap "applyId already identifies another request" ErrConflict)).
Proof.
  intros Ht Hi H. pose proof (AuthorizeResultApply_applier _ _ _ _ _ _ _ H) as Hap.
  apply AuthorizeResultApply_effect in H as (Hpar & Hdev & Hcase); [|done..].
  assert (result_inv db' /\ applier connectedDeviceID root db' /\
    exists a, db'.(result_apply_authorizations) !! apply_key root params.(aap_ApplyID) = Some a /\
      row_authorization params.(aap_ApplyID) a = {| ra_Params := params; ra_Result := res |}) as (Hi' & Hap' & a & Ha & Ea).
  { destruct Hcase as [[-> Ha]|[digest Hnew]]; [done|]. split; [by eapply authorized_new_inv|].
    destruct Hnew as [_ [_ M1 M2 _] [Hd _] _ ->]. split; [by destruct Hap; split|].
    eexists. split; [apply lookup_insert_eq|]. by apply row_authorization_stored. }
  destruct (ri_applies _ Hi' _ _ Ha) as (_ & _ & _ & r & Hr & Hst & Hsha). unfold row_authorization in Ea. injection Ea as Ep Er.
  split_and!; [done|done|done|by rewrite <- Er|by rewrite <- Ep, <- Er| | |].
  - exists r. rewrite <- Ep, <- Er. simpl. split_and!; [exact Hr|done|done].
  - destruct Hcase as [[-> _]|[digest Hnew]]; [by left|right]. exists digest. split; [apply Hnew|apply Hnew].
  - intros params2 at2 Hat2 Hv2 Hid. rewrite <- Hid in Ha. rewrite (AuthorizeResultApply_again _ _ _ _ _ a Hi' Hap' Hv2 Hat2 Ha).
    rewrite Hid. unfold row_authorization. simpl. by rewrite Ep, Er.
Qed.


(** ** A package from publication to compaction *)

Definition sample_turn : string := "cccccccc-cccc-4ccc-8ccc-cccccccccccc".
Definition sample_managed_thread : string := "dddddddd-dddd-4ddd-8ddd-dddddddddddd".
Definition sample_worker : PrincipalIdentity := {|
  pi_ControllerID := sample_controller; pi_TreeID := sample_tree; pi_AgentID := first_spawn.(si_AgentID);
  pi_ParentAgentID := sample_root; pi_DeviceID := sample_device |}.
Definition finalizing_page : WorkerLifecyclePageApply := {|
  wp_Session := sample_session sample_connection;
  wp_Page := {| slp_BaseRevision := 3; slp_ThroughRevision := 6; slp_Complete := true;
                slp_Workers := [{| wls_TreeID := sample_tree; wls_AgentID := first_spawn.(si_AgentID); wls_Revision := 5;
                                   wls_Phase := WorkerLifecycleFinalizing; wls_FailureCode := "";
                                   wls_CodexThreadID := sample_managed_thread; wls_ActiveTurnID := sample_turn |}] |};
  wp_ObservedAt := 310 |}.
Definition finalizing_db : DB := (run_tx (ApplyWorkerLifecyclePage finalizing_page) reserved_db).2.

(** The result of the worker's turn, with the overlay of its changes. *)
Definition worker_result (capturedAt : Z) : ResultManifest :=
  let digest := hex_string (Sum256 "x") in
  {| rm_Version := 2; rm_PackageID := "ffffffff-ffff-4fff-8fff-ffffffffffff"; rm_ControllerID := sample_controller;
     rm_TreeID := sample_tree; rm_SourceAgentID := first_spawn.(si_AgentID); rm_SourceDeviceID := sample_device;
     rm_ManagedThreadID := sample_managed_thread; rm_TurnID := sample_turn; rm_LifecycleRevision := 5;
     rm_Terminal := {| rt_Outcome := ResultTerminalCompleted; rt_FailureCode := "" |}; rm_CapturedAt := capturedAt;
     rm_Rollout := {| rr_Status := ResultRolloutAvailable; rr_RawSize := 4096; rr_RawSHA256 := digest; rr_FailureCode := "" |};
     rm_Workspace := {| rw_Status := ResultWorkspaceChanged; rw_WorkspaceID := sample_sync; rw_SourceDeviceID := sample_device;
       rw_TargetDeviceID := sample_device; rw_ObjectFormat := "sha1"; rw_BaseHeadOID := sample_summary.(wsm_HeadOID);
       rw_BaseManifestHash := sample_summary.(wsm_ManifestHash); rw_BaseSnapshotHash := of_bytes (replicate 64 48);
       rw_BaseClean := false; rw_ResultHeadOID := sample_summary.(wsm_HeadOID); rw_ResultSnapshotHash := digest;
       rw_ResultClean := false; rw_BaseWarnings := Some [WorkspaceWarningLFSPayloadNotTransferred]; rw_ResultWarnings := Some [];
       rw_FailureCode := "" |};
     rm_Parts := Some [{| rd_Kind := ResultPackagePartChangesOverlay; rd_Size := 100; rd_SHA256 := digest |};
                       {| rd_Kind := ResultPackagePartRollout; rd_Size := 200; rd_SHA256 := digest |}] |}.
Definition worker_package (capturedAt : Z) : PublishResultPackageParams := {| prp_Metadata :=
  match EncodeResultManifest (worker_result capturedAt) with
  | Ok (data, descriptor) => {| rpm_Manifest := data; rpm_ManifestDescriptor := descriptor |}
  | Err _ => {| rpm_Manifest := ""; rpm_ManifestDescriptor := {| rd_Kind := ""; rd_Size := 0; rd_SHA256 := "" |} |}
  end |}.
Definition sample_package : string := (worker_result 0).(rm_PackageID).
Definition sample_apply : AuthorizeResultApplyParams := {|
  aap_ApplyID := "abababab-abab-4bab-8bab-abababababab"; aap_PackageID := sample_package;
  aap_SourcePathSHA256 := hex_string sample_mac; aap_GitURL := "ssh://git.example/repo" |}.

Definition published_db : DB := (run_tx (PublishResultPackage sample_device sample_worker (worker_package 300) 320) finalizing_db).2.
Definition delivered_db : DB := (run_tx (MarkResultPackageDelivered sample_device sample_source sample_package 7 330) published_db).2.
Definition applied_db : DB := (run_tx (AuthorizeResultApply sample_device sample_source sample_apply 335) delivered_db).2.
Definition acknowledged_db : DB :=
  (run_tx (MarkResultPackageSourceAcknowledged sample_device sample_worker sample_package 340) delivered_db).2.
Definition released_db : DB :=
  (run_tx (MarkResultPackageSourceReleased sample_device sample_worker sample_package 350) acknowledged_db).2.

Lemma finalizing_db_eq : exists r, ApplyWorkerLifecyclePage finalizing_page reserved_db = Ok (r, finalizing_db).
Proof. unfold finalizing_db. apply run_tx_succeeds. vm_compute. reflexivity. Qed.
Lemma finalizing_db_inv : trees_inv finalizing_db /\ result_inv finalizing_db.
Proof.
  destruct finalizing_db_eq as [r H]. destruct reserved_db_inv as [Ht Hl].
  split; [exact (proj1 (ApplyWorkerLifecyclePage_inv _ _ _ _ Ht Hl H))|].
  apply no_results_inv; [vm_compute; reflexivity..|]. intros kt tr Htr.
  apply (table_forallb (fun x => in_range 0 MaxInt64 x.2.(tr_last_result_sequence))) in Htr; [|vm_compute; reflexivity].
  revert Htr. cbn [snd]. unfold in_range. rewrite andb_true_iff, !Z.leb_le. tauto.
Qed.

Lemma published_db_eq : exists r, PublishResultPackage sample_device sample_worker (worker_package 300) 320 finalizing_db = Ok (r, published_db).
Proof. unfold published_db. apply run_tx_succeeds. vm_compute. reflexivity. Qed.
Lemma published_db_inv : trees_inv published_db /\ result_inv published_db.
Proof. destruct published_db_eq as [r H]. exact (PublishResultPackage_inv _ _ _ _ _ _ _ (proj1 finalizing_db_inv) (proj2 finalizing_db_inv) H). Qed.

Lemma delivered_db_eq : exists r, MarkResultPackageDelivered sample_device sample_source sample_package 7 330 published_db = Ok (r, delivered_db).
Proof. unfold delivered_db. apply run_tx_succeeds. vm_compute. reflexivity. Qed.
Lemma delivered_db_inv : trees_inv delivered_db /\ result_inv delivered_db.
Proof.
  destruct delivered_db_eq as [r H].
  exact (result_call_inv _ _ (proj1 published_db_inv) (proj2 published_db_inv) (call_Delivered _ _ _ _ _ _ _ _ H)).
Qed.

Lemma acknowledged_db_eq :
  exists r, MarkResultPackageSourceAcknowledged sample_device sample_worker sample_package 340 delivered_db = Ok (r, acknowledged_db).
Proof. unfold acknowledged_db. apply run_tx_succeeds. vm_compute. reflexivity. Qed.
Lemma acknowledged_db_inv : trees_inv acknowledged_db /\ result_inv acknowledged_db.
Proof.
  destruct acknowledged_db_eq as [r H].
  exact (result_call_inv _ _ (proj1 delivered_db_inv) (proj2 delivered_db_inv) (call_Acknowledged _ _ _ _ _ _ _ H)).
Qed.

Lemma released_db_eq :
  exists r, MarkResultPackageSourceReleased sample_device sample_worker sample_package 350 acknowledged_db = Ok (r, released_db).
Proof. unfold released_db. apply run_tx_succeeds. vm_compute. reflexivity. Qed.
Lemma released_db_inv : trees_inv released_db /\ result_inv released_db.
Proof.
  destruct released_db_eq as [r H].
  exact (result_call_inv _ _ (proj1 acknowledged_db_inv) (proj2 acknowledged_db_inv) (call_Released _ _ _ _ _ _ _ H)).
Qed.

Lemma PublishResultPackage_once_witness : exists text,
  PublishResultPackage sample_device sample_worker (worker_package 301) 400 published_db = Err (Wrap text ErrConflict).
Proof.
  destruct published_db_eq as [r H]. destruct finalizing_db_inv as [Ht Hi].
  destruct (PublishResultPackage_once _ _ _ _ _ _ _ Ht Hi H) as (_ & m & row & Hm & _ & _ & _ & _ & _ & _ & Hconflict).
  assert (DecodeManifest (prp_Metadata (worker_package 300)) = Ok (worker_result 300)) as E by (vm_compute; reflexivity).
  rewrite E in Hm. injection Hm as <-.
  apply (Hconflict (worker_package 301) (worker_result 301)); [lia|vm_compute; reflexivity|vm_compute; auto|reflexivity|].
  intros Heq. apply (f_equal DecodeManifest) in Heq. rewrite E in Heq.
  assert (DecodeManifest (prp_Metadata (worker_package 301)) = Ok (worker_result 301)) as E' by (vm_compute; reflexivity).
  rewrite E' in Heq. apply (f_equal (fun r => match r with Ok m => rm_CapturedAt m | Err _ => 0 end)) in Heq.
  change (301 = 300) in Heq. discriminate Heq.
Defined.

Lemma MarkResultPackageDelivered_numbers_witness : exists text,
  MarkResultPackageDelivered sample_device sample_source sample_package 8 400 delivered_db = Err (Wrap text ErrConflict).
Proof.
  destruct delivered_db_eq as [r H]. destruct published_db_inv as [Ht Hi].
  destruct (MarkResultPackageDelivered_numbers _ _ _ _ _ _ _ _ Ht Hi H) as (_ & _ & _ & _ & _ & _ & _ & _ & _ & Hconflict).
  apply (Hconflict 8 400); unfold MaxInt64; lia.
Defined.

Lemma CompactReleasedResultPackageDetails_keeps_window_witness :
  CompactReleasedResultPackageDetails sample_controller 1 released_db = Ok ({| cp_Compacted := 0; cp_More := false |}, released_db) /\
  compacted_keys sample_controller 1 released_db = [].
Proof.
  pose proof (CompactReleasedResultPackageDetails_keeps_window sample_controller 1 released_db (proj2 released_db_inv)
    ltac:(vm_compute; reflexivity) ltac:(unfold MaximumResultPackageDetailCompactionBatch; lia)) as H.
  assert (compacted_keys sample_controller 1 released_db = []) as E by (vm_compute; reflexivity).
  split; [|exact E].
  destruct (CompactReleasedResultPackageDetails sample_controller 1 released_db) as [[answer db']|e] eqn:Ec.
  - apply CompactReleased_effect in Ec as (_ & _ & Ea & [[_ ->]|[Hne _]]); [|by destruct Hne].
    assert ((1 <? Z.of_nat (length (compactable sample_controller released_db))) = false) as Em by (vm_compute; reflexivity).
    rewrite Em, E in Ea. rewrite Ea. exact eq_refl.
  - destruct H as [_ Hne]. by destruct Hne.
Defined.

Lemma result_calls_refine_delivery_witness :
  let digest := (worker_package 300).(prp_Metadata).(rpm_ManifestDescriptor).(rd_SHA256) in
  performs (Release (sample_controller, sample_tree, sample_package)) (delivery_of acknowledged_db) (delivery_of released_db) /\
  (delivery_of acknowledged_db).(dl_packages) !! (sample_controller, sample_tree, sample_package) = Some (digest, PhaseAcknowledged 1) /\
  (delivery_of released_db).(dl_packages) !! (sample_controller, sample_tree, sample_package) = Some (digest, PhaseReleased 1).
Proof.
  split; [|split; vm_compute; reflexivity]. destruct released_db_eq as [r H]. destruct acknowledged_db_inv as [Ht Hi].
  destruct (result_calls_refine_delivery acknowledged_db Ht Hi) as (_ & _ & _ & Hrelease & _). exact (Hrelease _ _ _ _ _ _ H).
Defined.

Lemma ListDeliveredResultPackages_page_witness : exists page record,
  ListDeliveredResultPackages sample_source {| rq_AfterSequence := 0; rq_Limit := 2 |} delivered_db = Ok page /\
  record ∈ page.(rg_Packages) /\
  queryResultPackageByID sample_controller sample_tree sample_package delivered_db = Ok record.
Proof.
  destruct (ListDeliveredResultPackages sample_source {| rq_AfterSequence := 0; rq_Limit := 2 |} delivered_db) as [page|e] eqn:E.
  - exists page. destruct delivered_db_inv as [Ht Hi].
    destruct (ListDeliveredResultPackages_page sample_source 0 2 delivered_db page Ht Hi ltac:(lia) E) as (_ & Hlen & _ & _ & Hall).
    destruct (delivered_db.(result_packages) !! (sample_controller, sample_tree, sample_package)) as [r|] eqn:Er;
      [|exfalso; revert Er; vm_compute; discriminate].
    destruct (Hall sample_package r Er) as [(record & Hin & Hq)|[_ Hfull]].
    + apply (f_equal (fmap rk_result_sequence)) in Er. revert Er. vm_compute. intros [= <-]. reflexivity.
    + exists record. exact (conj eq_refl (conj Hin Hq)).
    + exfalso. assert (match ListDeliveredResultPackages sample_source {| rq_AfterSequence := 0; rq_Limit := 2 |} delivered_db with
                       | Ok p => length p.(rg_Packages) | Err _ => O end = 1%nat) as El by (vm_compute; reflexivity).
      rewrite E in El. rewrite El in Hfull. discriminate Hfull.
  - exfalso. apply (f_equal is_ok) in E. revert E. vm_compute. discriminate.
Defined.

Lemma AuthorizeResultApply_once_witness : exists res,
  AuthorizeResultApply sample_device sample_source sample_apply 335 delivered_db = Ok (res, applied_db) /\
  AuthorizeResultApply sample_device sample_source sample_apply 500 applied_db = Ok (res, applied_db).
Proof.
  assert (exists res, AuthorizeResultApply sample_device sample_source sample_apply 335 delivered_db = Ok (res, applied_db)) as [res H].
  { unfold applied_db. apply run_tx_succeeds. vm_compute. reflexivity. }
  exists res. split; [exact H|]. destruct delivered_db_inv as [Ht Hi].
  destruct (AuthorizeResultApply_once _ _ _ _ _ _ _ Ht Hi H) as (_ & _ & _ & _ & _ & _ & _ & Hagain).
  specialize (Hagain sample_apply 500 ltac:(lia) ltac:(vm_compute; reflexivity) eq_refl).
  destruct (decide (sample_apply = sample_apply)) as [_|Hne]; [exact Hagain|by destruct Hne].
Defined.
