(* ===== verification/Artifacts.v ===== *)
(** internal/store/changes_artifact.go: the metadata of the changes a worker captured.
    A worker publishes the description of its changes for a turn, based on the workspace
    its spawn consumed; the artifact gets the next number of its tree; the root lists
    the artifacts of its tree in that order. *)

From S2P Require Export ResultsCorrect.

(** ** Data *)

(* go: internal/protocol/agent_wait.go:15-15 MaximumAgentWaitArtifacts *)
Definition MaximumAgentWaitArtifacts : Z := 1.

(* go: internal/store/changes_artifact.go:22-23 maximumChangesArtifactStorePage *)
Definition maximumChangesArtifactStorePage : Z := MaximumAgentWaitArtifacts + 1.

(* go: internal/store/changes_artifact.go ChangesArtifactPageRequest *)
Record ChangesArtifactPageRequest := { cq_AfterSequence : Z; cq_Limit : Z }.

(* go: internal/store/changes_artifact.go ChangesArtifactPage *)
Record ChangesArtifactPage := {
  cg_Artifacts : list ChangesArtifactMetadata;
  cg_NextSequence : Z;
  cg_Highwater : Z;
}.

(* go: internal/store/changes_artifact.go changesArtifactAuthority *)
Record changesArtifactAuthority := {
  caa_ParentAgentID : string;
  caa_SpawnID : string;
  caa_TargetDeviceID : string;
  caa_WorkspaceID : string;
  caa_SpawnStatus : string;
  caa_WorkspaceTargetDeviceID : string;
  caa_WorkspaceSourceDeviceID : string;
  caa_WorkspaceStatus : string;
  caa_ConsumedSpawnID : string;
  caa_HeadOID : string;
  caa_ObjectFormat : string;
  caa_SourceClean : bool;
  caa_SourceSnapshotHash : string;
  caa_ManifestHash : string;
  caa_Warnings : list string;
}.

(** ** The text of the parts *)

(* go: internal/protocol/workspace_transfer.go WorkspaceArtifactDescriptor *)
Definition artifact_part_json (d : WorkspaceArtifactDescriptor) : json := JObject [
  ("kind", JString d.(wad_Kind)); ("size", JNumber (decimal d.(wad_Size))); ("sha256", JString d.(wad_SHA256))].

Definition zero_artifact_part : WorkspaceArtifactDescriptor := {| wad_Kind := ""; wad_Size := 0; wad_SHA256 := "" |}.

Definition unmarshal_artifact_part : decoder WorkspaceArtifactDescriptor := fun old v =>
  let? members := struct_members_any v in
  let field {A} := @unmarshal_field A part_fields members in
  let? kind := field "kind" unmarshal_string old.(wad_Kind) in
  let? size := field "size" unmarshal_int old.(wad_Size) in
  let? sha256 := field "sha256" unmarshal_string old.(wad_SHA256) in
  Ok {| wad_Kind := kind; wad_Size := size; wad_SHA256 := sha256 |}.

(** [json.Marshal] of the parts and [json.Unmarshal] into an empty slice. *)
Definition marshal_parts (parts : list WorkspaceArtifactDescriptor) : string :=
  of_bytes (json_text (JArray (artifact_part_json <$> parts))).

Definition unmarshal_parts (text : string) : result (list WorkspaceArtifactDescriptor) :=
  match json_parse text with
  | None => Err (New "invalid JSON")
  | Some v =>
      let? parts := unmarshal_slice zero_artifact_part unmarshal_artifact_part (Slice None []) v in
      Ok (default [] parts.(sl_elements))
  end.

(** ** Reading *)

Definition artifact_metadata (k : string * string * string) (r : ArtifactRow) (parts : list WorkspaceArtifactDescriptor)
    (baseWarnings resultWarnings : list string) : ChangesArtifactMetadata := {|
  cam_TreeID := k.1.2; cam_SourceAgentID := r.(ar_source_agent_id); cam_SourceDeviceID := r.(ar_source_device_id);
  cam_ObjectFormat := r.(ar_object_format); cam_BaseClean := r.(ar_base_clean);
  cam_Params := {|
    pca_ArtifactID := k.2; pca_TurnID := r.(ar_turn_id); pca_WorkspaceID := r.(ar_workspace_id);
    pca_WorkspaceSourceDeviceID := r.(ar_workspace_source_device_id);
    pca_WorkspaceTargetDeviceID := r.(ar_workspace_target_device_id); pca_Status := r.(ar_status);
    pca_BaseHeadOID := r.(ar_base_head_oid); pca_BaseManifestHash := r.(ar_base_manifest_hash);
    pca_BaseSnapshotHash := r.(ar_base_snapshot_hash); pca_ResultHeadOID := r.(ar_result_head_oid);
    pca_ResultSnapshotHash := r.(ar_result_snapshot_hash); pca_ResultClean := r.(ar_result_clean); pca_Parts := parts;
    pca_BaseWarnings := baseWarnings; pca_ResultWarnings := resultWarnings; pca_FailureCode := r.(ar_failure_code) |};
  cam_Sequence := r.(ar_artifact_sequence); cam_ObservedAt := r.(ar_observed_at) |}.

(* go: internal/store/changes_artifact.go scanChangesArtifact *)
Definition scanChangesArtifact (x : option ((string * string * string) * ArtifactRow)) : result ChangesArtifactMetadata :=
  match x with
  | None => Err ErrNotFound
  | Some (k, r) =>
      let? parts := wrap "decode changes artifact parts" (unmarshal_parts r.(ar_parts_json)) in
      match json_Unmarshal_strings r.(ar_base_warnings_json) with
      | None => Err (New "decode changes artifact base warnings")
      | Some baseWarnings =>
          match json_Unmarshal_strings r.(ar_result_warnings_json) with
          | None => Err (New "decode changes artifact result warnings")
          | Some resultWarnings =>
              let metadata := artifact_metadata k r parts baseWarnings resultWarnings in
              do? wrap "stored changes artifact is invalid" (ChangesArtifactMetadata_Validate metadata) in
              Ok metadata
          end
      end
  end.

(* go: internal/store/changes_artifact.go queryChangesArtifactByID *)
Definition queryChangesArtifactByID (controllerID treeID artifactID : string) (db : DB) : result ChangesArtifactMetadata :=
  scanChangesArtifact (row_at db.(changes_artifacts) (controllerID, treeID, artifactID)).

Definition turn_artifact (c t sourceAgentID turnID : string) (x : (string * string * string) * ArtifactRow) : Prop :=
  x.1.1 = (c, t) /\ x.2.(ar_source_agent_id) = sourceAgentID /\ x.2.(ar_turn_id) = turnID.
#[global] Instance turn_artifact_dec c t a u x : Decision (turn_artifact c t a u x).
Proof. unfold turn_artifact. apply _. Defined.

(* go: internal/store/changes_artifact.go queryChangesArtifactByTurn *)
Definition queryChangesArtifactByTurn (controllerID treeID sourceAgentID turnID : string) (db : DB)
    : result ChangesArtifactMetadata :=
  scanChangesArtifact (select_row (turn_artifact controllerID treeID sourceAgentID turnID) db.(changes_artifacts)).

(** The inner join of an agent's spawn with the workspace it names. *)
(* go: internal/store/changes_artifact.go queryChangesArtifactAuthority *)
Definition queryChangesArtifactAuthority (source : PrincipalIdentity) (db : DB) : result changesArtifactAuthority :=
  let c := source.(pi_ControllerID) in
  let t := source.(pi_TreeID) in
  match select_row (spawn_of_agent c t source.(pi_AgentID)) db.(agent_spawn_receipts) with
  | None => Err ErrAuthorizationDenied
  | Some (k, r) =>
      match db.(workspace_sync_receipts) !! (c, t, k.1.2, r.(sp_workspace_id)) with
      | None => Err ErrAuthorizationDenied
      | Some w =>
          match json_Unmarshal_strings w.(ws_warnings_json) with
          | None => Err (New "stored changes artifact authority warnings are invalid")
          | Some warnings =>
              reject (New "stored changes artifact authority warnings are invalid")
                when (is_ok (ValidateWorkspaceWarnings warnings) = false) in
              Ok {| caa_ParentAgentID := k.1.2; caa_SpawnID := k.2; caa_TargetDeviceID := r.(sp_target_device_id);
                    caa_WorkspaceID := r.(sp_workspace_id); caa_SpawnStatus := r.(sp_status);
                    caa_WorkspaceTargetDeviceID := w.(ws_target_device_id);
                    caa_WorkspaceSourceDeviceID := w.(ws_source_device_id); caa_WorkspaceStatus := w.(ws_status);
                    caa_ConsumedSpawnID := w.(ws_consumed_spawn_id); caa_HeadOID := w.(ws_head_oid);
                    caa_ObjectFormat := w.(ws_object_format); caa_SourceClean := w.(ws_source_clean);
                    caa_SourceSnapshotHash := w.(ws_source_snapshot_hash); caa_ManifestHash := w.(ws_manifest_hash);
                    caa_Warnings := warnings |}
          end
      end
  end.

(** ** Publishing *)

(* go: internal/store/changes_artifact.go changesArtifactParams *)
Definition changesArtifactParams (metadata : ChangesArtifactMetadata) : PublishChangesArtifactParams := metadata.(cam_Params).

(* go: internal/store/changes_artifact.go replayChangesArtifact *)
Definition replayChangesArtifact (stored requested : ChangesArtifactMetadata) : result PublishChangesArtifactResult :=
  reject (Wrap "artifactId or turnId already identifies different changes" ErrConflict)
    when (stored.(cam_TreeID) <> requested.(cam_TreeID) \/ stored.(cam_SourceAgentID) <> requested.(cam_SourceAgentID) \/
          stored.(cam_SourceDeviceID) <> requested.(cam_SourceDeviceID) \/
          stored.(cam_ObjectFormat) <> requested.(cam_ObjectFormat) \/ stored.(cam_BaseClean) <> requested.(cam_BaseClean) \/
          ~ SameChangesArtifactParams (changesArtifactParams stored) (changesArtifactParams requested)) in
  Ok {| pcr_ArtifactID := stored.(cam_Params).(pca_ArtifactID); pcr_Sequence := stored.(cam_Sequence) |}.

Definition set_artifact_sequence (sequence : Z) (r : TreeRow) : TreeRow := {|
  tr_tree_id := r.(tr_tree_id); tr_root_agent_id := r.(tr_root_agent_id);
  tr_root_device_id := r.(tr_root_device_id); tr_created_at := r.(tr_created_at);
  tr_last_agent_sequence := r.(tr_last_agent_sequence); tr_last_lifecycle_sequence := r.(tr_last_lifecycle_sequence);
  tr_last_artifact_sequence := sequence; tr_last_result_sequence := r.(tr_last_result_sequence) |}.

(* go: internal/store/changes_artifact.go nextTreeChangesArtifactSequence *)
Definition nextTreeChangesArtifactSequence (controllerID treeID : string) : Tx DB Z :=
  let! current := tx_query (fun db =>
    match tree_row db controllerID treeID with
    | None => Err ErrNotFound
    | Some (_, r) => Ok r.(tr_last_artifact_sequence)
    end) in
  fail ErrChangesArtifactSequenceExhausted when (current = MaxInt64) in
  let next := current + 1 in
  do! tx_exec (fun db =>
    let? (affected, db) := wrap "advance tree changes artifact sequence"
      (update_tree controllerID treeID (fun r => r.(tr_last_artifact_sequence) =? current) (set_artifact_sequence next) db) in
    reject (New "tree changes artifact sequence changed during update") when (affected <> 1) in
    Ok db) in
  tx_ret next.

(** The worker may publish: its spawn is started and has consumed the prepared
    workspace the request names. *)
(* go: internal/store/changes_artifact.go:71-81 PublishChangesArtifact *)
Definition artifact_authorized (principal : Principal) (connectedDeviceID : string) (authority : changesArtifactAuthority)
    (params : PublishChangesArtifactParams) : Prop :=
  authority.(caa_ParentAgentID) = p_ParentAgentID principal /\ authority.(caa_TargetDeviceID) = connectedDeviceID /\
  authority.(caa_WorkspaceTargetDeviceID) = connectedDeviceID /\
  authority.(caa_WorkspaceSourceDeviceID) = params.(pca_WorkspaceSourceDeviceID) /\
  authority.(caa_WorkspaceTargetDeviceID) = params.(pca_WorkspaceTargetDeviceID) /\
  authority.(caa_WorkspaceID) = params.(pca_WorkspaceID) /\ authority.(caa_WorkspaceStatus) = WorkspaceSyncPrepared /\
  authority.(caa_SpawnStatus) = AgentSpawnStarted /\ authority.(caa_ConsumedSpawnID) = authority.(caa_SpawnID).
#[global] Instance artifact_authorized_dec p d a params : Decision (artifact_authorized p d a params).
Proof. unfold artifact_authorized. apply _. Defined.

(* go: internal/store/changes_artifact.go:82-87 PublishChangesArtifact *)
Definition artifact_base_matches (authority : changesArtifactAuthority) (params : PublishChangesArtifactParams) : Prop :=
  authority.(caa_HeadOID) = params.(pca_BaseHeadOID) /\ authority.(caa_ManifestHash) = params.(pca_BaseManifestHash) /\
  authority.(caa_SourceSnapshotHash) = params.(pca_BaseSnapshotHash) /\ authority.(caa_Warnings) = params.(pca_BaseWarnings).
#[global] Instance artifact_base_matches_dec a params : Decision (artifact_base_matches a params).
Proof. unfold artifact_base_matches. apply _. Defined.

Definition set_metadata_sequence (sequence : Z) (m : ChangesArtifactMetadata) : ChangesArtifactMetadata := {|
  cam_TreeID := m.(cam_TreeID); cam_SourceAgentID := m.(cam_SourceAgentID); cam_SourceDeviceID := m.(cam_SourceDeviceID);
  cam_ObjectFormat := m.(cam_ObjectFormat); cam_BaseClean := m.(cam_BaseClean); cam_Params := m.(cam_Params);
  cam_Sequence := sequence; cam_ObservedAt := m.(cam_ObservedAt) |}.

(* go: internal/store/changes_artifact.go:146-164 PublishChangesArtifact *)
Definition artifact_row (m : ChangesArtifactMetadata) : ArtifactRow :=
  let p := m.(cam_Params) in {|
  ar_turn_id := p.(pca_TurnID); ar_workspace_id := p.(pca_WorkspaceID); ar_status := p.(pca_Status);
  ar_source_agent_id := m.(cam_SourceAgentID); ar_source_device_id := m.(cam_SourceDeviceID);
  ar_workspace_source_device_id := p.(pca_WorkspaceSourceDeviceID);
  ar_workspace_target_device_id := p.(pca_WorkspaceTargetDeviceID); ar_object_format := m.(cam_ObjectFormat);
  ar_base_head_oid := p.(pca_BaseHeadOID); ar_base_manifest_hash := p.(pca_BaseManifestHash);
  ar_base_snapshot_hash := p.(pca_BaseSnapshotHash); ar_base_clean := m.(cam_BaseClean);
  ar_result_head_oid := p.(pca_ResultHeadOID); ar_result_snapshot_hash := p.(pca_ResultSnapshotHash);
  ar_result_clean := p.(pca_ResultClean); ar_parts_json := marshal_parts p.(pca_Parts);
  ar_base_warnings_json := json_Marshal_strings p.(pca_BaseWarnings);
  ar_result_warnings_json := json_Marshal_strings p.(pca_ResultWarnings); ar_failure_code := p.(pca_FailureCode);
  ar_artifact_sequence := m.(cam_Sequence); ar_observed_at := m.(cam_ObservedAt) |}.

Definition artifact_unique (k : string * string * string) (r : ArtifactRow) (db : DB) : bool :=
  none_where (fun x : (string * string * string) * ArtifactRow =>
    x.1.1 = k.1 /\ x.2.(ar_source_agent_id) = r.(ar_source_agent_id) /\ x.2.(ar_turn_id) = r.(ar_turn_id))
    db.(changes_artifacts) &&
  none_where (fun x : (string * string * string) * ArtifactRow =>
    x.1.1 = k.1 /\ x.2.(ar_artifact_sequence) = r.(ar_artifact_sequence)) db.(changes_artifacts).

Definition insert_artifact (k : string * string * string) (r : ArtifactRow) (db : DB) : result DB :=
  let? tb := sql_insert db.(changes_artifacts) k r
    (artifact_check k.2 r && artifact_unique k r db && principal_exists db k.1.1 k.1.2 r.(ar_source_agent_id) &&
     negb (none_where (fun x : (string * string * string * string) * WorkspaceRow =>
       x.1.1.1 = k.1 /\ x.1.2 = r.(ar_workspace_id)) db.(workspace_sync_receipts)) &&
     device_exists db k.1.1 r.(ar_source_device_id) && device_exists db k.1.1 r.(ar_workspace_source_device_id) &&
     device_exists db k.1.1 r.(ar_workspace_target_device_id) && tree_exists db k.1.1 k.1.2) in
  Ok (set_changes_artifacts db tb).

(** The metadata the broker stores for a request. *)
(* go: internal/store/changes_artifact.go:88-103 PublishChangesArtifact *)
Definition requested_metadata (source : PrincipalIdentity) (connectedDeviceID : string) (authority : changesArtifactAuthority)
    (params : PublishChangesArtifactParams) (timestamp : Z) : ChangesArtifactMetadata := {|
  cam_TreeID := source.(pi_TreeID); cam_SourceAgentID := source.(pi_AgentID); cam_SourceDeviceID := connectedDeviceID;
  cam_ObjectFormat := authority.(caa_ObjectFormat); cam_BaseClean := authority.(caa_SourceClean); cam_Params := params;
  cam_Sequence := 1; cam_ObservedAt := timestamp |}.

(* go: internal/store/changes_artifact.go PublishChangesArtifact *)
Definition PublishChangesArtifact (connectedDeviceID : string) (source : PrincipalIdentity) (params : PublishChangesArtifactParams)
    (observedAt : Z) : Tx DB PublishChangesArtifactResult :=
  do! tx_lift (wrap "connectedDeviceId" (ValidateID connectedDeviceID)) in
  do! tx_lift (wrap "source" (PrincipalIdentity_Validate source)) in
  do! tx_lift (PublishChangesArtifactParams_Validate params) in
  let! timestamp := tx_lift (unixTime observedAt) in
  let! principal := tx_query (authorize_source connectedDeviceID source) in
  let! authority := tx_query (queryChangesArtifactAuthority principal.(p_Identity)) in
  fail ErrAuthorizationDenied when (~ artifact_authorized principal connectedDeviceID authority params) in
  fail (Wrap "changes artifact base differs from the prepared workspace" ErrConflict)
    when (~ artifact_base_matches authority params) in
  let metadata := requested_metadata source connectedDeviceID authority params timestamp in
  fail (Wrap "changes artifact does not match its prepared base" ErrConflict)
    when (is_ok (ChangesArtifactMetadata_Validate metadata) = false) in
  let c := source.(pi_ControllerID) in
  let t := source.(pi_TreeID) in
  let! stored := tx_query (fun db => optional (queryChangesArtifactByID c t params.(pca_ArtifactID) db)) in
  match stored with
  | Some stored => tx_lift (replayChangesArtifact stored metadata)
  | None =>
      let! stored := tx_query (fun db =>
        optional (queryChangesArtifactByTurn c t source.(pi_AgentID) params.(pca_TurnID) db)) in
      match stored with
      | Some stored => tx_lift (replayChangesArtifact stored metadata)
      | None =>
          let! sequence := nextTreeChangesArtifactSequence c t in
          let metadata := set_metadata_sequence sequence metadata in
          do! tx_exec (fun db => wrap "create changes artifact metadata"
            (insert_artifact (c, t, params.(pca_ArtifactID)) (artifact_row metadata) db)) in
          tx_ret {| pcr_ArtifactID := params.(pca_ArtifactID); pcr_Sequence := sequence |}
      end
  end.

(** ** Listing *)

Definition artifacts_after (c t : string) (after : Z) (db : DB) : list ((string * string * string) * ArtifactRow) :=
  order_by (fun x => x.2.(ar_artifact_sequence))
    (select (fun x : (string * string * string) * ArtifactRow =>
       x.1.1 = (c, t) /\ after < x.2.(ar_artifact_sequence)) db.(changes_artifacts)).

(* go: internal/store/changes_artifact.go ListChangesArtifacts *)
Definition ListChangesArtifacts (root : PrincipalIdentity) (request : ChangesArtifactPageRequest) (db : DB)
    : result ChangesArtifactPage :=
  do? wrap "root" (PrincipalIdentity_Validate root) in
  reject ErrChangesArtifactCursorAhead when (request.(cq_AfterSequence) > MaxInt64) in
  reject (New "changes artifact page limit must be from 1 through %d")
    when (request.(cq_Limit) < 1 \/ request.(cq_Limit) > maximumChangesArtifactStorePage) in
  let? principal := authorizePrincipal root CapabilityAgentManageDescendants db in
  reject ErrAuthorizationDenied when (p_ParentAgentID principal <> "") in
  let? highwater := match tree_row db root.(pi_ControllerID) root.(pi_TreeID) with
                    | None => Err ErrNotFound
                    | Some (_, r) => Ok r.(tr_last_artifact_sequence)
                    end in
  reject ErrChangesArtifactCursorAhead when (request.(cq_AfterSequence) > highwater) in
  let? artifacts := result_mapM (fun x => scanChangesArtifact (Some x))
    (limit request.(cq_Limit) (artifacts_after root.(pi_ControllerID) root.(pi_TreeID) request.(cq_AfterSequence) db)) in
  Ok {| cg_Artifacts := artifacts;
        cg_NextSequence := default request.(cq_AfterSequence) (cam_Sequence <$> last artifacts);
        cg_Highwater := highwater |}.

(** ** Rows that read back *)

(** The descriptor of a changes part as one of a result package: the same text. *)
Definition as_part (d : WorkspaceArtifactDescriptor) : ResultPackagePartDescriptor := {|
  rd_Kind := d.(wad_Kind); rd_Size := d.(wad_Size); rd_SHA256 := d.(wad_SHA256) |}.

Lemma artifact_parts_json (parts : list WorkspaceArtifactDescriptor) : artifact_part_json <$> parts = part_json <$> (as_part <$> parts).
Proof. rewrite <- list_fmap_compose. done. Qed.

Lemma artifact_part_text d :
  WorkspaceArtifactDescriptor_Validate d = Ok tt ->
  ValidString d.(wad_Kind) = true /\ ValidString d.(wad_SHA256) = true /\ is_int64 d.(wad_Size).
Proof.
  unfold WorkspaceArtifactDescriptor_Validate, WorkspaceArtifactKind_Validate, is_int64, MaxInt64, MaximumWorkspaceArtifactBytes.
  intros H. apply do_Ok in H as [Hk H]. apply reject_Ok in H as [Hs H]. apply reject_Ok in H as [Hd _].
  split_and!; [|text|lia|lia]. destruct (decide _) as [Hin|]; [|done].
  rewrite !elem_of_cons, elem_of_nil in Hin. destruct Hin as [E|[E|[]]]; rewrite E; reflexivity.
Qed.

Lemma unmarshal_parts_marshal parts :
  Forall (fun d => WorkspaceArtifactDescriptor_Validate d = Ok tt) parts -> unmarshal_parts (marshal_parts parts) = Ok parts.
Proof.
  intros Hv. unfold unmarshal_parts, marshal_parts. destruct (parts_shape (as_part <$> parts)) as [Hn Hd].
  rewrite <- artifact_parts_json in Hn, Hd.
  assert (json_plain (JArray (artifact_part_json <$> parts))) as Hp.
  { cbn [json_plain]. rewrite foldr_and_Forall, Forall_fmap. eapply Forall_impl; [exact Hv|].
    intros d (Hk & Hsha & _)%artifact_part_text. cbn. split_and!; try done; apply decimal_literal. }
  rewrite <- (app_nil_r (json_text (JArray (artifact_part_json <$> parts)))).
  rewrite json_roundtrip; [|done|unfold maxNestingDepth; lia|by apply json_text_bytes|by left].
  rewrite unmarshal_slice_print; [done|]. intros old d Hin. rewrite Forall_forall in Hv. specialize (Hv d Hin).
  apply artifact_part_text in Hv as (_ & _ & Hi). destruct result_fields_nodup as (Hnd & _).
  unfold unmarshal_artifact_part, artifact_part_json. read_struct Hnd. by destruct d.
Qed.

Lemma scan_changes_parts_valid parts previous total b o res :
  scan_changes_parts previous total b o parts = Ok res -> Forall (fun d => WorkspaceArtifactDescriptor_Validate d = Ok tt) parts.
Proof.
  revert previous total b o. induction parts as [|d parts IH]; intros previous total b o H; [constructor|].
  cbn [scan_changes_parts] in H. apply do_Ok in H as [Hd H]. apply reject_Ok in H as [_ H]. constructor; [exact Hd|by eapply IH].
Qed.

Lemma changes_params_parts p :
  PublishChangesArtifactParams_Validate p = Ok tt ->
  Forall (fun d => WorkspaceArtifactDescriptor_Validate d = Ok tt) p.(pca_Parts) /\
  ValidateWorkspaceWarnings p.(pca_BaseWarnings) = Ok tt /\ ValidateWorkspaceWarnings p.(pca_ResultWarnings) = Ok tt.
Proof.
  unfold PublishChangesArtifactParams_Validate. intros H. do 5 (apply do_Ok in H as [_ H]). do 3 (apply reject_Ok in H as [_ H]).
  apply do_Ok in H as [Hb H]. apply do_Ok in H as [Hr H]. apply reject_Ok in H as [_ H]. rewrite wrap_Ok in Hb, Hr.
  unfold ValidateWorkspaceSourceWarnings in Hr. apply do_Ok in Hr as [Hr _]. split_and!; [|exact Hb|exact Hr].
  destruct (decide (pca_Status p = ChangesArtifactAvailable)).
  - apply reject_Ok in H as [_ H]. apply do_Ok in H as [_ H]. apply reject_Ok in H as [_ H]. unfold validateAvailableParts in H.
    apply reject_Ok in H as [_ H]. apply result_bind_Ok in H as ([[total b] o] & H & _). by eapply scan_changes_parts_valid.
  - assert (length (pca_Parts p) = O) as Hl; [|apply nil_length_inv in Hl; rewrite Hl; constructor].
    destruct (decide (pca_Status p = ChangesArtifactUnchanged)).
    + apply reject_Ok in H as [[_ Hl]%Decidable.not_or _]. by apply dec_stable in Hl.
    + destruct (decide (pca_Status p = ChangesArtifactCaptureFailed)); [|done]. apply do_Ok in H as [_ H].
      apply reject_Ok in H as [H _]. split_nor. by apply dec_stable.
Qed.

Lemma ChangesArtifactMetadata_params m : ChangesArtifactMetadata_Validate m = Ok tt -> PublishChangesArtifactParams_Validate m.(cam_Params) = Ok tt.
Proof. unfold ChangesArtifactMetadata_Validate. cbv zeta. intros H. do 5 (apply do_Ok in H as [_ H]). by apply do_Ok in H as [H _]. Qed.

(** What is stored of valid metadata reads back as that metadata. *)
Lemma artifact_row_reads_back c m :
  ChangesArtifactMetadata_Validate m = Ok tt ->
  scanChangesArtifact (Some ((c, m.(cam_TreeID), m.(cam_Params).(pca_ArtifactID)), artifact_row m)) = Ok m.
Proof.
  intros Hv. pose proof (changes_params_parts _ (ChangesArtifactMetadata_params _ Hv)) as (Hp & Hb & Hr).
  unfold scanChangesArtifact, artifact_row. cbn [ar_parts_json ar_base_warnings_json ar_result_warnings_json].
  rewrite unmarshal_parts_marshal by done. cbn [wrap result_bind].
  rewrite !json_strings_roundtrip by (by apply warnings_plain). cbv zeta.
  assert (artifact_metadata (c, m.(cam_TreeID), m.(cam_Params).(pca_ArtifactID)) (artifact_row m) m.(cam_Params).(pca_Parts)
    m.(cam_Params).(pca_BaseWarnings) m.(cam_Params).(pca_ResultWarnings) = m) as E.
  { destruct m as [? ? ? ? ? [] ? ?]. reflexivity. }
  unfold artifact_row in E. rewrite E, Hv. done.
Qed.

(** The validator reads the number only through its range. *)
Lemma ChangesArtifactMetadata_renumber m n :
  ChangesArtifactMetadata_Validate m = Ok tt -> 0 < n <= MaxInt64 -> ChangesArtifactMetadata_Validate (set_metadata_sequence n m) = Ok tt.
Proof.
  unfold ChangesArtifactMetadata_Validate. cbv zeta. cbn [cam_Params cam_TreeID cam_SourceAgentID cam_SourceDeviceID cam_ObjectFormat
    cam_BaseClean cam_Sequence cam_ObservedAt set_metadata_sequence]. intros H Hn.
  repeat (apply do_Ok in H as [?H H] || apply reject_Ok in H as [?H H]).
  rewrite !do_Ok, !reject_Ok, !wrap_Ok in *. split_and!; try hyp; try done. lia.
Qed.

(** ** The invariant *)

(** Every artifact reads back; a worker has one for a turn; the numbers in a tree are
    unique and at most the tree's last one. *)
Record artifact_inv (db : DB) : Prop := {
  ai_rows k r : db.(changes_artifacts) !! k = Some r -> exists m, scanChangesArtifact (Some (k, r)) = Ok m;
  ai_trees k r : db.(changes_artifacts) !! k = Some r -> exists kt tr, db.(trees) !! kt = Some tr /\ kt.1 = k.1.1 /\
    tr.(tr_tree_id) = k.1.2 /\ r.(ar_artifact_sequence) <= tr.(tr_last_artifact_sequence);
  ai_turns k k' r r' : db.(changes_artifacts) !! k = Some r -> db.(changes_artifacts) !! k' = Some r' -> k.1 = k'.1 ->
    r.(ar_source_agent_id) = r'.(ar_source_agent_id) -> r.(ar_turn_id) = r'.(ar_turn_id) -> k = k';
  ai_sequences k k' r r' : db.(changes_artifacts) !! k = Some r -> db.(changes_artifacts) !! k' = Some r' -> k.1 = k'.1 ->
    r.(ar_artifact_sequence) = r'.(ar_artifact_sequence) -> k = k';
  ai_counters kt tr : db.(trees) !! kt = Some tr -> 0 <= tr.(tr_last_artifact_sequence) <= MaxInt64;
}.

Lemma no_artifacts_inv db :
  db.(changes_artifacts) = ∅ -> (forall kt tr, db.(trees) !! kt = Some tr -> 0 <= tr.(tr_last_artifact_sequence) <= MaxInt64) ->
  artifact_inv db.
Proof. intros E Ht. split; rewrite ?E; try done; intros *; rewrite lookup_empty; done. Qed.

(** The trees are still there, with numbers that have not fallen. *)
Record artifact_trees_kept (db db' : DB) : Prop := {
  ak_trees : forall kt tr, db.(trees) !! kt = Some tr -> exists tr', db'.(trees) !! kt = Some tr' /\
    tr'.(tr_tree_id) = tr.(tr_tree_id) /\ tr.(tr_last_artifact_sequence) <= tr'.(tr_last_artifact_sequence);
  ak_counters : forall kt tr, db'.(trees) !! kt = Some tr -> 0 <= tr.(tr_last_artifact_sequence) <= MaxInt64;
}.

Lemma artifact_inv_frame db db' :
  artifact_inv db -> artifact_trees_kept db db' -> db'.(changes_artifacts) = db.(changes_artifacts) -> artifact_inv db'.
Proof.
  intros [H1 H2 H3 H4 H5] [K1 K2] E. split; rewrite ?E; try done. intros k r (kt & tr & Ht & Hc & Hid & Hle)%H2.
  destruct (K1 _ _ Ht) as (tr' & Ht' & Hid' & Hle'). exists kt, tr'. split_and!; [done|done|congruence|lia].
Qed.

Lemma artifact_trees_same db db' : artifact_inv db -> db'.(trees) = db.(trees) -> artifact_trees_kept db db'.
Proof.
  intros Hi E. split; rewrite E; [|apply (ai_counters _ Hi)]. intros kt tr H. exists tr. split_and!; [done|done|lia].
Qed.

Lemma queryChangesArtifactByID_Some db c t id r m :
  db.(changes_artifacts) !! (c, t, id) = Some r -> scanChangesArtifact (Some ((c, t, id), r)) = Ok m ->
  queryChangesArtifactByID c t id db = Ok m.
Proof. intros Hk Hs. unfold queryChangesArtifactByID, row_at. by rewrite Hk. Qed.

Lemma scanChangesArtifact_columns k r m :
  scanChangesArtifact (Some (k, r)) = Ok m ->
  m.(cam_Params).(pca_ArtifactID) = k.2 /\ m.(cam_TreeID) = k.1.2 /\ m.(cam_SourceAgentID) = r.(ar_source_agent_id) /\
  m.(cam_Params).(pca_TurnID) = r.(ar_turn_id) /\ m.(cam_Sequence) = r.(ar_artifact_sequence).
Proof.
  unfold scanChangesArtifact. intros H. apply result_bind_Ok in H as (parts & _ & H).
  destruct (json_Unmarshal_strings r.(ar_base_warnings_json)) as [b|]; [|done].
  destruct (json_Unmarshal_strings r.(ar_result_warnings_json)) as [w|]; [|done]. cbv zeta in H. apply do_Ok in H as [_ [= <-]]. done.
Qed.

(** ** Publishing: what a call does *)

(** The request of a worker that may publish it. *)
Record artifact_request (connectedDeviceID : string) (source : PrincipalIdentity) (params : PublishChangesArtifactParams)
    (authority : changesArtifactAuthority) (db : DB) : Prop := {
  aq_source : authorize_source connectedDeviceID source db = Ok (principal_of source);
  aq_authority : queryChangesArtifactAuthority source db = Ok authority;
  aq_allowed : artifact_authorized (principal_of source) connectedDeviceID authority params;
  aq_base : artifact_base_matches authority params;
}.

(** The metadata a request stands for, whenever and under whatever number it is stored. *)
Definition same_request (source : PrincipalIdentity) (connectedDeviceID : string) (authority : changesArtifactAuthority)
    (params : PublishChangesArtifactParams) (m : ChangesArtifactMetadata) : Prop :=
  exists ts n, m = set_metadata_sequence n (requested_metadata source connectedDeviceID authority params ts).

Lemma replayChangesArtifact_Ok stored source d authority params ts res :
  replayChangesArtifact stored (requested_metadata source d authority params ts) = Ok res ->
  res = {| pcr_ArtifactID := params.(pca_ArtifactID); pcr_Sequence := stored.(cam_Sequence) |} /\
  same_request source d authority params stored.
Proof.
  unfold replayChangesArtifact. intros H. apply reject_Ok in H as [H [= <-]]. split_nor.
  repeat match goal with H : ~ _ <> _ |- _ => apply dec_stable in H | H : ~ ~ _ |- _ => apply dec_stable in H end.
  unfold SameChangesArtifactParams, changesArtifactParams in *. simpl in *. split; [congruence|].
  exists stored.(cam_ObservedAt), stored.(cam_Sequence). unfold set_metadata_sequence, requested_metadata. simpl. destruct stored. simpl in *. congruence.
Qed.

Lemma nextTreeChangesArtifactSequence_Ok c t db n db' :
  nextTreeChangesArtifactSequence c t db = Ok (n, db') ->
  exists kt tr, tree_row db c t = Some (kt, tr) /\ n = tr.(tr_last_artifact_sequence) + 1 /\
    tr.(tr_last_artifact_sequence) <> MaxInt64 /\ tree_check (set_artifact_sequence n tr) = true /\
    db' = set_trees db (<[kt := set_artifact_sequence n tr]> db.(trees)).
Proof.
  unfold nextTreeChangesArtifactSequence. intros H. go_inv.
  destruct (tree_row db c t) as [[kt tr]|] eqn:Etr; [|done]. go_inv.
  match goal with H : update_tree _ _ _ _ _ = Ok ?x |- _ => destruct x as [m db1]; rename H into Hu end. go_inv.
  apply update_tree_Ok in Hu as [[-> _]|(_ & kt' & tr' & Hrow & _ & Hc & ->)]; [lia|].
  rewrite Etr in Hrow. injection Hrow as <- <-. exists kt, tr. split_and!; done.
Qed.

(** The tables after a new artifact. *)
Definition with_artifact (k : string * string * string) (kt : string * string) (tr : TreeRow) (m : ChangesArtifactMetadata) (db : DB) : DB :=
  set_changes_artifacts
    (set_trees db (<[kt := set_artifact_sequence m.(cam_Sequence) tr]> db.(trees)))
    (<[k := artifact_row m]> db.(changes_artifacts)).

Lemma PublishChangesArtifact_effect connectedDeviceID source params at_ db res db' :
  let k := (source.(pi_ControllerID), source.(pi_TreeID), params.(pca_ArtifactID)) in
  trees_inv db -> artifact_inv db -> PublishChangesArtifact connectedDeviceID source params at_ db = Ok (res, db') ->
  0 <= at_ /\ valid_id connectedDeviceID /\ identity_ok source /\ PublishChangesArtifactParams_Validate params = Ok tt /\
  exists authority m, artifact_request connectedDeviceID source params authority db /\
    same_request source connectedDeviceID authority params m /\ ChangesArtifactMetadata_Validate m = Ok tt /\
    res = {| pcr_ArtifactID := params.(pca_ArtifactID); pcr_Sequence := m.(cam_Sequence) |} /\
    ((db' = db /\ queryChangesArtifactByID k.1.1 k.1.2 k.2 db = Ok m) \/
     exists kt tr, tree_row db source.(pi_ControllerID) source.(pi_TreeID) = Some (kt, tr) /\
       m.(cam_Sequence) = tr.(tr_last_artifact_sequence) + 1 /\ m.(cam_Sequence) <= MaxInt64 /\
       tree_check (set_artifact_sequence m.(cam_Sequence) tr) = true /\ db.(changes_artifacts) !! k = None /\
       (forall id r, db.(changes_artifacts) !! (k.1, id) = Some r ->
          ~ (r.(ar_source_agent_id) = source.(pi_AgentID) /\ r.(ar_turn_id) = params.(pca_TurnID))) /\
       db' = with_artifact k kt tr m db).
Proof.
  intros k Ht Hi H. unfold PublishChangesArtifact in H.
  apply tx_bind_Ok in H as ([] & ? & [Hc ->]%tx_lift_Ok & H). apply tx_bind_Ok in H as ([] & ? & [Hs ->]%tx_lift_Ok & H).
  apply tx_bind_Ok in H as ([] & ? & [Hp ->]%tx_lift_Ok & H). rewrite wrap_Ok in Hc, Hs. apply PrincipalIdentity_Validate_Ok in Hs.
  apply tx_bind_Ok in H as (ts & ? & [Hts ->]%tx_lift_Ok & H). unfold unixTime in Hts. apply reject_Ok in Hts as [Hts [= <-]].
  split_and!; [lia|done|done|exact Hp|].
  apply tx_bind_Ok in H as (pr & ? & [Hauth ->]%tx_query_Ok & H). destruct (authorize_source_Ok _ _ _ _ Ht Hauth) as (-> & _).
  apply tx_bind_Ok in H as (authority & ? & [Ha ->]%tx_query_Ok & H).
  destruct (decide _) as [|Hok%dec_stable] in H; [by apply tx_throw_Ok in H|].
  destruct (decide _) as [|Hb%dec_stable] in H; [by apply tx_throw_Ok in H|]. cbv zeta in H.
  destruct (decide _) as [|Hv] in H; [by apply tx_throw_Ok in H|]. apply not_false_iff_true, is_ok_true in Hv as [[] Hv].
  assert (artifact_request connectedDeviceID source params authority db) as Hreq by (by split).
  apply tx_bind_Ok in H as (stored & ? & [Hst ->]%tx_query_Ok & H). destruct stored as [stored|].
  { rewrite optional_Ok_Some in Hst. apply tx_lift_Ok in H as [Hrep ->]. apply replayChangesArtifact_Ok in Hrep as [-> Hsame].
    exists authority, stored. split_and!; [done|done| |done|left; split; [done|exact Hst]].
    unfold queryChangesArtifactByID, row_at, scanChangesArtifact in Hst. destruct (_ !! _) as [r|]; [|done]. simpl in Hst.
    apply result_bind_Ok in Hst as (parts & _ & Hst). repeat (case_match; try done). apply do_Ok in Hst as [Hst [= <-]]. by rewrite wrap_Ok in Hst. }
  assert (db.(changes_artifacts) !! k = None) as Hnone.
  { destruct (db.(changes_artifacts) !! k) as [r|] eqn:E; [|done]. destruct (ai_rows _ Hi _ _ E) as [m Hm].
    by rewrite (queryChangesArtifactByID_Some _ _ _ _ _ _ E Hm) in Hst. }
  apply tx_bind_Ok in H as (stored & ? & [Hst2 ->]%tx_query_Ok & H). unfold queryChangesArtifactByTurn in Hst2.
  destruct (select_row _ db.(changes_artifacts)) as [[k0 r0]|] eqn:E0.
  { exfalso. apply select_row_Some in E0 as (Hk0 & Hkt0 & Ha0 & Hu0). destruct (ai_rows _ Hi _ _ Hk0) as [m0 Hm0]. rewrite Hm0 in Hst2.
    injection Hst2 as <-. apply tx_lift_Ok in H as [Hrep ->]. apply replayChangesArtifact_Ok in Hrep as [_ (ts0 & n0 & Em0)].
    apply scanChangesArtifact_columns in Hm0 as (Hid & _). rewrite Em0 in Hid. simpl in Hid, Hkt0. destruct k0 as [kk id0]. simpl in *. subst kk id0.
    unfold k in Hnone. congruence. }
  injection Hst2 as <-. rewrite select_row_None in E0.
  apply tx_bind_Ok in H as (n & db1 & Hn & H). apply nextTreeChangesArtifactSequence_Ok in Hn as (kt & tr & Htr & -> & Hmax & Hck & ->).
  apply tx_bind_Ok in H as ([] & db2 & Hins & H). apply tx_ret_Ok in H as [-> ->]. apply tx_exec_Ok in Hins. rewrite wrap_Ok in Hins.
  unfold insert_artifact in Hins. apply result_bind_Ok in Hins as (tb & Hins & [= <-]). apply sql_insert_Ok in Hins as (_ & _ & ->).
  pose proof (tree_row_Some _ _ _ _ _ Htr) as (Htk & _). pose proof (ai_counters _ Hi _ _ Htk) as Hpos.
  exists authority, (set_metadata_sequence (tr.(tr_last_artifact_sequence) + 1) (requested_metadata source connectedDeviceID authority params at_)).
  split_and!; [done|by eexists _, _|apply ChangesArtifactMetadata_renumber; [exact Hv|lia]|done|]. right. exists kt, tr.
  split_and!; [done|done|simpl; lia|done|done| |done]. intros id r Hr [? ?]. by apply (E0 _ _ Hr).
Qed.

Lemma with_artifact_trees_inv k kt tr m db :
  trees_inv db -> db.(trees) !! kt = Some tr -> tree_check (set_artifact_sequence m.(cam_Sequence) tr) = true ->
  trees_inv (with_artifact k kt tr m db).
Proof.
  intros Ht Htr Hc. apply (trees_inv_frame (set_trees db (<[kt := set_artifact_sequence m.(cam_Sequence) tr]> db.(trees)))); [|done|done].
  by eapply tree_counters_inv.
Qed.

Lemma set_artifact_sequence_kept kt tr n db t :
  artifact_inv db -> db.(trees) !! kt = Some tr -> tr.(tr_last_artifact_sequence) <= n <= MaxInt64 ->
  artifact_trees_kept db (set_changes_artifacts (set_trees db (<[kt := set_artifact_sequence n tr]> db.(trees))) t).
Proof.
  intros Hi Hkt Hn. pose proof (ai_counters _ Hi _ _ Hkt). split; simpl.
  - intros kt' tr' H'. destruct (decide (kt' = kt)) as [->|Hne].
    + rewrite lookup_insert_eq. simplify_eq. eexists. split; [done|]. simpl. split; [done|lia].
    + rewrite lookup_insert_ne by done. exists tr'. split_and!; [done..|lia].
  - intros kt' tr' [[<- <-]|[_ H']]%lookup_insert_Some; [simpl; lia|by eapply ai_counters].
Qed.

Section NewArtifact.
Context (c t : string) (kt : string * string) (tr : TreeRow) (m : ChangesArtifactMetadata) (db : DB).
Let k := (c, t, m.(cam_Params).(pca_ArtifactID)).
Hypothesis Htrees : trees_inv db.
Hypothesis Hinv : artifact_inv db.
Hypothesis Htr : tree_row db c t = Some (kt, tr).
Hypothesis Hvalid : ChangesArtifactMetadata_Validate m = Ok tt.
Hypothesis Htree : m.(cam_TreeID) = t.
Hypothesis Hnext : m.(cam_Sequence) = tr.(tr_last_artifact_sequence) + 1.
Hypothesis Hmax : m.(cam_Sequence) <= MaxInt64.
Hypothesis Habsent : db.(changes_artifacts) !! k = None.
Hypothesis Hturn : forall id r, db.(changes_artifacts) !! (c, t, id) = Some r ->
  ~ (r.(ar_source_agent_id) = m.(cam_SourceAgentID) /\ r.(ar_turn_id) = m.(cam_Params).(pca_TurnID)).

Lemma stored_artifact_below id r : db.(changes_artifacts) !! (c, t, id) = Some r -> r.(ar_artifact_sequence) < m.(cam_Sequence).
Proof using Htrees Hinv Htr Hnext.
  intros Hr. destruct (ai_trees _ Hinv _ _ Hr) as (kt0 & tr0 & Ht0 & Hc0 & Hid0 & Hle). simpl in Hc0, Hid0.
  apply tree_row_Some in Htr as (Htk & Hkc & Hkt). assert (kt0 = kt) as -> by (eapply (ti_unique _ Htrees); [exact Ht0|exact Htk|congruence..]).
  rewrite Htk in Ht0. injection Ht0 as <-. lia.
Qed.

Lemma with_artifact_inv : artifact_inv (with_artifact k kt tr m db).
Proof using All.
  pose proof (tree_row_Some _ _ _ _ _ Htr) as (Htk & Hkc & Hkt).
  pose proof (set_artifact_sequence_kept kt tr m.(cam_Sequence) db (<[k := artifact_row m]> db.(changes_artifacts)) Hinv Htk ltac:(lia)) as [K1 K2].
  pose proof stored_artifact_below as Hbelow. destruct Hinv as [H1 H2 H3 H4 H5].
  split; [| | | |exact K2]; cbn [changes_artifacts with_artifact set_changes_artifacts].
  - intros k' r' [[<- <-]|[_ Hk']]%lookup_insert_Some; [|by apply H1]. exists m. unfold k. rewrite <- Htree. by apply artifact_row_reads_back.
  - intros k' r' [[<- <-]|[_ Hk']]%lookup_insert_Some.
    + exists kt, (set_artifact_sequence m.(cam_Sequence) tr). split; [apply lookup_insert_eq|]. simpl. split_and!; [done|done|lia].
    + apply H2 in Hk' as (kt0 & tr0 & Ht0 & Hc0 & Hid0 & Hle). destruct (K1 _ _ Ht0) as (tr1 & Ht1 & Hid1 & Hle1).
      exists kt0, tr1. split_and!; [done|done|congruence|lia].
  - intros k1 k2 r1 r2 [[<- <-]|[N1 K1']]%lookup_insert_Some [[<- <-]|[N2 K2']]%lookup_insert_Some; [done| | |by eapply H3].
    + intros E E1 E2. destruct k2 as [kk id]. simpl in E. subst kk. by destruct (Hturn _ _ K2').
    + intros E E1 E2. destruct k1 as [kk id]. simpl in E. subst kk. by destruct (Hturn _ _ K1').
  - intros k1 k2 r1 r2 [[<- <-]|[N1 K1']]%lookup_insert_Some [[<- <-]|[N2 K2']]%lookup_insert_Some; [done| | |by eapply H4].
    + intros E E1. destruct k2 as [kk id]. simpl in E. subst kk. specialize (Hbelow _ _ K2'). simpl in E1. lia.
    + intros E E1. destruct k1 as [kk id]. simpl in E. subst kk. specialize (Hbelow _ _ K1'). simpl in E1. lia.
Qed.
End NewArtifact.

Lemma PublishChangesArtifact_inv connectedDeviceID source params at_ db res db' :
  trees_inv db -> artifact_inv db -> PublishChangesArtifact connectedDeviceID source params at_ db = Ok (res, db') ->
  trees_inv db' /\ artifact_inv db'.
Proof.
  intros Ht Hi H. apply PublishChangesArtifact_effect in H as (_ & _ & _ & _ & authority & m & _ & (ts & n & Em) & Hv & _ & Hcase); [|done..].
  destruct Hcase as [[-> _]|(kt & tr & Htr & Hn & Hmax & Hck & Hnone & Hturn & ->)]; [done|].
  pose proof (tree_row_Some _ _ _ _ _ Htr) as (Htk & _). split; [by apply with_artifact_trees_inv|].
  assert (params.(pca_ArtifactID) = m.(cam_Params).(pca_ArtifactID)) as E by (by rewrite Em). rewrite E in *.
  apply (with_artifact_inv _ _ kt tr m db); try done; rewrite Em in *; done.
Qed.

(** ** Properties *)

Lemma requested_metadata_restamp source d authority params ts n ts2 n2 :
  ChangesArtifactMetadata_Validate (set_metadata_sequence n (requested_metadata source d authority params ts)) = Ok tt ->
  0 <= ts2 -> 0 < n2 <= MaxInt64 ->
  ChangesArtifactMetadata_Validate (set_metadata_sequence n2 (requested_metadata source d authority params ts2)) = Ok tt.
Proof.
  unfold ChangesArtifactMetadata_Validate. cbv zeta. cbn [cam_Params cam_TreeID cam_SourceAgentID cam_SourceDeviceID cam_ObjectFormat
    cam_BaseClean cam_Sequence cam_ObservedAt set_metadata_sequence requested_metadata]. intros H Hts Hn.
  repeat (apply do_Ok in H as [?H H] || apply reject_Ok in H as [?H H]).
  rewrite !do_Ok, !reject_Ok, !wrap_Ok in *. split_and!; try hyp; try done; lia.
Qed.

(** A request whose artifact is stored. *)
Lemma PublishChangesArtifact_replay connectedDeviceID source params at_ authority m db :
  valid_id connectedDeviceID -> identity_ok source -> PublishChangesArtifactParams_Validate params = Ok tt -> 0 <= at_ ->
  artifact_request connectedDeviceID source params authority db -> same_request source connectedDeviceID authority params m ->
  ChangesArtifactMetadata_Validate m = Ok tt ->
  queryChangesArtifactByID source.(pi_ControllerID) source.(pi_TreeID) params.(pca_ArtifactID) db = Ok m ->
  PublishChangesArtifact connectedDeviceID source params at_ db =
    Ok ({| pcr_ArtifactID := params.(pca_ArtifactID); pcr_Sequence := m.(cam_Sequence) |}, db).
Proof.
  intros Hc Hs Hp Hat [R1 R2 R3 R4] (ts & n & ->) Hv Hq. apply PrincipalIdentity_Validate_Ok in Hs.
  pose proof (requested_metadata_restamp _ _ _ _ _ _ at_ 1 Hv Hat ltac:(unfold MaxInt64; lia)) as Hv1.
  change (set_metadata_sequence 1 (requested_metadata source connectedDeviceID authority params at_))
    with (requested_metadata source connectedDeviceID authority params at_) in Hv1.
  unfold PublishChangesArtifact, tx_bind, tx_lift, tx_query, unixTime. rewrite Hc. cbn [wrap]. rewrite Hs. cbn [wrap].
  rewrite Hp, decide_False by lia. rewrite R1. cbn [p_Identity principal_of]. rewrite R2, !decide_False by tauto. cbv zeta.
  rewrite Hv1, decide_False by done. rewrite Hq. cbn [optional].
  unfold replayChangesArtifact. rewrite decide_False; [done|]. unfold SameChangesArtifactParams. simpl. tauto.
Qed.

(** Publishing the description of changes. A call succeeds only for a worker whose
    started spawn has consumed the prepared workspace the request is based on, and the
    stored metadata is the request with what the broker knows about that workspace. A
    first publication takes the number after the last one of the tree, above all its
    artifacts; every repetition of the request returns that same number and changes
    nothing; and the stored artifact reads back. *)
Theorem PublishChangesArtifact_once connectedDeviceID source params at_ db res db' :
  trees_inv db -> artifact_inv db -> PublishChangesArtifact connectedDeviceID source params at_ db = Ok (res, db') ->
  let c := source.(pi_ControllerID) in
  let t := source.(pi_TreeID) in
  trees_inv db' /\ artifact_inv db' /\ res.(pcr_ArtifactID) = params.(pca_ArtifactID) /\
  (exists authority m, artifact_request connectedDeviceID source params authority db /\
     same_request source connectedDeviceID authority params m /\ m.(cam_Sequence) = res.(pcr_Sequence) /\
     queryChangesArtifactByID c t params.(pca_ArtifactID) db' = Ok m) /\
  (db' = db \/ exists kt tr, tree_row db c t = Some (kt, tr) /\ res.(pcr_Sequence) = tr.(tr_last_artifact_sequence) + 1 /\
     (forall id r, db.(changes_artifacts) !! (c, t, id) = Some r -> r.(ar_artifact_sequence) < res.(pcr_Sequence))) /\
  (forall at2, 0 <= at2 -> PublishChangesArtifact connectedDeviceID source params at2 db' = Ok (res, db')).
Proof.
  intros Ht Hi H c t. pose proof (PublishChangesArtifact_inv _ _ _ _ _ _ _ Ht Hi H) as [Ht' Hi'].
  apply PublishChangesArtifact_effect in H as (Hat & Hc & Hs & Hp & authority & m & Hreq & Hsame & Hv & -> & Hcase); [|done..].
  assert (artifact_request connectedDeviceID source params authority db' /\ queryChangesArtifactByID c t params.(pca_ArtifactID) db' = Ok m) as [Hreq' Hq'].
  { destruct Hcase as [[-> Hq]|(kt & tr & _ & _ & _ & _ & _ & _ & ->)]; [by split|]. destruct Hreq as [R1 R2 R3 R4]. split.
    - split; [|exact R2|exact R3|exact R4]. unfold authorize_source in *. by rewrite (authorizePrincipal_frame db).
    - destruct Hsame as (ts & n & Em). eapply queryChangesArtifactByID_Some; [apply lookup_insert_eq|].
      pose proof (artifact_row_reads_back c m Hv) as E. rewrite Em in E at 1 2. exact E. }
  split_and!; [done|done|done|by exists authority, m| |].
  - destruct Hcase as [[-> _]|(kt & tr & Htr & Hn & _ & _ & _ & _ & _)]; [by left|right]. exists kt, tr. split_and!; [done|done|].
    intros id r Hr. by eapply (stored_artifact_below c t kt tr m db).
  - intros at2 Hat2. by eapply PublishChangesArtifact_replay.
Qed.

(** ** A worker's changes *)

Definition sample_changes : PublishChangesArtifactParams := {|
  pca_ArtifactID := "cdcdcdcd-cdcd-4dcd-8dcd-cdcdcdcdcdcd"; pca_TurnID := sample_turn; pca_WorkspaceID := sample_sync;
  pca_WorkspaceSourceDeviceID := sample_device; pca_WorkspaceTargetDeviceID := sample_device; pca_Status := ChangesArtifactAvailable;
  pca_BaseHeadOID := sample_summary.(wsm_HeadOID); pca_BaseManifestHash := sample_summary.(wsm_ManifestHash);
  pca_BaseSnapshotHash := of_bytes (replicate 64 48); pca_ResultHeadOID := sample_summary.(wsm_HeadOID);
  pca_ResultSnapshotHash := hex_string (Sum256 "x"); pca_ResultClean := false;
  pca_Parts := [{| wad_Kind := WorkspaceArtifactOverlay; wad_Size := 100; wad_SHA256 := hex_string (Sum256 "y") |}];
  pca_BaseWarnings := [WorkspaceWarningLFSPayloadNotTransferred]; pca_ResultWarnings := []; pca_FailureCode := "" |}.
Definition artifact_db : DB := (run_tx (PublishChangesArtifact sample_device sample_worker sample_changes 400) started_db).2.

Lemma started_db_artifact_inv : artifact_inv started_db.
Proof.
  apply no_artifacts_inv; [vm_compute; reflexivity|]. intros kt tr Htr.
  apply (table_forallb (fun x => in_range 0 MaxInt64 x.2.(tr_last_artifact_sequence))) in Htr; [|vm_compute; reflexivity].
  revert Htr. cbn [snd]. unfold in_range. rewrite andb_true_iff, !Z.leb_le. tauto.
Qed.
Lemma artifact_db_eq : exists r, PublishChangesArtifact sample_device sample_worker sample_changes 400 started_db = Ok (r, artifact_db).
Proof. unfold artifact_db. apply run_tx_succeeds. vm_compute. reflexivity. Qed.

Lemma PublishChangesArtifact_once_witness : exists res,
  PublishChangesArtifact sample_device sample_worker sample_changes 400 started_db = Ok (res, artifact_db) /\
  PublishChangesArtifact sample_device sample_worker sample_changes 500 artifact_db = Ok (res, artifact_db).
Proof.
  destruct artifact_db_eq as [res H]. exists res.
  destruct (PublishChangesArtifact_once _ _ _ _ _ _ _ started_db_trees_inv started_db_artifact_inv H) as (_ & _ & _ & _ & _ & Hagain).
  exact (conj H (Hagain 500 ltac:(lia))).
Defined.
