(* ===== verification/Coordination.v ===== *)
(** The store without its results: the calls on credentials, devices, trees, mailboxes,
    workspaces, spawns, operations and lifecycle states, in any order and with any
    arguments. Their invariants hold together after every call, and what they have
    settled stays settled. *)

From S2P Require Export Lifecycle.

(** ** Steps *)

(** One call of a store method; a call that fails leaves the state as it was. The
    identifiers of [EnsureRootTree] come from [identity.NewID], and a mailbox cursor is
    unsigned. *)
Inductive work_step (db : DB) : DB -> Prop :=
  | step_CreateCredential c : work_step db (run_tx (CreateCredential c) db).2
  | step_ActivateCredential c d mac : work_step db (run_tx (ActivateCredential c d mac) db).2
  | step_PublishPendingCredential c d mac publish : work_step db (PublishPendingCredential c d mac publish db).2
  | step_DeletePendingCredential c d mac : work_step db (run_tx (DeletePendingCredential c d mac) db).2
  | step_DisableCredential c d : work_step db (run_tx (DisableCredential c d) db).2
  | step_RegisterAuthenticatedDevice mac d at_ : work_step db (run_tx (RegisterAuthenticatedDevice mac d at_) db).2
  | step_RegisterTrustedDevice d at_ : work_step db (run_tx (RegisterTrustedDevice d at_) db).2
  | step_HeartbeatDevice c d rev at_ : work_step db (run_tx (HeartbeatDevice c d rev at_) db).2
  | step_MarkDeviceOffline c d rev at_ : work_step db (run_tx (MarkDeviceOffline c d rev at_) db).2
  | step_ExpireDevices c cutoff : work_step db (run_tx (ExpireDevices c cutoff) db).2
  | step_BeginBrokerEpoch c kind : work_step db (BeginBrokerEpoch c kind db).2
  | step_PutWorkerReadiness c d r : work_step db (run_tx (PutWorkerReadiness c d r) db).2
  | step_EnsureRootTree c th dev at_ newTree newAgent :
      (forall i, newTree = Ok i -> valid_id i) -> (forall i, newAgent = Ok i -> valid_id i) ->
      work_step db (run_tx (EnsureRootTree c th dev at_ newTree newAgent) db).2
  | step_CreateWorkerPrincipal c t a parent dev at_ : work_step db (run_tx (CreateWorkerPrincipal c t a parent dev at_) db).2
  | step_SendMailboxMessage p target id message at_ : work_step db (run_tx (SendMailboxMessage p target id message at_) db).2
  | step_ReadMailbox p cursor lim : 0 <= cursor -> work_step db (run_tx (ReadMailbox p cursor lim) db).2
  | step_BeginWorkspaceSync intent at_ : work_step db (run_tx (BeginWorkspaceSync intent at_) db).2
  | step_PinWorkspaceSyncManifest key m at_ : work_step db (run_tx (PinWorkspaceSyncManifest key m at_) db).2
  | step_FinishWorkspaceSync key s at_ : work_step db (run_tx (FinishWorkspaceSync key s at_) db).2
  | step_BeginAgentSpawn intent at_ : work_step db (run_tx (BeginAgentSpawn intent at_) db).2
  | step_MarkAgentSpawnStarted key at_ : work_step db (run_tx (MarkAgentSpawnStarted key at_) db).2
  | step_MarkAgentSpawnFailed key code at_ : work_step db (run_tx (MarkAgentSpawnFailed key code at_) db).2
  | step_BeginAgentOperation intent at_ : work_step db (run_tx (BeginAgentOperation intent at_) db).2
  | step_FinishAgentOperation key outcome code at_ : work_step db (run_tx (FinishAgentOperation key outcome code at_) db).2
  | step_QueueAgentMessage key message at_ :
      work_step db (run_tx (QueueAgentMessageAndFinishOperation key message at_) db).2
  | step_ClaimWorkerLifecycleSession claim : work_step db (run_tx (ClaimWorkerLifecycleSession claim) db).2
  | step_ApplyWorkerLifecyclePage request : work_step db (run_tx (ApplyWorkerLifecyclePage request) db).2.

(** ** The invariant of these tables *)

Record work_inv (db : DB) : Prop := {
  wo_registry : registry_inv db;
  wo_trees : trees_inv db;
  wo_mail : mail_inv db;
  wo_workspaces : workspace_inv db;
  wo_spawns : spawn_inv db;
  wo_operations : operation_inv db;
  wo_lifecycle : lifecycle_inv db;
}.

Lemma empty_work_inv : work_inv empty_db.
Proof.
  split; [apply empty_registry_inv|apply empty_trees_inv|apply empty_mail_inv|apply empty_workspace_inv|apply empty_spawn_inv
    |by apply no_operations_inv|apply no_lifecycle_inv; done].
Qed.

(** ** What never changes back *)

(** A workspace receipt keeps its request; its manifest once it is no longer pending;
    its summary once it is prepared; its consumer once it has one. *)
Record workspace_kept (r r' : WorkspaceRow) : Prop := {
  wk_source : r'.(ws_source_device_id) = r.(ws_source_device_id);
  wk_target : r'.(ws_target_device_id) = r.(ws_target_device_id);
  wk_url : r'.(ws_git_url) = r.(ws_git_url);
  wk_pinned : r.(ws_status) <> WorkspaceSyncPending -> r'.(ws_status) <> WorkspaceSyncPending /\
    r'.(ws_manifest_hash) = r.(ws_manifest_hash) /\ r'.(ws_head_oid) = r.(ws_head_oid) /\
    r'.(ws_object_format) = r.(ws_object_format) /\ r'.(ws_working_directory) = r.(ws_working_directory) /\
    r'.(ws_source_clean) = r.(ws_source_clean) /\ r'.(ws_source_snapshot_hash) = r.(ws_source_snapshot_hash) /\
    r'.(ws_source_warnings_json) = r.(ws_source_warnings_json);
  wk_prepared : r.(ws_status) = WorkspaceSyncPrepared -> r'.(ws_status) = WorkspaceSyncPrepared /\
    r'.(ws_strategy) = r.(ws_strategy);
  wk_consumed : r.(ws_consumed_spawn_id) <> "" -> r'.(ws_consumed_spawn_id) = r.(ws_consumed_spawn_id);
}.

#[global] Instance workspace_kept_refl : Reflexive workspace_kept.
Proof. by intros r. Qed.
#[global] Instance workspace_kept_trans : Transitive workspace_kept.
Proof.
  intros r1 r2 r3 [A1 A2 A3 A4 A5 A6] [B1 B2 B3 B4 B5 B6]. split; [congruence|congruence|congruence| | |].
  - intros H. destruct (A4 H) as (H2 & ? & ? & ? & ? & ? & ? & ?). destruct (B4 H2) as (? & ? & ? & ? & ? & ? & ? & ?). split_and!; congruence.
  - intros H. destruct (A5 H) as (H2 & ?). destruct (B5 H2) as (? & ?). split_and!; congruence.
  - intros H. rewrite B6; [by apply A6|]. by rewrite A6.
Qed.

(** A spawn receipt keeps its request, and its result once it has one. *)
Definition spawn_kept (r r' : SpawnRow) : Prop :=
  r' = r \/ (r.(sp_status) = AgentSpawnPending /\ exists status code ts, r' = finish_spawn_row status code ts r).

(** An operation keeps its request, and its outcome once it has one. *)
Definition operation_kept (r r' : OperationRow) : Prop :=
  r' = r \/ (r.(op_outcome) = AgentOperationOutcomePending /\
             exists outcome code ts, r' = finish_operation_row outcome code ts r).

#[global] Instance spawn_kept_refl : Reflexive spawn_kept.
Proof. intros r. by left. Qed.
#[global] Instance spawn_kept_trans : Transitive spawn_kept.
Proof.
  intros r1 r2 r3 [->|(H1 & s & c & t & ->)] [->|(H2 & s' & c' & t' & ->)]; [by left|by right; eauto..|].
  right. split; [done|]. by exists s', c', t'.
Qed.
#[global] Instance operation_kept_refl : Reflexive operation_kept.
Proof. intros r. by left. Qed.
#[global] Instance operation_kept_trans : Transitive operation_kept.
Proof.
  intros r1 r2 r3 [->|(H1 & s & c & t & ->)] [->|(H2 & s' & c' & t' & ->)]; [by left|by right; eauto..|].
  right. split; [done|]. by exists s', c', t'.
Qed.

(** Every row of a table is kept up to [R]. *)
Definition kept {K R} `{Countable K} (P : relation R) (t t' : gmap K R) : Prop :=
  forall k r, t !! k = Some r -> exists r', t' !! k = Some r' /\ P r r'.

Section Kept.
Context {K R : Type} `{Countable K} (P : relation R) `{!Reflexive P, !Transitive P}.

#[global] Instance kept_refl : Reflexive (kept (K := K) P).
Proof. intros t k r Hk. eauto. Qed.
#[global] Instance kept_trans : Transitive (kept (K := K) P).
Proof. intros t1 t2 t3 H1 H2 k r (r2 & Hr2 & ?)%H1. apply H2 in Hr2 as (r3 & ? & ?). exists r3. split; [done|by etrans]. Qed.

Lemma kept_eq (t t' : gmap K R) : t' = t -> kept P t t'.
Proof. by intros ->. Qed.

Lemma kept_insert (t : gmap K R) k r' : (forall r, t !! k = Some r -> P r r') -> kept P t (<[k := r']> t).
Proof.
  intros HP k' r Hk'. destruct (decide (k' = k)) as [->|Hne].
  - rewrite lookup_insert_eq. eauto.
  - rewrite lookup_insert_ne by done. eauto.
Qed.
End Kept.

(** A credential that is disabled and not pending has been revoked. *)
Definition credential_kept (r r' : CredentialRow) : Prop :=
  r'.(cr_token_mac) = r.(cr_token_mac) /\ r'.(cr_disabled) = true /\ r'.(cr_pending) = false.

Definition revoked_kept (t t' : gmap (string * string) CredentialRow) : Prop := forall k r,
  t !! k = Some r -> r.(cr_disabled) = true -> r.(cr_pending) = false ->
  exists r', t' !! k = Some r' /\ credential_kept r r'.

#[global] Instance revoked_kept_refl : Reflexive revoked_kept.
Proof. intros t k r Hk H1 H2. exists r. by split. Qed.
#[global] Instance revoked_kept_trans : Transitive revoked_kept.
Proof.
  intros t1 t2 t3 H1 H2 k r Hk Hd Hp. destruct (H1 k r Hk Hd Hp) as (r2 & Hk2 & Hm2 & Hd2 & Hp2).
  destruct (H2 k r2 Hk2 Hd2 Hp2) as (r3 & Hk3 & Hm3 & Hd3 & Hp3). exists r3. split; [done|]. split_and!; congruence.
Qed.

(** A lease revision only grows. *)
Definition device_kept (r r' : DeviceRow) : Prop := r.(dv_revision) <= r'.(dv_revision).
#[global] Instance device_kept_refl : Reflexive device_kept.
Proof. intros r. unfold device_kept. lia. Qed.
#[global] Instance device_kept_trans : Transitive device_kept.
Proof. intros r1 r2 r3. unfold device_kept. lia. Qed.

(** What a state keeps of an earlier one. *)
Record work_history (db db' : DB) : Prop := {
  wh_credentials : revoked_kept db.(credentials) db'.(credentials);
  wh_devices : kept device_kept db.(devices) db'.(devices);
  wh_principals : kept eq db.(principals) db'.(principals);
  wh_workspaces : kept workspace_kept db.(workspace_sync_receipts) db'.(workspace_sync_receipts);
  wh_spawns : kept spawn_kept db.(agent_spawn_receipts) db'.(agent_spawn_receipts);
  wh_operations : kept operation_kept db.(agent_operation_receipts) db'.(agent_operation_receipts);
  wh_lifecycle : lifecycle_evolves db db';
}.

#[global] Instance work_history_refl : Reflexive work_history.
Proof. intros db. by split. Qed.
#[global] Instance work_history_trans : Transitive work_history.
Proof.
  intros d1 d2 d3 [A1 A2 A3 A4 A5 A6 A7] [B1 B2 B3 B4 B5 B6 B7].
  split; etrans; eassumption.
Qed.

(** ** Each call keeps both *)

(** A transaction keeps a reflexive relation if its commits do. *)
Lemma run_tx_keeps {A} (R : relation DB) `{!Reflexive R} (m : Tx DB A) db :
  (forall a db', m db = Ok (a, db') -> R db db') -> R db (run_tx m db).2.
Proof. intros H. unfold run_tx. destruct (m db) as [[a db']|e] eqn:E; [by eapply H|done]. Qed.

(** The relation all steps keep: from a good state to a good state, with its history. *)
Definition work_keeps (db db' : DB) : Prop := work_inv db -> work_inv db' /\ work_history db db'.
#[global] Instance work_keeps_refl : Reflexive work_keeps.
Proof. intros db H. by split. Qed.
#[global] Instance work_keeps_trans : Transitive work_keeps.
Proof. intros d1 d2 d3 H1 H2 H. destruct (H1 H) as [Hi Hh]. destruct (H2 Hi) as [Hi' Hh']. split; [done|by etrans]. Qed.

Lemma credentials_evolve_revoked t t' : credentials_evolve t t' -> revoked_kept t t'.
Proof.
  intros Hev k r Hk Hd Hp. destruct Hev as [|k0 r0 H0 _ _|k0 r0 H0 Hp0|k0 r0 H0 Hp0|k0 r0 H0].
  - exists r. by split.
  - exists r. rewrite lookup_insert_ne by congruence. by split.
  - exists r. rewrite lookup_insert_ne by congruence. by split.
  - exists r. rewrite lookup_delete_ne by congruence. by split.
  - destruct (decide (k0 = k)) as [->|Hne].
    + rewrite lookup_insert_eq. eexists. split; [done|]. split_and!; [simpl; congruence|done|done].
    + exists r. rewrite lookup_insert_ne by done. by split.
Qed.

(** The tables other than the registry's. *)
Definition same_work (db db' : DB) : Prop :=
  db'.(trees) = db.(trees) /\ db'.(principals) = db.(principals) /\
  db'.(workspace_sync_receipts) = db.(workspace_sync_receipts) /\ db'.(agent_spawn_receipts) = db.(agent_spawn_receipts) /\
  db'.(agent_operation_receipts) = db.(agent_operation_receipts) /\
  db'.(peer_worker_sync_cursors) = db.(peer_worker_sync_cursors) /\
  db'.(agent_lifecycle_states) = db.(agent_lifecycle_states).
Definition same_mail (db db' : DB) : Prop :=
  db'.(mailboxes) = db.(mailboxes) /\ db'.(mailbox_messages) = db.(mailbox_messages) /\
  db'.(mailbox_receipts) = db.(mailbox_receipts).

Lemma lifecycle_inv_frame db db' :
  lifecycle_inv db -> db'.(agent_lifecycle_states) = db.(agent_lifecycle_states) ->
  db'.(principals) = db.(principals) -> db'.(trees) = db.(trees) ->
  db'.(peer_worker_sync_cursors) = db.(peer_worker_sync_cursors) -> lifecycle_inv db'.
Proof.
  intros [H1 H2] E1 E2 E3 E4. split; [|by rewrite E4]. eapply lifecycle_rows_frame; [exact H1|done..|].
  intros k. unfold applied_revision. by rewrite E4.
Qed.

Lemma lifecycle_evolves_same db db' :
  db'.(agent_lifecycle_states) = db.(agent_lifecycle_states) -> db'.(trees) = db.(trees) -> lifecycle_evolves db db'.
Proof.
  intros E1 E2. apply lifecycle_evolves_frame; [done|]. rewrite E2. intros kt tr Ht. exists tr. split_and!; [done|done|lia].
Qed.

(** The work tables, and all that is proved of them, survive changes elsewhere. *)
Lemma same_work_inv db db' :
  same_work db db' -> work_inv db -> registry_inv db' -> mail_inv db' -> work_inv db'.
Proof.
  intros (E1 & E2 & E3 & E4 & E5 & E6 & E7) [H1 H2 H3 H4 H5 H6 H7] Hr Hm. split; [done| |done|..].
  - by apply (trees_inv_frame db).
  - by apply (workspace_inv_frame db).
  - by apply (spawn_inv_same db).
  - by apply (operation_inv_same db).
  - by apply (lifecycle_inv_frame db).
Qed.

Lemma same_work_history db db' :
  same_work db db' -> revoked_kept db.(credentials) db'.(credentials) -> kept device_kept db.(devices) db'.(devices) ->
  work_history db db'.
Proof.
  intros (E1 & E2 & E3 & E4 & E5 & E6 & E7) Hc Hd. split; [done|done|apply kept_eq..|]; try done; try apply _.
  by apply lifecycle_evolves_same.
Qed.

Lemma registry_change_keeps db db' : registry_change db db' -> work_keeps db db'.
Proof.
  intros Hch Hinv. pose proof (registry_change_inv _ _ (wo_registry _ Hinv) Hch) as Hr.
  assert (kept device_kept db.(devices) db'.(devices)) as Hdev.
  { intros k r Hk. destruct (registry_change_revision _ _ _ _ (wo_registry _ Hinv) Hch Hk) as (r' & ? & ? & _). eauto. }
  assert (same_work db db' /\ same_mail db db' /\ revoked_kept db.(credentials) db'.(credentials)) as (Hw & (M1 & M2 & M3) & Hc).
  { destruct Hch as [db' (t & Hev & ->)|c db' (cur & creds & devs & _ & _ & _ & _ & Hev & _ & _ & ->)
      |db' (k & r & seen & _ & _ & ->)|kind _ _]; (split; [done|]); (split; [done|]); simpl;
      first [by apply credentials_evolve_revoked|reflexivity]. }
  split; [|by apply same_work_history]. apply (same_work_inv db); try done.
  by apply (mail_inv_frame db); [apply wo_mail|..].
Qed.

Lemma updateDevicePresence_change c d rev at_ off db device db' :
  updateDevicePresence c d rev at_ off db = Ok (device, db') -> registry_change db db'.
Proof. intros (r & _ & _ & [->|[[_ ?]|[_ ?]]])%updateDevicePresence_effect; eauto with go. Qed.

Lemma keeps_credentials db db' : credentials_only db db' -> work_keeps db db'.
Proof. intros H. by apply registry_change_keeps, change_credentials. Qed.

(** The calls on credentials and devices. *)
Lemma PutWorkerReadiness_keeps c d r db r' db' : PutWorkerReadiness c d r db = Ok (r', db') -> work_keeps db db'.
Proof.
  intros H Hinv. apply PutWorkerReadiness_effect in H as (_ & _ & _ & [[_ ->]|[_ Hup]]); [by split|].
  unfold upsert_readiness in Hup. go_inv. split; [|by apply same_work_history].
  apply (same_work_inv db); try done; [by apply (registry_inv_frame db); [apply wo_registry|]|].
  by apply (mail_inv_frame db); [apply wo_mail|..].
Qed.

Lemma BeginBrokerEpoch_keeps c kind db : work_keeps db (BeginBrokerEpoch c kind db).2.
Proof.
  destruct (BeginBrokerEpoch c kind db) as [r db'] eqn:E. apply BeginBrokerEpoch_effect in E as (db1 & H1 & H2 & _).
  transitivity db1; by apply registry_change_keeps.
Qed.

(** ** Mailboxes *)

Lemma mail_keeps db db' :
  same_work db db' -> same_registry db db' -> (mail_inv db -> mail_inv db') -> work_keeps db db'.
Proof.
  intros Hw Hr Hm Hinv. assert (Hr' := Hr). destruct Hr' as (_ & Ed & Ec & _). split.
  - apply (same_work_inv db); [done|done|by apply (registry_inv_frame db); [apply wo_registry|]|by apply Hm, wo_mail].
  - apply same_work_history; [done|by rewrite Ec|by rewrite Ed].
Qed.

Lemma SendMailboxMessage_keeps p target id message at_ db d db' :
  SendMailboxMessage p target id message at_ db = Ok (d, db') -> work_keeps db db'.
Proof.
  intros (Hp & _ & Hid & Hmsg & Hat & Hsend)%SendMailboxMessage_Ok Hinv. revert Hinv. intros Hinv.
  destruct (sendTx_only _ _ _ _ _ _ _ _ (wo_mail _ Hinv) Hp Hid Hmsg Hat Hsend) as (b & m & r & E).
  apply (mail_keeps db db'); [by rewrite E|by rewrite E| |done]. intros Hm. by eapply send_inv.
Qed.

Lemma ReadMailbox_effect p cursor n db page db' :
  ReadMailbox p cursor n db = Ok (page, db') ->
  db' = db \/ exists m, cursor <= last_sequence m db /\ db' = acknowledge m cursor db.
Proof.
  unfold ReadMailbox. intros H. apply tx_bind_Ok in H as (? & ? & [_ ->]%tx_lift_Ok & H).
  do 3 (destruct (decide _) in H; [by apply tx_throw_Ok in H|]).
  apply tx_bind_Ok in H as (? & ? & [_ ->]%tx_query_Ok & H).
  apply tx_bind_Ok in H as (last & ? & [[= <-] ->]%tx_query_Ok & H).
  set (m := (p_ControllerID p, p_TreeID p, p_AgentID p)) in *.
  destruct (mailboxes db !! m) as [last|] eqn:Em.
  - destruct (decide (cursor > last)); [by apply tx_throw_Ok in H|].
    apply tx_bind_Ok in H as (? & db1 & H1 & H). apply tx_bind_Ok in H as (? & ? & [_ ->]%tx_query_Ok & H).
    apply tx_ret_Ok in H as [_ ->]. destruct (decide (cursor <> 0)); [right|left].
    + exists m. split; [unfold last_sequence; rewrite Em; simpl; lia|]. by apply tx_put_Ok in H1.
    + by apply tx_ret_Ok in H1 as [_ ->].
  - destruct (decide (cursor <> 0)); [by apply tx_throw_Ok in H|]. apply tx_ret_Ok in H as [_ ->]. by left.
Qed.

Lemma ReadMailbox_keeps p cursor n db page db' :
  0 <= cursor -> ReadMailbox p cursor n db = Ok (page, db') -> work_keeps db db'.
Proof.
  intros Hc [->|(m & Hle & ->)]%ReadMailbox_effect; [done|]. apply mail_keeps; [done|done|].
  intros Hm. by apply acknowledge_inv.
Qed.

(** ** Trees and principals *)

(** Rows of a component belong to trees the database has. *)
Lemma principal_tree db c t a p : trees_inv db -> db.(principals) !! (c, t, a) = Some p -> tree_exists db c t = true.
Proof.
  intros Hinv Hp. destruct (ti_principals _ Hinv _ _ Hp) as (_ & _ & th & tr & Ht & Hid & _).
  apply tree_exists_true. eauto.
Qed.

(** New principals, and new trees with fresh identities. *)
Lemma grow_keeps db db' :
  same_registry db db' -> same_mail db db' -> db'.(workspace_sync_receipts) = db.(workspace_sync_receipts) ->
  db'.(agent_spawn_receipts) = db.(agent_spawn_receipts) -> db'.(agent_operation_receipts) = db.(agent_operation_receipts) ->
  db'.(peer_worker_sync_cursors) = db.(peer_worker_sync_cursors) -> db'.(agent_lifecycle_states) = db.(agent_lifecycle_states) ->
  kept eq db.(principals) db'.(principals) -> kept eq db.(trees) db'.(trees) ->
  (forall kt tr, db'.(trees) !! kt = Some tr -> db.(trees) !! kt = Some tr \/
     tree_exists db kt.1 tr.(tr_tree_id) = false /\ tr.(tr_last_lifecycle_sequence) = 0) ->
  (trees_inv db -> trees_inv db') -> work_keeps db db'.
Proof.
  intros Hr (M1 & M2 & M3) E3 E4 E5 E6 E7 Hp Hkt Hnew Htrees Hinv. assert (Hr' := Hr). destruct Hr' as (_ & Ed & Ec & _).
  assert (forall k p, db.(principals) !! k = Some p -> db'.(principals) !! k = Some p) as Hp'.
  { intros k p (p' & ? & ->)%Hp. done. }
  assert (forall kt tr k p, db'.(trees) !! kt = Some tr -> db.(principals) !! k = Some p -> kt.1 = k.1.1 ->
    tr.(tr_tree_id) = k.1.2 -> db.(trees) !! kt = Some tr) as Hold.
  { intros kt tr [[c t] a] p Ht Hk Ek Et. apply Hnew in Ht as [Ht|[Ht _]]; [done|]. simpl in Ek, Et.
    rewrite Ek, Et, (principal_tree db c t a p (wo_trees _ Hinv) Hk) in Ht. done. }
  split.
  - destruct Hinv as [H1 H2 H3 H4 H5 H6 [[R1 R2 R3 R4 R5 R6 R7] H7]]. split.
    + by apply (registry_inv_frame db).
    + by apply Htrees.
    + by apply (mail_inv_frame db).
    + by apply (workspace_inv_frame db).
    + apply (spawn_inv_frame db); [done|done|done| |rewrite E3; eauto].
      intros kt tr k r Ht Hk Ek Et. exists tr. split_and!; [|done|lia].
      destruct (si_rows _ H5 _ _ Hk) as (_ & p & Hpr & _). by eapply Hold.
    + apply (operation_inv_frame db); [done|done|done|]. intros c t a x. unfold started_child. by rewrite E4.
    + split; [split|by rewrite E6]; unfold states_readable; rewrite ?E7.
      * done.
      * done.
      * intros k r (p & Hk & Hd)%R3. eauto.
      * done.
      * intros k r kt tr Hk Ht Ek Et. destruct (R3 _ _ Hk) as (p & Hpk & _). eapply R5; eauto.
      * intros kt tr [Ht|[_ Ht]]%Hnew; [by eapply R6|]. rewrite Ht. done.
      * intros k r Hk. unfold applied_revision. rewrite E6. by apply R7.
  - split; [by rewrite Ec|by rewrite Ed|done|by rewrite E3|by rewrite E4|by rewrite E5|].
    apply lifecycle_evolves_frame; [done|]. intros kt tr (tr' & Ht & <-)%Hkt. exists tr. split_and!; [done|done|lia].
Qed.

Lemma EnsureRootTree_keeps c th dev at_ newTree newAgent db r db' :
  (forall i, newTree = Ok i -> valid_id i) -> (forall i, newAgent = Ok i -> valid_id i) ->
  EnsureRootTree c th dev at_ newTree newAgent db = Ok (r, db') -> work_keeps db db'.
Proof.
  intros H1 H2 H Hinv. destruct r as [tree p].
  apply EnsureRootTree_effect in H as (Ht & _ & _ & _ & _ & [->|(ti & ai & Hn & Hte & Hpn & E)]); [by split| |apply wo_trees, Hinv|done..].
  revert Hinv. apply grow_keeps; try (by rewrite E); [| | |done]; rewrite E; simpl.
  - apply kept_insert; [apply _|]. intros p0 Hp0. congruence.
  - apply kept_insert; [apply _|]. intros t0 Ht0. congruence.
  - intros kt tr [[<- <-]|[_ Hk]]%lookup_insert_Some; [right|by left]. simpl. done.
Qed.

Lemma CreateWorkerPrincipal_keeps c t a parent dev at_ db p db' :
  CreateWorkerPrincipal c t a parent dev at_ db = Ok (p, db') -> work_keeps db db'.
Proof.
  intros H Hinv. apply CreateWorkerPrincipal_effect in H as (Ht & [->|[Hn E]]); [by split| |apply wo_trees, Hinv].
  revert Hinv. apply grow_keeps; try (by rewrite E); [| |done]; rewrite E; simpl; [|by left].
  apply kept_insert; [apply _|]. intros p0 Hp0. congruence.
Qed.

(** ** Workspaces *)

Lemma receipt_step_kept k r r' : receipt_step k r r' -> workspace_kept r r'.
Proof.
  intros [m h ts Hst Hh Hgu Hts|receipt s ts Hr Hst Hv Hid Hw Hmh Hho Hof Hwd Hsd Htd Hts];
    split; simpl; try done; try (rewrite Hst; done); try congruence.
Qed.

Lemma receipt_step_consumed k r r' :
  receipt_step k r r' -> r'.(ws_consumed_spawn_id) = r.(ws_consumed_spawn_id) /\ r'.(ws_target_device_id) = r.(ws_target_device_id).
Proof. by intros [m h ts|receipt s ts]. Qed.

Lemma workspace_keeps db t :
  let db' := set_workspace_sync_receipts db t in
  kept workspace_kept db.(workspace_sync_receipts) t ->
  kept (fun w w' => w'.(ws_consumed_spawn_id) = w.(ws_consumed_spawn_id) /\ w'.(ws_target_device_id) = w.(ws_target_device_id))
    db.(workspace_sync_receipts) t ->
  (workspace_inv db -> workspace_inv db') -> work_keeps db db'.
Proof.
  intros db' Hk Hc Hw Hinv. split.
  - destruct Hinv as [H1 H2 H3 H4 H5 H6 H7].
    split; [by apply (registry_inv_frame db)|by apply (trees_inv_frame db)|by apply (mail_inv_frame db)|by apply Hw|
      |by apply (operation_inv_same db)|by apply (lifecycle_inv_frame db)].
    apply (spawn_inv_frame db); [done|done|done| |done]. intros kt tr k r Ht _ _ _. exists tr. split_and!; [done|done|lia].
  - by split; try (apply kept_eq; [apply _|done]); try apply lifecycle_evolves_same.
Qed.

Lemma workspace_advance_keeps key db db' : workspace_advance key db db' -> work_keeps db db'.
Proof.
  intros Ha. assert (Hadv := Ha). destruct Ha as [->|(r & r' & Hk & Hs & ->)]; [done|]. apply workspace_keeps.
  - apply kept_insert; [apply _|]. intros r0 Hr0. assert (r0 = r) as -> by congruence. by eapply receipt_step_kept.
  - apply kept_insert; [by intros ?|]. intros r0 Hr0. assert (r0 = r) as -> by congruence. by eapply receipt_step_consumed.
  - intros Hw. by eapply workspace_advance_inv.
Qed.

Lemma BeginWorkspaceSync_keeps intent at_ db receipt db' :
  BeginWorkspaceSync intent at_ db = Ok (receipt, db') -> work_keeps db db'.
Proof.
  intros H. assert (Hbegin := H). apply BeginWorkspaceSync_effect in H as (_ & _ & _ & [->|[_ Hi]]); [done|].
  apply insert_workspace_Ok in Hi as (_ & Hn & _ & _ & _ & _ & ->). apply workspace_keeps.
  - apply kept_insert; [apply _|]. intros r0 Hr0. congruence.
  - apply kept_insert; [by intros ?|]. intros r0 Hr0. congruence.
  - intros Hw. by eapply BeginWorkspaceSync_inv.
Qed.

(** ** Spawns *)

(** Trees whose activity counters are kept, and principals that are kept, keep the
    lifecycle states. *)
Lemma lifecycle_inv_grow db db' :
  lifecycle_inv db -> db'.(agent_lifecycle_states) = db.(agent_lifecycle_states) ->
  db'.(peer_worker_sync_cursors) = db.(peer_worker_sync_cursors) ->
  (forall k p, db.(principals) !! k = Some p -> db'.(principals) !! k = Some p) ->
  (forall kt tr, db'.(trees) !! kt = Some tr -> exists tr0, db.(trees) !! kt = Some tr0 /\ tr0.(tr_tree_id) = tr.(tr_tree_id) /\
     tr0.(tr_last_lifecycle_sequence) = tr.(tr_last_lifecycle_sequence)) -> lifecycle_inv db'.
Proof.
  intros [[R1 R2 R3 R4 R5 R6 R7] H7] E1 E2 Hp Ht. split; [split|by rewrite E2]; unfold states_readable; rewrite ?E1; try done.
  - intros k r (p & Hk & Hd)%R3. eauto.
  - intros k r kt tr Hk (tr0 & H0 & Hid & Hl)%Ht Ek Et. rewrite <- Hl. eapply R5; [exact Hk|exact H0|done|congruence].
  - intros kt tr (tr0 & H0 & _ & Hl)%Ht. rewrite <- Hl. by eapply R6.
  - intros k r Hk. unfold applied_revision. rewrite E2. by apply R7.
Qed.

Lemma BeginAgentSpawn_keeps intent at_ db receipt db' : BeginAgentSpawn intent at_ db = Ok (receipt, db') -> work_keeps db db'.
Proof.
  intros H Hinv.
  pose proof (BeginAgentSpawn_inv _ _ _ _ _ (wo_trees _ Hinv) (wo_workspaces _ Hinv) (wo_spawns _ Hinv) H) as (Ht & Hw & Hs & _).
  apply BeginAgentSpawn_effect in H as [_ [(-> & _)|(kt & tr & Hok & -> & _)]]; [by split|].
  pose proof (tree_row_Some _ _ _ _ _ (sa_tree _ _ _ _ _ Hok)) as (Hkt & _ & _).
  destruct (sa_insert _ _ _ _ _ Hok) as [db2 Hins]. apply insert_spawn_Ok in Hins as (_ & Hnew & _).
  cbn [agent_spawn_receipts set_principals] in Hnew.
  assert (kept eq db.(principals) (spawned intent at_ kt tr db).(principals)) as Hp.
  { apply kept_insert; [apply _|]. intros p Hp. pose proof (sa_principal _ _ _ _ _ Hok). congruence. }
  assert (kept spawn_kept db.(agent_spawn_receipts) (spawned intent at_ kt tr db).(agent_spawn_receipts)) as Hsp.
  { apply kept_insert; [apply _|]. intros r Hr. congruence. }
  assert (kept workspace_kept db.(workspace_sync_receipts) (spawned intent at_ kt tr db).(workspace_sync_receipts)) as Hws.
  { cbn [workspace_sync_receipts spawned set_workspace_sync_receipts]. unfold consumed_workspaces. case_decide as Hne; [|reflexivity].
    intros k w Hk. destruct (decide (k = workspace_key (spawn_workspace_key intent))) as [->|Hn].
    - rewrite lookup_alter_eq, Hk. eexists. split; [done|]. destruct (sa_workspace _ _ _ _ _ Hok Hne) as (w' & rc & Hw' & _ & Hst & _ & Hin & _).
      assert (w' = w) as -> by congruence. split; simpl; try done; [naive_solver..|]. intros Hc. set_solver.
    - rewrite lookup_alter_ne by done. exists w. by split. }
  assert (forall kt' tr', (spawned intent at_ kt tr db).(trees) !! kt' = Some tr' -> exists tr0, db.(trees) !! kt' = Some tr0 /\
     tr0.(tr_tree_id) = tr'.(tr_tree_id) /\ tr0.(tr_last_lifecycle_sequence) = tr'.(tr_last_lifecycle_sequence)) as Htr.
  { intros kt' tr'. cbn [trees spawned set_workspace_sync_receipts set_trees]. intros [[<- <-]|[_ Hk]]%lookup_insert_Some; eauto. }
  split.
  - destruct Hinv as [H1 H2 H3 H4 H5 H6 H7]. split; [by apply (registry_inv_frame db)|done|by apply (mail_inv_frame db)|done|done| |].
    + apply (operation_inv_frame db); [done|done|by intros k p (p' & ? & ->)%Hp|].
      intros c t a x (id & s & Hk & Hag & Hst). exists id, s. split_and!; [|done|done].
      destruct (Hsp _ _ Hk) as (s' & Hk' & [->|[Hpend _]]); [done|by rewrite Hst in Hpend].
    + apply (lifecycle_inv_grow db); [done|done|done|by intros k p (p' & ? & ->)%Hp|done].
  - split; [done|done|done|done|done|reflexivity|]. apply lifecycle_evolves_frame; [done|].
    intros kt' tr' Hk. cbn [trees spawned set_workspace_sync_receipts set_trees].
    destruct (decide (kt' = kt)) as [->|Hn].
    + rewrite lookup_insert_eq. assert (tr' = tr) as -> by congruence. eexists. split_and!; [done|done|done].
    + rewrite lookup_insert_ne by done. exists tr'. split_and!; [done|done|lia].
Qed.

Lemma finishAgentSpawn_keeps key status code at_ db receipt db' :
  finishAgentSpawn key status code at_ db = Ok (receipt, db') -> work_keeps db db'.
Proof.
  intros H Hinv. pose proof (finishAgentSpawn_inv _ _ _ _ _ _ _ (wo_spawns _ Hinv) H) as Hs.
  apply finishAgentSpawn_effect in H as (_ & _ & _ & [->|(r & Hr & Hpend & -> & _)]); [by split|]. split.
  - destruct Hinv as [H1 H2 H3 H4 H5 H6 H7].
    split; [by apply (registry_inv_frame db)|by apply (trees_inv_frame db)|by apply (mail_inv_frame db)
      |by apply (workspace_inv_frame db)|done| |by apply (lifecycle_inv_frame db)].
    apply (operation_inv_frame db); [done|done|done|]. intros c t a x (id & s & Hk & Hag & Hst).
    exists id, s. split_and!; [|done|done]. cbn. rewrite lookup_insert_ne; [done|]. intros E. rewrite E, Hk in Hr.
    injection Hr as ->. by rewrite Hst in Hpend.
  - split; try (reflexivity); try done; [|by apply lifecycle_evolves_same].
    apply kept_insert; [apply _|]. intros r0 Hr0. assert (r0 = r) as -> by congruence. right. split; [done|]. eauto.
Qed.

(** ** Operations *)

Lemma operation_keeps db db' :
  same_registry db db' -> db'.(trees) = db.(trees) -> db'.(principals) = db.(principals) ->
  db'.(workspace_sync_receipts) = db.(workspace_sync_receipts) -> db'.(agent_spawn_receipts) = db.(agent_spawn_receipts) ->
  db'.(peer_worker_sync_cursors) = db.(peer_worker_sync_cursors) -> db'.(agent_lifecycle_states) = db.(agent_lifecycle_states) ->
  kept operation_kept db.(agent_operation_receipts) db'.(agent_operation_receipts) ->
  (work_inv db -> mail_inv db' /\ operation_inv db') -> work_keeps db db'.
Proof.
  intros Hr E1 E2 E3 E4 E5 E6 Hk Hop Hinv. destruct (Hop Hinv) as [Hm Ho]. assert (Hr' := Hr). destruct Hr' as (_ & Ed & Ec & _). split.
  - destruct Hinv as [H1 H2 H3 H4 H5 H6 H7].
    split; [by apply (registry_inv_frame db)|by apply (trees_inv_frame db)|done|by apply (workspace_inv_frame db)
      |by apply (spawn_inv_same db)|done|by apply (lifecycle_inv_frame db)].
  - split; [by rewrite Ec|by rewrite Ed|by rewrite E2|by rewrite E3|by rewrite E4|done|by apply lifecycle_evolves_same].
Qed.

Lemma BeginAgentOperation_keeps intent at_ db receipt db' :
  BeginAgentOperation intent at_ db = Ok (receipt, db') -> work_keeps db db'.
Proof.
  intros H. assert (Hb := H). apply BeginAgentOperation_effect in H as (_ & _ & _ & [(-> & _)|(target & _ & _ & Hn & -> & _)]); [done|].
  apply operation_keeps; try done.
  - apply kept_insert; [apply _|]. intros r Hr. congruence.
  - intros Hinv. split; [by apply (mail_inv_frame db); [apply wo_mail|..]|].
    by eapply BeginAgentOperation_inv; [apply wo_spawns|apply wo_operations|].
Qed.

Lemma finished_kept key r outcome code ts db :
  db.(agent_operation_receipts) !! operation_key key = Some r -> r.(op_outcome) = AgentOperationOutcomePending ->
  kept operation_kept db.(agent_operation_receipts) (finished key r outcome code ts db).(agent_operation_receipts).
Proof.
  intros Hr Hp. apply kept_insert; [apply _|]. intros r0 Hr0. assert (r0 = r) as -> by congruence. right. split; [done|]. eauto.
Qed.

Lemma FinishAgentOperation_keeps key outcome code at_ db receipt db' :
  FinishAgentOperation key outcome code at_ db = Ok (receipt, db') -> work_keeps db db'.
Proof.
  intros H. assert (Hf := H). apply FinishAgentOperation_effect in H as (_ & _ & _ & _ & _ & _ & [(-> & _)|(r & Hr & Hp & -> & _)]); [done|].
  apply operation_keeps; try done; [by apply finished_kept|].
  intros Hinv. split; [by apply (mail_inv_frame db); [apply wo_mail|..]|].
  by eapply FinishAgentOperation_inv; [apply wo_operations|].
Qed.

Lemma QueueAgentMessage_keeps key message at_ db r db' :
  QueueAgentMessageAndFinishOperation key message at_ db = Ok (r, db') -> work_keeps db db'.
Proof.
  intros H Hinv. destruct r as [receipt d].
  pose proof (QueueAgentMessage_inv _ _ _ _ _ _ _ (wo_mail _ Hinv) (wo_operations _ Hinv) H) as [Hm Ho].
  apply QueueAgentMessage_effect in H as (Hk & Hmsg & _ & _ & _ & _ & Hcases); [|apply wo_mail, Hinv].
  destruct Hcases as [[-> _]|(source & delivery & db1 & row & _ & Hsrc & _ & Hsend & Hat & Hp & Hr & -> & _)]; [by split|].
  pose proof (queryPrincipal_Ok _ _ _ _ _ Hsrc) as (_ & _ & _ & Hvs). apply operation_key_ids in Hk as Hid.
  destruct (sendTx_only _ _ _ _ _ _ _ _ (wo_mail _ Hinv) Hvs Hid Hmsg Hat Hsend) as (b & m & rr & ->).
  apply operation_keeps; try done. by apply (finished_kept key row _ _ _ db).
Qed.

(** ** Lifecycle *)

Lemma ClaimWorkerLifecycleSession_keeps claim db applied db' :
  ClaimWorkerLifecycleSession claim db = Ok (applied, db') -> work_keeps db db'.
Proof.
  intros H Hinv. pose proof (ClaimWorkerLifecycleSession_inv _ _ _ _ (wo_lifecycle _ Hinv) H) as Hl.
  apply ClaimWorkerLifecycleSession_effect in H as (_ & _ & _ & _ & _ & ->). split.
  - destruct Hinv as [H1 H2 H3 H4 H5 H6 H7].
    split; [by apply (registry_inv_frame db)|by apply (trees_inv_frame db)|by apply (mail_inv_frame db)
      |by apply (workspace_inv_frame db)|by apply (spawn_inv_same db)|by apply (operation_inv_same db)|done].
  - split; try reflexivity. by apply lifecycle_evolves_same.
Qed.

Lemma ApplyWorkerLifecyclePage_keeps request db applied db' :
  ApplyWorkerLifecyclePage request db = Ok (applied, db') -> work_keeps db db'.
Proof.
  intros H Hinv. destruct (ApplyWorkerLifecyclePage_inv _ _ _ _ (wo_trees _ Hinv) (wo_lifecycle _ Hinv) H) as [Ht Hl].
  pose proof (ApplyWorkerLifecyclePage_evolves _ _ _ _ (wo_trees _ Hinv) (wo_lifecycle _ Hinv) H) as Hev.
  apply ApplyWorkerLifecyclePage_effect in H as (_ & _ & _ & _ & db1 & Happ & _ & _ & _ & E); [|apply Hinv..].
  destruct (sp_only _ _ _ _ Happ) as (T & S & -> & Hraise). rewrite E in Ht, Hl, Hev |- *. split.
  - destruct Hinv as [H1 H2 H3 H4 H5 H6 H7].
    split; [by apply (registry_inv_frame db)|done|by apply (mail_inv_frame db)
      |by apply (workspace_inv_frame db)| |by apply (operation_inv_same db)|done].
    apply (spawn_inv_frame db); [done|done|done| |eauto]. cbn. intros kt tr k r Hk _ _ _. specialize (Hraise kt).
    rewrite Hk in Hraise. destruct (db.(trees) !! kt) as [tr0|]; [|done]. destruct Hraise as (n & _ & ->).
    exists tr0. split_and!; [done|done|simpl; lia].
  - split; try reflexivity. exact Hev.
Qed.

(** ** Every step *)

Lemma work_step_keeps db db' : work_step db db' -> work_keeps db db'.
Proof.
  intros []; try (apply run_tx_keeps; [apply _|]; intros ? ? Hcall).
  - by eapply keeps_credentials, CreateCredential_effect.
  - by eapply keeps_credentials, ActivateCredential_effect.
  - destruct (PublishPendingCredential c d mac publish db) as [r db1] eqn:E. by eapply keeps_credentials, PublishPendingCredential_effect.
  - by eapply keeps_credentials, DeletePendingCredential_effect.
  - apply DisableCredential_effect in Hcall as (_ & _ & [Hc|Hc]); apply registry_change_keeps; eauto with go.
  - apply registerDevice_effect in Hcall as (_ & Hc & _). apply registry_change_keeps. eauto with go.
  - apply registerDevice_effect in Hcall as (_ & Hc & _). apply registry_change_keeps. eauto with go.
  - by eapply registry_change_keeps, updateDevicePresence_change.
  - by eapply registry_change_keeps, updateDevicePresence_change.
  - by eapply registry_change_keeps, ExpireDevices_effect.
  - apply BeginBrokerEpoch_keeps.
  - by eapply PutWorkerReadiness_keeps.
  - eapply EnsureRootTree_keeps; [| |exact Hcall]; assumption.
  - by eapply CreateWorkerPrincipal_keeps.
  - by eapply SendMailboxMessage_keeps.
  - eapply ReadMailbox_keeps; eassumption.
  - by eapply BeginWorkspaceSync_keeps.
  - apply PinWorkspaceSyncManifest_effect in Hcall as (Hc & _). by eapply workspace_advance_keeps.
  - apply FinishWorkspaceSync_effect in Hcall as (Hc & _). by eapply workspace_advance_keeps.
  - by eapply BeginAgentSpawn_keeps.
  - by eapply finishAgentSpawn_keeps.
  - by eapply finishAgentSpawn_keeps.
  - by eapply BeginAgentOperation_keeps.
  - by eapply FinishAgentOperation_keeps.
  - by eapply QueueAgentMessage_keeps.
  - by eapply ClaimWorkerLifecycleSession_keeps.
  - by eapply ApplyWorkerLifecyclePage_keeps.
Qed.


(** ** Other counters of the trees *)

(** The numbers of a tree that belong to the tables here. *)
Definition same_tree (tr tr' : TreeRow) : Prop :=
  tr'.(tr_tree_id) = tr.(tr_tree_id) /\ tr'.(tr_last_agent_sequence) = tr.(tr_last_agent_sequence) /\
  tr'.(tr_last_lifecycle_sequence) = tr.(tr_last_lifecycle_sequence).

(** A change elsewhere that moves other numbers of one tree. *)
Lemma numbering_keeps db db' :
  same_registry db db' -> same_mail db db' -> db'.(principals) = db.(principals) ->
  db'.(workspace_sync_receipts) = db.(workspace_sync_receipts) ->
  db'.(agent_spawn_receipts) = db.(agent_spawn_receipts) -> db'.(agent_operation_receipts) = db.(agent_operation_receipts) ->
  db'.(peer_worker_sync_cursors) = db.(peer_worker_sync_cursors) -> db'.(agent_lifecycle_states) = db.(agent_lifecycle_states) ->
  (db'.(trees) = db.(trees) \/ exists kt tr tr', db.(trees) !! kt = Some tr /\ same_tree tr tr' /\ db'.(trees) = <[kt := tr']> db.(trees)) ->
  trees_inv db' -> work_keeps db db'.
Proof.
  intros Hr (M1 & M2 & M3) E2 E3 E4 E5 E6 E7 Htrees Ht Hinv. assert (Hr' := Hr). destruct Hr' as (_ & Ed & Ec & _).
  assert (forall kt tr, db'.(trees) !! kt = Some tr -> exists tr0, db.(trees) !! kt = Some tr0 /\ same_tree tr0 tr) as Hback.
  { intros kt tr Hk. destruct Htrees as [E|(kt0 & tr0 & tr' & H0 & Hsame & E)]; rewrite E in Hk; [exists tr; by split|].
    apply lookup_insert_Some in Hk as [[<- <-]|[_ Hk]]; [eauto|exists tr; by split]. }
  assert (forall kt tr, db.(trees) !! kt = Some tr -> exists tr', db'.(trees) !! kt = Some tr' /\ same_tree tr tr') as Hforth.
  { intros kt tr Hk. destruct Htrees as [E|(kt0 & tr0 & tr' & H0 & Hsame & E)]; rewrite E; [exists tr; by split|].
    destruct (decide (kt0 = kt)) as [->|Hne]; [rewrite lookup_insert_eq|rewrite lookup_insert_ne by done; exists tr; by split].
    assert (tr0 = tr) as -> by congruence. eauto. }
  split.
  - destruct Hinv as [H1 H2 H3 H4 H5 H6 H7]. split.
    + by apply (registry_inv_frame db).
    + done.
    + by apply (mail_inv_frame db).
    + by apply (workspace_inv_frame db).
    + apply (spawn_inv_frame db); [done|done|by rewrite E2| |rewrite E3; eauto].
      intros kt tr k r (tr0 & Hk & H01 & H02 & _)%Hback _ _ _. exists tr0. split_and!; [done|done|lia].
    + by apply (operation_inv_same db).
    + apply (lifecycle_inv_grow db); [done|done|done|by rewrite E2|].
      intros kt tr (tr0 & Hk & H01 & _ & H03)%Hback. exists tr0. done.
  - split; [by rewrite Ec|by rewrite Ed|by rewrite E2|by rewrite E3|by rewrite E4|by rewrite E5|].
    apply lifecycle_evolves_frame; [done|]. intros kt tr (tr' & Hk & H01 & _ & H03)%Hforth. exists tr'. split_and!; [done|done|lia].
Qed.
