(* ===== verification/Status.v ===== *)
(** internal/store/status.go, the broker's half: the fixed-size counts of the status
    page and of the upgrade preflight. The lifetime counters are kept beside the rows
    they count; that they agree with the rows in every state is an invariant. *)

From S2P Require Export Artifacts.

(** ** Snapshots *)

(* go: internal/store/status.go:25-28 StatusDeviceCounts *)
Record StatusDeviceCounts := { sd_Total : Z; sd_Online : Z }.

(* go: internal/store/status.go:30-34 StatusDispatchCounts *)
Record StatusDispatchCounts := { sdc_Pending : Z; sdc_Started : Z; sdc_Failed : Z }.

(* go: internal/store/status.go:36-39 StatusWorkerCounts *)
Record StatusWorkerCounts := { sw_Running : Z; sw_Occupied : Z }.

(* go: internal/store/status.go:41-45 StatusArtifactCounts *)
Record StatusArtifactCounts := { sa_Available : Z; sa_Unchanged : Z; sa_CaptureFailed : Z }.

(* go: internal/store/status.go:47-54 StatusResultCounts *)
Record StatusResultCounts := {
  sr_DeliveryPending : Z;
  sr_DetailsRetained : Z;
  sr_Delivered : Z;
  sr_SourceAcknowledged : Z;
  sr_SourceReleased : Z;
  sr_DetailsCompacted : Z;
}.

(* go: internal/store/status.go:56-59 StatusLifetimeCounters *)
Record StatusLifetimeCounters := { sl_DispatchesStarted : Z; sl_TurnsStarted : Z }.

(* go: internal/store/status.go:14-23 StatusSnapshot *)
Record StatusSnapshot := {
  ss_Devices : StatusDeviceCounts;
  ss_Trees : Z;
  ss_Dispatches : StatusDispatchCounts;
  ss_Workers : StatusWorkerCounts;
  ss_Artifacts : StatusArtifactCounts;
  ss_Results : StatusResultCounts;
  ss_Lifetime : StatusLifetimeCounters;
}.

(* go: internal/store/status.go:61-70 UpgradeBlockers *)
Record UpgradeBlockers := {
  ub_OccupiedWorkers : Z;
  ub_PendingSpawns : Z;
  ub_PendingOperations : Z;
  ub_WorkspaceTransfers : Z;
  ub_ResultFinalizations : Z;
}.

(* go: internal/store/status.go UpgradeBlockers.Empty *)
Definition UpgradeBlockers_Empty (b : UpgradeBlockers) : bool :=
  (b.(ub_OccupiedWorkers) =? 0) && (b.(ub_PendingSpawns) =? 0) && (b.(ub_PendingOperations) =? 0) &&
  (b.(ub_WorkspaceTransfers) =? 0) && (b.(ub_ResultFinalizations) =? 0).

(* go: internal/store/worker_reservation.go:21-23 occupiedWorkerStatesSQL *)
Definition occupiedWorkerStatesSQL : list string :=
  ["reserved"; "starting"; "preflight"; "ready"; "running"; "finalizing"].

(** ** Reading *)

(* go: internal/store/status.go Store.ReadBrokerUpgradeBlockers *)
Definition ReadBrokerUpgradeBlockers (controllerID : string) (db : DB) : result UpgradeBlockers :=
  do? wrap "controllerId" (ValidateID controllerID) in
  Ok {| ub_OccupiedWorkers :=
          count (fun x => x.1.1.1 = controllerID /\ x.2.(lc_phase) ∈ occupiedWorkerStatesSQL) db.(agent_lifecycle_states);
        ub_PendingSpawns :=
          count (fun x => x.1.1.1.1 = controllerID /\ x.2.(sp_status) = "pending") db.(agent_spawn_receipts);
        ub_PendingOperations :=
          count (fun x => x.1.1.1.1 = controllerID /\ x.2.(op_outcome) = "pending") db.(agent_operation_receipts);
        ub_WorkspaceTransfers :=
          count (fun x => x.1.1.1.1 = controllerID /\ x.2.(ws_status) <> "prepared") db.(workspace_sync_receipts);
        ub_ResultFinalizations :=
          count (fun x => x.1.1.1 = controllerID /\
            (x.2.(rk_state) = "deliveryPending" \/ x.2.(rk_source_released_at) = 0)) db.(result_packages) |}.

(** The first occurrence of each element, in order. *)
(* go: internal/store/status.go:366-374 readSyncReadyWorkerCounts *)
Fixpoint first_occurrences (seen : gset string) (l : list string) : list string :=
  match l with
  | [] => []
  | d :: l => if decide (d ∈ seen) then first_occurrences seen l else d :: first_occurrences ({[d]} ∪ seen) l
  end.

(* go: internal/store/status.go:365-365 readSyncReadyWorkerCounts *)
Definition maximumBindingsPerQuery : nat := 128.

(* go: internal/store/status.go:387-393 readSyncReadyWorkerCounts *)
Definition worker_counts (controllerID : string) (chunk : list string) (db : DB) : StatusWorkerCounts := {|
  sw_Running := count (fun x => (x.1.1.1 = controllerID /\ x.2.(lc_target_device_id) ∈ chunk) /\ x.2.(lc_phase) = "running")
    db.(agent_lifecycle_states);
  sw_Occupied := count (fun x => (x.1.1.1 = controllerID /\ x.2.(lc_target_device_id) ∈ chunk) /\
    x.2.(lc_phase) ∈ occupiedWorkerStatesSQL) db.(agent_lifecycle_states) |}.

Definition add_worker_counts (x y : StatusWorkerCounts) : StatusWorkerCounts := {|
  sw_Running := x.(sw_Running) + y.(sw_Running); sw_Occupied := x.(sw_Occupied) + y.(sw_Occupied) |}.

(** The loop over [start]: each turn queries the next chunk. [start] grows in every
    turn, so the number of identifiers is fuel enough. *)
(* go: internal/store/status.go:377-398 readSyncReadyWorkerCounts *)
Fixpoint count_chunks (fuel : nat) (controllerID : string) (uniqueDeviceIDs : list string) (start : nat)
    (acc : StatusWorkerCounts) (db : DB) : StatusWorkerCounts :=
  match fuel with
  | O => acc
  | S fuel =>
      if decide (start < length uniqueDeviceIDs)%nat then
        let end_ := Nat.min (start + maximumBindingsPerQuery) (length uniqueDeviceIDs) in
        let chunk := take (end_ - start) (drop start uniqueDeviceIDs) in
        count_chunks fuel controllerID uniqueDeviceIDs (start + maximumBindingsPerQuery)
          (add_worker_counts acc (worker_counts controllerID chunk db)) db
      else acc
  end.

(* go: internal/store/status.go readSyncReadyWorkerCounts *)
Definition readSyncReadyWorkerCounts (controllerID : string) (deviceIDs : list string) (db : DB) : StatusWorkerCounts :=
  let uniqueDeviceIDs := first_occurrences ∅ deviceIDs in
  count_chunks (length uniqueDeviceIDs) controllerID uniqueDeviceIDs 0 {| sw_Running := 0; sw_Occupied := 0 |} db.

(** [COALESCE(max(column), 0)] over at most one row. *)
(* go: internal/store/status.go:333-352 Store.ReadStatusSnapshot *)
Definition lifetime_counters (controllerID : string) (db : DB) : CounterRow :=
  default (started_increment 0 0) (db.(controller_lifetime_counters) !! controllerID).

(* go: internal/store/status.go:262-266 Store.ReadStatusSnapshot *)
Fixpoint validate_device_ids (deviceIDs : list string) : result unit :=
  match deviceIDs with
  | [] => Ok tt
  | deviceID :: deviceIDs =>
      do? wrap "sync-ready deviceId" (ValidateID deviceID) in
      validate_device_ids deviceIDs
  end.

(* go: internal/store/status.go Store.ReadStatusSnapshot *)
Definition ReadStatusSnapshot (controllerID : string) (syncReadyDeviceIDs : list string) (db : DB) : result StatusSnapshot :=
  do? wrap "controllerId" (ValidateID controllerID) in
  do? validate_device_ids syncReadyDeviceIDs in
  let counters := lifetime_counters controllerID db in
  let dispatches status := count (fun x => x.1.1.1.1 = controllerID /\ x.2.(sp_status) = status) db.(agent_spawn_receipts) in
  let artifacts status := count (fun x => x.1.1.1 = controllerID /\ x.2.(ar_status) = status) db.(changes_artifacts) in
  Ok {| ss_Devices := {| sd_Total := count (fun x => x.1.1 = controllerID) db.(devices);
                         sd_Online := count (fun x => x.1.1 = controllerID /\ x.2.(dv_online) = true) db.(devices) |};
        ss_Trees := count (fun x => x.1.1 = controllerID) db.(trees);
        ss_Dispatches := {| sdc_Pending := dispatches "pending"; sdc_Started := dispatches "started";
                            sdc_Failed := dispatches "failed" |};
        ss_Workers := readSyncReadyWorkerCounts controllerID syncReadyDeviceIDs db;
        ss_Artifacts := {| sa_Available := artifacts "available"; sa_Unchanged := artifacts "unchanged";
                           sa_CaptureFailed := artifacts "captureFailed" |};
        ss_Results := {| sr_DeliveryPending := count (fun x => x.1.1.1 = controllerID /\ x.2.(rk_state) = "deliveryPending")
                           db.(result_packages);
                         sr_DetailsRetained := count (fun x => x.1.1.1 = controllerID) db.(result_packages);
                         sr_Delivered := counters.(ct_result_packages_delivered);
                         sr_SourceAcknowledged := counters.(ct_result_packages_source_acknowledged);
                         sr_SourceReleased := counters.(ct_result_packages_source_released);
                         sr_DetailsCompacted := counters.(ct_result_package_details_compacted) |};
        ss_Lifetime := {| sl_DispatchesStarted := counters.(ct_dispatches_started);
                          sl_TurnsStarted := counters.(ct_turns_started) |} |}.

(** ** Counting rows *)

Section Counting.
Context {K R : Type} `{Countable K} (P : K * R -> Prop) `{!forall x, Decision (P x)}.
Implicit Types (t : gmap K R).

(** The share of one row. *)
Definition share (x : K * R) : Z := if decide (P x) then 1 else 0.

Lemma count_size t : count P t = Z.of_nat (size (filter P t)).
Proof. unfold count, select. by rewrite length_map_to_list. Qed.

Lemma count_empty : count P ∅ = 0.
Proof. rewrite count_size, map_filter_empty, map_size_empty. done. Qed.

Lemma count_nonneg t : 0 <= count P t.
Proof. unfold count. lia. Qed.

Lemma count_insert_new t k r : t !! k = None -> count P (<[k := r]> t) = count P t + share (k, r).
Proof.
  intros Hk. rewrite !count_size. unfold share. destruct (decide (P (k, r))) as [HP|HP].
  - rewrite map_filter_insert_True by done. rewrite map_size_insert_None; [lia|].
    apply map_lookup_filter_None. by left.
  - rewrite map_filter_insert_False by done. rewrite delete_id by done. lia.
Qed.

Lemma count_delete t k r : t !! k = Some r -> count P (delete k t) = count P t - share (k, r).
Proof.
  intros Hk. assert (count P t = count P (<[k := r]> (delete k t))) as ->.
  { f_equal. rewrite insert_delete_eq. by rewrite insert_id. }
  rewrite count_insert_new by apply lookup_delete_eq. lia.
Qed.

Lemma count_update t k r r' : t !! k = Some r -> count P (<[k := r']> t) = count P t - share (k, r) + share (k, r').
Proof.
  intros Hk. rewrite <- insert_delete_eq, count_insert_new by apply lookup_delete_eq. rewrite (count_delete _ _ r) by done. lia.
Qed.

Lemma count_zero t : count P t = 0 <-> forall k r, t !! k = Some r -> ~ P (k, r).
Proof.
  unfold count. split.
  - intros Hn k r Hk HP. assert ((k, r) ∈ select P t) as Hin by (by apply elem_of_select).
    destruct (select P t); [set_solver|done].
  - intros Hall. destruct (select P t) as [|[k r] l] eqn:E; [done|].
    assert ((k, r) ∈ select P t) as Hin by (rewrite E; set_solver). apply elem_of_select in Hin as [Hk HP]. by destruct (Hall k r).
Qed.

End Counting.

Section Counts.
Context {K R : Type} `{Countable K}.
Implicit Types (t : gmap K R).

Lemma count_ext (P Q : K * R -> Prop) `{!forall x, Decision (P x), !forall x, Decision (Q x)} t :
  (forall k r, t !! k = Some r -> P (k, r) <-> Q (k, r)) -> count P t = count Q t.
Proof. intros HPQ. rewrite !count_size. do 2 f_equal. by apply map_filter_ext. Qed.

(** Rows counted by parts: [P] is the disjoint union of [Q1] and [Q2]. *)
Lemma count_split (P Q1 Q2 : K * R -> Prop)
    `{!forall x, Decision (P x), !forall x, Decision (Q1 x), !forall x, Decision (Q2 x)} t :
  (forall k r, t !! k = Some r -> (P (k, r) <-> Q1 (k, r) \/ Q2 (k, r)) /\ ~ (Q1 (k, r) /\ Q2 (k, r))) ->
  count P t = count Q1 t + count Q2 t.
Proof.
  induction t as [|k r t Hk IH] using map_ind; intros HPQ; [by rewrite !count_empty|].
  rewrite !count_insert_new by done. rewrite IH.
  - destruct (HPQ k r) as [Hor Hnand]; [apply lookup_insert_eq|]. unfold share. repeat case_decide; tauto || lia.
  - intros k' r' Hk'. apply HPQ. rewrite lookup_insert_ne; [done|]. congruence.
Qed.

Lemma count_le (P Q : K * R -> Prop) `{!forall x, Decision (P x), !forall x, Decision (Q x)} t :
  (forall k r, t !! k = Some r -> P (k, r) -> Q (k, r)) -> count P t <= count Q t.
Proof.
  intros HPQ. rewrite (count_split Q P (fun x => Q x /\ ~ P x)).
  - pose proof (count_nonneg (fun x => Q x /\ ~ P x) t). lia.
  - intros k r Hk. specialize (HPQ _ _ Hk). destruct (decide (P (k, r))); tauto.
Qed.
End Counts.

(** ** Workers in chunks *)

Lemma first_occurrences_spec seen l :
  NoDup (first_occurrences seen l) /\ forall d, d ∈ first_occurrences seen l <-> d ∈ l /\ d ∉ seen.
Proof.
  revert seen. induction l as [|d l IH]; intros seen; simpl; [split; [constructor|set_solver]|].
  destruct (decide (d ∈ seen)) as [Hin|Hin].
  - destruct (IH seen) as [Hnd Hel]. split; [done|]. intros e. rewrite Hel. set_solver.
  - destruct (IH ({[d]} ∪ seen)) as [Hnd Hel]. split.
    + apply NoDup_cons. split; [|done]. rewrite Hel. set_solver.
    + intros e. rewrite elem_of_cons, Hel. destruct (decide (e = d)) as [->|]; set_solver.
Qed.

Lemma worker_counts_ext c l l' db : (forall d, d ∈ l <-> d ∈ l') -> worker_counts c l db = worker_counts c l' db.
Proof. intros Hl. unfold worker_counts. f_equal; apply count_ext; intros k r _; simpl; by rewrite Hl. Qed.

Lemma worker_counts_app c l1 l2 db :
  NoDup (l1 ++ l2) -> worker_counts c (l1 ++ l2) db = add_worker_counts (worker_counts c l1 db) (worker_counts c l2 db).
Proof.
  intros (_ & Hdis & _)%NoDup_app. unfold worker_counts, add_worker_counts. simpl.
  f_equal; apply count_split; intros k r _; simpl; rewrite elem_of_app; specialize (Hdis (lc_target_device_id r)); tauto.
Qed.

Lemma worker_counts_nil c db : worker_counts c [] db = {| sw_Running := 0; sw_Occupied := 0 |}.
Proof. unfold worker_counts. f_equal; apply count_zero; intros k r _; set_solver. Qed.

Lemma add_worker_counts_assoc x y z : add_worker_counts (add_worker_counts x y) z = add_worker_counts x (add_worker_counts y z).
Proof. unfold add_worker_counts. simpl. f_equal; lia. Qed.

Lemma count_chunks_spec fuel c l start acc db :
  NoDup l -> (length l - start <= fuel)%nat ->
  count_chunks fuel c l start acc db = add_worker_counts acc (worker_counts c (drop start l) db).
Proof.
  intros Hnd. revert start acc.
  assert (forall acc, acc = add_worker_counts acc (worker_counts c [] db)) as Hnil.
  { intros [x y]. rewrite worker_counts_nil. unfold add_worker_counts. simpl. f_equal; lia. }
  induction fuel as [|fuel IH]; intros start acc Hfuel; simpl.
  { rewrite drop_ge by lia. apply Hnil. }
  destruct (decide (start < length l)%nat) as [Hlt|Hlt]; [|rewrite drop_ge by lia; apply Hnil].
  set (n := (Nat.min (start + maximumBindingsPerQuery) (length l) - start)%nat).
  rewrite IH by (unfold maximumBindingsPerQuery; lia). rewrite add_worker_counts_assoc. f_equal.
  assert (take n (drop start l) ++ drop (start + maximumBindingsPerQuery) l = drop start l) as Htail.
  { rewrite <- (take_drop n (drop start l)) at 2. f_equal. rewrite drop_drop.
    destruct (decide (start + maximumBindingsPerQuery <= length l)%nat) as [Hle|Hle].
    - f_equal. unfold n. lia.
    - rewrite !drop_ge; [done|unfold n; lia|lia]. }
  rewrite <- worker_counts_app; rewrite Htail; [done|by apply drop_NoDup].
Qed.

(** The loop over chunks of distinct identifiers counts what one query would. *)
Lemma readSyncReadyWorkerCounts_eq c l db : readSyncReadyWorkerCounts c l db = worker_counts c l db.
Proof.
  unfold readSyncReadyWorkerCounts. destruct (first_occurrences_spec ∅ l) as [Hnd Hel].
  rewrite count_chunks_spec by (done || lia). rewrite drop_0, (worker_counts_ext c _ l db) by (intros d; rewrite Hel; set_solver).
  destruct (worker_counts c l db). reflexivity.
Qed.

(** ** The lifetime counters agree with the rows *)

(** What a controller's rows say the counters must be. *)
Definition spawns_started (c : string) (db : DB) : Z :=
  count (fun x => x.1.1.1.1 = c /\ x.2.(sp_status) = AgentSpawnStarted) db.(agent_spawn_receipts).
Definition followups_started (c : string) (db : DB) : Z :=
  count (fun x => x.1.1.1.1 = c /\ x.2.(op_action) = AgentOperationFollowup /\ x.2.(op_outcome) = AgentOperationOutcomeStarted)
    db.(agent_operation_receipts).
Definition packages_with (P : ResultPackageRow -> Prop) `{!forall r, Decision (P r)} (c : string) (db : DB) : Z :=
  count (fun x => x.1.1.1 = c /\ P x.2) db.(result_packages).

Definition is_delivered (r : ResultPackageRow) : Prop := r.(rk_state) = ResultPackageDelivered.
Definition is_acknowledged (r : ResultPackageRow) : Prop := 0 < r.(rk_source_acknowledged_at).
Definition is_released (r : ResultPackageRow) : Prop := 0 < r.(rk_source_released_at).
#[global] Instance is_delivered_dec r : Decision (is_delivered r).
Proof. unfold is_delivered. apply _. Defined.
#[global] Instance is_acknowledged_dec r : Decision (is_acknowledged r).
Proof. unfold is_acknowledged. apply _. Defined.
#[global] Instance is_released_dec r : Decision (is_released r).
Proof. unfold is_released. apply _. Defined.

(** The counters of a controller, as its rows determine them; the compacted packages
    are the ones no row is left of. *)
Definition accounts (c : string) (compacted : Z) (db : DB) : CounterRow := {|
  ct_dispatches_started := spawns_started c db;
  ct_turns_started := spawns_started c db + followups_started c db;
  ct_result_packages_delivered := packages_with is_delivered c db + compacted;
  ct_result_packages_source_acknowledged := packages_with is_acknowledged c db + compacted;
  ct_result_packages_source_released := packages_with is_released c db + compacted;
  ct_result_package_details_compacted := compacted |}.

Definition accounts_inv (db : DB) : Prop := forall c,
  let x := lifetime_counters c db in
  x = accounts c x.(ct_result_package_details_compacted) db /\ 0 <= x.(ct_result_package_details_compacted).

(** The tables the counters are about. *)
Definition same_accounts (db db' : DB) : Prop :=
  db'.(agent_spawn_receipts) = db.(agent_spawn_receipts) /\ db'.(agent_operation_receipts) = db.(agent_operation_receipts) /\
  db'.(result_packages) = db.(result_packages) /\ db'.(controller_lifetime_counters) = db.(controller_lifetime_counters).

Lemma accounts_inv_same db db' : same_accounts db db' -> accounts_inv db -> accounts_inv db'.
Proof.
  intros (E1 & E2 & E3 & E4) H c. specialize (H c). unfold accounts, spawns_started, followups_started, packages_with, lifetime_counters in *.
  by rewrite E1, E2, E3, E4.
Qed.

Lemma empty_accounts_inv : accounts_inv empty_db.
Proof.
  intros c x. change x with (started_increment 0 0). split; [|done].
  unfold accounts, spawns_started, followups_started, packages_with.
  cbn [agent_spawn_receipts agent_operation_receipts result_packages empty_db]. by rewrite !count_empty.
Qed.

(** The counters a change adds, and the counters after it. *)
Definition counters_after (db : DB) (c : string) (d : CounterRow) (db' : DB) : Prop := forall c',
  lifetime_counters c' db' = if decide (c' = c) then add_counters (lifetime_counters c db) d else lifetime_counters c' db.

Lemma bump_counters_after c d db db' :
  db'.(controller_lifetime_counters) = bump_counters c d db.(controller_lifetime_counters) -> counters_after db c d db'.
Proof.
  intros E c'. unfold lifetime_counters. rewrite E. unfold bump_counters. destruct (decide (c' = c)) as [->|Hne].
  - rewrite lookup_insert_eq. destruct (_ !! c) as [x|]; [done|]. simpl. destruct d. unfold add_counters. simpl. f_equal; lia.
  - by rewrite lookup_insert_ne.
Qed.

(** The invariant after a change: the counters of [c] grow by what its rows do. *)
Lemma accounts_inv_change c d db db' :
  accounts_inv db -> counters_after db c d db' -> 0 <= d.(ct_result_package_details_compacted) ->
  (forall c', accounts c' 0 db' = if decide (c' = c) then add_counters (accounts c' 0 db)
     {| ct_dispatches_started := d.(ct_dispatches_started); ct_turns_started := d.(ct_turns_started);
        ct_result_packages_delivered := d.(ct_result_packages_delivered) - d.(ct_result_package_details_compacted);
        ct_result_packages_source_acknowledged := d.(ct_result_packages_source_acknowledged) - d.(ct_result_package_details_compacted);
        ct_result_packages_source_released := d.(ct_result_packages_source_released) - d.(ct_result_package_details_compacted);
        ct_result_package_details_compacted := 0 |} else accounts c' 0 db) ->
  accounts_inv db'.
Proof.
  intros Hinv Hc Hd Hacc c'. specialize (Hinv c'). specialize (Hacc c'). specialize (Hc c'). simpl in *. rewrite Hc. clear Hc.
  destruct (decide (c' = c)) as [->|_]; destruct Hinv as [Hx Hpos]; destruct (lifetime_counters _ db) as [x1 x2 x3 x4 x5 x6];
    unfold accounts, add_counters in *; simpl in *; injection Hacc; injection Hx; intros;
    (split; [f_equal; lia|lia]).
Qed.

(** ** Each change of the counted tables *)

(** The share of a row in the counts of a controller. *)
Lemma spawns_started_update c db k r r' t :
  db.(agent_spawn_receipts) !! k = Some r -> r.(sp_status) <> AgentSpawnStarted -> t.(agent_spawn_receipts) = <[k := r']> db.(agent_spawn_receipts) ->
  spawns_started c t = spawns_started c db + (if decide (c = k.1.1.1 /\ r'.(sp_status) = AgentSpawnStarted) then 1 else 0).
Proof.
  intros Hk Hr Et. unfold spawns_started. rewrite Et, (count_update _ _ k r r') by done. unfold share. simpl.
  repeat case_decide; naive_solver lia.
Qed.

Lemma spawns_started_new c db k r t :
  db.(agent_spawn_receipts) !! k = None -> r.(sp_status) <> AgentSpawnStarted -> t.(agent_spawn_receipts) = <[k := r]> db.(agent_spawn_receipts) ->
  spawns_started c t = spawns_started c db.
Proof.
  intros Hk Hr Et. unfold spawns_started. rewrite Et, count_insert_new by done. unfold share. simpl. rewrite decide_False by tauto. lia.
Qed.

Lemma followups_started_update c db k r r' t :
  db.(agent_operation_receipts) !! k = Some r -> r.(op_outcome) <> AgentOperationOutcomeStarted ->
  t.(agent_operation_receipts) = <[k := r']> db.(agent_operation_receipts) ->
  followups_started c t = followups_started c db +
    (if decide (c = k.1.1.1 /\ r'.(op_action) = AgentOperationFollowup /\ r'.(op_outcome) = AgentOperationOutcomeStarted) then 1 else 0).
Proof.
  intros Hk Hr Et. unfold followups_started. rewrite Et, (count_update _ _ k r r') by done. unfold share. simpl.
  repeat case_decide; naive_solver lia.
Qed.

Lemma followups_started_new c db k r t :
  db.(agent_operation_receipts) !! k = None -> r.(op_outcome) <> AgentOperationOutcomeStarted ->
  t.(agent_operation_receipts) = <[k := r]> db.(agent_operation_receipts) -> followups_started c t = followups_started c db.
Proof.
  intros Hk Hr Et. unfold followups_started. rewrite Et, count_insert_new by done. unfold share. simpl. rewrite decide_False by tauto. lia.
Qed.

Section Packages.
Context (P : ResultPackageRow -> Prop) `{!forall r, Decision (P r)}.

Lemma packages_with_update c db k r r' t :
  db.(result_packages) !! k = Some r -> t.(result_packages) = <[k := r']> db.(result_packages) ->
  packages_with P c t = packages_with P c db +
    (if decide (c = k.1.1) then (if decide (P r') then 1 else 0) - (if decide (P r) then 1 else 0) else 0).
Proof.
  intros Hk Et. unfold packages_with. rewrite Et, (count_update _ _ k r r') by done. unfold share. simpl.
  repeat case_decide; destruct_and?; try tauto; try lia; naive_solver lia.
Qed.

Lemma packages_with_new c db k r t :
  db.(result_packages) !! k = None -> ~ P r -> t.(result_packages) = <[k := r]> db.(result_packages) ->
  packages_with P c t = packages_with P c db.
Proof.
  intros Hk Hr Et. unfold packages_with. rewrite Et, count_insert_new by done. unfold share. simpl. rewrite decide_False by tauto. lia.
Qed.

Lemma packages_without c keys c' db :
  NoDup keys -> (forall k, k ∈ keys -> k.1.1 = c /\ exists r, db.(result_packages) !! k = Some r /\ P r) ->
  packages_with P c' (without_packages keys db) =
    packages_with P c' db - (if decide (c' = c) then Z.of_nat (length keys) else 0).
Proof.
  revert db. induction keys as [|k keys IH]; intros db Hnd Hall.
  { rewrite without_packages_nil. simpl. case_decide; lia. }
  apply NoDup_cons in Hnd as [Hnk Hnd]. destruct (Hall k) as (Hkc & r & Hk & HP); [set_solver|].
  rewrite <- without_packages_cons, IH; [|done|].
  - unfold packages_with. rewrite without_package_delete, (count_delete _ _ _ r) by done. unfold share. simpl length. simpl.
    repeat case_decide; destruct_and?; subst; try tauto; lia.
  - intros k' Hk'. destruct (Hall k') as (Hc' & r' & Hr' & HP'); [set_solver|]. split; [done|]. exists r'. split; [|done]. simpl.
    rewrite map_lookup_filter, Hr'. simpl. rewrite option_guard_True; [done|]. set_solver.
Qed.
End Packages.

(** The counters after a change that counts nothing. *)
Lemma counters_unchanged c db db' :
  db'.(controller_lifetime_counters) = db.(controller_lifetime_counters) -> counters_after db c (started_increment 0 0) db'.
Proof.
  intros E c'. unfold lifetime_counters. rewrite E. destruct (decide (c' = c)) as [->|]; [|done].
  destruct (default _ _) as [x1 x2 x3 x4 x5 x6]. unfold add_counters. simpl. f_equal; lia.
Qed.

(** The arithmetic that is left of [accounts_inv_change] once the counts of the changed
    table are rewritten. *)
Ltac account :=
  unfold add_counters; simpl; repeat case_decide; destruct_and?; try tauto;
  unfold spawns_started, followups_started, packages_with; simpl; f_equal; lia.

Lemma accounts_spawn_new k r db db' :
  accounts_inv db -> db.(agent_spawn_receipts) !! k = None -> r.(sp_status) <> AgentSpawnStarted ->
  db'.(agent_spawn_receipts) = <[k := r]> db.(agent_spawn_receipts) ->
  db'.(agent_operation_receipts) = db.(agent_operation_receipts) -> db'.(result_packages) = db.(result_packages) ->
  db'.(controller_lifetime_counters) = db.(controller_lifetime_counters) -> accounts_inv db'.
Proof.
  intros Hinv Hk Hr E1 E2 E3 E4. apply (accounts_inv_change "" _ _ _ Hinv (counters_unchanged "" db db' E4)); [done|].
  intros c'. unfold accounts. rewrite (spawns_started_new _ db k r) by done. unfold followups_started, packages_with. rewrite E2, E3.
  account.
Qed.

Lemma accounts_spawn_finished k r status code ts db :
  accounts_inv db -> db.(agent_spawn_receipts) !! k = Some r -> r.(sp_status) = AgentSpawnPending ->
  accounts_inv (set_controller_lifetime_counters
    (set_agent_spawn_receipts db (<[k := finish_spawn_row status code ts r]> db.(agent_spawn_receipts)))
    (counted status k.1.1.1 db.(controller_lifetime_counters))).
Proof.
  intros Hinv Hk Hp. set (db' := set_controller_lifetime_counters _ _).
  pose proof (fun c => spawns_started_update c db k r (finish_spawn_row status code ts r) db' Hk ltac:(by rewrite Hp) eq_refl) as Hs.
  unfold counted in db'. destruct (decide (status = AgentSpawnStarted)) as [->|Hst].
  - apply (accounts_inv_change k.1.1.1 (started_increment 1 1) db); [done|by apply bump_counters_after|done|].
    intros c'. unfold accounts. rewrite Hs. cbn [sp_status finish_spawn_row]. account.
  - apply (accounts_inv_change k.1.1.1 (started_increment 0 0) db); [done|by apply counters_unchanged|done|].
    intros c'. unfold accounts. rewrite Hs. cbn [sp_status finish_spawn_row]. account.
Qed.

Lemma accounts_operation_new k r db :
  accounts_inv db -> db.(agent_operation_receipts) !! k = None -> r.(op_outcome) <> AgentOperationOutcomeStarted ->
  accounts_inv (set_agent_operation_receipts db (<[k := r]> db.(agent_operation_receipts))).
Proof.
  intros Hinv Hk Hr. set (db' := set_agent_operation_receipts _ _).
  apply (accounts_inv_change "" (started_increment 0 0) db); [done|by apply counters_unchanged|done|].
  intros c'. unfold accounts. rewrite (followups_started_new c' db k r db' Hk Hr eq_refl). account.
Qed.

Lemma accounts_operation_finished key r outcome code ts db :
  accounts_inv db -> db.(agent_operation_receipts) !! operation_key key = Some r -> r.(op_outcome) = AgentOperationOutcomePending ->
  accounts_inv (finished key r outcome code ts db).
Proof.
  intros Hinv Hk Hp. set (db' := finished _ _ _ _ _ _).
  pose proof (fun c => followups_started_update c db (operation_key key) r (finish_operation_row outcome code ts r) db' Hk
    ltac:(by rewrite Hp) eq_refl) as Hs. cbn [op_action op_outcome finish_operation_row] in Hs.
  change (operation_key key).1.1.1 with key.(ok_ControllerID) in Hs.
  set (d := if decide (r.(op_action) = AgentOperationFollowup /\ outcome = AgentOperationOutcomeStarted)
            then started_increment 0 1 else started_increment 0 0).
  apply (accounts_inv_change key.(ok_ControllerID) d db); [done| |unfold d; by destruct (decide _)|].
  - unfold d. destruct (decide _) as [Hd|Hd]; [apply bump_counters_after|apply counters_unchanged];
      unfold db', finished, followup_counted; simpl; [by rewrite decide_True|by rewrite decide_False].
  - intros c'. unfold accounts. rewrite Hs. unfold d. account.
Qed.

(** Publishing counts nothing; a move counts the package where it arrives; compaction
    counts what it forgets. *)
Lemma accounts_published connectedDeviceID source m md ts db db' :
  accounts_inv db -> published_new connectedDeviceID source m md ts db db' -> accounts_inv db'.
Proof.
  intros Hinv [_ Habs _ (root & _ & _ & ->)]. set (row := pending_package _ _ _ _). set (db' := set_result_packages _ _).
  apply (accounts_inv_change "" (started_increment 0 0) db); [done|by apply counters_unchanged|done|].
  intros c'. unfold accounts.
  rewrite (packages_with_new is_delivered c' db _ row db' Habs ltac:(done) eq_refl).
  rewrite (packages_with_new is_acknowledged c' db _ row db' Habs ltac:(unfold is_acknowledged; simpl; lia) eq_refl).
  rewrite (packages_with_new is_released c' db _ row db' Habs ltac:(unfold is_released; simpl; lia) eq_refl).
  account.
Qed.

(** The counter a step increases is the one of the set the package enters. *)
Definition entered (P : ResultPackageRow -> Prop) `{!forall r, Decision (P r)} (r r' : ResultPackageRow) : Z :=
  (if decide (P r') then 1 else 0) - (if decide (P r) then 1 else 0).

Lemma entered_new (P : ResultPackageRow -> Prop) `{!forall r, Decision (P r)} r r' : P r' -> ~ P r -> entered P r r' = 1.
Proof. intros H1 H2. unfold entered. by rewrite decide_True, decide_False. Qed.
Lemma entered_same (P : ResultPackageRow -> Prop) `{!forall r, Decision (P r)} r r' : (P r' <-> P r) -> entered P r r' = 0.
Proof. intros HP. unfold entered. repeat case_decide; tauto || lia. Qed.

Lemma step_increment_entered k last r r' :
  package_row_ok k r -> package_step last r r' ->
  step_increment r = result_increment (entered is_delivered r r') (entered is_acknowledged r r') (entered is_released r r') 0.
Proof.
  intros Hok Hstep. pose proof (package_states _ _ Hok) as Hst. unfold step_increment.
  destruct Hstep as [ordinal ts r Hp Ho Hts|ts r Hp Hack Hts Hpos|ts r Hp Hack Hrel Hts].
  - rewrite decide_True by done. rewrite entered_new by (unfold is_delivered; simpl; by rewrite ?Hp). by rewrite !entered_same.
  - destruct Hst as [(Hd & _)|(_ & Hst)]; [by rewrite Hd in Hp|]. rewrite decide_False by (by rewrite Hp). rewrite decide_True by done.
    rewrite (entered_new is_acknowledged) by (unfold is_acknowledged; simpl; lia). rewrite !entered_same by done. done.
  - destruct Hst as [(Hd & _)|(_ & Hst)]; [by rewrite Hd in Hp|]. rewrite decide_False by (by rewrite Hp). rewrite decide_False by lia.
    rewrite (entered_new is_released) by (unfold is_released; simpl; lia). rewrite !entered_same by done. done.
Qed.

Lemma accounts_moved k r r' p kt tr m db db' :
  accounts_inv db -> package_moved k r r' p kt tr m db db' -> accounts_inv db'.
Proof.
  intros Hinv [Hread Hstep _ _ _ ->]. pose proof (rd_found _ _ _ _ _ _ _ Hread) as Hk.
  pose proof (step_increment_entered _ _ _ _ (rd_ok _ _ _ _ _ _ _ Hread) Hstep) as Hinc.
  set (db' := package_moves _ _ _ _ _ _ _).
  assert (db'.(result_packages) = <[k := r']> db.(result_packages) /\ db'.(agent_spawn_receipts) = db.(agent_spawn_receipts) /\
    db'.(agent_operation_receipts) = db.(agent_operation_receipts)) as (E & E2 & E3) by (unfold db', package_moves; by destruct (decide _)).
  apply (accounts_inv_change k.1.1 (step_increment r) db); [done| |by rewrite Hinc|].
  - apply bump_counters_after. unfold db', package_moves. by destruct (decide _).
  - intros c'. unfold accounts. rewrite !(packages_with_update _ c' db k r r' db' Hk E).
    unfold spawns_started, followups_started. rewrite E2, E3, Hinc. unfold entered, add_counters. simpl.
    destruct (decide (c' = k.1.1)); f_equal; lia.
Qed.

Lemma accounts_compacted c n db :
  accounts_inv db -> result_inv db ->
  let keys := compacted_keys c n db in
  accounts_inv (set_controller_lifetime_counters (without_packages keys db)
     (bump_counters c (result_increment 0 0 0 (Z.of_nat (length keys))) db.(controller_lifetime_counters))).
Proof.
  intros Hinv Hres keys. set (db' := set_controller_lifetime_counters _ _).
  assert (NoDup keys) as Hnd by (eapply sublist_NoDup; [apply NoDup_compactable|apply sublist_take]).
  assert (forall (P : ResultPackageRow -> Prop) `{!forall r, Decision (P r)} c',
    (forall r, r.(rk_state) = ResultPackageDelivered -> 0 < r.(rk_source_acknowledged_at) -> 0 < r.(rk_source_released_at) -> P r) ->
    packages_with P c' db' = packages_with P c' db - (if decide (c' = c) then Z.of_nat (length keys) else 0)) as Hcount.
  { intros P HP c' Hall. apply (packages_without P c keys c' db Hnd). intros k (r & Hk & Hkc & Hst & _ & Hrel)%compacted_key.
    split; [done|]. exists r. split; [done|]. apply Hall; [done| |done].
    pose proof (package_states _ _ (proj1 (ri_rows _ Hres _ _ Hk))) as [(Hp & _)|(_ & ?)]; [by rewrite Hp in Hst|lia]. }
  apply (accounts_inv_change c (result_increment 0 0 0 (Z.of_nat (length keys))) db); [done|by apply bump_counters_after|simpl; lia|].
  intros c'. unfold accounts. rewrite (Hcount is_delivered), (Hcount is_acknowledged), (Hcount is_released) by done.
  account.
Qed.

(** Every call on result packages keeps the accounts. *)
Lemma accounts_result_call db db' :
  trees_inv db -> result_inv db -> accounts_inv db -> result_call db db' -> accounts_inv db'.
Proof.
  intros Ht Hi Ha Hcall. destruct (result_call_change _ _ Ht Hi Hcall) as [|d source m md ts db' Hn _|k r r' p kt tr m db' Hm|c n|d root params digest res ts db' Hn].
  - done.
  - by eapply accounts_published.
  - by eapply accounts_moved.
  - by apply accounts_compacted.
  - destruct Hn as [_ _ _ _ ->]. by apply (accounts_inv_same db).
Qed.

(** ** What a snapshot says *)

Lemma validate_device_ids_Ok l : validate_device_ids l = Ok tt <-> Forall (fun d => valid_id d) l.
Proof.
  induction l as [|d l IH]; simpl; [by split; constructor|]. rewrite do_Ok, wrap_Ok, IH, Forall_cons. done.
Qed.

(** Every package is pending or delivered; a released one was acknowledged, an
    acknowledged one delivered. *)
Lemma packages_partition c db :
  result_inv db ->
  count (fun x => x.1.1.1 = c) db.(result_packages) =
    packages_with is_delivered c db + count (fun x => x.1.1.1 = c /\ x.2.(rk_state) = "deliveryPending") db.(result_packages).
Proof.
  intros Hi. apply count_split. intros k r Hk. simpl. unfold is_delivered.
  destruct (package_states _ _ (proj1 (ri_rows _ Hi _ _ Hk))) as [(E & _)|(E & _)]; rewrite E; (split; [|by intros [[_ H1] [_ H2]]]).
  - split; [by right|]. by intros [[? _]|[? _]].
  - split; [by left|]. by intros [[? _]|[? _]].
Qed.

Lemma packages_nested c db :
  result_inv db ->
  packages_with is_released c db <= packages_with is_acknowledged c db <= packages_with is_delivered c db /\
  (packages_with is_delivered c db = packages_with is_released c db <->
   count (fun x => x.1.1.1 = c /\ x.2.(rk_state) = ResultPackageDelivered /\ x.2.(rk_source_released_at) = 0) db.(result_packages) = 0).
Proof.
  intros Hi. unfold packages_with, is_delivered, is_acknowledged, is_released. split.
  - split; apply count_le; intros k r Hk; simpl;
      destruct (package_states _ _ (proj1 (ri_rows _ Hi _ _ Hk))) as [(E & ?)|(E & ?)]; intros [? ?]; (split; [done|]); try lia; done.
  - rewrite (count_split (fun x => x.1.1.1 = c /\ x.2.(rk_state) = ResultPackageDelivered) (fun x => x.1.1.1 = c /\ 0 < x.2.(rk_source_released_at))
      (fun x => x.1.1.1 = c /\ x.2.(rk_state) = ResultPackageDelivered /\ x.2.(rk_source_released_at) = 0)); [lia|].
    intros k r Hk. simpl. destruct (package_states _ _ (proj1 (ri_rows _ Hi _ _ Hk))) as [(E & Hz)|(E & Hz)]; rewrite E; (split; [|lia]).
    + split; [by intros [_ ?]|]. intros [[_ ?]|(_ & ? & _)]; [lia|done].
    + split; [intros [-> _]|by intros [[-> _]|[-> _]]]. destruct (decide (rk_source_released_at r = 0)); [right|left]; (split; [done|]); lia || done.
Qed.

(** The balance of a controller's snapshot. *)
Record snapshot_balances (s : StatusSnapshot) : Prop := {
  sb_dispatches : s.(ss_Lifetime).(sl_DispatchesStarted) = s.(ss_Dispatches).(sdc_Started);
  sb_turns : s.(ss_Lifetime).(sl_DispatchesStarted) <= s.(ss_Lifetime).(sl_TurnsStarted);
  sb_results : s.(ss_Results).(sr_Delivered) + s.(ss_Results).(sr_DeliveryPending) =
    s.(ss_Results).(sr_DetailsRetained) + s.(ss_Results).(sr_DetailsCompacted);
  sb_order : 0 <= s.(ss_Results).(sr_DetailsCompacted) <= s.(ss_Results).(sr_SourceReleased) /\
    s.(ss_Results).(sr_SourceReleased) <= s.(ss_Results).(sr_SourceAcknowledged) <= s.(ss_Results).(sr_Delivered);
}.

Lemma ReadStatusSnapshot_balances c ids db :
  accounts_inv db -> result_inv db -> valid_id c -> Forall (fun d => valid_id d) ids ->
  exists s, ReadStatusSnapshot c ids db = Ok s /\ snapshot_balances s /\ s.(ss_Workers) = worker_counts c ids db.
Proof.
  intros Ha Hi Hc Hids. unfold ReadStatusSnapshot. rewrite Hc, (proj2 (validate_device_ids_Ok ids) Hids).
  eexists. split; [reflexivity|]. split; [|apply readSyncReadyWorkerCounts_eq].
  destruct (Ha c) as [Hx Hpos]. pose proof (packages_partition c db Hi) as Hpart. pose proof (packages_nested c db Hi) as [Hnest _].
  pose proof (count_nonneg (fun x => x.1.1.1 = c /\ is_released x.2) db.(result_packages)) as Hrel. fold (packages_with is_released c db) in Hrel.
  destruct (lifetime_counters c db) as [x1 x2 x3 x4 x5 x6]. unfold accounts in Hx. simpl in Hx, Hpos. injection Hx as X1 X2 X3 X4 X5.
  split; cbn -[count].
  - rewrite X1. done.
  - pose proof (count_nonneg (fun x => x.1.1.1.1 = c /\ x.2.(op_action) = AgentOperationFollowup /\ x.2.(op_outcome) = AgentOperationOutcomeStarted)
      db.(agent_operation_receipts)) as Hf. fold (followups_started c db) in Hf. lia.
  - lia.
  - lia.
Qed.

(** What the upgrade preflight waits for. *)
Record drained (c : string) (db : DB) : Prop := {
  dr_workers : forall k r, db.(agent_lifecycle_states) !! k = Some r -> k.1.1 = c -> r.(lc_phase) ∉ occupiedWorkerStatesSQL;
  dr_spawns : forall k r, db.(agent_spawn_receipts) !! k = Some r -> k.1.1.1 = c -> r.(sp_status) <> AgentSpawnPending;
  dr_operations : forall k r, db.(agent_operation_receipts) !! k = Some r -> k.1.1.1 = c -> r.(op_outcome) <> AgentOperationOutcomePending;
  dr_workspaces : forall k r, db.(workspace_sync_receipts) !! k = Some r -> k.1.1.1 = c -> r.(ws_status) = WorkspaceSyncPrepared;
  dr_results : forall k r, db.(result_packages) !! k = Some r -> k.1.1 = c ->
    r.(rk_state) <> ResultPackageDeliveryPending /\ r.(rk_source_released_at) <> 0;
}.

Lemma UpgradeBlockers_Empty_true b :
  UpgradeBlockers_Empty b = true <-> b.(ub_OccupiedWorkers) = 0 /\ b.(ub_PendingSpawns) = 0 /\ b.(ub_PendingOperations) = 0 /\
    b.(ub_WorkspaceTransfers) = 0 /\ b.(ub_ResultFinalizations) = 0.
Proof. unfold UpgradeBlockers_Empty. rewrite !andb_true_iff, !Z.eqb_eq. tauto. Qed.

Lemma ReadBrokerUpgradeBlockers_empty c db b :
  ReadBrokerUpgradeBlockers c db = Ok b -> UpgradeBlockers_Empty b = true <-> drained c db.
Proof.
  unfold ReadBrokerUpgradeBlockers. rewrite do_Ok. intros [_ [= <-]]. rewrite UpgradeBlockers_Empty_true. cbn -[count].
  rewrite !count_zero. cbn [fst snd]. split.
  - intros (H1 & H2 & H3 & H4 & H5). split; intros k r Hk Hc.
    + intros Hin. by apply (H1 _ _ Hk).
    + intros Hst. by apply (H2 _ _ Hk).
    + intros Hst. by apply (H3 _ _ Hk).
    + apply dec_stable. intros Hst. by apply (H4 _ _ Hk).
    + specialize (H5 _ _ Hk). split; intros Hst; apply H5; (split; [done|]); [by left|by right].
  - intros [D1 D2 D3 D4 D5]. split_and!; intros k r Hk [Hc Hr].
    + by apply (D1 _ _ Hk Hc).
    + by apply (D2 _ _ Hk Hc).
    + by apply (D3 _ _ Hk Hc).
    + by apply Hr, (D4 _ _ Hk Hc).
    + destruct (D5 _ _ Hk Hc) as [? ?]. by destruct Hr.
Qed.

(** A drained controller has delivered everything, and its sources have released it. *)
Lemma drained_results c ids db s :
  accounts_inv db -> result_inv db -> drained c db -> ReadStatusSnapshot c ids db = Ok s ->
  s.(ss_Results).(sr_DeliveryPending) = 0 /\ s.(ss_Results).(sr_SourceReleased) = s.(ss_Results).(sr_Delivered) /\
  s.(ss_Dispatches).(sdc_Pending) = 0.
Proof.
  intros Ha Hi [_ D2 _ _ D5]. unfold ReadStatusSnapshot. rewrite !do_Ok. intros (_ & _ & [= <-]). cbn -[count].
  split_and!.
  - apply count_zero. intros k r Hk [Hc Hst]. by destruct (D5 _ _ Hk Hc).
  - destruct (packages_nested c db Hi) as [_ [_ Heq]].
    rewrite count_zero in Heq. destruct (Ha c) as [Hx _]. destruct (lifetime_counters c db). unfold accounts in Hx. simpl in Hx |- *.
    injection Hx as X1 X2 X3 X4 X5. rewrite X3, X5, Heq; [done|]. intros k r Hk (Hc & _ & Hz). by destruct (D5 _ _ Hk Hc).
  - apply count_zero. intros k r Hk [Hc Hst]. by destruct (D2 _ _ Hk Hc).
Qed.
