(* ===== verification/Broker.v ===== *)
(** The broker's store as a whole: a state machine whose steps are the calls of the
    store's methods, in any order and with any arguments. The invariants of the
    components hold together in every state a sequence of calls can reach, and what
    the store has settled (a revoked credential, a superseded lease, a pinned
    manifest, an ended spawn or operation, an authorized principal, the number of a
    delivered result) stays settled. *)

From S2P Require Export Coordination Status.

(** ** Steps *)

(** One call of a store method; a call that fails leaves the state as it was. *)
Inductive store_step (db : DB) : DB -> Prop :=
  | step_work db' : work_step db db' -> store_step db db'
  | step_PublishResultPackage d source params at_ : store_step db (run_tx (PublishResultPackage d source params at_) db).2
  | step_MarkResultPackageDelivered d root id ordinal at_ :
      store_step db (run_tx (MarkResultPackageDelivered d root id ordinal at_) db).2
  | step_MarkResultPackageSourceAcknowledged d source id at_ :
      store_step db (run_tx (MarkResultPackageSourceAcknowledged d source id at_) db).2
  | step_MarkResultPackageSourceReleased d source id at_ :
      store_step db (run_tx (MarkResultPackageSourceReleased d source id at_) db).2
  | step_CompactReleasedResultPackageDetails c n : store_step db (run_tx (CompactReleasedResultPackageDetails c n) db).2
  | step_AuthorizeResultApply d root params at_ : store_step db (run_tx (AuthorizeResultApply d root params at_) db).2
  | step_PublishChangesArtifact d source params at_ :
      store_step db (run_tx (PublishChangesArtifact d source params at_) db).2.

(** A state some sequence of calls leads to from a fresh state file. *)
Definition reachable (db : DB) : Prop := rtc store_step empty_db db.

(** ** The invariant of the whole store *)

Record store_inv (db : DB) : Prop := {
  st_work : work_inv db;
  st_results : result_inv db;
  st_artifacts : artifact_inv db;
  st_accounts : accounts_inv db;
}.

Lemma empty_store_inv : store_inv empty_db.
Proof.
  split; [apply empty_work_inv|by apply no_results_inv|by apply no_artifacts_inv|apply empty_accounts_inv].
Qed.

(** What a state keeps of an earlier one: results keep their numbers, in that the
    delivery machine can explain the change, and artifacts are never touched. *)
Record history (db db' : DB) : Prop := {
  hi_work : work_history db db';
  hi_results : rtc delivery_step (delivery_of db) (delivery_of db');
  hi_artifacts : kept eq db.(changes_artifacts) db'.(changes_artifacts);
}.

#[global] Instance history_refl : Reflexive history.
Proof. intros db. by split. Qed.
#[global] Instance history_trans : Transitive history.
Proof. intros d1 d2 d3 [A1 A2 A3] [B1 B2 B3]. split; etrans; eassumption. Qed.

Definition keeps (db db' : DB) : Prop := store_inv db -> store_inv db' /\ history db db'.
#[global] Instance keeps_refl : Reflexive keeps.
Proof. intros db H. by split. Qed.
#[global] Instance keeps_trans : Transitive keeps.
Proof. intros d1 d2 d3 H1 H2 H. destruct (H1 H) as [Hi Hh]. destruct (H2 Hi) as [Hi' Hh']. split; [done|by etrans]. Qed.

(** ** Results beside the other calls *)

(** What results and artifacts know of a tree. *)
Definition tree_view (tr : TreeRow) : string * string * string * Z * Z :=
  (tr.(tr_tree_id), tr.(tr_root_agent_id), tr.(tr_root_device_id), tr.(tr_last_result_sequence), tr.(tr_last_artifact_sequence)).

(** The other calls leave results, artifacts and the numbers of trees alone, but for
    new trees without either; they keep the accounts. *)
Record beside (db db' : DB) : Prop := {
  be_packages : db'.(result_packages) = db.(result_packages);
  be_applies : db'.(result_apply_authorizations) = db.(result_apply_authorizations);
  be_artifacts : db'.(changes_artifacts) = db.(changes_artifacts);
  be_trees : tree_view <$> db'.(trees) = tree_view <$> db.(trees) \/
    exists kt tr, db.(trees) !! kt = None /\ tree_exists db kt.1 tr.(tr_tree_id) = false /\
      tr.(tr_last_result_sequence) = 0 /\ tr.(tr_last_artifact_sequence) = 0 /\ db'.(trees) = <[kt := tr]> db.(trees);
  be_accounts : accounts_inv db -> accounts_inv db';
}.

#[global] Instance beside_refl : Reflexive beside.
Proof. intros db. split; auto. Qed.

(** Changes of other tables only. *)
Definition apart (db db' : DB) : Prop :=
  same_accounts db db' /\ db'.(result_apply_authorizations) = db.(result_apply_authorizations) /\
  db'.(changes_artifacts) = db.(changes_artifacts) /\ db'.(trees) = db.(trees).

#[global] Instance apart_trans : Transitive apart.
Proof.
  intros d1 d2 d3 ((A1 & A2 & A3 & A4) & A5 & A6 & A7) ((B1 & B2 & B3 & B4) & B5 & B6 & B7).
  unfold apart, same_accounts. by rewrite B1, B2, B3, B4, B5, B6, B7, A1, A2, A3, A4, A5, A6, A7.
Qed.

Lemma apart_beside db db' : apart db db' -> beside db db'.
Proof.
  intros (Hs & Ea & Er & Et). split; [apply Hs|done|done|left; by rewrite Et|by apply accounts_inv_same].
Qed.

Lemma registry_apart db db' : registry_change db db' -> apart db db'.
Proof.
  by intros [db1 (t & _ & ->)|c db1 (cur & creds & devs & _ & _ & _ & _ & _ & _ & _ & ->)|db1 (k & r & seen & _ & _ & ->)|kind _ _].
Qed.

Lemma registry_beside db db' : registry_change db db' -> beside db db'.
Proof. intros H. by apply apart_beside, registry_apart. Qed.

Lemma credentials_beside db db' : credentials_only db db' -> beside db db'.
Proof. intros H. by apply registry_beside, change_credentials. Qed.

Lemma workspace_advance_beside key db db' : workspace_advance key db db' -> beside db db'.
Proof. by intros [->|(r & r' & _ & _ & ->)]; [|apply apart_beside]. Qed.

(** A tree whose other numbers change looks the same. *)
Lemma view_update (kt : string * string) (tr tr' : TreeRow) (t : gmap (string * string) TreeRow) :
  t !! kt = Some tr -> tree_view tr' = tree_view tr -> tree_view <$> (<[kt := tr']> t) = tree_view <$> t.
Proof. intros Hk E. rewrite fmap_insert, E. apply insert_id. by rewrite lookup_fmap, Hk. Qed.

Lemma finishAgentSpawn_beside key status code at_ db receipt db' :
  finishAgentSpawn key status code at_ db = Ok (receipt, db') -> beside db db'.
Proof.
  intros H. apply finishAgentSpawn_effect in H as (_ & _ & _ & [->|(r & Hr & Hpend & -> & _)]); [done|].
  split; auto. intros Ha. by apply (accounts_spawn_finished (spawn_key key) r).
Qed.

Lemma QueueAgentMessage_beside key message at_ db r db' :
  mail_inv db -> QueueAgentMessageAndFinishOperation key message at_ db = Ok (r, db') -> beside db db'.
Proof.
  intros Hm H. destruct r as [receipt d]. apply QueueAgentMessage_effect in H as (Hk & Hmsg & _ & _ & _ & _ & Hcases); [|done].
  destruct Hcases as [[-> _]|(source & delivery & db1 & row & _ & Hsrc & _ & Hsend & Hat & Hp & Hr & -> & _)]; [done|].
  pose proof (queryPrincipal_Ok _ _ _ _ _ Hsrc) as (_ & _ & _ & Hvs). apply operation_key_ids in Hk as Hid.
  destruct (sendTx_only _ _ _ _ _ _ _ _ Hm Hvs Hid Hmsg Hat Hsend) as (b & m & rr & ->).
  split; auto. intros Ha. apply accounts_operation_finished; [by apply (accounts_inv_same db)|done|done].
Qed.

Lemma EnsureRootTree_beside c th dev at_ newTree newAgent db r db' :
  trees_inv db -> (forall i, newTree = Ok i -> valid_id i) -> (forall i, newAgent = Ok i -> valid_id i) ->
  EnsureRootTree c th dev at_ newTree newAgent db = Ok (r, db') -> beside db db'.
Proof.
  intros Ht H1 H2 H. destruct r as [tree p].
  apply EnsureRootTree_effect in H as (_ & _ & _ & _ & _ & [->|(ti & ai & Hn & Hte & _ & ->)]); [done| |done..].
  split; [done|done|done| |by apply accounts_inv_same]. right. exists (c, th), (root_tree_row ti ai dev at_). done.
Qed.

Lemma BeginAgentSpawn_beside intent at_ db receipt db' : BeginAgentSpawn intent at_ db = Ok (receipt, db') -> beside db db'.
Proof.
  intros H. apply BeginAgentSpawn_effect in H as [_ [(-> & _)|(kt & tr & Hok & -> & _)]]; [done|].
  pose proof (tree_row_Some _ _ _ _ _ (sa_tree _ _ _ _ _ Hok)) as (Hkt & _ & _).
  destruct (sa_insert _ _ _ _ _ Hok) as [db2 Hins]. apply insert_spawn_Ok in Hins as (_ & Hnew & _).
  split; [done|done|done|left; by apply (view_update kt tr)|]. intros Ha.
  by apply (accounts_spawn_new (spawn_key (spawn_intent_key intent)) (pending_spawn intent (tr.(tr_last_agent_sequence) + 1) at_) db).
Qed.

Lemma ApplyWorkerLifecyclePage_beside request db applied db' :
  trees_inv db -> lifecycle_inv db -> ApplyWorkerLifecyclePage request db = Ok (applied, db') -> beside db db'.
Proof.
  intros Ht Hl H. apply ApplyWorkerLifecyclePage_effect in H as (_ & _ & _ & _ & db1 & Happ & _ & _ & _ & ->); [|done..].
  destruct (sp_only _ _ _ _ Happ) as (T & S & -> & Hraise). split; [done|done|done|left|by apply accounts_inv_same].
  apply map_eq. intros kt. rewrite !lookup_fmap. cbn. specialize (Hraise kt).
  destruct (db.(trees) !! kt), (T !! kt); try done. by destruct Hraise as (n & _ & ->).
Qed.

Lemma work_step_beside db db' : work_inv db -> work_step db db' -> beside db db'.
Proof.
  intros Hinv []; try (apply run_tx_keeps; [apply _|]; intros ? ? Hcall).
  - by eapply credentials_beside, CreateCredential_effect.
  - by eapply credentials_beside, ActivateCredential_effect.
  - destruct (PublishPendingCredential c d mac publish db) as [r db1] eqn:E. by eapply credentials_beside, PublishPendingCredential_effect.
  - by eapply credentials_beside, DeletePendingCredential_effect.
  - apply DisableCredential_effect in Hcall as (_ & _ & [Hc|Hc]); apply registry_beside; eauto with go.
  - apply registerDevice_effect in Hcall as (_ & Hc & _). apply registry_beside. eauto with go.
  - apply registerDevice_effect in Hcall as (_ & Hc & _). apply registry_beside. eauto with go.
  - by eapply registry_beside, updateDevicePresence_change.
  - by eapply registry_beside, updateDevicePresence_change.
  - by eapply registry_beside, ExpireDevices_effect.
  - destruct (BeginBrokerEpoch c kind db) as [r db2] eqn:E. apply BeginBrokerEpoch_effect in E as (db1 & H1 & H2 & _).
    apply apart_beside. etrans; by apply registry_apart.
  - apply PutWorkerReadiness_effect in Hcall as (_ & _ & _ & [[_ ->]|[_ Hup]]); [done|].
    unfold upsert_readiness in Hup. go_inv. by apply apart_beside.
  - eapply EnsureRootTree_beside; [apply Hinv| | |exact Hcall]; assumption.
  - apply CreateWorkerPrincipal_effect in Hcall as (_ & [->|[_ ->]]); [done|by apply apart_beside|apply Hinv].
  - apply SendMailboxMessage_Ok in Hcall as (Hp & _ & Hid & Hmsg & Hat & Hsend).
    destruct (sendTx_only _ _ _ _ _ _ _ _ (wo_mail _ Hinv) Hp Hid Hmsg Hat Hsend) as (b & m & r & ->). by apply apart_beside.
  - apply ReadMailbox_effect in Hcall as [->|(m & _ & ->)]; [done|by apply apart_beside].
  - apply BeginWorkspaceSync_effect in Hcall as (_ & _ & _ & [->|[_ Hi]]); [done|].
    apply insert_workspace_Ok in Hi as (_ & _ & _ & _ & _ & _ & ->). by apply apart_beside.
  - apply PinWorkspaceSyncManifest_effect in Hcall as (Hc & _). by eapply workspace_advance_beside.
  - apply FinishWorkspaceSync_effect in Hcall as (Hc & _). by eapply workspace_advance_beside.
  - by eapply BeginAgentSpawn_beside.
  - by eapply finishAgentSpawn_beside.
  - by eapply finishAgentSpawn_beside.
  - apply BeginAgentOperation_effect in Hcall as (_ & _ & _ & [(-> & _)|(target & _ & _ & Hn & -> & _)]); [done|].
    split; auto. intros Ha. by apply accounts_operation_new.
  - apply FinishAgentOperation_effect in Hcall as (_ & _ & _ & _ & _ & _ & [(-> & _)|(r & Hr & Hp & -> & _)]); [done|].
    split; auto. intros Ha. by apply accounts_operation_finished.
  - eapply QueueAgentMessage_beside; [apply Hinv|exact Hcall].
  - apply ClaimWorkerLifecycleSession_effect in Hcall as (_ & _ & _ & _ & _ & ->). by apply apart_beside.
  - eapply ApplyWorkerLifecyclePage_beside; [apply Hinv..|exact Hcall].
Qed.

(** Rows before and after, for the two kinds of change [beside] allows. *)
Lemma beside_forth db db' kt tr :
  beside db db' -> db.(trees) !! kt = Some tr -> exists tr', db'.(trees) !! kt = Some tr' /\ tree_view tr' = tree_view tr.
Proof.
  intros Hb Hk. destruct (be_trees _ _ Hb) as [E|(kt0 & tr0 & Hn & _ & _ & _ & ->)].
  - assert ((tree_view <$> db'.(trees)) !! kt = Some (tree_view tr)) as H' by (by rewrite E, lookup_fmap, Hk).
    rewrite lookup_fmap in H'. destruct (db'.(trees) !! kt) as [tr'|]; [|done]. apply (inj Some) in H'. eauto.
  - rewrite lookup_insert_ne by congruence. eauto.
Qed.

Lemma beside_back db db' kt tr :
  beside db db' -> db'.(trees) !! kt = Some tr ->
  (exists tr0, db.(trees) !! kt = Some tr0 /\ tree_view tr0 = tree_view tr) \/
  (tr.(tr_last_result_sequence) = 0 /\ tr.(tr_last_artifact_sequence) = 0).
Proof.
  intros Hb Hk. destruct (be_trees _ _ Hb) as [E|(kt0 & tr0 & Hn & _ & Hr & Ha & E)].
  - left. assert ((tree_view <$> db.(trees)) !! kt = Some (tree_view tr)) as H' by (by rewrite <- E, lookup_fmap, Hk).
    rewrite lookup_fmap in H'. destruct (db.(trees) !! kt) as [tr'|]; [|done]. apply (inj Some) in H'. eauto.
  - rewrite E in Hk. apply lookup_insert_Some in Hk as [[<- <-]|[_ Hk]]; [by right|left; eauto].
Qed.

Lemma beside_references db db' :
  result_inv db -> beside db db' -> kept eq db.(principals) db'.(principals) -> references_kept db db'.
Proof.
  intros Hi Hb Hp. split.
  - by intros k p (p' & ? & ->)%Hp.
  - intros kt tr Hk. destruct (beside_forth _ _ _ _ Hb Hk) as (tr' & Hk' & E). unfold tree_view in E. injection E as E1 E2 E3 E4 E5.
    exists tr'. split_and!; [done..|lia].
  - intros kt tr Hk. destruct (beside_back _ _ _ _ Hb Hk) as [(tr0 & Hk0 & E)|[-> _]]; [|done].
    unfold tree_view in E. injection E as E1 E2 E3 E4 E5. rewrite <- E4. by eapply ri_counters.
Qed.

Lemma beside_artifacts db db' : artifact_inv db -> beside db db' -> artifact_trees_kept db db'.
Proof.
  intros Hi Hb. split.
  - intros kt tr Hk. destruct (beside_forth _ _ _ _ Hb Hk) as (tr' & Hk' & E). unfold tree_view in E. injection E as E1 E2 E3 E4 E5.
    exists tr'. split_and!; [done|done|lia].
  - intros kt tr Hk. destruct (beside_back _ _ _ _ Hb Hk) as [(tr0 & Hk0 & E)|[_ ->]]; [|done].
    unfold tree_view in E. injection E as E1 E2 E3 E4 E5. rewrite <- E5. by eapply ai_counters.
Qed.

(** To the delivery machine the other calls do nothing, or make a tree. *)
Lemma beside_delivery db db' : beside db db' -> rtc delivery_step (delivery_of db) (delivery_of db').
Proof.
  intros Hb. unfold delivery_of at 2. rewrite (be_packages _ _ Hb). destruct (be_trees _ _ Hb) as [E|([c th] & tr & Hn & Hte & Hr & _ & ->)].
  - assert ((fun tr => (tr.(tr_tree_id), tr.(tr_last_result_sequence))) <$> db'.(trees) =
      (fun tr => (tr.(tr_tree_id), tr.(tr_last_result_sequence))) <$> db.(trees)) as ->; [|reflexivity].
    set (f := fun x : string * string * string * Z * Z => (x.1.1.1.1, x.1.2)).
    assert (forall t : gmap (string * string) TreeRow, (fun tr => (tr.(tr_tree_id), tr.(tr_last_result_sequence))) <$> t = f <$> (tree_view <$> t)) as Hf
      by (intros t; rewrite <- map_fmap_compose; done).
    by rewrite !Hf, E.
  - apply rtc_once. rewrite fmap_insert, Hr. eexists. apply (delivery_tree (delivery_of db)); simpl; [by rewrite lookup_fmap, Hn|].
    intros th' n H'. rewrite lookup_fmap in H'. destruct (_ !! (c, th')) as [tr'|] eqn:E; [|done]. injection H' as H' _.
    apply not_true_iff_false in Hte. apply Hte, tree_exists_true. simpl. eauto.
Qed.

Lemma work_step_keeps_all db db' : work_step db db' -> keeps db db'.
Proof.
  intros Hstep [H1 H2 H3 H4]. destruct (work_step_keeps _ _ Hstep H1) as [Hw Hh]. pose proof (work_step_beside _ _ H1 Hstep) as Hb. split.
  - split; [done| | |by apply Hb].
    + apply (result_inv_frame db); [done| |apply Hb|apply Hb]. apply beside_references; [done|done|apply Hh].
    + apply (artifact_inv_frame db); [done|by apply beside_artifacts|apply Hb].
  - split; [done|by apply beside_delivery|by rewrite (be_artifacts _ _ Hb)].
Qed.

(** ** Results and artifacts beside the rest *)

Lemma result_change_trees db db' :
  result_change db db' ->
  db'.(trees) = db.(trees) \/
  exists kt tr n, db.(trees) !! kt = Some tr /\ db'.(trees) = <[kt := set_result_sequence n tr]> db.(trees).
Proof.
  intros [|d source m md ts db1 Hn _|k r r' p kt tr m db1 Hm|c n|d root params digest res ts db1 Hn]; [by left| | |by left|].
  - left. by destruct Hn as [_ _ _ (root & _ & _ & ->)].
  - pose proof (moved_tree _ _ _ _ _ _ _ _ _ Hm) as Hk. rewrite (pv_db _ _ _ _ _ _ _ _ _ Hm). unfold package_moves.
    destruct (decide _); [right|by left]. exists kt, tr, (tr.(tr_last_result_sequence) + 1). done.
  - left. by destruct Hn as [_ _ _ _ ->].
Qed.

Definition same_rest (db db' : DB) : Prop :=
  same_registry db db' /\ same_mail db db' /\ db'.(principals) = db.(principals) /\
  db'.(workspace_sync_receipts) = db.(workspace_sync_receipts) /\ db'.(agent_spawn_receipts) = db.(agent_spawn_receipts) /\
  db'.(agent_operation_receipts) = db.(agent_operation_receipts) /\ db'.(peer_worker_sync_cursors) = db.(peer_worker_sync_cursors) /\
  db'.(agent_lifecycle_states) = db.(agent_lifecycle_states).

Lemma result_change_rest db db' : result_change db db' -> same_rest db db' /\ db'.(changes_artifacts) = db.(changes_artifacts).
Proof.
  intros [|d source m md ts db1 Hn _|k r r' p kt tr m db1 Hm|c n|d root params digest res ts db1 Hn]; [done| | |done|].
  - by destruct Hn as [_ _ _ (root & _ & _ & ->)].
  - rewrite (pv_db _ _ _ _ _ _ _ _ _ Hm). unfold package_moves. by destruct (decide _).
  - by destruct Hn as [_ _ _ _ ->].
Qed.

Lemma result_change_keeps db db' :
  (trees_inv db -> result_inv db -> result_change db db' /\ trees_inv db' /\ result_inv db' /\ (accounts_inv db -> accounts_inv db')) ->
  keeps db db'.
Proof.
  intros H [H1 H2 H3 H4]. destruct (H (wo_trees _ H1) H2) as (Hch & Ht & Hr & Ha).
  destruct (result_change_rest _ _ Hch) as [(S1 & S2 & S3 & S4 & S5 & S6 & S7 & S8) Ear]. pose proof (result_change_trees _ _ Hch) as Htr.
  assert (work_keeps db db') as Hwk.
  { apply numbering_keeps; try done. destruct Htr as [?|(kt & tr & n & ? & ?)]; [by left|right].
    exists kt, tr, (set_result_sequence n tr). done. }
  destruct (Hwk H1) as [Hw Hh]. split.
  - split; [done|done| |by apply Ha]. apply (artifact_inv_frame db); [done| |done].
    destruct Htr as [E|(kt & tr & n & Hk & E)]; [by apply artifact_trees_same|]. split; rewrite E.
    + intros kt' tr' Hk'. destruct (decide (kt' = kt)) as [->|Hne].
      * rewrite lookup_insert_eq. assert (tr' = tr) as -> by congruence. eexists. split; [done|]. split; [done|simpl; lia].
      * rewrite lookup_insert_ne by done. exists tr'. split_and!; [done|done|lia].
    + intros kt' tr' [[<- <-]|[_ Hk']]%lookup_insert_Some; [exact (ai_counters _ H3 _ _ Hk)|by eapply ai_counters].
  - split; [done|by apply result_change_refines|by rewrite Ear].
Qed.

Lemma result_call_keeps db db' : result_call db db' -> keeps db db'.
Proof.
  intros Hcall. apply result_change_keeps. intros Ht Hi. destruct (result_call_inv _ _ Ht Hi Hcall) as [Ht' Hi'].
  split_and!; [by apply result_call_change|done|done|]. intros Ha. by apply (accounts_result_call db).
Qed.

Lemma PublishChangesArtifact_keeps connectedDeviceID source params at_ db res db' :
  PublishChangesArtifact connectedDeviceID source params at_ db = Ok (res, db') -> keeps db db'.
Proof.
  intros H [H1 H2 H3 H4]. pose proof (PublishChangesArtifact_inv _ _ _ _ _ _ _ (wo_trees _ H1) H3 H) as [Ht Hai].
  apply PublishChangesArtifact_effect in H as (_ & _ & _ & _ & authority & m & _ & _ & _ & _ & Hcase); [|apply H1|done].
  destruct Hcase as [[-> _]|(kt & tr & Htr & Hn & Hmax & _ & Hnone & _ & ->)]; [by split|].
  apply tree_row_Some in Htr as (Hk & _). set (k := (_, _, params.(pca_ArtifactID))) in *. set (db' := with_artifact _ _ _ _ _) in *.
  assert (work_keeps db db') as Hwk.
  { apply numbering_keeps; try done. right. exists kt, tr, (set_artifact_sequence m.(cam_Sequence) tr). done. }
  destruct (Hwk H1) as [Hw Hh].
  assert (delivery_of db' = delivery_of db) as Ed.
  { unfold delivery_of. simpl. f_equal. rewrite fmap_insert. apply insert_id. by rewrite lookup_fmap, Hk. }
  split; split; try done.
  - apply (result_inv_frame db); [done| |done|done]. split; [done| |].
    + intros kt' tr' Hk'. unfold db'. simpl. destruct (decide (kt' = kt)) as [->|Hne].
      * rewrite lookup_insert_eq. assert (tr' = tr) as -> by congruence. eexists. split; [done|]. simpl. split_and!; [done..|lia].
      * rewrite lookup_insert_ne by done. exists tr'. split_and!; [done..|lia].
    + intros kt' tr'. unfold db'. simpl. intros [[<- <-]|[_ Hk']]%lookup_insert_Some; [exact (ri_counters _ H2 _ _ Hk)|by eapply ri_counters].
  - by rewrite Ed.
  - apply kept_insert; [apply _|]. intros r Hr. congruence.
Qed.

(** ** Every step *)

Lemma store_step_keeps db db' : store_step db db' -> keeps db db'.
Proof.
  intros []; try (apply run_tx_keeps; [apply _|]; intros ? ? Hcall); try (eapply result_call_keeps; econstructor; exact Hcall).
  - by apply work_step_keeps_all.
  - by eapply PublishChangesArtifact_keeps.
Qed.

Lemma store_steps_keep db db' : rtc store_step db db' -> keeps db db'.
Proof. induction 1 as [|d1 d2 d3 H _ IH]; [done|]. etrans; [by apply store_step_keeps|done]. Qed.

Lemma reachable_inv db : reachable db -> store_inv db.
Proof. intros H. by apply (store_steps_keep _ _ H), empty_store_inv. Qed.

Lemma reachable_history db db' : reachable db -> rtc store_step db db' -> history db db'.
Proof. intros Hr H. by apply (store_steps_keep _ _ H), reachable_inv. Qed.

(** ** Theorems *)

(** What reading under a key gives in a good state. *)
Definition reads {A} (r : result A) : Prop := (exists a, r = Ok a) \/ r = Err ErrNotFound.

Lemma store_reads db :
  store_inv db ->
  (forall c d, reads (queryDevice c d db)) /\ (forall c t a, reads (queryPrincipal c t a db)) /\
  (forall key, reads (queryWorkspaceSyncReceipt key db)) /\ (forall key, reads (queryAgentSpawnReceipt key db)) /\
  (forall key, reads (queryAgentOperationReceipt key db)) /\ (forall c t a, reads (queryWorkerLifecycleAuthority c t a db)) /\
  (forall c t id, reads (queryResultPackageByID c t id db)) /\ (forall c t id, reads (queryChangesArtifactByID c t id db)).
Proof.
  intros [[H1 H2 H3 H4 H5 H6 H7] H8 H9 _]. unfold reads. split_and!.
  - intros c d. pose proof (queryDevice_inv c d db H1) as H. destruct (devices db !! _); [destruct H as (? & -> & _)|rewrite H]; eauto.
  - intros c t a. pose proof (queryPrincipal_inv c t a db H2) as H. destruct (principals db !! _); rewrite H; eauto.
  - intros key. unfold queryWorkspaceSyncReceipt. destruct (_ !! _) as [r|] eqn:E; [|eauto].
    destruct (wi_rows _ H4 _ _ E) as (_ & [receipt Hr] & _). rewrite key_of_workspace in Hr. rewrite Hr. eauto.
  - intros key. pose proof (queryAgentSpawnReceipt_inv key db H5) as H.
    destruct (_ !! _); [destruct H as (? & _ & ->)|rewrite H]; eauto.
  - intros key. pose proof (queryAgentOperationReceipt_inv key db H6) as H.
    destruct (_ !! _); [destruct H as (? & _ & ->)|rewrite H]; eauto.
  - intros c t a. unfold queryWorkerLifecycleAuthority. destruct (_ !! _) as [r|] eqn:E; [|eauto].
    pose proof (lr_read _ _ (li_rows _ H7) _ _ E) as Hr. simpl in Hr. rewrite Hr. eauto.
  - intros c t id. destruct (db.(result_packages) !! (c, t, id)) as [r|] eqn:E; [|right; by apply queryResultPackageByID_None].
    destruct (stored_package_read _ _ _ H8 E) as (p & kt & tr & m & Hr). left. eexists. by apply (queryResultPackageByID_Some _ _ _ _ _ _ _ _ _ H2 Hr).
  - intros c t id. destruct (db.(changes_artifacts) !! (c, t, id)) as [r|] eqn:E.
    + destruct (ai_rows _ H9 _ _ E) as [m Hm]. left. eexists. by eapply queryChangesArtifactByID_Some.
    + right. unfold queryChangesArtifactByID, row_at. by rewrite E.
Qed.

(** C1 In every state that calls of the store can reach from a fresh state file, in
    any order, with any arguments, failed calls included, the invariants of all
    components hold together, so that every row stored is well formed: reading a
    device, principal, workspace, spawn, operation, lifecycle state, result package or
    artifact under its key succeeds or reports that there is none, never that the
    stored value is invalid. *)
Theorem reachable_store_is_sound db :
  reachable db -> store_inv db /\
  (forall c d, reads (queryDevice c d db)) /\ (forall c t a, reads (queryPrincipal c t a db)) /\
  (forall key, reads (queryWorkspaceSyncReceipt key db)) /\ (forall key, reads (queryAgentSpawnReceipt key db)) /\
  (forall key, reads (queryAgentOperationReceipt key db)) /\ (forall c t a, reads (queryWorkerLifecycleAuthority c t a db)) /\
  (forall c t id, reads (queryResultPackageByID c t id db)) /\ (forall c t id, reads (queryChangesArtifactByID c t id db)).
Proof. intros Hr. apply reachable_inv in Hr. split; [done|by apply store_reads]. Qed.

Lemma history_manifest key db db' w :
  store_inv db' -> history db db' -> queryWorkspaceSyncReceipt key db = Ok w -> w.(wsr_Status) <> WorkspaceSyncPending ->
  exists w', queryWorkspaceSyncReceipt key db' = Ok w' /\ receipt_Manifest w' = receipt_Manifest w /\
    w'.(wsr_ManifestHash) = w.(wsr_ManifestHash) /\ w'.(wsr_TargetDeviceID) = w.(wsr_TargetDeviceID) /\
    (w.(wsr_ConsumedSpawnID) <> "" -> w'.(wsr_ConsumedSpawnID) = w.(wsr_ConsumedSpawnID)).
Proof.
  intros Hinv Hh Hq Hst. apply queryWorkspaceSyncReceipt_Ok in Hq as (r & Hr & Hs).
  destruct (wh_workspaces _ _ (hi_work _ _ Hh) _ _ Hr) as (r' & Hr' & [_ Ht Hu Hp _ Hc]).
  destruct (wi_rows _ (wo_workspaces _ (st_work _ Hinv)) _ _ Hr') as (_ & [w' Hs'] & _). rewrite key_of_workspace in Hs'.
  exists w'. split; [apply queryWorkspaceSyncReceipt_Ok; eauto|].
  apply scan_receipt_Ok in Hs as (_ & Hw1 & _ & E1 & _). apply scan_receipt_Ok in Hs' as (_ & Hw2 & _ & E2 & _).
  rewrite E1 in Hst. destruct (Hp Hst) as (_ & Q1 & Q2 & Q3 & Q4 & Q5 & Q6 & Q7).
  rewrite Q7 in Hw2. assert (w'.(wsr_SourceWarnings) = w.(wsr_SourceWarnings)) as Hww by congruence.
  rewrite E1, E2. unfold receipt_Manifest. simpl. rewrite Hu, Ht, Q1, Q2, Q3, Q4, Q5, Q6, Hww. split_and!; [done..|]. apply Hc.
Qed.

(** Principals are never changed, so an authorization lasts. *)
Lemma history_authorized claimed cap db db' p :
  store_inv db -> store_inv db' -> history db db' -> authorizePrincipal claimed cap db = Ok p ->
  authorizePrincipal claimed cap db' = Ok p.
Proof.
  intros Hinv Hinv' Hh Ha. rewrite <- Ha. destruct (authorizePrincipal_stored _ _ _ _ Ha) as [row Hrow].
  apply authorizePrincipal_lookup; [apply (st_work _ Hinv)|apply (st_work _ Hinv')|]. rewrite Hrow.
  by destruct (wh_principals _ _ (hi_work _ _ Hh) _ _ Hrow) as (row' & -> & ->).
Qed.

Lemma history_source source db db' :
  store_inv db -> store_inv db' -> history db db' -> authorizeAgentOperationSource source db = Ok tt ->
  authorizeAgentOperationSource source db' = Ok tt.
Proof.
  intros Hinv Hinv' Hh. unfold authorizeAgentOperationSource. destruct (authorizePrincipal source _ db) as [p|] eqn:E; [|done].
  by rewrite (history_authorized _ _ _ _ _ Hinv Hinv' Hh E).
Qed.

(** C5 What the store has settled stays settled, whatever calls follow: a spawn or an
    operation that ended keeps its whole receipt; a workspace whose manifest is pinned
    keeps the manifest, its hash and its target, and its consumer once it has one; a
    principal keeps every authorization it has; the description of a turn's changes
    stays as it was published. *)
Theorem settled_stays_settled db db' :
  reachable db -> rtc store_step db db' ->
  (forall key r, queryAgentSpawnReceipt key db = Ok r -> r.(asr_Agent).(as_SpawnStatus) <> AgentSpawnPending ->
     queryAgentSpawnReceipt key db' = Ok r) /\
  (forall key r, queryAgentOperationReceipt key db = Ok r -> r.(or_Outcome) <> AgentOperationOutcomePending ->
     queryAgentOperationReceipt key db' = Ok r) /\
  (forall key w, queryWorkspaceSyncReceipt key db = Ok w -> w.(wsr_Status) <> WorkspaceSyncPending ->
     exists w', queryWorkspaceSyncReceipt key db' = Ok w' /\ receipt_Manifest w' = receipt_Manifest w /\
       w'.(wsr_ManifestHash) = w.(wsr_ManifestHash) /\ w'.(wsr_TargetDeviceID) = w.(wsr_TargetDeviceID) /\
       (w.(wsr_ConsumedSpawnID) <> "" -> w'.(wsr_ConsumedSpawnID) = w.(wsr_ConsumedSpawnID))) /\
  (forall claimed cap p, authorizePrincipal claimed cap db = Ok p -> authorizePrincipal claimed cap db' = Ok p) /\
  (forall c t id m, queryChangesArtifactByID c t id db = Ok m -> queryChangesArtifactByID c t id db' = Ok m).
Proof.
  intros Hreach Hsteps. pose proof (reachable_inv _ Hreach) as Hinv.
  destruct (store_steps_keep _ _ Hsteps Hinv) as [Hinv' Hh].
  assert (forall k p, db.(principals) !! k = Some p -> db'.(principals) !! k = Some p) as Hp
    by (intros k p (p' & ? & ->)%(wh_principals _ _ (hi_work _ _ Hh)); done).
  split_and!.
  - intros key r (row & p & Hr & Hpr & -> & Hck)%queryAgentSpawnReceipt_Ok Hst.
    destruct (wh_spawns _ _ (hi_work _ _ Hh) _ _ Hr) as (row' & Hr' & [->|[Hpend _]]); [|done].
    apply queryAgentSpawnReceipt_Ok. exists row, p. split_and!; [done|by apply Hp|done|done].
  - intros key r (row & p & Hr & Hpr & -> & Hck)%queryAgentOperationReceipt_Ok Hst.
    destruct (wh_operations _ _ (hi_work _ _ Hh) _ _ Hr) as (row' & Hr' & [->|[Hpend _]]); [|done].
    apply queryAgentOperationReceipt_Ok. exists row, p. split_and!; [done|by apply Hp|done|done].
  - intros key w. by apply history_manifest.
  - intros claimed cap p. by apply history_authorized.
  - intros c t id m. unfold queryChangesArtifactByID, row_at. destruct (db.(changes_artifacts) !! (c, t, id)) as [row|] eqn:E; [|done].
    destruct (hi_artifacts _ _ Hh _ _ E) as (row' & -> & <-). done.
Qed.

(** What a retry of a spawn can rely on: the receipt still names the same agent and
    request, and is the same altogether once the spawn has ended. *)
Definition same_spawn (r r' : AgentSpawnReceipt) : Prop :=
  r'.(asr_Agent).(as_SpawnID) = r.(asr_Agent).(as_SpawnID) /\
  r'.(asr_Agent).(as_Principal) = r.(asr_Agent).(as_Principal) /\
  r'.(asr_Agent).(as_TaskName) = r.(asr_Agent).(as_TaskName) /\
  r'.(asr_Agent).(as_WorkspaceID) = r.(asr_Agent).(as_WorkspaceID) /\
  r'.(asr_Agent).(as_Sequence) = r.(asr_Agent).(as_Sequence) /\
  r'.(asr_PromptDigest) = r.(asr_PromptDigest) /\ r'.(asr_CreatedAt) = r.(asr_CreatedAt) /\
  (r.(asr_Agent).(as_SpawnStatus) <> AgentSpawnPending -> r' = r).

Lemma same_spawn_matches r r' intent : same_spawn r r' -> receiptMatchesIntent r intent -> receiptMatchesIntent r' intent.
Proof. intros (E1 & E2 & E3 & E4 & _ & E5 & _) H. unfold receiptMatchesIntent in *. by rewrite E1, E2, E3, E4, E5. Qed.

Lemma history_spawn key db db' r :
  store_inv db' -> history db db' -> queryAgentSpawnReceipt key db = Ok r ->
  exists r', queryAgentSpawnReceipt key db' = Ok r' /\ same_spawn r r'.
Proof.
  intros Hinv Hh (row & p & Hr & Hp & -> & _)%queryAgentSpawnReceipt_Ok.
  destruct (wh_spawns _ _ (hi_work _ _ Hh) _ _ Hr) as (row' & Hr' & Hrow).
  destruct (wh_principals _ _ (hi_work _ _ Hh) _ _ Hp) as (p' & Hp' & <-).
  pose proof (queryAgentSpawnReceipt_inv key db' (wo_spawns _ (st_work _ Hinv))) as Hq. rewrite Hr' in Hq. destruct Hq as (p' & Hp2 & Hq).
  exists (joined_receipt (spawn_key key) row' p'). split; [done|].
  destruct Hrow as [->|(Hpend & status & code & ts & ->)]; unfold spawn_principal in *; simpl in *; assert (p' = p) as -> by congruence; done.
Qed.

(** C7 Spawning is idempotent for ever: once a spawn has succeeded, then whatever calls
    follow (the target may have gone offline, been revoked or lost its readiness, the
    spawn may have started or failed, other agents may have been spawned), the receipt
    still names the same agent, task, workspace and number, and is unchanged if the
    spawn had ended; repeating the request returns the stored receipt and writes
    nothing, whatever agent id the retry drew; and the same spawn id with a different
    target, task, prompt or workspace is a conflict. *)
Theorem BeginAgentSpawn_idempotent intent at_ db receipt db1 db2 :
  reachable db -> BeginAgentSpawn intent at_ db = Ok (receipt, db1) -> rtc store_step db1 db2 ->
  exists stored, queryAgentSpawnReceipt (spawn_intent_key intent) db2 = Ok stored /\ same_spawn receipt stored /\
  (forall agentID at2, valid_id agentID -> 0 <= at2 ->
     BeginAgentSpawn (redrawn agentID intent) at2 db2 = Ok (stored, db2)) /\
  (forall other at2, validateAgentSpawnIntent other = Ok tt -> 0 <= at2 ->
     other.(si_Source) = intent.(si_Source) -> other.(si_SpawnID) = intent.(si_SpawnID) ->
     redrawn intent.(si_AgentID) other <> intent ->
     BeginAgentSpawn other at2 db2 = Err (Wrap "spawnId already identifies another request" ErrConflict)).
Proof.
  intros Hreach Hcall Hsteps. pose proof (reachable_inv _ Hreach) as Hinv.
  assert (keeps db db1) as Hk1.
  { replace db1 with (run_tx (BeginAgentSpawn intent at_) db).2 by (unfold run_tx; by rewrite Hcall).
    apply store_step_keeps, step_work, step_BeginAgentSpawn. }
  destruct (Hk1 Hinv) as [Hinv1 _]. destruct (store_steps_keep _ _ Hsteps Hinv1) as [Hinv2 Hh].
  apply BeginAgentSpawn_stands in Hcall as (Hv & Hq & Hm & p & Hp); [|apply Hinv..].
  destruct (history_spawn _ _ _ _ Hinv2 Hh Hq) as (stored & Hq2 & Hsame).
  pose proof (same_spawn_matches _ _ _ Hsame Hm) as Hm2. pose proof (history_authorized _ _ _ _ _ Hinv1 Hinv2 Hh Hp) as Hp2.
  exists stored. split_and!; [done|done| |].
  - intros agentID at2 Ha Hat. rewrite (BeginAgentSpawn_existing _ _ _ stored p); [|by apply redrawn_valid|done..].
    by rewrite decide_True.
  - intros other at2 Hov Hat Hsrc Hid Hne.
    assert (spawn_intent_key other = spawn_intent_key intent) as Hk by (unfold spawn_intent_key; by rewrite Hsrc, Hid).
    rewrite (BeginAgentSpawn_existing _ _ _ stored p); [|done|done|by rewrite Hsrc|by rewrite Hk].
    rewrite decide_False; [done|]. by eapply receiptMatchesIntent_other.
Qed.

(** The one credential with a given MAC. *)
Lemma queryCredentialByMAC_stored k r db :
  registry_inv db -> db.(credentials) !! k = Some r ->
  exists credential, queryCredentialByMAC r.(cr_token_mac) db = Ok credential /\ credential.(c_Disabled) = r.(cr_disabled).
Proof.
  intros Hinv Hk. unfold queryCredentialByMAC.
  rewrite (select_row_unique _ _ k r); [|intros k' r' Hk' Hm; eapply (ri_macs _ Hinv); eauto|done|done].
  destruct (ri_credentials _ Hinv _ _ Hk) as []. pose proof (ri_credentials _ Hinv _ _ Hk) as [cr Hcr]%is_ok_true.
  rewrite Hcr. cbn [result_bind]. unfold scanCredential in Hcr. go_inv. simpl.
  rewrite decide_False by tauto. eauto.
Qed.

(** C29 Revocation is final: once a credential is disabled, then whatever calls follow,
    its token neither authenticates nor registers a device again. *)
Theorem revoked_forever c d r db db1 db2 :
  reachable db -> db.(credentials) !! (c, d) = Some r -> DisableCredential c d db = Ok (tt, db1) -> rtc store_step db1 db2 ->
  AuthenticateCredential r.(cr_token_mac) db2 = Err ErrCredentialDisabled /\
  forall descriptor at_, DeviceDescriptor_Validate descriptor = Ok tt -> 0 <= at_ ->
    run_tx (RegisterAuthenticatedDevice r.(cr_token_mac) descriptor at_) db2 = (Err ErrCredentialDisabled, db2).
Proof.
  intros Hreach Hk Hd Hsteps. pose proof (reachable_inv _ Hreach) as Hinv.
  assert (keeps db db1) as Hk1.
  { replace db1 with (run_tx (DisableCredential c d) db).2 by (unfold run_tx; by rewrite Hd).
    apply store_step_keeps, step_work, step_DisableCredential. }
  destruct (Hk1 Hinv) as [Hinv1 _]. destruct (store_steps_keep _ _ Hsteps Hinv1) as [Hinv2 Hh].
  apply DisableCredential_effect in Hd as ((r0 & Hr0 & Hcr) & _ & _). assert (r0 = r) as -> by congruence.
  destruct (wh_credentials _ _ (hi_work _ _ Hh) (c, d) {| cr_token_mac := r.(cr_token_mac); cr_disabled := true;
    cr_issued_at := r.(cr_issued_at); cr_pending := false |}) as (r2 & Hr2 & Hm & Hdis & Hpend);
    [by rewrite Hcr, lookup_insert_eq|done|done|]. simpl in Hm.
  destruct (queryCredentialByMAC_stored _ _ _ (wo_registry _ (st_work _ Hinv2)) Hr2) as (cred & Hq & Hcd). rewrite Hm in Hq. split.
  - unfold AuthenticateCredential. rewrite Hq. cbn [result_bind]. rewrite decide_True; [done|]. left. congruence.
  - intros descriptor at_ Hv Hat. unfold run_tx, RegisterAuthenticatedDevice, registerDevice, tx_bind, tx_lift, tx_query, unixTime.
    rewrite Hv. rewrite decide_False by lia. unfold authenticate_registration. rewrite Hq. cbn [result_bind].
    rewrite decide_True; [done|]. left. congruence.
Qed.

(** C28 A superseded lease is dead: once a device has moved to a higher revision, then
    whatever calls follow, a heartbeat, an offline report, a lifecycle session or a
    lifecycle page under the old revision is rejected and changes nothing. *)
Theorem stale_lease_forever c d device rev db db' :
  reachable db -> queryDevice c d db = Ok device -> 0 < rev < device.(d_Revision) -> rtc store_step db db' ->
  valid_id c -> valid_id d ->
  (forall at_, 0 <= at_ -> run_tx (HeartbeatDevice c d rev at_) db' = (Err ErrStaleRevision, db')) /\
  (forall at_, 0 <= at_ -> run_tx (MarkDeviceOffline c d rev at_) db' = (Err ErrStaleRevision, db')) /\
  (forall session, session_key session = (c, d) -> session.(wl_LeaseRevision) = rev ->
     WorkerLifecycleSession_Validate session = Ok tt ->
     (forall n, n <= MaxInt64 -> run_tx (ClaimWorkerLifecycleSession {| wc_Session := session; wc_WorkerRevision := n |}) db' =
        (Err ErrWorkerLifecycleSessionFenced, db')) /\
     (forall page applied at_, page_applied_revision page = Ok applied -> 0 <= at_ ->
        run_tx (ApplyWorkerLifecyclePage {| wp_Session := session; wp_Page := page; wp_ObservedAt := at_ |}) db' =
          (Err ErrWorkerLifecycleSessionFenced, db'))).
Proof.
  intros Hreach Hq Hrev Hsteps Hc Hd. pose proof (reachable_inv _ Hreach) as Hinv.
  destruct (store_steps_keep _ _ Hsteps Hinv) as [Hinv' Hh].
  apply queryDevice_row in Hq as (r & Hr & Hs). apply scanDevice_fields in Hs as (_ & _ & _ & Er & _).
  destruct (wh_devices _ _ (hi_work _ _ Hh) _ _ Hr) as (r' & Hr' & Hle). unfold device_kept in Hle.
  pose proof (queryDevice_inv c d db' (wo_registry _ (st_work _ Hinv'))) as Hq'. rewrite Hr' in Hq'. destruct Hq' as (device' & Hq' & Hs').
  apply scanDevice_fields in Hs' as (_ & _ & _ & Er' & _).
  assert (device'.(d_Revision) <> rev) as Hne by lia.
  split_and!.
  1-2: intros at_ Hat; unfold HeartbeatDevice, MarkDeviceOffline, updateDevicePresence, run_tx, tx_bind, tx_lift, tx_query, unixTime;
    rewrite (proj2 (validateDeviceIdentity_Ok c d) (conj Hc Hd)); rewrite !(decide_False (P := rev = 0)) by lia;
    rewrite decide_False by lia; rewrite Hq'; by rewrite decide_True.
  intros session Hkey Hlease Hv. injection Hkey as Ec Ed.
  assert (verifyWorkerLifecycleLease session db' = Err ErrWorkerLifecycleSessionFenced) as Hf.
  { unfold verifyWorkerLifecycleLease. rewrite Ec, Ed, Hq', decide_True; [done|]. right. congruence. }
  split.
  - intros n Hn. unfold run_tx, ClaimWorkerLifecycleSession, tx_bind, tx_lift, tx_query. cbn [wc_Session wc_WorkerRevision].
    rewrite Hv. rewrite decide_False by lia. by rewrite Hf.
  - intros page applied at_ Hp Hat. unfold run_tx, ApplyWorkerLifecyclePage, tx_bind, tx_lift, tx_query, unixTime.
    cbn [wp_Session wp_Page wp_ObservedAt]. rewrite Hv, Hp. rewrite decide_False by lia. by rewrite Hf.
Qed.

(** C36 The activity feed misses nothing. A root that saw everything up to the
    highest number its tree had in a reachable state, and that after any further calls
    of the store reads on from there, with any legal page size, to the end: it gets
    finitely many pages, in the order of the numbers, each entry the current state of
    its agent; and every agent of the tree that is new, or whose phase or failure is
    not the one it had, is among them. *)
Theorem activity_feed_complete db0 db root lim kt0 tr0 :
  reachable db0 -> rtc store_step db0 db ->
  PrincipalIdentity_Validate root = Ok tt -> authorizeAgentOperationSource root db0 = Ok tt ->
  1 <= lim <= MaximumWorkerLifecyclePage ->
  let c := root.(pi_ControllerID) in
  let t := root.(pi_TreeID) in
  tree_row db0 c t = Some (kt0, tr0) ->
  exists feed,
    read_feed (S (size db.(agent_lifecycle_states))) root lim tr0.(tr_last_lifecycle_sequence) db = Ok feed /\
    StronglySorted (fun a b => a.(la_Sequence) < b.(la_Sequence)) feed /\
    (forall a, a ∈ feed -> exists r, db.(agent_lifecycle_states) !! (c, t, a.(la_AgentID)) = Some r /\
       a = activity_of (c, t, a.(la_AgentID)) r) /\
    (forall agent r, db.(agent_lifecycle_states) !! (c, t, agent) = Some r ->
       activity_of (c, t, agent) r ∈ feed \/
       exists r0, db0.(agent_lifecycle_states) !! (c, t, agent) = Some r0 /\
         r0.(lc_phase) = r.(lc_phase) /\ r0.(lc_failure_code) = r.(lc_failure_code)).
Proof.
  intros Hreach Hsteps Hv Hroot Hlim c t Hrow. pose proof (reachable_inv _ Hreach) as Hinv.
  destruct (store_steps_keep _ _ Hsteps Hinv) as [Hinv' Hh]. destruct kt0 as [c0 th].
  pose proof (tree_row_Some _ _ _ _ _ Hrow) as (Hk & Hc & Hid). simpl in Hc. subst c0.
  destruct (le_trees _ _ (wh_lifecycle _ _ (hi_work _ _ Hh)) _ _ Hk) as (tr' & Hk' & Hid' & _).
  apply (feed_misses_nothing db0 db root lim (c, th) tr0 (c, th) tr'); [apply Hinv|apply Hinv'|apply Hinv'|apply Hh|done| |done|done|].
  - by apply (history_source _ db0).
  - apply tree_row_unique; [apply Hinv'|exact Hk'|]. by rewrite Hid'.
Qed.

(** ** Results and counters *)

(** A package the delivery machine has numbered is a delivered package. *)
Lemma numbered_row db k n digest :
  result_inv db ->
  numbered (delivery_of db) k n = Some digest <->
  exists r, db.(result_packages) !! k = Some r /\ r.(rk_state) = ResultPackageDelivered /\ r.(rk_result_sequence) = n /\
    r.(rk_manifest_sha256) = digest.
Proof.
  intros Hi. unfold numbered, delivery_of. simpl. rewrite lookup_fmap. destruct (_ !! k) as [r|] eqn:E; simpl; [|naive_solver].
  assert (phase_number (phase_of r) = if decide (r.(rk_state) = ResultPackageDeliveryPending) then None else Some r.(rk_result_sequence)) as ->
    by (unfold phase_of; repeat case_decide; done).
  destruct (package_states _ _ (proj1 (ri_rows _ Hi _ _ E))) as [(Hs & _)|(Hs & _)].
  - rewrite (decide_True (P := _ = ResultPackageDeliveryPending)) by done. rewrite decide_False by done. split; [done|]. intros (r' & [= <-] & Hs' & _). by rewrite Hs in Hs'.
  - rewrite (decide_False (P := _ = ResultPackageDeliveryPending)) by (by rewrite Hs). split.
    + case_decide; [|done]. intros [= <-]. exists r. split_and!; [done|done|congruence|done].
    + intros (r' & [= <-] & _ & -> & ->). by rewrite decide_True.
Qed.

Lemma delivery_of_unique db : trees_inv db -> tree_ids_unique (delivery_of db).
Proof.
  intros Ht c th th' t n n'. simpl. rewrite !lookup_fmap. destruct (_ !! (c, th)) as [tr|] eqn:E; [|done].
  destruct (_ !! (c, th')) as [tr'|] eqn:E'; [|done]. intros [= H1 _] [= H2 _].
  enough ((c, th) = (c, th')) by congruence. eapply (ti_unique _ Ht); [exact E|exact E'|done|congruence].
Qed.

(** C12 Result numbers are final: once a tree has given out its numbers up to the last
    one, then whatever calls follow (deliveries, compaction and new publications
    included), the tree is still there, its last number has not fallen, and every
    package shown under one of those numbers is the one that had it, with the same
    manifest. So a root that has read up to the last number has missed nothing and
    will be shown nothing else under these numbers. *)
Theorem result_numbers_forever db db' c t kt tr :
  reachable db -> rtc store_step db db' -> tree_row db c t = Some (kt, tr) ->
  (exists tr', tree_row db' c t = Some (kt, tr') /\ tr.(tr_last_result_sequence) <= tr'.(tr_last_result_sequence)) /\
  forall id record, queryResultPackageByID c t id db' = Ok record -> record.(rpr_State) = ResultPackageDelivered ->
    record.(rpr_Sequence) <= tr.(tr_last_result_sequence) ->
    exists earlier, queryResultPackageByID c t id db = Ok earlier /\ earlier.(rpr_State) = ResultPackageDelivered /\
      earlier.(rpr_Sequence) = record.(rpr_Sequence) /\
      earlier.(rpr_Metadata).(rpm_ManifestDescriptor).(rd_SHA256) = record.(rpr_Metadata).(rpm_ManifestDescriptor).(rd_SHA256).
Proof.
  intros Hreach Hsteps Htr. pose proof (reachable_inv _ Hreach) as Hinv. destruct (store_steps_keep _ _ Hsteps Hinv) as [Hinv' Hh].
  pose proof (wo_trees _ (st_work _ Hinv)) as Ht. pose proof (wo_trees _ (st_work _ Hinv')) as Ht'.
  apply tree_row_Some in Htr as (Hk & Hkc & Hkt). destruct kt as [c0 th]. simpl in Hkc. subst c0.
  destruct (nk_kept _ _ (delivery_numbers_kept _ _ (delivery_of_unique _ Ht) (hi_results _ _ Hh)) c th t tr.(tr_last_result_sequence))
    as (n' & Hn' & Hle & Hnum); [simpl; by rewrite lookup_fmap, Hk; simpl; rewrite Hkt|].
  split.
  - simpl in Hn'. rewrite lookup_fmap in Hn'. destruct (db'.(trees) !! (c, th)) as [tr'|] eqn:E; [|done]. injection Hn' as Hid <-.
    exists tr'. split; [by apply tree_row_unique|done].
  - intros id record Hq Hst Hseq. apply queryResultPackageByID_Ok in Hq as (r & p & kt & tr' & m & Hr & ->); [|done|apply Hinv'].
    simpl in Hst, Hseq. pose proof (Hnum id r.(rk_result_sequence) r.(rk_manifest_sha256) Hseq) as Hold.
    rewrite !numbered_row in Hold by (apply Hinv || apply Hinv').
    destruct Hold as (r0 & Hr0 & Hst0 & Hseq0 & Hsha0); [exists r; split_and!; [apply Hr|done|done|done]|].
    destruct (stored_package_read _ _ _ (st_results _ Hinv) Hr0) as (p0 & kt0 & tr0 & m0 & Hread).
    eexists. split; [by apply (queryResultPackageByID_Some _ _ _ _ _ _ _ _ _ Ht Hread)|]. done.
Qed.

(** C27 The status page balances: in every reachable state a snapshot of a valid
    controller succeeds, and what it shows fits together. The dispatches started
    over its lifetime are the spawns that started, and the turns include them. The
    results delivered over its lifetime, with the ones still pending, are the details
    retained with the details compacted: none is lost and none is counted twice. No
    result is released before it is acknowledged or acknowledged before it is
    delivered. The workers of the devices that are in sync, counted without repetition
    in chunks of 128 identifiers, are the ones one query over all of them would count. *)
Theorem status_snapshot_balances db c ids :
  reachable db -> valid_id c -> Forall (fun d => valid_id d) ids ->
  exists s, ReadStatusSnapshot c ids db = Ok s /\ snapshot_balances s /\ s.(ss_Workers) = worker_counts c ids db.
Proof.
  intros Hreach Hc Hids. pose proof (reachable_inv _ Hreach) as Hinv.
  by apply ReadStatusSnapshot_balances; [apply Hinv|apply Hinv|..].
Qed.

(** The upgrade preflight: for a valid controller the blockers are read without
    error, and they are empty exactly when the controller is drained: no worker is
    occupied, no spawn or operation is pending, every workspace is prepared, and every
    result is delivered and released by its source. The status page of a drained
    controller then shows that nothing is pending and all that was delivered is
    released. *)
Theorem upgrade_waits_for_drain db c :
  reachable db -> valid_id c ->
  exists b, ReadBrokerUpgradeBlockers c db = Ok b /\ (UpgradeBlockers_Empty b = true <-> drained c db) /\
    (UpgradeBlockers_Empty b = true -> forall ids s, ReadStatusSnapshot c ids db = Ok s ->
       s.(ss_Results).(sr_DeliveryPending) = 0 /\ s.(ss_Results).(sr_SourceReleased) = s.(ss_Results).(sr_Delivered) /\
       s.(ss_Dispatches).(sdc_Pending) = 0).
Proof.
  intros Hreach Hc. pose proof (reachable_inv _ Hreach) as Hinv.
  destruct (ReadBrokerUpgradeBlockers c db) as [b|e] eqn:E; [|unfold ReadBrokerUpgradeBlockers in E; by rewrite Hc in E].
  exists b. pose proof (ReadBrokerUpgradeBlockers_empty _ _ _ E) as Hiff. split_and!; [done|done|].
  intros Hempty ids s Hs. apply (drained_results c ids db s); [apply Hinv|apply Hinv|by apply Hiff|done].
Qed.

(** ** A run of the store *)

Lemma tree_db_reachable : reachable tree_db.
Proof.
  eapply rtc_l; [exact (step_work _ _ (step_CreateCredential _ sample_credential))|].
  eapply rtc_l; [exact (step_work _ _ (step_RegisterAuthenticatedDevice _ sample_mac sample_descriptor 100))|].
  apply rtc_once.
  apply step_work, step_EnsureRootTree; apply ok_valid; vm_compute; reflexivity.
Qed.

Lemma prepared_steps : rtc store_step tree_db prepared_db.
Proof.
  eapply rtc_l; [exact (step_work _ _ (step_BeginWorkspaceSync _ sample_intent 130))|].
  eapply rtc_l; [exact (step_work _ _ (step_PinWorkspaceSyncManifest _ sample_key (sample_manifest "cmd") 140))|].
  apply rtc_once. exact (step_work _ _ (step_FinishWorkspaceSync _ sample_key sample_summary 150)).
Qed.

Lemma started_steps : rtc store_step prepared_db started_db.
Proof.
  eapply rtc_l; [exact (step_work _ _ (step_BeginAgentSpawn _ first_spawn 160))|].
  apply rtc_once. exact (step_work _ _ (step_MarkAgentSpawnStarted _ first_key 170)).
Qed.

Lemma steps_trans {db1 db2 db3} : rtc store_step db1 db2 -> rtc store_step db2 db3 -> rtc store_step db1 db3.
Proof. apply transitivity. Qed.

Lemma started_db_reachable : reachable started_db.
Proof. exact (steps_trans tree_db_reachable (steps_trans prepared_steps started_steps)). Qed.

Lemma reserved_steps : rtc store_step started_db reserved_db.
Proof.
  eapply rtc_l; [exact (step_work _ _ (step_ClaimWorkerLifecycleSession _ sample_claim))|].
  apply rtc_once. exact (step_work _ _ (step_ApplyWorkerLifecyclePage _ (sample_page 0 WorkerLifecycleReserved))).
Qed.

Lemma starting_steps : rtc store_step started_db starting_db.
Proof.
  refine (steps_trans reserved_steps (rtc_once _ _ _)).
  exact (step_work _ _ (step_ApplyWorkerLifecyclePage _ (sample_page 3 WorkerLifecycleStarting))).
Qed.

Lemma reachable_store_is_sound_witness : store_inv starting_db.
Proof.
  apply reachable_store_is_sound. exact (steps_trans started_db_reachable starting_steps).
Defined.

(** The first spawn has started: its receipt is the same in a later state. *)
Lemma settled_stays_settled_witness :
  exists r, queryAgentSpawnReceipt first_key started_db = Ok r /\ queryAgentSpawnReceipt first_key starting_db = Ok r.
Proof.
  destruct (queryAgentSpawnReceipt first_key started_db) as [r|e] eqn:E; [|exfalso; vm_compute in E; discriminate].
  exists r. split; [reflexivity|].
  apply (proj1 (settled_stays_settled started_db starting_db started_db_reachable starting_steps)); [exact E|].
  intros H. assert (result_bind (queryAgentSpawnReceipt first_key started_db)
    (fun r => Ok (as_SpawnStatus (asr_Agent r))) = Ok AgentSpawnPending) as Hc by (rewrite E; cbn [result_bind]; by rewrite H).
  revert Hc. vm_compute. discriminate.
Defined.

(** The root of the run had read up to number 1; since then its agent was reserved and
    then began to start. *)
Lemma activity_feed_complete_witness :
  exists feed, read_feed (S (size starting_db.(agent_lifecycle_states))) sample_source 5 1 starting_db = Ok feed /\
    length feed = 1%nat.
Proof.
  assert (exists kt0 tr0, tree_row reserved_db sample_controller sample_tree = Some (kt0, tr0) /\
    tr0.(tr_last_lifecycle_sequence) = 1) as (kt0 & tr0 & H0 & E0)
    by (do 2 eexists; split; [vm_compute; reflexivity|reflexivity]).
  destruct (activity_feed_complete reserved_db starting_db sample_source 5 kt0 tr0 (steps_trans started_db_reachable reserved_steps)
    (rtc_once _ _ (step_work _ _ (step_ApplyWorkerLifecyclePage _ (sample_page 3 WorkerLifecycleStarting)))))
    as (feed & Hfeed & _); [vm_compute; reflexivity|vm_compute; reflexivity|unfold MaximumWorkerLifecyclePage; lia|exact H0|].
  rewrite E0 in Hfeed. exists feed. split; [exact Hfeed|].
  assert (match read_feed (S (size starting_db.(agent_lifecycle_states))) sample_source 5 1 starting_db with
    | Ok l => length l | Err _ => 0%nat end = 1%nat) as Hlen by (vm_compute; reflexivity).
  rewrite Hfeed in Hlen. exact Hlen.
Defined.

(** The target goes offline after the first spawn has started; the repeated request
    still returns the receipt. *)
Definition offline_db : DB := (run_tx (MarkDeviceOffline sample_controller sample_device 1 400) starting_db).2.

Lemma BeginAgentSpawn_idempotent_witness :
  (exists d, queryDevice sample_controller sample_device offline_db = Ok d /\ d.(d_Online) = false) /\
  exists r, BeginAgentSpawn (redrawn "cccccccc-cccc-4ccc-8ccc-cccccccccccc" first_spawn) 999 offline_db = Ok (r, offline_db).
Proof.
  split.
  - destruct (queryDevice sample_controller sample_device offline_db) as [d|e] eqn:E; [|exfalso; vm_compute in E; discriminate].
    exists d. split; [reflexivity|]. assert (result_bind (queryDevice sample_controller sample_device offline_db) (fun d => Ok (d_Online d)) = Ok false) as Ho
      by (vm_compute; reflexivity). rewrite E in Ho. by injection Ho.
  - destruct spawn_db_eq as [r H].
    assert (rtc store_step spawn_db offline_db) as Hsteps.
    { eapply rtc_l; [exact (step_work _ _ (step_MarkAgentSpawnStarted _ first_key 170))|].
      refine (steps_trans starting_steps (rtc_once _ _ _)).
      exact (step_work _ _ (step_MarkDeviceOffline _ sample_controller sample_device 1 400)). }
    destruct (BeginAgentSpawn_idempotent _ _ _ _ _ _ (steps_trans tree_db_reachable prepared_steps) H Hsteps) as (stored & _ & _ & Hretry & _).
    exists stored. apply Hretry; [vm_compute; reflexivity|lia].
Defined.

(** The device of the run is revoked after its registration. *)
Lemma revoked_forever_witness :
  AuthenticateCredential sample_mac (run_tx (DisableCredential sample_controller sample_device) starting_db).2 =
    Err ErrCredentialDisabled.
Proof.
  destruct (credentials starting_db !! (sample_controller, sample_device)) as [r|] eqn:E;
    [|exfalso; vm_compute in E; discriminate].
  assert (cr_token_mac <$> (credentials starting_db !! (sample_controller, sample_device)) = Some sample_mac) as Hm
    by (vm_compute; reflexivity).
  rewrite E in Hm. injection Hm as Hm. rewrite <- Hm.
  assert (DisableCredential sample_controller sample_device starting_db =
    Ok (tt, (run_tx (DisableCredential sample_controller sample_device) starting_db).2)) as Hd
    by (apply run_tx_value; vm_compute; reflexivity).
  exact (proj1 (revoked_forever sample_controller sample_device r starting_db _ _
    (steps_trans started_db_reachable starting_steps) E Hd (rtc_refl _ _))).
Defined.

(** Registering again moves the device of the run to the next revision; heartbeats
    under the first lease are then rejected. *)
Lemma stale_lease_forever_witness :
  let db := (run_tx (RegisterAuthenticatedDevice sample_mac sample_descriptor 200) tree_db).2 in
  run_tx (HeartbeatDevice sample_controller sample_device 1 300) db = (Err ErrStaleRevision, db).
Proof.
  intros db. destruct (queryDevice sample_controller sample_device db) as [device|e] eqn:E;
    [|exfalso; vm_compute in E; discriminate].
  assert (result_bind (queryDevice sample_controller sample_device db) (fun d => Ok (d_Revision d)) = Ok 2) as Hr
    by (vm_compute; reflexivity).
  rewrite E in Hr. injection Hr as Hr.
  assert (reachable db) as Hreach
    by (eapply rtc_r; [apply tree_db_reachable|]; apply step_work, step_RegisterAuthenticatedDevice).
  assert (0 < 1 < d_Revision device) as Hlt by lia.
  assert (valid_id sample_controller) as Hc by (vm_compute; reflexivity).
  assert (valid_id sample_device) as Hd by (vm_compute; reflexivity).
  assert (0 <= 300) as Hat by lia.
  exact (proj1 (stale_lease_forever sample_controller sample_device device 1 db db Hreach E Hlt
    (rtc_refl _ _) Hc Hd) 300 Hat).
Defined.

(** The worker of the run finishes its turn; its result is published, delivered,
    acknowledged and released. *)
Lemma delivered_db_reachable : reachable delivered_db.
Proof.
  refine (steps_trans started_db_reachable _).
  eapply rtc_l; [exact (step_work _ _ (step_ClaimWorkerLifecycleSession _ sample_claim))|].
  eapply rtc_l; [exact (step_work _ _ (step_ApplyWorkerLifecyclePage _ (sample_page 0 WorkerLifecycleReserved)))|].
  eapply rtc_l; [exact (step_work _ _ (step_ApplyWorkerLifecyclePage _ finalizing_page))|].
  eapply rtc_l; [exact (step_PublishResultPackage _ sample_device sample_worker (worker_package 300) 320)|].
  apply rtc_once. exact (step_MarkResultPackageDelivered _ sample_device sample_source sample_package 7 330).
Qed.

Lemma released_steps : rtc store_step delivered_db released_db.
Proof.
  eapply rtc_l; [exact (step_MarkResultPackageSourceAcknowledged _ sample_device sample_worker sample_package 340)|].
  apply rtc_once. exact (step_MarkResultPackageSourceReleased _ sample_device sample_worker sample_package 350).
Qed.

Lemma released_db_reachable : reachable released_db.
Proof. exact (steps_trans delivered_db_reachable released_steps). Qed.

Lemma released_record : exists record,
  queryResultPackageByID sample_controller sample_tree sample_package released_db = Ok record /\
  record.(rpr_State) = ResultPackageDelivered /\ record.(rpr_Sequence) = 1.
Proof.
  assert (result_bind (queryResultPackageByID sample_controller sample_tree sample_package released_db)
    (fun r => Ok (rpr_State r, rpr_Sequence r)) = Ok (ResultPackageDelivered, 1)) as Hr by (vm_compute; reflexivity).
  apply result_bind_Ok in Hr as (record & Hq & [= Hst Hseq]). exists record. exact (conj Hq (conj Hst Hseq)).
Qed.

Lemma delivered_tree : exists kt tr, tree_row delivered_db sample_controller sample_tree = Some (kt, tr) /\ tr.(tr_last_result_sequence) = 1.
Proof.
  assert ((fun x => tr_last_result_sequence x.2) <$> tree_row delivered_db sample_controller sample_tree = Some 1) as Hn by (vm_compute; reflexivity).
  apply fmap_Some in Hn as ([kt tr] & Ht & Hn). exists kt, tr. exact (conj Ht (eq_sym Hn)).
Qed.

(** The number the result of the run has after its release is the one the root saw at
    its delivery. *)
Lemma result_numbers_forever_witness : exists record earlier,
  queryResultPackageByID sample_controller sample_tree sample_package released_db = Ok record /\
  queryResultPackageByID sample_controller sample_tree sample_package delivered_db = Ok earlier /\
  earlier.(rpr_Sequence) = record.(rpr_Sequence).
Proof.
  destruct released_record as (record & E & Hst & Hseq). destruct delivered_tree as (kt & tr & Et & Hn).
  destruct (proj2 (result_numbers_forever delivered_db released_db sample_controller sample_tree kt tr delivered_db_reachable
    released_steps Et) sample_package record E Hst) as (earlier & He & _ & Hs & _); [rewrite Hn, Hseq; lia|].
  exists record, earlier. exact (conj E (conj He Hs)).
Defined.

Lemma status_snapshot_balances_witness : exists s,
  ReadStatusSnapshot sample_controller [sample_device; sample_device] released_db = Ok s /\ snapshot_balances s.
Proof.
  assert (valid_id sample_controller) as Hc by (vm_compute; reflexivity).
  assert (valid_id sample_device) as Hd by (vm_compute; reflexivity).
  destruct (status_snapshot_balances released_db sample_controller [sample_device; sample_device] released_db_reachable Hc) as (s & Hs & Hb & _);
    [by repeat constructor|]. exists s. exact (conj Hs Hb).
Defined.

Lemma upgrade_waits_for_drain_witness : exists b,
  ReadBrokerUpgradeBlockers sample_controller released_db = Ok b /\ (UpgradeBlockers_Empty b = true <-> drained sample_controller released_db).
Proof.
  assert (valid_id sample_controller) as Hc by (vm_compute; reflexivity).
  destruct (upgrade_waits_for_drain released_db sample_controller released_db_reachable Hc) as (b & Hb & Hiff & _).
  exists b. exact (conj Hb Hiff).
Defined.
