(* ===== verification/Envelope.v ===== *)
(** internal/protocol/protocol.go, agent_wait.go and the request parameters of mailbox.go,
    agent_operation.go and worker_readiness.go: the envelope every message travels in, the
    hello of a peer, and what a request carries. *)

From S2P Require Export Broker.

(** ** Envelopes *)

(* go: internal/protocol/protocol.go:18-22 Version *)
Definition Version : Z := 7.
Definition MaxMessageSize : Z := 256 * 1024.
Definition MaxErrorDataSize : Z := 1024.

(* go: internal/protocol/protocol.go:24-30 Kind *)
Definition KindRequest : string := "request".
Definition KindResponse : string := "response".
Definition KindNotification : string := "notification".

(* go: internal/protocol/protocol.go:32-38 RequestDirection *)
Definition DirectionBroker : string := "b".
Definition DirectionConnector : string := "c".
Definition DirectionLocal : string := "l".

(** Raw JSON is its text; [""] is the absent value. *)
(* go: internal/protocol/protocol.go Error *)
Record RpcError := { re_Code : Z; re_Message : string; re_Data : string }.

(* go: internal/protocol/protocol.go Envelope *)
Record Envelope := {
  ev_ProtocolVersion : Z;
  ev_Kind : string;
  ev_RequestID : string;
  ev_ReplyTo : string;
  ev_Method : string;
  ev_ControllerID : string;
  ev_TreeID : string;
  ev_Source : option PrincipalIdentity;
  ev_Sequence : Z;
  ev_Cursor : Z;
  ev_Payload : string;
  ev_Error : option RpcError;
}.

(* go: internal/protocol/protocol.go:61-72 ErrorParse *)
Definition ErrorParse : Z := -32700.
Definition ErrorInvalidRequest : Z := -32600.
Definition ErrorMethodNotFound : Z := -32601.
Definition ErrorInvalidParams : Z := -32602.
Definition ErrorInternal : Z := -32603.
Definition ErrorUnauthenticated : Z := -32001.
Definition ErrorForbidden : Z := -32003.
Definition ErrorNotFound : Z := -32004.
Definition ErrorConflictCode : Z := -32009.
Definition ErrorUnavailable : Z := -32010.

(* go: internal/protocol/protocol.go validateRequestID *)
Definition validateRequestID (value : string) : result unit :=
  reject (New "must contain a direction prefix and UUID")
    when (len value <> 38 \/ bytes value !! 1%nat <> Some 95) in
  reject (New "has an unsupported direction prefix")
    when (String.substring 0 1 value ∉ [DirectionBroker; DirectionConnector; DirectionLocal]) in
  ValidateID (String.substring 2 36 value).

(** [id] is what [identity.NewID] returns. *)
(* go: internal/protocol/protocol.go NewRequestID *)
Definition NewRequestID (direction : string) (id : result string) : result string :=
  reject (New "unsupported request direction %q")
    when (direction ∉ [DirectionBroker; DirectionConnector; DirectionLocal]) in
  let? id := id in
  Ok (direction +:+ "_" +:+ id).

(* go: internal/protocol/protocol.go:122-124 CancelRequestParams *)
Record CancelRequestParams := { crp_RequestID : string }.

(* go: internal/protocol/protocol.go CancelRequestParams.Validate *)
Definition CancelRequestParams_Validate (p : CancelRequestParams) : result unit :=
  do? wrap "requestId" (validateRequestID p.(crp_RequestID)) in
  reject (New "requestId must identify a connector request")
    when (HasPrefix p.(crp_RequestID) (DirectionConnector +:+ "_") = false) in
  Ok tt.

(* go: internal/protocol/protocol.go:152-152 methodPattern *)
Definition methodPattern (s : string) : bool := pattern is_lower (fun b => is_lower b || is_digit b || (b =? 95) || (b =? 46)) 63 s.

(* go: internal/protocol/protocol.go Error.Validate *)
Definition RpcError_Validate (e : RpcError) : result unit :=
  reject (New "unsupported protocol error code %d")
    when (e.(re_Code) ∉ [ErrorParse; ErrorInvalidRequest; ErrorMethodNotFound; ErrorInvalidParams; ErrorInternal;
                         ErrorUnauthenticated; ErrorForbidden; ErrorNotFound; ErrorConflictCode; ErrorUnavailable] /\
          (e.(re_Code) < -32099 \/ e.(re_Code) > -32000)) in
  reject (New "protocol error message must contain 1 through 512 bytes")
    when (is_blank e.(re_Message) = true \/ len e.(re_Message) > 512) in
  reject (New "protocol error data exceeds %d bytes") when (len e.(re_Data) > MaxErrorDataSize) in
  reject (New "protocol error data must be valid JSON") when (len e.(re_Data) <> 0 /\ json_parse e.(re_Data) = None) in
  Ok tt.

(** The principal of an envelope belongs to its controller and its tree. *)
(* go: internal/protocol/protocol.go:182-192 Envelope.Validate *)
Definition validate_source (e : Envelope) : result unit :=
  match e.(ev_Source) with
  | None => Ok tt
  | Some source =>
      do? wrap "source" (PrincipalIdentity_Validate source) in
      reject (New "source controllerId does not match envelope") when (source.(pi_ControllerID) <> e.(ev_ControllerID)) in
      reject (New "source treeId does not match envelope") when (e.(ev_TreeID) = "" \/ source.(pi_TreeID) <> e.(ev_TreeID)) in
      Ok tt
  end.

(* go: internal/protocol/protocol.go Envelope.Validate *)
Definition Envelope_Validate (e : Envelope) : result unit :=
  reject (New "unsupported protocol version %d") when (e.(ev_ProtocolVersion) <> Version) in
  do? wrap "requestId" (validateRequestID e.(ev_RequestID)) in
  do? wrap "controllerId" (ValidateID e.(ev_ControllerID)) in
  do? validate_optional_id "treeId" e.(ev_TreeID) in
  do? validate_source e in
  if decide (e.(ev_Kind) = KindRequest) then
    reject (New "request must not contain replyTo or error") when (e.(ev_ReplyTo) <> "" \/ is_Some e.(ev_Error)) in
    reject (New "request method is invalid") when (methodPattern e.(ev_Method) = false) in
    Ok tt
  else if decide (e.(ev_Kind) = KindResponse) then
    do? wrap "replyTo" (validateRequestID e.(ev_ReplyTo)) in
    reject (New "response must not contain method") when (e.(ev_Method) <> "") in
    match e.(ev_Error) with
    | None => Ok tt
    | Some error =>
        reject (New "response must not contain both payload and error") when (len e.(ev_Payload) <> 0) in
        RpcError_Validate error
    end
  else if decide (e.(ev_Kind) = KindNotification) then
    reject (New "notification must not contain replyTo or error") when (e.(ev_ReplyTo) <> "" \/ is_Some e.(ev_Error)) in
    reject (New "notification method is invalid") when (methodPattern e.(ev_Method) = false) in
    Ok tt
  else Err (New "unsupported envelope kind %q").

(** ** Hello *)

(* go: internal/protocol/protocol.go Hello *)
Record Hello := {
  hl_ControllerID : string;
  hl_DeviceID : string;
  hl_DeviceName : string;
  hl_HostKind : string;
  hl_OS : string;
  hl_Arch : string;
  hl_RuntimeVersion : string;
  hl_Features : list string;
  hl_Cursor : Z;
  hl_WorkerBaselineRevision : Z;
  hl_WorkerRevision : Z;
  hl_WorkerReadiness : WorkerReadiness;
}.

(* go: internal/protocol/protocol.go Hello.Descriptor *)
Definition Hello_Descriptor (h : Hello) : DeviceDescriptor := {|
  dd_ControllerID := h.(hl_ControllerID); dd_DeviceID := h.(hl_DeviceID); dd_Name := h.(hl_DeviceName); dd_OS := h.(hl_OS);
  dd_Arch := h.(hl_Arch); dd_RuntimeVersion := h.(hl_RuntimeVersion); dd_ProtocolVersion := Version; dd_Features := h.(hl_Features) |}.

(* go: internal/protocol/protocol.go Hello.Validate *)
Definition Hello_Validate (h : Hello) : result unit :=
  do? Kind_Validate h.(hl_HostKind) in
  do? DeviceDescriptor_Validate (Hello_Descriptor h) in
  reject (New "workerBaselineRevision exceeds workerRevision") when (h.(hl_WorkerBaselineRevision) > h.(hl_WorkerRevision)) in
  reject (New "workerRevision exceeds the supported range") when (h.(hl_WorkerRevision) > MaxInt64) in
  WorkerReadiness_Validate h.(hl_WorkerReadiness).

(** ** Requests *)

(* go: internal/protocol/protocol.go EnsureRootTreeParams *)
Record EnsureRootTreeParams := { ert_ExternalThreadID : string }.

(* go: internal/protocol/protocol.go EnsureRootTreeParams.Validate *)
Definition EnsureRootTreeParams_Validate (p : EnsureRootTreeParams) : result unit :=
  wrap "externalThreadId" (ValidateID p.(ert_ExternalThreadID)).

(* go: internal/protocol/protocol.go ListDevicesParams *)
Record ListDevicesParams := { ldp_AfterDeviceID : string; ldp_Limit : Z; ldp_ExpectedRevision : option Z }.

(* go: internal/protocol/protocol.go ListDevicesParams.Validate *)
Definition ListDevicesParams_Validate (maximumLimit : Z) (p : ListDevicesParams) : result unit :=
  do? (if decide (p.(ldp_AfterDeviceID) <> "") then
         do? wrap "afterDeviceId" (ValidateID p.(ldp_AfterDeviceID)) in
         reject (New "afterDeviceId requires expectedRevision") when (p.(ldp_ExpectedRevision) = None) in Ok tt
       else Ok tt) in
  reject (New "limit must be from 1 through %d") when (p.(ldp_Limit) < 1 \/ p.(ldp_Limit) > maximumLimit) in
  Ok tt.

(* go: internal/protocol/protocol.go DescribeDeviceParams *)
Record DescribeDeviceParams := { ddp_DeviceID : string }.

(* go: internal/protocol/protocol.go DescribeDeviceParams.Validate *)
Definition DescribeDeviceParams_Validate (p : DescribeDeviceParams) : result unit := wrap "deviceId" (ValidateID p.(ddp_DeviceID)).

(* go: internal/protocol/mailbox.go SendMessageParams *)
Record SendMessageParams := { smp_MessageID : string; smp_Target : MessageTarget; smp_Message : string }.

(* go: internal/protocol/mailbox.go SendMessageParams.Validate *)
Definition SendMessageParams_Validate (p : SendMessageParams) : result unit :=
  do? wrap "messageId" (ValidateID p.(smp_MessageID)) in
  do? MessageTarget_Validate p.(smp_Target) in
  ValidateMailboxMessage p.(smp_Message).

(* go: internal/protocol/mailbox.go SendMessageResult *)
Record SendMessageResult := { smr_MessageID : string; smr_Sequence : Z }.

(* go: internal/protocol/mailbox.go WaitMailboxParams *)
Record WaitMailboxParams := { wmp_Cursor : Z; wmp_TimeoutMillis : Z; wmp_Limit : Z }.

(* go: internal/protocol/mailbox.go WaitMailboxParams.Validate *)
Definition WaitMailboxParams_Validate (p : WaitMailboxParams) : result unit :=
  reject (New "mailbox cursor exceeds the supported range") when (p.(wmp_Cursor) > MaxInt64) in
  reject (New "timeoutMillis must be from 0 through %d")
    when (p.(wmp_TimeoutMillis) < 0 \/ p.(wmp_TimeoutMillis) > MaximumMailboxWaitMillis) in
  reject (New "limit must be from 1 through %d") when (p.(wmp_Limit) < 1 \/ p.(wmp_Limit) > MaximumMailboxPage) in
  Ok tt.

(* go: internal/protocol/agent_operation.go validateSendOperation *)
Definition validateSendOperation (agentID messageID message : string) : result unit :=
  do? wrap "agentId" (ValidateID agentID) in
  do? wrap "messageId" (ValidateID messageID) in
  ValidateMailboxMessage message.

(** The parameters of the three operations of a root and of the calls they make on the
    worker's peer, which have the same fields. *)
(* go: internal/protocol/agent_operation.go SendAgentParams *)
Record SendAgentParams := { sgp_AgentID : string; sgp_MessageID : string; sgp_Message : string }.

(* go: internal/protocol/agent_operation.go SendAgentParams.Validate *)
Definition SendAgentParams_Validate (p : SendAgentParams) : result unit :=
  validateSendOperation p.(sgp_AgentID) p.(sgp_MessageID) p.(sgp_Message).

(* go: internal/protocol/agent_operation.go FollowupAgentParams *)
Record FollowupAgentParams := { fap_OperationID : string; fap_AgentID : string; fap_Message : string }.

(* go: internal/protocol/agent_operation.go FollowupAgentParams.Validate *)
Definition FollowupAgentParams_Validate (p : FollowupAgentParams) : result unit :=
  do? validateAgentOperationTarget p.(fap_OperationID) p.(fap_AgentID) in
  ValidateAgentMessage p.(fap_Message).

(* go: internal/protocol/agent_operation.go InterruptAgentParams *)
Record InterruptAgentParams := { iap_OperationID : string; iap_AgentID : string }.

(* go: internal/protocol/agent_operation.go InterruptAgentParams.Validate *)
Definition InterruptAgentParams_Validate (p : InterruptAgentParams) : result unit :=
  validateAgentOperationTarget p.(iap_OperationID) p.(iap_AgentID).

(** ** Waiting for agents *)

(* go: internal/protocol/agent_wait.go:11-18 MaximumAgentWaitMessages *)
Definition MaximumAgentWaitMessages : Z := 2.
Definition MaximumAgentWaitActivities : Z := 16.
Definition MaximumAgentWaitResults : Z := 1.
Definition MaximumAgentWaitMillis : Z := 25000.

(* go: internal/protocol/agent_wait.go WaitAgentParams *)
Record WaitAgentParams := {
  wap_MailboxCursor : Z;
  wap_LifecycleCursor : Z;
  wap_ArtifactCursor : Z;
  wap_ResultCursor : Z;
  wap_TimeoutMillis : Z;
  wap_MessageLimit : Z;
  wap_ActivityLimit : Z;
  wap_ArtifactLimit : Z;
  wap_ResultLimit : Z;
}.

(* go: internal/protocol/agent_wait.go WaitAgentParams.Validate *)
Definition WaitAgentParams_Validate (p : WaitAgentParams) : result unit :=
  reject (New "agent wait cursor exceeds the supported range")
    when (p.(wap_MailboxCursor) > MaxInt64 \/ p.(wap_LifecycleCursor) > MaxInt64 \/
          p.(wap_ArtifactCursor) > MaxInt64 \/ p.(wap_ResultCursor) > MaxInt64) in
  reject (New "timeoutMillis must be from 0 through %d")
    when (p.(wap_TimeoutMillis) < 0 \/ p.(wap_TimeoutMillis) > MaximumAgentWaitMillis) in
  reject (New "messageLimit must be from 1 through %d")
    when (p.(wap_MessageLimit) < 1 \/ p.(wap_MessageLimit) > MaximumAgentWaitMessages) in
  reject (New "activityLimit must be from 1 through %d")
    when (p.(wap_ActivityLimit) < 1 \/ p.(wap_ActivityLimit) > MaximumAgentWaitActivities) in
  reject (New "artifactLimit must be from 1 through %d")
    when (p.(wap_ArtifactLimit) < 1 \/ p.(wap_ArtifactLimit) > MaximumAgentWaitArtifacts) in
  reject (New "resultLimit must be from 1 through %d")
    when (p.(wap_ResultLimit) < 1 \/ p.(wap_ResultLimit) > MaximumAgentWaitResults) in
  Ok tt.
