(* ===== verification/Notify.v ===== *)
(** internal/broker/mailbox_notify.go and tree_notify.go: the notifiers of the broker. A
    watch is shared by the waiters of one key: a wake channel that is closed once and a
    count of the subscriptions that have not been released. Watches and subscriptions are
    objects of a heap, since a subscription keeps its watch after the notifier has
    dropped it; the two types of the source differ in the type of their key only. *)

From S2P Require Export Prelude.

Section Notifier.
Context {K : Type} `{Countable K}.

(* go: internal/broker/mailbox_notify.go mailboxWatch *)
Record Watch := { wk_closed : bool; wk_waiters : Z }.
Definition set_closed (w : Watch) : Watch := {| wk_closed := true; wk_waiters := w.(wk_waiters) |}.
Definition set_waiters (n : Z) (w : Watch) : Watch := {| wk_closed := w.(wk_closed); wk_waiters := n |}.

(* go: internal/broker/mailbox_notify.go mailboxSubscription *)
Record Subscription := { su_key : K; su_watch : nat; su_released : bool }.

(** The map of the notifier, and the objects it and its clients refer to. *)
(* go: internal/broker/mailbox_notify.go mailboxNotifier *)
Record Notifier := {
  nt_watches : gmap K nat;
  nt_heap : list Watch;
  nt_subscriptions : list Subscription;
}.

(* go: internal/broker/mailbox_notify.go newMailboxNotifier *)
Definition newNotifier : Notifier := {| nt_watches := ∅; nt_heap := []; nt_subscriptions := [] |}.

(* go: internal/broker/mailbox_notify.go mailboxNotifier.subscribe *)
Definition subscribe (key : K) (n : Notifier) : nat * Notifier :=
  let '(l, watches, heap) :=
    match n.(nt_watches) !! key with
    | Some l => (l, n.(nt_watches), n.(nt_heap))
    | None => let l := length n.(nt_heap) in
        (l, <[key := l]> n.(nt_watches), n.(nt_heap) ++ [{| wk_closed := false; wk_waiters := 0 |}])
    end in
  (length n.(nt_subscriptions),
   {| nt_watches := watches; nt_heap := alter (fun w => set_waiters (w.(wk_waiters) + 1) w) l heap;
      nt_subscriptions := n.(nt_subscriptions) ++ [{| su_key := key; su_watch := l; su_released := false |}] |}).

(** [released.Do]: only the first call of a subscription does anything. *)
(* go: internal/broker/mailbox_notify.go mailboxSubscription.release *)
Definition release (s : nat) (n : Notifier) : Notifier :=
  match n.(nt_subscriptions) !! s with
  | None => n
  | Some u =>
      if u.(su_released) then n
      else
        let subscriptions := <[s := {| su_key := u.(su_key); su_watch := u.(su_watch); su_released := true |}]> n.(nt_subscriptions) in
        if decide (n.(nt_watches) !! u.(su_key) <> Some u.(su_watch)) then
          {| nt_watches := n.(nt_watches); nt_heap := n.(nt_heap); nt_subscriptions := subscriptions |}
        else
          let heap := alter (fun w => set_waiters (w.(wk_waiters) - 1) w) u.(su_watch) n.(nt_heap) in
          {| nt_watches := if decide (wk_waiters <$> heap !! u.(su_watch) = Some 0) then delete u.(su_key) n.(nt_watches)
                           else n.(nt_watches);
             nt_heap := heap; nt_subscriptions := subscriptions |}
  end.

(** The part of [notify] under the lock: the watch of the key is taken out. *)
(* go: internal/broker/mailbox_notify.go:64-67 mailboxNotifier.notify *)
Definition notify_take (key : K) (n : Notifier) : option nat * Notifier :=
  (n.(nt_watches) !! key,
   {| nt_watches := delete key n.(nt_watches); nt_heap := n.(nt_heap); nt_subscriptions := n.(nt_subscriptions) |}).

(** The part after it: the channel is closed; closing a closed channel panics. *)
(* go: internal/broker/mailbox_notify.go:68-70 mailboxNotifier.notify *)
Definition notify_close (l : nat) (n : Notifier) : option Notifier :=
  match n.(nt_heap) !! l with
  | Some w =>
      if w.(wk_closed) then None
      else Some {| nt_watches := n.(nt_watches); nt_heap := <[l := set_closed w]> n.(nt_heap);
                   nt_subscriptions := n.(nt_subscriptions) |}
  | None => None
  end.

(** A receive from the channel of the subscription does not block. *)
(* go: internal/broker/mailbox_notify.go mailboxSubscription.channel *)
Definition woken (s : nat) (n : Notifier) : Prop :=
  match n.(nt_subscriptions) !! s with
  | Some u => wk_closed <$> n.(nt_heap) !! u.(su_watch) = Some true
  | None => False
  end.
#[global] Instance woken_dec s n : Decision (woken s n).
Proof. unfold woken. destruct (_ !! s); apply _. Defined.

(** ** The invariant *)

Definition holds (l : nat) (u : Subscription) : Prop := u.(su_watch) = l /\ u.(su_released) = false.
#[global] Instance holds_dec l u : Decision (holds l u).
Proof. unfold holds. apply _. Defined.

(** The subscriptions that hold a watch. *)
Definition holders (l : nat) (subscriptions : list Subscription) : Z := Z.of_nat (length (filter (holds l) subscriptions)).

(** [closing] are the watches taken by a [notify] that has yet to close them. *)
Record notifier_core (n : Notifier) (closing : list nat) : Prop := {
  ni_watch : forall k l, n.(nt_watches) !! k = Some l -> l ∉ closing /\
    n.(nt_heap) !! l = Some {| wk_closed := false; wk_waiters := holders l n.(nt_subscriptions) |};
  ni_inj : forall k k' l, n.(nt_watches) !! k = Some l -> n.(nt_watches) !! k' = Some l -> k' = k;
  ni_key : forall k l s u, n.(nt_watches) !! k = Some l -> n.(nt_subscriptions) !! s = Some u -> u.(su_watch) = l -> u.(su_key) = k;
  ni_heap : forall s u, n.(nt_subscriptions) !! s = Some u -> (u.(su_watch) < length n.(nt_heap))%nat;
  ni_held : forall s u, n.(nt_subscriptions) !! s = Some u -> u.(su_released) = false ->
    n.(nt_watches) !! u.(su_key) = Some u.(su_watch) \/ u.(su_watch) ∈ closing \/ wk_closed <$> n.(nt_heap) !! u.(su_watch) = Some true;
  ni_nodup : NoDup closing;
  ni_closing : forall l, l ∈ closing -> wk_closed <$> n.(nt_heap) !! l = Some false;
}.

Record notifier_inv (n : Notifier) (closing : list nat) : Prop := {
  ni_core : notifier_core n closing;
  ni_used : forall k l, n.(nt_watches) !! k = Some l -> 0 < holders l n.(nt_subscriptions);
}.

Lemma newNotifier_inv : notifier_inv newNotifier [].
Proof. split; [split|]; simpl; intros; try (by simplify_map_eq); try set_solver. constructor. Qed.

Definition share_of (l : nat) (u : Subscription) : Z := if decide (holds l u) then 1 else 0.

Lemma holders_app l us u : holders l (us ++ [u]) = holders l us + share_of l u.
Proof. unfold holders, share_of. rewrite filter_app, length_app, filter_cons. case_decide; simpl; lia. Qed.

Lemma holders_insert l us s u u' : us !! s = Some u -> holders l (<[s := u']> us) = holders l us - share_of l u + share_of l u'.
Proof.
  revert s. induction us as [|v us IH]; intros [|s] Hs; simpl in Hs; try done.
  - injection Hs as ->. unfold holders, share_of. simpl. rewrite !filter_cons. repeat case_decide; simpl; lia.
  - specialize (IH _ Hs). unfold holders in *. simpl. rewrite !filter_cons. case_decide; simpl; lia.
Qed.

Lemma holders_nonneg l us : 0 <= holders l us.
Proof. unfold holders. lia. Qed.

Lemma holders_positive l us : 0 < holders l us <-> exists s u, us !! s = Some u /\ holds l u.
Proof.
  unfold holders. split.
  - intros Hp. destruct (filter (holds l) us) as [|u rest] eqn:E; [simpl in Hp; lia|].
    assert (u ∈ filter (holds l) us) as Hu by (rewrite E; set_solver). apply list_elem_of_filter in Hu as [Hh Hu].
    apply list_elem_of_lookup in Hu as [s Hs]. eauto.
  - intros (s & u & Hs & Hh). apply list_elem_of_lookup_2 in Hs.
    assert (u ∈ filter (holds l) us) as Hu by (by apply list_elem_of_filter). destruct (filter _ us); [set_solver|simpl; lia].
Qed.

Lemma holders_fresh n closing : notifier_core n closing -> holders (length n.(nt_heap)) n.(nt_subscriptions) = 0.
Proof.
  intros Hn. destruct (decide (0 < holders (length n.(nt_heap)) n.(nt_subscriptions))) as [Hp|Hp].
  - apply holders_positive in Hp as (s & u & Hs & [Hl _]). pose proof (ni_heap _ _ Hn _ _ Hs). lia.
  - pose proof (holders_nonneg (length n.(nt_heap)) n.(nt_subscriptions)). lia.
Qed.

(** Changing the count of a watch leaves its channel. *)
Lemma closed_alter (l l' : nat) (c : Watch -> Z) (heap : list Watch) :
  wk_closed <$> alter (fun w => set_waiters (c w) w) l heap !! l' = wk_closed <$> heap !! l'.
Proof.
  destruct (decide (l' = l)) as [->|Hne]; [|by rewrite list_lookup_alter_ne].
  rewrite list_lookup_alter_eq. by destruct (heap !! l).
Qed.

(** ** Subscribing *)

(** A new watch for a key that has none. *)
Definition alloc (key : K) (n : Notifier) : Notifier := {|
  nt_watches := <[key := length n.(nt_heap)]> n.(nt_watches);
  nt_heap := n.(nt_heap) ++ [{| wk_closed := false; wk_waiters := 0 |}]; nt_subscriptions := n.(nt_subscriptions) |}.

(** One more subscription of a watch. *)
Definition attach (key : K) (l : nat) (n : Notifier) : Notifier := {|
  nt_watches := n.(nt_watches); nt_heap := alter (fun w => set_waiters (w.(wk_waiters) + 1) w) l n.(nt_heap);
  nt_subscriptions := n.(nt_subscriptions) ++ [{| su_key := key; su_watch := l; su_released := false |}] |}.

Lemma subscribe_eq key n :
  subscribe key n = (length n.(nt_subscriptions),
    match n.(nt_watches) !! key with
    | Some l => attach key l n
    | None => attach key (length n.(nt_heap)) (alloc key n)
    end).
Proof. unfold subscribe. by destruct (_ !! key). Qed.

Lemma closed_app w (heap : list Watch) (l : nat) c : wk_closed <$> heap !! l = Some c -> wk_closed <$> (heap ++ [w]) !! l = Some c.
Proof. destruct (heap !! l) as [w'|] eqn:E; [|done]. by rewrite (lookup_app_l_Some _ _ _ _ E). Qed.

Lemma alloc_core key n closing : notifier_core n closing -> n.(nt_watches) !! key = None -> notifier_core (alloc key n) closing.
Proof.
  intros Hn E. pose proof Hn as [I1 I2 I3 I4 I5 I6 I7]. split; simpl.
  - intros k l [[<- <-]|[_ Hk]]%lookup_insert_Some.
    + split.
      * intros Hin%I7. rewrite lookup_ge_None_2 in Hin by lia. done.
      * rewrite lookup_app_r by lia. rewrite Nat.sub_diag, (holders_fresh n closing Hn). done.
    + destruct (I1 _ _ Hk) as [Hc Hh]. split; [done|]. by apply lookup_app_l_Some.
  - assert (forall k, n.(nt_watches) !! k <> Some (length n.(nt_heap))) as Hfresh.
    { intros k Hk. destruct (I1 _ _ Hk) as [_ Hh]. apply lookup_lt_Some in Hh. lia. }
    intros k k' l [[<- <-]|[_ Hk]]%lookup_insert_Some [[<- Hl]|[_ Hk']]%lookup_insert_Some; try done.
    + by apply Hfresh in Hk'.
    + subst l. by apply Hfresh in Hk.
    + by eapply I2.
  - intros k l s u [[<- <-]|[_ Hk]]%lookup_insert_Some Hs Hl; [|by eapply I3]. apply I4 in Hs. lia.
  - intros s u Hs. apply I4 in Hs. rewrite length_app. simpl. lia.
  - intros s u Hs Hr. destruct (I5 _ _ Hs Hr) as [Hk|[Hin|Hc]].
    + left. rewrite lookup_insert_ne; [done|]. congruence.
    + by right; left.
    + right; right. by apply closed_app.
  - done.
  - intros l Hl. apply closed_app, I7, Hl.
Qed.

Lemma attach_core key l n closing : notifier_core n closing -> n.(nt_watches) !! key = Some l -> notifier_core (attach key l n) closing.
Proof.
  intros Hn E. pose proof Hn as [I1 I2 I3 I4 I5 I6 I7]. destruct (I1 _ _ E) as [Hc Hh]. split; simpl.
  - intros k l' Hk. destruct (I1 _ _ Hk) as [Hc' Hh']. split; [done|]. rewrite holders_app. unfold share_of, holds. simpl.
    destruct (decide (l' = l)) as [->|Hne].
    + rewrite decide_True by done. by rewrite list_lookup_alter_eq, Hh.
    + rewrite decide_False by (intros [? _]; done). rewrite list_lookup_alter_ne by done. by rewrite Hh', Z.add_0_r.
  - done.
  - intros k l' s u Hk [Hs|[_ [_ <-]%list_lookup_singleton_Some]]%lookup_app_Some Hw; [by eapply I3|]. simpl in *. subst l'. by eapply I2.
  - intros s u Hs. rewrite length_alter. apply lookup_app_Some in Hs as [Hs|[_ [_ <-]%list_lookup_singleton_Some]]; [by apply I4 in Hs|].
    simpl. by apply lookup_lt_Some in Hh.
  - intros s u Hs Hr. rewrite closed_alter. apply lookup_app_Some in Hs as [Hs|[_ [_ <-]%list_lookup_singleton_Some]]; [by eapply I5|].
    by left.
  - done.
  - intros l' Hl'. rewrite closed_alter. by apply I7.
Qed.

Lemma holders_attach l l' key n : holders l' n.(nt_subscriptions) <= holders l' (attach key l n).(nt_subscriptions) /\
  0 < holders l (attach key l n).(nt_subscriptions).
Proof.
  simpl. rewrite !holders_app. unfold share_of. pose proof (holders_nonneg l n.(nt_subscriptions)). split; [case_decide; lia|].
  rewrite decide_True by done. lia.
Qed.

Lemma subscribe_inv key n closing s n' : notifier_inv n closing -> subscribe key n = (s, n') ->
  notifier_inv n' closing /\ s = length n.(nt_subscriptions) /\
  (exists l, n'.(nt_watches) !! key = Some l /\
     n'.(nt_subscriptions) = n.(nt_subscriptions) ++ [{| su_key := key; su_watch := l; su_released := false |}]) /\
  (forall l, wk_closed <$> n.(nt_heap) !! l = Some true -> wk_closed <$> n'.(nt_heap) !! l = Some true).
Proof.
  intros [Hn Hu]. rewrite subscribe_eq. intros [= <- <-]. destruct (nt_watches n !! key) as [l|] eqn:E.
  - split_and!; [|done|by exists l|intros l'; simpl; by rewrite closed_alter]. split; [by apply attach_core|].
    intros k l' Hk. pose proof (Hu _ _ Hk). pose proof (holders_attach l l' key n). lia.
  - assert (nt_watches (alloc key n) !! key = Some (length (nt_heap n))) as E' by apply lookup_insert_eq.
    split_and!; [|done|by eexists|].
    + split; [by apply attach_core, E'; apply alloc_core|]. intros k l' Hk.
      destruct (holders_attach (length (nt_heap n)) l' key (alloc key n)) as [H1 H2].
      simpl in Hk. apply lookup_insert_Some in Hk as [[<- <-]|[_ Hk]]; [done|]. pose proof (Hu _ _ Hk). simpl in *. lia.
    + intros l' Hl'. simpl. rewrite closed_alter. by apply closed_app.
Qed.

(** ** Releasing *)

Definition released (u : Subscription) : Subscription := {| su_key := u.(su_key); su_watch := u.(su_watch); su_released := true |}.

Lemma holders_release l us s u : us !! s = Some u -> u.(su_released) = false ->
  holders l (<[s := released u]> us) = holders l us - (if decide (u.(su_watch) = l) then 1 else 0).
Proof.
  intros Hs Hr. rewrite (holders_insert _ _ _ u) by done. unfold share_of, holds. simpl.
  rewrite (decide_False (P := u.(su_watch) = l /\ true = false)) by naive_solver. repeat case_decide; naive_solver lia.
Qed.

(** The shared part of a release: one subscription is marked, one watch may be dropped. *)
Lemma release_core n closing s u watches heap :
  notifier_inv n closing -> n.(nt_subscriptions) !! s = Some u -> u.(su_released) = false ->
  (forall k l, watches !! k = Some l -> n.(nt_watches) !! k = Some l /\
     0 < holders l (<[s := released u]> n.(nt_subscriptions)) /\
     heap !! l = Some {| wk_closed := false; wk_waiters := holders l (<[s := released u]> n.(nt_subscriptions)) |}) ->
  (forall k l s' v, n.(nt_watches) !! k = Some l -> n.(nt_subscriptions) !! s' = Some v -> s' <> s -> holds l v -> watches !! k = Some l) ->
  length heap = length n.(nt_heap) -> (forall l : nat, wk_closed <$> heap !! l = wk_closed <$> n.(nt_heap) !! l) ->
  notifier_inv {| nt_watches := watches; nt_heap := heap; nt_subscriptions := <[s := released u]> n.(nt_subscriptions) |} closing.
Proof.
  intros [[I1 I2 I3 I4 I5 I6 I7] Hu] Hs Hr Hw Hk Hlen Hcl.
  assert (forall s' v, <[s := released u]> n.(nt_subscriptions) !! s' = Some v ->
    exists v0, n.(nt_subscriptions) !! s' = Some v0 /\ v.(su_key) = v0.(su_key) /\ v.(su_watch) = v0.(su_watch) /\
      (v.(su_released) = false -> s' <> s /\ v0.(su_released) = false)) as Hback.
  { intros s' v Hv. destruct (decide (s' = s)) as [->|Hne].
    - rewrite list_lookup_insert_eq in Hv by (by eapply lookup_lt_Some). injection Hv as <-. exists u. split_and!; done.
    - rewrite list_lookup_insert_ne in Hv by done. exists v. split_and!; done. }
  split; [split|]; simpl.
  - intros k l Hk'. destruct (Hw _ _ Hk') as (H1 & H2 & H3). split; [apply (I1 _ _ H1)|done].
  - intros k k' l [H1 _]%Hw [H2 _]%Hw. by eapply I2.
  - intros k l s' v [H1 _]%Hw (v0 & Hv0 & -> & -> & _)%Hback Hl. by eapply I3.
  - intros s' v (v0 & Hv0 & _ & -> & _)%Hback. rewrite Hlen. by eapply I4.
  - intros s' v Hv Hrel. apply Hback in Hv as (v0 & Hv0 & -> & -> & Hx). destruct (Hx Hrel) as [Hne Hr0]. rewrite Hcl.
    destruct (I5 _ _ Hv0 Hr0) as [Hm|?]; [left|by right]. by eapply Hk.
  - done.
  - intros l Hl. rewrite Hcl. by apply I7.
  - intros k l Hk'. apply (Hw _ _ Hk').
Qed.

Lemma release_heap s n : length (release s n).(nt_heap) = length n.(nt_heap) /\
  forall l : nat, wk_closed <$> (release s n).(nt_heap) !! l = wk_closed <$> n.(nt_heap) !! l.
Proof.
  unfold release. destruct (_ !! s) as [u|]; [|done]. destruct (su_released u); [done|]. case_decide; simpl; [done|].
  split; [apply length_alter|intros l; apply closed_alter].
Qed.

Lemma release_inv s n closing : notifier_inv n closing -> notifier_inv (release s n) closing.
Proof.
  intros Hn. pose proof (release_heap s n) as [Hlen Hcl]. revert Hlen Hcl. unfold release.
  destruct (n.(nt_subscriptions) !! s) as [u|] eqn:Hs; [|done]. destruct (su_released u) eqn:Hr; [done|].
  pose proof Hn as [[I1 I2 I3 I4 I5 I6 I7] Hu]. fold (released u). case_decide as Hd; simpl; intros Hlen Hcl.
  - apply release_core; try done. intros k l Hk. split; [done|]. destruct (I1 _ _ Hk) as [_ Hh].
    assert (u.(su_watch) <> l) as Hne. { intros <-. apply Hd. by rewrite (I3 _ _ _ _ Hk Hs eq_refl). }
    rewrite holders_release by done. rewrite decide_False by done. rewrite Z.sub_0_r. split; [by eapply Hu|done].
  - destruct (I1 _ _ Hd) as [_ Hh]. revert Hlen Hcl.
    rewrite list_lookup_alter_eq, Hh. simpl. set (h := holders u.(su_watch) n.(nt_subscriptions)) in *. intros Hlen Hcl.
    assert (0 < h) as Hpos by (by eapply Hu).
    assert (holders u.(su_watch) (<[s := released u]> n.(nt_subscriptions)) = h - 1) as Hh1.
    { rewrite holders_release by done. by rewrite decide_True. }
    apply release_core; try done.
    + intros k l Hk. assert (n.(nt_watches) !! k = Some l) as Hk0.
      { case_decide; [by apply lookup_delete_Some in Hk as [_ ?]|done]. }
      split; [done|]. destruct (decide (l = u.(su_watch))) as [->|Hne].
      * assert (k = u.(su_key)) as -> by (by eapply I2). case_decide as Hz; [by rewrite lookup_delete_eq in Hk|].
        rewrite list_lookup_alter_eq, Hh, Hh1. simpl. split; [|done].
        assert (h - 1 <> 0) by (intros E; apply Hz; by rewrite E). lia.
      * rewrite list_lookup_alter_ne by done. rewrite holders_release by done. rewrite decide_False by done. rewrite Z.sub_0_r.
        split; [by eapply Hu|apply (I1 _ _ Hk0)].
    + intros k l s' v Hk Hv Hne [Hl Hrv]. case_decide as Hz; [|done]. rewrite lookup_delete_ne; [done|]. intros <-.
      rewrite Hd in Hk. injection Hk as <-. assert (0 < holders u.(su_watch) (<[s := released u]> n.(nt_subscriptions))) as Hp.
      { apply holders_positive. exists s', v. by rewrite list_lookup_insert_ne. }
      injection Hz as Hz. lia.
Qed.

(** ** Notifying *)

Lemma notify_take_inv key n closing o n' : notifier_inv n closing -> notify_take key n = (o, n') ->
  notifier_inv n' (match o with Some l => l :: closing | None => closing end) /\
  n'.(nt_subscriptions) = n.(nt_subscriptions) /\ n'.(nt_heap) = n.(nt_heap) /\ n'.(nt_watches) !! key = None.
Proof.
  intros [Hn Hu]. pose proof Hn as [I1 I2 I3 I4 I5 I6 I7]. unfold notify_take. intros [= <- <-]. simpl.
  split_and!; [|done|done|apply lookup_delete_eq]. split; [split|]; simpl.
  - intros k l [Hne Hk]%lookup_delete_Some. destruct (I1 _ _ Hk) as [Hc Hh]. split; [|done].
    destruct (nt_watches n !! key) as [l'|] eqn:E; [|done]. intros [->|?]%elem_of_cons; [|done]. apply Hne. by eapply I2.
  - intros k k' l [_ Hk]%lookup_delete_Some [_ Hk']%lookup_delete_Some. by eapply I2.
  - intros k l s u [_ Hk]%lookup_delete_Some. by eapply I3.
  - done.
  - intros s u Hs Hr. destruct (I5 _ _ Hs Hr) as [Hm|[Hin|Hc]].
    + destruct (decide (u.(su_key) = key)) as [Ek|Hne].
      * right; left. rewrite Ek in Hm. rewrite Hm. set_solver.
      * left. by rewrite lookup_delete_ne.
    + right; left. destruct (_ !! key); set_solver.
    + by right; right.
  - destruct (nt_watches n !! key) as [l'|] eqn:E; [|done]. constructor; [apply (I1 _ _ E)|done].
  - intros l Hl. destruct (nt_watches n !! key) as [l'|] eqn:E; [|by apply I7].
    apply elem_of_cons in Hl as [->|Hl]; [|by apply I7]. destruct (I1 _ _ E) as [_ ->]. done.
  - intros k l [_ Hk]%lookup_delete_Some. by eapply Hu.
Qed.

(** A watch that was taken is closed exactly once, whatever happened in between. *)
Lemma notify_close_inv l n closing1 closing2 : notifier_inv n (closing1 ++ l :: closing2) ->
  exists n', notify_close l n = Some n' /\ notifier_inv n' (closing1 ++ closing2) /\
    n'.(nt_subscriptions) = n.(nt_subscriptions) /\ n'.(nt_watches) = n.(nt_watches) /\
    (forall l' : nat, wk_closed <$> n'.(nt_heap) !! l' = if decide (l' = l) then Some true else wk_closed <$> n.(nt_heap) !! l').
Proof.
  intros [[I1 I2 I3 I4 I5 I6 I7] Hu]. unfold notify_close.
  assert (l ∈ closing1 ++ l :: closing2) as Hin by set_solver. pose proof (I7 _ Hin) as Hl.
  destruct (nt_heap n !! l) as [w|] eqn:E; [|done]. injection Hl as Hl. rewrite Hl. eexists. split; [done|].
  apply NoDup_app in I6 as (N1 & N2 & N3). apply NoDup_cons in N3 as [N3 N4].
  assert (forall l' : nat, wk_closed <$> <[l := set_closed w]> n.(nt_heap) !! l' =
    if decide (l' = l) then Some true else wk_closed <$> n.(nt_heap) !! l') as Hcl.
  { intros l'. case_decide as Hd; [subst l'; rewrite list_lookup_insert_eq by (by eapply lookup_lt_Some); done|].
    by rewrite list_lookup_insert_ne. }
  split; [|done]. split; [split|]; simpl.
  - intros k l' Hk. destruct (I1 _ _ Hk) as [Hc Hh]. split; [set_solver|]. rewrite list_lookup_insert_ne; [done|]. intros <-. done.
  - done.
  - done.
  - intros s u Hs. rewrite length_insert. by eapply I4.
  - intros s u Hs Hr. rewrite Hcl. destruct (I5 _ _ Hs Hr) as [?|[Hi|Hc]]; [by left| |].
    + right. case_decide as Hd; [by right|]. left. set_solver.
    + right; right. by case_decide.
  - apply NoDup_app. split_and!; [done|intros x Hx ?; apply (N2 x Hx); set_solver|done].
  - intros l' Hl'. rewrite Hcl. rewrite decide_False; [apply I7; set_solver|]. intros ->.
    apply elem_of_app in Hl' as [Hx|Hx]; [|done]. apply (N2 _ Hx). set_solver.
  - done.
Qed.

(** Nothing is left of a key whose subscriptions were all released. *)
Lemma released_leaves_nothing n closing key : notifier_inv n closing ->
  (forall s u, n.(nt_subscriptions) !! s = Some u -> u.(su_key) = key -> u.(su_released) = true) -> n.(nt_watches) !! key = None.
Proof.
  intros [Hn Hu] Hall. destruct (nt_watches n !! key) as [l|] eqn:E; [|done]. exfalso.
  pose proof (Hu _ _ E) as Hp. apply holders_positive in Hp as (s & u & Hs & Hl & Hr).
  rewrite (Hall _ _ Hs) in Hr; [done|]. by eapply ni_key.
Qed.

End Notifier.
Arguments Notifier K {_ _}.
Arguments Subscription K : clear implicits.
