(* ===== verification/MailboxWait.v ===== *)
(** internal/broker/mailbox_rpc.go: sending a message and waiting for one. A wait is a
    loop that subscribes, reads the mailbox, and sleeps until its channel is closed; a
    send commits the message and then closes the channel. The handlers run beside each
    other, so the server is a state machine whose steps are the sections of the handlers
    that are atomic: one store transaction, or one critical section of the notifier. No
    interleaving of them lets a waiter sleep on a message nobody will wake it for. *)

From S2P Require Export Envelope Notify.

(** ** Handlers *)

(** Controller, tree and agent. *)
(* go: internal/broker/mailbox_notify.go mailboxKey *)
Definition mailboxKey : Type := string * string * string.

(** The error a client is sent: a code and a text. *)
Definition rpc_error : Type := Z * string.

(* go: internal/broker/mailbox_rpc.go session.authorizeMailbox *)
Definition authorizeMailbox (deviceID : string) (request : Envelope) (workerCapability : Capability) (db : DB) : Principal + rpc_error :=
  match request.(ev_Source) with
  | None => inr (ErrorInvalidRequest, "mailbox request requires a principal")
  | Some source =>
      if decide (request.(ev_TreeID) = "") then inr (ErrorInvalidRequest, "mailbox request requires a principal")
      else if decide (source.(pi_DeviceID) <> deviceID) then inr (ErrorForbidden, "mailbox access denied")
      else
        let required := if decide (source.(pi_ParentAgentID) <> "") then workerCapability else CapabilityMessageTree in
        match AuthorizePrincipal source required db with
        | Ok principal => inl principal
        | Err err => if errors_Is err ErrAuthorizationDenied then inr (ErrorForbidden, "mailbox access denied")
                     else inr (ErrorUnavailable, "broker unavailable")
        end
  end.

(* go: internal/broker/mailbox_rpc.go session.handleMailboxStoreError *)
Definition handleMailboxStoreError (err : error) : rpc_error :=
  if errors_Is err ErrAuthorizationDenied then (ErrorForbidden, "mailbox access denied")
  else if errors_Is err ErrNotFound then (ErrorNotFound, "message target not found")
  else if errors_Is err ErrMailboxCursorAhead then (ErrorConflictCode, "mailbox cursor is ahead of stored messages")
  else if errors_Is err ErrConflict then (ErrorConflictCode, "messageId conflicts with an existing message")
  else if errors_Is err ErrMailboxFull then (ErrorUnavailable, "mailbox pending message quota exceeded")
  else (ErrorUnavailable, "broker unavailable").

(** The reply, the state after the commit, and the mailbox to notify. [decoded] is the
    payload of the request, [admitted] tells whether no upgrade drain is active. *)
(* go: internal/broker/mailbox_rpc.go session.handleSendMessage *)
Definition handleSendMessage (deviceID : string) (request : Envelope) (decoded : result SendMessageParams) (admitted : bool) (now : Z) (db : DB)
    : (SendMessageResult + rpc_error) * DB * option mailboxKey :=
  match authorizeMailbox deviceID request CapabilityMessageSendParent db with
  | inr refusal => (inr refusal, db, None)
  | inl principal =>
      match decoded with
      | Err _ => (inr (ErrorInvalidParams, "invalid message payload"), db, None)
      | Ok params =>
          if decide (is_ok (SendMessageParams_Validate params) = false) then (inr (ErrorInvalidParams, "invalid message payload"), db, None)
          else if admitted then
            match SendMailboxMessage principal params.(smp_Target) params.(smp_MessageID) params.(smp_Message) now db with
            | Err err => (inr (handleMailboxStoreError err), db, None)
            | Ok (delivery, db') =>
                (inl {| smr_MessageID := delivery.(md_MessageID); smr_Sequence := delivery.(md_Sequence) |}, db',
                 Some (p_ControllerID principal, p_TreeID principal, delivery.(md_RecipientAgentID)))
            end
          else (inr (ErrorUnavailable, "broker upgrade drain is active"), db, None)
      end
  end.

(** The mailbox of an operation's target. *)
(* go: internal/broker/agent_operation_rpc.go session.notifyAgentMailbox *)
Definition notifyAgentMailbox (receipt : AgentOperationReceipt) : mailboxKey :=
  (receipt.(or_Key).(ok_ControllerID), receipt.(or_Key).(ok_TreeID), receipt.(or_AgentID)).

(** A wait that was let in: who waits, and for what. *)
Record WaitCall := { wc_Principal : Principal; wc_Params : WaitMailboxParams }.
Definition call_key (call : WaitCall) : mailboxKey :=
  (p_ControllerID call.(wc_Principal), p_TreeID call.(wc_Principal), p_AgentID call.(wc_Principal)).

(* go: internal/broker/mailbox_rpc.go:55-73 session.handleWaitMailbox *)
Definition begin_wait (deviceID : string) (request : Envelope) (decoded : result WaitMailboxParams) (db : DB) : WaitCall + rpc_error :=
  match authorizeMailbox deviceID request CapabilityMessageReceiveSelf db with
  | inr refusal => inr refusal
  | inl principal =>
      match decoded with
      | Err _ => inr (ErrorInvalidParams, "invalid mailbox wait payload")
      | Ok params =>
          if decide (is_ok (WaitMailboxParams_Validate params) = false) then inr (ErrorInvalidParams, "invalid mailbox wait payload")
          else inl {| wc_Principal := principal; wc_Params := params |}
      end
  end.

(** Where the loop of a wait stands: about to subscribe; with a subscription, about to
    read; with what it read, about to decide; asleep; or done. *)
Inductive wait_phase :=
  | Subscribing
  | Reading (s : nat)
  | Deciding (s : nat) (r : WaitMailboxResult)
  | Blocked (s : nat) (r : WaitMailboxResult)
  | Replied (r : WaitMailboxResult)
  | Refused (e : rpc_error)
  | Canceled.

(** What a wait observes besides the store and its channel. *)
Inductive wait_event := Runs | DeadlinePassed | Cancellation.

(** One atomic section of the loop; [None] where it cannot move. *)
(* go: internal/broker/mailbox_rpc.go:75-118 session.handleWaitMailbox *)
Definition wait_step (ev : wait_event) (call : WaitCall) (phase : wait_phase) (db : DB) (n : Notifier mailboxKey)
    : option (wait_phase * DB * Notifier mailboxKey) :=
  let params := call.(wc_Params) in
  match phase, ev with
  | Subscribing, Runs => let '(s, n') := subscribe (call_key call) n in Some (Reading s, db, n')
  | Reading s, Runs =>
      match ReadMailbox call.(wc_Principal) params.(wmp_Cursor) params.(wmp_Limit) db with
      | Ok (r, db') => Some (Deciding s r, db', n)
      | Err err => Some (Refused (handleMailboxStoreError err), db, release s n)
      end
  | Deciding s r, Runs =>
      if decide (length r.(wmr_Messages) <> 0%nat \/ params.(wmp_TimeoutMillis) = 0) then Some (Replied r, db, release s n)
      else Some (Blocked s r, db, n)
  | Blocked s r, Runs => if decide (woken s n) then Some (Subscribing, db, release s n) else None
  | Deciding s r, DeadlinePassed | Blocked s r, DeadlinePassed => Some (Replied r, db, release s n)
  | Reading s, Cancellation | Deciding s _, Cancellation | Blocked s _, Cancellation => Some (Canceled, db, release s n)
  | _, _ => None
  end.

(** ** The server *)

(** The store and the notifier; the waits there ever were; the mailbox subscriptions of
    the waits for agents, which share the notifier; the notifications that are due, and
    those that have taken their watch and have to close it. *)
Record Server := {
  sr_db : DB;
  sr_notifier : Notifier mailboxKey;
  sr_waits : list (WaitCall * wait_phase);
  sr_agent_waits : list nat;
  sr_notifying : list mailboxKey;
  sr_closing : list nat;
}.

(** A broker starts on the state file it finds. *)
Definition new_server (db : DB) : Server := {|
  sr_db := db; sr_notifier := newNotifier; sr_waits := []; sr_agent_waits := []; sr_notifying := []; sr_closing := [] |}.

Definition set_db (db : DB) (st : Server) : Server := {|
  sr_db := db; sr_notifier := st.(sr_notifier); sr_waits := st.(sr_waits); sr_agent_waits := st.(sr_agent_waits);
  sr_notifying := st.(sr_notifying); sr_closing := st.(sr_closing) |}.
Definition add_notify (keys : list mailboxKey) (st : Server) : Server := {|
  sr_db := st.(sr_db); sr_notifier := st.(sr_notifier); sr_waits := st.(sr_waits); sr_agent_waits := st.(sr_agent_waits);
  sr_notifying := keys ++ st.(sr_notifying); sr_closing := st.(sr_closing) |}.
Definition set_agent_waits (n : Notifier mailboxKey) (agents : list nat) (st : Server) : Server := {|
  sr_db := st.(sr_db); sr_notifier := n; sr_waits := st.(sr_waits); sr_agent_waits := agents;
  sr_notifying := st.(sr_notifying); sr_closing := st.(sr_closing) |}.
Definition set_waits (db : DB) (n : Notifier mailboxKey) (waits : list (WaitCall * wait_phase)) (st : Server) : Server := {|
  sr_db := db; sr_notifier := n; sr_waits := waits; sr_agent_waits := st.(sr_agent_waits);
  sr_notifying := st.(sr_notifying); sr_closing := st.(sr_closing) |}.

Definition run_send deviceID request decoded admitted now (st : Server) : Server :=
  let '(_, db, wake) := handleSendMessage deviceID request decoded admitted now st.(sr_db) in
  add_notify (option_list wake) (set_db db st).

(* go: internal/broker/agent_operation_rpc.go:160-168 session.queueAgentMessage *)
Definition run_queue (key : AgentOperationKey) (message : string) (now : Z) (st : Server) : Server :=
  match QueueAgentMessageAndFinishOperation key message now st.(sr_db) with
  | Ok ((updated, _), db) => add_notify [notifyAgentMailbox updated] (set_db db st)
  | Err _ => st
  end.

Definition run_begin deviceID request decoded (st : Server) : Server :=
  match begin_wait deviceID request decoded st.(sr_db) with
  | inl call => set_waits st.(sr_db) st.(sr_notifier) (st.(sr_waits) ++ [(call, Subscribing)]) st
  | inr _ => st
  end.

Definition run_wait (ev : wait_event) (i : nat) (st : Server) : Server :=
  match st.(sr_waits) !! i with
  | None => st
  | Some (call, phase) =>
      match wait_step ev call phase st.(sr_db) st.(sr_notifier) with
      | None => st
      | Some (phase', db, n) => set_waits db n (<[i := (call, phase')]> st.(sr_waits)) st
      end
  end.

(** The two halves of [notify], for the [j]-th notification that is due or under way. *)
Definition run_take (j : nat) (st : Server) : Server :=
  match st.(sr_notifying) !! j with
  | None => st
  | Some key =>
      let '(o, n) := notify_take key st.(sr_notifier) in
      {| sr_db := st.(sr_db); sr_notifier := n; sr_waits := st.(sr_waits); sr_agent_waits := st.(sr_agent_waits);
         sr_notifying := delete j st.(sr_notifying); sr_closing := option_list o ++ st.(sr_closing) |}
  end.

Definition run_close (j : nat) (st : Server) : Server :=
  match st.(sr_closing) !! j with
  | None => st
  | Some l =>
      match notify_close l st.(sr_notifier) with
      | None => st
      | Some n => {| sr_db := st.(sr_db); sr_notifier := n; sr_waits := st.(sr_waits); sr_agent_waits := st.(sr_agent_waits);
                     sr_notifying := st.(sr_notifying); sr_closing := delete j st.(sr_closing) |}
      end
  end.

(** The mailbox subscription of a wait for agents. *)
(* go: internal/broker/agent_wait_rpc.go:86-86 session.handleWaitAgent *)
Definition run_agent_subscribe (key : mailboxKey) (st : Server) : Server :=
  let '(s, n) := subscribe key st.(sr_notifier) in set_agent_waits n (s :: st.(sr_agent_waits)) st.
(* go: internal/broker/agent_wait_rpc.go:90-95 session.handleWaitAgent *)
Definition run_agent_release (j : nat) (st : Server) : Server :=
  match st.(sr_agent_waits) !! j with
  | None => st
  | Some s => set_agent_waits (release s st.(sr_notifier)) (delete j st.(sr_agent_waits)) st
  end.

(** A notification makes progress. *)
Inductive notify_step (st : Server) : Server -> Prop :=
  | notify_takes j : notify_step st (run_take j st)
  | notify_closes j : notify_step st (run_close j st).

(** One step of any handler. A store call beside the two that queue messages adds none
    ([store_step_messages]); a queued operation that is repeated notifies again. *)
Inductive server_step (st : Server) : Server -> Prop :=
  | server_store db : store_step st.(sr_db) db -> db.(mailbox_messages) ⊆ st.(sr_db).(mailbox_messages) -> server_step st (set_db db st)
  | server_send deviceID request decoded admitted now : server_step st (run_send deviceID request decoded admitted now st)
  | server_queue key message now : server_step st (run_queue key message now st)
  | server_notify_again key : server_step st (add_notify [key] st)
  | server_begin deviceID request decoded :
      (forall params, decoded = Ok params -> 0 <= params.(wmp_Cursor)) -> server_step st (run_begin deviceID request decoded st)
  | server_wait ev i : server_step st (run_wait ev i st)
  | server_agent_subscribe key : server_step st (run_agent_subscribe key st)
  | server_agent_release j : server_step st (run_agent_release j st)
  | server_notifies st' : notify_step st st' -> server_step st st'.

Definition server_reachable (st : Server) : Prop := exists db, reachable db /\ rtc server_step (new_server db) st.

(** ** Which calls add messages *)

(** A call that adds no message, or one of the two that queue one. *)
Inductive mail_call (db : DB) : DB -> Prop :=
  | mail_quiet db' : db'.(mailbox_messages) ⊆ db.(mailbox_messages) -> mail_call db db'
  | mail_send source target id message at_ d db' : SendMailboxMessage source target id message at_ db = Ok (d, db') -> mail_call db db'
  | mail_queue key message at_ r db' : QueueAgentMessageAndFinishOperation key message at_ db = Ok (r, db') -> mail_call db db'.

#[global] Instance mail_call_refl : Reflexive mail_call.
Proof. intros db. by constructor. Qed.

Lemma same_messages db db' : db'.(mailbox_messages) = db.(mailbox_messages) -> mail_call db db'.
Proof. intros E. constructor. by rewrite E. Qed.

Lemma registry_messages db db' : registry_change db db' -> db'.(mailbox_messages) = db.(mailbox_messages).
Proof.
  by intros [db1 (t & _ & ->)|c db1 (cur & creds & devs & _ & _ & _ & _ & _ & _ & _ & ->)|db1 (k & r & seen & _ & _ & ->)|kind _ _].
Qed.

Lemma credentials_messages db db' : credentials_only db db' -> db'.(mailbox_messages) = db.(mailbox_messages).
Proof. intros H. by apply registry_messages, change_credentials. Qed.

Lemma workspace_messages key db db' : workspace_advance key db db' -> db'.(mailbox_messages) = db.(mailbox_messages).
Proof. by intros [->|(r & r' & _ & _ & ->)]. Qed.

Lemma work_step_messages db db' : work_inv db -> work_step db db' -> mail_call db db'.
Proof.
  intros Hinv []; try (apply run_tx_keeps; [apply _|]; intros ? ? Hcall).
  - by eapply same_messages, credentials_messages, CreateCredential_effect.
  - by eapply same_messages, credentials_messages, ActivateCredential_effect.
  - destruct (PublishPendingCredential c d mac publish db) as [r db1] eqn:E.
    by eapply same_messages, credentials_messages, PublishPendingCredential_effect.
  - by eapply same_messages, credentials_messages, DeletePendingCredential_effect.
  - apply DisableCredential_effect in Hcall as (_ & _ & [Hc|Hc]); apply same_messages, registry_messages; eauto with go.
  - apply registerDevice_effect in Hcall as (_ & Hc & _). apply same_messages, registry_messages. eauto with go.
  - apply registerDevice_effect in Hcall as (_ & Hc & _). apply same_messages, registry_messages. eauto with go.
  - by eapply same_messages, registry_messages, updateDevicePresence_change.
  - by eapply same_messages, registry_messages, updateDevicePresence_change.
  - by eapply same_messages, registry_messages, ExpireDevices_effect.
  - destruct (BeginBrokerEpoch c kind db) as [r db2] eqn:E. apply BeginBrokerEpoch_effect in E as (db1 & H1 & H2 & _).
    apply same_messages. cbn [snd]. rewrite (registry_messages _ _ H2). by apply registry_messages.
  - apply PutWorkerReadiness_effect in Hcall as (_ & _ & _ & [[_ ->]|[_ Hup]]); [done|].
    unfold upsert_readiness in Hup. go_inv. by apply same_messages.
  - destruct a as [tree p]. apply EnsureRootTree_effect in Hcall as (_ & _ & _ & _ & _ & [->|(ti & ai & _ & _ & _ & ->)]);
      [done|by apply same_messages|apply Hinv|done|done].
  - apply CreateWorkerPrincipal_effect in Hcall as (_ & [->|[_ ->]]); [done|by apply same_messages|apply Hinv].
  - by eapply mail_send.
  - apply ReadMailbox_effect in Hcall as [->|(m & _ & ->)]; [done|]. constructor. apply map_subseteq_spec.
    by intros k r [? _]%lookup_acknowledge.
  - apply BeginWorkspaceSync_effect in Hcall as (_ & _ & _ & [->|[_ Hi]]); [done|].
    apply insert_workspace_Ok in Hi as (_ & _ & _ & _ & _ & _ & ->). by apply same_messages.
  - apply PinWorkspaceSyncManifest_effect in Hcall as (Hc & _). by eapply same_messages, workspace_messages.
  - apply FinishWorkspaceSync_effect in Hcall as (Hc & _). by eapply same_messages, workspace_messages.
  - apply BeginAgentSpawn_effect in Hcall as [_ [(-> & _)|(kt & tr & _ & -> & _)]]; [done|by apply same_messages].
  - apply finishAgentSpawn_effect in Hcall as (_ & _ & _ & [->|(r & _ & _ & -> & _)]); [done|by apply same_messages].
  - apply finishAgentSpawn_effect in Hcall as (_ & _ & _ & [->|(r & _ & _ & -> & _)]); [done|by apply same_messages].
  - apply BeginAgentOperation_effect in Hcall as (_ & _ & _ & [(-> & _)|(target & _ & _ & _ & -> & _)]); [done|by apply same_messages].
  - apply FinishAgentOperation_effect in Hcall as (_ & _ & _ & _ & _ & _ & [(-> & _)|(r & _ & _ & -> & _)]); [done|by apply same_messages].
  - by eapply mail_queue.
  - apply ClaimWorkerLifecycleSession_effect in Hcall as (_ & _ & _ & _ & _ & ->). by apply same_messages.
  - apply ApplyWorkerLifecyclePage_effect in Hcall as (_ & _ & _ & _ & db1 & Happ & _ & _ & _ & ->); [|apply Hinv..].
    destruct (sp_only _ _ _ _ Happ) as (T & S & -> & _). by apply same_messages.
Qed.

Lemma result_messages db db' : store_inv db -> result_call db db' -> mail_call db db'.
Proof.
  intros Hinv Hcall. apply result_call_change in Hcall; [|apply Hinv..].
  destruct (result_change_rest _ _ Hcall) as [(_ & Hm & _) _]. apply same_messages, Hm.
Qed.

(** Every step of the store is one the server takes. *)
Lemma store_step_messages db db' : store_inv db -> store_step db db' -> mail_call db db'.
Proof.
  intros Hinv []; try (apply run_tx_keeps; [apply _|]; intros ? ? Hcall); try (eapply result_messages; [done|econstructor; exact Hcall]).
  - by apply work_step_messages; [apply Hinv|].
  - apply PublishChangesArtifact_effect in Hcall as (_ & _ & _ & _ & authority & m & _ & _ & _ & _ & Hcase); [|apply Hinv..].
    destruct Hcase as [[-> _]|(kt & tr & _ & _ & _ & _ & _ & _ & ->)]; [done|by apply same_messages].
Qed.

(** ** Messages beyond a cursor *)

Definition pending_after (m : mailboxKey) (cursor : Z) (db : DB) : Prop := exists seq, cursor < seq /\ is_Some (db.(mailbox_messages) !! (m, seq)).

Lemma pending_quiet m cursor db db' : db'.(mailbox_messages) ⊆ db.(mailbox_messages) -> pending_after m cursor db' -> pending_after m cursor db.
Proof. intros Hsub (seq & Hlt & r & Hr). exists seq. split; [done|]. exists r. by eapply lookup_weaken. Qed.

Lemma sendTx_pending source target id message ts db d db' m cursor :
  mail_inv db -> Principal_Validate source = Ok tt -> valid_id id -> ValidateMailboxMessage message = Ok tt -> 0 <= ts ->
  sendMailboxMessageTx source target id message ts db = Ok (d, db') -> pending_after m cursor db' ->
  pending_after m cursor db \/ m = (p_ControllerID source, p_TreeID source, d.(md_RecipientAgentID)).
Proof.
  intros Hinv Hp Hid Hmsg Hts Hsend (seq & Hlt & r & Hr).
  destruct (sendTx_Ok _ _ _ _ _ _ _ _ Hinv Hp Hid Hmsg Hts Hsend) as (_ & [(rc & _ & _ & ->)|(_ & _ & _ & _ & kept & _ & ->)]).
  - left. exists seq. eauto.
  - simpl in Hr. apply lookup_insert_Some in Hr as [[[= <- _] _]|[_ Hr]]; [by right|left; exists seq; eauto].
Qed.

Lemma SendMailboxMessage_pending source target id message at_ db d db' m cursor :
  mail_inv db -> SendMailboxMessage source target id message at_ db = Ok (d, db') -> pending_after m cursor db' ->
  pending_after m cursor db \/ m = (p_ControllerID source, p_TreeID source, d.(md_RecipientAgentID)).
Proof. intros Hinv (Hp & _ & Hid & Hmsg & Hat & Hsend)%SendMailboxMessage_Ok. by eapply sendTx_pending. Qed.

Lemma QueueAgentMessage_pending key message at_ db receipt d db' m cursor :
  mail_inv db -> QueueAgentMessageAndFinishOperation key message at_ db = Ok ((receipt, d), db') -> pending_after m cursor db' ->
  pending_after m cursor db \/ m = notifyAgentMailbox receipt.
Proof.
  intros Hinv H Hpend. apply QueueAgentMessage_effect in H as (Hk & Hm & Hq & _ & _ & _ & Hcases); [|done].
  destruct Hcases as [[-> _]|(source & delivery & db1 & r & _ & Hsrc & _ & Hsend & Hat & _ & Hr & -> & _)]; [by left|].
  pose proof (queryPrincipal_Ok _ _ _ _ _ Hsrc) as (pr & _ & Hpi & Hvs). apply operation_key_ids in Hk as Hid.
  destruct (sendTx_pending _ _ _ _ _ _ _ _ m cursor Hinv Hvs Hid Hm Hat Hsend Hpend) as [?| ->]; [by left|right].
  destruct (sendTx_recipient _ _ _ _ _ _ _ _ Hsend) as (s & _ & Hres). apply resolve_agent in Hres.
  apply queryAgentOperationReceipt_Ok in Hq as (r' & p' & Hr' & _ & -> & _).
  cbn [agent_operation_receipts finished set_controller_lifetime_counters set_agent_operation_receipts] in Hr'.
  rewrite lookup_insert_eq in Hr'. injection Hr' as <-. unfold notifyAgentMailbox, p_ControllerID, p_TreeID. rewrite Hpi. simpl. congruence.
Qed.

(** What a read that returns nothing has seen. *)
Lemma empty_page cursor n m db : 0 <= cursor -> 1 <= n -> queue_page cursor n (queue m db) = [] -> ~ pending_after m cursor db.
Proof.
  intros Hc Hn Hq (seq & Hlt & r & Hr). unfold queue_page, limit in Hq.
  assert ((seq, r) ∈ filter (fun x : Z * MessageRow => cursor < x.1) (queue m db).(q_pending)) as Hin.
  { apply list_elem_of_filter. split; [done|]. simpl. apply list_elem_of_fmap. exists ((m, seq), r). split; [done|].
    apply elem_of_message_rows. simpl. split_and!; [done|done|lia]. }
  destruct (filter _ _) as [|x l]; [set_solver|]. destruct (Z.to_nat n) eqn:E; [lia|done].
Qed.

(** ** The invariant *)

Definition phase_sub (phase : wait_phase) : option nat :=
  match phase with Reading s | Deciding s _ | Blocked s _ => Some s | _ => None end.

(** The wait has seen no message, and will sleep or does. *)
Definition awaiting (phase : wait_phase) : Prop :=
  match phase with Deciding _ r => r.(wmr_Messages) = [] | Blocked _ _ => True | _ => False end.

(** The subscriptions the waits hold. *)
Definition held (st : Server) : list nat := omap (fun x => phase_sub x.2) st.(sr_waits) ++ st.(sr_agent_waits).

Definition live (subs : list (Subscription mailboxKey)) (s : nat) : Prop := exists u, subs !! s = Some u /\ u.(su_released) = false.

(** Each is held once, and these are the ones that have not been released. *)
Definition live_inv (ss : list nat) (subs : list (Subscription mailboxKey)) : Prop := NoDup ss /\ forall s, s ∈ ss <-> live subs s.

(** The channel of the subscription is closed, or a notification that is under way or due
    will close it. *)
Definition owed (st : Server) (m : mailboxKey) (s : nat) : Prop :=
  woken s st.(sr_notifier) \/
  (exists u, st.(sr_notifier).(nt_subscriptions) !! s = Some u /\ u.(su_watch) ∈ st.(sr_closing)) \/
  m ∈ st.(sr_notifying).

(** The caller is known and its parameters were checked. *)
Definition call_ok (call : WaitCall) (db : DB) : Prop :=
  WaitMailboxParams_Validate call.(wc_Params) = Ok tt /\ 0 <= call.(wc_Params).(wmp_Cursor) /\
  Principal_Validate call.(wc_Principal) = Ok tt /\ exists s, stored_principal call.(wc_Principal) db = Ok s.

Record wait_ok (st : Server) (call : WaitCall) (phase : wait_phase) : Prop := {
  wt_call : call_ok call st.(sr_db);
  wt_key : forall s, phase_sub phase = Some s -> exists u, st.(sr_notifier).(nt_subscriptions) !! s = Some u /\ u.(su_key) = call_key call;
  wt_owed : forall s, phase_sub phase = Some s -> awaiting phase ->
    pending_after (call_key call) call.(wc_Params).(wmp_Cursor) st.(sr_db) -> owed st (call_key call) s;
}.

Record server_inv (st : Server) : Prop := {
  sv_store : store_inv st.(sr_db);
  sv_notifier : notifier_inv st.(sr_notifier) st.(sr_closing);
  sv_held : live_inv (held st) st.(sr_notifier).(nt_subscriptions);
  sv_waits : forall i call phase, st.(sr_waits) !! i = Some (call, phase) -> wait_ok st call phase;
}.

Lemma new_server_inv db : store_inv db -> server_inv (new_server db).
Proof.
  intros H. split; simpl; [done|apply newNotifier_inv| |done]. split; [constructor|].
  intros s. split; [unfold held; simpl; set_solver|by intros (u & Hu & _)].
Qed.

(** Subscriptions keep their key and their watch. *)
Definition subs_kept (subs subs' : list (Subscription mailboxKey)) : Prop := forall s u, subs !! s = Some u ->
  exists u', subs' !! s = Some u' /\ u'.(su_key) = u.(su_key) /\ u'.(su_watch) = u.(su_watch).

Definition closed_kept (n n' : Notifier mailboxKey) : Prop :=
  forall l : nat, wk_closed <$> n.(nt_heap) !! l = Some true -> wk_closed <$> n'.(nt_heap) !! l = Some true.

Lemma owed_kept st st' m s :
  subs_kept st.(sr_notifier).(nt_subscriptions) st'.(sr_notifier).(nt_subscriptions) -> closed_kept st.(sr_notifier) st'.(sr_notifier) ->
  (forall l, l ∈ st.(sr_closing) -> l ∈ st'.(sr_closing) \/ wk_closed <$> st'.(sr_notifier).(nt_heap) !! l = Some true) ->
  (m ∈ st.(sr_notifying) -> m ∈ st'.(sr_notifying)) -> owed st m s -> owed st' m s.
Proof.
  intros Hs Hc Hcl Hn [Hw|[(u & Hu & Hin)|Hin]].
  - left. unfold woken in *. destruct (_ !! s) as [u|] eqn:E; [|done]. destruct (Hs _ _ E) as (u' & -> & _ & ->). by apply Hc.
  - destruct (Hs _ _ Hu) as (u' & Hu' & _ & Hw). destruct (Hcl _ Hin) as [?|?]; [right; left; exists u'; by rewrite Hw|].
    left. unfold woken. by rewrite Hu', Hw.
  - right. right. by apply Hn.
Qed.

Lemma stored_principal_history p s db db' :
  store_inv db -> store_inv db' -> history db db' -> stored_principal p db = Ok s -> stored_principal p db' = Ok s.
Proof.
  intros Hinv Hinv' Hh. unfold stored_principal.
  pose proof (queryPrincipal_inv (p_ControllerID p) (p_TreeID p) (p_AgentID p) db (wo_trees _ (st_work _ Hinv))) as H1.
  pose proof (queryPrincipal_inv (p_ControllerID p) (p_TreeID p) (p_AgentID p) db' (wo_trees _ (st_work _ Hinv'))) as H2.
  destruct (principals db !! _) as [r|] eqn:E; [|by rewrite H1].
  destruct (wh_principals _ _ (hi_work _ _ Hh) _ _ E) as (r' & E' & <-). rewrite E' in H2. by rewrite H1, H2.
Qed.

Lemma wait_ok_kept st st' call phase :
  wait_ok st call phase -> store_inv st.(sr_db) -> store_inv st'.(sr_db) -> history st.(sr_db) st'.(sr_db) ->
  subs_kept st.(sr_notifier).(nt_subscriptions) st'.(sr_notifier).(nt_subscriptions) ->
  (forall s, phase_sub phase = Some s -> pending_after (call_key call) call.(wc_Params).(wmp_Cursor) st'.(sr_db) ->
     (pending_after (call_key call) call.(wc_Params).(wmp_Cursor) st.(sr_db) -> owed st (call_key call) s) -> owed st' (call_key call) s) ->
  wait_ok st' call phase.
Proof.
  intros [(C1 & C2 & C3 & p & C4) Hk Ho] Hinv Hinv' Hh Hs Howed. split.
  - split_and!; [done|done|done|]. exists p. by apply (stored_principal_history _ _ st.(sr_db)).
  - intros s Hps. destruct (Hk _ Hps) as (u & Hu & Hkey). destruct (Hs _ _ Hu) as (u' & Hu' & E & _). exists u'. by rewrite E.
  - intros s Hps Haw Hpend. apply Howed; [done|done|]. by apply Ho.
Qed.

(** ** Holding subscriptions *)

#[global] Instance live_inv_proper : Proper ((≡ₚ) ==> eq ==> iff) live_inv.
Proof. intros ss ss' E subs ? <-. unfold live_inv. rewrite E. by setoid_rewrite E. Qed.

Lemma live_acquire ss subs u : live_inv ss subs -> u.(su_released) = false -> live_inv (length subs :: ss) (subs ++ [u]).
Proof.
  intros [Hn Hl] Hu. split.
  - constructor; [|done]. intros (v & Hv & _)%Hl. apply lookup_lt_Some in Hv. lia.
  - intros s. rewrite elem_of_cons, Hl. unfold live. split.
    + intros [->|(v & Hv & Hr)].
      * exists u. rewrite lookup_app_r, Nat.sub_diag by lia. done.
      * exists v. split; [by apply lookup_app_l_Some|done].
    + intros (v & [Hv|[Hlen [Hz <-]%list_lookup_singleton_Some]]%lookup_app_Some & Hr); [right; eauto|left; lia].
Qed.

Lemma live_release ss subs s u : live_inv (s :: ss) subs -> subs !! s = Some u -> live_inv ss (<[s := released u]> subs).
Proof.
  intros [Hn Hl] Hu. apply NoDup_cons in Hn as [Hns Hn]. split; [done|]. intros s'. unfold live. destruct (decide (s' = s)) as [->|Hne].
  - split; [done|]. intros (v & Hv & Hr). rewrite list_lookup_insert_eq in Hv by (by eapply lookup_lt_Some). injection Hv as <-. done.
  - rewrite list_lookup_insert_ne by done. rewrite <- (Hl s'). set_solver.
Qed.

(** What releasing a live subscription does. *)
Lemma release_live (s : nat) (n : Notifier mailboxKey) (u : Subscription mailboxKey) : n.(nt_subscriptions) !! s = Some u -> u.(su_released) = false ->
  (release s n).(nt_subscriptions) = <[s := released u]> n.(nt_subscriptions).
Proof. intros Hu Hr. unfold release. rewrite Hu, Hr. by case_decide. Qed.

Lemma subs_kept_refl subs : subs_kept subs subs.
Proof. intros s u Hu. by exists u. Qed.
Lemma subs_kept_app subs u : subs_kept subs (subs ++ [u]).
Proof. intros s v Hv. exists v. split; [by apply lookup_app_l_Some|done]. Qed.
Lemma subs_kept_release subs s u : subs !! s = Some u -> subs_kept subs (<[s := released u]> subs).
Proof.
  intros Hu s' v Hv. destruct (decide (s' = s)) as [->|Hne].
  - rewrite list_lookup_insert_eq by (by eapply lookup_lt_Some). exists (released u). split; [done|]. rewrite Hu in Hv. by injection Hv as <-.
  - rewrite list_lookup_insert_ne by done. by exists v.
Qed.

Lemma omap_insert {A B} (f : A -> option B) (l : list A) i x y :
  l !! i = Some x -> exists rest, omap f l ≡ₚ option_list (f x) ++ rest /\ omap f (<[i := y]> l) ≡ₚ option_list (f y) ++ rest.
Proof.
  intros Hi. exists (omap f (take i l) ++ omap f (drop (S i) l)).
  assert (forall z, omap f (take i l ++ z :: drop (S i) l) ≡ₚ option_list (f z) ++ omap f (take i l) ++ omap f (drop (S i) l)) as H.
  { intros z. rewrite omap_app. cbn [omap list_omap]. destruct (f z); simpl; [|done]. symmetry. apply Permutation_middle. }
  split.
  - rewrite <- (take_drop_middle l i x Hi) at 1. apply H.
  - rewrite insert_take_drop by (by eapply lookup_lt_Some). apply H.
Qed.

(** ** Every step keeps the invariant *)

(** A change of the store, with the notifications it asks for. *)
Lemma db_step_inv st db keys :
  server_inv st -> store_inv db -> history st.(sr_db) db ->
  (forall m cursor, pending_after m cursor db -> pending_after m cursor st.(sr_db) \/ m ∈ keys) ->
  server_inv (add_notify keys (set_db db st)).
Proof.
  intros [I1 I2 I3 I4] Hinv Hh Hp. split; [done|done|done|]. intros i call phase Hi.
  apply (wait_ok_kept st); [by eapply I4|done|done|done|apply subs_kept_refl|]. intros s Hs Hpend Howed.
  destruct (Hp _ _ Hpend) as [Hold|Hin]; [|right; right; simpl; set_solver].
  apply (owed_kept st); simpl; [apply subs_kept_refl|by intros l|intros l Hl; by left|set_solver|by apply Howed].
Qed.

(** A committed transaction is a step of the store. *)
Lemma commit_keeps {A} (m : Tx DB A) db a db' :
  store_inv db -> m db = Ok (a, db') -> store_step db (run_tx m db).2 -> store_inv db' /\ history db db'.
Proof.
  intros Hinv E Hstep. apply store_step_keeps in Hstep. unfold run_tx in Hstep. rewrite E in Hstep. by apply Hstep.
Qed.

Lemma run_send_inv deviceID request decoded admitted now st : server_inv st -> server_inv (run_send deviceID request decoded admitted now st).
Proof.
  intros Hi. assert (server_inv (add_notify [] (set_db st.(sr_db) st))) as Hnone by (apply db_step_inv; [done|apply Hi|done|by left]).
  unfold run_send, handleSendMessage. destruct (authorizeMailbox _ _ _ _) as [p|]; [|done]. destruct decoded as [params|]; [|done].
  destruct (decide _); [done|]. destruct admitted; [|done]. destruct (SendMailboxMessage _ _ _ _ _ _) as [[d db]|e] eqn:E; [|done].
  destruct (commit_keeps _ _ _ _ (sv_store _ Hi) E (step_work _ _ (step_SendMailboxMessage _ _ _ _ _ _))) as [Hinv Hh].
  apply db_step_inv; [done|done|done|]. intros m cursor Hpend. apply (SendMailboxMessage_pending _ _ _ _ _ _ _ _ m cursor) in E; [|apply Hi|done].
  destruct E as [?| ->]; [by left|right; set_solver].
Qed.

Lemma run_queue_inv key message now st : server_inv st -> server_inv (run_queue key message now st).
Proof.
  intros Hi. unfold run_queue. destruct (QueueAgentMessageAndFinishOperation _ _ _ _) as [[[receipt d] db]|e] eqn:E; [|done].
  destruct (commit_keeps _ _ _ _ (sv_store _ Hi) E (step_work _ _ (step_QueueAgentMessage _ _ _ _))) as [Hinv Hh].
  apply db_step_inv; [done|done|done|]. intros m cursor Hpend. apply (QueueAgentMessage_pending _ _ _ _ _ _ _ m cursor) in E; [|apply Hi|done].
  destruct E as [?| ->]; [by left|right; set_solver].
Qed.

(** A wait that is let in is one of a known principal. *)
Lemma begin_wait_ok deviceID request decoded db call :
  store_inv db -> (forall params, decoded = Ok params -> 0 <= params.(wmp_Cursor)) -> begin_wait deviceID request decoded db = inl call ->
  call_ok call db.
Proof.
  intros Hinv Hc. unfold begin_wait. destruct (authorizeMailbox _ _ _ _) as [p|] eqn:Ha; [|done]. destruct decoded as [params|]; [|done].
  destruct (decide _) as [|Hv]; [done|]. intros [= <-]. apply not_false_iff_true, is_ok_true in Hv as [[] Hv].
  unfold authorizeMailbox in Ha. destruct (ev_Source request) as [source|]; [|done]. do 2 (destruct (decide _); [done|]).
  destruct (AuthorizePrincipal _ _ _) as [p'|e] eqn:E; [|by destruct (errors_Is e _)]. injection Ha as ->.
  unfold AuthorizePrincipal in E. apply reject_Ok in E as [_ E]. apply reject_Ok in E as [_ E].
  pose proof (wo_trees _ (st_work _ Hinv)) as Ht. rewrite (authorizePrincipal_eq _ _ _ Ht) in E.
  pose proof (queryPrincipal_inv source.(pi_ControllerID) source.(pi_TreeID) source.(pi_AgentID) db Ht) as Hq.
  destruct (principals db !! _) as [r|] eqn:Er; [|done]. destruct (decide _) as [[Hid _]|]; [|done]. injection E as <-.
  split_and!; [done|by apply Hc| |].
  - apply queryPrincipal_Ok in Hq as (r' & _ & _ & Hv'). simpl in *. by rewrite Hid in Hv'.
  - eexists. unfold stored_principal. change (queryPrincipal _ _ _ db) with (queryPrincipal source.(pi_ControllerID) source.(pi_TreeID) source.(pi_AgentID) db).
    rewrite Hq.
    unfold Principal_Matches. cbn [p_Identity]. rewrite Hid, bool_decide_true by done. by rewrite decide_False.
Qed.

Lemma run_begin_inv deviceID request decoded st :
  (forall params, decoded = Ok params -> 0 <= params.(wmp_Cursor)) -> server_inv st -> server_inv (run_begin deviceID request decoded st).
Proof.
  intros Hc Hi. unfold run_begin. destruct (begin_wait _ _ _ _) as [call|] eqn:E; [|done]. destruct Hi as [I1 I2 I3 I4].
  apply begin_wait_ok in E; [|done|done]. split; simpl; [done|done| |].
  - unfold held. simpl. rewrite omap_app. simpl. by rewrite app_nil_r.
  - intros i call' phase [Hi|[_ [_ [= <- <-]]%list_lookup_singleton_Some]]%lookup_app_Some; [|by split].
    destruct (I4 _ _ _ Hi) as [W1 W2 W3]. by split.
Qed.

(** One wait moves. *)
Lemma move_inv st i call phase phase' db n :
  server_inv st -> st.(sr_waits) !! i = Some (call, phase) -> store_inv db -> history st.(sr_db) db ->
  (forall m cursor, pending_after m cursor db -> pending_after m cursor st.(sr_db)) -> notifier_inv n st.(sr_closing) ->
  subs_kept st.(sr_notifier).(nt_subscriptions) n.(nt_subscriptions) -> closed_kept st.(sr_notifier) n ->
  (forall rest, live_inv (option_list (phase_sub phase) ++ rest) st.(sr_notifier).(nt_subscriptions) ->
     live_inv (option_list (phase_sub phase') ++ rest) n.(nt_subscriptions)) ->
  (forall s, phase_sub phase' = Some s -> exists u, n.(nt_subscriptions) !! s = Some u /\ u.(su_key) = call_key call) ->
  let st' := set_waits db n (<[i := (call, phase')]> st.(sr_waits)) st in
  (forall s, phase_sub phase' = Some s -> awaiting phase' -> pending_after (call_key call) call.(wc_Params).(wmp_Cursor) db -> owed st' (call_key call) s) ->
  server_inv st'.
Proof.
  intros Hi Hw Hinv Hh Hp Hn Hs Hc Hlive Hkey st' Howed. pose proof Hi as [I1 I2 I3 I4].
  assert (forall call phase, wait_ok st call phase -> wait_ok st' call phase) as Hother.
  { intros call1 phase1 Hok. apply (wait_ok_kept st); [done|done|done|done|done|]. intros s _ Hpend Ho.
    apply (owed_kept st); [done|done|intros l Hl; by left|done|]. by apply Ho, Hp. }
  split; [done|done| |].
  - destruct (omap_insert (fun x : WaitCall * wait_phase => phase_sub x.2) _ _ _ (call, phase') Hw) as (rest & E1 & E2). simpl in E1, E2.
    unfold held, st'. simpl. rewrite E2, <- app_assoc. apply Hlive. revert I3. unfold held. by rewrite E1, <- app_assoc.
  - intros j call1 phase1 Hj. simpl in Hj. destruct (decide (j = i)) as [->|Hne].
    + rewrite list_lookup_insert_eq in Hj by (by eapply lookup_lt_Some). injection Hj as <- <-.
      destruct (Hother _ _ (I4 _ _ _ Hw)) as [W1 _ _]. by split.
    + rewrite list_lookup_insert_ne in Hj by done. apply Hother. by eapply I4.
Qed.

(** A wait lets go of its subscription. *)
Lemma letgo_inv st i call phase phase' s :
  server_inv st -> st.(sr_waits) !! i = Some (call, phase) -> phase_sub phase = Some s -> phase_sub phase' = None ->
  server_inv (set_waits st.(sr_db) (release s st.(sr_notifier)) (<[i := (call, phase')]> st.(sr_waits)) st).
Proof.
  intros Hi Hw Hs Hs'. destruct (wt_key _ _ _ (sv_waits _ Hi _ _ _ Hw) _ Hs) as (u & Hu & _).
  assert (s ∈ held st) as Hin.
  { apply elem_of_app. left. apply list_elem_of_omap. exists (call, phase). split; [by eapply list_elem_of_lookup_2|done]. }
  apply (proj2 (sv_held _ Hi)) in Hin as (u' & Hu' & Hr). rewrite Hu in Hu'. injection Hu' as <-.
  apply (move_inv st i call phase); try done; [apply Hi|by apply release_inv, Hi| | | | |].
  - rewrite (release_live _ _ u) by done. by apply subs_kept_release.
  - intros l. by rewrite (proj2 (release_heap s st.(sr_notifier))).
  - intros rest. rewrite Hs, Hs', (release_live _ _ u) by done. simpl. intros H. by apply live_release.
  - intros s0. by rewrite Hs'.
  - intros s0. by rewrite Hs'.
Qed.

(** Reading: a wait that found nothing has nothing to be woken for yet. *)
Lemma read_inv st i call s r db :
  server_inv st -> st.(sr_waits) !! i = Some (call, Reading s) ->
  ReadMailbox call.(wc_Principal) call.(wc_Params).(wmp_Cursor) call.(wc_Params).(wmp_Limit) st.(sr_db) = Ok (r, db) ->
  server_inv (set_waits db st.(sr_notifier) (<[i := (call, Deciding s r)]> st.(sr_waits)) st).
Proof.
  intros Hi Hw Hread. destruct (sv_waits _ Hi _ _ _ Hw) as [(C1 & C2 & C3 & p & C4) Hkey _].
  destruct (commit_keeps _ _ _ _ (sv_store _ Hi) Hread (step_work _ _ (step_ReadMailbox _ _ _ _ C2))) as [Hinv Hh].
  assert (db.(mailbox_messages) ⊆ st.(sr_db).(mailbox_messages)) as Hsub.
  { destruct (ReadMailbox_effect _ _ _ _ _ _ Hread) as [->|(m & _ & ->)]; [done|]. apply map_subseteq_spec. by intros k v [? _]%lookup_acknowledge. }
  apply (move_inv st i call (Reading s)); try done; [by intros m cursor; apply pending_quiet|apply Hi|apply subs_kept_refl|by intros l|].
  intros s0 _ Haw Hpend. exfalso. apply (pending_quiet _ _ st.(sr_db)) in Hpend; [|done]. revert Hpend. simpl in Haw.
  unfold WaitMailboxParams_Validate in C1. apply reject_Ok in C1 as [C5 C1]. apply reject_Ok in C1 as [_ C1]. apply reject_Ok in C1 as [C6 _].
  rewrite (ReadMailbox_eq _ _ _ p) in Hread; [|apply Hi|done|lia|lia|done]. destruct (decide _) in Hread; [done|]. injection Hread as <- _.
  simpl in Haw. apply fmap_nil_inv in Haw. apply (empty_page _ call.(wc_Params).(wmp_Limit)); [lia|lia|done].
Qed.

Lemma run_wait_inv ev i st : server_inv st -> server_inv (run_wait ev i st).
Proof.
  intros Hi. unfold run_wait. destruct (sr_waits st !! i) as [[call phase]|] eqn:Hw; [|done].
  destruct (sv_waits _ Hi _ _ _ Hw) as [Hcall Hkey Howed].
  destruct phase as [|s|s r|s r|r|e|], ev; simpl; try done; try (by eapply letgo_inv).
  - destruct (subscribe (call_key call) st.(sr_notifier)) as [s n] eqn:E.
    destruct (subscribe_inv _ _ _ _ _ (sv_notifier _ Hi) E) as (Hn & -> & (l & Hl & Hsubs) & Hc).
    apply (move_inv st i call Subscribing); try done; [apply Hi| | |].
    + rewrite Hsubs. apply subs_kept_app.
    + intros rest H. rewrite Hsubs. simpl in *. by apply live_acquire.
    + intros s [= <-]. rewrite Hsubs. eexists. rewrite lookup_app_r, Nat.sub_diag by lia. done.
  - destruct (ReadMailbox _ _ _ _) as [[r db]|e] eqn:E; [by eapply read_inv|by eapply letgo_inv].
  - destruct (decide _) as [|Hd]; [by eapply letgo_inv|].
    apply (move_inv st i call (Deciding s r)); try done; [apply Hi|apply Hi|apply subs_kept_refl|by intros l|].
    intros s0 Hs0 _ Hpend. apply (owed_kept st); [apply subs_kept_refl|by intros l|intros l Hl; by left|done|].
    apply Howed; [done| |done]. simpl. apply nil_length_inv. lia.
  - destruct (decide _) as [Hwk|Hwk]; [by eapply letgo_inv|done].
Qed.

Lemma run_agent_subscribe_inv key st : server_inv st -> server_inv (run_agent_subscribe key st).
Proof.
  intros Hi. pose proof Hi as [I1 I2 I3 I4]. unfold run_agent_subscribe. destruct (subscribe key st.(sr_notifier)) as [s n] eqn:E.
  destruct (subscribe_inv _ _ _ _ _ I2 E) as (Hn & -> & (l & Hl & Hsubs) & Hc). split; [done|done| |].
  - unfold held. simpl. rewrite Hsubs, <- Permutation_middle. by apply live_acquire.
  - intros i call phase Hw. simpl in Hw. apply (wait_ok_kept st); try done; [by eapply I4|simpl; rewrite Hsubs; apply subs_kept_app|].
    intros s _ Hpend Ho. apply (owed_kept st); [simpl; rewrite Hsubs; apply subs_kept_app|done|intros x Hx; by left|done|by apply Ho].
Qed.

Lemma run_agent_release_inv j st : server_inv st -> server_inv (run_agent_release j st).
Proof.
  intros Hi. pose proof Hi as [I1 I2 I3 I4]. unfold run_agent_release. destruct (sr_agent_waits st !! j) as [s|] eqn:Ej; [|done].
  assert (s ∈ held st) as Hin by (apply elem_of_app; right; by eapply list_elem_of_lookup_2).
  apply (proj2 I3) in Hin as (u & Hu & Hr).
  assert (subs_kept st.(sr_notifier).(nt_subscriptions) (release s st.(sr_notifier)).(nt_subscriptions)) as Hkept
    by (rewrite (release_live _ _ u) by done; by apply subs_kept_release).
  split; [done|by apply release_inv| |].
  - unfold held. simpl. rewrite (release_live _ _ u) by done. apply live_release; [|done]. revert I3. unfold held.
    rewrite <- (take_drop_middle _ _ _ Ej) at 1. rewrite delete_take_drop, app_assoc, <- Permutation_middle, <- app_assoc. done.
  - intros i call phase Hw. simpl in Hw. apply (wait_ok_kept st); try done; [by eapply I4|].
    intros s0 _ Hpend Ho. apply (owed_kept st); [done| |intros x Hx; by left|done|by apply Ho].
    intros l. simpl. by rewrite (proj2 (release_heap s st.(sr_notifier))).
Qed.

(** A notification that takes its watch owes the wake-up to every waiter of the key. *)
Lemma run_take_inv j st : server_inv st -> server_inv (run_take j st).
Proof.
  intros Hi. pose proof Hi as [I1 I2 I3 I4]. unfold run_take. destruct (sr_notifying st !! j) as [key|] eqn:Ej; [|done].
  destruct (notify_take key st.(sr_notifier)) as [o n] eqn:E. destruct (notify_take_inv _ _ _ _ _ I2 E) as (Hn & Hsubs & Hheap & Hgone).
  assert (forall l, l ∈ st.(sr_closing) -> l ∈ option_list o ++ st.(sr_closing)) as Hcl by set_solver.
  assert (notifier_inv n (option_list o ++ st.(sr_closing))) as Hn' by (by destruct o).
  split; [done|done| |].
  - unfold held. simpl. rewrite Hsubs. exact I3.
  - intros i call phase Hw. simpl in Hw. pose proof (I4 _ _ _ Hw) as Hok.
    apply (wait_ok_kept st); try done; [simpl; rewrite Hsubs; apply subs_kept_refl|].
    intros s Hs Hpend Ho. destruct (decide (call_key call = key)) as [Ek|Hne].
    + destruct (wt_key _ _ _ Hok _ Hs) as (u & Hu & Hku).
      assert (s ∈ held st) as Hin.
      { apply elem_of_app. left. apply list_elem_of_omap. exists (call, phase). split; [by eapply list_elem_of_lookup_2|done]. }
      apply (proj2 I3) in Hin as (u' & Hu' & Hr). rewrite Hu in Hu'. injection Hu' as <-.
      assert (n.(nt_subscriptions) !! s = Some u) as Hun by (by rewrite Hsubs).
      destruct (ni_held _ _ (ni_core _ _ Hn') _ _ Hun Hr) as [Hm|[Hin|Hc]].
      * rewrite Hku, Ek, Hgone in Hm. done.
      * right. left. exists u. done.
      * left. unfold woken. simpl. by rewrite Hun.
    + apply (owed_kept st); simpl; [rewrite Hsubs; apply subs_kept_refl|intros l; simpl; by rewrite Hheap|intros l Hl; left; by apply Hcl| |by apply Ho].
      rewrite <- (take_drop_middle _ _ _ Ej) at 1. rewrite delete_take_drop, !elem_of_app, elem_of_cons. naive_solver.
Qed.

(** Closing never meets a closed channel. *)
Lemma run_close_inv j st : server_inv st -> server_inv (run_close j st).
Proof.
  intros Hi. pose proof Hi as [I1 I2 I3 I4]. unfold run_close. destruct (sr_closing st !! j) as [l|] eqn:Ej; [|done].
  pose proof I2 as I2'. rewrite <- (take_drop_middle _ _ _ Ej) in I2'.
  destruct (notify_close_inv _ _ _ _ I2') as (n & -> & Hn & Hsubs & _ & Hcl). split; [done| | |].
  - simpl. by rewrite delete_take_drop.
  - unfold held. simpl. rewrite Hsubs. exact I3.
  - intros i call phase Hw. simpl in Hw. apply (wait_ok_kept st); try done; [by eapply I4|simpl; rewrite Hsubs; apply subs_kept_refl|].
    intros s _ Hpend Ho. apply (owed_kept st); simpl; [rewrite Hsubs; apply subs_kept_refl| | |done|by apply Ho].
    + intros l'. simpl. rewrite Hcl. by case_decide.
    + intros l' Hl'. rewrite Hcl. case_decide as Hd; [by right|left].
      rewrite <- (take_drop_middle _ _ _ Ej) in Hl'. rewrite delete_take_drop. set_solver.
Qed.

Lemma notify_step_inv st st' : notify_step st st' -> server_inv st -> server_inv st'.
Proof. intros []; [apply run_take_inv|apply run_close_inv]. Qed.

Lemma server_step_inv st st' : server_step st st' -> server_inv st -> server_inv st'.
Proof.
  intros [db Hstep Hsub|? ? ? ? ?|? ? ?|key|? ? ? Hc|? ?|?|?|? Hn] Hi.
  - destruct (store_step_keeps _ _ Hstep (sv_store _ Hi)) as [Hinv Hh].
    apply (db_step_inv st db []); [done|done|done|]. intros m cursor Hp. left. by eapply pending_quiet.
  - by apply run_send_inv.
  - by apply run_queue_inv.
  - apply (db_step_inv st st.(sr_db) [key]); [done|apply Hi|done|by left].
  - by apply run_begin_inv.
  - by apply run_wait_inv.
  - by apply run_agent_subscribe_inv.
  - by apply run_agent_release_inv.
  - by eapply notify_step_inv.
Qed.

Lemma server_reachable_inv st : server_reachable st -> server_inv st.
Proof.
  intros (db & Hdb & Hsteps). apply reachable_inv, new_server_inv in Hdb. revert Hdb.
  induction Hsteps as [|x y z Hxy _ IH]; [done|]. intros Hx. by apply IH, (server_step_inv x).
Qed.

(** ** Waking up *)

(** Notifications touch neither the store nor who waits. *)
Definition aside (st st' : Server) : Prop :=
  st'.(sr_db) = st.(sr_db) /\ st'.(sr_waits) = st.(sr_waits) /\
  st'.(sr_notifier).(nt_subscriptions) = st.(sr_notifier).(nt_subscriptions).

#[global] Instance aside_refl : Reflexive aside.
Proof. intros st. done. Qed.
#[global] Instance aside_trans : Transitive aside.
Proof. intros a b c (A1 & A2 & A3) (B1 & B2 & B3). unfold aside. by rewrite B1, B2, B3. Qed.

Lemma closing_finishes st : server_inv st ->
  exists st', rtc notify_step st st' /\ st'.(sr_closing) = [] /\ st'.(sr_notifying) = st.(sr_notifying) /\ aside st st' /\ server_inv st'.
Proof.
  remember st.(sr_closing) as closing eqn:E. revert st E. induction closing as [|l closing IH]; intros st E Hi; [by exists st|].
  assert (server_inv (run_close 0 st)) as Hi1 by (by apply run_close_inv).
  assert (exists n, notify_close l st.(sr_notifier) = Some n /\ n.(nt_subscriptions) = st.(sr_notifier).(nt_subscriptions)) as (n & Hn & Hsubs).
  { destruct (notify_close_inv l st.(sr_notifier) [] closing) as (n & Hn & _ & Hsubs & _); [|eauto]. rewrite <- (app_nil_l (l :: closing)), E. apply Hi. }
  assert (run_close 0 st = {| sr_db := st.(sr_db); sr_notifier := n; sr_waits := st.(sr_waits); sr_agent_waits := st.(sr_agent_waits);
    sr_notifying := st.(sr_notifying); sr_closing := closing |}) as Hrun by (unfold run_close; rewrite <- E; simpl; by rewrite Hn).
  destruct (IH (run_close 0 st)) as (st' & Hsteps & Hc & Hk & Ha & Hi'); [by rewrite Hrun|done|].
  exists st'. split; [eapply rtc_l; [apply (notify_closes st 0)|done]|]. split; [done|]. split; [by rewrite Hk, Hrun|]. split; [|done].
  etrans; [|exact Ha]. rewrite Hrun. by split_and!.
Qed.

Lemma notifications_finish st : server_inv st ->
  exists st', rtc notify_step st st' /\ st'.(sr_closing) = [] /\ st'.(sr_notifying) = [] /\ aside st st' /\ server_inv st'.
Proof.
  remember st.(sr_notifying) as keys eqn:E. revert st E. induction keys as [|key keys IH]; intros st E Hi.
  - destruct (closing_finishes st Hi) as (st' & H1 & H2 & H3 & H4 & H5). exists st'. by rewrite H3.
  - pose proof (run_take_inv 0 st Hi) as Hi1.
    assert (sr_notifying (run_take 0 st) = keys /\ aside st (run_take 0 st)) as [Hk Ha].
    { unfold run_take. rewrite <- E. simpl. destruct (notify_take key st.(sr_notifier)) as [o n] eqn:En. unfold notify_take in En. injection En as <- <-. done. }
    destruct (IH (run_take 0 st)) as (st' & H1 & H2 & H3 & H4 & H5); [done|done|].
    exists st'. split_and!; [eapply rtc_l; [apply (notify_takes st 0)|done]|done|done|by etrans|done].
Qed.

(** The wait moves on its own. *)
Definition wait_runs (i : nat) (st st' : Server) : Prop := st' = run_wait Runs i st.

Lemma run_wait_moves i st call phase phase' db n :
  st.(sr_waits) !! i = Some (call, phase) -> wait_step Runs call phase st.(sr_db) st.(sr_notifier) = Some (phase', db, n) ->
  exists st', wait_runs i st st' /\ st'.(sr_db) = db /\ st'.(sr_notifier) = n /\ st'.(sr_waits) !! i = Some (call, phase').
Proof.
  intros Hw Hstep. eexists. split; [done|]. unfold run_wait. rewrite Hw, Hstep. simpl. split_and!; [done|done|].
  apply list_lookup_insert_eq. by eapply lookup_lt_Some.
Qed.

(** Once woken, it comes back with the messages it slept for. *)
Lemma woken_wait_answers st i call s r :
  server_inv st -> st.(sr_waits) !! i = Some (call, Blocked s r) -> woken s st.(sr_notifier) ->
  let m := call_key call in
  let params := call.(wc_Params) in
  pending_after m params.(wmp_Cursor) st.(sr_db) ->
  exists st' answer, rtc (wait_runs i) st st' /\ st'.(sr_waits) !! i = Some (call, Replied answer) /\
    answer.(wmr_Messages) = delivered m.1.1 m.1.2 <$> queue_page params.(wmp_Cursor) params.(wmp_Limit) (queue m st.(sr_db)) /\
    answer.(wmr_Messages) <> [].
Proof.
  intros Hi Hw Hwoken m params Hpend. destruct (wt_call _ _ _ (sv_waits _ Hi _ _ _ Hw)) as (C1 & C2 & C3 & p & C4).
  unfold WaitMailboxParams_Validate in C1. apply reject_Ok in C1 as [C5 C1]. apply reject_Ok in C1 as [_ C1]. apply reject_Ok in C1 as [C6 _].
  fold params in C2, C5, C6. pose proof (wo_mail _ (st_work _ (sv_store _ Hi))) as Hmail.
  destruct (run_wait_moves i st call (Blocked s r) Subscribing st.(sr_db) (release s st.(sr_notifier))) as (st1 & R1 & D1 & _ & W1);
    [done|simpl; by rewrite decide_True|].
  destruct (subscribe (call_key call) st1.(sr_notifier)) as [s2 n2] eqn:Esub.
  destruct (run_wait_moves i st1 call Subscribing (Reading s2) st1.(sr_db) n2) as (st2 & R2 & D2 & _ & W2); [done|simpl; by rewrite Esub|].
  assert (st2.(sr_db) = st.(sr_db)) as D2' by congruence.
  pose proof (ReadMailbox_eq call.(wc_Principal) params.(wmp_Cursor) params.(wmp_Limit) p st.(sr_db) Hmail C3) as Hread.
  specialize (Hread ltac:(lia) ltac:(lia) C4). cbv zeta in Hread.
  change (p_ControllerID call.(wc_Principal), p_TreeID call.(wc_Principal), p_AgentID call.(wc_Principal)) with m in Hread. rewrite decide_False in Hread; last first.
  { destruct Hpend as (seq & Hlt & x & Hx). intros Hlast. discriminate (eq_trans (eq_sym (no_message_after_last m st.(sr_db) seq Hmail ltac:(lia))) Hx). }
  set (page := delivered _ _ <$> _) in Hread. set (answer := {| wmr_Messages := page; wmr_NextCursor := _ |}) in Hread.
  assert (page <> []) as Hne.
  { intros Hnil%fmap_nil_inv. by apply (empty_page _ params.(wmp_Limit) m st.(sr_db)) in Hpend; [|lia|lia|]. }
  edestruct (run_wait_moves i st2 call (Reading s2) (Deciding s2 answer)) as (st3 & R3 & _ & _ & W3);
    [done|simpl; fold params; rewrite D2', Hread; done|].
  edestruct (run_wait_moves i st3 call (Deciding s2 answer) (Replied answer)) as (st4 & R4 & _ & _ & W4);
    [done|simpl; rewrite decide_True; [done|left; by intros ?%nil_length_inv]|].
  exists st4, answer. split_and!; [|done|done|done].
  eapply rtc_l; [exact R1|]. eapply rtc_l; [exact R2|]. eapply rtc_l; [exact R3|]. by eapply rtc_once.
Qed.

(** C13 No wake-up is lost. In every state of the server, however the handlers interleave:
    a wait that sleeps while its mailbox holds a message beyond its cursor is owed a
    wake-up, in that its channel is closed or a notification that is due or under way will
    close it; once the notifications run (which takes finitely many steps and changes no
    mailbox) its channel is closed, and the wait, run on its own, returns the first page of
    the messages beyond its cursor, which is not empty. Closing a channel never meets a
    closed one. And no watch is leaked: one the notifier still has is held by a wait that
    has not ended. *)
Theorem mailbox_waits_are_woken st :
  server_reachable st ->
  (forall i call s r, st.(sr_waits) !! i = Some (call, Blocked s r) ->
     let m := call_key call in
     let params := call.(wc_Params) in
     pending_after m params.(wmp_Cursor) st.(sr_db) ->
     owed st m s /\
     exists st1 st2 answer, rtc notify_step st st1 /\ st1.(sr_db) = st.(sr_db) /\ woken s st1.(sr_notifier) /\
       rtc (wait_runs i) st1 st2 /\ st2.(sr_waits) !! i = Some (call, Replied answer) /\
       answer.(wmr_Messages) = delivered m.1.1 m.1.2 <$> queue_page params.(wmp_Cursor) params.(wmp_Limit) (queue m st.(sr_db)) /\
       answer.(wmr_Messages) <> []) /\
  (forall l, l ∈ st.(sr_closing) -> exists n, notify_close l st.(sr_notifier) = Some n) /\
  (forall key l, st.(sr_notifier).(nt_watches) !! key = Some l ->
     exists s u, st.(sr_notifier).(nt_subscriptions) !! s = Some u /\ u.(su_key) = key /\ u.(su_watch) = l /\ s ∈ held st).
Proof.
  intros Hi%server_reachable_inv. split_and!.
  - intros i call s r Hw m params Hpend.
    split; [by apply (wt_owed _ _ _ (sv_waits _ Hi _ _ _ Hw) s)|].
    destruct (notifications_finish st Hi) as (st1 & Hsteps & Hc & Hk & (Hdb & Hwaits & _) & Hi1).
    rewrite <- Hwaits in Hw. unfold m in *. rewrite <- Hdb in Hpend |- *.
    destruct (wt_owed _ _ _ (sv_waits _ Hi1 _ _ _ Hw) s) as [Hwoken|[(u & _ & Hin)|Hin]]; [done|done|done| | |].
    + destruct (woken_wait_answers st1 i call s r Hi1 Hw Hwoken Hpend) as (st2 & answer & H1 & H2 & H3 & H4).
      exists st1, st2, answer. by split_and!.
    + rewrite Hc in Hin. set_solver.
    + rewrite Hk in Hin. set_solver.
  - intros l [j Hj]%list_elem_of_lookup. pose proof (sv_notifier _ Hi) as Hn. rewrite <- (take_drop_middle _ _ _ Hj) in Hn.
    destruct (notify_close_inv _ _ _ _ Hn) as (n & Hclose & _). eauto.
  - intros key l Hl. pose proof (ni_used _ _ (sv_notifier _ Hi) _ _ Hl) as (s & u & Hu & Hw & Hr)%holders_positive.
    exists s, u. split_and!; [done|by eapply (ni_key _ _ (ni_core _ _ (sv_notifier _ Hi)))|done|].
    apply (proj2 (sv_held _ Hi)). by exists u.
Qed.

(** ** A wait, step by step *)

Definition mailbox_request (source : PrincipalIdentity) (method : string) : Envelope := {|
  ev_ProtocolVersion := Version; ev_Kind := KindRequest; ev_RequestID := "c_" +:+ sample_spawn; ev_ReplyTo := ""; ev_Method := method;
  ev_ControllerID := sample_controller; ev_TreeID := sample_tree; ev_Source := Some source; ev_Sequence := 0; ev_Cursor := 0;
  ev_Payload := ""; ev_Error := None |}.
Definition root_wait : WaitMailboxParams := {| wmp_Cursor := 0; wmp_TimeoutMillis := 1000; wmp_Limit := 5 |}.
Definition worker_report : SendMessageParams := {|
  smp_MessageID := sample_operation; smp_Target := {| mt_Kind := MessageTargetParent; mt_AgentID := "" |}; smp_Message := "done" |}.

(** The root waits; nothing is there, and it sleeps. Then its worker reports. *)
Definition waiting_server : Server :=
  run_wait Runs 0 (run_wait Runs 0 (run_wait Runs 0
    (run_begin sample_device (mailbox_request sample_source "mailbox.wait") (Ok root_wait) (new_server started_db)))).
Definition notified_server : Server :=
  run_send sample_device (mailbox_request ResultsCorrect.sample_worker "mailbox.send") (Ok worker_report) true 200 waiting_server.

Lemma notified_server_reachable : server_reachable notified_server.
Proof.
  exists started_db. split; [exact started_db_reachable|].
  eapply rtc_l; [apply (server_begin _ sample_device (mailbox_request sample_source "mailbox.wait") (Ok root_wait)); intros params [= <-]; simpl; lia|].
  do 3 (eapply rtc_l; [exact (server_wait _ Runs 0)|]).
  apply rtc_once. exact (server_send _ sample_device (mailbox_request ResultsCorrect.sample_worker "mailbox.send") (Ok worker_report) true 200).
Qed.

Lemma notified_server_blocked : exists call r, notified_server.(sr_waits) !! 0%nat = Some (call, Blocked 0 r) /\
  call_key call = (sample_controller, sample_tree, sample_root) /\ call.(wc_Params) = root_wait.
Proof. vm_compute. do 2 eexists. split; [reflexivity|]. split; reflexivity. Qed.

Lemma notified_server_pending : pending_after (sample_controller, sample_tree, sample_root) 0 notified_server.(sr_db).
Proof. exists 1. split; [lia|]. apply not_eq_None_Some. vm_compute. intros [=]. Qed.

Lemma mailbox_waits_are_woken_witness : exists call st1 st2 answer,
  rtc notify_step notified_server st1 /\ rtc (wait_runs 0) st1 st2 /\ st2.(sr_waits) !! 0%nat = Some (call, Replied answer) /\ answer.(wmr_Messages) <> [].
Proof.
  destruct notified_server_blocked as (call & r & Hw & Hk & Hp). destruct (mailbox_waits_are_woken _ notified_server_reachable) as [H _].
  destruct (H 0%nat call 0%nat r Hw) as (_ & st1 & st2 & answer & H1 & _ & _ & H2 & H3 & _ & H4); [rewrite Hk, Hp; exact notified_server_pending|].
  exists call, st1, st2, answer. split; [exact H1|]. split; [exact H2|]. split; [exact H3|exact H4].
Defined.
