(* ===== verification/PeerSchema.v ===== *)
(** internal/store/peer_schema.go: the SQLite database of a peer, where the
    connector keeps its managed workers: the worker revision counter, the readiness
    epoch, the workspaces prepared on the device, the worker reservations, the
    receipts of their operations, the intents of turn starts, the captured changes, the
    outbox of the result packages it sends and the inbox of those it receives. Tables are
    finite maps as in Schema. *)

From S2P Require Export GoHost ResultProtocol Registry.

(** ** Tables *)

(* go: internal/store/peer_schema.go:15-24 peer_metadata *)
Record PeerMetadataRow := {
  pm_worker_revision : Z;
  pm_last_result_inbox_retention_ordinal : Z;
  pm_result_inbox_evicted : Z;
}.
Definition peer_metadata_check (r : PeerMetadataRow) : bool :=
  (0 <=? r.(pm_worker_revision)) && in_range 0 MaxInt64 r.(pm_last_result_inbox_retention_ordinal) &&
  in_range 0 MaxInt64 r.(pm_result_inbox_evicted).

(** [length(x) = 64 AND x NOT GLOB '*[^0-9a-f]*'] *)
Definition digest_check (s : string) : bool := (sqlite_length s =? 64) && forallb is_lower_hex (bytes s).

(** The columns of [worker_readiness] are the fields of the wire type. *)
(* go: internal/store/peer_schema.go:30-42 worker_readiness *)
Definition peer_readiness_check (r : WorkerReadiness) : bool :=
  in_range 1 MaxInt64 r.(wr_Epoch) &&
  bool_decide (r.(wr_State) ∈ ["pending"; "ready"; "intervention_required"]) &&
  in_range 0 5 r.(wr_AttemptCount) && digest_check r.(wr_RuntimeDigest) && digest_check r.(wr_ConfigDigest) &&
  (0 <? r.(wr_EpochStartedAt)) && (0 <=? r.(wr_NextAttemptAt)) && (0 <=? r.(wr_LastAttemptAt)) &&
  (len r.(wr_FailureCode) <=? 64) && (0 <=? r.(wr_UpdatedAt)).

(* go: internal/store/peer_schema.go:44-75 prepared_workspaces *)
Record PreparedRow := {
  pw_source_agent_id : string;
  pw_source_device_id : string;
  pw_target_device_id : string;
  pw_git_url : string;
  pw_head_oid : string;
  pw_object_format : string;
  pw_working_directory : string;
  pw_source_clean : bool;
  pw_source_snapshot_hash : string;
  pw_workspace_path : string;
  pw_strategy : string;
  pw_manifest_hash : string;
  pw_source_warnings_json : string;
  pw_warnings_json : string;
  pw_status : string;
  pw_claimed_agent_id : string;
  pw_created_at : Z;
  pw_updated_at : Z;
}.
Definition prepared_check (r : PreparedRow) : bool :=
  bool_decide (r.(pw_object_format) ∈ ["sha1"; "sha256"]) && digest_check r.(pw_source_snapshot_hash) &&
  bool_decide (r.(pw_strategy) ∈ ["direct"; "thinBundle"; "selfContainedBundle"]) &&
  digest_check r.(pw_manifest_hash) && bool_decide (r.(pw_status) ∈ ["prepared"; "claimed"]) &&
  (0 <=? r.(pw_created_at)) && (r.(pw_created_at) <=? r.(pw_updated_at)) &&
  bool_decide ((r.(pw_status) = "prepared" /\ r.(pw_claimed_agent_id) = "") \/
               (r.(pw_status) = "claimed" /\ r.(pw_claimed_agent_id) <> "")).

(* go: internal/store/peer_schema.go:80-120 worker_reservations *)
Record WorkerRow := {
  w_ParentAgentID : string;
  w_DeviceID : string;
  w_TaskName : string;
  w_PromptDigest : string;
  w_WorkspaceID : string;
  w_WorkspacePath : string;
  w_WorkingDirectory : string;
  w_CodexThreadID : string;
  w_ProfileVersion : Z;
  w_Status : string;
  w_RetryTarget : string;
  w_ActiveTurnID : string;
  w_LastBoundTurnID : string;
  w_FailureCode : string;
  w_FinalTarget : string;
  w_FinalFailureCode : string;
  w_Revision : Z;
  w_CreatedAt : Z;
  w_UpdatedAt : Z;
}.
Definition worker_check (r : WorkerRow) : bool :=
  (0 <? r.(w_ProfileVersion)) &&
  bool_decide (r.(w_Status) ∈ ["reserved"; "pending"; "starting"; "preflight"; "ready"; "running"; "finalizing";
                               "idle"; "interrupted"; "failed"]) &&
  bool_decide (r.(w_RetryTarget) ∈ [""; "pending"; "idle"]) &&
  bool_decide (r.(w_LastBoundTurnID) = "" \/ sqlite_length r.(w_LastBoundTurnID) = 36) &&
  bool_decide (r.(w_FinalTarget) ∈ [""; "idle"; "interrupted"; "failed"]) &&
  (0 <? r.(w_Revision)) && (0 <=? r.(w_CreatedAt)) && (r.(w_CreatedAt) <=? r.(w_UpdatedAt)) &&
  bool_decide
    ((r.(w_Status) <> "finalizing" /\ r.(w_FinalTarget) = "" /\ r.(w_FinalFailureCode) = "") \/
     (r.(w_Status) = "finalizing" /\ r.(w_ActiveTurnID) <> "" /\ r.(w_RetryTarget) = "" /\ r.(w_FailureCode) = "" /\
      ((r.(w_FinalTarget) = "idle" /\ r.(w_FinalFailureCode) = "") \/
       (r.(w_FinalTarget) ∈ ["interrupted"; "failed"] /\ r.(w_FinalFailureCode) <> "")))) &&
  bool_decide (r.(w_Status) ∉ ["running"; "finalizing"] \/ r.(w_ActiveTurnID) = r.(w_LastBoundTurnID)).

(* go: internal/store/peer_schema.go:129-153 worker_operation_receipts *)
Record WorkerOperationRow := {
  wop_tree_id : string;
  wop_agent_id : string;
  wop_action : string;
  wop_payload_digest : string;
  wop_status : string;
  wop_outcome : string;
  wop_failure_code : string;
  wop_created_at : Z;
  wop_updated_at : Z;
}.
Definition worker_operation_check (r : WorkerOperationRow) : bool :=
  bool_decide (r.(wop_action) ∈ ["send"; "followup"; "interrupt"]) && digest_check r.(wop_payload_digest) &&
  bool_decide (r.(wop_status) ∈ ["pending"; "succeeded"; "failed"]) &&
  bool_decide (r.(wop_outcome) ∈ ["pending"; "queued"; "steered"; "started"; "interrupted"; "failed"]) &&
  (0 <=? r.(wop_created_at)) && (r.(wop_created_at) <=? r.(wop_updated_at)) &&
  bool_decide
    ((r.(wop_status) = "pending" /\ r.(wop_outcome) = "pending" /\ r.(wop_failure_code) = "") \/
     (r.(wop_status) = "succeeded" /\ r.(wop_outcome) ∈ ["queued"; "steered"; "started"; "interrupted"] /\
      r.(wop_failure_code) = "") \/
     (r.(wop_status) = "failed" /\ r.(wop_outcome) = "failed" /\ r.(wop_failure_code) <> "")).

(** [maximumWorkspacePath], [maximumWorkerRolloutOffset] and [maximumWorkerFailureCode],
    which the schema formats into its bounds. *)
(* go: internal/store/worker_reservation.go:18-23 maximumWorkerTaskName *)
Definition maximumWorkerTaskName : Z := 128.
Definition maximumWorkerFailureCode : Z := 64.
Definition maximumWorkspacePath : Z := 32 * 1024.

(* go: internal/store/worker_turn_intent.go:17-21 maximumWorkerRolloutOffset *)
Definition MaximumWorkerTurnStartIntentReceipts : Z := 256.
Definition maximumWorkerTurnIntentPage : Z := 256.
Definition maximumWorkerRolloutOffset : Z := Z.shiftl 1 40.

(* go: internal/store/peer_schema.go:158-213 worker_turn_start_intents *)
Record TurnIntentRow := {
  it_device_id : string;
  it_managed_thread_id : string;
  it_previous_turn_id : string;
  it_package_id : string;
  it_operation_id : string;
  it_retry_target : string;
  it_locator_status : string;
  it_codex_home : string;
  it_rollout_path : string;
  it_rollout_offset : Z;
  it_locator_failure_code : string;
  it_reservation_limit_bytes : Z;
  it_state : string;
  it_turn_id : string;
  it_rejection_failure_code : string;
  it_prepared_revision : Z;
  it_resolution_revision : Z;
  it_created_at : Z;
  it_updated_at : Z;
}.
Definition intent_check (k : string * string * string * string) (r : TurnIntentRow) : bool :=
  let '(controller_id, tree_id, agent_id, intent_id) := k in
  let id s := sqlite_length s =? 36 in
  let optional_id s := bool_decide (s = "") || id s in
  id controller_id && id tree_id && id agent_id && id intent_id && id r.(it_device_id) && id r.(it_managed_thread_id) &&
  optional_id r.(it_previous_turn_id) && id r.(it_package_id) && optional_id r.(it_operation_id) &&
  bool_decide (r.(it_retry_target) ∈ ["pending"; "idle"]) &&
  bool_decide (r.(it_locator_status) ∈ ["available"; "unavailable"]) &&
  (sqlite_length r.(it_codex_home) <=? maximumWorkspacePath) && (sqlite_length r.(it_rollout_path) <=? maximumWorkspacePath) &&
  in_range 0 maximumWorkerRolloutOffset r.(it_rollout_offset) &&
  (sqlite_length r.(it_locator_failure_code) <=? maximumWorkerFailureCode) &&
  in_range 1 MaximumResultPackageBytes r.(it_reservation_limit_bytes) &&
  bool_decide (r.(it_state) ∈ ["prepared"; "bound"; "rejected"]) && optional_id r.(it_turn_id) &&
  (sqlite_length r.(it_rejection_failure_code) <=? maximumWorkerFailureCode) &&
  (0 <? r.(it_prepared_revision)) && (0 <=? r.(it_resolution_revision)) &&
  (0 <=? r.(it_created_at)) && (r.(it_created_at) <=? r.(it_updated_at)) &&
  bool_decide ((r.(it_retry_target) = "pending" /\ r.(it_operation_id) = "") \/
               (r.(it_retry_target) = "idle" /\ r.(it_operation_id) <> "")) &&
  bool_decide
    ((r.(it_locator_status) = "available" /\ r.(it_codex_home) <> "" /\ r.(it_rollout_path) <> "" /\
      r.(it_locator_failure_code) = "") \/
     (r.(it_locator_status) = "unavailable" /\ r.(it_codex_home) = "" /\ r.(it_rollout_path) = "" /\
      r.(it_rollout_offset) = 0 /\ r.(it_locator_failure_code) <> "")) &&
  bool_decide
    ((r.(it_state) = "prepared" /\ r.(it_turn_id) = "" /\ r.(it_rejection_failure_code) = "" /\ r.(it_resolution_revision) = 0) \/
     (r.(it_state) = "bound" /\ r.(it_turn_id) <> "" /\ r.(it_rejection_failure_code) = "" /\
      r.(it_prepared_revision) < r.(it_resolution_revision)) \/
     (r.(it_state) = "rejected" /\ r.(it_turn_id) = "" /\ r.(it_rejection_failure_code) <> "" /\
      r.(it_prepared_revision) < r.(it_resolution_revision))).

(* go: internal/store/peer_schema.go:325-371 peer_result_outbox *)
Record OutboxRow := {
  ob_source_device_id : string;
  ob_state : string;
  ob_managed_thread_id : string;
  ob_turn_id : string;
  ob_lifecycle_revision : Z;
  ob_manifest_bytes : string;
  ob_manifest_size_bytes : Z;
  ob_manifest_sha256 : string;
  ob_parts_json : string;
  ob_reservation_limit_bytes : Z;
  ob_reserved_bytes : Z;
  ob_package_bytes : Z;
  ob_delivery_sequence : Z;
  ob_created_at : Z;
  ob_updated_at : Z;
}.
Definition outbox_check (package_id : string) (r : OutboxRow) : bool :=
  let captured :=
    r.(ob_managed_thread_id) <> "" /\ r.(ob_turn_id) <> "" /\ 0 < r.(ob_lifecycle_revision) /\
    len r.(ob_manifest_bytes) = r.(ob_manifest_size_bytes) /\ 0 < r.(ob_manifest_size_bytes) /\
    digest_check r.(ob_manifest_sha256) = true /\ r.(ob_package_bytes) <= r.(ob_reservation_limit_bytes) /\
    r.(ob_reserved_bytes) = r.(ob_package_bytes) /\ 0 < r.(ob_package_bytes) in
  (sqlite_length r.(ob_source_device_id) =? 36) && (sqlite_length package_id =? 36) &&
  bool_decide (r.(ob_state) ∈ ["capturePending"; "publishPending"; "deliveryPending"; "delivered"; "releasePending"]) &&
  (0 <=? r.(ob_lifecycle_revision)) && in_range 0 MaximumResultManifestBytes r.(ob_manifest_size_bytes) &&
  in_range 1 MaximumResultPackageBytes r.(ob_reservation_limit_bytes) &&
  in_range 1 MaximumResultPackageBytes r.(ob_reserved_bytes) &&
  in_range 0 MaximumResultPackageBytes r.(ob_package_bytes) && (0 <=? r.(ob_delivery_sequence)) &&
  (0 <=? r.(ob_created_at)) && (r.(ob_created_at) <=? r.(ob_updated_at)) &&
  bool_decide
    ((r.(ob_state) = "capturePending" /\ r.(ob_managed_thread_id) = "" /\ r.(ob_turn_id) = "" /\
      r.(ob_lifecycle_revision) = 0 /\ len r.(ob_manifest_bytes) = 0 /\ r.(ob_manifest_size_bytes) = 0 /\
      r.(ob_manifest_sha256) = "" /\ r.(ob_parts_json) = "[]" /\
      r.(ob_reserved_bytes) = r.(ob_reservation_limit_bytes) /\ r.(ob_package_bytes) = 0 /\ r.(ob_delivery_sequence) = 0) \/
     (r.(ob_state) ∈ ["publishPending"; "deliveryPending"] /\ captured /\ r.(ob_delivery_sequence) = 0) \/
     (r.(ob_state) ∈ ["delivered"; "releasePending"] /\ captured /\ 0 < r.(ob_delivery_sequence))).

(** The row of a turn's captured changes, keyed by the worker and the turn. *)
(* go: internal/store/peer_schema.go:230-320 peer_changes_artifacts *)
Record PeerArtifactRow := {
  pa_artifact_id : string;
  pa_workspace_id : string;
  pa_workspace_source_device_id : string;
  pa_workspace_target_device_id : string;
  pa_completion_target_status : string;
  pa_completion_failure_code : string;
  pa_state : string;
  pa_capture_status : string;
  pa_object_format : string;
  pa_base_head_oid : string;
  pa_base_clean : bool;
  pa_base_manifest_hash : string;
  pa_base_snapshot_hash : string;
  pa_base_warnings_json : string;
  pa_result_head_oid : string;
  pa_result_snapshot_hash : string;
  pa_result_clean : bool;
  pa_bundle_part_name : string;
  pa_bundle_size_bytes : Z;
  pa_bundle_sha256 : string;
  pa_overlay_part_name : string;
  pa_overlay_size_bytes : Z;
  pa_overlay_sha256 : string;
  pa_result_warnings_json : string;
  pa_failure_code : string;
  pa_retention_reserved : bool;
  pa_reserved_bytes : Z;
  pa_payload_bytes : Z;
  pa_broker_sequence : Z;
  pa_created_at : Z;
  pa_updated_at : Z;
}.
Definition peer_artifact_check (r : PeerArtifactRow) : bool :=
  (sqlite_length r.(pa_workspace_source_device_id) =? 36) && (sqlite_length r.(pa_workspace_target_device_id) =? 36) &&
  bool_decide (r.(pa_completion_target_status) ∈ ["idle"; "interrupted"; "failed"]) &&
  bool_decide (r.(pa_state) ∈ ["capturePending"; "publishPending"; "published"]) &&
  bool_decide (r.(pa_capture_status) ∈ [""; "available"; "unchanged"; "captureFailed"]) &&
  bool_decide (r.(pa_object_format) ∈ ["sha1"; "sha256"]) && digest_check r.(pa_base_manifest_hash) &&
  digest_check r.(pa_base_snapshot_hash) && bool_decide (r.(pa_bundle_part_name) ∈ [""; "changes.bundle"]) &&
  in_range 0 268435456 r.(pa_bundle_size_bytes) &&
  bool_decide (r.(pa_overlay_part_name) ∈ [""; "changes-overlay.tar.zst"]) &&
  in_range 0 268435456 r.(pa_overlay_size_bytes) && in_range 0 536870912 r.(pa_reserved_bytes) &&
  in_range 0 536870912 r.(pa_payload_bytes) && (0 <=? r.(pa_broker_sequence)) &&
  (0 <=? r.(pa_created_at)) && (r.(pa_created_at) <=? r.(pa_updated_at)) &&
  bool_decide
    ((r.(pa_completion_target_status) = "idle" /\ r.(pa_completion_failure_code) = "") \/
     (r.(pa_completion_target_status) ∈ ["interrupted"; "failed"] /\ r.(pa_completion_failure_code) <> "")) &&
  bool_decide
    ((r.(pa_bundle_part_name) = "" /\ r.(pa_bundle_size_bytes) = 0 /\ r.(pa_bundle_sha256) = "") \/
     (r.(pa_bundle_part_name) = "changes.bundle" /\ 0 < r.(pa_bundle_size_bytes) /\ digest_check r.(pa_bundle_sha256) = true)) &&
  bool_decide
    ((r.(pa_overlay_part_name) = "" /\ r.(pa_overlay_size_bytes) = 0 /\ r.(pa_overlay_sha256) = "") \/
     (r.(pa_overlay_part_name) = "changes-overlay.tar.zst" /\ 0 < r.(pa_overlay_size_bytes) /\
      digest_check r.(pa_overlay_sha256) = true)) &&
  (r.(pa_payload_bytes) =? r.(pa_bundle_size_bytes) + r.(pa_overlay_size_bytes)) &&
  bool_decide
    ((r.(pa_state) = "capturePending" /\ r.(pa_capture_status) = "" /\ r.(pa_result_head_oid) = "" /\
      r.(pa_result_snapshot_hash) = "" /\ r.(pa_result_clean) = false /\ r.(pa_bundle_part_name) = "" /\
      r.(pa_overlay_part_name) = "" /\ r.(pa_result_warnings_json) = "[]" /\ r.(pa_failure_code) = "" /\
      r.(pa_payload_bytes) = 0 /\ r.(pa_broker_sequence) = 0) \/
     (r.(pa_state) = "publishPending" /\ r.(pa_capture_status) <> "" /\ r.(pa_broker_sequence) = 0) \/
     (r.(pa_state) = "published" /\ r.(pa_capture_status) <> "" /\ 0 < r.(pa_broker_sequence))) &&
  bool_decide
    ((r.(pa_capture_status) = "" /\ r.(pa_result_warnings_json) = "[]" /\ r.(pa_payload_bytes) = 0) \/
     (r.(pa_capture_status) = "available" /\ r.(pa_result_head_oid) <> "" /\ r.(pa_result_snapshot_hash) <> "" /\
      r.(pa_failure_code) = "" /\
      ((0 < r.(pa_payload_bytes) /\ r.(pa_retention_reserved) = true /\ r.(pa_reserved_bytes) = r.(pa_payload_bytes)) \/
       (r.(pa_payload_bytes) = 0 /\ r.(pa_retention_reserved) = false /\ r.(pa_reserved_bytes) = 0 /\
        r.(pa_base_clean) = false /\ r.(pa_result_head_oid) = r.(pa_base_head_oid) /\ r.(pa_result_clean) = true))) \/
     (r.(pa_capture_status) = "unchanged" /\ r.(pa_result_head_oid) = r.(pa_base_head_oid) /\
      r.(pa_result_snapshot_hash) = r.(pa_base_snapshot_hash) /\ r.(pa_result_clean) = r.(pa_base_clean) /\
      r.(pa_payload_bytes) = 0 /\ r.(pa_retention_reserved) = false /\ r.(pa_reserved_bytes) = 0 /\ r.(pa_failure_code) = "") \/
     (r.(pa_capture_status) = "captureFailed" /\ r.(pa_result_head_oid) = "" /\ r.(pa_result_snapshot_hash) = "" /\
      r.(pa_result_clean) = false /\ r.(pa_payload_bytes) = 0 /\ r.(pa_result_warnings_json) = "[]" /\
      r.(pa_retention_reserved) = false /\ r.(pa_reserved_bytes) = 0 /\ r.(pa_failure_code) <> "")) &&
  bool_decide
    ((r.(pa_retention_reserved) = false /\ r.(pa_reserved_bytes) = 0) \/
     (r.(pa_retention_reserved) = true /\ 0 < r.(pa_reserved_bytes))).

(** A package that is received or retained. [package_id] is unique, and the key here; the
    primary key adds the owner's columns to it. *)
(* go: internal/store/peer_schema.go:380-408 peer_result_inbox *)
Record InboxRow := {
  in_controller_id : string;
  in_tree_id : string;
  in_root_agent_id : string;
  in_root_device_id : string;
  in_source_agent_id : string;
  in_source_device_id : string;
  in_managed_thread_id : string;
  in_turn_id : string;
  in_state : string;
  in_attempt_id : string;
  in_retention_ordinal : Z;
  in_lease_expires_at : Z;
  in_lifecycle_revision : Z;
  in_manifest_bytes : string;
  in_manifest_size_bytes : Z;
  in_manifest_sha256 : string;
  in_parts_json : string;
  in_package_bytes : Z;
  in_created_at : Z;
  in_updated_at : Z;
}.
Definition inbox_check (package_id : string) (r : InboxRow) : bool :=
  let id s := sqlite_length s =? 36 in
  id r.(in_root_agent_id) && id r.(in_root_device_id) && id r.(in_source_agent_id) && id r.(in_source_device_id) &&
  id r.(in_managed_thread_id) && id r.(in_turn_id) && id package_id && id r.(in_attempt_id) &&
  bool_decide (r.(in_state) ∈ ["receiving"; "available"; "evictionTombstone"]) &&
  in_range 1 MaxInt64 r.(in_retention_ordinal) && (0 <? r.(in_lease_expires_at)) && (0 <? r.(in_lifecycle_revision)) &&
  in_range 1 MaximumResultManifestBytes r.(in_manifest_size_bytes) && digest_check r.(in_manifest_sha256) &&
  in_range 1 MaximumResultPackageBytes r.(in_package_bytes) && (0 <=? r.(in_created_at)) &&
  (r.(in_created_at) <=? r.(in_updated_at)) && (len r.(in_manifest_bytes) =? r.(in_manifest_size_bytes)).

(** The progress of one part, keyed by package and kind. *)
(* go: internal/store/peer_schema.go:418-426 peer_result_inbox_parts *)
Record InboxPartRow := { ip_size_bytes : Z; ip_sha256 : string; ip_next_offset : Z }.
Definition inbox_part_check (kind : string) (r : InboxPartRow) : bool :=
  bool_decide (kind ∈ ["changesBundle"; "changesOverlay"; "rollout"]) && (0 <? r.(ip_size_bytes)) && digest_check r.(ip_sha256) &&
  in_range 0 r.(ip_size_bytes) r.(ip_next_offset).

(** The receipt of a written chunk, keyed by package, attempt, kind and offset. *)
(* go: internal/store/peer_schema.go:428-438 peer_result_inbox_chunks *)
Record InboxChunkRow := { ic_size_bytes : Z; ic_sha256 : string }.
Definition inbox_chunk_check (offset : Z) (r : InboxChunkRow) : bool :=
  (0 <=? offset) && in_range 1 ResultPackageChunkBytes r.(ic_size_bytes) && digest_check r.(ic_sha256).

(** The removal of an attempt, keyed by package and attempt. *)
(* go: internal/store/peer_schema.go:440-452 peer_result_inbox_attempt_receipts *)
Record RemovalRow := {
  ir_controller_id : string;
  ir_tree_id : string;
  ir_root_agent_id : string;
  ir_root_device_id : string;
  ir_outcome : string;
  ir_phase : string;
  ir_created_at : Z;
  ir_updated_at : Z;
}.
Definition removal_check (k : string * string) (r : RemovalRow) : bool :=
  let id s := sqlite_length s =? 36 in
  id r.(ir_controller_id) && id r.(ir_tree_id) && id r.(ir_root_agent_id) && id r.(ir_root_device_id) && id k.1 && id k.2 &&
  bool_decide (r.(ir_outcome) ∈ ["cancelled"; "reclaimed"]) && bool_decide (r.(ir_phase) ∈ ["prepared"; "completed"]) &&
  (0 <=? r.(ir_created_at)) && (r.(ir_created_at) <=? r.(ir_updated_at)).

(** ** The database *)

(* go: internal/store/peer_schema.go:14-28 peerSchemaCurrent *)
Record PeerDB := {
  peer_metadata : PeerMetadataRow;
  worker_readiness : option WorkerReadiness;
  prepared_workspaces : gmap (string * string * string) PreparedRow;
  worker_reservations : gmap (string * string * string) WorkerRow;
  worker_operation_receipts : gmap (string * string) WorkerOperationRow;
  worker_turn_start_intents : gmap (string * string * string * string) TurnIntentRow;
  peer_changes_artifacts : gmap (string * string * string * string) PeerArtifactRow;
  peer_result_outbox : gmap (string * string * string * string) OutboxRow;
  peer_result_inbox : gmap string InboxRow;
  peer_result_inbox_parts : gmap (string * string) InboxPartRow;
  peer_result_inbox_chunks : gmap (string * string * string * Z) InboxChunkRow;
  peer_result_inbox_attempt_receipts : gmap (string * string) RemovalRow;
}.

(** The database the schema creates. *)
(* go: internal/store/peer_schema.go:26-28 peerSchemaCurrent *)
Definition empty_peer : PeerDB := {|
  peer_metadata := {| pm_worker_revision := 0; pm_last_result_inbox_retention_ordinal := 0; pm_result_inbox_evicted := 0 |};
  worker_readiness := None; prepared_workspaces := ∅; worker_reservations := ∅; worker_operation_receipts := ∅; worker_turn_start_intents := ∅; peer_changes_artifacts := ∅; peer_result_outbox := ∅; peer_result_inbox := ∅; peer_result_inbox_parts := ∅; peer_result_inbox_chunks := ∅; peer_result_inbox_attempt_receipts := ∅ |}.

(** Replacing one table. *)
Definition set_peer_metadata (db : PeerDB) x : PeerDB := {|
  peer_metadata := x; worker_readiness := db.(worker_readiness); prepared_workspaces := db.(prepared_workspaces);
  worker_reservations := db.(worker_reservations); worker_operation_receipts := db.(worker_operation_receipts);
  worker_turn_start_intents := db.(worker_turn_start_intents); peer_changes_artifacts := db.(peer_changes_artifacts);
  peer_result_outbox := db.(peer_result_outbox); peer_result_inbox := db.(peer_result_inbox); peer_result_inbox_parts
  := db.(peer_result_inbox_parts); peer_result_inbox_chunks := db.(peer_result_inbox_chunks);
  peer_result_inbox_attempt_receipts := db.(peer_result_inbox_attempt_receipts) |}.
Definition set_worker_readiness (db : PeerDB) x : PeerDB := {|
  peer_metadata := db.(peer_metadata); worker_readiness := x; prepared_workspaces := db.(prepared_workspaces);
  worker_reservations := db.(worker_reservations); worker_operation_receipts := db.(worker_operation_receipts);
  worker_turn_start_intents := db.(worker_turn_start_intents); peer_changes_artifacts := db.(peer_changes_artifacts);
  peer_result_outbox := db.(peer_result_outbox); peer_result_inbox := db.(peer_result_inbox); peer_result_inbox_parts
  := db.(peer_result_inbox_parts); peer_result_inbox_chunks := db.(peer_result_inbox_chunks);
  peer_result_inbox_attempt_receipts := db.(peer_result_inbox_attempt_receipts) |}.
Definition set_prepared_workspaces (db : PeerDB) x : PeerDB := {|
  peer_metadata := db.(peer_metadata); worker_readiness := db.(worker_readiness); prepared_workspaces := x;
  worker_reservations := db.(worker_reservations); worker_operation_receipts := db.(worker_operation_receipts);
  worker_turn_start_intents := db.(worker_turn_start_intents); peer_changes_artifacts := db.(peer_changes_artifacts);
  peer_result_outbox := db.(peer_result_outbox); peer_result_inbox := db.(peer_result_inbox); peer_result_inbox_parts
  := db.(peer_result_inbox_parts); peer_result_inbox_chunks := db.(peer_result_inbox_chunks);
  peer_result_inbox_attempt_receipts := db.(peer_result_inbox_attempt_receipts) |}.
Definition set_worker_reservations (db : PeerDB) x : PeerDB := {|
  peer_metadata := db.(peer_metadata); worker_readiness := db.(worker_readiness); prepared_workspaces :=
  db.(prepared_workspaces); worker_reservations := x; worker_operation_receipts := db.(worker_operation_receipts);
  worker_turn_start_intents := db.(worker_turn_start_intents); peer_changes_artifacts := db.(peer_changes_artifacts);
  peer_result_outbox := db.(peer_result_outbox); peer_result_inbox := db.(peer_result_inbox); peer_result_inbox_parts
  := db.(peer_result_inbox_parts); peer_result_inbox_chunks := db.(peer_result_inbox_chunks);
  peer_result_inbox_attempt_receipts := db.(peer_result_inbox_attempt_receipts) |}.
Definition set_worker_operation_receipts (db : PeerDB) x : PeerDB := {|
  peer_metadata := db.(peer_metadata); worker_readiness := db.(worker_readiness); prepared_workspaces :=
  db.(prepared_workspaces); worker_reservations := db.(worker_reservations); worker_operation_receipts := x;
  worker_turn_start_intents := db.(worker_turn_start_intents); peer_changes_artifacts := db.(peer_changes_artifacts);
  peer_result_outbox := db.(peer_result_outbox); peer_result_inbox := db.(peer_result_inbox); peer_result_inbox_parts
  := db.(peer_result_inbox_parts); peer_result_inbox_chunks := db.(peer_result_inbox_chunks);
  peer_result_inbox_attempt_receipts := db.(peer_result_inbox_attempt_receipts) |}.
Definition set_worker_turn_start_intents (db : PeerDB) x : PeerDB := {|
  peer_metadata := db.(peer_metadata); worker_readiness := db.(worker_readiness); prepared_workspaces :=
  db.(prepared_workspaces); worker_reservations := db.(worker_reservations); worker_operation_receipts :=
  db.(worker_operation_receipts); worker_turn_start_intents := x; peer_changes_artifacts :=
  db.(peer_changes_artifacts); peer_result_outbox := db.(peer_result_outbox); peer_result_inbox :=
  db.(peer_result_inbox); peer_result_inbox_parts := db.(peer_result_inbox_parts); peer_result_inbox_chunks :=
  db.(peer_result_inbox_chunks); peer_result_inbox_attempt_receipts := db.(peer_result_inbox_attempt_receipts) |}.
Definition set_peer_changes_artifacts (db : PeerDB) x : PeerDB := {|
  peer_metadata := db.(peer_metadata); worker_readiness := db.(worker_readiness); prepared_workspaces :=
  db.(prepared_workspaces); worker_reservations := db.(worker_reservations); worker_operation_receipts :=
  db.(worker_operation_receipts); worker_turn_start_intents := db.(worker_turn_start_intents); peer_changes_artifacts
  := x; peer_result_outbox := db.(peer_result_outbox); peer_result_inbox := db.(peer_result_inbox);
  peer_result_inbox_parts := db.(peer_result_inbox_parts); peer_result_inbox_chunks := db.(peer_result_inbox_chunks);
  peer_result_inbox_attempt_receipts := db.(peer_result_inbox_attempt_receipts) |}.
Definition set_peer_result_outbox (db : PeerDB) x : PeerDB := {|
  peer_metadata := db.(peer_metadata); worker_readiness := db.(worker_readiness); prepared_workspaces :=
  db.(prepared_workspaces); worker_reservations := db.(worker_reservations); worker_operation_receipts :=
  db.(worker_operation_receipts); worker_turn_start_intents := db.(worker_turn_start_intents); peer_changes_artifacts
  := db.(peer_changes_artifacts); peer_result_outbox := x; peer_result_inbox := db.(peer_result_inbox);
  peer_result_inbox_parts := db.(peer_result_inbox_parts); peer_result_inbox_chunks := db.(peer_result_inbox_chunks);
  peer_result_inbox_attempt_receipts := db.(peer_result_inbox_attempt_receipts) |}.
Definition set_peer_result_inbox (db : PeerDB) x : PeerDB := {|
  peer_metadata := db.(peer_metadata); worker_readiness := db.(worker_readiness); prepared_workspaces :=
  db.(prepared_workspaces); worker_reservations := db.(worker_reservations); worker_operation_receipts :=
  db.(worker_operation_receipts); worker_turn_start_intents := db.(worker_turn_start_intents); peer_changes_artifacts
  := db.(peer_changes_artifacts); peer_result_outbox := db.(peer_result_outbox); peer_result_inbox := x;
  peer_result_inbox_parts := db.(peer_result_inbox_parts); peer_result_inbox_chunks := db.(peer_result_inbox_chunks);
  peer_result_inbox_attempt_receipts := db.(peer_result_inbox_attempt_receipts) |}.
Definition set_peer_result_inbox_parts (db : PeerDB) x : PeerDB := {|
  peer_metadata := db.(peer_metadata); worker_readiness := db.(worker_readiness); prepared_workspaces :=
  db.(prepared_workspaces); worker_reservations := db.(worker_reservations); worker_operation_receipts :=
  db.(worker_operation_receipts); worker_turn_start_intents := db.(worker_turn_start_intents); peer_changes_artifacts
  := db.(peer_changes_artifacts); peer_result_outbox := db.(peer_result_outbox); peer_result_inbox :=
  db.(peer_result_inbox); peer_result_inbox_parts := x; peer_result_inbox_chunks := db.(peer_result_inbox_chunks);
  peer_result_inbox_attempt_receipts := db.(peer_result_inbox_attempt_receipts) |}.
Definition set_peer_result_inbox_chunks (db : PeerDB) x : PeerDB := {|
  peer_metadata := db.(peer_metadata); worker_readiness := db.(worker_readiness); prepared_workspaces :=
  db.(prepared_workspaces); worker_reservations := db.(worker_reservations); worker_operation_receipts :=
  db.(worker_operation_receipts); worker_turn_start_intents := db.(worker_turn_start_intents); peer_changes_artifacts
  := db.(peer_changes_artifacts); peer_result_outbox := db.(peer_result_outbox); peer_result_inbox :=
  db.(peer_result_inbox); peer_result_inbox_parts := db.(peer_result_inbox_parts); peer_result_inbox_chunks := x;
  peer_result_inbox_attempt_receipts := db.(peer_result_inbox_attempt_receipts) |}.
Definition set_peer_result_inbox_attempt_receipts (db : PeerDB) x : PeerDB := {|
  peer_metadata := db.(peer_metadata); worker_readiness := db.(worker_readiness); prepared_workspaces :=
  db.(prepared_workspaces); worker_reservations := db.(worker_reservations); worker_operation_receipts :=
  db.(worker_operation_receipts); worker_turn_start_intents := db.(worker_turn_start_intents); peer_changes_artifacts
  := db.(peer_changes_artifacts); peer_result_outbox := db.(peer_result_outbox); peer_result_inbox :=
  db.(peer_result_inbox); peer_result_inbox_parts := db.(peer_result_inbox_parts); peer_result_inbox_chunks :=
  db.(peer_result_inbox_chunks); peer_result_inbox_attempt_receipts := x |}.

(** ** Statements *)

Definition worker_exists (db : PeerDB) (key : string * string * string) : bool :=
  bool_decide (is_Some (db.(worker_reservations) !! key)).

(** The rows of the UNIQUE index [worker_reservations_by_thread] that [r] at [k] would meet. *)
(* go: internal/store/peer_schema.go:122-124 worker_reservations_by_thread *)
Definition same_thread (k : string * string * string) (r : WorkerRow) (x : (string * string * string) * WorkerRow) : Prop :=
  x.1 <> k /\ x.1.1.1 = k.1.1 /\ x.2.(w_CodexThreadID) = r.(w_CodexThreadID).
#[global] Instance same_thread_dec k r x : Decision (same_thread k r x).
Proof. unfold same_thread. apply _. Defined.
Definition thread_free (k : string * string * string) (r : WorkerRow) (db : PeerDB) : bool :=
  bool_decide (r.(w_CodexThreadID) = "") || none_where (same_thread k r) db.(worker_reservations).

Definition insert_worker (k : string * string * string) (r : WorkerRow) (db : PeerDB) : result PeerDB :=
  let? t := sql_insert db.(worker_reservations) k r (worker_check r && thread_free k r db) in
  Ok (set_worker_reservations db t).

(** [UPDATE worker_reservations ... WHERE] the key and [guard]: the affected rows. *)
Definition update_worker (k : string * string * string) (guard : WorkerRow -> bool) (set : WorkerRow -> WorkerRow) (db : PeerDB)
    : result (Z * PeerDB) :=
  let? (n, t) := sql_update db.(worker_reservations) k guard set (fun r => worker_check r && thread_free k r db) in
  Ok (n, set_worker_reservations db t).

Definition insert_worker_operation (k : string * string) (r : WorkerOperationRow) (db : PeerDB) : result PeerDB :=
  let? t := sql_insert db.(worker_operation_receipts) k r
    (worker_operation_check r && worker_exists db (k.1, r.(wop_tree_id), r.(wop_agent_id))) in
  Ok (set_worker_operation_receipts db t).

(** The other rows that share a UNIQUE key of [worker_turn_start_intents] with [r] at [k]:
    the intent id, the package id, the worker of a prepared intent, the operation, the
    turn of a worker. *)
(* go: internal/store/peer_schema.go:215-225 worker_turn_start_intents_prepared_by_worker *)
Definition same_intent (k : string * string * string * string) (r : TurnIntentRow)
    (x : (string * string * string * string) * TurnIntentRow) : Prop :=
  x.1 <> k /\
  (x.1.2 = k.2 \/ x.2.(it_package_id) = r.(it_package_id) \/
   (r.(it_state) = "prepared" /\ x.2.(it_state) = "prepared" /\ x.1.1 = k.1) \/
   (r.(it_operation_id) <> "" /\ x.2.(it_operation_id) = r.(it_operation_id) /\ x.1.1.1.1 = k.1.1.1) \/
   (r.(it_turn_id) <> "" /\ x.2.(it_turn_id) = r.(it_turn_id) /\ x.1.1 = k.1)).
#[global] Instance same_intent_dec k r x : Decision (same_intent k r x).
Proof. unfold same_intent. apply _. Defined.

Definition insert_intent (k : string * string * string * string) (r : TurnIntentRow) (db : PeerDB) : result PeerDB :=
  let? t := sql_insert db.(worker_turn_start_intents) k r
    (intent_check k r && worker_exists db k.1 && none_where (same_intent k r) db.(worker_turn_start_intents)) in
  Ok (set_worker_turn_start_intents db t).

Definition update_intent (k : string * string * string * string) (guard : TurnIntentRow -> bool)
    (set : TurnIntentRow -> TurnIntentRow) (db : PeerDB) : result (Z * PeerDB) :=
  let? (n, t) := sql_update db.(worker_turn_start_intents) k guard set
    (fun r => intent_check k r && none_where (same_intent k r) db.(worker_turn_start_intents)) in
  Ok (n, set_worker_turn_start_intents db t).

(** The UNIQUE keys of [peer_result_outbox]: the package id, the turn of a worker. *)
(* go: internal/store/peer_schema.go:373-375 peer_result_outbox_by_turn *)
Definition same_outbox (k : string * string * string * string) (r : OutboxRow)
    (x : (string * string * string * string) * OutboxRow) : Prop :=
  x.1 <> k /\
  (x.1.2 = k.2 \/ (r.(ob_turn_id) <> "" /\ x.2.(ob_turn_id) = r.(ob_turn_id) /\ x.1.1 = k.1)).
#[global] Instance same_outbox_dec k r x : Decision (same_outbox k r x).
Proof. unfold same_outbox. apply _. Defined.

Definition insert_outbox (k : string * string * string * string) (r : OutboxRow) (db : PeerDB) : result PeerDB :=
  let? t := sql_insert db.(peer_result_outbox) k r
    (outbox_check k.2 r && worker_exists db k.1 && none_where (same_outbox k r) db.(peer_result_outbox)) in
  Ok (set_peer_result_outbox db t).

Definition update_outbox (k : string * string * string * string) (guard : OutboxRow -> bool) (set : OutboxRow -> OutboxRow)
    (db : PeerDB) : result (Z * PeerDB) :=
  let? (n, t) := sql_update db.(peer_result_outbox) k guard set
    (fun r => outbox_check k.2 r && none_where (same_outbox k r) db.(peer_result_outbox)) in
  Ok (n, set_peer_result_outbox db t).

(** The UNIQUE key of [peer_changes_artifacts] besides its primary key: the artifact id. *)
Definition same_peer_artifact (k : string * string * string * string) (r : PeerArtifactRow)
    (x : (string * string * string * string) * PeerArtifactRow) : Prop :=
  x.1 <> k /\ x.2.(pa_artifact_id) = r.(pa_artifact_id).
#[global] Instance same_peer_artifact_dec k r x : Decision (same_peer_artifact k r x).
Proof. unfold same_peer_artifact. apply _. Defined.

Definition insert_peer_artifact (k : string * string * string * string) (r : PeerArtifactRow) (db : PeerDB) : result PeerDB :=
  let? t := sql_insert db.(peer_changes_artifacts) k r
    (peer_artifact_check r && worker_exists db k.1 && none_where (same_peer_artifact k r) db.(peer_changes_artifacts)) in
  Ok (set_peer_changes_artifacts db t).

Definition update_peer_artifact (k : string * string * string * string) (set : PeerArtifactRow -> PeerArtifactRow) (db : PeerDB)
    : result PeerDB :=
  let? (_, t) := sql_update db.(peer_changes_artifacts) k (fun _ => true) set
    (fun r => peer_artifact_check r && none_where (same_peer_artifact k r) db.(peer_changes_artifacts)) in
  Ok (set_peer_changes_artifacts db t).

(** The UNIQUE index [peer_result_inbox_by_retention_ordinal]. *)
(* go: internal/store/peer_schema.go:415-416 peer_result_inbox_by_retention_ordinal *)
Definition same_ordinal (k : string) (r : InboxRow) (x : string * InboxRow) : Prop :=
  x.1 <> k /\ x.2.(in_controller_id) = r.(in_controller_id) /\ x.2.(in_root_device_id) = r.(in_root_device_id) /\
  x.2.(in_retention_ordinal) = r.(in_retention_ordinal).
#[global] Instance same_ordinal_dec k r x : Decision (same_ordinal k r x).
Proof. unfold same_ordinal. apply _. Defined.

Definition insert_inbox (k : string) (r : InboxRow) (db : PeerDB) : result PeerDB :=
  let? t := sql_insert db.(peer_result_inbox) k r (inbox_check k r && none_where (same_ordinal k r) db.(peer_result_inbox)) in
  Ok (set_peer_result_inbox db t).

Definition update_inbox (k : string) (guard : InboxRow -> bool) (set : InboxRow -> InboxRow) (db : PeerDB) : result (Z * PeerDB) :=
  let? (n, t) := sql_update db.(peer_result_inbox) k guard set
    (fun r => inbox_check k r && none_where (same_ordinal k r) db.(peer_result_inbox)) in
  Ok (n, set_peer_result_inbox db t).

Definition insert_inbox_part (k : string * string) (r : InboxPartRow) (db : PeerDB) : result PeerDB :=
  let? t := sql_insert db.(peer_result_inbox_parts) k r
    (inbox_part_check k.2 r && bool_decide (is_Some (db.(peer_result_inbox) !! k.1))) in
  Ok (set_peer_result_inbox_parts db t).

Definition update_inbox_part (k : string * string) (guard : InboxPartRow -> bool) (set : InboxPartRow -> InboxPartRow) (db : PeerDB)
    : result (Z * PeerDB) :=
  let? (n, t) := sql_update db.(peer_result_inbox_parts) k guard set (inbox_part_check k.2) in
  Ok (n, set_peer_result_inbox_parts db t).

Definition insert_inbox_chunk (k : string * string * string * Z) (r : InboxChunkRow) (db : PeerDB) : result PeerDB :=
  let? t := sql_insert db.(peer_result_inbox_chunks) k r
    (inbox_chunk_check k.2 r && bool_decide (is_Some (db.(peer_result_inbox_parts) !! (k.1.1.1, k.1.2)))) in
  Ok (set_peer_result_inbox_chunks db t).

(** [DELETE FROM peer_result_inbox WHERE package_id = k AND guard], with the parts and the
    chunks the foreign keys cascade to. *)
Definition delete_inbox (k : string) (guard : InboxRow -> bool) (db : PeerDB) : PeerDB :=
  match db.(peer_result_inbox) !! k with
  | Some r =>
      if guard r then
        set_peer_result_inbox_chunks (set_peer_result_inbox_parts
          (set_peer_result_inbox db (delete k db.(peer_result_inbox)))
          (filter (fun x => x.1.1 <> k) db.(peer_result_inbox_parts)))
          (filter (fun x => x.1.1.1.1 <> k) db.(peer_result_inbox_chunks))
      else db
  | None => db
  end.

Definition insert_removal (k : string * string) (r : RemovalRow) (db : PeerDB) : result PeerDB :=
  let? t := sql_insert db.(peer_result_inbox_attempt_receipts) k r (removal_check k r) in
  Ok (set_peer_result_inbox_attempt_receipts db t).

Definition update_removal (k : string * string) (guard : RemovalRow -> bool) (set : RemovalRow -> RemovalRow) (db : PeerDB)
    : result (Z * PeerDB) :=
  let? (n, t) := sql_update db.(peer_result_inbox_attempt_receipts) k guard set (removal_check k) in
  Ok (n, set_peer_result_inbox_attempt_receipts db t).

(** ** [SELECT COALESCE(sum(column), 0)] *)

Section Sums.
Context {K R : Type} `{Countable K} (column : R -> Z).
Implicit Types t : gmap K R.

Definition sum_of t : Z := foldr (fun x n => column x.2 + n) 0 (map_to_list t).

Lemma sum_permutation (l1 l2 : list (K * R)) :
  l1 ≡ₚ l2 -> foldr (fun x n => column x.2 + n) 0 l1 = foldr (fun x n => column x.2 + n) 0 l2.
Proof. induction 1; simpl; lia. Qed.

Lemma sum_of_insert t k r : t !! k = None -> sum_of (<[k := r]> t) = column r + sum_of t.
Proof. intros Hn. unfold sum_of. by rewrite (sum_permutation _ _ (map_to_list_insert t k r Hn)). Qed.

Lemma sum_of_delete t k r : t !! k = Some r -> sum_of (delete k t) = sum_of t - column r.
Proof. intros E. rewrite <- (insert_delete_id t k r E) at 2. rewrite sum_of_insert by apply lookup_delete_eq. lia. Qed.

Lemma sum_of_update t k r r' : t !! k = Some r -> sum_of (<[k := r']> t) = sum_of t - column r + column r'.
Proof.
  intros E. rewrite <- insert_delete_eq, sum_of_insert by apply lookup_delete_eq. rewrite (sum_of_delete _ _ _ E). lia.
Qed.
End Sums.
