(* ===== verification/PeerWorkspaces.v ===== *)
(** internal/store/peer_worker_readiness.go and prepared_workspace.go: the readiness
    epochs of a peer and the workspaces prepared on it. *)

From S2P Require Export PeerSchema.

(** ** Readiness epochs *)

(* go: internal/store/peer_worker_readiness.go queryPeerWorkerReadiness *)
Definition queryPeerWorkerReadiness (db : PeerDB) : result WorkerReadiness :=
  match db.(worker_readiness) with
  | None => Err ErrNotFound
  | Some readiness =>
      do? wrap "invalid stored worker readiness" (WorkerReadiness_Validate readiness) in Ok readiness
  end.

(* go: internal/store/peer_worker_readiness.go:30-32 PeerStore.ensureWorkerReadinessEpoch *)
Definition seed_readiness (epoch : Z) (runtimeDigest configDigest : string) (nowMillis : Z) : WorkerReadiness := {|
  wr_Epoch := epoch; wr_State := WorkerReadinessPending; wr_AttemptCount := 0; wr_RuntimeDigest := runtimeDigest;
  wr_ConfigDigest := configDigest; wr_EpochStartedAt := nowMillis; wr_NextAttemptAt := nowMillis; wr_LastAttemptAt := 0;
  wr_FailureCode := ""; wr_UpdatedAt := nowMillis |}.

(** [INSERT ... ON CONFLICT(singleton) DO UPDATE] writes every column. *)
(* go: internal/store/peer_worker_readiness.go:52-66 PeerStore.ensureWorkerReadinessEpoch *)
Definition upsert_readiness (readiness : WorkerReadiness) (db : PeerDB) : result PeerDB :=
  let? _ := bind_uint64 readiness.(wr_Epoch) in
  reject SQLiteConstraint when (peer_readiness_check readiness = false) in Ok (set_worker_readiness db (Some readiness)).

(** The epoch after [current], which is the first one when there is none. *)
(* go: internal/store/peer_worker_readiness.go:46-51 PeerStore.ensureWorkerReadinessEpoch *)
Definition next_epoch (current : option WorkerReadiness) : result Z :=
  match current with
  | None => Ok 1
  | Some current =>
      reject (New "worker readiness epoch exhausted") when (current.(wr_Epoch) = MaxInt64) in Ok (current.(wr_Epoch) + 1)
  end.

(** The stored epoch when it is kept: no recheck is forced and both digests are its own. *)
(* go: internal/store/peer_worker_readiness.go:38-42 PeerStore.ensureWorkerReadinessEpoch *)
Definition kept_epoch (runtimeDigest configDigest : string) (force : bool) (current : option WorkerReadiness)
    : option WorkerReadiness :=
  match current with
  | Some current =>
      if decide (force = false /\ current.(wr_RuntimeDigest) = runtimeDigest /\ current.(wr_ConfigDigest) = configDigest)
      then Some current else None
  | None => None
  end.

(* go: internal/store/peer_worker_readiness.go PeerStore.ensureWorkerReadinessEpoch *)
Definition ensureWorkerReadinessEpoch (runtimeDigest configDigest : string) (nowMillis : Z) (force : bool)
    : Tx PeerDB WorkerReadiness :=
  do! tx_lift (WorkerReadiness_Validate (seed_readiness 1 runtimeDigest configDigest nowMillis)) in
  let! current := tx_query (fun db => optional (queryPeerWorkerReadiness db)) in
  match kept_epoch runtimeDigest configDigest force current with
  | Some kept => tx_ret kept
  | None =>
      let! epoch := tx_lift (next_epoch current) in
      let seed := seed_readiness epoch runtimeDigest configDigest nowMillis in
      do! tx_exec (fun db => wrap "create worker readiness epoch" (upsert_readiness seed db)) in
      tx_ret seed
  end.

(* go: internal/store/peer_worker_readiness.go PeerStore.EnsureWorkerReadinessEpoch *)
Definition EnsureWorkerReadinessEpoch (runtimeDigest configDigest : string) (nowMillis : Z) : Tx PeerDB WorkerReadiness :=
  ensureWorkerReadinessEpoch runtimeDigest configDigest nowMillis false.

(* go: internal/store/peer_worker_readiness.go PeerStore.RecheckWorkerReadiness *)
Definition RecheckWorkerReadiness (runtimeDigest configDigest : string) (nowMillis : Z) : Tx PeerDB WorkerReadiness :=
  ensureWorkerReadinessEpoch runtimeDigest configDigest nowMillis true.

(* go: internal/store/peer_worker_readiness.go:88-94 PeerStore.FailWorkerReadiness *)
Definition failed_readiness (failureCode : string) (nowMillis : Z) (current : WorkerReadiness) : WorkerReadiness := {|
  wr_Epoch := current.(wr_Epoch); wr_State := WorkerReadinessInterventionRequired;
  wr_AttemptCount := current.(wr_AttemptCount); wr_RuntimeDigest := current.(wr_RuntimeDigest);
  wr_ConfigDigest := current.(wr_ConfigDigest); wr_EpochStartedAt := current.(wr_EpochStartedAt);
  wr_NextAttemptAt := 0; wr_LastAttemptAt := current.(wr_LastAttemptAt); wr_FailureCode := failureCode;
  wr_UpdatedAt := if decide (nowMillis <= current.(wr_UpdatedAt)) then int64_add current.(wr_UpdatedAt) 1 else nowMillis |}.

(** [UPDATE worker_readiness ... WHERE singleton = 1 AND guard]: the affected rows. *)
Definition update_readiness (guard : WorkerReadiness -> bool) (set : WorkerReadiness -> WorkerReadiness) (db : PeerDB)
    : result (Z * PeerDB) :=
  match db.(worker_readiness) with
  | Some r =>
      if guard r then
        reject SQLiteConstraint when (peer_readiness_check (set r) = false) in Ok (1, set_worker_readiness db (Some (set r)))
      else Ok (0, db)
  | None => Ok (0, db)
  end.

(** The columns [state], [next_attempt_at], [failure_code] and [updated_at] of [new]. *)
(* go: internal/store/peer_worker_readiness.go:98-101 PeerStore.FailWorkerReadiness *)
Definition fail_columns (new r : WorkerReadiness) : WorkerReadiness := {|
  wr_Epoch := r.(wr_Epoch); wr_State := new.(wr_State); wr_AttemptCount := r.(wr_AttemptCount);
  wr_RuntimeDigest := r.(wr_RuntimeDigest); wr_ConfigDigest := r.(wr_ConfigDigest);
  wr_EpochStartedAt := r.(wr_EpochStartedAt); wr_NextAttemptAt := 0; wr_LastAttemptAt := r.(wr_LastAttemptAt);
  wr_FailureCode := new.(wr_FailureCode); wr_UpdatedAt := new.(wr_UpdatedAt) |}.

(* go: internal/store/peer_worker_readiness.go PeerStore.FailWorkerReadiness *)
Definition FailWorkerReadiness (failureCode : string) (nowMillis : Z) : Tx PeerDB WorkerReadiness :=
  let! current := tx_query queryPeerWorkerReadiness in
  let new := failed_readiness failureCode nowMillis current in
  do! tx_lift (WorkerReadiness_Validate new) in
  do! tx_exec (fun db =>
    let? (changed, db) := wrap "fail worker readiness" (update_readiness
      (fun r => bool_decide (r.(wr_Epoch) = new.(wr_Epoch) /\ r.(wr_UpdatedAt) < new.(wr_UpdatedAt))) (fail_columns new) db) in
    reject ErrWorkerReadinessStale when (changed <> 1) in Ok db) in
  tx_ret new.

(* go: internal/store/peer_worker_readiness.go:127-129 PeerStore.UpdateWorkerReadiness *)
Definition attempt_columns (new r : WorkerReadiness) : WorkerReadiness := {|
  wr_Epoch := r.(wr_Epoch); wr_State := new.(wr_State); wr_AttemptCount := new.(wr_AttemptCount);
  wr_RuntimeDigest := r.(wr_RuntimeDigest); wr_ConfigDigest := r.(wr_ConfigDigest);
  wr_EpochStartedAt := r.(wr_EpochStartedAt); wr_NextAttemptAt := new.(wr_NextAttemptAt);
  wr_LastAttemptAt := new.(wr_LastAttemptAt); wr_FailureCode := new.(wr_FailureCode); wr_UpdatedAt := new.(wr_UpdatedAt) |}.

(* go: internal/store/peer_worker_readiness.go PeerStore.UpdateWorkerReadiness *)
Definition UpdateWorkerReadiness (expectedEpoch : Z) (readiness : WorkerReadiness) : Tx PeerDB WorkerReadiness :=
  do! tx_lift (WorkerReadiness_Validate readiness) in
  fail ErrWorkerReadinessStale when (readiness.(wr_Epoch) <> expectedEpoch) in
  do! tx_lift (wrap "update worker readiness" (bind_uint64 expectedEpoch)) in
  do! tx_exec (fun db =>
    let? (changed, db) := wrap "update worker readiness" (update_readiness
      (fun r => bool_decide (r.(wr_Epoch) = expectedEpoch /\ r.(wr_RuntimeDigest) = readiness.(wr_RuntimeDigest) /\
         r.(wr_ConfigDigest) = readiness.(wr_ConfigDigest) /\ r.(wr_EpochStartedAt) = readiness.(wr_EpochStartedAt) /\
         r.(wr_UpdatedAt) < readiness.(wr_UpdatedAt))) (attempt_columns readiness) db) in
    reject ErrWorkerReadinessStale when (changed <> 1) in Ok db) in
  tx_ret readiness.

(** ** Prepared workspaces *)

(* go: internal/store/prepared_workspace.go:16-21 PreparedWorkspaceStatus *)
Definition PreparedWorkspaceReady : string := "prepared".
Definition PreparedWorkspaceClaimed : string := "claimed".

(** A comparable struct of the ids of the controller, the tree and the workspace. *)
Notation PreparedWorkspaceKey := (string * string * string)%type.

(* go: internal/store/prepared_workspace.go:29-50 PreparedWorkspace *)
Record PreparedWorkspace := {
  pw_Key : string * string * string;
  pw_SourceAgentID : string;
  pw_SourceDeviceID : string;
  pw_TargetDeviceID : string;
  pw_GitURL : string;
  pw_HeadOID : string;
  pw_ObjectFormat : string;
  pw_WorkingDirectory : string;
  pw_Clean : bool;
  pw_SourceSnapshotHash : string;
  pw_WorkspacePath : string;
  pw_Strategy : string;
  pw_ManifestHash : string;
  pw_SourceWarnings : list string;
  pw_Warnings : list string;
  pw_Status : string;
  pw_ClaimedAgentID : string;
  pw_CreatedAt : Z;
  pw_UpdatedAt : Z;
}.

(* go: internal/store/prepared_workspace.go PreparedWorkspaceKey.Validate *)
Definition PreparedWorkspaceKey_Validate (k : PreparedWorkspaceKey) : result unit :=
  let '(controllerID, treeID, workspaceID) := k in
  validate_ids [("controllerId", controllerID); ("treeId", treeID); ("workspaceId", workspaceID)].

(* go: internal/store/prepared_workspace.go:193-198 PreparedWorkspace.Validate *)
Definition prepared_summary (w : PreparedWorkspace) : WorkspaceSummary := {|
  wsm_WorkspaceID := w.(pw_Key).2; wsm_SourceDeviceID := w.(pw_SourceDeviceID); wsm_TargetDeviceID := w.(pw_TargetDeviceID);
  wsm_HeadOID := w.(pw_HeadOID); wsm_ObjectFormat := w.(pw_ObjectFormat); wsm_WorkingDirectory := w.(pw_WorkingDirectory);
  wsm_Strategy := w.(pw_Strategy); wsm_ManifestHash := w.(pw_ManifestHash); wsm_Warnings := w.(pw_Warnings) |}.

(* go: internal/store/prepared_workspace.go:202-206 PreparedWorkspace.Validate *)
Definition prepared_manifest (w : PreparedWorkspace) : WorkspaceManifest := {|
  wm_GitURL := w.(pw_GitURL); wm_HeadOID := w.(pw_HeadOID); wm_ObjectFormat := w.(pw_ObjectFormat);
  wm_WorkingDirectory := w.(pw_WorkingDirectory); wm_Clean := w.(pw_Clean);
  wm_SourceSnapshotHash := w.(pw_SourceSnapshotHash); wm_Warnings := w.(pw_SourceWarnings) |}.

(* go: internal/store/prepared_workspace.go:221-232 PreparedWorkspace.Validate *)
Definition validate_claim (status claimedAgentID : string) : result unit :=
  if decide (status = PreparedWorkspaceReady) then
    reject (New "unclaimed workspace contains claimedAgentId") when (claimedAgentID <> "") in Ok tt
  else if decide (status = PreparedWorkspaceClaimed) then wrap "claimedAgentId" (ValidateID claimedAgentID)
  else Err (New "unsupported prepared workspace status %q").

(* go: internal/store/prepared_workspace.go PreparedWorkspace.Validate *)
Definition PreparedWorkspace_Validate (w : PreparedWorkspace) : result unit :=
  do? PreparedWorkspaceKey_Validate w.(pw_Key) in
  do? validate_ids [("sourceAgentId", w.(pw_SourceAgentID)); ("sourceDeviceId", w.(pw_SourceDeviceID));
                    ("targetDeviceId", w.(pw_TargetDeviceID))] in
  do? WorkspaceSummary_Validate (prepared_summary w) in
  do? WorkspaceManifest_Validate (prepared_manifest w) in
  reject (New "prepared workspace manifest hash is invalid")
    when (WorkspaceManifestHash (prepared_manifest w) <> Ok w.(pw_ManifestHash)) in
  reject (New "prepared workspace warnings do not match its source manifest and strategy")
    when (WorkspaceWarningsForStrategy w.(pw_SourceWarnings) w.(pw_Strategy) <> Ok w.(pw_Warnings)) in
  reject (New "prepared workspacePath must be a bounded absolute path")
    when (filepath_IsAbs w.(pw_WorkspacePath) = false \/ len w.(pw_WorkspacePath) > maximumWorkspacePath) in
  do? validate_claim w.(pw_Status) w.(pw_ClaimedAgentID) in
  reject (New "prepared workspace timestamps are invalid")
    when (w.(pw_CreatedAt) < 0 \/ w.(pw_UpdatedAt) < w.(pw_CreatedAt)) in
  Ok tt.

(** [w] with its lifecycle fields replaced. *)
Definition set_claim (status claimedAgentID : string) (createdAt updatedAt : Z) (w : PreparedWorkspace) : PreparedWorkspace := {|
  pw_Key := w.(pw_Key); pw_SourceAgentID := w.(pw_SourceAgentID); pw_SourceDeviceID := w.(pw_SourceDeviceID);
  pw_TargetDeviceID := w.(pw_TargetDeviceID); pw_GitURL := w.(pw_GitURL); pw_HeadOID := w.(pw_HeadOID);
  pw_ObjectFormat := w.(pw_ObjectFormat); pw_WorkingDirectory := w.(pw_WorkingDirectory); pw_Clean := w.(pw_Clean);
  pw_SourceSnapshotHash := w.(pw_SourceSnapshotHash); pw_WorkspacePath := w.(pw_WorkspacePath);
  pw_Strategy := w.(pw_Strategy); pw_ManifestHash := w.(pw_ManifestHash); pw_SourceWarnings := w.(pw_SourceWarnings);
  pw_Warnings := w.(pw_Warnings); pw_Status := status; pw_ClaimedAgentID := claimedAgentID;
  pw_CreatedAt := createdAt; pw_UpdatedAt := updatedAt |}.

(* go: internal/store/prepared_workspace.go validateNewPreparedWorkspace *)
Definition validateNewPreparedWorkspace (w : PreparedWorkspace) : result unit :=
  reject (New "new prepared workspace must not contain lifecycle state")
    when (w.(pw_Status) <> "" \/ w.(pw_ClaimedAgentID) <> "" \/ w.(pw_CreatedAt) <> 0 \/ w.(pw_UpdatedAt) <> 0) in
  PreparedWorkspace_Validate (set_claim PreparedWorkspaceReady w.(pw_ClaimedAgentID) w.(pw_CreatedAt) w.(pw_UpdatedAt) w).

(* go: internal/store/prepared_workspace.go samePreparedWorkspace *)
Definition samePreparedWorkspace (stored requested : PreparedWorkspace) : Prop :=
  stored.(pw_Key) = requested.(pw_Key) /\ stored.(pw_SourceAgentID) = requested.(pw_SourceAgentID) /\
  stored.(pw_SourceDeviceID) = requested.(pw_SourceDeviceID) /\ stored.(pw_TargetDeviceID) = requested.(pw_TargetDeviceID) /\
  stored.(pw_GitURL) = requested.(pw_GitURL) /\ stored.(pw_HeadOID) = requested.(pw_HeadOID) /\
  stored.(pw_ObjectFormat) = requested.(pw_ObjectFormat) /\
  stored.(pw_WorkingDirectory) = requested.(pw_WorkingDirectory) /\ stored.(pw_Clean) = requested.(pw_Clean) /\
  stored.(pw_SourceSnapshotHash) = requested.(pw_SourceSnapshotHash) /\
  stored.(pw_WorkspacePath) = requested.(pw_WorkspacePath) /\ stored.(pw_Strategy) = requested.(pw_Strategy) /\
  stored.(pw_ManifestHash) = requested.(pw_ManifestHash) /\ stored.(pw_SourceWarnings) = requested.(pw_SourceWarnings) /\
  stored.(pw_Warnings) = requested.(pw_Warnings).
#[global] Instance samePreparedWorkspace_dec s r : Decision (samePreparedWorkspace s r).
Proof. unfold samePreparedWorkspace. apply _. Defined.

(** The columns of a row as [Scan] and the two [json.Unmarshal] leave them. *)
(* go: internal/store/prepared_workspace.go:272-304 queryPreparedWorkspace *)
Definition scanPreparedWorkspace (key : PreparedWorkspaceKey) (r : PreparedRow) : result PreparedWorkspace :=
  match json_Unmarshal_strings r.(pw_source_warnings_json) with
  | None => Err (New "stored prepared workspace source warnings are invalid")
  | Some sourceWarnings =>
      match json_Unmarshal_strings r.(pw_warnings_json) with
      | None => Err (New "stored prepared workspace warnings are invalid")
      | Some warnings =>
          let w := {|
            pw_Key := key; pw_SourceAgentID := r.(pw_source_agent_id); pw_SourceDeviceID := r.(pw_source_device_id);
            pw_TargetDeviceID := r.(pw_target_device_id); pw_GitURL := r.(pw_git_url); pw_HeadOID := r.(pw_head_oid);
            pw_ObjectFormat := r.(pw_object_format); pw_WorkingDirectory := r.(pw_working_directory);
            pw_Clean := r.(pw_source_clean); pw_SourceSnapshotHash := r.(pw_source_snapshot_hash);
            pw_WorkspacePath := r.(pw_workspace_path); pw_Strategy := r.(pw_strategy);
            pw_ManifestHash := r.(pw_manifest_hash); pw_SourceWarnings := sourceWarnings; pw_Warnings := warnings;
            pw_Status := r.(pw_status); pw_ClaimedAgentID := r.(pw_claimed_agent_id);
            pw_CreatedAt := r.(pw_created_at); pw_UpdatedAt := r.(pw_updated_at) |} in
          do? wrap "stored prepared workspace is invalid" (PreparedWorkspace_Validate w) in Ok w
      end
  end.

(* go: internal/store/prepared_workspace.go queryPreparedWorkspace *)
Definition queryPreparedWorkspace (key : PreparedWorkspaceKey) (db : PeerDB) : result PreparedWorkspace :=
  do? PreparedWorkspaceKey_Validate key in
  match db.(prepared_workspaces) !! key with
  | None => Err ErrNotFound
  | Some r => scanPreparedWorkspace key r
  end.

(* go: internal/store/prepared_workspace.go PeerStore.GetPreparedWorkspace *)
Definition GetPreparedWorkspace (key : PreparedWorkspaceKey) (db : PeerDB) : result PreparedWorkspace :=
  do? PreparedWorkspaceKey_Validate key in queryPreparedWorkspace key db.

(** The row the INSERT writes; [claimed_agent_id] has its default. *)
(* go: internal/store/prepared_workspace.go:87-103 PeerStore.RecordPreparedWorkspace *)
Definition prepared_row (w : PreparedWorkspace) (timestamp : Z) : PreparedRow := {|
  pw_source_agent_id := w.(pw_SourceAgentID); pw_source_device_id := w.(pw_SourceDeviceID);
  pw_target_device_id := w.(pw_TargetDeviceID); pw_git_url := w.(pw_GitURL); pw_head_oid := w.(pw_HeadOID);
  pw_object_format := w.(pw_ObjectFormat); pw_working_directory := w.(pw_WorkingDirectory);
  pw_source_clean := w.(pw_Clean); pw_source_snapshot_hash := w.(pw_SourceSnapshotHash);
  pw_workspace_path := w.(pw_WorkspacePath); pw_strategy := w.(pw_Strategy); pw_manifest_hash := w.(pw_ManifestHash);
  pw_source_warnings_json := json_Marshal_strings w.(pw_SourceWarnings);
  pw_warnings_json := json_Marshal_strings w.(pw_Warnings); pw_status := PreparedWorkspaceReady;
  pw_claimed_agent_id := ""; pw_created_at := timestamp; pw_updated_at := timestamp |}.

(* go: internal/store/prepared_workspace.go PeerStore.RecordPreparedWorkspace *)
Definition RecordPreparedWorkspace (workspace : PreparedWorkspace) (createdAt : Z) : Tx PeerDB PreparedWorkspace :=
  do! tx_lift (validateNewPreparedWorkspace workspace) in
  let! timestamp := tx_lift (unixTime createdAt) in
  let workspace := set_claim PreparedWorkspaceReady workspace.(pw_ClaimedAgentID) timestamp timestamp workspace in
  let! stored := tx_query (fun db => optional (queryPreparedWorkspace workspace.(pw_Key) db)) in
  match stored with
  | Some stored =>
      fail ErrWorkerReservationConflict when (~ samePreparedWorkspace stored workspace) in tx_ret stored
  | None =>
      do! tx_exec (fun db => wrap "record prepared workspace" (
        let r := prepared_row workspace timestamp in
        let? t := sql_insert db.(prepared_workspaces) workspace.(pw_Key) r (prepared_check r) in
        Ok (set_prepared_workspaces db t))) in
      tx_ret workspace
  end.

(** [ORDER BY created_at, controller_id, tree_id, workspace_id] *)
(* go: internal/store/prepared_workspace.go PeerStore.ListPreparedWorkspaces *)
Definition ListPreparedWorkspaces (db : PeerDB) : result (list PreparedWorkspace) :=
  result_mapM (fun x => scanPreparedWorkspace x.1 x.2)
    (order_by (fun x => x.2.(pw_created_at)) (order_by_text (fun x => x.1.1.1) (order_by_text (fun x => x.1.1.2)
       (order_by_text (fun x => x.1.2) (map_to_list db.(prepared_workspaces)))))).
