(* ===== verification/PeerWorkers.v ===== *)
(** internal/store/worker_reservation.go, worker_operation.go and the records of
    worker_turn_intent.go: the managed workers of a peer, the receipts of the
    operations on them and the intents of their turn starts. *)

From S2P Require Export PeerWorkspaces.

(** ** Workers *)

(* go: internal/store/worker_reservation.go:33-44 WorkerStatus *)
Definition WorkerReserved : string := "reserved".
Definition WorkerPending : string := "pending".
Definition WorkerStarting : string := "starting".
Definition WorkerPreflight : string := "preflight".
Definition WorkerReady : string := "ready".
Definition WorkerRunning : string := "running".
Definition WorkerFinalizing : string := "finalizing".
Definition WorkerIdle : string := "idle".
Definition WorkerInterrupted : string := "interrupted".
Definition WorkerFailed : string := "failed".

(** A comparable struct of the ids of the controller, the tree and the agent. *)
Notation WorkerKey := (string * string * string)%type.

(** The struct embeds its key; its other fields are the columns of the row. *)
(* go: internal/store/worker_reservation.go:52-74 WorkerReservation *)
Record WorkerReservation := { w_Key : string * string * string; w_Row : WorkerRow }.

#[global] Instance WorkerRow_eq_dec : EqDecision WorkerRow.
Proof. solve_decision. Defined.
#[global] Instance WorkerReservation_eq_dec : EqDecision WorkerReservation.
Proof. solve_decision. Defined.

(* go: internal/store/worker_reservation.go WorkerKey.Validate *)
Definition WorkerKey_Validate (k : WorkerKey) : result unit :=
  let '(controllerID, treeID, agentID) := k in
  validate_ids [("controllerId", controllerID); ("treeId", treeID); ("agentId", agentID)].

(** [strings.ContainsAny(code, "\r\n\x00")] *)
(* go: internal/store/worker_reservation.go validateFailureCode *)
Definition validateFailureCode (code : string) : result unit :=
  reject (New "failureCode must contain at most %d safe bytes")
    when (len code > maximumWorkerFailureCode \/
          ContainsByte 13 code = true \/ ContainsByte 10 code = true \/ ContainsByte 0 code = true) in
  Ok tt.

(* go: internal/store/worker_reservation.go WorkerStatus.valid *)
Definition WorkerStatus_valid (s : string) : bool :=
  bool_decide (s ∈ [WorkerReserved; WorkerPending; WorkerStarting; WorkerPreflight; WorkerReady; WorkerRunning;
                    WorkerFinalizing; WorkerIdle; WorkerInterrupted; WorkerFailed]).

(* go: internal/store/worker_reservation.go WorkerStatus.finalTarget *)
Definition WorkerStatus_finalTarget (s : string) : bool :=
  bool_decide (s ∈ [WorkerIdle; WorkerInterrupted; WorkerFailed]).

(** A lowercase SHA-256 digest: [hex.DecodeString] and [strings.ToLower]. *)
(* go: internal/store/worker_reservation.go:714-719 WorkerReservation.Validate *)
Definition lower_digest (s : string) : Prop :=
  match hex_decode s with Some decoded => len decoded = 32 | None => False end /\ s = ToLower_ascii s.
#[global] Instance lower_digest_dec s : Decision (lower_digest s).
Proof. unfold lower_digest. destruct (hex_decode s); apply _. Defined.

(** The retry target of a worker that is being started. *)
Definition retry_set (r : WorkerRow) : Prop := r.(w_RetryTarget) = WorkerPending \/ r.(w_RetryTarget) = WorkerIdle.

(** The switch on [w.Status]: the details a status goes with. *)
(* go: internal/store/worker_reservation.go:763-813 WorkerReservation.Validate *)
Definition lifecycle_matches (r : WorkerRow) : Prop :=
  (r.(w_Status) = WorkerReserved ->
     r.(w_CodexThreadID) = "" /\ r.(w_RetryTarget) = "" /\ r.(w_ActiveTurnID) = "" /\ r.(w_FailureCode) = "") /\
  (r.(w_Status) = WorkerPending -> r.(w_ActiveTurnID) = "" /\ r.(w_FailureCode) = "" /\ r.(w_RetryTarget) = "") /\
  (r.(w_Status) = WorkerStarting -> retry_set r /\ r.(w_ActiveTurnID) = "" /\ r.(w_FailureCode) = "") /\
  (r.(w_Status) = WorkerPreflight ->
     r.(w_CodexThreadID) <> "" /\ retry_set r /\ r.(w_ActiveTurnID) = "" /\ r.(w_FailureCode) = "") /\
  (r.(w_Status) = WorkerReady \/ r.(w_Status) = WorkerIdle ->
     r.(w_CodexThreadID) <> "" /\ r.(w_ActiveTurnID) = "" /\ r.(w_FailureCode) = "" /\
     (r.(w_Status) = WorkerReady -> retry_set r) /\ (r.(w_Status) = WorkerIdle -> r.(w_RetryTarget) = "")) /\
  (r.(w_Status) = WorkerRunning ->
     r.(w_CodexThreadID) <> "" /\ r.(w_ActiveTurnID) <> "" /\ r.(w_ActiveTurnID) = r.(w_LastBoundTurnID) /\
     r.(w_FailureCode) = "" /\ r.(w_RetryTarget) = "") /\
  (r.(w_Status) = WorkerFinalizing ->
     r.(w_CodexThreadID) <> "" /\ r.(w_ActiveTurnID) <> "" /\ r.(w_ActiveTurnID) = r.(w_LastBoundTurnID) /\
     r.(w_FailureCode) = "" /\ r.(w_RetryTarget) = "" /\ WorkerStatus_finalTarget r.(w_FinalTarget) = true /\
     (r.(w_FinalTarget) = WorkerIdle <-> r.(w_FinalFailureCode) = "")) /\
  (r.(w_Status) = WorkerInterrupted -> r.(w_CodexThreadID) <> "" /\ r.(w_FailureCode) <> "" /\ r.(w_RetryTarget) = "") /\
  (r.(w_Status) = WorkerFailed -> r.(w_ActiveTurnID) = "" /\ r.(w_FailureCode) <> "" /\ r.(w_RetryTarget) = "").
#[global] Instance lifecycle_matches_dec r : Decision (lifecycle_matches r).
Proof. unfold lifecycle_matches, retry_set. apply _. Defined.

(** [w.WorkingDirectory] stays within the workspace. *)
(* go: internal/store/worker_reservation.go:728-732 WorkerReservation.Validate *)
Definition escapes_workspace (d : string) : Prop :=
  len d > MaximumWorkspaceRelativeBytes \/ filepath_IsAbs d = true \/ d = "." \/ d = ".." \/
  HasPrefix (filepath_Clean d) "../" = true.
#[global] Instance escapes_workspace_dec d : Decision (escapes_workspace d).
Proof. unfold escapes_workspace. apply _. Defined.

(** The last two messages of the switch differ in their text; [lifecycle_matches] is its
    condition. *)
(* go: internal/store/worker_reservation.go WorkerReservation.Validate *)
Definition WorkerReservation_Validate (w : WorkerReservation) : result unit :=
  let r := w.(w_Row) in
  do? WorkerKey_Validate w.(w_Key) in
  do? validate_ids [("parentAgentId", r.(w_ParentAgentID)); ("deviceId", r.(w_DeviceID))] in
  reject (New "taskName must contain from 1 through %d bytes")
    when (is_blank r.(w_TaskName) = true \/ len r.(w_TaskName) > maximumWorkerTaskName) in
  reject (New "promptDigest must be a lowercase SHA-256 digest") when (~ lower_digest r.(w_PromptDigest)) in
  reject (New "workspacePath must be a bounded absolute path")
    when (filepath_IsAbs r.(w_WorkspacePath) = false \/ len r.(w_WorkspacePath) > maximumWorkspacePath) in
  do? validate_optional_id "workspaceId" r.(w_WorkspaceID) in
  reject (New "workingDirectory must stay within the workspace") when (escapes_workspace r.(w_WorkingDirectory)) in
  do? validate_optional_id "codexThreadId" r.(w_CodexThreadID) in
  reject (New "profileVersion must be positive") when (r.(w_ProfileVersion) < 1) in
  reject (New "unsupported worker status %q") when (WorkerStatus_valid r.(w_Status) = false) in
  do? validate_optional_id "activeTurnId" r.(w_ActiveTurnID) in
  do? validate_optional_id "lastBoundTurnId" r.(w_LastBoundTurnID) in
  do? validateFailureCode r.(w_FailureCode) in
  do? wrap "final" (validateFailureCode r.(w_FinalFailureCode)) in
  reject (New "non-finalizing worker contains final lifecycle details")
    when (r.(w_Status) <> WorkerFinalizing /\ (r.(w_FinalTarget) <> "" \/ r.(w_FinalFailureCode) <> "")) in
  reject (New (if decide (r.(w_Status) = WorkerFinalizing) then "worker finalization details do not match its status"
               else "worker lifecycle details do not match its status")) when (~ lifecycle_matches r) in
  reject (New "worker timestamps are invalid") when (r.(w_CreatedAt) < 0 \/ r.(w_UpdatedAt) < r.(w_CreatedAt)) in
  reject (New "worker revision is invalid") when (r.(w_Revision) = 0 \/ r.(w_Revision) >= 2 ^ 63) in
  Ok tt.

(** [w] with the fields a lifecycle step writes replaced. *)
Definition set_lifecycle (thread status retry active bound failure : string) (revision updatedAt : Z) (r : WorkerRow) : WorkerRow := {|
  w_ParentAgentID := r.(w_ParentAgentID); w_DeviceID := r.(w_DeviceID); w_TaskName := r.(w_TaskName);
  w_PromptDigest := r.(w_PromptDigest); w_WorkspaceID := r.(w_WorkspaceID); w_WorkspacePath := r.(w_WorkspacePath);
  w_WorkingDirectory := r.(w_WorkingDirectory); w_CodexThreadID := thread; w_ProfileVersion := r.(w_ProfileVersion);
  w_Status := status; w_RetryTarget := retry; w_ActiveTurnID := active; w_LastBoundTurnID := bound;
  w_FailureCode := failure; w_FinalTarget := r.(w_FinalTarget); w_FinalFailureCode := r.(w_FinalFailureCode);
  w_Revision := revision; w_CreatedAt := r.(w_CreatedAt); w_UpdatedAt := updatedAt |}.

Definition set_final (target failure : string) (r : WorkerRow) : WorkerRow := {|
  w_ParentAgentID := r.(w_ParentAgentID); w_DeviceID := r.(w_DeviceID); w_TaskName := r.(w_TaskName);
  w_PromptDigest := r.(w_PromptDigest); w_WorkspaceID := r.(w_WorkspaceID); w_WorkspacePath := r.(w_WorkspacePath);
  w_WorkingDirectory := r.(w_WorkingDirectory); w_CodexThreadID := r.(w_CodexThreadID);
  w_ProfileVersion := r.(w_ProfileVersion); w_Status := r.(w_Status); w_RetryTarget := r.(w_RetryTarget);
  w_ActiveTurnID := r.(w_ActiveTurnID); w_LastBoundTurnID := r.(w_LastBoundTurnID); w_FailureCode := r.(w_FailureCode);
  w_FinalTarget := target; w_FinalFailureCode := failure; w_Revision := r.(w_Revision);
  w_CreatedAt := r.(w_CreatedAt); w_UpdatedAt := r.(w_UpdatedAt) |}.

(** The row of a reservation created with [status] and [retry] at [timestamp]. *)
(* go: internal/store/worker_reservation.go:194-217 PeerStore.reserveWorker *)
Definition reserved_row (r : WorkerRow) (status retry : string) (revision timestamp : Z) : WorkerRow := {|
  w_ParentAgentID := r.(w_ParentAgentID); w_DeviceID := r.(w_DeviceID); w_TaskName := r.(w_TaskName);
  w_PromptDigest := r.(w_PromptDigest); w_WorkspaceID := r.(w_WorkspaceID); w_WorkspacePath := r.(w_WorkspacePath);
  w_WorkingDirectory := r.(w_WorkingDirectory); w_CodexThreadID := ""; w_ProfileVersion := r.(w_ProfileVersion);
  w_Status := status; w_RetryTarget := retry; w_ActiveTurnID := ""; w_LastBoundTurnID := "";
  w_FailureCode := ""; w_FinalTarget := ""; w_FinalFailureCode := ""; w_Revision := revision;
  w_CreatedAt := timestamp; w_UpdatedAt := timestamp |}.

(* go: internal/store/worker_reservation.go validateNewWorkerReservation *)
Definition validateNewWorkerReservation (w : WorkerReservation) : result unit :=
  let r := w.(w_Row) in
  reject (New "new worker reservation must not contain lifecycle state")
    when (r.(w_Status) <> "" \/ r.(w_RetryTarget) <> "" \/ r.(w_CodexThreadID) <> "" \/ r.(w_ActiveTurnID) <> "" \/
          r.(w_LastBoundTurnID) <> "" \/ r.(w_FailureCode) <> "" \/ r.(w_FinalTarget) <> "" \/
          r.(w_FinalFailureCode) <> "" \/ r.(w_Revision) <> 0 \/ r.(w_CreatedAt) <> 0 \/ r.(w_UpdatedAt) <> 0) in
  WorkerReservation_Validate {| w_Key := w.(w_Key);
    w_Row := set_lifecycle r.(w_CodexThreadID) WorkerReserved r.(w_RetryTarget) r.(w_ActiveTurnID) r.(w_LastBoundTurnID)
               r.(w_FailureCode) 1 r.(w_UpdatedAt) r |}.

(* go: internal/store/worker_reservation.go sameWorkerReservation *)
Definition sameWorkerReservation (stored requested : WorkerReservation) : Prop :=
  let s := stored.(w_Row) in
  let r := requested.(w_Row) in
  stored.(w_Key) = requested.(w_Key) /\ s.(w_ParentAgentID) = r.(w_ParentAgentID) /\ s.(w_DeviceID) = r.(w_DeviceID) /\
  s.(w_TaskName) = r.(w_TaskName) /\ s.(w_PromptDigest) = r.(w_PromptDigest) /\ s.(w_WorkspaceID) = r.(w_WorkspaceID) /\
  s.(w_WorkspacePath) = r.(w_WorkspacePath) /\ s.(w_WorkingDirectory) = r.(w_WorkingDirectory) /\
  s.(w_ProfileVersion) = r.(w_ProfileVersion).
#[global] Instance sameWorkerReservation_dec s r : Decision (sameWorkerReservation s r).
Proof. unfold sameWorkerReservation. apply _. Defined.

(* go: internal/store/worker_reservation.go scanWorker *)
Definition scanWorker (x : option ((string * string * string) * WorkerRow)) : result WorkerReservation :=
  match x with
  | None => Err ErrNotFound
  | Some (key, r) =>
      let worker := {| w_Key := key; w_Row := r |} in
      do? wrap "stored worker reservation is invalid" (WorkerReservation_Validate worker) in Ok worker
  end.

(* go: internal/store/worker_reservation.go queryWorker *)
Definition queryWorker (key : WorkerKey) (db : PeerDB) : result WorkerReservation :=
  scanWorker ((fun r => (key, r)) <$> db.(worker_reservations) !! key).

Definition of_thread (controllerID threadID : string) (x : (string * string * string) * WorkerRow) : Prop :=
  x.1.1.1 = controllerID /\ x.2.(w_CodexThreadID) = threadID.
#[global] Instance of_thread_dec c t x : Decision (of_thread c t x).
Proof. unfold of_thread. apply _. Defined.

(* go: internal/store/worker_reservation.go queryWorkerByThread *)
Definition queryWorkerByThread (controllerID threadID : string) (db : PeerDB) : result WorkerReservation :=
  scanWorker (select_row (of_thread controllerID threadID) db.(worker_reservations)).

(* go: internal/store/worker_reservation.go PeerStore.GetWorker *)
Definition GetWorker (key : WorkerKey) (db : PeerDB) : result WorkerReservation :=
  do? WorkerKey_Validate key in queryWorker key db.

(** [ORDER BY created_at, controller_id, tree_id, agent_id] *)
(* go: internal/store/worker_reservation.go PeerStore.ListWorkers *)
Definition ListWorkers (db : PeerDB) : result (list WorkerReservation) :=
  result_mapM (fun x => scanWorker (Some x))
    (order_by (fun x => x.2.(w_CreatedAt)) (order_by_text (fun x => x.1.1.1) (order_by_text (fun x => x.1.1.2)
       (order_by_text (fun x => x.1.2) (map_to_list db.(worker_reservations)))))).

(* go: internal/store/worker_reservation.go PeerStore.WorkerForThread *)
Definition WorkerForThread (controllerID threadID : string) (db : PeerDB) : result WorkerReservation :=
  do? wrap "controllerId" (ValidateID controllerID) in
  do? wrap "threadId" (ValidateID threadID) in
  queryWorkerByThread controllerID threadID db.

(* go: internal/store/worker_reservation.go nextWorkerRevision *)
Definition nextWorkerRevision : Tx PeerDB Z := fun db =>
  let m := db.(peer_metadata) in
  if decide (m.(pm_worker_revision) < MaxInt64) then
    let revision := m.(pm_worker_revision) + 1 in
    let m := {| pm_worker_revision := revision;
                pm_last_result_inbox_retention_ordinal := m.(pm_last_result_inbox_retention_ordinal);
                pm_result_inbox_evicted := m.(pm_result_inbox_evicted) |} in
    reject (Wrap "allocate worker revision" SQLiteConstraint) when (peer_metadata_check m = false) in
    Ok (revision, set_peer_metadata db m)
  else Err (New "worker revision is exhausted").

(* go: internal/store/worker_reservation.go:22-22 occupiedWorkerStatesSQL *)
Definition occupied (x : (string * string * string) * WorkerRow) : Prop :=
  x.2.(w_Status) ∈ ["reserved"; "starting"; "preflight"; "ready"; "running"; "finalizing"].
#[global] Instance occupied_dec x : Decision (occupied x).
Proof. unfold occupied. apply _. Defined.

(* go: internal/store/worker_reservation.go requireWorkerSlot *)
Definition requireWorkerSlot (maxActive : Z) (db : PeerDB) : result unit :=
  reject ErrWorkerBusy when (count occupied db.(worker_reservations) >= maxActive) in Ok tt.

(* go: internal/store/worker_reservation.go:178-183 PeerStore.reserveWorker *)
Definition claim_row (agentID : string) (timestamp : Z) (r : PreparedRow) : PreparedRow := {|
  pw_source_agent_id := r.(pw_source_agent_id); pw_source_device_id := r.(pw_source_device_id);
  pw_target_device_id := r.(pw_target_device_id); pw_git_url := r.(pw_git_url); pw_head_oid := r.(pw_head_oid);
  pw_object_format := r.(pw_object_format); pw_working_directory := r.(pw_working_directory);
  pw_source_clean := r.(pw_source_clean); pw_source_snapshot_hash := r.(pw_source_snapshot_hash);
  pw_workspace_path := r.(pw_workspace_path); pw_strategy := r.(pw_strategy); pw_manifest_hash := r.(pw_manifest_hash);
  pw_source_warnings_json := r.(pw_source_warnings_json); pw_warnings_json := r.(pw_warnings_json);
  pw_status := "claimed"; pw_claimed_agent_id := agentID; pw_created_at := r.(pw_created_at); pw_updated_at := timestamp |}.

(** The claim of the prepared workspace the reservation names. *)
(* go: internal/store/worker_reservation.go:160-188 PeerStore.reserveWorker *)
Definition claim_workspace (w : WorkerReservation) (timestamp : Z) : Tx PeerDB unit :=
  let '(controllerID, treeID, agentID) := w.(w_Key) in
  let r := w.(w_Row) in
  let key := (controllerID, treeID, r.(w_WorkspaceID)) in
  let! workspace := tx_query (queryPreparedWorkspace key) in
  fail ErrWorkerReservationConflict
    when (workspace.(pw_TargetDeviceID) <> r.(w_DeviceID) \/ workspace.(pw_WorkspacePath) <> r.(w_WorkspacePath) \/
          workspace.(pw_WorkingDirectory) <> r.(w_WorkingDirectory)) in
  if decide (workspace.(pw_Status) = PreparedWorkspaceClaimed) then
    fail ErrWorkerReservationConflict when (workspace.(pw_ClaimedAgentID) <> agentID) in tx_ret tt
  else if decide (workspace.(pw_Status) = PreparedWorkspaceReady) then
    tx_exec (fun db => wrap "claim prepared workspace" (
      let? (_, t) := sql_update db.(prepared_workspaces) key (fun r => bool_decide (r.(pw_status) = "prepared"))
                       (claim_row agentID timestamp) prepared_check in
      Ok (set_prepared_workspaces db t)))
  else tx_throw (New "prepared workspace has an unsupported status").

(* go: internal/store/worker_reservation.go PeerStore.reserveWorker *)
Definition reserveWorker (reservation : WorkerReservation) (maxActive observedAt : Z) (initialStatus : string)
    (claimWorkspace : bool) : Tx PeerDB WorkerReservation :=
  do! tx_lift (validateNewWorkerReservation reservation) in
  fail (New "initial worker status is invalid") when (initialStatus <> WorkerReserved /\ initialStatus <> WorkerStarting) in
  fail (New "maxActive must be positive") when (maxActive < 1) in
  let! timestamp := tx_lift (unixTime observedAt) in
  let retry := if decide (initialStatus = WorkerStarting) then WorkerPending else "" in
  let! stored := tx_query (fun db => optional (queryWorker reservation.(w_Key) db)) in
  match stored with
  | Some stored =>
      fail ErrWorkerReservationConflict when (~ sameWorkerReservation stored reservation) in
      if decide (stored.(w_Row).(w_Status) = initialStatus) then tx_ret stored
      else tx_throw (Wrap "existing worker is %s, requested initial state is %s" ErrWorkerTransition)
  | None =>
      do! tx_query (requireWorkerSlot maxActive) in
      do! (if claimWorkspace then claim_workspace reservation timestamp else tx_ret tt) in
      let! revision := nextWorkerRevision in
      let r := reserved_row reservation.(w_Row) initialStatus retry revision timestamp in
      do! tx_exec (fun db => wrap "create worker reservation" (insert_worker reservation.(w_Key) r db)) in
      tx_ret {| w_Key := reservation.(w_Key); w_Row := r |}
  end.

(* go: internal/store/worker_reservation.go PeerStore.ReserveWorker *)
Definition ReserveWorker (reservation : WorkerReservation) (maxActive observedAt : Z) : Tx PeerDB WorkerReservation :=
  reserveWorker reservation maxActive observedAt WorkerReserved false.

(* go: internal/store/worker_reservation.go PeerStore.ReserveWorkerStart *)
Definition ReserveWorkerStart (reservation : WorkerReservation) (maxActive observedAt : Z) : Tx PeerDB WorkerReservation :=
  reserveWorker reservation maxActive observedAt WorkerStarting false.

(* go: internal/store/worker_reservation.go PeerStore.ReserveWorkerStartWithWorkspace *)
Definition ReserveWorkerStartWithWorkspace (reservation : WorkerReservation) (maxActive observedAt : Z)
    : Tx PeerDB WorkerReservation :=
  fail (New "prepared workspace ID is required") when (reservation.(w_Row).(w_WorkspaceID) = "") in
  reserveWorker reservation maxActive observedAt WorkerStarting true.

(** ** Operation receipts *)

(* go: internal/store/worker_operation.go:18-24 WorkerOperationAction *)
Definition WorkerOperationSend : string := "send".
Definition WorkerOperationFollowup : string := "followup".
Definition WorkerOperationInterrupt : string := "interrupt".

(* go: internal/store/worker_operation.go:26-32 WorkerOperationStatus *)
Definition WorkerOperationPending : string := "pending".
Definition WorkerOperationSucceeded : string := "succeeded".
Definition WorkerOperationFailed : string := "failed".

(* go: internal/store/worker_operation.go:34-43 WorkerOperationOutcome *)
Definition WorkerOutcomePending : string := "pending".
Definition WorkerOutcomeQueued : string := "queued".
Definition WorkerOutcomeSteered : string := "steered".
Definition WorkerOutcomeStarted : string := "started".
Definition WorkerOutcomeInterrupted : string := "interrupted".
Definition WorkerOutcomeFailed : string := "failed".

(* go: internal/store/worker_operation.go:45-55 WorkerOperationReceipt *)
Record WorkerOperationReceipt := {
  wo_Key : string * string * string;
  wo_OperationID : string;
  wo_Action : string;
  wo_PayloadDigest : string;
  wo_Status : string;
  wo_Outcome : string;
  wo_FailureCode : string;
  wo_CreatedAt : Z;
  wo_UpdatedAt : Z;
}.

(* go: internal/store/worker_operation.go WorkerOperationAction.valid *)
Definition WorkerOperationAction_valid (a : string) : bool :=
  bool_decide (a ∈ [WorkerOperationSend; WorkerOperationFollowup; WorkerOperationInterrupt]).

(* go: internal/store/worker_operation.go WorkerOperationStatus.valid *)
Definition WorkerOperationStatus_valid (s : string) : bool :=
  bool_decide (s ∈ [WorkerOperationPending; WorkerOperationSucceeded; WorkerOperationFailed]).

(* go: internal/store/worker_operation.go WorkerOperationOutcome.successful *)
Definition WorkerOperationOutcome_successful (o : string) : bool :=
  bool_decide (o ∈ [WorkerOutcomeQueued; WorkerOutcomeSteered; WorkerOutcomeStarted; WorkerOutcomeInterrupted]).

(* go: internal/store/worker_operation.go WorkerOperationOutcome.terminal *)
Definition WorkerOperationOutcome_terminal (o : string) : bool :=
  WorkerOperationOutcome_successful o || bool_decide (o = WorkerOutcomeFailed).

(* go: internal/store/worker_operation.go WorkerOperationOutcome.valid *)
Definition WorkerOperationOutcome_valid (o : string) : bool :=
  bool_decide (o = WorkerOutcomePending) || WorkerOperationOutcome_terminal o.

(* go: internal/store/worker_operation.go validateWorkerOperationIdentity *)
Definition validateWorkerOperationIdentity (operationID action : string) (key : WorkerKey) : result unit :=
  do? WorkerKey_Validate key in
  do? wrap "operationId" (ValidateID operationID) in
  reject (New "unsupported worker operation action %q") when (WorkerOperationAction_valid action = false) in
  Ok tt.

(* go: internal/store/worker_operation.go WorkerOperationReceipt.Validate *)
Definition WorkerOperationReceipt_Validate (r : WorkerOperationReceipt) : result unit :=
  do? validateWorkerOperationIdentity r.(wo_OperationID) r.(wo_Action) r.(wo_Key) in
  reject (New "payloadDigest must be a lowercase SHA-256 digest") when (~ lower_digest r.(wo_PayloadDigest)) in
  reject (New "worker operation status or outcome is invalid")
    when (WorkerOperationStatus_valid r.(wo_Status) = false \/ WorkerOperationOutcome_valid r.(wo_Outcome) = false) in
  do? validateFailureCode r.(wo_FailureCode) in
  reject (New "pending worker operation details are invalid")
    when (r.(wo_Status) = WorkerOperationPending /\ (r.(wo_Outcome) <> WorkerOutcomePending \/ r.(wo_FailureCode) <> "")) in
  reject (New "successful worker operation details are invalid")
    when (r.(wo_Status) = WorkerOperationSucceeded /\
          (WorkerOperationOutcome_successful r.(wo_Outcome) = false \/ r.(wo_FailureCode) <> "")) in
  reject (New "failed worker operation details are invalid")
    when (r.(wo_Status) = WorkerOperationFailed /\ (r.(wo_Outcome) <> WorkerOutcomeFailed \/ r.(wo_FailureCode) = "")) in
  reject (New "worker operation timestamps are invalid") when (r.(wo_CreatedAt) < 0 \/ r.(wo_UpdatedAt) < r.(wo_CreatedAt)) in
  Ok tt.

(* go: internal/store/worker_operation.go sameWorkerOperation *)
Definition sameWorkerOperation (stored requested : WorkerOperationReceipt) : Prop :=
  stored.(wo_Key) = requested.(wo_Key) /\ stored.(wo_OperationID) = requested.(wo_OperationID) /\
  stored.(wo_Action) = requested.(wo_Action) /\ stored.(wo_PayloadDigest) = requested.(wo_PayloadDigest).
#[global] Instance sameWorkerOperation_dec s r : Decision (sameWorkerOperation s r).
Proof. unfold sameWorkerOperation. apply _. Defined.

(** The columns of a row as [Scan] leaves them. *)
(* go: internal/store/worker_operation.go:253-257 workerOperationSelect *)
Definition operation_receipt (k : string * string) (r : WorkerOperationRow) : WorkerOperationReceipt := {|
  wo_Key := (k.1, r.(wop_tree_id), r.(wop_agent_id)); wo_OperationID := k.2; wo_Action := r.(wop_action);
  wo_PayloadDigest := r.(wop_payload_digest); wo_Status := r.(wop_status); wo_Outcome := r.(wop_outcome);
  wo_FailureCode := r.(wop_failure_code); wo_CreatedAt := r.(wop_created_at); wo_UpdatedAt := r.(wop_updated_at) |}.

(* go: internal/store/worker_operation.go scanWorkerOperation *)
Definition scanWorkerOperation (k : string * string) (r : WorkerOperationRow) : result WorkerOperationReceipt :=
  let receipt := operation_receipt k r in
  do? wrap "stored worker operation receipt is invalid" (WorkerOperationReceipt_Validate receipt) in Ok receipt.

(* go: internal/store/worker_operation.go queryWorkerOperation *)
Definition queryWorkerOperation (controllerID operationID : string) (db : PeerDB) : result WorkerOperationReceipt :=
  match db.(worker_operation_receipts) !! (controllerID, operationID) with
  | None => Err ErrNotFound
  | Some r => scanWorkerOperation (controllerID, operationID) r
  end.

(* go: internal/store/worker_operation.go PeerStore.GetWorkerOperation *)
Definition GetWorkerOperation (controllerID operationID : string) (db : PeerDB) : result WorkerOperationReceipt :=
  do? wrap "controllerId" (ValidateID controllerID) in
  do? wrap "operationId" (ValidateID operationID) in
  queryWorkerOperation controllerID operationID db.

(* go: internal/store/worker_operation.go:76-81 PeerStore.BeginWorkerOperation *)
Definition pending_worker_operation (key : WorkerKey) (action payload : string) (timestamp : Z) : WorkerOperationRow := {|
  wop_tree_id := key.1.2; wop_agent_id := key.2; wop_action := action;
  wop_payload_digest := hex_string (Sum256 payload); wop_status := WorkerOperationPending;
  wop_outcome := WorkerOutcomePending; wop_failure_code := ""; wop_created_at := timestamp; wop_updated_at := timestamp |}.

(* go: internal/store/worker_operation.go PeerStore.BeginWorkerOperation *)
Definition BeginWorkerOperation (operationID action : string) (key : WorkerKey) (payload : string) (observedAt : Z)
    : Tx PeerDB (WorkerOperationReceipt * bool) :=
  do! tx_lift (validateWorkerOperationIdentity operationID action key) in
  let! timestamp := tx_lift (unixTime observedAt) in
  let k := (key.1.1, operationID) in
  let r := pending_worker_operation key action payload timestamp in
  let desired := operation_receipt k r in
  let! existing := tx_query (fun db => optional (queryWorkerOperation key.1.1 operationID db)) in
  match existing with
  | Some existing =>
      fail ErrWorkerOperationConflict when (~ sameWorkerOperation existing desired) in tx_ret (existing, true)
  | None =>
      do! tx_query (queryWorker key) in
      do! tx_exec (fun db => wrap "create worker operation receipt" (insert_worker_operation k r db)) in
      tx_ret (desired, false)
  end.

Definition set_operation (status outcome failureCode : string) (updatedAt : Z) (r : WorkerOperationRow) : WorkerOperationRow := {|
  wop_tree_id := r.(wop_tree_id); wop_agent_id := r.(wop_agent_id); wop_action := r.(wop_action);
  wop_payload_digest := r.(wop_payload_digest); wop_status := status; wop_outcome := outcome;
  wop_failure_code := failureCode; wop_created_at := r.(wop_created_at); wop_updated_at := updatedAt |}.

Definition set_receipt (status outcome failureCode : string) (updatedAt : Z) (r : WorkerOperationReceipt)
    : WorkerOperationReceipt := {|
  wo_Key := r.(wo_Key); wo_OperationID := r.(wo_OperationID); wo_Action := r.(wo_Action);
  wo_PayloadDigest := r.(wo_PayloadDigest); wo_Status := status; wo_Outcome := outcome; wo_FailureCode := failureCode;
  wo_CreatedAt := r.(wo_CreatedAt); wo_UpdatedAt := updatedAt |}.

(* go: internal/store/worker_operation.go completeWorkerOperationReceipt *)
Definition completeWorkerOperationReceipt (key : WorkerKey) (operationID outcome failureCode : string) (timestamp : Z)
    : Tx PeerDB WorkerOperationReceipt :=
  let! receipt := tx_query (queryWorkerOperation key.1.1 operationID) in
  fail ErrWorkerOperationConflict when (receipt.(wo_Key) <> key) in
  let status := if decide (outcome = WorkerOutcomeFailed) then WorkerOperationFailed else WorkerOperationSucceeded in
  if decide (receipt.(wo_Status) <> WorkerOperationPending) then
    if decide (receipt.(wo_Status) = status /\ receipt.(wo_Outcome) = outcome /\ receipt.(wo_FailureCode) = failureCode)
    then tx_ret receipt
    else tx_throw ErrWorkerOperationConflict
  else
    let updatedAt := Z.max timestamp receipt.(wo_UpdatedAt) in
    do! tx_exec (fun db =>
      let? (affected, t) := wrap "complete worker operation receipt"
        (sql_update db.(worker_operation_receipts) (receipt.(wo_Key).1.1, receipt.(wo_OperationID)) (fun _ => true)
           (set_operation status outcome failureCode updatedAt) worker_operation_check) in
      reject ErrWorkerOperationConflict when (affected <> 1) in
      Ok (set_worker_operation_receipts db t)) in
    tx_ret (set_receipt status outcome failureCode updatedAt receipt).

(** ** Turn-start intents *)

(* go: internal/store/worker_turn_intent.go:28-34 WorkerTurnStartIntentState *)
Definition WorkerTurnStartPrepared : string := "prepared".
Definition WorkerTurnStartBound : string := "bound".
Definition WorkerTurnStartRejected : string := "rejected".

(* go: internal/store/worker_turn_intent.go:36-41 WorkerRolloutLocatorStatus *)
Definition WorkerRolloutAvailable : string := "available".
Definition WorkerRolloutUnavailable : string := "unavailable".

(* go: internal/store/worker_turn_intent.go:46-52 WorkerRolloutLocator *)
Record WorkerRolloutLocator := {
  lo_Status : string;
  lo_CodexHome : string;
  lo_Path : string;
  lo_Offset : Z;
  lo_FailureCode : string;
}.
#[global] Instance WorkerRolloutLocator_eq_dec : EqDecision WorkerRolloutLocator.
Proof. solve_decision. Defined.

(* go: internal/store/worker_turn_intent.go:54-64 PrepareWorkerTurnStartIntentRequest *)
Record PrepareWorkerTurnStartIntentRequest := {
  pt_Key : string * string * string;
  pt_IntentID : string;
  pt_DeviceID : string;
  pt_ManagedThreadID : string;
  pt_PreviousTurnID : string;
  pt_PackageID : string;
  pt_OperationID : string;
  pt_Rollout : WorkerRolloutLocator;
  pt_ReservationLimitBytes : Z;
}.
#[global] Instance PrepareWorkerTurnStartIntentRequest_eq_dec : EqDecision PrepareWorkerTurnStartIntentRequest.
Proof. solve_decision. Defined.

(** The struct's worker key and intent id are the key of the row, its other fields the
    columns, with the locator's fields in a row of their own. *)
(* go: internal/store/worker_turn_intent.go:66-84 WorkerTurnStartIntent *)
Record WorkerTurnStartIntent := { ti_Key : string * string * string * string; ti_Row : TurnIntentRow }.

Definition ti_Rollout (r : TurnIntentRow) : WorkerRolloutLocator := {|
  lo_Status := r.(it_locator_status); lo_CodexHome := r.(it_codex_home); lo_Path := r.(it_rollout_path);
  lo_Offset := r.(it_rollout_offset); lo_FailureCode := r.(it_locator_failure_code) |}.

(** The branches of [runtime.GOOS] that are not Windows. *)
(* go: internal/store/worker_turn_intent.go sameManagedPathComponent *)
Definition sameManagedPathComponent (left right : string) : bool := bool_decide (left = right).
(* go: internal/store/worker_turn_intent.go sameManagedPathSuffix *)
Definition sameManagedPathSuffix (path suffix : string) : bool := HasSuffix path suffix.

(** The checks on the path of an available rollout, below the managed home. *)
(* go: internal/store/worker_turn_intent.go:651-664 WorkerRolloutLocator.Validate *)
Definition validate_rollout_path (codexHome path threadID : string) : result unit :=
  match filepath_Rel codexHome path with
  | None => Err (New "worker rollout path is outside the managed CLI home")
  | Some relative =>
      reject (New "worker rollout path is outside the managed CLI home")
        when (relative = "." \/ filepath_IsAbs relative = true \/ relative = ".." \/ HasPrefix relative "../" = true) in
      let components := Split_slash relative in
      reject (New "worker rollout path is outside the active sessions hierarchy")
        when ((length components < 2)%nat \/ sameManagedPathComponent (default "" (head components)) "sessions" = false) in
      let name := default "" (last components) in
      reject (New "worker rollout path does not name the managed thread")
        when (HasPrefix name "rollout-" = false \/
              sameManagedPathSuffix name (String.append "-" (String.append threadID ".jsonl")) = false) in
      Ok tt
  end.

(* go: internal/store/worker_turn_intent.go WorkerRolloutLocator.Validate *)
Definition WorkerRolloutLocator_Validate (l : WorkerRolloutLocator) (threadID : string) : result unit :=
  if decide (l.(lo_Status) = WorkerRolloutAvailable) then
    reject (New "available worker rollout locator cannot contain failureCode") when (l.(lo_FailureCode) <> "") in
    reject (New "worker rollout locator paths must be bounded clean absolute paths")
      when (filepath_IsAbs l.(lo_CodexHome) = false \/ filepath_IsAbs l.(lo_Path) = false \/
            len l.(lo_CodexHome) > maximumWorkspacePath \/ len l.(lo_Path) > maximumWorkspacePath \/
            filepath_Clean l.(lo_CodexHome) <> l.(lo_CodexHome) \/ filepath_Clean l.(lo_Path) <> l.(lo_Path)) in
    reject (New "worker rollout offset must be from 0 through %d")
      when (l.(lo_Offset) < 0 \/ l.(lo_Offset) > maximumWorkerRolloutOffset) in
    validate_rollout_path l.(lo_CodexHome) l.(lo_Path) threadID
  else if decide (l.(lo_Status) = WorkerRolloutUnavailable) then
    reject (New "unavailable worker rollout locator cannot contain a path or offset")
      when (l.(lo_CodexHome) <> "" \/ l.(lo_Path) <> "" \/ l.(lo_Offset) <> 0) in
    do? wrap "rollout locator" (validateFailureCode l.(lo_FailureCode)) in
    reject (New "unavailable worker rollout locator requires failureCode") when (l.(lo_FailureCode) = "") in
    Ok tt
  else Err (New "unsupported worker rollout locator status %q").

(* go: internal/store/worker_turn_intent.go PrepareWorkerTurnStartIntentRequest.Validate *)
Definition PrepareWorkerTurnStartIntentRequest_Validate (r : PrepareWorkerTurnStartIntentRequest) : result unit :=
  do? WorkerKey_Validate r.(pt_Key) in
  do? validate_ids [("intentId", r.(pt_IntentID)); ("deviceId", r.(pt_DeviceID));
                    ("managedThreadId", r.(pt_ManagedThreadID)); ("packageId", r.(pt_PackageID))] in
  do? validate_optional_id "previousTurnId" r.(pt_PreviousTurnID) in
  do? validate_optional_id "operationId" r.(pt_OperationID) in
  do? WorkerRolloutLocator_Validate r.(pt_Rollout) r.(pt_ManagedThreadID) in
  reject (New "reservationLimitBytes must be from 1 through %d")
    when (r.(pt_ReservationLimitBytes) < 1 \/ r.(pt_ReservationLimitBytes) > MaximumResultPackageBytes) in
  Ok tt.

(* go: internal/store/worker_turn_intent.go:682-692 WorkerTurnStartIntent.Validate *)
Definition intent_request (i : WorkerTurnStartIntent) : PrepareWorkerTurnStartIntentRequest :=
  let r := i.(ti_Row) in {|
  pt_Key := i.(ti_Key).1; pt_IntentID := i.(ti_Key).2; pt_DeviceID := r.(it_device_id);
  pt_ManagedThreadID := r.(it_managed_thread_id); pt_PreviousTurnID := r.(it_previous_turn_id);
  pt_PackageID := r.(it_package_id); pt_OperationID := r.(it_operation_id); pt_Rollout := ti_Rollout r;
  pt_ReservationLimitBytes := r.(it_reservation_limit_bytes) |}.

(** The switch on [i.State]. *)
(* go: internal/store/worker_turn_intent.go:710-730 WorkerTurnStartIntent.Validate *)
Definition validate_resolution (r : TurnIntentRow) : result unit :=
  if decide (r.(it_state) = WorkerTurnStartPrepared) then
    reject (New "prepared worker turn-start intent has resolution details")
      when (r.(it_turn_id) <> "" \/ r.(it_rejection_failure_code) <> "" \/ r.(it_resolution_revision) <> 0) in Ok tt
  else if decide (r.(it_state) = WorkerTurnStartBound) then
    do? wrap "turnId" (ValidateID r.(it_turn_id)) in
    reject (New "bound worker turn-start intent has invalid resolution details")
      when (r.(it_turn_id) = r.(it_previous_turn_id) \/ r.(it_rejection_failure_code) <> "" \/
            r.(it_resolution_revision) <= r.(it_prepared_revision)) in Ok tt
  else if decide (r.(it_state) = WorkerTurnStartRejected) then
    reject (New "rejected worker turn-start intent has invalid resolution details")
      when (r.(it_turn_id) <> "" \/ r.(it_rejection_failure_code) = "" \/
            r.(it_resolution_revision) <= r.(it_prepared_revision)) in Ok tt
  else Err (New "unsupported worker turn-start intent state %q").

(* go: internal/store/worker_turn_intent.go WorkerTurnStartIntent.Validate *)
Definition WorkerTurnStartIntent_Validate (i : WorkerTurnStartIntent) : result unit :=
  let r := i.(ti_Row) in
  do? PrepareWorkerTurnStartIntentRequest_Validate (intent_request i) in
  reject (New "worker turn-start retry target is invalid")
    when (r.(it_retry_target) <> WorkerPending /\ r.(it_retry_target) <> WorkerIdle) in
  reject (New "worker turn-start operation does not match retry target")
    when ((r.(it_retry_target) = WorkerPending /\ r.(it_operation_id) <> "") \/
          (r.(it_retry_target) = WorkerIdle /\ r.(it_operation_id) = "")) in
  reject (New "worker turn-start intent revision is invalid")
    when (r.(it_prepared_revision) = 0 \/ r.(it_prepared_revision) >= 2 ^ 63 \/ r.(it_resolution_revision) >= 2 ^ 63) in
  do? wrap "rejection" (validateFailureCode r.(it_rejection_failure_code)) in
  do? validate_resolution r in
  reject (New "worker turn-start intent timestamps are invalid")
    when (r.(it_created_at) < 0 \/ r.(it_updated_at) < r.(it_created_at)) in
  Ok tt.

(* go: internal/store/worker_turn_intent.go scanWorkerTurnStartIntent *)
Definition scanWorkerTurnStartIntent (x : option ((string * string * string * string) * TurnIntentRow))
    : result WorkerTurnStartIntent :=
  match x with
  | None => Err ErrNotFound
  | Some (k, r) =>
      let intent := {| ti_Key := k; ti_Row := r |} in
      do? wrap "stored worker turn-start intent is invalid" (WorkerTurnStartIntent_Validate intent) in Ok intent
  end.

(* go: internal/store/worker_turn_intent.go queryWorkerTurnStartIntent *)
Definition queryWorkerTurnStartIntent (key : WorkerKey) (intentID : string) (db : PeerDB) : result WorkerTurnStartIntent :=
  scanWorkerTurnStartIntent ((fun r => ((key, intentID), r)) <$> db.(worker_turn_start_intents) !! (key, intentID)).

(* go: internal/store/worker_turn_intent.go queryWorkerTurnStartIntentByID *)
Definition queryWorkerTurnStartIntentByID (intentID : string) (db : PeerDB) : result WorkerTurnStartIntent :=
  scanWorkerTurnStartIntent (select_row (fun x => x.1.2 = intentID) db.(worker_turn_start_intents)).

(* go: internal/store/worker_turn_intent.go queryWorkerTurnStartIntentByPackage *)
Definition queryWorkerTurnStartIntentByPackage (packageID : string) (db : PeerDB) : result WorkerTurnStartIntent :=
  scanWorkerTurnStartIntent (select_row (fun x => x.2.(it_package_id) = packageID) db.(worker_turn_start_intents)).

(* go: internal/store/worker_turn_intent.go queryPreparedWorkerTurnStartIntent *)
Definition queryPreparedWorkerTurnStartIntent (key : WorkerKey) (db : PeerDB) : result WorkerTurnStartIntent :=
  scanWorkerTurnStartIntent (select_row (fun x => x.1.1 = key /\ x.2.(it_state) = "prepared") db.(worker_turn_start_intents)).

(* go: internal/store/worker_turn_intent.go queryPreparedWorkerTurnStartIntentByOperation *)
Definition queryPreparedWorkerTurnStartIntentByOperation (controllerID operationID : string) (db : PeerDB)
    : result WorkerTurnStartIntent :=
  scanWorkerTurnStartIntent (select_row
    (fun x => x.1.1.1.1 = controllerID /\ x.2.(it_operation_id) = operationID /\ x.2.(it_state) = "prepared")
    db.(worker_turn_start_intents)).

(* go: internal/store/worker_turn_intent.go queryWorkerTurnStartIntentByTurn *)
Definition queryWorkerTurnStartIntentByTurn (key : WorkerKey) (turnID : string) (db : PeerDB) : result WorkerTurnStartIntent :=
  scanWorkerTurnStartIntent (select_row (fun x => x.1.1 = key /\ x.2.(it_turn_id) = turnID) db.(worker_turn_start_intents)).

(** ** Lifecycle transitions *)

(** [if _, err := query; err == nil { return conflict } else if !errors.Is(err, ErrNotFound) { return err }] *)
Definition require_absent {A} (conflict : error) (r : result A) : result unit :=
  let? found := optional r in
  match found with Some _ => Err conflict | None => Ok tt end.

(* go: internal/store/worker_reservation.go requireNoUnresolvedWorkerTurnStartIntent *)
Definition requireNoUnresolvedWorkerTurnStartIntent (worker : WorkerReservation) (db : PeerDB) : result unit :=
  do? require_absent ErrWorkerTurnStartIntentConflict (queryPreparedWorkerTurnStartIntent worker.(w_Key) db) in
  if decide (worker.(w_Row).(w_ActiveTurnID) = "") then Ok tt
  else require_absent ErrWorkerTurnStartIntentConflict
         (queryWorkerTurnStartIntentByTurn worker.(w_Key) worker.(w_Row).(w_ActiveTurnID) db).

(* go: internal/store/worker_reservation.go transitionAlreadyApplied *)
Definition transitionAlreadyApplied (worker : WorkerReservation) (threadID detail : string) : bool :=
  let r := worker.(w_Row) in
  if decide (r.(w_Status) = WorkerPreflight) then bool_decide (r.(w_CodexThreadID) = threadID)
  else if decide (r.(w_Status) = WorkerReady) then true
  else if decide (r.(w_Status) = WorkerRunning) then bool_decide (r.(w_ActiveTurnID) = detail)
  else if decide (r.(w_Status) = WorkerFailed) then bool_decide (r.(w_FailureCode) = detail)
  else bool_decide (r.(w_Status) ∈ [WorkerReserved; WorkerPending; WorkerStarting; WorkerIdle]).

(** The thread to attach is not another worker's. *)
(* go: internal/store/worker_reservation.go:454-462 PeerStore.transitionWorker *)
Definition require_thread_owner (to : string) (key : WorkerKey) (threadID : string) (db : PeerDB) : result unit :=
  if decide (to = WorkerPreflight) then
    let? owner := optional (queryWorkerByThread key.1.1 threadID db) in
    match owner with
    | Some owner => reject ErrWorkerReservationConflict when (owner.(w_Key) <> key) in Ok tt
    | None => Ok tt
    end
  else Ok tt.

(** A start from a state without a slot takes one. *)
(* go: internal/store/worker_reservation.go:463-471 PeerStore.transitionWorker *)
Definition require_start_slot (to status : string) (maxActive : Z) (db : PeerDB) : result unit :=
  if decide (to = WorkerStarting /\ (status = WorkerPending \/ status = WorkerIdle \/ status = WorkerInterrupted)) then
    reject (New "maxActive must be positive") when (maxActive < 1) in requireWorkerSlot maxActive db
  else Ok tt.

(** A worker that is being started is only restored to its retry target. *)
(* go: internal/store/worker_reservation.go:472-481 PeerStore.transitionWorker *)
Definition wrong_restore (r : WorkerRow) (to : string) : Prop :=
  (to = WorkerPending \/ to = WorkerIdle) /\
  (r.(w_Status) = WorkerStarting \/ r.(w_Status) = WorkerPreflight \/ r.(w_Status) = WorkerReady) /\
  r.(w_RetryTarget) <> to.
#[global] Instance wrong_restore_dec r to : Decision (wrong_restore r to).
Proof. unfold wrong_restore. apply _. Defined.

(** The fields of the struct after the step, as the switch on [to] sets them. *)
(* go: internal/store/worker_reservation.go:482-521 PeerStore.transitionWorker *)
Definition move_worker (to threadID detail : string) (revision updatedAt : Z) (r : WorkerRow) : WorkerRow :=
  let retry :=
    if decide (to = WorkerStarting) then
      if decide (r.(w_Status) = WorkerReserved \/ r.(w_Status) = WorkerPending) then WorkerPending
      else if decide (r.(w_Status) = WorkerIdle \/ r.(w_Status) = WorkerInterrupted) then WorkerIdle
      else r.(w_RetryTarget)
    else if decide (to = WorkerPreflight \/ to = WorkerReady) then r.(w_RetryTarget)
    else if decide (to ∈ [WorkerRunning; WorkerIdle; WorkerFailed; WorkerReserved; WorkerPending]) then ""
    else r.(w_RetryTarget) in
  let active :=
    if decide (to = WorkerRunning) then detail
    else if decide (to ∈ [WorkerStarting; WorkerPreflight; WorkerReady; WorkerIdle; WorkerFailed; WorkerReserved; WorkerPending])
    then "" else r.(w_ActiveTurnID) in
  set_final "" "" (set_lifecycle
    (if decide (to = WorkerPreflight) then threadID else r.(w_CodexThreadID)) to retry active
    (if decide (to = WorkerRunning) then detail else r.(w_LastBoundTurnID))
    (if decide (to = WorkerFailed) then detail else "") revision updatedAt r).

(** The UPDATE writes eight columns of the struct; the final columns keep their values. *)
(* go: internal/store/worker_reservation.go:522-541 PeerStore.transitionWorker *)
Definition store_lifecycle (new r : WorkerRow) : WorkerRow :=
  set_lifecycle new.(w_CodexThreadID) new.(w_Status) new.(w_RetryTarget) new.(w_ActiveTurnID) new.(w_LastBoundTurnID)
    new.(w_FailureCode) new.(w_Revision) new.(w_UpdatedAt) r.

(* go: internal/store/worker_reservation.go PeerStore.transitionWorker *)
Definition transitionWorker (key : WorkerKey) (maxActive observedAt : Z) (from : list string) (to threadID detail : string)
    : Tx PeerDB WorkerReservation :=
  do! tx_lift (WorkerKey_Validate key) in
  fail (New "interrupted workers require recovery-specific state") when (to = WorkerInterrupted) in
  let! timestamp := tx_lift (unixTime observedAt) in
  let! worker := tx_query (queryWorker key) in
  let r := worker.(w_Row) in
  if decide (r.(w_Status) = to /\ transitionAlreadyApplied worker threadID detail = true) then tx_ret worker
  else
    do! tx_query (requireNoUnresolvedWorkerTurnStartIntent worker) in
    fail (Wrap "cannot move from %s to %s" ErrWorkerTransition) when (r.(w_Status) ∉ from) in
    do! tx_query (require_thread_owner to key threadID) in
    do! tx_query (require_start_slot to r.(w_Status) maxActive) in
    fail (Wrap "worker retry target is %s, cannot restore to %s" ErrWorkerTransition) when (wrong_restore r to) in
    let! revision := nextWorkerRevision in
    let new := move_worker to threadID detail revision (Z.max timestamp r.(w_UpdatedAt)) r in
    do! tx_exec (fun db => wrap "update worker lifecycle" (
      let? (_, db) := update_worker key (fun _ => true) (store_lifecycle new) db in Ok db)) in
    tx_ret {| w_Key := key; w_Row := new |}.

(* go: internal/store/worker_reservation.go PeerStore.BeginWorkerStart *)
Definition BeginWorkerStart (key : WorkerKey) (maxActive observedAt : Z) : Tx PeerDB WorkerReservation :=
  transitionWorker key maxActive observedAt [WorkerReserved; WorkerPending; WorkerIdle; WorkerInterrupted] WorkerStarting "" "".

(* go: internal/store/worker_reservation.go PeerStore.RestoreWorkerPendingAfterUnsent *)
Definition RestoreWorkerPendingAfterUnsent (key : WorkerKey) (observedAt : Z) : Tx PeerDB WorkerReservation :=
  transitionWorker key 0 observedAt [WorkerStarting; WorkerPreflight; WorkerReady] WorkerPending "" "".

(* go: internal/store/worker_reservation.go PeerStore.RestoreWorkerIdleAfterUnsent *)
Definition RestoreWorkerIdleAfterUnsent (key : WorkerKey) (observedAt : Z) : Tx PeerDB WorkerReservation :=
  transitionWorker key 0 observedAt [WorkerStarting; WorkerPreflight; WorkerReady] WorkerIdle "" "".

(* go: internal/store/worker_reservation.go PeerStore.AttachWorkerThread *)
Definition AttachWorkerThread (key : WorkerKey) (threadID : string) (observedAt : Z) : Tx PeerDB WorkerReservation :=
  do! tx_lift (wrap "codexThreadId" (ValidateID threadID)) in
  transitionWorker key 0 observedAt [WorkerStarting] WorkerPreflight threadID "".

(* go: internal/store/worker_reservation.go PeerStore.MarkWorkerReady *)
Definition MarkWorkerReady (key : WorkerKey) (observedAt : Z) : Tx PeerDB WorkerReservation :=
  transitionWorker key 0 observedAt [WorkerPreflight] WorkerReady "" "".

(* go: internal/store/worker_reservation.go PeerStore.MarkWorkerRunning *)
Definition MarkWorkerRunning (key : WorkerKey) (turnID : string) (observedAt : Z) : Tx PeerDB WorkerReservation :=
  do! tx_lift (wrap "turnId" (ValidateID turnID)) in
  transitionWorker key 0 observedAt [WorkerReady] WorkerRunning "" turnID.

(* go: internal/store/worker_reservation.go PeerStore.MarkWorkerIdle *)
Definition MarkWorkerIdle (key : WorkerKey) (observedAt : Z) : Tx PeerDB WorkerReservation :=
  transitionWorker key 0 observedAt [WorkerRunning; WorkerReady; WorkerInterrupted] WorkerIdle "" "".

(* go: internal/store/worker_reservation.go PeerStore.FailWorker *)
Definition FailWorker (key : WorkerKey) (failureCode : string) (observedAt : Z) : Tx PeerDB WorkerReservation :=
  do! tx_lift (validateFailureCode failureCode) in
  fail (New "failureCode is required") when (failureCode = "") in
  transitionWorker key 0 observedAt
    [WorkerReserved; WorkerPending; WorkerStarting; WorkerPreflight; WorkerReady; WorkerRunning; WorkerInterrupted]
    WorkerFailed "" failureCode.

(* go: internal/store/worker_operation.go PeerStore.CompleteWorkerOperation *)
Definition CompleteWorkerOperation (key : WorkerKey) (operationID outcome failureCode : string) (observedAt : Z)
    : Tx PeerDB WorkerOperationReceipt :=
  do! tx_lift (WorkerKey_Validate key) in
  do! tx_lift (wrap "operationId" (ValidateID operationID)) in
  fail (New "unsupported terminal worker operation outcome %q") when (WorkerOperationOutcome_terminal outcome = false) in
  do! tx_lift (validateFailureCode failureCode) in
  fail (New "failureCode is required for failed worker operations") when (outcome = WorkerOutcomeFailed /\ failureCode = "") in
  fail (New "successful worker operations cannot contain failureCode")
    when (outcome <> WorkerOutcomeFailed /\ failureCode <> "") in
  let! timestamp := tx_lift (unixTime observedAt) in
  do! tx_query (fun db => require_absent ErrWorkerOperationConflict
        (queryPreparedWorkerTurnStartIntentByOperation key.1.1 operationID db)) in
  completeWorkerOperationReceipt key operationID outcome failureCode timestamp.
