(* ===== verification/PeerTurns.v ===== *)
(** internal/store/worker_turn_intent.go, peer_result_package.go, peer_result_outbox.go
    and worker_result_finalization.go: the turns of a managed worker. Before a turn is
    started an intent is prepared and the bytes of its result package are reserved in the
    outbox; the intent is bound to the turn that started or rejected; a finished turn is
    fenced, its package is captured, published, delivered and released. *)

From S2P Require Export Results PeerWorkers.

(** ** The outbox *)

(* go: internal/store/peer_result_package.go:18-23 MaximumPeerResultStoreBytes *)
Definition MaximumPeerResultStoreBytes : Z := 2 * 1024 * 1024 * 1024.
Definition MaximumResultInboxRemovalReceipts : Z := 256.
Definition maximumPeerResultPage : Z := 256.

(* go: internal/store/peer_result_package.go:33-41 ResultOutboxState *)
Definition ResultOutboxCapturePending : string := "capturePending".
Definition ResultOutboxPublishPending : string := "publishPending".
Definition ResultOutboxDeliveryPending : string := "deliveryPending".
Definition ResultOutboxDelivered : string := "delivered".
Definition ResultOutboxReleasePending : string := "releasePending".

(* go: internal/store/peer_result_package.go ResultOutboxKey *)
Record ResultOutboxKey := { xk_Key : string * string * string; xk_SourceDeviceID : string; xk_PackageID : string }.
#[global] Instance ResultOutboxKey_eq_dec : EqDecision ResultOutboxKey.
Proof. solve_decision. Defined.

(* go: internal/store/peer_result_package.go ResultOutboxKey.Validate *)
Definition ResultOutboxKey_Validate (k : ResultOutboxKey) : result unit :=
  do? WorkerKey_Validate k.(xk_Key) in
  do? wrap "sourceDeviceId" (ValidateID k.(xk_SourceDeviceID)) in
  wrap "packageId" (ValidateID k.(xk_PackageID)).

(* go: internal/store/peer_result_package.go ResultOutbox *)
Record ResultOutbox := {
  xo_Key : ResultOutboxKey;
  xo_State : string;
  xo_Metadata : ResultPackageMetadata;
  xo_Manifest : ResultManifest;
  xo_ReservationLimitBytes : Z;
  xo_ReservedBytes : Z;
  xo_PackageBytes : Z;
  xo_DeliverySequence : Z;
  xo_CreatedAt : Z;
  xo_UpdatedAt : Z;
}.

(** [protocol.ResultManifest{}] and [protocol.ResultPackageMetadata{}] *)
Definition zero_manifest : ResultManifest := {|
  rm_Version := 0; rm_PackageID := ""; rm_ControllerID := ""; rm_TreeID := ""; rm_SourceAgentID := ""; rm_SourceDeviceID := "";
  rm_ManagedThreadID := ""; rm_TurnID := ""; rm_LifecycleRevision := 0;
  rm_Terminal := {| rt_Outcome := ""; rt_FailureCode := "" |}; rm_CapturedAt := 0;
  rm_Rollout := {| rr_Status := ""; rr_RawSize := 0; rr_RawSHA256 := ""; rr_FailureCode := "" |};
  rm_Workspace := {| rw_Status := ""; rw_WorkspaceID := ""; rw_SourceDeviceID := ""; rw_TargetDeviceID := "";
    rw_ObjectFormat := ""; rw_BaseHeadOID := ""; rw_BaseManifestHash := ""; rw_BaseSnapshotHash := ""; rw_BaseClean := false;
    rw_ResultHeadOID := ""; rw_ResultSnapshotHash := ""; rw_ResultClean := false; rw_BaseWarnings := None;
    rw_ResultWarnings := None; rw_FailureCode := "" |};
  rm_Parts := None |}.
Definition zero_metadata : ResultPackageMetadata := {| rpm_Manifest := ""; rpm_ManifestDescriptor := zero_part |}.

#[global] Instance ResultTerminal_eq_dec : EqDecision ResultTerminal.
Proof. solve_decision. Defined.
#[global] Instance ResultRolloutComponent_eq_dec : EqDecision ResultRolloutComponent.
Proof. solve_decision. Defined.
#[global] Instance ResultManifest_eq_dec : EqDecision ResultManifest.
Proof. solve_decision. Defined.

(** The loop over the parts, from [total]. *)
(* go: internal/store/peer_result_package.go:310-316 resultPackageBytes *)
Fixpoint sum_parts (total : Z) (parts : list ResultPackagePartDescriptor) : result Z :=
  match parts with
  | [] => Ok total
  | part :: parts =>
      reject (New "result package byte count overflows its bound") when (part.(rd_Size) > MaximumResultPackageBytes - total) in
      sum_parts (total + part.(rd_Size)) parts
  end.

(* go: internal/store/peer_result_package.go resultPackageBytes *)
Definition resultPackageBytes (metadata : ResultPackageMetadata) : result Z :=
  let? manifest := DecodeManifest metadata in
  let? total := sum_parts metadata.(rpm_ManifestDescriptor).(rd_Size) (default [] manifest.(rm_Parts)) in
  reject (New "result package is outside its aggregate bound") when (total < 1 \/ total > MaximumResultPackageBytes) in
  Ok total.

(** The manifest names the key. *)
(* go: internal/store/peer_result_package.go:335-339 validateStoredResultMetadata *)
Definition names_outbox (key : ResultOutboxKey) (m : ResultManifest) : Prop :=
  m.(rm_PackageID) = key.(xk_PackageID) /\ m.(rm_ControllerID) = key.(xk_Key).1.1 /\ m.(rm_TreeID) = key.(xk_Key).1.2 /\
  m.(rm_SourceAgentID) = key.(xk_Key).2 /\ m.(rm_SourceDeviceID) = key.(xk_SourceDeviceID).
#[global] Instance names_outbox_dec key m : Decision (names_outbox key m).
Proof. unfold names_outbox. apply _. Defined.

(* go: internal/store/peer_result_package.go validateStoredResultMetadata *)
Definition validateStoredResultMetadata (key : ResultOutboxKey) (metadata : ResultPackageMetadata) (manifest : ResultManifest)
    : result unit :=
  let? decoded := DecodeManifest metadata in
  reject (New "stored result manifest columns do not match the exact metadata bytes") when (decoded <> manifest) in
  reject ErrResultPackageAuthority when (~ names_outbox key manifest) in
  Ok tt.

(* go: internal/store/peer_result_package.go ResultOutbox.Validate *)
Definition ResultOutbox_Validate (r : ResultOutbox) : result unit :=
  do? ResultOutboxKey_Validate r.(xo_Key) in
  reject (New "result outbox reservation is outside the package bound")
    when (r.(xo_ReservationLimitBytes) < 1 \/ r.(xo_ReservationLimitBytes) > MaximumResultPackageBytes \/
          r.(xo_ReservedBytes) < 1 \/ r.(xo_ReservedBytes) > r.(xo_ReservationLimitBytes)) in
  reject (New "result outbox timestamps are invalid") when (r.(xo_CreatedAt) < 0 \/ r.(xo_UpdatedAt) < r.(xo_CreatedAt)) in
  if decide (r.(xo_State) = ResultOutboxCapturePending) then
    reject (New "capture-pending result outbox contains captured metadata")
      when (len r.(xo_Metadata).(rpm_Manifest) <> 0 \/ r.(xo_Metadata).(rpm_ManifestDescriptor) <> zero_part \/
            r.(xo_Manifest) <> zero_manifest \/ r.(xo_ReservedBytes) <> r.(xo_ReservationLimitBytes) \/
            r.(xo_PackageBytes) <> 0 \/ r.(xo_DeliverySequence) <> 0) in
    Ok tt
  else if decide (r.(xo_State) ∈ [ResultOutboxPublishPending; ResultOutboxDeliveryPending; ResultOutboxDelivered;
                                  ResultOutboxReleasePending]) then
    do? validateStoredResultMetadata r.(xo_Key) r.(xo_Metadata) r.(xo_Manifest) in
    let? packageBytes := resultPackageBytes r.(xo_Metadata) in
    reject (New "result outbox retained bytes do not match its metadata")
      when (r.(xo_PackageBytes) <> packageBytes \/ r.(xo_ReservedBytes) <> packageBytes \/
            r.(xo_ReservationLimitBytes) < packageBytes) in
    if decide (r.(xo_State) = ResultOutboxDelivered \/ r.(xo_State) = ResultOutboxReleasePending) then
      reject (New "delivered result outbox has invalid sequence")
        when (r.(xo_DeliverySequence) = 0 \/ r.(xo_DeliverySequence) > MaxInt64) in Ok tt
    else
      reject (New "undelivered result outbox contains a sequence") when (r.(xo_DeliverySequence) <> 0) in Ok tt
  else Err (New "unsupported result outbox state %q").

Definition parts_json (parts : option (list ResultPackagePartDescriptor)) : json :=
  match parts with None => JNull | Some parts => JArray (part_json <$> parts) end.

(* go: internal/store/peer_result_package.go encodeResultParts *)
Definition encodeResultParts (parts : option (list ResultPackagePartDescriptor)) : string := of_bytes (json_text (parts_json parts)).

(** Plain [json.Unmarshal] of a descriptor, which skips unknown members. *)
Definition unmarshal_stored_part : decoder ResultPackagePartDescriptor := fun old v =>
  let? members := struct_members_any v in
  let field {A} := @unmarshal_field A part_fields members in
  let? kind := field "kind" unmarshal_string old.(rd_Kind) in
  let? size := field "size" unmarshal_int old.(rd_Size) in
  let? sha256 := field "sha256" unmarshal_string old.(rd_SHA256) in
  Ok {| rd_Kind := kind; rd_Size := size; rd_SHA256 := sha256 |}.

(** [json.Unmarshal] into a nil slice of descriptors. *)
(* go: internal/store/peer_result_package.go:388-392 decodeResultMetadata *)
Definition decode_parts (partsJSON : string) : result (option (list ResultPackagePartDescriptor)) :=
  match json_parse partsJSON with
  | None => Err (New "stored result package descriptors are invalid")
  | Some v =>
      match unmarshal_slice zero_part unmarshal_stored_part (Slice None []) v with
      | Ok parts => Ok parts.(sl_elements)
      | Err _ => Err (New "stored result package descriptors are invalid")
      end
  end.

(* go: internal/store/peer_result_package.go decodeResultMetadata *)
Definition decodeResultMetadata (manifestBytes : string) (manifestSize : Z) (manifestSHA256 partsJSON : string)
    : result (ResultPackageMetadata * ResultManifest) :=
  let metadata := {| rpm_Manifest := manifestBytes; rpm_ManifestDescriptor := {|
        rd_Kind := ResultPackagePartManifest; rd_Size := manifestSize; rd_SHA256 := manifestSHA256 |} |} in
  let? manifest := wrap "stored result package metadata is invalid" (DecodeManifest metadata) in
  let? parts := decode_parts partsJSON in
  reject (New "stored result package descriptors do not match the manifest")
    when (default [] parts <> default [] manifest.(rm_Parts)) in
  Ok (metadata, manifest).

(* go: internal/store/peer_result_package.go:419-432 scanResultOutbox *)
Definition outbox_metadata (r : OutboxRow) : result (ResultPackageMetadata * ResultManifest) :=
  if decide (r.(ob_state) <> ResultOutboxCapturePending) then
    let? (metadata, manifest) := decodeResultMetadata r.(ob_manifest_bytes) r.(ob_manifest_size_bytes)
                                   r.(ob_manifest_sha256) r.(ob_parts_json) in
    reject (New "stored result outbox identity columns do not match its manifest")
      when (r.(ob_managed_thread_id) <> manifest.(rm_ManagedThreadID) \/ r.(ob_turn_id) <> manifest.(rm_TurnID) \/
            r.(ob_lifecycle_revision) <> manifest.(rm_LifecycleRevision)) in
    Ok (metadata, manifest)
  else
    reject (New "capture-pending result outbox contains turn identity")
      when (r.(ob_managed_thread_id) <> "" \/ r.(ob_turn_id) <> "" \/ r.(ob_lifecycle_revision) <> 0) in
    Ok (zero_metadata, zero_manifest).

(* go: internal/store/peer_result_package.go scanResultOutbox *)
Definition scanResultOutbox (x : option ((string * string * string * string) * OutboxRow)) : result ResultOutbox :=
  match x with
  | None => Err ErrNotFound
  | Some (k, r) =>
      let? (metadata, manifest) := outbox_metadata r in
      let result := {|
        xo_Key := {| xk_Key := k.1; xk_SourceDeviceID := r.(ob_source_device_id); xk_PackageID := k.2 |};
        xo_State := r.(ob_state); xo_Metadata := metadata; xo_Manifest := manifest;
        xo_ReservationLimitBytes := r.(ob_reservation_limit_bytes); xo_ReservedBytes := r.(ob_reserved_bytes);
        xo_PackageBytes := r.(ob_package_bytes); xo_DeliverySequence := r.(ob_delivery_sequence);
        xo_CreatedAt := r.(ob_created_at); xo_UpdatedAt := r.(ob_updated_at) |} in
      do? wrap "stored result outbox is invalid" (ResultOutbox_Validate result) in Ok result
  end.

Definition outbox_key (key : ResultOutboxKey) : string * string * string * string := (key.(xk_Key), key.(xk_PackageID)).

Definition is_outbox (key : ResultOutboxKey) (x : (string * string * string * string) * OutboxRow) : Prop :=
  x.1 = outbox_key key /\ x.2.(ob_source_device_id) = key.(xk_SourceDeviceID).
#[global] Instance is_outbox_dec key x : Decision (is_outbox key x).
Proof. unfold is_outbox. apply _. Defined.

(* go: internal/store/peer_result_outbox.go queryResultOutbox *)
Definition queryResultOutbox (key : ResultOutboxKey) (db : PeerDB) : result ResultOutbox :=
  scanResultOutbox (select_row (is_outbox key) db.(peer_result_outbox)).

(* go: internal/store/peer_result_outbox.go queryResultOutboxByPackage *)
Definition queryResultOutboxByPackage (packageID : string) (db : PeerDB) : result ResultOutbox :=
  do? wrap "packageId" (ValidateID packageID) in
  scanResultOutbox (select_row (fun x => x.1.2 = packageID) db.(peer_result_outbox)).

(* go: internal/store/peer_result_outbox.go PeerStore.GetResultOutbox *)
Definition GetResultOutbox (key : ResultOutboxKey) (db : PeerDB) : result ResultOutbox :=
  do? ResultOutboxKey_Validate key in queryResultOutbox key db.

(** The reserved bytes of the whole outbox. *)
Notation reserved_total := (sum_of ob_reserved_bytes).

(* go: internal/store/peer_result_package.go ResultPackageRetention *)
Record ResultPackageRetention := { rn_Count : Z; rn_Bytes : Z }.

(** The query on [peer_result_outbox]. *)
(* go: internal/store/peer_result_outbox.go:650-668 inspectResultStoreCapacity *)
Definition inspectResultStoreCapacity (db : PeerDB) : ResultPackageRetention := {|
  rn_Count := Z.of_nat (size db.(peer_result_outbox)); rn_Bytes := reserved_total db.(peer_result_outbox) |}.

(* go: internal/store/peer_result_outbox.go PeerStore.GetResultOutboxRetention *)
Definition GetResultOutboxRetention (db : PeerDB) : ResultPackageRetention := inspectResultStoreCapacity db.

(* go: internal/store/peer_result_outbox.go requireResultStoreCapacity *)
Definition requireResultStoreCapacity (additionalBytes : Z) (db : PeerDB) : result unit :=
  let retention := inspectResultStoreCapacity db in
  reject ErrResultPackageQuota
    when (retention.(rn_Count) >= MaximumPeerResultPackages \/
          additionalBytes > MaximumPeerResultStoreBytes - retention.(rn_Bytes)) in
  Ok tt.

(** The columns the INSERT leaves out have their defaults. *)
(* go: internal/store/peer_result_outbox.go:90-97 reserveResultOutbox *)
Definition reserved_outbox (sourceDeviceID : string) (reservedBytes timestamp : Z) : OutboxRow := {|
  ob_source_device_id := sourceDeviceID; ob_state := ResultOutboxCapturePending; ob_managed_thread_id := "";
  ob_turn_id := ""; ob_lifecycle_revision := 0; ob_manifest_bytes := ""; ob_manifest_size_bytes := 0;
  ob_manifest_sha256 := ""; ob_parts_json := "[]"; ob_reservation_limit_bytes := reservedBytes;
  ob_reserved_bytes := reservedBytes; ob_package_bytes := 0; ob_delivery_sequence := 0; ob_created_at := timestamp;
  ob_updated_at := timestamp |}.

Definition bad_reservation (reservedBytes : Z) : Prop := reservedBytes < 1 \/ reservedBytes > MaximumResultPackageBytes.
#[global] Instance bad_reservation_dec n : Decision (bad_reservation n).
Proof. unfold bad_reservation. apply _. Defined.

(* go: internal/store/peer_result_outbox.go reserveResultOutbox *)
Definition reserveResultOutbox (key : ResultOutboxKey) (reservedBytes timestamp : Z) : Tx PeerDB ResultOutbox :=
  do! tx_lift (ResultOutboxKey_Validate key) in
  fail (New "reservedBytes must be from 1 through %d") when (bad_reservation reservedBytes) in
  fail (New "result outbox timestamp must not be negative") when (timestamp < 0) in
  let! stored := tx_query (fun db => optional (queryResultOutboxByPackage key.(xk_PackageID) db)) in
  match stored with
  | Some stored =>
      fail ErrResultPackageConflict
        when (stored.(xo_Key) <> key \/ stored.(xo_ReservationLimitBytes) <> reservedBytes) in
      tx_ret stored
  | None =>
      let! worker := tx_query (queryWorker key.(xk_Key)) in
      fail ErrResultPackageAuthority when (worker.(w_Row).(w_DeviceID) <> key.(xk_SourceDeviceID)) in
      do! tx_query (requireResultStoreCapacity reservedBytes) in
      do! tx_exec (fun db => wrap "reserve result outbox"
            (insert_outbox (outbox_key key) (reserved_outbox key.(xk_SourceDeviceID) reservedBytes timestamp) db)) in
      tx_ret {| xo_Key := key; xo_State := ResultOutboxCapturePending; xo_Metadata := zero_metadata;
                xo_Manifest := zero_manifest; xo_ReservationLimitBytes := reservedBytes; xo_ReservedBytes := reservedBytes;
                xo_PackageBytes := 0; xo_DeliverySequence := 0; xo_CreatedAt := timestamp; xo_UpdatedAt := timestamp |}
  end.

(* go: internal/store/peer_result_outbox.go PeerStore.ReserveResultOutbox *)
Definition ReserveResultOutbox (key : ResultOutboxKey) (reservedBytes observedAt : Z) : Tx PeerDB ResultOutbox :=
  do! tx_lift (ResultOutboxKey_Validate key) in
  fail (New "reservedBytes must be from 1 through %d") when (bad_reservation reservedBytes) in
  let! timestamp := tx_lift (unixTime observedAt) in
  reserveResultOutbox key reservedBytes timestamp.

(** ** Turn-start intents *)

(* go: internal/store/worker_turn_intent.go:86-90 WorkerTurnStartResolution *)
Record WorkerTurnStartResolution := {
  tr_Intent : WorkerTurnStartIntent;
  tr_Worker : WorkerReservation;
  tr_Operation : option WorkerOperationReceipt;
}.

(* go: internal/store/worker_turn_intent.go sameWorkerTurnStartPreparation *)
Definition sameWorkerTurnStartPreparation (stored : WorkerTurnStartIntent) (request : PrepareWorkerTurnStartIntentRequest) : Prop :=
  intent_request stored = request.
#[global] Instance sameWorkerTurnStartPreparation_dec s r : Decision (sameWorkerTurnStartPreparation s r).
Proof. unfold sameWorkerTurnStartPreparation. apply _. Defined.

(* go: internal/store/worker_turn_intent.go validateTurnStartPreparationAuthority *)
Definition validateTurnStartPreparationAuthority (worker : WorkerReservation) (request : PrepareWorkerTurnStartIntentRequest)
    (db : PeerDB) : result unit :=
  let r := worker.(w_Row) in
  reject ErrWorkerTurnStartIntentConflict
    when (worker.(w_Key) <> request.(pt_Key) \/ r.(w_DeviceID) <> request.(pt_DeviceID) \/
          r.(w_CodexThreadID) <> request.(pt_ManagedThreadID) \/ r.(w_LastBoundTurnID) <> request.(pt_PreviousTurnID) \/
          r.(w_Status) <> WorkerReady \/ (r.(w_RetryTarget) <> WorkerPending /\ r.(w_RetryTarget) <> WorkerIdle)) in
  if decide (r.(w_RetryTarget) = WorkerPending) then
    reject ErrWorkerTurnStartIntentConflict when (request.(pt_OperationID) <> "") in Ok tt
  else
    reject ErrWorkerTurnStartIntentConflict when (request.(pt_OperationID) = "") in
    let? receipt := queryWorkerOperation worker.(w_Key).1.1 request.(pt_OperationID) db in
    reject ErrWorkerTurnStartIntentConflict
      when (receipt.(wo_Key) <> worker.(w_Key) \/ receipt.(wo_Action) <> WorkerOperationFollowup \/
            receipt.(wo_Status) <> WorkerOperationPending \/ receipt.(wo_Outcome) <> WorkerOutcomePending) in
    Ok tt.

(** The worker still runs or finalizes the turn the intent is bound to. *)
(* go: internal/store/worker_turn_intent.go:863-870 requireWorkerTurnStartIntentCapacity *)
Definition holds_turn (db : PeerDB) (x : (string * string * string * string) * TurnIntentRow) : Prop :=
  match db.(worker_reservations) !! x.1.1 with
  | Some worker => worker.(w_Status) ∈ ["running"; "finalizing"] /\ worker.(w_ActiveTurnID) = x.2.(it_turn_id)
  | None => False
  end.
#[global] Instance holds_turn_dec db x : Decision (holds_turn db x).
Proof. unfold holds_turn. destruct (_ !! _); apply _. Defined.

(** An intent the retention may drop: rejected, or bound to a turn its worker no longer holds. *)
(* go: internal/store/worker_turn_intent.go:862-871 requireWorkerTurnStartIntentCapacity *)
Definition prunable (db : PeerDB) (x : (string * string * string * string) * TurnIntentRow) : Prop :=
  x.2.(it_state) = "rejected" \/ (x.2.(it_state) = "bound" /\ ~ holds_turn db x).
#[global] Instance prunable_dec db x : Decision (prunable db x).
Proof. unfold prunable. apply _. Defined.

(** [ORDER BY updated_at, created_at, intent_id LIMIT remove] *)
(* go: internal/store/worker_turn_intent.go:860-874 requireWorkerTurnStartIntentCapacity *)
Definition pruned_ids (remove : Z) (db : PeerDB) : list string :=
  (fun x => x.1.2) <$> limit remove
    (order_by (fun x => x.2.(it_updated_at)) (order_by (fun x => x.2.(it_created_at))
       (order_by_text (fun x => x.1.2) (select (prunable db) db.(worker_turn_start_intents))))).

(* go: internal/store/worker_turn_intent.go requireWorkerTurnStartIntentCapacity *)
Definition requireWorkerTurnStartIntentCapacity : Tx PeerDB unit := fun db =>
  let count := Z.of_nat (size db.(worker_turn_start_intents)) in
  if decide (count < MaximumWorkerTurnStartIntentReceipts) then Ok (tt, db)
  else
    let remove := count - MaximumWorkerTurnStartIntentReceipts + 1 in
    let (removed, t) := sql_delete (fun x => x.1.2 ∈ pruned_ids remove db) db.(worker_turn_start_intents) in
    reject ErrWorkerTurnStartIntentQuota when (removed <> remove) in
    Ok (tt, set_worker_turn_start_intents db t).

(* go: internal/store/worker_turn_intent.go:154-169 PeerStore.PrepareWorkerTurnStartIntent *)
Definition prepared_intent (request : PrepareWorkerTurnStartIntentRequest) (worker : WorkerReservation) (timestamp : Z)
    : TurnIntentRow := {|
  it_device_id := request.(pt_DeviceID); it_managed_thread_id := request.(pt_ManagedThreadID);
  it_previous_turn_id := request.(pt_PreviousTurnID); it_package_id := request.(pt_PackageID);
  it_operation_id := request.(pt_OperationID); it_retry_target := worker.(w_Row).(w_RetryTarget);
  it_locator_status := request.(pt_Rollout).(lo_Status); it_codex_home := request.(pt_Rollout).(lo_CodexHome);
  it_rollout_path := request.(pt_Rollout).(lo_Path); it_rollout_offset := request.(pt_Rollout).(lo_Offset);
  it_locator_failure_code := request.(pt_Rollout).(lo_FailureCode);
  it_reservation_limit_bytes := request.(pt_ReservationLimitBytes); it_state := WorkerTurnStartPrepared;
  it_turn_id := ""; it_rejection_failure_code := ""; it_prepared_revision := worker.(w_Row).(w_Revision);
  it_resolution_revision := 0; it_created_at := timestamp; it_updated_at := timestamp |}.

(* go: internal/store/worker_turn_intent.go PeerStore.PrepareWorkerTurnStartIntent *)
Definition PrepareWorkerTurnStartIntent (request : PrepareWorkerTurnStartIntentRequest) (observedAt : Z)
    : Tx PeerDB (WorkerTurnStartIntent * bool) :=
  do! tx_lift (PrepareWorkerTurnStartIntentRequest_Validate request) in
  let! timestamp := tx_lift (unixTime observedAt) in
  let! existing := tx_query (fun db => optional (queryWorkerTurnStartIntentByID request.(pt_IntentID) db)) in
  match existing with
  | Some existing =>
      fail ErrWorkerTurnStartIntentConflict when (~ sameWorkerTurnStartPreparation existing request) in tx_ret (existing, true)
  | None =>
      let! worker := tx_query (queryWorker request.(pt_Key)) in
      do! tx_query (validateTurnStartPreparationAuthority worker request) in
      do! tx_query (fun db => require_absent ErrWorkerTurnStartIntentConflict
            (queryWorkerTurnStartIntentByPackage request.(pt_PackageID) db)) in
      do! tx_query (fun db => require_absent ErrWorkerTurnStartIntentConflict
            (queryPreparedWorkerTurnStartIntent request.(pt_Key) db)) in
      do! tx_query (fun db => require_absent ErrWorkerTurnStartIntentConflict
            (queryResultOutboxByPackage request.(pt_PackageID) db)) in
      do! requireWorkerTurnStartIntentCapacity in
      do! reserveResultOutbox {| xk_Key := request.(pt_Key); xk_SourceDeviceID := request.(pt_DeviceID);
            xk_PackageID := request.(pt_PackageID) |} request.(pt_ReservationLimitBytes) timestamp in
      let k := (request.(pt_Key), request.(pt_IntentID)) in
      let r := prepared_intent request worker timestamp in
      do! tx_exec (fun db => wrap "create worker turn-start intent" (insert_intent k r db)) in
      tx_ret ({| ti_Key := k; ti_Row := r |}, false)
  end.

(* go: internal/store/worker_turn_intent.go validateWorkerTurnStartResolutionIdentity *)
Definition validateWorkerTurnStartResolutionIdentity (key : WorkerKey) (intentID : string) : result unit :=
  do? WorkerKey_Validate key in wrap "intentId" (ValidateID intentID).

(** The worker is as it was when the intent was prepared. *)
(* go: internal/store/worker_turn_intent.go validatePreparedTurnIntentWorker *)
Definition validatePreparedTurnIntentWorker (worker : WorkerReservation) (intent : WorkerTurnStartIntent) : result unit :=
  let w := worker.(w_Row) in
  let i := intent.(ti_Row) in
  reject ErrWorkerTurnStartIntentConflict
    when (worker.(w_Key) <> intent.(ti_Key).1 \/ w.(w_DeviceID) <> i.(it_device_id) \/
          w.(w_CodexThreadID) <> i.(it_managed_thread_id) \/ w.(w_LastBoundTurnID) <> i.(it_previous_turn_id) \/
          w.(w_Status) <> WorkerReady \/ w.(w_RetryTarget) <> i.(it_retry_target) \/
          w.(w_Revision) <> i.(it_prepared_revision)) in
  Ok tt.

(* go: internal/store/worker_turn_intent.go validateInitialRolloutBinding *)
Definition validateInitialRolloutBinding (intent : WorkerTurnStartIntent) (rollout : WorkerRolloutLocator) : result unit :=
  let i := intent.(ti_Row) in
  reject ErrWorkerTurnStartIntentConflict
    when (i.(it_previous_turn_id) <> "" \/ rollout.(lo_Status) <> WorkerRolloutAvailable \/ rollout.(lo_Offset) <> 0) in
  match WorkerRolloutLocator_Validate rollout i.(it_managed_thread_id) with
  | Err _ => Err (Wrap "invalid initial rollout locator: %v" ErrWorkerTurnStartIntentConflict)
  | Ok _ =>
      if decide (i.(it_locator_status) = WorkerRolloutAvailable) then
        reject ErrWorkerTurnStartIntentConflict when (ti_Rollout i <> rollout) in Ok tt
      else
        reject ErrWorkerTurnStartIntentConflict when (i.(it_locator_status) <> WorkerRolloutUnavailable) in Ok tt
  end.

(** The receipt of a resolved intent's operation agrees with the resolution. *)
(* go: internal/store/worker_turn_intent.go:827-842 loadWorkerTurnStartResolution *)
Definition receipt_resolves (i : TurnIntentRow) (receipt : WorkerOperationReceipt) : Prop :=
  (i.(it_state) = WorkerTurnStartBound /\ receipt.(wo_Status) = WorkerOperationSucceeded /\
   receipt.(wo_Outcome) = WorkerOutcomeStarted /\ receipt.(wo_FailureCode) = "") \/
  (i.(it_state) = WorkerTurnStartRejected /\ receipt.(wo_Status) = WorkerOperationFailed /\
   receipt.(wo_Outcome) = WorkerOutcomeFailed /\ receipt.(wo_FailureCode) = i.(it_rejection_failure_code)).
#[global] Instance receipt_resolves_dec i r : Decision (receipt_resolves i r).
Proof. unfold receipt_resolves. apply _. Defined.

(* go: internal/store/worker_turn_intent.go loadWorkerTurnStartResolution *)
Definition loadWorkerTurnStartResolution (intent : WorkerTurnStartIntent) (db : PeerDB) : result WorkerTurnStartResolution :=
  let i := intent.(ti_Row) in
  let? worker := queryWorker intent.(ti_Key).1 db in
  let? operation :=
    if decide (i.(it_operation_id) <> "") then
      let? receipt := queryWorkerOperation intent.(ti_Key).1.1.1 i.(it_operation_id) db in
      reject ErrWorkerTurnStartIntentConflict when (~ receipt_resolves i receipt) in Ok (Some receipt)
    else Ok None in
  Ok {| tr_Intent := intent; tr_Worker := worker; tr_Operation := operation |}.

(* go: internal/store/worker_turn_intent.go requireWorkerTurnStartUpdate *)
Definition requireWorkerTurnStartUpdate (x : Z * PeerDB) : result PeerDB :=
  reject ErrWorkerTurnStartIntentConflict when (x.1 <> 1) in Ok x.2.

(** The row of an intent resolved as [state], with its locator and timestamps. *)
Definition resolve_intent (state turnID failureCode : string) (rollout : WorkerRolloutLocator) (revision updatedAt : Z)
    (i : TurnIntentRow) : TurnIntentRow := {|
  it_device_id := i.(it_device_id); it_managed_thread_id := i.(it_managed_thread_id);
  it_previous_turn_id := i.(it_previous_turn_id); it_package_id := i.(it_package_id); it_operation_id := i.(it_operation_id);
  it_retry_target := i.(it_retry_target); it_locator_status := rollout.(lo_Status); it_codex_home := rollout.(lo_CodexHome);
  it_rollout_path := rollout.(lo_Path); it_rollout_offset := rollout.(lo_Offset);
  it_locator_failure_code := rollout.(lo_FailureCode); it_reservation_limit_bytes := i.(it_reservation_limit_bytes);
  it_state := state; it_turn_id := turnID; it_rejection_failure_code := failureCode;
  it_prepared_revision := i.(it_prepared_revision); it_resolution_revision := revision;
  it_created_at := i.(it_created_at); it_updated_at := updatedAt |}.

(** Both UPDATEs of the worker of a prepared intent are guarded by its checkpoint. *)
(* go: internal/store/worker_turn_intent.go:306-309 PeerStore.bindWorkerTurnStartIntent *)
Definition at_checkpoint (i : TurnIntentRow) (w : WorkerRow) : bool :=
  bool_decide (w.(w_Status) = "ready" /\ w.(w_Revision) = i.(it_prepared_revision) /\ w.(w_RetryTarget) = i.(it_retry_target)).

(** ... and both of the intent by its state. *)
(* go: internal/store/worker_turn_intent.go:346-347 PeerStore.bindWorkerTurnStartIntent *)
Definition still_prepared (i r : TurnIntentRow) : bool :=
  bool_decide (r.(it_state) = "prepared" /\ r.(it_prepared_revision) = i.(it_prepared_revision)).

(** The operation of the intent, completed in the same transaction. *)
(* go: internal/store/worker_turn_intent.go:317-332 PeerStore.bindWorkerTurnStartIntent *)
Definition complete_intent_operation (key : WorkerKey) (operationID outcome failureCode : string) (updatedAt : Z)
    : Tx PeerDB (option WorkerOperationReceipt) :=
  if decide (operationID <> "") then
    let! receipt := completeWorkerOperationReceipt key operationID outcome failureCode updatedAt in tx_ret (Some receipt)
  else tx_ret None.

(** No other intent of the worker is bound to the turn. *)
(* go: internal/store/worker_turn_intent.go:279-285 PeerStore.bindWorkerTurnStartIntent *)
Definition require_turn_free (key : WorkerKey) (intentID turnID : string) (db : PeerDB) : result unit :=
  let? existing := optional (queryWorkerTurnStartIntentByTurn key turnID db) in
  match existing with
  | Some existing => reject ErrWorkerTurnStartIntentConflict when (existing.(ti_Key).2 <> intentID) in Ok tt
  | None => Ok tt
  end.

(* go: internal/store/worker_turn_intent.go PeerStore.bindWorkerTurnStartIntent *)
Definition bindWorkerTurnStartIntent (key : WorkerKey) (intentID turnID : string) (initialRollout : option WorkerRolloutLocator)
    (observedAt : Z) : Tx PeerDB WorkerTurnStartResolution :=
  do! tx_lift (validateWorkerTurnStartResolutionIdentity key intentID) in
  do! tx_lift (wrap "turnId" (ValidateID turnID)) in
  let! timestamp := tx_lift (unixTime observedAt) in
  let! intent := tx_query (queryWorkerTurnStartIntent key intentID) in
  let i := intent.(ti_Row) in
  do! tx_lift (match initialRollout with Some rollout => validateInitialRolloutBinding intent rollout | None => Ok tt end) in
  fail ErrWorkerTurnStartIntentConflict when (turnID = i.(it_previous_turn_id)) in
  if decide (i.(it_state) = WorkerTurnStartBound) then
    fail ErrWorkerTurnStartIntentConflict when (i.(it_turn_id) <> turnID) in
    tx_query (loadWorkerTurnStartResolution intent)
  else
    fail ErrWorkerTurnStartIntentConflict when (i.(it_state) <> WorkerTurnStartPrepared) in
    let rollout := default (ti_Rollout i) initialRollout in
    let! worker := tx_query (queryWorker key) in
    let w := worker.(w_Row) in
    do! tx_lift (validatePreparedTurnIntentWorker worker intent) in
    do! tx_query (require_turn_free key intentID turnID) in
    let! revision := nextWorkerRevision in
    let updatedAt := Z.max (Z.max timestamp w.(w_UpdatedAt)) i.(it_updated_at) in
    let bound := set_lifecycle w.(w_CodexThreadID) WorkerRunning "" turnID turnID "" revision updatedAt in
    let worker := {| w_Key := key; w_Row := bound w |} in
    do! tx_lift (wrap "bound worker lifecycle is invalid" (WorkerReservation_Validate worker)) in
    do! tx_exec (fun db =>
      let? x := wrap "bind worker turn-start lifecycle" (update_worker key (at_checkpoint i)
        (fun r => set_lifecycle r.(w_CodexThreadID) "running" "" turnID turnID "" revision updatedAt r) db) in
      requireWorkerTurnStartUpdate x) in
    let! operation := complete_intent_operation key i.(it_operation_id) WorkerOutcomeStarted "" updatedAt in
    let resolved := resolve_intent WorkerTurnStartBound turnID i.(it_rejection_failure_code) rollout revision updatedAt i in
    let intent := {| ti_Key := intent.(ti_Key); ti_Row := resolved |} in
    do! tx_lift (wrap "bound worker turn-start intent is invalid" (WorkerTurnStartIntent_Validate intent)) in
    do! tx_exec (fun db =>
      let? x := wrap "bind worker turn-start intent" (update_intent (key, intentID) (still_prepared i)
        (fun r => resolve_intent "bound" turnID r.(it_rejection_failure_code) rollout revision updatedAt r) db) in
      requireWorkerTurnStartUpdate x) in
    tx_ret {| tr_Intent := intent; tr_Worker := worker; tr_Operation := operation |}.

(* go: internal/store/worker_turn_intent.go PeerStore.BindWorkerTurnStartIntent *)
Definition BindWorkerTurnStartIntent (key : WorkerKey) (intentID turnID : string) (observedAt : Z)
    : Tx PeerDB WorkerTurnStartResolution :=
  bindWorkerTurnStartIntent key intentID turnID None observedAt.

(* go: internal/store/worker_turn_intent.go PeerStore.BindInitialWorkerTurnStartIntent *)
Definition BindInitialWorkerTurnStartIntent (key : WorkerKey) (intentID turnID : string) (rollout : WorkerRolloutLocator)
    (observedAt : Z) : Tx PeerDB WorkerTurnStartResolution :=
  bindWorkerTurnStartIntent key intentID turnID (Some rollout) observedAt.

(** The reserved package of a turn that never started is given back. *)
(* go: internal/store/worker_turn_intent.go releaseTurnStartResultReservation *)
Definition releaseTurnStartResultReservation (intent : WorkerTurnStartIntent) : Tx PeerDB unit :=
  let i := intent.(ti_Row) in
  let key := {| xk_Key := intent.(ti_Key).1; xk_SourceDeviceID := i.(it_device_id); xk_PackageID := i.(it_package_id) |} in
  let! outbox := tx_query (queryResultOutbox key) in
  fail ErrWorkerTurnStartIntentConflict
    when (outbox.(xo_State) <> ResultOutboxCapturePending \/
          outbox.(xo_ReservationLimitBytes) <> i.(it_reservation_limit_bytes)) in
  tx_exec (fun db =>
    let (affected, t) := sql_delete (fun x => is_outbox key x /\ x.2.(ob_state) = "capturePending" /\
      x.2.(ob_reservation_limit_bytes) = i.(it_reservation_limit_bytes)) db.(peer_result_outbox) in
    reject ErrWorkerTurnStartIntentConflict when (affected <> 1) in
    Ok (set_peer_result_outbox db t)).

(* go: internal/store/worker_turn_intent.go PeerStore.RejectWorkerTurnStartIntent *)
Definition RejectWorkerTurnStartIntent (key : WorkerKey) (intentID failureCode : string) (observedAt : Z)
    : Tx PeerDB WorkerTurnStartResolution :=
  do! tx_lift (validateWorkerTurnStartResolutionIdentity key intentID) in
  do! tx_lift (validateFailureCode failureCode) in
  fail (New "failureCode is required") when (failureCode = "") in
  let! timestamp := tx_lift (unixTime observedAt) in
  let! intent := tx_query (queryWorkerTurnStartIntent key intentID) in
  let i := intent.(ti_Row) in
  if decide (i.(it_state) = WorkerTurnStartRejected) then
    fail ErrWorkerTurnStartIntentConflict when (i.(it_rejection_failure_code) <> failureCode) in
    tx_query (loadWorkerTurnStartResolution intent)
  else
    fail ErrWorkerTurnStartIntentConflict when (i.(it_state) <> WorkerTurnStartPrepared) in
    let! worker := tx_query (queryWorker key) in
    let w := worker.(w_Row) in
    do! tx_lift (validatePreparedTurnIntentWorker worker intent) in
    do! releaseTurnStartResultReservation intent in
    let! revision := nextWorkerRevision in
    let updatedAt := Z.max (Z.max timestamp w.(w_UpdatedAt)) i.(it_updated_at) in
    let worker := {| w_Key := key;
      w_Row := set_lifecycle w.(w_CodexThreadID) i.(it_retry_target) "" "" w.(w_LastBoundTurnID) "" revision updatedAt w |} in
    do! tx_lift (wrap "rejected worker lifecycle is invalid" (WorkerReservation_Validate worker)) in
    do! tx_exec (fun db =>
      let? x := wrap "reject worker turn-start lifecycle" (update_worker key (at_checkpoint i)
        (fun r => set_lifecycle r.(w_CodexThreadID) i.(it_retry_target) "" "" r.(w_LastBoundTurnID) "" revision updatedAt r) db) in
      requireWorkerTurnStartUpdate x) in
    let! operation := complete_intent_operation key i.(it_operation_id) WorkerOutcomeFailed failureCode updatedAt in
    let resolved := resolve_intent WorkerTurnStartRejected i.(it_turn_id) failureCode (ti_Rollout i) revision updatedAt i in
    let intent := {| ti_Key := intent.(ti_Key); ti_Row := resolved |} in
    do! tx_lift (wrap "rejected worker turn-start intent is invalid" (WorkerTurnStartIntent_Validate intent)) in
    do! tx_exec (fun db =>
      let? x := wrap "reject worker turn-start intent" (update_intent (key, intentID) (still_prepared i)
        (fun r => resolve_intent "rejected" r.(it_turn_id) failureCode (ti_Rollout r) revision updatedAt r) db) in
      requireWorkerTurnStartUpdate x) in
    tx_ret {| tr_Intent := intent; tr_Worker := worker; tr_Operation := operation |}.

(** ** Finishing a turn *)

(* go: internal/store/worker_result_finalization.go:13-19 WorkerResultFinalization *)
Record WorkerResultFinalization := {
  wf_Intent : option WorkerTurnStartIntent;
  wf_Worker : WorkerReservation;
  wf_Outbox : ResultOutbox;
}.

(* go: internal/store/peer_changes_artifact.go validateFinalTarget *)
Definition validateFinalTarget (target failureCode : string) : result unit :=
  reject (New "unsupported final worker target %q") when (WorkerStatus_finalTarget target = false) in
  do? validateFailureCode failureCode in
  reject (New "idle final target cannot contain failureCode") when (target = WorkerIdle /\ failureCode <> "") in
  reject (New "non-idle final target requires failureCode") when (target <> WorkerIdle /\ failureCode = "") in
  Ok tt.

(* go: internal/store/peer_changes_artifact.go validateFinalizationRequest *)
Definition validateFinalizationRequest (key : WorkerKey) (turnID target failureCode : string) : result unit :=
  do? WorkerKey_Validate key in
  do? wrap "turnId" (ValidateID turnID) in
  validateFinalTarget target failureCode.

(* go: internal/store/worker_result_finalization.go workerTerminalMatches *)
Definition workerTerminalMatches (worker : WorkerReservation) (turnID failureCode : string) : Prop :=
  let r := worker.(w_Row) in
  r.(w_FailureCode) = failureCode /\ r.(w_FinalTarget) = "" /\ r.(w_FinalFailureCode) = "" /\
  r.(w_ActiveTurnID) = "" /\ r.(w_LastBoundTurnID) = turnID.
#[global] Instance workerTerminalMatches_dec w t f : Decision (workerTerminalMatches w t f).
Proof. unfold workerTerminalMatches. apply _. Defined.

(** A lookup whose absence is a lack of authority. *)
Definition authority_lookup {A} (r : result A) : result A :=
  let? found := optional r in
  match found with Some a => Ok a | None => Err ErrResultPackageAuthority end.

(** The fence: the UPDATE leaves the thread and the turn as they are. *)
(* go: internal/store/worker_result_finalization.go:90-110 PeerStore.BeginWorkerResultFinalization *)
Definition fence_worker (target failureCode : string) (revision updatedAt : Z) (r : WorkerRow) : WorkerRow :=
  set_final target failureCode (set_lifecycle r.(w_CodexThreadID) "finalizing" "" r.(w_ActiveTurnID) r.(w_LastBoundTurnID) ""
    revision updatedAt r).

(* go: internal/store/worker_result_finalization.go PeerStore.BeginWorkerResultFinalization *)
Definition BeginWorkerResultFinalization (key : WorkerKey) (turnID target failureCode : string) (observedAt : Z)
    : Tx PeerDB WorkerResultFinalization :=
  do! tx_lift (validateFinalizationRequest key turnID target failureCode) in
  let! timestamp := tx_lift (unixTime observedAt) in
  let! intent := tx_query (fun db => authority_lookup (queryWorkerTurnStartIntentByTurn key turnID db)) in
  let i := intent.(ti_Row) in
  fail ErrResultPackageAuthority
    when (i.(it_state) <> WorkerTurnStartBound \/ intent.(ti_Key).1 <> key \/ i.(it_turn_id) <> turnID) in
  let! outbox := tx_query (queryResultOutboxByPackage i.(it_package_id)) in
  fail ErrResultPackageAuthority
    when (outbox.(xo_Key).(xk_Key) <> key \/ outbox.(xo_Key).(xk_SourceDeviceID) <> i.(it_device_id) \/
          outbox.(xo_Key).(xk_PackageID) <> i.(it_package_id) \/
          outbox.(xo_ReservationLimitBytes) <> i.(it_reservation_limit_bytes)) in
  let! worker := tx_query (queryWorker key) in
  let w := worker.(w_Row) in
  let current := {| wf_Intent := Some intent; wf_Worker := worker; wf_Outbox := outbox |} in
  if decide (w.(w_Status) = WorkerFinalizing) then
    fail ErrResultPackageConflict
      when (w.(w_ActiveTurnID) <> turnID \/ w.(w_FinalTarget) <> target \/ w.(w_FinalFailureCode) <> failureCode \/
            (outbox.(xo_State) <> ResultOutboxCapturePending /\ outbox.(xo_State) <> ResultOutboxPublishPending)) in
    tx_ret current
  else if decide (w.(w_Status) = target /\ workerTerminalMatches worker turnID failureCode /\
                  (outbox.(xo_State) = ResultOutboxDeliveryPending \/ outbox.(xo_State) = ResultOutboxDelivered)) then
    tx_ret current
  else
    fail (Wrap "cannot finalize worker/result package in %s/%s state" ErrWorkerTransition)
      when ((w.(w_Status) <> WorkerRunning /\ w.(w_Status) <> WorkerInterrupted) \/ w.(w_ActiveTurnID) <> turnID \/
            w.(w_LastBoundTurnID) <> turnID \/ outbox.(xo_State) <> ResultOutboxCapturePending) in
    fail ErrResultPackageAuthority
      when (w.(w_CodexThreadID) <> i.(it_managed_thread_id) \/ w.(w_DeviceID) <> i.(it_device_id)) in
    let updatedAt := Z.max (Z.max (Z.max timestamp w.(w_UpdatedAt)) i.(it_updated_at)) outbox.(xo_UpdatedAt) in
    let! revision := nextWorkerRevision in
    let worker := {| w_Key := key; w_Row := fence_worker target failureCode revision updatedAt w |} in
    do! tx_lift (wrap "result-finalizing worker is invalid" (WorkerReservation_Validate worker)) in
    do! tx_exec (fun db =>
      let? x := wrap "begin worker result finalization" (update_worker key
        (fun r => bool_decide (r.(w_Status) ∈ ["running"; "interrupted"] /\ r.(w_ActiveTurnID) = turnID))
        (fence_worker target failureCode revision updatedAt) db) in
      requireWorkerTurnStartUpdate x) in
    tx_ret {| wf_Intent := Some intent; wf_Worker := worker; wf_Outbox := outbox |}.

(** The intent that reserved the package is bound to the turn the manifest reports. *)
(* go: internal/store/peer_result_outbox.go validateResultOutboxTurnIntentAuthority *)
Definition validateResultOutboxTurnIntentAuthority (outbox : ResultOutbox) (manifest : ResultManifest) (db : PeerDB) : result unit :=
  let? intent := authority_lookup (queryWorkerTurnStartIntentByPackage outbox.(xo_Key).(xk_PackageID) db) in
  let i := intent.(ti_Row) in
  reject ErrResultPackageAuthority
    when (i.(it_state) <> WorkerTurnStartBound \/ intent.(ti_Key).1 <> outbox.(xo_Key).(xk_Key) \/
          i.(it_device_id) <> outbox.(xo_Key).(xk_SourceDeviceID) \/ i.(it_managed_thread_id) <> manifest.(rm_ManagedThreadID) \/
          i.(it_turn_id) <> manifest.(rm_TurnID) \/ i.(it_package_id) <> outbox.(xo_Key).(xk_PackageID) \/
          i.(it_reservation_limit_bytes) <> outbox.(xo_ReservationLimitBytes)) in
  Ok tt.

(** The terminal outcome of the manifest is the one the worker was fenced with. *)
(* go: internal/store/peer_result_outbox.go:585-600 validateResultOutboxWorkerAuthority *)
Definition terminal_matches (r : WorkerRow) (t : ResultTerminal) : Prop :=
  (t.(rt_Outcome) = ResultTerminalCompleted /\ r.(w_FinalTarget) = WorkerIdle /\ r.(w_FinalFailureCode) = "") \/
  (t.(rt_Outcome) = ResultTerminalFailed /\ r.(w_FinalTarget) = WorkerFailed /\ r.(w_FinalFailureCode) = t.(rt_FailureCode)) \/
  (t.(rt_Outcome) = ResultTerminalInterrupted /\ r.(w_FinalTarget) = WorkerInterrupted /\
   r.(w_FinalFailureCode) = t.(rt_FailureCode)).
#[global] Instance terminal_matches_dec r t : Decision (terminal_matches r t).
Proof. unfold terminal_matches. apply _. Defined.

(** The workspace component was taken from the prepared workspace. *)
(* go: internal/store/peer_result_outbox.go:618-624 validateResultOutboxWorkerAuthority *)
Definition prepared_base_matches (p : PreparedWorkspace) (w : ResultWorkspaceComponent) : Prop :=
  p.(pw_SourceDeviceID) = w.(rw_SourceDeviceID) /\ p.(pw_TargetDeviceID) = w.(rw_TargetDeviceID) /\
  p.(pw_ObjectFormat) = w.(rw_ObjectFormat) /\ p.(pw_HeadOID) = w.(rw_BaseHeadOID) /\
  p.(pw_ManifestHash) = w.(rw_BaseManifestHash) /\ p.(pw_SourceSnapshotHash) = w.(rw_BaseSnapshotHash) /\
  p.(pw_Clean) = w.(rw_BaseClean) /\ p.(pw_Warnings) = default [] w.(rw_BaseWarnings).
#[global] Instance prepared_base_matches_dec p w : Decision (prepared_base_matches p w).
Proof. unfold prepared_base_matches. apply _. Defined.

(* go: internal/store/peer_result_outbox.go validateResultOutboxWorkerAuthority *)
Definition validateResultOutboxWorkerAuthority (worker : WorkerReservation) (m : ResultManifest) (db : PeerDB) : result unit :=
  let r := worker.(w_Row) in
  let '(controllerID, treeID, agentID) := worker.(w_Key) in
  reject ErrResultPackageAuthority
    when (controllerID <> m.(rm_ControllerID) \/ treeID <> m.(rm_TreeID) \/ agentID <> m.(rm_SourceAgentID) \/
          r.(w_DeviceID) <> m.(rm_SourceDeviceID) \/ r.(w_CodexThreadID) <> m.(rm_ManagedThreadID) \/
          r.(w_ActiveTurnID) <> m.(rm_TurnID) \/ r.(w_Revision) <> m.(rm_LifecycleRevision) \/
          r.(w_Status) <> WorkerFinalizing) in
  reject ErrResultPackageAuthority when (~ terminal_matches r m.(rm_Terminal)) in
  if decide (m.(rm_Workspace).(rw_Status) = ResultWorkspaceNotManaged) then
    reject ErrResultPackageAuthority when (r.(w_WorkspaceID) <> "") in Ok tt
  else
    reject ErrResultPackageAuthority
      when (r.(w_WorkspaceID) = "" \/ r.(w_WorkspaceID) <> m.(rm_Workspace).(rw_WorkspaceID)) in
    let? workspace := queryPreparedWorkspace (controllerID, treeID, r.(w_WorkspaceID)) db in
    reject ErrResultPackageAuthority when (~ prepared_base_matches workspace m.(rm_Workspace)) in
    Ok tt.

(* go: internal/store/peer_result_outbox.go:165-177 PeerStore.CommitResultOutboxCapture *)
Definition capture_row (metadata : ResultPackageMetadata) (m : ResultManifest) (packageBytes updatedAt : Z) (r : OutboxRow)
    : OutboxRow := {|
  ob_source_device_id := r.(ob_source_device_id); ob_state := ResultOutboxPublishPending;
  ob_managed_thread_id := m.(rm_ManagedThreadID); ob_turn_id := m.(rm_TurnID);
  ob_lifecycle_revision := m.(rm_LifecycleRevision); ob_manifest_bytes := metadata.(rpm_Manifest);
  ob_manifest_size_bytes := metadata.(rpm_ManifestDescriptor).(rd_Size);
  ob_manifest_sha256 := metadata.(rpm_ManifestDescriptor).(rd_SHA256); ob_parts_json := encodeResultParts m.(rm_Parts);
  ob_reservation_limit_bytes := r.(ob_reservation_limit_bytes); ob_reserved_bytes := packageBytes;
  ob_package_bytes := packageBytes; ob_delivery_sequence := r.(ob_delivery_sequence); ob_created_at := r.(ob_created_at);
  ob_updated_at := updatedAt |}.

Definition set_outbox (state : string) (sequence updatedAt : Z) (o : ResultOutbox) : ResultOutbox := {|
  xo_Key := o.(xo_Key); xo_State := state; xo_Metadata := o.(xo_Metadata); xo_Manifest := o.(xo_Manifest);
  xo_ReservationLimitBytes := o.(xo_ReservationLimitBytes); xo_ReservedBytes := o.(xo_ReservedBytes);
  xo_PackageBytes := o.(xo_PackageBytes); xo_DeliverySequence := sequence; xo_CreatedAt := o.(xo_CreatedAt);
  xo_UpdatedAt := updatedAt |}.

(* go: internal/store/peer_result_outbox.go PeerStore.CommitResultOutboxCapture *)
Definition CommitResultOutboxCapture (key : ResultOutboxKey) (metadata : ResultPackageMetadata) (observedAt : Z)
    : Tx PeerDB ResultOutbox :=
  do! tx_lift (ResultOutboxKey_Validate key) in
  let! manifest := tx_lift (DecodeManifest metadata) in
  do! tx_lift (validateStoredResultMetadata key metadata manifest) in
  let! packageBytes := tx_lift (resultPackageBytes metadata) in
  let! timestamp := tx_lift (unixTime observedAt) in
  let! stored := tx_query (queryResultOutbox key) in
  if decide (stored.(xo_State) <> ResultOutboxCapturePending) then
    if decide (SameResultPackageMetadata stored.(xo_Metadata) metadata) then tx_ret stored
    else tx_throw ErrResultPackageConflict
  else
    do! tx_query (validateResultOutboxTurnIntentAuthority stored manifest) in
    fail ErrResultPackageQuota when (packageBytes > stored.(xo_ReservationLimitBytes)) in
    let! worker := tx_query (queryWorker key.(xk_Key)) in
    do! tx_query (validateResultOutboxWorkerAuthority worker manifest) in
    let updatedAt := Z.max timestamp stored.(xo_UpdatedAt) in
    do! tx_exec (fun db => wrap "commit result outbox capture" (
      let? (_, db) := update_outbox (outbox_key key) (fun r => bool_decide (r.(ob_state) = "capturePending"))
                        (capture_row metadata manifest packageBytes updatedAt) db in Ok db)) in
    tx_ret {| xo_Key := stored.(xo_Key); xo_State := ResultOutboxPublishPending; xo_Metadata := metadata;
              xo_Manifest := manifest; xo_ReservationLimitBytes := stored.(xo_ReservationLimitBytes);
              xo_ReservedBytes := packageBytes; xo_PackageBytes := packageBytes;
              xo_DeliverySequence := stored.(xo_DeliverySequence); xo_CreatedAt := stored.(xo_CreatedAt);
              xo_UpdatedAt := updatedAt |}.

(** The terminal state of a finished turn. *)
(* go: internal/store/worker_result_finalization.go:144-151 completeWorkerResultFinalization *)
Definition finish_worker (status failureCode : string) (revision updatedAt : Z) (r : WorkerRow) : WorkerRow :=
  set_final "" "" (set_lifecycle r.(w_CodexThreadID) status "" "" r.(w_LastBoundTurnID) failureCode revision updatedAt r).

(* go: internal/store/worker_result_finalization.go completeWorkerResultFinalization *)
Definition completeWorkerResultFinalization (worker : WorkerReservation) (m : ResultManifest) (timestamp : Z)
    : Tx PeerDB WorkerReservation :=
  do! tx_query (validateResultOutboxWorkerAuthority worker m) in
  let! revision := nextWorkerRevision in
  let w := worker.(w_Row) in
  let finish := finish_worker w.(w_FinalTarget) w.(w_FinalFailureCode) revision (Z.max timestamp w.(w_UpdatedAt)) in
  let worker := {| w_Key := worker.(w_Key); w_Row := finish w |} in
  do! tx_lift (wrap "terminal result worker is invalid" (WorkerReservation_Validate worker)) in
  do! tx_exec (fun db =>
    let? x := wrap "complete worker result finalization" (update_worker worker.(w_Key)
      (fun r => bool_decide (r.(w_Status) = "finalizing" /\ r.(w_ActiveTurnID) = m.(rm_TurnID) /\
                             r.(w_Revision) = m.(rm_LifecycleRevision))) finish db) in
    requireWorkerTurnStartUpdate x) in
  tx_ret worker.

Definition set_delivery (state : string) (sequence updatedAt : Z) (r : OutboxRow) : OutboxRow := {|
  ob_source_device_id := r.(ob_source_device_id); ob_state := state; ob_managed_thread_id := r.(ob_managed_thread_id);
  ob_turn_id := r.(ob_turn_id); ob_lifecycle_revision := r.(ob_lifecycle_revision);
  ob_manifest_bytes := r.(ob_manifest_bytes); ob_manifest_size_bytes := r.(ob_manifest_size_bytes);
  ob_manifest_sha256 := r.(ob_manifest_sha256); ob_parts_json := r.(ob_parts_json);
  ob_reservation_limit_bytes := r.(ob_reservation_limit_bytes); ob_reserved_bytes := r.(ob_reserved_bytes);
  ob_package_bytes := r.(ob_package_bytes); ob_delivery_sequence := sequence; ob_created_at := r.(ob_created_at);
  ob_updated_at := updatedAt |}.

(* go: internal/store/peer_result_outbox.go PeerStore.AcknowledgeResultOutboxMetadata *)
Definition AcknowledgeResultOutboxMetadata (key : ResultOutboxKey) (metadata : ResultPackageMetadata) (observedAt : Z)
    : Tx PeerDB WorkerResultFinalization :=
  do! tx_lift (ResultOutboxKey_Validate key) in
  let! manifest := tx_lift (DecodeManifest metadata) in
  do! tx_lift (validateStoredResultMetadata key metadata manifest) in
  let! timestamp := tx_lift (unixTime observedAt) in
  let! outbox := tx_query (queryResultOutbox key) in
  fail ErrResultPackageConflict when (~ SameResultPackageMetadata outbox.(xo_Metadata) metadata) in
  let! worker := tx_query (queryWorker key.(xk_Key)) in
  if decide (outbox.(xo_State) = ResultOutboxDeliveryPending \/ outbox.(xo_State) = ResultOutboxDelivered) then
    fail ErrResultPackageAuthority
      when (worker.(w_Row).(w_DeviceID) <> outbox.(xo_Key).(xk_SourceDeviceID) \/
            worker.(w_Row).(w_CodexThreadID) <> manifest.(rm_ManagedThreadID)) in
    let! intent := tx_query (fun db => optional (queryWorkerTurnStartIntentByPackage key.(xk_PackageID) db)) in
    tx_ret {| wf_Intent := intent; wf_Worker := worker; wf_Outbox := outbox |}
  else
    fail ErrResultPackageTransition when (outbox.(xo_State) <> ResultOutboxPublishPending) in
    let! intent := tx_query (queryWorkerTurnStartIntentByPackage key.(xk_PackageID)) in
    do! tx_query (validateResultOutboxTurnIntentAuthority outbox manifest) in
    let! worker := completeWorkerResultFinalization worker manifest timestamp in
    let updatedAt := Z.max (Z.max timestamp outbox.(xo_UpdatedAt)) worker.(w_Row).(w_UpdatedAt) in
    do! tx_exec (fun db =>
      let? x := wrap "acknowledge result outbox metadata" (update_outbox (outbox_key key)
        (fun r => bool_decide (r.(ob_state) = "publishPending")) (set_delivery "deliveryPending" 0 updatedAt) db) in
      requireWorkerTurnStartUpdate x) in
    tx_ret {| wf_Intent := Some intent; wf_Worker := worker;
              wf_Outbox := set_outbox ResultOutboxDeliveryPending outbox.(xo_DeliverySequence) updatedAt outbox |}.

(* go: internal/store/peer_result_outbox.go:332-335 PeerStore.transitionResultOutbox *)
Definition other_metadata (expected : option ResultPackageMetadata) (stored : ResultPackageMetadata) : Prop :=
  match expected with Some m => ~ SameResultPackageMetadata stored m | None => False end.
#[global] Instance other_metadata_dec e s : Decision (other_metadata e s).
Proof. unfold other_metadata. destruct e; apply _. Defined.

(* go: internal/store/peer_result_outbox.go PeerStore.transitionResultOutbox *)
Definition transitionResultOutbox (key : ResultOutboxKey) (observedAt : Z) (from to : string) (sequence : Z)
    (expectedMetadata : option ResultPackageMetadata) : Tx PeerDB ResultOutbox :=
  do! tx_lift (ResultOutboxKey_Validate key) in
  let! timestamp := tx_lift (unixTime observedAt) in
  let! stored := tx_query (queryResultOutbox key) in
  fail ErrResultPackageConflict
    when (other_metadata expectedMetadata stored.(xo_Metadata)) in
  if decide (stored.(xo_State) = to) then
    if decide (stored.(xo_DeliverySequence) = sequence) then tx_ret stored else tx_throw ErrResultPackageConflict
  else if decide (to = ResultOutboxDeliveryPending /\ stored.(xo_State) = ResultOutboxDelivered) then tx_ret stored
  else
    fail ErrResultPackageTransition when (stored.(xo_State) <> from) in
    let updatedAt := Z.max timestamp stored.(xo_UpdatedAt) in
    do! tx_exec (fun db => wrap "transition result outbox" (
      let? (_, db) := update_outbox (outbox_key key) (fun r => bool_decide (r.(ob_state) = from))
                        (set_delivery to sequence updatedAt) db in Ok db)) in
    tx_ret (set_outbox to sequence updatedAt stored).

(* go: internal/store/peer_result_outbox.go PeerStore.AcknowledgeResultOutboxDelivery *)
Definition AcknowledgeResultOutboxDelivery (key : ResultOutboxKey) (sequence observedAt : Z) : Tx PeerDB ResultOutbox :=
  fail (New "delivery sequence must be a positive signed 64-bit integer") when (sequence = 0 \/ sequence > MaxInt64) in
  transitionResultOutbox key observedAt ResultOutboxDeliveryPending ResultOutboxDelivered sequence None.

(* go: internal/store/peer_result_outbox.go PeerStore.PrepareResultOutboxRelease *)
Definition PrepareResultOutboxRelease (key : ResultOutboxKey) (sequence observedAt : Z) : Tx PeerDB ResultOutbox :=
  do! tx_lift (ResultOutboxKey_Validate key) in
  fail (New "result outbox release sequence is invalid") when (sequence = 0 \/ sequence > MaxInt64) in
  let! timestamp := tx_lift (unixTime observedAt) in
  let! stored := tx_query (queryResultOutbox key) in
  fail ErrResultPackageConflict when (stored.(xo_DeliverySequence) <> sequence) in
  if decide (stored.(xo_State) = ResultOutboxReleasePending) then tx_ret stored
  else
    fail ErrResultPackageTransition when (stored.(xo_State) <> ResultOutboxDelivered) in
    let updatedAt := Z.max timestamp stored.(xo_UpdatedAt) in
    do! tx_exec (fun db =>
      let? (affected, db) := wrap "prepare result outbox release" (update_outbox (outbox_key key)
        (fun r => bool_decide (r.(ob_state) = "delivered" /\ r.(ob_delivery_sequence) = sequence))
        (fun r => set_delivery "releasePending" r.(ob_delivery_sequence) updatedAt r) db) in
      reject ErrResultPackageTransition when (affected <> 1) in Ok db) in
    tx_ret (set_outbox ResultOutboxReleasePending stored.(xo_DeliverySequence) updatedAt stored).

(* go: internal/store/peer_result_outbox.go PeerStore.CompactResultOutboxRelease *)
Definition CompactResultOutboxRelease (key : ResultOutboxKey) : Tx PeerDB unit :=
  do! tx_lift (ResultOutboxKey_Validate key) in
  let! stored := tx_query (fun db => optional (queryResultOutbox key db)) in
  match stored with
  | None => tx_ret tt
  | Some stored =>
      fail ErrResultPackageTransition when (stored.(xo_State) <> ResultOutboxReleasePending) in
      tx_put (fun db => set_peer_result_outbox db (sql_delete
        (fun x => x.1 = outbox_key key /\ x.2.(ob_state) = "releasePending") db.(peer_result_outbox)).2)
  end.

(** ** Reads *)

(* go: internal/store/peer_result_package.go validateResultPage *)
Definition validateResultPage (limit : Z) : result unit :=
  reject (New "limit must be from 1 through %d") when (limit < 1 \/ limit > maximumPeerResultPage) in Ok tt.

(** [ORDER BY updated_at, created_at, tree_id, source_agent_id, package_id LIMIT] *)
(* go: internal/store/peer_result_outbox.go PeerStore.listResultOutboxes *)
Definition listResultOutboxes (controllerID deviceID state : string) (limit_ : Z) (db : PeerDB) : result (list ResultOutbox) :=
  do? validateChangesArtifactDevice controllerID deviceID in
  do? validateResultPage limit_ in
  reject (New "unsupported result outbox list state %q")
    when (state ∉ [ResultOutboxCapturePending; ResultOutboxPublishPending; ResultOutboxDeliveryPending;
                   ResultOutboxDelivered; ResultOutboxReleasePending]) in
  result_mapM (fun x => scanResultOutbox (Some x)) (limit limit_
    (order_by (fun x => x.2.(ob_updated_at)) (order_by (fun x => x.2.(ob_created_at)) (order_by_text (fun x => x.1.1.1.2)
       (order_by_text (fun x => x.1.1.2) (order_by_text (fun x => x.1.2)
          (select (fun x => x.1.1.1.1 = controllerID /\ x.2.(ob_source_device_id) = deviceID /\ x.2.(ob_state) = state)
             db.(peer_result_outbox)))))))).

(* go: internal/store/peer_result_outbox.go PeerStore.ListPendingResultPublications *)
Definition ListPendingResultPublications (controllerID deviceID : string) (limit : Z) (db : PeerDB) :=
  listResultOutboxes controllerID deviceID ResultOutboxPublishPending limit db.

(* go: internal/store/peer_result_outbox.go PeerStore.ListPendingResultCaptures *)
Definition ListPendingResultCaptures (controllerID deviceID : string) (limit : Z) (db : PeerDB) :=
  listResultOutboxes controllerID deviceID ResultOutboxCapturePending limit db.

(* go: internal/store/peer_result_outbox.go PeerStore.ListPendingResultDeliveries *)
Definition ListPendingResultDeliveries (controllerID deviceID : string) (limit : Z) (db : PeerDB) :=
  listResultOutboxes controllerID deviceID ResultOutboxDeliveryPending limit db.

(* go: internal/store/peer_result_outbox.go PeerStore.ListDeliveredResultOutboxes *)
Definition ListDeliveredResultOutboxes (controllerID deviceID : string) (limit : Z) (db : PeerDB) :=
  listResultOutboxes controllerID deviceID ResultOutboxDelivered limit db.

(* go: internal/store/peer_result_outbox.go PeerStore.ListPendingResultOutboxReleases *)
Definition ListPendingResultOutboxReleases (controllerID deviceID : string) (limit : Z) (db : PeerDB) :=
  listResultOutboxes controllerID deviceID ResultOutboxReleasePending limit db.

(* go: internal/store/worker_turn_intent.go PeerStore.GetWorkerTurnStartIntent *)
Definition GetWorkerTurnStartIntent (key : WorkerKey) (intentID : string) (db : PeerDB) : result WorkerTurnStartIntent :=
  do? validateWorkerTurnStartResolutionIdentity key intentID in queryWorkerTurnStartIntent key intentID db.

(* go: internal/store/worker_turn_intent.go PeerStore.GetPreparedWorkerTurnStartIntent *)
Definition GetPreparedWorkerTurnStartIntent (key : WorkerKey) (db : PeerDB) : result WorkerTurnStartIntent :=
  do? WorkerKey_Validate key in queryPreparedWorkerTurnStartIntent key db.

(* go: internal/store/worker_turn_intent.go PeerStore.GetPreparedWorkerTurnStartIntentByOperation *)
Definition GetPreparedWorkerTurnStartIntentByOperation (controllerID operationID : string) (db : PeerDB)
    : result WorkerTurnStartIntent :=
  do? wrap "controllerId" (ValidateID controllerID) in
  do? wrap "operationId" (ValidateID operationID) in
  queryPreparedWorkerTurnStartIntentByOperation controllerID operationID db.

(* go: internal/store/worker_turn_intent.go PeerStore.GetWorkerTurnStartIntentByTurn *)
Definition GetWorkerTurnStartIntentByTurn (key : WorkerKey) (turnID : string) (db : PeerDB) : result WorkerTurnStartIntent :=
  do? WorkerKey_Validate key in
  do? wrap "turnId" (ValidateID turnID) in
  queryWorkerTurnStartIntentByTurn key turnID db.

(** An intent to reconcile at startup: prepared, or bound to the turn its worker still runs
    or finalizes. *)
(* go: internal/store/worker_turn_intent.go:570-580 PeerStore.ListUnresolvedWorkerTurnStartIntents *)
Definition unresolved (db : PeerDB) (x : (string * string * string * string) * TurnIntentRow) : Prop :=
  x.2.(it_state) = "prepared" \/ (x.2.(it_state) = "bound" /\ holds_turn db x).
#[global] Instance unresolved_dec db x : Decision (unresolved db x).
Proof. unfold unresolved. apply _. Defined.

(** [ORDER BY updated_at, created_at, tree_id, agent_id, intent_id LIMIT] *)
(* go: internal/store/worker_turn_intent.go PeerStore.ListUnresolvedWorkerTurnStartIntents *)
Definition ListUnresolvedWorkerTurnStartIntents (controllerID deviceID : string) (limit_ : Z) (db : PeerDB)
    : result (list WorkerTurnStartIntent) :=
  do? wrap "controllerId" (ValidateID controllerID) in
  do? wrap "deviceId" (ValidateID deviceID) in
  reject (New "limit must be from 1 through %d") when (limit_ < 1 \/ limit_ > maximumWorkerTurnIntentPage) in
  result_mapM (fun x => scanWorkerTurnStartIntent (Some x)) (limit limit_
    (order_by (fun x => x.2.(it_updated_at)) (order_by (fun x => x.2.(it_created_at)) (order_by_text (fun x => x.1.1.1.2)
       (order_by_text (fun x => x.1.1.2) (order_by_text (fun x => x.1.2)
          (select (fun x => x.1.1.1.1 = controllerID /\ x.2.(it_device_id) = deviceID /\ unresolved db x)
             db.(worker_turn_start_intents)))))))).
