(* ===== verification/PeerArtifacts.v ===== *)
(** internal/store/peer_changes_artifact.go, peer_changes_artifact_transition.go,
    peer_changes_artifact_query.go and worker_recovery.go: the changes a finished turn left
    in its workspace, captured, published and retained on the peer, and the recovery of the
    workers a stopped connector left behind. *)

From S2P Require Export PeerTurns.

(** ** Captured changes *)

(* go: internal/store/peer_changes_artifact.go:17-30 MaximumRetainedChangesArtifacts *)
Definition MaximumRetainedChangesArtifacts : Z := 64.
Definition MaximumRetainedChangesPayloadBytes : Z := 2 * 1024 * 1024 * 1024.
Definition MaximumChangesArtifactPayloadBytes : Z := MaximumWorkspaceTransferBytes.
Definition maximumChangesArtifactPage : Z := 256.
Definition changesCaptureFailureCode : string := "changes_capture_failed".
Definition ChangesBundlePartName : string := "changes.bundle".
Definition ChangesOverlayPartName : string := "changes-overlay.tar.zst".

(* go: internal/store/peer_changes_artifact.go:39-60 ChangesArtifactState *)
Definition ChangesCapturePending : string := "capturePending".
Definition ChangesPublishPending : string := "publishPending".
Definition ChangesPublished : string := "published".
Definition ChangesAvailable : string := "available".
Definition ChangesUnchanged : string := "unchanged".
Definition ChangesCaptureFailed : string := "captureFailed".
Definition ChangesArtifactBundle : string := "bundle".
Definition ChangesArtifactOverlay : string := "overlay".

(* go: internal/store/peer_changes_artifact.go ChangesArtifactPart *)
Record ChangesArtifactPart := { ap_Kind : string; ap_Name : string; ap_SizeBytes : Z; ap_SHA256 : string }.
#[global] Instance ChangesArtifactPart_eq_dec : EqDecision ChangesArtifactPart.
Proof. solve_decision. Defined.

(* go: internal/store/peer_changes_artifact.go ChangesArtifact *)
Record ChangesArtifact := {
  ca_Key : string * string * string;
  ca_ArtifactID : string;
  ca_TurnID : string;
  ca_WorkspaceID : string;
  ca_WorkspaceSourceDeviceID : string;
  ca_WorkspaceTargetDeviceID : string;
  ca_CompletionTarget : string;
  ca_CompletionFailureCode : string;
  ca_State : string;
  ca_Status : string;
  ca_ObjectFormat : string;
  ca_BaseHeadOID : string;
  ca_BaseClean : bool;
  ca_BaseManifestHash : string;
  ca_BaseSnapshotHash : string;
  ca_BaseWarnings : list string;
  ca_ResultHeadOID : string;
  ca_ResultSnapshotHash : string;
  ca_ResultClean : bool;
  ca_Parts : list ChangesArtifactPart;
  ca_ResultWarnings : list string;
  ca_FailureCode : string;
  ca_RetentionReserved : bool;
  ca_ReservedBytes : Z;
  ca_PayloadBytes : Z;
  ca_BrokerSequence : Z;
  ca_CreatedAt : Z;
  ca_UpdatedAt : Z;
}.

(* go: internal/store/peer_changes_artifact.go ChangesArtifactRetention *)
Record ChangesArtifactRetention := { cn_Count : Z; cn_ReservedBytes : Z }.

(* go: internal/store/peer_changes_artifact.go WorkerFinalization *)
Record WorkerFinalization := { fz_Worker : WorkerReservation; fz_Artifact : ChangesArtifact }.

(* go: internal/store/peer_changes_artifact.go ChangesCaptureResult *)
Record ChangesCaptureResult := {
  cr_Status : string;
  cr_ResultHeadOID : string;
  cr_ResultSnapshotHash : string;
  cr_ResultClean : bool;
  cr_Parts : list ChangesArtifactPart;
  cr_ResultWarnings : list string;
  cr_FailureCode : string;
}.

(* go: internal/store/peer_changes_artifact.go validateChangesArtifactIdentity *)
Definition validateChangesArtifactIdentity (key : WorkerKey) (artifactID : string) : result unit :=
  do? WorkerKey_Validate key in wrap "artifactId" (ValidateID artifactID).

(** A hexadecimal text of [want] digits, in lower case. *)
Definition lower_hex_text (want : Z) (s : string) : Prop := len s = want /\ ToLower_ascii s = s /\ is_Some (hex_decode s).
#[global] Instance lower_hex_text_dec want s : Decision (lower_hex_text want s).
Proof. unfold lower_hex_text. apply _. Defined.

(* go: internal/store/peer_changes_artifact.go validateObjectID *)
Definition validateObjectID (objectFormat oid : string) : result unit :=
  if decide (objectFormat = "sha1") then
    reject (New "must be a lowercase %s object ID") when (~ lower_hex_text 40 oid) in Ok tt
  else if decide (objectFormat = "sha256") then
    reject (New "must be a lowercase %s object ID") when (~ lower_hex_text 64 oid) in Ok tt
  else Err (New "unsupported Git object format %q").

(* go: internal/store/peer_changes_artifact.go validateDigest *)
Definition validateDigest (value : string) : result unit :=
  reject (New "%s must be a lowercase SHA-256 digest") when (~ lower_hex_text 64 value) in Ok tt.

(* go: internal/store/peer_changes_artifact.go ChangesArtifactPart.Validate *)
Definition ChangesArtifactPart_Validate (p : ChangesArtifactPart) : result unit :=
  do? (if decide (p.(ap_Kind) = ChangesArtifactBundle) then
         reject (New "bundle part must use its controlled relative name") when (p.(ap_Name) <> ChangesBundlePartName) in Ok tt
       else if decide (p.(ap_Kind) = ChangesArtifactOverlay) then
         reject (New "overlay part must use its controlled relative name") when (p.(ap_Name) <> ChangesOverlayPartName) in Ok tt
       else Err (New "unsupported changes artifact part kind %q")) in
  reject (New "changes artifact part size must be from 1 through %d")
    when (p.(ap_SizeBytes) < 1 \/ p.(ap_SizeBytes) > MaximumWorkspaceArtifactBytes) in
  validateDigest p.(ap_SHA256).

(* go: internal/store/peer_changes_artifact.go changesPayloadBytes *)
Definition changesPayloadBytes (parts : list ChangesArtifactPart) : Z := foldl (fun total part => total + part.(ap_SizeBytes)) 0 parts.

(* go: internal/store/peer_changes_artifact.go ChangesCaptureStatus.valid *)
Definition ChangesCaptureStatus_valid (s : string) : bool :=
  bool_decide (s ∈ [ChangesAvailable; ChangesUnchanged; ChangesCaptureFailed]).

(* go: internal/store/peer_changes_artifact.go ChangesArtifactState.valid *)
Definition ChangesArtifactState_valid (s : string) : bool :=
  bool_decide (s ∈ [ChangesCapturePending; ChangesPublishPending; ChangesPublished]).

(** The loop over [result.Parts]. *)
(* go: internal/store/peer_changes_artifact.go:287-296 validateChangesCaptureResult *)
Fixpoint check_parts (seen : list string) (parts : list ChangesArtifactPart) : result unit :=
  match parts with
  | [] => Ok tt
  | part :: parts =>
      do? ChangesArtifactPart_Validate part in
      reject (New "duplicate changes artifact part %q") when (part.(ap_Kind) ∈ seen) in
      check_parts (part.(ap_Kind) :: seen) parts
  end.

(* go: internal/store/peer_changes_artifact.go validateChangesCaptureResult *)
Definition validateChangesCaptureResult (r : ChangesCaptureResult) : result unit :=
  reject (New "unsupported changes capture status %q") when (ChangesCaptureStatus_valid r.(cr_Status) = false) in
  do? wrap "result warnings" (ValidateWorkspaceSourceWarnings r.(cr_ResultWarnings)) in
  do? validateFailureCode r.(cr_FailureCode) in
  do? check_parts [] r.(cr_Parts) in
  reject (New "changes artifact payload exceeds transfer limit")
    when (changesPayloadBytes r.(cr_Parts) > MaximumChangesArtifactPayloadBytes) in
  if decide (r.(cr_Status) = ChangesAvailable) then
    reject (New "available changes capture details are incomplete")
      when (r.(cr_ResultHeadOID) = "" \/ r.(cr_ResultSnapshotHash) = "" \/ r.(cr_FailureCode) <> "") in Ok tt
  else if decide (r.(cr_Status) = ChangesUnchanged) then
    reject (New "unchanged changes capture details are invalid")
      when (r.(cr_ResultHeadOID) = "" \/ r.(cr_ResultSnapshotHash) = "" \/ r.(cr_Parts) <> [] \/ r.(cr_FailureCode) <> "") in Ok tt
  else
    reject (New "failed changes capture details are invalid")
      when (r.(cr_ResultHeadOID) <> "" \/ r.(cr_ResultSnapshotHash) <> "" \/ r.(cr_ResultClean) = true \/
            r.(cr_Parts) <> [] \/ r.(cr_ResultWarnings) <> [] \/ r.(cr_FailureCode) = "") in Ok tt.

(* go: internal/store/peer_changes_artifact.go validateChangesCaptureForArtifact *)
Definition validateChangesCaptureForArtifact (a : ChangesArtifact) (r : ChangesCaptureResult) : result unit :=
  do? validateChangesCaptureResult r in
  if decide (r.(cr_Status) = ChangesCaptureFailed) then Ok tt
  else
    do? wrap "resultHeadOid" (validateObjectID a.(ca_ObjectFormat) r.(cr_ResultHeadOID)) in
    do? validateDigest r.(cr_ResultSnapshotHash) in
    if decide (r.(cr_Status) = ChangesUnchanged) then
      reject (New "unchanged capture does not match the prepared workspace base")
        when (r.(cr_ResultHeadOID) <> a.(ca_BaseHeadOID) \/ r.(cr_ResultSnapshotHash) <> a.(ca_BaseSnapshotHash) \/
              r.(cr_ResultClean) <> a.(ca_BaseClean)) in Ok tt
    else
      let payloadBytes := changesPayloadBytes r.(cr_Parts) in
      if decide (payloadBytes = 0) then
        reject (New "zero-payload available capture must clean an unchanged dirty base")
          when (a.(ca_BaseClean) = true \/ r.(cr_ResultHeadOID) <> a.(ca_BaseHeadOID) \/ r.(cr_ResultClean) = false) in Ok tt
      else
        reject ErrChangesArtifactQuota when (a.(ca_RetentionReserved) = false \/ payloadBytes > a.(ca_ReservedBytes)) in Ok tt.

(** The capture result an artifact holds. *)
(* go: internal/store/peer_changes_artifact.go:218-222 ChangesArtifact.Validate *)
Definition artifact_capture (a : ChangesArtifact) : ChangesCaptureResult := {|
  cr_Status := a.(ca_Status); cr_ResultHeadOID := a.(ca_ResultHeadOID); cr_ResultSnapshotHash := a.(ca_ResultSnapshotHash);
  cr_ResultClean := a.(ca_ResultClean); cr_Parts := a.(ca_Parts); cr_ResultWarnings := a.(ca_ResultWarnings);
  cr_FailureCode := a.(ca_FailureCode) |}.

(* go: internal/store/peer_changes_artifact.go ChangesArtifact.Validate *)
Definition ChangesArtifact_Validate (a : ChangesArtifact) : result unit :=
  do? validateChangesArtifactIdentity a.(ca_Key) a.(ca_ArtifactID) in
  do? wrap "turnId" (ValidateID a.(ca_TurnID)) in
  do? wrap "workspaceId" (ValidateID a.(ca_WorkspaceID)) in
  do? wrap "workspaceSourceDeviceId" (ValidateID a.(ca_WorkspaceSourceDeviceID)) in
  do? wrap "workspaceTargetDeviceId" (ValidateID a.(ca_WorkspaceTargetDeviceID)) in
  do? validateFinalTarget a.(ca_CompletionTarget) a.(ca_CompletionFailureCode) in
  reject (New "unsupported changes artifact state %q") when (ChangesArtifactState_valid a.(ca_State) = false) in
  do? wrap "baseHeadOid" (validateObjectID a.(ca_ObjectFormat) a.(ca_BaseHeadOID)) in
  do? validateDigest a.(ca_BaseManifestHash) in
  do? validateDigest a.(ca_BaseSnapshotHash) in
  do? wrap "base warnings" (ValidateWorkspaceWarnings a.(ca_BaseWarnings)) in
  reject (New "changes artifact timestamps are invalid") when (a.(ca_CreatedAt) < 0 \/ a.(ca_UpdatedAt) < a.(ca_CreatedAt)) in
  reject (New "changes artifact byte count is invalid")
    when (a.(ca_ReservedBytes) < 0 \/ a.(ca_ReservedBytes) > MaximumChangesArtifactPayloadBytes \/
          a.(ca_PayloadBytes) < 0 \/ a.(ca_PayloadBytes) > MaximumChangesArtifactPayloadBytes) in
  reject (New "changes artifact retention reservation is invalid")
    when (a.(ca_RetentionReserved) <> bool_decide (a.(ca_ReservedBytes) > 0)) in
  if decide (a.(ca_State) = ChangesCapturePending) then
    reject (New "capture-pending changes artifact contains capture output")
      when (a.(ca_Status) <> "" \/ a.(ca_ResultHeadOID) <> "" \/ a.(ca_ResultSnapshotHash) <> "" \/ a.(ca_ResultClean) = true \/
            a.(ca_Parts) <> [] \/ a.(ca_ResultWarnings) <> [] \/ a.(ca_FailureCode) <> "" \/ a.(ca_PayloadBytes) <> 0 \/
            a.(ca_BrokerSequence) <> 0) in Ok tt
  else
    do? validateChangesCaptureForArtifact a (artifact_capture a) in
    reject (New "publish-pending changes artifact contains broker sequence")
      when (a.(ca_State) = ChangesPublishPending /\ a.(ca_BrokerSequence) <> 0) in
    reject (New "published changes artifact has invalid broker sequence")
      when (a.(ca_State) = ChangesPublished /\ (a.(ca_BrokerSequence) = 0 \/ a.(ca_BrokerSequence) > MaxInt64)) in
    Ok tt.

(** The parts the columns of a row name. *)
(* go: internal/store/peer_changes_artifact.go:146-153 scanPeerChangesArtifact *)
Definition stored_parts (r : PeerArtifactRow) : list ChangesArtifactPart :=
  (if decide (r.(pa_bundle_part_name) <> "") then
     [{| ap_Kind := ChangesArtifactBundle; ap_Name := r.(pa_bundle_part_name); ap_SizeBytes := r.(pa_bundle_size_bytes);
         ap_SHA256 := r.(pa_bundle_sha256) |}] else []) ++
  (if decide (r.(pa_overlay_part_name) <> "") then
     [{| ap_Kind := ChangesArtifactOverlay; ap_Name := r.(pa_overlay_part_name); ap_SizeBytes := r.(pa_overlay_size_bytes);
         ap_SHA256 := r.(pa_overlay_sha256) |}] else []).

(* go: internal/store/peer_changes_artifact.go scanPeerChangesArtifact *)
Definition scanPeerChangesArtifact (x : option ((string * string * string * string) * PeerArtifactRow)) : result ChangesArtifact :=
  match x with
  | None => Err ErrNotFound
  | Some (k, r) =>
      match json_Unmarshal_strings r.(pa_base_warnings_json) with
      | None => Err (New "stored changes artifact base warnings are invalid")
      | Some baseWarnings =>
          match json_Unmarshal_strings r.(pa_result_warnings_json) with
          | None => Err (New "stored changes artifact result warnings are invalid")
          | Some resultWarnings =>
              let a := {|
                ca_Key := k.1; ca_ArtifactID := r.(pa_artifact_id); ca_TurnID := k.2; ca_WorkspaceID := r.(pa_workspace_id);
                ca_WorkspaceSourceDeviceID := r.(pa_workspace_source_device_id);
                ca_WorkspaceTargetDeviceID := r.(pa_workspace_target_device_id);
                ca_CompletionTarget := r.(pa_completion_target_status);
                ca_CompletionFailureCode := r.(pa_completion_failure_code); ca_State := r.(pa_state);
                ca_Status := r.(pa_capture_status); ca_ObjectFormat := r.(pa_object_format);
                ca_BaseHeadOID := r.(pa_base_head_oid); ca_BaseClean := r.(pa_base_clean);
                ca_BaseManifestHash := r.(pa_base_manifest_hash); ca_BaseSnapshotHash := r.(pa_base_snapshot_hash);
                ca_BaseWarnings := baseWarnings; ca_ResultHeadOID := r.(pa_result_head_oid);
                ca_ResultSnapshotHash := r.(pa_result_snapshot_hash); ca_ResultClean := r.(pa_result_clean);
                ca_Parts := stored_parts r; ca_ResultWarnings := resultWarnings; ca_FailureCode := r.(pa_failure_code);
                ca_RetentionReserved := r.(pa_retention_reserved); ca_ReservedBytes := r.(pa_reserved_bytes);
                ca_PayloadBytes := r.(pa_payload_bytes); ca_BrokerSequence := r.(pa_broker_sequence);
                ca_CreatedAt := r.(pa_created_at); ca_UpdatedAt := r.(pa_updated_at) |} in
              do? wrap "stored changes artifact is invalid" (ChangesArtifact_Validate a) in Ok a
          end
      end
  end.

(** ** Queries *)

Definition is_artifact (key : WorkerKey) (artifactID : string) (x : (string * string * string * string) * PeerArtifactRow) : Prop :=
  x.1.1 = key /\ x.2.(pa_artifact_id) = artifactID.
#[global] Instance is_artifact_dec key id x : Decision (is_artifact key id x).
Proof. unfold is_artifact. apply _. Defined.

(* go: internal/store/peer_changes_artifact_query.go queryPeerChangesArtifact *)
Definition queryPeerChangesArtifact (key : WorkerKey) (artifactID : string) (db : PeerDB) : result ChangesArtifact :=
  scanPeerChangesArtifact (select_row (is_artifact key artifactID) db.(peer_changes_artifacts)).

(* go: internal/store/peer_changes_artifact_query.go queryPeerChangesArtifactByTurn *)
Definition queryPeerChangesArtifactByTurn (key : WorkerKey) (turnID : string) (db : PeerDB) : result ChangesArtifact :=
  scanPeerChangesArtifact ((fun r => ((key, turnID), r)) <$> db.(peer_changes_artifacts) !! (key, turnID)).

(* go: internal/store/peer_changes_artifact_query.go PeerStore.GetChangesArtifact *)
Definition GetChangesArtifact (key : WorkerKey) (artifactID : string) (db : PeerDB) : result ChangesArtifact :=
  do? validateChangesArtifactIdentity key artifactID in queryPeerChangesArtifact key artifactID db.

(* go: internal/store/peer_changes_artifact_query.go validateChangesArtifactListRequest *)
Definition validateChangesArtifactListRequest (controllerID deviceID : string) (limit_ : Z) : result unit :=
  do? validateChangesArtifactDevice controllerID deviceID in
  reject (New "limit must be from 1 through %d") when (limit_ < 1 \/ limit_ > maximumChangesArtifactPage) in Ok tt.

(** The JOIN with the worker of the artifact: its rows of a device in [state]. *)
Definition of_device (controllerID deviceID state : string) (db : PeerDB)
    (x : (string * string * string * string) * PeerArtifactRow) : Prop :=
  x.1.1.1.1 = controllerID /\
  match db.(worker_reservations) !! x.1.1 with Some w => w.(w_DeviceID) = deviceID | None => False end /\
  x.2.(pa_state) = state.
#[global] Instance of_device_dec c d s db x : Decision (of_device c d s db x).
Proof. unfold of_device. destruct (_ !! x.1.1); apply _. Defined.

(** [ORDER BY created_at, tree_id, agent_id, turn_id LIMIT] *)
(* go: internal/store/peer_changes_artifact_query.go PeerStore.listChangesArtifacts *)
Definition listChangesArtifacts (controllerID deviceID state : string) (limit_ : Z) (db : PeerDB) : result (list ChangesArtifact) :=
  do? validateChangesArtifactListRequest controllerID deviceID limit_ in
  reject (New "unsupported pending changes artifact state %q")
    when (state <> ChangesCapturePending /\ state <> ChangesPublishPending) in
  wrap "list pending changes artifacts" (result_mapM (fun x => scanPeerChangesArtifact (Some x)) (limit limit_
    (order_by (fun x => x.2.(pa_created_at)) (order_by_text (fun x => x.1.1.1.2) (order_by_text (fun x => x.1.1.2)
       (order_by_text (fun x => x.1.2) (select (of_device controllerID deviceID state db) db.(peer_changes_artifacts)))))))).

(* go: internal/store/peer_changes_artifact_query.go PeerStore.ListPendingChangesCaptures *)
Definition ListPendingChangesCaptures (controllerID deviceID : string) (limit : Z) (db : PeerDB) :=
  listChangesArtifacts controllerID deviceID ChangesCapturePending limit db.

(* go: internal/store/peer_changes_artifact_query.go PeerStore.ListPendingChangesPublications *)
Definition ListPendingChangesPublications (controllerID deviceID : string) (limit : Z) (db : PeerDB) :=
  listChangesArtifacts controllerID deviceID ChangesPublishPending limit db.

(** [ORDER BY updated_at, created_at, tree_id, agent_id, turn_id LIMIT] *)
(* go: internal/store/peer_changes_artifact_query.go PeerStore.ListPublishedChangesArtifacts *)
Definition ListPublishedChangesArtifacts (controllerID deviceID : string) (limit_ : Z) (db : PeerDB) : result (list ChangesArtifact) :=
  do? validateChangesArtifactListRequest controllerID deviceID limit_ in
  wrap "list published changes artifacts" (result_mapM (fun x => scanPeerChangesArtifact (Some x)) (limit limit_
    (order_by (fun x => x.2.(pa_updated_at)) (order_by (fun x => x.2.(pa_created_at)) (order_by_text (fun x => x.1.1.1.2)
       (order_by_text (fun x => x.1.1.2) (order_by_text (fun x => x.1.2)
          (select (of_device controllerID deviceID ChangesPublished db) db.(peer_changes_artifacts))))))))).

Definition reserved_artifact_bytes (l : list ((string * string * string * string) * PeerArtifactRow)) : Z :=
  foldr (fun x n => x.2.(pa_reserved_bytes) + n) 0 l.

(* go: internal/store/peer_changes_artifact_query.go PeerStore.GetPublishedChangesArtifactRetention *)
Definition GetPublishedChangesArtifactRetention (controllerID deviceID : string) (db : PeerDB) : result ChangesArtifactRetention :=
  do? validateChangesArtifactDevice controllerID deviceID in
  let rows := select (of_device controllerID deviceID ChangesPublished db) db.(peer_changes_artifacts) in
  Ok {| cn_Count := Z.of_nat (length rows); cn_ReservedBytes := reserved_artifact_bytes rows |}.

(** ** Finalizing *)

(* go: internal/store/peer_changes_artifact_transition.go requireFinalizationWorkspace *)
Definition requireFinalizationWorkspace (worker : WorkerReservation) (db : PeerDB) : result PreparedWorkspace :=
  let r := worker.(w_Row) in
  reject ErrChangesArtifactAuthority when (r.(w_WorkspaceID) = "") in
  let? found := optional (queryPreparedWorkspace (worker.(w_Key).1, r.(w_WorkspaceID)) db) in
  match found with
  | None => Err ErrChangesArtifactAuthority
  | Some w =>
      reject ErrChangesArtifactAuthority
        when (w.(pw_Status) <> PreparedWorkspaceClaimed \/ w.(pw_ClaimedAgentID) <> worker.(w_Key).2 \/
              w.(pw_SourceAgentID) <> r.(w_ParentAgentID) \/ w.(pw_TargetDeviceID) <> r.(w_DeviceID) \/
              w.(pw_WorkspacePath) <> r.(w_WorkspacePath) \/ w.(pw_WorkingDirectory) <> r.(w_WorkingDirectory)) in
      Ok w
  end.

(** The artifact of the worker's active turn, before its capture. *)
(* go: internal/store/peer_changes_artifact_transition.go:362-373 beginWorkerFinalization *)
Definition pending_artifact (worker : WorkerReservation) (w : PreparedWorkspace) (artifactID target failureCode : string)
    (timestamp : Z) : ChangesArtifact := {|
  ca_Key := worker.(w_Key); ca_ArtifactID := artifactID; ca_TurnID := worker.(w_Row).(w_ActiveTurnID);
  ca_WorkspaceID := worker.(w_Row).(w_WorkspaceID); ca_WorkspaceSourceDeviceID := w.(pw_SourceDeviceID);
  ca_WorkspaceTargetDeviceID := w.(pw_TargetDeviceID); ca_CompletionTarget := target; ca_CompletionFailureCode := failureCode;
  ca_State := ChangesCapturePending; ca_Status := ""; ca_ObjectFormat := w.(pw_ObjectFormat); ca_BaseHeadOID := w.(pw_HeadOID);
  ca_BaseClean := w.(pw_Clean); ca_BaseManifestHash := w.(pw_ManifestHash); ca_BaseSnapshotHash := w.(pw_SourceSnapshotHash);
  ca_BaseWarnings := w.(pw_Warnings); ca_ResultHeadOID := ""; ca_ResultSnapshotHash := ""; ca_ResultClean := false;
  ca_Parts := []; ca_ResultWarnings := []; ca_FailureCode := ""; ca_RetentionReserved := false; ca_ReservedBytes := 0;
  ca_PayloadBytes := 0; ca_BrokerSequence := 0; ca_CreatedAt := timestamp; ca_UpdatedAt := timestamp |}.

(** The columns the INSERT leaves out have their defaults. *)
(* go: internal/store/peer_changes_artifact_transition.go:390-407 beginWorkerFinalization *)
Definition pending_artifact_row (a : ChangesArtifact) : PeerArtifactRow := {|
  pa_artifact_id := a.(ca_ArtifactID); pa_workspace_id := a.(ca_WorkspaceID);
  pa_workspace_source_device_id := a.(ca_WorkspaceSourceDeviceID);
  pa_workspace_target_device_id := a.(ca_WorkspaceTargetDeviceID); pa_completion_target_status := a.(ca_CompletionTarget);
  pa_completion_failure_code := a.(ca_CompletionFailureCode); pa_state := a.(ca_State); pa_capture_status := "";
  pa_object_format := a.(ca_ObjectFormat); pa_base_head_oid := a.(ca_BaseHeadOID); pa_base_clean := a.(ca_BaseClean);
  pa_base_manifest_hash := a.(ca_BaseManifestHash); pa_base_snapshot_hash := a.(ca_BaseSnapshotHash);
  pa_base_warnings_json := json_Marshal_strings a.(ca_BaseWarnings); pa_result_head_oid := ""; pa_result_snapshot_hash := "";
  pa_result_clean := false; pa_bundle_part_name := ""; pa_bundle_size_bytes := 0; pa_bundle_sha256 := "";
  pa_overlay_part_name := ""; pa_overlay_size_bytes := 0; pa_overlay_sha256 := ""; pa_result_warnings_json := "[]";
  pa_failure_code := ""; pa_retention_reserved := false; pa_reserved_bytes := 0; pa_payload_bytes := 0;
  pa_broker_sequence := 0; pa_created_at := a.(ca_CreatedAt); pa_updated_at := a.(ca_UpdatedAt) |}.

(* go: internal/store/peer_changes_artifact_transition.go beginWorkerFinalization *)
Definition beginWorkerFinalization (worker : WorkerReservation) (workspace : PreparedWorkspace)
    (artifactID target failureCode : string) (timestamp : Z) : Tx PeerDB WorkerFinalization :=
  let w := worker.(w_Row) in
  let! revision := nextWorkerRevision in
  let updatedAt := Z.max timestamp w.(w_UpdatedAt) in
  let artifact := pending_artifact worker workspace artifactID target failureCode timestamp in
  do! tx_lift (ChangesArtifact_Validate artifact) in
  do! tx_exec (fun db => wrap "begin worker finalization" (
    let? (_, db) := update_worker worker.(w_Key) (fun r => bool_decide (r.(w_ActiveTurnID) = w.(w_ActiveTurnID)))
                      (fence_worker target failureCode revision updatedAt) db in Ok db)) in
  do! tx_exec (fun db => wrap "create changes artifact"
        (insert_peer_artifact (worker.(w_Key), artifact.(ca_TurnID)) (pending_artifact_row artifact) db)) in
  tx_ret {| fz_Worker := {| w_Key := worker.(w_Key); w_Row := fence_worker target failureCode revision updatedAt w |};
            fz_Artifact := artifact |}.

(** [newArtifactID] is what [identity.NewID] returns. *)
(* go: internal/store/peer_changes_artifact_transition.go PeerStore.BeginWorkerFinalization *)
Definition BeginWorkerFinalization (key : WorkerKey) (turnID target failureCode newArtifactID : string) (observedAt : Z)
    : Tx PeerDB WorkerFinalization :=
  do! tx_lift (validateFinalizationRequest key turnID target failureCode) in
  let! timestamp := tx_lift (unixTime observedAt) in
  let! existing := tx_query (fun db => optional (queryPeerChangesArtifactByTurn key turnID db)) in
  match existing with
  | Some existing =>
      fail ErrChangesArtifactConflict
        when (existing.(ca_CompletionTarget) <> target \/ existing.(ca_CompletionFailureCode) <> failureCode) in
      let! worker := tx_query (queryWorker key) in
      tx_ret {| fz_Worker := worker; fz_Artifact := existing |}
  | None =>
      let! worker := tx_query (queryWorker key) in
      fail (Wrap "cannot finalize worker in %s state" ErrWorkerTransition)
        when (worker.(w_Row).(w_Status) <> WorkerRunning /\ worker.(w_Row).(w_Status) <> WorkerInterrupted) in
      fail ErrChangesArtifactConflict when (worker.(w_Row).(w_ActiveTurnID) <> turnID) in
      let! workspace := tx_query (requireFinalizationWorkspace worker) in
      beginWorkerFinalization worker workspace newArtifactID target failureCode timestamp
  end.

(** ** Capturing *)

(** The bytes all reserved payloads hold. *)
(* go: internal/store/peer_changes_artifact_transition.go:126-131 PeerStore.ReserveChangesArtifactPayload *)
Definition retained_payload_bytes (db : PeerDB) : Z :=
  reserved_artifact_bytes (select (fun x => x.2.(pa_retention_reserved) = true) db.(peer_changes_artifacts)).

(* go: internal/store/peer_changes_artifact_transition.go:137-147 PeerStore.ReserveChangesArtifactPayload *)
Definition reserve_row (bytes updatedAt : Z) (r : PeerArtifactRow) : PeerArtifactRow := {|
  pa_artifact_id := r.(pa_artifact_id); pa_workspace_id := r.(pa_workspace_id);
  pa_workspace_source_device_id := r.(pa_workspace_source_device_id);
  pa_workspace_target_device_id := r.(pa_workspace_target_device_id);
  pa_completion_target_status := r.(pa_completion_target_status); pa_completion_failure_code := r.(pa_completion_failure_code);
  pa_state := r.(pa_state); pa_capture_status := r.(pa_capture_status); pa_object_format := r.(pa_object_format);
  pa_base_head_oid := r.(pa_base_head_oid); pa_base_clean := r.(pa_base_clean);
  pa_base_manifest_hash := r.(pa_base_manifest_hash); pa_base_snapshot_hash := r.(pa_base_snapshot_hash);
  pa_base_warnings_json := r.(pa_base_warnings_json); pa_result_head_oid := r.(pa_result_head_oid);
  pa_result_snapshot_hash := r.(pa_result_snapshot_hash); pa_result_clean := r.(pa_result_clean);
  pa_bundle_part_name := r.(pa_bundle_part_name); pa_bundle_size_bytes := r.(pa_bundle_size_bytes);
  pa_bundle_sha256 := r.(pa_bundle_sha256); pa_overlay_part_name := r.(pa_overlay_part_name);
  pa_overlay_size_bytes := r.(pa_overlay_size_bytes); pa_overlay_sha256 := r.(pa_overlay_sha256);
  pa_result_warnings_json := r.(pa_result_warnings_json); pa_failure_code := r.(pa_failure_code);
  pa_retention_reserved := true; pa_reserved_bytes := bytes; pa_payload_bytes := r.(pa_payload_bytes);
  pa_broker_sequence := r.(pa_broker_sequence); pa_created_at := r.(pa_created_at); pa_updated_at := updatedAt |}.

Definition set_reservation (reserved : bool) (bytes updatedAt : Z) (a : ChangesArtifact) : ChangesArtifact := {|
  ca_Key := a.(ca_Key); ca_ArtifactID := a.(ca_ArtifactID); ca_TurnID := a.(ca_TurnID); ca_WorkspaceID := a.(ca_WorkspaceID);
  ca_WorkspaceSourceDeviceID := a.(ca_WorkspaceSourceDeviceID); ca_WorkspaceTargetDeviceID := a.(ca_WorkspaceTargetDeviceID);
  ca_CompletionTarget := a.(ca_CompletionTarget); ca_CompletionFailureCode := a.(ca_CompletionFailureCode);
  ca_State := a.(ca_State); ca_Status := a.(ca_Status); ca_ObjectFormat := a.(ca_ObjectFormat);
  ca_BaseHeadOID := a.(ca_BaseHeadOID); ca_BaseClean := a.(ca_BaseClean); ca_BaseManifestHash := a.(ca_BaseManifestHash);
  ca_BaseSnapshotHash := a.(ca_BaseSnapshotHash); ca_BaseWarnings := a.(ca_BaseWarnings);
  ca_ResultHeadOID := a.(ca_ResultHeadOID); ca_ResultSnapshotHash := a.(ca_ResultSnapshotHash);
  ca_ResultClean := a.(ca_ResultClean); ca_Parts := a.(ca_Parts); ca_ResultWarnings := a.(ca_ResultWarnings);
  ca_FailureCode := a.(ca_FailureCode); ca_RetentionReserved := reserved; ca_ReservedBytes := bytes;
  ca_PayloadBytes := a.(ca_PayloadBytes); ca_BrokerSequence := a.(ca_BrokerSequence); ca_CreatedAt := a.(ca_CreatedAt);
  ca_UpdatedAt := updatedAt |}.

(** The row the UPDATE of [artifact] finds: the artifact id is unique. *)
Definition artifact_row_key (a : ChangesArtifact) : string * string * string * string := (a.(ca_Key), a.(ca_TurnID)).

(* go: internal/store/peer_changes_artifact_transition.go PeerStore.ReserveChangesArtifactPayload *)
Definition ReserveChangesArtifactPayload (key : WorkerKey) (artifactID : string) (bytes observedAt : Z) : Tx PeerDB ChangesArtifact :=
  do! tx_lift (validateChangesArtifactIdentity key artifactID) in
  fail (New "reserved payload bytes must be from 1 through %d")
    when (bytes < 1 \/ bytes > MaximumChangesArtifactPayloadBytes) in
  let! timestamp := tx_lift (unixTime observedAt) in
  let! artifact := tx_query (queryPeerChangesArtifact key artifactID) in
  fail ErrChangesArtifactTransition when (artifact.(ca_State) <> ChangesCapturePending) in
  if decide (artifact.(ca_RetentionReserved) = true) then
    fail ErrChangesArtifactConflict when (artifact.(ca_ReservedBytes) <> bytes) in tx_ret artifact
  else
    let! retainedBytes := tx_query (fun db => Ok (retained_payload_bytes db)) in
    fail ErrChangesArtifactQuota when (retainedBytes > MaximumRetainedChangesPayloadBytes - bytes) in
    let updatedAt := Z.max timestamp artifact.(ca_UpdatedAt) in
    do! tx_exec (fun db => wrap "reserve changes artifact payload"
          (update_peer_artifact (artifact_row_key artifact) (reserve_row bytes updatedAt) db)) in
    tx_ret (set_reservation true bytes updatedAt artifact).

(* go: internal/store/peer_changes_artifact.go canonicalChangesParts *)
Definition canonicalChangesParts (parts : list ChangesArtifactPart) : list ChangesArtifactPart :=
  order_by_text (fun p => p.(ap_Kind)) parts.

Definition zero_changes_part : ChangesArtifactPart := {| ap_Kind := ""; ap_Name := ""; ap_SizeBytes := 0; ap_SHA256 := "" |}.

(* go: internal/store/peer_changes_artifact.go splitChangesParts *)
Definition splitChangesParts (parts : list ChangesArtifactPart) : ChangesArtifactPart * ChangesArtifactPart :=
  foldl (fun '(bundle, overlay) part =>
    if decide (part.(ap_Kind) = ChangesArtifactBundle) then (part, overlay)
    else if decide (part.(ap_Kind) = ChangesArtifactOverlay) then (bundle, part)
    else (bundle, overlay)) (zero_changes_part, zero_changes_part) parts.

(* go: internal/store/peer_changes_artifact.go sameChangesCapture *)
Definition sameChangesCapture (a : ChangesArtifact) (r : ChangesCaptureResult) : Prop :=
  a.(ca_Status) = r.(cr_Status) /\ a.(ca_ResultHeadOID) = r.(cr_ResultHeadOID) /\
  a.(ca_ResultSnapshotHash) = r.(cr_ResultSnapshotHash) /\ a.(ca_ResultClean) = r.(cr_ResultClean) /\
  a.(ca_Parts) = r.(cr_Parts) /\ a.(ca_ResultWarnings) = r.(cr_ResultWarnings) /\ a.(ca_FailureCode) = r.(cr_FailureCode).
#[global] Instance sameChangesCapture_dec a r : Decision (sameChangesCapture a r).
Proof. unfold sameChangesCapture. apply _. Defined.

(** The artifact with the capture recorded. *)
(* go: internal/store/peer_changes_artifact_transition.go:203-218 PeerStore.CompleteChangesArtifactCapture *)
Definition captured_artifact (r : ChangesCaptureResult) (timestamp : Z) (a : ChangesArtifact) : ChangesArtifact :=
  let payload := changesPayloadBytes r.(cr_Parts) in
  let keep := bool_decide (r.(cr_Status) = ChangesAvailable /\ payload > 0) in {|
  ca_Key := a.(ca_Key); ca_ArtifactID := a.(ca_ArtifactID); ca_TurnID := a.(ca_TurnID); ca_WorkspaceID := a.(ca_WorkspaceID);
  ca_WorkspaceSourceDeviceID := a.(ca_WorkspaceSourceDeviceID); ca_WorkspaceTargetDeviceID := a.(ca_WorkspaceTargetDeviceID);
  ca_CompletionTarget := a.(ca_CompletionTarget); ca_CompletionFailureCode := a.(ca_CompletionFailureCode);
  ca_State := ChangesPublishPending; ca_Status := r.(cr_Status); ca_ObjectFormat := a.(ca_ObjectFormat);
  ca_BaseHeadOID := a.(ca_BaseHeadOID); ca_BaseClean := a.(ca_BaseClean); ca_BaseManifestHash := a.(ca_BaseManifestHash);
  ca_BaseSnapshotHash := a.(ca_BaseSnapshotHash); ca_BaseWarnings := a.(ca_BaseWarnings);
  ca_ResultHeadOID := r.(cr_ResultHeadOID); ca_ResultSnapshotHash := r.(cr_ResultSnapshotHash);
  ca_ResultClean := r.(cr_ResultClean); ca_Parts := r.(cr_Parts); ca_ResultWarnings := r.(cr_ResultWarnings);
  ca_FailureCode := r.(cr_FailureCode); ca_RetentionReserved := if keep then a.(ca_RetentionReserved) else false;
  ca_ReservedBytes := if keep then payload else 0; ca_PayloadBytes := payload; ca_BrokerSequence := a.(ca_BrokerSequence);
  ca_CreatedAt := a.(ca_CreatedAt); ca_UpdatedAt := Z.max timestamp a.(ca_UpdatedAt) |}.

(* go: internal/store/peer_changes_artifact_transition.go:223-238 PeerStore.CompleteChangesArtifactCapture *)
Definition captured_row (a : ChangesArtifact) (r : PeerArtifactRow) : PeerArtifactRow :=
  let '(bundle, overlay) := splitChangesParts a.(ca_Parts) in {|
  pa_artifact_id := r.(pa_artifact_id); pa_workspace_id := r.(pa_workspace_id);
  pa_workspace_source_device_id := r.(pa_workspace_source_device_id);
  pa_workspace_target_device_id := r.(pa_workspace_target_device_id);
  pa_completion_target_status := r.(pa_completion_target_status); pa_completion_failure_code := r.(pa_completion_failure_code);
  pa_state := a.(ca_State); pa_capture_status := a.(ca_Status); pa_object_format := r.(pa_object_format);
  pa_base_head_oid := r.(pa_base_head_oid); pa_base_clean := r.(pa_base_clean);
  pa_base_manifest_hash := r.(pa_base_manifest_hash); pa_base_snapshot_hash := r.(pa_base_snapshot_hash);
  pa_base_warnings_json := r.(pa_base_warnings_json); pa_result_head_oid := a.(ca_ResultHeadOID);
  pa_result_snapshot_hash := a.(ca_ResultSnapshotHash); pa_result_clean := a.(ca_ResultClean);
  pa_bundle_part_name := bundle.(ap_Name); pa_bundle_size_bytes := bundle.(ap_SizeBytes); pa_bundle_sha256 := bundle.(ap_SHA256);
  pa_overlay_part_name := overlay.(ap_Name); pa_overlay_size_bytes := overlay.(ap_SizeBytes);
  pa_overlay_sha256 := overlay.(ap_SHA256); pa_result_warnings_json := json_Marshal_strings a.(ca_ResultWarnings);
  pa_failure_code := a.(ca_FailureCode); pa_retention_reserved := a.(ca_RetentionReserved);
  pa_reserved_bytes := a.(ca_ReservedBytes); pa_payload_bytes := a.(ca_PayloadBytes);
  pa_broker_sequence := r.(pa_broker_sequence); pa_created_at := r.(pa_created_at); pa_updated_at := a.(ca_UpdatedAt) |}.

(** The worker is being finalized for this artifact. *)
Definition finalizes (worker : WorkerReservation) (a : ChangesArtifact) : Prop :=
  worker.(w_Row).(w_Status) = WorkerFinalizing /\ worker.(w_Row).(w_ActiveTurnID) = a.(ca_TurnID) /\
  worker.(w_Row).(w_WorkspaceID) = a.(ca_WorkspaceID).
#[global] Instance finalizes_dec w a : Decision (finalizes w a).
Proof. unfold finalizes. apply _. Defined.

Definition canonical_result (r : ChangesCaptureResult) : ChangesCaptureResult := {|
  cr_Status := r.(cr_Status); cr_ResultHeadOID := r.(cr_ResultHeadOID); cr_ResultSnapshotHash := r.(cr_ResultSnapshotHash);
  cr_ResultClean := r.(cr_ResultClean); cr_Parts := canonicalChangesParts r.(cr_Parts);
  cr_ResultWarnings := r.(cr_ResultWarnings); cr_FailureCode := r.(cr_FailureCode) |}.

(* go: internal/store/peer_changes_artifact_transition.go PeerStore.CompleteChangesArtifactCapture *)
Definition CompleteChangesArtifactCapture (key : WorkerKey) (artifactID : string) (requested : ChangesCaptureResult) (observedAt : Z)
    : Tx PeerDB ChangesArtifact :=
  do! tx_lift (validateChangesArtifactIdentity key artifactID) in
  let r := canonical_result requested in
  do! tx_lift (validateChangesCaptureResult r) in
  let! timestamp := tx_lift (unixTime observedAt) in
  let! artifact := tx_query (queryPeerChangesArtifact key artifactID) in
  if decide (artifact.(ca_State) <> ChangesCapturePending) then
    if decide (sameChangesCapture artifact r) then tx_ret artifact else tx_throw ErrChangesArtifactConflict
  else
    do! tx_lift (validateChangesCaptureForArtifact artifact r) in
    let! worker := tx_query (queryWorker key) in
    fail ErrChangesArtifactAuthority when (~ finalizes worker artifact) in
    let artifact := captured_artifact r timestamp artifact in
    do! tx_exec (fun db => wrap "complete changes artifact capture"
          (update_peer_artifact (artifact_row_key artifact) (captured_row artifact) db)) in
    do! (if decide (r.(cr_Status) = ChangesCaptureFailed) then
           tx_exec (fun db => wrap "record failed changes capture target" (
             let? (_, db) := update_worker key
               (fun w => bool_decide (w.(w_Status) = "finalizing" /\ w.(w_ActiveTurnID) = worker.(w_Row).(w_ActiveTurnID)))
               (set_final WorkerFailed changesCaptureFailureCode) db in Ok db))
         else tx_ret tt) in
    tx_ret artifact.

(** ** Publishing and removing *)

(* go: internal/store/peer_changes_artifact_transition.go:303-310 PeerStore.AcknowledgeChangesArtifact *)
Definition terminal_worker (revision updatedAt : Z) (w : WorkerRow) : WorkerRow :=
  set_final "" "" (set_lifecycle w.(w_CodexThreadID) w.(w_FinalTarget) ""
    (if decide (w.(w_FinalTarget) = WorkerInterrupted) then w.(w_ActiveTurnID) else "") w.(w_LastBoundTurnID)
    w.(w_FinalFailureCode) revision updatedAt w).

Definition published_artifact (sequence updatedAt : Z) (a : ChangesArtifact) : ChangesArtifact := {|
  ca_Key := a.(ca_Key); ca_ArtifactID := a.(ca_ArtifactID); ca_TurnID := a.(ca_TurnID); ca_WorkspaceID := a.(ca_WorkspaceID);
  ca_WorkspaceSourceDeviceID := a.(ca_WorkspaceSourceDeviceID); ca_WorkspaceTargetDeviceID := a.(ca_WorkspaceTargetDeviceID);
  ca_CompletionTarget := a.(ca_CompletionTarget); ca_CompletionFailureCode := a.(ca_CompletionFailureCode);
  ca_State := ChangesPublished; ca_Status := a.(ca_Status); ca_ObjectFormat := a.(ca_ObjectFormat);
  ca_BaseHeadOID := a.(ca_BaseHeadOID); ca_BaseClean := a.(ca_BaseClean); ca_BaseManifestHash := a.(ca_BaseManifestHash);
  ca_BaseSnapshotHash := a.(ca_BaseSnapshotHash); ca_BaseWarnings := a.(ca_BaseWarnings);
  ca_ResultHeadOID := a.(ca_ResultHeadOID); ca_ResultSnapshotHash := a.(ca_ResultSnapshotHash);
  ca_ResultClean := a.(ca_ResultClean); ca_Parts := a.(ca_Parts); ca_ResultWarnings := a.(ca_ResultWarnings);
  ca_FailureCode := a.(ca_FailureCode); ca_RetentionReserved := a.(ca_RetentionReserved); ca_ReservedBytes := a.(ca_ReservedBytes);
  ca_PayloadBytes := a.(ca_PayloadBytes); ca_BrokerSequence := sequence; ca_CreatedAt := a.(ca_CreatedAt);
  ca_UpdatedAt := updatedAt |}.

(* go: internal/store/peer_changes_artifact_transition.go:314-323 PeerStore.AcknowledgeChangesArtifact *)
Definition published_row (sequence updatedAt : Z) (r : PeerArtifactRow) : PeerArtifactRow := {|
  pa_artifact_id := r.(pa_artifact_id); pa_workspace_id := r.(pa_workspace_id);
  pa_workspace_source_device_id := r.(pa_workspace_source_device_id);
  pa_workspace_target_device_id := r.(pa_workspace_target_device_id);
  pa_completion_target_status := r.(pa_completion_target_status); pa_completion_failure_code := r.(pa_completion_failure_code);
  pa_state := ChangesPublished; pa_capture_status := r.(pa_capture_status); pa_object_format := r.(pa_object_format);
  pa_base_head_oid := r.(pa_base_head_oid); pa_base_clean := r.(pa_base_clean);
  pa_base_manifest_hash := r.(pa_base_manifest_hash); pa_base_snapshot_hash := r.(pa_base_snapshot_hash);
  pa_base_warnings_json := r.(pa_base_warnings_json); pa_result_head_oid := r.(pa_result_head_oid);
  pa_result_snapshot_hash := r.(pa_result_snapshot_hash); pa_result_clean := r.(pa_result_clean);
  pa_bundle_part_name := r.(pa_bundle_part_name); pa_bundle_size_bytes := r.(pa_bundle_size_bytes);
  pa_bundle_sha256 := r.(pa_bundle_sha256); pa_overlay_part_name := r.(pa_overlay_part_name);
  pa_overlay_size_bytes := r.(pa_overlay_size_bytes); pa_overlay_sha256 := r.(pa_overlay_sha256);
  pa_result_warnings_json := r.(pa_result_warnings_json); pa_failure_code := r.(pa_failure_code);
  pa_retention_reserved := r.(pa_retention_reserved); pa_reserved_bytes := r.(pa_reserved_bytes);
  pa_payload_bytes := r.(pa_payload_bytes); pa_broker_sequence := sequence; pa_created_at := r.(pa_created_at);
  pa_updated_at := updatedAt |}.

(* go: internal/store/peer_changes_artifact_transition.go PeerStore.AcknowledgeChangesArtifact *)
Definition AcknowledgeChangesArtifact (key : WorkerKey) (artifactID : string) (brokerSequence observedAt : Z)
    : Tx PeerDB WorkerFinalization :=
  do! tx_lift (validateChangesArtifactIdentity key artifactID) in
  fail (New "brokerSequence must be a positive signed 64-bit integer") when (brokerSequence = 0 \/ brokerSequence > MaxInt64) in
  let! timestamp := tx_lift (unixTime observedAt) in
  let! artifact := tx_query (queryPeerChangesArtifact key artifactID) in
  let! worker := tx_query (queryWorker key) in
  if decide (artifact.(ca_State) = ChangesPublished) then
    fail ErrChangesArtifactConflict when (artifact.(ca_BrokerSequence) <> brokerSequence) in
    tx_ret {| fz_Worker := worker; fz_Artifact := artifact |}
  else
    fail ErrChangesArtifactTransition when (artifact.(ca_State) <> ChangesPublishPending) in
    fail ErrChangesArtifactAuthority when (~ finalizes worker artifact) in
    let w := worker.(w_Row) in
    let! revision := nextWorkerRevision in
    let terminal := terminal_worker revision (Z.max timestamp w.(w_UpdatedAt)) in
    let worker := {| w_Key := key; w_Row := terminal w |} in
    do! tx_lift (wrap "terminal worker is invalid" (WorkerReservation_Validate worker)) in
    let updatedAt := Z.max timestamp artifact.(ca_UpdatedAt) in
    do! tx_exec (fun db => wrap "acknowledge changes artifact"
          (update_peer_artifact (artifact_row_key artifact) (published_row brokerSequence updatedAt) db)) in
    do! tx_exec (fun db => wrap "complete finalized worker" (
      let? (_, db) := update_worker key
        (fun r => bool_decide (r.(w_Status) = "finalizing" /\ r.(w_ActiveTurnID) = artifact.(ca_TurnID))) terminal db in Ok db)) in
    tx_ret {| fz_Worker := worker; fz_Artifact := published_artifact brokerSequence updatedAt artifact |}.

(* go: internal/store/peer_changes_artifact_query.go PeerStore.DeletePublishedChangesArtifact *)
Definition DeletePublishedChangesArtifact (key : WorkerKey) (artifactID : string) : Tx PeerDB unit :=
  do! tx_lift (validateChangesArtifactIdentity key artifactID) in
  let! artifact := tx_query (fun db => optional (queryPeerChangesArtifact key artifactID db)) in
  match artifact with
  | None => tx_ret tt
  | Some artifact =>
      fail ErrChangesArtifactTransition when (artifact.(ca_State) <> ChangesPublished) in
      tx_exec (fun db =>
        let (deleted, t) := sql_delete (fun x => is_artifact key artifactID x /\ x.2.(pa_state) = "published")
                              db.(peer_changes_artifacts) in
        reject ErrChangesArtifactTransition when (deleted <> 1) in Ok (set_peer_changes_artifacts db t))
  end.

(** ** Recovery *)

(* go: internal/store/worker_recovery.go:12-17 workerStartupInterruptedFailure *)
Definition workerStartupInterruptedFailure : string := "app_server_interrupted".
Definition workerThreadStartAmbiguousFailure : string := "thread_start_ambiguous".
Definition workerTurnStartInterruptedFailure : string := "turn_start_interrupted".
Definition workerRunningTurnInterruptedFailure : string := "turn_interrupted".

(** An intent that still answers for the worker: prepared at its checkpoint or bound to its turn. *)
(* go: internal/store/worker_recovery.go:44-52 PeerStore.RecoverWorkers *)
Definition answers_for (k : string * string * string) (w : WorkerRow) (x : (string * string * string * string) * TurnIntentRow) : Prop :=
  x.1.1 = k /\
  ((x.2.(it_state) = "prepared" /\ w.(w_Status) = "ready") \/
   (x.2.(it_state) = "bound" /\ w.(w_Status) = "running" /\ x.2.(it_turn_id) = w.(w_ActiveTurnID))).
#[global] Instance answers_for_dec k w x : Decision (answers_for k w x).
Proof. unfold answers_for. apply _. Defined.

(* go: internal/store/worker_recovery.go:41-53 PeerStore.RecoverWorkers *)
Definition interrupted_worker (controllerID deviceID : string) (db : PeerDB) (x : (string * string * string) * WorkerRow) : Prop :=
  x.1.1.1 = controllerID /\ x.2.(w_DeviceID) = deviceID /\
  x.2.(w_Status) ∈ ["reserved"; "starting"; "preflight"; "ready"; "running"] /\
  none_where (answers_for x.1 x.2) db.(worker_turn_start_intents) = true.
#[global] Instance interrupted_worker_dec c d db x : Decision (interrupted_worker c d db x).
Proof. unfold interrupted_worker. apply _. Defined.

(** The switch on [worker.Status]: the status, retry target, turn and failure it leaves. *)
(* go: internal/store/worker_recovery.go:107-154 PeerStore.RecoverWorkers *)
Definition recovered_state (w : WorkerRow) : result (string * string * string) :=
  let restore :=
    if decide (w.(w_RetryTarget) = WorkerPending \/ w.(w_RetryTarget) = WorkerIdle) then Ok (w.(w_RetryTarget), "", "")
    else Err (New "unexpected retry target %q") in
  if decide (w.(w_Status) = WorkerRunning) then Ok (WorkerInterrupted, w.(w_ActiveTurnID), workerRunningTurnInterruptedFailure)
  else if decide (w.(w_Status) = WorkerReady) then Ok (WorkerInterrupted, "", workerTurnStartInterruptedFailure)
  else if decide (w.(w_Status) = WorkerStarting) then
    if decide (w.(w_CodexThreadID) = "") then Ok (WorkerFailed, "", workerThreadStartAmbiguousFailure) else restore
  else if decide (w.(w_Status) = WorkerPreflight) then restore
  else if decide (w.(w_Status) = WorkerReserved) then Ok (WorkerFailed, "", workerStartupInterruptedFailure)
  else Err (New "unexpected recovery status %q").

(** One turn of the loop. [ids] are what the calls of [identity.NewID] will return. *)
(* go: internal/store/worker_recovery.go:76-171 PeerStore.RecoverWorkers *)
Definition recover_worker (timestamp : Z) (worker : WorkerReservation) (ids : list string) : Tx PeerDB (WorkerReservation * list string) :=
  let w := worker.(w_Row) in
  let updatedAt := Z.max timestamp w.(w_UpdatedAt) in
  if decide (w.(w_Status) = WorkerRunning /\ w.(w_WorkspaceID) <> "") then
    let! workspace := tx_query (requireFinalizationWorkspace worker) in
    match ids with
    | [] => tx_throw (New "create recovered changes artifact ID")
    | artifactID :: ids =>
        let! finalization := beginWorkerFinalization worker workspace artifactID WorkerInterrupted
                               workerRunningTurnInterruptedFailure timestamp in
        tx_ret (finalization.(fz_Worker), ids)
    end
  else
    let! revision := nextWorkerRevision in
    let! (status, active, failure) := tx_lift (recovered_state w) in
    let set := fun r => set_lifecycle r.(w_CodexThreadID) status "" active r.(w_LastBoundTurnID) failure revision updatedAt r in
    do! tx_exec (fun db => wrap "recover interrupted worker" (
      let? (_, db) := update_worker worker.(w_Key) (fun _ => true) set db in Ok db)) in
    tx_ret ({| w_Key := worker.(w_Key); w_Row := set w |}, ids).

(* go: internal/store/worker_recovery.go:75-172 PeerStore.RecoverWorkers *)
Fixpoint recover_workers (timestamp : Z) (workers : list WorkerReservation) (ids : list string) : Tx PeerDB (list WorkerReservation) :=
  match workers with
  | [] => tx_ret []
  | worker :: workers =>
      let! (recovered, ids) := recover_worker timestamp worker ids in
      let! rest := recover_workers timestamp workers ids in
      tx_ret (recovered :: rest)
  end.

(** [ORDER BY created_at, tree_id, agent_id] *)
(* go: internal/store/worker_recovery.go:40-73 PeerStore.RecoverWorkers *)
Definition interrupted_workers (controllerID deviceID : string) (db : PeerDB) : result (list WorkerReservation) :=
  result_mapM (fun x => scanWorker (Some x))
    (order_by (fun x => x.2.(w_CreatedAt)) (order_by_text (fun x => x.1.1.2) (order_by_text (fun x => x.1.2)
       (select (interrupted_worker controllerID deviceID db) db.(worker_reservations))))).

(* go: internal/store/worker_recovery.go PeerStore.RecoverWorkers *)
Definition RecoverWorkers (controllerID deviceID : string) (ids : list string) (observedAt : Z) : Tx PeerDB (list WorkerReservation) :=
  do! tx_lift (wrap "controllerId" (ValidateID controllerID)) in
  do! tx_lift (wrap "deviceId" (ValidateID deviceID)) in
  let! timestamp := tx_lift (unixTime observedAt) in
  let! workers := tx_query (interrupted_workers controllerID deviceID) in
  recover_workers timestamp workers ids.
