(* ===== verification/PeerInbox.v ===== *)
(** internal/store/peer_result_inbox.go and the inbox half of peer_result_package.go: the
    result packages a root's device receives. A package is received part by part, chunk by
    chunk, by one attempt at a time; it becomes available when every part is complete and is
    evicted through a tombstone. An attempt that is cancelled or whose lease ran out leaves a
    removal receipt. *)

From S2P Require Export PeerArtifacts.

(** ** Values *)

(* go: internal/store/peer_result_package.go:43-49 ResultInboxState *)
Definition ResultInboxReceiving : string := "receiving".
Definition ResultInboxAvailable : string := "available".
Definition ResultInboxEvictionTombstone : string := "evictionTombstone".

(* go: internal/store/peer_result_package.go:51-57 ResultInboxAvailability *)
Definition ResultInboxAvailabilityReceiving : string := "receiving".
Definition ResultInboxAvailabilityAvailable : string := "available".
Definition ResultInboxAvailabilityEvicted : string := "evicted".

(* go: internal/store/peer_result_package.go:59-64 ResultInboxRemovalOutcome *)
Definition ResultInboxRemovalCancelled : string := "cancelled".
Definition ResultInboxRemovalReclaimed : string := "reclaimed".

(* go: internal/store/peer_result_package.go:66-71 ResultInboxRemovalPhase *)
Definition ResultInboxRemovalPrepared : string := "prepared".
Definition ResultInboxRemovalCompleted : string := "completed".

(** Ten minutes, in seconds. *)
(* go: internal/store/peer_store.go:12-15 MaximumResultInboxLease *)
Definition MaximumResultInboxLease : Z := 10 * 60.

(* go: internal/store/peer_result_package.go ResultInboxAuthority *)
Record ResultInboxAuthority := { ia_ControllerID : string; ia_TreeID : string; ia_RootAgentID : string; ia_RootDeviceID : string }.
#[global] Instance ResultInboxAuthority_eq_dec : EqDecision ResultInboxAuthority.
Proof. solve_decision. Defined.

(* go: internal/store/peer_result_package.go ResultInboxAuthority.Validate *)
Definition ResultInboxAuthority_Validate (a : ResultInboxAuthority) : result unit :=
  do? wrap "controllerId" (ValidateID a.(ia_ControllerID)) in
  do? wrap "treeId" (ValidateID a.(ia_TreeID)) in
  do? wrap "rootAgentId" (ValidateID a.(ia_RootAgentID)) in
  do? wrap "rootDeviceId" (ValidateID a.(ia_RootDeviceID)) in
  Ok tt.

(* go: internal/store/peer_result_inbox.go validateResultPackageAttempt *)
Definition validateResultPackageAttempt (attemptID packageID : string) : result unit :=
  do? wrap "attemptId" (ValidateID attemptID) in
  do? wrap "packageId" (ValidateID packageID) in
  Ok tt.

(* go: internal/store/peer_result_package.go ResultInboxRemoval *)
Record ResultInboxRemoval := {
  iv_Authority : ResultInboxAuthority;
  iv_PackageID : string;
  iv_AttemptID : string;
  iv_Outcome : string;
  iv_Phase : string;
  iv_CreatedAt : Z;
  iv_UpdatedAt : Z;
}.

(* go: internal/store/peer_result_package.go ResultInboxRemoval.Validate *)
Definition ResultInboxRemoval_Validate (r : ResultInboxRemoval) : result unit :=
  do? ResultInboxAuthority_Validate r.(iv_Authority) in
  do? validateResultPackageAttempt r.(iv_AttemptID) r.(iv_PackageID) in
  reject (New "unsupported result inbox removal outcome %q")
    when (r.(iv_Outcome) ∉ [ResultInboxRemovalCancelled; ResultInboxRemovalReclaimed]) in
  reject (New "unsupported result inbox removal phase %q")
    when (r.(iv_Phase) ∉ [ResultInboxRemovalPrepared; ResultInboxRemovalCompleted]) in
  reject (New "result inbox removal timestamps are invalid") when (r.(iv_CreatedAt) < 0 \/ r.(iv_UpdatedAt) < r.(iv_CreatedAt)) in
  Ok tt.

(* go: internal/store/peer_result_package.go ResultInbox *)
Record ResultInbox := {
  bx_Authority : ResultInboxAuthority;
  bx_PackageID : string;
  bx_State : string;
  bx_AttemptID : string;
  bx_RetentionOrdinal : Z;
  bx_LeaseExpiresAt : Z;
  bx_Metadata : ResultPackageMetadata;
  bx_Manifest : ResultManifest;
  bx_Offsets : list ResultPackagePartOffset;
  bx_PackageBytes : Z;
  bx_CreatedAt : Z;
  bx_UpdatedAt : Z;
}.

(* go: internal/store/peer_result_package.go validateInboxMetadata *)
Definition validateInboxMetadata (authority : ResultInboxAuthority) (packageID : string) (metadata : ResultPackageMetadata)
    (manifest : ResultManifest) : result unit :=
  let? decoded := DecodeManifest metadata in
  reject (New "stored result inbox manifest does not match the exact metadata bytes") when (decoded <> manifest) in
  reject ErrResultPackageAuthority
    when (manifest.(rm_PackageID) <> packageID \/ manifest.(rm_ControllerID) <> authority.(ia_ControllerID) \/
          manifest.(rm_TreeID) <> authority.(ia_TreeID)) in
  Ok tt.

(** The loop over the offsets beside the parts of the manifest, as many. *)
(* go: internal/store/peer_result_package.go:255-266 ResultInbox.Validate *)
Fixpoint check_offsets (state : string) (offsets : list ResultPackagePartOffset) (parts : list ResultPackagePartDescriptor)
    : result unit :=
  match offsets, parts with
  | offset :: offsets, part :: parts =>
      do? wrap "offsets[%d]:" (ResultPackagePartOffset_Validate offset) in
      reject (New "result inbox offset is outside its descriptor")
        when (offset.(po_Kind) <> part.(rd_Kind) \/ offset.(po_NextOffset) > part.(rd_Size)) in
      reject (New "published result inbox contains an incomplete part")
        when (state <> ResultInboxReceiving /\ offset.(po_NextOffset) <> part.(rd_Size)) in
      check_offsets state offsets parts
  | _, _ => Ok tt
  end.

(* go: internal/store/peer_result_package.go ResultInbox.Validate *)
Definition ResultInbox_Validate (r : ResultInbox) : result unit :=
  do? ResultInboxAuthority_Validate r.(bx_Authority) in
  do? wrap "packageId" (ValidateID r.(bx_PackageID)) in
  do? wrap "attemptId" (ValidateID r.(bx_AttemptID)) in
  reject (New "result inbox retention ordinal is out of range")
    when (r.(bx_RetentionOrdinal) = 0 \/ r.(bx_RetentionOrdinal) > MaxInt64) in
  reject (New "result inbox lease must be positive") when (r.(bx_LeaseExpiresAt) < 1) in
  reject (New "result inbox timestamps are invalid") when (r.(bx_CreatedAt) < 0 \/ r.(bx_UpdatedAt) < r.(bx_CreatedAt)) in
  do? validateInboxMetadata r.(bx_Authority) r.(bx_PackageID) r.(bx_Metadata) r.(bx_Manifest) in
  let? packageBytes := resultPackageBytes r.(bx_Metadata) in
  reject (New "result inbox retained bytes do not match its metadata") when (r.(bx_PackageBytes) <> packageBytes) in
  reject (New "unsupported result inbox state %q")
    when (r.(bx_State) ∉ [ResultInboxReceiving; ResultInboxAvailable; ResultInboxEvictionTombstone]) in
  let parts := default [] r.(bx_Manifest).(rm_Parts) in
  reject (New "result inbox offsets do not match its payload descriptors") when (length r.(bx_Offsets) <> length parts) in
  check_offsets r.(bx_State) r.(bx_Offsets) parts.

(* go: internal/store/peer_result_package.go ResultInboxChunkCommit *)
Record ResultInboxChunkCommit := { cc_Kind : string; cc_Offset : Z; cc_Size : Z; cc_SHA256 : string }.

(* go: internal/store/peer_result_package.go ResultInboxChunkCommit.Validate *)
Definition ResultInboxChunkCommit_Validate (c : ResultInboxChunkCommit) : result unit :=
  do? ResultPackagePartKind_Validate c.(cc_Kind) in
  reject (New "manifest bytes are not transferred as a result payload chunk") when (c.(cc_Kind) = ResultPackagePartManifest) in
  reject (New "result inbox chunk bounds are invalid")
    when (c.(cc_Offset) < 0 \/ c.(cc_Size) < 1 \/ c.(cc_Size) > ResultPackageChunkBytes) in
  validateDigest c.(cc_SHA256).

(* go: internal/store/peer_result_package.go ResultInboxChunkCommitResult *)
Record ResultInboxChunkCommitResult := { cr_NextOffset : Z; cr_Replay : bool }.

(** ** Reading the tables *)

Definition inbox_authority (r : InboxRow) : ResultInboxAuthority := {|
  ia_ControllerID := r.(in_controller_id); ia_TreeID := r.(in_tree_id); ia_RootAgentID := r.(in_root_agent_id);
  ia_RootDeviceID := r.(in_root_device_id) |}.

(** The value before its offsets are read. *)
(* go: internal/store/peer_result_package.go scanResultInbox *)
Definition scanResultInbox (x : option (string * InboxRow)) : result ResultInbox :=
  match x with
  | None => Err ErrNotFound
  | Some (packageID, r) =>
      let? (metadata, manifest) := decodeResultMetadata r.(in_manifest_bytes) r.(in_manifest_size_bytes)
                                     r.(in_manifest_sha256) r.(in_parts_json) in
      reject (New "stored result inbox identity columns do not match its manifest")
        when (r.(in_source_agent_id) <> manifest.(rm_SourceAgentID) \/ r.(in_source_device_id) <> manifest.(rm_SourceDeviceID) \/
              r.(in_managed_thread_id) <> manifest.(rm_ManagedThreadID) \/ r.(in_turn_id) <> manifest.(rm_TurnID) \/
              r.(in_lifecycle_revision) <> manifest.(rm_LifecycleRevision)) in
      Ok {| bx_Authority := inbox_authority r; bx_PackageID := packageID; bx_State := r.(in_state);
            bx_AttemptID := r.(in_attempt_id); bx_RetentionOrdinal := r.(in_retention_ordinal);
            bx_LeaseExpiresAt := r.(in_lease_expires_at); bx_Metadata := metadata; bx_Manifest := manifest; bx_Offsets := [];
            bx_PackageBytes := r.(in_package_bytes); bx_CreatedAt := r.(in_created_at); bx_UpdatedAt := r.(in_updated_at) |}
  end.

Definition set_offsets (offsets : list ResultPackagePartOffset) (r : ResultInbox) : ResultInbox := {|
  bx_Authority := r.(bx_Authority); bx_PackageID := r.(bx_PackageID); bx_State := r.(bx_State);
  bx_AttemptID := r.(bx_AttemptID); bx_RetentionOrdinal := r.(bx_RetentionOrdinal); bx_LeaseExpiresAt := r.(bx_LeaseExpiresAt);
  bx_Metadata := r.(bx_Metadata); bx_Manifest := r.(bx_Manifest); bx_Offsets := offsets; bx_PackageBytes := r.(bx_PackageBytes);
  bx_CreatedAt := r.(bx_CreatedAt); bx_UpdatedAt := r.(bx_UpdatedAt) |}.

(** [SELECT kind, next_offset ... WHERE package_id = ? ORDER BY kind] *)
(* go: internal/store/peer_result_package.go:479-499 loadResultInboxOffsets *)
Definition part_offsets (packageID : string) (db : PeerDB) : list ResultPackagePartOffset :=
  (fun x => {| po_Kind := x.1.2; po_NextOffset := x.2.(ip_next_offset) |}) <$>
    order_by_text (fun x => x.1.2) (select (fun x => x.1.1 = packageID) db.(peer_result_inbox_parts)).

(* go: internal/store/peer_result_package.go loadResultInboxOffsets *)
Definition loadResultInboxOffsets (r : ResultInbox) (db : PeerDB) : result ResultInbox :=
  let r := set_offsets (part_offsets r.(bx_PackageID) db) r in
  do? wrap "stored result inbox is invalid" (ResultInbox_Validate r) in Ok r.

(* go: internal/store/peer_result_inbox.go queryResultInboxByPackage *)
Definition queryResultInboxByPackage (packageID : string) (db : PeerDB) : result ResultInbox :=
  do? wrap "packageId" (ValidateID packageID) in
  let? r := scanResultInbox ((fun r => (packageID, r)) <$> db.(peer_result_inbox) !! packageID) in
  loadResultInboxOffsets r db.

Definition removal_authority (r : RemovalRow) : ResultInboxAuthority := {|
  ia_ControllerID := r.(ir_controller_id); ia_TreeID := r.(ir_tree_id); ia_RootAgentID := r.(ir_root_agent_id);
  ia_RootDeviceID := r.(ir_root_device_id) |}.

(* go: internal/store/peer_result_inbox.go scanResultInboxRemoval *)
Definition scanResultInboxRemoval (x : option ((string * string) * RemovalRow)) : result ResultInboxRemoval :=
  match x with
  | None => Err ErrNotFound
  | Some (k, r) =>
      let result := {| iv_Authority := removal_authority r; iv_PackageID := k.1; iv_AttemptID := k.2; iv_Outcome := r.(ir_outcome);
                       iv_Phase := r.(ir_phase); iv_CreatedAt := r.(ir_created_at); iv_UpdatedAt := r.(ir_updated_at) |} in
      do? wrap "stored result inbox removal is invalid" (ResultInboxRemoval_Validate result) in Ok result
  end.

(* go: internal/store/peer_result_inbox.go queryResultInboxRemoval *)
Definition queryResultInboxRemoval (packageID attemptID : string) (db : PeerDB) : result ResultInboxRemoval :=
  scanResultInboxRemoval ((fun r => ((packageID, attemptID), r)) <$> db.(peer_result_inbox_attempt_receipts) !! (packageID, attemptID)).

(** [ORDER BY updated_at DESC, attempt_id DESC LIMIT 1] *)
(* go: internal/store/peer_result_inbox.go queryResultInboxRemovalByPackage *)
Definition queryResultInboxRemovalByPackage (packageID : string) (db : PeerDB) : result ResultInboxRemoval :=
  scanResultInboxRemoval (last (order_by (fun x => x.2.(ir_updated_at)) (order_by_text (fun x => x.1.2)
    (select (fun x => x.1.1 = packageID) db.(peer_result_inbox_attempt_receipts))))).

(** The retained bytes of the whole inbox. *)
Notation package_total := (sum_of in_package_bytes).

(** The query on [peer_result_inbox]. *)
(* go: internal/store/peer_result_outbox.go:659-668 inspectResultStoreCapacity *)
Definition inspect_inbox_capacity (db : PeerDB) : ResultPackageRetention := {|
  rn_Count := Z.of_nat (size db.(peer_result_inbox)); rn_Bytes := package_total db.(peer_result_inbox) |}.

(* go: internal/store/peer_result_outbox.go requireResultStoreCapacity *)
Definition require_inbox_capacity (additionalBytes : Z) (db : PeerDB) : result unit :=
  let retention := inspect_inbox_capacity db in
  reject ErrResultPackageQuota
    when (retention.(rn_Count) >= MaximumPeerResultPackages \/
          additionalBytes > MaximumPeerResultStoreBytes - retention.(rn_Bytes)) in
  Ok tt.

(* go: internal/store/peer_result_inbox.go PeerStore.GetResultInboxRetention *)
Definition GetResultInboxRetention (db : PeerDB) : ResultPackageRetention := inspect_inbox_capacity db.

(** ** Receiving *)

(* go: internal/store/peer_result_inbox.go resultInboxLeaseExpiresAt *)
Definition resultInboxLeaseExpiresAt (observedAt : Z) : result Z :=
  reject (New "result inbox observedAt is too large") when (observedAt > MaxInt64 - MaximumResultInboxLease) in
  Ok (observedAt + MaximumResultInboxLease).

(** The floor was validated to be at most [MaxInt64], so that the conversion keeps it. *)
(* go: internal/store/peer_result_inbox.go nextResultInboxRetentionOrdinal *)
Definition nextResultInboxRetentionOrdinal (retentionFloor : Z) : Tx PeerDB Z := fun db =>
  let m := db.(peer_metadata) in
  let last := Z.max m.(pm_last_result_inbox_retention_ordinal) retentionFloor in
  if decide (last < MaxInt64) then
    let m := {| pm_worker_revision := m.(pm_worker_revision); pm_last_result_inbox_retention_ordinal := last + 1;
                pm_result_inbox_evicted := m.(pm_result_inbox_evicted) |} in
    reject (Wrap "advance result inbox retention ordinal" SQLiteConstraint) when (peer_metadata_check m = false) in
    Ok (last + 1, set_peer_metadata db m)
  else Err ErrResultInboxRetentionExhausted.

(* go: internal/store/peer_result_inbox.go:124-138 PeerStore.BeginResultInbox *)
Definition receiving_row (a : ResultInboxAuthority) (p : BeginResultPackageParams) (m : ResultManifest)
    (ordinal lease bytes timestamp : Z) : InboxRow := {|
  in_controller_id := a.(ia_ControllerID); in_tree_id := a.(ia_TreeID); in_root_agent_id := a.(ia_RootAgentID);
  in_root_device_id := a.(ia_RootDeviceID); in_source_agent_id := m.(rm_SourceAgentID);
  in_source_device_id := m.(rm_SourceDeviceID); in_managed_thread_id := m.(rm_ManagedThreadID); in_turn_id := m.(rm_TurnID);
  in_state := ResultInboxReceiving; in_attempt_id := p.(brp_AttemptID); in_retention_ordinal := ordinal;
  in_lease_expires_at := lease; in_lifecycle_revision := m.(rm_LifecycleRevision);
  in_manifest_bytes := p.(brp_Metadata).(rpm_Manifest);
  in_manifest_size_bytes := p.(brp_Metadata).(rpm_ManifestDescriptor).(rd_Size);
  in_manifest_sha256 := p.(brp_Metadata).(rpm_ManifestDescriptor).(rd_SHA256);
  in_parts_json := encodeResultParts m.(rm_Parts); in_package_bytes := bytes; in_created_at := timestamp;
  in_updated_at := timestamp |}.

(** The reply to a package the inbox already has. *)
(* go: internal/store/peer_result_inbox.go:64-95 PeerStore.BeginResultInbox *)
Definition resume_inbox (existing : ResultInbox) (authority : ResultInboxAuthority) (params : BeginResultPackageParams)
    : result BeginResultPackageResult :=
  reject ErrResultPackageAuthority when (existing.(bx_Authority) <> authority) in
  reject ErrResultPackageConflict when (~ SameResultPackageMetadata existing.(bx_Metadata) params.(brp_Metadata)) in
  let reply outcome offsets := {|
    brr_AttemptID := params.(brp_AttemptID); brr_PackageID := params.(brp_PackageID);
    brr_RetentionOrdinal := existing.(bx_RetentionOrdinal); brr_Outcome := outcome; brr_Offsets := Some offsets |} in
  if decide (existing.(bx_State) = ResultInboxAvailable) then Ok (reply ResultPackageAlreadyAvailable [])
  else if decide (existing.(bx_State) = ResultInboxReceiving) then
    reject ErrResultPackageConflict
      when (existing.(bx_AttemptID) <> params.(brp_AttemptID) \/ params.(brp_LeaseExpiresAt) > existing.(bx_LeaseExpiresAt)) in
    Ok (reply ResultPackageReceiving existing.(bx_Offsets))
  else Err ErrResultPackageTransition.

(* go: internal/store/peer_result_inbox.go:140-146 PeerStore.BeginResultInbox *)
Definition insert_parts (packageID : string) : list ResultPackagePartDescriptor -> Tx PeerDB unit :=
  tx_iter (fun part => tx_exec (fun db => wrap "create result inbox part"
    (insert_inbox_part (packageID, part.(rd_Kind))
       {| ip_size_bytes := part.(rd_Size); ip_sha256 := part.(rd_SHA256); ip_next_offset := 0 |} db))).

(** The last removal of the package, if any, was under another authority. *)
(* go: internal/store/peer_result_inbox.go:99-106 PeerStore.BeginResultInbox *)
Definition other_authority (authority : ResultInboxAuthority) (prior : option ResultInboxRemoval) : Prop :=
  match prior with Some prior => prior.(iv_Authority) <> authority | None => False end.
#[global] Instance other_authority_dec authority prior : Decision (other_authority authority prior).
Proof. unfold other_authority. destruct prior; apply _. Defined.

(** The transaction. *)
(* go: internal/store/peer_result_inbox.go:16-155 PeerStore.BeginResultInbox *)
Definition begin_inbox (authority : ResultInboxAuthority) (params : BeginResultPackageParams) (observedAt : Z)
    : Tx PeerDB BeginResultPackageResult :=
  do! tx_lift (ResultInboxAuthority_Validate authority) in
  do! tx_lift (BeginResultPackageParams_Validate params) in
  let! timestamp := tx_lift (unixTime observedAt) in
  let! localLeaseExpiresAt := tx_lift (resultInboxLeaseExpiresAt timestamp) in
  let! manifest := tx_lift (DecodeManifest params.(brp_Metadata)) in
  do! tx_lift (validateInboxMetadata authority params.(brp_PackageID) params.(brp_Metadata) manifest) in
  let! packageBytes := tx_lift (resultPackageBytes params.(brp_Metadata)) in
  let! removal := tx_query (fun db => optional (queryResultInboxRemoval params.(brp_PackageID) params.(brp_AttemptID) db)) in
  match removal with
  | Some removal =>
      fail ErrResultPackageAuthority when (removal.(iv_Authority) <> authority) in tx_throw ErrResultPackageTransition
  | None =>
      let! existing := tx_query (fun db => optional (queryResultInboxByPackage params.(brp_PackageID) db)) in
      match existing with
      | Some existing => tx_lift (resume_inbox existing authority params)
      | None =>
          let! prior := tx_query (fun db => optional (queryResultInboxRemovalByPackage params.(brp_PackageID) db)) in
          fail ErrResultPackageAuthority when (other_authority authority prior) in
          fail (New "leaseExpiresAt must be after observedAt and at most %s in the future")
            when (params.(brp_LeaseExpiresAt) <= timestamp \/ params.(brp_LeaseExpiresAt) > localLeaseExpiresAt) in
          do! tx_query (require_inbox_capacity packageBytes) in
          let! retentionOrdinal := nextResultInboxRetentionOrdinal params.(brp_RetentionFloor) in
          do! tx_exec (fun db => wrap "begin result inbox" (insert_inbox params.(brp_PackageID)
            (receiving_row authority params manifest retentionOrdinal localLeaseExpiresAt packageBytes timestamp) db)) in
          do! insert_parts params.(brp_PackageID) (default [] manifest.(rm_Parts)) in
          tx_ret {| brr_AttemptID := params.(brp_AttemptID); brr_PackageID := params.(brp_PackageID);
                    brr_RetentionOrdinal := retentionOrdinal; brr_Outcome := ResultPackageReceiving;
                    brr_Offsets := Some ((fun part => {| po_Kind := part.(rd_Kind); po_NextOffset := 0 |})
                                           <$> default [] manifest.(rm_Parts)) |}
      end
  end.

(** The reply is validated after the transaction committed. *)
(* go: internal/store/peer_result_inbox.go PeerStore.BeginResultInbox *)
Definition BeginResultInbox (authority : ResultInboxAuthority) (params : BeginResultPackageParams) (observedAt : Z) (db : PeerDB)
    : result BeginResultPackageResult * PeerDB :=
  let (r, db) := run_tx (begin_inbox authority params observedAt) db in
  ((let? r := r in do? BeginResultPackageResult_Validate r in Ok r), db).

Definition set_activity (state : string) (updatedAt leaseExpiresAt : Z) (r : InboxRow) : InboxRow := {|
  in_controller_id := r.(in_controller_id); in_tree_id := r.(in_tree_id); in_root_agent_id := r.(in_root_agent_id);
  in_root_device_id := r.(in_root_device_id); in_source_agent_id := r.(in_source_agent_id);
  in_source_device_id := r.(in_source_device_id); in_managed_thread_id := r.(in_managed_thread_id); in_turn_id := r.(in_turn_id);
  in_state := state; in_attempt_id := r.(in_attempt_id); in_retention_ordinal := r.(in_retention_ordinal);
  in_lease_expires_at := leaseExpiresAt; in_lifecycle_revision := r.(in_lifecycle_revision);
  in_manifest_bytes := r.(in_manifest_bytes); in_manifest_size_bytes := r.(in_manifest_size_bytes);
  in_manifest_sha256 := r.(in_manifest_sha256); in_parts_json := r.(in_parts_json); in_package_bytes := r.(in_package_bytes);
  in_created_at := r.(in_created_at); in_updated_at := updatedAt |}.

(** [WHERE ... state = 'receiving' AND attempt_id = ?] *)
Definition receives (attemptID : string) (r : InboxRow) : bool :=
  bool_decide (r.(in_state) = "receiving" /\ r.(in_attempt_id) = attemptID).

(* go: internal/store/peer_result_inbox.go updateResultInboxActivity *)
Definition updateResultInboxActivity (packageID attemptID : string) (updatedAt leaseExpiresAt : Z) : Tx PeerDB unit :=
  tx_exec (fun db =>
    let? (_, db) := wrap "update result inbox chunk activity" (update_inbox packageID (receives attemptID)
      (fun r => set_activity r.(in_state) updatedAt leaseExpiresAt r) db) in Ok db).

(** No removal of the attempt was prepared. *)
(* go: internal/store/peer_result_inbox.go:193-197 PeerStore.CommitResultInboxChunk *)
Definition require_no_removal (packageID attemptID : string) (db : PeerDB) : result unit :=
  require_absent ErrResultPackageTransition (queryResultInboxRemoval packageID attemptID db).

(** A chunk that was recorded before. *)
(* go: internal/store/peer_result_inbox.go:234-250 PeerStore.CommitResultInboxChunk *)
Definition replayed_chunk (packageID attemptID : string) (chunk : ResultInboxChunkCommit) (nextOffset : Z) (db : PeerDB)
    : result ResultInboxChunkCommitResult :=
  match db.(peer_result_inbox_chunks) !! (packageID, attemptID, chunk.(cc_Kind), chunk.(cc_Offset)) with
  | None => Err ErrResultPackageConflict
  | Some stored =>
      reject ErrResultPackageConflict
        when (stored.(ic_size_bytes) <> chunk.(cc_Size) \/ stored.(ic_sha256) <> chunk.(cc_SHA256) \/
              chunk.(cc_Offset) + chunk.(cc_Size) > nextOffset) in
      Ok {| cr_NextOffset := nextOffset; cr_Replay := true |}
  end.

(** [UPDATE peer_result_inbox_parts SET next_offset] of the part that was read. *)
(* go: internal/store/peer_result_inbox.go:258-270 PeerStore.CommitResultInboxChunk *)
Definition advance_part (packageID attemptID : string) (chunk : ResultInboxChunkCommit) (part : InboxPartRow) (db : PeerDB)
    : result PeerDB :=
  let? db := wrap "record result inbox chunk" (insert_inbox_chunk (packageID, attemptID, chunk.(cc_Kind), chunk.(cc_Offset))
    {| ic_size_bytes := chunk.(cc_Size); ic_sha256 := chunk.(cc_SHA256) |} db) in
  let? (_, db) := wrap "advance result inbox part offset" (update_inbox_part (packageID, chunk.(cc_Kind))
    (fun r => bool_decide (r.(ip_next_offset) = chunk.(cc_Offset) /\ r.(ip_size_bytes) = part.(ip_size_bytes) /\
                           r.(ip_sha256) = part.(ip_sha256)))
    (fun r => {| ip_size_bytes := r.(ip_size_bytes); ip_sha256 := r.(ip_sha256);
                 ip_next_offset := chunk.(cc_Offset) + chunk.(cc_Size) |}) db) in
  Ok db.

(* go: internal/store/peer_result_inbox.go PeerStore.CommitResultInboxChunk *)
Definition CommitResultInboxChunk (authority : ResultInboxAuthority) (attemptID packageID : string)
    (chunk : ResultInboxChunkCommit) (observedAt : Z) : Tx PeerDB ResultInboxChunkCommitResult :=
  do! tx_lift (ResultInboxAuthority_Validate authority) in
  do! tx_lift (validateResultPackageAttempt attemptID packageID) in
  do! tx_lift (ResultInboxChunkCommit_Validate chunk) in
  let! timestamp := tx_lift (unixTime observedAt) in
  fail ErrResultPackageConflict when (chunk.(cc_Offset) > MaximumResultPackageBytes - chunk.(cc_Size)) in
  do! tx_query (require_no_removal packageID attemptID) in
  let! inbox := tx_query (queryResultInboxByPackage packageID) in
  fail ErrResultPackageAuthority when (inbox.(bx_Authority) <> authority) in
  fail ErrResultPackageTransition when (inbox.(bx_State) <> ResultInboxReceiving \/ inbox.(bx_AttemptID) <> attemptID) in
  let activityAt := Z.max timestamp inbox.(bx_UpdatedAt) in
  let! lease := tx_lift (resultInboxLeaseExpiresAt activityAt) in
  let leaseExpiresAt := Z.max lease inbox.(bx_LeaseExpiresAt) in
  let! part := tx_query (fun db => match db.(peer_result_inbox_parts) !! (packageID, chunk.(cc_Kind)) with
                                   | None => Err ErrResultPackageConflict | Some part => Ok part end) in
  let end_ := chunk.(cc_Offset) + chunk.(cc_Size) in
  fail ErrResultPackageConflict when (end_ > part.(ip_size_bytes)) in
  fail ErrResultPackageConflict
    when (chunk.(cc_Size) <> Z.min ResultPackageChunkBytes (part.(ip_size_bytes) - chunk.(cc_Offset))) in
  if decide (chunk.(cc_Offset) < part.(ip_next_offset)) then
    let! committed := tx_query (replayed_chunk packageID attemptID chunk part.(ip_next_offset)) in
    do! updateResultInboxActivity packageID attemptID activityAt leaseExpiresAt in
    tx_ret committed
  else
    fail ErrResultPackageConflict when (chunk.(cc_Offset) <> part.(ip_next_offset)) in
    do! tx_exec (advance_part packageID attemptID chunk part) in
    do! updateResultInboxActivity packageID attemptID activityAt leaseExpiresAt in
    tx_ret {| cr_NextOffset := end_; cr_Replay := false |}.

Definition set_inbox (state : string) (updatedAt : Z) (r : ResultInbox) : ResultInbox := {|
  bx_Authority := r.(bx_Authority); bx_PackageID := r.(bx_PackageID); bx_State := state;
  bx_AttemptID := r.(bx_AttemptID); bx_RetentionOrdinal := r.(bx_RetentionOrdinal); bx_LeaseExpiresAt := r.(bx_LeaseExpiresAt);
  bx_Metadata := r.(bx_Metadata); bx_Manifest := r.(bx_Manifest); bx_Offsets := r.(bx_Offsets);
  bx_PackageBytes := r.(bx_PackageBytes); bx_CreatedAt := r.(bx_CreatedAt); bx_UpdatedAt := updatedAt |}.

(** Some offset is not at the size of its part. *)
(* go: internal/store/peer_result_inbox.go:348-352 PeerStore.CommitResultInboxAvailable *)
Definition incomplete (r : ResultInbox) : Prop :=
  Exists (fun x => x.1.(po_NextOffset) <> x.2.(rd_Size)) (zip r.(bx_Offsets) (default [] r.(bx_Manifest).(rm_Parts))).
#[global] Instance incomplete_dec r : Decision (incomplete r).
Proof. unfold incomplete. apply _. Defined.

(* go: internal/store/peer_result_inbox.go PeerStore.CommitResultInboxAvailable *)
Definition CommitResultInboxAvailable (authority : ResultInboxAuthority) (attemptID packageID : string) (observedAt : Z)
    : Tx PeerDB ResultInbox :=
  do! tx_lift (ResultInboxAuthority_Validate authority) in
  do! tx_lift (validateResultPackageAttempt attemptID packageID) in
  let! timestamp := tx_lift (unixTime observedAt) in
  do! tx_query (require_no_removal packageID attemptID) in
  let! result := tx_query (queryResultInboxByPackage packageID) in
  fail ErrResultPackageAuthority when (result.(bx_Authority) <> authority) in
  fail ErrResultPackageConflict when (result.(bx_AttemptID) <> attemptID) in
  if decide (result.(bx_State) = ResultInboxAvailable) then tx_ret result
  else
    fail ErrResultPackageTransition when (result.(bx_State) <> ResultInboxReceiving) in
    fail ErrResultPackageTransition when (incomplete result) in
    let updatedAt := Z.max timestamp result.(bx_UpdatedAt) in
    do! tx_exec (fun db =>
      let? (_, db) := wrap "commit available result inbox" (update_inbox packageID (receives attemptID)
        (fun r => set_activity "available" updatedAt r.(in_lease_expires_at) r) db) in Ok db) in
    tx_ret (set_inbox ResultInboxAvailable updatedAt result).

(** ** Removing an attempt *)

(** [ORDER BY updated_at, created_at, package_id, attempt_id LIMIT 1] among the completed. *)
(* go: internal/store/peer_result_inbox.go:1001-1007 ensureResultInboxRemovalCapacity *)
Definition oldest_completed (db : PeerDB) : list (string * string) :=
  fst <$> limit 1 (order_by (fun x => x.2.(ir_updated_at)) (order_by (fun x => x.2.(ir_created_at)) (order_by_text (fun x => x.1.1)
    (order_by_text (fun x => x.1.2) (select (fun x => x.2.(ir_phase) = "completed") db.(peer_result_inbox_attempt_receipts)))))).

(** The loop. Every turn but the last deletes a receipt, so that one turn more than there
    are receipts is enough. *)
(* go: internal/store/peer_result_inbox.go:989-1019 ensureResultInboxRemovalCapacity *)
Fixpoint prune_removals (fuel : nat) (db : PeerDB) : result (unit * PeerDB) :=
  match fuel with
  | O => Err (New "the loop did not end")
  | S fuel =>
      if decide (Z.of_nat (size db.(peer_result_inbox_attempt_receipts)) < MaximumResultInboxRemovalReceipts) then Ok (tt, db)
      else
        let (deleted, t) := sql_delete (fun x => x.1 ∈ oldest_completed db) db.(peer_result_inbox_attempt_receipts) in
        reject ErrResultPackageQuota when (deleted <> 1) in
        prune_removals fuel (set_peer_result_inbox_attempt_receipts db t)
  end.

(* go: internal/store/peer_result_inbox.go ensureResultInboxRemovalCapacity *)
Definition ensureResultInboxRemovalCapacity : Tx PeerDB unit := fun db =>
  prune_removals (S (size db.(peer_result_inbox_attempt_receipts))) db.

(* go: internal/store/peer_result_inbox.go:445-453 PeerStore.prepareResultInboxRemoval *)
Definition prepared_removal (a : ResultInboxAuthority) (outcome : string) (timestamp : Z) : RemovalRow := {|
  ir_controller_id := a.(ia_ControllerID); ir_tree_id := a.(ia_TreeID); ir_root_agent_id := a.(ia_RootAgentID);
  ir_root_device_id := a.(ia_RootDeviceID); ir_outcome := outcome; ir_phase := "prepared"; ir_created_at := timestamp;
  ir_updated_at := timestamp |}.

(* go: internal/store/peer_result_inbox.go PeerStore.prepareResultInboxRemoval *)
Definition prepareResultInboxRemoval (authority : ResultInboxAuthority) (attemptID packageID : string) (observedAt : Z)
    (outcome : string) (requireExpired : bool) : Tx PeerDB ResultInboxRemoval :=
  do! tx_lift (ResultInboxAuthority_Validate authority) in
  do! tx_lift (validateResultPackageAttempt attemptID packageID) in
  let! timestamp := tx_lift (unixTime observedAt) in
  let! removal := tx_query (fun db => optional (queryResultInboxRemoval packageID attemptID db)) in
  match removal with
  | Some removal =>
      fail ErrResultPackageConflict when (removal.(iv_Authority) <> authority \/ removal.(iv_Outcome) <> outcome) in
      tx_ret removal
  | None =>
      let! inbox := tx_query (queryResultInboxByPackage packageID) in
      fail ErrResultPackageAuthority when (inbox.(bx_Authority) <> authority) in
      fail ErrResultPackageConflict when (inbox.(bx_State) <> ResultInboxReceiving \/ inbox.(bx_AttemptID) <> attemptID) in
      fail ErrResultPackageTransition when (requireExpired = true /\ inbox.(bx_LeaseExpiresAt) > timestamp) in
      do! ensureResultInboxRemovalCapacity in
      do! tx_exec (fun db => wrap "prepare result inbox removal"
        (insert_removal (packageID, attemptID) (prepared_removal authority outcome timestamp) db)) in
      tx_ret {| iv_Authority := authority; iv_PackageID := packageID; iv_AttemptID := attemptID; iv_Outcome := outcome;
                iv_Phase := ResultInboxRemovalPrepared; iv_CreatedAt := timestamp; iv_UpdatedAt := timestamp |}
  end.

(* go: internal/store/peer_result_inbox.go PeerStore.PrepareResultInboxCancel *)
Definition PrepareResultInboxCancel (authority : ResultInboxAuthority) (attemptID packageID : string) (observedAt : Z) :=
  prepareResultInboxRemoval authority attemptID packageID observedAt ResultInboxRemovalCancelled false.

(* go: internal/store/peer_result_inbox.go PeerStore.PrepareExpiredResultInboxReclaim *)
Definition PrepareExpiredResultInboxReclaim (authority : ResultInboxAuthority) (attemptID packageID : string) (observedAt : Z) :=
  prepareResultInboxRemoval authority attemptID packageID observedAt ResultInboxRemovalReclaimed true.

Definition set_phase (phase : string) (updatedAt : Z) (r : RemovalRow) : RemovalRow := {|
  ir_controller_id := r.(ir_controller_id); ir_tree_id := r.(ir_tree_id); ir_root_agent_id := r.(ir_root_agent_id);
  ir_root_device_id := r.(ir_root_device_id); ir_outcome := r.(ir_outcome); ir_phase := phase;
  ir_created_at := r.(ir_created_at); ir_updated_at := updatedAt |}.

(* go: internal/store/peer_result_inbox.go PeerStore.CommitResultInboxRemoval *)
Definition CommitResultInboxRemoval (removal : ResultInboxRemoval) (observedAt : Z) : Tx PeerDB ResultInboxRemoval :=
  do! tx_lift (ResultInboxRemoval_Validate removal) in
  let! timestamp := tx_lift (unixTime observedAt) in
  let! stored := tx_query (queryResultInboxRemoval removal.(iv_PackageID) removal.(iv_AttemptID)) in
  fail ErrResultPackageConflict
    when (stored.(iv_Authority) <> removal.(iv_Authority) \/ stored.(iv_Outcome) <> removal.(iv_Outcome)) in
  if decide (stored.(iv_Phase) = ResultInboxRemovalCompleted) then tx_ret stored
  else
    fail ErrResultPackageTransition when (stored.(iv_Phase) <> ResultInboxRemovalPrepared) in
    let! inbox := tx_query (queryResultInboxByPackage removal.(iv_PackageID)) in
    fail ErrResultPackageConflict
      when (inbox.(bx_Authority) <> removal.(iv_Authority) \/ inbox.(bx_AttemptID) <> removal.(iv_AttemptID) \/
            inbox.(bx_State) <> ResultInboxReceiving) in
    do! tx_put (delete_inbox removal.(iv_PackageID) (receives removal.(iv_AttemptID))) in
    let updatedAt := Z.max timestamp stored.(iv_UpdatedAt) in
    do! tx_exec (fun db =>
      let? (_, db) := wrap "complete result inbox removal receipt" (update_removal (stored.(iv_PackageID), stored.(iv_AttemptID))
        (fun r => bool_decide (r.(ir_phase) = "prepared")) (set_phase "completed" updatedAt) db) in Ok db) in
    tx_ret {| iv_Authority := stored.(iv_Authority); iv_PackageID := stored.(iv_PackageID); iv_AttemptID := stored.(iv_AttemptID);
              iv_Outcome := stored.(iv_Outcome); iv_Phase := ResultInboxRemovalCompleted; iv_CreatedAt := stored.(iv_CreatedAt);
              iv_UpdatedAt := updatedAt |}.

(* go: internal/store/peer_result_inbox.go PeerStore.DeleteCompletedResultInboxRemoval *)
Definition DeleteCompletedResultInboxRemoval (removal : ResultInboxRemoval) : Tx PeerDB unit :=
  do! tx_lift (ResultInboxRemoval_Validate removal) in
  let! stored := tx_query (fun db => optional (queryResultInboxRemoval removal.(iv_PackageID) removal.(iv_AttemptID) db)) in
  match stored with
  | None => tx_ret tt
  | Some stored =>
      fail ErrResultPackageConflict
        when (stored.(iv_Authority) <> removal.(iv_Authority) \/ stored.(iv_Outcome) <> removal.(iv_Outcome)) in
      fail ErrResultPackageTransition when (stored.(iv_Phase) <> ResultInboxRemovalCompleted) in
      tx_put (fun db => set_peer_result_inbox_attempt_receipts db (sql_delete
        (fun x => x.1 = (stored.(iv_PackageID), stored.(iv_AttemptID)) /\ x.2.(ir_phase) = "completed")
        db.(peer_result_inbox_attempt_receipts)).2)
  end.

(** ** Eviction *)

(* go: internal/store/peer_result_inbox.go PeerStore.PrepareResultInboxEviction *)
Definition PrepareResultInboxEviction (authority : ResultInboxAuthority) (packageID : string) (observedAt : Z) : Tx PeerDB ResultInbox :=
  do! tx_lift (ResultInboxAuthority_Validate authority) in
  do! tx_lift (wrap "packageId" (ValidateID packageID)) in
  let! timestamp := tx_lift (unixTime observedAt) in
  let! result := tx_query (queryResultInboxByPackage packageID) in
  fail ErrResultPackageAuthority when (result.(bx_Authority) <> authority) in
  if decide (result.(bx_State) = ResultInboxEvictionTombstone) then tx_ret result
  else
    fail ErrResultPackageTransition when (result.(bx_State) <> ResultInboxAvailable) in
    let updatedAt := Z.max timestamp result.(bx_UpdatedAt) in
    do! tx_exec (fun db =>
      let? (_, db) := wrap "prepare result inbox eviction" (update_inbox packageID (fun r => bool_decide (r.(in_state) = "available"))
        (fun r => set_activity "evictionTombstone" updatedAt r.(in_lease_expires_at) r) db) in Ok db) in
    tx_ret (set_inbox ResultInboxEvictionTombstone updatedAt result).

(* go: internal/store/peer_result_inbox.go:854-868 PeerStore.CompactResultInboxEviction *)
Definition count_eviction : Tx PeerDB unit := fun db =>
  let m := db.(peer_metadata) in
  if decide (m.(pm_result_inbox_evicted) < MaxInt64) then
    let m := {| pm_worker_revision := m.(pm_worker_revision);
                pm_last_result_inbox_retention_ordinal := m.(pm_last_result_inbox_retention_ordinal);
                pm_result_inbox_evicted := m.(pm_result_inbox_evicted) + 1 |} in
    reject (Wrap "increment result inbox eviction counter" SQLiteConstraint) when (peer_metadata_check m = false) in
    Ok (tt, set_peer_metadata db m)
  else Err (New "result inbox eviction counter is exhausted").

(* go: internal/store/peer_result_inbox.go PeerStore.CompactResultInboxEviction *)
Definition CompactResultInboxEviction (authority : ResultInboxAuthority) (packageID : string) : Tx PeerDB unit :=
  do! tx_lift (ResultInboxAuthority_Validate authority) in
  do! tx_lift (wrap "packageId" (ValidateID packageID)) in
  let! result := tx_query (fun db => optional (queryResultInboxByPackage packageID db)) in
  match result with
  | None => tx_ret tt
  | Some result =>
      fail ErrResultPackageAuthority when (result.(bx_Authority) <> authority) in
      fail ErrResultPackageTransition when (result.(bx_State) <> ResultInboxEvictionTombstone) in
      do! count_eviction in
      do! tx_put (delete_inbox packageID (fun r => bool_decide (r.(in_state) = "evictionTombstone"))) in
      tx_put (fun db => set_peer_result_inbox_attempt_receipts db
        (sql_delete (fun x => x.1.1 = packageID) db.(peer_result_inbox_attempt_receipts)).2)
  end.

(** ** Queries *)

(* go: internal/store/peer_result_inbox.go PeerStore.GetResultInbox *)
Definition GetResultInbox (authority : ResultInboxAuthority) (packageID : string) (db : PeerDB) : result ResultInbox :=
  do? ResultInboxAuthority_Validate authority in
  do? wrap "packageId" (ValidateID packageID) in
  let? result := queryResultInboxByPackage packageID db in
  reject ErrResultPackageAuthority when (result.(bx_Authority) <> authority) in
  Ok result.

(* go: internal/store/peer_result_inbox.go PeerStore.LookupResultInboxAvailability *)
Definition LookupResultInboxAvailability (authority : ResultInboxAuthority) (packageID : string) (db : PeerDB) : result string :=
  let? found := optional (GetResultInbox authority packageID db) in
  match found with
  | None => Ok ResultInboxAvailabilityEvicted
  | Some result =>
      if decide (result.(bx_State) = ResultInboxReceiving) then Ok ResultInboxAvailabilityReceiving
      else if decide (result.(bx_State) = ResultInboxAvailable) then Ok ResultInboxAvailabilityAvailable
      else if decide (result.(bx_State) = ResultInboxEvictionTombstone) then Ok ResultInboxAvailabilityEvicted
      else Err ErrResultPackageTransition
  end.

(** The rows are scanned before any offset is read. *)
(* go: internal/store/peer_result_inbox.go PeerStore.listResultInboxes *)
Definition listResultInboxes (rows : list (string * InboxRow)) (db : PeerDB) : result (list ResultInbox) :=
  let? results := result_mapM (fun x => scanResultInbox (Some x)) rows in
  result_mapM (fun r => loadResultInboxOffsets r db) results.

Definition of_root (controllerID deviceID : string) (x : string * InboxRow) : Prop :=
  x.2.(in_controller_id) = controllerID /\ x.2.(in_root_device_id) = deviceID.
#[global] Instance of_root_dec c d x : Decision (of_root c d x).
Proof. unfold of_root. apply _. Defined.

(** [ORDER BY created_at, tree_id, root_agent_id, package_id] *)
Definition by_creation : list (string * InboxRow) -> list (string * InboxRow) := fun l =>
  order_by (fun x => x.2.(in_created_at)) (order_by_text (fun x => x.2.(in_tree_id)) (order_by_text (fun x => x.2.(in_root_agent_id))
    (order_by_text fst l))).

(* go: internal/store/peer_result_inbox.go PeerStore.ListExpiredResultInboxes *)
Definition ListExpiredResultInboxes (controllerID deviceID : string) (expiredAt limit_ : Z) (db : PeerDB) : result (list ResultInbox) :=
  do? validateChangesArtifactDevice controllerID deviceID in
  do? validateResultPage limit_ in
  let? timestamp := unixTime expiredAt in
  listResultInboxes (limit limit_ (order_by (fun x => x.2.(in_lease_expires_at)) (by_creation
    (select (fun x => of_root controllerID deviceID x /\ x.2.(in_state) = "receiving" /\ x.2.(in_lease_expires_at) <= timestamp)
       db.(peer_result_inbox))))) db.

(** The rows of a device in some states, in an order. *)
Definition list_inboxes (controllerID deviceID : string) (states : list string)
    (order : list (string * InboxRow) -> list (string * InboxRow)) (limit_ : Z) (db : PeerDB) : result (list ResultInbox) :=
  do? validateChangesArtifactDevice controllerID deviceID in
  do? validateResultPage limit_ in
  listResultInboxes (limit limit_ (order
    (select (fun x => of_root controllerID deviceID x /\ x.2.(in_state) ∈ states) db.(peer_result_inbox)))) db.

(** [ORDER BY updated_at, created_at, ...] and [ORDER BY retention_ordinal, package_id] *)
Definition by_activity (l : list (string * InboxRow)) : list (string * InboxRow) :=
  order_by (fun x => x.2.(in_updated_at)) (by_creation l).
Definition by_retention (l : list (string * InboxRow)) : list (string * InboxRow) :=
  order_by (fun x => x.2.(in_retention_ordinal)) (order_by_text fst l).

(* go: internal/store/peer_result_inbox.go PeerStore.ListReceivingResultInboxes *)
Definition ListReceivingResultInboxes (controllerID deviceID : string) (limit : Z) (db : PeerDB) :=
  list_inboxes controllerID deviceID ["receiving"] by_activity limit db.

(* go: internal/store/peer_result_inbox.go PeerStore.ListRetainedResultInboxes *)
Definition ListRetainedResultInboxes (controllerID deviceID : string) (limit : Z) (db : PeerDB) :=
  list_inboxes controllerID deviceID ["receiving"; "available"] by_retention limit db.

(* go: internal/store/peer_result_inbox.go PeerStore.ListAvailableResultInboxes *)
Definition ListAvailableResultInboxes (controllerID deviceID : string) (limit : Z) (db : PeerDB) :=
  list_inboxes controllerID deviceID ["available"] by_retention limit db.

(* go: internal/store/peer_result_inbox.go PeerStore.ListResultInboxEvictionTombstones *)
Definition ListResultInboxEvictionTombstones (controllerID deviceID : string) (limit : Z) (db : PeerDB) :=
  list_inboxes controllerID deviceID ["evictionTombstone"] by_activity limit db.

(** [ORDER BY updated_at, created_at, tree_id, root_agent_id, package_id, attempt_id] *)
Definition list_removals (controllerID deviceID phase : string) (limit_ : Z) (db : PeerDB) : result (list ResultInboxRemoval) :=
  do? validateChangesArtifactDevice controllerID deviceID in
  do? validateResultPage limit_ in
  result_mapM (fun x => scanResultInboxRemoval (Some x)) (limit limit_
    (order_by (fun x => x.2.(ir_updated_at)) (order_by (fun x => x.2.(ir_created_at)) (order_by_text (fun x => x.2.(ir_tree_id))
       (order_by_text (fun x => x.2.(ir_root_agent_id)) (order_by_text (fun x => x.1.1) (order_by_text (fun x => x.1.2)
          (select (fun x => x.2.(ir_controller_id) = controllerID /\ x.2.(ir_root_device_id) = deviceID /\ x.2.(ir_phase) = phase)
             db.(peer_result_inbox_attempt_receipts))))))))).

(* go: internal/store/peer_result_inbox.go PeerStore.ListPreparedResultInboxRemovals *)
Definition ListPreparedResultInboxRemovals (controllerID deviceID : string) (limit : Z) (db : PeerDB) :=
  list_removals controllerID deviceID "prepared" limit db.

(* go: internal/store/peer_result_inbox.go PeerStore.ListCompletedResultInboxRemovals *)
Definition ListCompletedResultInboxRemovals (controllerID deviceID : string) (limit : Z) (db : PeerDB) :=
  list_removals controllerID deviceID "completed" limit db.
