(* ===== verification/PeerState.v ===== *)
(** The invariant of a peer's database: the rows the operations of PeerWorkspaces,
    PeerWorkers and PeerTurns leave are valid, the worker lifecycle follows one table of
    moves, revisions are never reused, an unresolved turn start keeps its checkpoint and
    its reserved bytes, and the quotas hold. *)

From S2P Require Export PeerTurns.

(** ** Valid workers *)

Definition failure_code_ok (code : string) : Prop := validateFailureCode code = Ok tt.

(** What a reservation keeps for good ... *)
Record worker_static (k : string * string * string) (r : WorkerRow) : Prop := {
  wv_key : WorkerKey_Validate k = Ok tt;
  wv_parent : valid_id r.(w_ParentAgentID);
  wv_device : valid_id r.(w_DeviceID);
  wv_task : ~ (is_blank r.(w_TaskName) = true \/ len r.(w_TaskName) > maximumWorkerTaskName);
  wv_digest : lower_digest r.(w_PromptDigest);
  wv_path : ~ (filepath_IsAbs r.(w_WorkspacePath) = false \/ len r.(w_WorkspacePath) > maximumWorkspacePath);
  wv_workspace : optional_id_ok r.(w_WorkspaceID);
  wv_directory : ~ escapes_workspace r.(w_WorkingDirectory);
  wv_profile : 1 <= r.(w_ProfileVersion);
}.

(** ... and what its lifecycle changes. *)
Record worker_dynamic (r : WorkerRow) : Prop := {
  wd_thread : optional_id_ok r.(w_CodexThreadID);
  wd_status : WorkerStatus_valid r.(w_Status) = true;
  wd_active : optional_id_ok r.(w_ActiveTurnID);
  wd_bound : optional_id_ok r.(w_LastBoundTurnID);
  wd_failure : failure_code_ok r.(w_FailureCode);
  wd_final_failure : failure_code_ok r.(w_FinalFailureCode);
  wd_final : r.(w_Status) <> WorkerFinalizing -> r.(w_FinalTarget) = "" /\ r.(w_FinalFailureCode) = "";
  wd_matches : lifecycle_matches r;
  wd_times : 0 <= r.(w_CreatedAt) <= r.(w_UpdatedAt);
  wd_revision : r.(w_Revision) <> 0 /\ r.(w_Revision) < 2 ^ 63;
}.

Lemma WorkerReservation_Validate_Ok k r :
  WorkerReservation_Validate {| w_Key := k; w_Row := r |} = Ok tt <-> worker_static k r /\ worker_dynamic r.
Proof.
  unfold WorkerReservation_Validate. cbn [w_Key w_Row]. autorewrite with valid. rewrite !validate_optional_id_Ok. simpl.
  split.
  - intros (H1 & (H2 & H3 & _) & H4 & H5 & H6 & H7 & H8 & H9 & H10 & H11 & H12 & H13 & H14 & H15 & H16 & H17 & H18 & H19 & _).
    split; constructor; try hyp; try lia; try (by apply dec_stable); try (by apply not_false_iff_true).
    intros Hf. split; apply dec_stable; intros ?; apply H16; auto.
  - intros [[] []]. split_and!; try hyp; try lia; try tauto; try (by constructor);
      try (by apply not_false_iff_true).
Qed.

(** A worker whose start resumes a follow-up has the thread to resume. *)
Definition resumable (r : WorkerRow) : Prop := r.(w_RetryTarget) = WorkerIdle -> r.(w_CodexThreadID) <> "".

(** A stored reservation. *)
Record worker_ok (k : string * string * string) (r : WorkerRow) : Prop := {
  wk_static : worker_static k r;
  wk_dynamic : worker_dynamic r;
  wk_resumable : resumable r;
}.

Lemma WorkerStatus_valid_cases s :
  WorkerStatus_valid s = true ->
  s = WorkerReserved \/ s = WorkerPending \/ s = WorkerStarting \/ s = WorkerPreflight \/ s = WorkerReady \/
  s = WorkerRunning \/ s = WorkerFinalizing \/ s = WorkerIdle \/ s = WorkerInterrupted \/ s = WorkerFailed.
Proof. unfold WorkerStatus_valid. rewrite bool_decide_eq_true. set_solver. Qed.

(** Closes a closed decidable goal by evaluation. *)
Ltac by_decide := refine (bool_decide_unpack _ _); vm_compute; exact I.

(** The retry target and the final target of a valid worker, by its status. *)
Lemma retry_of_status r : worker_dynamic r ->
  (r.(w_Status) ∈ [WorkerStarting; WorkerPreflight; WorkerReady] /\ retry_set r) \/
  (r.(w_Status) ∉ [WorkerStarting; WorkerPreflight; WorkerReady] /\ r.(w_RetryTarget) = "").
Proof.
  intros [_ Hs _ _ _ _ _ Hm _ _]. apply WorkerStatus_valid_cases in Hs. unfold lifecycle_matches in Hm.
  destruct Hm as (H1 & H2 & H3 & H4 & H5 & H6 & H7 & H8 & H9).
  destruct Hs as [E|[E|[E|[E|[E|[E|[E|[E|[E|E]]]]]]]]]; rewrite E;
    [right|right|left|left|left|right|right|right|right|right]; (split; [by_decide|]).
  1: apply H1, E. 1: apply H2, E. 1: apply H3, E. 1: apply H4, E. 1: by apply (H5 (or_introl E)). 1: apply H6, E.
  1: apply H7, E. 1: by apply (H5 (or_intror E)). 1: apply H8, E. apply H9, E.
Qed.

Lemma worker_valid_check k r : worker_static k r -> worker_dynamic r -> 0 < r.(w_Revision) -> worker_check r = true.
Proof.
  intros Hs Hd Hr. pose proof (retry_of_status _ Hd) as Hretry. destruct Hd as [_ Hst _ Hb _ _ Hf Hm Ht _]. unfold worker_check.
  rewrite !andb_true_iff, !bool_decide_eq_true, !Z.ltb_lt, !Z.leb_le. pose proof (wv_profile _ _ Hs).
  split_and!; try lia.
  - unfold WorkerStatus_valid in Hst. by rewrite bool_decide_eq_true in Hst.
  - destruct Hretry as [[_ [->| ->]]|[_ ->]]; by_decide.
  - destruct (decide (r.(w_LastBoundTurnID) = "")) as [|Hn]; [by left|right]. by apply valid_id_sqlite_length, Hb.
  - destruct (decide (r.(w_Status) = WorkerFinalizing)) as [E|E].
    + destruct Hm as (_ & _ & _ & _ & _ & _ & Hm & _). destruct (Hm E) as (_ & _ & _ & _ & _ & Ht' & _).
      unfold WorkerStatus_finalTarget in Ht'. rewrite bool_decide_eq_true in Ht'. by apply list_elem_of_further.
    + destruct (Hf E) as [-> _]. by_decide.
  - destruct (decide (r.(w_Status) = WorkerFinalizing)) as [E|E]; [right|left; split; [done|by apply Hf]].
    destruct Hm as (_ & _ & _ & _ & _ & _ & Hm & _). destruct (Hm E) as (_ & Ha & _ & Hfc & Hrt & Ht' & Hiff).
    split_and!; [hyp|hyp|hyp|hyp|]. unfold WorkerStatus_finalTarget in Ht'. rewrite bool_decide_eq_true in Ht'.
    destruct (decide (r.(w_FinalTarget) = WorkerIdle)) as [Ei|Ei]; [left; tauto|right].
    split; [|tauto]. apply elem_of_cons in Ht' as [?|?]; [done|]. done.
  - destruct Hm as (_ & _ & _ & _ & _ & Hrun & Hfin & _).
    destruct (decide (r.(w_Status) ∈ ["running"; "finalizing"])) as [E|E]; [right|by left].
    apply elem_of_cons in E as [E|E]; [by apply Hrun|]. apply list_elem_of_singleton in E. by apply Hfin.
Qed.

(** ** The lifecycle *)

(** The moves [transitionWorker] makes: the state it starts from, the state it goes to, the
    thread it attaches and the turn or failure it records. *)
Inductive worker_move (r : WorkerRow) : string -> string -> string -> Prop :=
| move_start thread detail :
    r.(w_Status) ∈ [WorkerReserved; WorkerPending; WorkerIdle; WorkerInterrupted] -> worker_move r WorkerStarting thread detail
| move_restore to thread detail :
    r.(w_Status) ∈ [WorkerStarting; WorkerPreflight; WorkerReady] -> r.(w_RetryTarget) = to -> worker_move r to thread detail
| move_attach thread detail : r.(w_Status) = WorkerStarting -> valid_id thread -> worker_move r WorkerPreflight thread detail
| move_ready thread detail : r.(w_Status) = WorkerPreflight -> worker_move r WorkerReady thread detail
| move_run thread turn : r.(w_Status) = WorkerReady -> valid_id turn -> worker_move r WorkerRunning thread turn
| move_idle thread detail :
    r.(w_Status) = WorkerRunning \/ r.(w_Status) = WorkerInterrupted -> worker_move r WorkerIdle thread detail
| move_fail thread code :
    r.(w_Status) ∉ [WorkerIdle; WorkerFinalizing; WorkerFailed] -> code <> "" -> failure_code_ok code ->
    worker_move r WorkerFailed thread code.

(** What a status says of the thread. *)
Lemma thread_of_status r : worker_dynamic r ->
  r.(w_Status) ∉ [WorkerReserved; WorkerPending; WorkerStarting; WorkerFailed] -> r.(w_CodexThreadID) <> "".
Proof.
  intros [_ Hs _ _ _ _ _ Hm _ _] Hn. apply WorkerStatus_valid_cases in Hs. unfold lifecycle_matches in Hm.
  destruct Hm as (H1 & H2 & H3 & H4 & H5 & H6 & H7 & H8 & H9).
  destruct Hs as [E|[E|[E|[E|[E|[E|[E|[E|[E|E]]]]]]]]];
    try (exfalso; apply Hn; rewrite E; by_decide).
  1: by apply H4. 1: by apply (H5 (or_introl E)). 1: by apply H6. 1: by apply H7. 1: by apply (H5 (or_intror E)). by apply H8.
Qed.

Lemma move_not_finalizing r to thread detail :
  worker_dynamic r -> worker_move r to thread detail ->
  r.(w_Status) <> WorkerFinalizing /\ r.(w_Status) <> WorkerFailed.
Proof.
  intros Hd [? ? Hs|? ? ? Hs _|? ? Hs _|? ? Hs|? ? Hs _|? ? Hs|? ? Hs _ _]; try (by rewrite Hs).
  - split; intros E; rewrite E in Hs; revert Hs; by_decide.
  - split; intros E; rewrite E in Hs; revert Hs; by_decide.
  - by destruct Hs as [-> | ->].
  - split; intros E; apply Hs; rewrite E; by_decide.
Qed.

(** The details [move_worker] writes go with the state it goes to. *)
Lemma move_worker_matches r to thread detail revision at_ :
  worker_dynamic r -> resumable r -> worker_move r to thread detail ->
  lifecycle_matches (move_worker to thread detail revision at_ r) /\ resumable (move_worker to thread detail revision at_ r) /\
  WorkerStatus_valid to = true.
Proof.
  intros Hd Hres Hm. pose proof (retry_of_status _ Hd) as Hretry. pose proof (thread_of_status _ Hd) as Hthread.
  destruct Hm as [th d Hs|to th d Hs Hto|th d Hs Hv|th d Hs|th d Hs Hv|th d Hs|th d Hs Hc _];
    unfold move_worker, lifecycle_matches, resumable, retry_set in *.
  - cbn. split; [|split; [|done]].
    + split_and!; intros E; try (discriminate E); [|destruct E as [E|E]; discriminate E].
      split_and!; [|done|done]. rewrite !elem_of_cons, elem_of_nil in Hs.
      destruct Hs as [->|[->|[->|[->|[]]]]]; [left|left|right|right]; done.
    + rewrite !elem_of_cons, elem_of_nil in Hs. destruct Hs as [E|[E|[E|[E|[]]]]]; rewrite E in *; try (intros [=]; fail);
        intros _; apply Hthread; by_decide.
  - destruct Hretry as [[_ [Hp|Hp]]|[Hn _]]; [| |done]; rewrite Hp in Hto; subst to; cbn.
    + split; [|done]. split_and!; intros E; try (discriminate E); [done|destruct E as [E|E]; discriminate E].
    + split; [|done]. split_and!; intros E; try (discriminate E). split_and!; [by apply Hres|done|done|intros [=]|done].
  - destruct Hretry as [[_ Hp]|[Hn _]]; [|exfalso; apply Hn; rewrite Hs; by_decide].
    cbn. pose proof (valid_id_nonempty _ Hv). split; [|done]. split_and!; intros E; try (discriminate E); [done|destruct E as [E|E]; discriminate E].
  - destruct Hretry as [[_ Hp]|[Hn _]]; [|exfalso; apply Hn; rewrite Hs; by_decide].
    assert (r.(w_CodexThreadID) <> "") as Ht by (apply Hthread; rewrite Hs; by_decide).
    cbn. split; [|done]. split_and!; intros E; try (discriminate E). split_and!; try done; try (intros [=]).
  - assert (r.(w_CodexThreadID) <> "") as Ht by (apply Hthread; rewrite Hs; by_decide). pose proof (valid_id_nonempty _ Hv).
    cbn. split; [|split; [intros [=]|done]]. split_and!; intros E; try (discriminate E); [destruct E as [E|E]; discriminate E|done].
  - assert (r.(w_CodexThreadID) <> "") as Ht by (apply Hthread; destruct Hs as [-> | ->]; by_decide).
    cbn. split; [|split; [intros [=]|done]]. split_and!; intros E; try (discriminate E). split_and!; try done; try (intros [=]).
  - cbn. split; [|split; [intros [=]|done]]. split_and!; intros E; try (discriminate E); [destruct E as [E|E]; discriminate E|done].
Qed.

Lemma failure_code_empty : failure_code_ok "".
Proof. reflexivity. Qed.

Lemma optional_id_empty : optional_id_ok "".
Proof. by intros H. Qed.

(** The arguments a move records are valid. *)
Lemma move_arguments r to thread detail :
  worker_dynamic r -> worker_move r to thread detail ->
  (to = WorkerPreflight -> valid_id thread) /\ (to = WorkerRunning -> valid_id detail) /\
  (to = WorkerFailed -> failure_code_ok detail).
Proof.
  intros Hd [? ? _|? ? ? Hs Hto|? ? _ Hv|? ? _|? ? _ Hv|? ? _|? ? _ _ Hc]; split_and!; intros E; try (discriminate E); try hyp;
    exfalso; destruct (retry_of_status _ Hd) as [[_ [Hp|Hp]]|[_ Hp]]; rewrite E in Hto; by rewrite Hp in Hto.
Qed.

Lemma move_worker_ok k r to thread detail revision at_ :
  worker_ok k r -> worker_move r to thread detail -> 0 < revision <= MaxInt64 -> r.(w_UpdatedAt) <= at_ ->
  worker_ok k (move_worker to thread detail revision at_ r).
Proof.
  intros [Hs Hd Hres] Hm Hr Hat. destruct (move_worker_matches r to thread detail revision at_ Hd Hres Hm) as (H1 & H2 & H3).
  destruct (move_arguments _ _ _ _ Hd Hm) as (A1 & A2 & A3).
  constructor; [by destruct Hs| |hyp]. destruct Hd as [D1 D2 D3 D4 D5 D6 D7 D8 D9 D10].
  constructor; try hyp; clear H1 H2; unfold move_worker; cbn [set_final set_lifecycle w_CodexThreadID w_Status w_ActiveTurnID
    w_LastBoundTurnID w_FailureCode w_FinalTarget w_FinalFailureCode w_CreatedAt w_UpdatedAt w_Revision].
  - destruct (decide (to = WorkerPreflight)) as [E|]; [by intros _; apply A1|hyp].
  - destruct (decide (to = WorkerRunning)) as [E|]; [by intros _; apply A2|]. case_decide; [apply optional_id_empty|hyp].
  - destruct (decide (to = WorkerRunning)) as [E|]; [by intros _; apply A2|hyp].
  - destruct (decide (to = WorkerFailed)) as [E|]; [by apply A3|apply failure_code_empty].
  - apply failure_code_empty.
  - done.
  - lia.
  - unfold MaxInt64 in Hr. lia.
Qed.

(** The struct the step returns is the row it stores: the final columns it clears were clear. *)
Lemma store_lifecycle_move to thread detail revision at_ r :
  worker_dynamic r -> r.(w_Status) <> WorkerFinalizing ->
  store_lifecycle (move_worker to thread detail revision at_ r) r = move_worker to thread detail revision at_ r.
Proof.
  intros Hd Hn. destruct (wd_final _ Hd Hn) as [H1 H2]. unfold store_lifecycle, move_worker, set_final, set_lifecycle. cbn.
  by rewrite H1, H2.
Qed.

(** ** The workers of a database *)

Definition revision_of (db : PeerDB) : Z := db.(peer_metadata).(pm_worker_revision).

Record workers_inv (db : PeerDB) : Prop := {
  wi_revision : 0 <= revision_of db <= MaxInt64;
  wi_metadata : peer_metadata_check db.(peer_metadata) = true;
  wi_rows : forall k r, db.(worker_reservations) !! k = Some r -> worker_ok k r /\ 0 < r.(w_Revision) <= revision_of db;
  wi_revisions : forall k1 k2 r1 r2, db.(worker_reservations) !! k1 = Some r1 -> db.(worker_reservations) !! k2 = Some r2 ->
    r1.(w_Revision) = r2.(w_Revision) -> k1 = k2;
  wi_threads : forall k1 k2 r1 r2, db.(worker_reservations) !! k1 = Some r1 -> db.(worker_reservations) !! k2 = Some r2 ->
    k1.1.1 = k2.1.1 -> r1.(w_CodexThreadID) = r2.(w_CodexThreadID) -> r1.(w_CodexThreadID) <> "" -> k1 = k2;
}.

(** The database after [nextWorkerRevision]. *)
Definition bump_revision (db : PeerDB) : PeerDB :=
  let m := db.(peer_metadata) in
  set_peer_metadata db {| pm_worker_revision := m.(pm_worker_revision) + 1;
    pm_last_result_inbox_retention_ordinal := m.(pm_last_result_inbox_retention_ordinal);
    pm_result_inbox_evicted := m.(pm_result_inbox_evicted) |}.

Lemma nextWorkerRevision_Ok db revision db' :
  nextWorkerRevision db = Ok (revision, db') ->
  revision = revision_of db + 1 /\ revision_of db < MaxInt64 /\ db' = bump_revision db.
Proof. unfold nextWorkerRevision. intros H. go_inv. done. Qed.

(** The counter's next value, while there is one. *)
Lemma bump_check db :
  peer_metadata_check db.(peer_metadata) = true -> peer_metadata_check (bump_revision db).(peer_metadata) = true.
Proof. unfold peer_metadata_check, bump_revision. cbn. rewrite !andb_true_iff, !Z.leb_le. intros [[? ?] ?]. split_and!; [lia|done|done]. Qed.

Lemma queryWorker_Ok key db worker :
  queryWorker key db = Ok worker <->
  exists r, db.(worker_reservations) !! key = Some r /\ worker = {| w_Key := key; w_Row := r |} /\
            WorkerReservation_Validate worker = Ok tt.
Proof.
  unfold queryWorker, scanWorker. destruct (_ !! key) as [r|]; simpl; [|naive_solver].
  rewrite do_Ok, wrap_Ok. naive_solver.
Qed.

Lemma queryWorker_inv key db : workers_inv db ->
  queryWorker key db =
    match db.(worker_reservations) !! key with Some r => Ok {| w_Key := key; w_Row := r |} | None => Err ErrNotFound end.
Proof.
  intros Hi. destruct (_ !! key) as [r|] eqn:E; [|unfold queryWorker; by rewrite E].
  apply queryWorker_Ok. exists r. split; [done|]. split; [done|]. apply WorkerReservation_Validate_Ok.
  destruct (wi_rows _ Hi _ _ E) as [[] _]. done.
Qed.

Lemma nextWorkerRevision_run db :
  workers_inv db -> revision_of db < MaxInt64 -> nextWorkerRevision db = Ok (revision_of db + 1, bump_revision db).
Proof.
  intros Hi Hlt. unfold nextWorkerRevision. rewrite decide_True by done. cbv zeta. rewrite decide_False; [done|].
  pose proof (bump_check _ (wi_metadata _ Hi)) as Hc. unfold bump_revision in Hc. cbn in Hc. by rewrite Hc.
Qed.

(** Writing one row at the next revision. *)
Lemma workers_inv_put db k r db' :
  workers_inv db -> revision_of db < MaxInt64 ->
  db'.(peer_metadata) = (bump_revision db).(peer_metadata) ->
  db'.(worker_reservations) = <[k := r]> db.(worker_reservations) ->
  worker_ok k r -> r.(w_Revision) = revision_of db + 1 -> thread_free k r db = true -> workers_inv db'.
Proof.
  intros Hi Hlt Hm Hw Hok Hrev Hfree. assert (revision_of db' = revision_of db + 1) as Hr by (unfold revision_of; by rewrite Hm).
  destruct Hi as [H1 Hmd H2 H3 H4]. unfold thread_free in Hfree. rewrite orb_true_iff, bool_decide_eq_true, none_where_true in Hfree.
  assert (forall k1 r1, db.(worker_reservations) !! k1 = Some r1 -> k1.1.1 = k.1.1 -> r1.(w_CodexThreadID) = r.(w_CodexThreadID) ->
    r.(w_CodexThreadID) <> "" -> k1 = k) as Hth.
  { intros k1 r1 E Hc Ht Hne. destruct Hfree as [?|Hf]; [done|]. apply dec_stable. intros Hk. by apply (Hf _ _ E). }
  constructor.
  - lia.
  - rewrite Hm. by apply bump_check.
  - intros k1 r1. rewrite Hw, lookup_insert_Some. intros [[<- <-]|[_ E]]; [split; [done|lia]|].
    destruct (H2 _ _ E) as [? ?]. split; [done|lia].
  - intros k1 k2 r1 r2. rewrite Hw, !lookup_insert_Some. intros [[<- <-]|[_ E1]] [[<- <-]|[_ E2]] E; [done| | |eauto].
    + destruct (H2 _ _ E2) as [_ ?]. lia.
    + destruct (H2 _ _ E1) as [_ ?]. lia.
  - intros k1 k2 r1 r2. rewrite Hw, !lookup_insert_Some. intros [[<- <-]|[_ E1]] [[<- <-]|[_ E2]] Hc E Hne; [done| | |eauto].
    + symmetry. apply (Hth _ _ E2); [done|done|hyp].
    + apply (Hth _ _ E1); [done|done|]. by rewrite <- E.
Qed.

(** One row written at the next revision. *)
Definition put_worker (key : WorkerKey) (r : WorkerRow) (db : PeerDB) : PeerDB :=
  set_worker_reservations (bump_revision db) (<[key := r]> db.(worker_reservations)).

(** A step of [transitionWorker] that changes the worker. *)
Record lifecycle_step (key : WorkerKey) (to thread detail : string) (db : PeerDB) (worker : WorkerReservation) (db' : PeerDB)
    (r : WorkerRow) : Prop := {
  ls_row : db.(worker_reservations) !! key = Some r;
  ls_resolved : requireNoUnresolvedWorkerTurnStartIntent {| w_Key := key; w_Row := r |} db = Ok tt;
  ls_move : worker_move r to thread detail;
  ls_time : exists at_, r.(w_UpdatedAt) <= at_ /\ worker.(w_Row) = move_worker to thread detail (revision_of db + 1) at_ r;
  ls_key : worker.(w_Key) = key;
  ls_bound : revision_of db < MaxInt64;
  ls_after : db' = put_worker key worker.(w_Row) db;
  ls_inv : workers_inv db';
}.

(** The UPDATE of a row that is there and meets its guard. *)
Lemma update_worker_row k guard set db n db' r :
  db.(worker_reservations) !! k = Some r -> guard r = true -> update_worker k guard set db = Ok (n, db') ->
  n = 1 /\ worker_check (set r) = true /\ thread_free k (set r) db = true /\
  db' = set_worker_reservations db (<[k := set r]> db.(worker_reservations)).
Proof.
  intros E Hg. unfold update_worker. intros H. apply result_bind_Ok in H as ([n' t] & H & [= <- <-]).
  apply sql_update_Ok in H as [(_ & _ & Hn)|(-> & r' & E' & _ & Hc & ->)]; [by rewrite (Hn _ E) in Hg|].
  rewrite E in E'. injection E' as <-. apply andb_true_iff in Hc as [? ?]. done.
Qed.

Lemma transitionWorker_effect key maxActive at_ from to thread detail db worker db' :
  workers_inv db ->
  (forall r, worker_dynamic r -> r.(w_Status) ∈ from -> ~ wrong_restore r to -> worker_move r to thread detail) ->
  transitionWorker key maxActive at_ from to thread detail db = Ok (worker, db') ->
  (db' = db /\ worker.(w_Key) = key /\ db.(worker_reservations) !! key = Some worker.(w_Row) /\ worker.(w_Row).(w_Status) = to) \/
  exists r, lifecycle_step key to thread detail db worker db' r /\
    require_start_slot to r.(w_Status) maxActive db = Ok tt.
Proof.
  intros Hi Hmove H. unfold transitionWorker in H. go_inv.
  - left. match goal with H : queryWorker _ _ = Ok _ |- _ => apply queryWorker_Ok in H as (r & E & -> & _) end.
    destruct a as [Hs _]. done.
  - right. match goal with H : queryWorker _ _ = Ok _ |- _ => apply queryWorker_Ok in H as (r & E & -> & _) end. cbn [w_Row] in *.
    destruct (wi_rows _ Hi _ _ E) as [Hok Hrev]. match goal with H : nextWorkerRevision _ = Ok _ |- _ =>
      apply nextWorkerRevision_Ok in H as (-> & Hlt & ->) end.
    assert (worker_move r to thread detail) as Hm.
    { apply Hmove; [by destruct Hok|by apply dec_stable|done]. }
    destruct (move_not_finalizing _ _ _ _ (wk_dynamic _ _ Hok) Hm) as [Hnf _].
    destruct x9 as [n9 db9]. injection H8 as <-. 
    match goal with H : update_worker _ _ _ _ = Ok _ |- _ =>
      apply (update_worker_row _ _ _ _ _ _ r) in H as (_ & _ & Hfree & ->); [|done|done] end.
    rewrite (store_lifecycle_move _ _ _ _ _ _ (wk_dynamic _ _ Hok) Hnf) in *.
    assert (worker_ok key (move_worker to thread detail (revision_of db + 1) (Z.max x0 r.(w_UpdatedAt)) r)) as Hok'.
    { pose proof (wi_revision _ Hi). apply move_worker_ok; [done|done|lia|lia]. }
    exists r. split; [|done].
    constructor; [done|done|done|exists (Z.max x0 r.(w_UpdatedAt)); split; [lia|done]|done|done|done|].
    by apply (workers_inv_put db key (move_worker to thread detail (revision_of db + 1) (Z.max x0 r.(w_UpdatedAt)) r)).
Qed.

(** The methods that are lifecycle transitions, with what each asks of [transitionWorker]. *)
Inductive transition : Tx PeerDB WorkerReservation -> WorkerKey -> Z -> string -> string -> string -> Prop :=
| transition_start key maxActive at_ : transition (BeginWorkerStart key maxActive at_) key maxActive WorkerStarting "" ""
| transition_pending key at_ : transition (RestoreWorkerPendingAfterUnsent key at_) key 0 WorkerPending "" ""
| transition_idle key at_ : transition (RestoreWorkerIdleAfterUnsent key at_) key 0 WorkerIdle "" ""
| transition_attach key thread at_ : transition (AttachWorkerThread key thread at_) key 0 WorkerPreflight thread ""
| transition_ready key at_ : transition (MarkWorkerReady key at_) key 0 WorkerReady "" ""
| transition_run key turn at_ : transition (MarkWorkerRunning key turn at_) key 0 WorkerRunning "" turn
| transition_settle key at_ : transition (MarkWorkerIdle key at_) key 0 WorkerIdle "" ""
| transition_fail key code at_ : transition (FailWorker key code at_) key 0 WorkerFailed "" code.

Lemma restore_moves r to thread detail :
  r.(w_Status) ∈ [WorkerStarting; WorkerPreflight; WorkerReady] -> to = WorkerPending \/ to = WorkerIdle ->
  ~ wrong_restore r to -> worker_move r to thread detail.
Proof.
  intros Hs Hto Hn. apply move_restore; [done|]. apply dec_stable. intros Hr. apply Hn. unfold wrong_restore.
  rewrite !elem_of_cons, elem_of_nil in Hs. tauto.
Qed.

Lemma transition_effect m key maxActive to thread detail db worker db' :
  transition m key maxActive to thread detail -> workers_inv db -> m db = Ok (worker, db') ->
  (db' = db /\ worker.(w_Key) = key /\ db.(worker_reservations) !! key = Some worker.(w_Row) /\ worker.(w_Row).(w_Status) = to) \/
  exists r, lifecycle_step key to thread detail db worker db' r /\ require_start_slot to r.(w_Status) maxActive db = Ok tt.
Proof.
  intros [k max at_|k at_|k at_|k th at_|k at_|k turn at_|k at_|k code at_] Hi H.
  - apply transitionWorker_effect in H; [exact H|done|]. intros r _ Hs _. by apply move_start.
  - apply transitionWorker_effect in H; [exact H|done|]. intros r _ Hs Hn. apply restore_moves; auto.
  - apply transitionWorker_effect in H; [exact H|done|]. intros r _ Hs Hn. apply restore_moves; auto.
  - unfold AttachWorkerThread in H. apply tx_bind_Ok in H as (u & ? & [Hv ->]%tx_lift_Ok & H). apply wrap_Ok in Hv. destruct u.
    apply transitionWorker_effect in H; [exact H|done|]. intros r _ Hs _. apply move_attach; [|done].
    by apply list_elem_of_singleton.
  - apply transitionWorker_effect in H; [exact H|done|]. intros r _ Hs _. apply move_ready. by apply list_elem_of_singleton.
  - unfold MarkWorkerRunning in H. apply tx_bind_Ok in H as (u & ? & [Hv ->]%tx_lift_Ok & H). apply wrap_Ok in Hv. destruct u.
    apply transitionWorker_effect in H; [exact H|done|]. intros r _ Hs _. apply move_run; [|done].
    by apply list_elem_of_singleton.
  - apply transitionWorker_effect in H; [exact H|done|]. intros r _ Hs Hn.
    rewrite !elem_of_cons, elem_of_nil in Hs. destruct Hs as [E|[E|[E|[]]]]; [apply move_idle; auto| |apply move_idle; auto].
    apply restore_moves; [rewrite E; by_decide|auto|done].
  - unfold FailWorker in H. apply tx_bind_Ok in H as (u & ? & [Hv ->]%tx_lift_Ok & H). destruct u.
    destruct (decide (code = "")) as [|Hne]; [by apply tx_throw_Ok in H|].
    apply transitionWorker_effect in H; [exact H|done|]. intros r _ Hs _. apply move_fail; [|done|done].
    rewrite !elem_of_cons, elem_of_nil in Hs. destruct Hs as [->|[->|[->|[->|[->|[->|[->|[]]]]]]]]; by_decide.
Qed.

(** ** Reserving a worker *)

Lemma validateNewWorkerReservation_Ok w :
  validateNewWorkerReservation w = Ok tt ->
  worker_static w.(w_Key) w.(w_Row) /\
  forall status retry revision at_, 0 <= at_ -> 0 < revision <= MaxInt64 ->
    (status = WorkerReserved /\ retry = "") \/ (status = WorkerStarting /\ retry = WorkerPending) ->
    worker_ok w.(w_Key) (reserved_row w.(w_Row) status retry revision at_).
Proof.
  unfold validateNewWorkerReservation. rewrite reject_Ok, WorkerReservation_Validate_Ok. intros (_ & Hs & _).
  assert (worker_static w.(w_Key) w.(w_Row)) as Hst by (by destruct Hs). split; [done|].
  intros status retry revision at_ Hat Hr Hc. constructor; [by destruct Hst| |].
  - constructor; cbn; try apply optional_id_empty; try apply failure_code_empty; try done; try lia.
    + destruct Hc as [[-> _]|[-> _]]; by_decide.
    + destruct Hc as [[-> ->]|[-> ->]]; split_and!; intros E; try (discriminate E); try done;
        try (destruct E as [E|E]; discriminate E). split_and!; [by left|done|done].
    + unfold MaxInt64 in Hr. lia.
  - unfold resumable. cbn. by destruct Hc as [[_ ->]|[_ ->]].
Qed.

(** ** Prepared workspaces *)

Lemma scanPreparedWorkspace_Ok key r w :
  scanPreparedWorkspace key r = Ok w <->
  json_Unmarshal_strings r.(pw_source_warnings_json) = Some w.(pw_SourceWarnings) /\
  json_Unmarshal_strings r.(pw_warnings_json) = Some w.(pw_Warnings) /\
  PreparedWorkspace_Validate w = Ok tt /\
  w = {| pw_Key := key; pw_SourceAgentID := r.(pw_source_agent_id); pw_SourceDeviceID := r.(pw_source_device_id);
         pw_TargetDeviceID := r.(pw_target_device_id); pw_GitURL := r.(pw_git_url); pw_HeadOID := r.(pw_head_oid);
         pw_ObjectFormat := r.(pw_object_format); pw_WorkingDirectory := r.(pw_working_directory);
         pw_Clean := r.(pw_source_clean); pw_SourceSnapshotHash := r.(pw_source_snapshot_hash);
         pw_WorkspacePath := r.(pw_workspace_path); pw_Strategy := r.(pw_strategy);
         pw_ManifestHash := r.(pw_manifest_hash); pw_SourceWarnings := w.(pw_SourceWarnings); pw_Warnings := w.(pw_Warnings);
         pw_Status := r.(pw_status); pw_ClaimedAgentID := r.(pw_claimed_agent_id);
         pw_CreatedAt := r.(pw_created_at); pw_UpdatedAt := r.(pw_updated_at) |}.
Proof.
  unfold scanPreparedWorkspace. destruct (json_Unmarshal_strings _) as [sw|]; [|naive_solver].
  destruct (json_Unmarshal_strings _) as [ws|]; [|naive_solver]. cbv zeta. rewrite do_Ok, wrap_Ok. split.
  - intros [Hv [= <-]]. done.
  - intros ([= ->] & [= ->] & Hv & Hw). rewrite <- Hw. done.
Qed.

(** Only the lifecycle fields decide whether a workspace with a new claim is valid. *)
Lemma prepared_validate_claim status agent created updated w :
  PreparedWorkspace_Validate w = Ok tt -> validate_claim status agent = Ok tt -> 0 <= created <= updated ->
  PreparedWorkspace_Validate (set_claim status agent created updated w) = Ok tt.
Proof.
  unfold PreparedWorkspace_Validate. rewrite !do_Ok, !reject_Ok, !do_Ok, !reject_Ok.
  intros (H1 & H2 & H3 & H4 & H5 & H6 & H7 & _) Hc Ht. cbn. split_and!; try hyp; try lia. done.
Qed.

Lemma claimed_reads_back key r w agent ts :
  scanPreparedWorkspace key r = Ok w -> valid_id agent -> r.(pw_created_at) <= ts ->
  scanPreparedWorkspace key (claim_row agent ts r) = Ok (set_claim PreparedWorkspaceClaimed agent w.(pw_CreatedAt) ts w).
Proof.
  rewrite !scanPreparedWorkspace_Ok. intros (H1 & H2 & H3 & H4) Ha Ht. split_and!; [hyp|hyp| |].
  - assert (0 <= w.(pw_CreatedAt)).
    { unfold PreparedWorkspace_Validate in H3. rewrite !do_Ok, !reject_Ok, !do_Ok, !reject_Ok in H3. lia. }
    apply prepared_validate_claim; [hyp| |rewrite H4 in *; simpl in *; lia].
    unfold validate_claim. cbn. by apply wrap_Ok.
  - rewrite H4. reflexivity.
Qed.

(** A new workspace reads back as the one that was recorded. *)
Lemma recorded_reads_back w ts :
  validateNewPreparedWorkspace w = Ok tt -> 0 <= ts ->
  scanPreparedWorkspace w.(pw_Key) (prepared_row (set_claim PreparedWorkspaceReady w.(pw_ClaimedAgentID) ts ts w) ts) =
    Ok (set_claim PreparedWorkspaceReady w.(pw_ClaimedAgentID) ts ts w).
Proof.
  unfold validateNewPreparedWorkspace. rewrite reject_Ok. intros [Hz Hv] Ht.
  assert (w.(pw_ClaimedAgentID) = "") as Hc by (apply dec_stable; tauto). rewrite Hc in *.
  assert (H := Hv). unfold PreparedWorkspace_Validate in H. rewrite !do_Ok in H. destruct H as (_ & _ & Hs & Hm & _).
  apply scanPreparedWorkspace_Ok. split_and!.
  - apply (manifest_warnings_roundtrip _ Hm).
  - apply (summary_warnings_roundtrip _ Hs).
  - change (PreparedWorkspace_Validate (set_claim PreparedWorkspaceReady "" ts ts
      (set_claim PreparedWorkspaceReady "" w.(pw_CreatedAt) w.(pw_UpdatedAt) w)) = Ok tt).
    apply prepared_validate_claim; [hyp|done|lia].
  - reflexivity.
Qed.

(** A claimed workspace belongs to the worker that claimed it, which runs in it. *)
Definition claimed_by (k : string * string * string) (r : PreparedRow) (db : PeerDB) : Prop :=
  exists w, db.(worker_reservations) !! (k.1, r.(pw_claimed_agent_id)) = Some w /\
    w.(w_WorkspaceID) = k.2 /\ w.(w_DeviceID) = r.(pw_target_device_id) /\ w.(w_WorkspacePath) = r.(pw_workspace_path) /\
    w.(w_WorkingDirectory) = r.(pw_working_directory).

Definition workspaces_inv (db : PeerDB) : Prop :=
  forall k r, db.(prepared_workspaces) !! k = Some r ->
    is_ok (scanPreparedWorkspace k r) = true /\ (r.(pw_status) = PreparedWorkspaceClaimed -> claimed_by k r db).

(** ** Operation receipts *)

Definition operations_inv (db : PeerDB) : Prop :=
  forall k r, db.(worker_operation_receipts) !! k = Some r ->
    WorkerOperationReceipt_Validate (operation_receipt k r) = Ok tt /\
    is_Some (db.(worker_reservations) !! (k.1, r.(wop_tree_id), r.(wop_agent_id))).

Lemma queryWorkerOperation_inv c op db : operations_inv db ->
  queryWorkerOperation c op db =
    match db.(worker_operation_receipts) !! (c, op) with Some r => Ok (operation_receipt (c, op) r) | None => Err ErrNotFound end.
Proof.
  intros Hi. unfold queryWorkerOperation. destruct (_ !! (c, op)) as [r|] eqn:E; [|done].
  destruct (Hi _ _ E) as [Hv _]. unfold scanWorkerOperation. by rewrite Hv.
Qed.

Lemma lower_digest_pattern s : lower_hex_pattern 64 s = true -> lower_digest s.
Proof.
  intros H. destruct (hex_decode_digest 64 s eq_refl H) as (d & Hd & _ & Hl). change (64 / 2) with 32 in Hl.
  unfold lower_digest. rewrite Hd. split; [done|]. symmetry. by apply (lower_hex_lower 64).
Qed.

Lemma pending_operation_valid op action key payload ts :
  validateWorkerOperationIdentity op action key = Ok tt -> 0 <= ts ->
  WorkerOperationReceipt_Validate (operation_receipt (key.1.1, op) (pending_worker_operation key action payload ts)) = Ok tt.
Proof.
  intros Hv Ht. unfold WorkerOperationReceipt_Validate. rewrite !do_Ok, !reject_Ok, !do_Ok, !reject_Ok. destruct key as [[c t] a].
  cbn in *. split_and!; try hyp; try done; try lia; try (intros [? _]; done); try (by intros [_ [?|?]]); try (by intros [?|?]).
  intros Hn. apply Hn, lower_digest_pattern, hex_digest_pattern.
Qed.

(** A receipt completed with a terminal outcome. *)
Lemma completed_operation_valid k r outcome code ts :
  WorkerOperationReceipt_Validate (operation_receipt k r) = Ok tt -> r.(wop_updated_at) <= ts ->
  WorkerOperationOutcome_terminal outcome = true -> failure_code_ok code -> (outcome = WorkerOutcomeFailed <-> code <> "") ->
  let status := if decide (outcome = WorkerOutcomeFailed) then WorkerOperationFailed else WorkerOperationSucceeded in
  WorkerOperationReceipt_Validate (operation_receipt k (set_operation status outcome code ts r)) = Ok tt.
Proof.
  intros Hv Ht Ho Hc Hiff status. revert Hv. unfold WorkerOperationReceipt_Validate. rewrite !do_Ok, !reject_Ok, !do_Ok, !reject_Ok.
  cbn. intros (H1 & H2 & H3 & H4 & H5 & H6 & H7 & H8 & _).
  assert (WorkerOperationOutcome_valid outcome = true) as Hov by (unfold WorkerOperationOutcome_valid; by rewrite Ho, orb_true_r).
  unfold WorkerOperationOutcome_terminal in Ho. rewrite orb_true_iff, bool_decide_eq_true in Ho.
  split_and!; try hyp; try lia; unfold status; destruct (decide (outcome = WorkerOutcomeFailed)) as [E|E];
    try (by intros [? _]); try done.
  - rewrite Hov. intros [?|?]; done.
  - rewrite Hov. intros [?|?]; done.
  - intros [_ [Hf|Hf]]; [destruct Ho; congruence|tauto].
  - intros [_ [Hf|Hf]]; [done|]. tauto.
Qed.

(** ** Turn starts *)

Definition intent_ok (k : string * string * string * string) (i : TurnIntentRow) : Prop :=
  WorkerTurnStartIntent_Validate {| ti_Key := k; ti_Row := i |} = Ok tt.

(** The bytes reserved for the turn of an intent. *)
Definition reserved_for (k : string * string * string * string) (i : TurnIntentRow) (db : PeerDB) (states : list string) : Prop :=
  exists o, db.(peer_result_outbox) !! (k.1, i.(it_package_id)) = Some o /\ o.(ob_source_device_id) = i.(it_device_id) /\
    o.(ob_reservation_limit_bytes) = i.(it_reservation_limit_bytes) /\ o.(ob_state) ∈ states.

(** The receipt of the operation that asked for the turn. *)
Definition operation_of (k : string * string * string * string) (i : TurnIntentRow) (db : PeerDB)
    (P : WorkerOperationReceipt -> Prop) : Prop :=
  i.(it_operation_id) <> "" ->
  exists o, db.(worker_operation_receipts) !! (k.1.1.1, i.(it_operation_id)) = Some o /\
    (k.1.1.1, o.(wop_tree_id), o.(wop_agent_id)) = k.1 /\ P (operation_receipt (k.1.1.1, i.(it_operation_id)) o).

(** A prepared intent can still be resolved: its worker is at the checkpoint, its bytes are
    reserved and its follow-up is pending. *)
Record prepared_ok (db : PeerDB) (k : string * string * string * string) (i : TurnIntentRow) : Prop := {
  pk_worker : exists w, db.(worker_reservations) !! k.1 = Some w /\
    validatePreparedTurnIntentWorker {| w_Key := k.1; w_Row := w |} {| ti_Key := k; ti_Row := i |} = Ok tt;
  pk_outbox : reserved_for k i db [ResultOutboxCapturePending];
  pk_operation : operation_of k i db (fun o => o.(wo_Action) = WorkerOperationFollowup /\ o.(wo_Status) = WorkerOperationPending);
}.

(** A turn its worker still holds has its bytes reserved until the result is published. *)
Definition held_by (db : PeerDB) (k : string * string * string * string) (i : TurnIntentRow) (w : WorkerRow) : Prop :=
  w.(w_ActiveTurnID) = i.(it_turn_id) ->
  (w.(w_Status) = WorkerRunning -> reserved_for k i db [ResultOutboxCapturePending]) /\
  (w.(w_Status) = WorkerFinalizing -> reserved_for k i db [ResultOutboxCapturePending; ResultOutboxPublishPending]) /\
  (w.(w_Status) ∈ [WorkerRunning; WorkerFinalizing] ->
   w.(w_CodexThreadID) = i.(it_managed_thread_id) /\ w.(w_DeviceID) = i.(it_device_id)).
Definition held_ok (db : PeerDB) (k : string * string * string * string) (i : TurnIntentRow) : Prop :=
  forall w, db.(worker_reservations) !! k.1 = Some w -> held_by db k i w.

(** A worker runs and finishes a turn only under the intent that is bound to it. *)
Definition covered (t : gmap (string * string * string * string) TurnIntentRow) (k : string * string * string) (w : WorkerRow) : Prop :=
  w.(w_Status) ∈ [WorkerRunning; WorkerFinalizing] ->
  exists iid i, t !! (k, iid) = Some i /\ i.(it_state) = WorkerTurnStartBound /\ i.(it_turn_id) = w.(w_ActiveTurnID).

Record turns_inv (db : PeerDB) : Prop := {
  tn_rows : forall k i, db.(worker_turn_start_intents) !! k = Some i -> intent_ok k i /\ is_Some (db.(worker_reservations) !! k.1);
  tn_unique : forall k1 k2 i1 i2, db.(worker_turn_start_intents) !! k1 = Some i1 -> db.(worker_turn_start_intents) !! k2 = Some i2 ->
    ~ same_intent k1 i1 (k2, i2);
  tn_prepared : forall k i, db.(worker_turn_start_intents) !! k = Some i -> i.(it_state) = WorkerTurnStartPrepared -> prepared_ok db k i;
  tn_bound : forall k i, db.(worker_turn_start_intents) !! k = Some i -> i.(it_state) = WorkerTurnStartBound -> held_ok db k i;
  tn_resolved : forall k i, db.(worker_turn_start_intents) !! k = Some i -> i.(it_state) <> WorkerTurnStartPrepared ->
    operation_of k i db (receipt_resolves i);
  tn_count : Z.of_nat (size db.(worker_turn_start_intents)) <= MaximumWorkerTurnStartIntentReceipts;
  tn_covered : forall k w, db.(worker_reservations) !! k = Some w -> covered db.(worker_turn_start_intents) k w;
}.

(** ** The outbox *)

Record outbox_inv (db : PeerDB) : Prop := {
  ox_rows : forall k r, db.(peer_result_outbox) !! k = Some r ->
    is_ok (scanResultOutbox (Some (k, r))) = true /\ is_Some (db.(worker_reservations) !! k.1);
  ox_unique : forall k1 k2 r1 r2, db.(peer_result_outbox) !! k1 = Some r1 -> db.(peer_result_outbox) !! k2 = Some r2 ->
    ~ same_outbox k1 r1 (k2, r2);
  ox_count : Z.of_nat (size db.(peer_result_outbox)) <= MaximumPeerResultPackages;
  ox_bytes : reserved_total db.(peer_result_outbox) <= MaximumPeerResultStoreBytes;
}.

Record peer_inv (db : PeerDB) : Prop := {
  pv_workers : workers_inv db;
  pv_workspaces : workspaces_inv db;
  pv_operations : operations_inv db;
  pv_turns : turns_inv db;
  pv_outbox : outbox_inv db;
}.

(** ** Queries on a sound database *)

(** A lookup that must find nothing. *)
Lemma require_absent_Ok {A} e (r : result A) :
  require_absent e r = Ok tt <-> exists err, r = Err err /\ errors_Is err ErrNotFound = true.
Proof.
  unfold require_absent. rewrite result_bind_Ok. split.
  - intros ([a|] & Ho & H); [done|]. by apply optional_Ok_None.
  - intros H. exists None. split; [by apply optional_Ok_None|done].
Qed.

Section IntentQueries.
Context (db : PeerDB) (Hi : turns_inv db) (P : (string * string * string * string) * TurnIntentRow -> Prop)
  `{!forall x, Decision (P x)}.

Lemma scan_intent_inv :
  scanWorkerTurnStartIntent (select_row P db.(worker_turn_start_intents)) =
    match select_row P db.(worker_turn_start_intents) with
    | Some (k, i) => Ok {| ti_Key := k; ti_Row := i |}
    | None => Err ErrNotFound
    end.
Proof.
  destruct (select_row P _) as [[k i]|] eqn:E; [|done]. apply select_row_Some in E as [E _].
  destruct (tn_rows _ Hi _ _ E) as [Hv _]. simpl. unfold intent_ok in Hv. by rewrite Hv.
Qed.

Lemma scan_intent_Ok intent :
  scanWorkerTurnStartIntent (select_row P db.(worker_turn_start_intents)) = Ok intent ->
  db.(worker_turn_start_intents) !! intent.(ti_Key) = Some intent.(ti_Row) /\ P (intent.(ti_Key), intent.(ti_Row)).
Proof.
  rewrite scan_intent_inv. destruct (select_row P _) as [[k i]|] eqn:E; [|done]. intros [= <-].
  by apply select_row_Some in E.
Qed.

Lemma absent_intent e :
  require_absent e (scanWorkerTurnStartIntent (select_row P db.(worker_turn_start_intents))) = Ok tt <->
  forall k i, db.(worker_turn_start_intents) !! k = Some i -> ~ P (k, i).
Proof.
  rewrite require_absent_Ok, scan_intent_inv. rewrite <- (select_row_None P).
  destruct (select_row P _) as [[k i]|]; [split; [by intros (? & ? & _)|done]|]. split; [done|intros _]. by eexists.
Qed.

Lemma optional_intent x :
  optional (scanWorkerTurnStartIntent (select_row P db.(worker_turn_start_intents))) = Ok x <->
  x = (fun '(k, i) => {| ti_Key := k; ti_Row := i |}) <$> select_row P db.(worker_turn_start_intents).
Proof. rewrite scan_intent_inv. destruct (select_row P _) as [[k i]|]; naive_solver. Qed.
End IntentQueries.

Section OutboxQueries.
Context (db : PeerDB) (Hi : outbox_inv db) (P : (string * string * string * string) * OutboxRow -> Prop)
  `{!forall x, Decision (P x)}.

Lemma scan_outbox_found :
  match select_row P db.(peer_result_outbox) with
  | Some (k, r) => exists o, scanResultOutbox (select_row P db.(peer_result_outbox)) = Ok o /\ scanResultOutbox (Some (k, r)) = Ok o
  | None => scanResultOutbox (select_row P db.(peer_result_outbox)) = Err ErrNotFound
  end.
Proof.
  destruct (select_row P _) as [[k r]|] eqn:E; [|done]. apply select_row_Some in E as [E _].
  destruct (ox_rows _ Hi _ _ E) as [Hv _]. apply is_ok_true in Hv as [o Ho]. exists o. done.
Qed.

Lemma scan_outbox_Ok o :
  scanResultOutbox (select_row P db.(peer_result_outbox)) = Ok o ->
  exists k r, db.(peer_result_outbox) !! k = Some r /\ P (k, r) /\ scanResultOutbox (Some (k, r)) = Ok o.
Proof.
  pose proof scan_outbox_found as Hf. destruct (select_row P _) as [[k r]|] eqn:E; [|by rewrite Hf].
  intros Ho. apply select_row_Some in E as [E HP]. exists k, r. done.
Qed.

Lemma absent_outbox e :
  require_absent e (scanResultOutbox (select_row P db.(peer_result_outbox))) = Ok tt <->
  forall k r, db.(peer_result_outbox) !! k = Some r -> ~ P (k, r).
Proof.
  rewrite require_absent_Ok, <- (select_row_None P). pose proof scan_outbox_found as Hf.
  destruct (select_row P _) as [[k r]|]; [|rewrite Hf; split; [done|intros _; by eexists]].
  destruct Hf as (o & -> & _). split; [by intros (? & ? & _)|done].
Qed.
End OutboxQueries.
