(* ===== verification/PeerSteps.v ===== *)
(** Every operation of a peer keeps its invariant and its history: the steps of the
    database, the states they reach and what holds in all of them. *)

From S2P Require Export PeerState.

(** ** What never changes *)

(** The fields of a reservation no lifecycle step writes. *)
Definition worker_identity (r : WorkerRow) :=
  (r.(w_ParentAgentID), r.(w_DeviceID), r.(w_TaskName), r.(w_PromptDigest), r.(w_WorkspaceID), r.(w_WorkspacePath),
   r.(w_WorkingDirectory), r.(w_ProfileVersion), r.(w_CreatedAt)).

Record worker_history (r r' : WorkerRow) : Prop := {
  wy_identity : worker_identity r' = worker_identity r;
  wy_failed : r.(w_Status) = WorkerFailed -> r' = r;
}.

Definition operation_identity (r : WorkerOperationRow) :=
  (r.(wop_tree_id), r.(wop_agent_id), r.(wop_action), r.(wop_payload_digest), r.(wop_created_at)).

(** A finished receipt is never written again. *)
Definition receipt_history (r r' : WorkerOperationRow) : Prop :=
  operation_identity r' = operation_identity r /\ (r.(wop_status) <> WorkerOperationPending -> r' = r).

(** A workspace changes once, when it is claimed. *)
Definition workspace_history (r r' : PreparedRow) : Prop :=
  r' = r \/ (r.(pw_status) <> PreparedWorkspaceClaimed /\ exists agent ts, r' = claim_row agent ts r).

(** The tables of the captured changes and of the inbox, which the workers do not touch. *)
Definition other_tables (db : PeerDB) :=
  (db.(peer_changes_artifacts), db.(peer_result_inbox), db.(peer_result_inbox_parts), db.(peer_result_inbox_chunks),
   db.(peer_result_inbox_attempt_receipts), db.(peer_metadata).(pm_last_result_inbox_retention_ordinal),
   db.(peer_metadata).(pm_result_inbox_evicted)).

Record peer_history (db db' : PeerDB) : Prop := {
  ph_revision : revision_of db <= revision_of db';
  ph_workers : forall k r, db.(worker_reservations) !! k = Some r ->
    exists r', db'.(worker_reservations) !! k = Some r' /\ worker_history r r';
  ph_changed : forall k r', db'.(worker_reservations) !! k = Some r' ->
    db.(worker_reservations) !! k = Some r' \/ revision_of db < r'.(w_Revision);
  ph_operations : forall k r, db.(worker_operation_receipts) !! k = Some r ->
    exists r', db'.(worker_operation_receipts) !! k = Some r' /\ receipt_history r r';
  ph_workspaces : forall k r, db.(prepared_workspaces) !! k = Some r ->
    exists r', db'.(prepared_workspaces) !! k = Some r' /\ workspace_history r r';
  ph_other : other_tables db' = other_tables db;
}.

#[global] Instance worker_history_refl : Reflexive worker_history.
Proof. by intros r. Qed.
#[global] Instance worker_history_trans : Transitive worker_history.
Proof. intros a b c [A1 A2] [B1 B2]. constructor; [congruence|]. intros Hf. rewrite B2; [auto|]. by rewrite A2. Qed.

#[global] Instance receipt_history_refl : Reflexive receipt_history.
Proof. by intros r. Qed.
#[global] Instance receipt_history_trans : Transitive receipt_history.
Proof. intros a b c [A1 A2] [B1 B2]. split; [congruence|]. intros Hp. rewrite B2; [auto|]. by rewrite A2. Qed.

#[global] Instance workspace_history_refl : Reflexive workspace_history.
Proof. intros r. by left. Qed.
#[global] Instance workspace_history_trans : Transitive workspace_history.
Proof. intros a b c [->|(Hn & ag & ts & ->)] H; [done|]. destruct H as [->|(Hc & _)]; [right; eauto|by destruct Hc]. Qed.

(** Rows that stay, related. *)
Lemma rows_trans {K R} `{Countable K} (P : relation R) `{!Transitive P} (t1 t2 t3 : gmap K R) :
  (forall k r, t1 !! k = Some r -> exists r', t2 !! k = Some r' /\ P r r') ->
  (forall k r, t2 !! k = Some r -> exists r', t3 !! k = Some r' /\ P r r') ->
  forall k r, t1 !! k = Some r -> exists r', t3 !! k = Some r' /\ P r r'.
Proof.
  intros H1 H2 k r E. destruct (H1 _ _ E) as (r1 & E1 & P1). destruct (H2 _ _ E1) as (r2 & E2 & P2). exists r2. split; [done|by etrans].
Qed.

#[global] Instance peer_history_refl : Reflexive peer_history.
Proof. intros db. constructor; [lia| |auto| | |done]; intros k r E; by exists r. Qed.

#[global] Instance peer_history_trans : Transitive peer_history.
Proof.
  intros a b c [A1 A2 A3 A4 A5 A6] [B1 B2 B3 B4 B5 B6]. constructor; [lia| | | | |congruence].
  - by eapply (rows_trans worker_history).
  - intros k r E. destruct (B3 _ _ E) as [E1|Hlt]; [|right; lia]. auto.
  - by eapply (rows_trans receipt_history).
  - by eapply (rows_trans workspace_history).
Qed.

(** ** Frames *)

(** The workers of [db] are workers of [db'], with the same identity. *)
Definition workers_kept (db db' : PeerDB) : Prop :=
  forall k r, db.(worker_reservations) !! k = Some r ->
    exists r', db'.(worker_reservations) !! k = Some r' /\ worker_identity r' = worker_identity r.

Lemma workers_kept_put db db' k r r' :
  db.(worker_reservations) !! k = Some r -> worker_identity r' = worker_identity r ->
  db'.(worker_reservations) = <[k := r']> db.(worker_reservations) -> workers_kept db db'.
Proof.
  intros E Hid Hw k1 r1 E1. rewrite Hw. destruct (decide (k1 = k)) as [->|Hn].
  - rewrite lookup_insert_eq. exists r'. split; [done|]. congruence.
  - rewrite lookup_insert_ne by done. eauto.
Qed.

Lemma workers_kept_same db db' : db'.(worker_reservations) = db.(worker_reservations) -> workers_kept db db'.
Proof. intros E k r Hk. rewrite E. eauto. Qed.

Lemma workspaces_inv_kept db db' :
  db'.(prepared_workspaces) = db.(prepared_workspaces) -> workers_kept db db' -> workspaces_inv db -> workspaces_inv db'.
Proof.
  intros Ew Hk Hi k r E. rewrite Ew in E. destruct (Hi _ _ E) as [Hok Hc]. split; [done|]. intros Hst.
  destruct (Hc Hst) as (w & Hw & H1 & H2 & H3 & H4). destruct (Hk _ _ Hw) as (w' & Hw' & Hid). exists w'.
  unfold worker_identity in Hid. split; [done|]. split_and!; congruence.
Qed.

Lemma operations_inv_kept db db' :
  db'.(worker_operation_receipts) = db.(worker_operation_receipts) -> workers_kept db db' -> operations_inv db -> operations_inv db'.
Proof.
  intros Eo Hk Hi k r E. rewrite Eo in E. destruct (Hi _ _ E) as [Hv [w Hw]]. split; [done|].
  destruct (Hk _ _ Hw) as (w' & Hw' & _). eauto.
Qed.

Lemma outbox_inv_kept db db' :
  db'.(peer_result_outbox) = db.(peer_result_outbox) -> workers_kept db db' -> outbox_inv db -> outbox_inv db'.
Proof.
  intros Eo Hk [H1 H2 H3 H4]. constructor; rewrite Eo; [|exact H2|exact H3|exact H4].
  intros k r E. destruct (H1 _ _ E) as [Hv [w Hw]]. split; [done|]. destruct (Hk _ _ Hw) as (w' & Hw' & _). eauto.
Qed.

Lemma workers_inv_same db db' :
  db'.(worker_reservations) = db.(worker_reservations) -> db'.(peer_metadata) = db.(peer_metadata) -> workers_inv db -> workers_inv db'.
Proof. intros Ew Em [H1 Hm H2 H3 H4]. constructor; unfold revision_of in *; rewrite ?Ew, ?Em; done. Qed.

Lemma reserved_for_same k i db db' states :
  db'.(peer_result_outbox) = db.(peer_result_outbox) -> reserved_for k i db states -> reserved_for k i db' states.
Proof. intros E. unfold reserved_for. by rewrite E. Qed.

(** Writing the row of one worker when no intent of it is prepared. *)
Lemma turns_inv_worker db db' key r' :
  turns_inv db ->
  db'.(worker_turn_start_intents) = db.(worker_turn_start_intents) -> db'.(peer_result_outbox) = db.(peer_result_outbox) ->
  db'.(worker_operation_receipts) = db.(worker_operation_receipts) ->
  db'.(worker_reservations) = <[key := r']> db.(worker_reservations) ->
  (forall k i, db.(worker_turn_start_intents) !! k = Some i -> k.1 = key -> i.(it_state) <> WorkerTurnStartPrepared) ->
  (forall k i, db.(worker_turn_start_intents) !! k = Some i -> k.1 = key -> i.(it_state) = WorkerTurnStartBound -> held_by db k i r') ->
  covered db.(worker_turn_start_intents) key r' ->
  turns_inv db'.
Proof.
  intros [H1 H2 H3 H4 H5 H6 H7] Ei Eo Ep Ew Hnp Hh Hcov. constructor; rewrite ?Ei; try done.
  - intros k i E. destruct (H1 _ _ E) as [Hv Hw]. split; [done|]. rewrite Ew. destruct (decide (k.1 = key)) as [->|Hn].
    + by rewrite lookup_insert_eq.
    + by rewrite lookup_insert_ne.
  - intros k i E Hst. destruct (decide (k.1 = key)) as [Hk|Hn]; [by destruct (Hnp _ _ E Hk)|].
    destruct (H3 _ _ E Hst) as [(w & Hw & Hv) Ho Hop]. constructor.
    + exists w. rewrite Ew, lookup_insert_ne by done. done.
    + by apply (reserved_for_same _ _ db).
    + unfold operation_of in *. by rewrite Ep.
  - intros k i E Hst w. rewrite Ew. destruct (decide (k.1 = key)) as [Hk|Hn].
    + rewrite Hk, lookup_insert_eq. intros [= <-]. intros Ha. destruct (Hh _ _ E Hk Hst Ha) as (X1 & X2 & X3).
      split_and!; [intros; by apply (reserved_for_same _ _ db), X1|intros; by apply (reserved_for_same _ _ db), X2|exact X3].
    + rewrite lookup_insert_ne by done. intros Hw Ha. destruct (H4 _ _ E Hst _ Hw Ha) as (X1 & X2 & X3).
      split_and!; [intros; by apply (reserved_for_same _ _ db), X1|intros; by apply (reserved_for_same _ _ db), X2|exact X3].
  - intros k i E Hst Hne. destruct (H5 _ _ E Hst Hne) as (o & Ho & Hx). exists o. by rewrite Ep.
  - intros k w. rewrite Ew, lookup_insert_Some. intros [[<- <-]|[_ E]]; [done|by apply H7].
Qed.

Lemma turns_inv_same db db' :
  turns_inv db -> db'.(worker_turn_start_intents) = db.(worker_turn_start_intents) ->
  db'.(peer_result_outbox) = db.(peer_result_outbox) -> db'.(worker_operation_receipts) = db.(worker_operation_receipts) ->
  db'.(worker_reservations) = db.(worker_reservations) -> turns_inv db'.
Proof.
  intros [H1 H2 H3 H4 H5 H6 H7] Ei Eo Ep Ew. constructor; rewrite ?Ei; try done.
  - intros k i E. rewrite Ew. by apply H1.
  - intros k i E Hst. destruct (H3 _ _ E Hst) as [Hw Ho Hop]. constructor;
      [by rewrite Ew|by apply (reserved_for_same _ _ db)|unfold operation_of in *; by rewrite Ep].
  - intros k i E Hst w. rewrite Ew. intros Hw Ha. destruct (H4 _ _ E Hst _ Hw Ha) as (X1 & X2 & X3).
    split_and!; [intros; by apply (reserved_for_same _ _ db), X1|intros; by apply (reserved_for_same _ _ db), X2|exact X3].
  - intros k i E Hst Hne. destruct (H5 _ _ E Hst Hne) as (o & Ho & Hx). exists o. by rewrite Ep.
  - intros k w. rewrite Ew. apply H7.
Qed.

(** ** Worker steps *)

(** An existing worker written at the next revision, and nothing else. *)
Lemma put_worker_keeps key r r' db :
  peer_inv db -> db.(worker_reservations) !! key = Some r -> worker_identity r' = worker_identity r ->
  r.(w_Status) <> WorkerFailed -> r'.(w_Revision) = revision_of db + 1 -> workers_inv (put_worker key r' db) ->
  (forall k i, db.(worker_turn_start_intents) !! k = Some i -> k.1 = key -> i.(it_state) <> WorkerTurnStartPrepared) ->
  (forall k i, db.(worker_turn_start_intents) !! k = Some i -> k.1 = key -> i.(it_state) = WorkerTurnStartBound -> held_by db k i r') ->
  covered db.(worker_turn_start_intents) key r' ->
  peer_inv (put_worker key r' db) /\ peer_history db (put_worker key r' db).
Proof.
  intros [I1 I2 I3 I4 I5] E Hid Hnf Hrev Hw Hnp Hh Hcov.
  assert (workers_kept db (put_worker key r' db)) as Hk by (by apply (workers_kept_put _ _ key r r')).
  split; constructor.
  - done.
  - by apply (workspaces_inv_kept db).
  - by apply (operations_inv_kept db).
  - by apply (turns_inv_worker db _ key r').
  - by apply (outbox_inv_kept db).
  - unfold revision_of. simpl. lia.
  - intros k r0 E0. simpl. destruct (decide (k = key)) as [->|Hn].
    + rewrite lookup_insert_eq. exists r'. split; [done|]. rewrite E in E0. injection E0 as <-. by constructor.
    + rewrite lookup_insert_ne by done. eauto using worker_history_refl.
  - intros k r0. simpl. rewrite lookup_insert_Some. intros [[<- <-]|[_ E0]]; [right; lia|by left].
  - intros k r0 E0. exists r0. done.
  - intros k r0 E0. exists r0. split; [done|by left].
  - done.
Qed.

Lemma move_worker_identity to thread detail revision at_ r :
  worker_identity (move_worker to thread detail revision at_ r) = worker_identity r.
Proof. reflexivity. Qed.

(** [requireNoUnresolvedWorkerTurnStartIntent] on a sound database. *)
Lemma no_unresolved_intent key r db : peer_inv db ->
  requireNoUnresolvedWorkerTurnStartIntent {| w_Key := key; w_Row := r |} db = Ok tt ->
  forall k i, db.(worker_turn_start_intents) !! k = Some i -> k.1 = key ->
    i.(it_state) <> WorkerTurnStartPrepared /\ (r.(w_ActiveTurnID) <> "" -> i.(it_turn_id) <> r.(w_ActiveTurnID)).
Proof.
  intros Hi H k i E Hk. unfold requireNoUnresolvedWorkerTurnStartIntent in H. rewrite do_Ok in H. destruct H as [H1 H2].
  unfold queryPreparedWorkerTurnStartIntent in H1. rewrite (absent_intent db (pv_turns _ Hi)) in H1. cbn [w_Key w_Row] in *.
  split; [intros Hp; by apply (H1 _ _ E)|]. intros Ha. rewrite decide_False in H2 by done.
  unfold queryWorkerTurnStartIntentByTurn in H2. rewrite (absent_intent db (pv_turns _ Hi)) in H2. intros Ht. by apply (H2 _ _ E).
Qed.

Lemma move_target r to thread detail : worker_dynamic r -> worker_move r to thread detail -> to <> WorkerFinalizing.
Proof.
  intros Hd [? ? _|? ? ? _ <-|? ? _ _|? ? _|? ? _ _|? ? _|? ? _ _ _]; try done.
  by destruct (retry_of_status _ Hd) as [[_ [-> | ->]]|[_ ->]].
Qed.

(** Only a turn start makes a worker run. *)
Lemma transition_keeps m key maxActive to thread detail db worker db' :
  transition m key maxActive to thread detail -> to <> WorkerRunning -> peer_inv db -> m db = Ok (worker, db') ->
  peer_inv db' /\ peer_history db db'.
Proof.
  intros Ht Hne Hi H. apply (transition_effect _ _ _ _ _ _ _ _ _ Ht) in H; [|apply Hi].
  destruct H as [(-> & _)|(r & [E Hres Hm (at_ & Hat & Hrow) Hkey Hlt -> Hw] & _)]; [by split|].
  destruct (wi_rows _ (pv_workers _ Hi) _ _ E) as [Hok _].
  destruct (move_not_finalizing _ _ _ _ (wk_dynamic _ _ Hok) Hm) as [_ Hnf].
  pose proof (no_unresolved_intent _ _ _ Hi Hres) as Hno. rewrite Hrow in *.
  assert (to ∉ [WorkerRunning; WorkerFinalizing]) as Hto.
  { rewrite !elem_of_cons, elem_of_nil. pose proof (move_target _ _ _ _ (wk_dynamic _ _ Hok) Hm). tauto. }
  apply (put_worker_keeps key r); try done; [intros k i Ek Hk; by apply (Hno k i)| |by intros ?].
  intros k i Ek Hk Hb Ha. rewrite !not_elem_of_cons in Hto. unfold move_worker. cbn. split_and!; [tauto|tauto|].
  rewrite !elem_of_cons, elem_of_nil. tauto.
Qed.

(** ** Reserving *)

Lemma queryPreparedWorkspace_Ok key db w :
  queryPreparedWorkspace key db = Ok w ->
  exists r, db.(prepared_workspaces) !! key = Some r /\ scanPreparedWorkspace key r = Ok w.
Proof.
  unfold queryPreparedWorkspace. rewrite do_Ok. intros [_ H]. destruct (_ !! key) as [r|]; [eauto|done].
Qed.

(** The workspace a claim finds is the one the reservation describes; a workspace that was
    not claimed becomes the agent's. *)
Lemma claim_workspace_Ok c t a row ts db u db' :
  claim_workspace {| w_Key := (c, t, a); w_Row := row |} ts db = Ok (u, db') ->
  exists r w, db.(prepared_workspaces) !! (c, t, row.(w_WorkspaceID)) = Some r /\
    scanPreparedWorkspace (c, t, row.(w_WorkspaceID)) r = Ok w /\
    r.(pw_target_device_id) = row.(w_DeviceID) /\ r.(pw_workspace_path) = row.(w_WorkspacePath) /\
    r.(pw_working_directory) = row.(w_WorkingDirectory) /\
    ((r.(pw_status) = PreparedWorkspaceClaimed /\ r.(pw_claimed_agent_id) = a /\ db' = db) \/
     (r.(pw_status) = PreparedWorkspaceReady /\ r.(pw_created_at) <= ts /\
      db' = set_prepared_workspaces db (<[(c, t, row.(w_WorkspaceID)) := claim_row a ts r]> db.(prepared_workspaces)))).
Proof.
  unfold claim_workspace. cbn [w_Key w_Row]. intros H. apply tx_bind_Ok in H as (w & ? & [Hw ->]%tx_query_Ok & H).
  apply queryPreparedWorkspace_Ok in Hw as (r & E & Hscan). destruct (decide _) as [|Hm]; [by apply tx_throw_Ok in H|].
  assert (Hs := Hscan). apply scanPreparedWorkspace_Ok in Hs as (_ & _ & _ & Hs).
  assert (w.(pw_TargetDeviceID) = r.(pw_target_device_id) /\ w.(pw_WorkspacePath) = r.(pw_workspace_path) /\
    w.(pw_WorkingDirectory) = r.(pw_working_directory) /\ w.(pw_Status) = r.(pw_status) /\
    w.(pw_ClaimedAgentID) = r.(pw_claimed_agent_id)) as (F1 & F2 & F3 & F4 & F5) by (rewrite Hs; done).
  rewrite F1, F2, F3 in Hm. rewrite F4, F5 in H. exists r, w. split_and!; [done|done|apply dec_stable; tauto..|].
  destruct (decide (r.(pw_status) = PreparedWorkspaceClaimed)) as [Hc|Hc].
  - left. go_inv. split_and!; [done|by apply dec_stable|done].
  - right. destruct (decide (r.(pw_status) = PreparedWorkspaceReady)) as [Hp|Hp]; [|by apply tx_throw_Ok in H].
    apply tx_exec_Ok, wrap_Ok, result_bind_Ok in H as ([n tb] & H & [= <-]).
    apply sql_update_Ok in H as [(_ & _ & Hn)|(_ & r' & E' & _ & Hck & ->)].
    { specialize (Hn _ E). by rewrite bool_decide_true in Hn. }
    rewrite E in E'. injection E' as <-. split; [done|]. split; [|done].
    unfold prepared_check in Hck. rewrite !andb_true_iff, !Z.leb_le in Hck. cbn in Hck. lia.
Qed.

(** The first row of a reservation. *)
Definition initial_row (row : WorkerRow) (initial : string) (revision ts : Z) : WorkerRow :=
  reserved_row row initial (if decide (initial = WorkerStarting) then WorkerPending else "") revision ts.

Lemma reserveWorker_effect w maxActive at_ initial claim db w' db' :
  reserveWorker w maxActive at_ initial claim db = Ok (w', db') ->
  (db' = db /\ queryWorker w.(w_Key) db = Ok w' /\ sameWorkerReservation w' w /\ w'.(w_Row).(w_Status) = initial) \/
  exists dbc, validateNewWorkerReservation w = Ok tt /\ (initial = WorkerReserved \/ initial = WorkerStarting) /\ 0 <= at_ /\
    (exists err, queryWorker w.(w_Key) db = Err err /\ errors_Is err ErrNotFound = true) /\
    count occupied db.(worker_reservations) < maxActive /\
    (if claim then claim_workspace w at_ db = Ok (tt, dbc) else dbc = db) /\
    revision_of dbc < MaxInt64 /\ w' = {| w_Key := w.(w_Key); w_Row := initial_row w.(w_Row) initial (revision_of dbc + 1) at_ |} /\
    insert_worker w.(w_Key) w'.(w_Row) (bump_revision dbc) = Ok db'.
Proof.
  unfold reserveWorker. intros H. apply tx_bind_Ok in H as ([] & ? & [Hv ->]%tx_lift_Ok & H).
  destruct (decide _) as [|Hini]; [by apply tx_throw_Ok in H|]. destruct (decide (maxActive < 1)) as [|Hmax]; [by apply tx_throw_Ok in H|].
  apply tx_bind_Ok in H as (ts & ? & [Hts ->]%tx_lift_Ok & H). apply tx_bind_Ok in H as (stored & ? & [Hq ->]%tx_query_Ok & H).
  assert (ts = at_ /\ 0 <= at_) as [-> Hat] by (unfold unixTime in Hts; go_inv; lia).
  assert (initial = WorkerReserved \/ initial = WorkerStarting) as Hini'.
  { destruct (decide (initial = WorkerReserved)); [by left|right]. apply dec_stable. tauto. }
  destruct stored as [stored|].
  - left. apply optional_Ok_Some in Hq. go_inv. split_and!; [done|done|by apply dec_stable|done].
  - right. apply optional_Ok_None in Hq. apply tx_bind_Ok in H as ([] & ? & [Hslot ->]%tx_query_Ok & H).
    apply tx_bind_Ok in H as ([] & dbc & Hc & H). apply tx_bind_Ok in H as (rev & ? & Hrev & H).
    apply nextWorkerRevision_Ok in Hrev as (-> & Hlt & ->). apply tx_bind_Ok in H as ([] & ? & Hins & H). go_inv.
    unfold requireWorkerSlot in Hslot. exists dbc. split_and!; try done.
    + go_inv. lia.
    + by destruct claim; [|go_inv].
Qed.

Lemma queryWorker_absent key db : workers_inv db ->
  (exists err, queryWorker key db = Err err /\ errors_Is err ErrNotFound = true) -> db.(worker_reservations) !! key = None.
Proof. intros Hi (err & H & _). rewrite queryWorker_inv in H by done. by destruct (_ !! key). Qed.

(** A new worker, at the next revision. *)
Lemma new_worker_keeps key r db :
  peer_inv db -> db.(worker_reservations) !! key = None -> worker_ok key r -> r.(w_Revision) = revision_of db + 1 ->
  revision_of db < MaxInt64 -> r.(w_CodexThreadID) = "" -> r.(w_Status) ∉ [WorkerRunning; WorkerFinalizing] ->
  peer_inv (put_worker key r db) /\ peer_history db (put_worker key r db).
Proof.
  intros [I1 I2 I3 I4 I5] E Hok Hrev Hlt Hth Hnew.
  assert (forall k r0, db.(worker_reservations) !! k = Some r0 -> (put_worker key r db).(worker_reservations) !! k = Some r0) as Hold.
  { intros k r0 Hk. simpl. rewrite lookup_insert_ne; [done|]. intros ->. by rewrite E in Hk. }
  assert (workers_kept db (put_worker key r db)) as Hk by (intros k r0 E0; exists r0; auto).
  split; constructor.
  - apply (workers_inv_put db key r); try done. unfold thread_free. by rewrite bool_decide_true.
  - by apply (workspaces_inv_kept db).
  - by apply (operations_inv_kept db).
  - apply (turns_inv_worker db _ key r); try done.
    + intros k i Ei <-. destruct (tn_rows _ I4 _ _ Ei) as [_ [w Hw]]. congruence.
    + intros k i Ei <-. destruct (tn_rows _ I4 _ _ Ei) as [_ [w Hw]]. congruence.
    + by intros ?.
  - by apply (outbox_inv_kept db).
  - unfold revision_of. simpl. lia.
  - intros k r0 E0. eauto using worker_history_refl.
  - intros k r0. simpl. rewrite lookup_insert_Some. intros [[<- <-]|[_ E0]]; [right; lia|by left].
  - intros k r0 E0. exists r0. done.
  - intros k r0 E0. exists r0. split; [done|by left].
  - done.
Qed.

(** A database that differs in its workspaces and readiness only. *)
Lemma peer_inv_workspaces db db' :
  peer_inv db -> db'.(peer_metadata) = db.(peer_metadata) -> db'.(worker_reservations) = db.(worker_reservations) ->
  db'.(worker_operation_receipts) = db.(worker_operation_receipts) ->
  db'.(worker_turn_start_intents) = db.(worker_turn_start_intents) -> db'.(peer_result_outbox) = db.(peer_result_outbox) ->
  workspaces_inv db' -> peer_inv db'.
Proof.
  intros [I1 I2 I3 I4 I5] Em Ew Eo Ei Ex Hws. constructor; [by apply (workers_inv_same db)|done| | |].
  - apply (operations_inv_kept db); [done|by apply workers_kept_same|done].
  - by apply (turns_inv_same db).
  - apply (outbox_inv_kept db); [done|by apply workers_kept_same|done].
Qed.

Lemma peer_history_workspaces db db' :
  db'.(peer_metadata) = db.(peer_metadata) -> db'.(worker_reservations) = db.(worker_reservations) ->
  db'.(worker_operation_receipts) = db.(worker_operation_receipts) ->
  (forall k r, db.(prepared_workspaces) !! k = Some r ->
     exists r', db'.(prepared_workspaces) !! k = Some r' /\ workspace_history r r') ->
  other_tables db' = other_tables db -> peer_history db db'.
Proof.
  intros Em Ew Eo Hp Hot. constructor; unfold revision_of; rewrite ?Em, ?Ew, ?Eo; [lia|eauto using worker_history_refl|auto| |done|done].
  intros k r E. exists r. done.
Qed.

Lemma claim_keeps db k r w agent ts :
  peer_inv db -> db.(prepared_workspaces) !! k = Some r -> scanPreparedWorkspace k r = Ok w ->
  r.(pw_status) = PreparedWorkspaceReady -> r.(pw_created_at) <= ts -> valid_id agent ->
  claimed_by k (claim_row agent ts r) db ->
  let db' := set_prepared_workspaces db (<[k := claim_row agent ts r]> db.(prepared_workspaces)) in
  peer_inv db' /\ peer_history db db'.
Proof.
  intros Hi E Hs Hst Hts Ha Hc db'. split.
  - apply (peer_inv_workspaces db); try done. intros k1 r1. simpl. rewrite lookup_insert_Some. intros [[<- <-]|[_ E1]].
    + split; [|done]. by rewrite (claimed_reads_back _ _ _ _ _ Hs Ha Hts).
    + by apply (pv_workspaces _ Hi).
  - apply peer_history_workspaces; try done. intros k1 r1 E1. simpl. destruct (decide (k1 = k)) as [->|Hn].
    + rewrite lookup_insert_eq. eexists. split; [done|]. right. rewrite E in E1. injection E1 as <-. split; [by rewrite Hst|eauto].
    + rewrite lookup_insert_ne by done. exists r1. split; [done|by left].
Qed.

Lemma reserveWorker_keeps w maxActive at_ initial claim db w' db' :
  peer_inv db -> reserveWorker w maxActive at_ initial claim db = Ok (w', db') -> peer_inv db' /\ peer_history db db'.
Proof.
  intros Hi H. apply reserveWorker_effect in H as [(-> & _)|(dbc & Hv & Hini & Hat & Hq & _ & Hc & Hlt & -> & Hins)]; [by split|].
  apply (queryWorker_absent _ _ (pv_workers _ Hi)) in Hq. destruct (validateNewWorkerReservation_Ok _ Hv) as [Hst Hnew].
  pose proof (wi_revision _ (pv_workers _ Hi)) as Hrev. cbn [w_Row] in Hins.
  assert (forall dbx, revision_of dbx = revision_of db -> worker_ok w.(w_Key) (initial_row w.(w_Row) initial (revision_of dbx + 1) at_) /\
    revision_of db < MaxInt64 -> peer_inv (put_worker w.(w_Key) (initial_row w.(w_Row) initial (revision_of dbx + 1) at_) db) /\
    peer_history db (put_worker w.(w_Key) (initial_row w.(w_Row) initial (revision_of dbx + 1) at_) db)) as Hput.
  { intros dbx Hr [Hok Hl]. apply new_worker_keeps; try done; [simpl; by rewrite Hr|]. cbn. destruct Hini as [-> | ->]; by_decide. }
  assert (revision_of dbc = revision_of db /\ dbc.(worker_reservations) = db.(worker_reservations)) as [Hrc Hwc].
  { destruct claim; [|by subst]. destruct w as [[[c t] a] row]. apply claim_workspace_Ok in Hc as (r & x & _ & _ & _ & _ & _ & [(_ & _ & ->)|(_ & _ & ->)]); done. }
  destruct (Hput dbc Hrc) as [Hi1 Hh1].
  { split; [|lia]. apply Hnew; [done|lia|]. destruct Hini as [-> | ->]; [left|right]; done. }
  unfold insert_worker in Hins. apply result_bind_Ok in Hins as (tb & Hins & [= <-]). apply sql_insert_Ok in Hins as (_ & _ & ->).
  destruct claim; [|subst dbc; done]. destruct w as [[[c t] a] row]. cbn [w_Key w_Row] in *.
  assert (Ha : valid_id a). { destruct Hst as [Hk]. unfold WorkerKey_Validate in Hk. rewrite validate_ids_Ok, !Forall_cons in Hk. tauto. }
  apply claim_workspace_Ok in Hc as (r & x & E & Hx & F1 & F2 & F3 & [(_ & _ & ->)|(Hp & Hts & ->)]); [done|].
  destruct (claim_keeps _ _ _ _ a at_ Hi1 E Hx Hp Hts Ha) as [Hi2 Hh2].
  - eexists. simpl. split; [apply lookup_insert_eq|]. done.
  - split; [exact Hi2|]. etransitivity; [exact Hh1|exact Hh2].
Qed.

(** ** Recording a workspace, readiness *)

Lemma RecordPreparedWorkspace_keeps w at_ db w' db' :
  peer_inv db -> RecordPreparedWorkspace w at_ db = Ok (w', db') -> peer_inv db' /\ peer_history db db'.
Proof.
  intros Hi H. unfold RecordPreparedWorkspace in H. apply tx_bind_Ok in H as ([] & ? & [Hv ->]%tx_lift_Ok & H).
  apply tx_bind_Ok in H as (ts & ? & [Hts ->]%tx_lift_Ok & H). assert (ts = at_ /\ 0 <= at_) as [-> Hat] by (unfold unixTime in Hts; go_inv; lia).
  apply tx_bind_Ok in H as (stored & ? & [Hq ->]%tx_query_Ok & H). destruct stored; [go_inv; by split|].
  apply tx_bind_Ok in H as (u & db1 & Hins & [-> ->]%tx_ret_Ok).
  apply tx_exec_Ok, wrap_Ok, result_bind_Ok in Hins as (tb & Hins & [= <-]). apply sql_insert_Ok in Hins as (_ & Hn & ->). cbn [pw_Key set_claim] in Hn.
  split.
  - apply (peer_inv_workspaces db); try done. intros k1 r1. simpl. rewrite lookup_insert_Some. intros [[<- <-]|[_ E1]].
    + split; [by rewrite (recorded_reads_back _ _ Hv Hat)|intros [=]].
    + by apply (pv_workspaces _ Hi).
  - apply peer_history_workspaces; try done. intros k1 r1 E1. simpl. rewrite lookup_insert_ne.
    + exists r1. split; [done|by left].
    + intros <-. by rewrite Hn in E1.
Qed.

(** The readiness row is no part of what the other components keep. *)
Lemma readiness_keeps db x : peer_inv db -> peer_inv (set_worker_readiness db x) /\ peer_history db (set_worker_readiness db x).
Proof.
  intros Hi. split; [apply (peer_inv_workspaces db); try done; apply (pv_workspaces _ Hi)|].
  apply peer_history_workspaces; try done. intros k r E. exists r. split; [done|by left].
Qed.

(** ** Operations *)

(** Receipts may change as long as the ones the intents name stay. *)
Lemma turns_inv_operations db db' :
  turns_inv db -> db'.(worker_turn_start_intents) = db.(worker_turn_start_intents) ->
  db'.(peer_result_outbox) = db.(peer_result_outbox) -> db'.(worker_reservations) = db.(worker_reservations) ->
  (forall k i o, db.(worker_turn_start_intents) !! k = Some i -> i.(it_operation_id) <> "" ->
     db.(worker_operation_receipts) !! (k.1.1.1, i.(it_operation_id)) = Some o ->
     db'.(worker_operation_receipts) !! (k.1.1.1, i.(it_operation_id)) = Some o) ->
  turns_inv db'.
Proof.
  intros [H1 H2 H3 H4 H5 H6 H7] Ei Eo Ew Hop. constructor; rewrite ?Ei; try done.
  - intros k i E. rewrite Ew. by apply H1.
  - intros k i E Hst. destruct (H3 _ _ E Hst) as [Hw Ho Hp]. constructor; [by rewrite Ew|by apply (reserved_for_same _ _ db)|].
    intros Hne. destruct (Hp Hne) as (o & Eo' & Hx). exists o. split; [by apply Hop|done].
  - intros k i E Hst w. rewrite Ew. intros Hw Ha. destruct (H4 _ _ E Hst _ Hw Ha) as (X1 & X2 & X3).
    split_and!; [intros; by apply (reserved_for_same _ _ db), X1|intros; by apply (reserved_for_same _ _ db), X2|exact X3].
  - intros k i E Hst Hne. destruct (H5 _ _ E Hst Hne) as (o & Eo' & Hx). exists o. split; [by apply Hop|done].
  - intros k w. rewrite Ew. apply H7.
Qed.

Lemma operations_keep db tb :
  peer_inv db ->
  (forall k r, tb !! k = Some r -> WorkerOperationReceipt_Validate (operation_receipt k r) = Ok tt /\
     is_Some (db.(worker_reservations) !! (k.1, r.(wop_tree_id), r.(wop_agent_id)))) ->
  (forall k r, db.(worker_operation_receipts) !! k = Some r -> exists r', tb !! k = Some r' /\ receipt_history r r') ->
  (forall k i o, db.(worker_turn_start_intents) !! k = Some i -> i.(it_operation_id) <> "" ->
     db.(worker_operation_receipts) !! (k.1.1.1, i.(it_operation_id)) = Some o ->
     tb !! (k.1.1.1, i.(it_operation_id)) = Some o) ->
  peer_inv (set_worker_operation_receipts db tb) /\ peer_history db (set_worker_operation_receipts db tb).
Proof.
  intros [I1 I2 I3 I4 I5] Hv Hh Hx. split; constructor.
  - by apply (workers_inv_same db).
  - by apply (workspaces_inv_kept db); [|apply workers_kept_same|].
  - exact Hv.
  - by apply (turns_inv_operations db).
  - by apply (outbox_inv_kept db); [|apply workers_kept_same|].
  - done.
  - intros k r E. eauto using worker_history_refl.
  - intros k r E. by left.
  - exact Hh.
  - intros k r E. exists r. split; [done|by left].
  - done.
Qed.

Lemma BeginWorkerOperation_keeps op action key payload at_ db x db' :
  peer_inv db -> BeginWorkerOperation op action key payload at_ db = Ok (x, db') -> peer_inv db' /\ peer_history db db'.
Proof.
  intros Hi H. unfold BeginWorkerOperation in H. apply tx_bind_Ok in H as ([] & ? & [Hv ->]%tx_lift_Ok & H).
  apply tx_bind_Ok in H as (ts & ? & [Hts ->]%tx_lift_Ok & H). assert (ts = at_ /\ 0 <= at_) as [-> Hat] by (unfold unixTime in Hts; go_inv; lia).
  apply tx_bind_Ok in H as (existing & ? & [Hq ->]%tx_query_Ok & H). destruct existing; [go_inv; by split|].
  apply tx_bind_Ok in H as (w & ? & [Hw ->]%tx_query_Ok & H). apply tx_bind_Ok in H as (u & db1 & Hins & [-> ->]%tx_ret_Ok).
  apply tx_exec_Ok, wrap_Ok, result_bind_Ok in Hins as (tb & Hins & [= <-]). apply sql_insert_Ok in Hins as (_ & Hn & ->).
  apply queryWorker_Ok in Hw as (r & E & _).
  assert (forall k o, db.(worker_operation_receipts) !! k = Some o ->
    (<[(key.1.1, op) := pending_worker_operation key action payload at_]> db.(worker_operation_receipts)) !! k = Some o) as Hold.
  { intros k o Ek. rewrite lookup_insert_ne; [done|]. intros <-. by rewrite Hn in Ek. }
  apply operations_keep; [done| |intros k o Ek; exists o; split; [by apply Hold|done]|intros; by apply Hold].
  intros k o. rewrite lookup_insert_Some. intros [[<- <-]|[_ E1]]; [|by apply (pv_operations _ Hi)].
  split; [by apply pending_operation_valid|]. destruct key as [[c t] a]. by eexists.
Qed.

Lemma completeWorkerOperationReceipt_effect key op outcome code ts db receipt db' :
  operations_inv db -> completeWorkerOperationReceipt key op outcome code ts db = Ok (receipt, db') ->
  let status := if decide (outcome = WorkerOutcomeFailed) then WorkerOperationFailed else WorkerOperationSucceeded in
  exists o, db.(worker_operation_receipts) !! (key.1.1, op) = Some o /\ (key.1.1, o.(wop_tree_id), o.(wop_agent_id)) = key /\
    ((db' = db /\ receipt = operation_receipt (key.1.1, op) o /\ o.(wop_status) = status /\ o.(wop_outcome) = outcome /\
      o.(wop_failure_code) = code) \/
     (o.(wop_status) = WorkerOperationPending /\
      receipt = operation_receipt (key.1.1, op) (set_operation status outcome code (Z.max ts o.(wop_updated_at)) o) /\
      db' = set_worker_operation_receipts db
        (<[(key.1.1, op) := set_operation status outcome code (Z.max ts o.(wop_updated_at)) o]> db.(worker_operation_receipts)))).
Proof.
  intros Hi H status. unfold completeWorkerOperationReceipt in H. apply tx_bind_Ok in H as (r & ? & [Hq ->]%tx_query_Ok & H).
  rewrite queryWorkerOperation_inv in Hq by done. destruct (_ !! (key.1.1, op)) as [o|] eqn:E; [|done]. injection Hq as <-.
  fold status in H. cbn [operation_receipt wo_Key wo_Status wo_Outcome wo_FailureCode wo_UpdatedAt wo_OperationID] in H.
  destruct (decide ((_, o.(wop_tree_id), _) <> key)) as [|Hk]; [by apply tx_throw_Ok in H|]. apply dec_stable in Hk. exists o. split; [done|]. split; [done|].
  destruct (decide (o.(wop_status) <> WorkerOperationPending)) as [Hs|Hs].
  - left. destruct (decide (o.(wop_status) = status /\ _)) as [(? & ? & ?)|]; [|by apply tx_throw_Ok in H]. go_inv. done.
  - right. apply dec_stable in Hs. apply tx_bind_Ok in H as (u & db1 & Hup & [-> ->]%tx_ret_Ok). split; [done|]. split; [done|].
    apply tx_exec_Ok, result_bind_Ok in Hup as ([n tb] & Hup & Hn). apply wrap_Ok in Hup. apply reject_Ok in Hn as [_ [= <-]].
    cbn [fst snd] in Hup. apply sql_update_Ok in Hup as [(_ & _ & Hg)|(_ & o' & E' & _ & _ & ->)]; [by specialize (Hg _ E)|].
    rewrite E in E'. by injection E' as <-.
Qed.

(** Completing a receipt that no intent depends on any more. *)
Lemma complete_receipt_keeps key op outcome code ts db receipt db' :
  peer_inv db -> WorkerOperationOutcome_terminal outcome = true -> failure_code_ok code ->
  (outcome = WorkerOutcomeFailed <-> code <> "") ->
  (forall k i, db.(worker_turn_start_intents) !! k = Some i -> k.1.1.1 = key.1.1 -> i.(it_operation_id) = op -> op <> "" ->
     i.(it_state) <> WorkerTurnStartPrepared) ->
  completeWorkerOperationReceipt key op outcome code ts db = Ok (receipt, db') -> peer_inv db' /\ peer_history db db'.
Proof.
  intros Hi Ho Hc Hiff Hno H. apply completeWorkerOperationReceipt_effect in H as (o & E & Hk & [(-> & _)|(Hs & _ & ->)]);
    [by split| |apply Hi]. cbv zeta.
  destruct (pv_operations _ Hi _ _ E) as [Hv Hw]. apply operations_keep; [done| | |].
  - intros k r. rewrite lookup_insert_Some. intros [[<- <-]|[_ E1]]; [|by apply (pv_operations _ Hi)].
    split; [|done]. apply completed_operation_valid; try done. lia.
  - intros k r E1. destruct (decide (k = (key.1.1, op))) as [->|Hn].
    + rewrite lookup_insert_eq. eexists. split; [done|]. rewrite E in E1. injection E1 as <-. by split.
    + rewrite lookup_insert_ne by done. exists r. done.
  - intros k i o' Ei Hne Eo'. rewrite lookup_insert_ne; [done|]. intros [= Hkc Hop].
    assert (i.(it_state) <> WorkerTurnStartPrepared) as Hst by (apply (Hno k i); congruence).
    destruct (tn_resolved _ (pv_turns _ Hi) _ _ Ei Hst Hne) as (o2 & E2 & _ & Hr). rewrite <- Hkc, <- Hop, E in E2. injection E2 as <-.
    unfold receipt_resolves in Hr. cbn in Hr. rewrite Hs in Hr. destruct Hr as [(_ & ? & _)|(_ & ? & _)]; done.
Qed.

Lemma CompleteWorkerOperation_keeps key op outcome code at_ db receipt db' :
  peer_inv db -> CompleteWorkerOperation key op outcome code at_ db = Ok (receipt, db') -> peer_inv db' /\ peer_history db db'.
Proof.
  intros Hi H. unfold CompleteWorkerOperation in H. go_inv.
  match goal with H : completeWorkerOperationReceipt _ _ _ _ _ _ = Ok _ |- _ => rename H into Hcomp end.
  apply complete_receipt_keeps in Hcomp; [done|done|by apply not_false_iff_true|done| |].
  - split; [intros -> Hc; tauto|]. intros Hc. apply dec_stable. tauto.
  - intros k i Ei Hk Hop _ Hp.
    match goal with H : require_absent _ _ = Ok _ |- _ => unfold queryPreparedWorkerTurnStartIntentByOperation in H;
      rewrite (absent_intent db (pv_turns _ Hi)) in H; by apply (H _ _ Ei) end.
Qed.

(** ** The outbox *)

Lemma same_outbox_sym k1 k2 r1 r2 : same_outbox k1 r1 (k2, r2) -> same_outbox k2 r2 (k1, r1).
Proof. unfold same_outbox. simpl. intros [Hn [H|(H1 & H2 & H3)]]; split; [done|by left|done|right]. split_and!; congruence. Qed.

(** One row of the outbox written: it is valid, meets no other row and stays in the quota. *)
Lemma outbox_inv_put db k r :
  outbox_inv db -> is_ok (scanResultOutbox (Some (k, r))) = true -> is_Some (db.(worker_reservations) !! k.1) ->
  (forall k1 r1, db.(peer_result_outbox) !! k1 = Some r1 -> ~ same_outbox k r (k1, r1)) ->
  Z.of_nat (size (<[k := r]> db.(peer_result_outbox))) <= MaximumPeerResultPackages ->
  reserved_total (<[k := r]> db.(peer_result_outbox)) <= MaximumPeerResultStoreBytes ->
  outbox_inv (set_peer_result_outbox db (<[k := r]> db.(peer_result_outbox))).
Proof.
  intros [H1 H2 H3 H4] Hok Hw Hu Hc Hb. constructor; [| |done|done].
  - intros k1 r1. simpl. rewrite lookup_insert_Some. intros [[<- <-]|[_ E]]; [done|by apply H1].
  - intros k1 k2 r1 r2. simpl. rewrite !lookup_insert_Some. intros [[<- <-]|[_ E1]] [[<- <-]|[_ E2]].
    + by intros [? _].
    + by apply Hu.
    + intros Hs%same_outbox_sym. by apply (Hu _ _ E1).
    + by apply H2.
Qed.

(** Rows whose turn is still open stay as they are. *)
Lemma turns_inv_outbox db db' :
  turns_inv db -> db'.(worker_turn_start_intents) = db.(worker_turn_start_intents) ->
  db'.(worker_operation_receipts) = db.(worker_operation_receipts) -> db'.(worker_reservations) = db.(worker_reservations) ->
  (forall k i o, db.(worker_turn_start_intents) !! k = Some i ->
     db.(peer_result_outbox) !! (k.1, i.(it_package_id)) = Some o ->
     (i.(it_state) = WorkerTurnStartPrepared /\ o.(ob_state) = ResultOutboxCapturePending) \/
     (i.(it_state) = WorkerTurnStartBound /\ holds_turn db (k, i) /\
      o.(ob_state) ∈ [ResultOutboxCapturePending; ResultOutboxPublishPending]) ->
     db'.(peer_result_outbox) !! (k.1, i.(it_package_id)) = Some o) ->
  turns_inv db'.
Proof.
  intros [H1 H2 H3 H4 H5 H6 H7] Ei Ep Ew Hkeep. constructor; rewrite ?Ei; try done.
  - intros k i E. rewrite Ew. by apply H1.
  - intros k i E Hst. destruct (H3 _ _ E Hst) as [Hw (o & Ho & Hd & Hl & Hs) Hop]. constructor; [by rewrite Ew| |].
    + exists o. split_and!; [|done|done|done]. apply (Hkeep _ _ _ E Ho). left. by apply list_elem_of_singleton in Hs.
    + unfold operation_of in *. by rewrite Ep.
  - intros k i E Hst w. rewrite Ew. intros Hw Ha. destruct (H4 _ _ E Hst _ Hw Ha) as (X1 & X2 & X3). split_and!; [| |exact X3].
    + intros Hr. destruct (X1 Hr) as (o & Ho & Hd & Hl & Hs). exists o. split_and!; [|done|done|done].
      apply (Hkeep _ _ _ E Ho). right. split_and!; [done| |apply list_elem_of_singleton in Hs; rewrite Hs; by_decide].
      unfold holds_turn. simpl. rewrite Hw, Hr. split; [by_decide|done].
    + intros Hr. destruct (X2 Hr) as (o & Ho & Hd & Hl & Hs). exists o. split_and!; [|done|done|done].
      apply (Hkeep _ _ _ E Ho). right. split_and!; [done| |done].
      unfold holds_turn. simpl. rewrite Hw, Hr. split; [by_decide|done].
  - intros k i E Hst Hne. destruct (H5 _ _ E Hst Hne) as (o & Ho & Hx). exists o. by rewrite Ep.
  - intros k w. rewrite Ew. apply H7.
Qed.

Lemma outbox_keeps db tb :
  peer_inv db -> outbox_inv (set_peer_result_outbox db tb) -> turns_inv (set_peer_result_outbox db tb) ->
  peer_inv (set_peer_result_outbox db tb) /\ peer_history db (set_peer_result_outbox db tb).
Proof.
  intros [I1 I2 I3 I4 I5] Ho Ht. split; constructor.
  - by apply (workers_inv_same db).
  - by apply (workspaces_inv_kept db); [|apply workers_kept_same|].
  - by apply (operations_inv_kept db); [|apply workers_kept_same|].
  - done.
  - done.
  - done.
  - intros k r E. eauto using worker_history_refl.
  - intros k r E. by left.
  - intros k r E. exists r. done.
  - intros k r E. exists r. split; [done|by left].
  - done.
Qed.

(** A reservation that is pending its capture reads back. *)
Lemma reserved_outbox_scans k device n ts :
  ResultOutboxKey_Validate {| xk_Key := k.1; xk_SourceDeviceID := device; xk_PackageID := k.2 |} = Ok tt ->
  ~ bad_reservation n -> 0 <= ts -> is_ok (scanResultOutbox (Some (k, reserved_outbox device n ts))) = true.
Proof.
  intros Hk Hn Ht. unfold bad_reservation in Hn. simpl. unfold outbox_metadata. cbn.
  match goal with |- context [ResultOutbox_Validate ?o] => assert (ResultOutbox_Validate o = Ok tt) as ->; [|done] end.
  unfold ResultOutbox_Validate. rewrite do_Ok, !reject_Ok, decide_True, reject_Ok by done. cbn.
  split_and!; [done|lia|lia| |done]. intros [H|[H|[H|[H|[H|H]]]]]; done.
Qed.

Lemma reserveResultOutbox_effect key n ts db o db' :
  peer_inv db -> reserveResultOutbox key n ts db = Ok (o, db') ->
  (db' = db /\ queryResultOutboxByPackage key.(xk_PackageID) db = Ok o /\ o.(xo_Key) = key /\ o.(xo_ReservationLimitBytes) = n) \/
  (ResultOutboxKey_Validate key = Ok tt /\ ~ bad_reservation n /\ 0 <= ts /\
   (forall k r, db.(peer_result_outbox) !! k = Some r -> k.2 <> key.(xk_PackageID)) /\
   (exists w, db.(worker_reservations) !! key.(xk_Key) = Some w /\ w.(w_DeviceID) = key.(xk_SourceDeviceID)) /\
   Z.of_nat (size db.(peer_result_outbox)) < MaximumPeerResultPackages /\
   n <= MaximumPeerResultStoreBytes - reserved_total db.(peer_result_outbox) /\
   db' = set_peer_result_outbox db (<[outbox_key key := reserved_outbox key.(xk_SourceDeviceID) n ts]> db.(peer_result_outbox))).
Proof.
  intros Hi H. unfold reserveResultOutbox in H. apply tx_bind_Ok in H as ([] & ? & [Hv ->]%tx_lift_Ok & H).
  destruct (decide _) as [|Hn]; [by apply tx_throw_Ok in H|]. destruct (decide _) as [|Ht]; [by apply tx_throw_Ok in H|].
  apply tx_bind_Ok in H as (stored & ? & [Hq ->]%tx_query_Ok & H). destruct stored as [stored|].
  - left. apply optional_Ok_Some in Hq. destruct (decide _) as [|Hd]; [by apply tx_throw_Ok in H|]. go_inv.
    split_and!; [done|done|apply dec_stable; tauto|apply dec_stable; tauto].
  - right. apply optional_Ok_None in Hq. unfold queryResultOutboxByPackage in Hq.
    apply tx_bind_Ok in H as (w & ? & [Hw ->]%tx_query_Ok & H). destruct (decide _) as [|Hd]; [by apply tx_throw_Ok in H|].
    apply tx_bind_Ok in H as ([] & ? & [Hcap ->]%tx_query_Ok & H). apply tx_bind_Ok in H as (u & db1 & Hins & [-> ->]%tx_ret_Ok).
    apply tx_exec_Ok, wrap_Ok, result_bind_Ok in Hins as (tb & Hins & [= <-]). apply sql_insert_Ok in Hins as (_ & _ & ->).
    unfold requireResultStoreCapacity in Hcap. cbv zeta in Hcap. apply reject_Ok in Hcap as [Hcap _]. cbn in Hcap.
    apply queryWorker_Ok in Hw as (r & E & -> & _). cbn [w_Row] in Hd. split_and!; [done|done|lia| |exists r; split; [done|by apply dec_stable]|lia|lia|done].
    assert (Hpkg : valid_id key.(xk_PackageID)).
    { unfold ResultOutboxKey_Validate in Hv. rewrite !do_Ok, !wrap_Ok in Hv. tauto. }
    rewrite Hpkg in Hq. cbn in Hq. apply (require_absent_Ok ErrNotFound) in Hq.
    intros k r0 Ek. pose proof (proj1 (absent_outbox db (pv_outbox _ Hi) _ _) Hq _ _ Ek) as Hx. exact Hx.
Qed.

Lemma reserveResultOutbox_keeps key n ts db o db' :
  peer_inv db -> reserveResultOutbox key n ts db = Ok (o, db') -> peer_inv db' /\ peer_history db db'.
Proof.
  intros Hi H. apply (reserveResultOutbox_effect _ _ _ _ _ _ Hi) in H as [(-> & _)|(Hv & Hn & Ht & Hp & (w & Hw & _) & Hc & Hb & ->)]; [by split|].
  assert (db.(peer_result_outbox) !! outbox_key key = None) as Hnone.
  { apply eq_None_not_Some. intros [r E]. by apply (Hp _ _ E). }
  apply outbox_keeps; [done| |].
  - apply outbox_inv_put; [apply Hi| |by eexists| | |].
    + apply reserved_outbox_scans; [by destruct key|done|done].
    + intros k1 r1 E1 [_ [Hs|(Hs & _)]]; [by apply (Hp _ _ E1)|done].
    + rewrite map_size_insert_None by done. lia.
    + rewrite (sum_of_insert ob_reserved_bytes) by done. simpl. lia.
  - apply (turns_inv_outbox db); try done; [apply Hi|]. intros k i r Ei Er _. simpl. rewrite lookup_insert_ne; [done|].
    intros Hk. rewrite <- Hk, Hnone in Er. done.
Qed.

(** The record a row of the outbox scans to. *)
Lemma scan_outbox_fields k r o :
  scanResultOutbox (Some (k, r)) = Ok o <->
  outbox_metadata r = Ok (o.(xo_Metadata), o.(xo_Manifest)) /\ ResultOutbox_Validate o = Ok tt /\
  o = {| xo_Key := {| xk_Key := k.1; xk_SourceDeviceID := r.(ob_source_device_id); xk_PackageID := k.2 |};
         xo_State := r.(ob_state); xo_Metadata := o.(xo_Metadata); xo_Manifest := o.(xo_Manifest);
         xo_ReservationLimitBytes := r.(ob_reservation_limit_bytes); xo_ReservedBytes := r.(ob_reserved_bytes);
         xo_PackageBytes := r.(ob_package_bytes); xo_DeliverySequence := r.(ob_delivery_sequence);
         xo_CreatedAt := r.(ob_created_at); xo_UpdatedAt := r.(ob_updated_at) |}.
Proof.
  unfold scanResultOutbox. rewrite result_bind_Ok. split.
  - intros ([m mf] & Hm & H). rewrite do_Ok, wrap_Ok in H. destruct H as [Hv [= <-]]. done.
  - intros (Hm & Hv & Ho). exists (o.(xo_Metadata), o.(xo_Manifest)). split; [done|]. rewrite do_Ok, wrap_Ok, <- Ho. done.
Qed.

Lemma queryResultOutbox_Ok key db o :
  queryResultOutbox key db = Ok o ->
  exists r, db.(peer_result_outbox) !! outbox_key key = Some r /\ r.(ob_source_device_id) = key.(xk_SourceDeviceID) /\
    scanResultOutbox (Some (outbox_key key, r)) = Ok o.
Proof.
  unfold queryResultOutbox. intros H. destruct (select_row (is_outbox key) _) as [[k r]|] eqn:E; [|done].
  apply select_row_Some in E as [E [Hk Hd]]. cbn in Hk, Hd. subst k. exists r. done.
Qed.

(** The state of a captured package moves on; its bytes stay. *)
Lemma scan_set_delivery k r o state sequence at_ :
  scanResultOutbox (Some (k, r)) = Ok o -> r.(ob_state) <> ResultOutboxCapturePending -> r.(ob_updated_at) <= at_ ->
  (state = ResultOutboxDeliveryPending /\ sequence = 0) \/
  ((state = ResultOutboxDelivered \/ state = ResultOutboxReleasePending) /\ 0 < sequence <= MaxInt64) ->
  scanResultOutbox (Some (k, set_delivery state sequence at_ r)) = Ok (set_outbox state sequence at_ o).
Proof.
  rewrite !scan_outbox_fields. intros (Hm & Hv & Ho) Hs Hat Hc.
  assert (state <> ResultOutboxCapturePending) as Hs' by (destruct Hc as [[-> _]|[[-> | ->] _]]; done).
  assert (o.(xo_State) <> ResultOutboxCapturePending) as Hs'' by (by rewrite Ho).
  assert (state ∈ [ResultOutboxPublishPending; ResultOutboxDeliveryPending; ResultOutboxDelivered; ResultOutboxReleasePending]) as Hin
    by (destruct Hc as [[-> _]|[[-> | ->] _]]; by_decide).
  assert (o.(xo_UpdatedAt) = r.(ob_updated_at)) as Hu by (by rewrite Ho).
  split; [|split; [|by rewrite Ho]].
  - unfold outbox_metadata in *. cbn. rewrite decide_True by done. by rewrite decide_True in Hm by done.
  - unfold ResultOutbox_Validate in *. cbn. rewrite do_Ok, !reject_Ok in Hv |- *. destruct Hv as (V1 & V2 & V3 & V4).
    split_and!; [done|done|lia|]. rewrite decide_False, decide_True by done.
    rewrite decide_False in V4 by done. destruct (decide (_ ∈ _)) as [_|]; [|done]. rewrite do_Ok in V4 |- *. destruct V4 as [V4 V5].
    split; [done|]. destruct (resultPackageBytes _) as [n|]; [|done]. cbn in V5 |- *. rewrite reject_Ok in V5 |- *. destruct V5 as [V5 _].
    split; [done|]. destruct Hc as [[-> ->]|[Hst Hseq]].
    + rewrite decide_False by (by intros [?|?]). done.
    + rewrite decide_True by done. rewrite decide_False by lia. done.
Qed.

(** A captured package changes its delivery state, while every open turn keeps its bytes. *)
Lemma set_delivery_keeps key r o state sequence at_ db :
  peer_inv db -> db.(peer_result_outbox) !! outbox_key key = Some r -> scanResultOutbox (Some (outbox_key key, r)) = Ok o ->
  r.(ob_state) <> ResultOutboxCapturePending -> r.(ob_updated_at) <= at_ ->
  (state = ResultOutboxDeliveryPending /\ sequence = 0) \/
  ((state = ResultOutboxDelivered \/ state = ResultOutboxReleasePending) /\ 0 < sequence <= MaxInt64) ->
  let db' := set_peer_result_outbox db (<[outbox_key key := set_delivery state sequence at_ r]> db.(peer_result_outbox)) in
  turns_inv db' -> peer_inv db' /\ peer_history db db'.
Proof.
  intros Hi E Hs Hst Hat Hstate db' Ht. apply outbox_keeps; [done| |done].
  apply outbox_inv_put; [apply Hi| | | | |].
  - by rewrite (scan_set_delivery _ _ _ state sequence at_ Hs).
  - by apply (ox_rows _ (pv_outbox _ Hi) _ _ E).
  - intros k1 r1 E1 Hso. by apply (ox_unique _ (pv_outbox _ Hi) _ _ _ _ E E1).
  - rewrite map_size_insert_Some by (by eexists). apply (ox_count _ (pv_outbox _ Hi)).
  - rewrite (sum_of_update ob_reserved_bytes _ _ _ _ E). simpl. pose proof (ox_bytes _ (pv_outbox _ Hi)). lia.
Qed.

(** A package that was delivered belongs to no open turn. *)
Lemma delivery_keeps key r o state sequence at_ db :
  peer_inv db -> db.(peer_result_outbox) !! outbox_key key = Some r -> scanResultOutbox (Some (outbox_key key, r)) = Ok o ->
  r.(ob_state) ∉ [ResultOutboxCapturePending; ResultOutboxPublishPending] -> r.(ob_updated_at) <= at_ ->
  (state = ResultOutboxDelivered \/ state = ResultOutboxReleasePending) -> 0 < sequence <= MaxInt64 ->
  let db' := set_peer_result_outbox db (<[outbox_key key := set_delivery state sequence at_ r]> db.(peer_result_outbox)) in
  peer_inv db' /\ peer_history db db'.
Proof.
  intros Hi E Hs Hst Hat Hstate Hseq db'. apply (set_delivery_keeps key r o); try done; [|by right|].
  - intros Hc. apply Hst. rewrite Hc. by_decide.
  - apply (turns_inv_outbox db); try done; [apply Hi|]. intros k i r1 Ei Er Hopen. simpl. rewrite lookup_insert_ne; [done|].
    intros Hk. rewrite <- Hk, E in Er. injection Er as <-. apply Hst.
    destruct Hopen as [[_ ->]|(_ & _ & Hin)]; [by_decide|done].
Qed.

Lemma AcknowledgeResultOutboxDelivery_keeps key sequence at_ db o db' :
  0 <= sequence -> peer_inv db -> AcknowledgeResultOutboxDelivery key sequence at_ db = Ok (o, db') ->
  peer_inv db' /\ peer_history db db'.
Proof.
  intros Hnn Hi H. unfold AcknowledgeResultOutboxDelivery in H. destruct (decide _) as [|Hseq]; [by apply tx_throw_Ok in H|].
  unfold transitionResultOutbox in H. apply tx_bind_Ok in H as ([] & ? & [Hv ->]%tx_lift_Ok & H).
  apply tx_bind_Ok in H as (ts & ? & [Hts ->]%tx_lift_Ok & H). apply tx_bind_Ok in H as (stored & ? & [Hq ->]%tx_query_Ok & H).
  apply queryResultOutbox_Ok in Hq as (r & E & _ & Hs). assert (Ho := Hs). apply scan_outbox_fields in Ho as (_ & _ & Ho).
  rewrite (decide_False (P := other_metadata _ _)) in H by exact id.
  destruct (decide (stored.(xo_State) = _)) as [|Hn1]; [destruct (decide _); go_inv; by split|].
  rewrite decide_False in H by (by intros [? _]). destruct (decide (stored.(xo_State) <> _)) as [|Hst]; [by apply tx_throw_Ok in H|].
  apply dec_stable in Hst. apply tx_bind_Ok in H as (u & db1 & Hup & [-> ->]%tx_ret_Ok).
  apply tx_exec_Ok, wrap_Ok, result_bind_Ok in Hup as ([n db2] & Hup & [= <-]).
  unfold update_outbox in Hup. apply result_bind_Ok in Hup as ([n' tb] & Hup & [= <- <-]).
  assert (r.(ob_state) = ResultOutboxDeliveryPending) as Hr by (rewrite Ho in Hst; done).
  apply sql_update_Ok in Hup as [(_ & -> & Hg)|(_ & r' & E' & _ & _ & ->)]; [specialize (Hg _ E); by rewrite Hr in Hg|].
  rewrite E in E'. injection E' as <-. assert (stored.(xo_UpdatedAt) = r.(ob_updated_at)) as -> by (by rewrite Ho).
  apply (delivery_keeps key r stored); try done; [rewrite Hr; by_decide|lia|by left|lia].
Qed.

Lemma update_outbox_row k guard set db n db' r :
  db.(peer_result_outbox) !! k = Some r -> guard r = true -> update_outbox k guard set db = Ok (n, db') ->
  n = 1 /\ outbox_check k.2 (set r) = true /\ (forall k1 r1, db.(peer_result_outbox) !! k1 = Some r1 -> ~ same_outbox k (set r) (k1, r1)) /\
  db' = set_peer_result_outbox db (<[k := set r]> db.(peer_result_outbox)).
Proof.
  intros E Hg. unfold update_outbox. intros H. apply result_bind_Ok in H as ([n' t] & H & [= <- <-]).
  apply sql_update_Ok in H as [(_ & _ & Hn)|(-> & r' & E' & _ & Hc & ->)]; [by rewrite (Hn _ E) in Hg|].
  rewrite E in E'. injection E' as <-. apply andb_true_iff in Hc as [? Hs]. rewrite none_where_true in Hs. done.
Qed.

Lemma PrepareResultOutboxRelease_keeps key sequence at_ db o db' :
  0 <= sequence -> peer_inv db -> PrepareResultOutboxRelease key sequence at_ db = Ok (o, db') ->
  peer_inv db' /\ peer_history db db'.
Proof.
  intros Hnn Hi H. unfold PrepareResultOutboxRelease in H. apply tx_bind_Ok in H as ([] & ? & [Hv ->]%tx_lift_Ok & H).
  destruct (decide _) as [|Hseq]; [by apply tx_throw_Ok in H|]. apply tx_bind_Ok in H as (ts & ? & [Hts ->]%tx_lift_Ok & H).
  apply tx_bind_Ok in H as (stored & ? & [Hq ->]%tx_query_Ok & H).
  apply queryResultOutbox_Ok in Hq as (r & E & _ & Hs). assert (Ho := Hs). apply scan_outbox_fields in Ho as (_ & _ & Ho).
  destruct (decide (stored.(xo_DeliverySequence) <> sequence)) as [|Hd]; [by apply tx_throw_Ok in H|]. apply dec_stable in Hd.
  destruct (decide (stored.(xo_State) = _)) as [|Hn1]; [go_inv; by split|].
  destruct (decide (stored.(xo_State) <> _)) as [|Hst]; [by apply tx_throw_Ok in H|].
  apply dec_stable in Hst. apply tx_bind_Ok in H as (u & db1 & Hup & [-> ->]%tx_ret_Ok).
  apply tx_exec_Ok, result_bind_Ok in Hup as ([n db2] & Hup & Hn). apply wrap_Ok in Hup. apply reject_Ok in Hn as [_ [= <-]].
  assert (r.(ob_state) = ResultOutboxDelivered /\ r.(ob_delivery_sequence) = sequence) as [Hr Hsq] by (rewrite Ho in Hst, Hd; done).
  apply (update_outbox_row _ _ _ _ _ _ r) in Hup as (_ & _ & _ & ->); [|done|by apply bool_decide_eq_true].
  assert (stored.(xo_UpdatedAt) = r.(ob_updated_at)) as -> by (by rewrite Ho).
  apply (delivery_keeps key r stored); try done; [rewrite Hr; by_decide|lia|by right|lia].
Qed.

Lemma sql_delete_key {K R} `{Countable K} (P : K * R -> Prop) `{!forall x, Decision (P x)} (t : gmap K R) k r :
  t !! k = Some r -> P (k, r) -> (forall x, P x -> x.1 = k) -> (sql_delete P t).2 = delete k t.
Proof.
  intros E HP Hk. apply map_eq. intros k1. apply option_eq. intros r1. rewrite lookup_sql_delete, lookup_delete_Some. split.
  - intros [E1 Hn]. split; [|done]. intros <-. rewrite E in E1. by injection E1 as <-.
  - intros [Hne E1]. split; [done|]. intros Hp. by specialize (Hk _ Hp).
Qed.

Lemma size_after_delete {K R} `{Countable K} (P : K * R -> Prop) `{!forall x, Decision (P x)} (t : gmap K R) :
  Z.of_nat (size (sql_delete P t).2) = Z.of_nat (size t) - (sql_delete P t).1.
Proof.
  unfold sql_delete, count, select. cbn [fst snd]. rewrite length_map_to_list.
  rewrite <- (map_filter_union_complement P t) at 2. rewrite map_size_disj_union by apply map_disjoint_filter_complement. lia.
Qed.

Lemma outbox_inv_delete db k r :
  outbox_inv db -> db.(peer_result_outbox) !! k = Some r ->
  outbox_inv (set_peer_result_outbox db (delete k db.(peer_result_outbox))).
Proof.
  intros [H1 H2 H3 H4] E. constructor; simpl.
  - intros k1 r1 [_ E1]%lookup_delete_Some. by apply H1.
  - intros k1 k2 r1 r2 [_ E1]%lookup_delete_Some [_ E2]%lookup_delete_Some. by apply H2.
  - rewrite map_size_delete_Some by (by eexists). lia.
  - rewrite (sum_of_delete ob_reserved_bytes _ _ _ E). destruct (H1 _ _ E) as [[o Ho]%is_ok_true _].
    apply scan_outbox_fields in Ho as (_ & Hv & Ho). assert (o.(xo_ReservedBytes) = r.(ob_reserved_bytes)) as Hb by (by rewrite Ho).
    unfold ResultOutbox_Validate in Hv. rewrite do_Ok, !reject_Ok in Hv. lia.
Qed.

Lemma CompactResultOutboxRelease_keeps key db u db' :
  peer_inv db -> CompactResultOutboxRelease key db = Ok (u, db') -> peer_inv db' /\ peer_history db db'.
Proof.
  intros Hi H. unfold CompactResultOutboxRelease in H. apply tx_bind_Ok in H as ([] & ? & [Hv ->]%tx_lift_Ok & H).
  apply tx_bind_Ok in H as (stored & ? & [Hq ->]%tx_query_Ok & H). destruct stored as [stored|]; [|go_inv; by split].
  rewrite optional_Ok_Some in Hq. destruct (decide _) as [|Hst]; [by apply tx_throw_Ok in H|]. apply dec_stable in Hst.
  apply queryResultOutbox_Ok in Hq as (r & E & _ & Hs). apply scan_outbox_fields in Hs as (_ & _ & Ho).
  assert (r.(ob_state) = ResultOutboxReleasePending) as Hr by (rewrite Ho in Hst; done).
  apply tx_put_Ok in H as ->. rewrite (sql_delete_key _ _ (outbox_key key) r); [|done|done|by intros ? [? _]].
  apply outbox_keeps; [done|by apply (outbox_inv_delete _ _ r); [apply Hi|]|].
  apply (turns_inv_outbox db); try done; [apply Hi|]. intros k i r1 Ei Er Hopen. simpl. rewrite lookup_delete_ne; [done|].
  intros Hk. rewrite <- Hk, E in Er. injection Er as <-. rewrite Hr in Hopen.
  destruct Hopen as [[_ ?]|(_ & _ & Hin)]; [done|]. revert Hin. by_decide.
Qed.

(** The bytes an open turn reserved stay reserved. *)
Lemma turns_inv_reserved db db' :
  turns_inv db -> db'.(worker_turn_start_intents) = db.(worker_turn_start_intents) ->
  db'.(worker_operation_receipts) = db.(worker_operation_receipts) -> db'.(worker_reservations) = db.(worker_reservations) ->
  (forall k i, db.(worker_turn_start_intents) !! k = Some i -> i.(it_state) = WorkerTurnStartPrepared ->
     reserved_for k i db [ResultOutboxCapturePending] -> reserved_for k i db' [ResultOutboxCapturePending]) ->
  (forall k i w, db.(worker_turn_start_intents) !! k = Some i -> i.(it_state) = WorkerTurnStartBound ->
     db.(worker_reservations) !! k.1 = Some w -> w.(w_ActiveTurnID) = i.(it_turn_id) ->
     (w.(w_Status) = WorkerRunning -> reserved_for k i db [ResultOutboxCapturePending] ->
        reserved_for k i db' [ResultOutboxCapturePending]) /\
     (w.(w_Status) = WorkerFinalizing -> reserved_for k i db [ResultOutboxCapturePending; ResultOutboxPublishPending] ->
        reserved_for k i db' [ResultOutboxCapturePending; ResultOutboxPublishPending])) ->
  turns_inv db'.
Proof.
  intros [H1 H2 H3 H4 H5 H6 H7] Ei Ep Ew Hpre Hheld. constructor; rewrite ?Ei; try done.
  - intros k i E. rewrite Ew. by apply H1.
  - intros k i E Hst. destruct (H3 _ _ E Hst) as [Hw Ho Hop]. constructor; [by rewrite Ew|by apply Hpre|].
    unfold operation_of in *. by rewrite Ep.
  - intros k i E Hst w. rewrite Ew. intros Hw Ha. destruct (H4 _ _ E Hst _ Hw Ha) as (X1 & X2 & X3).
    destruct (Hheld _ _ _ E Hst Hw Ha) as [Y1 Y2]. split_and!; [auto|auto|exact X3].
  - intros k i E Hst Hne. destruct (H5 _ _ E Hst Hne) as (o & Ho & Hx). exists o. by rewrite Ep.
  - intros k w. rewrite Ew. apply H7.
Qed.

(** The one intent of a package. *)
Lemma intent_of_package db k1 k2 i1 i2 :
  turns_inv db -> db.(worker_turn_start_intents) !! k1 = Some i1 -> db.(worker_turn_start_intents) !! k2 = Some i2 ->
  i1.(it_package_id) = i2.(it_package_id) -> k1 = k2.
Proof.
  intros Hi E1 E2 Hp. apply dec_stable. intros Hn. apply (tn_unique _ Hi _ _ _ _ E1 E2). split; [|auto]. cbn. by intros ->.
Qed.

(** A worker of a prepared intent is ready. *)
Lemma prepared_ready db k i w :
  turns_inv db -> db.(worker_turn_start_intents) !! k = Some i -> i.(it_state) = WorkerTurnStartPrepared ->
  db.(worker_reservations) !! k.1 = Some w -> w.(w_Status) = WorkerReady.
Proof.
  intros Hi E Hp Ew. destruct (pk_worker _ _ _ (tn_prepared _ Hi _ _ E Hp)) as (w' & Ew' & Hv). rewrite Ew in Ew'. injection Ew' as <-.
  unfold validatePreparedTurnIntentWorker in Hv. rewrite reject_Ok in Hv. cbn in Hv. apply dec_stable. tauto.
Qed.

Lemma authority_lookup_Ok {A} (r : result A) a : authority_lookup r = Ok a -> r = Ok a.
Proof.
  unfold authority_lookup. rewrite result_bind_Ok. intros ([x|] & Hx & H); [|done]. injection H as <-. by apply optional_Ok_Some.
Qed.

Lemma intent_authority o m db :
  turns_inv db -> validateResultOutboxTurnIntentAuthority o m db = Ok tt ->
  exists k i, db.(worker_turn_start_intents) !! k = Some i /\ i.(it_state) = WorkerTurnStartBound /\ k.1 = o.(xo_Key).(xk_Key) /\
    i.(it_device_id) = o.(xo_Key).(xk_SourceDeviceID) /\ i.(it_managed_thread_id) = m.(rm_ManagedThreadID) /\
    i.(it_turn_id) = m.(rm_TurnID) /\ i.(it_package_id) = o.(xo_Key).(xk_PackageID) /\
    i.(it_reservation_limit_bytes) = o.(xo_ReservationLimitBytes).
Proof.
  intros Hi H. unfold validateResultOutboxTurnIntentAuthority in H. apply result_bind_Ok in H as (intent & Hq & H).
  apply authority_lookup_Ok in Hq. unfold queryWorkerTurnStartIntentByPackage in Hq.
  apply (scan_intent_Ok db Hi) in Hq as [E _]. apply reject_Ok in H as [H _]. exists intent.(ti_Key), intent.(ti_Row).
  split; [done|]. split_and!; apply dec_stable; tauto.
Qed.

Lemma worker_authority key r m db :
  validateResultOutboxWorkerAuthority {| w_Key := key; w_Row := r |} m db = Ok tt ->
  key = (m.(rm_ControllerID), m.(rm_TreeID), m.(rm_SourceAgentID)) /\ r.(w_DeviceID) = m.(rm_SourceDeviceID) /\
  r.(w_CodexThreadID) = m.(rm_ManagedThreadID) /\ r.(w_ActiveTurnID) = m.(rm_TurnID) /\
  r.(w_Revision) = m.(rm_LifecycleRevision) /\ r.(w_Status) = WorkerFinalizing /\ terminal_matches r m.(rm_Terminal).
Proof.
  unfold validateResultOutboxWorkerAuthority. destruct key as [[c t] a]. cbn [w_Key w_Row]. intros H.
  apply reject_Ok in H as [H1 H]. apply reject_Ok in H as [H2 _].
  assert (c = m.(rm_ControllerID)) as -> by (apply dec_stable; tauto). assert (t = m.(rm_TreeID)) as -> by (apply dec_stable; tauto).
  assert (a = m.(rm_SourceAgentID)) as -> by (apply dec_stable; tauto). split_and!; [done|apply dec_stable; tauto..].
Qed.

(** ** Capturing a package *)

Lemma DecodeManifest_valid md m : DecodeManifest md = Ok m -> ResultManifest_Validate m = Ok tt.
Proof.
  unfold DecodeManifest. intros H. go_inv.
  match goal with Hd : DecodeResultManifest _ = Ok _ |- _ => clear -Hd; rename Hd into H end. unfold DecodeResultManifest in H.
  apply reject_Ok in H as [_ H]. destruct (json_parse _); [|done]. apply result_bind_Ok in H as (mf & _ & H).
  apply do_Ok in H as [_ H]. apply do_Ok in H as [Hv [= <-]]. done.
Qed.

Lemma unmarshal_stored_part_print old d : is_int64 d.(rd_Size) -> unmarshal_stored_part old (part_json d) = Ok d.
Proof.
  intros Hs. destruct result_fields_nodup as (Hnd & _). unfold unmarshal_stored_part, part_json.
  read_struct Hnd. by destruct d.
Qed.

(** The descriptors stored in their column read back. *)
Lemma stored_parts_read_back m :
  ResultManifest_Validate m = Ok tt -> decode_parts (encodeResultParts m.(rm_Parts)) = Ok m.(rm_Parts).
Proof.
  intros [_ _ _ _ _ _ _ (parts & s & Hp & Hs)]%ResultManifest_text. rewrite Hp. pose proof (parts_plain _ _ _ Hs) as Hplain.
  apply scan_parts_valid in Hs. unfold decode_parts, encodeResultParts, parts_json. destruct (parts_shape parts) as [Hn Hd].
  rewrite <- (app_nil_r (json_text _)), json_roundtrip;
    [|done|unfold maxNestingDepth; lia|by apply json_text_bytes|by left].
  rewrite (unmarshal_slice_print _ _ _ parts); [done|]. intros old d Hin. apply unmarshal_stored_part_print.
  rewrite Forall_forall in Hs. by destruct (Hs d Hin) as [(_ & _ & ? & _)%part_text _].
Qed.

Lemma metadata_reads_back md m :
  DecodeManifest md = Ok m ->
  decodeResultMetadata md.(rpm_Manifest) md.(rpm_ManifestDescriptor).(rd_Size) md.(rpm_ManifestDescriptor).(rd_SHA256)
    (encodeResultParts m.(rm_Parts)) = Ok (md, m).
Proof.
  intros H. assert (Hk := H). apply DecodeManifest_kind in Hk. unfold decodeResultMetadata.
  match goal with |- context [DecodeManifest ?x] => assert (x = md) as -> by (destruct md as [b [kind size sha]]; simpl in *; by subst kind) end.
  rewrite H. cbn.
  rewrite (stored_parts_read_back _ (DecodeManifest_valid _ _ H)). cbn. by rewrite decide_False by (intros Hn; by apply Hn).
Qed.

Lemma captured_scans k r o md m n ts :
  scanResultOutbox (Some (k, r)) = Ok o -> r.(ob_state) = ResultOutboxCapturePending ->
  DecodeManifest md = Ok m -> validateStoredResultMetadata o.(xo_Key) md m = Ok tt -> resultPackageBytes md = Ok n ->
  n <= r.(ob_reservation_limit_bytes) -> r.(ob_updated_at) <= ts ->
  is_ok (scanResultOutbox (Some (k, capture_row md m n ts r))) = true.
Proof.
  intros Hs Hst Hd Hm Hn Hle Hts. apply scan_outbox_fields in Hs as (_ & Hv & Ho).
  assert (1 <= n) as Hpos.
  { unfold resultPackageBytes in Hn. apply result_bind_Ok in Hn as (? & _ & Hn). apply result_bind_Ok in Hn as (? & _ & Hn).
    apply reject_Ok in Hn as [? [= <-]]. lia. }
  unfold ResultOutbox_Validate in Hv. rewrite do_Ok, !reject_Ok in Hv. destruct Hv as (V1 & V2 & V3 & V4).
  assert (o.(xo_State) = ResultOutboxCapturePending) as Ho' by (by rewrite Ho). rewrite decide_True, reject_Ok in V4 by done.
  destruct V4 as [V4 _]. apply is_ok_true. eexists. unfold scanResultOutbox, outbox_metadata. cbn [capture_row ob_state].
  rewrite decide_True by done. cbn [capture_row ob_manifest_bytes ob_manifest_size_bytes ob_manifest_sha256 ob_parts_json].
  rewrite (metadata_reads_back _ _ Hd). cbn [result_bind]. rewrite decide_False by (intros [?|[?|?]]; done). cbn [result_bind].
  match goal with |- context [ResultOutbox_Validate ?x] => assert (ResultOutbox_Validate x = Ok tt) as ->; [|done] end.
  unfold ResultOutbox_Validate. rewrite Ho in V1, V2, V3, V4, Hm. cbn in V1, V2, V3, V4, Hm |- *.
  rewrite do_Ok, !reject_Ok. split_and!; [done|lia|lia|]. rewrite decide_False, decide_True by by_decide. rewrite do_Ok. split; [done|].
  rewrite Hn. cbn [result_bind]. rewrite reject_Ok, decide_False by by_decide. rewrite reject_Ok. split_and!; [lia|tauto|done].
Qed.

(** A capture happens under the fence: the turn of the package is being finalized. *)
Lemma CommitResultOutboxCapture_keeps key md at_ db o db' :
  peer_inv db -> CommitResultOutboxCapture key md at_ db = Ok (o, db') -> peer_inv db' /\ peer_history db db'.
Proof.
  intros Hi H. unfold CommitResultOutboxCapture in H. apply tx_bind_Ok in H as ([] & ? & [Hv ->]%tx_lift_Ok & H).
  apply tx_bind_Ok in H as (m & ? & [Hd ->]%tx_lift_Ok & H). apply tx_bind_Ok in H as ([] & ? & [Hm ->]%tx_lift_Ok & H).
  apply tx_bind_Ok in H as (n & ? & [Hn ->]%tx_lift_Ok & H). apply tx_bind_Ok in H as (ts & ? & [Hts ->]%tx_lift_Ok & H).
  apply tx_bind_Ok in H as (stored & ? & [Hq ->]%tx_query_Ok & H).
  apply queryResultOutbox_Ok in Hq as (r & E & Hdev & Hs). assert (Ho := Hs). apply scan_outbox_fields in Ho as (_ & Hval & Ho).
  destruct (decide (stored.(xo_State) <> _)) as [|Hst]; [destruct (decide _); go_inv; by split|]. apply dec_stable in Hst.
  apply tx_bind_Ok in H as ([] & ? & [Hauth ->]%tx_query_Ok & H).
  destruct (decide (n > _)) as [|Hle]; [by apply tx_throw_Ok in H|].
  apply tx_bind_Ok in H as (worker & ? & [Hw ->]%tx_query_Ok & H). apply queryWorker_Ok in Hw as (w & Ew & -> & _).
  apply tx_bind_Ok in H as ([] & ? & [Hwa ->]%tx_query_Ok & H). apply worker_authority in Hwa as (_ & _ & _ & _ & _ & Hfin & _).
  apply tx_bind_Ok in H as (u & db1 & Hup & [-> ->]%tx_ret_Ok).
  apply tx_exec_Ok, wrap_Ok, result_bind_Ok in Hup as ([n1 db2] & Hup & [= <-]).
  assert (r.(ob_state) = ResultOutboxCapturePending) as Hr by (rewrite Ho in Hst; done).
  assert (stored.(xo_Key) = key) as Hkey by (rewrite Ho; destruct key; cbn in Hdev |- *; by rewrite Hdev).
  assert (stored.(xo_ReservationLimitBytes) = r.(ob_reservation_limit_bytes) /\ stored.(xo_UpdatedAt) = r.(ob_updated_at) /\
    stored.(xo_ReservedBytes) = r.(ob_reserved_bytes)) as (Hl & Hua & Hrb) by (by rewrite Ho).
  apply (update_outbox_row _ _ _ _ _ _ r) in Hup as (_ & _ & Hu & ->); [|done|by apply bool_decide_eq_true].
  apply (intent_authority _ _ _ (pv_turns _ Hi)) in Hauth as (k & i & Ei & Hb & Hk & _ & _ & _ & Hp & _).
  rewrite Hkey in Hk, Hp. rewrite Hl in Hle. rewrite Hua in *.
  assert (r.(ob_reserved_bytes) = r.(ob_reservation_limit_bytes)) as Hfull.
  { unfold ResultOutbox_Validate in Hval. rewrite do_Ok, !reject_Ok, decide_True, reject_Ok in Hval by done.
    rewrite <- Hl, <- Hrb. apply dec_stable. tauto. }
  apply outbox_keeps; [done| |].
  - apply outbox_inv_put; [apply Hi| |by apply (ox_rows _ (pv_outbox _ Hi) _ _ E)|done| |].
    + apply (captured_scans _ _ stored); try done; try (by rewrite Hkey); lia.
    + rewrite map_size_insert_Some by (by eexists). apply (ox_count _ (pv_outbox _ Hi)).
    + rewrite (sum_of_update ob_reserved_bytes _ _ _ _ E). simpl. pose proof (ox_bytes _ (pv_outbox _ Hi)). lia.
  - apply (turns_inv_reserved db); try done; [apply Hi| |].
    + intros k1 i1 E1 Hp1 (o1 & Eo1 & X). exists o1. split; [|done]. simpl. rewrite lookup_insert_ne; [done|].
      unfold outbox_key. intros [= Hk1 Hpk].
      assert (k1 = k) as -> by (apply (intent_of_package db _ _ i1 i); [apply Hi|done|done|congruence]).
      rewrite Ei in E1. injection E1 as <-. by rewrite Hb in Hp1.
    + intros k1 i1 w1 E1 Hb1 Ew1 Ha1. split; intros Hst1 (o1 & Eo1 & X).
      * exists o1. split; [|done]. simpl. rewrite lookup_insert_ne; [done|]. unfold outbox_key. intros [= Hk1 Hpk].
        rewrite <- Hk1, Ew in Ew1. injection Ew1 as <-. by rewrite Hfin in Hst1.
      * destruct (decide ((k1.1, i1.(it_package_id)) = outbox_key key)) as [Heq|Hne].
        -- rewrite Heq, E in Eo1. injection Eo1 as <-. eexists. rewrite Heq. simpl. split; [apply lookup_insert_eq|]. cbn.
           destruct X as (X1 & X2 & _). split_and!; [done|done|by_decide].
        -- exists o1. split; [|done]. simpl. by rewrite lookup_insert_ne by done.
Qed.

(** ** Finishing a turn *)

(** What a validated row of a worker needs besides. *)
Lemma validated_worker_ok key r :
  WorkerReservation_Validate {| w_Key := key; w_Row := r |} = Ok tt -> r.(w_RetryTarget) <> WorkerIdle -> worker_ok key r.
Proof. intros [Hs Hd]%WorkerReservation_Validate_Ok Hr. constructor; [done|done|]. intros ?. contradiction. Qed.

Lemma requireWorkerTurnStartUpdate_Ok x db : requireWorkerTurnStartUpdate x = Ok db -> x = (1, db).
Proof. unfold requireWorkerTurnStartUpdate. rewrite reject_Ok. destruct x. simpl. intros [Hn [= ->]]. apply dec_stable in Hn. by subst. Qed.

(** A guarded UPDATE of one worker at a new revision. *)
Lemma guarded_worker_update key msg guard set db u db' r :
  db.(worker_reservations) !! key = Some r -> guard r = true ->
  tx_exec (fun db => let? x := wrap msg (update_worker key guard set db) in requireWorkerTurnStartUpdate x) (bump_revision db) = Ok (u, db') ->
  thread_free key (set r) db = true /\ db' = put_worker key (set r) db.
Proof.
  intros E Hg H. apply tx_exec_Ok, result_bind_Ok in H as (x & Hx & H). apply wrap_Ok in Hx.
  apply requireWorkerTurnStartUpdate_Ok in H as ->. apply (update_worker_row _ _ _ _ _ _ r) in Hx as (_ & _ & Hf & ->); done.
Qed.

Lemma put_worker_inv key r db :
  workers_inv db -> revision_of db < MaxInt64 -> worker_ok key r -> r.(w_Revision) = revision_of db + 1 ->
  thread_free key r db = true -> workers_inv (put_worker key r db).
Proof. intros Hi Hlt Hok Hrev Hf. by apply (workers_inv_put db key r). Qed.

(** The queries of [BeginWorkerResultFinalization]. *)
Lemma bound_intent_query key turnID db intent :
  turns_inv db -> authority_lookup (queryWorkerTurnStartIntentByTurn key turnID db) = Ok intent ->
  db.(worker_turn_start_intents) !! intent.(ti_Key) = Some intent.(ti_Row).
Proof.
  intros Hi H. apply authority_lookup_Ok in H. unfold queryWorkerTurnStartIntentByTurn in H. by apply (scan_intent_Ok db Hi) in H as [E _].
Qed.

(** A turn of a worker has one intent. *)
Lemma intent_of_turn db k1 k2 i1 i2 :
  turns_inv db -> db.(worker_turn_start_intents) !! k1 = Some i1 -> db.(worker_turn_start_intents) !! k2 = Some i2 ->
  k1.1 = k2.1 -> i1.(it_turn_id) = i2.(it_turn_id) -> i1.(it_turn_id) <> "" -> k1 = k2.
Proof.
  intros Hi E1 E2 Hk Ht Hne. apply dec_stable. intros Hn. apply (tn_unique _ Hi _ _ _ _ E1 E2). split; [cbn; by intros ->|].
  cbn. right. right. right. right. done.
Qed.

Lemma outbox_package_query db package o :
  outbox_inv db -> queryResultOutboxByPackage package db = Ok o ->
  exists k r, db.(peer_result_outbox) !! k = Some r /\ k.2 = package /\ scanResultOutbox (Some (k, r)) = Ok o.
Proof.
  intros Hi H. unfold queryResultOutboxByPackage in H. apply do_Ok in H as [_ H]. by apply (scan_outbox_Ok db Hi) in H.
Qed.

Lemma BeginWorkerResultFinalization_keeps key turnID target code at_ db x db' :
  peer_inv db -> BeginWorkerResultFinalization key turnID target code at_ db = Ok (x, db') -> peer_inv db' /\ peer_history db db'.
Proof.
  intros Hi H. unfold BeginWorkerResultFinalization in H. apply tx_bind_Ok in H as ([] & ? & [Hv ->]%tx_lift_Ok & H).
  apply tx_bind_Ok in H as (ts & ? & [Hts ->]%tx_lift_Ok & H). apply tx_bind_Ok in H as (intent & ? & [Hq ->]%tx_query_Ok & H).
  apply (bound_intent_query _ _ _ _ (pv_turns _ Hi)) in Hq. destruct (decide _) as [|Hb]; [by apply tx_throw_Ok in H|].
  apply tx_bind_Ok in H as (o & ? & [Ho ->]%tx_query_Ok & H). destruct (decide _) as [|Hk]; [by apply tx_throw_Ok in H|].
  apply tx_bind_Ok in H as (worker & ? & [Hw ->]%tx_query_Ok & H). apply queryWorker_Ok in Hw as (w & Ew & -> & _). cbn [w_Row] in H.
  destruct (decide (w.(w_Status) = WorkerFinalizing)) as [|Hnf]; [destruct (decide _); go_inv; by split|].
  destruct (decide (_ /\ workerTerminalMatches _ _ _ /\ _)) as [|_]; [go_inv; by split|].
  destruct (decide _) as [|Hrun]; [by apply tx_throw_Ok in H|]. destruct (decide _) as [|Hid]; [by apply tx_throw_Ok in H|].
  apply tx_bind_Ok in H as (revision & ? & Hrev & H). apply nextWorkerRevision_Ok in Hrev as (-> & Hlt & ->).
  apply tx_bind_Ok in H as ([] & ? & [Hval ->]%tx_lift_Ok & H). apply wrap_Ok in Hval.
  apply tx_bind_Ok in H as (u & db1 & Hup & [-> ->]%tx_ret_Ok).
  assert (w.(w_ActiveTurnID) = turnID /\ o.(xo_State) = ResultOutboxCapturePending /\ w.(w_CodexThreadID) = intent.(ti_Row).(it_managed_thread_id)
    /\ w.(w_DeviceID) = intent.(ti_Row).(it_device_id)) as (Ha & Hos & Hth & Hdev) by (split_and!; apply dec_stable; tauto).
  assert (w.(w_Status) = WorkerRunning \/ w.(w_Status) = WorkerInterrupted) as Hst.
  { apply dec_stable. intros Hn. apply Hrun. left. tauto. }
  apply (guarded_worker_update _ _ _ _ _ _ _ w) in Hup as [Hfree ->];
    [|done|apply bool_decide_eq_true; split; [destruct Hst as [-> | ->]; by_decide|done]].
  assert (intent.(ti_Key).1 = key /\ intent.(ti_Row).(it_turn_id) = turnID /\ intent.(ti_Row).(it_state) = WorkerTurnStartBound)
    as (Hik & Hit & Hib) by (split_and!; apply dec_stable; tauto).
  apply (put_worker_keeps key w); try done; [by destruct Hst as [-> | ->]| | | |].
  - apply put_worker_inv; [apply Hi|done|by apply validated_worker_ok|done|done].
  - intros k i Ei Hki Hp. rewrite <- Hki in Ew. apply (prepared_ready _ _ _ _ (pv_turns _ Hi) Ei Hp) in Ew.
    destruct Hst as [Hst|Hst]; by rewrite Hst in Ew.
  - intros k i Ei Hki Hbi Hai. cbn in Hai |- *.
    assert (valid_id turnID) as Hne%valid_id_nonempty.
    { unfold validateFinalizationRequest in Hv. rewrite !do_Ok, wrap_Ok in Hv. tauto. }
    assert (k = intent.(ti_Key)) as ->.
    { apply (intent_of_turn db _ _ i intent.(ti_Row)); [apply Hi|done|done|congruence|congruence|]. congruence. }
    rewrite Hq in Ei. injection Ei as <-. split_and!; [by intros [=]| |by intros _]. intros _.
    apply (outbox_package_query _ _ _ (pv_outbox _ Hi)) in Ho as (k & r & Er & Hkp & Hs). apply scan_outbox_fields in Hs as (_ & _ & Hs).
    rewrite Hs in Hk, Hos. cbn in Hk, Hos. exists r. assert (k = (intent.(ti_Key).1, intent.(ti_Row).(it_package_id))) as <-.
    { rewrite Hik. destruct k as [k p]. f_equal; [|done]. apply dec_stable. tauto. }
    split_and!; [done|apply dec_stable; tauto|apply dec_stable; tauto|rewrite Hos; by_decide].
  - intros _. destruct intent.(ti_Key) as [kk iid] eqn:Ek. cbn in Hik. subst kk. exists iid, intent.(ti_Row). cbn. by rewrite Ha.
Qed.

(** The final target of a fenced worker. *)
Lemma final_target_cases r : worker_dynamic r -> r.(w_Status) = WorkerFinalizing ->
  r.(w_FinalTarget) = WorkerIdle \/ r.(w_FinalTarget) = WorkerInterrupted \/ r.(w_FinalTarget) = WorkerFailed.
Proof.
  intros [_ _ _ _ _ _ _ Hm _ _] E. destruct Hm as (_ & _ & _ & _ & _ & _ & Hm & _). destruct (Hm E) as (_ & _ & _ & _ & _ & Ht & _).
  unfold WorkerStatus_finalTarget in Ht. rewrite bool_decide_eq_true in Ht. rewrite !elem_of_cons, elem_of_nil in Ht. tauto.
Qed.

Lemma completeWorkerResultFinalization_effect key r m ts db worker db' :
  peer_inv db -> db.(worker_reservations) !! key = Some r ->
  completeWorkerResultFinalization {| w_Key := key; w_Row := r |} m ts db = Ok (worker, db') ->
  r.(w_Status) = WorkerFinalizing /\ r.(w_ActiveTurnID) = m.(rm_TurnID) /\
  let r' := finish_worker r.(w_FinalTarget) r.(w_FinalFailureCode) (revision_of db + 1) (Z.max ts r.(w_UpdatedAt)) r in
  worker = {| w_Key := key; w_Row := r' |} /\ db' = put_worker key r' db /\ peer_inv db' /\ peer_history db db'.
Proof.
  intros Hi E H. unfold completeWorkerResultFinalization in H. apply tx_bind_Ok in H as ([] & ? & [Ha ->]%tx_query_Ok & H).
  apply worker_authority in Ha as (_ & _ & _ & Hact & Hrev & Hst & _). cbn [w_Row w_Key] in H.
  apply tx_bind_Ok in H as (revision & ? & Hr & H). apply nextWorkerRevision_Ok in Hr as (-> & Hlt & ->).
  apply tx_bind_Ok in H as ([] & ? & [Hv ->]%tx_lift_Ok & H). apply wrap_Ok in Hv.
  apply tx_bind_Ok in H as (u & db1 & Hup & [-> ->]%tx_ret_Ok).
  apply (guarded_worker_update _ _ _ _ _ _ _ r) in Hup as [Hf ->]; [|done|by apply bool_decide_eq_true].
  split; [done|]. split; [done|]. cbv zeta. split; [done|]. split; [done|].
  destruct (wi_rows _ (pv_workers _ Hi) _ _ E) as [Hok _].
  apply (put_worker_keeps key r); try done; [by rewrite Hst|apply put_worker_inv; try done; [apply Hi|by apply validated_worker_ok]| | |].
  - intros k i Ei Hk Hp. rewrite <- Hk in E. apply (prepared_ready _ _ _ _ (pv_turns _ Hi) Ei Hp) in E. by rewrite Hst in E.
  - intros k i Ei Hk Hb Hai. cbn. destruct (final_target_cases _ (wk_dynamic _ _ Hok) Hst) as [->|[->| ->]];
      split_and!; try (by intros [=]); intros Hin; revert Hin; by_decide.
  - intros Hin. cbn in Hin. destruct (final_target_cases _ (wk_dynamic _ _ Hok) Hst) as [Hf'|[Hf'|Hf']]; rewrite Hf' in Hin;
      exfalso; revert Hin; by_decide.
Qed.

(** Publishing the metadata lets the worker go and hands the package to the delivery. *)
Lemma AcknowledgeResultOutboxMetadata_keeps key md at_ db x db' :
  peer_inv db -> AcknowledgeResultOutboxMetadata key md at_ db = Ok (x, db') -> peer_inv db' /\ peer_history db db'.
Proof.
  intros Hi H. unfold AcknowledgeResultOutboxMetadata in H. apply tx_bind_Ok in H as ([] & ? & [Hv ->]%tx_lift_Ok & H).
  apply tx_bind_Ok in H as (m & ? & [Hd ->]%tx_lift_Ok & H). apply tx_bind_Ok in H as ([] & ? & [Hm ->]%tx_lift_Ok & H).
  apply tx_bind_Ok in H as (ts & ? & [Hts ->]%tx_lift_Ok & H). apply tx_bind_Ok in H as (o & ? & [Hq ->]%tx_query_Ok & H).
  destruct (decide _) as [|_]; [by apply tx_throw_Ok in H|].
  apply tx_bind_Ok in H as (worker & ? & [Hw ->]%tx_query_Ok & H). apply queryWorker_Ok in Hw as (w & Ew & -> & _).
  destruct (decide (_ \/ _)) as [|_].
  { destruct (decide _); [by apply tx_throw_Ok in H|]. apply tx_bind_Ok in H as (? & ? & [_ ->]%tx_query_Ok & [_ ->]%tx_ret_Ok). by split. }
  destruct (decide (o.(xo_State) <> _)) as [|Hst]; [by apply tx_throw_Ok in H|]. apply dec_stable in Hst.
  apply tx_bind_Ok in H as (intent & ? & [Hint ->]%tx_query_Ok & H).
  apply tx_bind_Ok in H as ([] & ? & [Hauth ->]%tx_query_Ok & H).
  apply tx_bind_Ok in H as (worker & db1 & Hfin & H). apply tx_bind_Ok in H as (u & db2 & Hup & [_ ->]%tx_ret_Ok).
  apply (completeWorkerResultFinalization_effect _ _ _ _ _ _ _ Hi Ew) in Hfin as (Hwst & Hact & -> & Hdb1 & Hi1 & Hh1).
  apply queryResultOutbox_Ok in Hq as (r & E & Hdev & Hs). assert (Ho := Hs). apply scan_outbox_fields in Ho as (_ & Hval & Ho).
  assert (r.(ob_state) = ResultOutboxPublishPending) as Hr by (rewrite Ho in Hst; done).
  assert (o.(xo_UpdatedAt) = r.(ob_updated_at) /\ o.(xo_Key) = key) as [Hua Hkey] by (rewrite Ho; destruct key; cbn in Hdev |- *; by rewrite Hdev).
  assert (db1.(peer_result_outbox) !! outbox_key key = Some r) as E1 by (by rewrite Hdb1).
  apply tx_exec_Ok, result_bind_Ok in Hup as (y & Hy & Hup). apply wrap_Ok in Hy. apply requireWorkerTurnStartUpdate_Ok in Hup as ->.
  apply (update_outbox_row _ _ _ _ _ _ r) in Hy as (_ & _ & _ & ->); [|done|by apply bool_decide_eq_true].
  destruct (wi_rows _ (pv_workers _ Hi) _ _ Ew) as [Hok _].
  rewrite Hua. destruct (set_delivery_keeps key r o ResultOutboxDeliveryPending 0
    (Z.max (Z.max ts r.(ob_updated_at)) (Z.max ts w.(w_UpdatedAt))) db1) as [Hi2 Hh2]; try done;
    [by rewrite Hr|lia|by left| |split; [done|by etrans]].
  apply (turns_inv_outbox db1); try done; [apply Hi1|]. intros k i r1 Ei Er Hopen. simpl. rewrite lookup_insert_ne; [done|].
  intros Hk. rewrite <- Hk, E1 in Er. injection Er as <-. rewrite Hr in Hopen. unfold outbox_key in Hk. injection Hk as Hk Hpk.
  destruct Hopen as [[_ ?]|(_ & Hh & _)]; [done|]. unfold holds_turn in Hh. simpl in Hh. rewrite <- Hk, Hdb1 in Hh. simpl in Hh.
  rewrite lookup_insert_eq in Hh. destruct Hh as [Hh _]. cbn in Hh.
  destruct (final_target_cases _ (wk_dynamic _ _ Hok) Hwst) as [->|[->| ->]] in Hh; revert Hh; by_decide.
Qed.
