(* ===== verification/PeerResolve.v ===== *)
(** Preparing a turn start and resolving it: the checkpoint of the worker, the bytes of the
    package, the operation and the intent change together, and the invariant of the peer
    holds after each transaction. *)

From S2P Require Export PeerSteps.

(** ** Resolving an intent *)

(** The receipts after the operation of an intent is completed. *)
Definition completed_operations (c op status outcome code : string) (ops ops' : gmap (string * string) WorkerOperationRow) : Prop :=
  (op = "" /\ ops' = ops) \/
  (op <> "" /\ exists o ts, ops !! (c, op) = Some o /\ o.(wop_status) = WorkerOperationPending /\ o.(wop_updated_at) <= ts /\
     ops' = <[(c, op) := set_operation status outcome code ts o]> ops).

Lemma same_intent_sym k1 k2 i1 i2 : same_intent k1 i1 (k2, i2) -> same_intent k2 i2 (k1, i1).
Proof.
  unfold same_intent. cbn. intros [Hn H]. split; [done|]. destruct H as [H|[H|[(? & ? & ?)|[(? & H & ?)|(? & H & ?)]]]].
  - by left.
  - right. by left.
  - right. right. by left.
  - right. right. right. left. rewrite H. done.
  - right. right. right. right. rewrite H. done.
Qed.

(** The state after worker [key] and its prepared intent [i] were resolved together. *)
Record resolution (db : PeerDB) (key : WorkerKey) (iid : string) (i : TurnIntentRow) (w w' : WorkerRow) (i' : TurnIntentRow)
    (outcome code : string) (db' : PeerDB) : Prop := {
  rs_intent : db.(worker_turn_start_intents) !! (key, iid) = Some i;
  rs_prepared : i.(it_state) = WorkerTurnStartPrepared;
  rs_worker : db.(worker_reservations) !! key = Some w;
  rs_identity : worker_identity w' = worker_identity w;
  rs_revision : w'.(w_Revision) = revision_of db + 1;
  rs_bound : revision_of db < MaxInt64;
  rs_worker_ok : worker_ok key w';
  rs_free : thread_free key w' db = true;
  rs_intent_ok : intent_ok (key, iid) i';
  rs_unique : forall k1 i1, db.(worker_turn_start_intents) !! k1 = Some i1 -> ~ same_intent (key, iid) i' (k1, i1);
  rs_same_operation : i'.(it_operation_id) = i.(it_operation_id);
  rs_state : i'.(it_state) <> WorkerTurnStartPrepared;
  rs_receipt : forall o ts, receipt_resolves i' (operation_receipt (key.1.1, i.(it_operation_id))
    (set_operation (if decide (outcome = WorkerOutcomeFailed) then WorkerOperationFailed else WorkerOperationSucceeded) outcome code ts o));
  rs_outcome : WorkerOperationOutcome_terminal outcome = true /\ failure_code_ok code /\ (outcome = WorkerOutcomeFailed <-> code <> "");
  rs_held : i'.(it_state) = WorkerTurnStartBound -> held_by db' (key, iid) i' w';
  rs_others : forall k1 i1, db.(worker_turn_start_intents) !! k1 = Some i1 -> k1 <> (key, iid) -> k1.1 = key ->
    w'.(w_ActiveTurnID) = i1.(it_turn_id) -> w'.(w_Status) ∉ [WorkerRunning; WorkerFinalizing];
  rs_running : w'.(w_Status) ∈ [WorkerRunning; WorkerFinalizing] ->
    i'.(it_state) = WorkerTurnStartBound /\ i'.(it_turn_id) = w'.(w_ActiveTurnID);
  rs_outbox : outbox_inv (set_peer_result_outbox db db'.(peer_result_outbox));
  rs_kept : forall k, k.1 <> key -> db'.(peer_result_outbox) !! k = db.(peer_result_outbox) !! k;
  rs_operations : completed_operations key.1.1 i.(it_operation_id)
    (if decide (outcome = WorkerOutcomeFailed) then WorkerOperationFailed else WorkerOperationSucceeded) outcome code
    db.(worker_operation_receipts) db'.(worker_operation_receipts);
  rs_after : db' = set_worker_turn_start_intents (set_worker_operation_receipts (set_peer_result_outbox (put_worker key w' db)
    db'.(peer_result_outbox)) db'.(worker_operation_receipts)) (<[(key, iid) := i']> db.(worker_turn_start_intents));
}.

Section Resolution.
Context (db : PeerDB) (Hi : peer_inv db) (key : WorkerKey) (iid : string) (i : TurnIntentRow) (w w' : WorkerRow) (i' : TurnIntentRow)
  (outcome code : string) (db' : PeerDB) (R : resolution db key iid i w w' i' outcome code db').

Local Lemma resolved_workers : db'.(worker_reservations) = <[key := w']> db.(worker_reservations).
Proof using R. by rewrite (rs_after _ _ _ _ _ _ _ _ _ _ R). Qed.

Local Lemma resolved_intents : db'.(worker_turn_start_intents) = <[(key, iid) := i']> db.(worker_turn_start_intents).
Proof using R. by rewrite (rs_after _ _ _ _ _ _ _ _ _ _ R). Qed.

Local Lemma resolved_kept : workers_kept db db'.
Proof using R. by apply (workers_kept_put _ _ key w w'); [apply R|apply R|apply resolved_workers]. Qed.

(** Receipts of other operations stay. *)
Local Lemma resolved_receipts k o :
  db.(worker_operation_receipts) !! k = Some o -> k <> (key.1.1, i.(it_operation_id)) \/ i.(it_operation_id) = "" ->
  db'.(worker_operation_receipts) !! k = Some o.
Proof using R.
  intros E Hn. destruct (rs_operations _ _ _ _ _ _ _ _ _ _ R) as [[_ ->]|(Hop & o' & ts & _ & _ & _ & ->)]; [done|].
  rewrite lookup_insert_ne; [done|]. intros <-. destruct Hn; done.
Qed.

Local Lemma resolved_other_operation k1 i1 :
  db.(worker_turn_start_intents) !! k1 = Some i1 -> k1 <> (key, iid) -> i1.(it_operation_id) <> "" ->
  (k1.1.1.1, i1.(it_operation_id)) <> (key.1.1, i.(it_operation_id)) \/ i.(it_operation_id) = "".
Proof using R Hi.
  intros E1 Hn Hne. destruct (decide (i.(it_operation_id) = "")) as [|Hop]; [by right|left]. intros [= Hc Ho].
  apply (tn_unique _ (pv_turns _ Hi) _ _ _ _ (rs_intent _ _ _ _ _ _ _ _ _ _ R) E1). split; [done|]. cbn. right. right. right. left. done.
Qed.

Local Lemma resolved_operations_inv : operations_inv db'.
Proof using R Hi.
  intros k o E. assert (WorkerOperationReceipt_Validate (operation_receipt k o) = Ok tt /\
    is_Some (db.(worker_reservations) !! (k.1, o.(wop_tree_id), o.(wop_agent_id)))) as [Hv [w0 Hw0]].
  { destruct (rs_operations _ _ _ _ _ _ _ _ _ _ R) as [[_ Hops]|(Hop & o' & ts & E' & Hp & Hts & Hops)]; rewrite Hops in E;
      [by apply (pv_operations _ Hi)|]. rewrite lookup_insert_Some in E. destruct E as [[<- <-]|[_ E]]; [|by apply (pv_operations _ Hi)].
    destruct (pv_operations _ Hi _ _ E') as [Hv Hw]. split; [|done].
    destruct (rs_outcome _ _ _ _ _ _ _ _ _ _ R) as (H1 & H2 & H3). by apply completed_operation_valid. }
  split; [done|]. destruct (resolved_kept _ _ Hw0) as (w1 & Hw1 & _). by eexists.
Qed.

Local Lemma resolved_other_prepared k1 i1 :
  db.(worker_turn_start_intents) !! k1 = Some i1 -> k1 <> (key, iid) -> i1.(it_state) = WorkerTurnStartPrepared -> k1.1 <> key.
Proof using R Hi.
  intros E1 Hn Hp Hk. apply (tn_unique _ (pv_turns _ Hi) _ _ _ _ (rs_intent _ _ _ _ _ _ _ _ _ _ R) E1). split; [done|].
  cbn. right. right. left. split_and!; [apply R|done|done].
Qed.

Local Lemma resolved_reserved k1 i1 states : k1.1 <> key -> reserved_for k1 i1 db states -> reserved_for k1 i1 db' states.
Proof using R. intros Hk (o & Eo & X). exists o. split; [|done]. by rewrite (rs_kept _ _ _ _ _ _ _ _ _ _ R). Qed.

Local Lemma resolved_turns_inv : turns_inv db'.
Proof using R Hi.
  destruct (pv_turns _ Hi) as [H1 H2 H3 H4 H5 H6 H7]. constructor; rewrite ?resolved_intents.
  - intros k j. rewrite lookup_insert_Some. intros [[<- <-]|[_ E]].
    + split; [apply R|]. rewrite resolved_workers, lookup_insert_eq. by eexists.
    + destruct (H1 _ _ E) as [Hv [w0 Hw0]]. split; [done|]. destruct (resolved_kept _ _ Hw0) as (w1 & Hw1 & _). by eexists.
  - intros k1 k2 j1 j2. rewrite !lookup_insert_Some. intros [[<- <-]|[Hn1 E1]] [[<- <-]|[Hn2 E2]].
    + by intros [? _].
    + by apply (rs_unique _ _ _ _ _ _ _ _ _ _ R).
    + intros Hs%same_intent_sym. by apply (rs_unique _ _ _ _ _ _ _ _ _ _ R _ _ E1).
    + by apply H2.
  - intros k j. rewrite lookup_insert_Some. intros [[<- <-]|[Hn E]] Hp; [by destruct (rs_state _ _ _ _ _ _ _ _ _ _ R)|].
    assert (k.1 <> key) as Hk by (by apply (resolved_other_prepared _ j)). destruct (H3 _ _ E Hp) as [(w0 & Hw0 & Hv) Ho Hop]. constructor.
    + exists w0. rewrite resolved_workers, lookup_insert_ne by done. done.
    + by apply resolved_reserved.
    + intros Hne. destruct (Hop Hne) as (o & Eo & X). exists o. split; [|done]. apply resolved_receipts; [done|].
      by apply resolved_other_operation.
  - intros k j. rewrite lookup_insert_Some. intros [[<- <-]|[Hn E]] Hb w0; rewrite resolved_workers.
    + cbn [fst]. rewrite lookup_insert_eq. intros [= <-]. by apply R.
    + destruct (decide (k.1 = key)) as [Hk|Hk].
      * rewrite Hk, lookup_insert_eq. intros [= <-] Ha. pose proof (rs_others _ _ _ _ _ _ _ _ _ _ R _ _ E (not_eq_sym Hn) Hk Ha) as Hno.
        rewrite !not_elem_of_cons in Hno. destruct Hno as (X1 & X2 & _). split_and!; [done|done|].
        rewrite !elem_of_cons, elem_of_nil. tauto.
      * rewrite lookup_insert_ne by done. intros Hw0 Ha. destruct (H4 _ _ E Hb _ Hw0 Ha) as (X1 & X2 & X3).
        split_and!; [intros; apply resolved_reserved; auto|intros; apply resolved_reserved; auto|exact X3].
  - intros k j. rewrite lookup_insert_Some. intros [[<- <-]|[Hn E]] Hst Hne.
    + rewrite (rs_same_operation _ _ _ _ _ _ _ _ _ _ R) in *. cbn [fst].
      destruct (rs_operations _ _ _ _ _ _ _ _ _ _ R) as [[? _]|(_ & o & ts & E' & _ & _ & Hops)]; [done|].
      eexists. rewrite Hops, lookup_insert_eq. split; [done|]. split; [|apply R].
      destruct (pk_operation _ _ _ (H3 _ _ (rs_intent _ _ _ _ _ _ _ _ _ _ R) (rs_prepared _ _ _ _ _ _ _ _ _ _ R)) Hne) as (o2 & E2 & Hk & _).
      cbn [fst] in E2, Hk. rewrite E' in E2. injection E2 as <-. done.
    + destruct (H5 _ _ E Hst Hne) as (o & Eo & X). exists o. split; [|done]. apply resolved_receipts; [done|].
      apply (resolved_other_operation _ j); [done|by apply not_eq_sym|done].
  - rewrite map_size_insert_Some by (eexists; apply R). done.
  - intros k w0. rewrite resolved_workers, lookup_insert_Some. intros [[<- <-]|[Hn E]].
    + intros Hin. destruct (rs_running _ _ _ _ _ _ _ _ _ _ R Hin) as [Hst Ht]. exists iid, i'. by rewrite lookup_insert_eq.
    + intros Hin. destruct (H7 _ _ E Hin) as (iid1 & i1 & E1 & X). exists iid1, i1. by rewrite lookup_insert_ne by congruence.
Qed.

Lemma resolution_keeps : peer_inv db' /\ peer_history db db'.
Proof using R Hi.
  assert (Hr : revision_of db' = revision_of db + 1) by (by rewrite (rs_after _ _ _ _ _ _ _ _ _ _ R)).
  split; constructor.
  - apply (workers_inv_same (put_worker key w' db)); [apply resolved_workers|by rewrite (rs_after _ _ _ _ _ _ _ _ _ _ R)|].
    apply put_worker_inv; [apply Hi|apply R..].
  - apply (workspaces_inv_kept db); [by rewrite (rs_after _ _ _ _ _ _ _ _ _ _ R)|apply resolved_kept|apply Hi].
  - apply resolved_operations_inv.
  - apply resolved_turns_inv.
  - apply (outbox_inv_kept (set_peer_result_outbox db db'.(peer_result_outbox))); [done| |apply R].
    exact resolved_kept.
  - lia.
  - intros k r E. rewrite resolved_workers. destruct (decide (k = key)) as [->|Hn].
    + rewrite lookup_insert_eq. exists w'. split; [done|]. rewrite (rs_worker _ _ _ _ _ _ _ _ _ _ R) in E. injection E as <-.
      constructor; [apply R|]. intros Hf. pose proof (prepared_ready _ (key, iid) _ _ (pv_turns _ Hi)
        (rs_intent _ _ _ _ _ _ _ _ _ _ R) (rs_prepared _ _ _ _ _ _ _ _ _ _ R) (rs_worker _ _ _ _ _ _ _ _ _ _ R)) as Hre. by rewrite Hf in Hre.
    + rewrite lookup_insert_ne by done. eauto using worker_history_refl.
  - intros k r. rewrite resolved_workers, lookup_insert_Some. intros [[<- <-]|[_ E]]; [right|by left].
    rewrite (rs_revision _ _ _ _ _ _ _ _ _ _ R). lia.
  - intros k r E. destruct (rs_operations _ _ _ _ _ _ _ _ _ _ R) as [[_ ->]|(_ & o & ts & E' & Hp & _ & ->)]; [by exists r|].
    destruct (decide (k = (key.1.1, i.(it_operation_id)))) as [->|Hn].
    + rewrite lookup_insert_eq. eexists. split; [done|]. rewrite E in E'. injection E' as <-. by split.
    + rewrite lookup_insert_ne by done. by exists r.
  - intros k r E. exists r. split; [by rewrite (rs_after _ _ _ _ _ _ _ _ _ _ R)|by left].
  - by rewrite (rs_after _ _ _ _ _ _ _ _ _ _ R).
Qed.
End Resolution.

Lemma complete_intent_operation_effect key op outcome code ts db x db' :
  let status := if decide (outcome = WorkerOutcomeFailed) then WorkerOperationFailed else WorkerOperationSucceeded in
  operations_inv db ->
  (op <> "" -> exists o, db.(worker_operation_receipts) !! (key.1.1, op) = Some o /\ o.(wop_status) = WorkerOperationPending) ->
  complete_intent_operation key op outcome code ts db = Ok (x, db') ->
  exists ops', completed_operations key.1.1 op status outcome code db.(worker_operation_receipts) ops' /\
    db' = set_worker_operation_receipts db ops'.
Proof.
  intros status Hi Hp H. unfold complete_intent_operation in H. destruct (decide (op <> "")) as [Hne|He].
  - apply tx_bind_Ok in H as (receipt & db1 & H & [_ ->]%tx_ret_Ok).
    apply completeWorkerOperationReceipt_effect in H as (o & E & Hk & H); [|done]. destruct (Hp Hne) as (o' & E' & Hs).
    rewrite E in E'. injection E' as <-. destruct H as [(_ & _ & Hst & _)|(_ & _ & ->)].
    + rewrite Hs in Hst. by destruct (decide (outcome = WorkerOutcomeFailed)).
    + eexists. split; [|done]. right. split; [done|]. exists o, (Z.max ts o.(wop_updated_at)). split_and!; [done|done|lia|done].
  - apply dec_stable in He. apply tx_ret_Ok in H as [_ ->]. eexists. split; [by left|by destruct db].
Qed.

(** The operation of a prepared intent is pending. *)
Lemma prepared_operation db k i :
  turns_inv db -> db.(worker_turn_start_intents) !! k = Some i -> i.(it_state) = WorkerTurnStartPrepared ->
  i.(it_operation_id) <> "" ->
  exists o, db.(worker_operation_receipts) !! (k.1.1.1, i.(it_operation_id)) = Some o /\ o.(wop_status) = WorkerOperationPending.
Proof.
  intros Hi E Hp Hne. destruct (pk_operation _ _ _ (tn_prepared _ Hi _ _ E Hp) Hne) as (o & Eo & _ & _ & Hs). by exists o.
Qed.

Lemma queryWorkerTurnStartIntent_Ok key iid db intent :
  queryWorkerTurnStartIntent key iid db = Ok intent ->
  exists i, db.(worker_turn_start_intents) !! (key, iid) = Some i /\ intent = {| ti_Key := (key, iid); ti_Row := i |} /\
    intent_ok (key, iid) i.
Proof.
  unfold queryWorkerTurnStartIntent. destruct (_ !! (key, iid)) as [i|]; simpl; [|done]. rewrite do_Ok, wrap_Ok. intros [Hv [= <-]].
  by exists i.
Qed.

Lemma guarded_intent_update k msg guard set db u db' i :
  db.(worker_turn_start_intents) !! k = Some i -> guard i = true ->
  tx_exec (fun db => let? x := wrap msg (update_intent k guard set db) in requireWorkerTurnStartUpdate x) db = Ok (u, db') ->
  (forall k1 i1, db.(worker_turn_start_intents) !! k1 = Some i1 -> ~ same_intent k (set i) (k1, i1)) /\
  db' = set_worker_turn_start_intents db (<[k := set i]> db.(worker_turn_start_intents)).
Proof.
  intros E Hg H. apply tx_exec_Ok, result_bind_Ok in H as (x & Hx & H). apply wrap_Ok in Hx.
  apply requireWorkerTurnStartUpdate_Ok in H as ->. unfold update_intent in Hx. apply result_bind_Ok in Hx as ([n t] & Hx & [= -> <-]).
  apply sql_update_one in Hx as (i' & E' & _ & Hc & ->). rewrite E in E'. injection E' as <-.
  apply andb_true_iff in Hc as [_ Hc]. rewrite none_where_true in Hc. done.
Qed.

Lemma checkpoint_facts key w k i :
  validatePreparedTurnIntentWorker {| w_Key := key; w_Row := w |} {| ti_Key := k; ti_Row := i |} = Ok tt ->
  key = k.1 /\ w.(w_DeviceID) = i.(it_device_id) /\ w.(w_CodexThreadID) = i.(it_managed_thread_id) /\
  w.(w_LastBoundTurnID) = i.(it_previous_turn_id) /\ w.(w_Status) = WorkerReady /\ w.(w_RetryTarget) = i.(it_retry_target) /\
  w.(w_Revision) = i.(it_prepared_revision).
Proof.
  unfold validatePreparedTurnIntentWorker. rewrite reject_Ok. cbn. intros [H _]. split_and!; apply dec_stable; tauto.
Qed.

Lemma bindWorkerTurnStartIntent_keeps key iid turnID rollout at_ db x db' :
  peer_inv db -> bindWorkerTurnStartIntent key iid turnID rollout at_ db = Ok (x, db') -> peer_inv db' /\ peer_history db db'.
Proof.
  intros Hi H. unfold bindWorkerTurnStartIntent in H. apply tx_bind_Ok in H as ([] & ? & [Hv ->]%tx_lift_Ok & H).
  apply tx_bind_Ok in H as ([] & ? & [Ht ->]%tx_lift_Ok & H). apply wrap_Ok in Ht. apply tx_bind_Ok in H as (ts & ? & [Hts ->]%tx_lift_Ok & H).
  apply tx_bind_Ok in H as (intent & ? & [Hq ->]%tx_query_Ok & H). apply queryWorkerTurnStartIntent_Ok in Hq as (i & Ei & -> & Hiok).
  cbn [ti_Row ti_Key] in H. apply tx_bind_Ok in H as ([] & ? & [_ ->]%tx_lift_Ok & H).
  destruct (decide (turnID = _)) as [|Hprev]; [by apply tx_throw_Ok in H|].
  destruct (decide (i.(it_state) = _)) as [Hb|Hnb].
  { destruct (decide _); [by apply tx_throw_Ok in H|]. apply tx_query_Ok in H as [_ ->]. by split. }
  destruct (decide (i.(it_state) <> _)) as [|Hp]; [by apply tx_throw_Ok in H|]. apply dec_stable in Hp.
  apply tx_bind_Ok in H as (worker & ? & [Hw ->]%tx_query_Ok & H). apply queryWorker_Ok in Hw as (w & Ew & -> & _). cbn [w_Row] in H.
  apply tx_bind_Ok in H as ([] & ? & [Hck ->]%tx_lift_Ok & H). apply checkpoint_facts in Hck as (_ & Hdev & Hth & _ & Hst & Hre & Hrv).
  apply tx_bind_Ok in H as ([] & ? & [Hfree ->]%tx_query_Ok & H).
  apply tx_bind_Ok in H as (revision & ? & Hr & H). apply nextWorkerRevision_Ok in Hr as (-> & Hlt & ->).
  apply tx_bind_Ok in H as ([] & ? & [Hval ->]%tx_lift_Ok & H). apply wrap_Ok in Hval.
  apply tx_bind_Ok in H as (u & db1 & Hup & H). apply (guarded_worker_update _ _ _ _ _ _ _ w) in Hup as [Hf ->];
    [|done|by apply bool_decide_eq_true].
  apply tx_bind_Ok in H as (receipt & db2 & Hop & H). apply tx_bind_Ok in H as ([] & ? & [Hiv ->]%tx_lift_Ok & H). apply wrap_Ok in Hiv.
  apply tx_bind_Ok in H as (u2 & db3 & Hup & [_ ->]%tx_ret_Ok).
  apply complete_intent_operation_effect in Hop as (ops & Hops & ->);
    [|apply (operations_inv_kept db); [done|by apply (workers_kept_put _ _ key w (set_lifecycle w.(w_CodexThreadID) "running" "" turnID turnID "" (revision_of db + 1) (Z.max (Z.max ts w.(w_UpdatedAt)) i.(it_updated_at)) w))|apply Hi]
     |apply (prepared_operation db (key, iid) i); [apply Hi|done|done]].
  apply (guarded_intent_update _ _ _ _ _ _ _ i) in Hup as [Hu ->]; [|done|by apply bool_decide_eq_true].
  destruct (tn_prepared _ (pv_turns _ Hi) _ _ Ei Hp) as [_ (o & Eo & Ho) _].
  apply (resolution_keeps db Hi key iid i w (set_lifecycle w.(w_CodexThreadID) WorkerRunning "" turnID turnID "" (revision_of db + 1)
      (Z.max (Z.max ts w.(w_UpdatedAt)) i.(it_updated_at)) w)
    (resolve_intent WorkerTurnStartBound turnID i.(it_rejection_failure_code) (default (ti_Rollout i) rollout) (revision_of db + 1)
      (Z.max (Z.max ts w.(w_UpdatedAt)) i.(it_updated_at)) i) WorkerOutcomeStarted "").
  constructor; try done.
  - by apply validated_worker_ok.
  - intros o' ts'. left. done.
  - intros _ _. cbn. split_and!; [|by intros [=]|done]. intros _. exists o. done.
  - intros k1 i1 E1 Hn Hk Ha. exfalso. apply (Hu _ _ E1). split; [done|]. cbn. right. right. right. right.
    split_and!; [by apply valid_id_nonempty|by rewrite <- Ha|done].
  - by apply (outbox_inv_kept db); [|apply workers_kept_same|apply Hi].
Qed.

(** Giving back the bytes of a turn that never started. *)
Lemma releaseTurnStartResultReservation_effect k i db u db' :
  releaseTurnStartResultReservation {| ti_Key := k; ti_Row := i |} db = Ok (u, db') ->
  exists r, db.(peer_result_outbox) !! (k.1, i.(it_package_id)) = Some r /\
    db' = set_peer_result_outbox db (delete (k.1, i.(it_package_id)) db.(peer_result_outbox)).
Proof.
  intros H. unfold releaseTurnStartResultReservation in H. cbn [ti_Row ti_Key] in H.
  apply tx_bind_Ok in H as (o & ? & [Hq ->]%tx_query_Ok & H). destruct (decide _) as [|Hc]; [by apply tx_throw_Ok in H|].
  apply queryResultOutbox_Ok in Hq as (r & E & Hdev & Hs). apply scan_outbox_fields in Hs as (_ & _ & Ho). rewrite Ho in Hc. cbn in Hc.
  apply tx_exec_Ok in H. unfold sql_delete in H. cbn in H. apply reject_Ok in H as [_ [= <-]]. exists r. split; [done|].
  f_equal. apply (sql_delete_key _ _ _ r); [done| |by intros y [[Hy _] _]].
  split; [done|]. split; apply dec_stable; tauto.
Qed.

Lemma RejectWorkerTurnStartIntent_keeps key iid code at_ db x db' :
  peer_inv db -> RejectWorkerTurnStartIntent key iid code at_ db = Ok (x, db') -> peer_inv db' /\ peer_history db db'.
Proof.
  intros Hi H. unfold RejectWorkerTurnStartIntent in H. apply tx_bind_Ok in H as ([] & ? & [Hv ->]%tx_lift_Ok & H).
  apply tx_bind_Ok in H as ([] & ? & [Hcode ->]%tx_lift_Ok & H). destruct (decide (code = "")) as [|Hne]; [by apply tx_throw_Ok in H|].
  apply tx_bind_Ok in H as (ts & ? & [Hts ->]%tx_lift_Ok & H).
  apply tx_bind_Ok in H as (intent & ? & [Hq ->]%tx_query_Ok & H). apply queryWorkerTurnStartIntent_Ok in Hq as (i & Ei & -> & Hiok).
  cbn [ti_Row ti_Key] in H. destruct (decide (i.(it_state) = _)) as [Hb|Hnb].
  { destruct (decide _); [by apply tx_throw_Ok in H|]. apply tx_query_Ok in H as [_ ->]. by split. }
  destruct (decide (i.(it_state) <> _)) as [|Hp]; [by apply tx_throw_Ok in H|]. apply dec_stable in Hp.
  apply tx_bind_Ok in H as (worker & ? & [Hw ->]%tx_query_Ok & H). apply queryWorker_Ok in Hw as (w & Ew & -> & _). cbn [w_Row] in H.
  apply tx_bind_Ok in H as ([] & ? & [Hck ->]%tx_lift_Ok & H). apply checkpoint_facts in Hck as (_ & Hdev & Hth & _ & Hst & Hre & Hrv).
  apply tx_bind_Ok in H as (u0 & db0 & Hrel & H). apply releaseTurnStartResultReservation_effect in Hrel as (r & Er & ->). cbn [fst] in *.
  apply tx_bind_Ok in H as (revision & ? & Hr & H). apply nextWorkerRevision_Ok in Hr as (-> & Hlt & ->).
  apply tx_bind_Ok in H as ([] & ? & [Hval ->]%tx_lift_Ok & H). apply wrap_Ok in Hval.
  apply tx_bind_Ok in H as (u & db1 & Hup & H). apply (guarded_worker_update _ _ _ _ _ _ _ w) in Hup as [Hf ->];
    [|done|by apply bool_decide_eq_true].
  change (revision_of (set_peer_result_outbox db _)) with (revision_of db) in *.
  set (at' := Z.max (Z.max ts w.(w_UpdatedAt)) i.(it_updated_at)) in *.
  set (w' := set_lifecycle w.(w_CodexThreadID) i.(it_retry_target) "" "" w.(w_LastBoundTurnID) "" (revision_of db + 1) at' w) in *.
  apply tx_bind_Ok in H as (receipt & db2 & Hop & H). apply tx_bind_Ok in H as ([] & ? & [Hiv ->]%tx_lift_Ok & H). apply wrap_Ok in Hiv.
  apply tx_bind_Ok in H as (u2 & db3 & Hup & [_ ->]%tx_ret_Ok).
  apply complete_intent_operation_effect in Hop as (ops & Hops & ->);
    [|apply (operations_inv_kept db); [done|by apply (workers_kept_put _ _ key w w')|apply Hi]
     |apply (prepared_operation db (key, iid) i); [apply Hi|done|done]].
  apply (guarded_intent_update _ _ _ _ _ _ _ i) in Hup as [Hu ->]; [|done|by apply bool_decide_eq_true].
  assert (i.(it_retry_target) = WorkerPending \/ i.(it_retry_target) = WorkerIdle) as Hretry.
  { unfold intent_ok, WorkerTurnStartIntent_Validate in Hiok. rewrite do_Ok, reject_Ok in Hiok. destruct Hiok as (_ & Hc & _).
    apply dec_stable. intros Hn. apply Hc. cbn. tauto. }
  apply (resolution_keeps db Hi key iid i w w' (resolve_intent WorkerTurnStartRejected i.(it_turn_id) code (ti_Rollout i) (revision_of db + 1)
      at' i) WorkerOutcomeFailed code).
  constructor; try done.
  - by apply validated_worker_ok.
  - intros o' ts'. right. done.
  - intros k1 i1 E1 Hn Hk Ha. cbn. destruct Hretry as [-> | ->]; by_decide.
  - intros Hin. exfalso. revert Hin. cbn. destruct Hretry as [-> | ->]; by_decide.
  - apply (outbox_inv_delete _ _ r); [apply Hi|done].
  - intros k Hk. simpl. rewrite lookup_delete_ne; [done|]. by intros <-.
Qed.

(** ** Preparing an intent *)

(** The retention makes room by dropping intents no worker holds, and changes nothing else. *)
Lemma requireWorkerTurnStartIntentCapacity_effect db u db' :
  turns_inv db -> requireWorkerTurnStartIntentCapacity db = Ok (u, db') ->
  exists t, db' = set_worker_turn_start_intents db t /\ t ⊆ db.(worker_turn_start_intents) /\
    Z.of_nat (size t) < MaximumWorkerTurnStartIntentReceipts /\
    (forall k i, db.(worker_turn_start_intents) !! k = Some i -> ~ prunable db (k, i) -> t !! k = Some i).
Proof.
  intros Hi H. unfold requireWorkerTurnStartIntentCapacity in H. cbv zeta in H. destruct (decide _) as [Hlt|Hge].
  - injection H as <- <-. exists db.(worker_turn_start_intents). split; [by destruct db|]. done.
  - match goal with H : context [sql_delete ?P ?t] |- _ => pose proof (size_after_delete P t) as Hs; destruct (sql_delete P t) as [n t'] eqn:Ed end.
    apply reject_Ok in H as [Hn [= <- <-]]. apply dec_stable in Hn. exists t'. split; [done|]. cbn [fst snd] in Hs.
    injection Ed as _ <-. split_and!; [apply map_filter_subseteq|lia|]. intros k i E Hp. apply map_lookup_filter_Some. split; [done|].
    intros Hin. unfold pruned_ids in Hin. apply list_elem_of_fmap in Hin as ([k1 i1] & Hk & Hin). cbn in Hk.
    unfold limit, order_by, order_by_text in Hin. apply elem_of_take in Hin as (j & Hj%list_elem_of_lookup_2 & _).
    rewrite !(sort_by_perm _ _), (elem_of_select (prunable db)) in Hj. destruct Hj as [E1 Hp1].
    assert (k1 = k) as ->. { apply dec_stable. intros Hne. apply (tn_unique _ Hi _ _ _ _ E1 E). split; [cbn; congruence|]. left. cbn. done. }
    rewrite E in E1. by injection E1 as <-.
Qed.

(** A set of intents that is smaller is still sound, if every worker keeps the one it holds. *)
Lemma turns_inv_subset db t :
  turns_inv db -> t ⊆ db.(worker_turn_start_intents) ->
  (forall k i, db.(worker_turn_start_intents) !! k = Some i -> ~ prunable db (k, i) -> t !! k = Some i) ->
  turns_inv (set_worker_turn_start_intents db t).
Proof.
  intros [H1 H2 H3 H4 H5 H6 H7] Hs Hkeep. assert (forall k i, t !! k = Some i -> db.(worker_turn_start_intents) !! k = Some i) as Hl
    by (intros k i E; by apply (lookup_weaken _ _ _ _ E)). constructor; simpl.
  - intros k i E. by apply H1, Hl.
  - intros k1 k2 i1 i2 E1 E2. by apply H2; apply Hl.
  - intros k i E Hp. destruct (H3 _ _ (Hl _ _ E) Hp) as [W O P]. by constructor.
  - intros k i E Hb. apply (H4 _ _ (Hl _ _ E) Hb).
  - intros k i E Hst. apply (H5 _ _ (Hl _ _ E) Hst).
  - pose proof (map_subseteq_size _ _ Hs). lia.
  - intros k w Ew Hst. destruct (H7 _ _ Ew Hst) as (iid & i & Ei & Hb & Ht). exists iid, i. split; [|done]. apply Hkeep; [done|].
    intros [Hr|[_ Hn]]; cbn in *; [by rewrite Hb in Hr|]. apply Hn. unfold holds_turn. cbn. by rewrite Ew.
Qed.

Lemma intents_keep db t :
  peer_inv db -> turns_inv (set_worker_turn_start_intents db t) ->
  peer_inv (set_worker_turn_start_intents db t) /\ peer_history db (set_worker_turn_start_intents db t).
Proof.
  intros [I1 I2 I3 I4 I5] Ht. split; constructor.
  - by apply (workers_inv_same db).
  - by apply (workspaces_inv_kept db); [|apply workers_kept_same|].
  - by apply (operations_inv_kept db); [|apply workers_kept_same|].
  - done.
  - by apply (outbox_inv_kept db); [|apply workers_kept_same|].
  - done.
  - intros k r E. eauto using worker_history_refl.
  - intros k r E. by left.
  - intros k r E. by exists r.
  - intros k r E. exists r. split; [done|by left].
  - done.
Qed.

(** A new prepared intent beside the others. *)
Lemma turns_inv_insert db k i :
  turns_inv db -> intent_ok k i -> i.(it_state) = WorkerTurnStartPrepared -> prepared_ok db k i ->
  db.(worker_turn_start_intents) !! k = None ->
  (forall k1 i1, db.(worker_turn_start_intents) !! k1 = Some i1 -> ~ same_intent k i (k1, i1)) ->
  Z.of_nat (size db.(worker_turn_start_intents)) < MaximumWorkerTurnStartIntentReceipts ->
  turns_inv (set_worker_turn_start_intents db (<[k := i]> db.(worker_turn_start_intents))).
Proof.
  intros [H1 H2 H3 H4 H5 H6 H7] Hok Hst Hp Hn Hu Hc. constructor; simpl.
  - intros k1 i1. rewrite lookup_insert_Some. intros [[<- <-]|[_ E]]; [|by apply H1]. split; [done|].
    destruct Hp as [(w & Hw & _) _ _]. by eexists.
  - intros k1 k2 i1 i2. rewrite !lookup_insert_Some. intros [[<- <-]|[_ E1]] [[<- <-]|[_ E2]].
    + by intros [? _].
    + by apply Hu.
    + intros Hs%same_intent_sym. by apply (Hu _ _ E1).
    + by apply H2.
  - intros k1 i1. rewrite lookup_insert_Some. intros [[<- <-]|[_ E]] Hp1; [by destruct Hp|]. by destruct (H3 _ _ E Hp1).
  - intros k1 i1. rewrite lookup_insert_Some. intros [[<- <-]|[_ E]] Hb; [by rewrite Hst in Hb|]. apply (H4 _ _ E Hb).
  - intros k1 i1. rewrite lookup_insert_Some. intros [[<- <-]|[_ E]] Hb; [by rewrite Hst in Hb|]. apply (H5 _ _ E Hb).
  - rewrite map_size_insert_None by done. lia.
  - intros k1 w Ew Hin. destruct (H7 _ _ Ew Hin) as (iid & i1 & Ei & X). exists iid, i1. rewrite lookup_insert_ne; [done|].
    intros ->. by rewrite Hn in Ei.
Qed.

(** What [validateTurnStartPreparationAuthority] checks. *)
Lemma preparation_authority key w request db :
  operations_inv db -> validateTurnStartPreparationAuthority {| w_Key := key; w_Row := w |} request db = Ok tt ->
  request.(pt_Key) = key /\ w.(w_DeviceID) = request.(pt_DeviceID) /\ w.(w_CodexThreadID) = request.(pt_ManagedThreadID) /\
  w.(w_LastBoundTurnID) = request.(pt_PreviousTurnID) /\ w.(w_Status) = WorkerReady /\
  ((w.(w_RetryTarget) = WorkerPending /\ request.(pt_OperationID) = "") \/
   (w.(w_RetryTarget) = WorkerIdle /\ request.(pt_OperationID) <> "" /\
    exists o, db.(worker_operation_receipts) !! (key.1.1, request.(pt_OperationID)) = Some o /\
      (key.1.1, o.(wop_tree_id), o.(wop_agent_id)) = key /\ o.(wop_action) = WorkerOperationFollowup /\
      o.(wop_status) = WorkerOperationPending)).
Proof.
  intros Hi H. unfold validateTurnStartPreparationAuthority in H. cbn [w_Key w_Row] in H. apply reject_Ok in H as [H1 H].
  assert (key = request.(pt_Key)) as <- by (apply dec_stable; tauto). split_and!; [done|apply dec_stable; tauto..|].
  destruct (decide (w.(w_RetryTarget) = WorkerPending)) as [Hr|Hr].
  - left. apply reject_Ok in H as [H _]. split; [done|by apply dec_stable].
  - right. split; [apply dec_stable; tauto|]. apply reject_Ok in H as [Hne H]. split; [done|].
    apply result_bind_Ok in H as (receipt & Hq & H). rewrite queryWorkerOperation_inv in Hq by done.
    destruct (_ !! (key.1.1, _)) as [o|]; [|done]. injection Hq as <-. exists o. apply reject_Ok in H as [H _].
    cbn in H. split_and!; [done|apply dec_stable; tauto..].
Qed.

(** The row of a new intent is valid. *)
Lemma prepared_intent_ok request key w ts :
  PrepareWorkerTurnStartIntentRequest_Validate request = Ok tt -> request.(pt_Key) = key -> worker_dynamic w -> 0 <= ts ->
  (w.(w_RetryTarget) = WorkerPending /\ request.(pt_OperationID) = "") \/
  (w.(w_RetryTarget) = WorkerIdle /\ request.(pt_OperationID) <> "") ->
  intent_ok (key, request.(pt_IntentID)) (prepared_intent request {| w_Key := key; w_Row := w |} ts).
Proof.
  intros Hv <- Hd Hts Hr. unfold intent_ok, WorkerTurnStartIntent_Validate. rewrite do_Ok, !reject_Ok, !do_Ok, !reject_Ok. cbn.
  pose proof (wd_revision _ Hd) as [Hz Hlt]. split_and!.
  - destruct request as [k iid d m p pk op [] lim]. exact Hv.
  - intros [? ?]. destruct Hr as [[? _]|[? _]]; contradiction.
  - destruct Hr as [[-> ->]|[-> ?]]; intros [[? ?]|[? ?]]; try done; contradiction.
  - lia.
  - done.
  - unfold validate_resolution. cbn. rewrite decide_True, reject_Ok by done. split; [|done]. intros [?|[?|?]]; done.
  - lia.
  - done.
Qed.

Lemma PrepareWorkerTurnStartIntent_keeps request at_ db x db' :
  peer_inv db -> PrepareWorkerTurnStartIntent request at_ db = Ok (x, db') -> peer_inv db' /\ peer_history db db'.
Proof.
  intros Hi H. unfold PrepareWorkerTurnStartIntent in H. apply tx_bind_Ok in H as ([] & ? & [Hv ->]%tx_lift_Ok & H).
  apply tx_bind_Ok in H as (ts & ? & [Hts ->]%tx_lift_Ok & H). assert (ts = at_ /\ 0 <= at_) as [-> Hat] by (unfold unixTime in Hts; go_inv; lia).
  apply tx_bind_Ok in H as (existing & ? & [Hq ->]%tx_query_Ok & H).
  destruct existing; [destruct (decide _); [by apply tx_throw_Ok in H|go_inv; by split]|]. clear Hq.
  apply tx_bind_Ok in H as (worker & ? & [Hw ->]%tx_query_Ok & H). apply queryWorker_Ok in Hw as (w & Ew & -> & _).
  apply tx_bind_Ok in H as ([] & ? & [Ha ->]%tx_query_Ok & H). apply preparation_authority in Ha as (_ & Hdev & Hth & Hprev & Hst & Hr); [|apply Hi].
  apply tx_bind_Ok in H as ([] & ? & [_ ->]%tx_query_Ok & H). apply tx_bind_Ok in H as ([] & ? & [_ ->]%tx_query_Ok & H).
  apply tx_bind_Ok in H as ([] & ? & [Habs ->]%tx_query_Ok & H). apply tx_bind_Ok in H as (u1 & db1 & Hcap & H).
  apply requireWorkerTurnStartIntentCapacity_effect in Hcap as (t & -> & Hsub & Hsize & Hkeep); [|apply Hi].
  destruct (intents_keep db t Hi) as [Hi1 Hh1]; [by apply turns_inv_subset; [apply Hi|..]|].
  apply tx_bind_Ok in H as (o & db2 & Hres & H). assert (Hk2 := Hres). apply (reserveResultOutbox_keeps _ _ _ _ _ _ Hi1) in Hk2 as [Hi2 Hh2].
  apply (reserveResultOutbox_effect _ _ _ _ _ _ Hi1) in Hres as [(_ & Hq & _)|(_ & _ & _ & _ & _ & _ & _ & ->)].
  { exfalso. apply require_absent_Ok in Habs as (e & He & _). change (queryResultOutboxByPackage request.(pt_PackageID) db = Ok o) in Hq.
    by rewrite Hq in He. }
  apply tx_bind_Ok in H as (u2 & db3 & Hins & [_ ->]%tx_ret_Ok).
  apply tx_exec_Ok, wrap_Ok, result_bind_Ok in Hins as (tb & Hins & [= <-]). apply sql_insert_Ok in Hins as (Hc & Hn & ->).
  apply andb_true_iff in Hc as [_ Hu]. rewrite none_where_true in Hu.
  match goal with |- peer_inv (set_worker_turn_start_intents ?d _) /\ _ => set (db2 := d) in * end.
  destruct (wi_rows _ (pv_workers _ Hi) _ _ Ew) as [Hok _].
  assert (turns_inv (set_worker_turn_start_intents db2 (<[(request.(pt_Key), request.(pt_IntentID)) :=
    prepared_intent request {| w_Key := request.(pt_Key); w_Row := w |} at_]> db2.(worker_turn_start_intents)))) as Ht.
  { apply turns_inv_insert; try done; [apply Hi2| |].
    - apply prepared_intent_ok; try done; [by destruct Hok|]. destruct Hr as [?|(? & ? & _)]; [by left|by right].
    - constructor.
      + exists w. split; [done|]. unfold validatePreparedTurnIntentWorker. rewrite reject_Ok. cbn.
        split; [|done]. intros Hx. decompose [or] Hx; contradiction.
      + eexists. split; [apply lookup_insert_eq|]. cbn. split_and!; [done|done|by_decide].
      + intros Hne. cbn in Hne |- *. destruct Hr as [[_ ?]|(_ & _ & o' & Eo & Hk & Hact & Hs)]; [done|]. exists o'. done. }
  destruct (intents_keep db2 _ Hi2 Ht) as [Hi3 Hh3]. split; [done|]. etrans; [exact Hh1|]. by etrans.
Qed.
