(* ===== verification/PeerInboxState.v ===== *)
(** What holds of the inbox between calls: every row reads back, the offsets of a package
    are those of its manifest's parts, the chunk receipts of an attempt cover exactly the
    bytes below its offsets, and a prepared removal belongs to the attempt that is being
    received. *)

From S2P Require Export PeerInbox PeerSteps.

(** ** The parts of a manifest *)

Notation parts_of m := (default [] m.(rm_Parts)).

Lemma leb_false_le a b : String.leb a b = false -> String.le b a /\ b <> a.
Proof.
  intros H. destruct (total String.le a b) as [Hab|Hba].
  - unfold String.le in Hab. by destruct (String.leb a b).
  - split; [done|]. intros ->. unfold String.le in Hba. by destruct (String.leb a a).
Qed.

Lemma payload_kind_named kind : validatePayloadKind kind = Ok tt -> kind <> "".
Proof. intros H ->. by vm_compute in H. Qed.

(** The kinds of the parts are strictly increasing. *)
Lemma scan_parts_sorted s parts s' :
  scan_parts s parts = Ok s' ->
  StronglySorted String.le (rd_Kind <$> parts) /\ NoDup (rd_Kind <$> parts) /\
  (s.(ps_previous) <> "" -> Forall (fun d => String.le s.(ps_previous) d.(rd_Kind) /\ s.(ps_previous) <> d.(rd_Kind)) parts).
Proof.
  revert s. induction parts as [|d parts IH]; intros s H; [by split_and!; constructor|]. cbn [scan_parts] in H.
  apply do_Ok in H as [_ H]. apply do_Ok in H as [Hk%wrap_Ok%payload_kind_named H]. apply reject_Ok in H as [Hp H]. apply reject_Ok in H as [_ H].
  apply IH in H as (Hs & Hn & Hall). cbn [ps_previous] in Hall. specialize (Hall Hk).
  assert (Forall (fun k => String.le d.(rd_Kind) k /\ d.(rd_Kind) <> k) (rd_Kind <$> parts)) as Hall' by (by apply Forall_fmap).
  rewrite fmap_cons. split_and!.
  - constructor; [done|]. eapply Forall_impl; [exact Hall'|]. by intros k [? _].
  - constructor; [|done]. intros Hin. rewrite Forall_forall in Hall'. by destruct (Hall' _ Hin).
  - intros Hne. assert (String.leb d.(rd_Kind) s.(ps_previous) = false) as Hlt by (apply not_true_is_false; tauto).
    apply leb_false_le in Hlt as [Hle Hneq]. constructor; [done|]. eapply Forall_impl; [exact Hall|]. intros x [Hx Hnx]. split; [by etrans|].
    intros E. apply Hneq. rewrite E. apply (anti_symm String.le); [by rewrite <- E|done].
Qed.

Record manifest_parts (m : ResultManifest) : Prop := {
  mp_present : is_Some m.(rm_Parts);
  mp_sorted : StronglySorted String.le (rd_Kind <$> parts_of m);
  mp_unique : NoDup (rd_Kind <$> parts_of m);
  mp_valid : Forall (fun d => ResultPackagePartDescriptor_Validate d = Ok tt /\ validatePayloadKind d.(rd_Kind) = Ok tt) (parts_of m);
}.

Lemma decoded_parts md m : DecodeManifest md = Ok m -> manifest_parts m.
Proof.
  intros H%DecodeManifest_valid. apply ResultManifest_text in H as [_ _ _ _ _ _ _ (parts & s & Hp & Hs)].
  constructor; rewrite Hp; cbn [default]; [done| | |by eapply scan_parts_valid]; by apply scan_parts_sorted in Hs as (? & ? & _).
Qed.

Lemma descriptor_bounds d :
  ResultPackagePartDescriptor_Validate d = Ok tt -> 1 <= d.(rd_Size) <= payload_maximum d.(rd_Kind) /\ sha256DigestPattern d.(rd_SHA256) = true.
Proof.
  unfold ResultPackagePartDescriptor_Validate, payload_maximum. intros H. apply result_bind_Ok in H as (maximum & -> & H).
  apply reject_Ok in H as [Hb H]. apply reject_Ok in H as [Hsha _]. split; [lia|]. by apply not_false_is_true.
Qed.

(** ** The invariant *)

Definition inbox_metadata (r : InboxRow) : ResultPackageMetadata := {|
  rpm_Manifest := r.(in_manifest_bytes); rpm_ManifestDescriptor := {| rd_Kind := ResultPackagePartManifest;
    rd_Size := r.(in_manifest_size_bytes); rd_SHA256 := r.(in_manifest_sha256) |} |}.

(** A row that reads back. *)
Record inbox_ok (packageID : string) (r : InboxRow) (m : ResultManifest) : Prop := {
  ik_manifest : DecodeManifest (inbox_metadata r) = Ok m;
  ik_parts : r.(in_parts_json) = encodeResultParts m.(rm_Parts);
  ik_source : r.(in_source_agent_id) = m.(rm_SourceAgentID) /\ r.(in_source_device_id) = m.(rm_SourceDeviceID) /\
    r.(in_managed_thread_id) = m.(rm_ManagedThreadID) /\ r.(in_turn_id) = m.(rm_TurnID) /\
    r.(in_lifecycle_revision) = m.(rm_LifecycleRevision);
  ik_names : m.(rm_PackageID) = packageID /\ m.(rm_ControllerID) = r.(in_controller_id) /\ m.(rm_TreeID) = r.(in_tree_id);
  ik_bytes : resultPackageBytes (inbox_metadata r) = Ok r.(in_package_bytes);
  ik_authority : ResultInboxAuthority_Validate (inbox_authority r) = Ok tt;
  ik_package : valid_id packageID;
  ik_attempt : valid_id r.(in_attempt_id);
  ik_lease : 1 <= r.(in_lease_expires_at);
  ik_times : 0 <= r.(in_created_at) <= r.(in_updated_at);
  ik_state : r.(in_state) ∈ [ResultInboxReceiving; ResultInboxAvailable; ResultInboxEvictionTombstone];
  ik_check : inbox_check packageID r = true;
}.

(** The progress of a part: whole chunks, up to the last one. *)
Record part_ok (state : string) (d : ResultPackagePartDescriptor) (p : InboxPartRow) : Prop := {
  pt_size : p.(ip_size_bytes) = d.(rd_Size);
  pt_digest : p.(ip_sha256) = d.(rd_SHA256);
  pt_offset : 0 <= p.(ip_next_offset) <= p.(ip_size_bytes);
  pt_chunks : p.(ip_next_offset) = p.(ip_size_bytes) \/ (ResultPackageChunkBytes | p.(ip_next_offset));
  pt_complete : state <> ResultInboxReceiving -> p.(ip_next_offset) = p.(ip_size_bytes);
}.

Definition parts_ok (t : gmap (string * string) InboxPartRow) (packageID state : string) (parts : list ResultPackagePartDescriptor) : Prop :=
  (forall d, d ∈ parts -> exists p, t !! (packageID, d.(rd_Kind)) = Some p /\ part_ok state d p) /\
  (forall kind p, t !! (packageID, kind) = Some p -> kind ∈ rd_Kind <$> parts).

(** The size of the chunk at an offset of a part. *)
Definition chunk_size (size offset : Z) : Z := Z.min ResultPackageChunkBytes (size - offset).

Notation last_ordinal db := (db.(peer_metadata).(pm_last_result_inbox_retention_ordinal)).

Record inbox_inv (db : PeerDB) : Prop := {
  bi_rows : forall packageID r, db.(peer_result_inbox) !! packageID = Some r ->
    1 <= r.(in_retention_ordinal) <= last_ordinal db /\
    exists m, inbox_ok packageID r m /\ parts_ok db.(peer_result_inbox_parts) packageID r.(in_state) (parts_of m);
  bi_ordinals : forall k1 k2 r1 r2, db.(peer_result_inbox) !! k1 = Some r1 -> db.(peer_result_inbox) !! k2 = Some r2 ->
    r1.(in_retention_ordinal) = r2.(in_retention_ordinal) -> k1 = k2;
  bi_parts : forall packageID kind p, db.(peer_result_inbox_parts) !! (packageID, kind) = Some p ->
    is_Some (db.(peer_result_inbox) !! packageID);
  bi_chunks : forall packageID attempt kind offset c,
    db.(peer_result_inbox_chunks) !! (packageID, attempt, kind, offset) = Some c ->
    exists r p, db.(peer_result_inbox) !! packageID = Some r /\ r.(in_attempt_id) = attempt /\
      db.(peer_result_inbox_parts) !! (packageID, kind) = Some p /\ 0 <= offset < p.(ip_next_offset) /\
      (ResultPackageChunkBytes | offset) /\ c.(ic_size_bytes) = chunk_size p.(ip_size_bytes) offset;
  bi_covered : forall packageID r kind p offset, db.(peer_result_inbox) !! packageID = Some r ->
    db.(peer_result_inbox_parts) !! (packageID, kind) = Some p -> 0 <= offset < p.(ip_next_offset) ->
    (ResultPackageChunkBytes | offset) -> is_Some (db.(peer_result_inbox_chunks) !! (packageID, r.(in_attempt_id), kind, offset));
  bi_count : Z.of_nat (size db.(peer_result_inbox)) <= MaximumPeerResultPackages;
  bi_bytes : package_total db.(peer_result_inbox) <= MaximumPeerResultStoreBytes;
  bi_removals : forall k v, db.(peer_result_inbox_attempt_receipts) !! k = Some v -> is_ok (scanResultInboxRemoval (Some (k, v))) = true;
  bi_prepared : forall k v, db.(peer_result_inbox_attempt_receipts) !! k = Some v -> v.(ir_phase) = ResultInboxRemovalPrepared ->
    exists r, db.(peer_result_inbox) !! k.1 = Some r /\ r.(in_attempt_id) = k.2 /\ r.(in_state) = ResultInboxReceiving;
  bi_completed : forall k v r, db.(peer_result_inbox_attempt_receipts) !! k = Some v -> v.(ir_phase) <> ResultInboxRemovalPrepared ->
    db.(peer_result_inbox) !! k.1 = Some r -> r.(in_attempt_id) <> k.2;
  bi_owner : forall k v r, db.(peer_result_inbox_attempt_receipts) !! k = Some v -> db.(peer_result_inbox) !! k.1 = Some r ->
    removal_authority v = inbox_authority r;
  bi_owners : forall k1 k2 v1 v2, db.(peer_result_inbox_attempt_receipts) !! k1 = Some v1 ->
    db.(peer_result_inbox_attempt_receipts) !! k2 = Some v2 -> k1.1 = k2.1 -> removal_authority v1 = removal_authority v2;
  bi_removal_count : Z.of_nat (size db.(peer_result_inbox_attempt_receipts)) <= MaximumResultInboxRemovalReceipts;
}.

(** ** Reading a package *)

Definition next_offset (t : gmap (string * string) InboxPartRow) (packageID kind : string) : Z :=
  match t !! (packageID, kind) with Some p => p.(ip_next_offset) | None => 0 end.

(** The offsets in the order of the manifest. *)
Definition inbox_offsets (t : gmap (string * string) InboxPartRow) (packageID : string) (parts : list ResultPackagePartDescriptor)
    : list ResultPackagePartOffset :=
  (fun d => {| po_Kind := d.(rd_Kind); po_NextOffset := next_offset t packageID d.(rd_Kind) |}) <$> parts.

Lemma part_offsets_manifest db packageID state m :
  manifest_parts m -> parts_ok db.(peer_result_inbox_parts) packageID state (parts_of m) ->
  part_offsets packageID db = inbox_offsets db.(peer_result_inbox_parts) packageID (parts_of m).
Proof.
  intros [_ Hs Hn _] [Hin Hout]. set (t := db.(peer_result_inbox_parts)) in *. unfold part_offsets. fold t.
  set (row := fun x : (string * string) * InboxPartRow => {| po_Kind := x.1.2; po_NextOffset := x.2.(ip_next_offset) |}).
  set (l := select (fun x : (string * string) * InboxPartRow => x.1.1 = packageID) t).
  assert (Hl : forall k p, (k, p) ∈ l <-> t !! k = Some p /\ k.1 = packageID).
  { intros k p. unfold l. by rewrite (elem_of_select (fun x : (string * string) * InboxPartRow => x.1.1 = packageID)). }
  assert (Hkinds : po_Kind <$> inbox_offsets t packageID (parts_of m) = rd_Kind <$> parts_of m).
  { unfold inbox_offsets. by rewrite <- list_fmap_compose. }
  assert (Hnd : NoDup ((fun x : (string * string) * InboxPartRow => x.1.2) <$> l)).
  { apply NoDup_fmap_2_strong; [|apply NoDup_select]. intros [[p1 k1] x1] [[p2 k2] x2] [E1 H1]%Hl [E2 H2]%Hl H. cbn in *.
    subst. rewrite E1 in E2. by injection E2 as ->. }
  symmetry. apply (sorted_unique String.le po_Kind).
  - by rewrite Hkinds.
  - apply (proj1 (StronglySorted_key String.le po_Kind _)). by rewrite Hkinds.
  - apply (proj1 (StronglySorted_key String.le po_Kind _)). rewrite <- list_fmap_compose.
    apply (proj2 (StronglySorted_key String.le (po_Kind ∘ row) _)). apply (sort_by_sorted String.le).
  - unfold order_by_text. rewrite (sort_by_perm String.le). apply NoDup_Permutation.
    + apply (NoDup_fmap_1 po_Kind). by rewrite Hkinds.
    + apply (NoDup_fmap_1 po_Kind). by rewrite <- list_fmap_compose.
    + intros o. unfold inbox_offsets. rewrite !list_elem_of_fmap. split.
      * intros (d & -> & Hd). destruct (Hin d Hd) as (p & E & _). exists ((packageID, d.(rd_Kind)), p). split; [|by apply Hl].
        unfold row, next_offset. cbn. by rewrite E.
      * intros ([[pk kind] p] & -> & [E Hk]%Hl). cbn in Hk. subst pk. pose proof (Hout _ _ E) as Hk. apply list_elem_of_fmap in Hk as (d & -> & Hd).
        exists d. split; [|done]. unfold row, next_offset. cbn. by rewrite E.
Qed.

(** The value a row reads back as. *)
Definition inbox_value (t : gmap (string * string) InboxPartRow) (packageID : string) (r : InboxRow) (m : ResultManifest) : ResultInbox := {|
  bx_Authority := inbox_authority r; bx_PackageID := packageID; bx_State := r.(in_state); bx_AttemptID := r.(in_attempt_id);
  bx_RetentionOrdinal := r.(in_retention_ordinal); bx_LeaseExpiresAt := r.(in_lease_expires_at); bx_Metadata := inbox_metadata r;
  bx_Manifest := m; bx_Offsets := inbox_offsets t packageID (parts_of m); bx_PackageBytes := r.(in_package_bytes);
  bx_CreatedAt := r.(in_created_at); bx_UpdatedAt := r.(in_updated_at) |}.

Lemma offsets_check t packageID state parts :
  Forall (fun d => ResultPackagePartDescriptor_Validate d = Ok tt /\ validatePayloadKind d.(rd_Kind) = Ok tt) parts ->
  (forall d, d ∈ parts -> exists p, t !! (packageID, d.(rd_Kind)) = Some p /\ part_ok state d p) ->
  check_offsets state (inbox_offsets t packageID parts) parts = Ok tt.
Proof.
  induction 1 as [|d parts [Hd Hk] _ IH]; intros Hin; [done|]. cbn [inbox_offsets fmap list_fmap check_offsets].
  apply descriptor_bounds in Hd as [Hb _]. destruct (Hin d) as (p & E & [P1 P2 P3 P4 P5]); [apply elem_of_cons; by left|].
  assert (next_offset t packageID d.(rd_Kind) = p.(ip_next_offset)) as -> by (unfold next_offset; by rewrite E).
  unfold ResultPackagePartOffset_Validate. cbn [po_Kind po_NextOffset]. rewrite Hk. cbn [result_bind].
  rewrite decide_False by lia. cbn [wrap result_bind]. rewrite decide_False by (intros [?|?]; [done|lia]).
  rewrite decide_False by (intros [Hs Hne]; apply Hne; rewrite <- P1; auto). apply IH. intros x Hx. apply Hin. apply elem_of_cons. by right.
Qed.

Lemma inbox_value_valid t packageID r m :
  inbox_ok packageID r m -> parts_ok t packageID r.(in_state) (parts_of m) -> 1 <= r.(in_retention_ordinal) <= MaxInt64 ->
  ResultInbox_Validate (inbox_value t packageID r m) = Ok tt.
Proof.
  intros [K1 K2 K3 K4 K5 K6 K7 K8 K9 K10 K11 K12] [Hin _] Ho. unfold ResultInbox_Validate. cbn [bx_Authority bx_PackageID bx_AttemptID
    bx_RetentionOrdinal bx_LeaseExpiresAt bx_CreatedAt bx_UpdatedAt bx_Metadata bx_Manifest bx_PackageBytes bx_State bx_Offsets inbox_value].
  rewrite K6, K7, K8. cbn [wrap result_bind]. rewrite (decide_False (P := _ \/ _)) by lia. rewrite (decide_False (P := _ < 1)) by lia.
  rewrite (decide_False (P := _ \/ _)) by lia.
  assert (validateInboxMetadata (inbox_authority r) packageID (inbox_metadata r) m = Ok tt) as ->.
  { unfold validateInboxMetadata. rewrite K1. cbn [result_bind]. rewrite !reject_Ok. split; [by intros Hn|]. split; [|done].
    destruct K4 as (? & ? & ?). intros [?|[?|?]]; done. }
  cbn [result_bind]. rewrite K5. cbn [result_bind]. rewrite decide_False by (by intros Hn). rewrite decide_False by (by intros Hn).
  rewrite decide_False by (intros Hn; apply Hn; apply length_fmap).
  apply offsets_check; [|done]. by destruct (decoded_parts _ _ K1).
Qed.

Section Queries.
Context (db : PeerDB) (Hm : peer_metadata_check db.(peer_metadata) = true) (Hi : inbox_inv db).

Lemma last_ordinal_bound : 0 <= last_ordinal db <= MaxInt64.
Proof. unfold peer_metadata_check, in_range in Hm. lia. Qed.

Lemma query_inbox packageID r :
  db.(peer_result_inbox) !! packageID = Some r ->
  exists m, inbox_ok packageID r m /\ parts_ok db.(peer_result_inbox_parts) packageID r.(in_state) (parts_of m) /\
    queryResultInboxByPackage packageID db = Ok (inbox_value db.(peer_result_inbox_parts) packageID r m).
Proof.
  intros E. pose proof last_ordinal_bound. destruct (bi_rows _ Hi _ _ E) as (Ho & m & Hok & Hp). exists m. split_and!; [done|done|].
  unfold queryResultInboxByPackage. rewrite (ik_package _ _ _ Hok). cbn [wrap result_bind]. rewrite E. cbn [fmap option_fmap option_map].
  unfold scanResultInbox. rewrite (ik_parts _ _ _ Hok).
  change r.(in_manifest_bytes) with (inbox_metadata r).(rpm_Manifest).
  change r.(in_manifest_size_bytes) with (inbox_metadata r).(rpm_ManifestDescriptor).(rd_Size).
  change r.(in_manifest_sha256) with (inbox_metadata r).(rpm_ManifestDescriptor).(rd_SHA256).
  rewrite (metadata_reads_back _ _ (ik_manifest _ _ _ Hok)). cbn [result_bind].
  destruct (ik_source _ _ _ Hok) as (S1 & S2 & S3 & S4 & S5). rewrite decide_False by (intros [?|[?|[?|[?|?]]]]; done). cbn [result_bind].
  unfold loadResultInboxOffsets. cbn [bx_PackageID].
  rewrite (part_offsets_manifest _ _ _ _ (decoded_parts _ _ (ik_manifest _ _ _ Hok)) Hp).
  change (set_offsets _ _) with (inbox_value db.(peer_result_inbox_parts) packageID r m).
  rewrite inbox_value_valid; [done|done|done|lia].
Qed.

Lemma query_inbox_absent packageID :
  valid_id packageID -> db.(peer_result_inbox) !! packageID = None -> queryResultInboxByPackage packageID db = Err ErrNotFound.
Proof. intros Hv E. unfold queryResultInboxByPackage. by rewrite Hv, E. Qed.

Lemma query_inbox_Ok packageID x :
  queryResultInboxByPackage packageID db = Ok x ->
  exists r m, db.(peer_result_inbox) !! packageID = Some r /\ inbox_ok packageID r m /\
    parts_ok db.(peer_result_inbox_parts) packageID r.(in_state) (parts_of m) /\ x = inbox_value db.(peer_result_inbox_parts) packageID r m.
Proof.
  intros H. destruct (db.(peer_result_inbox) !! packageID) as [r|] eqn:E.
  - destruct (query_inbox _ _ E) as (m & Hok & Hp & Hq). rewrite Hq in H. injection H as <-. by exists r, m.
  - unfold queryResultInboxByPackage in H. apply do_Ok in H as [_ H]. by rewrite E in H.
Qed.

Lemma query_inbox_none packageID :
  optional (queryResultInboxByPackage packageID db) = Ok None -> db.(peer_result_inbox) !! packageID = None.
Proof.
  intros H. destruct (db.(peer_result_inbox) !! packageID) as [r|] eqn:E; [|done].
  destruct (query_inbox _ _ E) as (m & _ & _ & Hq). by rewrite Hq in H.
Qed.

(** ** Reading a removal *)

Definition removal_value (k : string * string) (v : RemovalRow) : ResultInboxRemoval := {|
  iv_Authority := removal_authority v; iv_PackageID := k.1; iv_AttemptID := k.2; iv_Outcome := v.(ir_outcome);
  iv_Phase := v.(ir_phase); iv_CreatedAt := v.(ir_created_at); iv_UpdatedAt := v.(ir_updated_at) |}.

Lemma scan_removal k v :
  db.(peer_result_inbox_attempt_receipts) !! k = Some v -> scanResultInboxRemoval (Some (k, v)) = Ok (removal_value k v).
Proof.
  intros E. pose proof (bi_removals _ Hi _ _ E) as Hx. apply is_ok_true in Hx as [x Hx]. rewrite Hx. unfold scanResultInboxRemoval in Hx.
  apply do_Ok in Hx as [_ [= <-]]. done.
Qed.

Lemma query_removal packageID attemptID v :
  db.(peer_result_inbox_attempt_receipts) !! (packageID, attemptID) = Some v ->
  queryResultInboxRemoval packageID attemptID db = Ok (removal_value (packageID, attemptID) v).
Proof. intros E. unfold queryResultInboxRemoval. rewrite E. by apply scan_removal. Qed.

Lemma query_removal_Ok packageID attemptID x :
  queryResultInboxRemoval packageID attemptID db = Ok x ->
  exists v, db.(peer_result_inbox_attempt_receipts) !! (packageID, attemptID) = Some v /\ x = removal_value (packageID, attemptID) v.
Proof.
  intros H. destruct (db.(peer_result_inbox_attempt_receipts) !! (packageID, attemptID)) as [v|] eqn:E.
  - rewrite (query_removal _ _ _ E) in H. injection H as <-. by exists v.
  - unfold queryResultInboxRemoval in H. by rewrite E in H.
Qed.

Lemma query_removal_none packageID attemptID :
  optional (queryResultInboxRemoval packageID attemptID db) = Ok None <->
  db.(peer_result_inbox_attempt_receipts) !! (packageID, attemptID) = None.
Proof.
  split; intros H.
  - destruct (db.(peer_result_inbox_attempt_receipts) !! (packageID, attemptID)) as [v|] eqn:E; [|done].
    by rewrite (query_removal _ _ _ E) in H.
  - unfold queryResultInboxRemoval. by rewrite H.
Qed.

Lemma no_removal packageID attemptID :
  require_no_removal packageID attemptID db = Ok tt <-> db.(peer_result_inbox_attempt_receipts) !! (packageID, attemptID) = None.
Proof.
  unfold require_no_removal, require_absent. rewrite <- query_removal_none.
  destruct (optional (queryResultInboxRemoval packageID attemptID db)) as [[x|]|e]; cbn; naive_solver.
Qed.

(** The last removal of a package, which stands for all of them. *)
Lemma prior_removal packageID prior :
  optional (queryResultInboxRemovalByPackage packageID db) = Ok prior ->
  forall a v, db.(peer_result_inbox_attempt_receipts) !! (packageID, a) = Some v ->
  exists x, prior = Some x /\ x.(iv_Authority) = removal_authority v.
Proof.
  intros H a v E. unfold queryResultInboxRemovalByPackage in H.
  set (t := db.(peer_result_inbox_attempt_receipts)) in *.
  set (l := order_by _ _) in H.
  assert (Hl : forall x, x ∈ l <-> t !! x.1 = Some x.2 /\ x.1.1 = packageID).
  { intros [k w]. unfold l, order_by, order_by_text. rewrite !elem_of_sort_by.
    by rewrite (elem_of_select (fun x : (string * string) * RemovalRow => x.1.1 = packageID)). }
  assert (((packageID, a), v) ∈ l) as Hin by (by apply Hl).
  destruct (last l) as [[k w]|] eqn:El.
  - apply last_Some_elem_of in El. apply Hl in El as [Ew Hk]. cbn in Ew, Hk. rewrite (scan_removal _ _ Ew) in H. injection H as <-.
    exists (removal_value k w). split; [done|]. by apply (bi_owners _ Hi _ _ _ _ Ew E).
  - apply last_None in El. rewrite El in Hin. by apply elem_of_nil in Hin.
Qed.
End Queries.
