(* ===== verification/PeerInboxSteps.v ===== *)
(** Every operation of the inbox keeps its invariant, and none of them touches the workers. *)

From S2P Require Export PeerInboxState.

(** ** The two halves of the database *)

(** The tables of the workers, which the inbox does not touch. *)
Definition worker_tables (db : PeerDB) :=
  (revision_of db, db.(worker_readiness), db.(prepared_workspaces), db.(worker_reservations), db.(worker_operation_receipts),
   db.(worker_turn_start_intents), db.(peer_changes_artifacts), db.(peer_result_outbox)).

Lemma peer_inv_beside db db' :
  worker_tables db' = worker_tables db -> peer_metadata_check db'.(peer_metadata) = true -> peer_inv db -> peer_inv db'.
Proof.
  unfold worker_tables. intros [= E1 E2 E3 E4 E5 E6 E7 E8] Hm [[W1 W2 W3 W4 W5] I2 I3 I4 I5]. constructor.
  - unfold revision_of in *. constructor; unfold revision_of; rewrite ?E1, ?E4; done.
  - apply (workspaces_inv_kept db); [done|by apply workers_kept_same|done].
  - apply (operations_inv_kept db); [done|by apply workers_kept_same|done].
  - by apply (turns_inv_same db).
  - apply (outbox_inv_kept db); [done|by apply workers_kept_same|done].
Qed.

(** What the invariant of the inbox is about. *)
Definition inbox_tables (db : PeerDB) :=
  (db.(peer_result_inbox), db.(peer_result_inbox_parts), db.(peer_result_inbox_chunks), db.(peer_result_inbox_attempt_receipts), last_ordinal db).

Lemma inbox_inv_same db db' : inbox_tables db' = inbox_tables db -> inbox_inv db -> inbox_inv db'.
Proof.
  destruct db as [m ? ? ? ? ? ? ? ? ? ? ?], db' as [m' ? ? ? ? ? ? ? ? ? ? ?]. unfold inbox_tables. simpl. intros [= -> -> -> -> E1].
  intros []. constructor; simpl in *; rewrite ?E1; done.
Qed.

Lemma inbox_inv_beside db db' : other_tables db' = other_tables db -> inbox_inv db -> inbox_inv db'.
Proof. unfold other_tables. intros [= _ E1 E2 E3 E4 E5 _]. apply inbox_inv_same. unfold inbox_tables. congruence. Qed.

(** ** Replacing a row *)

Definition put_inbox (k : string) (r : InboxRow) (db : PeerDB) : PeerDB :=
  set_peer_result_inbox db (<[k := r]> db.(peer_result_inbox)).

Lemma set_activity_ok packageID r m state at_ lease :
  inbox_ok packageID r m -> state ∈ [ResultInboxReceiving; ResultInboxAvailable; ResultInboxEvictionTombstone] ->
  r.(in_updated_at) <= at_ -> 1 <= lease -> inbox_ok packageID (set_activity state at_ lease r) m.
Proof.
  intros [K1 K2 K3 K4 K5 K6 K7 K8 K9 K10 K11 K12] Hs Hat Hl. constructor; try done; cbn; try lia.
  unfold inbox_check in *. cbn. rewrite !andb_true_iff in *. destruct_and!.
  assert (bool_decide (state ∈ ["receiving"; "available"; "evictionTombstone"]) = true) by (by apply bool_decide_eq_true).
  split_and!; try done; apply Z.ltb_lt || apply Z.leb_le; lia.
Qed.

(** A row that changes its state or its lease. *)
Lemma put_inbox_keeps packageID r m state at_ lease db :
  inbox_inv db -> db.(peer_result_inbox) !! packageID = Some r -> inbox_ok packageID r m ->
  state ∈ [ResultInboxReceiving; ResultInboxAvailable; ResultInboxEvictionTombstone] -> r.(in_updated_at) <= at_ -> 1 <= lease ->
  parts_ok db.(peer_result_inbox_parts) packageID state (parts_of m) ->
  (state = r.(in_state) \/ (r.(in_state) = ResultInboxReceiving -> db.(peer_result_inbox_attempt_receipts) !! (packageID, r.(in_attempt_id)) = None)) ->
  inbox_inv (put_inbox packageID (set_activity state at_ lease r) db).
Proof.
  intros [I1 I2 I3 I4 I5 I6 I7 I8 I9 I10 I11 I12 I13] E Hok Hs Hat Hl Hp Hf. set (r' := set_activity state at_ lease r).
  assert (forall k x, (put_inbox packageID r' db).(peer_result_inbox) !! k = Some x ->
    exists x0, db.(peer_result_inbox) !! k = Some x0 /\ x.(in_retention_ordinal) = x0.(in_retention_ordinal) /\
      x.(in_attempt_id) = x0.(in_attempt_id) /\ inbox_authority x = inbox_authority x0) as Hold.
  { intros k x Hk. simpl in Hk. apply lookup_insert_Some in Hk as [[<- <-]|[_ Hk]]; [by exists r|by exists x]. }
  assert (forall k x0, db.(peer_result_inbox) !! k = Some x0 -> exists x, (put_inbox packageID r' db).(peer_result_inbox) !! k = Some x /\
      x.(in_attempt_id) = x0.(in_attempt_id)) as Hnew.
  { intros k x0 Hk. simpl. destruct (decide (k = packageID)) as [->|Hn]; [|exists x0; by rewrite lookup_insert_ne].
    exists r'. rewrite lookup_insert_eq. split; [done|]. rewrite E in Hk. by injection Hk as <-. }
  constructor; simpl.
  - intros k x Hk. apply lookup_insert_Some in Hk as [[<- <-]|[_ Hk]]; [|by apply I1]. split; [apply (I1 _ _ E)|].
    exists m. split; [by apply set_activity_ok|done].
  - intros k1 k2 r1 r2 (x1 & E1 & O1 & _)%Hold (x2 & E2 & O2 & _)%Hold Ho. apply (I2 _ _ _ _ E1 E2). congruence.
  - intros pk kind p Hk. apply I3 in Hk as [x Hk]. apply Hnew in Hk as (y & Hy & _). by exists y.
  - intros pk a kind o c Hc. destruct (I4 _ _ _ _ _ Hc) as (x & p & Ex & Ha & X). apply Hnew in Ex as (y & Hy & Hya).
    exists y, p. split; [done|]. split; [congruence|done].
  - intros pk x kind p o (x0 & Ex & _ & Ha & _)%Hold Ep Hb Hd. rewrite Ha. by apply (I5 _ _ _ _ _ Ex Ep).
  - by rewrite map_size_insert_Some by (by rewrite E).
  - rewrite (sum_of_update in_package_bytes _ _ _ _ E). simpl. lia.
  - done.
  - intros k v Ev Hv. destruct (I9 _ _ Ev Hv) as (x & Ex & Ha & Hx). destruct (decide (k.1 = packageID)) as [Hk|Hn].
    + rewrite Hk in Ex |- *. rewrite lookup_insert_eq. exists r'. rewrite E in Ex. injection Ex as <-. split_and!; [done|done|].
      destruct Hf as [->|Hf]; [done|]. rewrite <- Hk, Ha, <- surjective_pairing, Ev in Hf by done. by specialize (Hf Hx).
    + exists x. by rewrite lookup_insert_ne.
  - intros k v x Ev Hv (x0 & Ex & _ & -> & _)%Hold. by apply (I10 _ _ _ Ev Hv).
  - intros k v x Ev (x0 & Ex & _ & _ & ->)%Hold. by apply (I11 _ _ _ Ev).
  - done.
  - done.
Qed.

(** ** A digest the code accepts passes the CHECK *)

Lemma lower_hex_pattern_check s : lower_hex_pattern 64 s = true -> digest_check s = true.
Proof.
  unfold lower_hex_pattern, digest_check. rewrite !andb_true_iff. intros [Hl Hh]. split; [|done]. rewrite sqlite_length_ascii; [done|].
  rewrite forallb_forall in Hh |- *. intros b Hb%Hh. unfold is_lower_hex, is_digit, in_range in *. lia.
Qed.

Lemma validateDigest_check s : validateDigest s = Ok tt -> digest_check s = true.
Proof.
  unfold validateDigest. rewrite reject_Ok. intros [H _]. apply dec_stable in H as (Hl & Hlow & [d Hd]).
  apply lower_hex_pattern_check. pose proof (hex_decode_lower _ _ Hd Hlow) as Hp. unfold lower_hex_pattern in *.
  rewrite andb_true_iff in *. destruct Hp as [_ Hh]. split; [|done]. by apply Z.eqb_eq.
Qed.

(** ** The statements *)

Lemma update_inbox_run packageID r m state at_ lease guard set db :
  inbox_inv db -> db.(peer_result_inbox) !! packageID = Some r -> inbox_ok packageID r m -> guard r = true ->
  set r = set_activity state at_ lease r ->
  state ∈ [ResultInboxReceiving; ResultInboxAvailable; ResultInboxEvictionTombstone] -> r.(in_updated_at) <= at_ -> 1 <= lease ->
  update_inbox packageID guard set db = Ok (1, put_inbox packageID (set_activity state at_ lease r) db).
Proof.
  intros Hi E Hok Hg Hset Hs Hat Hl. unfold update_inbox. rewrite (sql_update_hit _ _ _ _ _ r E Hg); [by rewrite Hset|].
  rewrite Hset, andb_true_iff. split; [by apply (set_activity_ok _ _ m)|]. apply none_where_true. intros k x Ek (Hn & _ & _ & Ho).
  cbn in Hn, Ho. by apply Hn, (bi_ordinals _ Hi _ _ _ _ Ek E).
Qed.

Lemma receives_true attempt r : r.(in_state) = ResultInboxReceiving -> r.(in_attempt_id) = attempt -> receives attempt r = true.
Proof. intros. unfold receives. by apply bool_decide_eq_true. Qed.

Lemma update_activity_run packageID attempt r m at_ lease db :
  inbox_inv db -> db.(peer_result_inbox) !! packageID = Some r -> inbox_ok packageID r m ->
  r.(in_state) = ResultInboxReceiving -> r.(in_attempt_id) = attempt -> r.(in_updated_at) <= at_ -> 1 <= lease ->
  updateResultInboxActivity packageID attempt at_ lease db = Ok (tt, put_inbox packageID (set_activity ResultInboxReceiving at_ lease r) db).
Proof.
  intros Hi E Hok Hst Ha Hat Hl. unfold updateResultInboxActivity, tx_exec.
  rewrite (update_inbox_run packageID r m ResultInboxReceiving at_ lease); try done; [by apply receives_true|by rewrite Hst|by_decide].
Qed.

(** The database after the next chunk of a part. *)
Definition advance (packageID attempt kind : string) (offset : Z) (c : InboxChunkRow) (p : InboxPartRow) (db : PeerDB) : PeerDB :=
  set_peer_result_inbox_parts
    (set_peer_result_inbox_chunks db (<[(packageID, attempt, kind, offset) := c]> db.(peer_result_inbox_chunks)))
    (<[(packageID, kind) := {| ip_size_bytes := p.(ip_size_bytes); ip_sha256 := p.(ip_sha256);
                               ip_next_offset := offset + c.(ic_size_bytes) |}]> db.(peer_result_inbox_parts)).

Definition chunk_row (chunk : ResultInboxChunkCommit) : InboxChunkRow := {| ic_size_bytes := chunk.(cc_Size); ic_sha256 := chunk.(cc_SHA256) |}.

(** The part a kind has, and its descriptor. *)
Lemma part_of_package db packageID r m kind p :
  parts_ok db.(peer_result_inbox_parts) packageID r.(in_state) (parts_of m) ->
  db.(peer_result_inbox_parts) !! (packageID, kind) = Some p ->
  exists d, d ∈ parts_of m /\ d.(rd_Kind) = kind /\ part_ok r.(in_state) d p.
Proof.
  intros [Hin Hout] E. pose proof (Hout _ _ E) as Hk. apply list_elem_of_fmap in Hk as (d & -> & Hd).
  destruct (Hin _ Hd) as (p' & E' & Hp). rewrite E in E'. injection E' as <-. by exists d.
Qed.

Lemma advance_part_run packageID r m chunk p db :
  inbox_inv db -> db.(peer_result_inbox) !! packageID = Some r -> inbox_ok packageID r m ->
  parts_ok db.(peer_result_inbox_parts) packageID r.(in_state) (parts_of m) ->
  db.(peer_result_inbox_parts) !! (packageID, chunk.(cc_Kind)) = Some p -> ResultInboxChunkCommit_Validate chunk = Ok tt ->
  chunk.(cc_Offset) = p.(ip_next_offset) -> chunk.(cc_Offset) + chunk.(cc_Size) <= p.(ip_size_bytes) ->
  advance_part packageID r.(in_attempt_id) chunk p db =
    Ok (advance packageID r.(in_attempt_id) chunk.(cc_Kind) chunk.(cc_Offset) (chunk_row chunk) p db).
Proof.
  intros Hi E Hok Hparts Ep Hv Hoff Hend. destruct (part_of_package _ _ _ _ _ _ Hparts Ep) as (d & Hd & Hk & [P1 P2 P3 P4 P5]).
  destruct (decoded_parts _ _ (ik_manifest _ _ _ Hok)) as [_ _ _ Hvalid]. rewrite Forall_forall in Hvalid.
  destruct (Hvalid _ Hd) as [[Hsz Hsha]%descriptor_bounds Hpk].
  unfold ResultInboxChunkCommit_Validate in Hv. apply do_Ok in Hv as [_ Hv]. apply reject_Ok in Hv as [_ Hv]. apply reject_Ok in Hv as [Hb Hdig].
  apply validateDigest_check in Hdig. unfold advance_part, insert_inbox_chunk.
  rewrite sql_insert_hit; cbn [wrap result_bind peer_result_inbox_parts set_peer_result_inbox_chunks fst snd].
  - unfold update_inbox_part. cbn [peer_result_inbox_parts set_peer_result_inbox_chunks].
    rewrite (sql_update_hit _ _ _ _ _ p Ep); [done|by apply bool_decide_eq_true|]. unfold inbox_part_check, in_range. cbn [snd ip_size_bytes ip_sha256 ip_next_offset].
    rewrite P1, P2, <- Hk, (lower_hex_pattern_check _ Hsha), !andb_true_iff. split_and!; [|lia|done|lia|lia].
    apply bool_decide_eq_true. clear -Hpk. unfold validatePayloadKind, ResultPackagePartKind_Validate in Hpk. go_inv.
    rewrite !elem_of_cons in *. destruct_or!; try (exfalso; done); tauto.
  - unfold inbox_chunk_check, in_range. cbn [ic_size_bytes ic_sha256]. rewrite !andb_true_iff. split_and!; [lia|lia|lia|done|].
    apply bool_decide_eq_true. by rewrite Ep.
  - apply eq_None_not_Some. intros [c Hc]. destruct (bi_chunks _ Hi _ _ _ _ _ Hc) as (r' & p' & _ & _ & Ep' & Hlt & _).
    rewrite Ep in Ep'. injection Ep' as <-. lia.
Qed.

(** ** The next chunk *)

(** An offset below a chunk boundary, and the boundary after it. *)
Lemma chunk_boundary size offset o :
  (ResultPackageChunkBytes | offset) -> (ResultPackageChunkBytes | o) -> 0 <= o < offset + chunk_size size offset -> o <> offset ->
  o < offset.
Proof.
  intros [a ->] [b ->]. unfold chunk_size, ResultPackageChunkBytes. intros H Hn. assert (b < a + 1) by nia. assert (b <> a) by congruence. nia.
Qed.

Lemma advance_keeps packageID r m kind d p c db :
  inbox_inv db -> db.(peer_result_inbox) !! packageID = Some r -> inbox_ok packageID r m ->
  parts_ok db.(peer_result_inbox_parts) packageID r.(in_state) (parts_of m) -> r.(in_state) = ResultInboxReceiving ->
  db.(peer_result_inbox_parts) !! (packageID, kind) = Some p -> part_ok r.(in_state) d p ->
  p.(ip_next_offset) < p.(ip_size_bytes) -> c.(ic_size_bytes) = chunk_size p.(ip_size_bytes) p.(ip_next_offset) ->
  inbox_inv (advance packageID r.(in_attempt_id) kind p.(ip_next_offset) c p db).
Proof.
  intros [I1 I2 I3 I4 I5 I6 I7 I8 I9 I10 I11 I12 I13] E Hok Hparts Hst Ep [P1 P2 P3 P4 P5] Hlt Hc.
  set (p' := {| ip_size_bytes := p.(ip_size_bytes); ip_sha256 := p.(ip_sha256); ip_next_offset := p.(ip_next_offset) + c.(ic_size_bytes) |}).
  assert ((ResultPackageChunkBytes | p.(ip_next_offset))) as Hdiv by (destruct P4; [lia|done]).
  assert (0 < c.(ic_size_bytes) /\ c.(ic_size_bytes) <= p.(ip_size_bytes) - p.(ip_next_offset)) as Hcs.
  { rewrite Hc. unfold chunk_size, ResultPackageChunkBytes. lia. }
  assert (forall d0, part_ok r.(in_state) d0 p -> part_ok r.(in_state) d0 p') as Hpart.
  { intros d0 [Q1 Q2 Q3 Q4 Q5]. constructor; cbn; try done; [lia|]. rewrite Hc. unfold chunk_size.
    destruct (Z.min_spec ResultPackageChunkBytes (p.(ip_size_bytes) - p.(ip_next_offset))) as [[_ ->]|[_ ->]]; [right|left; lia].
    apply Z.divide_add_r; [done|apply Z.divide_refl]. }
  constructor; simpl.
  - intros k x Ek. destruct (I1 _ _ Ek) as (Ho & m0 & Hok0 & [Hin Hout]). split; [done|]. exists m0. split; [done|]. split.
    + intros d0 Hd0. destruct (Hin _ Hd0) as (q & Eq & Hq). destruct (decide ((k, d0.(rd_Kind)) = (packageID, kind))) as [Hk|Hn].
      * rewrite Hk in Eq |- *. rewrite lookup_insert_eq. exists p'. split; [done|]. rewrite Ep in Eq. injection Eq as <-.
        injection Hk as -> _. rewrite E in Ek. injection Ek as <-. by apply Hpart.
      * exists q. by rewrite lookup_insert_ne.
    + intros kd q. rewrite lookup_insert_Some. intros [[[= -> ->] _]|[_ Eq]]; [|by apply (Hout _ _ Eq)]. by apply (Hout _ _ Ep).
  - done.
  - intros pk kd q. rewrite lookup_insert_Some. intros [[[= <- <-] _]|[_ Eq]]; [by eauto|by apply (I3 _ _ _ Eq)].
  - intros pk a kd o x. rewrite lookup_insert_Some. intros [[[= <- <- <- <-] <-]|[_ Ex]].
    + exists r, p'. rewrite lookup_insert_eq. cbn. split_and!; try done; try lia.
    + destruct (I4 _ _ _ _ _ Ex) as (y & q & Ey & Ha & Eq & Hb & Hd & Hs). destruct (decide ((pk, kd) = (packageID, kind))) as [Hk|Hn].
      * rewrite Hk, lookup_insert_eq. rewrite Hk, Ep in Eq. injection Eq as <-. exists y, p'. cbn. split_and!; try done; lia.
      * exists y, q. rewrite lookup_insert_ne by done. done.
  - intros pk x kd q o Ex. rewrite lookup_insert_Some. intros [[[= <- <-] <-]|[Hn Eq]] Hb Hd.
    + rewrite E in Ex. injection Ex as <-. cbn in Hb. destruct (decide (o = p.(ip_next_offset))) as [->|Hne].
      * by rewrite lookup_insert_eq.
      * rewrite lookup_insert_ne by (by intros [=]). apply (I5 _ _ _ _ _ E Ep); [|done]. split; [lia|]. rewrite Hc in Hb.
        by apply (chunk_boundary p.(ip_size_bytes)).
    + rewrite lookup_insert_ne by (intros [= ? _ ? _]; apply Hn; congruence). by apply (I5 _ _ _ _ _ Ex Eq).
  - done.
  - done.
  - done.
  - done.
  - done.
  - done.
  - done.
  - done.
Qed.

(** ** What a call of the inbox leaves *)

(** A package only moves on: it is received, available, then a tombstone. *)
Definition inbox_rank (state : string) : Z :=
  if decide (state = ResultInboxReceiving) then 0 else if decide (state = ResultInboxAvailable) then 1 else 2.

Record row_history (r r' : InboxRow) : Prop := {
  rh_same : r' = set_activity r'.(in_state) r'.(in_updated_at) r'.(in_lease_expires_at) r;
  rh_state : inbox_rank r.(in_state) <= inbox_rank r'.(in_state);
  rh_updated : r.(in_updated_at) <= r'.(in_updated_at);
  rh_lease : r.(in_lease_expires_at) <= r'.(in_lease_expires_at);
}.

(** A package is the one that was there, with no offset lower, or its number is new. *)
Record inbox_history (db db' : PeerDB) : Prop := {
  ih_ordinal : last_ordinal db <= last_ordinal db';
  ih_evicted : db.(peer_metadata).(pm_result_inbox_evicted) <= db'.(peer_metadata).(pm_result_inbox_evicted);
  ih_rows : forall k r', db'.(peer_result_inbox) !! k = Some r' -> last_ordinal db < r'.(in_retention_ordinal) \/
    exists r, db.(peer_result_inbox) !! k = Some r /\ row_history r r' /\
      forall kind, next_offset db.(peer_result_inbox_parts) k kind <= next_offset db'.(peer_result_inbox_parts) k kind;
}.

#[global] Instance row_history_refl : Reflexive row_history.
Proof. intros r. constructor; [by destruct r|lia..]. Qed.
#[global] Instance row_history_trans : Transitive row_history.
Proof.
  intros a b c [A1 A2 A3 A4] [B1 B2 B3 B4]. constructor; [|lia..]. rewrite B1 at 1. rewrite A1. done.
Qed.

#[global] Instance inbox_history_refl : Reflexive inbox_history.
Proof. intros db. constructor; [lia|lia|]. intros k r E. right. exists r. done. Qed.
#[global] Instance inbox_history_trans : Transitive inbox_history.
Proof.
  intros a b c [A1 A2 A3] [B1 B2 B3]. constructor; [lia|lia|]. intros k r E.
  destruct (B3 _ _ E) as [Hlt|(r1 & E1 & H1 & O1)]; [left; lia|].
  destruct (A3 _ _ E1) as [Hlt|(r0 & E0 & H0 & O0)].
  - left. rewrite (rh_same _ _ H1). simpl. lia.
  - right. exists r0. split_and!; [done|by etrans|]. intros kind. specialize (O0 kind). specialize (O1 kind). lia.
Qed.

(** A call of the inbox. *)
Record inbox_call (db db' : PeerDB) : Prop := {
  bc_inv : inbox_inv db';
  bc_metadata : peer_metadata_check db'.(peer_metadata) = true;
  bc_workers : worker_tables db' = worker_tables db;
  bc_history : inbox_history db db';
}.

Lemma inbox_call_refl db : peer_metadata_check db.(peer_metadata) = true -> inbox_inv db -> inbox_call db db.
Proof. by constructor. Qed.

Lemma set_activity_history state at_ lease r :
  inbox_rank r.(in_state) <= inbox_rank state -> r.(in_updated_at) <= at_ -> r.(in_lease_expires_at) <= lease ->
  row_history r (set_activity state at_ lease r).
Proof. by constructor. Qed.

(** A change of one row, whose parts did not go back. *)
Lemma put_inbox_history packageID r r' db parts chunks :
  db.(peer_result_inbox) !! packageID = Some r -> row_history r r' ->
  (forall k kind, next_offset db.(peer_result_inbox_parts) k kind <= next_offset parts k kind) ->
  inbox_history db (put_inbox packageID r' (set_peer_result_inbox_parts (set_peer_result_inbox_chunks db chunks) parts)).
Proof.
  intros E Hr Ho. constructor; [simpl; lia..|]. intros k x. simpl. rewrite lookup_insert_Some. intros [[<- <-]|[_ Ex]]; right; [by exists r|by exists x].
Qed.

Lemma put_inbox_call packageID r m state at_ lease db :
  peer_metadata_check db.(peer_metadata) = true -> inbox_inv db -> db.(peer_result_inbox) !! packageID = Some r -> inbox_ok packageID r m ->
  state ∈ [ResultInboxReceiving; ResultInboxAvailable; ResultInboxEvictionTombstone] -> r.(in_updated_at) <= at_ -> r.(in_lease_expires_at) <= lease ->
  parts_ok db.(peer_result_inbox_parts) packageID state (parts_of m) -> inbox_rank r.(in_state) <= inbox_rank state ->
  (state = r.(in_state) \/ (r.(in_state) = ResultInboxReceiving -> db.(peer_result_inbox_attempt_receipts) !! (packageID, r.(in_attempt_id)) = None)) ->
  inbox_call db (put_inbox packageID (set_activity state at_ lease r) db).
Proof.
  intros Hm Hi E Hok Hs Hat Hl Hp Hr Hf. constructor; [|done|done|].
  - apply (put_inbox_keeps _ _ m); try done. pose proof (ik_lease _ _ _ Hok). lia.
  - replace db with (set_peer_result_inbox_parts (set_peer_result_inbox_chunks db db.(peer_result_inbox_chunks)) db.(peer_result_inbox_parts)) at 2 by (by destruct db).
    apply (put_inbox_history _ r); [done|by apply set_activity_history|done].
Qed.

(** ** Committing a chunk *)

(** The package is being received by the attempt, which nobody removes. *)
Record receiving (a : ResultInboxAuthority) (attempt packageID : string) (r : InboxRow) (m : ResultManifest) (db : PeerDB) : Prop := {
  rg_row : db.(peer_result_inbox) !! packageID = Some r;
  rg_ok : inbox_ok packageID r m;
  rg_parts : parts_ok db.(peer_result_inbox_parts) packageID r.(in_state) (parts_of m);
  rg_authority : inbox_authority r = a;
  rg_state : r.(in_state) = ResultInboxReceiving;
  rg_attempt : r.(in_attempt_id) = attempt;
  rg_free : db.(peer_result_inbox_attempt_receipts) !! (packageID, attempt) = None;
}.

(** The row after a chunk at [at_]. *)
Definition active_row (r : InboxRow) (at_ : Z) : InboxRow :=
  let at_ := Z.max at_ r.(in_updated_at) in
  set_activity ResultInboxReceiving at_ (Z.max (at_ + MaximumResultInboxLease) r.(in_lease_expires_at)) r.

Section Commit.
Context (db : PeerDB) (Hm : peer_metadata_check db.(peer_metadata) = true) (Hi : inbox_inv db).
Context (a : ResultInboxAuthority) (attempt packageID : string) (chunk : ResultInboxChunkCommit) (at_ : Z).

(** A chunk of the part: the next one, or one that was recorded. *)
Record chunk_of (r : InboxRow) (p : InboxPartRow) : Prop := {
  ko_part : db.(peer_result_inbox_parts) !! (packageID, chunk.(cc_Kind)) = Some p;
  ko_size : chunk.(cc_Size) = chunk_size p.(ip_size_bytes) chunk.(cc_Offset);
  ko_end : chunk.(cc_Offset) + chunk.(cc_Size) <= p.(ip_size_bytes);
  ko_valid : ResultInboxChunkCommit_Validate chunk = Ok tt;
  ko_time : 0 <= at_ /\ Z.max at_ r.(in_updated_at) <= MaxInt64 - MaximumResultInboxLease;
}.

Lemma active_row_run r m db1 :
  inbox_inv db1 -> db1.(peer_result_inbox) !! packageID = Some r -> inbox_ok packageID r m -> r.(in_state) = ResultInboxReceiving ->
  r.(in_attempt_id) = attempt ->
  updateResultInboxActivity packageID attempt (Z.max at_ r.(in_updated_at))
    (Z.max (Z.max at_ r.(in_updated_at) + MaximumResultInboxLease) r.(in_lease_expires_at)) db1 =
  Ok (tt, put_inbox packageID (active_row r at_) db1).
Proof. intros H1 H2 H3 H4 H5. pose proof (ik_lease _ _ _ H3). apply (update_activity_run _ _ _ m); try done; lia. Qed.

Lemma commit_chunk_Ok x db' :
  CommitResultInboxChunk a attempt packageID chunk at_ db = Ok (x, db') ->
  exists r m p, receiving a attempt packageID r m db /\ chunk_of r p /\
   ((chunk.(cc_Offset) = p.(ip_next_offset) /\ x = {| cr_NextOffset := chunk.(cc_Offset) + chunk.(cc_Size); cr_Replay := false |} /\
     db' = put_inbox packageID (active_row r at_) (advance packageID attempt chunk.(cc_Kind) chunk.(cc_Offset) (chunk_row chunk) p db)) \/
    (chunk.(cc_Offset) < p.(ip_next_offset) /\ x = {| cr_NextOffset := p.(ip_next_offset); cr_Replay := true |} /\
     db.(peer_result_inbox_chunks) !! (packageID, attempt, chunk.(cc_Kind), chunk.(cc_Offset)) = Some (chunk_row chunk) /\
     db' = put_inbox packageID (active_row r at_) db)).
Proof.
  unfold CommitResultInboxChunk. intros H.
  apply tx_bind_Ok in H as ([] & ? & [Ha ->]%tx_lift_Ok & H). apply tx_bind_Ok in H as ([] & ? & [Hids ->]%tx_lift_Ok & H).
  apply tx_bind_Ok in H as ([] & ? & [Hv ->]%tx_lift_Ok & H). apply tx_bind_Ok in H as (ts & ? & [Hts ->]%tx_lift_Ok & H).
  assert (ts = at_ /\ 0 <= at_) as [-> Hat] by (unfold unixTime in Hts; go_inv; lia).
  destruct (decide _) as [|Hbig]; [by apply tx_throw_Ok in H|].
  apply tx_bind_Ok in H as ([] & ? & [Hfree%(no_removal db Hi) ->]%tx_query_Ok & H).
  apply tx_bind_Ok in H as (inbox & ? & [Hq ->]%tx_query_Ok & H).
  apply (query_inbox_Ok db Hm Hi) in Hq as (r & m & E & Hok & Hparts & ->). cbn [bx_Authority bx_State bx_AttemptID bx_UpdatedAt bx_LeaseExpiresAt inbox_value] in H.
  destruct (decide _) as [|Hauth]; [by apply tx_throw_Ok in H|]. apply dec_stable in Hauth.
  destruct (decide _) as [|Hst]; [by apply tx_throw_Ok in H|].
  assert (r.(in_state) = ResultInboxReceiving) as Hrec by (apply dec_stable; tauto).
  assert (r.(in_attempt_id) = attempt) as Hatt by (apply dec_stable; tauto). clear Hst.
  apply tx_bind_Ok in H as (lease & ? & [Hlease ->]%tx_lift_Ok & H). unfold resultInboxLeaseExpiresAt in Hlease.
  apply reject_Ok in Hlease as [Hmax [= <-]].
  apply tx_bind_Ok in H as (p & ? & [Hp ->]%tx_query_Ok & H).
  destruct (db.(peer_result_inbox_parts) !! (packageID, chunk.(cc_Kind))) as [p'|] eqn:Ep; [|done]. injection Hp as ->.
  destruct (decide _) as [|Hend]; [by apply tx_throw_Ok in H|]. destruct (decide _) as [|Hsz]; [by apply tx_throw_Ok in H|]. apply dec_stable in Hsz.
  exists r, m, p. split; [by constructor|]. assert (chunk_of r p) as Hc by (constructor; try done; lia). split; [done|].
  destruct (decide (chunk.(cc_Offset) < p.(ip_next_offset))) as [Hlt|Hge].
  - right. apply tx_bind_Ok in H as (y & ? & [Hrep ->]%tx_query_Ok & H). unfold replayed_chunk in Hrep.
    destruct (db.(peer_result_inbox_chunks) !! _) as [[sz sha]|] eqn:Ec; [|done]. cbn [ic_size_bytes ic_sha256] in Hrep.
    apply reject_Ok in Hrep as [Hsame [= <-]]. apply tx_bind_Ok in H as (u & dbx & Hup & [-> ->]%tx_ret_Ok).
    rewrite (active_row_run r m db Hi E Hok Hrec Hatt) in Hup. injection Hup as _ <-.
    split_and!; try done. assert (sz = chunk.(cc_Size)) as -> by (apply dec_stable; tauto).
    assert (sha = chunk.(cc_SHA256)) as -> by (apply dec_stable; tauto). done.
  - left. destruct (decide _) as [|Hoff]; [by apply tx_throw_Ok in H|]. apply dec_stable in Hoff.
    apply tx_bind_Ok in H as (u & db1 & Hadv%tx_exec_Ok & H). rewrite <- Hatt in Hadv. rewrite (advance_part_run packageID r m) in Hadv by (try done; lia).
    injection Hadv as <-. rewrite Hatt in *.
    unfold ResultInboxChunkCommit_Validate in Hv. apply do_Ok in Hv as [_ Hv]. apply reject_Ok in Hv as [_ Hv]. apply reject_Ok in Hv as [Hb _].
    destruct (part_of_package _ _ _ _ _ _ Hparts Ep) as (d & Hd & Hk & Hpart).
    assert (inbox_inv (advance packageID attempt chunk.(cc_Kind) chunk.(cc_Offset) (chunk_row chunk) p db)) as Hi1.
    { rewrite <- Hatt, Hoff. apply (advance_keeps _ _ m _ d); try done; [lia|]. cbn. rewrite Hsz, Hoff. done. }
    apply tx_bind_Ok in H as (u1 & dbx & Hup & [-> ->]%tx_ret_Ok).
    rewrite (active_row_run r m _ Hi1 E Hok Hrec Hatt) in Hup. injection Hup as _ <-. done.
Qed.

(** The offset of the next chunk of a part that is not complete. *)
Lemma chunk_next r m p :
  receiving a attempt packageID r m db -> chunk_of r p ->
  exists d, part_ok ResultInboxReceiving d p /\ 1 <= d.(rd_Size) <= MaximumResultPackageBytes /\
    0 <= chunk.(cc_Offset) /\ 0 < chunk.(cc_Size) /\ chunk.(cc_Offset) < p.(ip_size_bytes).
Proof.
  intros [E Hok Hparts _ Hst _ _] [Ep Hsz Hend Hv _]. destruct (part_of_package _ _ _ _ _ _ Hparts Ep) as (d & Hd & Hk & Hpart).
  exists d. rewrite <- Hst. split; [done|]. destruct (decoded_parts _ _ (ik_manifest _ _ _ Hok)) as [_ _ _ Hvalid]. rewrite Forall_forall in Hvalid.
  destruct (Hvalid _ Hd) as [[Hb _]%descriptor_bounds Hpk].
  assert (payload_maximum d.(rd_Kind) <= MaximumResultPackageBytes) as Hmax.
  { unfold validatePayloadKind, ResultPackagePartKind_Validate in Hpk. go_inv. rewrite !elem_of_cons, elem_of_nil in *.
    unfold payload_maximum, ResultPackagePartKind_MaximumBytes, MaximumResultChangesBundleBytes, MaximumResultChangesOverlayBytes,
      MaximumResultManifestBytes, MaximumResultRolloutBytes, MaximumResultPackageBytes. repeat case_decide; lia. }
  unfold ResultInboxChunkCommit_Validate in Hv. apply do_Ok in Hv as [_ Hv]. apply reject_Ok in Hv as [_ Hv]. apply reject_Ok in Hv as [Hbnd _].
  pose proof (pt_size _ _ _ Hpart). split_and!; lia.
Qed.

Lemma commit_chunk_prefix r m p :
  receiving a attempt packageID r m db -> chunk_of r p -> ResultInboxAuthority_Validate a = Ok tt ->
  valid_id attempt -> valid_id packageID ->
  CommitResultInboxChunk a attempt packageID chunk at_ db =
  (if decide (chunk.(cc_Offset) < p.(ip_next_offset)) then
    let! committed := tx_query (replayed_chunk packageID attempt chunk p.(ip_next_offset)) in
    do! updateResultInboxActivity packageID attempt (Z.max at_ r.(in_updated_at))
      (Z.max (Z.max at_ r.(in_updated_at) + MaximumResultInboxLease) r.(in_lease_expires_at)) in
    tx_ret committed
  else
    fail ErrResultPackageConflict when (chunk.(cc_Offset) <> p.(ip_next_offset)) in
    do! tx_exec (advance_part packageID attempt chunk p) in
    do! updateResultInboxActivity packageID attempt (Z.max at_ r.(in_updated_at))
      (Z.max (Z.max at_ r.(in_updated_at) + MaximumResultInboxLease) r.(in_lease_expires_at)) in
    tx_ret {| cr_NextOffset := chunk.(cc_Offset) + chunk.(cc_Size); cr_Replay := false |}) db.
Proof.
  intros G C Ha Hatt Hpkg. destruct (chunk_next _ _ _ G C) as (d & [P1 _ _ _ _] & Hd & Hb).
  destruct G as [E Hok Hparts Gauth Hst Gatt Hfree]. destruct C as [Ep Hsz Hend Hv [Hat Hmax]].
  unfold CommitResultInboxChunk. unfold tx_bind at 1, tx_lift at 1. rewrite Ha.
  unfold tx_bind at 1, tx_lift at 1, validateResultPackageAttempt. rewrite Hatt, Hpkg. cbn [wrap result_bind].
  unfold tx_bind at 1, tx_lift at 1. rewrite Hv. unfold tx_bind at 1, tx_lift at 1, unixTime. rewrite decide_False by lia.
  rewrite decide_False by lia. unfold tx_bind at 1, tx_query at 1. rewrite (proj2 (no_removal db Hi packageID attempt) Hfree).
  unfold tx_bind at 1, tx_query at 1. destruct (query_inbox db Hm Hi _ _ E) as (m' & Hok' & _ & Hq). rewrite Hq.
  cbn [bx_Authority bx_State bx_AttemptID bx_UpdatedAt bx_LeaseExpiresAt inbox_value].
  rewrite decide_False by (by intros Hn). rewrite decide_False by (by intros [?|?]).
  unfold tx_bind at 1, tx_lift at 1, resultInboxLeaseExpiresAt. rewrite decide_False by lia.
  unfold tx_bind at 1, tx_query at 1. rewrite Ep. rewrite (decide_False (P := _ > _)) by lia. rewrite decide_False by (by intros Hn). done.
Qed.

(** The next chunk is recorded and the offset moves past it. *)
Lemma commit_chunk_new r m p :
  receiving a attempt packageID r m db -> chunk_of r p -> ResultInboxAuthority_Validate a = Ok tt ->
  valid_id attempt -> valid_id packageID -> chunk.(cc_Offset) = p.(ip_next_offset) ->
  CommitResultInboxChunk a attempt packageID chunk at_ db =
    Ok ({| cr_NextOffset := chunk.(cc_Offset) + chunk.(cc_Size); cr_Replay := false |},
        put_inbox packageID (active_row r at_) (advance packageID attempt chunk.(cc_Kind) chunk.(cc_Offset) (chunk_row chunk) p db)).
Proof.
  intros G C Ha Hatt Hpkg Hoff. rewrite (commit_chunk_prefix r m p) by done. rewrite decide_False by lia. rewrite decide_False by (by intros Hn).
  destruct (chunk_next _ _ _ G C) as (d & Hpart & _ & Hb). destruct G as [E Hok Hparts Gauth Hst Gatt Hfree]. destruct C as [Ep Hsz Hend Hv [Hat Hmax]].
  assert (advance_part packageID attempt chunk p db = Ok (advance packageID attempt chunk.(cc_Kind) chunk.(cc_Offset) (chunk_row chunk) p db)) as Hadv.
  { rewrite <- Gatt. apply (advance_part_run packageID r m); done. }
  assert (inbox_inv (advance packageID attempt chunk.(cc_Kind) chunk.(cc_Offset) (chunk_row chunk) p db)) as Hi1.
  { rewrite <- Gatt, Hoff. rewrite <- Hst in Hpart. apply (advance_keeps _ _ m _ d); try done; [lia|]. cbn. rewrite Hsz, Hoff. done. }
  unfold tx_bind at 1, tx_exec at 1. rewrite Hadv. unfold tx_bind. by rewrite (active_row_run r m _ Hi1 E Hok Hst Gatt).
Qed.

(** A chunk that was recorded is answered and nothing else changes. *)
Lemma commit_chunk_replay r m p :
  receiving a attempt packageID r m db -> chunk_of r p -> ResultInboxAuthority_Validate a = Ok tt ->
  valid_id attempt -> valid_id packageID ->
  db.(peer_result_inbox_chunks) !! (packageID, attempt, chunk.(cc_Kind), chunk.(cc_Offset)) = Some (chunk_row chunk) ->
  CommitResultInboxChunk a attempt packageID chunk at_ db =
    Ok ({| cr_NextOffset := p.(ip_next_offset); cr_Replay := true |}, put_inbox packageID (active_row r at_) db).
Proof.
  intros G C Ha Hatt Hpkg Hc. rewrite (commit_chunk_prefix r m p) by done.
  destruct (bi_chunks _ Hi _ _ _ _ _ Hc) as (r' & p' & Er & _ & Ep' & Hlt & Hdiv & _). rewrite (ko_part _ _ C) in Ep'. injection Ep' as <-.
  rewrite decide_True by lia. destruct (chunk_next _ _ _ G C) as (d & [P1 P2 P3 P4 P5] & _ & Hb).
  destruct G as [E Hok Hparts Gauth Hst Gatt Hfree]. pose proof (ko_size _ _ C) as Hsz.
  unfold tx_bind at 1, tx_query, replayed_chunk. rewrite Hc. cbn [ic_size_bytes ic_sha256 chunk_row].
  rewrite decide_False.
  - unfold tx_bind. by rewrite (active_row_run r m _ Hi E Hok Hst Gatt).
  - intros [?|[?|Hgt]]; [done|done|]. rewrite Hsz in Hgt. unfold chunk_size in Hgt.
    destruct P4 as [P4|[k Hk]]; [lia|]. destruct Hdiv as [k' Hk']. unfold ResultPackageChunkBytes in *. nia.
Qed.
End Commit.

Lemma CommitResultInboxChunk_call a attempt packageID chunk at_ db x db' :
  peer_metadata_check db.(peer_metadata) = true -> inbox_inv db ->
  CommitResultInboxChunk a attempt packageID chunk at_ db = Ok (x, db') -> inbox_call db db'.
Proof.
  intros Hm Hi H. apply (commit_chunk_Ok db Hm Hi) in H as (r & m & p & G & C & Hcase).
  destruct (chunk_next db _ _ _ _ _ _ _ _ G C) as (d & Hpart & _ & Hb). destruct G as [E Hok Hparts Gauth Hst Gatt Hfree].
  assert (forall db1, inbox_inv db1 -> db1.(peer_result_inbox) = db.(peer_result_inbox) ->
    db1.(peer_result_inbox_attempt_receipts) = db.(peer_result_inbox_attempt_receipts) ->
    parts_ok db1.(peer_result_inbox_parts) packageID ResultInboxReceiving (parts_of m) -> inbox_inv (put_inbox packageID (active_row r at_) db1)) as Hput.
  { intros db1 Hi1 E1 E2 Hp1. pose proof (ik_lease _ _ _ Hok). apply (put_inbox_keeps _ _ m); try done; [by rewrite E1|by_decide|lia|lia|].
    left. done. }
  assert (row_history r (active_row r at_)) as Hrow.
  { apply set_activity_history; [by rewrite Hst|lia|lia]. }
  destruct Hcase as [(Hoff & _ & ->)|(_ & _ & _ & ->)].
  - destruct C as [Ep Hsz Hend Hv _].
    assert (inbox_inv (advance packageID attempt chunk.(cc_Kind) chunk.(cc_Offset) (chunk_row chunk) p db)) as Hi1.
    { rewrite <- Gatt, Hoff. rewrite <- Hst in Hpart. apply (advance_keeps _ _ m _ d); try done; [lia|]. cbn. rewrite Hsz, Hoff. done. }
    constructor; [|done|done|].
    + apply Hput; [done|done|done|]. destruct (bi_rows _ Hi1 _ _ E) as (_ & m' & Hok' & Hp').
      pose proof (ik_manifest _ _ _ Hok') as Hm'. rewrite (ik_manifest _ _ _ Hok) in Hm'. injection Hm' as <-. by rewrite Hst in Hp'.
    + unfold advance. apply (put_inbox_history _ r); [done|done|]. intros k kind. unfold next_offset at 2.
      destruct (decide ((k, kind) = (packageID, chunk.(cc_Kind)))) as [[= -> ->]|Hn].
      * rewrite lookup_insert_eq. unfold next_offset. rewrite Ep. cbn. lia.
      * rewrite lookup_insert_ne by done. done.
  - apply (put_inbox_call _ _ m); try done; [by_decide|lia|lia|by rewrite <- Hst|by rewrite Hst|by left].
Qed.

(** ** Publication and eviction *)

(** No part is incomplete: the offsets are those of a published package. *)
Lemma complete_parts t packageID r m :
  parts_ok t packageID r.(in_state) (parts_of m) ->
  ~ incomplete (inbox_value t packageID r m) <-> forall state, parts_ok t packageID state (parts_of m).
Proof.
  intros [Hin Hout]. unfold incomplete. cbn [bx_Offsets bx_Manifest inbox_value].
  assert (Hz : forall parts, zip (inbox_offsets t packageID parts) parts =
    (fun d => ({| po_Kind := d.(rd_Kind); po_NextOffset := next_offset t packageID d.(rd_Kind) |}, d)) <$> parts).
  { intros parts. unfold inbox_offsets. induction parts as [|d parts IH]; [done|]. rewrite !fmap_cons. cbn [zip zip_with]. by rewrite <- IH. }
  rewrite Hz, <- Forall_Exists_neg, Forall_fmap, Forall_forall. split.
  - intros H state. split; [|done]. intros d Hd. destruct (Hin d Hd) as (p & E & [P1 P2 P3 P4 P5]). exists p. split; [done|].
    specialize (H d Hd). cbn in H. apply dec_stable in H. unfold next_offset in H. rewrite E in H. constructor; try done. intros _. congruence.
  - intros H d Hd Hne. cbn in Hne. destruct (H ResultInboxAvailable) as [H' _]. destruct (H' d Hd) as (p & E & [P1 P2 P3 P4 P5]).
    unfold next_offset in Hne. rewrite E in Hne. apply Hne. rewrite <- P1. by apply P5.
Qed.

Section Publish.
Context (db : PeerDB) (Hm : peer_metadata_check db.(peer_metadata) = true) (Hi : inbox_inv db).
Context (a : ResultInboxAuthority) (attempt packageID : string) (at_ : Z).

Lemma update_state_run r m state guard set :
  db.(peer_result_inbox) !! packageID = Some r -> inbox_ok packageID r m -> guard r = true ->
  set r = set_activity state (Z.max at_ r.(in_updated_at)) r.(in_lease_expires_at) r ->
  state ∈ [ResultInboxReceiving; ResultInboxAvailable; ResultInboxEvictionTombstone] ->
  update_inbox packageID guard set db = Ok (1, put_inbox packageID (set_activity state (Z.max at_ r.(in_updated_at)) r.(in_lease_expires_at) r) db).
Proof. intros E Hok Hg Hset Hs. pose proof (ik_lease _ _ _ Hok). apply (update_inbox_run packageID r m); try done. lia. Qed.

Lemma available_Ok x db' :
  CommitResultInboxAvailable a attempt packageID at_ db = Ok (x, db') ->
  exists r m, db.(peer_result_inbox) !! packageID = Some r /\ inbox_ok packageID r m /\ inbox_authority r = a /\
    r.(in_attempt_id) = attempt /\ db.(peer_result_inbox_attempt_receipts) !! (packageID, attempt) = None /\
    (forall state, parts_ok db.(peer_result_inbox_parts) packageID state (parts_of m)) /\
    ((r.(in_state) = ResultInboxAvailable /\ db' = db) \/
     (r.(in_state) = ResultInboxReceiving /\
      db' = put_inbox packageID (set_activity ResultInboxAvailable (Z.max at_ r.(in_updated_at)) r.(in_lease_expires_at) r) db)).
Proof.
  unfold CommitResultInboxAvailable. intros H.
  apply tx_bind_Ok in H as ([] & ? & [Ha ->]%tx_lift_Ok & H). apply tx_bind_Ok in H as ([] & ? & [Hids ->]%tx_lift_Ok & H).
  apply tx_bind_Ok in H as (ts & ? & [Hts ->]%tx_lift_Ok & H).
  assert (ts = at_ /\ 0 <= at_) as [-> Hat] by (unfold unixTime in Hts; go_inv; lia).
  apply tx_bind_Ok in H as ([] & ? & [Hfree%(no_removal db Hi) ->]%tx_query_Ok & H).
  apply tx_bind_Ok in H as (inbox & ? & [Hq ->]%tx_query_Ok & H).
  apply (query_inbox_Ok db Hm Hi) in Hq as (r & m & E & Hok & Hparts & ->).
  destruct (decide (_ <> a)) as [|Hauth]; [by apply tx_throw_Ok in H|]. apply dec_stable in Hauth.
  destruct (decide (_ <> attempt)) as [|Hatt]; [by apply tx_throw_Ok in H|]. apply dec_stable in Hatt. cbn in Hauth, Hatt.
  exists r, m. split_and!; try done.
  - destruct (decide (_ = ResultInboxAvailable)) as [Hst|_].
    + cbn in Hst. intros state. destruct Hparts as [Hin Hout]. split; [|done]. intros d Hd. destruct (Hin d Hd) as (p & Ep & [P1 P2 P3 P4 P5]).
      exists p. split; [done|]. constructor; try done. intros _. apply P5. by rewrite Hst.
    + destruct (decide (_ <> ResultInboxReceiving)) as [|Hst]; [by apply tx_throw_Ok in H|].
      destruct (decide (incomplete _)) as [|Hinc]; [by apply tx_throw_Ok in H|]. by apply (complete_parts _ _ _ _ Hparts).
  - destruct (decide (_ = ResultInboxAvailable)) as [Hst|_]; [apply tx_ret_Ok in H as [_ ->]; by left|].
    destruct (decide (_ <> ResultInboxReceiving)) as [|Hst]; [by apply tx_throw_Ok in H|]. apply dec_stable in Hst. cbn in Hst.
    destruct (decide (incomplete _)) as [|Hinc]; [by apply tx_throw_Ok in H|]. right. split; [done|].
    apply tx_bind_Ok in H as (u & db1 & Hup & [_ ->]%tx_ret_Ok). apply tx_exec_Ok in Hup. cbn [bx_UpdatedAt inbox_value] in Hup.
    rewrite (update_state_run r m ResultInboxAvailable) in Hup; try done; [by injection Hup as <-|by apply receives_true|by_decide].
Qed.

(** A complete package can be published, and publishing it again changes nothing. *)
Lemma available_run r m :
  receiving a attempt packageID r m db -> (forall state, parts_ok db.(peer_result_inbox_parts) packageID state (parts_of m)) ->
  ResultInboxAuthority_Validate a = Ok tt -> valid_id attempt -> valid_id packageID -> 0 <= at_ ->
  exists x, CommitResultInboxAvailable a attempt packageID at_ db =
    Ok (x, put_inbox packageID (set_activity ResultInboxAvailable (Z.max at_ r.(in_updated_at)) r.(in_lease_expires_at) r) db).
Proof.
  intros [E Hok Hparts Gauth Hst Gatt Hfree] Hc Ha Hatt Hpkg Hat. eexists. unfold CommitResultInboxAvailable.
  unfold tx_bind at 1, tx_lift at 1. rewrite Ha. unfold tx_bind at 1, tx_lift at 1, validateResultPackageAttempt. rewrite Hatt, Hpkg. cbn [wrap result_bind].
  unfold tx_bind at 1, tx_lift at 1, unixTime. rewrite decide_False by lia.
  unfold tx_bind at 1, tx_query at 1. rewrite (proj2 (no_removal db Hi packageID attempt) Hfree).
  unfold tx_bind at 1, tx_query at 1. destruct (query_inbox db Hm Hi _ _ E) as (m' & Hok' & _ & Hq). rewrite Hq.
  assert (m' = m) as -> by (pose proof (ik_manifest _ _ _ Hok') as X; rewrite (ik_manifest _ _ _ Hok) in X; by injection X).
  cbn [bx_Authority bx_State bx_AttemptID bx_UpdatedAt inbox_value].
  rewrite decide_False by (by intros Hn). rewrite decide_False by (by intros Hn). rewrite decide_False by (by rewrite Hst).
  rewrite decide_False by (by intros Hn). rewrite decide_False by (by apply (complete_parts _ _ _ _ Hparts)).
  unfold tx_bind, tx_exec. rewrite (update_state_run r m ResultInboxAvailable); try done; [by apply receives_true|by_decide].
Qed.

Lemma eviction_Ok x db' :
  PrepareResultInboxEviction a packageID at_ db = Ok (x, db') ->
  exists r m, db.(peer_result_inbox) !! packageID = Some r /\ inbox_ok packageID r m /\ inbox_authority r = a /\
    parts_ok db.(peer_result_inbox_parts) packageID r.(in_state) (parts_of m) /\
    ((r.(in_state) = ResultInboxEvictionTombstone /\ db' = db) \/
     (r.(in_state) = ResultInboxAvailable /\
      db' = put_inbox packageID (set_activity ResultInboxEvictionTombstone (Z.max at_ r.(in_updated_at)) r.(in_lease_expires_at) r) db)).
Proof.
  unfold PrepareResultInboxEviction. intros H.
  apply tx_bind_Ok in H as ([] & ? & [Ha ->]%tx_lift_Ok & H). apply tx_bind_Ok in H as ([] & ? & [Hids ->]%tx_lift_Ok & H).
  apply tx_bind_Ok in H as (ts & ? & [Hts ->]%tx_lift_Ok & H).
  assert (ts = at_ /\ 0 <= at_) as [-> Hat] by (unfold unixTime in Hts; go_inv; lia).
  apply tx_bind_Ok in H as (inbox & ? & [Hq ->]%tx_query_Ok & H).
  apply (query_inbox_Ok db Hm Hi) in Hq as (r & m & E & Hok & Hparts & ->).
  destruct (decide (_ <> a)) as [|Hauth]; [by apply tx_throw_Ok in H|]. apply dec_stable in Hauth. cbn in Hauth.
  exists r, m. split_and!; try done.
  destruct (decide (_ = ResultInboxEvictionTombstone)) as [Hst|_]; [apply tx_ret_Ok in H as [_ ->]; by left|].
  destruct (decide (_ <> ResultInboxAvailable)) as [|Hst]; [by apply tx_throw_Ok in H|]. apply dec_stable in Hst. cbn in Hst. right. split; [done|].
  apply tx_bind_Ok in H as (u & db1 & Hup & [_ ->]%tx_ret_Ok). apply tx_exec_Ok in Hup. cbn [bx_UpdatedAt inbox_value] in Hup.
  rewrite (update_state_run r m ResultInboxEvictionTombstone) in Hup; try done; [by injection Hup as <-|by apply bool_decide_eq_true|by_decide].
Qed.

Lemma eviction_run r m :
  db.(peer_result_inbox) !! packageID = Some r -> inbox_ok packageID r m -> inbox_authority r = a ->
  r.(in_state) = ResultInboxAvailable -> 0 <= at_ ->
  exists x, PrepareResultInboxEviction a packageID at_ db =
    Ok (x, put_inbox packageID (set_activity ResultInboxEvictionTombstone (Z.max at_ r.(in_updated_at)) r.(in_lease_expires_at) r) db).
Proof.
  intros E Hok Hauth Hst Hat. destruct (query_inbox db Hm Hi _ _ E) as (m' & Hok' & _ & Hq). eexists. unfold PrepareResultInboxEviction.
  unfold tx_bind at 1, tx_lift at 1. rewrite <- Hauth at 1. rewrite (ik_authority _ _ _ Hok).
  unfold tx_bind at 1, tx_lift at 1. rewrite (ik_package _ _ _ Hok). cbn [wrap].
  unfold tx_bind at 1, tx_lift at 1, unixTime. rewrite decide_False by lia.
  unfold tx_bind at 1, tx_query at 1. rewrite Hq. cbn [bx_Authority bx_State bx_UpdatedAt inbox_value].
  rewrite decide_False by (by intros Hn). rewrite decide_False by (by rewrite Hst). rewrite decide_False by (by intros Hn).
  unfold tx_bind, tx_exec. rewrite (update_state_run r m ResultInboxEvictionTombstone); try done; [by apply bool_decide_eq_true|by_decide].
Qed.
End Publish.

Lemma CommitResultInboxAvailable_call a attempt packageID at_ db x db' :
  peer_metadata_check db.(peer_metadata) = true -> inbox_inv db ->
  CommitResultInboxAvailable a attempt packageID at_ db = Ok (x, db') -> inbox_call db db'.
Proof.
  intros Hm Hi H. apply (available_Ok db Hm Hi) in H as (r & m & E & Hok & _ & Hatt & Hfree & Hc & [[_ ->]|[Hst ->]]); [by apply inbox_call_refl|].
  apply (put_inbox_call _ _ m); try done; [by_decide|lia|by rewrite Hst|]. right. intros _. by rewrite Hatt.
Qed.

Lemma PrepareResultInboxEviction_call a packageID at_ db x db' :
  peer_metadata_check db.(peer_metadata) = true -> inbox_inv db ->
  PrepareResultInboxEviction a packageID at_ db = Ok (x, db') -> inbox_call db db'.
Proof.
  intros Hm Hi H. apply (eviction_Ok db Hm Hi) in H as (r & m & E & Hok & _ & Hp & [[_ ->]|[Hst ->]]); [by apply inbox_call_refl|].
  apply (put_inbox_call _ _ m); try done; [by_decide|lia| |by rewrite Hst|].
  - destruct Hp as [Hin Hout]. split; [|done]. intros d Hd. destruct (Hin d Hd) as (p & Ep & [P1 P2 P3 P4 P5]). exists p. split; [done|].
    constructor; try done. intros _. apply P5. by rewrite Hst.
  - right. intros X. by rewrite Hst in X.
Qed.

(** ** Dropping a package *)

(** What the receipts that are left say of the packages that are left. *)
Record receipts_after (packageID : string) (receipts : gmap (string * string) RemovalRow) (db : PeerDB) : Prop := {
  ra_scan : forall k v, receipts !! k = Some v -> is_ok (scanResultInboxRemoval (Some (k, v))) = true;
  ra_prepared : forall k v, receipts !! k = Some v -> v.(ir_phase) = ResultInboxRemovalPrepared ->
    k.1 <> packageID /\ db.(peer_result_inbox_attempt_receipts) !! k = Some v;
  ra_stored : forall k v, receipts !! k = Some v -> exists v0, db.(peer_result_inbox_attempt_receipts) !! k = Some v0 /\
    removal_authority v = removal_authority v0 /\ (k.1 = packageID \/ v.(ir_phase) = v0.(ir_phase));
  ra_size : Z.of_nat (size receipts) <= MaximumResultInboxRemovalReceipts;
}.

Lemma delete_inbox_hit k guard r db :
  db.(peer_result_inbox) !! k = Some r -> guard r = true ->
  delete_inbox k guard db = set_peer_result_inbox_chunks (set_peer_result_inbox_parts
    (set_peer_result_inbox db (delete k db.(peer_result_inbox)))
    (filter (fun x => x.1.1 <> k) db.(peer_result_inbox_parts)))
    (filter (fun x => x.1.1.1.1 <> k) db.(peer_result_inbox_chunks)).
Proof. intros E Hg. unfold delete_inbox. by rewrite E, Hg. Qed.

Lemma drop_package_keeps packageID r guard receipts db :
  inbox_inv db -> db.(peer_result_inbox) !! packageID = Some r -> guard r = true -> receipts_after packageID receipts db ->
  inbox_inv (set_peer_result_inbox_attempt_receipts (delete_inbox packageID guard db) receipts).
Proof.
  intros [I1 I2 I3 I4 I5 I6 I7 I8 I9 I10 I11 I12 I13] E Hg [R1 R2 R3 R4]. rewrite (delete_inbox_hit _ _ r) by done.
  assert (forall k kind p, filter (fun x : (string * string) * InboxPartRow => x.1.1 <> packageID) db.(peer_result_inbox_parts) !! (k, kind) = Some p <->
    db.(peer_result_inbox_parts) !! (k, kind) = Some p /\ k <> packageID) as Hparts.
  { intros k kind p. by rewrite map_lookup_filter_Some. }
  constructor; simpl.
  - intros k x [Hk Ek]%lookup_delete_Some. destruct (I1 _ _ Ek) as (Ho & m & Hok & [Hin Hout]). split; [done|]. exists m. split; [done|]. split.
    + intros d Hd. destruct (Hin d Hd) as (p & Ep & Hp). exists p. rewrite Hparts. done.
    + intros kind p [Ep _]%Hparts. by apply (Hout _ _ Ep).
  - intros k1 k2 r1 r2 [_ E1]%lookup_delete_Some [_ E2]%lookup_delete_Some. by apply I2.
  - intros k kind p [Ep Hk]%Hparts. rewrite lookup_delete_ne by done. by apply (I3 _ _ _ Ep).
  - intros k a kind o c [Ec Hk]%map_lookup_filter_Some. cbn in Hk. destruct (I4 _ _ _ _ _ Ec) as (x & p & Ex & Ha & Ep & X).
    exists x, p. rewrite lookup_delete_ne, Hparts by done. done.
  - intros k x kind p o [Hk Ex]%lookup_delete_Some [Ep _]%Hparts Hb Hd. destruct (I5 _ _ _ _ _ Ex Ep Hb Hd) as [c Hc]. exists c.
    apply map_lookup_filter_Some. done.
  - rewrite map_size_delete, E. cbn. lia.
  - rewrite (sum_of_delete in_package_bytes _ _ _ E). pose proof (I1 _ _ E) as (_ & m & Hok & _).
    pose proof (ik_check _ _ _ Hok) as Hc. unfold inbox_check, in_range in Hc. rewrite !andb_true_iff in Hc. destruct_and!. lia.
  - done.
  - intros k v Ev Hv. destruct (R2 _ _ Ev Hv) as [Hk Ev0]. destruct (I9 _ _ Ev0 Hv) as (x & Ex & X). exists x. by rewrite lookup_delete_ne.
  - intros k v x Ev Hv [Hk Ex]%lookup_delete_Some. destruct (R3 _ _ Ev) as (v0 & Ev0 & _ & [?|Hph]); [done|].
    apply (I10 _ _ _ Ev0); [by rewrite <- Hph|done].
  - intros k v x Ev [Hk Ex]%lookup_delete_Some. destruct (R3 _ _ Ev) as (v0 & Ev0 & -> & _). by apply (I11 _ _ _ Ev0).
  - intros k1 k2 v1 v2 Ev1 Ev2. destruct (R3 _ _ Ev1) as (w1 & Ew1 & -> & _), (R3 _ _ Ev2) as (w2 & Ew2 & -> & _). by apply (I12 _ _ _ _ Ew1 Ew2).
  - done.
Qed.

(** The packages that are left are as they were. *)
Lemma drop_package_history packageID guard receipts metadata db :
  last_ordinal db <= metadata.(pm_last_result_inbox_retention_ordinal) ->
  db.(peer_metadata).(pm_result_inbox_evicted) <= metadata.(pm_result_inbox_evicted) ->
  inbox_history db (set_peer_result_inbox_attempt_receipts (delete_inbox packageID guard (set_peer_metadata db metadata)) receipts).
Proof.
  intros Ho He. unfold delete_inbox. cbn [peer_result_inbox set_peer_metadata].
  destruct (db.(peer_result_inbox) !! packageID) as [r|] eqn:E; [destruct (guard r)|]; constructor; cbn; try done.
  - intros k x [Hk Ek]%lookup_delete_Some. right. exists x. split_and!; [done|done|]. intros kind. unfold next_offset.
    destruct (filter _ _ !! (k, kind)) as [p|] eqn:Ep.
    + apply map_lookup_filter_Some in Ep as [-> _]. done.
    + destruct (db.(peer_result_inbox_parts) !! (k, kind)) as [p|] eqn:Ep'; [|done].
      by rewrite (proj2 (map_lookup_filter_Some _ _ _ p)) in Ep.
  - intros k x Ek. right. by exists x.
  - intros k x Ek. right. by exists x.
Qed.

(** ** Removal receipts *)

Record removal_ok (k : string * string) (v : RemovalRow) : Prop := {
  vo_authority : ResultInboxAuthority_Validate (removal_authority v) = Ok tt;
  vo_package : valid_id k.1;
  vo_attempt : valid_id k.2;
  vo_outcome : v.(ir_outcome) ∈ [ResultInboxRemovalCancelled; ResultInboxRemovalReclaimed];
  vo_phase : v.(ir_phase) ∈ [ResultInboxRemovalPrepared; ResultInboxRemovalCompleted];
  vo_times : 0 <= v.(ir_created_at) <= v.(ir_updated_at);
}.

Lemma removal_ok_valid k v : ResultInboxRemoval_Validate (removal_value k v) = Ok tt <-> removal_ok k v.
Proof.
  unfold ResultInboxRemoval_Validate, validateResultPackageAttempt. rewrite !do_Ok, !wrap_Ok, !reject_Ok. cbn. split.
  - intros (H1 & (H2 & H3 & _) & H4 & H5 & H6 & _). apply dec_stable in H4, H5. constructor; try done. lia.
  - intros [H1 H2 H3 H4 H5 H6]. split_and!; try done; try lia; by intros Hn.
Qed.

Lemma removal_ok_scan k v : is_ok (scanResultInboxRemoval (Some (k, v))) = true <-> removal_ok k v.
Proof.
  rewrite is_ok_true, <- removal_ok_valid. unfold scanResultInboxRemoval.
  change (ResultInboxRemoval_Validate _) with (ResultInboxRemoval_Validate (removal_value k v)).
  destruct (ResultInboxRemoval_Validate (removal_value k v)) as [[]|e]; cbn; naive_solver.
Qed.

Lemma authority_ids a : ResultInboxAuthority_Validate a = Ok tt ->
  valid_id a.(ia_ControllerID) /\ valid_id a.(ia_TreeID) /\ valid_id a.(ia_RootAgentID) /\ valid_id a.(ia_RootDeviceID).
Proof. unfold ResultInboxAuthority_Validate. rewrite !do_Ok, !wrap_Ok. tauto. Qed.

Lemma removal_ok_check k v : removal_ok k v -> removal_check k v = true.
Proof.
  intros [(H1 & H2 & H3 & H4)%authority_ids H5 H6 H7 H8 H9]. unfold removal_check. cbn in H1, H2, H3, H4.
  rewrite !valid_id_sqlite_length by done. cbn [Z.eqb Pos.eqb andb]. rewrite !andb_true_iff. split_and!; try (by apply bool_decide_eq_true); lia.
Qed.

(** Nothing but the receipts changes. *)
Lemma receipts_history db receipts : inbox_history db (set_peer_result_inbox_attempt_receipts db receipts).
Proof. constructor; [simpl; lia..|]. intros k r E. right. by exists r. Qed.

Section Removal.
Context (db : PeerDB) (Hm : peer_metadata_check db.(peer_metadata) = true) (Hi : inbox_inv db).

Lemma removal_stored k v : db.(peer_result_inbox_attempt_receipts) !! k = Some v -> removal_ok k v.
Proof. intros E. by apply removal_ok_scan, (bi_removals _ Hi). Qed.

(** Fewer receipts, none of them new. *)
Lemma fewer_receipts receipts : receipts ⊆ db.(peer_result_inbox_attempt_receipts) ->
  inbox_inv (set_peer_result_inbox_attempt_receipts db receipts).
Proof.
  intros Hsub. assert (forall k v, receipts !! k = Some v -> db.(peer_result_inbox_attempt_receipts) !! k = Some v) as Hs.
  { intros k v E. by apply (lookup_weaken _ _ _ _ E). }
  pose proof (map_subseteq_size _ _ Hsub) as Hsize. destruct Hi as [I1 I2 I3 I4 I5 I6 I7 I8 I9 I10 I11 I12 I13].
  constructor; simpl; try done; try lia; eauto.
Qed.

(** The row a completed removal leaves. *)
Definition completed_row (v : RemovalRow) (at_ : Z) : RemovalRow := set_phase "completed" (Z.max at_ v.(ir_updated_at)) v.

Lemma completed_ok k v at_ : removal_ok k v -> removal_ok k (completed_row v at_).
Proof. intros [H1 H2 H3 H4 H5 H6]. constructor; try done; cbn; [by_decide|lia]. Qed.

(** The database after the removal of the attempt that was receiving the package. *)
Definition removed (k : string * string) (v : RemovalRow) (at_ : Z) : PeerDB :=
  set_peer_result_inbox_attempt_receipts (delete_inbox k.1 (receives k.2) db)
    (<[k := completed_row v at_]> db.(peer_result_inbox_attempt_receipts)).

Lemma removed_call k v at_ :
  db.(peer_result_inbox_attempt_receipts) !! k = Some v -> v.(ir_phase) = ResultInboxRemovalPrepared -> inbox_call db (removed k v at_).
Proof.
  intros E Hp. destruct (bi_prepared _ Hi _ _ E Hp) as (r & Er & Ha & Hst). pose proof (receives_true _ _ Hst Ha) as Hg. constructor.
  - apply (drop_package_keeps _ r); [done|done|done|]. constructor.
    + intros k1 v1. rewrite lookup_insert_Some. intros [[<- <-]|[_ E1]]; [|by apply (bi_removals _ Hi)].
      by apply removal_ok_scan, completed_ok, removal_stored.
    + intros k1 v1. rewrite lookup_insert_Some. intros [[<- <-]|[Hn E1]] Hp1; [done|]. split; [|done]. intros Hk.
      destruct (bi_prepared _ Hi _ _ E1 Hp1) as (r1 & Er1 & Ha1 & _). rewrite Hk, Er in Er1. injection Er1 as <-.
      apply Hn. rewrite (surjective_pairing k), (surjective_pairing k1). congruence.
    + intros k1 v1. rewrite lookup_insert_Some. intros [[<- <-]|[_ E1]]; [exists v; split_and!; [done|done|by left]|].
      exists v1. split_and!; [done|done|by right].
    + rewrite map_size_insert_Some by (by rewrite E). apply (bi_removal_count _ Hi).
  - unfold removed. by rewrite (delete_inbox_hit _ _ r).
  - unfold removed. by rewrite (delete_inbox_hit _ _ r).
  - replace db with (set_peer_metadata db db.(peer_metadata)) at 2 by (by destruct db). unfold removed.
    replace (delete_inbox k.1 (receives k.2) db) with (delete_inbox k.1 (receives k.2) (set_peer_metadata db db.(peer_metadata))) by (by destruct db).
    by apply drop_package_history.
Qed.

Lemma removal_Ok x at_ y db' :
  CommitResultInboxRemoval x at_ db = Ok (y, db') ->
  exists v, db.(peer_result_inbox_attempt_receipts) !! (x.(iv_PackageID), x.(iv_AttemptID)) = Some v /\
    removal_authority v = x.(iv_Authority) /\ v.(ir_outcome) = x.(iv_Outcome) /\
    ((v.(ir_phase) = ResultInboxRemovalCompleted /\ db' = db) \/
     (v.(ir_phase) = ResultInboxRemovalPrepared /\ db' = removed (x.(iv_PackageID), x.(iv_AttemptID)) v at_)).
Proof.
  unfold CommitResultInboxRemoval. intros H. apply tx_bind_Ok in H as ([] & ? & [Hv ->]%tx_lift_Ok & H).
  apply tx_bind_Ok in H as (ts & ? & [Hts ->]%tx_lift_Ok & H).
  assert (ts = at_ /\ 0 <= at_) as [-> Hat] by (unfold unixTime in Hts; go_inv; lia).
  apply tx_bind_Ok in H as (stored & ? & [Hq ->]%tx_query_Ok & H). apply (query_removal_Ok db Hi) in Hq as (v & E & ->).
  cbn [iv_Authority iv_Outcome iv_Phase iv_PackageID iv_AttemptID iv_UpdatedAt removal_value fst snd] in H.
  destruct (decide _) as [|Hsame]; [by apply tx_throw_Ok in H|]. exists v.
  split; [done|]. split; [apply dec_stable; tauto|]. split; [apply dec_stable; tauto|].
  destruct (decide (v.(ir_phase) = ResultInboxRemovalCompleted)) as [Hph|_]; [apply tx_ret_Ok in H as [_ ->]; by left|].
  destruct (decide _) as [|Hph]; [by apply tx_throw_Ok in H|]. apply dec_stable in Hph. right. split; [done|].
  apply tx_bind_Ok in H as (inbox & ? & [_ ->]%tx_query_Ok & H). destruct (decide _) as [|_]; [by apply tx_throw_Ok in H|].
  apply tx_bind_Ok in H as (u & db1 & ->%tx_put_Ok & H). apply tx_bind_Ok in H as (u1 & db2 & Hup%tx_exec_Ok & [_ ->]%tx_ret_Ok).
  destruct (bi_prepared _ Hi _ _ E Hph) as (r & Er & Ha & Hst). cbn in Er, Ha.
  unfold removed. cbn [fst snd]. rewrite (delete_inbox_hit _ _ r) in Hup |- * by (try done; by apply receives_true).
  unfold update_removal in Hup. cbn [peer_result_inbox_attempt_receipts set_peer_result_inbox_chunks set_peer_result_inbox_parts set_peer_result_inbox] in Hup.
  rewrite (sql_update_hit _ _ _ _ _ v) in Hup; [|done|by apply bool_decide_eq_true|by apply removal_ok_check, completed_ok, removal_stored].
  by injection Hup as <-.
Qed.

Lemma deleted_removal_Ok x u db' :
  DeleteCompletedResultInboxRemoval x db = Ok (u, db') ->
  exists receipts, receipts ⊆ db.(peer_result_inbox_attempt_receipts) /\ db' = set_peer_result_inbox_attempt_receipts db receipts.
Proof.
  unfold DeleteCompletedResultInboxRemoval. intros H. apply tx_bind_Ok in H as ([] & ? & [_ ->]%tx_lift_Ok & H).
  apply tx_bind_Ok in H as (stored & ? & [_ ->]%tx_query_Ok & H). destruct stored as [stored|].
  - destruct (decide _); [by apply tx_throw_Ok in H|]. destruct (decide _); [by apply tx_throw_Ok in H|]. apply tx_put_Ok in H as ->.
    eexists. split; [|done]. apply map_filter_subseteq.
  - apply tx_ret_Ok in H as [_ ->]. exists db.(peer_result_inbox_attempt_receipts). split; [done|]. by destruct db.
Qed.

Lemma compacted_Ok a packageID u db' :
  CompactResultInboxEviction a packageID db = Ok (u, db') ->
  (db' = db /\ db.(peer_result_inbox) !! packageID = None) \/
  exists r m, db.(peer_result_inbox) !! packageID = Some r /\ r.(in_state) = ResultInboxEvictionTombstone /\ inbox_authority r = a /\
    m = {| pm_worker_revision := revision_of db; pm_last_result_inbox_retention_ordinal := last_ordinal db;
           pm_result_inbox_evicted := db.(peer_metadata).(pm_result_inbox_evicted) + 1 |} /\ peer_metadata_check m = true /\
    db' = set_peer_result_inbox_attempt_receipts
      (delete_inbox packageID (fun r => bool_decide (r.(in_state) = "evictionTombstone")) (set_peer_metadata db m))
      (sql_delete (fun x => x.1.1 = packageID) db.(peer_result_inbox_attempt_receipts)).2.
Proof.
  unfold CompactResultInboxEviction. intros H. apply tx_bind_Ok in H as ([] & ? & [_ ->]%tx_lift_Ok & H).
  apply tx_bind_Ok in H as ([] & ? & [_ ->]%tx_lift_Ok & H). apply tx_bind_Ok in H as (found & ? & [Hq ->]%tx_query_Ok & H).
  destruct found as [found|]; [|apply tx_ret_Ok in H as [_ ->]; left; split; [done|by apply (query_inbox_none db Hm Hi)]].
  rewrite optional_Ok_Some in Hq. apply (query_inbox_Ok db Hm Hi) in Hq as (r & m & E & Hok & Hparts & ->). right.
  destruct (decide (_ <> a)) as [|Ha]; [by apply tx_throw_Ok in H|]. apply dec_stable in Ha. cbn in Ha.
  destruct (decide (_ <> ResultInboxEvictionTombstone)) as [|Hst]; [by apply tx_throw_Ok in H|]. apply dec_stable in Hst. cbn in Hst.
  apply tx_bind_Ok in H as (u1 & db1 & Hc & H). unfold count_eviction in Hc. cbv zeta in Hc. destruct (decide _); [|done].
  apply reject_Ok in Hc as [Hchk [= <- <-]]. apply tx_bind_Ok in H as (u2 & db2 & ->%tx_put_Ok & ->%tx_put_Ok).
  exists r. eexists. split_and!; [done|done|done|reflexivity|by apply not_false_is_true|].
  unfold revision_of. rewrite (delete_inbox_hit _ _ r); [reflexivity|done|by apply bool_decide_eq_true].
Qed.
End Removal.

(** ** Room for a receipt *)

(** A package has one removal in progress at most. *)
Lemma prepared_bound db : inbox_inv db ->
  count (fun x => x.2.(ir_phase) = ResultInboxRemovalPrepared) db.(peer_result_inbox_attempt_receipts) <= MaximumPeerResultPackages.
Proof.
  intros Hi. pose proof (bi_count _ Hi) as Hn. etrans; [|exact Hn]. unfold count. apply Nat2Z.inj_le.
  set (P := fun x : (string * string) * RemovalRow => x.2.(ir_phase) = ResultInboxRemovalPrepared).
  set (l := select P db.(peer_result_inbox_attempt_receipts)).
  assert (Hl : forall k v, (k, v) ∈ l <-> db.(peer_result_inbox_attempt_receipts) !! k = Some v /\ v.(ir_phase) = ResultInboxRemovalPrepared).
  { intros k v. unfold l. by rewrite (elem_of_select P). }
  rewrite <- (length_fmap (fun x : (string * string) * RemovalRow => x.1.1) l), <- length_map_to_list, <- (length_fmap fst (map_to_list _)).
  apply submseteq_length, NoDup_submseteq.
  - apply NoDup_fmap_2_strong; [|apply NoDup_select]. intros [k1 v1] [k2 v2] [E1 H1]%Hl [E2 H2]%Hl Hk. cbn in Hk.
    destruct (bi_prepared _ Hi _ _ E1 H1) as (r1 & R1 & A1 & _), (bi_prepared _ Hi _ _ E2 H2) as (r2 & R2 & A2 & _).
    rewrite Hk, R2 in R1. injection R1 as <-. assert (k1 = k2) as <- by (destruct k1, k2; cbn in *; congruence).
    rewrite E1 in E2. by injection E2 as <-.
  - intros x ([k v] & -> & [E H]%Hl)%list_elem_of_fmap. destruct (bi_prepared _ Hi _ _ E H) as (r & R & _).
    apply list_elem_of_fmap. exists (k.1, r). split; [done|]. by apply elem_of_map_to_list.
Qed.

(** When the receipts are at their limit, one of them is completed and makes room: the loop
    ends after two turns and never reports the quota. *)
Lemma removal_capacity_run db : inbox_inv db ->
  exists receipts, ensureResultInboxRemovalCapacity db = Ok (tt, set_peer_result_inbox_attempt_receipts db receipts) /\
    receipts ⊆ db.(peer_result_inbox_attempt_receipts) /\ Z.of_nat (size receipts) < MaximumResultInboxRemovalReceipts /\
    (forall k v, db.(peer_result_inbox_attempt_receipts) !! k = Some v -> v.(ir_phase) <> ResultInboxRemovalCompleted -> receipts !! k = Some v).
Proof.
  intros Hi. set (t := db.(peer_result_inbox_attempt_receipts)). pose proof (bi_removal_count _ Hi) as Hn. fold t in Hn.
  unfold ensureResultInboxRemovalCapacity. fold t. cbn [prune_removals]. fold t.
  destruct (decide _) as [Hlt|Hge]; [exists t; split_and!; try done; by destruct db|].
  assert (Z.of_nat (size t) = MaximumResultInboxRemovalReceipts) as Hfull by lia.
  unfold oldest_completed. fold t. set (l := order_by _ _).
  assert (Hl : forall k v, (k, v) ∈ l <-> t !! k = Some v /\ v.(ir_phase) = ResultInboxRemovalCompleted).
  { intros k v. unfold l, order_by, order_by_text. rewrite !elem_of_sort_by.
    by rewrite (elem_of_select (fun x : (string * string) * RemovalRow => x.2.(ir_phase) = "completed")). }
  assert (exists k v, t !! k = Some v /\ v.(ir_phase) = ResultInboxRemovalCompleted /\ fst <$> limit 1 l = [k]) as (k & v & E & Hv & Hk).
  { destruct l as [|[k v] l']; [exfalso|exists k, v; destruct (proj1 (Hl k v)) as [? ?]; [apply elem_of_cons; by left|done]].
    pose proof (prepared_bound _ Hi) as Hb. fold t in Hb. unfold count, select in Hb. rewrite map_filter_id, length_map_to_list in Hb.
    - rewrite Hfull in Hb. done.
    - intros k v E. pose proof (vo_phase _ _ (removal_stored db Hi _ _ E)) as Hp. rewrite !elem_of_cons, elem_of_nil in Hp. cbn.
      destruct Hp as [Hp|[Hp|[]]]; [done|]. exfalso. by eapply (proj1 (elem_of_nil (k, v))), Hl. }
  rewrite Hk. match goal with |- context [sql_delete ?P t] => pose proof (size_after_delete P t) as Hsz; pose proof (sql_delete_key P t k v E) as Hdel end.
  destruct (sql_delete _ t) as [deleted t'] eqn:Ed. cbn [fst snd] in Hsz, Hdel.
  rewrite Hdel in Hsz |- * by (set_solver). rewrite map_size_delete, E in Hsz. cbn in Hsz. assert (deleted = 1) as ->.
  { unfold MaximumResultInboxRemovalReceipts in Hfull. lia. }
  rewrite decide_False by (by intros Hx). destruct (size t) as [|n] eqn:Hs; [done|]. cbn [prune_removals peer_result_inbox_attempt_receipts set_peer_result_inbox_attempt_receipts].
  rewrite map_size_delete, E. cbn [is_Some_dec]. rewrite decide_True by (rewrite Hs; cbn; unfold MaximumResultInboxRemovalReceipts in *; lia).
  exists (delete k t). split_and!; [done|apply delete_subseteq| |].
  - rewrite map_size_delete, E. cbn. unfold MaximumResultInboxRemovalReceipts in *. lia.
  - intros k1 v1 E1 Hp. rewrite lookup_delete_ne; [done|]. intros <-. rewrite E in E1. by injection E1 as <-.
Qed.

(** ** Preparing a removal *)

Section Prepare.
Context (db : PeerDB) (Hm : peer_metadata_check db.(peer_metadata) = true) (Hi : inbox_inv db).
Context (a : ResultInboxAuthority) (attempt packageID : string) (at_ : Z) (outcome : string) (requireExpired : bool).

Lemma prepared_ok_removal :
  ResultInboxAuthority_Validate a = Ok tt -> valid_id attempt -> valid_id packageID -> 0 <= at_ ->
  outcome ∈ [ResultInboxRemovalCancelled; ResultInboxRemovalReclaimed] -> removal_ok (packageID, attempt) (prepared_removal a outcome at_).
Proof. intros Ha H1 H2 H3 H4. constructor; try done; cbn; first [by destruct a|by_decide|lia]. Qed.

(** A receipt for the attempt that is being received. *)
Lemma put_receipt_keeps r m receipts :
  receiving a attempt packageID r m db -> receipts ⊆ db.(peer_result_inbox_attempt_receipts) ->
  Z.of_nat (size receipts) < MaximumResultInboxRemovalReceipts -> removal_ok (packageID, attempt) (prepared_removal a outcome at_) ->
  inbox_inv (set_peer_result_inbox_attempt_receipts db (<[(packageID, attempt) := prepared_removal a outcome at_]> receipts)).
Proof.
  intros [E Hok Hparts Gauth Hst Gatt Hfree] Hsub Hlt Hv.
  assert (forall k v, receipts !! k = Some v -> db.(peer_result_inbox_attempt_receipts) !! k = Some v) as Hs.
  { intros k v Ek. by apply (lookup_weaken _ _ _ _ Ek). }
  assert (receipts !! (packageID, attempt) = None) as Hnone.
  { destruct (receipts !! (packageID, attempt)) eqn:Ek; [|done]. apply Hs in Ek. by rewrite Hfree in Ek. }
  assert (removal_authority (prepared_removal a outcome at_) = a) as Hpa by (by destruct a).
  destruct Hi as [I1 I2 I3 I4 I5 I6 I7 I8 I9 I10 I11 I12 I13]. constructor; simpl; try done.
  - intros k v. rewrite lookup_insert_Some. intros [[<- <-]|[_ Ek]]; [by apply removal_ok_scan|by apply I8, Hs].
  - intros k v. rewrite lookup_insert_Some. intros [[<- <-]|[_ Ek]] Hp; [by exists r|by apply (I9 _ v); [apply Hs|]].
  - intros k v x. rewrite lookup_insert_Some. intros [[<- <-]|[_ Ek]] Hp; [done|by apply (I10 _ v); [apply Hs|]].
  - intros k v x. rewrite lookup_insert_Some. intros [[<- <-]|[_ Ek]] Ex; [|by apply (I11 k); [apply Hs|]].
    cbn in Ex. rewrite E in Ex. injection Ex as <-. by rewrite Hpa.
  - assert (forall k v, receipts !! k = Some v -> k.1 = packageID -> removal_authority v = a) as Howner.
    { intros k v Ek Hk. rewrite <- Gauth. apply (I11 k); [by apply Hs|]. by rewrite Hk. }
    intros k1 k2 v1 v2. rewrite !lookup_insert_Some. intros [[<- <-]|[_ E1]] [[<- <-]|[_ E2]] Hk; rewrite ?Hpa.
    + done.
    + symmetry. by apply (Howner k2).
    + by apply (Howner k1).
    + by apply (I12 k1 k2); [apply Hs|apply Hs|].
  - rewrite map_size_insert_None by done. lia.
Qed.

Lemma prepare_Ok x db' :
  prepareResultInboxRemoval a attempt packageID at_ outcome requireExpired db = Ok (x, db') ->
  outcome ∈ [ResultInboxRemovalCancelled; ResultInboxRemovalReclaimed] ->
  (db' = db /\ exists v, db.(peer_result_inbox_attempt_receipts) !! (packageID, attempt) = Some v /\ removal_authority v = a /\ v.(ir_outcome) = outcome) \/
  exists r m receipts, receiving a attempt packageID r m db /\ (requireExpired = true -> r.(in_lease_expires_at) <= at_) /\
    receipts ⊆ db.(peer_result_inbox_attempt_receipts) /\ Z.of_nat (size receipts) < MaximumResultInboxRemovalReceipts /\
    removal_ok (packageID, attempt) (prepared_removal a outcome at_) /\
    db' = set_peer_result_inbox_attempt_receipts db (<[(packageID, attempt) := prepared_removal a outcome at_]> receipts).
Proof.
  unfold prepareResultInboxRemoval. intros H Ho.
  apply tx_bind_Ok in H as ([] & ? & [Ha ->]%tx_lift_Ok & H). apply tx_bind_Ok in H as ([] & ? & [Hids ->]%tx_lift_Ok & H).
  apply tx_bind_Ok in H as (ts & ? & [Hts ->]%tx_lift_Ok & H).
  assert (ts = at_ /\ 0 <= at_) as [-> Hat] by (unfold unixTime in Hts; go_inv; lia).
  unfold validateResultPackageAttempt in Hids. rewrite !do_Ok, !wrap_Ok in Hids. destruct Hids as (Hatt & Hpkg & _).
  apply tx_bind_Ok in H as (found & ? & [Hq ->]%tx_query_Ok & H). destruct found as [found|].
  - left. rewrite optional_Ok_Some in Hq. apply (query_removal_Ok db Hi) in Hq as (v & E & ->). destruct (decide _) as [|Hs]; [by apply tx_throw_Ok in H|].
    apply tx_ret_Ok in H as [_ ->]. split; [done|]. exists v. cbn in Hs. split_and!; [done|apply dec_stable; tauto|apply dec_stable; tauto].
  - right. apply (query_removal_none db Hi) in Hq.
    apply tx_bind_Ok in H as (inbox & ? & [Hx ->]%tx_query_Ok & H). apply (query_inbox_Ok db Hm Hi) in Hx as (r & m & E & Hok & Hparts & ->).
    cbn [bx_Authority bx_State bx_AttemptID bx_LeaseExpiresAt inbox_value] in H.
    destruct (decide (_ <> a)) as [|Hauth]; [by apply tx_throw_Ok in H|]. apply dec_stable in Hauth.
    destruct (decide (_ \/ _)) as [|Hst]; [by apply tx_throw_Ok in H|]. destruct (decide (_ /\ _)) as [|Hexp]; [by apply tx_throw_Ok in H|].
    apply tx_bind_Ok in H as (u & db1 & Hc & H). destruct (removal_capacity_run db Hi) as (receipts & Hrun & Hsub & Hlt & _).
    rewrite Hrun in Hc. injection Hc as _ <-. apply tx_bind_Ok in H as (u1 & db2 & Hins & [_ ->]%tx_ret_Ok).
    apply tx_exec_Ok, wrap_Ok, result_bind_Ok in Hins as (tb & Hins & [= <-]). apply sql_insert_Ok in Hins as (_ & _ & ->).
    exists r, m, receipts. split_and!; try done.
    + constructor; try done; apply dec_stable; tauto.
    + intros He. apply Z.nlt_ge. intros Hgt. apply Hexp. split; [done|lia].
    + by apply prepared_ok_removal.
Qed.

(** The removal of an attempt that is being received can always be prepared. *)
Lemma prepare_run r m :
  receiving a attempt packageID r m db -> outcome ∈ [ResultInboxRemovalCancelled; ResultInboxRemovalReclaimed] -> 0 <= at_ ->
  (requireExpired = true -> r.(in_lease_expires_at) <= at_) ->
  exists receipts, receipts ⊆ db.(peer_result_inbox_attempt_receipts) /\ Z.of_nat (size receipts) < MaximumResultInboxRemovalReceipts /\
    prepareResultInboxRemoval a attempt packageID at_ outcome requireExpired db =
      Ok (removal_value (packageID, attempt) (prepared_removal a outcome at_),
          set_peer_result_inbox_attempt_receipts db (<[(packageID, attempt) := prepared_removal a outcome at_]> receipts)).
Proof.
  intros G Ho Hat Hexp. destruct (removal_capacity_run db Hi) as (receipts & Hrun & Hsub & Hlt & _). exists receipts. split; [done|]. split; [done|].
  destruct G as [E Hok Hparts Gauth Hst Gatt Hfree]. destruct (query_inbox db Hm Hi _ _ E) as (m' & Hok' & _ & Hq).
  pose proof (ik_authority _ _ _ Hok) as Ha. rewrite Gauth in Ha. pose proof (ik_attempt _ _ _ Hok) as Hatt. rewrite Gatt in Hatt.
  pose proof (ik_package _ _ _ Hok) as Hpkg. unfold prepareResultInboxRemoval.
  unfold tx_bind at 1, tx_lift at 1. rewrite Ha. unfold tx_bind at 1, tx_lift at 1, validateResultPackageAttempt. rewrite Hatt, Hpkg. cbn [wrap result_bind].
  unfold tx_bind at 1, tx_lift at 1, unixTime. rewrite decide_False by lia.
  unfold tx_bind at 1, tx_query at 1. rewrite (proj2 (query_removal_none db Hi packageID attempt) Hfree).
  unfold tx_bind at 1, tx_query at 1. rewrite Hq. cbn [bx_Authority bx_State bx_AttemptID bx_LeaseExpiresAt inbox_value].
  rewrite decide_False by (by intros Hn). rewrite decide_False by (by intros [?|?]). rewrite decide_False by (intros [He Hgt]; specialize (Hexp He); lia).
  unfold tx_bind at 1. rewrite Hrun. unfold tx_bind, tx_exec, insert_removal. cbn [peer_result_inbox_attempt_receipts set_peer_result_inbox_attempt_receipts].
  rewrite sql_insert_hit; [by destruct a|by apply removal_ok_check, prepared_ok_removal|].
  destruct (receipts !! (packageID, attempt)) eqn:Ek; [|done]. apply (lookup_weaken _ _ _ _ Ek) in Hsub. by rewrite Hfree in Hsub.
Qed.

(** The receipt of a removal completes it. *)
Lemma removal_run k v :
  db.(peer_result_inbox_attempt_receipts) !! k = Some v -> v.(ir_phase) = ResultInboxRemovalPrepared -> 0 <= at_ ->
  exists x, CommitResultInboxRemoval (removal_value k v) at_ db = Ok (x, removed db k v at_).
Proof.
  intros E Hp Hat. pose proof (removal_stored db Hi _ _ E) as Hv. destruct (bi_prepared _ Hi _ _ E Hp) as (r & Er & Ha & Hst).
  pose proof (bi_owner _ Hi _ _ _ E Er) as Hown. destruct (query_inbox db Hm Hi _ _ Er) as (m & Hok & _ & Hq). eexists.
  unfold CommitResultInboxRemoval. unfold tx_bind at 1, tx_lift at 1. rewrite (proj2 (removal_ok_valid k v) Hv).
  unfold tx_bind at 1, tx_lift at 1, unixTime. rewrite decide_False by lia. unfold tx_bind at 1, tx_query at 1. cbn [iv_PackageID iv_AttemptID removal_value].
  rewrite (query_removal db Hi k.1 k.2 v) by (by rewrite <- surjective_pairing).
  cbn [iv_Authority iv_Outcome iv_Phase iv_PackageID iv_AttemptID iv_UpdatedAt iv_CreatedAt removal_value fst snd].
  rewrite decide_False by (by intros [?|?]). rewrite decide_False by (by rewrite Hp). rewrite decide_False by (by intros Hn).
  unfold tx_bind at 1, tx_query at 1. rewrite Hq. cbn [bx_Authority bx_State bx_AttemptID inbox_value].
  rewrite decide_False by (intros [?|[?|?]]; congruence). unfold tx_bind at 1, tx_put at 1. unfold removed.
  rewrite (delete_inbox_hit _ _ r) by (try done; by apply receives_true).
  unfold tx_bind, tx_exec, update_removal. cbn [peer_result_inbox_attempt_receipts set_peer_result_inbox_chunks set_peer_result_inbox_parts set_peer_result_inbox].
  rewrite <- surjective_pairing. rewrite (sql_update_hit _ _ _ _ _ v); [reflexivity|done|by apply bool_decide_eq_true|by apply removal_ok_check, completed_ok].
Qed.
End Prepare.

(** ** Beginning a package *)

Definition new_part (d : ResultPackagePartDescriptor) : InboxPartRow :=
  {| ip_size_bytes := d.(rd_Size); ip_sha256 := d.(rd_SHA256); ip_next_offset := 0 |}.

Fixpoint add_new_parts (packageID : string) (parts : list ResultPackagePartDescriptor) (t : gmap (string * string) InboxPartRow) :=
  match parts with
  | [] => t
  | d :: parts => add_new_parts packageID parts (<[(packageID, d.(rd_Kind)) := new_part d]> t)
  end.

Lemma insert_parts_Ok packageID parts db u db' :
  insert_parts packageID parts db = Ok (u, db') ->
  db' = set_peer_result_inbox_parts db (add_new_parts packageID parts db.(peer_result_inbox_parts)).
Proof.
  revert db. induction parts as [|d parts IH]; intros db H.
  - apply tx_ret_Ok in H as [_ ->]. by destruct db.
  - unfold insert_parts in H. cbn [tx_iter] in H. apply tx_bind_Ok in H as (u1 & db1 & Hins & H).
    apply tx_exec_Ok, wrap_Ok, result_bind_Ok in Hins as (tb & Hins & [= <-]). apply sql_insert_Ok in Hins as (_ & _ & ->).
    apply IH in H as ->. done.
Qed.

Lemma insert_parts_run packageID parts db :
  is_Some (db.(peer_result_inbox) !! packageID) -> NoDup (rd_Kind <$> parts) ->
  Forall (fun d => ResultPackagePartDescriptor_Validate d = Ok tt /\ validatePayloadKind d.(rd_Kind) = Ok tt) parts ->
  (forall d, d ∈ parts -> db.(peer_result_inbox_parts) !! (packageID, d.(rd_Kind)) = None) ->
  insert_parts packageID parts db = Ok (tt, set_peer_result_inbox_parts db (add_new_parts packageID parts db.(peer_result_inbox_parts))).
Proof.
  intros Hrow Hnd Hv Hfree. revert db Hrow Hnd Hfree. induction Hv as [|d parts [Hd Hk] _ IH]; intros db Hrow Hnd Hfree; [by destruct db|].
  rewrite fmap_cons, NoDup_cons in Hnd. destruct Hnd as [Hnin Hnd]. unfold insert_parts. cbn [tx_iter]. unfold tx_bind at 1, tx_exec, insert_inbox_part.
  cbn [fst snd]. rewrite sql_insert_hit.
  - cbn [wrap result_bind]. change (tx_iter _ parts) with (insert_parts packageID parts). rewrite IH; [done|done|done|].
    intros d' Hd'. cbn. rewrite lookup_insert_ne; [apply Hfree; apply elem_of_cons; by right|]. intros [= Hkk]. apply Hnin, list_elem_of_fmap. by exists d'.
  - rewrite andb_true_iff. split; [|by apply bool_decide_eq_true]. apply descriptor_bounds in Hd as [Hb Hsha].
    unfold inbox_part_check, in_range. cbn [ip_size_bytes ip_sha256 ip_next_offset].
    rewrite (lower_hex_pattern_check _ Hsha), !andb_true_iff. split_and!; [|lia|done|lia|lia].
    apply bool_decide_eq_true. clear -Hk. unfold validatePayloadKind, ResultPackagePartKind_Validate in Hk. go_inv.
    rewrite !elem_of_cons in *. destruct_or!; try (exfalso; done); tauto.
  - apply Hfree. apply elem_of_cons. by left.
Qed.

Lemma new_parts_lookup packageID parts t : NoDup (rd_Kind <$> parts) ->
  (forall d, d ∈ parts -> add_new_parts packageID parts t !! (packageID, d.(rd_Kind)) = Some (new_part d)) /\
  (forall k kind, (k <> packageID \/ kind ∉ rd_Kind <$> parts) -> add_new_parts packageID parts t !! (k, kind) = t !! (k, kind)).
Proof.
  revert t. induction parts as [|d parts IH]; intros t Hnd; [split; [by intros d Hd%elem_of_nil|done]|].
  rewrite fmap_cons, NoDup_cons in Hnd. destruct Hnd as [Hnin Hnd]. cbn [add_new_parts].
  destruct (IH (<[(packageID, d.(rd_Kind)) := new_part d]> t) Hnd) as [H1 H2]. split.
  - intros d' [->|Hd']%elem_of_cons; [|by apply H1]. rewrite H2 by (by right). by rewrite lookup_insert_eq.
  - intros k kind Hk. rewrite fmap_cons, not_elem_of_cons in Hk. rewrite H2 by tauto. apply lookup_insert_ne. intros [= <- <-]. tauto.
Qed.

(** The database with a new package. *)
Definition begun (packageID : string) (r : InboxRow) (m : ResultManifest) (metadata : PeerMetadataRow) (db : PeerDB) : PeerDB :=
  set_peer_result_inbox_parts (put_inbox packageID r (set_peer_metadata db metadata))
    (add_new_parts packageID (parts_of m) db.(peer_result_inbox_parts)).

Lemma begun_keeps packageID r m metadata db :
  inbox_inv db -> db.(peer_result_inbox) !! packageID = None -> inbox_ok packageID r m -> r.(in_state) = ResultInboxReceiving ->
  last_ordinal db < r.(in_retention_ordinal) -> r.(in_retention_ordinal) = metadata.(pm_last_result_inbox_retention_ordinal) ->
  1 <= r.(in_retention_ordinal) -> Z.of_nat (size db.(peer_result_inbox)) < MaximumPeerResultPackages ->
  r.(in_package_bytes) <= MaximumPeerResultStoreBytes - package_total db.(peer_result_inbox) ->
  (forall x v, db.(peer_result_inbox_attempt_receipts) !! (packageID, x) = Some v -> removal_authority v = inbox_authority r /\ x <> r.(in_attempt_id)) ->
  inbox_inv (begun packageID r m metadata db).
Proof.
  intros [I1 I2 I3 I4 I5 I6 I7 I8 I9 I10 I11 I12 I13] E Hok Hst Hord Hmo Hpos Hcount Hbytes Hrem.
  destruct (decoded_parts _ _ (ik_manifest _ _ _ Hok)) as [_ _ Hnd Hvalid].
  destruct (new_parts_lookup packageID (parts_of m) db.(peer_result_inbox_parts) Hnd) as [N1 N2].
  assert (forall kind, db.(peer_result_inbox_parts) !! (packageID, kind) = None) as Hnone.
  { intros kind. apply eq_None_not_Some. intros [p Ep]. apply I3 in Ep as [x Ex]. by rewrite E in Ex. }
  assert (forall k kind p, add_new_parts packageID (parts_of m) db.(peer_result_inbox_parts) !! (k, kind) = Some p ->
    (k <> packageID /\ db.(peer_result_inbox_parts) !! (k, kind) = Some p) \/
    (k = packageID /\ exists d, d ∈ parts_of m /\ kind = d.(rd_Kind) /\ p = new_part d)) as Hold.
  { intros k kind p Ep. destruct (decide (k = packageID)) as [->|Hk]; [|left; rewrite N2 in Ep by (by left); done]. right. split; [done|].
    destruct (decide (kind ∈ rd_Kind <$> parts_of m)) as [Hin|Hout]; [|rewrite N2, Hnone in Ep by (by right); done].
    apply list_elem_of_fmap in Hin as (d & -> & Hd). rewrite (N1 _ Hd) in Ep. injection Ep as <-. by exists d. }
  assert (forall k kind, k <> packageID -> add_new_parts packageID (parts_of m) db.(peer_result_inbox_parts) !! (k, kind) = db.(peer_result_inbox_parts) !! (k, kind)) as Hne.
  { intros k kind Hk. apply N2. by left. }
  assert (forall k x, db.(peer_result_inbox) !! k = Some x -> k <> packageID) as Hrow.
  { intros k x Ek ->. by rewrite E in Ek. }
  constructor; simpl.
  - intros k x. rewrite lookup_insert_Some. intros [[<- <-]|[_ Ek]].
    + split; [lia|]. exists m. split; [done|]. rewrite Hst. split.
      * intros d Hd. exists (new_part d). split; [by apply N1|]. rewrite Forall_forall in Hvalid. destruct (Hvalid _ Hd) as [[Hb _]%descriptor_bounds _].
        constructor; try done; cbn; [lia|]. right. apply Z.divide_0_r.
      * intros kind p Ep. destruct (Hold _ _ _ Ep) as [[? _]|(_ & d & Hd & -> & _)]; [done|]. by apply list_elem_of_fmap_2.
    + destruct (I1 _ _ Ek) as (Ho & m' & Hok' & [Hin Hout]). split; [lia|]. exists m'. split; [done|]. split.
      * intros d Hd. rewrite Hne by (by apply (Hrow _ x)). by apply Hin.
      * intros kind p. rewrite Hne by (by apply (Hrow _ x)). apply Hout.
  - intros k1 k2 r1 r2. rewrite !lookup_insert_Some. intros [[<- <-]|[_ E1]] [[<- <-]|[_ E2]] Ho; [done|exfalso|exfalso|by apply (I2 _ _ _ _ E1 E2)].
    + destruct (I1 _ _ E2). lia.
    + destruct (I1 _ _ E1). lia.
  - intros k kind p Ep. destruct (Hold _ _ _ Ep) as [[Hk Ep']|(-> & _)]; [rewrite lookup_insert_ne by done; by apply (I3 _ _ _ Ep')|by rewrite lookup_insert_eq].
  - intros k x kind o c Ec. destruct (I4 _ _ _ _ _ Ec) as (y & p & Ey & Ha & Ep & X). pose proof (Hrow _ _ Ey) as Hk.
    exists y, p. by rewrite lookup_insert_ne, Hne by done.
  - intros k x kind p o. rewrite lookup_insert_Some. intros [[<- <-]|[Hk Ex]] Ep Hb Hd.
    + destruct (Hold _ _ _ Ep) as [[? _]|(_ & d & _ & _ & ->)]; [done|]. cbn in Hb. lia.
    + rewrite Hne in Ep by done. by apply (I5 _ _ _ _ _ Ex Ep).
  - rewrite map_size_insert_None by done. lia.
  - rewrite (sum_of_insert in_package_bytes) by done. lia.
  - done.
  - intros k v Ev Hv. destruct (I9 _ _ Ev Hv) as (x & Ex & X). exists x. rewrite lookup_insert_ne by (intros Hk; by apply (Hrow _ _ Ex)). done.
  - intros [k1 k2] v x Ev Hv. cbn. rewrite lookup_insert_Some. intros [[<- <-]|[_ Ex]]; [|by apply (I10 _ _ _ Ev Hv)].
    destruct (Hrem _ _ Ev) as [_ Hne']. intros Hx. by apply Hne'.
  - intros [k1 k2] v x Ev. cbn. rewrite lookup_insert_Some. intros [[<- <-]|[_ Ex]]; [|by apply (I11 _ _ _ Ev)]. by apply (Hrem _ _ Ev).
  - done.
  - done.
Qed.

(** ** A decoded manifest *)

Lemma digits_value_nonneg l : forallb is_digit l = true -> 0 <= digits_value l.
Proof.
  unfold digits_value. assert (forall acc, 0 <= acc -> forallb is_digit l = true -> 0 <= foldl (fun n d => n * 10 + (d - 48)) acc l) as H.
  { induction l as [|d l IH]; intros acc Ha Hd; [done|]. cbn -[is_digit] in *. apply andb_prop in Hd as [Hd Hl]. apply IH; [|done].
    unfold is_digit, in_range in Hd. lia. }
  intros Hl. by apply H.
Qed.

Lemma unmarshal_uint64_nonneg names members name old n :
  0 <= old -> unmarshal_field names members name unmarshal_uint64 old = Ok n -> 0 <= n.
Proof.
  unfold unmarshal_field. generalize (snd <$> filter (fun member => resolve_field names member.1 = Some name) members).
  intros l. revert old. induction l as [|v l IH]; intros old Ho H; [by injection H as <-|].
  cbn [unmarshal_each] in H. apply result_bind_Ok in H as (x & Hx & H). apply (IH x); [|done].
  unfold unmarshal_uint64, unmarshal_number in Hx. destruct v as [| |ds| | |]; try done; [by injection Hx as <-|].
  destruct (ParseUint ds) as [y|] eqn:Ey; [|done]. injection Hx as <-. unfold ParseUint in Ey. destruct ds as [|d ds]; [done|].
  destruct (forallb is_digit (d :: ds)) eqn:Ed; [|done]. cbn [andb] in Ey. destruct (_ <=? MaxUint64); [|done]. injection Ey as <-.
  by apply digits_value_nonneg.
Qed.

Record manifest_columns (md : ResultPackageMetadata) (m : ResultManifest) : Prop := {
  mc_agent : valid_id m.(rm_SourceAgentID);
  mc_device : valid_id m.(rm_SourceDeviceID);
  mc_thread : valid_id m.(rm_ManagedThreadID);
  mc_turn : valid_id m.(rm_TurnID);
  mc_revision : 0 < m.(rm_LifecycleRevision) <= MaxInt64;
  mc_size : 1 <= md.(rpm_ManifestDescriptor).(rd_Size) <= MaximumResultManifestBytes;
  mc_digest : digest_check md.(rpm_ManifestDescriptor).(rd_SHA256) = true;
  mc_length : len md.(rpm_Manifest) = md.(rpm_ManifestDescriptor).(rd_Size);
}.

Lemma decoded_columns md m : DecodeManifest md = Ok m -> manifest_columns md m.
Proof.
  intros H. assert (Hv := H). apply DecodeManifest_valid in Hv. unfold DecodeManifest in H. apply do_Ok in H as [Hd H].
  apply reject_Ok in H as [Hk H]. apply dec_stable in Hk. apply reject_Ok in H as [Hl H]. apply dec_stable in Hl. apply reject_Ok in H as [_ H].
  apply result_bind_Ok in H as (m' & Hm & H). apply do_Ok in H as [_ [= ->]].
  apply descriptor_bounds in Hd as [Hb Hsha]. rewrite Hk in Hb. change (payload_maximum ResultPackagePartManifest) with MaximumResultManifestBytes in Hb.
  apply lower_hex_pattern_check in Hsha.
  assert (0 <= m.(rm_LifecycleRevision)) as Hnn.
  { unfold DecodeResultManifest in Hm. apply reject_Ok in Hm as [_ Hm]. destruct (json_parse _) as [v|]; [|done].
    apply result_bind_Ok in Hm as (x & Hx & Hm). apply wrap_Ok in Hx. apply do_Ok in Hm as [_ Hm]. apply do_Ok in Hm as [_ [= ->]].
    unfold unmarshal_manifest in Hx. do 9 (apply result_bind_Ok in Hx as (? & _ & Hx)). apply result_bind_Ok in Hx as (n & Hn & Hx).
    do 5 (apply result_bind_Ok in Hx as (? & _ & Hx)). injection Hx as <-. cbn. by eapply unmarshal_uint64_nonneg in Hn. }
  unfold ResultManifest_Validate in Hv. apply reject_Ok in Hv as [_ Hv]. rewrite !do_Ok, !wrap_Ok, !reject_Ok in Hv.
  destruct Hv as (_ & _ & _ & H4 & H5 & H6 & H7 & Hr & _). constructor; try done. lia.
Qed.

Lemma resultPackageBytes_bounds md n : resultPackageBytes md = Ok n -> 1 <= n <= MaximumResultPackageBytes.
Proof.
  unfold resultPackageBytes. intros H. apply result_bind_Ok in H as (? & _ & H). apply result_bind_Ok in H as (? & _ & H).
  apply reject_Ok in H as [? [= <-]]. lia.
Qed.

Section Begin.
Context (db : PeerDB) (Hm : peer_metadata_check db.(peer_metadata) = true) (Hi : inbox_inv db).
Context (a : ResultInboxAuthority) (p : BeginResultPackageParams) (at_ : Z).

(** What the checks before the transaction establish. *)
Record begin_request (m : ResultManifest) (bytes : Z) : Prop := {
  bq_authority : ResultInboxAuthority_Validate a = Ok tt;
  bq_params : BeginResultPackageParams_Validate p = Ok tt;
  bq_time : 0 <= at_ <= MaxInt64 - MaximumResultInboxLease;
  bq_manifest : DecodeManifest p.(brp_Metadata) = Ok m;
  bq_names : validateInboxMetadata a p.(brp_PackageID) p.(brp_Metadata) m = Ok tt;
  bq_bytes : resultPackageBytes p.(brp_Metadata) = Ok bytes;
}.

Definition begin_row (m : ResultManifest) (bytes : Z) : InboxRow :=
  receiving_row a p m (Z.max (last_ordinal db) p.(brp_RetentionFloor) + 1) (at_ + MaximumResultInboxLease) bytes at_.

Definition begin_metadata : PeerMetadataRow := {|
  pm_worker_revision := revision_of db; pm_last_result_inbox_retention_ordinal := Z.max (last_ordinal db) p.(brp_RetentionFloor) + 1;
  pm_result_inbox_evicted := db.(peer_metadata).(pm_result_inbox_evicted) |}.

(** The package is new to the inbox and there is room for it. *)
Record admitted (bytes : Z) : Prop := {
  ad_absent : db.(peer_result_inbox) !! p.(brp_PackageID) = None;
  ad_attempt : db.(peer_result_inbox_attempt_receipts) !! (p.(brp_PackageID), p.(brp_AttemptID)) = None;
  ad_owner : forall x v, db.(peer_result_inbox_attempt_receipts) !! (p.(brp_PackageID), x) = Some v -> removal_authority v = a;
  ad_lease : at_ < p.(brp_LeaseExpiresAt) <= at_ + MaximumResultInboxLease;
  ad_count : Z.of_nat (size db.(peer_result_inbox)) < MaximumPeerResultPackages;
  ad_bytes : bytes <= MaximumPeerResultStoreBytes - package_total db.(peer_result_inbox);
  ad_ordinal : Z.max (last_ordinal db) p.(brp_RetentionFloor) < MaxInt64;
}.

Lemma begin_row_ok m bytes : begin_request m bytes -> admitted bytes -> inbox_ok p.(brp_PackageID) (begin_row m bytes) m.
Proof.
  intros [Q1 Q2 Q3 Q4 Q5 Q6] A. pose proof (decoded_columns _ _ Q4) as [C1 C2 C3 C4 C5 C6 C7 C8].
  pose proof (resultPackageBytes_bounds _ _ Q6) as Hbytes. pose proof (last_ordinal_bound db Hm) as Hlast. pose proof (ad_ordinal _ A) as Hord.
  unfold BeginResultPackageParams_Validate, validateResultPackageControl in Q2. rewrite !do_Ok, !wrap_Ok in Q2. destruct Q2 as ((V1 & V2 & _) & _).
  assert (inbox_metadata (begin_row m bytes) = p.(brp_Metadata)) as Hmd.
  { pose proof (DecodeManifest_kind _ _ Q4) as Hk. unfold inbox_metadata, begin_row. cbn. destruct (p.(brp_Metadata)) as [b [kind size sha]]. cbn in *. by subst kind. }
  assert (inbox_authority (begin_row m bytes) = a) as Hau.
  { unfold begin_row, receiving_row, inbox_authority. cbn. clear. by destruct a. }
  destruct (authority_ids _ Q1) as (A1 & A2 & A3 & A4).
  unfold MaximumResultInboxLease in *. constructor; rewrite ?Hmd, ?Hau; try done; cbn; unfold MaximumResultInboxLease; try lia.
  - unfold validateInboxMetadata in Q5. rewrite Q4 in Q5. cbn [result_bind] in Q5. apply reject_Ok in Q5 as [_ Q5]. apply reject_Ok in Q5 as [Q5 _].
    split_and!; apply dec_stable; tauto.
  - by_decide.
  - unfold inbox_check. cbn -[sqlite_length digest_check]. rewrite !valid_id_sqlite_length by done. unfold in_range, MaxInt64, MaximumResultInboxLease in *. rewrite C7, !andb_true_iff.
    split_and!; try done; try lia.
Qed.

Lemma begin_unfold m bytes :
  begin_request m bytes -> admitted bytes ->
  begin_inbox a p at_ db =
    Ok ({| brr_AttemptID := p.(brp_AttemptID); brr_PackageID := p.(brp_PackageID);
           brr_RetentionOrdinal := Z.max (last_ordinal db) p.(brp_RetentionFloor) + 1; brr_Outcome := ResultPackageReceiving;
           brr_Offsets := Some ((fun d => {| po_Kind := d.(rd_Kind); po_NextOffset := 0 |}) <$> parts_of m) |},
        begun p.(brp_PackageID) (begin_row m bytes) m begin_metadata db).
Proof.
  intros Q A. pose proof (begin_row_ok _ _ Q A) as Hok. destruct Q as [Q1 Q2 Q3 Q4 Q5 Q6]. destruct A as [A1 A2 A3 A4 A5 A6 A7].
  pose proof (last_ordinal_bound db Hm) as Hlast.
  unfold begin_inbox. unfold tx_bind at 1, tx_lift at 1. rewrite Q1. unfold tx_bind at 1, tx_lift at 1. rewrite Q2.
  unfold tx_bind at 1, tx_lift at 1, unixTime. rewrite decide_False by lia.
  unfold tx_bind at 1, tx_lift at 1, resultInboxLeaseExpiresAt. rewrite decide_False by lia.
  unfold tx_bind at 1, tx_lift at 1. rewrite Q4. unfold tx_bind at 1, tx_lift at 1. rewrite Q5. unfold tx_bind at 1, tx_lift at 1. rewrite Q6.
  unfold tx_bind at 1, tx_query at 1. rewrite (proj2 (query_removal_none db Hi _ _) A2).
  unfold tx_bind at 1, tx_query at 1. rewrite (query_inbox_absent db) by (try done; apply (ik_package _ _ _ Hok)). cbn [optional errors_Is].
  rewrite bool_decide_eq_true_2 by done. unfold tx_bind at 1, tx_query at 1.
  destruct (optional (queryResultInboxRemovalByPackage p.(brp_PackageID) db)) as [prior|e] eqn:Hp.
  2:{ exfalso. unfold queryResultInboxRemovalByPackage in Hp. destruct (last _) as [[k v]|] eqn:El; [|done].
      apply last_Some_elem_of in El. unfold order_by, order_by_text in El. rewrite !elem_of_sort_by in El.
      apply (elem_of_select (fun x : (string * string) * RemovalRow => x.1.1 = p.(brp_PackageID))) in El as [Ev _].
      by rewrite (scan_removal db Hi _ _ Ev) in Hp. }
  rewrite decide_False.
  2:{ unfold other_authority. destruct prior as [prior|]; [|by intros []]. rewrite optional_Ok_Some in Hp. unfold queryResultInboxRemovalByPackage in Hp.
      destruct (last _) as [[k v]|] eqn:El; [|done]. apply last_Some_elem_of in El. unfold order_by, order_by_text in El. rewrite !elem_of_sort_by in El.
      apply (elem_of_select (fun x : (string * string) * RemovalRow => x.1.1 = p.(brp_PackageID))) in El as [Ev Hk].
      rewrite (scan_removal db Hi _ _ Ev) in Hp. injection Hp as <-. cbn in Hk |- *. intros Hn. apply Hn. apply (A3 k.2). by rewrite <- Hk, <- surjective_pairing. }
  rewrite decide_False by lia. unfold tx_bind at 1, tx_query at 1, require_inbox_capacity, inspect_inbox_capacity. cbn [rn_Count rn_Bytes].
  rewrite decide_False by lia. unfold tx_bind at 1, nextResultInboxRetentionOrdinal. cbv zeta. rewrite decide_True by lia.
  change {| pm_worker_revision := db.(peer_metadata).(pm_worker_revision); pm_last_result_inbox_retention_ordinal := _; pm_result_inbox_evicted := _ |} with begin_metadata.
  rewrite decide_False.
  2:{ unfold peer_metadata_check, in_range, begin_metadata, revision_of, MaxInt64 in *. cbn. lia. }
  unfold tx_bind at 1, tx_exec at 1, insert_inbox. change (receiving_row _ _ _ _ _ _ _) with (begin_row m bytes). rewrite sql_insert_hit; [|clear Hp|done].
  2:{ rewrite andb_true_iff. split; [apply (ik_check _ _ _ Hok)|]. apply none_where_true. intros k x Ek (Hn & _ & _ & Ho). cbn in Ho.
      destruct (bi_rows _ Hi _ _ Ek). lia. }
  cbn [wrap result_bind]. unfold tx_bind at 1. destruct (decoded_parts _ _ Q4) as [_ _ Hnd Hvalid]. rewrite insert_parts_run; [done| |done|done|].
  - cbn. by rewrite lookup_insert_eq.
  - intros d _. cbn. apply eq_None_not_Some. intros [x Ex]. apply (bi_parts _ Hi) in Ex as [y Ey]. by rewrite A1 in Ey.
Qed.
End Begin.

(** A package begins, or the one that is there is answered for. *)
Lemma begin_Ok db a p at_ x db' :
  peer_metadata_check db.(peer_metadata) = true -> inbox_inv db -> begin_inbox a p at_ db = Ok (x, db') ->
  exists m bytes, begin_request a p at_ m bytes /\
   ((db' = db /\ exists r, db.(peer_result_inbox) !! p.(brp_PackageID) = Some r /\ inbox_authority r = a) \/
    (admitted db a p at_ bytes /\ db' = begun p.(brp_PackageID) (begin_row db a p at_ m bytes) m (begin_metadata db p) db)).
Proof.
  intros Hm Hi H. assert (Hrun := H). unfold begin_inbox in H.
  apply tx_bind_Ok in H as ([] & ? & [Ha ->]%tx_lift_Ok & H). apply tx_bind_Ok in H as ([] & ? & [Hp ->]%tx_lift_Ok & H).
  apply tx_bind_Ok in H as (ts & ? & [Hts ->]%tx_lift_Ok & H).
  assert (ts = at_ /\ 0 <= at_) as [-> Hat] by (unfold unixTime in Hts; go_inv; lia).
  apply tx_bind_Ok in H as (lease & ? & [Hlease ->]%tx_lift_Ok & H). unfold resultInboxLeaseExpiresAt in Hlease. apply reject_Ok in Hlease as [Hmax [= <-]].
  apply tx_bind_Ok in H as (m & ? & [Hd ->]%tx_lift_Ok & H). apply tx_bind_Ok in H as ([] & ? & [Hn ->]%tx_lift_Ok & H).
  apply tx_bind_Ok in H as (bytes & ? & [Hb ->]%tx_lift_Ok & H).
  assert (begin_request a p at_ m bytes) as Q by (constructor; try done; lia). exists m, bytes. split; [done|].
  apply tx_bind_Ok in H as (removal & ? & [Hr ->]%tx_query_Ok & H).
  destruct removal as [removal|]; [destruct (decide _); by apply tx_throw_Ok in H|]. apply (query_removal_none db Hi) in Hr.
  apply tx_bind_Ok in H as (existing & ? & [He ->]%tx_query_Ok & H). destruct existing as [existing|].
  - left. apply tx_lift_Ok in H as [H ->]. split; [done|]. rewrite optional_Ok_Some in He. apply (query_inbox_Ok db Hm Hi) in He as (r & m' & E & _ & _ & ->).
    exists r. split; [done|]. unfold resume_inbox in H. apply reject_Ok in H as [Hauth _]. by apply dec_stable in Hauth.
  - right. apply (query_inbox_none db Hm Hi) in He. apply tx_bind_Ok in H as (prior & ? & [Hprior ->]%tx_query_Ok & H).
    destruct (decide (other_authority _ _)) as [|Hown]; [by apply tx_throw_Ok in H|]. destruct (decide (_ \/ _)) as [|Hle]; [by apply tx_throw_Ok in H|].
    apply tx_bind_Ok in H as ([] & ? & [Hcap ->]%tx_query_Ok & H). unfold require_inbox_capacity, inspect_inbox_capacity in Hcap. cbv zeta in Hcap.
    apply reject_Ok in Hcap as [Hcap _]. cbn [rn_Count rn_Bytes] in Hcap.
    apply tx_bind_Ok in H as (ordinal & db1 & Hord & _). unfold nextResultInboxRetentionOrdinal in Hord. cbv zeta in Hord.
    destruct (decide (_ < MaxInt64)) as [Hlt|]; [|done].
    assert (admitted db a p at_ bytes) as A.
    { constructor; try done; try lia. intros y v Ev. destruct (prior_removal db Hi _ _ Hprior _ _ Ev) as (z & -> & <-). cbn in Hown. by apply dec_stable in Hown. }
    split; [done|]. rewrite (begin_unfold db Hm Hi a p at_ m bytes Q A) in Hrun. by injection Hrun as <- <-.
Qed.

(** ** Every call *)

Section Calls.
Context (db : PeerDB) (Hm : peer_metadata_check db.(peer_metadata) = true) (Hi : inbox_inv db).

Lemma begun_call a p at_ m bytes :
  0 <= p.(brp_RetentionFloor) -> begin_request a p at_ m bytes -> admitted db a p at_ bytes ->
  inbox_call db (begun p.(brp_PackageID) (begin_row db a p at_ m bytes) m (begin_metadata db p) db).
Proof.
  intros Hf Q A. pose proof (begin_row_ok db Hm _ _ _ _ _ Q A) as Hok. pose proof (last_ordinal_bound db Hm) as Hlast. destruct A as [A1 A2 A3 A4 A5 A6 A7].
  constructor.
  - apply begun_keeps; try done; cbn; try lia. intros x v Ev. rewrite (A3 _ _ Ev). split; [by destruct a|]. intros ->. by rewrite A2 in Ev.
  - unfold peer_metadata_check, in_range, begin_metadata, revision_of, MaxInt64 in *. cbn. lia.
  - done.
  - constructor; [cbn; lia|cbn; lia|]. intros k r. cbn. rewrite lookup_insert_Some. intros [[<- <-]|[Hk E]]; [left; cbn; lia|right].
    exists r. split_and!; [done|done|]. intros kind. unfold next_offset.
    destruct (decoded_parts _ _ (ik_manifest _ _ _ Hok)) as [_ _ Hnd _].
    destruct (new_parts_lookup p.(brp_PackageID) (parts_of m) db.(peer_result_inbox_parts) Hnd) as [_ N2]. rewrite N2 by (by left). done.
Qed.

Lemma BeginResultInbox_call a p at_ : 0 <= p.(brp_RetentionFloor) -> inbox_call db (BeginResultInbox a p at_ db).2.
Proof.
  intros Hf. unfold BeginResultInbox, run_tx. destruct (begin_inbox a p at_ db) as [[x db']|e] eqn:H; cbn; [|by apply inbox_call_refl].
  apply begin_Ok in H as (m & bytes & Q & [[-> _]|[A ->]]); [by apply inbox_call_refl|by apply begun_call|done|done].
Qed.

Lemma prepareResultInboxRemoval_call a attempt packageID at_ outcome expired x db' :
  outcome ∈ [ResultInboxRemovalCancelled; ResultInboxRemovalReclaimed] ->
  prepareResultInboxRemoval a attempt packageID at_ outcome expired db = Ok (x, db') -> inbox_call db db'.
Proof.
  intros Ho H. apply (prepare_Ok db Hm Hi) in H as [[-> _]|(r & m & receipts & G & _ & Hsub & Hlt & Hv & ->)]; [by apply inbox_call_refl| |done].
  constructor; [by apply (put_receipt_keeps db Hi a attempt packageID at_ outcome r m)|done|done|apply receipts_history].
Qed.

Lemma CommitResultInboxRemoval_call removal at_ x db' :
  CommitResultInboxRemoval removal at_ db = Ok (x, db') -> inbox_call db db'.
Proof.
  intros H. apply (removal_Ok db Hi) in H as (v & E & _ & _ & [[_ ->]|[Hp ->]]); [by apply inbox_call_refl|by apply removed_call].
Qed.

Lemma DeleteCompletedResultInboxRemoval_call removal u db' :
  DeleteCompletedResultInboxRemoval removal db = Ok (u, db') -> inbox_call db db'.
Proof.
  intros H. apply (deleted_removal_Ok db Hm Hi) in H as (receipts & Hsub & ->). constructor; [by apply fewer_receipts|done|done|apply receipts_history].
Qed.

Lemma CompactResultInboxEviction_call a packageID u db' :
  CompactResultInboxEviction a packageID db = Ok (u, db') -> inbox_call db db'.
Proof.
  intros H. apply (compacted_Ok db Hm Hi) in H as [[-> _]|(r & m & E & Hst & _ & Hmeta & Hc & ->)]; [by apply inbox_call_refl|].
  set (db1 := set_peer_metadata db m). assert (inbox_inv db1) as Hi1.
  { apply (inbox_inv_same db); [by subst db1 m|done]. }
  constructor.
  - apply (drop_package_keeps _ r); [done|done|by apply bool_decide_eq_true|]. constructor.
    + intros k v [Ek _]%map_lookup_filter_Some. by apply (bi_removals _ Hi).
    + intros k v [Ek Hk]%map_lookup_filter_Some _. done.
    + intros k v [Ek Hk]%map_lookup_filter_Some. exists v. split_and!; [done|done|by right].
    + etrans; [|apply (bi_removal_count _ Hi)]. apply Nat2Z.inj_le, map_size_filter.
  - by rewrite (delete_inbox_hit _ _ r) by (try done; by apply bool_decide_eq_true).
  - rewrite (delete_inbox_hit _ _ r) by (try done; by apply bool_decide_eq_true). by subst m.
  - apply drop_package_history; subst m; cbn; lia.
Qed.
End Calls.
