(* ===== verification/PeerRecovery.v ===== *)
(** internal/store/worker_recovery.go: what a restart of the connector does to the workers
    of its device. Every worker that was between a reservation and a running turn, and has
    no turn start to reconcile, comes to rest; the others stay as they are. *)

From S2P Require Export PeerArtifacts PeerResolve.

(** The statuses the recovery looks for. *)
Definition unsettled (w : WorkerRow) : Prop := w.(w_Status) ∈ ["reserved"; "starting"; "preflight"; "ready"; "running"].

Definition unanswered (k : string * string * string) (w : WorkerRow) (db : PeerDB) : Prop :=
  forall ki i, db.(worker_turn_start_intents) !! ki = Some i -> ~ answers_for k w (ki, i).

Lemma interrupted_worker_unfold c d db k w :
  interrupted_worker c d db (k, w) <-> k.1.1 = c /\ w.(w_DeviceID) = d /\ unsettled w /\ unanswered k w db.
Proof. unfold interrupted_worker, unanswered. cbn [fst snd]. rewrite none_where_true. done. Qed.

(** The row the recovery leaves. *)
Definition recovered_row (w : WorkerRow) (revision at_ : Z) : WorkerRow :=
  match recovered_state w with
  | Ok (status, active, failure) => set_lifecycle w.(w_CodexThreadID) status "" active w.(w_LastBoundTurnID) failure revision at_ w
  | Err _ => w
  end.

(** A turn that runs has an intent that answers for it. *)
Lemma unanswered_not_running k w db :
  peer_inv db -> db.(worker_reservations) !! k = Some w -> unanswered k w db -> w.(w_Status) <> WorkerRunning.
Proof.
  intros Hi E Hu Hr. destruct (tn_covered _ (pv_turns _ Hi) _ _ E) as (iid & i & Ei & Hb & Ht); [rewrite Hr; by_decide|].
  apply (Hu _ _ Ei). split; [done|]. right. done.
Qed.

Lemma unsettled_cases w : unsettled w -> w.(w_Status) <> WorkerRunning ->
  w.(w_Status) = WorkerReserved \/ w.(w_Status) = WorkerStarting \/ w.(w_Status) = WorkerPreflight \/ w.(w_Status) = WorkerReady.
Proof. unfold unsettled. rewrite !elem_of_cons, elem_of_nil. intros H Hn. destruct H as [|[|[|[|[|[]]]]]]; tauto. Qed.

(** The failure codes the recovery records. *)
Lemma recovery_codes :
  failure_code_ok workerStartupInterruptedFailure /\ failure_code_ok workerThreadStartAmbiguousFailure /\
  failure_code_ok workerTurnStartInterruptedFailure.
Proof. by split_and!; vm_compute. Qed.

(** What the switch leaves of each status. *)
Lemma recovered_state_cases w :
  worker_dynamic w -> resumable w -> unsettled w -> w.(w_Status) <> WorkerRunning ->
  exists status failure, recovered_state w = Ok (status, "", failure) /\ status ∉ [WorkerRunning; WorkerFinalizing] /\
    failure_code_ok failure /\ WorkerStatus_valid status = true /\
    forall revision at_, lifecycle_matches (set_lifecycle w.(w_CodexThreadID) status "" "" w.(w_LastBoundTurnID) failure revision at_ w).
Proof.
  intros Hd Hres Hu Hr. destruct recovery_codes as (C1 & C2 & C3). pose proof (retry_of_status _ Hd) as Hretry.
  assert (forall status failure revision at_,
    (status = WorkerFailed /\ failure <> "") \/ (status = WorkerInterrupted /\ failure <> "" /\ w.(w_CodexThreadID) <> "") \/
    (status = WorkerPending /\ failure = "") \/ (status = WorkerIdle /\ failure = "" /\ w.(w_CodexThreadID) <> "") ->
    lifecycle_matches (set_lifecycle w.(w_CodexThreadID) status "" "" w.(w_LastBoundTurnID) failure revision at_ w)) as Hmatch.
  { intros status failure revision at_ [[-> Hf]|[(-> & Hf & Ht)|[[-> ->]|(-> & -> & Ht)]]]; split_and!; intros E; cbn in E;
      try (discriminate E); try (destruct E as [E|E]; try discriminate E); cbn; split_and!; try done; try (by intros [=]). }
  assert (w.(w_Status) ∈ [WorkerStarting; WorkerPreflight] -> w.(w_CodexThreadID) <> "" ->
    exists status, recovered_state w = Ok (status, "", "") /\ status = w.(w_RetryTarget) /\ (status = WorkerPending \/ status = WorkerIdle)) as Hrestore.
  { intros Hs Ht. destruct Hretry as [[_ Hp]|[Hn _]]; [|exfalso; apply Hn; rewrite !elem_of_cons in Hs; rewrite !elem_of_cons; tauto].
    exists w.(w_RetryTarget). split; [|done]. unfold recovered_state. rewrite !elem_of_cons, elem_of_nil in Hs.
    destruct Hs as [Hs|[Hs|[]]]; rewrite Hs, (decide_False (P := _ = WorkerRunning)), (decide_False (P := _ = WorkerReady)) by done.
    - rewrite decide_True, decide_False by done. by rewrite decide_True.
    - rewrite decide_False, decide_True by done. by rewrite decide_True. }
  assert (w.(w_Status) ∈ [WorkerStarting; WorkerPreflight] -> w.(w_CodexThreadID) <> "" ->
    exists status failure, recovered_state w = Ok (status, "", failure) /\ status ∉ [WorkerRunning; WorkerFinalizing] /\
    failure_code_ok failure /\ WorkerStatus_valid status = true /\
    forall revision at_, lifecycle_matches (set_lifecycle w.(w_CodexThreadID) status "" "" w.(w_LastBoundTurnID) failure revision at_ w)) as Hgo.
  { intros Hs Ht. destruct (Hrestore Hs Ht) as (status & Hst & _ & Hp). exists status, "". split; [done|].
    destruct Hp as [-> | ->]; split_and!; try by_decide; try apply failure_code_empty; intros; apply Hmatch; tauto. }
  destruct (unsettled_cases _ Hu Hr) as [E|[E|[E|E]]].
  - exists WorkerFailed, workerStartupInterruptedFailure. unfold recovered_state. rewrite E. split; [done|].
    split_and!; [by_decide|done|done|]. intros. apply Hmatch. by left.
  - destruct (decide (w.(w_CodexThreadID) = "")) as [Ht|Ht]; [|apply Hgo; [rewrite E; by_decide|done]].
    exists WorkerFailed, workerThreadStartAmbiguousFailure. unfold recovered_state. rewrite E.
    rewrite !decide_False, !decide_True by done. split; [done|]. split_and!; [by_decide|done|done|]. intros. apply Hmatch. by left.
  - apply Hgo; [rewrite E; by_decide|]. apply (thread_of_status _ Hd). rewrite E. by_decide.
  - exists WorkerInterrupted, workerTurnStartInterruptedFailure. unfold recovered_state. rewrite E. split; [done|].
    split_and!; [by_decide|done|done|]. intros. apply Hmatch. right. left. split_and!; [done|done|].
    apply (thread_of_status _ Hd). rewrite E. by_decide.
Qed.

(** A worker that keeps its thread meets no other worker's. *)
Lemma thread_free_kept db key w w' :
  workers_inv db -> db.(worker_reservations) !! key = Some w -> w'.(w_CodexThreadID) = w.(w_CodexThreadID) ->
  thread_free key w' db = true.
Proof.
  intros Hi E Ht. unfold thread_free. rewrite orb_true_iff, bool_decide_eq_true, none_where_true, Ht.
  destruct (decide (w.(w_CodexThreadID) = "")) as [|Hne]; [by left|right]. intros k1 r1 E1 (Hn & Hc & Hs). cbn in Hn, Hc, Hs.
  rewrite Ht in Hs. apply Hn. by apply (wi_threads _ Hi _ _ _ _ E1 E Hc Hs); rewrite Hs.
Qed.

Lemma recovered_worker_ok key w revision at_ :
  worker_ok key w -> unsettled w -> w.(w_Status) <> WorkerRunning -> 0 < revision <= MaxInt64 -> w.(w_UpdatedAt) <= at_ ->
  worker_ok key (recovered_row w revision at_) /\ (recovered_row w revision at_).(w_Status) ∉ [WorkerRunning; WorkerFinalizing] /\
  (recovered_row w revision at_).(w_Revision) = revision /\ worker_identity (recovered_row w revision at_) = worker_identity w /\
  (recovered_row w revision at_).(w_CodexThreadID) = w.(w_CodexThreadID).
Proof.
  intros [Hs Hd Hres] Hu Hr Hrev Hat. destruct (recovered_state_cases _ Hd Hres Hu Hr) as (status & failure & Hst & Hn & Hf & Hv & Hm).
  unfold recovered_row. rewrite Hst. split; [|by split_and!]. constructor; [by destruct Hs| |by intros [=]].
  assert (w.(w_Status) <> WorkerFinalizing) as Hnf.
  { destruct (unsettled_cases _ Hu Hr) as [E|[E|[E|E]]]; by rewrite E. }
  destruct Hd. destruct (wd_final Hnf) as [F1 F2]. constructor; try exact (Hm revision at_); cbn; try hyp; try lia; try done.
  - by intros ?.
  - unfold MaxInt64 in Hrev. lia.
Qed.

Lemma recover_worker_run ts key w ids db :
  peer_inv db -> db.(worker_reservations) !! key = Some w -> unsettled w -> unanswered key w db -> revision_of db < MaxInt64 ->
  let w' := recovered_row w (revision_of db + 1) (Z.max ts w.(w_UpdatedAt)) in
  recover_worker ts {| w_Key := key; w_Row := w |} ids db = Ok (({| w_Key := key; w_Row := w' |}, ids), put_worker key w' db) /\
  peer_inv (put_worker key w' db) /\ peer_history db (put_worker key w' db).
Proof.
  intros Hi E Hu Ha Hlt w'. pose proof (unanswered_not_running _ _ _ Hi E Ha) as Hr.
  destruct (wi_rows _ (pv_workers _ Hi) _ _ E) as [Hok Hrow]. pose proof (wi_revision _ (pv_workers _ Hi)) as Hrv.
  destruct (recovered_worker_ok key w (revision_of db + 1) (Z.max ts w.(w_UpdatedAt)) Hok Hu Hr) as (Hok' & Hn & Hrev & Hid & Hth); [lia|lia|].
  fold w' in Hok', Hn, Hrev, Hid, Hth. pose proof (thread_free_kept _ _ _ _ (pv_workers _ Hi) E Hth) as Hfree. split.
  - unfold recover_worker. cbn [w_Row w_Key]. rewrite decide_False by (by intros [? _]).
    apply tx_bind_Ok. exists (revision_of db + 1), (bump_revision db). split.
    { apply nextWorkerRevision_run; [apply Hi|done]. }
    destruct (recovered_state_cases _ (wk_dynamic _ _ Hok) (wk_resumable _ _ Hok) Hu Hr) as (status & failure & Hst & _).
    unfold w', recovered_row in Hfree, Hok' |- *. rewrite Hst in Hfree, Hok' |- *. cbn [tx_bind tx_lift].
    assert (Hc := worker_valid_check _ _ (wk_static _ _ Hok') (wk_dynamic _ _ Hok')). cbn [w_Revision set_lifecycle] in Hc.
    unfold tx_bind, tx_lift, tx_exec, update_worker. cbn [worker_reservations bump_revision set_peer_metadata].
    rewrite (sql_update_hit _ _ _ _ _ w); [done|done|done|]. apply andb_true_iff. split; [apply Hc; lia|exact Hfree].
  - assert (forall k i, db.(worker_turn_start_intents) !! k = Some i -> k.1 = key -> i.(it_state) <> WorkerTurnStartPrepared) as Hnp.
    { intros k i Ei Hk Hp. apply (Ha _ _ Ei). split; [done|]. left. split; [done|].
      apply (prepared_ready _ _ _ _ (pv_turns _ Hi) Ei Hp). by rewrite Hk. }
    apply (put_worker_keeps key w); try done.
    + destruct (unsettled_cases _ Hu Hr) as [X|[X|[X|X]]]; by rewrite X.
    + by apply put_worker_inv; [apply Hi|..].
    + intros k i Ei Hk Hb Hact. rewrite !not_elem_of_cons in Hn. rewrite !elem_of_cons, elem_of_nil. split_and!; tauto.
    + by intros ?.
Qed.

(** The workers of a list, each at a revision of its own. *)
Record recovery (ts : Z) (ws : list WorkerReservation) (db : PeerDB) (out : list WorkerReservation) (db' : PeerDB) : Prop := {
  ry_inv : peer_inv db';
  ry_history : peer_history db db';
  ry_intents : db'.(worker_turn_start_intents) = db.(worker_turn_start_intents);
  ry_revision : revision_of db' = revision_of db + Z.of_nat (length ws);
  ry_keys : w_Key <$> out = w_Key <$> ws;
  ry_stored : Forall (fun x => db'.(worker_reservations) !! x.(w_Key) = Some x.(w_Row)) out;
  ry_recovered : forall k w, db.(worker_reservations) !! k = Some w -> k ∈ w_Key <$> ws ->
    exists revision, db'.(worker_reservations) !! k = Some (recovered_row w revision (Z.max ts w.(w_UpdatedAt)));
  ry_kept : forall k, k ∉ w_Key <$> ws -> db'.(worker_reservations) !! k = db.(worker_reservations) !! k;
}.

Lemma recover_workers_run ts ws ids db :
  peer_inv db -> NoDup (w_Key <$> ws) ->
  Forall (fun x => db.(worker_reservations) !! x.(w_Key) = Some x.(w_Row) /\ unsettled x.(w_Row) /\ unanswered x.(w_Key) x.(w_Row) db) ws ->
  revision_of db + Z.of_nat (length ws) <= MaxInt64 ->
  exists out db', recover_workers ts ws ids db = Ok (out, db') /\ recovery ts ws db out db'.
Proof.
  revert db. induction ws as [|[key w] ws IH]; intros db Hi Hnd Hws Hrev.
  { exists [], db. split; [done|]. constructor; try done; [simpl; lia|set_solver]. }
  apply Forall_cons in Hws as [(E & Hu & Ha) Hws]. cbn [w_Key w_Row] in E, Hu, Ha. cbn [length] in Hrev.
  rewrite fmap_cons, NoDup_cons in Hnd. destruct Hnd as [Hk Hnd]. cbn [w_Key] in Hk.
  destruct (recover_worker_run ts key w ids db Hi E Hu Ha) as (Hrun & Hi1 & Hh1); [lia|].
  set (w' := recovered_row w (revision_of db + 1) (Z.max ts w.(w_UpdatedAt))) in *.
  destruct (IH (put_worker key w' db)) as (out & db' & Hrest & R); [done|done| |change (revision_of (put_worker key w' db)) with (revision_of db + 1); lia|].
  { rewrite Forall_forall in Hws. apply Forall_forall. intros x Hx.
    destruct (Hws x Hx) as (Ex & X). split; [|exact X]. simpl. rewrite lookup_insert_ne; [done|]. intros ->.
    apply Hk. by apply list_elem_of_fmap_2. }
  exists ({| w_Key := key; w_Row := w' |} :: out), db'. split.
  { cbn [recover_workers]. apply tx_bind_Ok. eexists _, _. split; [exact Hrun|]. apply tx_bind_Ok. by eexists _, _. }
  assert (db'.(worker_reservations) !! key = Some w') as Ekey.
  { rewrite (ry_kept _ _ _ _ _ R) by done. simpl. by rewrite lookup_insert_eq. }
  destruct R as [R1 R2 R3 R4 R5 R6 R7 R8]. constructor.
  - done.
  - by etrans.
  - done.
  - rewrite R4. change (revision_of (put_worker key w' db)) with (revision_of db + 1). cbn [length]. lia.
  - rewrite !fmap_cons. by rewrite R5.
  - by constructor.
  - intros k w0 Ek. rewrite fmap_cons, elem_of_cons. cbn [w_Key]. destruct (decide (k = key)) as [->|Hn].
    + intros _. rewrite E in Ek. injection Ek as <-. by eexists.
    + intros [?|Hin]; [done|]. apply R7; [|done]. simpl. by rewrite lookup_insert_ne.
  - intros k. rewrite fmap_cons, not_elem_of_cons. cbn [w_Key]. intros [Hn Hin]. rewrite R8 by done. simpl. by rewrite lookup_insert_ne.
Qed.

(** The workers the recovery lists. *)
Lemma interrupted_workers_run c d db :
  peer_inv db ->
  exists ws, interrupted_workers c d db = Ok ws /\ NoDup (w_Key <$> ws) /\
    (forall k w, db.(worker_reservations) !! k = Some w -> (k ∈ w_Key <$> ws <-> interrupted_worker c d db (k, w))) /\
    Forall (fun x => db.(worker_reservations) !! x.(w_Key) = Some x.(w_Row) /\ interrupted_worker c d db (x.(w_Key), x.(w_Row))) ws /\
    Z.of_nat (length ws) = count (interrupted_worker c d db) db.(worker_reservations).
Proof.
  intros Hi. unfold interrupted_workers.
  set (rows := order_by _ _). assert (Hperm : rows ≡ₚ select (interrupted_worker c d db) db.(worker_reservations)).
  { unfold rows, order_by, order_by_text. by rewrite !(sort_by_perm _ _). }
  assert (Hrows : forall k w, (k, w) ∈ rows <-> db.(worker_reservations) !! k = Some w /\ interrupted_worker c d db (k, w)).
  { intros k w. by rewrite Hperm, (elem_of_select (interrupted_worker c d db)). }
  exists ((fun x => {| w_Key := x.1; w_Row := x.2 |}) <$> rows).
  assert (Hkeys : w_Key <$> ((fun x => {| w_Key := x.1; w_Row := x.2 |}) <$> rows) = rows.*1).
  { rewrite <- list_fmap_compose. done. }
  split_and!.
  - assert (Forall (fun x => db.(worker_reservations) !! x.1 = Some x.2) rows) as Hall.
    { apply Forall_forall. intros [k w] [E _]%Hrows. done. }
    clear -Hi Hall. induction Hall as [|[k w] rows E _ IH]; [done|]. cbn [result_mapM fmap list_fmap].
    unfold scanWorker at 1. destruct (wi_rows _ (pv_workers _ Hi) _ _ E) as [[Hs Hd _] _]. cbn [fst snd] in *.
    rewrite (proj2 (WorkerReservation_Validate_Ok _ _) (conj Hs Hd)). cbn [wrap result_bind]. by rewrite IH.
  - rewrite Hkeys, Hperm. apply NoDup_fst_select.
  - intros k w E. rewrite Hkeys, list_elem_of_fmap. split.
    + intros ([k1 w1] & -> & [E1 X]%Hrows). cbn in *. rewrite E in E1. by injection E1 as <-.
    + intros X. exists (k, w). split; [done|]. by apply Hrows.
  - apply Forall_forall. intros x ([k w] & -> & [E X]%Hrows)%list_elem_of_fmap. done.
  - rewrite length_fmap, Hperm. done.
Qed.

Lemma RecoverWorkers_run c d ids at_ db :
  peer_inv db -> valid_id c -> valid_id d -> 0 <= at_ ->
  revision_of db + count (interrupted_worker c d db) db.(worker_reservations) <= MaxInt64 ->
  exists ws out db', RecoverWorkers c d ids at_ db = Ok (out, db') /\ recovery at_ ws db out db' /\
    Forall (fun x => db.(worker_reservations) !! x.(w_Key) = Some x.(w_Row)) ws /\
    (forall k w, db.(worker_reservations) !! k = Some w -> (k ∈ w_Key <$> ws <-> interrupted_worker c d db (k, w))).
Proof.
  intros Hi Hc Hd Hat Hrev. destruct (interrupted_workers_run c d db Hi) as (ws & Hq & Hnd & Hin & Hall & Hlen).
  destruct (recover_workers_run at_ ws ids db Hi Hnd) as (out & db' & Hrun & R).
  { eapply Forall_impl; [exact Hall|]. intros x (E & X). apply interrupted_worker_unfold in X as (_ & _ & Hu & Ha). done. }
  { by rewrite Hlen. }
  exists ws, out, db'. split; [|split_and!; [done|eapply Forall_impl; [exact Hall|by intros x []]|done]]. unfold RecoverWorkers, tx_bind, tx_lift, tx_query. rewrite Hc, Hd. cbn [wrap].
  unfold unixTime. rewrite decide_False by lia. cbn. by rewrite Hq.
Qed.

(** A recovery that returned had a revision for every worker. *)
Lemma recover_workers_bound ts ws ids db out db' :
  peer_inv db -> NoDup (w_Key <$> ws) ->
  Forall (fun x => db.(worker_reservations) !! x.(w_Key) = Some x.(w_Row) /\ unsettled x.(w_Row) /\ unanswered x.(w_Key) x.(w_Row) db) ws ->
  recover_workers ts ws ids db = Ok (out, db') -> revision_of db + Z.of_nat (length ws) <= MaxInt64.
Proof.
  revert ids db out db'. induction ws as [|[key w] ws IH]; intros ids db out db' Hi Hnd Hws H.
  { pose proof (wi_revision _ (pv_workers _ Hi)). cbn [length]. lia. }
  apply Forall_cons in Hws as [(E & Hu & Ha) Hws]. cbn [w_Key w_Row] in E, Hu, Ha. cbn [length recover_workers] in *.
  rewrite fmap_cons, NoDup_cons in Hnd. destruct Hnd as [Hk Hnd]. cbn [w_Key] in Hk.
  apply tx_bind_Ok in H as ([x ids1] & db1 & H1 & H). apply tx_bind_Ok in H as (rest & db2 & H2 & _).
  assert (revision_of db < MaxInt64) as Hlt.
  { unfold recover_worker in H1. cbn [w_Row w_Key] in H1.
    rewrite decide_False in H1 by (intros [Hr _]; by apply (unanswered_not_running _ _ _ Hi E Ha)).
    apply tx_bind_Ok in H1 as (rev & db3 & (_ & Hlt & _)%nextWorkerRevision_Ok & _). done. }
  destruct (recover_worker_run ts key w ids db Hi E Hu Ha Hlt) as (Hrun & Hi1 & _).
  rewrite Hrun in H1. injection H1 as <- <- <-. apply IH in H2; [|done|done|].
  - cbn [revision_of put_worker] in H2. change (revision_of (put_worker _ _ db)) with (revision_of db + 1) in H2. lia.
  - rewrite Forall_forall in Hws. apply Forall_forall. intros y Hy.
    destruct (Hws y Hy) as (Ey & X). split; [|exact X]. simpl. rewrite lookup_insert_ne; [done|]. intros ->.
    apply Hk. by apply list_elem_of_fmap_2.
Qed.

Lemma RecoverWorkers_keeps c d ids at_ db out db' :
  peer_inv db -> RecoverWorkers c d ids at_ db = Ok (out, db') -> peer_inv db' /\ peer_history db db'.
Proof.
  intros Hi H. destruct (interrupted_workers_run c d db Hi) as (ws & Hq & Hnd & Hin & Hall & Hlen).
  assert (Forall (fun x => db.(worker_reservations) !! x.(w_Key) = Some x.(w_Row) /\ unsettled x.(w_Row) /\ unanswered x.(w_Key) x.(w_Row) db) ws) as Hws.
  { eapply Forall_impl; [exact Hall|]. intros x (E & X). apply interrupted_worker_unfold in X as (_ & _ & Hu & Ha). done. }
  unfold RecoverWorkers in H.
  apply tx_bind_Ok in H as ([] & ? & [_ ->]%tx_lift_Ok & H). apply tx_bind_Ok in H as ([] & ? & [_ ->]%tx_lift_Ok & H).
  apply tx_bind_Ok in H as (t & ? & [Ht ->]%tx_lift_Ok & H). apply tx_bind_Ok in H as (ws' & ? & [Hq' ->]%tx_query_Ok & H).
  rewrite Hq in Hq'. injection Hq' as <-. pose proof (recover_workers_bound _ _ _ _ _ _ Hi Hnd Hws H) as Hb.
  destruct (recover_workers_run t ws ids db Hi Hnd Hws Hb) as (out1 & db1 & Hrun & R).
  rewrite Hrun in H. injection H as <- <-. split; apply R.
Qed.
