(* ===== verification/PeerReachable.v ===== *)
(** The peer as a state machine: the calls its connector makes, the states they reach and
    what holds in all of them. [MarkWorkerRunning] and [BeginWorkerFinalization] are left
    out: nothing but tests calls them, since a turn starts by binding its intent and ends
    with a result package. *)

From S2P Require Export PeerRecovery PeerInboxSteps.

Inductive peer_step (db : PeerDB) : PeerDB -> Prop :=
  | step_EnsureWorkerReadinessEpoch runtime config at_ : peer_step db (run_tx (EnsureWorkerReadinessEpoch runtime config at_) db).2
  | step_RecheckWorkerReadiness runtime config at_ : peer_step db (run_tx (RecheckWorkerReadiness runtime config at_) db).2
  | step_FailWorkerReadiness code at_ : peer_step db (run_tx (FailWorkerReadiness code at_) db).2
  | step_UpdateWorkerReadiness epoch readiness : peer_step db (run_tx (UpdateWorkerReadiness epoch readiness) db).2
  | step_RecordPreparedWorkspace w at_ : peer_step db (run_tx (RecordPreparedWorkspace w at_) db).2
  | step_ReserveWorker w n at_ : peer_step db (run_tx (ReserveWorker w n at_) db).2
  | step_ReserveWorkerStart w n at_ : peer_step db (run_tx (ReserveWorkerStart w n at_) db).2
  | step_ReserveWorkerStartWithWorkspace w n at_ : peer_step db (run_tx (ReserveWorkerStartWithWorkspace w n at_) db).2
  | step_BeginWorkerStart key n at_ : peer_step db (run_tx (BeginWorkerStart key n at_) db).2
  | step_RestoreWorkerPendingAfterUnsent key at_ : peer_step db (run_tx (RestoreWorkerPendingAfterUnsent key at_) db).2
  | step_RestoreWorkerIdleAfterUnsent key at_ : peer_step db (run_tx (RestoreWorkerIdleAfterUnsent key at_) db).2
  | step_AttachWorkerThread key thread at_ : peer_step db (run_tx (AttachWorkerThread key thread at_) db).2
  | step_MarkWorkerReady key at_ : peer_step db (run_tx (MarkWorkerReady key at_) db).2
  | step_MarkWorkerIdle key at_ : peer_step db (run_tx (MarkWorkerIdle key at_) db).2
  | step_FailWorker key code at_ : peer_step db (run_tx (FailWorker key code at_) db).2
  | step_BeginWorkerOperation op action key payload at_ : peer_step db (run_tx (BeginWorkerOperation op action key payload at_) db).2
  | step_CompleteWorkerOperation key op outcome code at_ : peer_step db (run_tx (CompleteWorkerOperation key op outcome code at_) db).2
  | step_PrepareWorkerTurnStartIntent request at_ : peer_step db (run_tx (PrepareWorkerTurnStartIntent request at_) db).2
  | step_BindWorkerTurnStartIntent key id turn at_ : peer_step db (run_tx (BindWorkerTurnStartIntent key id turn at_) db).2
  | step_BindInitialWorkerTurnStartIntent key id turn rollout at_ :
      peer_step db (run_tx (BindInitialWorkerTurnStartIntent key id turn rollout at_) db).2
  | step_RejectWorkerTurnStartIntent key id code at_ : peer_step db (run_tx (RejectWorkerTurnStartIntent key id code at_) db).2
  | step_ReserveResultOutbox key bytes at_ : peer_step db (run_tx (ReserveResultOutbox key bytes at_) db).2
  | step_BeginWorkerResultFinalization key turn target code at_ :
      peer_step db (run_tx (BeginWorkerResultFinalization key turn target code at_) db).2
  | step_CommitResultOutboxCapture key metadata at_ : peer_step db (run_tx (CommitResultOutboxCapture key metadata at_) db).2
  | step_AcknowledgeResultOutboxMetadata key metadata at_ : peer_step db (run_tx (AcknowledgeResultOutboxMetadata key metadata at_) db).2
  | step_AcknowledgeResultOutboxDelivery key sequence at_ :
      0 <= sequence -> peer_step db (run_tx (AcknowledgeResultOutboxDelivery key sequence at_) db).2
  | step_PrepareResultOutboxRelease key sequence at_ :
      0 <= sequence -> peer_step db (run_tx (PrepareResultOutboxRelease key sequence at_) db).2
  | step_CompactResultOutboxRelease key : peer_step db (run_tx (CompactResultOutboxRelease key) db).2
  | step_RecoverWorkers c d ids at_ : peer_step db (run_tx (RecoverWorkers c d ids at_) db).2
  | step_ReserveChangesArtifactPayload key id bytes at_ : peer_step db (run_tx (ReserveChangesArtifactPayload key id bytes at_) db).2
  | step_CompleteChangesArtifactCapture key id capture at_ :
      peer_step db (run_tx (CompleteChangesArtifactCapture key id capture at_) db).2
  | step_AcknowledgeChangesArtifact key id sequence at_ : peer_step db (run_tx (AcknowledgeChangesArtifact key id sequence at_) db).2
  | step_DeletePublishedChangesArtifact key id : peer_step db (run_tx (DeletePublishedChangesArtifact key id) db).2
  | step_BeginResultInbox a p at_ : 0 <= p.(brp_RetentionFloor) -> peer_step db (BeginResultInbox a p at_ db).2
  | step_CommitResultInboxChunk a attempt id chunk at_ : peer_step db (run_tx (CommitResultInboxChunk a attempt id chunk at_) db).2
  | step_CommitResultInboxAvailable a attempt id at_ : peer_step db (run_tx (CommitResultInboxAvailable a attempt id at_) db).2
  | step_PrepareResultInboxCancel a attempt id at_ : peer_step db (run_tx (PrepareResultInboxCancel a attempt id at_) db).2
  | step_PrepareExpiredResultInboxReclaim a attempt id at_ :
      peer_step db (run_tx (PrepareExpiredResultInboxReclaim a attempt id at_) db).2
  | step_CommitResultInboxRemoval removal at_ : peer_step db (run_tx (CommitResultInboxRemoval removal at_) db).2
  | step_DeleteCompletedResultInboxRemoval removal : peer_step db (run_tx (DeleteCompletedResultInboxRemoval removal) db).2
  | step_PrepareResultInboxEviction a id at_ : peer_step db (run_tx (PrepareResultInboxEviction a id at_) db).2
  | step_CompactResultInboxEviction a id : peer_step db (run_tx (CompactResultInboxEviction a id) db).2.

(** A state some sequence of calls leads to from a fresh state file. *)
Definition peer_reachable (db : PeerDB) : Prop := rtc peer_step empty_peer db.

(** ** The invariant of the whole state file *)

Record peer_sound (db : PeerDB) : Prop := {
  sd_workers : peer_inv db;
  sd_inbox : inbox_inv db;
  sd_artifacts : db.(peer_changes_artifacts) = ∅;
}.

(** What a state keeps of an earlier one. *)
Record peer_lasting (db db' : PeerDB) : Prop := {
  la_revision : revision_of db <= revision_of db';
  la_workers : forall k r, db.(worker_reservations) !! k = Some r ->
    exists r', db'.(worker_reservations) !! k = Some r' /\ worker_history r r';
  la_changed : forall k r', db'.(worker_reservations) !! k = Some r' ->
    db.(worker_reservations) !! k = Some r' \/ revision_of db < r'.(w_Revision);
  la_operations : forall k r, db.(worker_operation_receipts) !! k = Some r ->
    exists r', db'.(worker_operation_receipts) !! k = Some r' /\ receipt_history r r';
  la_workspaces : forall k r, db.(prepared_workspaces) !! k = Some r ->
    exists r', db'.(prepared_workspaces) !! k = Some r' /\ workspace_history r r';
  la_inbox : inbox_history db db';
}.

Definition peer_keeps (db db' : PeerDB) : Prop := peer_sound db -> peer_sound db' /\ peer_lasting db db'.

Lemma same_tables_history db db' : other_tables db' = other_tables db -> inbox_history db db'.
Proof.
  unfold other_tables. intros [= _ E1 E2 _ _ E3 E4]. constructor; [lia|lia|]. intros k r E. rewrite E1 in E. right. exists r. rewrite E2. done.
Qed.

(** The calls of the workers, and those of the inbox. *)
Lemma worker_call_keeps db db' : (peer_inv db -> peer_inv db' /\ peer_history db db') -> peer_keeps db db'.
Proof.
  intros H [S1 S2 S3]. destruct (H S1) as [Hi [H1 H2 H3 H4 H5 H6]]. split; [|by constructor; try apply same_tables_history].
  constructor; [done|by apply (inbox_inv_beside db)|]. unfold other_tables in H6. by injection H6 as -> _ _ _ _ _ _.
Qed.

Lemma inbox_call_keeps db db' : (peer_metadata_check db.(peer_metadata) = true -> inbox_inv db -> inbox_call db db') -> peer_keeps db db'.
Proof.
  intros H [S1 S2 S3]. destruct (H (wi_metadata _ (pv_workers _ S1)) S2) as [B1 B2 B3 B4]. split.
  - constructor; [by apply (peer_inv_beside db)|done|]. unfold worker_tables in B3. congruence.
  - unfold worker_tables in B3. injection B3 as E1 _ E3 E4 E5 _ _ _.
    constructor; [lia| | | | |done]; rewrite ?E3, ?E4, ?E5; intros k r E.
    + exists r. split; [done|apply worker_history_refl].
    + by left.
    + by exists r.
    + exists r. split; [done|by left].
Qed.

#[global] Instance peer_keeps_refl : Reflexive peer_keeps.
Proof. intros db. by apply worker_call_keeps. Qed.

Lemma run_peer_keeps {A} (m : Tx PeerDB A) db : (forall a db', m db = Ok (a, db') -> peer_keeps db db') -> peer_keeps db (run_tx m db).2.
Proof. intros H. unfold run_tx. destruct (m db) as [[a db']|e] eqn:E; [by eapply H|done]. Qed.

Lemma run_worker_call {A} (m : Tx PeerDB A) db :
  (forall a db', peer_inv db -> m db = Ok (a, db') -> peer_inv db' /\ peer_history db db') -> peer_keeps db (run_tx m db).2.
Proof. intros H. apply run_peer_keeps. intros a db' E. apply worker_call_keeps. intros Hi. by eapply H. Qed.

Lemma run_inbox_call {A} (m : Tx PeerDB A) db :
  (forall a db', peer_metadata_check db.(peer_metadata) = true -> inbox_inv db -> m db = Ok (a, db') -> inbox_call db db') ->
  peer_keeps db (run_tx m db).2.
Proof. intros H. apply run_peer_keeps. intros a db' E. apply inbox_call_keeps. intros Hm Hi. by eapply H. Qed.

(** ** Every call keeps the invariant *)

Lemma update_readiness_Ok guard set db n db' :
  update_readiness guard set db = Ok (n, db') -> exists x, db' = set_worker_readiness db x.
Proof.
  unfold update_readiness. destruct db.(worker_readiness) as [r|] eqn:E; [destruct (guard r)|].
  - intros H. apply reject_Ok in H as [_ [= _ <-]]. by eexists.
  - intros [= _ <-]. exists (Some r). rewrite <- E. by destruct db.
  - intros [= _ <-]. exists None. rewrite <- E. by destruct db.
Qed.

Lemma readiness_call {A} (m : Tx PeerDB A) db :
  (forall a db', m db = Ok (a, db') -> db' = db \/ exists x, db' = set_worker_readiness db x) -> peer_keeps db (run_tx m db).2.
Proof.
  intros H. apply run_worker_call. intros a db' Hi E. destruct (H _ _ E) as [->|[x ->]]; [by split|by apply readiness_keeps].
Qed.

Lemma ensure_readiness_keeps runtime config at_ force db :
  peer_keeps db (run_tx (ensureWorkerReadinessEpoch runtime config at_ force) db).2.
Proof.
  apply readiness_call. intros a db' H. unfold ensureWorkerReadinessEpoch in H. apply tx_bind_Ok in H as ([] & ? & [_ ->]%tx_lift_Ok & H).
  apply tx_bind_Ok in H as (current & ? & [_ ->]%tx_query_Ok & H). destruct (kept_epoch _ _ _ _); [apply tx_ret_Ok in H as [_ ->]; by left|].
  apply tx_bind_Ok in H as (epoch & ? & [_ ->]%tx_lift_Ok & H). apply tx_bind_Ok in H as (u & db1 & Hx & [_ ->]%tx_ret_Ok). right.
  apply tx_exec_Ok, wrap_Ok in Hx. unfold upsert_readiness in Hx. apply result_bind_Ok in Hx as (? & _ & Hx). apply reject_Ok in Hx as [_ [= <-]]. by eexists.
Qed.

Lemma readiness_update_keeps {A} (pre : Tx PeerDB A) (k : A -> Tx PeerDB WorkerReadiness) db :
  (forall a db', pre db = Ok (a, db') -> db' = db) ->
  (forall a x db', k a db = Ok (x, db') -> exists guard set n db1, update_readiness guard set db = Ok (n, db1) /\ db' = db1) ->
  peer_keeps db (run_tx (tx_bind pre k) db).2.
Proof.
  intros H1 H2. apply readiness_call. intros x db' H. apply tx_bind_Ok in H as (a & db1 & Ha & H). apply H1 in Ha as ->.
  apply H2 in H as (guard & set & n & db2 & Hup & ->). right. by eapply update_readiness_Ok.
Qed.

(** No artifact is recorded, so that nothing can be done with one. *)
Lemma no_artifact_query key id db : db.(peer_changes_artifacts) = ∅ -> queryPeerChangesArtifact key id db = Err ErrNotFound.
Proof.
  intros E. unfold queryPeerChangesArtifact. rewrite E. unfold select_row, select. by rewrite map_filter_empty, map_to_list_empty.
Qed.

Lemma artifact_call {A} (m : Tx PeerDB A) db :
  (forall a db', db.(peer_changes_artifacts) = ∅ -> m db = Ok (a, db') -> db' = db) -> peer_keeps db (run_tx m db).2.
Proof. intros H. apply run_peer_keeps. intros a db' E S. assert (db' = db) as -> by (by eapply H; [apply S|]). by apply peer_keeps_refl. Qed.

Lemma artifact_calls_keep db key id : 
  (forall bytes at_, peer_keeps db (run_tx (ReserveChangesArtifactPayload key id bytes at_) db).2) /\
  (forall capture at_, peer_keeps db (run_tx (CompleteChangesArtifactCapture key id capture at_) db).2) /\
  (forall sequence at_, peer_keeps db (run_tx (AcknowledgeChangesArtifact key id sequence at_) db).2) /\
  peer_keeps db (run_tx (DeletePublishedChangesArtifact key id) db).2.
Proof.
  split_and!; [intros bytes at_|intros capture at_|intros sequence at_|]; apply artifact_call; intros a db' E H.
  - unfold ReserveChangesArtifactPayload in H. apply tx_bind_Ok in H as ([] & ? & [_ ->]%tx_lift_Ok & H). destruct (decide _); [by apply tx_throw_Ok in H|].
    apply tx_bind_Ok in H as (ts & ? & [_ ->]%tx_lift_Ok & H). apply tx_bind_Ok in H as (x & ? & [Hq ->]%tx_query_Ok & H). by rewrite no_artifact_query in Hq.
  - unfold CompleteChangesArtifactCapture in H. apply tx_bind_Ok in H as ([] & ? & [_ ->]%tx_lift_Ok & H). apply tx_bind_Ok in H as ([] & ? & [_ ->]%tx_lift_Ok & H).
    apply tx_bind_Ok in H as (ts & ? & [_ ->]%tx_lift_Ok & H). apply tx_bind_Ok in H as (x & ? & [Hq ->]%tx_query_Ok & H). by rewrite no_artifact_query in Hq.
  - unfold AcknowledgeChangesArtifact in H. apply tx_bind_Ok in H as ([] & ? & [_ ->]%tx_lift_Ok & H). destruct (decide _); [by apply tx_throw_Ok in H|].
    apply tx_bind_Ok in H as (ts & ? & [_ ->]%tx_lift_Ok & H). apply tx_bind_Ok in H as (x & ? & [Hq ->]%tx_query_Ok & H). by rewrite no_artifact_query in Hq.
  - unfold DeletePublishedChangesArtifact in H. apply tx_bind_Ok in H as ([] & ? & [_ ->]%tx_lift_Ok & H). apply tx_bind_Ok in H as (x & ? & [Hq ->]%tx_query_Ok & H).
    rewrite no_artifact_query in Hq by done. injection Hq as <-. by apply tx_ret_Ok in H as [_ ->].
Qed.

Lemma transition_call m key maxActive to thread detail db :
  transition m key maxActive to thread detail -> to <> WorkerRunning -> peer_keeps db (run_tx m db).2.
Proof. intros Ht Hn. apply run_worker_call. intros a db' Hi H. by eapply transition_keeps. Qed.

Lemma peer_step_keeps db db' : peer_step db db' -> peer_keeps db db'.
Proof.
  intros []; try (by eapply transition_call; [constructor|]); try (by eapply artifact_calls_keep).
  - apply ensure_readiness_keeps.
  - apply ensure_readiness_keeps.
  - apply readiness_update_keeps; [by intros a db1 [_ ->]%tx_query_Ok|]. intros a x db1 H. apply tx_bind_Ok in H as ([] & ? & [_ ->]%tx_lift_Ok & H).
    apply tx_bind_Ok in H as (u & db2 & Hx & [_ ->]%tx_ret_Ok). apply tx_exec_Ok, result_bind_Ok in Hx as ([changed db3] & Hup & Hx). apply wrap_Ok in Hup.
    apply reject_Ok in Hx as [_ [= <-]]. by eexists _, _, _, _.
  - apply readiness_update_keeps; [by intros a db1 [_ ->]%tx_lift_Ok|]. intros a x db1 H. destruct (decide _) as [|_]; [by apply tx_throw_Ok in H|].
    apply tx_bind_Ok in H as (y & ? & [_ ->]%tx_lift_Ok & H).
    apply tx_bind_Ok in H as (u & db2 & Hx & [_ ->]%tx_ret_Ok). apply tx_exec_Ok, result_bind_Ok in Hx as ([changed db3] & Hup & Hx). apply wrap_Ok in Hup.
    apply reject_Ok in Hx as [_ [= <-]]. by eexists _, _, _, _.
  - apply run_worker_call. intros. by eapply RecordPreparedWorkspace_keeps.
  - apply run_worker_call. intros. by eapply reserveWorker_keeps.
  - apply run_worker_call. intros. by eapply reserveWorker_keeps.
  - apply run_worker_call. intros x db1 Hi H. unfold ReserveWorkerStartWithWorkspace in H. destruct (decide _); [by apply tx_throw_Ok in H|].
    by eapply reserveWorker_keeps.
  - apply run_worker_call. intros. by eapply BeginWorkerOperation_keeps.
  - apply run_worker_call. intros. by eapply CompleteWorkerOperation_keeps.
  - apply run_worker_call. intros. by eapply PrepareWorkerTurnStartIntent_keeps.
  - apply run_worker_call. intros. by eapply bindWorkerTurnStartIntent_keeps.
  - apply run_worker_call. intros. by eapply bindWorkerTurnStartIntent_keeps.
  - apply run_worker_call. intros. by eapply RejectWorkerTurnStartIntent_keeps.
  - apply run_worker_call. intros x db1 Hi H. unfold ReserveResultOutbox in H. apply tx_bind_Ok in H as ([] & ? & [_ ->]%tx_lift_Ok & H).
    destruct (decide _); [by apply tx_throw_Ok in H|]. apply tx_bind_Ok in H as (ts & ? & [_ ->]%tx_lift_Ok & H). by eapply reserveResultOutbox_keeps.
  - apply run_worker_call. intros. by eapply BeginWorkerResultFinalization_keeps.
  - apply run_worker_call. intros. by eapply CommitResultOutboxCapture_keeps.
  - apply run_worker_call. intros. by eapply AcknowledgeResultOutboxMetadata_keeps.
  - apply run_worker_call. intros. by eapply AcknowledgeResultOutboxDelivery_keeps.
  - apply run_worker_call. intros. by eapply PrepareResultOutboxRelease_keeps.
  - apply run_worker_call. intros. by eapply CompactResultOutboxRelease_keeps.
  - apply run_worker_call. intros. by eapply RecoverWorkers_keeps.
  - apply inbox_call_keeps. intros. by apply BeginResultInbox_call.
  - apply run_inbox_call. intros. by eapply CommitResultInboxChunk_call.
  - apply run_inbox_call. intros. by eapply CommitResultInboxAvailable_call.
  - apply run_inbox_call. intros x db1 Hm Hi H. apply prepareResultInboxRemoval_call in H; [done|done|done|by_decide].
  - apply run_inbox_call. intros x db1 Hm Hi H. apply prepareResultInboxRemoval_call in H; [done|done|done|by_decide].
  - apply run_inbox_call. intros. by eapply CommitResultInboxRemoval_call.
  - apply run_inbox_call. intros. by eapply DeleteCompletedResultInboxRemoval_call.
  - apply run_inbox_call. intros. by eapply PrepareResultInboxEviction_call.
  - apply run_inbox_call. intros. by eapply CompactResultInboxEviction_call.
Qed.

(** ** Reachable states *)

Lemma empty_peer_sound : peer_sound empty_peer.
Proof.
  assert (forall {K R} `{Countable K} (k : K) (r : R) (P : Prop), (∅ : gmap K R) !! k = Some r -> P) as Hno.
  { intros K R ? ? k r P E. by rewrite lookup_empty in E. }
  constructor; [|constructor; try (intros *; apply Hno); try done; vm_compute; intros [=]|done].
  constructor; [constructor| | |constructor|constructor]; try (intros *; apply Hno); try done.
Qed.

#[global] Instance peer_lasting_refl : Reflexive peer_lasting.
Proof. intros db. constructor; [lia| |auto| | |done]; intros k r E; by exists r. Qed.

#[global] Instance peer_lasting_trans : Transitive peer_lasting.
Proof.
  intros a b c [A1 A2 A3 A4 A5 A6] [B1 B2 B3 B4 B5 B6]. constructor; [lia| | | | |by etrans].
  - by eapply (rows_trans worker_history).
  - intros k r E. destruct (B3 _ _ E) as [E1|Hlt]; [|right; lia]. auto.
  - by eapply (rows_trans receipt_history).
  - by eapply (rows_trans workspace_history).
Qed.

Lemma steps_keep db db' : rtc peer_step db db' -> peer_sound db -> peer_sound db' /\ peer_lasting db db'.
Proof.
  induction 1 as [db|db db1 db' Hs _ IH]; intros S; [by split|]. destruct (peer_step_keeps _ _ Hs S) as [S1 L1]. destruct (IH S1) as [S2 L2].
  split; [done|by etrans].
Qed.

Lemma reachable_sound db : peer_reachable db -> peer_sound db.
Proof. intros H. by apply (steps_keep _ _ H), empty_peer_sound. Qed.
