(* ===== verification/PeerLiveness.v ===== *)
(** What a sound peer can always do: a running turn can be finished, a turn that was asked
    for can be started or turned down, an inbox attempt can be completed or removed. *)

From S2P Require Export PeerReachable.

(** ** Queries that find their row *)

(** A guarded UPDATE of a worker that keeps its thread, at the next revision. *)
Lemma guarded_worker_run db key msg guard set r :
  workers_inv db -> db.(worker_reservations) !! key = Some r -> guard r = true -> worker_ok key (set r) ->
  (set r).(w_CodexThreadID) = r.(w_CodexThreadID) -> 0 < (set r).(w_Revision) ->
  tx_exec (fun db => let? x := wrap msg (update_worker key guard set db) in requireWorkerTurnStartUpdate x) (bump_revision db) =
    Ok (tt, put_worker key (set r) db).
Proof.
  intros Hi E Hg Hok Hth Hrev. unfold tx_exec, update_worker. cbn [worker_reservations bump_revision set_peer_metadata].
  rewrite (sql_update_hit _ _ _ _ _ r); [done|done|done|]. apply andb_true_iff. split.
  - by apply (worker_valid_check key); [apply Hok|apply Hok|].
  - apply (thread_free_kept db key r); done.
Qed.

Section Found.
Context (db : PeerDB) (Hi : peer_inv db).

Lemma intent_by_turn k i :
  db.(worker_turn_start_intents) !! k = Some i -> i.(it_turn_id) <> "" ->
  queryWorkerTurnStartIntentByTurn k.1 i.(it_turn_id) db = Ok {| ti_Key := k; ti_Row := i |}.
Proof using Hi.
  intros E Hne. unfold queryWorkerTurnStartIntentByTurn. rewrite scan_intent_inv by apply Hi.
  rewrite (select_row_unique _ _ k i); [done| |done|done]. intros k' i' E' [Hk Ht]. cbn in Hk, Ht.
  apply (intent_of_turn db _ _ i' i); [apply Hi|done..| |]; congruence.
Qed.

Lemma intent_by_id k i :
  db.(worker_turn_start_intents) !! k = Some i -> queryWorkerTurnStartIntent k.1 k.2 db = Ok {| ti_Key := k; ti_Row := i |}.
Proof using Hi.
  intros E. unfold queryWorkerTurnStartIntent. destruct k as [k iid]. cbn [fst snd]. rewrite E. cbn.
  destruct (tn_rows _ (pv_turns _ Hi) _ _ E) as [Hok _]. unfold intent_ok in Hok. by rewrite Hok.
Qed.

(** The value of a stored row of the outbox. *)
Lemma outbox_by_package k r :
  db.(peer_result_outbox) !! k = Some r ->
  exists o, queryResultOutboxByPackage k.2 db = Ok o /\ scanResultOutbox (Some (k, r)) = Ok o.
Proof using Hi.
  intros E. destruct (ox_rows _ (pv_outbox _ Hi) _ _ E) as [Hs _]. destruct (scanResultOutbox (Some (k, r))) as [o|] eqn:Ho; [|done].
  exists o. split; [|done]. unfold queryResultOutboxByPackage. apply do_Ok. split.
  - apply scan_outbox_fields in Ho as (_ & Hv & E2). rewrite E2 in Hv. unfold ResultOutbox_Validate, ResultOutboxKey_Validate in Hv.
    rewrite !do_Ok in Hv. apply Hv.
  - rewrite (select_row_unique _ _ k r); [done| |done|done]. intros k' r' E' Hk. cbn in Hk. apply dec_stable. intros Hn.
    apply (ox_unique _ (pv_outbox _ Hi) _ _ _ _ E E'). split; [done|]. by left.
Qed.

(** ** Finishing a turn *)

Lemma fenced_ok key w target code revision at_ :
  worker_ok key w -> w.(w_Status) = WorkerRunning -> validateFinalTarget target code = Ok tt -> 0 < revision <= MaxInt64 ->
  w.(w_UpdatedAt) <= at_ -> worker_ok key (fence_worker target code revision at_ w).
Proof.
  intros [Hs Hd Hres] Hst Hv Hrev Hat. unfold validateFinalTarget in Hv. rewrite !reject_Ok, do_Ok, !reject_Ok in Hv.
  destruct Hv as (Ht & Hc & H1 & H2 & _). apply not_false_iff_true in Ht. constructor; [by destruct Hs| |by intros [=]]. destruct Hd.
  destruct wd_matches as (_ & _ & _ & _ & _ & Hm & _). destruct (Hm Hst) as (M1 & M2 & M3 & M4 & M5).
  constructor; cbn; try hyp; try lia; try done.
  - unfold lifecycle_matches. cbn. split_and!; try (by intros [=]); try (by intros [[=]|[=]]). intros _. split_and!; try done.
    split; intros ?; apply dec_stable; tauto.
  - unfold MaxInt64 in Hrev. lia.
Qed.

(** The intent a running turn is bound to, and the bytes reserved for it. *)
Lemma running_turn key w :
  db.(worker_reservations) !! key = Some w -> w.(w_Status) = WorkerRunning ->
  exists iid i o, db.(worker_turn_start_intents) !! (key, iid) = Some i /\ i.(it_state) = WorkerTurnStartBound /\
    i.(it_turn_id) = w.(w_ActiveTurnID) /\ db.(peer_result_outbox) !! (key, i.(it_package_id)) = Some o /\
    o.(ob_state) = ResultOutboxCapturePending /\ o.(ob_source_device_id) = i.(it_device_id) /\
    o.(ob_reservation_limit_bytes) = i.(it_reservation_limit_bytes) /\
    w.(w_CodexThreadID) = i.(it_managed_thread_id) /\ w.(w_DeviceID) = i.(it_device_id).
Proof using Hi.
  intros E Hst. assert (w.(w_Status) ∈ [WorkerRunning; WorkerFinalizing]) as Hin by (rewrite Hst; by_decide).
  destruct (tn_covered _ (pv_turns _ Hi) _ _ E Hin) as (iid & i & Ei & Hb & Ht).
  destruct (tn_bound _ (pv_turns _ Hi) _ _ Ei Hb w E (eq_sym Ht)) as (H1 & _ & H3).
  destruct (H1 Hst) as (o & Eo & Hdev & Hlim & Hos). destruct (H3 Hin) as [Hth Hd]. exists iid, i, o.
  split_and!; try done. by apply list_elem_of_singleton in Hos.
Qed.

Lemma finalization_run key w target code at_ :
  db.(worker_reservations) !! key = Some w -> w.(w_Status) = WorkerRunning -> validateFinalTarget target code = Ok tt -> 0 <= at_ ->
  revision_of db < MaxInt64 ->
  exists x updatedAt, at_ <= updatedAt /\ BeginWorkerResultFinalization key w.(w_ActiveTurnID) target code at_ db =
    Ok (x, put_worker key (fence_worker target code (revision_of db + 1) updatedAt w) db).
Proof using Hi.
  intros E Hst Hv Hat Hlt. destruct (running_turn _ _ E Hst) as (iid & i & o & Ei & Hb & Ht & Eo & Hos & Hsd & Hlim & Hth & Hdev).
  destruct (wi_rows _ (pv_workers _ Hi) _ _ E) as [Hok Hrow]. pose proof (wi_revision _ (pv_workers _ Hi)) as Hrv.
  pose proof (wd_matches _ (wk_dynamic _ _ Hok)) as (_ & _ & _ & _ & _ & Hm & _). destruct (Hm Hst) as (M1 & M2 & M3 & M4 & M5).
  destruct (outbox_by_package _ _ Eo) as (x & Hq & Hx). cbn [snd] in Hq. apply scan_outbox_fields in Hx as (_ & _ & Hx).
  pose proof (intent_by_turn _ _ Ei ltac:(congruence)) as Hqi. cbn [fst] in Hqi. rewrite Ht in Hqi.
  exists {| wf_Intent := Some {| ti_Key := (key, iid); ti_Row := i |};
            wf_Worker := {| w_Key := key; w_Row := fence_worker target code (revision_of db + 1)
              (Z.max (Z.max (Z.max at_ w.(w_UpdatedAt)) i.(it_updated_at)) x.(xo_UpdatedAt)) w |}; wf_Outbox := x |}.
  exists (Z.max (Z.max (Z.max at_ w.(w_UpdatedAt)) i.(it_updated_at)) x.(xo_UpdatedAt)). split; [lia|].
  assert (valid_id w.(w_ActiveTurnID)) as Hid.
  { by apply (wd_active _ (wk_dynamic _ _ Hok)). }
  unfold BeginWorkerResultFinalization, validateFinalizationRequest. rewrite (wv_key _ _ (wk_static _ _ Hok)), Hid, Hv. cbn [wrap result_bind].
  unfold tx_bind at 1, tx_lift at 1. unfold tx_bind at 1, tx_lift at 1, unixTime. rewrite decide_False by lia.
  unfold tx_bind at 1, tx_query at 1, authority_lookup. rewrite Hqi. cbn [optional result_bind ti_Row ti_Key fst].
  rewrite decide_False by tauto. unfold tx_bind at 1, tx_query at 1. rewrite Hq.

  rewrite Hx. cbn [xo_Key xk_Key xk_SourceDeviceID xk_PackageID xo_ReservationLimitBytes xo_State].
  rewrite decide_False by (cbn; tauto). unfold tx_bind at 1, tx_query at 1. rewrite (queryWorker_inv _ _ (pv_workers _ Hi)), E. cbn [w_Row].
  rewrite (decide_False (P := w.(w_Status) = WorkerFinalizing)) by (by rewrite Hst).
  rewrite decide_False by (unfold workerTerminalMatches; cbn; intros (_ & (_ & _ & _ & ? & _) & _); contradiction).
  rewrite decide_False by (rewrite Hst, Hos; intros [[H _]|[H|[H|H]]]; [done..|by rewrite M3 in H|done]).
  rewrite decide_False by tauto. unfold tx_bind at 1. rewrite nextWorkerRevision_run by (done || apply Hi).
  unfold tx_bind at 1, tx_lift at 1. rewrite <- Hx.
  pose proof (fenced_ok key w target code (revision_of db + 1) (Z.max (Z.max (Z.max at_ w.(w_UpdatedAt)) i.(it_updated_at)) x.(xo_UpdatedAt))
    Hok Hst Hv ltac:(lia) ltac:(lia)) as Hf.
  assert (WorkerReservation_Validate {| w_Key := key; w_Row := fence_worker target code (revision_of db + 1)
    (Z.max (Z.max (Z.max at_ w.(w_UpdatedAt)) i.(it_updated_at)) x.(xo_UpdatedAt)) w |} = Ok tt) as ->
    by (apply WorkerReservation_Validate_Ok; split; apply Hf).
  cbn [wrap]. unfold tx_bind at 1. rewrite (guarded_worker_run db key _ _ _ w); [done|apply Hi|done| |done|done|cbn; lia].
  apply bool_decide_eq_true. split; [rewrite Hst; by_decide|done].
Qed.
End Found.

(** ** What Go accepts, SQLite stores *)

Lemma sqlite_chars_le lead l : sqlite_chars lead l <= Z.of_nat (length l).
Proof. revert lead. induction l as [|b l IH]; intros lead; cbn -[Z.of_nat]; [lia|]. repeat case_match; [lia|specialize (IH true)|specialize (IH (0xC0 <=? b))]; lia. Qed.

Lemma sqlite_length_le s : sqlite_length s <= len s.
Proof. unfold sqlite_length. rewrite len_bytes. apply sqlite_chars_le. Qed.

Lemma optional_id_check s : optional_id_ok s -> bool_decide (s = "") || (sqlite_length s =? 36) = true.
Proof.
  intros H. destruct (decide (s = "")) as [->|Hn]; [done|]. rewrite valid_id_sqlite_length by auto. apply orb_true_r.
Qed.

Lemma rollout_check l thread :
  WorkerRolloutLocator_Validate l thread = Ok tt ->
  bool_decide (l.(lo_Status) ∈ ["available"; "unavailable"]) = true /\
  sqlite_length l.(lo_CodexHome) <= maximumWorkspacePath /\ sqlite_length l.(lo_Path) <= maximumWorkspacePath /\
  0 <= l.(lo_Offset) <= maximumWorkerRolloutOffset /\ sqlite_length l.(lo_FailureCode) <= maximumWorkerFailureCode /\
  ((l.(lo_Status) = "available" /\ l.(lo_CodexHome) <> "" /\ l.(lo_Path) <> "" /\ l.(lo_FailureCode) = "") \/
   (l.(lo_Status) = "unavailable" /\ l.(lo_CodexHome) = "" /\ l.(lo_Path) = "" /\ l.(lo_Offset) = 0 /\ l.(lo_FailureCode) <> "")).
Proof.
  unfold WorkerRolloutLocator_Validate. destruct (decide _) as [Hs|_]; [|destruct (decide _) as [Hs|_]; [|done]].
  - rewrite !reject_Ok. intros (Hf & Hp & Ho & _). apply dec_stable in Hf. rewrite Hs, Hf.
    pose proof (sqlite_length_le l.(lo_CodexHome)). pose proof (sqlite_length_le l.(lo_Path)).
    change (sqlite_length "") with 0. unfold maximumWorkerFailureCode. split_and!; try done; try lia.
    left. split_and!; try done; intros E; apply Hp; rewrite E; tauto.
  - rewrite reject_Ok, do_Ok, wrap_Ok, reject_Ok. intros (Hp & Hc & Hf & _). rewrite Hs.
    assert (l.(lo_CodexHome) = "" /\ l.(lo_Path) = "" /\ l.(lo_Offset) = 0) as (-> & -> & ->) by (split_and!; apply dec_stable; tauto).
    unfold validateFailureCode in Hc. apply reject_Ok in Hc as [Hc _]. pose proof (sqlite_length_le l.(lo_FailureCode)).
    change (sqlite_length "") with 0. unfold maximumWorkspacePath, maximumWorkerRolloutOffset. split_and!; try done; try lia. by right.
Qed.

(** What the validator of a request and the one of an intent check. *)
Record request_ok (q : PrepareWorkerTurnStartIntentRequest) : Prop := {
  qo_key : WorkerKey_Validate q.(pt_Key) = Ok tt;
  qo_intent : valid_id q.(pt_IntentID);
  qo_device : valid_id q.(pt_DeviceID);
  qo_thread : valid_id q.(pt_ManagedThreadID);
  qo_package : valid_id q.(pt_PackageID);
  qo_previous : optional_id_ok q.(pt_PreviousTurnID);
  qo_operation : optional_id_ok q.(pt_OperationID);
  qo_rollout : WorkerRolloutLocator_Validate q.(pt_Rollout) q.(pt_ManagedThreadID) = Ok tt;
  qo_limit : 1 <= q.(pt_ReservationLimitBytes) <= MaximumResultPackageBytes;
}.

Lemma request_ok_valid q : PrepareWorkerTurnStartIntentRequest_Validate q = Ok tt <-> request_ok q.
Proof.
  unfold PrepareWorkerTurnStartIntentRequest_Validate. rewrite !do_Ok, validate_ids_Ok, !validate_optional_id_Ok, reject_Ok, !Forall_cons.
  split; [intros (? & (? & ? & ? & ? & _) & ? & ? & ? & ? & _); constructor; try done; lia|].
  intros []. split_and!; try done. lia.
Qed.

Record intent_parts (k : string * string * string * string) (i : TurnIntentRow) : Prop := {
  ir_request : request_ok (intent_request {| ti_Key := k; ti_Row := i |});
  ir_retry : (i.(it_retry_target) = WorkerPending /\ i.(it_operation_id) = "") \/
             (i.(it_retry_target) = WorkerIdle /\ i.(it_operation_id) <> "");
  ir_revision : i.(it_prepared_revision) <> 0 /\ i.(it_prepared_revision) < 2 ^ 63 /\ i.(it_resolution_revision) < 2 ^ 63;
  ir_code : failure_code_ok i.(it_rejection_failure_code);
  ir_resolution : validate_resolution i = Ok tt;
  ir_times : 0 <= i.(it_created_at) <= i.(it_updated_at);
}.

Lemma intent_ok_parts k i : intent_ok k i <-> intent_parts k i.
Proof.
  unfold intent_ok, WorkerTurnStartIntent_Validate. cbn [ti_Row]. rewrite do_Ok, request_ok_valid, !reject_Ok, !do_Ok, wrap_Ok, reject_Ok.
  split.
  - intros (H1 & H2 & H3 & H4 & H5 & H6 & H7 & _). constructor; try done; try lia.
    destruct (decide (i.(it_retry_target) = WorkerPending)) as [E|E]; [left|right]; split; try done; try tauto; apply dec_stable; tauto.
  - intros [H1 H2 H3 H4 H5 H6]. split_and!; try done; try lia; destruct H2 as [[H2 H2']|[H2 H2']]; rewrite H2; intuition done.
Qed.

Lemma resolution_check i :
  validate_resolution i = Ok tt ->
  bool_decide (i.(it_state) ∈ ["prepared"; "bound"; "rejected"]) = true /\ optional_id_ok i.(it_turn_id) /\
  ((i.(it_state) = "prepared" /\ i.(it_turn_id) = "" /\ i.(it_rejection_failure_code) = "" /\ i.(it_resolution_revision) = 0) \/
   (i.(it_state) = "bound" /\ i.(it_turn_id) <> "" /\ i.(it_rejection_failure_code) = "" /\
    i.(it_prepared_revision) < i.(it_resolution_revision)) \/
   (i.(it_state) = "rejected" /\ i.(it_turn_id) = "" /\ i.(it_rejection_failure_code) <> "" /\
    i.(it_prepared_revision) < i.(it_resolution_revision))).
Proof.
  unfold validate_resolution. destruct (decide _) as [Hs|_]; [|destruct (decide _) as [Hs|_]; [|destruct (decide _) as [Hs|_]; [|done]]]; rewrite Hs.
  - rewrite reject_Ok. intros [H _]. assert (i.(it_turn_id) = "") as E by (apply dec_stable; tauto). rewrite E.
    split_and!; [done|apply optional_id_empty|]. left. split_and!; try done; apply dec_stable; tauto.
  - rewrite do_Ok, wrap_Ok, reject_Ok. intros (Hv & H & _). split_and!; [done|by intros _|]. right. left.
    split_and!; [done|by apply valid_id_nonempty|apply dec_stable; tauto|lia].
  - rewrite reject_Ok. intros [H _]. assert (i.(it_turn_id) = "") as E by (apply dec_stable; tauto). rewrite E.
    split_and!; [done|apply optional_id_empty|]. right. right. split_and!; try done; [tauto|lia].
Qed.

Lemma intent_valid_check k i :
  intent_ok k i -> 0 < i.(it_prepared_revision) -> 0 <= i.(it_resolution_revision) -> intent_check k i = true.
Proof.
  intros [[Q1 Q2 Q3 Q4 Q5 Q6 Q7 Q8 Q9] Hretry _ Hc Hr Ht]%intent_ok_parts H1 H2. destruct k as [[[c t] a] iid].
  apply (validate_ids_Ok [(_, c); (_, t); (_, a)]) in Q1. rewrite !Forall_cons in Q1. cbn in Q2, Q3, Q4, Q5, Q6, Q7, Q8, Q9. destruct Q1 as (K1 & K2 & K3 & _). cbn in K1, K2, K3.
  apply rollout_check in Q8 as (R1 & R2 & R3 & R4 & R5 & R6). cbn in R1, R2, R3, R4, R5, R6. apply resolution_check in Hr as (S1 & S2 & S3).
  unfold failure_code_ok, validateFailureCode in Hc. apply reject_Ok in Hc as [Hc _]. pose proof (sqlite_length_le i.(it_rejection_failure_code)).
  unfold intent_check. cbv zeta. rewrite !valid_id_sqlite_length, !optional_id_check, R1, S1 by done. cbn [Z.eqb Pos.eqb andb]. unfold in_range.
  rewrite !andb_true_iff, !bool_decide_eq_true. split_and!; try lia; try done; try (by apply Z.leb_le); try (by rewrite valid_id_sqlite_length).
  destruct Hretry as [[-> _]|[-> _]]; by_decide.
Qed.

Lemma lower_digest_check s : lower_digest s -> digest_check s = true.
Proof.
  unfold lower_digest. destruct (hex_decode s) as [d|] eqn:E; [|by intros [[] _]]. intros [Hd Hl].
  apply (hex_decode_lower _ _ E) in Hl || (symmetry in Hl; apply (hex_decode_lower _ _ E) in Hl). rewrite Hd in Hl. by apply lower_hex_pattern_check.
Qed.

Lemma operation_valid_check k r : WorkerOperationReceipt_Validate (operation_receipt k r) = Ok tt -> worker_operation_check r = true.
Proof.
  unfold WorkerOperationReceipt_Validate, validateWorkerOperationIdentity. rewrite do_Ok, !do_Ok, !reject_Ok, do_Ok, !reject_Ok. cbn.
  intros ((_ & _ & Ha & _) & Hd & Hs & _ & Hp & Hg & Hf & Ht & _). apply not_false_iff_true in Ha. apply dec_stable in Hd.
  unfold worker_operation_check. rewrite (lower_digest_check _ Hd), !andb_true_iff.
  assert (WorkerOperationStatus_valid r.(wop_status) = true) as Hst by (apply not_false_iff_true; tauto).
  assert (WorkerOperationOutcome_valid r.(wop_outcome) = true) as Ho by (apply not_false_iff_true; tauto).
  unfold WorkerOperationOutcome_valid, WorkerOperationOutcome_terminal, WorkerOperationOutcome_successful in Ho.
  rewrite !orb_true_iff, !bool_decide_eq_true in Ho. unfold WorkerOperationStatus_valid in Hst. rewrite bool_decide_eq_true in Hst.
  split_and!; try lia; try done; apply bool_decide_eq_true; try done.
  - destruct Ho as [->|[Ho| ->]]; [by_decide| |by_decide]. rewrite elem_of_cons. right. revert Ho. rewrite !elem_of_cons, elem_of_nil. tauto.
  - rewrite !elem_of_cons, elem_of_nil in Hst. destruct Hst as [E|[E|[E|[]]]]; rewrite E in *.
    + left. split_and!; try done; apply dec_stable; tauto.
    + right. left. split_and!; [done| |apply dec_stable; tauto]. apply (bool_decide_eq_true (r.(wop_outcome) ∈ _)), not_false_iff_true.
      unfold WorkerOperationOutcome_successful in Hg. tauto.
    + right. right. split_and!; [done|apply dec_stable; tauto|tauto].
Qed.

(** ** Resolving a prepared intent *)

Lemma alter_known {K R} `{Countable K} (f : R -> R) (t : gmap K R) k r : t !! k = Some r -> alter f k t = <[k := f r]> t.
Proof. intros E. apply map_eq. intros j. rewrite lookup_alter, lookup_insert. case_decide; [subst; by rewrite E|done]. Qed.

(** The receipts once the operation of an intent, if it has one, is completed. *)
Definition settled_operations (key : WorkerKey) (op status outcome code : string) (ts : Z) (ops : gmap (string * string) WorkerOperationRow)
    : gmap (string * string) WorkerOperationRow :=
  if decide (op = "") then ops
  else alter (fun o => set_operation status outcome code (Z.max ts o.(wop_updated_at)) o) (key.1.1, op) ops.

Lemma complete_operation_run key op outcome code ts db :
  operations_inv db ->
  (op <> "" -> exists o, db.(worker_operation_receipts) !! (key.1.1, op) = Some o /\ (key.1.1, o.(wop_tree_id), o.(wop_agent_id)) = key /\
     o.(wop_status) = WorkerOperationPending) ->
  WorkerOperationOutcome_terminal outcome = true -> failure_code_ok code -> (outcome = WorkerOutcomeFailed <-> code <> "") ->
  exists x, complete_intent_operation key op outcome code ts db = Ok (x, set_worker_operation_receipts db
    (settled_operations key op (if decide (outcome = WorkerOutcomeFailed) then WorkerOperationFailed else WorkerOperationSucceeded)
       outcome code ts db.(worker_operation_receipts))).
Proof.
  intros Hi Hp Ht Hc Hiff. unfold complete_intent_operation, settled_operations. destruct (decide (op <> "")) as [Hne|He].
  - destruct (Hp Hne) as (o & E & Hk & Hs). destruct (Hi _ _ E) as [Hv _]. eexists _.
    unfold completeWorkerOperationReceipt. unfold tx_bind at 1, tx_bind at 1, tx_query at 1. rewrite queryWorkerOperation_inv, E by done.
    cbn [wo_Key operation_receipt wo_Status fst snd wo_UpdatedAt wo_OperationID]. rewrite Hk. rewrite decide_False by (by intros ?).
    rewrite decide_False by tauto. unfold tx_bind at 1, tx_exec at 1. rewrite (sql_update_hit _ _ _ _ _ o); [|done|done|].
    + cbn. rewrite (decide_False (P := op = "")) by done. by rewrite (alter_known _ _ _ o).
    + apply (operation_valid_check (key.1.1, op)). apply completed_operation_valid; [done|lia|done|done|done].
  - apply dec_stable in He. eexists _. rewrite (decide_True (P := op = "")) by done. by destruct db.
Qed.

Lemma guarded_intent_run k msg guard set db i :
  db.(worker_turn_start_intents) !! k = Some i -> guard i = true -> intent_check k (set i) = true ->
  (forall k1 i1, db.(worker_turn_start_intents) !! k1 = Some i1 -> ~ same_intent k (set i) (k1, i1)) ->
  tx_exec (fun db => let? x := wrap msg (update_intent k guard set db) in requireWorkerTurnStartUpdate x) db =
    Ok (tt, set_worker_turn_start_intents db (<[k := set i]> db.(worker_turn_start_intents))).
Proof.
  intros E Hg Hc Hu. unfold tx_exec, update_intent. rewrite (sql_update_hit _ _ _ _ _ i); [done|done|done|].
  rewrite Hc. by apply none_where_true.
Qed.

Section Resolve.
Context (db : PeerDB) (Hi : peer_inv db) (key : WorkerKey) (iid : string) (i : TurnIntentRow).
Context (Ei : db.(worker_turn_start_intents) !! (key, iid) = Some i) (Hp : i.(it_state) = WorkerTurnStartPrepared).

(** What the invariant knows of a prepared intent. *)
Lemma prepared_facts :
  exists w o, db.(worker_reservations) !! key = Some w /\ worker_ok key w /\ 0 < w.(w_Revision) <= revision_of db /\
    validatePreparedTurnIntentWorker {| w_Key := key; w_Row := w |} {| ti_Key := (key, iid); ti_Row := i |} = Ok tt /\
    db.(peer_result_outbox) !! (key, i.(it_package_id)) = Some o /\ o.(ob_source_device_id) = i.(it_device_id) /\
    o.(ob_reservation_limit_bytes) = i.(it_reservation_limit_bytes) /\ o.(ob_state) = ResultOutboxCapturePending /\
    intent_parts (key, iid) i.
Proof using Hi Ei Hp.
  destruct (tn_prepared _ (pv_turns _ Hi) _ _ Ei Hp) as [(w & Ew & Hc) (o & Eo & Hd & Hl & Hs) _]. cbn [fst] in *.
  destruct (wi_rows _ (pv_workers _ Hi) _ _ Ew) as [Hok Hr]. exists w, o. split_and!; try done; try lia; [by apply list_elem_of_singleton in Hs|].
  apply intent_ok_parts. by apply (tn_rows _ (pv_turns _ Hi)) in Ei as [? _].
Qed.

Lemma release_run o :
  db.(peer_result_outbox) !! (key, i.(it_package_id)) = Some o -> o.(ob_source_device_id) = i.(it_device_id) ->
  o.(ob_reservation_limit_bytes) = i.(it_reservation_limit_bytes) -> o.(ob_state) = ResultOutboxCapturePending ->
  releaseTurnStartResultReservation {| ti_Key := (key, iid); ti_Row := i |} db =
    Ok (tt, set_peer_result_outbox db (delete (key, i.(it_package_id)) db.(peer_result_outbox))).
Proof using Hi.
  intros Eo Hd Hl Hs. unfold releaseTurnStartResultReservation. cbn [ti_Row ti_Key fst].
  set (k := {| xk_Key := key; xk_SourceDeviceID := i.(it_device_id); xk_PackageID := i.(it_package_id) |}).
  destruct (ox_rows _ (pv_outbox _ Hi) _ _ Eo) as [Hx _].
  destruct (scanResultOutbox (Some ((key, i.(it_package_id)), o))) as [x|] eqn:Ex; [|done].
  assert (queryResultOutbox k db = Ok x) as Hq.
  { unfold queryResultOutbox. rewrite (select_row_unique _ _ (key, i.(it_package_id)) o); [done|by intros k' r' _ [? _]|done|done]. }
  unfold tx_bind at 1, tx_query at 1. rewrite Hq. apply scan_outbox_fields in Ex as (_ & _ & Ex). rewrite Ex. cbn [xo_State xo_ReservationLimitBytes].
  rewrite decide_False by tauto.
  set (P := fun x : (string * string * string * string) * OutboxRow =>
    is_outbox k x /\ x.2.(ob_state) = "capturePending" /\ x.2.(ob_reservation_limit_bytes) = i.(it_reservation_limit_bytes)).
  assert ((sql_delete P db.(peer_result_outbox)).2 = delete (key, i.(it_package_id)) db.(peer_result_outbox)) as Hdel.
  { apply (sql_delete_key _ _ _ o); [done|by split|by intros y [[Hy _] _]]. }
  pose proof (size_after_delete P db.(peer_result_outbox)) as Hsz. rewrite Hdel in Hsz.
  pose proof (map_size_delete_Some (key, i.(it_package_id)) db.(peer_result_outbox) ltac:(by eexists)) as Hsz'.
  assert (size db.(peer_result_outbox) <> 0%nat) by (eapply map_size_ne_0_lookup_2; eauto).
  unfold tx_exec. change (sql_delete _ _) with (sql_delete P db.(peer_result_outbox)).
  destruct (sql_delete P db.(peer_result_outbox)) as [n t]. cbn in Hsz, Hdel |- *. rewrite decide_False by lia. by rewrite Hdel.
Qed.

(** Resolving keeps the intent apart from the others, as long as nobody has its turn. *)
Lemma resolved_unique state turn code rollout revision at_ :
  state <> WorkerTurnStartPrepared ->
  (turn <> "" -> forall k1 i1, db.(worker_turn_start_intents) !! k1 = Some i1 -> k1.1 = key -> i1.(it_turn_id) = turn -> k1 = (key, iid)) ->
  forall k1 i1, db.(worker_turn_start_intents) !! k1 = Some i1 ->
    ~ same_intent (key, iid) (resolve_intent state turn code rollout revision at_ i) (k1, i1).
Proof using Hi Ei.
  intros Hs Ht k1 i1 E1 [Hn H]. cbn in Hn, H. destruct H as [H|[H|[(? & _)|[(H1 & H2 & H3)|(H1 & H2 & H3)]]]]; [| |done| |by apply Hn, Ht with i1].
  all: apply (tn_unique _ (pv_turns _ Hi) _ _ _ _ Ei E1); split; cbn; [done|]; tauto.
Qed.

(** The worker of a prepared intent, once it is resolved. *)
Lemma resolved_worker_ok w status active bound revision at_ :
  worker_ok key w -> w.(w_Status) = WorkerReady -> 0 < revision <= MaxInt64 -> w.(w_UpdatedAt) <= at_ ->
  ((status = w.(w_RetryTarget) /\ active = "" /\ bound = w.(w_LastBoundTurnID)) \/
   (status = WorkerRunning /\ valid_id active /\ bound = active)) ->
  worker_ok key (set_lifecycle w.(w_CodexThreadID) status "" active bound "" revision at_ w).
Proof.
  intros [Hs Hd Hres] Hst Hrev Hat Hcase. constructor; [by destruct Hs| |by intros [=]]. destruct Hd.
  destruct wd_matches as (_ & _ & _ & _ & Hm & _). destruct Hm as (M1 & M2 & M3 & M4 & _); [by left|]. specialize (M4 Hst).
  assert (w.(w_Status) <> WorkerFinalizing) as Hnf by (by rewrite Hst). destruct (wd_final Hnf) as [F1 F2].
  destruct Hcase as [(-> & -> & ->)|(-> & Ha & ->)].
  - constructor; cbn; try hyp; try lia; try done; try exact failure_code_empty; try exact optional_id_empty.
    + destruct M4 as [-> | ->]; done.
    + unfold lifecycle_matches. cbn. destruct M4 as [-> | ->]; split_and!; try (by intros [=]); try (by intros [[=]|[=]]); done.
    + unfold MaxInt64 in Hrev. lia.
  - pose proof (valid_id_nonempty _ Ha). constructor; cbn; try hyp; try lia; try done; try exact failure_code_empty; try (by intros _).
    + unfold lifecycle_matches. cbn. split_and!; try (by intros [=]); try (by intros [[=]|[=]]); done.
    + unfold MaxInt64 in Hrev. lia.
Qed.

(** The intent, once it is resolved. *)
Lemma resolved_intent_ok state turn code rollout revision at_ :
  intent_parts (key, iid) i -> WorkerRolloutLocator_Validate rollout i.(it_managed_thread_id) = Ok tt ->
  i.(it_prepared_revision) < revision <= MaxInt64 -> i.(it_updated_at) <= at_ ->
  ((state = WorkerTurnStartRejected /\ turn = "" /\ code <> "" /\ failure_code_ok code) \/
   (state = WorkerTurnStartBound /\ valid_id turn /\ turn <> i.(it_previous_turn_id) /\ code = "")) ->
  intent_ok (key, iid) (resolve_intent state turn code rollout revision at_ i).
Proof.
  intros [[] Hr Hv _ _ Ht] Hl Hrev Hat Hcase. apply intent_ok_parts. unfold MaxInt64 in Hrev.
  constructor; cbn; try hyp; try lia.
  - constructor; cbn in *; hyp.
  - destruct Hcase as [(_ & _ & _ & ?)|(_ & _ & _ & ->)]; [done|exact failure_code_empty].
  - unfold validate_resolution. cbn. destruct Hcase as [(-> & -> & Hc & _)|(-> & Hid & Hne & ->)].
    + rewrite decide_False, decide_False, decide_True, reject_Ok by done. split; [|done]. intros [?|[?|?]]; [done..|lia].
    + rewrite decide_False, decide_True, do_Ok, wrap_Ok, reject_Ok by done. split_and!; [done| |done]. intros [?|[?|?]]; [done..|lia].
Qed.
End Resolve.

(** The clock of a resolution never runs behind the worker's or the intent's. *)
Definition resolved_at (at_ : Z) (w : WorkerRow) (i : TurnIntentRow) : Z := Z.max (Z.max at_ w.(w_UpdatedAt)) i.(it_updated_at).

(** The state once a prepared start is turned down: the whole of what changes. *)
Definition rejected_start (key : WorkerKey) (iid : string) (i : TurnIntentRow) (w : WorkerRow) (code : string) (at_ : Z) (db : PeerDB) : PeerDB :=
  let ts := resolved_at at_ w i in
  set_worker_turn_start_intents (set_worker_operation_receipts
    (put_worker key (set_lifecycle w.(w_CodexThreadID) w.(w_RetryTarget) "" "" w.(w_LastBoundTurnID) "" (revision_of db + 1) ts w)
      (set_peer_result_outbox db (delete (key, i.(it_package_id)) db.(peer_result_outbox))))
    (settled_operations key i.(it_operation_id) WorkerOperationFailed WorkerOutcomeFailed code ts db.(worker_operation_receipts)))
    (<[(key, iid) := resolve_intent WorkerTurnStartRejected "" code (ti_Rollout i) (revision_of db + 1) ts i]> db.(worker_turn_start_intents)).

(** The state once a prepared start is bound to its turn. *)
Definition bound_start (key : WorkerKey) (iid : string) (i : TurnIntentRow) (w : WorkerRow) (turn : string) (at_ : Z) (db : PeerDB) : PeerDB :=
  let ts := resolved_at at_ w i in
  set_worker_turn_start_intents (set_worker_operation_receipts
    (put_worker key (set_lifecycle w.(w_CodexThreadID) WorkerRunning "" turn turn "" (revision_of db + 1) ts w) db)
    (settled_operations key i.(it_operation_id) WorkerOperationSucceeded WorkerOutcomeStarted "" ts db.(worker_operation_receipts)))
    (<[(key, iid) := resolve_intent WorkerTurnStartBound turn "" (ti_Rollout i) (revision_of db + 1) ts i]> db.(worker_turn_start_intents)).

(** The operation a prepared start belongs to is there and waits. *)
Lemma start_operation_pending db key iid i :
  peer_inv db -> db.(worker_turn_start_intents) !! (key, iid) = Some i -> i.(it_state) = WorkerTurnStartPrepared -> i.(it_operation_id) <> "" ->
  exists o, db.(worker_operation_receipts) !! (key.1.1, i.(it_operation_id)) = Some o /\ (key.1.1, o.(wop_tree_id), o.(wop_agent_id)) = key /\
    o.(wop_status) = WorkerOperationPending.
Proof.
  intros Hi Ei Hp Hop. destruct (pk_operation _ _ _ (tn_prepared _ (pv_turns _ Hi) _ _ Ei Hp) Hop) as (o' & Eo' & Hk & _ & Hs'). by exists o'.
Qed.

(** A prepared intent can always be turned down: the worker goes back to where the start
    came from, the bytes of the package come free and the operation fails. *)
Lemma reject_run db key iid i code at_ :
  peer_inv db -> db.(worker_turn_start_intents) !! (key, iid) = Some i -> i.(it_state) = WorkerTurnStartPrepared ->
  failure_code_ok code -> code <> "" -> 0 <= at_ -> revision_of db < MaxInt64 ->
  exists x w, db.(worker_reservations) !! key = Some w /\ w.(w_Status) = WorkerReady /\
    RejectWorkerTurnStartIntent key iid code at_ db = Ok (x, rejected_start key iid i w code at_ db).
Proof.
  intros Hi Ei Hp Hc Hne Hat Hlt. destruct (prepared_facts db Hi key iid i Ei Hp) as (w & o & Ew & Hok & Hr & Hck & Eo & Hd & Hl & Hs & Hpt).
  pose proof (wi_revision _ (pv_workers _ Hi)) as Hrv. assert (Hck' := Hck). apply checkpoint_facts in Hck' as (_ & _ & _ & _ & Hst & Hre & Hrev).
  set (at' := resolved_at at_ w i). assert (w.(w_UpdatedAt) <= at' /\ i.(it_updated_at) <= at') as [Hat1 Hat2] by (unfold at', resolved_at; lia).
  set (w' := set_lifecycle w.(w_CodexThreadID) w.(w_RetryTarget) "" "" w.(w_LastBoundTurnID) "" (revision_of db + 1) at' w).
  set (i' := resolve_intent WorkerTurnStartRejected "" code (ti_Rollout i) (revision_of db + 1) at' i).
  set (dbo := set_peer_result_outbox db (delete (key, i.(it_package_id)) db.(peer_result_outbox))).
  assert (i.(it_turn_id) = "") as Hturn.
  { pose proof (ir_resolution _ _ Hpt) as X%resolution_check. destruct X as (_ & _ & [(_ & ? & _)|[(X & _)|(X & _)]]); [done|..]; by rewrite Hp in X. }
  assert (worker_ok key w') as Hok' by (apply resolved_worker_ok; [done|done|lia|lia|by left]).
  assert (intent_ok (key, iid) i') as Hiok by (apply resolved_intent_ok; [done|apply Hpt|lia|lia|by left]).
  assert (workers_inv dbo) as Hwo by (by apply (workers_inv_same db); [..|apply Hi]).
  destruct (complete_operation_run key i.(it_operation_id) WorkerOutcomeFailed code at' (put_worker key w' dbo)) as (x & Hrun); try done.
  { apply (operations_inv_kept db); [done|by apply (workers_kept_put _ _ key w w')|apply Hi]. }
  { intros Hop. by apply (start_operation_pending db key iid i). }
  eexists _, w. split; [done|]. split; [done|].
  unfold RejectWorkerTurnStartIntent, validateWorkerTurnStartResolutionIdentity. rewrite (wv_key _ _ (wk_static _ _ Hok)).
  rewrite (qo_intent _ (ir_request _ _ Hpt) : ValidateID iid = Ok tt), Hc. cbn [wrap result_bind].
  unfold tx_bind at 1, tx_lift at 1. unfold tx_bind at 1, tx_lift at 1. rewrite (decide_False (P := code = "")) by done.
  unfold tx_bind at 1, tx_lift at 1, unixTime. rewrite decide_False by lia.
  unfold tx_bind at 1, tx_query at 1. pose proof (intent_by_id db Hi _ _ Ei) as Hq. cbn [fst snd] in Hq. rewrite Hq. cbn [ti_Row ti_Key].
  rewrite (decide_False (P := i.(it_state) = WorkerTurnStartRejected)) by (by rewrite Hp). rewrite decide_False by tauto.
  unfold tx_bind at 1, tx_query at 1. rewrite (queryWorker_inv _ _ (pv_workers _ Hi)), Ew. cbn [w_Row]. unfold tx_bind at 1, tx_lift at 1. rewrite Hck.
  unfold tx_bind at 1. rewrite (release_run db Hi key iid i o) by done. fold dbo. unfold tx_bind at 1.
  rewrite nextWorkerRevision_run by done. change (revision_of dbo) with (revision_of db). fold (resolved_at at_ w i). fold at'. rewrite <- Hre. fold w'.
  unfold tx_bind at 1, tx_lift at 1.
  rewrite (proj2 (WorkerReservation_Validate_Ok key w') (conj (wk_static _ _ Hok') (wk_dynamic _ _ Hok'))). cbn [wrap].
  unfold tx_bind at 1. rewrite (guarded_worker_run dbo key _ _ _ w); [|done|done|by apply bool_decide_eq_true|done|done|cbn; lia]. fold w'.
  unfold tx_bind at 1. rewrite Hrun. unfold tx_bind at 1, tx_lift at 1. rewrite Hturn. fold i'. rewrite Hiok. cbn [wrap].
  unfold tx_bind at 1. rewrite (guarded_intent_run _ _ _ _ _ i); [|done|by apply bool_decide_eq_true| |]; rewrite Hturn.
  - done.
  - apply intent_valid_check; [done|cbn; lia|cbn; lia].
  - apply (resolved_unique db Hi key iid i Ei); done.
Qed.

(** A prepared intent can always be bound to a turn no other intent of its worker has. *)
Lemma bind_run db key iid i turn at_ :
  peer_inv db -> db.(worker_turn_start_intents) !! (key, iid) = Some i -> i.(it_state) = WorkerTurnStartPrepared ->
  valid_id turn -> turn <> i.(it_previous_turn_id) ->
  (forall k1 i1, db.(worker_turn_start_intents) !! k1 = Some i1 -> k1.1 = key -> i1.(it_turn_id) <> turn) ->
  0 <= at_ -> revision_of db < MaxInt64 ->
  exists x w, db.(worker_reservations) !! key = Some w /\ w.(w_Status) = WorkerReady /\
    BindWorkerTurnStartIntent key iid turn at_ db = Ok (x, bound_start key iid i w turn at_ db).
Proof.
  intros Hi Ei Hp Hid Hprev Hfree Hat Hlt. destruct (prepared_facts db Hi key iid i Ei Hp) as (w & o & Ew & Hok & Hr & Hck & _ & _ & _ & _ & Hpt).
  pose proof (wi_revision _ (pv_workers _ Hi)) as Hrv. assert (Hck' := Hck). apply checkpoint_facts in Hck' as (_ & _ & _ & _ & Hst & Hre & Hrev).
  set (at' := resolved_at at_ w i). assert (w.(w_UpdatedAt) <= at' /\ i.(it_updated_at) <= at') as [Hat1 Hat2] by (unfold at', resolved_at; lia).
  set (w' := set_lifecycle w.(w_CodexThreadID) WorkerRunning "" turn turn "" (revision_of db + 1) at' w).
  set (i' := resolve_intent WorkerTurnStartBound turn "" (ti_Rollout i) (revision_of db + 1) at' i).
  assert (i.(it_rejection_failure_code) = "") as Hcode.
  { pose proof (ir_resolution _ _ Hpt) as X%resolution_check. destruct X as (_ & _ & [(_ & _ & ? & _)|[(X & _)|(X & _)]]); [done|..]; by rewrite Hp in X. }
  assert (worker_ok key w') as Hok' by (apply resolved_worker_ok; [done|done|lia|lia|by right]).
  assert (intent_ok (key, iid) i') as Hiok by (apply resolved_intent_ok; [done|apply Hpt|lia|lia|by right]).
  destruct (complete_operation_run key i.(it_operation_id) WorkerOutcomeStarted "" at' (put_worker key w' db)) as (x & Hrun); try done.
  { apply (operations_inv_kept db); [done|by apply (workers_kept_put _ _ key w w')|apply Hi]. }
  { intros Hop. by apply (start_operation_pending db key iid i). }
  eexists _, w. split; [done|]. split; [done|].
  unfold BindWorkerTurnStartIntent, bindWorkerTurnStartIntent, validateWorkerTurnStartResolutionIdentity. rewrite (wv_key _ _ (wk_static _ _ Hok)).
  rewrite (qo_intent _ (ir_request _ _ Hpt) : ValidateID iid = Ok tt), Hid. cbn [wrap result_bind].
  unfold tx_bind at 1, tx_lift at 1. unfold tx_bind at 1, tx_lift at 1. unfold tx_bind at 1, tx_lift at 1, unixTime. rewrite decide_False by lia.
  unfold tx_bind at 1, tx_query at 1. pose proof (intent_by_id db Hi _ _ Ei) as Hq. cbn [fst snd] in Hq. rewrite Hq. cbn [ti_Row ti_Key].
  unfold tx_bind at 1, tx_lift at 1. rewrite (decide_False (P := turn = i.(it_previous_turn_id))) by done.
  rewrite (decide_False (P := i.(it_state) = WorkerTurnStartBound)) by (by rewrite Hp). rewrite decide_False by tauto.
  unfold tx_bind at 1, tx_query at 1. rewrite (queryWorker_inv _ _ (pv_workers _ Hi)), Ew. cbn [w_Row]. unfold tx_bind at 1, tx_lift at 1. rewrite Hck.
  assert (require_turn_free key iid turn db = Ok tt) as Hft.
  { unfold require_turn_free, queryWorkerTurnStartIntentByTurn. rewrite scan_intent_inv by apply Hi.
    rewrite (proj2 (select_row_None _ _)); [done|]. intros k1 i1 E1 [Hk Ht]. by apply (Hfree _ _ E1). }
  unfold tx_bind at 1, tx_query at 1. rewrite Hft. unfold tx_bind at 1.
  rewrite nextWorkerRevision_run by (done || apply Hi). fold (resolved_at at_ w i). fold at'. fold w'.
  unfold tx_bind at 1, tx_lift at 1.
  rewrite (proj2 (WorkerReservation_Validate_Ok key w') (conj (wk_static _ _ Hok') (wk_dynamic _ _ Hok'))). cbn [wrap].
  unfold tx_bind at 1. rewrite (guarded_worker_run db key _ _ _ w); [|apply Hi|done|by apply bool_decide_eq_true|done|done|cbn; lia].
  change (put_worker key _ db) with (put_worker key w' db). unfold tx_bind at 1. rewrite Hrun. unfold tx_bind at 1, tx_lift at 1. rewrite Hcode. cbn [default]. fold i'. rewrite Hiok. cbn [wrap].
  unfold tx_bind at 1. rewrite (guarded_intent_run _ _ _ _ _ i); [|done|by apply bool_decide_eq_true| |]; rewrite Hcode.
  - done.
  - apply intent_valid_check; [done|cbn; lia|cbn; lia].
  - apply (resolved_unique db Hi key iid i Ei); [done|]. intros _ k1 i1 E1 Hk Ht. by destruct (Hfree _ _ E1 Hk Ht).
Qed.

(** ** Receiving a whole package *)

(** The chunks of a part from an offset on, as a sender cuts them. *)
Fixpoint chunks_from (fuel : nat) (digest : string -> Z -> string) (kind : string) (size offset : Z) : list ResultInboxChunkCommit :=
  match fuel with
  | O => []
  | S fuel =>
      if decide (offset < size) then
        {| cc_Kind := kind; cc_Offset := offset; cc_Size := chunk_size size offset; cc_SHA256 := digest kind offset |} ::
          chunks_from fuel digest kind size (offset + chunk_size size offset)
      else []
  end.

(** What is left to send of a package: a part has at most one chunk more than its size holds
    whole ones. *)
Definition missing_chunks (digest : string -> Z -> string) (x : ResultInbox) : list ResultInboxChunkCommit :=
  concat (zip_with (fun o d => chunks_from (Z.to_nat (d.(rd_Size) / ResultPackageChunkBytes + 1)) digest d.(rd_Kind) d.(rd_Size) o.(po_NextOffset))
    x.(bx_Offsets) (parts_of x.(bx_Manifest))).

(** The calls of a sender, one transaction each. *)
Fixpoint commit_chunks (a : ResultInboxAuthority) (attempt packageID : string) (chunks : list ResultInboxChunkCommit) (at_ : Z) (db : PeerDB)
    : result PeerDB :=
  match chunks with
  | [] => Ok db
  | chunk :: chunks =>
      match CommitResultInboxChunk a attempt packageID chunk at_ db with
      | Ok (_, db) => commit_chunks a attempt packageID chunks at_ db
      | Err e => Err e
      end
  end.

Lemma commit_chunks_app a attempt packageID l1 l2 at_ db :
  commit_chunks a attempt packageID (l1 ++ l2) at_ db =
  match commit_chunks a attempt packageID l1 at_ db with Ok db1 => commit_chunks a attempt packageID l2 at_ db1 | Err e => Err e end.
Proof. revert db. induction l1 as [|c l1 IH]; intros db; [done|]. cbn. destruct (CommitResultInboxChunk _ _ _ _ _ _) as [[? ?]|]; [apply IH|done]. Qed.

Section Transfer.
Context (a : ResultInboxAuthority) (attempt packageID : string) (at_ : Z) (m : ResultManifest) (md : ResultPackageMetadata) (digest : string -> Z -> string).
Context (Hdigest : forall kind offset, validateDigest (digest kind offset) = Ok tt).

(** The package can be received. *)
Record transfer (r : InboxRow) (db : PeerDB) : Prop := {
  tf_metadata : peer_metadata_check db.(peer_metadata) = true;
  tf_inv : inbox_inv db;
  tf_receiving : receiving a attempt packageID r m db;
  tf_time : 0 <= at_ /\ Z.max at_ r.(in_updated_at) <= MaxInt64 - MaximumResultInboxLease;
  tf_same : inbox_metadata r = md;
}.

Lemma transfer_ids r db : transfer r db -> ResultInboxAuthority_Validate a = Ok tt /\ valid_id attempt /\ valid_id packageID.
Proof. intros [_ _ [E Hok _ <- _ <- _] _ _]. split_and!; apply Hok. Qed.

(** One chunk. *)
Lemma transfer_chunk r db d p :
  transfer r db -> d ∈ parts_of m -> db.(peer_result_inbox_parts) !! (packageID, d.(rd_Kind)) = Some p ->
  p.(ip_next_offset) < d.(rd_Size) ->
  let offset := p.(ip_next_offset) + chunk_size d.(rd_Size) p.(ip_next_offset) in
  exists x db', CommitResultInboxChunk a attempt packageID {| cc_Kind := d.(rd_Kind); cc_Offset := p.(ip_next_offset);
      cc_Size := chunk_size d.(rd_Size) p.(ip_next_offset); cc_SHA256 := digest d.(rd_Kind) p.(ip_next_offset) |} at_ db = Ok (x, db') /\
    transfer (active_row r at_) db' /\
    db'.(peer_result_inbox_parts) = <[(packageID, d.(rd_Kind)) := {| ip_size_bytes := p.(ip_size_bytes); ip_sha256 := p.(ip_sha256);
      ip_next_offset := offset |}]> db.(peer_result_inbox_parts).
Proof using Hdigest.
  intros T Hd Ep Hlt offset. destruct (transfer_ids _ _ T) as (V1 & V2 & V3). destruct T as [Hm Hi G Ht Hsame]. assert (G' := G).
  destruct G' as [E Hok Hparts Ga Hst Gatt Hfree]. destruct Hparts as [Hin _]. destruct (Hin d Hd) as (p' & Ep' & [P1 P2 P3 P4 P5]).
  rewrite Ep in Ep'. injection Ep' as <-. pose proof (decoded_parts _ _ (ik_manifest _ _ _ Hok)) as MP.
  destruct (proj1 (Forall_forall _ _) (mp_valid _ MP) d Hd) as [Hdv Hk]. apply descriptor_bounds in Hdv as [Hsz _].
  assert (0 < chunk_size d.(rd_Size) p.(ip_next_offset) <= ResultPackageChunkBytes) as Hc.
  { unfold chunk_size. assert (0 < ResultPackageChunkBytes) by (vm_compute; done). lia. }
  set (chunk := {| cc_Kind := d.(rd_Kind); cc_Offset := p.(ip_next_offset); cc_Size := chunk_size d.(rd_Size) p.(ip_next_offset);
                   cc_SHA256 := digest d.(rd_Kind) p.(ip_next_offset) |}).
  assert (chunk_of db packageID chunk at_ r p) as C.
  { constructor; cbn; [done|by rewrite P1|unfold chunk_size; lia| |lia]. unfold validatePayloadKind in Hk. rewrite do_Ok, reject_Ok in Hk.
    unfold ResultInboxChunkCommit_Validate. rewrite do_Ok, !reject_Ok. cbn. split_and!; [apply Hk|apply Hk|lia|apply Hdigest]. }
  pose proof (commit_chunk_new db Hm Hi _ _ _ chunk at_ r m p G C V1 V2 V3 eq_refl) as Hrun. eexists _, _. split; [exact Hrun|].
  apply CommitResultInboxChunk_call in Hrun as [B1 B2 _ _]; [|done|done]. split; [|done]. constructor; [done|done| | |done].
  - destruct (bi_rows _ B1 packageID (active_row r at_)) as (_ & m' & Hok' & Hp'); [apply lookup_insert_eq|].
    pose proof (ik_manifest _ _ _ Hok') as Hm'. assert (DecodeManifest (inbox_metadata (active_row r at_)) = Ok m) as Hm'' by apply Hok.
    rewrite Hm'' in Hm'. injection Hm' as <-. constructor; try done. apply lookup_insert_eq.
  - cbn. lia.
Qed.

(** A whole part. *)
Lemma transfer_part fuel d : d ∈ parts_of m ->
  forall r db p, transfer r db -> db.(peer_result_inbox_parts) !! (packageID, d.(rd_Kind)) = Some p ->
  d.(rd_Size) - p.(ip_next_offset) <= Z.of_nat fuel * ResultPackageChunkBytes ->
  exists r' db' p', commit_chunks a attempt packageID (chunks_from fuel digest d.(rd_Kind) d.(rd_Size) p.(ip_next_offset)) at_ db = Ok db' /\
    transfer r' db' /\ p'.(ip_next_offset) = d.(rd_Size) /\
    db'.(peer_result_inbox_parts) = <[(packageID, d.(rd_Kind)) := p']> db.(peer_result_inbox_parts).
Proof using Hdigest.
  intros Hd. induction fuel as [|fuel IH]; intros r db p T Ep Hf.
  all: assert (p.(ip_next_offset) <= d.(rd_Size)) as Hle by
    (destruct (rg_parts _ _ _ _ _ _ (tf_receiving _ _ T)) as [Hin _]; destruct (Hin d Hd) as (p' & Ep' & [P1 P2 P3 P4 P5]);
     rewrite Ep in Ep'; injection Ep' as <-; lia).
  - exists r, db, p. cbn. rewrite insert_id by done. split_and!; [done|done|lia|done].
  - cbn [chunks_from]. destruct (decide _) as [Hlt|Hge].
    + destruct (transfer_chunk r db d p T Hd Ep Hlt) as (x & db1 & Hrun & T1 & Eparts). cbn [commit_chunks]. rewrite Hrun.
      set (p1 := {| ip_size_bytes := p.(ip_size_bytes); ip_sha256 := p.(ip_sha256);
        ip_next_offset := p.(ip_next_offset) + chunk_size d.(rd_Size) p.(ip_next_offset) |}) in *.
      destruct (IH (active_row r at_) db1 p1 T1) as (r' & db' & p' & H1 & H2 & H3 & H4).
      { rewrite Eparts. apply lookup_insert_eq. }
      { cbn. unfold chunk_size, ResultPackageChunkBytes in *. lia. }
      exists r', db', p'. split_and!; [exact H1|done|done|]. by rewrite H4, Eparts, insert_insert_eq.
    + exists r, db, p. cbn. rewrite insert_id by done. split_and!; [done|done|lia|done].
Qed.

(** Every part. *)
Lemma transfer_parts parts : incl parts (parts_of m) -> NoDup (rd_Kind <$> parts) ->
  forall r db, transfer r db ->
  exists r' db', commit_chunks a attempt packageID (concat ((fun d =>
      chunks_from (Z.to_nat (d.(rd_Size) / ResultPackageChunkBytes + 1)) digest d.(rd_Kind) d.(rd_Size)
        (next_offset db.(peer_result_inbox_parts) packageID d.(rd_Kind))) <$> parts)) at_ db = Ok db' /\ transfer r' db' /\
    (forall d, d ∈ parts -> next_offset db'.(peer_result_inbox_parts) packageID d.(rd_Kind) = d.(rd_Size)) /\
    (forall kind, kind ∉ rd_Kind <$> parts ->
       next_offset db'.(peer_result_inbox_parts) packageID kind = next_offset db.(peer_result_inbox_parts) packageID kind).
Proof using Hdigest.
  induction parts as [|d parts IH]; intros Hincl Hnd r db T.
  { exists r, db. split_and!; [done|done|by intros d []%elem_of_nil|done]. }
  rewrite fmap_cons, NoDup_cons in Hnd. destruct Hnd as [Hn Hnd]. rewrite fmap_cons. cbn [concat].
  assert (d ∈ parts_of m) as Hd by (apply list_elem_of_In, Hincl; by left).
  destruct (rg_parts _ _ _ _ _ _ (tf_receiving _ _ T)) as [Hin _]. destruct (Hin d Hd) as (p & Ep & [P1 P2 P3 P4 P5]).
  destruct (transfer_part (Z.to_nat (d.(rd_Size) / ResultPackageChunkBytes + 1)) d Hd r db p T Ep) as (r1 & db1 & p1 & H1 & T1 & H3 & H4).
  { assert (0 < ResultPackageChunkBytes) by (vm_compute; done).
    pose proof (Z.div_mod d.(rd_Size) ResultPackageChunkBytes). pose proof (Z.mod_pos_bound d.(rd_Size) ResultPackageChunkBytes).
    pose proof (Z.div_pos d.(rd_Size) ResultPackageChunkBytes). rewrite Z2Nat.id by lia. nia. }
  assert (forall kind, kind <> d.(rd_Kind) ->
    next_offset db1.(peer_result_inbox_parts) packageID kind = next_offset db.(peer_result_inbox_parts) packageID kind) as Hsame.
  { intros kind Hk. unfold next_offset. by rewrite H4, lookup_insert_ne by congruence. }
  assert (next_offset db1.(peer_result_inbox_parts) packageID d.(rd_Kind) = d.(rd_Size)) as Hfull.
  { unfold next_offset. by rewrite H4, lookup_insert_eq. }
  destruct (IH ltac:(intros y Hy; apply Hincl; by right) Hnd r1 db1 T1) as (r' & db' & K1 & K2 & K3 & K4).
  exists r', db'. split_and!; [|done| |].
  - rewrite commit_chunks_app. replace (next_offset db.(peer_result_inbox_parts) packageID d.(rd_Kind)) with p.(ip_next_offset)
      by (unfold next_offset; by rewrite Ep). rewrite H1. rewrite <- K1. f_equal. f_equal. apply list_fmap_ext. intros j y Hy.
    rewrite Hsame; [done|]. intros Heq. apply Hn. rewrite <- Heq. apply list_elem_of_fmap. exists y. split; [done|].
    by apply list_elem_of_lookup_2 in Hy.
  - intros y [->|Hy]%elem_of_cons; [by rewrite K4|by apply K3].
  - intros kind [Hk1 Hk2]%not_elem_of_cons. rewrite K4, Hsame; done.
Qed.
End Transfer.

Lemma missing_chunks_value digest t packageID r m :
  missing_chunks digest (inbox_value t packageID r m) = concat ((fun d =>
    chunks_from (Z.to_nat (d.(rd_Size) / ResultPackageChunkBytes + 1)) digest d.(rd_Kind) d.(rd_Size) (next_offset t packageID d.(rd_Kind)))
    <$> parts_of m).
Proof.
  unfold missing_chunks. cbn [bx_Offsets bx_Manifest inbox_value]. f_equal. unfold inbox_offsets. induction (parts_of m) as [|d l IH]; [done|].
  rewrite !fmap_cons. cbn [zip_with]. by rewrite IH.
Qed.

(** After the missing chunks the package can be published. *)
Lemma transfer_completes a attempt packageID at_ m md digest r db :
  (forall kind offset, validateDigest (digest kind offset) = Ok tt) -> transfer a attempt packageID at_ m md r db ->
  exists r' db' x,
    commit_chunks a attempt packageID (missing_chunks digest (inbox_value db.(peer_result_inbox_parts) packageID r m)) at_ db = Ok db' /\
    transfer a attempt packageID at_ m md r' db' /\ (forall state, parts_ok db'.(peer_result_inbox_parts) packageID state (parts_of m)) /\
    CommitResultInboxAvailable a attempt packageID at_ db' =
      Ok (x, put_inbox packageID (set_activity ResultInboxAvailable (Z.max at_ r'.(in_updated_at)) r'.(in_lease_expires_at) r') db').
Proof.
  intros Hd T. pose proof (decoded_parts _ _ (ik_manifest _ _ _ (rg_ok _ _ _ _ _ _ (tf_receiving _ _ _ _ _ _ _ _ T)))) as MP.
  destruct (transfer_parts a attempt packageID at_ m md digest Hd (parts_of m) (incl_refl _) (mp_unique _ MP) r db T) as (r' & db' & Hrun & T' & Hfull & _).
  rewrite missing_chunks_value. destruct (transfer_ids _ _ _ _ _ _ _ _ T') as (V1 & V2 & V3). assert (T2 := T'). destruct T2 as [Hm Hi G Ht _].
  assert (forall state, parts_ok db'.(peer_result_inbox_parts) packageID state (parts_of m)) as Hc.
  { intros state. destruct (rg_parts _ _ _ _ _ _ G) as [Hin Hout]. split; [|done]. intros d Hdm. destruct (Hin d Hdm) as (p & Ep & [P1 P2 P3 P4 P5]).
    exists p. split; [done|]. constructor; try done. intros _. specialize (Hfull d Hdm). unfold next_offset in Hfull. rewrite Ep in Hfull. congruence. }
  destruct (available_run db' Hm Hi a attempt packageID at_ r' m G Hc V1 V2 V3) as [x Hx]; [lia|]. exists r', db', x. by split_and!.
Qed.

(** ** Slots *)

Lemma count_insert_le {K R} `{Countable K} (P : K * R -> Prop) `{!forall x, Decision (P x)} (t : gmap K R) k r :
  count P (<[k := r]> t) <= count P t + 1.
Proof.
  unfold count, select. rewrite !length_map_to_list. destruct (decide (P (k, r))) as [HP|HP].
  - rewrite map_filter_insert_True by done. rewrite map_size_insert. case_match; unfold id; lia.
  - rewrite map_filter_insert_False by done. rewrite map_filter_delete, map_size_delete. case_match; unfold id; lia.
Qed.

(** ** Dropping an evicted package *)

Lemma compact_run db a packageID r :
  peer_metadata_check db.(peer_metadata) = true -> inbox_inv db -> db.(peer_result_inbox) !! packageID = Some r ->
  inbox_authority r = a -> r.(in_state) = ResultInboxEvictionTombstone -> db.(peer_metadata).(pm_result_inbox_evicted) < MaxInt64 ->
  exists db', CompactResultInboxEviction a packageID db = Ok (tt, db') /\
    db'.(peer_result_inbox) = delete packageID db.(peer_result_inbox) /\
    db'.(peer_metadata).(pm_result_inbox_evicted) = db.(peer_metadata).(pm_result_inbox_evicted) + 1.
Proof.
  intros Hm Hi E <- Hst Hlt. destruct (query_inbox db Hm Hi _ _ E) as (m & Hok & Hp & Hq). eexists. split.
  - unfold CompactResultInboxEviction. rewrite (ik_authority _ _ _ Hok), (ik_package _ _ _ Hok). cbn [wrap].
    unfold tx_bind at 1, tx_lift at 1. unfold tx_bind at 1, tx_lift at 1. unfold tx_bind at 1, tx_query at 1. rewrite Hq.
    cbn [optional bx_Authority bx_State inbox_value]. rewrite decide_False by tauto. rewrite decide_False by (rewrite Hst; tauto).
    unfold tx_bind at 1, count_eviction. rewrite decide_True by done. rewrite decide_False; [reflexivity|]. apply not_false_iff_true.
    revert Hm. unfold peer_metadata_check. cbn. rewrite !andb_true_iff. unfold in_range, MaxInt64 in *. lia.
  - cbn. rewrite (delete_inbox_hit _ _ r); [done|done|by apply bool_decide_eq_true].
Qed.

(** ** The reply to a new package is valid *)

Definition zero_offsets (parts : list ResultPackagePartDescriptor) : list ResultPackagePartOffset :=
  (fun d => {| po_Kind := d.(rd_Kind); po_NextOffset := 0 |}) <$> parts.

Lemma scan_parts_offsets s parts s' : scan_parts s parts = Ok s' -> validate_offsets s.(ps_previous) (zero_offsets parts) = Ok tt.
Proof.
  revert s. induction parts as [|d parts IH]; intros s; cbn; [done|]. rewrite !do_Ok, !wrap_Ok, !reject_Ok. intros (Hd & Hk & Hs & _ & H).
  apply IH in H. split_and!; [|exact Hs|exact H]. apply descriptor_bounds in Hd as [Hd _]. unfold ResultPackagePartOffset_Validate. cbn.
  rewrite do_Ok, reject_Ok. split_and!; [done|lia|done].
Qed.

(** There are three kinds of payload, and a manifest has each at most once. *)
Lemma manifest_parts_count m : manifest_parts m -> Z.of_nat (length (parts_of m)) <= MaximumResultPackagePayloadParts.
Proof.
  intros [_ _ Hnd Hv]. rewrite <- (length_fmap rd_Kind). unfold MaximumResultPackagePayloadParts.
  assert (rd_Kind <$> parts_of m ⊆+ [ResultPackagePartChangesBundle; ResultPackagePartChangesOverlay; ResultPackagePartRollout]) as Hsub.
  { apply NoDup_submseteq; [done|]. intros kind (d & -> & Hd)%list_elem_of_fmap. destruct (proj1 (Forall_forall _ _) Hv d Hd) as [_ Hk].
    unfold validatePayloadKind, ResultPackagePartKind_Validate in Hk. rewrite do_Ok, reject_Ok in Hk. destruct Hk as (Hk & Hn & _).
    destruct (decide _) as [Hin|]; [|done]. rewrite !elem_of_cons in Hin. rewrite !elem_of_cons.
    destruct Hin as [?|[?|[?|[?|Hin%not_elem_of_nil]]]]; tauto. }
  apply submseteq_length in Hsub. cbn in Hsub. lia.
Qed.

Lemma begin_reply_valid md m attempt packageID ordinal :
  DecodeManifest md = Ok m -> valid_id attempt -> valid_id packageID -> 1 <= ordinal <= MaxInt64 ->
  BeginResultPackageResult_Validate {| brr_AttemptID := attempt; brr_PackageID := packageID; brr_RetentionOrdinal := ordinal;
    brr_Outcome := ResultPackageReceiving; brr_Offsets := Some (zero_offsets (parts_of m)) |} = Ok tt.
Proof.
  intros Hd Ha Hp Ho. pose proof (manifest_parts_count _ (decoded_parts _ _ Hd)) as Hc. unfold BeginResultPackageResult_Validate.
  cbn [brr_AttemptID brr_PackageID brr_Offsets brr_RetentionOrdinal brr_Outcome]. rewrite !do_Ok, reject_Ok, do_Ok, reject_Ok. split_and!.
  - unfold validateResultPackageControl. by rewrite Ha, Hp.
  - lia.
  - by rewrite decide_True.
  - unfold zero_offsets. rewrite length_fmap. lia.
  - apply DecodeManifest_valid, ResultManifest_text in Hd as [_ _ _ _ _ _ _ (parts & s & Hps & Hs)]. rewrite Hps. cbn [default].
    by apply scan_parts_offsets in Hs.
Qed.
