(* ===== verification/PeerStatus.v ===== *)
(** internal/store/status.go, the peer's half: the work an upgrade of the device waits for
    and the fixed-size counts of its status page. *)

From S2P Require Import Status.
From S2P Require Export PeerLiveness.

(** ** Snapshots *)

(* go: internal/store/status.go PeerStatusWorkerCounts *)
Record PeerStatusWorkerCounts := {
  pc_Total : Z;
  pc_Reserved : Z;
  pc_Pending : Z;
  pc_Starting : Z;
  pc_Preflight : Z;
  pc_Ready : Z;
  pc_Running : Z;
  pc_Finalizing : Z;
  pc_Idle : Z;
  pc_Interrupted : Z;
  pc_Failed : Z;
  pc_Occupied : Z;
}.

(* go: internal/store/status.go PeerStatusArtifactCounts *)
Record PeerStatusArtifactCounts := { pac_CaptureBacklog : Z; pac_PublishBacklog : Z; pac_Retained : Z; pac_RetainedBytes : Z }.

(* go: internal/store/status.go PeerStatusResultCounts *)
Record PeerStatusResultCounts := {
  pr_OutboxCapturePending : Z;
  pr_OutboxPublishPending : Z;
  pr_OutboxDeliveryPending : Z;
  pr_OutboxDelivered : Z;
  pr_OutboxReleasePending : Z;
  pr_OutboxRetainedBytes : Z;
  pr_InboxReceiving : Z;
  pr_InboxAvailable : Z;
  pr_InboxEvictionPending : Z;
  pr_InboxEvicted : Z;
  pr_InboxRetainedBytes : Z;
  pr_RolloutCaptureFailed : Z;
  pr_WorkspaceCaptureFailed : Z;
}.

(* go: internal/store/status.go PeerStatusSnapshot *)
Record PeerStatusSnapshot := {
  pss_WorkerRevision : Z;
  pss_Workers : PeerStatusWorkerCounts;
  pss_Artifacts : PeerStatusArtifactCounts;
  pss_Results : PeerStatusResultCounts;
}.

(** ** Reading *)

(** [WHERE controller_id = ? AND device_id = ?] on the workers, outbox and inbox. *)
Definition device_worker (c d : string) (x : (string * string * string) * WorkerRow) : Prop :=
  x.1.1.1 = c /\ x.2.(w_DeviceID) = d.
Definition device_outbox (c d : string) (x : (string * string * string * string) * OutboxRow) : Prop :=
  x.1.1.1.1 = c /\ x.2.(ob_source_device_id) = d.
Definition device_inbox (c d : string) (x : string * InboxRow) : Prop :=
  x.2.(in_controller_id) = c /\ x.2.(in_root_device_id) = d.
#[global] Instance device_worker_dec c d x : Decision (device_worker c d x).
Proof. unfold device_worker. apply _. Defined.
#[global] Instance device_outbox_dec c d x : Decision (device_outbox c d x).
Proof. unfold device_outbox. apply _. Defined.
#[global] Instance device_inbox_dec c d x : Decision (device_inbox c d x).
Proof. unfold device_inbox. apply _. Defined.

(** The JOIN of a row with its worker, which is of the device. *)
Definition worker_of_device (key : string * string * string) (d : string) (db : PeerDB) : Prop :=
  match db.(worker_reservations) !! key with Some w => w.(w_DeviceID) = d | None => False end.
#[global] Instance worker_of_device_dec key d db : Decision (worker_of_device key d db).
Proof. unfold worker_of_device. destruct (_ !! key); apply _. Defined.

(* go: internal/store/status.go:128-136 PeerStore.ReadPeerUpgradeBlockers *)
Definition pending_operation (c d : string) (db : PeerDB) (x : (string * string) * WorkerOperationRow) : Prop :=
  x.1.1 = c /\ worker_of_device (x.1.1, x.2.(wop_tree_id), x.2.(wop_agent_id)) d db /\ x.2.(wop_status) = "pending".
#[global] Instance pending_operation_dec c d db x : Decision (pending_operation c d db x).
Proof. unfold pending_operation. apply _. Defined.

(* go: internal/store/status.go PeerStore.ReadPeerUpgradeBlockers *)
Definition ReadPeerUpgradeBlockers (controllerID deviceID : string) (db : PeerDB) : result UpgradeBlockers :=
  do? validateChangesArtifactDevice controllerID deviceID in
  Ok {| ub_OccupiedWorkers :=
          count (fun x => device_worker controllerID deviceID x /\ x.2.(w_Status) ∈ occupiedWorkerStatesSQL) db.(worker_reservations);
        ub_PendingSpawns := 0;
        ub_PendingOperations := count (pending_operation controllerID deviceID db) db.(worker_operation_receipts);
        ub_WorkspaceTransfers := 0;
        ub_ResultFinalizations :=
          count (fun x => x.1.1.1.1 = controllerID /\ worker_of_device x.1.1 deviceID db /\ x.2.(pa_state) <> "published")
            db.(peer_changes_artifacts) +
          count (fun x => device_outbox controllerID deviceID x /\ x.2.(ob_state) <> "releasePending") db.(peer_result_outbox) +
          count (fun x => device_inbox controllerID deviceID x /\ x.2.(in_state) = "receiving") db.(peer_result_inbox) |}.

(** The loop over the manifests: how many rollouts and workspaces could not be captured. *)
(* go: internal/store/status.go:521-544 PeerStore.ReadPeerStatusSnapshot *)
Fixpoint count_capture_failures (manifestCount : Z) (rows : list string) (rollouts workspaces : Z) : result (Z * Z) :=
  match rows with
  | [] => Ok (rollouts, workspaces)
  | manifestBytes :: rows =>
      let manifestCount := manifestCount + 1 in
      reject (New "peer result outbox exceeds its package quota") when (manifestCount > MaximumPeerResultPackages) in
      let? manifest := wrap "decode peer status result manifest" (DecodeResultManifest manifestBytes) in
      count_capture_failures manifestCount rows
        (if decide (manifest.(rm_Rollout).(rr_Status) = ResultRolloutCaptureFailed) then rollouts + 1 else rollouts)
        (if decide (manifest.(rm_Workspace).(rw_Status) = ResultWorkspaceCaptureFailed) then workspaces + 1 else workspaces)
  end.

(* go: internal/store/status.go:511-517 PeerStore.ReadPeerStatusSnapshot *)
Definition captured_manifests (controllerID deviceID : string) (db : PeerDB) : list string :=
  (fun x => x.2.(ob_manifest_bytes)) <$> limit (MaximumPeerResultPackages + 1)
    (order_by (fun x => x.2.(ob_created_at)) (order_by_text (fun x => x.1.2)
       (select (fun x => device_outbox controllerID deviceID x /\ x.2.(ob_state) <> "capturePending") db.(peer_result_outbox)))).

(* go: internal/store/status.go PeerStore.ReadPeerStatusSnapshot *)
Definition ReadPeerStatusSnapshot (controllerID deviceID : string) (db : PeerDB) : result PeerStatusSnapshot :=
  do? validateChangesArtifactDevice controllerID deviceID in
  let workers state := count (fun x => device_worker controllerID deviceID x /\ x.2.(w_Status) = state) db.(worker_reservations) in
  let artifacts state := select (of_device controllerID deviceID state db) db.(peer_changes_artifacts) in
  let outbox state := count (fun x => device_outbox controllerID deviceID x /\ x.2.(ob_state) = state) db.(peer_result_outbox) in
  let inbox state := count (fun x => device_inbox controllerID deviceID x /\ x.2.(in_state) = state) db.(peer_result_inbox) in
  let? (rollouts, workspaces) := count_capture_failures 0 (captured_manifests controllerID deviceID db) 0 0 in
  Ok {| pss_WorkerRevision := db.(peer_metadata).(pm_worker_revision);
        pss_Workers := {|
          pc_Total := count (device_worker controllerID deviceID) db.(worker_reservations);
          pc_Reserved := workers "reserved"; pc_Pending := workers "pending"; pc_Starting := workers "starting";
          pc_Preflight := workers "preflight"; pc_Ready := workers "ready"; pc_Running := workers "running";
          pc_Finalizing := workers "finalizing"; pc_Idle := workers "idle"; pc_Interrupted := workers "interrupted";
          pc_Failed := workers "failed"; pc_Occupied := count (fun x => device_worker controllerID deviceID x /\ x.2.(w_Status) ∈ occupiedWorkerStatesSQL)
            db.(worker_reservations) |};
        pss_Artifacts := {|
          pac_CaptureBacklog := Z.of_nat (length (artifacts "capturePending"));
          pac_PublishBacklog := Z.of_nat (length (artifacts "publishPending"));
          pac_Retained := Z.of_nat (length (artifacts "published"));
          pac_RetainedBytes := reserved_artifact_bytes (artifacts "published") |};
        pss_Results := {|
          pr_OutboxCapturePending := outbox "capturePending"; pr_OutboxPublishPending := outbox "publishPending";
          pr_OutboxDeliveryPending := outbox "deliveryPending"; pr_OutboxDelivered := outbox "delivered";
          pr_OutboxReleasePending := outbox "releasePending";
          pr_OutboxRetainedBytes := sum_of ob_reserved_bytes (filter (device_outbox controllerID deviceID) db.(peer_result_outbox));
          pr_InboxReceiving := inbox "receiving"; pr_InboxAvailable := inbox "available";
          pr_InboxEvictionPending := inbox "evictionTombstone";
          pr_InboxEvicted := db.(peer_metadata).(pm_result_inbox_evicted);
          pr_InboxRetainedBytes := sum_of in_package_bytes (filter (device_inbox controllerID deviceID) db.(peer_result_inbox));
          pr_RolloutCaptureFailed := rollouts; pr_WorkspaceCaptureFailed := workspaces |} |}.

(** ** Counting by state *)

Section ByState.
Context {K R : Type} `{Countable K} (P : K * R -> Prop) `{!forall x, Decision (P x)} (state : R -> string).
Implicit Types (t : gmap K R) (states : list string).

Lemma count_in_states t states : NoDup states ->
  count (fun x => P x /\ state x.2 ∈ states) t = foldr (fun s n => count (fun x => P x /\ state x.2 = s) t + n) 0 states.
Proof.
  induction 1 as [|s states Hs _ IH]; simpl.
  - apply count_zero. intros k r _ [_ Hin]. by apply elem_of_nil in Hin.
  - rewrite <- IH. apply count_split. intros k r _. cbn [fst snd]. rewrite elem_of_cons.
    split; [tauto|]. intros [[_ ->] [_ ?]]. done.
Qed.

(** ... whichever way the states are decided. *)
Lemma count_by_state t states (dec : forall x, Decision (P x /\ state x.2 ∈ states)) : NoDup states ->
  @count _ _ _ _ (fun x => P x /\ state x.2 ∈ states) dec t = foldr (fun s n => count (fun x => P x /\ state x.2 = s) t + n) 0 states.
Proof. intros Hnd. rewrite <- count_in_states by done. by apply count_ext. Qed.

Lemma count_every_state t states `{!forall x, Decision (P x /\ state x.2 ∈ states)} : (forall k r, t !! k = Some r -> state r ∈ states) ->
  count P t = count (fun x => P x /\ state x.2 ∈ states) t.
Proof. intros Hall. apply count_ext. intros k r E. specialize (Hall _ _ E). cbn. tauto. Qed.

Lemma count_size_le t : count P t <= Z.of_nat (size t).
Proof.
  rewrite count_size. apply inj_le.
  induction t as [|k r t Hk IH] using map_ind; [by rewrite map_filter_empty|].
  rewrite (map_size_insert_None k r t) by done. destruct (decide (P (k, r))) as [HP|HP].
  - rewrite map_filter_insert_True by done. rewrite map_size_insert_None; [lia|]. apply map_lookup_filter_None. by left.
  - rewrite map_filter_insert_False by done. rewrite delete_id by done. lia.
Qed.

(** The sum over the rows of a device is no larger than the sum over all rows. *)
Lemma sum_of_filter_le (column : R -> Z) t : (forall k r, t !! k = Some r -> 0 <= column r) ->
  0 <= sum_of column (filter P t) <= sum_of column t.
Proof.
  induction t as [|k r t Hk IH] using map_ind; intros Hc; [by rewrite map_filter_empty|].
  assert (0 <= column r) as Hr by (apply (Hc k), lookup_insert_eq).
  destruct IH as [I1 I2]; [intros k' r' E; apply (Hc k'); rewrite lookup_insert_ne; [done|congruence]|].
  rewrite (sum_of_insert _ _ _ _ Hk). destruct (decide (P (k, r))) as [HP|HP].
  - rewrite map_filter_insert_True by done. rewrite sum_of_insert; [lia|]. apply map_lookup_filter_None. by left.
  - rewrite map_filter_insert_False by done. rewrite delete_id by done. lia.
Qed.
End ByState.

(** Splits a count over a list of states into one count per state. *)
Ltac split_states P state := rewrite !(count_by_state P state) by by_decide; cbn [foldr].

(** ** What the snapshot reads *)

Lemma worker_state_known db : peer_inv db -> forall k w, db.(worker_reservations) !! k = Some w ->
  w.(w_Status) ∈ ["reserved"; "starting"; "preflight"; "ready"; "running"; "finalizing"; "pending"; "idle"; "interrupted"; "failed"].
Proof.
  intros Hi k w E. destruct (wi_rows _ (pv_workers _ Hi) _ _ E) as [Hok _].
  destruct (WorkerStatus_valid_cases _ (wd_status _ (wk_dynamic _ _ Hok))) as [->|[->|[->|[->|[->|[->|[->|[->|[->| ->]]]]]]]]]; by_decide.
Qed.

(** A stored package reads back: its state, its bytes and, once captured, its manifest. *)
Lemma outbox_row_reads db : peer_inv db -> forall k r, db.(peer_result_outbox) !! k = Some r ->
  r.(ob_state) ∈ ["capturePending"; "publishPending"; "deliveryPending"; "delivered"; "releasePending"] /\ 1 <= r.(ob_reserved_bytes) /\
  (r.(ob_state) <> "capturePending" -> exists m, DecodeResultManifest r.(ob_manifest_bytes) = Ok m).
Proof.
  intros Hi k r E. destruct (ox_rows _ (pv_outbox _ Hi) _ _ E) as [Hx _]. unfold scanResultOutbox in Hx.
  destruct (outbox_metadata r) as [[md m]|] eqn:Hm; [|done]. cbn [result_bind] in Hx.
  destruct (ResultOutbox_Validate _) as [[]|] eqn:Hv; [|done]. unfold ResultOutbox_Validate in Hv. cbn in Hv.
  apply do_Ok in Hv as [_ Hv]. apply reject_Ok in Hv as [Hb Hv]. apply reject_Ok in Hv as [_ Hv]. split_and!.
  - case_decide as Hc; [rewrite Hc; by_decide|]. case_decide as Hd; [|done]. by apply list_elem_of_further.
  - lia.
  - intros Hn. unfold outbox_metadata in Hm. rewrite decide_True in Hm by done. apply result_bind_Ok in Hm as ([md' m'] & Hm & _).
    unfold decodeResultMetadata in Hm. apply result_bind_Ok in Hm as (m2 & Hm & _). apply wrap_Ok in Hm.
    unfold DecodeManifest in Hm. apply do_Ok in Hm as [_ Hm]. do 3 apply reject_Ok in Hm as [_ Hm].
    apply result_bind_Ok in Hm as (m3 & Hm & _). by exists m3.
Qed.

Lemma count_capture_failures_Ok n rows a b :
  Forall (fun text => exists m, DecodeResultManifest text = Ok m) rows -> n + Z.of_nat (length rows) <= MaximumPeerResultPackages ->
  exists a' b', count_capture_failures n rows a b = Ok (a', b') /\ a <= a' <= a + Z.of_nat (length rows) /\
    b <= b' <= b + Z.of_nat (length rows).
Proof.
  intros Hf. revert n a b. induction Hf as [|text rows [m Hm] _ IH]; intros n a b Hn; cbn [length] in *.
  - exists a, b. split; [done|lia].
  - cbn [count_capture_failures]. rewrite decide_False by lia. rewrite Hm. cbn [wrap result_bind].
    match goal with |- context [count_capture_failures _ rows ?x ?y] => set (a1 := x); set (b1 := y) end.
    assert (a <= a1 <= a + 1) by (subst a1; case_decide; lia). assert (b <= b1 <= b + 1) by (subst b1; case_decide; lia).
    destruct (IH (n + 1) a1 b1) as (a' & b' & -> & ? & ?); [lia|]. exists a', b'. split; [done|lia].
Qed.

Lemma captured_manifests_read c d db : peer_inv db ->
  Forall (fun text => exists m, DecodeResultManifest text = Ok m) (captured_manifests c d db) /\
  Z.of_nat (length (captured_manifests c d db)) <= count (fun x => device_outbox c d x /\ x.2.(ob_state) <> "capturePending") db.(peer_result_outbox).
Proof.
  intros Hi. unfold captured_manifests. split.
  - apply Forall_fmap, Forall_forall. intros [k r] Hin. unfold compose. cbn.
    unfold limit in Hin. apply subseteq_take in Hin. unfold order_by, order_by_text in Hin. rewrite !sort_by_perm in Hin. apply elem_of_select in Hin as [E [_ Hn]].
    by apply (outbox_row_reads db Hi k r E).
  - rewrite length_fmap. unfold limit. rewrite length_take. unfold order_by, order_by_text. rewrite !sort_by_perm.
    unfold count. lia.
Qed.

(** The counts of one device add up: its workers by status, its packages by state. *)
Record snapshot_balances (s : PeerStatusSnapshot) (b : UpgradeBlockers) : Prop := {
  sb_workers : let w := s.(pss_Workers) in
    w.(pc_Total) = w.(pc_Occupied) + w.(pc_Pending) + w.(pc_Idle) + w.(pc_Interrupted) + w.(pc_Failed) /\
    w.(pc_Occupied) = w.(pc_Reserved) + w.(pc_Starting) + w.(pc_Preflight) + w.(pc_Ready) + w.(pc_Running) + w.(pc_Finalizing);
  sb_outbox : let r := s.(pss_Results) in
    r.(pr_OutboxCapturePending) + r.(pr_OutboxPublishPending) + r.(pr_OutboxDeliveryPending) + r.(pr_OutboxDelivered) +
      r.(pr_OutboxReleasePending) <= MaximumPeerResultPackages /\
    0 <= r.(pr_OutboxRetainedBytes) <= MaximumPeerResultStoreBytes;
  sb_captures : let r := s.(pss_Results) in let captured :=
      r.(pr_OutboxPublishPending) + r.(pr_OutboxDeliveryPending) + r.(pr_OutboxDelivered) + r.(pr_OutboxReleasePending) in
    0 <= r.(pr_RolloutCaptureFailed) <= captured /\ 0 <= r.(pr_WorkspaceCaptureFailed) <= captured;
  sb_inbox : let r := s.(pss_Results) in
    r.(pr_InboxReceiving) + r.(pr_InboxAvailable) + r.(pr_InboxEvictionPending) <= MaximumPeerResultPackages /\
    0 <= r.(pr_InboxRetainedBytes) <= MaximumPeerResultStoreBytes;
  sb_blockers : let r := s.(pss_Results) in
    b.(ub_OccupiedWorkers) = s.(pss_Workers).(pc_Occupied) /\
    b.(ub_ResultFinalizations) = s.(pss_Artifacts).(pac_CaptureBacklog) + s.(pss_Artifacts).(pac_PublishBacklog) +
      r.(pr_OutboxCapturePending) + r.(pr_OutboxPublishPending) + r.(pr_OutboxDeliveryPending) + r.(pr_OutboxDelivered) +
      r.(pr_InboxReceiving);
}.

Lemma device_worker_counts c d db : peer_inv db -> let n s := count (fun x => device_worker c d x /\ x.2.(w_Status) = s) db.(worker_reservations) in
  let occupied := count (fun x => device_worker c d x /\ x.2.(w_Status) ∈ occupiedWorkerStatesSQL) db.(worker_reservations) in
  count (device_worker c d) db.(worker_reservations) = occupied + n "pending" + n "idle" + n "interrupted" + n "failed" /\
  occupied = n "reserved" + n "starting" + n "preflight" + n "ready" + n "running" + n "finalizing".
Proof.
  intros Hi n occupied. assert (occupied = n "reserved" + n "starting" + n "preflight" + n "ready" + n "running" + n "finalizing") as Ho.
  { unfold occupied, occupiedWorkerStatesSQL, n. split_states (device_worker c d) w_Status. lia. }
  split; [|done]. rewrite Ho. rewrite (count_every_state _ w_Status _ _ (worker_state_known db Hi)). unfold n. split_states (device_worker c d) w_Status. lia.
Qed.

Lemma outbox_counts c d db : peer_inv db -> let n s := count (fun x => device_outbox c d x /\ x.2.(ob_state) = s) db.(peer_result_outbox) in
  count (device_outbox c d) db.(peer_result_outbox) = n "capturePending" + n "publishPending" + n "deliveryPending" + n "delivered" + n "releasePending" /\
  count (fun x => device_outbox c d x /\ x.2.(ob_state) <> "capturePending") db.(peer_result_outbox) =
    n "publishPending" + n "deliveryPending" + n "delivered" + n "releasePending" /\
  count (fun x => device_outbox c d x /\ x.2.(ob_state) <> "releasePending") db.(peer_result_outbox) =
    n "capturePending" + n "publishPending" + n "deliveryPending" + n "delivered".
Proof.
  intros Hi n. assert (count (device_outbox c d) db.(peer_result_outbox) =
    n "capturePending" + n "publishPending" + n "deliveryPending" + n "delivered" + n "releasePending") as Hall.
  { unfold n. rewrite (count_every_state _ ob_state _ ["capturePending"; "publishPending"; "deliveryPending"; "delivered"; "releasePending"]).
    - split_states (device_outbox c d) ob_state. lia.
    - intros k r E. by apply (outbox_row_reads db Hi k r E). }
  assert (forall s, count (device_outbox c d) db.(peer_result_outbox) =
    n s + count (fun x => device_outbox c d x /\ x.2.(ob_state) <> s) db.(peer_result_outbox)) as Hsplit.
  { intros s. apply count_split. intros k r _. destruct (decide (r.(ob_state) = s)); cbn; tauto. }
  pose proof (Hsplit "capturePending"). pose proof (Hsplit "releasePending"). split; [done|]. lia.
Qed.

Lemma peer_snapshot_balances c d db : peer_sound db -> validateChangesArtifactDevice c d = Ok tt ->
  exists s b, ReadPeerStatusSnapshot c d db = Ok s /\ ReadPeerUpgradeBlockers c d db = Ok b /\ snapshot_balances s b.
Proof.
  intros [Hi Hb Ha] Hv. unfold ReadPeerStatusSnapshot, ReadPeerUpgradeBlockers. rewrite Hv. cbn [result_bind].
  destruct (captured_manifests_read c d db Hi) as [Hread Hlen]. destruct (outbox_counts c d db Hi) as (Hall & Hcap & Hrel).
  pose proof (count_size_le (device_outbox c d) db.(peer_result_outbox)). pose proof (ox_count _ (pv_outbox _ Hi)).
  destruct (count_capture_failures_Ok 0 _ 0 0 Hread) as (a & b & -> & Hra & Hwb).
  { pose proof (count_nonneg (fun x => device_outbox c d x /\ x.2.(ob_state) = "capturePending") db.(peer_result_outbox)). lia. }
  eexists _, _. split; [reflexivity|]. split; [reflexivity|]. rewrite Hcap in Hlen. split; cbn -[count filter sum_of select].
  - destruct (device_worker_counts c d db Hi) as [-> Ho]. split; [|exact Ho]. lia.
  - split; [lia|]. destruct (sum_of_filter_le (device_outbox c d) ob_reserved_bytes db.(peer_result_outbox)) as [? ?].
    + intros k r E. destruct (outbox_row_reads db Hi k r E) as (_ & ? & _). lia.
    + pose proof (ox_bytes _ (pv_outbox _ Hi)). lia.
  - lia.
  - split.
    + pose proof (count_size_le (device_inbox c d) db.(peer_result_inbox)) as Hs. pose proof (bi_count _ Hb).
      rewrite (count_every_state _ in_state _ ["receiving"; "available"; "evictionTombstone"]) in Hs.
      * rewrite (count_by_state (device_inbox c d) in_state) in Hs by by_decide. cbn [foldr] in Hs. lia.
      * intros k r E. destruct (bi_rows _ Hb _ _ E) as (_ & m & Hok & _). exact (ik_state _ _ _ Hok).
    + destruct (sum_of_filter_le (device_inbox c d) in_package_bytes db.(peer_result_inbox)) as [? ?].
      * intros k r E. destruct (bi_rows _ Hb _ _ E) as (_ & m & Hok & _). pose proof (ik_bytes _ _ _ Hok) as Hbytes.
        apply resultPackageBytes_bounds in Hbytes. lia.
      * pose proof (bi_bytes _ Hb). lia.
  - rewrite Ha, Hrel. unfold select. rewrite !map_filter_empty, map_to_list_empty. cbn -[count]. rewrite count_empty. lia.
Qed.

(** What an upgrade of the device waits for. *)
Record peer_drained (c d : string) (db : PeerDB) : Prop := {
  pd_workers : forall k w, db.(worker_reservations) !! k = Some w -> k.1.1 = c -> w.(w_DeviceID) = d ->
    w.(w_Status) ∈ [WorkerPending; WorkerIdle; WorkerInterrupted; WorkerFailed];
  pd_operations : forall k o, db.(worker_operation_receipts) !! k = Some o -> k.1 = c ->
    worker_of_device (k.1, o.(wop_tree_id), o.(wop_agent_id)) d db -> o.(wop_status) <> WorkerOperationPending;
  pd_outbox : forall k r, db.(peer_result_outbox) !! k = Some r -> k.1.1.1 = c -> r.(ob_source_device_id) = d ->
    r.(ob_state) = ResultOutboxReleasePending;
  pd_inbox : forall k r, db.(peer_result_inbox) !! k = Some r -> r.(in_controller_id) = c -> r.(in_root_device_id) = d ->
    r.(in_state) <> ResultInboxReceiving;
}.

Lemma ReadPeerUpgradeBlockers_empty c d db b : peer_sound db ->
  ReadPeerUpgradeBlockers c d db = Ok b -> UpgradeBlockers_Empty b = true <-> peer_drained c d db.
Proof.
  intros [Hi _ Ha]. unfold ReadPeerUpgradeBlockers. rewrite do_Ok. intros [_ [= <-]]. rewrite UpgradeBlockers_Empty_true. cbn -[count].
  rewrite Ha, count_empty. set (n1 := count _ db.(worker_reservations)). set (n2 := count _ db.(worker_operation_receipts)).
  set (n3 := count _ db.(peer_result_outbox)). set (n4 := count _ db.(peer_result_inbox)).
  assert (0 <= n3 /\ 0 <= n4) as [? ?] by (split; apply count_nonneg).
  transitivity (n1 = 0 /\ n2 = 0 /\ n3 = 0 /\ n4 = 0); [lia|]. subst n1 n2 n3 n4. rewrite !count_zero. cbn [fst snd].
  split.
  - intros (H1 & H2 & H3 & H4). split.
    + intros k w E Hc Hd. pose proof (worker_state_known db Hi k w E) as Hs. specialize (H1 _ _ E).
      assert (w.(w_Status) ∉ occupiedWorkerStatesSQL) as Hn by (intros Hin; by apply H1). clear -Hs Hn.
      change ["reserved"; "starting"; "preflight"; "ready"; "running"; "finalizing"; "pending"; "idle"; "interrupted"; "failed"]
        with (occupiedWorkerStatesSQL ++ ["pending"; "idle"; "interrupted"; "failed"]) in Hs. apply elem_of_app in Hs as [?|?]; done.
    + intros k o E Hc Hw Hp. by apply (H2 _ _ E).
    + intros k r E Hc Hd. apply dec_stable. intros Hn. by apply (H3 _ _ E).
    + intros k r E Hc Hd Hr. by apply (H4 _ _ E).
  - intros [D1 D2 D3 D4]. split_and!.
    + intros k w E [[Hc Hd] Hin]. specialize (D1 _ _ E Hc Hd). clear -D1 Hin. unfold occupiedWorkerStatesSQL in Hin. set_unfold.
      destruct Hin as [E|[E|[E|[E|[E|[E|[]]]]]]]; rewrite E in D1; destruct D1 as [D|[D|[D|[D|[]]]]]; discriminate D.
    + intros k o E (Hc & Hw & Hp). by apply (D2 _ _ E Hc Hw).
    + intros k r E [[Hc Hd] Hn]. by apply Hn, (D3 _ _ E Hc Hd).
    + intros k r E [[Hc Hd] Hn]. by apply (D4 _ _ E Hc Hd).
Qed.

(** A drained device has no turn start left to resolve. *)
Lemma drained_no_intents c d db k i : peer_sound db -> peer_drained c d db -> db.(worker_turn_start_intents) !! k = Some i ->
  k.1.1.1 = c -> worker_of_device k.1 d db -> i.(it_state) <> WorkerTurnStartPrepared.
Proof.
  intros Hs Hd E Hc Hw Hp. unfold worker_of_device in Hw. destruct (db.(worker_reservations) !! k.1) as [w|] eqn:Ew; [|done].
  destruct k as [kw iid]. destruct (prepared_facts db (sd_workers _ Hs) kw iid i E Hp) as (w' & o & Ew' & _ & _ & Hck & _).
  apply checkpoint_facts in Hck as (_ & _ & _ & _ & Hst & _). cbn in Ew. rewrite Ew in Ew'. injection Ew' as <-.
  pose proof (pd_workers _ _ _ Hd _ _ Ew Hc Hw) as Hin. cbn in Hst. rewrite Hst in Hin. revert Hin. by_decide.
Qed.
