(* ===== verification/PeerClaims.v ===== *)
(** The properties of a peer's state file, each with a concrete run of a peer: a worker is
    reserved, its thread attached, a turn prepared and bound, and a result package received. *)

From S2P Require Import ResultsCorrect Status.
From S2P Require Export PeerStatus.

(** ** A run of a peer *)

Definition peer_key : WorkerKey := (sample_controller, sample_tree, first_spawn.(si_AgentID)).
Definition peer_worker : WorkerReservation := {| w_Key := peer_key; w_Row := {|
  w_ParentAgentID := sample_root; w_DeviceID := sample_device; w_TaskName := "port the parser"; w_PromptDigest := hex_string (Sum256 "x");
  w_WorkspaceID := ""; w_WorkspacePath := "/home/dev/work"; w_WorkingDirectory := ""; w_CodexThreadID := ""; w_ProfileVersion := 1;
  w_Status := ""; w_RetryTarget := ""; w_ActiveTurnID := ""; w_LastBoundTurnID := ""; w_FailureCode := ""; w_FinalTarget := "";
  w_FinalFailureCode := ""; w_Revision := 0; w_CreatedAt := 0; w_UpdatedAt := 0 |} |}.
Definition sample_turn_intent : string := "abcdabcd-abcd-4bcd-8bcd-abcdabcdabcd".
Definition sample_turn_package : string := "bcdabcda-bcda-4cda-8cda-bcdabcdabcda".
Definition turn_request : PrepareWorkerTurnStartIntentRequest := {|
  pt_Key := peer_key; pt_IntentID := sample_turn_intent; pt_DeviceID := sample_device; pt_ManagedThreadID := sample_managed_thread;
  pt_PreviousTurnID := ""; pt_PackageID := sample_turn_package; pt_OperationID := "";
  pt_Rollout := {| lo_Status := WorkerRolloutUnavailable; lo_CodexHome := ""; lo_Path := ""; lo_Offset := 0; lo_FailureCode := "not_found" |};
  pt_ReservationLimitBytes := 4096 |}.
Definition starting_peer : PeerDB := (run_tx (ReserveWorkerStart peer_worker 2 100) empty_peer).2.
Definition ready_peer : PeerDB :=
  (run_tx (MarkWorkerReady peer_key 120) (run_tx (AttachWorkerThread peer_key sample_managed_thread 110) starting_peer).2).2.
Definition prepared_peer : PeerDB := (run_tx (PrepareWorkerTurnStartIntent turn_request 130) ready_peer).2.
Definition running_peer : PeerDB := (run_tx (BindWorkerTurnStartIntent peer_key sample_turn_intent sample_turn 140) prepared_peer).2.
Definition inbox_owner : ResultInboxAuthority := {| ia_ControllerID := sample_controller; ia_TreeID := sample_tree; ia_RootAgentID := sample_root;
  ia_RootDeviceID := sample_device |}.
Definition sample_attempt : string := "cdabcdab-cdab-4dab-8dab-cdabcdabcdab".
Definition inbox_params : BeginResultPackageParams := {| brp_AttemptID := sample_attempt; brp_PackageID := sample_package; brp_RetentionFloor := 3;
   brp_LeaseExpiresAt := 500; brp_Metadata := (worker_package 300).(prp_Metadata) |}.
Definition receiving_peer : PeerDB := (BeginResultInbox inbox_owner inbox_params 200 running_peer).2.

Lemma running_peer_reachable : peer_reachable running_peer.
Proof.
  unfold peer_reachable. eapply rtc_l; [exact (step_ReserveWorkerStart _ peer_worker 2 100)|].
  eapply rtc_l; [exact (step_AttachWorkerThread _ peer_key sample_managed_thread 110)|].
  eapply rtc_l; [exact (step_MarkWorkerReady _ peer_key 120)|].
  eapply rtc_l; [exact (step_PrepareWorkerTurnStartIntent _ turn_request 130)|].
  apply rtc_once. exact (step_BindWorkerTurnStartIntent _ peer_key sample_turn_intent sample_turn 140).
Qed.

Lemma prepared_peer_reachable : peer_reachable prepared_peer.
Proof.
  unfold peer_reachable. eapply rtc_l; [exact (step_ReserveWorkerStart _ peer_worker 2 100)|].
  eapply rtc_l; [exact (step_AttachWorkerThread _ peer_key sample_managed_thread 110)|].
  eapply rtc_l; [exact (step_MarkWorkerReady _ peer_key 120)|].
  apply rtc_once. exact (step_PrepareWorkerTurnStartIntent _ turn_request 130).
Qed.

Lemma receiving_peer_reachable : peer_reachable receiving_peer.
Proof.
  eapply rtc_r; [exact running_peer_reachable|]. apply step_BeginResultInbox. vm_compute. intros [=].
Qed.

(** ** The state file *)

(** C2 In every state a peer's calls can reach: each worker reads back through [GetWorker],
    no two workers share a revision and none is past the counter; a worker that runs or
    finishes a turn has a bound intent for it, with the bytes of its result reserved; a
    prepared intent finds its worker ready, with no turn, and its bytes reserved; a claimed
    workspace is the one of the worker that claimed it; each received package reads back
    with its parts at or below their sizes; and the quotas hold: 64 packages and 2 GiB in
    the outbox and in the inbox, 256 removal receipts. *)
Theorem reachable_peer_is_sound db :
  peer_reachable db ->
  (forall k w, db.(worker_reservations) !! k = Some w ->
     GetWorker k db = Ok {| w_Key := k; w_Row := w |} /\ 0 < w.(w_Revision) <= revision_of db) /\
  (forall k1 k2 w1 w2, db.(worker_reservations) !! k1 = Some w1 -> db.(worker_reservations) !! k2 = Some w2 ->
     w1.(w_Revision) = w2.(w_Revision) -> k1 = k2) /\
  (forall k w, db.(worker_reservations) !! k = Some w -> w.(w_Status) ∈ [WorkerRunning; WorkerFinalizing] ->
     exists iid i o, db.(worker_turn_start_intents) !! (k, iid) = Some i /\ i.(it_state) = WorkerTurnStartBound /\
       i.(it_turn_id) = w.(w_ActiveTurnID) /\ db.(peer_result_outbox) !! (k, i.(it_package_id)) = Some o /\
       o.(ob_reservation_limit_bytes) = i.(it_reservation_limit_bytes)) /\
  (forall k iid i, db.(worker_turn_start_intents) !! (k, iid) = Some i -> i.(it_state) = WorkerTurnStartPrepared ->
     exists w o, db.(worker_reservations) !! k = Some w /\ w.(w_Status) = WorkerReady /\ w.(w_ActiveTurnID) = "" /\
       w.(w_Revision) = i.(it_prepared_revision) /\ db.(peer_result_outbox) !! (k, i.(it_package_id)) = Some o /\
       o.(ob_state) = ResultOutboxCapturePending /\ o.(ob_reservation_limit_bytes) = i.(it_reservation_limit_bytes)) /\
  (forall k r, db.(prepared_workspaces) !! k = Some r -> r.(pw_status) = PreparedWorkspaceClaimed ->
     exists w, db.(worker_reservations) !! (k.1, r.(pw_claimed_agent_id)) = Some w /\ w.(w_WorkspaceID) = k.2 /\
       w.(w_WorkspacePath) = r.(pw_workspace_path)) /\
  (forall packageID r, db.(peer_result_inbox) !! packageID = Some r ->
     exists x, GetResultInbox (inbox_authority r) packageID db = Ok x /\ x.(bx_State) = r.(in_state) /\
       Forall2 (fun o d => o.(po_Kind) = d.(rd_Kind) /\ 0 <= o.(po_NextOffset) <= d.(rd_Size)) x.(bx_Offsets) (parts_of x.(bx_Manifest))) /\
  (Z.of_nat (size db.(peer_result_outbox)) <= 64 /\ reserved_total db.(peer_result_outbox) <= 2 ^ 31) /\
  (Z.of_nat (size db.(peer_result_inbox)) <= 64 /\ package_total db.(peer_result_inbox) <= 2 ^ 31) /\
  Z.of_nat (size db.(peer_result_inbox_attempt_receipts)) <= 256.
Proof.
  intros [Hi Hb _]%reachable_sound. pose proof (wi_metadata _ (pv_workers _ Hi)) as Hm. split_and!.
  - intros k w E. destruct (wi_rows _ (pv_workers _ Hi) _ _ E) as [Hok Hr]. split; [|done]. unfold GetWorker.
    rewrite (wv_key _ _ (wk_static _ _ Hok)), (queryWorker_inv _ _ (pv_workers _ Hi)), E. done.
  - exact (wi_revisions _ (pv_workers _ Hi)).
  - intros k w E Hin. destruct (tn_covered _ (pv_turns _ Hi) _ _ E Hin) as (iid & i & Ei & Hbd & Ht).
    destruct (tn_bound _ (pv_turns _ Hi) _ _ Ei Hbd w E (eq_sym Ht)) as (H1 & H2 & _).
    apply elem_of_cons in Hin as [Hst|Hst]; [|apply list_elem_of_singleton in Hst].
    + destruct (H1 Hst) as (o & Eo & _ & Hl & _). by exists iid, i, o.
    + destruct (H2 Hst) as (o & Eo & _ & Hl & _). by exists iid, i, o.
  - intros k iid i Ei Hp. destruct (prepared_facts db Hi k iid i Ei Hp) as (w & o & Ew & Hok & _ & Hck & Eo & _ & Hl & Hs & _).
    apply checkpoint_facts in Hck as (_ & _ & _ & _ & Hst & _ & Hrv). exists w, o. split_and!; try done.
    pose proof (wd_matches _ (wk_dynamic _ _ Hok)) as (_ & _ & _ & _ & Hmt & _). apply Hmt. by left.
  - intros k r E Hc. destruct (pv_workspaces _ Hi _ _ E) as [_ Hcl]. destruct (Hcl Hc) as (w & Ew & H1 & _ & H3 & _). by exists w.
  - intros packageID r E. destruct (query_inbox db Hm Hb _ _ E) as (m & Hok & Hp & Hq).
    exists (inbox_value db.(peer_result_inbox_parts) packageID r m). split_and!.
    + unfold GetResultInbox. rewrite (ik_authority _ _ _ Hok), (ik_package _ _ _ Hok), Hq. cbn. by rewrite decide_False by tauto.
    + done.
    + cbn. unfold inbox_offsets. apply Forall2_fmap_l, Forall_Forall2_diag, Forall_forall. intros d Hd. destruct Hp as [Hp _].
      destruct (Hp d Hd) as (p & Ep & [P1 _ P3 _ _]). unfold next_offset. cbn. rewrite Ep. split; [done|lia].
  - apply (ox_count _ (pv_outbox _ Hi)).
  - apply (ox_bytes _ (pv_outbox _ Hi)).
  - apply (bi_count _ Hb).
  - apply (bi_bytes _ Hb).
  - apply (bi_removal_count _ Hb).
Qed.

Lemma reachable_peer_is_sound_witness :
  exists w, receiving_peer.(worker_reservations) !! peer_key = Some w /\ w.(w_Status) = WorkerRunning /\
    GetWorker peer_key receiving_peer = Ok {| w_Key := peer_key; w_Row := w |}.
Proof.
  destruct (receiving_peer.(worker_reservations) !! peer_key) as [w|] eqn:E.
  - exists w. assert (w_Status <$> (receiving_peer.(worker_reservations) !! peer_key) = Some WorkerRunning) as Hs by (vm_compute; reflexivity).
    rewrite E in Hs. injection Hs as Hs. split; [reflexivity|]. split; [exact Hs|].
    exact (proj1 (proj1 (reachable_peer_is_sound receiving_peer receiving_peer_reachable) peer_key w E)).
  - exfalso. assert (is_Some (receiving_peer.(worker_reservations) !! peer_key)) as [w Hw]; [|congruence].
    vm_compute. eexists. reflexivity.
Defined.

(** C3 What a peer's calls never undo, from any reachable state on: the revision counter
    and the retention ordinal never go back, a worker is never forgotten or given another
    identity and a failed one never changes, a row that differs from the one before has a
    revision that is new, a finished operation receipt never changes, a claimed workspace
    stays claimed as it is, and a received package keeps its manifest, its number and its
    owner, moves only from receiving to available to evicted and never loses an offset
    (a package under the same id with another number is a new one). *)
Theorem peer_history_lasts db db' :
  peer_reachable db -> rtc peer_step db db' ->
  (revision_of db <= revision_of db' /\ last_ordinal db <= last_ordinal db') /\
  (forall k w, db.(worker_reservations) !! k = Some w ->
     exists w', db'.(worker_reservations) !! k = Some w' /\ worker_identity w' = worker_identity w /\
       (w.(w_Status) = WorkerFailed -> w' = w) /\ (w' = w \/ revision_of db < w'.(w_Revision))) /\
  (forall k r, db.(worker_operation_receipts) !! k = Some r ->
     exists r', db'.(worker_operation_receipts) !! k = Some r' /\ operation_identity r' = operation_identity r /\
       (r.(wop_status) <> WorkerOperationPending -> r' = r)) /\
  (forall k r, db.(prepared_workspaces) !! k = Some r ->
     exists r', db'.(prepared_workspaces) !! k = Some r' /\ (r.(pw_status) = PreparedWorkspaceClaimed -> r' = r)) /\
  (forall k r r', db.(peer_result_inbox) !! k = Some r -> db'.(peer_result_inbox) !! k = Some r' ->
     r'.(in_retention_ordinal) = r.(in_retention_ordinal) ->
     inbox_metadata r' = inbox_metadata r /\ inbox_authority r' = inbox_authority r /\ r'.(in_attempt_id) = r.(in_attempt_id) /\
     inbox_rank r.(in_state) <= inbox_rank r'.(in_state) /\ r.(in_lease_expires_at) <= r'.(in_lease_expires_at) /\
     forall kind, next_offset db.(peer_result_inbox_parts) k kind <= next_offset db'.(peer_result_inbox_parts) k kind).
Proof.
  intros Hr Hs. pose proof (reachable_sound _ Hr) as S. destruct (steps_keep _ _ Hs S) as [_ [L1 L2 L3 L4 L5 [I1 _ I3]]]. split_and!; [done|done| | | |].
  - intros k w E. destruct (L2 _ _ E) as (w' & E' & [H1 H2]). exists w'. split_and!; try done.
    destruct (L3 _ _ E') as [E2|?]; [left|by right]. rewrite E in E2. by injection E2.
  - intros k r E. destruct (L4 _ _ E) as (r' & E' & H1 & H2). by exists r'.
  - intros k r E. destruct (L5 _ _ E) as (r' & E' & H). exists r'. split; [done|]. intros Hc. destruct H as [?|[? _]]; done.
  - intros k r r' E E' Ho. destruct (I3 _ _ E') as [Hn|(r0 & E0 & [R1 R2 R3 R4] & Hoff)].
    + destruct (bi_rows _ (sd_inbox _ S) _ _ E) as [? _]. lia.
    + rewrite E in E0. injection E0 as <-. split_and!; try done; rewrite R1; done.
Qed.

(** The worker of the run starts its turn, at a new revision, and is still the same. *)
Lemma peer_history_lasts_witness : exists w w',
  prepared_peer.(worker_reservations) !! peer_key = Some w /\ receiving_peer.(worker_reservations) !! peer_key = Some w' /\
  worker_identity w' = worker_identity w /\ (w' = w \/ revision_of prepared_peer < w'.(w_Revision)) /\ w'.(w_Status) <> w.(w_Status).
Proof.
  assert (rtc peer_step prepared_peer receiving_peer) as Hsteps.
  { eapply rtc_l; [exact (step_BindWorkerTurnStartIntent _ peer_key sample_turn_intent sample_turn 140)|].
    apply rtc_once. apply step_BeginResultInbox. vm_compute. intros [=]. }
  destruct (peer_history_lasts prepared_peer receiving_peer prepared_peer_reachable Hsteps) as (_ & Hworkers & _).
  assert (exists w, prepared_peer.(worker_reservations) !! peer_key = Some w /\ w.(w_Status) = WorkerReady) as (w & E & Hs)
    by (vm_compute; eexists; split; reflexivity).
  destruct (Hworkers peer_key w E) as (w' & E' & H1 & _ & H2). exists w, w'. split; [exact E|]. split; [exact E'|]. split; [exact H1|]. split; [exact H2|].
  assert (w_Status <$> (receiving_peer.(worker_reservations) !! peer_key) = Some WorkerRunning) as Hr by (vm_compute; reflexivity).
  rewrite E' in Hr. injection Hr as Hr. rewrite Hr, Hs. discriminate.
Defined.

(** ** Turns *)

(** C15 A running turn can always be finished, whatever its outcome: in every reachable
    state with a revision left, [BeginWorkerResultFinalization] of the turn a worker runs
    succeeds for each final target that comes with the failure code it asks for. The
    worker is fenced: it keeps the turn, records the target and takes the next revision;
    no other row changes. *)
Theorem running_turn_can_finish db key w target code at_ :
  peer_reachable db -> db.(worker_reservations) !! key = Some w -> w.(w_Status) = WorkerRunning ->
  validateFinalTarget target code = Ok tt -> 0 <= at_ -> revision_of db < MaxInt64 ->
  exists x w', BeginWorkerResultFinalization key w.(w_ActiveTurnID) target code at_ db = Ok (x, put_worker key w' db) /\
    w'.(w_Status) = WorkerFinalizing /\ w'.(w_FinalTarget) = target /\ w'.(w_FinalFailureCode) = code /\
    w'.(w_ActiveTurnID) = w.(w_ActiveTurnID) /\ w'.(w_Revision) = revision_of db + 1 /\ worker_identity w' = worker_identity w.
Proof.
  intros [Hi _ _]%reachable_sound E Hst Hv Hat Hlt. destruct (finalization_run db Hi key w target code at_ E Hst Hv Hat Hlt) as (x & at' & _ & H).
  eexists _, _. split; [exact H|]. by split_and!.
Qed.

(** The worker of the run, where its turn runs. *)
Lemma running_peer_worker :
  exists w, running_peer.(worker_reservations) !! peer_key = Some w /\ w.(w_Status) = WorkerRunning /\ w.(w_ActiveTurnID) = sample_turn.
Proof. vm_compute. eexists. split; [reflexivity|]. split; reflexivity. Qed.

Lemma running_turn_can_finish_witness :
  exists w x w', running_peer.(worker_reservations) !! peer_key = Some w /\
    BeginWorkerResultFinalization peer_key sample_turn WorkerFailed "turn_failed" 150 running_peer = Ok (x, put_worker peer_key w' running_peer).
Proof.
  destruct running_peer_worker as (w & E & Hs & Ht).
  destruct (running_turn_can_finish running_peer peer_key w WorkerFailed "turn_failed" 150 running_peer_reachable E Hs) as (x & w' & H & _).
  - vm_compute. reflexivity.
  - lia.
  - vm_compute. reflexivity.
  - exists w, x, w'. split; [exact E|]. rewrite <- Ht. exact H.
Defined.


Lemma prepared_peer_intent : exists i,
  prepared_peer.(worker_turn_start_intents) !! (peer_key, sample_turn_intent) = Some i /\ i.(it_state) = WorkerTurnStartPrepared /\
  i.(it_previous_turn_id) = "".
Proof. vm_compute. eexists. split; [reflexivity|]. split; reflexivity. Qed.

Lemma prepared_peer_turns k i : prepared_peer.(worker_turn_start_intents) !! k = Some i -> i.(it_turn_id) = "".
Proof.
  intros H. apply (table_forallb (fun x => bool_decide (x.2.(it_turn_id) = ""))) in H; [|vm_compute; reflexivity].
  by apply bool_decide_eq_true in H.
Qed.


(** ** Recovery *)

(** What a restart makes of a worker that was on its way to a turn: a reservation and a start
    whose thread is not known fail, a start with a thread goes back to where it came from,
    and a worker that was about to run its turn is interrupted. *)
Definition recovers_to (w : WorkerRow) (status failure : string) : Prop :=
  (w.(w_Status) = WorkerReserved /\ status = WorkerFailed /\ failure = workerStartupInterruptedFailure) \/
  (w.(w_Status) = WorkerStarting /\ w.(w_CodexThreadID) = "" /\ status = WorkerFailed /\ failure = workerThreadStartAmbiguousFailure) \/
  ((w.(w_Status) = WorkerPreflight \/ (w.(w_Status) = WorkerStarting /\ w.(w_CodexThreadID) <> "")) /\
   status = w.(w_RetryTarget) /\ (status = WorkerPending \/ status = WorkerIdle) /\ failure = "") \/
  (w.(w_Status) = WorkerReady /\ status = WorkerInterrupted /\ failure = workerTurnStartInterruptedFailure).

Lemma recovers_to_row w revision at_ :
  worker_dynamic w -> resumable w -> unsettled w -> w.(w_Status) <> WorkerRunning ->
  recovers_to w (recovered_row w revision at_).(w_Status) (recovered_row w revision at_).(w_FailureCode) /\
  (recovered_row w revision at_).(w_ActiveTurnID) = "" /\ ~ unsettled (recovered_row w revision at_).
Proof.
  intros Hd Hr Hu Hn. destruct (retry_of_status _ Hd) as [[_ Hre]|[Hout _]].
  2: { destruct (unsettled_cases _ Hu Hn) as [E|[E|[E|E]]]; [|exfalso; apply Hout; rewrite E; by_decide..].
    unfold recovered_row, recovered_state. rewrite !decide_False by (by rewrite E). rewrite decide_True by done. cbn.
    split_and!; [by left|done|]. unfold unsettled. cbn. by_decide. }
  unfold recovered_row, recovered_state, unsettled, recovers_to. destruct (unsettled_cases _ Hu Hn) as [E|[E|[E|E]]]; rewrite !E;
    repeat (rewrite (decide_False (P := (_ : string) = _)) by done); repeat (rewrite (decide_True (P := (_ : string) = _)) by done).
  - cbn. split_and!; [by left|done|by_decide].
  - destruct (decide (w.(w_CodexThreadID) = "")) as [Ht|Ht]; cbn.
    + split_and!; [right; by left|done|by_decide].
    + rewrite decide_True by done. cbn. split_and!; [|done|destruct Hre as [-> | ->]; by_decide]. right. right. left. split_and!; try done. by right.
  - rewrite decide_True by done. cbn. split_and!; [|done|destruct Hre as [-> | ->]; by_decide]. right. right. left. split_and!; try done. by left.
  - cbn. split_and!; [by right; right; right|done|by_decide].
Qed.

(** C19 [RecoverWorkers] settles every worker of the device that was interrupted on its way
    to a turn, in every reachable state with enough revisions: each of them is left in the
    state [recovers_to] names with no turn, a worker whose turn start an intent answers for
    and every other worker stays as it is, and running it again finds nothing to do. *)
Theorem RecoverWorkers_settles db c d ids at_ :
  peer_reachable db -> valid_id c -> valid_id d -> 0 <= at_ ->
  revision_of db + count (interrupted_worker c d db) db.(worker_reservations) <= MaxInt64 ->
  exists out db', RecoverWorkers c d ids at_ db = Ok (out, db') /\
    (forall k w, db.(worker_reservations) !! k = Some w ->
       if decide (interrupted_worker c d db (k, w)) then
         exists w', db'.(worker_reservations) !! k = Some w' /\ recovers_to w w'.(w_Status) w'.(w_FailureCode) /\ w'.(w_ActiveTurnID) = "" /\
           worker_identity w' = worker_identity w /\ In {| w_Key := k; w_Row := w' |} out
       else db'.(worker_reservations) !! k = Some w) /\
    (forall k, db.(worker_reservations) !! k = None -> db'.(worker_reservations) !! k = None) /\
    db'.(worker_turn_start_intents) = db.(worker_turn_start_intents) /\
    forall ids' later, 0 <= later -> RecoverWorkers c d ids' later db' = Ok ([], db').
Proof.
  intros [Hi _ _]%reachable_sound Hc Hd Hat Hrev.
  destruct (RecoverWorkers_run c d ids at_ db Hi Hc Hd Hat Hrev) as (ws & out & db' & Hrun & [R1 R2 R3 R4 R5 R6 R7 R8] & Hws & Hin).
  assert (forall k w, db.(worker_reservations) !! k = Some w -> interrupted_worker c d db (k, w) ->
    exists revision, db'.(worker_reservations) !! k = Some (recovered_row w revision (Z.max at_ w.(w_UpdatedAt))) /\
      recovers_to w (recovered_row w revision (Z.max at_ w.(w_UpdatedAt))).(w_Status) (recovered_row w revision (Z.max at_ w.(w_UpdatedAt))).(w_FailureCode) /\
      (recovered_row w revision (Z.max at_ w.(w_UpdatedAt))).(w_ActiveTurnID) = "" /\ ~ unsettled (recovered_row w revision (Z.max at_ w.(w_UpdatedAt)))) as Hset.
  { intros k w E Hw. destruct (R7 _ _ E) as [revision E']; [by apply (Hin _ _ E)|]. exists revision. split; [done|].
    apply interrupted_worker_unfold in Hw as (_ & _ & Hu & Ha). destruct (wi_rows _ (pv_workers _ Hi) _ _ E) as [Hok _].
    apply recovers_to_row; [apply Hok|apply Hok|done|by apply (unanswered_not_running k _ db)]. }
  assert (forall k, db.(worker_reservations) !! k = None -> db'.(worker_reservations) !! k = None) as Hnone.
  { intros k E. destruct (decide (k ∈ w_Key <$> ws)) as [Hk|Hk]; [|by rewrite R8]. exfalso.
    apply list_elem_of_fmap in Hk as (x & -> & Hx). apply (proj1 (Forall_forall _ _) Hws) in Hx. congruence. }
  exists out, db'. split_and!; [done| |done|done|].
  - intros k w E. destruct (decide _) as [Hw|Hw].
    + destruct (Hset _ _ E Hw) as (revision & E' & H1 & H2 & _). eexists. split; [exact E'|]. split_and!; [done|done| |].
      * destruct (ph_workers _ _ R2 _ _ E) as (w' & E2 & [Hid _]). rewrite E' in E2. by injection E2 as <-.
      * assert (k ∈ w_Key <$> out) as Hk by (rewrite R5; by apply (Hin _ _ E)). apply list_elem_of_fmap in Hk as ([k' w'] & -> & Hx).
        apply list_elem_of_In in Hx. assert (Hx' := Hx). apply (proj1 (List.Forall_forall _ _) R6) in Hx'. cbn in Hx', E'. rewrite E' in Hx'.
        injection Hx' as <-. exact Hx.
    + rewrite R8; [done|]. intros Hk. by apply Hw, (Hin _ _ E).
  - intros ids' later Hl. destruct (interrupted_workers_run c d db' R1) as (ws' & Hq & _ & _ & Hall & _).
    assert (ws' = []) as ->.
    { destruct ws' as [|x ws']; [done|]. apply Forall_cons in Hall as [[Ex Hx] _]. exfalso.
      destruct (db.(worker_reservations) !! x.(w_Key)) as [w|] eqn:E; [|by rewrite Hnone in Ex].
      destruct (decide (interrupted_worker c d db (x.(w_Key), w))) as [Hw|Hw].
      - destruct (Hset _ _ E Hw) as (revision & E' & _ & _ & Hns). rewrite E' in Ex. injection Ex as Ex. apply Hns. rewrite Ex.
        apply interrupted_worker_unfold in Hx. apply Hx.
      - assert (x.(w_Key) ∉ w_Key <$> ws) as Hk by (intros Hk; by apply Hw, (Hin _ _ E)). rewrite (R8 _ Hk), E in Ex. injection Ex as Ex.
        apply Hw. rewrite interrupted_worker_unfold in Hx |- *. unfold unanswered in *. rewrite R3 in Hx. by rewrite Ex. }
    unfold RecoverWorkers. rewrite Hc, Hd. cbn. unfold tx_bind, tx_lift, tx_query, unixTime. rewrite decide_False by lia. by rewrite Hq.
Qed.

Lemma starting_peer_reachable : peer_reachable starting_peer.
Proof. apply rtc_once. exact (step_ReserveWorkerStart _ peer_worker 2 100). Qed.

Lemma RecoverWorkers_settles_witness :
  exists out db', RecoverWorkers sample_controller sample_device [] 200 starting_peer = Ok (out, db') /\
    RecoverWorkers sample_controller sample_device [] 300 db' = Ok ([], db').
Proof.
  destruct (RecoverWorkers_settles starting_peer sample_controller sample_device [] 200 starting_peer_reachable) as (out & db' & H & _ & _ & _ & Hagain).
  - vm_compute. reflexivity.
  - vm_compute. reflexivity.
  - lia.
  - vm_compute. intros [=].
  - exists out, db'. split; [exact H|]. apply Hagain. lia.
Defined.

(** ** Receiving packages *)

Lemma get_inbox_row db packageID r m :
  peer_metadata_check db.(peer_metadata) = true -> inbox_inv db -> db.(peer_result_inbox) !! packageID = Some r -> inbox_ok packageID r m ->
  GetResultInbox (inbox_authority r) packageID db = Ok (inbox_value db.(peer_result_inbox_parts) packageID r m).
Proof.
  intros Hm Hi E Hok. destruct (query_inbox db Hm Hi _ _ E) as (m' & Hok' & _ & Hq). pose proof (ik_manifest _ _ _ Hok') as H.
  rewrite (ik_manifest _ _ _ Hok) in H. injection H as <-. unfold GetResultInbox. rewrite (ik_authority _ _ _ Hok), (ik_package _ _ _ Hok), Hq.
  cbn. by rewrite decide_False by tauto.
Qed.

Lemma get_inbox_Ok db a packageID x :
  peer_metadata_check db.(peer_metadata) = true -> inbox_inv db -> GetResultInbox a packageID db = Ok x ->
  exists r m, db.(peer_result_inbox) !! packageID = Some r /\ inbox_ok packageID r m /\ inbox_authority r = a /\
    parts_ok db.(peer_result_inbox_parts) packageID r.(in_state) (parts_of m) /\ x = inbox_value db.(peer_result_inbox_parts) packageID r m.
Proof.
  intros Hm Hi H. unfold GetResultInbox in H. apply do_Ok in H as [_ H]. apply do_Ok in H as [_ H]. apply result_bind_Ok in H as (x' & Hq & H).
  apply reject_Ok in H as [Ha [= ->]]. apply (query_inbox_Ok db Hm Hi) in Hq as (r & m & E & Hok & Hp & ->). exists r, m. split_and!; try done.
  by apply dec_stable in Ha.
Qed.

(** The package the attempt receives, as the queries show it. *)
Lemma get_receiving db a packageID x :
  peer_metadata_check db.(peer_metadata) = true -> inbox_inv db -> GetResultInbox a packageID db = Ok x ->
  x.(bx_State) = ResultInboxReceiving -> db.(peer_result_inbox_attempt_receipts) !! (packageID, x.(bx_AttemptID)) = None ->
  exists r m, receiving a x.(bx_AttemptID) packageID r m db /\ x = inbox_value db.(peer_result_inbox_parts) packageID r m.
Proof.
  intros Hm Hi H Hs Hf. apply get_inbox_Ok in H as (r & m & E & Hok & Ha & Hp & ->); [|done|done]. exists r, m. split; [|done]. by constructor.
Qed.

(** C18 [CommitResultInboxChunk] accepts exactly two kinds of chunks of a package that is
    being received by the attempt, under its owner and with no removal prepared: the next
    chunk of a part, which is recorded and moves the offset past it, and a chunk recorded
    before with the same size and digest, which is answered as a replay and changes no
    part. Either renews the lease; everything else is refused. *)
Theorem CommitResultInboxChunk_exact db a attempt packageID chunk at_ x db' :
  peer_reachable db ->
  CommitResultInboxChunk a attempt packageID chunk at_ db = Ok (x, db') <->
  exists r m p, receiving a attempt packageID r m db /\ chunk_of db packageID chunk at_ r p /\
   ((chunk.(cc_Offset) = p.(ip_next_offset) /\ x = {| cr_NextOffset := chunk.(cc_Offset) + chunk.(cc_Size); cr_Replay := false |} /\
     db' = put_inbox packageID (active_row r at_) (advance packageID attempt chunk.(cc_Kind) chunk.(cc_Offset) (chunk_row chunk) p db)) \/
    (db.(peer_result_inbox_chunks) !! (packageID, attempt, chunk.(cc_Kind), chunk.(cc_Offset)) = Some (chunk_row chunk) /\
     x = {| cr_NextOffset := p.(ip_next_offset); cr_Replay := true |} /\ db' = put_inbox packageID (active_row r at_) db)).
Proof.
  intros [Hi Hb _]%reachable_sound. pose proof (wi_metadata _ (pv_workers _ Hi)) as Hm. split.
  - intros H. apply (commit_chunk_Ok db Hm Hb) in H as (r & m & p & G & C & [H|(_ & H1 & H2 & H3)]); exists r, m, p; split_and!; try done; [by left|by right].
  - intros (r & m & p & G & C & H). assert (G' := G). destruct G' as [E Hok _ <- _ <- _].
    destruct H as [(H1 & -> & ->)|(H1 & -> & ->)].
    + apply (commit_chunk_new db Hm Hb _ _ _ _ _ r m); try done; apply Hok.
    + apply (commit_chunk_replay db Hm Hb _ _ _ _ _ r m); try done; apply Hok.
Qed.

(** A chunk of the package the run receives. *)
Definition rollout_chunk : ResultInboxChunkCommit := {|
  cc_Kind := ResultPackagePartRollout; cc_Offset := 0; cc_Size := 200; cc_SHA256 := hex_string (Sum256 "x") |}.

Lemma rollout_chunk_commits : exists x db',
  CommitResultInboxChunk inbox_owner sample_attempt sample_package rollout_chunk 210 receiving_peer = Ok (x, db').
Proof. destruct (run_tx_succeeds (CommitResultInboxChunk inbox_owner sample_attempt sample_package rollout_chunk 210) receiving_peer) as [x H]; [vm_compute; reflexivity|eauto]. Qed.

Lemma CommitResultInboxChunk_exact_witness :
  exists r m p, receiving inbox_owner sample_attempt sample_package r m receiving_peer /\
    chunk_of receiving_peer sample_package rollout_chunk 210 r p.
Proof.
  destruct rollout_chunk_commits as (x & db' & H).
  apply (proj1 (CommitResultInboxChunk_exact receiving_peer inbox_owner sample_attempt sample_package rollout_chunk 210 x db' receiving_peer_reachable)) in H
    as (r & m & p & G & C & _). exists r, m, p. split; [exact G|exact C].
Defined.

(** C16 A package that is being received can be completed, unless a removal of its attempt
    is recorded: whatever was received before, sending the missing chunks in order, each
    with a digest of the right form, is accepted chunk by chunk, and then
    [CommitResultInboxAvailable] publishes the package, which reads back as available with
    the same metadata and every part complete. (While a removal is recorded the attempt is
    fenced, and it is the removal that can be completed.) The time must leave room for a
    lease of ten minutes. *)
Theorem received_package_completes db a packageID x at_ digest :
  peer_reachable db -> GetResultInbox a packageID db = Ok x -> x.(bx_State) = ResultInboxReceiving ->
  db.(peer_result_inbox_attempt_receipts) !! (packageID, x.(bx_AttemptID)) = None ->
  0 <= at_ -> Z.max at_ x.(bx_UpdatedAt) <= MaxInt64 - MaximumResultInboxLease ->
  (forall kind offset, validateDigest (digest kind offset) = Ok tt) ->
  exists db' y db'' z, commit_chunks a x.(bx_AttemptID) packageID (missing_chunks digest x) at_ db = Ok db' /\
    CommitResultInboxAvailable a x.(bx_AttemptID) packageID at_ db' = Ok (y, db'') /\
    GetResultInbox a packageID db'' = Ok z /\ z.(bx_State) = ResultInboxAvailable /\ z.(bx_Metadata) = x.(bx_Metadata) /\
    z.(bx_Offsets) = (fun d => {| po_Kind := d.(rd_Kind); po_NextOffset := d.(rd_Size) |}) <$> parts_of x.(bx_Manifest).
Proof.
  intros [Hi Hb _]%reachable_sound Hx Hs Hf Hat Ht Hd. pose proof (wi_metadata _ (pv_workers _ Hi)) as Hm.
  destruct (get_receiving db a packageID x Hm Hb Hx Hs Hf) as (r & m & G & Ex). rewrite Ex in Ht |- *. cbn [bx_AttemptID bx_UpdatedAt inbox_value] in Ht |- *.
  assert (r.(in_attempt_id) = x.(bx_AttemptID)) as Hatt by apply G. rewrite <- Hatt in G.
  destruct (transfer_completes a r.(in_attempt_id) packageID at_ m (inbox_metadata r) digest r db Hd) as (r' & db' & y & H1 & T & Hc & H2); [by constructor|].
  eexists db', y, _, _. split; [exact H1|]. split; [exact H2|]. apply CommitResultInboxAvailable_call in H2 as [B1 B2 _ _]; [|apply T..].
  destruct (tf_receiving _ _ _ _ _ _ _ _ T) as [E' Hok' _ Ha' Hs' _ _]. split; [|split; [|split]].
  - rewrite <- Ha'. refine (get_inbox_row _ _ (set_activity _ _ _ r') m B2 B1 (lookup_insert_eq _ _ _) _). apply set_activity_ok; try done; [by_decide|lia|apply Hok'].
  - done.
  - exact (tf_same _ _ _ _ _ _ _ _ T).
  - cbn [bx_Offsets inbox_value bx_Manifest]. unfold inbox_offsets. apply list_fmap_ext. intros j d Hj. apply list_elem_of_lookup_2 in Hj.
    destruct (Hc ResultInboxAvailable) as [Hin _]. destruct (Hin d Hj) as (p & Ep & [P1 _ _ _ P5]). unfold next_offset. cbn. rewrite Ep. f_equal. rewrite <- P1. by apply P5.
Qed.

Lemma receiving_peer_package : exists x, GetResultInbox inbox_owner sample_package receiving_peer = Ok x /\
  x.(bx_State) = ResultInboxReceiving /\ x.(bx_AttemptID) = sample_attempt /\ x.(bx_UpdatedAt) = 200 /\
  receiving_peer.(peer_result_inbox_attempt_receipts) !! (sample_package, sample_attempt) = None.
Proof.
  destruct (GetResultInbox inbox_owner sample_package receiving_peer) as [x|e] eqn:E.
  - assert (match GetResultInbox inbox_owner sample_package receiving_peer with
            | Ok x => (x.(bx_State), x.(bx_AttemptID), x.(bx_UpdatedAt)) | Err _ => ("", "", 0) end =
            (ResultInboxReceiving, sample_attempt, 200)) as H by (vm_compute; reflexivity).
    rewrite E in H. injection H as H1 H2 H3. exists x.
    split; [reflexivity|]. split; [exact H1|]. split; [exact H2|]. split; [exact H3|]. vm_compute. reflexivity.
  - exfalso. assert (is_ok (GetResultInbox inbox_owner sample_package receiving_peer) = true) as H by (vm_compute; reflexivity). by rewrite E in H.
Qed.

Lemma received_package_completes_witness :
  exists x db' y db'' z, GetResultInbox inbox_owner sample_package receiving_peer = Ok x /\
    commit_chunks inbox_owner sample_attempt sample_package (missing_chunks (fun _ _ => hex_string (Sum256 "x")) x) 220 receiving_peer = Ok db' /\
    CommitResultInboxAvailable inbox_owner sample_attempt sample_package 220 db' = Ok (y, db'') /\
    GetResultInbox inbox_owner sample_package db'' = Ok z /\ z.(bx_State) = ResultInboxAvailable.
Proof.
  destruct receiving_peer_package as (x & E & Hs & Ha & Hu & Hf).
  destruct (received_package_completes receiving_peer inbox_owner sample_package x 220 (fun _ _ => hex_string (Sum256 "x")) receiving_peer_reachable E Hs)
    as (db' & y & db'' & z & H1 & H2 & H3 & H4 & _).
  - rewrite Ha. exact Hf.
  - lia.
  - rewrite Hu. vm_compute. intros [=].
  - intros _ _. vm_compute. reflexivity.
  - rewrite Ha in H1, H2. exists x, db', y, db'', z. auto.
Defined.

(** The run, after the attempt was given up. *)
Definition cancelled_peer : PeerDB := (run_tx (PrepareResultInboxCancel inbox_owner sample_attempt sample_package 230) receiving_peer).2.

Lemma cancelled_peer_reachable : peer_reachable cancelled_peer.
Proof. eapply rtc_r; [exact receiving_peer_reachable|]. exact (step_PrepareResultInboxCancel _ inbox_owner sample_attempt sample_package 230). Qed.

Lemma cancelled_peer_receipt : exists v, cancelled_peer.(peer_result_inbox_attempt_receipts) !! (sample_package, sample_attempt) = Some v.
Proof.
  assert (is_Some (cancelled_peer.(peer_result_inbox_attempt_receipts) !! (sample_package, sample_attempt))) as [v Hv]; [|by exists v].
  apply not_eq_None_Some. vm_compute. intros [=].
Qed.

Lemma cancelled_peer_package : exists x, GetResultInbox inbox_owner sample_package cancelled_peer = Ok x /\
  x.(bx_State) = ResultInboxReceiving /\ x.(bx_AttemptID) = sample_attempt /\ x.(bx_PackageBytes) = 1865.
Proof.
  destruct (GetResultInbox inbox_owner sample_package cancelled_peer) as [x|e] eqn:E.
  - assert (match GetResultInbox inbox_owner sample_package cancelled_peer with
            | Ok x => (x.(bx_State), x.(bx_AttemptID), x.(bx_PackageBytes)) | Err _ => ("", "", 0) end =
            (ResultInboxReceiving, sample_attempt, 1865)) as H by (vm_compute; reflexivity).
    rewrite E in H. injection H as H1 H2 H3. exists x. split; [reflexivity|]. split; [exact H1|]. split; [exact H2|exact H3].
  - exfalso. assert (is_ok (GetResultInbox inbox_owner sample_package cancelled_peer) = true) as H by (vm_compute; reflexivity). by rewrite E in H.
Qed.

(** The package is gone, with its parts and its chunks; its bytes are free and it reads as
    evicted. *)
Definition package_removed (a : ResultInboxAuthority) (packageID : string) (bytes : Z) (db db' : PeerDB) : Prop :=
  db'.(peer_result_inbox) = delete packageID db.(peer_result_inbox) /\
  package_total db'.(peer_result_inbox) = package_total db.(peer_result_inbox) - bytes /\
  (forall kind, db'.(peer_result_inbox_parts) !! (packageID, kind) = None) /\
  (forall attempt kind offset, db'.(peer_result_inbox_chunks) !! (packageID, attempt, kind, offset) = None) /\
  LookupResultInboxAvailability a packageID db' = Ok ResultInboxAvailabilityEvicted.

(** Completing a removal that is prepared. *)
Lemma prepared_removal_completes db packageID attempt r m v at_ :
  peer_metadata_check db.(peer_metadata) = true -> inbox_inv db -> db.(peer_result_inbox) !! packageID = Some r -> inbox_ok packageID r m ->
  r.(in_state) = ResultInboxReceiving -> r.(in_attempt_id) = attempt ->
  db.(peer_result_inbox_attempt_receipts) !! (packageID, attempt) = Some v -> v.(ir_phase) = ResultInboxRemovalPrepared -> 0 <= at_ ->
  exists y db', CommitResultInboxRemoval (removal_value (packageID, attempt) v) at_ db = Ok (y, db') /\
    package_removed (inbox_authority r) packageID r.(in_package_bytes) db db'.
Proof.
  intros Hm Hb E Hok Hst Hatt Ev Hph Hat. destruct (removal_run db Hm Hb at_ _ _ Ev Hph Hat) as (y & Hrem).
  eexists y, _. split; [exact Hrem|]. apply CommitResultInboxRemoval_call in Hrem as [D1 D2 _ _]; [|done..].
  unfold removed in *. cbn [fst snd] in *. rewrite (delete_inbox_hit _ _ r) in * by (done || by apply receives_true).
  unfold package_removed. cbn in *. split_and!; [done| | | |].
  - rewrite (sum_of_delete _ _ _ r) by done. done.
  - intros kind. apply map_lookup_filter_None. right. intros p _ Hn. by apply Hn.
  - intros attempt' kind offset. apply map_lookup_filter_None. right. intros p _ Hn. by apply Hn.
  - unfold LookupResultInboxAvailability, GetResultInbox. rewrite (ik_authority _ _ _ Hok).
    rewrite (ik_package _ _ _ Hok). cbn [wrap result_bind]. rewrite query_inbox_absent; [done|apply Hok|]. cbn. apply lookup_delete_eq.
Qed.

(** C17 An attempt can always be given up. While a package is being received and no
    removal of the attempt is recorded, [PrepareResultInboxCancel] succeeds, however many
    removal receipts there are, and once the lease ran out so does
    [PrepareExpiredResultInboxReclaim]; [CommitResultInboxRemoval] of what either returns
    completes the removal: the package, its parts and its chunks are gone, its bytes come
    free and the package reads as evicted. If a removal of the attempt is recorded, it is
    still prepared, and [CommitResultInboxRemoval] of it completes it in the same way. *)
Theorem receiving_attempt_can_be_removed db a packageID x at_ :
  peer_reachable db -> GetResultInbox a packageID db = Ok x -> x.(bx_State) = ResultInboxReceiving -> 0 <= at_ ->
  (db.(peer_result_inbox_attempt_receipts) !! (packageID, x.(bx_AttemptID)) = None ->
   forall prepare, prepare = PrepareResultInboxCancel \/ (prepare = PrepareExpiredResultInboxReclaim /\ x.(bx_LeaseExpiresAt) <= at_) ->
   exists v db1 y db2, prepare a x.(bx_AttemptID) packageID at_ db = Ok (v, db1) /\ CommitResultInboxRemoval v at_ db1 = Ok (y, db2) /\
     package_removed a packageID x.(bx_PackageBytes) db db2) /\
  (is_Some (db.(peer_result_inbox_attempt_receipts) !! (packageID, x.(bx_AttemptID))) ->
   exists v y db2, queryResultInboxRemoval packageID x.(bx_AttemptID) db = Ok v /\ v.(iv_Phase) = ResultInboxRemovalPrepared /\
     v.(iv_Authority) = a /\ CommitResultInboxRemoval v at_ db = Ok (y, db2) /\ package_removed a packageID x.(bx_PackageBytes) db db2).
Proof.
  intros [Hi Hb _]%reachable_sound Hx Hs Hat. pose proof (wi_metadata _ (pv_workers _ Hi)) as Hm.
  destruct (get_inbox_Ok db a packageID x Hm Hb Hx) as (r & m & E & Hok & Ha & _ & Ex). split.
  - intros Hf prepare Hprep. destruct (get_receiving db a packageID x Hm Hb Hx Hs Hf) as (r1 & m1 & G & Ex1).
    assert (r1 = r) as -> by (pose proof (rg_row _ _ _ _ _ _ G) as E1; congruence).
    assert (exists outcome expired, outcome ∈ [ResultInboxRemovalCancelled; ResultInboxRemovalReclaimed] /\
      prepare a x.(bx_AttemptID) packageID at_ = prepareResultInboxRemoval a x.(bx_AttemptID) packageID at_ outcome expired /\
      (expired = true -> r.(in_lease_expires_at) <= at_)) as (outcome & expired & Ho & -> & Hexp).
    { destruct Hprep as [->|[-> Hl]]; [exists ResultInboxRemovalCancelled, false|exists ResultInboxRemovalReclaimed, true];
        (split; [by_decide|split; [done|]]); [done|by rewrite Ex in Hl]. }
    destruct (prepare_run db Hm Hb a _ packageID at_ outcome expired r m1 G Ho Hat Hexp) as (receipts & Hsub & Hsz & Hrun).
    assert (Hcall := Hrun). apply prepareResultInboxRemoval_call in Hcall as [B1 B2 _ _]; [|done..].
    destruct (prepared_removal_completes _ packageID x.(bx_AttemptID) r m (prepared_removal a outcome at_) at_ B2 B1 E Hok)
      as (y & db2 & Hrem & Hdone); [by rewrite Ex in Hs|by rewrite Ex|apply lookup_insert_eq|done|done|].
    eexists _, _, y, db2. split; [exact Hrun|]. split; [exact Hrem|]. rewrite Ha in Hdone. rewrite Ex. exact Hdone.
  - intros [v Ev]. assert (v.(ir_phase) = ResultInboxRemovalPrepared) as Hph.
    { destruct (decide (v.(ir_phase) = ResultInboxRemovalPrepared)) as [|Hn]; [done|]. by destruct (bi_completed _ Hb _ _ _ Ev Hn E); rewrite Ex. }
    destruct (prepared_removal_completes db packageID x.(bx_AttemptID) r m v at_ Hm Hb E Hok) as (y & db2 & Hrem & Hdone);
      [by rewrite Ex in Hs|by rewrite Ex|done|done|done|].
    eexists _, y, db2. split; [by apply query_removal|]. split; [done|]. split; [|split; [exact Hrem|rewrite Ha in Hdone; by rewrite Ex]].
    cbn. rewrite <- Ha. exact (bi_owner _ Hb _ _ _ Ev E).
Qed.

(** The attempt of the run, given up from the start and once its cancellation is recorded. *)
Lemma receiving_attempt_can_be_removed_witness :
  (exists v db1 y db2, PrepareResultInboxCancel inbox_owner sample_attempt sample_package 230 receiving_peer = Ok (v, db1) /\
    CommitResultInboxRemoval v 230 db1 = Ok (y, db2) /\ LookupResultInboxAvailability inbox_owner sample_package db2 = Ok ResultInboxAvailabilityEvicted) /\
  exists v y db2, queryResultInboxRemoval sample_package sample_attempt cancelled_peer = Ok v /\ CommitResultInboxRemoval v 240 cancelled_peer = Ok (y, db2) /\
    package_removed inbox_owner sample_package 1865 cancelled_peer db2.
Proof.
  split.
  - destruct receiving_peer_package as (x & E & Hs & Ha & Hu & Hf).
    destruct (receiving_attempt_can_be_removed receiving_peer inbox_owner sample_package x 230 receiving_peer_reachable E Hs) as [Hprep _]; [lia|].
    rewrite Ha in Hprep. destruct (Hprep Hf PrepareResultInboxCancel (or_introl eq_refl)) as (v & db1 & y & db2 & H1 & H2 & _ & _ & _ & _ & H3).
    exists v, db1, y, db2. split; [exact H1|]. split; [exact H2|exact H3].
  - destruct cancelled_peer_package as (x & E & Hs & Ha & Hbytes).
    destruct (receiving_attempt_can_be_removed cancelled_peer inbox_owner sample_package x 240 cancelled_peer_reachable E Hs) as [_ Hrec]; [lia|].
    rewrite Ha, Hbytes in Hrec. destruct cancelled_peer_receipt as [r Hr]. destruct (Hrec (ex_intro _ r Hr)) as (v & y & db2 & H1 & _ & _ & H2 & H3).
    exists v, y, db2. split; [exact H1|]. split; [exact H2|exact H3].
Defined.

(** C22 An attempt that is being removed or was removed is fenced: while its receipt is kept,
    no chunk of it is accepted, it cannot publish the package and it cannot begin again;
    each call fails and leaves the state as it is, under whatever authority and at whatever
    time it is made. *)
Theorem removed_attempt_is_fenced db packageID attempt v :
  peer_reachable db -> db.(peer_result_inbox_attempt_receipts) !! (packageID, attempt) = Some v ->
  (forall a chunk at_, (run_tx (CommitResultInboxChunk a attempt packageID chunk at_) db).2 = db /\
     is_ok (CommitResultInboxChunk a attempt packageID chunk at_ db) = false) /\
  (forall a at_, (run_tx (CommitResultInboxAvailable a attempt packageID at_) db).2 = db /\
     is_ok (CommitResultInboxAvailable a attempt packageID at_ db) = false) /\
  (forall a p at_, p.(brp_PackageID) = packageID -> p.(brp_AttemptID) = attempt -> (BeginResultInbox a p at_ db).2 = db /\
     is_ok (BeginResultInbox a p at_ db).1 = false).
Proof.
  intros [Hi Hb _]%reachable_sound Ev. pose proof (wi_metadata _ (pv_workers _ Hi)) as Hm. split_and!.
  - intros a chunk at_. unfold run_tx. destruct (CommitResultInboxChunk _ _ _ _ _ _) as [[x db']|e] eqn:H; [|done]. exfalso.
    apply (commit_chunk_Ok db Hm Hb) in H as (r & m & p & G & _). by rewrite (rg_free _ _ _ _ _ _ G) in Ev.
  - intros a at_. unfold run_tx. destruct (CommitResultInboxAvailable _ _ _ _ _) as [[x db']|e] eqn:H; [|done]. exfalso.
    apply (available_Ok db Hm Hb) in H as (r & m & _ & _ & _ & _ & Hf & _). by rewrite Hf in Ev.
  - intros a p at_ <- <-. unfold BeginResultInbox, run_tx. destruct (begin_inbox a p at_ db) as [[x db']|e] eqn:H; [|done]. exfalso.
    unfold begin_inbox in H. do 2 (apply tx_bind_Ok in H as ([] & ? & [_ ->]%tx_lift_Ok & H)). apply tx_bind_Ok in H as (ts & ? & [_ ->]%tx_lift_Ok & H).
    apply tx_bind_Ok in H as (l & ? & [_ ->]%tx_lift_Ok & H). apply tx_bind_Ok in H as (mf & ? & [_ ->]%tx_lift_Ok & H).
    apply tx_bind_Ok in H as ([] & ? & [_ ->]%tx_lift_Ok & H). apply tx_bind_Ok in H as (n & ? & [_ ->]%tx_lift_Ok & H).
    apply tx_bind_Ok in H as (removal & ? & [Hq ->]%tx_query_Ok & H). rewrite (query_removal db Hb _ _ _ Ev) in Hq. cbn in Hq. injection Hq as <-.
    destruct (decide _); by apply tx_throw_Ok in H.
Qed.

Lemma removed_attempt_is_fenced_witness :
  is_ok (CommitResultInboxChunk inbox_owner sample_attempt sample_package rollout_chunk 240 cancelled_peer) = false /\
  is_ok (BeginResultInbox inbox_owner inbox_params 240 cancelled_peer).1 = false.
Proof.
  destruct cancelled_peer_receipt as [v Hv].
  destruct (removed_attempt_is_fenced cancelled_peer sample_package sample_attempt v cancelled_peer_reachable Hv) as (H1 & _ & H2).
  split; [exact (proj2 (H1 inbox_owner rollout_chunk 240))|]. apply (H2 inbox_owner inbox_params 240); reflexivity.
Defined.

(** C23 [BeginResultInbox] admits a package that is new to the inbox and fits: with valid
    parameters under an authority the manifest names, room for one more package and for its
    bytes, a retention ordinal left (the last one and the sender's floor are both below the
    greatest int64), a lease that has not run out and ends within ten minutes, and no
    earlier removal of the attempt or under another authority, it replies with the next
    retention ordinal above both the last one and the sender's floor and with every offset
    at zero, and the package then reads back as being received by the attempt. *)
Theorem BeginResultInbox_admits db a p at_ m bytes :
  peer_reachable db -> 0 <= p.(brp_RetentionFloor) -> begin_request a p at_ m bytes -> admitted db a p at_ bytes ->
  let ordinal := Z.max (last_ordinal db) p.(brp_RetentionFloor) + 1 in
  exists db' x, BeginResultInbox a p at_ db = (Ok {| brr_AttemptID := p.(brp_AttemptID); brr_PackageID := p.(brp_PackageID);
      brr_RetentionOrdinal := ordinal; brr_Outcome := ResultPackageReceiving; brr_Offsets := Some (zero_offsets (parts_of m)) |}, db') /\
    GetResultInbox a p.(brp_PackageID) db' = Ok x /\ x.(bx_State) = ResultInboxReceiving /\ x.(bx_AttemptID) = p.(brp_AttemptID) /\
    x.(bx_RetentionOrdinal) = ordinal /\ x.(bx_Metadata) = p.(brp_Metadata) /\ x.(bx_Manifest) = m /\ x.(bx_Offsets) = zero_offsets (parts_of m) /\
    last_ordinal db' = ordinal /\ package_total db'.(peer_result_inbox) = package_total db.(peer_result_inbox) + bytes.
Proof.
  intros [Hi Hb _]%reachable_sound Hfloor Hq Had ordinal. pose proof (wi_metadata _ (pv_workers _ Hi)) as Hm.
  pose proof (begun_call db Hm Hb a p at_ m bytes Hfloor Hq Had) as [B1 B2 _ _].
  pose proof (begin_row_ok db Hm a p at_ m bytes Hq Had) as Hok.
  set (db' := begun p.(brp_PackageID) (begin_row db a p at_ m bytes) m (begin_metadata db p) db) in *.
  assert (db'.(peer_result_inbox) !! p.(brp_PackageID) = Some (begin_row db a p at_ m bytes)) as E by apply lookup_insert_eq.
  pose proof (last_ordinal_bound db Hm) as Hlast. pose proof (get_inbox_row db' _ _ m B2 B1 E Hok) as Hg.
  replace (inbox_authority (begin_row db a p at_ m bytes)) with a in Hg by (by destruct a).
  exists db', (inbox_value db'.(peer_result_inbox_parts) p.(brp_PackageID) (begin_row db a p at_ m bytes) m). split_and!.
  - unfold BeginResultInbox, run_tx. rewrite (begin_unfold db Hm Hb a p at_ m bytes Hq Had). fold db'. fold ordinal. cbn [result_bind].
    fold (zero_offsets (parts_of m)). rewrite (begin_reply_valid p.(brp_Metadata)); [done|apply Hq|exact (ik_attempt _ _ _ Hok)|exact (ik_package _ _ _ Hok)|].
    pose proof (ad_ordinal _ _ _ _ _ Had). unfold ordinal. lia.
  - exact Hg.
  - done.
  - done.
  - done.
  - pose proof (DecodeManifest_kind _ _ (bq_manifest _ _ _ _ _ Hq)) as Hk. cbn. unfold inbox_metadata. cbn.
    destruct (p.(brp_Metadata)) as [b [kind size sha]]. cbn in *. by subst kind.
  - done.
  - cbn. unfold inbox_offsets, zero_offsets. apply list_fmap_ext. intros j d Hj. apply list_elem_of_lookup_2 in Hj. f_equal. unfold next_offset.
    pose proof (mp_unique _ (decoded_parts _ _ (bq_manifest _ _ _ _ _ Hq))) as Hnd.
    by rewrite (proj1 (new_parts_lookup p.(brp_PackageID) (parts_of m) db.(peer_result_inbox_parts) Hnd) d Hj).
  - done.
  - cbn. rewrite sum_of_insert by apply Had. cbn. lia.
Qed.

Lemma inbox_params_request : exists bytes, begin_request inbox_owner inbox_params 200 (worker_result 300) bytes /\ admitted running_peer inbox_owner inbox_params 200 bytes.
Proof.
  exists 1865. split; constructor.
  - vm_compute. reflexivity.
  - vm_compute. reflexivity.
  - vm_compute. split; intros [=].
  - vm_compute. reflexivity.
  - vm_compute. reflexivity.
  - vm_compute. reflexivity.
  - vm_compute. reflexivity.
  - vm_compute. reflexivity.
  - intros x v Hx. apply (table_forallb (fun _ => false)) in Hx; [discriminate Hx|vm_compute; reflexivity].
  - vm_compute. split; [reflexivity|intros [=]].
  - vm_compute. reflexivity.
  - vm_compute. intros [=].
  - vm_compute. reflexivity.
Qed.

Lemma BeginResultInbox_admits_witness :
  exists bytes db' x, begin_request inbox_owner inbox_params 200 (worker_result 300) bytes /\
    (BeginResultInbox inbox_owner inbox_params 200 running_peer).2 = db' /\ GetResultInbox inbox_owner sample_package db' = Ok x /\
    x.(bx_RetentionOrdinal) = 4.
Proof.
  destruct inbox_params_request as (bytes & Hq & Had). assert (0 <= inbox_params.(brp_RetentionFloor)) as Hf by (vm_compute; intros [=]).
  destruct (BeginResultInbox_admits running_peer inbox_owner inbox_params 200 (worker_result 300) bytes running_peer_reachable Hf Hq Had)
    as (db' & x & H1 & H2 & _ & _ & H3 & _).
  exists bytes, db', x. split; [exact Hq|]. split; [rewrite H1; reflexivity|]. split; [exact H2|]. rewrite H3. vm_compute. reflexivity.
Defined.

(** C24 An available package can always be evicted, as long as the counter of evictions is
    below the greatest int64: [PrepareResultInboxEviction] turns it into a tombstone, which reads as evicted at once, and [CompactResultInboxEviction]
    drops it, frees its bytes and counts it; doing either again changes nothing. *)
Theorem available_package_can_be_evicted db a packageID x at_ :
  peer_reachable db -> GetResultInbox a packageID db = Ok x -> x.(bx_State) = ResultInboxAvailable -> 0 <= at_ ->
  db.(peer_metadata).(pm_result_inbox_evicted) < MaxInt64 ->
  exists y db1 db2, PrepareResultInboxEviction a packageID at_ db = Ok (y, db1) /\
    LookupResultInboxAvailability a packageID db1 = Ok ResultInboxAvailabilityEvicted /\
    (exists z, PrepareResultInboxEviction a packageID at_ db1 = Ok (z, db1)) /\
    CompactResultInboxEviction a packageID db1 = Ok (tt, db2) /\
    db2.(peer_result_inbox) = delete packageID db.(peer_result_inbox) /\
    package_total db2.(peer_result_inbox) = package_total db.(peer_result_inbox) - x.(bx_PackageBytes) /\
    db2.(peer_metadata).(pm_result_inbox_evicted) = db.(peer_metadata).(pm_result_inbox_evicted) + 1 /\
    CompactResultInboxEviction a packageID db2 = Ok (tt, db2).
Proof.
  intros [Hi Hb _]%reachable_sound Hx Hs Hat Hev. pose proof (wi_metadata _ (pv_workers _ Hi)) as Hm.
  destruct (get_inbox_Ok db a packageID x Hm Hb Hx) as (r & m & E & Hok & Ha & Hp & Ex). rewrite Ex in Hs. cbn in Hs.
  destruct (eviction_run db Hm Hb a packageID at_ r m E Hok Ha Hs Hat) as (y & H1).
  set (r1 := set_activity ResultInboxEvictionTombstone (Z.max at_ r.(in_updated_at)) r.(in_lease_expires_at) r) in *.
  set (db1 := put_inbox packageID r1 db) in *. assert (Hcall := H1). apply PrepareResultInboxEviction_call in Hcall as [B1 B2 _ _]; [|done..].
  assert (db1.(peer_result_inbox) !! packageID = Some r1) as E1 by apply lookup_insert_eq.
  assert (inbox_ok packageID r1 m) as Hok1 by (apply set_activity_ok; [done|by_decide|lia|apply Hok]).
  assert (inbox_authority r1 = a) as Ha1 by done.
  pose proof (get_inbox_row db1 packageID r1 m B2 B1 E1 Hok1) as Hg. rewrite Ha1 in Hg.
  destruct (compact_run db1 a packageID r1 B2 B1 E1 Ha1 eq_refl Hev) as (db2 & H2 & H3 & H4).
  assert (H5 := H2). apply CompactResultInboxEviction_call in H5 as [D1 D2 _ _]; [|done..].
  exists y, db1, db2. split_and!; try done.
  - unfold LookupResultInboxAvailability. rewrite Hg. done.
  - destruct (query_inbox db1 B2 B1 _ _ E1) as (m1 & _ & _ & Hq). exists (inbox_value db1.(peer_result_inbox_parts) packageID r1 m1).
    unfold PrepareResultInboxEviction. rewrite <- Ha, (ik_authority _ _ _ Hok), (ik_package _ _ _ Hok). cbn [wrap].
    unfold tx_bind, tx_lift, unixTime, tx_query. rewrite decide_False by lia. rewrite Hq. cbn. rewrite decide_False by (rewrite Ha, Ha1; tauto).
    by rewrite decide_True.
  - rewrite H3. cbn. by rewrite delete_insert_eq.
  - rewrite H3. cbn. rewrite delete_insert_eq, (sum_of_delete _ _ _ r), Ex by done. done.
  - unfold CompactResultInboxEviction. rewrite <- Ha, (ik_authority _ _ _ Hok), (ik_package _ _ _ Hok). cbn [wrap].
    unfold tx_bind, tx_lift, tx_query. rewrite query_inbox_absent; [done|apply Hok|]. rewrite H3. apply lookup_delete_eq.
Qed.

(** The run, once the package is published. *)
Definition overlay_chunk : ResultInboxChunkCommit := {|
  cc_Kind := ResultPackagePartChangesOverlay; cc_Offset := 0; cc_Size := 100; cc_SHA256 := hex_string (Sum256 "x") |}.
Definition available_peer : PeerDB :=
  (run_tx (CommitResultInboxAvailable inbox_owner sample_attempt sample_package 230)
    (run_tx (CommitResultInboxChunk inbox_owner sample_attempt sample_package overlay_chunk 220)
      (run_tx (CommitResultInboxChunk inbox_owner sample_attempt sample_package rollout_chunk 210) receiving_peer).2).2).2.

Lemma available_peer_reachable : peer_reachable available_peer.
Proof.
  unfold peer_reachable. etrans; [exact receiving_peer_reachable|].
  eapply rtc_l; [exact (step_CommitResultInboxChunk _ inbox_owner sample_attempt sample_package rollout_chunk 210)|].
  eapply rtc_l; [exact (step_CommitResultInboxChunk _ inbox_owner sample_attempt sample_package overlay_chunk 220)|].
  apply rtc_once. exact (step_CommitResultInboxAvailable _ inbox_owner sample_attempt sample_package 230).
Qed.

Lemma available_peer_package : exists x, GetResultInbox inbox_owner sample_package available_peer = Ok x /\ x.(bx_State) = ResultInboxAvailable.
Proof.
  assert (match GetResultInbox inbox_owner sample_package available_peer with Ok x => x.(bx_State) | Err _ => "" end = ResultInboxAvailable) as H
    by (vm_compute; reflexivity).
  destruct (GetResultInbox inbox_owner sample_package available_peer) as [x|e]; [|discriminate H]. exists x. split; [reflexivity|exact H].
Qed.

Lemma available_package_can_be_evicted_witness :
  exists y db1 db2, PrepareResultInboxEviction inbox_owner sample_package 240 available_peer = Ok (y, db1) /\
    CompactResultInboxEviction inbox_owner sample_package db1 = Ok (tt, db2).
Proof.
  destruct available_peer_package as (x & E & Hs).
  destruct (available_package_can_be_evicted available_peer inbox_owner sample_package x 240 available_peer_reachable E Hs)
    as (y & db1 & db2 & H1 & _ & _ & H2 & _).
  - lia.
  - vm_compute. reflexivity.
  - exists y, db1, db2. split; [exact H1|exact H2].
Defined.

(** ** The lifecycle *)

(** C20 Every lifecycle call is a step of the abstract lifecycle [worker_move] or a repeat:
    where [BeginWorkerStart], the restores, [AttachWorkerThread], [MarkWorkerReady],
    [MarkWorkerRunning], [MarkWorkerIdle] or [FailWorker] returns in a reachable state, its
    worker either was already in the state asked for and nothing changed, or the abstract
    lifecycle allows the move, and then exactly that worker's row changes: to the new
    status, at the next revision, with its identity kept and its time not going back. *)
Theorem lifecycle_calls_refine_moves m key maxActive to thread detail db x db' :
  peer_reachable db -> transition m key maxActive to thread detail -> m db = Ok (x, db') ->
  x.(w_Key) = key /\ exists w, db.(worker_reservations) !! key = Some w /\
    ((db' = db /\ x.(w_Row) = w /\ w.(w_Status) = to) \/
     (worker_move w to thread detail /\ db' = put_worker key x.(w_Row) db /\ x.(w_Row).(w_Status) = to /\
      x.(w_Row).(w_Revision) = revision_of db + 1 /\ worker_identity x.(w_Row) = worker_identity w /\
      w.(w_UpdatedAt) <= x.(w_Row).(w_UpdatedAt))).
Proof.
  intros [Hi _ _]%reachable_sound Ht H. apply (transition_effect _ _ _ _ _ _ _ _ _ Ht (pv_workers _ Hi)) in H as [(-> & Hk & E & Hs)|(w & [L1 _ L3 (at_ & Hat & Hrow) L5 _ L7 _] & _)].
  - split; [done|]. exists x.(w_Row). split; [done|]. by left.
  - split; [done|]. exists w. split; [done|]. right. rewrite Hrow, L7 in *. by split_and!.
Qed.

Lemma lifecycle_calls_refine_moves_witness :
  exists x w, AttachWorkerThread peer_key sample_managed_thread 110 starting_peer = Ok (x, put_worker peer_key x.(w_Row) starting_peer) /\
    starting_peer.(worker_reservations) !! peer_key = Some w /\ worker_move w WorkerPreflight sample_managed_thread "".
Proof.
  destruct (run_tx_succeeds (AttachWorkerThread peer_key sample_managed_thread 110) starting_peer) as [x H]; [vm_compute; reflexivity|].
  destruct (lifecycle_calls_refine_moves _ _ _ _ _ _ _ _ _ starting_peer_reachable (transition_attach peer_key sample_managed_thread 110) H)
    as (_ & w & E & [(_ & Hx & Hs)|(Hmove & Hdb & _)]).
  - exfalso. assert (w_Status <$> (starting_peer.(worker_reservations) !! peer_key) = Some WorkerStarting) as X by (vm_compute; reflexivity).
    rewrite E in X. cbn in X. rewrite Hs in X. discriminate X.
  - exists x, w. split; [rewrite <- Hdb; exact H|]. split; [exact E|exact Hmove].
Defined.

Lemma count_update_le {K R} `{Countable K} (P : K * R -> Prop) `{!forall x, Decision (P x)} (t : gmap K R) k r r' :
  t !! k = Some r -> P (k, r) -> count P (<[k := r']> t) <= count P t.
Proof.
  intros E HP. unfold count, select. rewrite !length_map_to_list.
  assert (filter P t !! k = Some r) as Ef by (by apply map_lookup_filter_Some). destruct (decide (P (k, r'))) as [HP'|HP'].
  - rewrite map_filter_insert_True by done. rewrite map_size_insert_Some by (by eexists). lia.
  - rewrite map_filter_insert_False by done. rewrite map_filter_delete, map_size_delete. case_match; unfold id; lia.
Qed.

(** The calls that take a slot of the device. *)
Inductive start_call (maxActive : Z) : Tx PeerDB WorkerReservation -> Prop :=
  | start_ReserveWorker w at_ : start_call maxActive (ReserveWorker w maxActive at_)
  | start_ReserveWorkerStart w at_ : start_call maxActive (ReserveWorkerStart w maxActive at_)
  | start_ReserveWorkerStartWithWorkspace w at_ : start_call maxActive (ReserveWorkerStartWithWorkspace w maxActive at_)
  | start_BeginWorkerStart key at_ : start_call maxActive (BeginWorkerStart key maxActive at_).

Lemma reserve_slots w maxActive at_ initial claim db x db' :
  reserveWorker w maxActive at_ initial claim db = Ok (x, db') ->
  count occupied db'.(worker_reservations) <= Z.max maxActive (count occupied db.(worker_reservations)).
Proof.
  intros H. apply reserveWorker_effect in H as [(-> & _)|(dbc & _ & _ & _ & _ & Hc & Hcl & _ & _ & Hins)]; [lia|].
  assert (dbc.(worker_reservations) = db.(worker_reservations)) as Hd.
  { destruct claim; [|by subst]. destruct w as [[[c t] a] row]. apply claim_workspace_Ok in Hcl as (r & w & _ & _ & _ & _ & _ & [(_ & _ & ->)|(_ & _ & ->)]); done. }
  unfold insert_worker in Hins. apply result_bind_Ok in Hins as (t & Ht & [= <-]). apply sql_insert_Ok in Ht as (_ & _ & ->). cbn. rewrite Hd.
  pose proof (count_insert_le occupied db.(worker_reservations) w.(w_Key) x.(w_Row)). lia.
Qed.

(** C26 No call that starts a worker takes the device past its slots: after [ReserveWorker],
    [ReserveWorkerStart], [ReserveWorkerStartWithWorkspace] or [BeginWorkerStart] with
    [maxActive] slots, at most [maxActive] workers are occupied, or no more than before. *)
Theorem starts_stay_within_slots maxActive m db x db' :
  peer_reachable db -> start_call maxActive m -> m db = Ok (x, db') ->
  count occupied db'.(worker_reservations) <= Z.max maxActive (count occupied db.(worker_reservations)).
Proof.
  intros [Hi _ _]%reachable_sound Hs H. destruct Hs as [w at_|w at_|w at_|key at_]; [by eapply reserve_slots..| |].
  - unfold ReserveWorkerStartWithWorkspace in H. destruct (decide _); [by apply tx_throw_Ok in H|]. by eapply reserve_slots.
  - apply (transition_effect _ _ _ _ _ _ _ _ _ (transition_start key maxActive at_) (pv_workers _ Hi)) in H as [(-> & _)|(w & L & Hslot)]; [lia|].
    rewrite (ls_after _ _ _ _ _ _ _ _ L). cbn. pose proof (ls_row _ _ _ _ _ _ _ _ L) as E. pose proof (ls_move _ _ _ _ _ _ _ _ L) as Hmove.
    destruct (decide (occupied (key, w))) as [Ho|Hn]; [pose proof (count_update_le occupied _ _ _ x.(w_Row) E Ho); lia|].
    pose proof (count_insert_le occupied db.(worker_reservations) key x.(w_Row)).
    enough (count occupied db.(worker_reservations) < maxActive) by lia.
    assert (w.(w_Status) = WorkerPending \/ w.(w_Status) = WorkerIdle \/ w.(w_Status) = WorkerInterrupted) as Hst.
    { unfold occupied in Hn. cbn in Hn. inversion Hmove as [? ? Hst|? ? ? Hst _| | | | |]; rewrite !elem_of_cons in Hst.
      - destruct Hst as [Hst|[Hst|[Hst|[Hst|Hst%not_elem_of_nil]]]]; [|tauto..]. exfalso. apply Hn. rewrite Hst. by_decide.
      - exfalso. apply Hn. destruct Hst as [Hst|[Hst|[Hst|Hst%not_elem_of_nil]]]; [rewrite Hst; by_decide..|done]. }
    unfold require_start_slot in Hslot. rewrite decide_True in Hslot by done. apply reject_Ok in Hslot as [_ Hslot].
    unfold requireWorkerSlot in Hslot. apply reject_Ok in Hslot as [Hslot _]. lia.
Qed.

Lemma starts_stay_within_slots_witness : count occupied starting_peer.(worker_reservations) <= Z.max 2 (count occupied empty_peer.(worker_reservations)).
Proof.
  destruct (run_tx_succeeds (ReserveWorkerStart peer_worker 2 100) empty_peer) as [x H]; [vm_compute; reflexivity|].
  exact (starts_stay_within_slots 2 _ empty_peer x _ (rtc_refl _ _) (start_ReserveWorkerStart 2 peer_worker 100) H).
Defined.

(** ** The result of a turn *)

Lemma outbox_by_key db key r :
  db.(peer_result_outbox) !! outbox_key key = Some r -> r.(ob_source_device_id) = key.(xk_SourceDeviceID) ->
  queryResultOutbox key db = scanResultOutbox (Some (outbox_key key, r)).
Proof. intros E Hd. unfold queryResultOutbox. rewrite (select_row_unique _ _ (outbox_key key) r); [done|by intros k' r' _ [? _]|done|done]. Qed.

(** A capture that succeeds, split into a replay and a first capture. *)
Lemma capture_Ok db key md at_ o db' :
  CommitResultOutboxCapture key md at_ db = Ok (o, db') ->
  exists m n stored r, ResultOutboxKey_Validate key = Ok tt /\ DecodeManifest md = Ok m /\ validateStoredResultMetadata key md m = Ok tt /\
    resultPackageBytes md = Ok n /\ db.(peer_result_outbox) !! outbox_key key = Some r /\ r.(ob_source_device_id) = key.(xk_SourceDeviceID) /\
    scanResultOutbox (Some (outbox_key key, r)) = Ok stored /\
    ((stored.(xo_State) <> ResultOutboxCapturePending /\ SameResultPackageMetadata stored.(xo_Metadata) md /\ o = stored /\ db' = db) \/
     (r.(ob_state) = ResultOutboxCapturePending /\ n <= r.(ob_reservation_limit_bytes) /\
      let ts := Z.max at_ r.(ob_updated_at) in
      db' = set_peer_result_outbox db (<[outbox_key key := capture_row md m n ts r]> db.(peer_result_outbox)) /\
      o = {| xo_Key := key; xo_State := ResultOutboxPublishPending; xo_Metadata := md; xo_Manifest := m;
             xo_ReservationLimitBytes := r.(ob_reservation_limit_bytes); xo_ReservedBytes := n; xo_PackageBytes := n;
             xo_DeliverySequence := r.(ob_delivery_sequence); xo_CreatedAt := r.(ob_created_at); xo_UpdatedAt := ts |})).
Proof.
  intros H. unfold CommitResultOutboxCapture in H. apply tx_bind_Ok in H as ([] & ? & [Hv ->]%tx_lift_Ok & H).
  apply tx_bind_Ok in H as (m & ? & [Hd ->]%tx_lift_Ok & H). apply tx_bind_Ok in H as ([] & ? & [Hm ->]%tx_lift_Ok & H).
  apply tx_bind_Ok in H as (n & ? & [Hn ->]%tx_lift_Ok & H). apply tx_bind_Ok in H as (ts & ? & [Hts ->]%tx_lift_Ok & H).
  assert (ts = at_) as -> by (unfold unixTime in Hts; by go_inv).
  apply tx_bind_Ok in H as (stored & ? & [Hq ->]%tx_query_Ok & H). apply queryResultOutbox_Ok in Hq as (r & E & Hdev & Hs).
  exists m, n, stored, r. split_and!; try done. assert (Ho := Hs). apply scan_outbox_fields in Ho as (_ & _ & Ho).
  destruct (decide (stored.(xo_State) <> _)) as [Hst|Hst].
  - destruct (decide _) as [Hsame|]; [|by apply tx_throw_Ok in H]. apply tx_ret_Ok in H as [-> ->]. left. by split_and!.
  - apply dec_stable in Hst. right. assert (r.(ob_state) = ResultOutboxCapturePending) as Hr by (rewrite Ho in Hst; done).
    apply tx_bind_Ok in H as ([] & ? & [_ ->]%tx_query_Ok & H). destruct (decide (n > _)) as [|Hle]; [by apply tx_throw_Ok in H|].
    apply tx_bind_Ok in H as (worker & ? & [_ ->]%tx_query_Ok & H). apply tx_bind_Ok in H as ([] & ? & [_ ->]%tx_query_Ok & H).
    apply tx_bind_Ok in H as (u & db1 & Hup & [-> ->]%tx_ret_Ok). apply tx_exec_Ok, wrap_Ok, result_bind_Ok in Hup as ([n1 db2] & Hup & [= <-]).
    apply (update_outbox_row _ _ _ _ _ _ r) in Hup as (_ & _ & _ & ->); [|done|by apply bool_decide_eq_true].
    rewrite Ho in Hle |- *. cbn in Hle |- *. split_and!; [done|lia|done|]. f_equal. destruct key; cbn in *. by rewrite Hdev.
Qed.

(** C21 A captured result reads back: after [CommitResultOutboxCapture] the outbox row is
    returned by [GetResultOutbox] with exactly the metadata that was committed and the
    manifest it decodes to, the package keeps no more than the bytes reserved for it, and
    committing the same metadata again, whenever it happens, returns the same row and
    changes nothing. *)
Theorem captured_result_reads_back db key md at_ o db' :
  peer_reachable db -> CommitResultOutboxCapture key md at_ db = Ok (o, db') ->
  GetResultOutbox key db' = Ok o /\ SameResultPackageMetadata o.(xo_Metadata) md /\ DecodeManifest md = Ok o.(xo_Manifest) /\
  resultPackageBytes md = Ok o.(xo_ReservedBytes) /\ o.(xo_ReservedBytes) <= o.(xo_ReservationLimitBytes) /\
  reserved_total db'.(peer_result_outbox) <= reserved_total db.(peer_result_outbox) /\
  forall later, 0 <= later -> CommitResultOutboxCapture key md later db' = Ok (o, db').
Proof.
  intros [Hi _ _]%reachable_sound H. pose proof (CommitResultOutboxCapture_keeps _ _ _ _ _ _ Hi H) as [Hi' _].
  apply capture_Ok in H as (m & n & stored & r & Hv & Hd & Hm & Hn & E & Hdev & Hs & Hcase).
  assert (forall o db1 r1, db1.(peer_result_outbox) !! outbox_key key = Some r1 -> r1.(ob_source_device_id) = key.(xk_SourceDeviceID) ->
    scanResultOutbox (Some (outbox_key key, r1)) = Ok o -> o.(xo_State) <> ResultOutboxCapturePending -> SameResultPackageMetadata o.(xo_Metadata) md ->
    GetResultOutbox key db1 = Ok o /\ forall later, 0 <= later -> CommitResultOutboxCapture key md later db1 = Ok (o, db1)) as Hread.
  { intros o1 db1 r1 E1 Hd1 Hs1 Hst Hsame. assert (queryResultOutbox key db1 = Ok o1) as Hq by (by rewrite (outbox_by_key _ _ r1)). split.
    - unfold GetResultOutbox. by rewrite Hv.
    - intros later Hl. unfold CommitResultOutboxCapture, tx_bind, tx_lift, tx_query. rewrite Hv, Hd, Hm, Hn. unfold unixTime. rewrite decide_False by lia.
      rewrite Hq. rewrite decide_True by done. by rewrite decide_True. }
  destruct Hcase as [(Hst & Hsame & -> & ->)|(Hst & Hle & -> & Ho)].
  - destruct (Hread stored db r E Hdev Hs Hst Hsame) as [R1 R2]. apply scan_outbox_fields in Hs as (_ & Hval & _).
    unfold ResultOutbox_Validate in Hval. rewrite do_Ok, !reject_Ok, decide_False in Hval by done. destruct Hval as (_ & Hb & _ & Hval).
    destruct (decide _); [|done]. rewrite do_Ok in Hval. destruct Hval as [Hmeta Hval]. apply result_bind_Ok in Hval as (n' & Hn' & Hval).
    assert (stored.(xo_Metadata) = md) as Hmd.
    { destruct Hsame. destruct stored.(xo_Metadata), md. cbn in *. congruence. }
    unfold validateStoredResultMetadata in Hmeta. rewrite Hmd, Hd in Hmeta. cbn in Hmeta. apply reject_Ok in Hmeta as [Hmf _]. apply dec_stable in Hmf.
    rewrite Hmd, Hn in Hn'. injection Hn' as <-. apply reject_Ok in Hval as [Hnb _].
    split_and!; [done|done|by rewrite <- Hmf|rewrite Hn; f_equal; lia|lia|done|done].
  - pose proof (captured_scans _ _ _ md m n (Z.max at_ r.(ob_updated_at)) Hs Hst Hd) as Hsc.
    assert (Hso := Hs). apply scan_outbox_fields in Hso as (_ & Hval & Hso).
    assert (stored.(xo_Key) = key) as Hkey by (rewrite Hso; destruct key; cbn in *; by rewrite Hdev).
    rewrite Hkey in Hsc. specialize (Hsc Hm Hn Hle ltac:(lia)). destruct (scanResultOutbox (Some (outbox_key key, capture_row md m n (Z.max at_ r.(ob_updated_at)) r))) as [o'|] eqn:Eo; [|done].
    assert (o' = o) as ->.
    { apply scan_outbox_fields in Eo as (Hmeta & _ & ->). unfold outbox_metadata in Hmeta. cbn [capture_row ob_state] in Hmeta. rewrite decide_True in Hmeta by done.
      cbn [capture_row ob_manifest_bytes ob_manifest_size_bytes ob_manifest_sha256 ob_parts_json] in Hmeta. rewrite (metadata_reads_back _ _ Hd) in Hmeta.
      cbn [result_bind] in Hmeta. apply reject_Ok in Hmeta as [_ [= <- <-]]. rewrite Ho. cbn. f_equal. destruct key; cbn in *. by rewrite Hdev. }
    destruct (Hread o (set_peer_result_outbox db (<[outbox_key key := capture_row md m n (Z.max at_ r.(ob_updated_at)) r]> db.(peer_result_outbox)))
      _ (lookup_insert_eq _ _ _) Hdev Eo) as [R1 R2]; [rewrite Ho; intros X; discriminate X|by rewrite Ho|]. rewrite Ho in R1, R2 |- *. split_and!; try done.
    cbn. rewrite (sum_of_update ob_reserved_bytes _ _ _ _ E). cbn.
    unfold ResultOutbox_Validate in Hval. rewrite do_Ok, !reject_Ok, decide_True, reject_Ok in Hval by (by rewrite Hso).
    rewrite Hso in Hval. cbn in Hval. lia.
Qed.

(** The run, with its turn finished and captured. *)
Definition finalizing_peer : PeerDB := (run_tx (BeginWorkerResultFinalization peer_key sample_turn WorkerIdle "" 150) running_peer).2.
Definition turn_result : ResultManifest :=
  let w := worker_result 160 in
  {| rm_Version := 2; rm_PackageID := sample_turn_package; rm_ControllerID := sample_controller; rm_TreeID := sample_tree;
     rm_SourceAgentID := first_spawn.(si_AgentID); rm_SourceDeviceID := sample_device; rm_ManagedThreadID := sample_managed_thread;
     rm_TurnID := sample_turn; rm_LifecycleRevision := 5; rm_Terminal := w.(rm_Terminal); rm_CapturedAt := 160; rm_Rollout := w.(rm_Rollout);
     rm_Workspace := {| rw_Status := ResultWorkspaceNotManaged; rw_WorkspaceID := ""; rw_SourceDeviceID := ""; rw_TargetDeviceID := "";
       rw_ObjectFormat := ""; rw_BaseHeadOID := ""; rw_BaseManifestHash := ""; rw_BaseSnapshotHash := ""; rw_BaseClean := false;
       rw_ResultHeadOID := ""; rw_ResultSnapshotHash := ""; rw_ResultClean := false; rw_BaseWarnings := Some []; rw_ResultWarnings := Some [];
       rw_FailureCode := "" |};
     rm_Parts := Some [{| rd_Kind := ResultPackagePartRollout; rd_Size := 200; rd_SHA256 := hex_string (Sum256 "x") |}] |}.
Definition turn_metadata : ResultPackageMetadata :=
  match EncodeResultManifest turn_result with
  | Ok (data, descriptor) => {| rpm_Manifest := data; rpm_ManifestDescriptor := descriptor |}
  | Err _ => zero_metadata
  end.
Definition turn_outbox : ResultOutboxKey := {| xk_Key := peer_key; xk_SourceDeviceID := sample_device; xk_PackageID := sample_turn_package |}.

Lemma finalizing_peer_reachable : peer_reachable finalizing_peer.
Proof. eapply rtc_r; [exact running_peer_reachable|]. exact (step_BeginWorkerResultFinalization _ peer_key sample_turn WorkerIdle "" 150). Qed.

Lemma turn_captures : exists o db', CommitResultOutboxCapture turn_outbox turn_metadata 170 finalizing_peer = Ok (o, db').
Proof. destruct (run_tx_succeeds (CommitResultOutboxCapture turn_outbox turn_metadata 170) finalizing_peer) as [o H]; [vm_compute; reflexivity|eauto]. Qed.

Lemma captured_result_reads_back_witness :
  exists o db', CommitResultOutboxCapture turn_outbox turn_metadata 170 finalizing_peer = Ok (o, db') /\ GetResultOutbox turn_outbox db' = Ok o /\
    CommitResultOutboxCapture turn_outbox turn_metadata 180 db' = Ok (o, db').
Proof.
  destruct turn_captures as (o & db' & H).
  destruct (captured_result_reads_back finalizing_peer turn_outbox turn_metadata 170 o db' finalizing_peer_reachable H) as (H1 & _ & _ & _ & _ & _ & H2).
  exists o, db'. split; [exact H|]. split; [exact H1|]. apply H2. lia.
Defined.

(** ** Status and upgrade *)

(** C25 In every reachable state the status snapshot and the upgrade preflight of a device
    are answered, and they balance: the workers of the device by status add up to their
    total, the six statuses that hold a slot to the occupied ones, the packages by state
    stay within the quotas, at most the captured packages count as failed captures, and
    the preflight counts what the snapshot shows. The preflight is empty exactly when the
    device is drained: every worker of it is at rest, no operation is pending, every result
    was delivered and released and no package is being received; then no turn start of the
    device is left to resolve. *)
Theorem peer_upgrade_waits_for_drain c d db :
  peer_reachable db -> validateChangesArtifactDevice c d = Ok tt ->
  exists s b, ReadPeerStatusSnapshot c d db = Ok s /\ ReadPeerUpgradeBlockers c d db = Ok b /\ snapshot_balances s b /\
    (UpgradeBlockers_Empty b = true <-> peer_drained c d db) /\
    (UpgradeBlockers_Empty b = true -> forall k i, db.(worker_turn_start_intents) !! k = Some i -> k.1.1.1 = c ->
       worker_of_device k.1 d db -> i.(it_state) <> WorkerTurnStartPrepared).
Proof.
  intros Hs%reachable_sound Hv. destruct (peer_snapshot_balances c d db Hs Hv) as (s & b & H1 & H2 & H3).
  pose proof (ReadPeerUpgradeBlockers_empty c d db b Hs H2) as H4. exists s, b. split_and!; try done.
  intros Hd%H4 k i. by apply drained_no_intents.
Qed.

Lemma peer_upgrade_waits_for_drain_witness : exists b,
  ReadPeerUpgradeBlockers sample_controller sample_device receiving_peer = Ok b /\ UpgradeBlockers_Empty b = false /\
  (UpgradeBlockers_Empty b = true <-> peer_drained sample_controller sample_device receiving_peer).
Proof.
  destruct (peer_upgrade_waits_for_drain sample_controller sample_device receiving_peer receiving_peer_reachable eq_refl)
    as (s & b & _ & H & _ & E & _). exists b. split; [exact H|]. split; [|exact E].
  assert ((UpgradeBlockers_Empty <$> (match ReadPeerUpgradeBlockers sample_controller sample_device receiving_peer with Ok b => Some b | Err _ => None end)) = Some false)
    as Hf by (vm_compute; reflexivity).
  rewrite H in Hf. injection Hf as Hf. exact Hf.
Defined.
